(* ===== verification/_CoqProject ===== *)
-Q . S2P
Prelude.v
GoText.v
BigInt.v
Ethereum.v
Runtime.v
Bindings.v
ParentVault.v
ChildVault.v
BaseVault.v
WorkflowRouter.v
AbiErrors.v
ParentVaultErrors.v
ChildVaultErrors.v
BaseVaultErrors.v
WorkflowRouterErrors.v
AbiEvents.v
ParentVaultEvents.v
ChildVaultEvents.v
BaseVaultEvents.v
WorkflowRouterEvents.v
AbiMethods.v
ParentVaultMethods.v
ChildVaultMethods.v
BaseVaultMethods.v
WorkflowRouterMethods.v
AbiMocks.v
ParentVaultMock.v
ChildVaultMock.v
BaseVaultMock.v
WorkflowRouterMock.v
Config.v
State.v
Report.v
Accounting.v
EpochContract.v
Epoch.v
Float.v
Json.v
ConfigJson.v
DefiLlama.v
PoolStream.v
PoolSelect.v
PoolTotal.v
Rebalance.v
RebalanceContract.v
System.v
RebalanceSystem.v
EpochSystem.v
Workflow.v
EntryPoint.v
