(* ===== verification/Prelude.v ===== *)
(** * yield-v2 CRE workflow: verification library

    The repository is a cross-chain yield vault.  Its Go part is a workflow that
    a network of oracle nodes runs as a WASM module ([cre/workflow]) and the
    generated bindings of the vault contracts it uses
    ([cre/contracts/evm/src/generated]).  The workflow reads the operational
    state of the parent vault and of every child vault, decides whether an epoch
    has to be closed or completed or a rebalance initiated, executed or
    completed, and submits its decision as a signed report to a router contract.
    This library models that Go code, all of it, and proves it correct.

    ** Reading the library

    Definitions have the names of the Go code and follow it statement by
    statement.  A Go function is a function into [res] ([Ok] for a nil error,
    [Err] for an error with its format and operands, [Crash] for a panic); one
    that calls the host (contract reads, logs, the clock, secrets, HTTP, report
    signing and writing) is a [prog] over the effects of [Runtime.cre_eff], a
    finite tree that [run] evaluates against an oracle and that [wp] reasons
    about for every answer of the host.  A [*big.Int] is [option Z] with nil as
    [None]; machine integers are [Z] with their wrap-around written out; a Go
    string is its bytes; a [float64] is an IEEE binary64 value; a map is a [gmap]
    and a [range] over one takes the iteration order as an argument.

    ** Files and the code they model

    - Foundations: [Prelude] (errors, outcomes, tactics), [GoText] (bytes, UTF-8
      and [strings]), [BigInt] ([math/big], uint256, [onchain/state.go: Uint256,
      PeriodElapsed]), [Float] and [Json] (the parts of [strconv] and
      [encoding/json] in use), [Ethereum] (the interface of go-ethereum),
      [Runtime] (the interface of the SDK; programs, traces, weakest
      preconditions).
    - Bindings: [Bindings] (the shapes of calls, outputs, events and reads),
      [ParentVault] and [ChildVault] (what the workflow calls of
      [parent_vault/ParentVault.go] and [child_vault/ChildVault.go]), [BaseVault]
      and [WorkflowRouter] (the contracts and codecs of
      [base_vault/BaseVault.go] and [workflow_router/WorkflowRouter.go]);
      [AbiErrors], [AbiEvents], [AbiMethods] (the operations and lemmas shared by
      all errors, events and methods), and for each binding [X] of the four
      [XErrors], [XEvents] and [XMethods]: every error, event, call, output, tuple
      encoder, read and report writer of its file; [AbiMocks] and [XMock]: the test
      doubles of [X_mock.go].
    - Workflow: [Config] and [ConfigJson] ([helper/config.go]: validation; decoding
      by its json tags, and the deployed [config.production.json] and
      [config.staging.json]), [State] ([onchain/state.go],
      [bindings.go], [interfaces.go]), [Report] ([onchain/report.go],
      [workflowtypes/result.go]), [Accounting] ([epoch/accounting.go], on values
      and on a store of mutable integers), [Epoch] ([epoch/handlers.go]),
      [DefiLlama], [PoolStream], [PoolTotal], [PoolSelect]
      ([offchain/defillama.go]: the client; streaming against the parsed
      document; streaming any body; sorting, selecting and fetching), [Rebalance]
      ([rebalance/policy.go], [rebalance/handlers.go]), [Workflow]
      ([workflow.go]), [EntryPoint] ([main.go]).
    - Reference specifications: [EpochContract] and [RebalanceContract] state the
      guards and the arithmetic of [evm/src/libraries/vaults] that the handlers
      answer to, [Report] those of [evm/src/modules/WorkflowRouter.sol].
    - Composition: [System] (one run of any handler, the calls its reports can
      cause, and why each is justified by what the run observed); on it the
      transition systems of repeated runs, deliveries of their reports in any
      order, and the activity of users and bridges: [RebalanceSystem] and
      [EpochSystem].

    ** How the parts interact

    [EntryPoint.main] decodes the configuration file and hands it to
    [Workflow.InitWorkflow], which validates the configuration and registers the two
    schedules and one log subscription per chain.  A trigger reads a snapshot
    ([State.ReadSnapshot], one call per vault through the bindings), stops when a
    vault is paused or recovering, and dispatches to a handler of [Epoch] or
    [Rebalance].  The handlers are proved against interfaces ([EpochCodecs],
    [RebalanceCodecs] and their laws) that the generated codecs instantiate; a
    decision is encoded by a codec and submitted by [Report.SubmitReport].  The
    rebalance schedule asks [DefiLlama] for the pools.

    ** What the theorems show

    - The whole workflow: any run of any registered trigger against any host that
      keeps its documented contract does not panic and writes at most one report,
      after a valid snapshot, to a configured router ([Workflow]); registration
      and dispatch are exact.  The same holds from the entry point on, for every
      configuration file: decoding gives typed fields or an error, and reads every
      field from the member of its tag; the two deployed files are accepted
      ([ConfigJson], [EntryPoint]).
    - Handlers: each is decided by its plan, whatever the host answers; what it
      submits is what the contract accepts in the observed state, and, where the
      code's guards are as strong as the contract's, it submits exactly then; a
      completed step is not submitted again; a rebalance is submitted only on a
      fresh document that the nodes saw ([Epoch], [Rebalance],
      [RebalanceContract]).
    - The system over time: whatever runs, stale snapshots, repeated and reordered
      deliveries and user activity are interleaved, the funds only ever move to
      approved strategies, once per rebalance, and a rebalance in flight can be
      completed by one run and one delivery ([RebalanceSystem]); epochs close in
      order, each at a TVL that the vault of the active chain reported within half
      an hour and the lag of the host's reads, a net withdrawal takes exactly its
      net amount out of the strategy of its chain, once, and a net deposit is
      completed once, for a reported amount; an epoch in flight can always be
      brought to its end by one run and one delivery ([EpochSystem]).
    - Arithmetic: the epoch preflight agrees with the contract's settlement on all
      uint256 inputs, never over-allocates, and mutates none of its inputs
      ([Accounting], [EpochContract]).
    - State and reports: reading and validating a snapshot is faithful and total,
      the router calls its vault with exactly the encoded calldata, exactly within
      the window and when it admits the delivery ([State], [Report], [Config]).
    - Pools: streaming a body returns on every input, and on a valid document
      computes a reference function of it; the selection is the best approved
      pool, whatever the order of the response; a fetch succeeds exactly on a
      small, fresh, valid answer ([PoolStream], [PoolTotal], [PoolSelect]); the
      policy never warrants a move in both directions ([Rebalance]).
    - Bindings: calls, structs and reads agree with the metadata; every error and
      every event of the contracts decodes back to the values the contract
      emitted, and decoding any bytes is an error or a typed value, with the
      exact condition under which it panics; a read against a mock sees what the
      mocked function returned.

    ** Fuel

    JSON values are parsed with fuel [2 * length + 2] and the streaming loops with
    the number of bytes left; [Json.parse_fuel], [PoolStream.skip_equiv] and
    [PoolTotal.parsePools_returns] show that this is always enough, and running
    out of it is [Crash], so that the theorems that exclude a panic exclude it
    too.  All other recursion is structural.

    ** Parameters

    Code outside the repository enters through classes: [GoUnicode] (case tables
    above ASCII), [GoEthereum] with [GoEthereumLaws] (hashing, ABI packing and
    unpacking, topics), [GoAbiErrors], [GoTopics], [GoAbiTypes], [GoAbiMocks] (the
    ABI decoder on error data, topic rules, tuple types, the contract's side of a
    call) and their laws, [VaultDispatch] (the contracts' decoding of their calls),
    [CreRunner] (parsing the configuration, subscribing and executing: the runner
    of the SDK) and the oracle of the host with [host_ok].  Every law is a documented behaviour, and computable
    instances ([ToyEthereum], [ToyErrors], [ToyEvents], [ascii_unicode]) satisfy
    them; the witnesses evaluate on these.

    ** Not modelled

    Of the SDK and go-ethereum only the interfaces above.  A slice member that a
    configuration file repeats is decoded as [encoding/json] documents it (reset
    and appended to).  The functions of a mock are pure: closures with state are not
    modelled, and the simulated client that a mock is registered with is a
    parameter.  The Solidity contracts appear as the reference specifications
    above, without the calls into strategy adapters, CCIP and fees;
    [WorkflowRouter.onReport] and [ParentVault.completeRebalance] have all their
    checks, of the other calls the checks of the external functions (paused,
    recovery, role of the caller), which the operational guard answers to, are
    left out.  In [RebalanceSystem] and [EpochSystem] the effects of the environment are
    steps, and every report that passes the router's checks of the report may be
    delivered.  The Rust relay is part of the environment of
    the DefiLlama client.  Error texts of [encoding/json] are not modelled beyond
    their kind.  The two transition systems are separate: each abstracts the calls
    of the other to what they leave unchanged. *)

From stdpp Require Export base option list strings gmap sets numbers pretty.
From Stdlib Require Export ZArith Ascii String Lia.
From stdpp Require Export strings list.


#[global] Open Scope Z_scope.

(** ** Go errors

    An [error] keeps the format string and the operands of the [fmt.Errorf]
    call that built it; [Wrapf] is a call whose last verb is [%w]. *)
Inductive fmt_val : Type :=
| FInt (z : Z)
| FStr (s : string)
| FBytes (b : list ascii).

Inductive error : Type :=
| Errorf (format : string) (args : list fmt_val)
| Wrapf (format : string) (args : list fmt_val) (cause : error).

(** ** Outcomes of Go functions

    [Ok] is a return with a nil error, [Err] a return with a non-nil error,
    [Crash] a run-time panic (a nil dereference, an index out of range, a
    failed type assertion). *)
Inductive res (A : Type) : Type :=
| Ok (a : A)
| Err (e : error)
| Crash.
Arguments Ok {_} _.
Arguments Err {_} _.
Arguments Crash {_}.

#[global] Instance res_ret : MRet res := @Ok.
#[global] Instance res_bind : MBind res := λ A B f m,
  match m with Ok a => f a | Err e => Err e | Crash => Crash end.
#[global] Instance res_fmap : FMap res := λ A B f m,
  match m with Ok a => Ok (f a) | Err e => Err e | Crash => Crash end.

(** [if cond { return nil, err }] *)
Definition fail_if (b : bool) (e : error) : res unit :=
  if b then Err e else Ok tt.

(** A nil pointer dereference panics. *)
Definition deref {A} (p : option A) : res A :=
  match p with Some a => Ok a | None => Crash end.

(** [l[1:]] panics on an empty slice. *)
Definition slice_tail {A} (l : list A) : res (list A) :=
  match l with [] => Crash | _ :: r => Ok r end.

(** [fmt.Errorf("...: %w", err)] around a call. *)
Definition wrap {A} (format : string) (args : list fmt_val) (m : res A) : res A :=
  match m with Err e => Err (Wrapf format args e) | r => r end.

Definition is_Ok {A} (r : res A) : bool :=
  match r with Ok _ => true | _ => false end.

(** ** Library automation *)
#[export] Set Warnings "-clear-no-such-hyp,-register-all".

Create HintDb yieldv2.
Create Rewrite HintDb yieldv2.

(** Case analysis of a computation in [res] that is known to have a given
    outcome: split the innermost scrutinee and drop impossible branches. *)
Ltac res_step :=
  match goal with
  | H : Ok _ = Ok _ |- _ => injection H as H
  | H : Err _ = Err _ |- _ => injection H as H
  | H : Ok _ = Err _ |- _ => discriminate H
  | H : Err _ = Ok _ |- _ => discriminate H
  | H : Ok _ = Crash |- _ => discriminate H
  | H : Crash = Ok _ |- _ => discriminate H
  | H : Err _ = Crash |- _ => discriminate H
  | H : Crash = Err _ |- _ => discriminate H
  | H : context [mbind _ _] |- _ => progress cbn [mbind res_bind] in H
  end.
Ltac res_simpl := repeat (res_step; simplify_eq).

Lemma res_bind_Ok {A B} (f : A → res B) (m : res A) b :
  m ≫= f = Ok b ↔ ∃ a, m = Ok a ∧ f a = Ok b.
Proof.
  destruct m; cbn; split; [eauto|intros (?&[= <-]&?); done|done|
    intros (?&?&?); done|done|intros (?&?&?); done].
Qed.

Lemma res_bind_assoc {A B C} (f : A → res B) (g : B → res C) (m : res A) :
  (m ≫= f) ≫= g = m ≫= (λ a, f a ≫= g).
Proof. by destruct m. Qed.

Lemma fail_if_Ok b e u : fail_if b e = Ok u ↔ b = false.
Proof. destruct b, u; cbn; split; congruence. Qed.

Lemma fail_if_bind {A} b e (m : res A) a :
  (_ ← fail_if b e; m) = Ok a ↔ b = false ∧ m = Ok a.
Proof. destruct b; cbn; naive_solver. Qed.

Lemma res_unit_bind {A} (m : res unit) (k : res A) a :
  (_ ← m; k) = Ok a ↔ m = Ok tt ∧ k = Ok a.
Proof. destruct m as [[]| |]; cbn; naive_solver. Qed.

Lemma fail_if_no_crash b e : fail_if b e ≠ Crash.
Proof. by destruct b. Qed.

Lemma bind_no_crash {A B} (f : A → res B) (m : res A) :
  m ≠ Crash → (∀ a, m = Ok a → f a ≠ Crash) → m ≫= f ≠ Crash.
Proof. destruct m; cbn; auto. Qed.

Lemma Ok_no_crash {A} (a : A) : Ok a ≠ Crash.
Proof. done. Qed.
Lemma Err_no_crash {A} (e : error) : @Err A e ≠ Crash.
Proof. done. Qed.

Lemma deref_Ok {A} (p : option A) a : deref p = Ok a ↔ p = Some a.
Proof. destruct p; cbn; split; congruence. Qed.

Lemma wrap_Ok {A} f args (m : res A) a : wrap f args m = Ok a ↔ m = Ok a.
Proof. by destruct m. Qed.

Lemma wrap_crash {A} f args (m : res A) : wrap f args m = Crash ↔ m = Crash.
Proof. by destruct m. Qed.

#[export] Hint Rewrite @fail_if_bind @res_bind_Ok fail_if_Ok @deref_Ok @wrap_Ok @wrap_crash : yieldv2.
#[export] Hint Resolve fail_if_no_crash Ok_no_crash Err_no_crash : yieldv2.

(** Walk through a computation to show that it cannot panic. *)
Ltac no_crash :=
  repeat first
    [ apply bind_no_crash; [|let a := fresh "a" in let Ha := fresh "Ha" in intros a Ha]
    | solve [eauto with yieldv2]
    | case_match ].

(** ** Generic lemmas on lists *)
Lemma take_app_length' {A} (l k : list A) n :
  length l = n → take n (l ++ k) = l.
Proof. intros <-. apply take_app_length. Qed.

Lemma drop_app_length' {A} (l k : list A) n :
  length l = n → drop n (l ++ k) = k.
Proof. intros <-. apply drop_app_length. Qed.

(** ** Tactics on concrete data *)

(** The head symbol of an application. *)
Ltac head_of t := lazymatch t with ?f _ => head_of f | _ => t end.

(** Membership in a concrete list. *)
Ltac concrete_elem :=
  repeat first [apply list_elem_of_here | apply list_elem_of_further].
