(* ===== verification/GoText.v ===== *)
(** * Go strings, UTF-8 and the [strings] functions the workflow uses

    A Go string is a sequence of bytes, as is Rocq's [string]; functions that
    look at runes decode UTF-8 the way [unicode/utf8] does.  The Unicode case
    table above ASCII and [unicode.IsPrint] above ASCII are data of Go's
    [unicode] package: they enter through the class [GoUnicode]. *)

From S2P Require Import Prelude.

#[local] Open Scope Z_scope.

(** ** Bytes *)
Abbreviation byte := ascii.
Abbreviation bytes := (list ascii).

Definition byteZ (b : byte) : Z := Z.of_N (N_of_ascii b).
Definition Zbyte (z : Z) : byte := ascii_of_N (Z.to_N (z mod 256)).

Lemma byteZ_range b : 0 <= byteZ b < 256.
Proof.
  unfold byteZ. pose proof (N_ascii_bounded b). lia.
Qed.

Lemma byteZ_Zbyte z : byteZ (Zbyte z) = z mod 256.
Proof.
  unfold byteZ, Zbyte. pose proof (Z.mod_pos_bound z 256 eq_refl).
  rewrite N_ascii_embedding by lia. lia.
Qed.

Lemma Zbyte_byteZ b : Zbyte (byteZ b) = b.
Proof.
  unfold Zbyte. rewrite Z.mod_small by apply byteZ_range.
  unfold byteZ. rewrite N2Z.id. apply ascii_N_embedding.
Qed.

Lemma byteZ_inj a b : byteZ a = byteZ b → a = b.
Proof. intros H. by rewrite <-(Zbyte_byteZ a), H, Zbyte_byteZ. Qed.

#[global] Instance ascii_eq_dec : EqDecision ascii := ascii_dec.

Definition to_bytes (s : string) : bytes := list_ascii_of_string s.
Definition of_bytes (l : bytes) : string := string_of_list_ascii l.

Lemma of_to_bytes s : of_bytes (to_bytes s) = s.
Proof. apply string_of_list_ascii_of_string. Qed.
Lemma to_of_bytes l : to_bytes (of_bytes l) = l.
Proof. apply list_ascii_of_string_of_list_ascii. Qed.
Lemma to_bytes_inj s t : to_bytes s = to_bytes t → s = t.
Proof. intros H. by rewrite <-(of_to_bytes s), H, of_to_bytes. Qed.

(** ** [unicode/utf8] *)
Definition RuneError : Z := 0xFFFD.
Definition RuneSelf : Z := 0x80.
Definition MaxRune : Z := 0x10FFFF.

Definition is_cont (lo hi : Z) (b : byte) : bool :=
  (lo <=? byteZ b) && (byteZ b <=? hi).

(** [utf8.DecodeRune]: the first rune and its width; an invalid or truncated
    encoding is [(RuneError, 1)], the empty input [(RuneError, 0)]. *)
Definition DecodeRune (l : bytes) : Z * nat :=
  match l with
  | [] => (RuneError, 0%nat)
  | b0 :: r =>
      let c0 := byteZ b0 in
      if c0 <? 0x80 then (c0, 1%nat)
      else if (c0 <? 0xC2) || (0xF4 <? c0) then (RuneError, 1%nat)
      else if c0 <? 0xE0 then
        match r with
        | b1 :: _ =>
            if is_cont 0x80 0xBF b1
            then (Z.land c0 0x1F * 64 + Z.land (byteZ b1) 0x3F, 2%nat)
            else (RuneError, 1%nat)
        | _ => (RuneError, 1%nat)
        end
      else if c0 <? 0xF0 then
        let lo := if c0 =? 0xE0 then 0xA0 else 0x80 in
        let hi := if c0 =? 0xED then 0x9F else 0xBF in
        match r with
        | b1 :: b2 :: _ =>
            if is_cont lo hi b1 && is_cont 0x80 0xBF b2
            then (Z.land c0 0x0F * 4096 + Z.land (byteZ b1) 0x3F * 64
                  + Z.land (byteZ b2) 0x3F, 3%nat)
            else (RuneError, 1%nat)
        | _ => (RuneError, 1%nat)
        end
      else
        let lo := if c0 =? 0xF0 then 0x90 else 0x80 in
        let hi := if c0 =? 0xF4 then 0x8F else 0xBF in
        match r with
        | b1 :: b2 :: b3 :: _ =>
            if is_cont lo hi b1 && is_cont 0x80 0xBF b2 && is_cont 0x80 0xBF b3
            then (Z.land c0 0x07 * 262144 + Z.land (byteZ b1) 0x3F * 4096
                  + Z.land (byteZ b2) 0x3F * 64 + Z.land (byteZ b3) 0x3F, 4%nat)
            else (RuneError, 1%nat)
        | _ => (RuneError, 1%nat)
        end
  end.

(** [utf8.AppendRune] onto the empty slice: surrogates and out-of-range values
    are encoded as [RuneError]. *)
Definition EncodeRune (r : Z) : bytes :=
  let r := if (r <? 0) || (MaxRune <? r) || ((0xD800 <=? r) && (r <=? 0xDFFF))
           then RuneError else r in
  if r <? 0x80 then [Zbyte r]
  else if r <? 0x800 then [Zbyte (0xC0 + r / 64); Zbyte (0x80 + r mod 64)]
  else if r <? 0x10000 then
    [Zbyte (0xE0 + r / 4096); Zbyte (0x80 + r / 64 mod 64); Zbyte (0x80 + r mod 64)]
  else
    [Zbyte (0xF0 + r / 262144); Zbyte (0x80 + r / 4096 mod 64);
     Zbyte (0x80 + r / 64 mod 64); Zbyte (0x80 + r mod 64)].

(** [utf8.DecodeLastRune], on the reversed input: walk back at most three
    continuation bytes to a start byte and decode from there. *)
Definition RuneStart (b : byte) : bool := negb (Z.land (byteZ b) 0xC0 =? 0x80).

Fixpoint last_start (n : nat) (rev_l acc : bytes) : bytes :=
  match n, rev_l with
  | S n', b :: r => if RuneStart b then b :: acc else last_start n' r (b :: acc)
  | _, _ => acc
  end.

Definition DecodeLastRune (rev_l : bytes) : Z * nat :=
  match rev_l with
  | [] => (RuneError, 0%nat)
  | b :: r =>
      if byteZ b <? RuneSelf then (byteZ b, 1%nat)
      else
        let suffix := last_start 3 r [b] in
        let '(rune, size) := DecodeRune suffix in
        if Nat.eqb size (length suffix) then (rune, size) else (RuneError, 1%nat)
  end.

Lemma DecodeRune_width l : l ≠ [] → (1 ≤ (DecodeRune l).2 ≤ length l)%nat.
Proof.
  destruct l as [|b0 l]; [done|]; intros _. unfold DecodeRune.
  repeat case_match; simplify_eq/=; lia.
Qed.

Lemma last_start_length n k acc :
  (1 ≤ length acc)%nat → (1 ≤ length (last_start n k acc))%nat.
Proof.
  revert k acc. induction n as [|n IH]; intros [|x k] acc Hacc; try done.
  cbn [last_start]. case_match; cbn [length]; [lia|]. apply IH. cbn [length]. lia.
Qed.

Lemma DecodeLastRune_width l : l ≠ [] → (1 ≤ (DecodeLastRune l).2)%nat.
Proof.
  destruct l as [|b l]; [done|]; intros _. unfold DecodeLastRune.
  destruct (byteZ b <? RuneSelf); [done|].
  pose proof (last_start_length 3 l [b] (le_n 1)) as Hlen.
  destruct (DecodeRune (last_start 3 l [b])) as [rune size].
  destruct (Nat.eqb_spec size (length (last_start 3 l [b]))) as [->|]; done.
Qed.

(** The runes of a string, as a [range] loop or [strings.Map] sees them. *)
Fixpoint runes_fuel (n : nat) (l : bytes) : list (Z * nat) :=
  match n, l with
  | S n', _ :: _ => let d := DecodeRune l in d :: runes_fuel n' (drop d.2 l)
  | _, _ => []
  end.
Definition runes (l : bytes) : list (Z * nat) := runes_fuel (length l) l.

(** ** [strings.TrimSpace]: trim leading and trailing [unicode.IsSpace] runes *)
Definition IsSpace (r : Z) : bool :=
  (r =? 0x20) || ((0x09 <=? r) && (r <=? 0x0D)) || (r =? 0x85) || (r =? 0xA0)
  || (r =? 0x1680) || ((0x2000 <=? r) && (r <=? 0x200A)) || (r =? 0x2028)
  || (r =? 0x2029) || (r =? 0x202F) || (r =? 0x205F) || (r =? 0x3000).

Fixpoint trim_left_fuel (n : nat) (l : bytes) : bytes :=
  match n, l with
  | S n', _ :: _ =>
      let d := DecodeRune l in
      if IsSpace d.1 then trim_left_fuel n' (drop d.2 l) else l
  | _, _ => l
  end.
Definition TrimLeft (l : bytes) : bytes := trim_left_fuel (length l) l.

Fixpoint trim_right_fuel (n : nat) (rev_l : bytes) : bytes :=
  match n, rev_l with
  | S n', _ :: _ =>
      let d := DecodeLastRune rev_l in
      if IsSpace d.1 then trim_right_fuel n' (drop d.2 rev_l) else rev_l
  | _, _ => rev_l
  end.
Definition TrimRight (l : bytes) : bytes := reverse (trim_right_fuel (length l) (reverse l)).

Definition TrimSpace (s : string) : string := of_bytes (TrimRight (TrimLeft (to_bytes s))).

(** Termination: the fuel [length l] is enough, both loops stop at a rune that
    is not a space or at the end of the input. *)
Lemma trim_left_fuel_stops n l :
  (length l ≤ n)%nat →
  trim_left_fuel n l = [] ∨ IsSpace (DecodeRune (trim_left_fuel n l)).1 = false.
Proof.
  revert l. induction n as [|n IH]; intros [|b l] Hn; cbn in Hn; [by left|lia|by left|].
  cbn [trim_left_fuel]. destruct (IsSpace _) eqn:E; [|by right].
  apply IH. pose proof (DecodeRune_width (b :: l) ltac:(done)).
  rewrite length_drop. cbn [length] in *. lia.
Qed.

Lemma trim_right_fuel_stops n l :
  (length l ≤ n)%nat →
  trim_right_fuel n l = [] ∨ IsSpace (DecodeLastRune (trim_right_fuel n l)).1 = false.
Proof.
  revert l. induction n as [|n IH]; intros [|b l] Hn; cbn in Hn; [by left|lia|by left|].
  cbn [trim_right_fuel]. destruct (IsSpace _) eqn:E; [|by right].
  apply IH. pose proof (DecodeLastRune_width (b :: l) ltac:(done)).
  rewrite length_drop. cbn [length] in *. lia.
Qed.

(** ** Case mapping *)
Definition is_ascii (b : byte) : bool := byteZ b <? RuneSelf.

(** Data of Go's [unicode] package above ASCII. *)
Class GoUnicode := {
  unicode_lower : Z → Z;      (* unicode.ToLower of a rune above 0x7F *)
  unicode_printable : Z → bool (* unicode.IsPrint of a rune above 0x7F *)
}.

(** [unicode.ToLower] *)
Definition ToLowerRune `{GoUnicode} (r : Z) : Z :=
  if r <? RuneSelf then (if (0x41 <=? r) && (r <=? 0x5A) then r + 32 else r)
  else unicode_lower r.

Definition lower_ascii (b : byte) : byte :=
  if (0x41 <=? byteZ b) && (byteZ b <=? 0x5A) then Zbyte (byteZ b + 32) else b.

(** [strings.ToLower]: byte-wise on ASCII strings, else [strings.Map]; an
    invalid byte is mapped as [RuneError] and re-encoded. *)
Definition ToLower `{GoUnicode} (s : string) : string :=
  let l := to_bytes s in
  if forallb is_ascii l then of_bytes (lower_ascii <$> l)
  else of_bytes (concat ((λ d, EncodeRune (ToLowerRune d.1)) <$> runes l)).

(** [strings.EqualFold s t] for an ASCII [t]: besides ASCII case folding, the
    runes U+017F and U+212A are the only ones that fold to an ASCII letter. *)
Definition fold_rune (r : Z) : Z :=
  if (0x41 <=? r) && (r <=? 0x5A) then r + 32
  else if r =? 0x17F then 0x73 else if r =? 0x212A then 0x6B else r.

Definition EqualFold_ascii (s t : bytes) : bool :=
  bool_decide ((fold_rune ∘ fst) <$> runes s = (fold_rune ∘ byteZ) <$> t).

(** ** [fmt.Sprintf] and [error.Error] *)
Definition hex_digit (z : Z) : byte := Zbyte (if z <? 10 then 0x30 + z else 0x57 + z).
Definition hex_byte (b : byte) : bytes := [hex_digit (byteZ b / 16); hex_digit (byteZ b mod 16)].

(** [strconv.Quote] *)
Definition quote_rune `{GoUnicode} (r : Z) : bytes :=
  let esc c := [Zbyte 0x5C; c] in
  if (r =? 0x22) || (r =? 0x5C) then esc (Zbyte r)
  else if (if r <? RuneSelf then (0x20 <=? r) && (r <? 0x7F) else unicode_printable r)
  then EncodeRune r
  else if r =? 0x07 then esc "a"%char
  else if r =? 0x08 then esc "b"%char
  else if r =? 0x0C then esc "f"%char
  else if r =? 0x0A then esc "n"%char
  else if r =? 0x0D then esc "r"%char
  else if r =? 0x09 then esc "t"%char
  else if r =? 0x0B then esc "v"%char
  else if (r <? 0x20) || (r =? 0x7F) then esc "x"%char ++ hex_byte (Zbyte r)
  else if r <? 0x10000 then
    esc "u"%char ++ hex_byte (Zbyte (r / 256)) ++ hex_byte (Zbyte r)
  else
    esc "U"%char ++ hex_byte (Zbyte 0) ++ hex_byte (Zbyte (r / 65536))
      ++ hex_byte (Zbyte (r / 256)) ++ hex_byte (Zbyte r).

Fixpoint quote_fuel `{GoUnicode} (n : nat) (l : bytes) : bytes :=
  match n, l with
  | S n', b :: _ =>
      let d := DecodeRune l in
      (if (d.1 =? RuneError) && Nat.eqb d.2 1
       then [Zbyte 0x5C; "x"%char] ++ hex_byte b else quote_rune d.1)
        ++ quote_fuel n' (drop d.2 l)
  | _, _ => []
  end.
Definition Quote `{GoUnicode} (s : string) : string :=
  of_bytes ([Zbyte 0x22] ++ quote_fuel (String.length s) (to_bytes s) ++ [Zbyte 0x22]).

(** The verbs the workflow uses (each is given an operand): [%d] on integers, [%s] and [%w] on text,
    [%x] on byte slices, [%q] on strings. *)
Definition render_verb `{GoUnicode} (verb : byte) (v : fmt_val) : string :=
  match v with
  | FInt z => pretty z
  | FStr s => if bool_decide (verb = "q"%char) then Quote s else s
  | FBytes b => of_bytes (concat (hex_byte <$> b))
  end.

Fixpoint Sprintf_bytes `{GoUnicode} (format : bytes) (args : list fmt_val) : bytes :=
  match format with
  | p :: (verb :: rest) as tail =>
      if bool_decide (p = "%"%char) then
        match args with
        | a :: args' => to_bytes (render_verb verb a) ++ Sprintf_bytes rest args'
        | [] => p :: verb :: Sprintf_bytes rest []
        end
      else p :: Sprintf_bytes tail args
  | l => l
  end.
Definition Sprintf `{GoUnicode} (format : string) (args : list fmt_val) : string :=
  of_bytes (Sprintf_bytes (to_bytes format) args).

(** [error.Error] *)
Fixpoint Error `{GoUnicode} (e : error) : string :=
  match e with
  | Errorf format args => Sprintf format args
  | Wrapf format args cause => Sprintf format (args ++ [FStr (Error cause)])
  end.

(** Computable Unicode data for closed examples: every rune above ASCII is
    printable and its own lower case. *)
Definition ascii_unicode : GoUnicode :=
  {| unicode_lower := λ r, r; unicode_printable := λ _, true |}.

Example TrimSpace_ex : TrimSpace "  aave-v3	 " = "aave-v3"%string.
Proof. reflexivity. Qed.
Example ToLower_ex : @ToLower ascii_unicode "OP Mainnet" = "op mainnet"%string.
Proof. reflexivity. Qed.
Example Sprintf_ex :
  @Sprintf ascii_unicode "recovery active on %s (mode %d)" [FStr "base"; FInt 3]
  = "recovery active on base (mode 3)"%string.
Proof. vm_compute. reflexivity. Qed.
Example EqualFold_ex : EqualFold_ascii (to_bytes "DaTa") (to_bytes "data") = true.
Proof. reflexivity. Qed.
