(* ===== verification/BigInt.v ===== *)
(** * [math/big] integers, machine integers, [onchain.Uint256] and
      [onchain.PeriodElapsed]

    A [*big.Int] is a possibly nil pointer to a mathematical integer; a method
    on a nil pointer panics. *)

From S2P Require Import Prelude.

#[local] Open Scope Z_scope.

Abbreviation bigint := (option Z).

(** ** Machine integers *)
Definition wrap_signed (w z : Z) : Z := (z + 2 ^ (w - 1)) mod 2 ^ w - 2 ^ (w - 1).
Definition int64 (z : Z) : Z := wrap_signed 64 z.
Definition MaxInt64 : Z := 2 ^ 63 - 1.
Definition in_int64 (z : Z) : Prop := - 2 ^ 63 <= z <= MaxInt64.
Definition in_uint64 (z : Z) : Prop := 0 <= z < 2 ^ 64.

Lemma int64_id z : in_int64 z → int64 z = z.
Proof.
  unfold in_int64, int64, wrap_signed, MaxInt64. intros [??].
  rewrite Z.mod_small by lia. lia.
Qed.

(** ** Methods of [big.Int] on values *)
Definition BitLen (z : Z) : Z := if z =? 0 then 0 else Z.log2 (Z.abs z) + 1.

Lemma BitLen_le z n : 0 <= z → 0 <= n → BitLen z <= n ↔ z < 2 ^ n.
Proof.
  intros Hz Hn. unfold BitLen. destruct (Z.eqb_spec z 0) as [->|Hnz].
  - split; [intros _; lia|done].
  - rewrite Z.abs_eq by done. rewrite (Z.log2_lt_pow2 z n) by lia. lia.
Qed.

(** ** Methods on pointers: a nil receiver or operand panics *)
Definition big_Sign (x : bigint) : res Z := z ← deref x; Ok (Z.sgn z).

Definition cmp (x y : Z) : Z := match x ?= y with Lt => -1 | Eq => 0 | Gt => 1 end.

(** [x.Cmp(y)] compares the pointers first, so two nil pointers are equal. *)
Definition big_Cmp (x y : bigint) : res Z :=
  match x, y with
  | Some a, Some b => Ok (cmp a b)
  | None, None => Ok 0
  | _, _ => Crash
  end.

(** [new(big.Int).Sub(x, y)] *)
Definition big_Sub (x y : bigint) : res Z := a ← deref x; b ← deref y; Ok (a - b).

Lemma cmp_eq_0 x y : cmp x y = 0 ↔ x = y.
Proof. unfold cmp. destruct (Z.compare_spec x y); split; lia. Qed.
Lemma cmp_le_0 x y : cmp x y <= 0 ↔ x <= y.
Proof. unfold cmp. destruct (Z.compare_spec x y); split; lia. Qed.
Lemma cmp_gt_0 x y : 0 < cmp x y ↔ y < x.
Proof. unfold cmp. destruct (Z.compare_spec x y); split; lia. Qed.
Lemma cmp_lt_0 x y : cmp x y < 0 ↔ x < y.
Proof. unfold cmp. destruct (Z.compare_spec x y); split; lia. Qed.
Lemma cmp_ge_0 x y : 0 <= cmp x y ↔ y <= x.
Proof. unfold cmp. destruct (Z.compare_spec x y); split; lia. Qed.

(** ** [onchain.Uint256]

    [v != nil && v.Sign() >= 0 && v.BitLen() <= 256] *)
Definition Uint256 (v : bigint) : bool :=
  match v with
  | Some z => (0 <=? Z.sgn z) && (BitLen z <=? 256)
  | None => false
  end.

Definition is_uint256 (z : Z) : Prop := 0 <= z < 2 ^ 256.
#[global] Instance is_uint256_dec z : Decision (is_uint256 z).
Proof. apply _. Defined.

Lemma Uint256_spec v : Uint256 v = true ↔ ∃ z, v = Some z ∧ is_uint256 z.
Proof.
  destruct v as [z|]; cbn; [|split; [done|by intros (?&?&?)]].
  rewrite andb_true_iff, !Z.leb_le. unfold is_uint256. split.
  - intros [Hs Hb]. exists z. apply Z.sgn_nonneg in Hs.
    rewrite BitLen_le in Hb by lia. split; [done|lia].
  - intros (?&[= <-]&?). split; [apply Z.sgn_nonneg; lia|apply BitLen_le; lia].
Qed.

Lemma Uint256_Some z : Uint256 (Some z) = bool_decide (is_uint256 z).
Proof.
  apply eq_bool_prop_intro. rewrite !Is_true_true, bool_decide_eq_true.
  rewrite Uint256_spec. naive_solver.
Qed.

Lemma Uint256_pos_iff z : 0 <= z → Uint256 (Some z) = true ↔ z < 2 ^ 256.
Proof. intros ?. rewrite Uint256_Some, bool_decide_eq_true. unfold is_uint256. lia. Qed.

(** ** [onchain.PeriodElapsed]

    The sum is taken on [big.Int]s, so it cannot wrap. *)
Definition PeriodElapsed (openedAt : bigint) (now period : Z) : bool :=
  match openedAt with
  | Some o => Uint256 openedAt && (0 <=? now) && (0 <=? cmp now (o + period))
  | None => false
  end.

Lemma PeriodElapsed_spec openedAt now period :
  PeriodElapsed openedAt now period = true ↔
  ∃ o, openedAt = Some o ∧ is_uint256 o ∧ 0 <= now ∧ o + period <= now.
Proof.
  destruct openedAt as [o|]; cbn [PeriodElapsed]; [|split; [done|by intros (?&?&?)]].
  rewrite !andb_true_iff, !Z.leb_le, cmp_ge_0, Uint256_spec. naive_solver.
Qed.

#[export] Hint Rewrite cmp_eq_0 cmp_le_0 cmp_gt_0 cmp_lt_0 cmp_ge_0 : yieldv2.
#[export] Hint Resolve int64_id : yieldv2.
