(* ===== verification/Ethereum.v ===== *)
(** * The go-ethereum functions the workflow calls

    [github.com/ethereum/go-ethereum] is not part of the repository: its
    functions are the operations of the class [GoEthereum] and the documented
    behaviour the workflow relies on is the class [GoEthereumLaws].
    [ToyEthereum] is a computable instance that satisfies the laws; it is what
    closed examples evaluate. *)

From S2P Require Import Prelude GoText BigInt.

#[local] Open Scope Z_scope.

(** [common.Address] and [common.Hash] are fixed-size byte arrays. *)
Abbreviation Address := (list ascii).
Abbreviation Hash := (list ascii).
Definition AddressLength : nat := 20.
Definition zeros (n : nat) : bytes := replicate n (Zbyte 0).
Definition zeroAddress : Address := zeros 20.

(** [evm.Log]: the fields the workflow reads. *)
Record Log := mkLog { Log_Address : bytes; Log_Topics : list bytes; Log_Data : bytes }.

(** Values handed to and obtained from [accounts/abi] by reflection. *)
Inductive abi_value : Type :=
| VBig (v : bigint)               (* *big.Int *)
| VUint (v : Z)                   (* uint8 ... uint64 *)
| VBool (v : bool)
| VFixed (v : bytes)              (* common.Address, [N]byte *)
| VBytes (v : bytes)              (* []byte *)
| VString (v : string)
| VSlice (vs : list abi_value)
| VTuple (fields : list (string * abi_value)).

(** The type tag of an ABI argument, as far as the bindings inspect it. *)
Inductive abi_type : Type :=
| TupleTy | BytesTy | UintTy (bits : Z) | FixedBytesTy (n : Z) | AddressTy | BoolTy | OtherTy.

Record Argument := mkArgument {
  Arg_Name : string; Arg_Type : abi_type; Arg_Indexed : bool }.
Record Event := mkEvent { Event_ID : Hash; Event_Inputs : list Argument }.

(** The contract metadata constants of the generated bindings
    ([parent_vault.ParentVaultMetaData], [child_vault.ChildVaultMetaData],
    [base_vault.BaseVaultMetaData], [workflow_router.WorkflowRouterMetaData]). *)
Inductive MetaData : Set :=
| ParentVaultMetaData | ChildVaultMetaData | BaseVaultMetaData | WorkflowRouterMetaData.

Class GoEthereum := {
  IsHexAddress : string → bool;
  HexToAddress : string → Address;
  BytesToAddress : bytes → Address;
  BytesToHash : bytes → Hash;
  Keccak256 : bytes → Hash;
  abi_ABI : Type;
  abi_JSON : MetaData → res abi_ABI;
  abi_Pack : abi_ABI → string → list abi_value → res bytes;
  abi_UnpackOutput : abi_ABI → string → bytes → res (list abi_value);
  abi_Events : abi_ABI → string → Event;
  abi_UnpackIntoInterface : abi_ABI → string → bytes → res (gmap string abi_value);
  abi_ParseTopics : list Argument → list Hash → res (gmap string abi_value);
  FinalizedBlockNumber : Z (* bindings.FinalizedBlockNumber of cre-sdk-go *)
}.

(** A [*big.Int] argument that is nil makes the ABI encoder panic. *)
Fixpoint packable (v : abi_value) : bool :=
  match v with
  | VBig None => false
  | VSlice vs => forallb packable vs
  | VTuple fs => forallb (λ f, packable f.2) fs
  | _ => true
  end.

(** The value [abi.ParseTopics] produces for an indexed argument of a type: an
    unsigned integer of a native width is checked against it, any other one is a
    [*big.Int] made of the whole word. *)
Definition native_width (bits : Z) : bool :=
  (bits =? 8) || (bits =? 16) || (bits =? 32) || (bits =? 64).

Definition topic_value_ok (t : abi_type) (v : abi_value) : Prop :=
  match t, v with
  | UintTy bits, VBig (Some z) => native_width bits = false ∧ 0 <= z < 2 ^ 256
  | UintTy bits, VUint z => native_width bits = true ∧ 0 <= z < 2 ^ bits
  | FixedBytesTy n, VFixed b => Z.of_nat (length b) = n
  | AddressTy, VFixed b => length b = AddressLength
  | BoolTy, VBool _ => True
  | (TupleTy | BytesTy | OtherTy), _ => True
  | _, _ => False
  end.

(** ** The ABI of the four log subscriptions, as in the metadata *)
Definition uint256_indexed (n : string) : Argument := mkArgument n (UintTy 256) true.

Definition event_inputs (md : MetaData) (name : string) : option (list Argument) :=
  match md with
  | ParentVaultMetaData =>
      if bool_decide (name = "RebalanceInitiated"%string) then
        Some [uint256_indexed "rebalanceNonce";
              mkArgument "protocolId" (FixedBytesTy 32) true;
              mkArgument "chainSelector" (UintTy 64) true]
      else if bool_decide (name = "EpochWithdrawExecuting"%string) then
        Some [uint256_indexed "epochNonce"; uint256_indexed "amount"]
      else if bool_decide (name = "RebalanceDepositSuccess"%string) then
        Some [uint256_indexed "rebalanceNonce"; uint256_indexed "amount"]
      else None
  | ChildVaultMetaData =>
      if bool_decide (name = "RebalanceDepositSuccess"%string) then
        Some [uint256_indexed "rebalanceNonce"; uint256_indexed "amount"]
      else if bool_decide (name = "EpochDepositToStrategySuccess"%string) then
        Some [uint256_indexed "epochNonce"; uint256_indexed "amount"]
      else None
  | _ => None
  end.

(** The method of the metadata that returns the operational state, if it has one:
    that method has one output. *)
Definition state_getter (md : MetaData) : option string :=
  match md with
  | ParentVaultMetaData => Some "getParentOperationalState"%string
  | ChildVaultMetaData => Some "getChildOperationalState"%string
  | _ => None
  end.

Class GoEthereumLaws `{GoEthereum} := {
  HexToAddress_length s : length (HexToAddress s) = AddressLength;
  BytesToAddress_length b : length (BytesToAddress b) = AddressLength;
  BytesToAddress_id b : length b = AddressLength → BytesToAddress b = b;
  Keccak256_length b : length (Keccak256 b) = 32%nat;
  abi_JSON_no_crash md : abi_JSON md ≠ Crash;
  abi_Pack_no_crash c name args : Forall packable args → abi_Pack c name args ≠ Crash;
  abi_Pack_selector c name args data :
    abi_Pack c name args = Ok data → (4 ≤ length data)%nat;
  abi_UnpackOutput_no_crash c name data : abi_UnpackOutput c name data ≠ Crash;
  abi_UnpackOutput_one md c getter data vals :
    abi_JSON md = Ok c → state_getter md = Some getter →
    abi_UnpackOutput c getter data = Ok vals →
    length vals = 1%nat;
  abi_Unpack_no_crash c name data : abi_UnpackIntoInterface c name data ≠ Crash;
  abi_ParseTopics_no_crash args topics : abi_ParseTopics args topics ≠ Crash;
  abi_ParseTopics_sets args topics m :
    abi_ParseTopics args topics = Ok m →
    Forall (λ a, ∃ v, m !! Arg_Name a = Some v ∧ topic_value_ok (Arg_Type a) v) args;
  abi_Events_inputs md c name inputs :
    abi_JSON md = Ok c → event_inputs md name = Some inputs →
    Event_Inputs (abi_Events c name) = inputs
}.

(** [UnpackOutput] is [c.abi.Methods[name].Outputs.Unpack(data)]. *)

(** ** A computable instance *)
Module ToyEthereum.
Definition hex_value (b : byte) : option Z :=
  let c := byteZ b in
  if (0x30 <=? c) && (c <=? 0x39) then Some (c - 0x30)
  else if (0x61 <=? c) && (c <=? 0x66) then Some (c - 0x57)
  else if (0x41 <=? c) && (c <=? 0x46) then Some (c - 0x37)
  else None.

Definition strip_0x (l : bytes) : bytes :=
  match l with
  | z :: x :: r =>
      if bool_decide (z = "0"%char) && (bool_decide (x = "x"%char) || bool_decide (x = "X"%char))
      then r else l
  | _ => l
  end.

Fixpoint unhex (l : bytes) : bytes :=
  match l with
  | h :: d :: r => Zbyte (16 * default 0 (hex_value h) + default 0 (hex_value d)) :: unhex r
  | _ => []
  end.

(** Crop from the left or pad on the left to [n] bytes. *)
Definition fit (n : nat) (l : bytes) : bytes :=
  let l := drop (length l - n) l in zeros (n - length l) ++ l.

Lemma fit_length n l : length (fit n l) = n.
Proof. unfold fit, zeros. rewrite length_app, length_replicate, !length_drop. lia. Qed.
Lemma fit_id n l : length l = n → fit n l = l.
Proof.
  intros <-. unfold fit. rewrite Nat.sub_diag. cbn [drop].
  by rewrite Nat.sub_diag.
Qed.

Definition bytes_to_Z (l : bytes) : Z := fold_left (λ acc b, acc * 256 + byteZ b) l 0.
Fixpoint word (n : nat) (z : Z) : bytes :=
  match n with O => [] | S n' => word n' (z / 256) ++ [Zbyte z] end.

Lemma bytes_to_Z_snoc l b : bytes_to_Z (l ++ [b]) = bytes_to_Z l * 256 + byteZ b.
Proof. unfold bytes_to_Z. by rewrite fold_left_app. Qed.

Lemma bytes_to_Z_word n z : bytes_to_Z (word n z) = z mod 256 ^ Z.of_nat n.
Proof.
  revert z. induction n as [|n IH]; intros z.
  { change (bytes_to_Z (word 0 z)) with 0. cbn. by rewrite Z.mod_1_r. }
  cbn [word]. rewrite bytes_to_Z_snoc, IH, byteZ_Zbyte.
  rewrite Nat2Z.inj_succ, Z.pow_succ_r by lia.
  rewrite Z.rem_mul_r by lia. lia.
Qed.

Lemma bytes_to_Z_range l : 0 <= bytes_to_Z l < 256 ^ Z.of_nat (length l).
Proof.
  induction l as [|b l IH] using rev_ind; [done|].
  rewrite bytes_to_Z_snoc, length_app. cbn [length].
  rewrite Nat2Z.inj_add, Z.pow_add_r by lia. pose proof (byteZ_range b). nia.
Qed.

Lemma word_length n z : length (word n z) = n.
Proof. revert z. induction n as [|n IH]; intros z; cbn; [done|]. rewrite length_app, IH. cbn. lia. Qed.

Lemma fit_fit n m l : length l = n → (n ≤ m)%nat → fit n (fit m l) = l.
Proof.
  intros Hl Hm. assert (fit m l = zeros (m - n) ++ l) as ->.
  { unfold fit. rewrite Hl. replace (n - m)%nat with 0%nat by lia. by rewrite drop_0, Hl. }
  unfold fit, zeros. rewrite length_app, length_replicate, Hl.
  rewrite drop_app_length' by (rewrite length_replicate; lia).
  by rewrite Hl, Nat.sub_diag.
Qed.

Definition encode_value (v : abi_value) : bytes :=
  match v with
  | VBig (Some z) | VUint z => word 32 z
  | VFixed b => b
  | VTuple fs => concat ((λ f, match f.2 with
      | VBig (Some z) | VUint z => word 32 z | VFixed b => b | _ => [] end) <$> fs)
  | _ => []
  end.

Definition topic_value (t : abi_type) (h : Hash) : abi_value :=
  match t with
  | UintTy bits =>
      if native_width bits then VUint (bytes_to_Z h mod 2 ^ bits)
      else VBig (Some (bytes_to_Z h mod 2 ^ 256))
  | FixedBytesTy n => VFixed (fit (Z.to_nat n) h)
  | AddressTy => VFixed (fit 20 h)
  | BoolTy => VBool (negb (bytes_to_Z h =? 0))
  | _ => VFixed h
  end.

Definition representable (t : abi_type) : bool :=
  match t with UintTy bits => 0 <=? bits | FixedBytesTy n => 0 <=? n | _ => true end.

Fixpoint parse_topics (args : list Argument) (topics : list Hash) : res (gmap string abi_value) :=
  match args, topics with
  | [], [] => Ok ∅
  | a :: args', h :: topics' =>
      if representable (Arg_Type a) then
        m ← parse_topics args' topics';
        if bool_decide (m !! Arg_Name a = None)
        then Ok (<[Arg_Name a := topic_value (Arg_Type a) h]> m)
        else Err (Errorf "duplicate" [])
      else Err (Errorf "type" [])
  | _, _ => Err (Errorf "topic/field count mismatch" [])
  end.

(** [unpack] plays the ABI decoder for method outputs. *)
Definition ethereum_with (unpack : MetaData → string → bytes → res (list abi_value))
    : GoEthereum := {|
  IsHexAddress s := let l := strip_0x (to_bytes s) in
    Nat.eqb (length l) 40 && forallb (λ b, bool_decide (is_Some (hex_value b))) l;
  HexToAddress s := fit 20 (unhex (strip_0x (to_bytes s)));
  BytesToAddress := fit 20;
  BytesToHash := fit 32;
  Keccak256 := fit 32;
  abi_ABI := MetaData;
  abi_JSON md := Ok md;
  abi_Pack c name args := Ok (fit 4 (to_bytes name) ++ concat (encode_value <$> args));
  abi_UnpackOutput := unpack;
  abi_Events c name := mkEvent (fit 32 (to_bytes name)) (default [] (event_inputs c name));
  abi_UnpackIntoInterface c name data := Ok ∅;
  abi_ParseTopics := parse_topics;
  FinalizedBlockNumber := -3
|}.

Lemma topic_value_sound t h : representable t = true → topic_value_ok t (topic_value t h).
Proof.
  destruct t; cbn; try done.
  - destruct (native_width bits) eqn:Hw; cbn; intros Hb%Z.leb_le.
    + split; [done|]. apply Z.mod_pos_bound, Z.pow_pos_nonneg; lia.
    + split; [done|]. by apply Z.mod_pos_bound.
  - intros Hn%Z.leb_le. rewrite fit_length. lia.
  - intros _. apply fit_length.
Qed.

Lemma parse_topics_no_crash args topics : parse_topics args topics ≠ Crash.
Proof.
  revert topics. induction args as [|a args IH]; intros [|h topics]; cbn; try done.
  case_match; [|done]. specialize (IH topics).
  destruct (parse_topics args topics); cbn; try done. by case_match.
Qed.

Lemma parse_topics_sets args topics m :
  parse_topics args topics = Ok m →
  Forall (λ a, ∃ v, m !! Arg_Name a = Some v ∧ topic_value_ok (Arg_Type a) v) args.
Proof.
  revert topics m. induction args as [|a args IH]; intros [|h topics] m; cbn; try done.
  destruct (representable (Arg_Type a)) eqn:Hr; [|done].
  destruct (parse_topics args topics) as [m'| |] eqn:Hm; cbn; try done.
  case_bool_decide as Hnone; [|done]. intros [= <-]. constructor.
  - exists (topic_value (Arg_Type a) h). rewrite lookup_insert_eq.
    split; [done|by apply topic_value_sound].
  - eapply Forall_impl; [by eapply IH|]. intros b (v & Hv & Hok). exists v.
    rewrite lookup_insert_ne; [done|]. intros Heq. rewrite Heq in Hnone. congruence.
Qed.

Lemma ethereum_laws_with unpack :
  (∀ c name data, unpack c name data ≠ Crash) →
  (∀ c name data vals, unpack c name data = Ok vals → length vals = 1%nat) →
  @GoEthereumLaws (ethereum_with unpack).
Proof.
  intros Hunpack Hone. split; cbn; intros; try done.
  - apply fit_length.
  - apply fit_length.
  - by apply fit_id.
  - apply fit_length.
  - simplify_eq. rewrite length_app, fit_length. lia.
  - by eapply Hone.
  - apply parse_topics_no_crash.
  - by eapply parse_topics_sets.
  - simplify_eq. by match goal with H : event_inputs _ _ = _ |- _ => rewrite H end.
Qed.

(** The instance whose outputs never decode. *)
Definition ethereum : GoEthereum := ethereum_with (λ _ _ _,
  Err (Errorf "abi: attempting to unmarshal an empty string while arguments are expected" [])).
Lemma ethereum_laws : @GoEthereumLaws ethereum.
Proof. by apply ethereum_laws_with. Qed.
End ToyEthereum.
