(* ===== verification/Runtime.v ===== *)
(** * The CRE runtime: host effects, programs, traces and a program logic

    A handler is a program over the effects of [cre.Runtime] and of the
    capabilities it is given (EVM reads and writes, secrets, the HTTP
    capability, logging).  Every [Await] is one effect; handlers are
    single-threaded, so a program is a finite tree of effects.  [run] executes
    a program against an [oracle] (the host) and records the trace of effects
    with their answers; [wp] is the weakest precondition over traces. *)

From S2P Require Import Prelude GoText BigInt Ethereum.

#[local] Open Scope Z_scope.

(** ** Programs over an effect signature *)
Section Programs.
Context {E : Type → Type}.

Inductive prog (A : Type) : Type :=
| Ret (a : A)
| Throw (e : error)
| Panic
| Act {X : Type} (c : E X) (k : X → prog A).
Arguments Ret {_} _.
Arguments Throw {_} _.
Arguments Panic {_}.
Arguments Act {_ _} _ _.

Fixpoint prog_bind_def {A B} (f : A → prog B) (p : prog A) : prog B :=
  match p with
  | Ret a => f a
  | Throw e => Throw e
  | Panic => Panic
  | Act c k => Act c (λ x, prog_bind_def f (k x))
  end.

Definition lift {A} (r : res A) : prog A :=
  match r with Ok a => Ret a | Err e => Throw e | Crash => Panic end.

Definition act {X} (c : E X) : prog X := Act c Ret.

(** [x, err := ...; if err != nil { return nil, fmt.Errorf(format, args, err) }] *)
Fixpoint prog_wrap {A} (format : string) (args : list fmt_val) (p : prog A) : prog A :=
  match p with
  | Throw e => Throw (Wrapf format args e)
  | Act c k => Act c (λ x, prog_wrap format args (k x))
  | p => p
  end.

(** ** Traces *)
Record step := Step { step_type : Type; step_cmd : E step_type; step_answer : step_type }.

(** The host answers an effect from the history of the execution. *)
Definition oracle := list step → ∀ X, E X → X.

Fixpoint run {A} (o : oracle) (h : list step) (p : prog A) : list step * res A :=
  match p with
  | Ret a => (h, Ok a)
  | Throw e => (h, Err e)
  | Panic => (h, Crash)
  | Act c k => let x := o h _ c in run o (h ++ [Step _ c x]) (k x)
  end.

(** [adm] restricts the answers a host may give. *)
Definition admissible := list step → ∀ X, E X → X → Prop.
Definition respects (adm : admissible) (o : oracle) : Prop :=
  ∀ h X (c : E X), adm h X c (o h X c).

Definition any_answer : admissible := λ _ _ _ _, True.

Fixpoint wp (adm : admissible) {A} (h : list step) (p : prog A)
    (Q : list step → res A → Prop) : Prop :=
  match p with
  | Ret a => Q h (Ok a)
  | Throw e => Q h (Err e)
  | Panic => Q h Crash
  | Act c k => ∀ x, adm h _ c x → wp adm (h ++ [Step _ c x]) (k x) Q
  end.
End Programs.

Arguments prog : clear implicits.
Arguments Ret {_ _} _.
Arguments Throw {_ _} _.
Arguments Panic {_ _}.
Arguments Act {_ _ _} _ _.
Arguments step : clear implicits.
Arguments Step {_} _ _ _.
Arguments oracle : clear implicits.
Arguments admissible : clear implicits.

#[global] Instance prog_ret {E} : MRet (prog E) := @Ret E.
#[global] Instance prog_bind {E} : MBind (prog E) := @prog_bind_def E.

(** The post-condition of the first half of a sequence. *)
Definition bind_post {E A B} (adm : admissible E) (f : A → prog E B)
    (Q : list (step E) → res B → Prop) : list (step E) → res A → Prop :=
  λ h r, match r with
         | Ok a => wp adm h (f a) Q
         | Err e => Q h (Err e)
         | Crash => Q h Crash
         end.

Section ProgramLogic.
Context {E : Type → Type} (adm : admissible E).

Lemma wp_run {A} (o : oracle E) h (p : prog E A) Q :
  respects adm o → wp adm h p Q → Q (run o h p).1 (run o h p).2.
Proof.
  intros Ho. revert h. induction p as [a|e| |X c k IH]; intros h Hwp; cbn in *; auto.
Qed.

Lemma wp_mono {A} h (p : prog E A) (Q Q' : list (step E) → res A → Prop) :
  (∀ h' r, Q h' r → Q' h' r) → wp adm h p Q → wp adm h p Q'.
Proof.
  intros HQ. revert h. induction p as [a|e| |X c k IH]; intros h Hwp; cbn in *; eauto.
Qed.

Lemma wp_bind {A B} h (p : prog E A) (f : A → prog E B) Q :
  wp adm h (p ≫= f) Q ↔ wp adm h p (bind_post adm f Q).
Proof.
  revert h. induction p as [a|e| |X c k IH]; intros h; cbn; try done.
  split; intros Hwp x Hx; apply IH; auto.
Qed.

Lemma wp_lift {A} h (r : res A) Q : wp adm h (lift r) Q ↔ Q h r.
Proof. by destruct r. Qed.

Lemma wp_act {X} h (c : E X) Q :
  wp adm h (act c) Q ↔ ∀ x, adm h X c x → Q (h ++ [Step X c x]) (Ok x).
Proof. done. Qed.

Lemma wp_wrap {A} h format args (p : prog E A) Q :
  wp adm h (prog_wrap format args p) Q ↔
  wp adm h p (λ h' r, Q h' (wrap format args r)).
Proof.
  revert h. induction p as [a|e| |X c k IH]; intros h; cbn; try done.
  split; intros Hwp x Hx; apply IH; auto.
Qed.

Lemma wp_conj {A} h (p : prog E A) Q Q' :
  wp adm h p Q → wp adm h p Q' → wp adm h p (λ h' r, Q h' r ∧ Q' h' r).
Proof.
  revert h. induction p as [a|e| |X c k IH]; intros h H1 H2; cbn in *; auto.
Qed.

(** Executions extend the history they start from. *)
Lemma wp_extends {A} h (p : prog E A) : wp adm h p (λ h' _, h `prefix_of` h').
Proof.
  revert h. induction p as [a|e| |X c k IH]; intros h; cbn; try done.
  intros x _. eapply wp_mono; [|apply IH]. intros h' _ [t ->].
  eexists. by rewrite <-app_assoc.
Qed.
End ProgramLogic.

Lemma wp_weaken {E A} (adm adm' : admissible E) h (p : prog E A) Q :
  (∀ h X c x, adm' h X c x → adm h X c x) → wp adm h p Q → wp adm' h p Q.
Proof.
  intros Hadm. revert h. induction p as [a|e| |X c k IH]; intros h Hwp; cbn in *; eauto.
Qed.

Lemma run_bind {E A B} (o : oracle E) h (p : prog E A) (f : A → prog E B) :
  run o h (p ≫= f) =
  match (run o h p).2 with
  | Ok a => run o (run o h p).1 (f a)
  | Err e => ((run o h p).1, Err e)
  | Crash => ((run o h p).1, Crash)
  end.
Proof. revert h. induction p as [a|e| |X c k IH]; intros h; cbn; auto. Qed.

(** ** The effects of the DON runtime *)

(** The answer of an awaited promise: a value or an error. *)
Inductive reply (A : Type) : Type := Reply (a : A) | Failed (e : error).
Arguments Reply {_} _.
Arguments Failed {_} _.

Definition of_reply {A} (r : reply A) : res A :=
  match r with Reply a => Ok a | Failed e => Err e end.

(** A signed report is held by the host; the workflow has a reference to it. *)
Record Report := mkReport { Report_ref : Z }.

Record ReportRequest := mkReportRequest {
  EncodedPayload : bytes; EncoderName : string; SigningAlgo : string; HashingAlgo : string }.

(** [*cre.Report] and [*evm.GasConfig] are pointers. *)
Record GasConfig := mkGasConfig { GasConfig_GasLimit : Z }.
Record WriteCreReportRequest := mkWriteCreReportRequest {
  Receiver : bytes; WriteReport_Report : option Report;
  WriteReport_GasConfig : option GasConfig }.

(** Protobuf enums: the success value and any other, with its printed name. *)
Inductive TxStatus := TX_STATUS_SUCCESS | TX_STATUS_OTHER (name : string).
Inductive ReceiverStatus := RECEIVER_SUCCESS | RECEIVER_OTHER (name : string).

Record WriteReportReply := mkWriteReportReply {
  Reply_TxStatus : TxStatus;
  Reply_ReceiverStatus : option ReceiverStatus;
  Reply_TxHash : bytes;
  Reply_TransactionFee : option bytes;
  Reply_ErrorMessage : option string }.

Record CallContractRequest := mkCallContractRequest {
  Call_To : bytes; Call_Data : bytes; Call_BlockNumber : Z }.

Record http_Request := mkHttpRequest {
  Req_Url : string; Req_Method : string; Req_Headers : list (string * string);
  Req_TimeoutSeconds : Z }.
Record http_Response := mkHttpResponse { Resp_StatusCode : Z; Resp_Body : bytes }.

(** The function a node runs in node mode: given the HTTP requester it returns
    the value the nodes reach consensus on. *)
Abbreviation node_function A := ((http_Request → reply (option http_Response)) → res A).

Inductive log_value := LBig (v : bigint) | LStr (s : string) | LBytes (b : option bytes) | LOther.

(** [R] is the type of the HTTP capability's consensus results. *)
Inductive cre_eff (R : Type) : Type → Type :=
| ENow : cre_eff R Z                                  (* runtime.Now().Unix() *)
| ELog (msg : string) (attrs : list (string * log_value)) : cre_eff R unit
| EGenerateReport (r : ReportRequest) : cre_eff R (reply (option Report))
| EWriteReport (chain : Z) (r : WriteCreReportRequest) :
    cre_eff R (reply (option WriteReportReply))
| ECallContract (chain : Z) (r : CallContractRequest) : cre_eff R (reply (option bytes))
| EGetSecret (id : string) : cre_eff R (reply (option string))
| ESendRequest (f : node_function R) : cre_eff R (reply R).
Arguments ENow {_}.
Arguments ELog {_} _ _.
Arguments EGenerateReport {_} _.
Arguments EWriteReport {_} _ _.
Arguments ECallContract {_} _ _.
Arguments EGetSecret {_} _.
Arguments ESendRequest {_} _.

(** Awaiting a promise: an error reply is returned as the Go error. *)
Definition await {R A} (c : cre_eff R (reply A)) : prog (cre_eff R) A :=
  r ← act c; lift (of_reply r).

Section Observations.
Context {R : Type}.
Abbreviation trace := (list (step (cre_eff R))).

(** The report submissions of a trace, in order. *)
Definition step_write (s : step (cre_eff R)) : option (Z * WriteCreReportRequest) :=
  match step_cmd s with EWriteReport chain r => Some (chain, r) | _ => None end.
Definition writes (h : trace) : list (Z * WriteCreReportRequest) := omap step_write h.

(** The payloads the host was asked to sign. *)
Definition step_report (s : step (cre_eff R)) : option ReportRequest :=
  match step_cmd s with EGenerateReport r => Some r | _ => None end.
Definition reports (h : trace) : list ReportRequest := omap step_report h.

(** The contract reads of a trace. *)
Definition step_read (s : step (cre_eff R)) : option (Z * CallContractRequest) :=
  match step_cmd s with ECallContract chain r => Some (chain, r) | _ => None end.
Definition reads (h : trace) : list (Z * CallContractRequest) := omap step_read h.

Definition step_http (s : step (cre_eff R)) : bool :=
  match step_cmd s with ESendRequest _ => true | _ => false end.

(** A trace segment that neither signs nor submits a report. *)
Definition quiet (h : trace) : Prop := writes h = [] ∧ reports h = [].

Lemma writes_app h h' : writes (h ++ h') = writes h ++ writes h'.
Proof. apply omap_app. Qed.
Lemma reports_app h h' : reports (h ++ h') = reports h ++ reports h'.
Proof. apply omap_app. Qed.
Lemma reads_app h h' : reads (h ++ h') = reads h ++ reads h'.
Proof. apply omap_app. Qed.

Lemma quiet_nil : quiet [].
Proof. done. Qed.
Lemma quiet_app h h' : quiet h → quiet h' → quiet (h ++ h').
Proof.
  intros [Hw Hr] [Hw' Hr']. split; [by rewrite writes_app, Hw, Hw'|by rewrite reports_app, Hr, Hr'].
Qed.
Lemma quiet_now z : quiet [Step Z ENow z].
Proof. done. Qed.
Lemma quiet_log m a u : quiet [Step unit (ELog m a) u].
Proof. done. Qed.
Lemma quiet_call c r x : quiet [Step _ (ECallContract c r) x].
Proof. done. Qed.
Lemma quiet_secret i x : quiet [Step _ (EGetSecret i) x].
Proof. done. Qed.
Lemma quiet_http f x : quiet [Step _ (ESendRequest f) x].
Proof. done. Qed.

(** The types of the answers: [Now] is an int64.  Nothing else is assumed of
    the host. *)
Definition typed_host : admissible (cre_eff R) := λ _ X c x,
  match c in cre_eff _ X return X → Prop with
  | ENow => in_int64
  | _ => λ _, True
  end x.

(** The documented behaviour of the host: in addition, a contract call that
    succeeds has a non-nil reply. *)
Definition host_ok : admissible (cre_eff R) := λ _ X c x,
  match c in cre_eff _ X return X → Prop with
  | ENow => in_int64
  | ECallContract _ _ => λ r, r ≠ Reply None
  | _ => λ _, True
  end x.

Lemma host_ok_typed h X (c : cre_eff R X) x : host_ok h X c x → typed_host h X c x.
Proof. by destruct c. Qed.

(** A program extends every history by segments that satisfy [P]. *)
Definition wp_seg (adm : admissible (cre_eff R)) {A} (h : trace) (p : prog (cre_eff R) A)
    (Q : trace → res A → Prop) : Prop :=
  wp adm h p (λ h' r, ∃ t, h' = h ++ t ∧ Q t r).

Lemma wp_seg_ret adm {A} h (r : res A) (Q : trace → res A → Prop) :
  Q [] r → wp_seg adm h (lift r) Q.
Proof. intros HQ. apply wp_lift. exists []. by rewrite app_nil_r. Qed.

Lemma wp_seg_mono adm {A} h (p : prog (cre_eff R) A) (Q Q' : trace → res A → Prop) :
  (∀ t r, Q t r → Q' t r) → wp_seg adm h p Q → wp_seg adm h p Q'.
Proof. intros HQ. apply wp_mono. intros h' r (t & -> & Ht). eauto. Qed.

Lemma wp_seg_bind adm {A B} h (p : prog (cre_eff R) A) (f : A → prog (cre_eff R) B)
    (P : trace → res A → Prop) (Q : trace → res B → Prop) :
  wp_seg adm h p P →
  (∀ t a, P t (Ok a) → wp_seg adm (h ++ t) (f a) (λ t', Q (t ++ t'))) →
  (∀ t e, P t (Err e) → Q t (Err e)) →
  (∀ t, P t Crash → Q t Crash) →
  wp_seg adm h (p ≫= f) Q.
Proof.
  intros Hp Hok Herr Hcrash. unfold wp_seg. rewrite wp_bind.
  eapply wp_mono; [|exact Hp]. intros h' r (t & -> & Ht).
  destruct r as [a|e|]; cbn; [|eauto|eauto].
  eapply wp_mono; [|exact (Hok t a Ht)]. intros h'' r (t' & -> & HQ).
  exists (t ++ t'). by rewrite app_assoc.
Qed.

Lemma wp_seg_wrap adm {A} h format args (p : prog (cre_eff R) A) (Q : trace → res A → Prop) :
  wp_seg adm h p (λ t r, Q t (wrap format args r)) → wp_seg adm h (prog_wrap format args p) Q.
Proof. intros Hp. unfold wp_seg. by rewrite wp_wrap. Qed.

Lemma wp_seg_act adm {X} h (c : cre_eff R X) (Q : trace → res X → Prop) :
  (∀ x, adm h X c x → Q [Step X c x] (Ok x)) → wp_seg adm h (act c) Q.
Proof. intros HQ. apply wp_act. eauto. Qed.

Lemma wp_seg_run adm {A} (o : oracle (cre_eff R)) (p : prog (cre_eff R) A)
    (Q : trace → res A → Prop) :
  respects adm o → wp_seg adm [] p Q → Q (run o [] p).1 (run o [] p).2.
Proof. intros Ho Hp. by destruct (wp_run adm o [] p _ Ho Hp) as (t & -> & HQ). Qed.

(** A pure step of a program: a nil error continues. *)
Lemma wp_seg_lift_bind adm {A B} h (r : res A) (f : A → prog (cre_eff R) B)
    (Q : trace → res B → Prop) :
  r ≠ Crash → (∀ e, r = Err e → Q [] (Err e)) →
  (∀ a, r = Ok a → wp_seg adm h (f a) Q) → wp_seg adm h (lift r ≫= f) Q.
Proof.
  intros Hc He Ha. destruct r as [a|e|]; cbn; [by apply Ha| |done].
  exists []. rewrite app_nil_r. auto.
Qed.

Lemma wp_seg_conj adm {A} h (p : prog (cre_eff R) A) (Q Q' : trace → res A → Prop) :
  wp_seg adm h p Q → wp_seg adm h p Q' → wp_seg adm h p (λ t r, Q t r ∧ Q' t r).
Proof.
  intros H1 H2. eapply wp_mono; [|exact (wp_conj _ _ _ _ _ H1 H2)].
  intros h' r [(t & -> & ?) (t' & Ht & ?)]. apply app_inv_head in Ht as <-. eauto.
Qed.

Lemma wp_seg_host adm {A} h (p : prog (cre_eff R) A) (Q : trace → res A → Prop) :
  (∀ h X c x, host_ok h X c x → adm h X c x) → wp_seg adm h p Q → wp_seg host_ok h p Q.
Proof. apply wp_weaken. Qed.

(** Every answer of an execution was admissible when it was given. *)
Lemma wp_seg_answers adm {A} h (p : prog (cre_eff R) A) :
  wp_seg adm h p (λ t _, Forall (λ s, ∃ h', adm h' _ (step_cmd s) (step_answer s)) t).
Proof.
  revert h. induction p as [a|e| |X c k IH]; intros h; try (exists []; by rewrite app_nil_r).
  intros x Hx. eapply wp_mono; [|apply IH]. intros h' r (t & -> & Ht).
  exists (Step _ c x :: t). rewrite <-app_assoc. split; [done|]. constructor; [by exists h|done].
Qed.

Lemma respects_any (o : oracle (cre_eff R)) : respects any_answer o.
Proof. done. Qed.
End Observations.

#[export] Hint Resolve quiet_nil quiet_app quiet_now quiet_log quiet_call quiet_secret
  quiet_http : yieldv2.

#[export] Hint Rewrite @writes_app @reports_app @reads_app : yieldv2.

(** Symbolic execution of a program: split binds and awaits. *)
Ltac wp_step :=
  first
    [ progress (rewrite wp_bind)
    | progress (rewrite wp_lift)
    | progress (rewrite wp_wrap)
    | progress (rewrite wp_act) ].

(** ** [workflowtypes] *)
Record ExecutionResult := mkExecutionResult { Result : string }.

(** [workflowtypes.Noop] *)
Definition Noop {R} (reason : string) (args : list (string * log_value))
    : prog (cre_eff R) ExecutionResult :=
  _ ← act (ELog "Workflow skipped" (("reason"%string, LStr reason) :: args));
  Ret (mkExecutionResult (String.append "no-op: " reason)).

Definition is_noop (r : ExecutionResult) : Prop :=
  ∃ reason, Result r = String.append "no-op: " reason.

Lemma Noop_seg {R} adm h reason args (Q : list (step (cre_eff R)) → res ExecutionResult → Prop) :
  (∀ t r, quiet t → is_noop r → Q t (Ok r)) → wp_seg adm h (Noop reason args) Q.
Proof.
  intros HQ. intros u _. exists [Step _ (ELog "Workflow skipped" (("reason"%string, LStr reason) :: args)) u].
  split; [done|]. apply HQ; [done|]. by exists reason.
Qed.
