(* ===== verification/Bindings.v ===== *)
(** * The shape shared by the generated contract bindings

    Every codec method of [cre/contracts/evm/src/generated] is an instance of
    one of the operations below: pack a method call, decode a method output
    through JSON, decode an event log, read a contract. *)

From S2P Require Import Prelude GoText BigInt Ethereum Runtime.

#[local] Open Scope Z_scope.


(** ** Method outputs

    The bindings turn the unpacked value into JSON and back into the Go struct:
    fields are copied by name, a nil [*big.Int] stays nil, an integer that does
    not fit the field's width is an error. *)
Definition json_error (ty : string) : error :=
  Wrapf "failed to unmarshal to %s: %w" [FStr ty] (Errorf "json: cannot unmarshal" []).

Fixpoint tuple_field (name : string) (fs : list (string * abi_value)) : option abi_value :=
  match fs with
  | [] => None
  | (n, v) :: r => if bool_decide (n = name) then Some v else tuple_field name r
  end.

Definition as_tuple (ty : string) (v : abi_value) : res (list (string * abi_value)) :=
  match v with VTuple fs => Ok fs | _ => Err (json_error ty) end.

(** A JSON member that is absent leaves the zero value of the field. *)
Definition as_big (ty : string) (v : option abi_value) : res bigint :=
  match v with
  | Some (VBig b) => Ok b
  | Some (VUint z) => Ok (Some z)
  | None => Ok None
  | _ => Err (json_error ty)
  end.
Definition as_uint (bits : Z) (ty : string) (v : option abi_value) : res Z :=
  match v with
  | Some (VUint z) | Some (VBig (Some z)) =>
      if (0 <=? z) && (z <? 2 ^ bits) then Ok z else Err (json_error ty)
  | Some (VBig None) | None => Ok 0
  | _ => Err (json_error ty)
  end.
Definition as_bool (ty : string) (v : option abi_value) : res bool :=
  match v with Some (VBool b) => Ok b | None => Ok false | _ => Err (json_error ty) end.
Definition as_bytes32 (ty : string) (v : option abi_value) : res bytes :=
  match v with
  | Some (VFixed b) => Ok (take 32 (b ++ zeros 32))
  | None => Ok (zeros 32)
  | _ => Err (json_error ty)
  end.
Lemma as_big_no_crash ty v : as_big ty v ≠ Crash.
Proof. by destruct v as [[]|]. Qed.
Lemma as_uint_no_crash bits ty v : as_uint bits ty v ≠ Crash.
Proof. destruct v as [[[]|?| | | | | |]|]; cbn; try done; by case_match. Qed.
Lemma as_bool_no_crash ty v : as_bool ty v ≠ Crash.
Proof. by destruct v as [[]|]. Qed.
Lemma as_bytes32_no_crash ty v : as_bytes32 ty v ≠ Crash.
Proof. by destruct v as [[]|]. Qed.

Definition as_struct {A} (ty : string) (conv : list (string * abi_value) → res A)
    (v : option abi_value) : res A :=
  match v with
  | Some v => fs ← as_tuple ty v; conv fs
  | None => conv []
  end.

#[export] Hint Resolve as_big_no_crash as_uint_no_crash as_bool_no_crash as_bytes32_no_crash
  : yieldv2.

(** [Decode<M>MethodOutput]: unpack, take the first value, convert it. *)
Definition decode_output `{GoEthereum} {A} (c : abi_ABI) (method ty : string)
    (conv : list (string * abi_value) → res A) (data : bytes) : res A :=
  vals ← abi_UnpackOutput c method data;
  v ← deref (head vals);
  as_struct ty conv (Some v).

(** ** Event logs

    [Decode<E>]: unpack the data, then parse the topics after the signature
    against the indexed inputs.  A nil log, or a log without topics, panics. *)
Definition indexed_args (inputs : list Argument) : list Argument :=
  (λ a, if Arg_Type a is TupleTy then mkArgument (Arg_Name a) BytesTy true else a)
    <$> List.filter Arg_Indexed inputs.

Definition decode_event `{GoEthereum} (c : abi_ABI) (name : string) (log : option Log)
    : res (gmap string abi_value) :=
  l ← deref log;
  fields ← abi_UnpackIntoInterface c name (Log_Data l);
  let indexed := indexed_args (Event_Inputs (abi_Events c name)) in
  let topics : list Hash := BytesToHash <$> Log_Topics l in
  rest ← slice_tail topics;
  parsed ← abi_ParseTopics indexed rest;
  Ok (parsed ∪ fields).

(** Reading a field of the event struct: unset fields have the zero value. *)
Definition event_big (m : gmap string abi_value) (name : string) : bigint :=
  match m !! name with Some (VBig b) => b | _ => None end.
Definition event_uint (m : gmap string abi_value) (name : string) : Z :=
  match m !! name with Some (VUint z) => z | _ => 0 end.
Definition event_bool (m : gmap string abi_value) (name : string) : bool :=
  match m !! name with Some (VBool b) => b | _ => false end.
Definition event_address (m : gmap string abi_value) (name : string) : Address :=
  match m !! name with Some (VFixed b) => b | _ => zeroAddress end.
Definition event_bytesN (n : nat) (m : gmap string abi_value) (name : string) : bytes :=
  match m !! name with Some (VFixed b) => b | _ => zeros n end.
Definition event_bytes32 (m : gmap string abi_value) (name : string) : bytes :=
  match m !! name with Some (VFixed b) => b | _ => zeros 32 end.

(** ** Contract reads *)
Definition read_contract `{GoEthereum} {R A} (chain : Z) (address : Address)
    (calldata : res bytes) (blockNumber : bigint) (decode : bytes → res A)
    : prog (cre_eff R) A :=
  data ← lift calldata;
  let bn := default FinalizedBlockNumber blockNumber in
  response ← await (ECallContract chain (mkCallContractRequest address data bn));
  d ← lift (deref response);
  lift (decode d).

(** A contract read performs at most one call; when it succeeds the result is
    the decoding of the host's answer. *)
Lemma read_contract_seg `{GoEthereum} {R A} (adm : admissible (cre_eff R)) h chain address
    calldata bn (decode : bytes → res A) :
  wp_seg adm h (read_contract chain address calldata bn decode) (λ t r,
    quiet t ∧ (length t ≤ 1)%nat ∧
    ∀ a, r = Ok a → ∃ data answer, calldata = Ok data ∧ decode answer = Ok a ∧
      t = [Step _ (ECallContract chain
             (mkCallContractRequest address data (default FinalizedBlockNumber bn)))
             (Reply (Some answer))]).
Proof.
  unfold read_contract. destruct calldata as [data|e|]; cbn [lift].
  - eapply (wp_seg_bind _ _ _ _ (λ t r, t = [] ∧ r = Ok data)).
    { by apply (wp_seg_ret _ _ (Ok data)). }
    2: naive_solver. 2: naive_solver.
    intros ? ? [-> [= ->]]. rewrite app_nil_r. unfold await.
    unfold wp_seg. rewrite !wp_bind. apply wp_act. intros x _. cbn [bind_post].
    rewrite wp_lift. destruct x as [[answer|]|e]; cbn [of_reply bind_post].
    + rewrite wp_bind. cbn. rewrite wp_lift. eexists. split; [done|].
      split; [done|]. split; [done|]. intros a' Ha'. by exists data, answer.
    + rewrite wp_bind. cbn. eexists. split; [done|]. split; [done|]. done.
    + eexists. split; [done|]. split; [done|]. done.
  - exists []. rewrite app_nil_r. split; [done|]. split; [done|]. split; [cbn; lia|done].
  - exists []. rewrite app_nil_r. split; [done|]. split; [done|]. split; [cbn; lia|done].
Qed.

(** It never panics when the host answers and the codec is well behaved. *)
Lemma read_contract_no_crash `{GoEthereum} {R A} h chain address calldata bn
    (decode : bytes → res A) :
  calldata ≠ Crash → (∀ d, decode d ≠ Crash) →
  wp (@host_ok R) h (read_contract chain address calldata bn decode) (λ _ r, r ≠ Crash).
Proof.
  intros Hc Hd. unfold read_contract, await. rewrite !wp_bind, wp_lift.
  destruct calldata as [data|e|]; cbn [bind_post]; try done.
  rewrite !wp_bind, wp_act. intros x Hx. cbn [bind_post]. rewrite wp_lift.
  destruct x as [[answer|]|e]; cbn [of_reply bind_post]; try done.
  rewrite wp_bind. cbn. by rewrite wp_lift.
Qed.

(** ** Laws used by the handlers *)
Section Laws.
Context `{HL : GoEthereumLaws}.

Lemma as_struct_no_crash {A} ty (conv : list (string * abi_value) → res A) v :
  (∀ fs, conv fs ≠ Crash) → as_struct ty conv v ≠ Crash.
Proof. intros Hc. destruct v as [[]|]; cbn; try done; apply Hc. Qed.

Lemma decode_output_no_crash {A} md c getter ty (conv : list (string * abi_value) → res A) data :
  abi_JSON md = Ok c → state_getter md = Some getter → (∀ fs, conv fs ≠ Crash) →
  decode_output c getter ty conv data ≠ Crash.
Proof.
  intros Hc Hg Hconv. unfold decode_output.
  destruct (abi_UnpackOutput c getter data) as [vals|e|] eqn:Hu; cbn.
  - destruct vals as [|v vals]; [by apply (abi_UnpackOutput_one md c getter) in Hu|].
    by apply (as_struct_no_crash ty conv (Some v)).
  - done.
  - by destruct (abi_UnpackOutput_no_crash _ _ _ Hu).
Qed.

Lemma decode_event_total c name log :
  Log_Topics log ≠ [] → decode_event c name (Some log) ≠ Crash.
Proof.
  intros Htop. unfold decode_event. cbn.
  destruct (abi_UnpackIntoInterface c name (Log_Data log)) eqn:Hu; cbn; [|done|].
  - destruct (Log_Topics log) as [|t ts]; [done|]. cbn.
    destruct (abi_ParseTopics _ _) eqn:Hp; cbn; [done|done|].
    by destruct (abi_ParseTopics_no_crash _ _ Hp).
  - by destruct (abi_Unpack_no_crash _ _ _ Hu).
Qed.

(** A decoded log has every indexed input set to a value of its type. *)
Lemma decode_event_indexed md c name inputs log m a :
  abi_JSON md = Ok c → event_inputs md name = Some inputs →
  decode_event c name log = Ok m → a ∈ indexed_args inputs →
  ∃ v, m !! Arg_Name a = Some v ∧ topic_value_ok (Arg_Type a) v.
Proof.
  intros Hmd Hin Hdec Ha. unfold decode_event in Hdec.
  rewrite (abi_Events_inputs md c name inputs Hmd Hin) in Hdec.
  repeat (rewrite res_bind_Ok in Hdec; destruct Hdec as (? & ? & Hdec)).
  injection Hdec as <-.
  match goal with H : abi_ParseTopics _ _ = Ok _ |- _ =>
    apply abi_ParseTopics_sets in H; rewrite Forall_forall in H;
    destruct (H a Ha) as (v & Hv & Hok) end.
  exists v. split; [|done]. by apply lookup_union_Some_l.
Qed.

Lemma event_big_ok md c name inputs log m n bits :
  abi_JSON md = Ok c → event_inputs md name = Some inputs →
  decode_event c name log = Ok m →
  mkArgument n (UintTy bits) true ∈ indexed_args inputs → native_width bits = false →
  ∃ z, event_big m n = Some z ∧ 0 <= z < 2 ^ 256.
Proof.
  intros Hmd Hin Hdec Ha Hbits.
  destruct (decode_event_indexed _ _ _ _ _ _ _ Hmd Hin Hdec Ha) as (v & Hv & Hok).
  cbn in *. unfold event_big. rewrite Hv.
  destruct v as [[z|]|z| | | | | |]; cbn in Hok; try done; [|by destruct Hok; congruence].
  exists z. split; [done|]. apply Hok.
Qed.
End Laws.
