(* ===== verification/ParentVault.v ===== *)
(** * The parent vault binding, as far as the workflow uses it

    [cre/contracts/evm/src/generated/parent_vault/ParentVault.go]: the structs
    of the operational state, the constructors, the encoders and decoders of the
    handlers, and the contract read.  The rest of the file is modelled in
    [ParentVaultErrors], [ParentVaultEvents] and [ParentVaultMethods].  The
    binding's [Options] field is left out: it is stored and never read. *)

From S2P Require Import Prelude GoText BigInt Ethereum Runtime Bindings.

#[local] Open Scope Z_scope.

Module parent_vault.
(** ** Structs *)
Record TypesEpoch := mkTypesEpoch {
  TotalDepositAmount : bigint;
  TotalShareBurnAmount : bigint;
  TotalWithdrawClaimAmount : bigint;
  RemainingDepositClaimAmount : bigint;
  RemainingShareMintAmount : bigint;
  RemainingShareBurnAmount : bigint;
  RemainingWithdrawClaimAmount : bigint;
  OpenedAtTimestamp : bigint;
  Status : Z }.

Record TypesStrategy := mkTypesStrategy {
  ProtocolId : bytes;
  ChainSelector : Z }.

Record TypesRebalance := mkTypesRebalance {
  Nonce : bigint;
  State : Z;
  ActiveStrategy : TypesStrategy;
  PendingStrategy : TypesStrategy;
  LastRebalanceCompletedTimestamp : bigint }.

Record TypesParentOperationalState := mkTypesParentOperationalState {
  Paused : bool;
  RecoveryMode : Z;
  CurrentEpochNonce : bigint;
  CurrentEpoch : TypesEpoch;
  PreviousEpoch : TypesEpoch;
  Rebalance : TypesRebalance;
  TotalShares : bigint;
  Tvl : bigint }.

Record CloseEpochInput := mkCloseEpochInput {
  CloseEpoch_ExpectedEpochNonce : bigint;
  CloseEpoch_Tvl : bigint }.

Record CompleteEpochDepositInput := mkCompleteEpochDepositInput {
  CompleteEpochDeposit_ExpectedEpochNonce : bigint;
  CompleteEpochDeposit_ActualDepositAmount : bigint }.

Record CompleteRebalanceInput := mkCompleteRebalanceInput {
  CompleteRebalance_ExpectedRebalanceNonce : bigint }.

Record InitiateRebalanceInput := mkInitiateRebalanceInput {
  InitiateRebalance_ExpectedRebalanceNonce : bigint;
  InitiateRebalance_NewStrategy : TypesStrategy }.

Record EpochWithdrawExecutingDecoded := mkEpochWithdrawExecutingDecoded {
  EpochWithdrawExecuting_EpochNonce : bigint;
  EpochWithdrawExecuting_Amount : bigint }.

Record RebalanceDepositSuccessDecoded := mkRebalanceDepositSuccessDecoded {
  RebalanceDepositSuccess_RebalanceNonce : bigint;
  RebalanceDepositSuccess_Amount : bigint }.

Record RebalanceInitiatedDecoded := mkRebalanceInitiatedDecoded {
  RebalanceInitiated_RebalanceNonce : bigint;
  RebalanceInitiated_ProtocolId : bytes;
  RebalanceInitiated_ChainSelector : Z }.

(** The zero value of the structs. *)
Definition zeroStrategy : TypesStrategy := mkTypesStrategy (zeros 32) 0.
Definition zeroEpoch : TypesEpoch :=
  mkTypesEpoch None None None None None None None None 0.
Definition zeroState : TypesParentOperationalState :=
  mkTypesParentOperationalState false 0 None zeroEpoch zeroEpoch
    (mkTypesRebalance None 0 zeroStrategy zeroStrategy None) None None.

(** ** Codec *)
Section Codec.
Context `{GoEthereum}.

Record Codec := mkCodec { codec_abi : abi_ABI }.

Definition NewCodec : res Codec :=
  parsed ← abi_JSON ParentVaultMetaData; Ok (mkCodec parsed).

Definition strategy_value (s : TypesStrategy) : abi_value :=
  VTuple [("protocolId"%string, VFixed (ProtocolId s));
          ("chainSelector"%string, VUint (ChainSelector s))].

Definition EncodeCloseEpochMethodCall (c : Codec) (i : CloseEpochInput) : res bytes :=
  abi_Pack (codec_abi c) "closeEpoch"
    [VBig (CloseEpoch_ExpectedEpochNonce i); VBig (CloseEpoch_Tvl i)].

Definition EncodeCompleteEpochDepositMethodCall (c : Codec) (i : CompleteEpochDepositInput)
    : res bytes :=
  abi_Pack (codec_abi c) "completeEpochDeposit"
    [VBig (CompleteEpochDeposit_ExpectedEpochNonce i);
     VBig (CompleteEpochDeposit_ActualDepositAmount i)].

Definition EncodeCompleteRebalanceMethodCall (c : Codec) (i : CompleteRebalanceInput)
    : res bytes :=
  abi_Pack (codec_abi c) "completeRebalance"
    [VBig (CompleteRebalance_ExpectedRebalanceNonce i)].

Definition EncodeInitiateRebalanceMethodCall (c : Codec) (i : InitiateRebalanceInput)
    : res bytes :=
  abi_Pack (codec_abi c) "initiateRebalance"
    [VBig (InitiateRebalance_ExpectedRebalanceNonce i);
     strategy_value (InitiateRebalance_NewStrategy i)].

Definition EncodeGetParentOperationalStateMethodCall (c : Codec) : res bytes :=
  abi_Pack (codec_abi c) "getParentOperationalState" [].

(** The JSON copy of the unpacked tuple into [TypesParentOperationalState]. *)
Definition state_type : string := "TypesParentOperationalState".

Definition decode_epoch (ty : string) (fs : list (string * abi_value)) : res TypesEpoch :=
  let big n := as_big ty (tuple_field n fs) in
  a ← big "totalDepositAmount"; b ← big "totalShareBurnAmount";
  d ← big "totalWithdrawClaimAmount"; e ← big "remainingDepositClaimAmount";
  f ← big "remainingShareMintAmount"; g ← big "remainingShareBurnAmount";
  h ← big "remainingWithdrawClaimAmount"; o ← big "openedAtTimestamp";
  s ← as_uint 8 ty (tuple_field "status" fs);
  Ok (mkTypesEpoch a b d e f g h o s).

Definition decode_strategy (ty : string) (fs : list (string * abi_value)) : res TypesStrategy :=
  p ← as_bytes32 ty (tuple_field "protocolId" fs);
  s ← as_uint 64 ty (tuple_field "chainSelector" fs);
  Ok (mkTypesStrategy p s).

Definition decode_rebalance (ty : string) (fs : list (string * abi_value)) : res TypesRebalance :=
  n ← as_big ty (tuple_field "nonce" fs);
  s ← as_uint 8 ty (tuple_field "state" fs);
  a ← as_struct ty (decode_strategy ty) (tuple_field "activeStrategy" fs);
  p ← as_struct ty (decode_strategy ty) (tuple_field "pendingStrategy" fs);
  t ← as_big ty (tuple_field "lastRebalanceCompletedTimestamp" fs);
  Ok (mkTypesRebalance n s a p t).

Definition decode_state (fs : list (string * abi_value)) : res TypesParentOperationalState :=
  p ← as_bool state_type (tuple_field "paused" fs);
  r ← as_uint 8 state_type (tuple_field "recoveryMode" fs);
  n ← as_big state_type (tuple_field "currentEpochNonce" fs);
  c ← as_struct state_type (decode_epoch state_type) (tuple_field "currentEpoch" fs);
  q ← as_struct state_type (decode_epoch state_type) (tuple_field "previousEpoch" fs);
  b ← as_struct state_type (decode_rebalance state_type) (tuple_field "rebalance" fs);
  s ← as_big state_type (tuple_field "totalShares" fs);
  t ← as_big state_type (tuple_field "tvl" fs);
  Ok (mkTypesParentOperationalState p r n c q b s t).

Definition DecodeGetParentOperationalStateMethodOutput (c : Codec) (data : bytes)
    : res TypesParentOperationalState :=
  decode_output (codec_abi c) "getParentOperationalState" state_type decode_state data.

(** ** Events *)
Definition LogHash (c : Codec) (name : string) : Hash := Event_ID (abi_Events (codec_abi c) name).
Definition RebalanceInitiatedLogHash (c : Codec) : Hash := LogHash c "RebalanceInitiated".
Definition EpochWithdrawExecutingLogHash (c : Codec) : Hash := LogHash c "EpochWithdrawExecuting".

Definition DecodeEpochWithdrawExecuting (c : Codec) (log : option Log)
    : res EpochWithdrawExecutingDecoded :=
  m ← decode_event (codec_abi c) "EpochWithdrawExecuting" log;
  Ok (mkEpochWithdrawExecutingDecoded (event_big m "epochNonce") (event_big m "amount")).

Definition DecodeRebalanceDepositSuccess (c : Codec) (log : option Log)
    : res RebalanceDepositSuccessDecoded :=
  m ← decode_event (codec_abi c) "RebalanceDepositSuccess" log;
  Ok (mkRebalanceDepositSuccessDecoded
        (event_big m "rebalanceNonce") (event_big m "amount")).

Definition DecodeRebalanceInitiated (c : Codec) (log : option Log)
    : res RebalanceInitiatedDecoded :=
  m ← decode_event (codec_abi c) "RebalanceInitiated" log;
  Ok (mkRebalanceInitiatedDecoded (event_big m "rebalanceNonce")
        (event_bytes32 m "protocolId") (event_uint m "chainSelector")).

(** ** Contract *)
Record ParentVault := mkParentVault {
  vault_Address : Address;
  vault_ABI : abi_ABI;
  vault_client : Z;   (* the chain selector of the EVM client *)
  vault_Codec : Codec }.

(** The contract parses its metadata twice: for [ABI] and for [Codec]. *)
Definition NewParentVault (client : Z) (address : Address) : res ParentVault :=
  parsed ← abi_JSON ParentVaultMetaData;
  codec ← NewCodec;
  Ok (mkParentVault address parsed client codec).

Definition GetParentOperationalState {R} (c : ParentVault) (blockNumber : bigint)
    : prog (cre_eff R) TypesParentOperationalState :=
  read_contract (vault_client c) (vault_Address c)
    (EncodeGetParentOperationalStateMethodCall (vault_Codec c)) blockNumber
    (DecodeGetParentOperationalStateMethodOutput (vault_Codec c)).
End Codec.

(** ** What the handlers may rely on *)
Section CodecLaws.
Context `{HL : GoEthereumLaws}.

Lemma ParentCodec_no_crash : NewCodec ≠ Crash.
Proof.
  unfold NewCodec. destruct (abi_JSON ParentVaultMetaData) eqn:E; cbn; [done|done|].
  by destruct (abi_JSON_no_crash ParentVaultMetaData).
Qed.

Lemma ParentCodec_abi c : NewCodec = Ok c → abi_JSON ParentVaultMetaData = Ok (codec_abi c).
Proof. unfold NewCodec. by destruct (abi_JSON ParentVaultMetaData); cbn; intros [= <-]. Qed.

Lemma decode_epoch_no_crash ty fs : decode_epoch ty fs ≠ Crash.
Proof. unfold decode_epoch. no_crash. Qed.
Lemma decode_strategy_no_crash ty fs : decode_strategy ty fs ≠ Crash.
Proof. unfold decode_strategy. no_crash. Qed.
Lemma decode_rebalance_no_crash ty fs : decode_rebalance ty fs ≠ Crash.
Proof.
  unfold decode_rebalance. pose proof decode_strategy_no_crash.
  no_crash; by apply as_struct_no_crash.
Qed.
Lemma decode_state_no_crash fs : decode_state fs ≠ Crash.
Proof.
  unfold decode_state. pose proof decode_epoch_no_crash. pose proof decode_rebalance_no_crash.
  no_crash; by apply as_struct_no_crash.
Qed.

Lemma DecodeState_no_crash c data :
  NewCodec = Ok c → DecodeGetParentOperationalStateMethodOutput c data ≠ Crash.
Proof.
  intros Hc%ParentCodec_abi. apply (decode_output_no_crash ParentVaultMetaData); [done|done|].
  apply decode_state_no_crash.
Qed.

Lemma DecodeEpochWithdrawExecuting_ok c log evt :
  NewCodec = Ok c → DecodeEpochWithdrawExecuting c log = Ok evt →
  ∃ n a, evt = mkEpochWithdrawExecutingDecoded (Some n) (Some a) ∧ is_uint256 n ∧ is_uint256 a.
Proof.
  intros Hc%ParentCodec_abi. unfold DecodeEpochWithdrawExecuting.
  rewrite res_bind_Ok. intros (m & Hm & [= <-]).
  destruct (event_big_ok _ _ "EpochWithdrawExecuting" _ _ _ "epochNonce" 256 Hc eq_refl Hm) as (n & -> & ?);
    [repeat constructor|done|].
  destruct (event_big_ok _ _ "EpochWithdrawExecuting" _ _ _ "amount" 256 Hc eq_refl Hm) as (a & -> & ?);
    [repeat constructor|done|].
  eauto.
Qed.

Lemma DecodeRebalanceDepositSuccess_ok c log evt :
  NewCodec = Ok c → DecodeRebalanceDepositSuccess c log = Ok evt →
  ∃ n a, evt = mkRebalanceDepositSuccessDecoded (Some n) (Some a) ∧ is_uint256 n ∧ is_uint256 a.
Proof.
  intros Hc%ParentCodec_abi. unfold DecodeRebalanceDepositSuccess.
  rewrite res_bind_Ok. intros (m & Hm & [= <-]).
  destruct (event_big_ok _ _ "RebalanceDepositSuccess" _ _ _ "rebalanceNonce" 256 Hc eq_refl Hm) as (n & -> & ?);
    [repeat constructor|done|].
  destruct (event_big_ok _ _ "RebalanceDepositSuccess" _ _ _ "amount" 256 Hc eq_refl Hm) as (a & -> & ?);
    [repeat constructor|done|].
  eauto.
Qed.

Lemma DecodeRebalanceInitiated_ok c log evt :
  NewCodec = Ok c → DecodeRebalanceInitiated c log = Ok evt →
  ∃ n, RebalanceInitiated_RebalanceNonce evt = Some n ∧ is_uint256 n.
Proof.
  intros Hc%ParentCodec_abi. unfold DecodeRebalanceInitiated.
  rewrite res_bind_Ok. intros (m & Hm & [= <-]).
  destruct (event_big_ok _ _ "RebalanceInitiated" _ _ _ "rebalanceNonce" 256 Hc eq_refl Hm) as (n & Hn & ?);
    [repeat constructor|done|].
  exists n. done.
Qed.
End CodecLaws.
End parent_vault.
