(* ===== verification/ChildVault.v ===== *)
(** * The child vault binding, as far as the workflow uses it

    [cre/contracts/evm/src/generated/child_vault/ChildVault.go]; the rest of that
    file is modelled in [ChildVaultErrors], [ChildVaultEvents] and
    [ChildVaultMethods]. *)

From S2P Require Import Prelude GoText BigInt Ethereum Runtime Bindings.

#[local] Open Scope Z_scope.

Module child_vault.
(** ** Structs *)
Record TypesChildOperationalState := mkTypesChildOperationalState {
  Paused : bool;
  RecoveryMode : Z;
  LastHandledEpochNonce : bigint;
  LastHandledRebalanceNonce : bigint;
  Tvl : bigint }.

Record TypesStrategy := mkTypesStrategy { ProtocolId : bytes; ChainSelector : Z }.

Record ExecuteEpochWithdrawInput := mkExecuteEpochWithdrawInput {
  ExecuteEpochWithdraw_EpochNonce : bigint;
  ExecuteEpochWithdraw_Amount : bigint }.

Record ExecuteRebalanceInput := mkExecuteRebalanceInput {
  ExecuteRebalance_RebalanceNonce : bigint;
  ExecuteRebalance_NewStrategy : TypesStrategy }.

Record EpochDepositToStrategySuccessDecoded := mkEpochDepositToStrategySuccessDecoded {
  EpochDepositToStrategySuccess_EpochNonce : bigint;
  EpochDepositToStrategySuccess_Amount : bigint }.

(** The zero value, which a map lookup of a missing chain yields. *)
Definition zeroState : TypesChildOperationalState :=
  mkTypesChildOperationalState false 0 None None None.

(** ** Codec *)
Section Codec.
Context `{GoEthereum}.

Record Codec := mkCodec { codec_abi : abi_ABI }.

Definition NewCodec : res Codec :=
  parsed ← abi_JSON ChildVaultMetaData; Ok (mkCodec parsed).

Definition strategy_value (s : TypesStrategy) : abi_value :=
  VTuple [("protocolId"%string, VFixed (ProtocolId s));
          ("chainSelector"%string, VUint (ChainSelector s))].

Definition EncodeExecuteEpochWithdrawMethodCall (c : Codec) (i : ExecuteEpochWithdrawInput)
    : res bytes :=
  abi_Pack (codec_abi c) "executeEpochWithdraw"
    [VBig (ExecuteEpochWithdraw_EpochNonce i); VBig (ExecuteEpochWithdraw_Amount i)].

Definition EncodeExecuteRebalanceMethodCall (c : Codec) (i : ExecuteRebalanceInput)
    : res bytes :=
  abi_Pack (codec_abi c) "executeRebalance"
    [VBig (ExecuteRebalance_RebalanceNonce i); strategy_value (ExecuteRebalance_NewStrategy i)].

Definition EncodeGetChildOperationalStateMethodCall (c : Codec) : res bytes :=
  abi_Pack (codec_abi c) "getChildOperationalState" [].

Definition state_type : string := "TypesChildOperationalState".

Definition decode_state (fs : list (string * abi_value)) : res TypesChildOperationalState :=
  p ← as_bool state_type (tuple_field "paused" fs);
  r ← as_uint 8 state_type (tuple_field "recoveryMode" fs);
  e ← as_big state_type (tuple_field "lastHandledEpochNonce" fs);
  n ← as_big state_type (tuple_field "lastHandledRebalanceNonce" fs);
  t ← as_big state_type (tuple_field "tvl" fs);
  Ok (mkTypesChildOperationalState p r e n t).

Definition DecodeGetChildOperationalStateMethodOutput (c : Codec) (data : bytes)
    : res TypesChildOperationalState :=
  decode_output (codec_abi c) "getChildOperationalState" state_type decode_state data.

(** ** Events *)
Definition LogHash (c : Codec) (name : string) : Hash := Event_ID (abi_Events (codec_abi c) name).
Definition RebalanceDepositSuccessLogHash (c : Codec) : Hash :=
  LogHash c "RebalanceDepositSuccess".
Definition EpochDepositToStrategySuccessLogHash (c : Codec) : Hash :=
  LogHash c "EpochDepositToStrategySuccess".

Definition DecodeEpochDepositToStrategySuccess (c : Codec) (log : option Log)
    : res EpochDepositToStrategySuccessDecoded :=
  m ← decode_event (codec_abi c) "EpochDepositToStrategySuccess" log;
  Ok (mkEpochDepositToStrategySuccessDecoded
        (event_big m "epochNonce") (event_big m "amount")).

(** ** Contract *)
Record ChildVault := mkChildVault {
  vault_Address : Address;
  vault_ABI : abi_ABI;
  vault_client : Z;
  vault_Codec : Codec }.

Definition NewChildVault (client : Z) (address : Address) : res ChildVault :=
  parsed ← abi_JSON ChildVaultMetaData;
  codec ← NewCodec;
  Ok (mkChildVault address parsed client codec).

Definition GetChildOperationalState {R} (c : ChildVault) (blockNumber : bigint)
    : prog (cre_eff R) TypesChildOperationalState :=
  read_contract (vault_client c) (vault_Address c)
    (EncodeGetChildOperationalStateMethodCall (vault_Codec c)) blockNumber
    (DecodeGetChildOperationalStateMethodOutput (vault_Codec c)).
End Codec.

(** ** What the handlers may rely on *)
Section CodecLaws.
Context `{HL : GoEthereumLaws}.

Lemma ChildCodec_no_crash : NewCodec ≠ Crash.
Proof.
  unfold NewCodec. destruct (abi_JSON ChildVaultMetaData) eqn:E; cbn; [done|done|].
  by destruct (abi_JSON_no_crash ChildVaultMetaData).
Qed.

Lemma ChildCodec_abi c : NewCodec = Ok c → abi_JSON ChildVaultMetaData = Ok (codec_abi c).
Proof. unfold NewCodec. by destruct (abi_JSON ChildVaultMetaData); cbn; intros [= <-]. Qed.

Lemma child_state_no_crash fs : decode_state fs ≠ Crash.
Proof. unfold decode_state. no_crash. Qed.

Lemma DecodeChildState_no_crash c data :
  NewCodec = Ok c → DecodeGetChildOperationalStateMethodOutput c data ≠ Crash.
Proof.
  intros Hc%ChildCodec_abi. apply (decode_output_no_crash ChildVaultMetaData); [done|done|].
  apply child_state_no_crash.
Qed.

Lemma DecodeEpochDepositToStrategySuccess_ok c log evt :
  NewCodec = Ok c → DecodeEpochDepositToStrategySuccess c log = Ok evt →
  ∃ n a, evt = mkEpochDepositToStrategySuccessDecoded (Some n) (Some a)
    ∧ is_uint256 n ∧ is_uint256 a.
Proof.
  intros Hc%ChildCodec_abi. unfold DecodeEpochDepositToStrategySuccess.
  rewrite res_bind_Ok. intros (m & Hm & [= <-]).
  destruct (event_big_ok _ _ "EpochDepositToStrategySuccess" _ _ _ "epochNonce" 256 Hc eq_refl Hm) as (n & -> & ?);
    [repeat constructor|done|].
  destruct (event_big_ok _ _ "EpochDepositToStrategySuccess" _ _ _ "amount" 256 Hc eq_refl Hm) as (a & -> & ?);
    [repeat constructor|done|].
  eauto.
Qed.
End CodecLaws.
End child_vault.
