(* ===== verification/BaseVault.v ===== *)
(** * The binding of the base vault

    [cre/contracts/evm/src/generated/base_vault/BaseVault.go]: the contract and its codec.
    The rest of the file is modelled in [BaseVaultErrors], [BaseVaultEvents] and
    [BaseVaultMethods].  The workflow does not call this binding. *)

From S2P Require Import Prelude GoText BigInt Ethereum Runtime Bindings.

#[local] Open Scope Z_scope.

Module base_vault.
Section Codec.
Context `{GoEthereum}.

Record Codec := mkCodec { codec_abi : abi_ABI }.

Definition NewCodec : res Codec :=
  parsed ← abi_JSON BaseVaultMetaData; Ok (mkCodec parsed).

Definition LogHash (c : Codec) (name : string) : Hash := Event_ID (abi_Events (codec_abi c) name).

(** The [Options] of the constructor are left out: they are stored and never read. *)
Record BaseVault := mkBaseVault {
  vault_Address : Address;
  vault_ABI : abi_ABI;
  vault_client : Z;   (* the chain selector of the EVM client *)
  vault_Codec : Codec }.

(** The contract parses its metadata twice: for [ABI] and for [Codec]. *)
Definition NewBaseVault (client : Z) (address : Address) : res BaseVault :=
  parsed ← abi_JSON BaseVaultMetaData;
  codec ← NewCodec;
  Ok (mkBaseVault address parsed client codec).

(** A new binding has the given address and client, and a codec for its own ABI;
    a binding is created exactly when the metadata is parsed. *)
Lemma NewBaseVault_spec client address c :
  NewBaseVault client address = Ok c ↔
  abi_JSON BaseVaultMetaData = Ok (vault_ABI c) ∧ codec_abi (vault_Codec c) = vault_ABI c ∧
  vault_Address c = address ∧ vault_client c = client.
Proof.
  unfold NewBaseVault, NewCodec. destruct (abi_JSON BaseVaultMetaData) as [parsed|e|]; cbn.
  - split; [by intros [= <-]|]. destruct c as [ad ab cl [co]]; cbn. intros (? & ? & ? & ?). by simplify_eq.
  - split; [done|]. by intros [? _].
  - split; [done|]. by intros [? _].
Qed.
End Codec.
End base_vault.
