(* ===== verification/WorkflowRouter.v ===== *)
(** * The binding of the workflow router

    [cre/contracts/evm/src/generated/workflow_router/WorkflowRouter.go]: the contract and its codec.
    The rest of the file is modelled in [WorkflowRouterErrors], [WorkflowRouterEvents] and
    [WorkflowRouterMethods].  The workflow does not call this binding. *)

From S2P Require Import Prelude GoText BigInt Ethereum Runtime Bindings.

#[local] Open Scope Z_scope.

Module workflow_router.
Section Codec.
Context `{GoEthereum}.

Record Codec := mkCodec { codec_abi : abi_ABI }.

Definition NewCodec : res Codec :=
  parsed ← abi_JSON WorkflowRouterMetaData; Ok (mkCodec parsed).

Definition LogHash (c : Codec) (name : string) : Hash := Event_ID (abi_Events (codec_abi c) name).

(** The [Options] of the constructor are left out: they are stored and never read. *)
Record WorkflowRouter := mkWorkflowRouter {
  vault_Address : Address;
  vault_ABI : abi_ABI;
  vault_client : Z;   (* the chain selector of the EVM client *)
  vault_Codec : Codec }.

(** The contract parses its metadata twice: for [ABI] and for [Codec]. *)
Definition NewWorkflowRouter (client : Z) (address : Address) : res WorkflowRouter :=
  parsed ← abi_JSON WorkflowRouterMetaData;
  codec ← NewCodec;
  Ok (mkWorkflowRouter address parsed client codec).

(** A new binding has the given address and client, and a codec for its own ABI;
    a binding is created exactly when the metadata is parsed. *)
Lemma NewWorkflowRouter_spec client address c :
  NewWorkflowRouter client address = Ok c ↔
  abi_JSON WorkflowRouterMetaData = Ok (vault_ABI c) ∧ codec_abi (vault_Codec c) = vault_ABI c ∧
  vault_Address c = address ∧ vault_client c = client.
Proof.
  unfold NewWorkflowRouter, NewCodec. destruct (abi_JSON WorkflowRouterMetaData) as [parsed|e|]; cbn.
  - split; [by intros [= <-]|]. destruct c as [ad ab cl [co]]; cbn. intros (? & ? & ? & ?). by simplify_eq.
  - split; [done|]. by intros [? _].
  - split; [done|]. by intros [? _].
Qed.
End Codec.
End workflow_router.
