(* ===== verification/AbiErrors.v ===== *)
(** * Revert data: the shape shared by the generated error decoders

    Each binding of [cre/contracts/evm/src/generated] has, per error of its
    ABI, a struct, a decoder and an [Error] method, and one [UnpackError] that
    switches on the selector.  This file has the operations they are made of
    and the lemmas about them; the errors of each contract are in
    [ParentVaultErrors], [ChildVaultErrors], [BaseVaultErrors] and
    [WorkflowRouterErrors]. *)

From S2P Require Import Prelude GoText BigInt Ethereum.

#[local] Open Scope Z_scope.

(** ** Go slices

    [data[:4]] may reach beyond the length of a slice, up to its capacity;
    [data[4:]] may not. *)
Record slice := mkSlice { elems : bytes; spare : bytes }.

Definition slice_to (n : nat) (s : slice) : res bytes :=
  if bool_decide (n ≤ length (elems s ++ spare s))%nat
  then Ok (take n (elems s ++ spare s)) else Crash.
Definition slice_from (n : nat) (s : slice) : res bytes :=
  if bool_decide (n ≤ length (elems s))%nat then Ok (drop n (elems s)) else Crash.

(** ** Values of an [any] *)

(** The dynamic types the decoders assert. *)
Inductive dyn : Type :=
| DBig (v : bigint)          (* *big.Int *)
| DUint8 (v : Z)
| DUint64 (v : Z)
| DAddress (v : Address)     (* common.Address *)
| DBytes32 (v : bytes)       (* [32]byte *)
| DBytesN (n : nat) (v : bytes)  (* [n]byte *)
| DBytes (v : bytes)         (* []byte *)
| DOther (go_type : string). (* a value of any other type *)

(** [v, ok := x.(T)] *)
Definition to_big (v : dyn) : option bigint := match v with DBig b => Some b | _ => None end.
Definition to_uint8 (v : dyn) : option Z := match v with DUint8 z => Some z | _ => None end.
Definition to_uint64 (v : dyn) : option Z := match v with DUint64 z => Some z | _ => None end.
Definition to_address (v : dyn) : option Address :=
  match v with DAddress a => Some a | _ => None end.
Definition to_bytes32 (v : dyn) : option bytes :=
  match v with DBytes32 b => Some b | _ => None end.
Definition to_bytesN (n : nat) (v : dyn) : option bytes :=
  match v with DBytesN m b => if Nat.eqb m n then Some b else None | _ => None end.
Definition to_bytes_slice (v : dyn) : option bytes :=
  match v with DBytes b => Some b | _ => None end.

(** ** The parts of [accounts/abi] and [common] the decoders call *)
Record abi_Error {Arguments : Type} := mkAbiError { Error_ID : Hash; Error_Inputs : Arguments }.
Arguments abi_Error : clear implicits.

Class GoAbiErrors `{GoEthereum} := {
  abi_Arguments : Type;
  abi_Errors : abi_ABI → string → abi_Error abi_Arguments;   (* the zero value when absent *)
  Arguments_Unpack : abi_Arguments → bytes → res (list dyn);
  Bytes2Hex : bytes → string;
  Address_String : Address → string                          (* the checksummed address *)
}.

(** ** The template of a decoder *)
Section Decoder.
Context `{GoAbiErrors}.

Definition index {A} (l : list A) (i : nat) : res A := deref (l !! i).

(** [values, err := c.ABI.Errors[name].Inputs.Unpack(data[4:])] and the check
    of the number of values. *)
Definition unpack_values (abi : abi_ABI) (name : string) (n : nat) (data : slice)
    : res (list dyn) :=
  payload ← slice_from 4 data;
  values ← wrap "failed to unpack error: %w" []
             (Arguments_Unpack (Error_Inputs (abi_Errors abi name)) payload);
  _ ← fail_if (negb (Nat.eqb (length values) n))
        (Errorf (String.append "expected " (String.append (pretty n) " values, got %d"))
           [FInt (Z.of_nat (length values))]);
  Ok values.

(** [x, ok := values[i].(T)] with the error of a failed assertion. *)
Definition assert_value {A} (to : dyn → option A) (field go_name : string)
    (values : list dyn) (i : nat) : res A :=
  v ← index values i;
  match to v with
  | Some a => Ok a
  | None => Err (Errorf (String.append "unexpected type for " (String.append field
              (String.append " in " (String.append go_name " error")))) [])
  end.

(** [switch common.Bytes2Hex(data[:4])] over the errors in source order. *)
Definition selector_of (abi : abi_ABI) (name : string) : bytes :=
  take 4 (Error_ID (abi_Errors abi name)).
Fixpoint switch_error {A} (abi : abi_ABI) (key : string)
    (cases : list (string * (slice → res A))) (data : slice) : res A :=
  match cases with
  | [] => Err (Errorf "unknown error selector" [])
  | (name, decode) :: r =>
      if bool_decide (key = Bytes2Hex (selector_of abi name)) then decode data
      else switch_error abi key r data
  end.
Definition unpack_error {A} (abi : abi_ABI) (cases : list (string * (slice → res A)))
    (data : slice) : res A :=
  key ← slice_to 4 data;
  switch_error abi (Bytes2Hex key) cases data.
End Decoder.

(** ** [fmt]'s [%v] of the fields *)
Definition show_big (v : bigint) : string := match v with Some z => pretty z | None => "<nil>" end.
Definition show_uint (v : Z) : string := pretty v.
Definition show_address `{GoAbiErrors} (a : Address) : string := Address_String a.
(** An array or slice of bytes prints as its elements in decimal. *)
Definition show_bytes32 (b : bytes) : string :=
  String.append "[" (String.append (String.concat " " ((λ c, pretty (byteZ c)) <$> b)) "]").

(** ** The template of an [Error] method

    [fmt.Sprintf("E error: a=%v; b=%v;", e.A, e.B)] *)
Definition error_format (go_name : string) (names : list string) : string :=
  String.append go_name (String.append " error:"
    (foldr (λ n r, String.append " " (String.append n (String.append "=%v;" r))) EmptyString names)).
Definition error_text (e : string * list (string * string)) : string :=
  String.append e.1 (String.append " error:"
    (foldr (λ f r, String.append " " (String.append f.1 (String.append "="
      (String.append f.2 (String.append ";" r))))) EmptyString e.2)).

Definition plain (s : string) : bool := forallb (λ c, bool_decide (c ≠ "%"%char)) (to_bytes s).

Section Texts.
Context `{GoUnicode}.

Lemma to_bytes_append s t : to_bytes (String.append s t) = to_bytes s ++ to_bytes t.
Proof.
  induction s as [|c s IH]; [done|].
  change (c :: to_bytes (String.append s t) = c :: to_bytes s ++ to_bytes t). by rewrite IH.
Qed.

Lemma Sprintf_plain s rest args :
  plain s = true → Sprintf_bytes (to_bytes s ++ rest) args = to_bytes s ++ Sprintf_bytes rest args.
Proof.
  unfold plain. generalize (to_bytes s) as l. clear s. intros l.
  induction l as [|c l IH]; [done|]. cbn [forallb]. rewrite andb_true_iff, bool_decide_eq_true.
  intros [Hc Hl]. cbn [app Sprintf_bytes]. rewrite <-(IH Hl).
  destruct (l ++ rest) as [|v r] eqn:Hr; [|by rewrite bool_decide_false].
  apply app_nil in Hr as [-> ->]. done.
Qed.

Lemma Sprintf_verb s rest args :
  Sprintf_bytes (to_bytes "%v" ++ rest) (FStr s :: args) = to_bytes s ++ Sprintf_bytes rest args.
Proof. reflexivity. Qed.

Lemma Sprintf_fields (fields : list (string * string)) :
  forallb plain fields.*1 = true →
  Sprintf_bytes (to_bytes (foldr (λ n r, String.append " " (String.append n (String.append "=%v;" r)))
    EmptyString fields.*1)) ((λ f, FStr f.2) <$> fields) =
  to_bytes (foldr (λ f r, String.append " " (String.append f.1 (String.append "="
      (String.append f.2 (String.append ";" r))))) EmptyString fields).
Proof.
  induction fields as [|[n v] fields IH]; [done|].
  cbn [forallb fmap list_fmap fst snd foldr]. rewrite andb_true_iff. intros [Hn Hf].
  rewrite !to_bytes_append, (Sprintf_plain " "), (Sprintf_plain n) by done. do 2 f_equal.
  change (to_bytes "=%v;") with (to_bytes "=" ++ to_bytes "%v" ++ to_bytes ";").
  rewrite <-!app_assoc, (Sprintf_plain "=") by done. f_equal.
  rewrite Sprintf_verb, (Sprintf_plain ";") by done. do 2 f_equal. by apply IH.
Qed.

Lemma Sprintf_error e :
  plain e.1 && forallb plain e.2.*1 = true →
  Sprintf (error_format e.1 e.2.*1) ((λ f, FStr f.2) <$> e.2) = error_text e.
Proof.
  destruct e as [go fields]; cbn [fst snd]. rewrite andb_true_iff. intros [Hg Hf].
  unfold Sprintf, error_format, error_text; cbn [fst snd].
  rewrite !to_bytes_append, Sprintf_plain, (Sprintf_plain " error:"), Sprintf_fields by done.
  by rewrite <-!to_bytes_append, of_to_bytes.
Qed.
End Texts.

(** ** The types of the ABI and the documented behaviour of the decoder *)
(** Integers wider than 64 bits decode to a [*big.Int] of at most 256 bits; the
    decoder does not check the widths in between. *)
Inductive dyn_type : Type :=
| TBig | TUint8 | TUint64 | TAddress | TBytes32 | TBytesN (n : nat) | TBytes.

Definition has_type (v : dyn) (t : dyn_type) : Prop :=
  match t, v with
  | TBig, DBig (Some z) => 0 <= z < 2 ^ 256
  | TUint8, DUint8 z => 0 <= z < 2 ^ 8
  | TUint64, DUint64 z => 0 <= z < 2 ^ 64
  | TAddress, DAddress a => length a = AddressLength
  | TBytes32, DBytes32 b => length b = 32%nat
  | TBytesN n, DBytesN m b => m = n ∧ length b = n ∧ (n ≤ 32)%nat
  | TBytes, DBytes b => Z.of_nat (length b) < 2 ^ 63
  | _, _ => False
  end.

(** An ABI's table of errors: the names and the types of their inputs. *)
Abbreviation error_table := (list (string * list dyn_type)).

(** [pack] plays the contract: the payload of a revert with these values. *)
Class GoAbiErrorsLaws `{GoAbiErrors} (abi : abi_ABI) (table : error_table) := {
  error_pack : list dyn_type → list dyn → bytes;
  Arguments_Unpack_no_crash args payload : Arguments_Unpack args payload ≠ Crash;
  Arguments_Unpack_typed name tys payload values :
    (name, tys) ∈ table →
    Arguments_Unpack (Error_Inputs (abi_Errors abi name)) payload = Ok values →
    Forall2 has_type values tys;
  Arguments_Unpack_pack name tys values :
    (name, tys) ∈ table → Forall2 has_type values tys →
    Arguments_Unpack (Error_Inputs (abi_Errors abi name)) (error_pack tys values) = Ok values;
  Error_ID_length name tys : (name, tys) ∈ table → length (Error_ID (abi_Errors abi name)) = 32%nat;
  Bytes2Hex_inj :: Inj (=) (=) Bytes2Hex
}.

(** A contract reverts with a custom error: the selector, then the values. *)
Definition revert_data `{GoAbiErrorsLaws} (name : string) (tys : list dyn_type)
    (values : list dyn) : bytes := selector_of abi name ++ error_pack tys values.

(** The errors of the table are told apart by their selectors. *)
Definition distinct_selectors `{GoAbiErrors} (abi : abi_ABI) (table : error_table) : Prop :=
  NoDup ((λ e, selector_of abi e.1) <$> table).

(** ** What [UnpackError] may return

    [describe] gives the ABI name and the values of a decoded error. *)
Definition unknown_selector : error := Errorf "unknown error selector" [].
Definition malformed (cause : error) : error := Wrapf "failed to unpack error: %w" [] cause.

Inductive unpacked `{GoAbiErrors} {E} (describe : E → string * list dyn) (abi : abi_ABI)
    (table : error_table) (data : slice) : res E → Prop :=
| unpacked_short :
    (length (elems data ++ spare data) < 4)%nat →
    unpacked describe abi table data Crash
| unpacked_unknown key :
    slice_to 4 data = Ok key →
    (∀ entry, entry ∈ table → key ≠ selector_of abi entry.1) →
    unpacked describe abi table data (Err unknown_selector)
| unpacked_beyond entry :
    (length (elems data) < 4)%nat → entry ∈ table →
    slice_to 4 data = Ok (selector_of abi entry.1) →
    unpacked describe abi table data Crash
| unpacked_malformed entry cause :
    (4 ≤ length (elems data))%nat → entry ∈ table →
    take 4 (elems data) = selector_of abi entry.1 →
    unpacked describe abi table data (Err (malformed cause))
| unpacked_error entry e values :
    (4 ≤ length (elems data))%nat → entry ∈ table →
    take 4 (elems data) = selector_of abi entry.1 →
    describe e = (entry.1, values) → Forall2 has_type values entry.2 →
    unpacked describe abi table data (Ok e).

(** ** Lemmas about the template *)
Section Lemmas.
Context `{HL : GoAbiErrorsLaws}.

Lemma slice_to_elems n s : (n ≤ length (elems s))%nat → slice_to n s = Ok (take n (elems s)).
Proof.
  intros Hn. unfold slice_to. rewrite bool_decide_true by (rewrite length_app; lia).
  by rewrite take_app_le.
Qed.

Lemma unpack_values_short name n data :
  (length (elems data) < 4)%nat → unpack_values abi name n data = Crash.
Proof.
  intros Hn. unfold unpack_values, slice_from. rewrite bool_decide_false by lia. done.
Qed.

Lemma unpack_values_unpack name n data :
  (4 ≤ length (elems data))%nat →
  unpack_values abi name n data =
    values ← wrap "failed to unpack error: %w" []
               (Arguments_Unpack (Error_Inputs (abi_Errors abi name)) (drop 4 (elems data)));
    _ ← fail_if (negb (Nat.eqb (length values) n))
          (Errorf (String.append "expected " (String.append (pretty n) " values, got %d"))
             [FInt (Z.of_nat (length values))]);
    Ok values.
Proof.
  intros Hn. unfold unpack_values, slice_from. rewrite bool_decide_true by lia. done.
Qed.

(** The count check never fires: the payload is malformed or has the values of
    the table's types. *)
Lemma unpack_values_typed name tys data :
  (name, tys) ∈ table → (4 ≤ length (elems data))%nat →
  (∃ cause, unpack_values abi name (length tys) data = Err (malformed cause)) ∨
  ∃ values, unpack_values abi name (length tys) data = Ok values ∧ Forall2 has_type values tys.
Proof.
  intros Hin Hn. rewrite unpack_values_unpack by done.
  destruct (Arguments_Unpack _ _) as [values|e|] eqn:Hu; cbn.
  - apply (Arguments_Unpack_typed _ tys) in Hu; [|done].
    rewrite (Forall2_length _ _ _ Hu), Nat.eqb_refl. cbn. eauto.
  - left. by exists e.
  - by destruct (Arguments_Unpack_no_crash _ _ Hu).
Qed.

Lemma unpack_values_revert name tys values rest :
  (name, tys) ∈ table → Forall2 has_type values tys →
  unpack_values abi name (length tys) (mkSlice (revert_data name tys values) rest) = Ok values.
Proof.
  intros Hin Hty. unfold revert_data, selector_of.
  pose proof (Error_ID_length _ _ Hin) as Hid.
  assert (length (take 4 (Error_ID (abi_Errors abi name))) = 4%nat) as Hsel
    by (rewrite length_take; lia).
  rewrite unpack_values_unpack; cbn [elems]; [|rewrite length_app; lia].
  rewrite drop_app_length' by done.
  rewrite (Arguments_Unpack_pack _ _ _ Hin Hty). cbn.
  by rewrite (Forall2_length _ _ _ Hty), Nat.eqb_refl.
Qed.

Lemma revert_key name tys values rest :
  (name, tys) ∈ table →
  slice_to 4 (mkSlice (revert_data name tys values) rest) = Ok (selector_of abi name).
Proof.
  intros Hin. unfold revert_data, selector_of.
  pose proof (Error_ID_length _ _ Hin) as Hid.
  assert (length (take 4 (Error_ID (abi_Errors abi name))) = 4%nat) as Hsel
    by (rewrite length_take; lia).
  rewrite slice_to_elems by (cbn [elems]; rewrite length_app; lia).
  cbn [elems]. by rewrite take_app_length'.
Qed.

(** *** The switch *)
Section Switch.
Context {E : Type} (describe : E → string * list dyn).
Implicit Types cases : list (string * (slice → res E)).

Lemma switch_error_hit cases name decode data :
  NoDup ((λ c, selector_of abi c.1) <$> cases) → (name, decode) ∈ cases →
  switch_error abi (Bytes2Hex (selector_of abi name)) cases data = decode data.
Proof.
  induction cases as [|[name' decode'] cases IH]; cbn.
  { intros _ Hin. by apply elem_of_nil in Hin. }
  intros [Hnot Hnd]%NoDup_cons Hin. apply elem_of_cons in Hin as [[= <- <-]|Hin].
  { by rewrite bool_decide_true. }
  rewrite bool_decide_false; [by apply IH|].
  intros Heq%(inj Bytes2Hex). apply Hnot. rewrite <-Heq.
  apply list_elem_of_fmap. by exists (name, decode).
Qed.

(** A case implements an entry of the table: it fails as the unpacking does, and
    a typed list of values is decoded to an error with that description. *)
Definition case_ok (c : string * (slice → res E)) (entry : string * list dyn_type) : Prop :=
  c.1 = entry.1 ∧ ∀ data,
  match unpack_values abi entry.1 (length entry.2) data with
  | Ok values => Forall2 has_type values entry.2 →
      ∃ e, c.2 data = Ok e ∧ describe e = (entry.1, values)
  | Err e => c.2 data = Err e
  | Crash => c.2 data = Crash
  end.

Lemma case_unpacked c entry data key :
  entry ∈ table → case_ok c entry → slice_to 4 data = Ok key →
  key = selector_of abi c.1 → unpacked describe abi table data (c.2 data).
Proof.
  intros Hin [Hname Hc] Hkey ->. specialize (Hc data). rewrite Hname in Hkey.
  destruct entry as [name tys]; cbn in *.
  destruct (decide (4 ≤ length (elems data))%nat) as [Hlen|Hlen].
  - assert (Hk := Hkey). rewrite slice_to_elems in Hk by done. injection Hk as Hk.
    destruct (unpack_values_typed name tys data Hin Hlen) as [(cause & Hu)|(values & Hu & Hty)];
      rewrite Hu in Hc.
    + rewrite Hc. by eapply (unpacked_malformed _ _ _ _ (name, tys)).
    + destruct (Hc Hty) as (e & -> & He). by eapply (unpacked_error _ _ _ _ (name, tys)).
  - rewrite unpack_values_short in Hc by lia. rewrite Hc.
    eapply (unpacked_beyond _ _ _ _ (name, tys)); [lia|done|done].
Qed.

Lemma switch_unpacked cases entries data key :
  Forall2 case_ok cases entries → (∀ entry, entry ∈ entries → entry ∈ table) →
  (∀ entry, entry ∈ table → key = selector_of abi entry.1 → entry ∈ entries) →
  slice_to 4 data = Ok key →
  unpacked describe abi table data (switch_error abi (Bytes2Hex key) cases data).
Proof.
  intros Hall. induction Hall as [|[name decode] entry cases entries Hc Hall IH];
    intros Hsub Hrest Hkey; cbn.
  - apply (unpacked_unknown _ _ _ _ key); [done|].
    intros entry Hin Heq. apply (elem_of_nil entry). eauto.
  - case_bool_decide as Hk.
    + apply (inj Bytes2Hex) in Hk. eapply (case_unpacked (name, decode)); [|done|done|done].
      apply Hsub. left.
    + apply IH; [|intros entry' Hin Heq|done].
      * intros entry' Hin. apply Hsub. by right.
      * specialize (Hrest entry' Hin Heq). apply elem_of_cons in Hrest as [->|]; [|done].
        destruct Hc as [Hname _]. cbn in Hname. congruence.
Qed.

Lemma unpack_error_unpacked cases data :
  Forall2 case_ok cases table →
  unpacked describe abi table data (unpack_error abi cases data).
Proof.
  intros Hall. unfold unpack_error. destruct (slice_to 4 data) as [key| |] eqn:Hkey; cbn.
  - by eapply switch_unpacked.
  - unfold slice_to in Hkey. by case_bool_decide.
  - apply unpacked_short. unfold slice_to in Hkey. case_bool_decide; [done|lia].
Qed.

Lemma case_names cases entries : Forall2 case_ok cases entries → cases.*1 = entries.*1.
Proof.
  intros Hall. induction Hall as [|c entry cases' entries [Hname _] _ IH]; [done|].
  cbn. by rewrite Hname, IH.
Qed.

Lemma unpack_error_revert cases name tys values decode rest e :
  Forall2 case_ok cases table → distinct_selectors abi table →
  (name, decode) ∈ cases → (name, tys) ∈ table → Forall2 has_type values tys →
  (∀ data, unpack_values abi name (length tys) data = Ok values → decode data = Ok e) →
  unpack_error abi cases (mkSlice (revert_data name tys values) rest) = Ok e.
Proof.
  intros Hall Hnd Hdec Hin Hty Hok. unfold unpack_error. rewrite (revert_key _ _ _ _ Hin). cbn.
  rewrite (switch_error_hit _ _ decode); [|clear -Hnd Hall|done].
  - apply Hok. by apply unpack_values_revert.
  - unfold distinct_selectors in Hnd. apply case_names in Hall.
    assert (∀ B (l : list (string * B)),
      (λ c, selector_of abi c.1) <$> l = selector_of abi <$> l.*1) as Heq
      by (intros; by rewrite <-list_fmap_compose).
    rewrite Heq in Hnd. by rewrite Heq, Hall.
Qed.
End Switch.
End Lemmas.

(** A value of a known type. *)
Lemma has_type_big v : has_type v TBig → ∃ z, v = DBig (Some z).
Proof. destruct v as [[]| | | | | | |]; naive_solver. Qed.
Lemma has_type_uint8 v : has_type v TUint8 → ∃ z, v = DUint8 z.
Proof. destruct v as [[]| | | | | | |]; naive_solver. Qed.
Lemma has_type_uint64 v : has_type v TUint64 → ∃ z, v = DUint64 z.
Proof. destruct v as [[]| | | | | | |]; naive_solver. Qed.
Lemma has_type_address v : has_type v TAddress → ∃ a, v = DAddress a.
Proof. destruct v as [[]| | | | | | |]; naive_solver. Qed.
Lemma has_type_bytes32 v : has_type v TBytes32 → ∃ b, v = DBytes32 b.
Proof. destruct v as [[]| | | | | | |]; naive_solver. Qed.

Lemma has_type_bytesN n v : has_type v (TBytesN n) → ∃ b, v = DBytesN n b.
Proof. destruct v; cbn; naive_solver. Qed.
Lemma has_type_bytes v : has_type v TBytes → ∃ b, v = DBytes b.
Proof. destruct v; cbn; naive_solver. Qed.

(** Make the values of a typed list concrete. *)
Ltac typed_values H :=
  lazymatch type of H with
  | Forall2 has_type _ [] => apply Forall2_nil_inv_r in H; subst
  | Forall2 has_type _ (?t :: _) =>
      let v := fresh "v" in let vs := fresh "vs" in let Hv := fresh "Hv" in
      apply Forall2_cons_inv_r in H as (v & vs & Hv & H & ->);
      lazymatch t with
      | TBig => apply has_type_big in Hv | TUint8 => apply has_type_uint8 in Hv
      | TUint64 => apply has_type_uint64 in Hv | TAddress => apply has_type_address in Hv
      | TBytes32 => apply has_type_bytes32 in Hv | TBytesN _ => apply has_type_bytesN in Hv
      | TBytes => apply has_type_bytes in Hv
      end; destruct Hv as [? ->]; typed_values H
  end.

(** One decoder implements its entry of the table. *)
Ltac decode_case :=
  split; [reflexivity|]; intros data; cbn [fst snd length];
  lazymatch goal with
  | |- context [_ <$> ?m] => let d := head_of m in unfold d
  end;
  destruct (unpack_values _ _ _ data) as [values| |]; [|reflexivity|reflexivity];
  let Hty := fresh "Hty" in intros Hty; typed_values Hty; eexists; split; reflexivity.

(** The round trip of one error. *)
Ltac revert_case :=
  eapply unpack_error_revert; [eassumption|eassumption| |eassumption|eassumption|];
  [lazymatch goal with |- _ ∈ ?l => let h := head_of l in unfold h end; concrete_elem|];
  let data := fresh "data" in intros data;
  match goal with H : Forall2 has_type _ _ |- _ => rewrite <-(Forall2_length _ _ _ H) end;
  let Hu := fresh "Hu" in cbn [length fst snd]; intros Hu;
  lazymatch goal with
  | |- _ <$> ?m = _ => let d := head_of m in unfold d
  end; rewrite Hu; reflexivity.

(** The text of one error. *)
Ltac text_case :=
  lazymatch goal with
  | |- ?m = error_text ?s =>
      let d := head_of m in unfold d;
      etrans; [|apply (Sprintf_error s); vm_compute; reflexivity]; cbn [fst snd fmap list_fmap];
      f_equal; reflexivity
  end.

(** ** A computable instance over [ToyEthereum]: words of 32 bytes, a byte slice
    after a word with its length, selectors numbered by the position in the table. *)
Module ToyErrors.
Import ToyEthereum.

Definition encode_dyn (v : dyn) : bytes :=
  match v with
  | DBig (Some z) | DUint8 z | DUint64 z => word 32 z
  | DAddress a => zeros 12 ++ a
  | DBytes32 b => b
  | DBytesN n b => b ++ zeros (32 - n)
  | DBytes b => word 32 (Z.of_nat (length b)) ++ b
  | _ => []
  end.
Definition out_of_range {A} : res A := Err (Errorf "abi: improperly encoded value" []).
(** A value and what follows it; [w] is the first word. *)
Definition decode_dyn (t : dyn_type) (w rest : bytes) : res (dyn * bytes) :=
  let z := bytes_to_Z w in
  match t with
  | TBig => Ok (DBig (Some z), rest)
  | TUint8 => if z <? 2 ^ 8 then Ok (DUint8 z, rest) else out_of_range
  | TUint64 => if z <? 2 ^ 64 then Ok (DUint64 z, rest) else out_of_range
  | TAddress => Ok (DAddress (drop 12 w), rest)
  | TBytes32 => Ok (DBytes32 w, rest)
  | TBytesN n => if Nat.leb n 32 then Ok (DBytesN n (take n w), rest) else out_of_range
  | TBytes =>
      if (z <? 2 ^ 63) && (z <=? Z.of_nat (length rest))
      then Ok (DBytes (take (Z.to_nat z) rest), drop (Z.to_nat z) rest) else out_of_range
  end.
Fixpoint unpack (tys : list dyn_type) (payload : bytes) : res (list dyn) :=
  match tys with
  | [] => Ok []
  | t :: tys =>
      if Nat.leb 32 (length payload) then
        '(v, rest) ← decode_dyn t (take 32 payload) (drop 32 payload);
        vs ← unpack tys rest;
        Ok (v :: vs)
      else Err (Errorf "abi: length insufficient" [])
  end.

Lemma decode_dyn_typed t w rest v rest' :
  length w = 32%nat → decode_dyn t w rest = Ok (v, rest') → has_type v t.
Proof.
  intros Hw. pose proof (bytes_to_Z_range w) as Hr. rewrite Hw in Hr.
  change (256 ^ Z.of_nat 32) with (2 ^ 256) in Hr.
  destruct t; cbn [decode_dyn]; try (case_match eqn:Hc; [|done]); intros [= <- _];
    cbn [has_type]; try lia; try done.
  - rewrite length_drop. rewrite Hw. done.
  - apply Nat.leb_le in Hc. rewrite length_take. lia.
  - rewrite length_take. lia.
Qed.

Lemma decode_encode_dyn t v rest :
  has_type v t → ∃ w tail, encode_dyn v = w ++ tail ∧ length w = 32%nat ∧
    decode_dyn t w (tail ++ rest) = Ok (v, rest).
Proof.
  assert (∀ z, bytes_to_Z (word 32 z) = z mod 2 ^ 256) as Hword by apply (bytes_to_Z_word 32).
  assert (∀ w, encode_dyn v = w → length w = 32%nat → decode_dyn t w rest = Ok (v, rest) →
    ∃ w tail, encode_dyn v = w ++ tail ∧ length w = 32%nat ∧
      decode_dyn t w (tail ++ rest) = Ok (v, rest)) as Hone.
  { intros w Hw Hl Hd. exists w, []. by rewrite app_nil_r. }
  destruct t, v as [[z|]|z|z|a|b|m b|b|]; cbn [has_type]; try done; intros Hv;
    try (eapply Hone; [reflexivity| |]; cbn [encode_dyn decode_dyn];
         try (by rewrite word_length); try rewrite Hword, Z.mod_small by lia;
         try rewrite (proj2 (Z.ltb_lt _ _)) by lia; done).
  - eapply Hone; [reflexivity| |]; cbn [encode_dyn decode_dyn]; [by rewrite length_app, Hv|done].
  - destruct Hv as (-> & Hb & Hn). eapply Hone; [reflexivity| |]; cbn [encode_dyn decode_dyn].
    + rewrite length_app. unfold zeros. rewrite length_replicate. lia.
    + rewrite (proj2 (Nat.leb_le _ _)) by done. by rewrite take_app_length'.
  - exists (word 32 (Z.of_nat (length b))), b. split; [done|]. split; [apply word_length|].
    cbn [decode_dyn]. rewrite Hword, Z.mod_small by lia.
    rewrite (proj2 (Z.ltb_lt _ _)), (proj2 (Z.leb_le _ _)) by (rewrite ?length_app; lia).
    cbn [andb]. by rewrite Nat2Z.id, take_app_length', drop_app_length'.
Qed.

Lemma unpack_typed tys payload vs : unpack tys payload = Ok vs → Forall2 has_type vs tys.
Proof.
  revert payload vs. induction tys as [|t tys IH]; intros payload vs; cbn [unpack].
  { intros [= <-]. constructor. }
  destruct (Nat.leb_spec 32 (length payload)) as [Hl|]; [|done].
  rewrite res_bind_Ok. intros ([v rest] & Hv & Hvs). rewrite res_bind_Ok in Hvs.
  destruct Hvs as (vs' & Hvs & [= <-]). constructor; [|by eapply IH].
  eapply decode_dyn_typed; [|done]. rewrite length_take. lia.
Qed.

Lemma unpack_no_crash tys payload : unpack tys payload ≠ Crash.
Proof.
  revert payload. induction tys as [|t tys IH]; intros payload; cbn [unpack]; [done|].
  case_match; [|done]. apply bind_no_crash; [destruct t; cbn; by try case_match|].
  intros [v rest] _. apply bind_no_crash; [apply IH|done].
Qed.

Lemma unpack_pack tys vs :
  Forall2 has_type vs tys → unpack tys (concat (encode_dyn <$> vs)) = Ok vs.
Proof.
  induction 1 as [|v t vs tys Hv _ IH]; [done|].
  destruct (decode_encode_dyn t v (concat (encode_dyn <$> vs)) Hv) as (w & tail & He & Hlen & Hdec).
  change (concat (encode_dyn <$> v :: vs)) with (encode_dyn v ++ concat (encode_dyn <$> vs)).
  rewrite He, <-app_assoc. cbn [unpack].
  rewrite (proj2 (Nat.leb_le _ _)) by (rewrite length_app; lia).
  rewrite take_app_length', drop_app_length', Hdec by done. cbn. by rewrite IH.
Qed.

Fixpoint position (table : error_table) (name : string) (i : Z) : Z * list dyn_type :=
  match table with
  | [] => (i, [])
  | (n, tys) :: r => if bool_decide (n = name) then (i, tys) else position r name (i + 1)
  end.

Definition errors_of (table : error_table) : @GoAbiErrors ethereum := {|
  abi_Arguments := list dyn_type;
  abi_Errors _ name := let '(i, tys) := position table name 1 in
    mkAbiError _ (word 4 i ++ zeros 28) tys;
  Arguments_Unpack := unpack;
  Bytes2Hex l := of_bytes l;
  Address_String a := of_bytes a
|}.

Lemma position_in table name tys i :
  NoDup table.*1 → (name, tys) ∈ table → (position table name i).2 = tys.
Proof.
  revert i. induction table as [|[n t] table IH]; intros i; cbn.
  { intros _ Hin. by apply elem_of_nil in Hin. }
  intros [Hn Hnd]%NoDup_cons [[= -> ->]|Hin]%elem_of_cons.
  - by rewrite bool_decide_true.
  - rewrite bool_decide_false; [by apply IH|]. intros ->. apply Hn.
    apply list_elem_of_fmap. by exists (name, tys).
Qed.

Lemma errors_laws table (abi : @abi_ABI ethereum) :
  NoDup table.*1 → @GoAbiErrorsLaws ethereum (errors_of table) abi table.
Proof.
  intros Hnd.
  apply (Build_GoAbiErrorsLaws _ _ _ _ (λ _ vs, concat (encode_dyn <$> vs))).
  - apply unpack_no_crash.
  - intros name tys payload values Hin. cbn.
    pose proof (position_in table name tys 1 Hnd Hin) as Hp.
    destruct (position table name 1) as [i tys']; cbn in *. subst. apply unpack_typed.
  - intros name tys values Hin. cbn. pose proof (position_in table name tys 1 Hnd Hin) as Hp.
    destruct (position table name 1) as [i tys']; cbn in *. subst. apply unpack_pack.
  - intros name tys _. cbn. destruct (position table name 1) as [i tys'].
    reflexivity.
  - intros a b Heq. cbn in *. by rewrite <-(to_of_bytes a), Heq, to_of_bytes.
Defined.
End ToyErrors.
