(* ===== verification/ParentVaultErrors.v ===== *)
(** * The errors of the parent vault

    The structs, decoders and [Error] methods of the errors in
    [cre/contracts/evm/src/generated/parent_vault/ParentVault.go], and [UnpackError]. *)

From S2P Require Import Prelude GoText BigInt Ethereum Runtime Bindings ParentVault AbiErrors.

#[local] Open Scope Z_scope.

Module parent_vault_errors.
Import parent_vault.
(** ** Structs *)
Record AccessControlBadConfirmation := mkAccessControlBadConfirmation {}.
Record AccessControlEnforcedDefaultAdminDelay := mkAccessControlEnforcedDefaultAdminDelay {
  AccessControlEnforcedDefaultAdminDelay_Schedule : bigint }.
Record AccessControlEnforcedDefaultAdminRules := mkAccessControlEnforcedDefaultAdminRules {}.
Record AccessControlInvalidDefaultAdmin := mkAccessControlInvalidDefaultAdmin {
  AccessControlInvalidDefaultAdmin_DefaultAdmin : Address }.
Record AccessControlUnauthorizedAccount := mkAccessControlUnauthorizedAccount {
  AccessControlUnauthorizedAccount_Account : Address;
  AccessControlUnauthorizedAccount_NeededRole : bytes }.
Record AddressEmptyCode := mkAddressEmptyCode { AddressEmptyCode_Target : Address }.
Record AllowlistUserNotAllowlisted := mkAllowlistUserNotAllowlisted {
  AllowlistUserNotAllowlisted_User : Address }.
Record BaseVaultDepositFailed := mkBaseVaultDepositFailed {
  BaseVaultDepositFailed_Amount : bigint }.
Record BaseVaultDestinationVaultNotSet := mkBaseVaultDestinationVaultNotSet {
  BaseVaultDestinationVaultNotSet_DestinationChainSelector : Z }.
Record BaseVaultEmptyInput := mkBaseVaultEmptyInput {}.
Record BaseVaultInvalidAdapterVault := mkBaseVaultInvalidAdapterVault {
  BaseVaultInvalidAdapterVault_Adapter : Address;
  BaseVaultInvalidAdapterVault_ActualVault : Address;
  BaseVaultInvalidAdapterVault_ExpectedVault : Address }.
Record BaseVaultInvalidDestinationChainSelector := mkBaseVaultInvalidDestinationChainSelector {
  BaseVaultInvalidDestinationChainSelector_DestinationChainSelector : Z }.
Record BaseVaultInvalidInputLengths := mkBaseVaultInvalidInputLengths {}.
Record BaseVaultInvalidReceivedToken := mkBaseVaultInvalidReceivedToken {
  BaseVaultInvalidReceivedToken_ReceivedToken : Address;
  BaseVaultInvalidReceivedToken_ExpectedToken : Address }.
Record BaseVaultInvalidSender := mkBaseVaultInvalidSender {
  BaseVaultInvalidSender_Sender : Address;
  BaseVaultInvalidSender_SrcChainSelector : Z }.
Record BaseVaultInvalidSourceChainSelector := mkBaseVaultInvalidSourceChainSelector {
  BaseVaultInvalidSourceChainSelector_SourceChainSelector : Z;
  BaseVaultInvalidSourceChainSelector_ExpectedSourceChainSelector : Z }.
Record BaseVaultInvalidTokenAmountsLength := mkBaseVaultInvalidTokenAmountsLength {
  BaseVaultInvalidTokenAmountsLength_ReceivedLength : bigint;
  BaseVaultInvalidTokenAmountsLength_ExpectedLength : bigint }.
Record BaseVaultInvalidTxType := mkBaseVaultInvalidTxType { BaseVaultInvalidTxType_CcipTxType : Z }.
Record BaseVaultNoActiveAdapter := mkBaseVaultNoActiveAdapter {}.
Record BaseVaultNoAdapterRegistered := mkBaseVaultNoAdapterRegistered {
  BaseVaultNoAdapterRegistered_ProtocolId : bytes }.
Record BaseVaultNoPendingRecovery := mkBaseVaultNoPendingRecovery {}.
Record BaseVaultNoZeroAddress := mkBaseVaultNoZeroAddress {}.
Record BaseVaultNoZeroAmount := mkBaseVaultNoZeroAmount {}.
Record BaseVaultNoZeroChainSelector := mkBaseVaultNoZeroChainSelector {}.
Record BaseVaultOnlySelf := mkBaseVaultOnlySelf {}.
Record BaseVaultRecoveryAlreadyPending := mkBaseVaultRecoveryAlreadyPending {}.
Record BaseVaultWithdrawFailed := mkBaseVaultWithdrawFailed {
  BaseVaultWithdrawFailed_Amount : bigint }.
Record BaseVaultZeroRecoveryAmount := mkBaseVaultZeroRecoveryAmount {}.
Record ERC1967InvalidImplementation := mkERC1967InvalidImplementation {
  ERC1967InvalidImplementation_Implementation : Address }.
Record ERC1967NonPayable := mkERC1967NonPayable {}.
Record EnforcedPause := mkEnforcedPause {}.
Record ExpectedPause := mkExpectedPause {}.
Record FailedCall := mkFailedCall {}.
Record InvalidInitialization := mkInvalidInitialization {}.
Record InvalidRouter := mkInvalidRouter { InvalidRouter_Router : Address }.
Record NotInitializing := mkNotInitializing {}.
Record ParentVaultAmountTooSmall := mkParentVaultAmountTooSmall {
  ParentVaultAmountTooSmall_Amount : bigint }.
Record ParentVaultCannotCompleteLocalRebalance := mkParentVaultCannotCompleteLocalRebalance {}.
Record ParentVaultCannotRemoveActiveProtocol := mkParentVaultCannotRemoveActiveProtocol {
  ParentVaultCannotRemoveActiveProtocol_ProtocolId : bytes }.
Record ParentVaultCannotRemovePendingProtocol := mkParentVaultCannotRemovePendingProtocol {
  ParentVaultCannotRemovePendingProtocol_ProtocolId : bytes }.
Record ParentVaultDepositWouldMintZeroShares := mkParentVaultDepositWouldMintZeroShares {}.
Record ParentVaultEmptyEpoch := mkParentVaultEmptyEpoch {
  ParentVaultEmptyEpoch_EpochNonce : bigint }.
Record ParentVaultEpochExecuting := mkParentVaultEpochExecuting {
  ParentVaultEpochExecuting_EpochNonce : bigint }.
Record ParentVaultEpochNotClaimable := mkParentVaultEpochNotClaimable {
  ParentVaultEpochNotClaimable_EpochNonce : bigint }.
Record ParentVaultEpochNotExecuting := mkParentVaultEpochNotExecuting {
  ParentVaultEpochNotExecuting_EpochNonce : bigint }.
Record ParentVaultEpochNotNetDeposit := mkParentVaultEpochNotNetDeposit {
  ParentVaultEpochNotNetDeposit_EpochNonce : bigint }.
Record ParentVaultEpochNotNetWithdraw := mkParentVaultEpochNotNetWithdraw {
  ParentVaultEpochNotNetWithdraw_EpochNonce : bigint }.
Record ParentVaultEpochNotOpen := mkParentVaultEpochNotOpen {
  ParentVaultEpochNotOpen_EpochNonce : bigint }.
Record ParentVaultEpochTooShort := mkParentVaultEpochTooShort {
  ParentVaultEpochTooShort_EpochNonce : bigint }.
Record ParentVaultInitialActiveProtocolAdapterAlreadySet := mkParentVaultInitialActiveProtocolAdapterAlreadySet {
   }.
Record ParentVaultInvalidActualDepositAmount := mkParentVaultInvalidActualDepositAmount {
  ParentVaultInvalidActualDepositAmount_ActualDepositAmount : bigint;
  ParentVaultInvalidActualDepositAmount_ExpectedDepositAmount : bigint }.
Record ParentVaultInvalidBeneficiary := mkParentVaultInvalidBeneficiary {}.
Record ParentVaultInvalidChainSelector := mkParentVaultInvalidChainSelector {
  ParentVaultInvalidChainSelector_ChainSelector : Z }.
Record ParentVaultInvalidEpochNonce := mkParentVaultInvalidEpochNonce {
  ParentVaultInvalidEpochNonce_EpochNonce : bigint }.
Record ParentVaultInvalidPendingProtocolId := mkParentVaultInvalidPendingProtocolId {
  ParentVaultInvalidPendingProtocolId_ProtocolId : bytes }.
Record ParentVaultInvalidProtocolId := mkParentVaultInvalidProtocolId {
  ParentVaultInvalidProtocolId_ProtocolId : bytes }.
Record ParentVaultInvalidRebalanceNonce := mkParentVaultInvalidRebalanceNonce {
  ParentVaultInvalidRebalanceNonce_RebalanceNonce : bigint }.
Record ParentVaultNoCompletedEpoch := mkParentVaultNoCompletedEpoch {}.
Record ParentVaultNoDeposit := mkParentVaultNoDeposit {
  ParentVaultNoDeposit_Depositor : Address;
  ParentVaultNoDeposit_EpochNonce : bigint }.
Record ParentVaultNoRebalanceInProgress := mkParentVaultNoRebalanceInProgress {}.
Record ParentVaultNoWithdraw := mkParentVaultNoWithdraw {
  ParentVaultNoWithdraw_Withdrawer : Address;
  ParentVaultNoWithdraw_EpochNonce : bigint }.
Record ParentVaultNoZeroAmount := mkParentVaultNoZeroAmount {}.
Record ParentVaultNoZeroProtocolId := mkParentVaultNoZeroProtocolId {}.
Record ParentVaultRebalanceInProgress := mkParentVaultRebalanceInProgress {}.
Record ParentVaultRebalanceTooSoon := mkParentVaultRebalanceTooSoon {
  ParentVaultRebalanceTooSoon_RebalanceNonce : bigint }.
Record ParentVaultRemoteWithdrawAmountTooSmall := mkParentVaultRemoteWithdrawAmountTooSmall {
  ParentVaultRemoteWithdrawAmountTooSmall_Amount : bigint }.
Record ParentVaultSameStrategy := mkParentVaultSameStrategy {}.
Record ParentVaultShareBurnWithZeroTotalShares := mkParentVaultShareBurnWithZeroTotalShares {}.
Record ParentVaultZeroPricePerShare := mkParentVaultZeroPricePerShare {}.
Record ParentVaultZeroTvlWithOutstandingShares := mkParentVaultZeroTvlWithOutstandingShares {}.
Record ReentrancyGuardReentrantCall := mkReentrancyGuardReentrantCall {}.
Record SafeCastOverflowedUintDowncast := mkSafeCastOverflowedUintDowncast {
  SafeCastOverflowedUintDowncast_Bits : Z;
  SafeCastOverflowedUintDowncast_Value : bigint }.
Record SafeERC20FailedOperation := mkSafeERC20FailedOperation {
  SafeERC20FailedOperation_Token : Address }.
Record UUPSUnauthorizedCallContext := mkUUPSUnauthorizedCallContext {}.
Record UUPSUnsupportedProxiableUUID := mkUUPSUnsupportedProxiableUUID {
  UUPSUnsupportedProxiableUUID_Slot : bytes }.

(** The value [UnpackError] returns as an [any]. *)
Inductive vault_error : Type :=
| EAccessControlBadConfirmation (e : AccessControlBadConfirmation)
| EAccessControlEnforcedDefaultAdminDelay (e : AccessControlEnforcedDefaultAdminDelay)
| EAccessControlEnforcedDefaultAdminRules (e : AccessControlEnforcedDefaultAdminRules)
| EAccessControlInvalidDefaultAdmin (e : AccessControlInvalidDefaultAdmin)
| EAccessControlUnauthorizedAccount (e : AccessControlUnauthorizedAccount)
| EAddressEmptyCode (e : AddressEmptyCode)
| EAllowlistUserNotAllowlisted (e : AllowlistUserNotAllowlisted)
| EBaseVaultDepositFailed (e : BaseVaultDepositFailed)
| EBaseVaultDestinationVaultNotSet (e : BaseVaultDestinationVaultNotSet)
| EBaseVaultEmptyInput (e : BaseVaultEmptyInput)
| EBaseVaultInvalidAdapterVault (e : BaseVaultInvalidAdapterVault)
| EBaseVaultInvalidDestinationChainSelector (e : BaseVaultInvalidDestinationChainSelector)
| EBaseVaultInvalidInputLengths (e : BaseVaultInvalidInputLengths)
| EBaseVaultInvalidReceivedToken (e : BaseVaultInvalidReceivedToken)
| EBaseVaultInvalidSender (e : BaseVaultInvalidSender)
| EBaseVaultInvalidSourceChainSelector (e : BaseVaultInvalidSourceChainSelector)
| EBaseVaultInvalidTokenAmountsLength (e : BaseVaultInvalidTokenAmountsLength)
| EBaseVaultInvalidTxType (e : BaseVaultInvalidTxType)
| EBaseVaultNoActiveAdapter (e : BaseVaultNoActiveAdapter)
| EBaseVaultNoAdapterRegistered (e : BaseVaultNoAdapterRegistered)
| EBaseVaultNoPendingRecovery (e : BaseVaultNoPendingRecovery)
| EBaseVaultNoZeroAddress (e : BaseVaultNoZeroAddress)
| EBaseVaultNoZeroAmount (e : BaseVaultNoZeroAmount)
| EBaseVaultNoZeroChainSelector (e : BaseVaultNoZeroChainSelector)
| EBaseVaultOnlySelf (e : BaseVaultOnlySelf)
| EBaseVaultRecoveryAlreadyPending (e : BaseVaultRecoveryAlreadyPending)
| EBaseVaultWithdrawFailed (e : BaseVaultWithdrawFailed)
| EBaseVaultZeroRecoveryAmount (e : BaseVaultZeroRecoveryAmount)
| EERC1967InvalidImplementation (e : ERC1967InvalidImplementation)
| EERC1967NonPayable (e : ERC1967NonPayable)
| EEnforcedPause (e : EnforcedPause)
| EExpectedPause (e : ExpectedPause)
| EFailedCall (e : FailedCall)
| EInvalidInitialization (e : InvalidInitialization)
| EInvalidRouter (e : InvalidRouter)
| ENotInitializing (e : NotInitializing)
| EParentVaultAmountTooSmall (e : ParentVaultAmountTooSmall)
| EParentVaultCannotCompleteLocalRebalance (e : ParentVaultCannotCompleteLocalRebalance)
| EParentVaultCannotRemoveActiveProtocol (e : ParentVaultCannotRemoveActiveProtocol)
| EParentVaultCannotRemovePendingProtocol (e : ParentVaultCannotRemovePendingProtocol)
| EParentVaultDepositWouldMintZeroShares (e : ParentVaultDepositWouldMintZeroShares)
| EParentVaultEmptyEpoch (e : ParentVaultEmptyEpoch)
| EParentVaultEpochExecuting (e : ParentVaultEpochExecuting)
| EParentVaultEpochNotClaimable (e : ParentVaultEpochNotClaimable)
| EParentVaultEpochNotExecuting (e : ParentVaultEpochNotExecuting)
| EParentVaultEpochNotNetDeposit (e : ParentVaultEpochNotNetDeposit)
| EParentVaultEpochNotNetWithdraw (e : ParentVaultEpochNotNetWithdraw)
| EParentVaultEpochNotOpen (e : ParentVaultEpochNotOpen)
| EParentVaultEpochTooShort (e : ParentVaultEpochTooShort)
| EParentVaultInitialActiveProtocolAdapterAlreadySet (e : ParentVaultInitialActiveProtocolAdapterAlreadySet)
| EParentVaultInvalidActualDepositAmount (e : ParentVaultInvalidActualDepositAmount)
| EParentVaultInvalidBeneficiary (e : ParentVaultInvalidBeneficiary)
| EParentVaultInvalidChainSelector (e : ParentVaultInvalidChainSelector)
| EParentVaultInvalidEpochNonce (e : ParentVaultInvalidEpochNonce)
| EParentVaultInvalidPendingProtocolId (e : ParentVaultInvalidPendingProtocolId)
| EParentVaultInvalidProtocolId (e : ParentVaultInvalidProtocolId)
| EParentVaultInvalidRebalanceNonce (e : ParentVaultInvalidRebalanceNonce)
| EParentVaultNoCompletedEpoch (e : ParentVaultNoCompletedEpoch)
| EParentVaultNoDeposit (e : ParentVaultNoDeposit)
| EParentVaultNoRebalanceInProgress (e : ParentVaultNoRebalanceInProgress)
| EParentVaultNoWithdraw (e : ParentVaultNoWithdraw)
| EParentVaultNoZeroAmount (e : ParentVaultNoZeroAmount)
| EParentVaultNoZeroProtocolId (e : ParentVaultNoZeroProtocolId)
| EParentVaultRebalanceInProgress (e : ParentVaultRebalanceInProgress)
| EParentVaultRebalanceTooSoon (e : ParentVaultRebalanceTooSoon)
| EParentVaultRemoteWithdrawAmountTooSmall (e : ParentVaultRemoteWithdrawAmountTooSmall)
| EParentVaultSameStrategy (e : ParentVaultSameStrategy)
| EParentVaultShareBurnWithZeroTotalShares (e : ParentVaultShareBurnWithZeroTotalShares)
| EParentVaultZeroPricePerShare (e : ParentVaultZeroPricePerShare)
| EParentVaultZeroTvlWithOutstandingShares (e : ParentVaultZeroTvlWithOutstandingShares)
| EReentrancyGuardReentrantCall (e : ReentrancyGuardReentrantCall)
| ESafeCastOverflowedUintDowncast (e : SafeCastOverflowedUintDowncast)
| ESafeERC20FailedOperation (e : SafeERC20FailedOperation)
| EUUPSUnauthorizedCallContext (e : UUPSUnauthorizedCallContext)
| EUUPSUnsupportedProxiableUUID (e : UUPSUnsupportedProxiableUUID).

(** The errors of the metadata, with the Go types of their inputs. *)
Definition errors : error_table :=
  [("AccessControlBadConfirmation"%string, []);
   ("AccessControlEnforcedDefaultAdminDelay"%string, [TBig]);
   ("AccessControlEnforcedDefaultAdminRules"%string, []);
   ("AccessControlInvalidDefaultAdmin"%string, [TAddress]);
   ("AccessControlUnauthorizedAccount"%string, [TAddress; TBytes32]);
   ("AddressEmptyCode"%string, [TAddress]);
   ("Allowlist__UserNotAllowlisted"%string, [TAddress]);
   ("BaseVault__DepositFailed"%string, [TBig]);
   ("BaseVault__DestinationVaultNotSet"%string, [TUint64]);
   ("BaseVault__EmptyInput"%string, []);
   ("BaseVault__InvalidAdapterVault"%string, [TAddress; TAddress; TAddress]);
   ("BaseVault__InvalidDestinationChainSelector"%string, [TUint64]);
   ("BaseVault__InvalidInputLengths"%string, []);
   ("BaseVault__InvalidReceivedToken"%string, [TAddress; TAddress]);
   ("BaseVault__InvalidSender"%string, [TAddress; TUint64]);
   ("BaseVault__InvalidSourceChainSelector"%string, [TUint64; TUint64]);
   ("BaseVault__InvalidTokenAmountsLength"%string, [TBig; TBig]);
   ("BaseVault__InvalidTxType"%string, [TUint8]);
   ("BaseVault__NoActiveAdapter"%string, []);
   ("BaseVault__NoAdapterRegistered"%string, [TBytes32]);
   ("BaseVault__NoPendingRecovery"%string, []);
   ("BaseVault__NoZeroAddress"%string, []);
   ("BaseVault__NoZeroAmount"%string, []);
   ("BaseVault__NoZeroChainSelector"%string, []);
   ("BaseVault__OnlySelf"%string, []);
   ("BaseVault__RecoveryAlreadyPending"%string, []);
   ("BaseVault__WithdrawFailed"%string, [TBig]);
   ("BaseVault__ZeroRecoveryAmount"%string, []);
   ("ERC1967InvalidImplementation"%string, [TAddress]);
   ("ERC1967NonPayable"%string, []);
   ("EnforcedPause"%string, []);
   ("ExpectedPause"%string, []);
   ("FailedCall"%string, []);
   ("InvalidInitialization"%string, []);
   ("InvalidRouter"%string, [TAddress]);
   ("NotInitializing"%string, []);
   ("ParentVault__AmountTooSmall"%string, [TBig]);
   ("ParentVault__CannotCompleteLocalRebalance"%string, []);
   ("ParentVault__CannotRemoveActiveProtocol"%string, [TBytes32]);
   ("ParentVault__CannotRemovePendingProtocol"%string, [TBytes32]);
   ("ParentVault__DepositWouldMintZeroShares"%string, []);
   ("ParentVault__EmptyEpoch"%string, [TBig]);
   ("ParentVault__EpochExecuting"%string, [TBig]);
   ("ParentVault__EpochNotClaimable"%string, [TBig]);
   ("ParentVault__EpochNotExecuting"%string, [TBig]);
   ("ParentVault__EpochNotNetDeposit"%string, [TBig]);
   ("ParentVault__EpochNotNetWithdraw"%string, [TBig]);
   ("ParentVault__EpochNotOpen"%string, [TBig]);
   ("ParentVault__EpochTooShort"%string, [TBig]);
   ("ParentVault__InitialActiveProtocolAdapterAlreadySet"%string, []);
   ("ParentVault__InvalidActualDepositAmount"%string, [TBig; TBig]);
   ("ParentVault__InvalidBeneficiary"%string, []);
   ("ParentVault__InvalidChainSelector"%string, [TUint64]);
   ("ParentVault__InvalidEpochNonce"%string, [TBig]);
   ("ParentVault__InvalidPendingProtocolId"%string, [TBytes32]);
   ("ParentVault__InvalidProtocolId"%string, [TBytes32]);
   ("ParentVault__InvalidRebalanceNonce"%string, [TBig]);
   ("ParentVault__NoCompletedEpoch"%string, []);
   ("ParentVault__NoDeposit"%string, [TAddress; TBig]);
   ("ParentVault__NoRebalanceInProgress"%string, []);
   ("ParentVault__NoWithdraw"%string, [TAddress; TBig]);
   ("ParentVault__NoZeroAmount"%string, []);
   ("ParentVault__NoZeroProtocolId"%string, []);
   ("ParentVault__RebalanceInProgress"%string, []);
   ("ParentVault__RebalanceTooSoon"%string, [TBig]);
   ("ParentVault__RemoteWithdrawAmountTooSmall"%string, [TBig]);
   ("ParentVault__SameStrategy"%string, []);
   ("ParentVault__ShareBurnWithZeroTotalShares"%string, []);
   ("ParentVault__ZeroPricePerShare"%string, []);
   ("ParentVault__ZeroTvlWithOutstandingShares"%string, []);
   ("ReentrancyGuardReentrantCall"%string, []);
   ("SafeCastOverflowedUintDowncast"%string, [TUint8; TBig]);
   ("SafeERC20FailedOperation"%string, [TAddress]);
   ("UUPSUnauthorizedCallContext"%string, []);
   ("UUPSUnsupportedProxiableUUID"%string, [TBytes32])].

Section Decoders.
Context `{GoAbiErrors}.

(** ** Decoders *)
Definition DecodeAccessControlBadConfirmationError (c : ParentVault) (data : slice)
    : res AccessControlBadConfirmation :=
  _ ← unpack_values (vault_ABI c) "AccessControlBadConfirmation" 0 data;
  Ok mkAccessControlBadConfirmation.
Definition DecodeAccessControlEnforcedDefaultAdminDelayError (c : ParentVault) (data : slice)
    : res AccessControlEnforcedDefaultAdminDelay :=
  values ← unpack_values (vault_ABI c) "AccessControlEnforcedDefaultAdminDelay" 1 data;
  schedule ← assert_value to_big "schedule" "AccessControlEnforcedDefaultAdminDelay" values 0;
  Ok (mkAccessControlEnforcedDefaultAdminDelay schedule).
Definition DecodeAccessControlEnforcedDefaultAdminRulesError (c : ParentVault) (data : slice)
    : res AccessControlEnforcedDefaultAdminRules :=
  _ ← unpack_values (vault_ABI c) "AccessControlEnforcedDefaultAdminRules" 0 data;
  Ok mkAccessControlEnforcedDefaultAdminRules.
Definition DecodeAccessControlInvalidDefaultAdminError (c : ParentVault) (data : slice)
    : res AccessControlInvalidDefaultAdmin :=
  values ← unpack_values (vault_ABI c) "AccessControlInvalidDefaultAdmin" 1 data;
  defaultAdmin ← assert_value to_address "defaultAdmin" "AccessControlInvalidDefaultAdmin" values 0;
  Ok (mkAccessControlInvalidDefaultAdmin defaultAdmin).
Definition DecodeAccessControlUnauthorizedAccountError (c : ParentVault) (data : slice)
    : res AccessControlUnauthorizedAccount :=
  values ← unpack_values (vault_ABI c) "AccessControlUnauthorizedAccount" 2 data;
  account ← assert_value to_address "account" "AccessControlUnauthorizedAccount" values 0;
  neededRole ← assert_value to_bytes32 "neededRole" "AccessControlUnauthorizedAccount" values 1;
  Ok (mkAccessControlUnauthorizedAccount account neededRole).
Definition DecodeAddressEmptyCodeError (c : ParentVault) (data : slice)
    : res AddressEmptyCode :=
  values ← unpack_values (vault_ABI c) "AddressEmptyCode" 1 data;
  target ← assert_value to_address "target" "AddressEmptyCode" values 0;
  Ok (mkAddressEmptyCode target).
Definition DecodeAllowlistUserNotAllowlistedError (c : ParentVault) (data : slice)
    : res AllowlistUserNotAllowlisted :=
  values ← unpack_values (vault_ABI c) "Allowlist__UserNotAllowlisted" 1 data;
  user ← assert_value to_address "user" "AllowlistUserNotAllowlisted" values 0;
  Ok (mkAllowlistUserNotAllowlisted user).
Definition DecodeBaseVaultDepositFailedError (c : ParentVault) (data : slice)
    : res BaseVaultDepositFailed :=
  values ← unpack_values (vault_ABI c) "BaseVault__DepositFailed" 1 data;
  amount ← assert_value to_big "amount" "BaseVaultDepositFailed" values 0;
  Ok (mkBaseVaultDepositFailed amount).
Definition DecodeBaseVaultDestinationVaultNotSetError (c : ParentVault) (data : slice)
    : res BaseVaultDestinationVaultNotSet :=
  values ← unpack_values (vault_ABI c) "BaseVault__DestinationVaultNotSet" 1 data;
  destinationChainSelector ← assert_value to_uint64 "destinationChainSelector" "BaseVaultDestinationVaultNotSet" values 0;
  Ok (mkBaseVaultDestinationVaultNotSet destinationChainSelector).
Definition DecodeBaseVaultEmptyInputError (c : ParentVault) (data : slice)
    : res BaseVaultEmptyInput :=
  _ ← unpack_values (vault_ABI c) "BaseVault__EmptyInput" 0 data;
  Ok mkBaseVaultEmptyInput.
Definition DecodeBaseVaultInvalidAdapterVaultError (c : ParentVault) (data : slice)
    : res BaseVaultInvalidAdapterVault :=
  values ← unpack_values (vault_ABI c) "BaseVault__InvalidAdapterVault" 3 data;
  adapter ← assert_value to_address "adapter" "BaseVaultInvalidAdapterVault" values 0;
  actualVault ← assert_value to_address "actualVault" "BaseVaultInvalidAdapterVault" values 1;
  expectedVault ← assert_value to_address "expectedVault" "BaseVaultInvalidAdapterVault" values 2;
  Ok (mkBaseVaultInvalidAdapterVault adapter actualVault expectedVault).
Definition DecodeBaseVaultInvalidDestinationChainSelectorError (c : ParentVault) (data : slice)
    : res BaseVaultInvalidDestinationChainSelector :=
  values ← unpack_values (vault_ABI c) "BaseVault__InvalidDestinationChainSelector" 1 data;
  destinationChainSelector ← assert_value to_uint64 "destinationChainSelector" "BaseVaultInvalidDestinationChainSelector" values 0;
  Ok (mkBaseVaultInvalidDestinationChainSelector destinationChainSelector).
Definition DecodeBaseVaultInvalidInputLengthsError (c : ParentVault) (data : slice)
    : res BaseVaultInvalidInputLengths :=
  _ ← unpack_values (vault_ABI c) "BaseVault__InvalidInputLengths" 0 data;
  Ok mkBaseVaultInvalidInputLengths.
Definition DecodeBaseVaultInvalidReceivedTokenError (c : ParentVault) (data : slice)
    : res BaseVaultInvalidReceivedToken :=
  values ← unpack_values (vault_ABI c) "BaseVault__InvalidReceivedToken" 2 data;
  receivedToken ← assert_value to_address "receivedToken" "BaseVaultInvalidReceivedToken" values 0;
  expectedToken ← assert_value to_address "expectedToken" "BaseVaultInvalidReceivedToken" values 1;
  Ok (mkBaseVaultInvalidReceivedToken receivedToken expectedToken).
Definition DecodeBaseVaultInvalidSenderError (c : ParentVault) (data : slice)
    : res BaseVaultInvalidSender :=
  values ← unpack_values (vault_ABI c) "BaseVault__InvalidSender" 2 data;
  sender ← assert_value to_address "sender" "BaseVaultInvalidSender" values 0;
  srcChainSelector ← assert_value to_uint64 "srcChainSelector" "BaseVaultInvalidSender" values 1;
  Ok (mkBaseVaultInvalidSender sender srcChainSelector).
Definition DecodeBaseVaultInvalidSourceChainSelectorError (c : ParentVault) (data : slice)
    : res BaseVaultInvalidSourceChainSelector :=
  values ← unpack_values (vault_ABI c) "BaseVault__InvalidSourceChainSelector" 2 data;
  sourceChainSelector ← assert_value to_uint64 "sourceChainSelector" "BaseVaultInvalidSourceChainSelector" values 0;
  expectedSourceChainSelector ← assert_value to_uint64 "expectedSourceChainSelector" "BaseVaultInvalidSourceChainSelector" values 1;
  Ok (mkBaseVaultInvalidSourceChainSelector sourceChainSelector expectedSourceChainSelector).
Definition DecodeBaseVaultInvalidTokenAmountsLengthError (c : ParentVault) (data : slice)
    : res BaseVaultInvalidTokenAmountsLength :=
  values ← unpack_values (vault_ABI c) "BaseVault__InvalidTokenAmountsLength" 2 data;
  receivedLength ← assert_value to_big "receivedLength" "BaseVaultInvalidTokenAmountsLength" values 0;
  expectedLength ← assert_value to_big "expectedLength" "BaseVaultInvalidTokenAmountsLength" values 1;
  Ok (mkBaseVaultInvalidTokenAmountsLength receivedLength expectedLength).
Definition DecodeBaseVaultInvalidTxTypeError (c : ParentVault) (data : slice)
    : res BaseVaultInvalidTxType :=
  values ← unpack_values (vault_ABI c) "BaseVault__InvalidTxType" 1 data;
  ccipTxType ← assert_value to_uint8 "ccipTxType" "BaseVaultInvalidTxType" values 0;
  Ok (mkBaseVaultInvalidTxType ccipTxType).
Definition DecodeBaseVaultNoActiveAdapterError (c : ParentVault) (data : slice)
    : res BaseVaultNoActiveAdapter :=
  _ ← unpack_values (vault_ABI c) "BaseVault__NoActiveAdapter" 0 data;
  Ok mkBaseVaultNoActiveAdapter.
Definition DecodeBaseVaultNoAdapterRegisteredError (c : ParentVault) (data : slice)
    : res BaseVaultNoAdapterRegistered :=
  values ← unpack_values (vault_ABI c) "BaseVault__NoAdapterRegistered" 1 data;
  protocolId ← assert_value to_bytes32 "protocolId" "BaseVaultNoAdapterRegistered" values 0;
  Ok (mkBaseVaultNoAdapterRegistered protocolId).
Definition DecodeBaseVaultNoPendingRecoveryError (c : ParentVault) (data : slice)
    : res BaseVaultNoPendingRecovery :=
  _ ← unpack_values (vault_ABI c) "BaseVault__NoPendingRecovery" 0 data;
  Ok mkBaseVaultNoPendingRecovery.
Definition DecodeBaseVaultNoZeroAddressError (c : ParentVault) (data : slice)
    : res BaseVaultNoZeroAddress :=
  _ ← unpack_values (vault_ABI c) "BaseVault__NoZeroAddress" 0 data;
  Ok mkBaseVaultNoZeroAddress.
Definition DecodeBaseVaultNoZeroAmountError (c : ParentVault) (data : slice)
    : res BaseVaultNoZeroAmount :=
  _ ← unpack_values (vault_ABI c) "BaseVault__NoZeroAmount" 0 data;
  Ok mkBaseVaultNoZeroAmount.
Definition DecodeBaseVaultNoZeroChainSelectorError (c : ParentVault) (data : slice)
    : res BaseVaultNoZeroChainSelector :=
  _ ← unpack_values (vault_ABI c) "BaseVault__NoZeroChainSelector" 0 data;
  Ok mkBaseVaultNoZeroChainSelector.
Definition DecodeBaseVaultOnlySelfError (c : ParentVault) (data : slice)
    : res BaseVaultOnlySelf :=
  _ ← unpack_values (vault_ABI c) "BaseVault__OnlySelf" 0 data;
  Ok mkBaseVaultOnlySelf.
Definition DecodeBaseVaultRecoveryAlreadyPendingError (c : ParentVault) (data : slice)
    : res BaseVaultRecoveryAlreadyPending :=
  _ ← unpack_values (vault_ABI c) "BaseVault__RecoveryAlreadyPending" 0 data;
  Ok mkBaseVaultRecoveryAlreadyPending.
Definition DecodeBaseVaultWithdrawFailedError (c : ParentVault) (data : slice)
    : res BaseVaultWithdrawFailed :=
  values ← unpack_values (vault_ABI c) "BaseVault__WithdrawFailed" 1 data;
  amount ← assert_value to_big "amount" "BaseVaultWithdrawFailed" values 0;
  Ok (mkBaseVaultWithdrawFailed amount).
Definition DecodeBaseVaultZeroRecoveryAmountError (c : ParentVault) (data : slice)
    : res BaseVaultZeroRecoveryAmount :=
  _ ← unpack_values (vault_ABI c) "BaseVault__ZeroRecoveryAmount" 0 data;
  Ok mkBaseVaultZeroRecoveryAmount.
Definition DecodeERC1967InvalidImplementationError (c : ParentVault) (data : slice)
    : res ERC1967InvalidImplementation :=
  values ← unpack_values (vault_ABI c) "ERC1967InvalidImplementation" 1 data;
  implementation ← assert_value to_address "implementation" "ERC1967InvalidImplementation" values 0;
  Ok (mkERC1967InvalidImplementation implementation).
Definition DecodeERC1967NonPayableError (c : ParentVault) (data : slice)
    : res ERC1967NonPayable :=
  _ ← unpack_values (vault_ABI c) "ERC1967NonPayable" 0 data;
  Ok mkERC1967NonPayable.
Definition DecodeEnforcedPauseError (c : ParentVault) (data : slice)
    : res EnforcedPause :=
  _ ← unpack_values (vault_ABI c) "EnforcedPause" 0 data;
  Ok mkEnforcedPause.
Definition DecodeExpectedPauseError (c : ParentVault) (data : slice)
    : res ExpectedPause :=
  _ ← unpack_values (vault_ABI c) "ExpectedPause" 0 data;
  Ok mkExpectedPause.
Definition DecodeFailedCallError (c : ParentVault) (data : slice)
    : res FailedCall :=
  _ ← unpack_values (vault_ABI c) "FailedCall" 0 data;
  Ok mkFailedCall.
Definition DecodeInvalidInitializationError (c : ParentVault) (data : slice)
    : res InvalidInitialization :=
  _ ← unpack_values (vault_ABI c) "InvalidInitialization" 0 data;
  Ok mkInvalidInitialization.
Definition DecodeInvalidRouterError (c : ParentVault) (data : slice)
    : res InvalidRouter :=
  values ← unpack_values (vault_ABI c) "InvalidRouter" 1 data;
  router ← assert_value to_address "router" "InvalidRouter" values 0;
  Ok (mkInvalidRouter router).
Definition DecodeNotInitializingError (c : ParentVault) (data : slice)
    : res NotInitializing :=
  _ ← unpack_values (vault_ABI c) "NotInitializing" 0 data;
  Ok mkNotInitializing.
Definition DecodeParentVaultAmountTooSmallError (c : ParentVault) (data : slice)
    : res ParentVaultAmountTooSmall :=
  values ← unpack_values (vault_ABI c) "ParentVault__AmountTooSmall" 1 data;
  amount ← assert_value to_big "amount" "ParentVaultAmountTooSmall" values 0;
  Ok (mkParentVaultAmountTooSmall amount).
Definition DecodeParentVaultCannotCompleteLocalRebalanceError (c : ParentVault) (data : slice)
    : res ParentVaultCannotCompleteLocalRebalance :=
  _ ← unpack_values (vault_ABI c) "ParentVault__CannotCompleteLocalRebalance" 0 data;
  Ok mkParentVaultCannotCompleteLocalRebalance.
Definition DecodeParentVaultCannotRemoveActiveProtocolError (c : ParentVault) (data : slice)
    : res ParentVaultCannotRemoveActiveProtocol :=
  values ← unpack_values (vault_ABI c) "ParentVault__CannotRemoveActiveProtocol" 1 data;
  protocolId ← assert_value to_bytes32 "protocolId" "ParentVaultCannotRemoveActiveProtocol" values 0;
  Ok (mkParentVaultCannotRemoveActiveProtocol protocolId).
Definition DecodeParentVaultCannotRemovePendingProtocolError (c : ParentVault) (data : slice)
    : res ParentVaultCannotRemovePendingProtocol :=
  values ← unpack_values (vault_ABI c) "ParentVault__CannotRemovePendingProtocol" 1 data;
  protocolId ← assert_value to_bytes32 "protocolId" "ParentVaultCannotRemovePendingProtocol" values 0;
  Ok (mkParentVaultCannotRemovePendingProtocol protocolId).
Definition DecodeParentVaultDepositWouldMintZeroSharesError (c : ParentVault) (data : slice)
    : res ParentVaultDepositWouldMintZeroShares :=
  _ ← unpack_values (vault_ABI c) "ParentVault__DepositWouldMintZeroShares" 0 data;
  Ok mkParentVaultDepositWouldMintZeroShares.
Definition DecodeParentVaultEmptyEpochError (c : ParentVault) (data : slice)
    : res ParentVaultEmptyEpoch :=
  values ← unpack_values (vault_ABI c) "ParentVault__EmptyEpoch" 1 data;
  epochNonce ← assert_value to_big "epochNonce" "ParentVaultEmptyEpoch" values 0;
  Ok (mkParentVaultEmptyEpoch epochNonce).
Definition DecodeParentVaultEpochExecutingError (c : ParentVault) (data : slice)
    : res ParentVaultEpochExecuting :=
  values ← unpack_values (vault_ABI c) "ParentVault__EpochExecuting" 1 data;
  epochNonce ← assert_value to_big "epochNonce" "ParentVaultEpochExecuting" values 0;
  Ok (mkParentVaultEpochExecuting epochNonce).
Definition DecodeParentVaultEpochNotClaimableError (c : ParentVault) (data : slice)
    : res ParentVaultEpochNotClaimable :=
  values ← unpack_values (vault_ABI c) "ParentVault__EpochNotClaimable" 1 data;
  epochNonce ← assert_value to_big "epochNonce" "ParentVaultEpochNotClaimable" values 0;
  Ok (mkParentVaultEpochNotClaimable epochNonce).
Definition DecodeParentVaultEpochNotExecutingError (c : ParentVault) (data : slice)
    : res ParentVaultEpochNotExecuting :=
  values ← unpack_values (vault_ABI c) "ParentVault__EpochNotExecuting" 1 data;
  epochNonce ← assert_value to_big "epochNonce" "ParentVaultEpochNotExecuting" values 0;
  Ok (mkParentVaultEpochNotExecuting epochNonce).
Definition DecodeParentVaultEpochNotNetDepositError (c : ParentVault) (data : slice)
    : res ParentVaultEpochNotNetDeposit :=
  values ← unpack_values (vault_ABI c) "ParentVault__EpochNotNetDeposit" 1 data;
  epochNonce ← assert_value to_big "epochNonce" "ParentVaultEpochNotNetDeposit" values 0;
  Ok (mkParentVaultEpochNotNetDeposit epochNonce).
Definition DecodeParentVaultEpochNotNetWithdrawError (c : ParentVault) (data : slice)
    : res ParentVaultEpochNotNetWithdraw :=
  values ← unpack_values (vault_ABI c) "ParentVault__EpochNotNetWithdraw" 1 data;
  epochNonce ← assert_value to_big "epochNonce" "ParentVaultEpochNotNetWithdraw" values 0;
  Ok (mkParentVaultEpochNotNetWithdraw epochNonce).
Definition DecodeParentVaultEpochNotOpenError (c : ParentVault) (data : slice)
    : res ParentVaultEpochNotOpen :=
  values ← unpack_values (vault_ABI c) "ParentVault__EpochNotOpen" 1 data;
  epochNonce ← assert_value to_big "epochNonce" "ParentVaultEpochNotOpen" values 0;
  Ok (mkParentVaultEpochNotOpen epochNonce).
Definition DecodeParentVaultEpochTooShortError (c : ParentVault) (data : slice)
    : res ParentVaultEpochTooShort :=
  values ← unpack_values (vault_ABI c) "ParentVault__EpochTooShort" 1 data;
  epochNonce ← assert_value to_big "epochNonce" "ParentVaultEpochTooShort" values 0;
  Ok (mkParentVaultEpochTooShort epochNonce).
Definition DecodeParentVaultInitialActiveProtocolAdapterAlreadySetError (c : ParentVault) (data : slice)
    : res ParentVaultInitialActiveProtocolAdapterAlreadySet :=
  _ ← unpack_values (vault_ABI c) "ParentVault__InitialActiveProtocolAdapterAlreadySet" 0 data;
  Ok mkParentVaultInitialActiveProtocolAdapterAlreadySet.
Definition DecodeParentVaultInvalidActualDepositAmountError (c : ParentVault) (data : slice)
    : res ParentVaultInvalidActualDepositAmount :=
  values ← unpack_values (vault_ABI c) "ParentVault__InvalidActualDepositAmount" 2 data;
  actualDepositAmount ← assert_value to_big "actualDepositAmount" "ParentVaultInvalidActualDepositAmount" values 0;
  expectedDepositAmount ← assert_value to_big "expectedDepositAmount" "ParentVaultInvalidActualDepositAmount" values 1;
  Ok (mkParentVaultInvalidActualDepositAmount actualDepositAmount expectedDepositAmount).
Definition DecodeParentVaultInvalidBeneficiaryError (c : ParentVault) (data : slice)
    : res ParentVaultInvalidBeneficiary :=
  _ ← unpack_values (vault_ABI c) "ParentVault__InvalidBeneficiary" 0 data;
  Ok mkParentVaultInvalidBeneficiary.
Definition DecodeParentVaultInvalidChainSelectorError (c : ParentVault) (data : slice)
    : res ParentVaultInvalidChainSelector :=
  values ← unpack_values (vault_ABI c) "ParentVault__InvalidChainSelector" 1 data;
  chainSelector ← assert_value to_uint64 "chainSelector" "ParentVaultInvalidChainSelector" values 0;
  Ok (mkParentVaultInvalidChainSelector chainSelector).
Definition DecodeParentVaultInvalidEpochNonceError (c : ParentVault) (data : slice)
    : res ParentVaultInvalidEpochNonce :=
  values ← unpack_values (vault_ABI c) "ParentVault__InvalidEpochNonce" 1 data;
  epochNonce ← assert_value to_big "epochNonce" "ParentVaultInvalidEpochNonce" values 0;
  Ok (mkParentVaultInvalidEpochNonce epochNonce).
Definition DecodeParentVaultInvalidPendingProtocolIdError (c : ParentVault) (data : slice)
    : res ParentVaultInvalidPendingProtocolId :=
  values ← unpack_values (vault_ABI c) "ParentVault__InvalidPendingProtocolId" 1 data;
  protocolId ← assert_value to_bytes32 "protocolId" "ParentVaultInvalidPendingProtocolId" values 0;
  Ok (mkParentVaultInvalidPendingProtocolId protocolId).
Definition DecodeParentVaultInvalidProtocolIdError (c : ParentVault) (data : slice)
    : res ParentVaultInvalidProtocolId :=
  values ← unpack_values (vault_ABI c) "ParentVault__InvalidProtocolId" 1 data;
  protocolId ← assert_value to_bytes32 "protocolId" "ParentVaultInvalidProtocolId" values 0;
  Ok (mkParentVaultInvalidProtocolId protocolId).
Definition DecodeParentVaultInvalidRebalanceNonceError (c : ParentVault) (data : slice)
    : res ParentVaultInvalidRebalanceNonce :=
  values ← unpack_values (vault_ABI c) "ParentVault__InvalidRebalanceNonce" 1 data;
  rebalanceNonce ← assert_value to_big "rebalanceNonce" "ParentVaultInvalidRebalanceNonce" values 0;
  Ok (mkParentVaultInvalidRebalanceNonce rebalanceNonce).
Definition DecodeParentVaultNoCompletedEpochError (c : ParentVault) (data : slice)
    : res ParentVaultNoCompletedEpoch :=
  _ ← unpack_values (vault_ABI c) "ParentVault__NoCompletedEpoch" 0 data;
  Ok mkParentVaultNoCompletedEpoch.
Definition DecodeParentVaultNoDepositError (c : ParentVault) (data : slice)
    : res ParentVaultNoDeposit :=
  values ← unpack_values (vault_ABI c) "ParentVault__NoDeposit" 2 data;
  depositor ← assert_value to_address "depositor" "ParentVaultNoDeposit" values 0;
  epochNonce ← assert_value to_big "epochNonce" "ParentVaultNoDeposit" values 1;
  Ok (mkParentVaultNoDeposit depositor epochNonce).
Definition DecodeParentVaultNoRebalanceInProgressError (c : ParentVault) (data : slice)
    : res ParentVaultNoRebalanceInProgress :=
  _ ← unpack_values (vault_ABI c) "ParentVault__NoRebalanceInProgress" 0 data;
  Ok mkParentVaultNoRebalanceInProgress.
Definition DecodeParentVaultNoWithdrawError (c : ParentVault) (data : slice)
    : res ParentVaultNoWithdraw :=
  values ← unpack_values (vault_ABI c) "ParentVault__NoWithdraw" 2 data;
  withdrawer ← assert_value to_address "withdrawer" "ParentVaultNoWithdraw" values 0;
  epochNonce ← assert_value to_big "epochNonce" "ParentVaultNoWithdraw" values 1;
  Ok (mkParentVaultNoWithdraw withdrawer epochNonce).
Definition DecodeParentVaultNoZeroAmountError (c : ParentVault) (data : slice)
    : res ParentVaultNoZeroAmount :=
  _ ← unpack_values (vault_ABI c) "ParentVault__NoZeroAmount" 0 data;
  Ok mkParentVaultNoZeroAmount.
Definition DecodeParentVaultNoZeroProtocolIdError (c : ParentVault) (data : slice)
    : res ParentVaultNoZeroProtocolId :=
  _ ← unpack_values (vault_ABI c) "ParentVault__NoZeroProtocolId" 0 data;
  Ok mkParentVaultNoZeroProtocolId.
Definition DecodeParentVaultRebalanceInProgressError (c : ParentVault) (data : slice)
    : res ParentVaultRebalanceInProgress :=
  _ ← unpack_values (vault_ABI c) "ParentVault__RebalanceInProgress" 0 data;
  Ok mkParentVaultRebalanceInProgress.
Definition DecodeParentVaultRebalanceTooSoonError (c : ParentVault) (data : slice)
    : res ParentVaultRebalanceTooSoon :=
  values ← unpack_values (vault_ABI c) "ParentVault__RebalanceTooSoon" 1 data;
  rebalanceNonce ← assert_value to_big "rebalanceNonce" "ParentVaultRebalanceTooSoon" values 0;
  Ok (mkParentVaultRebalanceTooSoon rebalanceNonce).
Definition DecodeParentVaultRemoteWithdrawAmountTooSmallError (c : ParentVault) (data : slice)
    : res ParentVaultRemoteWithdrawAmountTooSmall :=
  values ← unpack_values (vault_ABI c) "ParentVault__RemoteWithdrawAmountTooSmall" 1 data;
  amount ← assert_value to_big "amount" "ParentVaultRemoteWithdrawAmountTooSmall" values 0;
  Ok (mkParentVaultRemoteWithdrawAmountTooSmall amount).
Definition DecodeParentVaultSameStrategyError (c : ParentVault) (data : slice)
    : res ParentVaultSameStrategy :=
  _ ← unpack_values (vault_ABI c) "ParentVault__SameStrategy" 0 data;
  Ok mkParentVaultSameStrategy.
Definition DecodeParentVaultShareBurnWithZeroTotalSharesError (c : ParentVault) (data : slice)
    : res ParentVaultShareBurnWithZeroTotalShares :=
  _ ← unpack_values (vault_ABI c) "ParentVault__ShareBurnWithZeroTotalShares" 0 data;
  Ok mkParentVaultShareBurnWithZeroTotalShares.
Definition DecodeParentVaultZeroPricePerShareError (c : ParentVault) (data : slice)
    : res ParentVaultZeroPricePerShare :=
  _ ← unpack_values (vault_ABI c) "ParentVault__ZeroPricePerShare" 0 data;
  Ok mkParentVaultZeroPricePerShare.
Definition DecodeParentVaultZeroTvlWithOutstandingSharesError (c : ParentVault) (data : slice)
    : res ParentVaultZeroTvlWithOutstandingShares :=
  _ ← unpack_values (vault_ABI c) "ParentVault__ZeroTvlWithOutstandingShares" 0 data;
  Ok mkParentVaultZeroTvlWithOutstandingShares.
Definition DecodeReentrancyGuardReentrantCallError (c : ParentVault) (data : slice)
    : res ReentrancyGuardReentrantCall :=
  _ ← unpack_values (vault_ABI c) "ReentrancyGuardReentrantCall" 0 data;
  Ok mkReentrancyGuardReentrantCall.
Definition DecodeSafeCastOverflowedUintDowncastError (c : ParentVault) (data : slice)
    : res SafeCastOverflowedUintDowncast :=
  values ← unpack_values (vault_ABI c) "SafeCastOverflowedUintDowncast" 2 data;
  bits ← assert_value to_uint8 "bits" "SafeCastOverflowedUintDowncast" values 0;
  value ← assert_value to_big "value" "SafeCastOverflowedUintDowncast" values 1;
  Ok (mkSafeCastOverflowedUintDowncast bits value).
Definition DecodeSafeERC20FailedOperationError (c : ParentVault) (data : slice)
    : res SafeERC20FailedOperation :=
  values ← unpack_values (vault_ABI c) "SafeERC20FailedOperation" 1 data;
  token ← assert_value to_address "token" "SafeERC20FailedOperation" values 0;
  Ok (mkSafeERC20FailedOperation token).
Definition DecodeUUPSUnauthorizedCallContextError (c : ParentVault) (data : slice)
    : res UUPSUnauthorizedCallContext :=
  _ ← unpack_values (vault_ABI c) "UUPSUnauthorizedCallContext" 0 data;
  Ok mkUUPSUnauthorizedCallContext.
Definition DecodeUUPSUnsupportedProxiableUUIDError (c : ParentVault) (data : slice)
    : res UUPSUnsupportedProxiableUUID :=
  values ← unpack_values (vault_ABI c) "UUPSUnsupportedProxiableUUID" 1 data;
  slot ← assert_value to_bytes32 "slot" "UUPSUnsupportedProxiableUUID" values 0;
  Ok (mkUUPSUnsupportedProxiableUUID slot).

(** ** [UnpackError]: the selectors in source order *)
Definition cases (c : ParentVault) : list (string * (slice → res vault_error)) :=
  [("AccessControlBadConfirmation"%string, λ data, EAccessControlBadConfirmation <$> DecodeAccessControlBadConfirmationError c data);
   ("AccessControlEnforcedDefaultAdminDelay"%string, λ data, EAccessControlEnforcedDefaultAdminDelay <$> DecodeAccessControlEnforcedDefaultAdminDelayError c data);
   ("AccessControlEnforcedDefaultAdminRules"%string, λ data, EAccessControlEnforcedDefaultAdminRules <$> DecodeAccessControlEnforcedDefaultAdminRulesError c data);
   ("AccessControlInvalidDefaultAdmin"%string, λ data, EAccessControlInvalidDefaultAdmin <$> DecodeAccessControlInvalidDefaultAdminError c data);
   ("AccessControlUnauthorizedAccount"%string, λ data, EAccessControlUnauthorizedAccount <$> DecodeAccessControlUnauthorizedAccountError c data);
   ("AddressEmptyCode"%string, λ data, EAddressEmptyCode <$> DecodeAddressEmptyCodeError c data);
   ("Allowlist__UserNotAllowlisted"%string, λ data, EAllowlistUserNotAllowlisted <$> DecodeAllowlistUserNotAllowlistedError c data);
   ("BaseVault__DepositFailed"%string, λ data, EBaseVaultDepositFailed <$> DecodeBaseVaultDepositFailedError c data);
   ("BaseVault__DestinationVaultNotSet"%string, λ data, EBaseVaultDestinationVaultNotSet <$> DecodeBaseVaultDestinationVaultNotSetError c data);
   ("BaseVault__EmptyInput"%string, λ data, EBaseVaultEmptyInput <$> DecodeBaseVaultEmptyInputError c data);
   ("BaseVault__InvalidAdapterVault"%string, λ data, EBaseVaultInvalidAdapterVault <$> DecodeBaseVaultInvalidAdapterVaultError c data);
   ("BaseVault__InvalidDestinationChainSelector"%string, λ data, EBaseVaultInvalidDestinationChainSelector <$> DecodeBaseVaultInvalidDestinationChainSelectorError c data);
   ("BaseVault__InvalidInputLengths"%string, λ data, EBaseVaultInvalidInputLengths <$> DecodeBaseVaultInvalidInputLengthsError c data);
   ("BaseVault__InvalidReceivedToken"%string, λ data, EBaseVaultInvalidReceivedToken <$> DecodeBaseVaultInvalidReceivedTokenError c data);
   ("BaseVault__InvalidSender"%string, λ data, EBaseVaultInvalidSender <$> DecodeBaseVaultInvalidSenderError c data);
   ("BaseVault__InvalidSourceChainSelector"%string, λ data, EBaseVaultInvalidSourceChainSelector <$> DecodeBaseVaultInvalidSourceChainSelectorError c data);
   ("BaseVault__InvalidTokenAmountsLength"%string, λ data, EBaseVaultInvalidTokenAmountsLength <$> DecodeBaseVaultInvalidTokenAmountsLengthError c data);
   ("BaseVault__InvalidTxType"%string, λ data, EBaseVaultInvalidTxType <$> DecodeBaseVaultInvalidTxTypeError c data);
   ("BaseVault__NoActiveAdapter"%string, λ data, EBaseVaultNoActiveAdapter <$> DecodeBaseVaultNoActiveAdapterError c data);
   ("BaseVault__NoAdapterRegistered"%string, λ data, EBaseVaultNoAdapterRegistered <$> DecodeBaseVaultNoAdapterRegisteredError c data);
   ("BaseVault__NoPendingRecovery"%string, λ data, EBaseVaultNoPendingRecovery <$> DecodeBaseVaultNoPendingRecoveryError c data);
   ("BaseVault__NoZeroAddress"%string, λ data, EBaseVaultNoZeroAddress <$> DecodeBaseVaultNoZeroAddressError c data);
   ("BaseVault__NoZeroAmount"%string, λ data, EBaseVaultNoZeroAmount <$> DecodeBaseVaultNoZeroAmountError c data);
   ("BaseVault__NoZeroChainSelector"%string, λ data, EBaseVaultNoZeroChainSelector <$> DecodeBaseVaultNoZeroChainSelectorError c data);
   ("BaseVault__OnlySelf"%string, λ data, EBaseVaultOnlySelf <$> DecodeBaseVaultOnlySelfError c data);
   ("BaseVault__RecoveryAlreadyPending"%string, λ data, EBaseVaultRecoveryAlreadyPending <$> DecodeBaseVaultRecoveryAlreadyPendingError c data);
   ("BaseVault__WithdrawFailed"%string, λ data, EBaseVaultWithdrawFailed <$> DecodeBaseVaultWithdrawFailedError c data);
   ("BaseVault__ZeroRecoveryAmount"%string, λ data, EBaseVaultZeroRecoveryAmount <$> DecodeBaseVaultZeroRecoveryAmountError c data);
   ("ERC1967InvalidImplementation"%string, λ data, EERC1967InvalidImplementation <$> DecodeERC1967InvalidImplementationError c data);
   ("ERC1967NonPayable"%string, λ data, EERC1967NonPayable <$> DecodeERC1967NonPayableError c data);
   ("EnforcedPause"%string, λ data, EEnforcedPause <$> DecodeEnforcedPauseError c data);
   ("ExpectedPause"%string, λ data, EExpectedPause <$> DecodeExpectedPauseError c data);
   ("FailedCall"%string, λ data, EFailedCall <$> DecodeFailedCallError c data);
   ("InvalidInitialization"%string, λ data, EInvalidInitialization <$> DecodeInvalidInitializationError c data);
   ("InvalidRouter"%string, λ data, EInvalidRouter <$> DecodeInvalidRouterError c data);
   ("NotInitializing"%string, λ data, ENotInitializing <$> DecodeNotInitializingError c data);
   ("ParentVault__AmountTooSmall"%string, λ data, EParentVaultAmountTooSmall <$> DecodeParentVaultAmountTooSmallError c data);
   ("ParentVault__CannotCompleteLocalRebalance"%string, λ data, EParentVaultCannotCompleteLocalRebalance <$> DecodeParentVaultCannotCompleteLocalRebalanceError c data);
   ("ParentVault__CannotRemoveActiveProtocol"%string, λ data, EParentVaultCannotRemoveActiveProtocol <$> DecodeParentVaultCannotRemoveActiveProtocolError c data);
   ("ParentVault__CannotRemovePendingProtocol"%string, λ data, EParentVaultCannotRemovePendingProtocol <$> DecodeParentVaultCannotRemovePendingProtocolError c data);
   ("ParentVault__DepositWouldMintZeroShares"%string, λ data, EParentVaultDepositWouldMintZeroShares <$> DecodeParentVaultDepositWouldMintZeroSharesError c data);
   ("ParentVault__EmptyEpoch"%string, λ data, EParentVaultEmptyEpoch <$> DecodeParentVaultEmptyEpochError c data);
   ("ParentVault__EpochExecuting"%string, λ data, EParentVaultEpochExecuting <$> DecodeParentVaultEpochExecutingError c data);
   ("ParentVault__EpochNotClaimable"%string, λ data, EParentVaultEpochNotClaimable <$> DecodeParentVaultEpochNotClaimableError c data);
   ("ParentVault__EpochNotExecuting"%string, λ data, EParentVaultEpochNotExecuting <$> DecodeParentVaultEpochNotExecutingError c data);
   ("ParentVault__EpochNotNetDeposit"%string, λ data, EParentVaultEpochNotNetDeposit <$> DecodeParentVaultEpochNotNetDepositError c data);
   ("ParentVault__EpochNotNetWithdraw"%string, λ data, EParentVaultEpochNotNetWithdraw <$> DecodeParentVaultEpochNotNetWithdrawError c data);
   ("ParentVault__EpochNotOpen"%string, λ data, EParentVaultEpochNotOpen <$> DecodeParentVaultEpochNotOpenError c data);
   ("ParentVault__EpochTooShort"%string, λ data, EParentVaultEpochTooShort <$> DecodeParentVaultEpochTooShortError c data);
   ("ParentVault__InitialActiveProtocolAdapterAlreadySet"%string, λ data, EParentVaultInitialActiveProtocolAdapterAlreadySet <$> DecodeParentVaultInitialActiveProtocolAdapterAlreadySetError c data);
   ("ParentVault__InvalidActualDepositAmount"%string, λ data, EParentVaultInvalidActualDepositAmount <$> DecodeParentVaultInvalidActualDepositAmountError c data);
   ("ParentVault__InvalidBeneficiary"%string, λ data, EParentVaultInvalidBeneficiary <$> DecodeParentVaultInvalidBeneficiaryError c data);
   ("ParentVault__InvalidChainSelector"%string, λ data, EParentVaultInvalidChainSelector <$> DecodeParentVaultInvalidChainSelectorError c data);
   ("ParentVault__InvalidEpochNonce"%string, λ data, EParentVaultInvalidEpochNonce <$> DecodeParentVaultInvalidEpochNonceError c data);
   ("ParentVault__InvalidPendingProtocolId"%string, λ data, EParentVaultInvalidPendingProtocolId <$> DecodeParentVaultInvalidPendingProtocolIdError c data);
   ("ParentVault__InvalidProtocolId"%string, λ data, EParentVaultInvalidProtocolId <$> DecodeParentVaultInvalidProtocolIdError c data);
   ("ParentVault__InvalidRebalanceNonce"%string, λ data, EParentVaultInvalidRebalanceNonce <$> DecodeParentVaultInvalidRebalanceNonceError c data);
   ("ParentVault__NoCompletedEpoch"%string, λ data, EParentVaultNoCompletedEpoch <$> DecodeParentVaultNoCompletedEpochError c data);
   ("ParentVault__NoDeposit"%string, λ data, EParentVaultNoDeposit <$> DecodeParentVaultNoDepositError c data);
   ("ParentVault__NoRebalanceInProgress"%string, λ data, EParentVaultNoRebalanceInProgress <$> DecodeParentVaultNoRebalanceInProgressError c data);
   ("ParentVault__NoWithdraw"%string, λ data, EParentVaultNoWithdraw <$> DecodeParentVaultNoWithdrawError c data);
   ("ParentVault__NoZeroAmount"%string, λ data, EParentVaultNoZeroAmount <$> DecodeParentVaultNoZeroAmountError c data);
   ("ParentVault__NoZeroProtocolId"%string, λ data, EParentVaultNoZeroProtocolId <$> DecodeParentVaultNoZeroProtocolIdError c data);
   ("ParentVault__RebalanceInProgress"%string, λ data, EParentVaultRebalanceInProgress <$> DecodeParentVaultRebalanceInProgressError c data);
   ("ParentVault__RebalanceTooSoon"%string, λ data, EParentVaultRebalanceTooSoon <$> DecodeParentVaultRebalanceTooSoonError c data);
   ("ParentVault__RemoteWithdrawAmountTooSmall"%string, λ data, EParentVaultRemoteWithdrawAmountTooSmall <$> DecodeParentVaultRemoteWithdrawAmountTooSmallError c data);
   ("ParentVault__SameStrategy"%string, λ data, EParentVaultSameStrategy <$> DecodeParentVaultSameStrategyError c data);
   ("ParentVault__ShareBurnWithZeroTotalShares"%string, λ data, EParentVaultShareBurnWithZeroTotalShares <$> DecodeParentVaultShareBurnWithZeroTotalSharesError c data);
   ("ParentVault__ZeroPricePerShare"%string, λ data, EParentVaultZeroPricePerShare <$> DecodeParentVaultZeroPricePerShareError c data);
   ("ParentVault__ZeroTvlWithOutstandingShares"%string, λ data, EParentVaultZeroTvlWithOutstandingShares <$> DecodeParentVaultZeroTvlWithOutstandingSharesError c data);
   ("ReentrancyGuardReentrantCall"%string, λ data, EReentrancyGuardReentrantCall <$> DecodeReentrancyGuardReentrantCallError c data);
   ("SafeCastOverflowedUintDowncast"%string, λ data, ESafeCastOverflowedUintDowncast <$> DecodeSafeCastOverflowedUintDowncastError c data);
   ("SafeERC20FailedOperation"%string, λ data, ESafeERC20FailedOperation <$> DecodeSafeERC20FailedOperationError c data);
   ("UUPSUnauthorizedCallContext"%string, λ data, EUUPSUnauthorizedCallContext <$> DecodeUUPSUnauthorizedCallContextError c data);
   ("UUPSUnsupportedProxiableUUID"%string, λ data, EUUPSUnsupportedProxiableUUID <$> DecodeUUPSUnsupportedProxiableUUIDError c data)].
Definition UnpackError (c : ParentVault) (data : slice) : res vault_error :=
  unpack_error (vault_ABI c) (cases c) data.
End Decoders.

(** ** The [Error] methods *)
Section Texts.
Context `{GoUnicode, GoAbiErrors}.

Definition AccessControlBadConfirmation_Error (e : AccessControlBadConfirmation) : string :=
  Sprintf "AccessControlBadConfirmation error:" [].
Definition AccessControlEnforcedDefaultAdminDelay_Error (e : AccessControlEnforcedDefaultAdminDelay) : string :=
  Sprintf "AccessControlEnforcedDefaultAdminDelay error: schedule=%v;"
    [FStr (show_big (AccessControlEnforcedDefaultAdminDelay_Schedule e))].
Definition AccessControlEnforcedDefaultAdminRules_Error (e : AccessControlEnforcedDefaultAdminRules) : string :=
  Sprintf "AccessControlEnforcedDefaultAdminRules error:"
    [].
Definition AccessControlInvalidDefaultAdmin_Error (e : AccessControlInvalidDefaultAdmin) : string :=
  Sprintf "AccessControlInvalidDefaultAdmin error: defaultAdmin=%v;"
    [FStr (show_address (AccessControlInvalidDefaultAdmin_DefaultAdmin e))].
Definition AccessControlUnauthorizedAccount_Error (e : AccessControlUnauthorizedAccount) : string :=
  Sprintf "AccessControlUnauthorizedAccount error: account=%v; neededRole=%v;"
    [FStr (show_address (AccessControlUnauthorizedAccount_Account e));
     FStr (show_bytes32 (AccessControlUnauthorizedAccount_NeededRole e))].
Definition AddressEmptyCode_Error (e : AddressEmptyCode) : string :=
  Sprintf "AddressEmptyCode error: target=%v;" [FStr (show_address (AddressEmptyCode_Target e))].
Definition AllowlistUserNotAllowlisted_Error (e : AllowlistUserNotAllowlisted) : string :=
  Sprintf "AllowlistUserNotAllowlisted error: user=%v;"
    [FStr (show_address (AllowlistUserNotAllowlisted_User e))].
Definition BaseVaultDepositFailed_Error (e : BaseVaultDepositFailed) : string :=
  Sprintf "BaseVaultDepositFailed error: amount=%v;"
    [FStr (show_big (BaseVaultDepositFailed_Amount e))].
Definition BaseVaultDestinationVaultNotSet_Error (e : BaseVaultDestinationVaultNotSet) : string :=
  Sprintf "BaseVaultDestinationVaultNotSet error: destinationChainSelector=%v;"
    [FStr (show_uint (BaseVaultDestinationVaultNotSet_DestinationChainSelector e))].
Definition BaseVaultEmptyInput_Error (e : BaseVaultEmptyInput) : string :=
  Sprintf "BaseVaultEmptyInput error:" [].
Definition BaseVaultInvalidAdapterVault_Error (e : BaseVaultInvalidAdapterVault) : string :=
  Sprintf "BaseVaultInvalidAdapterVault error: adapter=%v; actualVault=%v; expectedVault=%v;"
    [FStr (show_address (BaseVaultInvalidAdapterVault_Adapter e));
     FStr (show_address (BaseVaultInvalidAdapterVault_ActualVault e));
     FStr (show_address (BaseVaultInvalidAdapterVault_ExpectedVault e))].
Definition BaseVaultInvalidDestinationChainSelector_Error (e : BaseVaultInvalidDestinationChainSelector) : string :=
  Sprintf "BaseVaultInvalidDestinationChainSelector error: destinationChainSelector=%v;"
    [FStr (show_uint (BaseVaultInvalidDestinationChainSelector_DestinationChainSelector e))].
Definition BaseVaultInvalidInputLengths_Error (e : BaseVaultInvalidInputLengths) : string :=
  Sprintf "BaseVaultInvalidInputLengths error:" [].
Definition BaseVaultInvalidReceivedToken_Error (e : BaseVaultInvalidReceivedToken) : string :=
  Sprintf "BaseVaultInvalidReceivedToken error: receivedToken=%v; expectedToken=%v;"
    [FStr (show_address (BaseVaultInvalidReceivedToken_ReceivedToken e));
     FStr (show_address (BaseVaultInvalidReceivedToken_ExpectedToken e))].
Definition BaseVaultInvalidSender_Error (e : BaseVaultInvalidSender) : string :=
  Sprintf "BaseVaultInvalidSender error: sender=%v; srcChainSelector=%v;"
    [FStr (show_address (BaseVaultInvalidSender_Sender e));
     FStr (show_uint (BaseVaultInvalidSender_SrcChainSelector e))].
Definition BaseVaultInvalidSourceChainSelector_Error (e : BaseVaultInvalidSourceChainSelector) : string :=
  Sprintf "BaseVaultInvalidSourceChainSelector error: sourceChainSelector=%v; expectedSourceChainSelector=%v;"
    [FStr (show_uint (BaseVaultInvalidSourceChainSelector_SourceChainSelector e));
     FStr (show_uint (BaseVaultInvalidSourceChainSelector_ExpectedSourceChainSelector e))].
Definition BaseVaultInvalidTokenAmountsLength_Error (e : BaseVaultInvalidTokenAmountsLength) : string :=
  Sprintf "BaseVaultInvalidTokenAmountsLength error: receivedLength=%v; expectedLength=%v;"
    [FStr (show_big (BaseVaultInvalidTokenAmountsLength_ReceivedLength e));
     FStr (show_big (BaseVaultInvalidTokenAmountsLength_ExpectedLength e))].
Definition BaseVaultInvalidTxType_Error (e : BaseVaultInvalidTxType) : string :=
  Sprintf "BaseVaultInvalidTxType error: ccipTxType=%v;"
    [FStr (show_uint (BaseVaultInvalidTxType_CcipTxType e))].
Definition BaseVaultNoActiveAdapter_Error (e : BaseVaultNoActiveAdapter) : string :=
  Sprintf "BaseVaultNoActiveAdapter error:" [].
Definition BaseVaultNoAdapterRegistered_Error (e : BaseVaultNoAdapterRegistered) : string :=
  Sprintf "BaseVaultNoAdapterRegistered error: protocolId=%v;"
    [FStr (show_bytes32 (BaseVaultNoAdapterRegistered_ProtocolId e))].
Definition BaseVaultNoPendingRecovery_Error (e : BaseVaultNoPendingRecovery) : string :=
  Sprintf "BaseVaultNoPendingRecovery error:" [].
Definition BaseVaultNoZeroAddress_Error (e : BaseVaultNoZeroAddress) : string :=
  Sprintf "BaseVaultNoZeroAddress error:" [].
Definition BaseVaultNoZeroAmount_Error (e : BaseVaultNoZeroAmount) : string :=
  Sprintf "BaseVaultNoZeroAmount error:" [].
Definition BaseVaultNoZeroChainSelector_Error (e : BaseVaultNoZeroChainSelector) : string :=
  Sprintf "BaseVaultNoZeroChainSelector error:" [].
Definition BaseVaultOnlySelf_Error (e : BaseVaultOnlySelf) : string :=
  Sprintf "BaseVaultOnlySelf error:" [].
Definition BaseVaultRecoveryAlreadyPending_Error (e : BaseVaultRecoveryAlreadyPending) : string :=
  Sprintf "BaseVaultRecoveryAlreadyPending error:" [].
Definition BaseVaultWithdrawFailed_Error (e : BaseVaultWithdrawFailed) : string :=
  Sprintf "BaseVaultWithdrawFailed error: amount=%v;"
    [FStr (show_big (BaseVaultWithdrawFailed_Amount e))].
Definition BaseVaultZeroRecoveryAmount_Error (e : BaseVaultZeroRecoveryAmount) : string :=
  Sprintf "BaseVaultZeroRecoveryAmount error:" [].
Definition ERC1967InvalidImplementation_Error (e : ERC1967InvalidImplementation) : string :=
  Sprintf "ERC1967InvalidImplementation error: implementation=%v;"
    [FStr (show_address (ERC1967InvalidImplementation_Implementation e))].
Definition ERC1967NonPayable_Error (e : ERC1967NonPayable) : string :=
  Sprintf "ERC1967NonPayable error:" [].
Definition EnforcedPause_Error (e : EnforcedPause) : string :=
  Sprintf "EnforcedPause error:" [].
Definition ExpectedPause_Error (e : ExpectedPause) : string :=
  Sprintf "ExpectedPause error:" [].
Definition FailedCall_Error (e : FailedCall) : string :=
  Sprintf "FailedCall error:" [].
Definition InvalidInitialization_Error (e : InvalidInitialization) : string :=
  Sprintf "InvalidInitialization error:" [].
Definition InvalidRouter_Error (e : InvalidRouter) : string :=
  Sprintf "InvalidRouter error: router=%v;" [FStr (show_address (InvalidRouter_Router e))].
Definition NotInitializing_Error (e : NotInitializing) : string :=
  Sprintf "NotInitializing error:" [].
Definition ParentVaultAmountTooSmall_Error (e : ParentVaultAmountTooSmall) : string :=
  Sprintf "ParentVaultAmountTooSmall error: amount=%v;"
    [FStr (show_big (ParentVaultAmountTooSmall_Amount e))].
Definition ParentVaultCannotCompleteLocalRebalance_Error (e : ParentVaultCannotCompleteLocalRebalance) : string :=
  Sprintf "ParentVaultCannotCompleteLocalRebalance error:"
    [].
Definition ParentVaultCannotRemoveActiveProtocol_Error (e : ParentVaultCannotRemoveActiveProtocol) : string :=
  Sprintf "ParentVaultCannotRemoveActiveProtocol error: protocolId=%v;"
    [FStr (show_bytes32 (ParentVaultCannotRemoveActiveProtocol_ProtocolId e))].
Definition ParentVaultCannotRemovePendingProtocol_Error (e : ParentVaultCannotRemovePendingProtocol) : string :=
  Sprintf "ParentVaultCannotRemovePendingProtocol error: protocolId=%v;"
    [FStr (show_bytes32 (ParentVaultCannotRemovePendingProtocol_ProtocolId e))].
Definition ParentVaultDepositWouldMintZeroShares_Error (e : ParentVaultDepositWouldMintZeroShares) : string :=
  Sprintf "ParentVaultDepositWouldMintZeroShares error:"
    [].
Definition ParentVaultEmptyEpoch_Error (e : ParentVaultEmptyEpoch) : string :=
  Sprintf "ParentVaultEmptyEpoch error: epochNonce=%v;"
    [FStr (show_big (ParentVaultEmptyEpoch_EpochNonce e))].
Definition ParentVaultEpochExecuting_Error (e : ParentVaultEpochExecuting) : string :=
  Sprintf "ParentVaultEpochExecuting error: epochNonce=%v;"
    [FStr (show_big (ParentVaultEpochExecuting_EpochNonce e))].
Definition ParentVaultEpochNotClaimable_Error (e : ParentVaultEpochNotClaimable) : string :=
  Sprintf "ParentVaultEpochNotClaimable error: epochNonce=%v;"
    [FStr (show_big (ParentVaultEpochNotClaimable_EpochNonce e))].
Definition ParentVaultEpochNotExecuting_Error (e : ParentVaultEpochNotExecuting) : string :=
  Sprintf "ParentVaultEpochNotExecuting error: epochNonce=%v;"
    [FStr (show_big (ParentVaultEpochNotExecuting_EpochNonce e))].
Definition ParentVaultEpochNotNetDeposit_Error (e : ParentVaultEpochNotNetDeposit) : string :=
  Sprintf "ParentVaultEpochNotNetDeposit error: epochNonce=%v;"
    [FStr (show_big (ParentVaultEpochNotNetDeposit_EpochNonce e))].
Definition ParentVaultEpochNotNetWithdraw_Error (e : ParentVaultEpochNotNetWithdraw) : string :=
  Sprintf "ParentVaultEpochNotNetWithdraw error: epochNonce=%v;"
    [FStr (show_big (ParentVaultEpochNotNetWithdraw_EpochNonce e))].
Definition ParentVaultEpochNotOpen_Error (e : ParentVaultEpochNotOpen) : string :=
  Sprintf "ParentVaultEpochNotOpen error: epochNonce=%v;"
    [FStr (show_big (ParentVaultEpochNotOpen_EpochNonce e))].
Definition ParentVaultEpochTooShort_Error (e : ParentVaultEpochTooShort) : string :=
  Sprintf "ParentVaultEpochTooShort error: epochNonce=%v;"
    [FStr (show_big (ParentVaultEpochTooShort_EpochNonce e))].
Definition ParentVaultInitialActiveProtocolAdapterAlreadySet_Error (e : ParentVaultInitialActiveProtocolAdapterAlreadySet) : string :=
  Sprintf "ParentVaultInitialActiveProtocolAdapterAlreadySet error:"
    [].
Definition ParentVaultInvalidActualDepositAmount_Error (e : ParentVaultInvalidActualDepositAmount) : string :=
  Sprintf "ParentVaultInvalidActualDepositAmount error: actualDepositAmount=%v; expectedDepositAmount=%v;"
    [FStr (show_big (ParentVaultInvalidActualDepositAmount_ActualDepositAmount e));
     FStr (show_big (ParentVaultInvalidActualDepositAmount_ExpectedDepositAmount e))].
Definition ParentVaultInvalidBeneficiary_Error (e : ParentVaultInvalidBeneficiary) : string :=
  Sprintf "ParentVaultInvalidBeneficiary error:" [].
Definition ParentVaultInvalidChainSelector_Error (e : ParentVaultInvalidChainSelector) : string :=
  Sprintf "ParentVaultInvalidChainSelector error: chainSelector=%v;"
    [FStr (show_uint (ParentVaultInvalidChainSelector_ChainSelector e))].
Definition ParentVaultInvalidEpochNonce_Error (e : ParentVaultInvalidEpochNonce) : string :=
  Sprintf "ParentVaultInvalidEpochNonce error: epochNonce=%v;"
    [FStr (show_big (ParentVaultInvalidEpochNonce_EpochNonce e))].
Definition ParentVaultInvalidPendingProtocolId_Error (e : ParentVaultInvalidPendingProtocolId) : string :=
  Sprintf "ParentVaultInvalidPendingProtocolId error: protocolId=%v;"
    [FStr (show_bytes32 (ParentVaultInvalidPendingProtocolId_ProtocolId e))].
Definition ParentVaultInvalidProtocolId_Error (e : ParentVaultInvalidProtocolId) : string :=
  Sprintf "ParentVaultInvalidProtocolId error: protocolId=%v;"
    [FStr (show_bytes32 (ParentVaultInvalidProtocolId_ProtocolId e))].
Definition ParentVaultInvalidRebalanceNonce_Error (e : ParentVaultInvalidRebalanceNonce) : string :=
  Sprintf "ParentVaultInvalidRebalanceNonce error: rebalanceNonce=%v;"
    [FStr (show_big (ParentVaultInvalidRebalanceNonce_RebalanceNonce e))].
Definition ParentVaultNoCompletedEpoch_Error (e : ParentVaultNoCompletedEpoch) : string :=
  Sprintf "ParentVaultNoCompletedEpoch error:" [].
Definition ParentVaultNoDeposit_Error (e : ParentVaultNoDeposit) : string :=
  Sprintf "ParentVaultNoDeposit error: depositor=%v; epochNonce=%v;"
    [FStr (show_address (ParentVaultNoDeposit_Depositor e));
     FStr (show_big (ParentVaultNoDeposit_EpochNonce e))].
Definition ParentVaultNoRebalanceInProgress_Error (e : ParentVaultNoRebalanceInProgress) : string :=
  Sprintf "ParentVaultNoRebalanceInProgress error:" [].
Definition ParentVaultNoWithdraw_Error (e : ParentVaultNoWithdraw) : string :=
  Sprintf "ParentVaultNoWithdraw error: withdrawer=%v; epochNonce=%v;"
    [FStr (show_address (ParentVaultNoWithdraw_Withdrawer e));
     FStr (show_big (ParentVaultNoWithdraw_EpochNonce e))].
Definition ParentVaultNoZeroAmount_Error (e : ParentVaultNoZeroAmount) : string :=
  Sprintf "ParentVaultNoZeroAmount error:" [].
Definition ParentVaultNoZeroProtocolId_Error (e : ParentVaultNoZeroProtocolId) : string :=
  Sprintf "ParentVaultNoZeroProtocolId error:" [].
Definition ParentVaultRebalanceInProgress_Error (e : ParentVaultRebalanceInProgress) : string :=
  Sprintf "ParentVaultRebalanceInProgress error:" [].
Definition ParentVaultRebalanceTooSoon_Error (e : ParentVaultRebalanceTooSoon) : string :=
  Sprintf "ParentVaultRebalanceTooSoon error: rebalanceNonce=%v;"
    [FStr (show_big (ParentVaultRebalanceTooSoon_RebalanceNonce e))].
Definition ParentVaultRemoteWithdrawAmountTooSmall_Error (e : ParentVaultRemoteWithdrawAmountTooSmall) : string :=
  Sprintf "ParentVaultRemoteWithdrawAmountTooSmall error: amount=%v;"
    [FStr (show_big (ParentVaultRemoteWithdrawAmountTooSmall_Amount e))].
Definition ParentVaultSameStrategy_Error (e : ParentVaultSameStrategy) : string :=
  Sprintf "ParentVaultSameStrategy error:" [].
Definition ParentVaultShareBurnWithZeroTotalShares_Error (e : ParentVaultShareBurnWithZeroTotalShares) : string :=
  Sprintf "ParentVaultShareBurnWithZeroTotalShares error:"
    [].
Definition ParentVaultZeroPricePerShare_Error (e : ParentVaultZeroPricePerShare) : string :=
  Sprintf "ParentVaultZeroPricePerShare error:" [].
Definition ParentVaultZeroTvlWithOutstandingShares_Error (e : ParentVaultZeroTvlWithOutstandingShares) : string :=
  Sprintf "ParentVaultZeroTvlWithOutstandingShares error:"
    [].
Definition ReentrancyGuardReentrantCall_Error (e : ReentrancyGuardReentrantCall) : string :=
  Sprintf "ReentrancyGuardReentrantCall error:" [].
Definition SafeCastOverflowedUintDowncast_Error (e : SafeCastOverflowedUintDowncast) : string :=
  Sprintf "SafeCastOverflowedUintDowncast error: bits=%v; value=%v;"
    [FStr (show_uint (SafeCastOverflowedUintDowncast_Bits e));
     FStr (show_big (SafeCastOverflowedUintDowncast_Value e))].
Definition SafeERC20FailedOperation_Error (e : SafeERC20FailedOperation) : string :=
  Sprintf "SafeERC20FailedOperation error: token=%v;"
    [FStr (show_address (SafeERC20FailedOperation_Token e))].
Definition UUPSUnauthorizedCallContext_Error (e : UUPSUnauthorizedCallContext) : string :=
  Sprintf "UUPSUnauthorizedCallContext error:" [].
Definition UUPSUnsupportedProxiableUUID_Error (e : UUPSUnsupportedProxiableUUID) : string :=
  Sprintf "UUPSUnsupportedProxiableUUID error: slot=%v;"
    [FStr (show_bytes32 (UUPSUnsupportedProxiableUUID_Slot e))].

(** The method of the dynamic type of an error. *)
Definition ErrorText (e : vault_error) : string :=
  match e with
  | EAccessControlBadConfirmation e => AccessControlBadConfirmation_Error e
  | EAccessControlEnforcedDefaultAdminDelay e => AccessControlEnforcedDefaultAdminDelay_Error e
  | EAccessControlEnforcedDefaultAdminRules e => AccessControlEnforcedDefaultAdminRules_Error e
  | EAccessControlInvalidDefaultAdmin e => AccessControlInvalidDefaultAdmin_Error e
  | EAccessControlUnauthorizedAccount e => AccessControlUnauthorizedAccount_Error e
  | EAddressEmptyCode e => AddressEmptyCode_Error e
  | EAllowlistUserNotAllowlisted e => AllowlistUserNotAllowlisted_Error e
  | EBaseVaultDepositFailed e => BaseVaultDepositFailed_Error e
  | EBaseVaultDestinationVaultNotSet e => BaseVaultDestinationVaultNotSet_Error e
  | EBaseVaultEmptyInput e => BaseVaultEmptyInput_Error e
  | EBaseVaultInvalidAdapterVault e => BaseVaultInvalidAdapterVault_Error e
  | EBaseVaultInvalidDestinationChainSelector e => BaseVaultInvalidDestinationChainSelector_Error e
  | EBaseVaultInvalidInputLengths e => BaseVaultInvalidInputLengths_Error e
  | EBaseVaultInvalidReceivedToken e => BaseVaultInvalidReceivedToken_Error e
  | EBaseVaultInvalidSender e => BaseVaultInvalidSender_Error e
  | EBaseVaultInvalidSourceChainSelector e => BaseVaultInvalidSourceChainSelector_Error e
  | EBaseVaultInvalidTokenAmountsLength e => BaseVaultInvalidTokenAmountsLength_Error e
  | EBaseVaultInvalidTxType e => BaseVaultInvalidTxType_Error e
  | EBaseVaultNoActiveAdapter e => BaseVaultNoActiveAdapter_Error e
  | EBaseVaultNoAdapterRegistered e => BaseVaultNoAdapterRegistered_Error e
  | EBaseVaultNoPendingRecovery e => BaseVaultNoPendingRecovery_Error e
  | EBaseVaultNoZeroAddress e => BaseVaultNoZeroAddress_Error e
  | EBaseVaultNoZeroAmount e => BaseVaultNoZeroAmount_Error e
  | EBaseVaultNoZeroChainSelector e => BaseVaultNoZeroChainSelector_Error e
  | EBaseVaultOnlySelf e => BaseVaultOnlySelf_Error e
  | EBaseVaultRecoveryAlreadyPending e => BaseVaultRecoveryAlreadyPending_Error e
  | EBaseVaultWithdrawFailed e => BaseVaultWithdrawFailed_Error e
  | EBaseVaultZeroRecoveryAmount e => BaseVaultZeroRecoveryAmount_Error e
  | EERC1967InvalidImplementation e => ERC1967InvalidImplementation_Error e
  | EERC1967NonPayable e => ERC1967NonPayable_Error e
  | EEnforcedPause e => EnforcedPause_Error e
  | EExpectedPause e => ExpectedPause_Error e
  | EFailedCall e => FailedCall_Error e
  | EInvalidInitialization e => InvalidInitialization_Error e
  | EInvalidRouter e => InvalidRouter_Error e
  | ENotInitializing e => NotInitializing_Error e
  | EParentVaultAmountTooSmall e => ParentVaultAmountTooSmall_Error e
  | EParentVaultCannotCompleteLocalRebalance e => ParentVaultCannotCompleteLocalRebalance_Error e
  | EParentVaultCannotRemoveActiveProtocol e => ParentVaultCannotRemoveActiveProtocol_Error e
  | EParentVaultCannotRemovePendingProtocol e => ParentVaultCannotRemovePendingProtocol_Error e
  | EParentVaultDepositWouldMintZeroShares e => ParentVaultDepositWouldMintZeroShares_Error e
  | EParentVaultEmptyEpoch e => ParentVaultEmptyEpoch_Error e
  | EParentVaultEpochExecuting e => ParentVaultEpochExecuting_Error e
  | EParentVaultEpochNotClaimable e => ParentVaultEpochNotClaimable_Error e
  | EParentVaultEpochNotExecuting e => ParentVaultEpochNotExecuting_Error e
  | EParentVaultEpochNotNetDeposit e => ParentVaultEpochNotNetDeposit_Error e
  | EParentVaultEpochNotNetWithdraw e => ParentVaultEpochNotNetWithdraw_Error e
  | EParentVaultEpochNotOpen e => ParentVaultEpochNotOpen_Error e
  | EParentVaultEpochTooShort e => ParentVaultEpochTooShort_Error e
  | EParentVaultInitialActiveProtocolAdapterAlreadySet e => ParentVaultInitialActiveProtocolAdapterAlreadySet_Error e
  | EParentVaultInvalidActualDepositAmount e => ParentVaultInvalidActualDepositAmount_Error e
  | EParentVaultInvalidBeneficiary e => ParentVaultInvalidBeneficiary_Error e
  | EParentVaultInvalidChainSelector e => ParentVaultInvalidChainSelector_Error e
  | EParentVaultInvalidEpochNonce e => ParentVaultInvalidEpochNonce_Error e
  | EParentVaultInvalidPendingProtocolId e => ParentVaultInvalidPendingProtocolId_Error e
  | EParentVaultInvalidProtocolId e => ParentVaultInvalidProtocolId_Error e
  | EParentVaultInvalidRebalanceNonce e => ParentVaultInvalidRebalanceNonce_Error e
  | EParentVaultNoCompletedEpoch e => ParentVaultNoCompletedEpoch_Error e
  | EParentVaultNoDeposit e => ParentVaultNoDeposit_Error e
  | EParentVaultNoRebalanceInProgress e => ParentVaultNoRebalanceInProgress_Error e
  | EParentVaultNoWithdraw e => ParentVaultNoWithdraw_Error e
  | EParentVaultNoZeroAmount e => ParentVaultNoZeroAmount_Error e
  | EParentVaultNoZeroProtocolId e => ParentVaultNoZeroProtocolId_Error e
  | EParentVaultRebalanceInProgress e => ParentVaultRebalanceInProgress_Error e
  | EParentVaultRebalanceTooSoon e => ParentVaultRebalanceTooSoon_Error e
  | EParentVaultRemoteWithdrawAmountTooSmall e => ParentVaultRemoteWithdrawAmountTooSmall_Error e
  | EParentVaultSameStrategy e => ParentVaultSameStrategy_Error e
  | EParentVaultShareBurnWithZeroTotalShares e => ParentVaultShareBurnWithZeroTotalShares_Error e
  | EParentVaultZeroPricePerShare e => ParentVaultZeroPricePerShare_Error e
  | EParentVaultZeroTvlWithOutstandingShares e => ParentVaultZeroTvlWithOutstandingShares_Error e
  | EReentrancyGuardReentrantCall e => ReentrancyGuardReentrantCall_Error e
  | ESafeCastOverflowedUintDowncast e => SafeCastOverflowedUintDowncast_Error e
  | ESafeERC20FailedOperation e => SafeERC20FailedOperation_Error e
  | EUUPSUnauthorizedCallContext e => UUPSUnauthorizedCallContext_Error e
  | EUUPSUnsupportedProxiableUUID e => UUPSUnsupportedProxiableUUID_Error e
  end.
End Texts.

(** ** The description of an error: its ABI name and its values *)
Definition describe (e : vault_error) : string * list dyn :=
  match e with
  | EAccessControlBadConfirmation _ => ("AccessControlBadConfirmation"%string, [])
  | EAccessControlEnforcedDefaultAdminDelay e => ("AccessControlEnforcedDefaultAdminDelay"%string, [DBig (AccessControlEnforcedDefaultAdminDelay_Schedule e)])
  | EAccessControlEnforcedDefaultAdminRules _ => ("AccessControlEnforcedDefaultAdminRules"%string, [])
  | EAccessControlInvalidDefaultAdmin e => ("AccessControlInvalidDefaultAdmin"%string, [DAddress (AccessControlInvalidDefaultAdmin_DefaultAdmin e)])
  | EAccessControlUnauthorizedAccount e => ("AccessControlUnauthorizedAccount"%string, [DAddress (AccessControlUnauthorizedAccount_Account e); DBytes32 (AccessControlUnauthorizedAccount_NeededRole e)])
  | EAddressEmptyCode e => ("AddressEmptyCode"%string, [DAddress (AddressEmptyCode_Target e)])
  | EAllowlistUserNotAllowlisted e => ("Allowlist__UserNotAllowlisted"%string, [DAddress (AllowlistUserNotAllowlisted_User e)])
  | EBaseVaultDepositFailed e => ("BaseVault__DepositFailed"%string, [DBig (BaseVaultDepositFailed_Amount e)])
  | EBaseVaultDestinationVaultNotSet e => ("BaseVault__DestinationVaultNotSet"%string, [DUint64 (BaseVaultDestinationVaultNotSet_DestinationChainSelector e)])
  | EBaseVaultEmptyInput _ => ("BaseVault__EmptyInput"%string, [])
  | EBaseVaultInvalidAdapterVault e => ("BaseVault__InvalidAdapterVault"%string, [DAddress (BaseVaultInvalidAdapterVault_Adapter e); DAddress (BaseVaultInvalidAdapterVault_ActualVault e); DAddress (BaseVaultInvalidAdapterVault_ExpectedVault e)])
  | EBaseVaultInvalidDestinationChainSelector e => ("BaseVault__InvalidDestinationChainSelector"%string, [DUint64 (BaseVaultInvalidDestinationChainSelector_DestinationChainSelector e)])
  | EBaseVaultInvalidInputLengths _ => ("BaseVault__InvalidInputLengths"%string, [])
  | EBaseVaultInvalidReceivedToken e => ("BaseVault__InvalidReceivedToken"%string, [DAddress (BaseVaultInvalidReceivedToken_ReceivedToken e); DAddress (BaseVaultInvalidReceivedToken_ExpectedToken e)])
  | EBaseVaultInvalidSender e => ("BaseVault__InvalidSender"%string, [DAddress (BaseVaultInvalidSender_Sender e); DUint64 (BaseVaultInvalidSender_SrcChainSelector e)])
  | EBaseVaultInvalidSourceChainSelector e => ("BaseVault__InvalidSourceChainSelector"%string, [DUint64 (BaseVaultInvalidSourceChainSelector_SourceChainSelector e); DUint64 (BaseVaultInvalidSourceChainSelector_ExpectedSourceChainSelector e)])
  | EBaseVaultInvalidTokenAmountsLength e => ("BaseVault__InvalidTokenAmountsLength"%string, [DBig (BaseVaultInvalidTokenAmountsLength_ReceivedLength e); DBig (BaseVaultInvalidTokenAmountsLength_ExpectedLength e)])
  | EBaseVaultInvalidTxType e => ("BaseVault__InvalidTxType"%string, [DUint8 (BaseVaultInvalidTxType_CcipTxType e)])
  | EBaseVaultNoActiveAdapter _ => ("BaseVault__NoActiveAdapter"%string, [])
  | EBaseVaultNoAdapterRegistered e => ("BaseVault__NoAdapterRegistered"%string, [DBytes32 (BaseVaultNoAdapterRegistered_ProtocolId e)])
  | EBaseVaultNoPendingRecovery _ => ("BaseVault__NoPendingRecovery"%string, [])
  | EBaseVaultNoZeroAddress _ => ("BaseVault__NoZeroAddress"%string, [])
  | EBaseVaultNoZeroAmount _ => ("BaseVault__NoZeroAmount"%string, [])
  | EBaseVaultNoZeroChainSelector _ => ("BaseVault__NoZeroChainSelector"%string, [])
  | EBaseVaultOnlySelf _ => ("BaseVault__OnlySelf"%string, [])
  | EBaseVaultRecoveryAlreadyPending _ => ("BaseVault__RecoveryAlreadyPending"%string, [])
  | EBaseVaultWithdrawFailed e => ("BaseVault__WithdrawFailed"%string, [DBig (BaseVaultWithdrawFailed_Amount e)])
  | EBaseVaultZeroRecoveryAmount _ => ("BaseVault__ZeroRecoveryAmount"%string, [])
  | EERC1967InvalidImplementation e => ("ERC1967InvalidImplementation"%string, [DAddress (ERC1967InvalidImplementation_Implementation e)])
  | EERC1967NonPayable _ => ("ERC1967NonPayable"%string, [])
  | EEnforcedPause _ => ("EnforcedPause"%string, [])
  | EExpectedPause _ => ("ExpectedPause"%string, [])
  | EFailedCall _ => ("FailedCall"%string, [])
  | EInvalidInitialization _ => ("InvalidInitialization"%string, [])
  | EInvalidRouter e => ("InvalidRouter"%string, [DAddress (InvalidRouter_Router e)])
  | ENotInitializing _ => ("NotInitializing"%string, [])
  | EParentVaultAmountTooSmall e => ("ParentVault__AmountTooSmall"%string, [DBig (ParentVaultAmountTooSmall_Amount e)])
  | EParentVaultCannotCompleteLocalRebalance _ => ("ParentVault__CannotCompleteLocalRebalance"%string, [])
  | EParentVaultCannotRemoveActiveProtocol e => ("ParentVault__CannotRemoveActiveProtocol"%string, [DBytes32 (ParentVaultCannotRemoveActiveProtocol_ProtocolId e)])
  | EParentVaultCannotRemovePendingProtocol e => ("ParentVault__CannotRemovePendingProtocol"%string, [DBytes32 (ParentVaultCannotRemovePendingProtocol_ProtocolId e)])
  | EParentVaultDepositWouldMintZeroShares _ => ("ParentVault__DepositWouldMintZeroShares"%string, [])
  | EParentVaultEmptyEpoch e => ("ParentVault__EmptyEpoch"%string, [DBig (ParentVaultEmptyEpoch_EpochNonce e)])
  | EParentVaultEpochExecuting e => ("ParentVault__EpochExecuting"%string, [DBig (ParentVaultEpochExecuting_EpochNonce e)])
  | EParentVaultEpochNotClaimable e => ("ParentVault__EpochNotClaimable"%string, [DBig (ParentVaultEpochNotClaimable_EpochNonce e)])
  | EParentVaultEpochNotExecuting e => ("ParentVault__EpochNotExecuting"%string, [DBig (ParentVaultEpochNotExecuting_EpochNonce e)])
  | EParentVaultEpochNotNetDeposit e => ("ParentVault__EpochNotNetDeposit"%string, [DBig (ParentVaultEpochNotNetDeposit_EpochNonce e)])
  | EParentVaultEpochNotNetWithdraw e => ("ParentVault__EpochNotNetWithdraw"%string, [DBig (ParentVaultEpochNotNetWithdraw_EpochNonce e)])
  | EParentVaultEpochNotOpen e => ("ParentVault__EpochNotOpen"%string, [DBig (ParentVaultEpochNotOpen_EpochNonce e)])
  | EParentVaultEpochTooShort e => ("ParentVault__EpochTooShort"%string, [DBig (ParentVaultEpochTooShort_EpochNonce e)])
  | EParentVaultInitialActiveProtocolAdapterAlreadySet _ => ("ParentVault__InitialActiveProtocolAdapterAlreadySet"%string, [])
  | EParentVaultInvalidActualDepositAmount e => ("ParentVault__InvalidActualDepositAmount"%string, [DBig (ParentVaultInvalidActualDepositAmount_ActualDepositAmount e); DBig (ParentVaultInvalidActualDepositAmount_ExpectedDepositAmount e)])
  | EParentVaultInvalidBeneficiary _ => ("ParentVault__InvalidBeneficiary"%string, [])
  | EParentVaultInvalidChainSelector e => ("ParentVault__InvalidChainSelector"%string, [DUint64 (ParentVaultInvalidChainSelector_ChainSelector e)])
  | EParentVaultInvalidEpochNonce e => ("ParentVault__InvalidEpochNonce"%string, [DBig (ParentVaultInvalidEpochNonce_EpochNonce e)])
  | EParentVaultInvalidPendingProtocolId e => ("ParentVault__InvalidPendingProtocolId"%string, [DBytes32 (ParentVaultInvalidPendingProtocolId_ProtocolId e)])
  | EParentVaultInvalidProtocolId e => ("ParentVault__InvalidProtocolId"%string, [DBytes32 (ParentVaultInvalidProtocolId_ProtocolId e)])
  | EParentVaultInvalidRebalanceNonce e => ("ParentVault__InvalidRebalanceNonce"%string, [DBig (ParentVaultInvalidRebalanceNonce_RebalanceNonce e)])
  | EParentVaultNoCompletedEpoch _ => ("ParentVault__NoCompletedEpoch"%string, [])
  | EParentVaultNoDeposit e => ("ParentVault__NoDeposit"%string, [DAddress (ParentVaultNoDeposit_Depositor e); DBig (ParentVaultNoDeposit_EpochNonce e)])
  | EParentVaultNoRebalanceInProgress _ => ("ParentVault__NoRebalanceInProgress"%string, [])
  | EParentVaultNoWithdraw e => ("ParentVault__NoWithdraw"%string, [DAddress (ParentVaultNoWithdraw_Withdrawer e); DBig (ParentVaultNoWithdraw_EpochNonce e)])
  | EParentVaultNoZeroAmount _ => ("ParentVault__NoZeroAmount"%string, [])
  | EParentVaultNoZeroProtocolId _ => ("ParentVault__NoZeroProtocolId"%string, [])
  | EParentVaultRebalanceInProgress _ => ("ParentVault__RebalanceInProgress"%string, [])
  | EParentVaultRebalanceTooSoon e => ("ParentVault__RebalanceTooSoon"%string, [DBig (ParentVaultRebalanceTooSoon_RebalanceNonce e)])
  | EParentVaultRemoteWithdrawAmountTooSmall e => ("ParentVault__RemoteWithdrawAmountTooSmall"%string, [DBig (ParentVaultRemoteWithdrawAmountTooSmall_Amount e)])
  | EParentVaultSameStrategy _ => ("ParentVault__SameStrategy"%string, [])
  | EParentVaultShareBurnWithZeroTotalShares _ => ("ParentVault__ShareBurnWithZeroTotalShares"%string, [])
  | EParentVaultZeroPricePerShare _ => ("ParentVault__ZeroPricePerShare"%string, [])
  | EParentVaultZeroTvlWithOutstandingShares _ => ("ParentVault__ZeroTvlWithOutstandingShares"%string, [])
  | EReentrancyGuardReentrantCall _ => ("ReentrancyGuardReentrantCall"%string, [])
  | ESafeCastOverflowedUintDowncast e => ("SafeCastOverflowedUintDowncast"%string, [DUint8 (SafeCastOverflowedUintDowncast_Bits e); DBig (SafeCastOverflowedUintDowncast_Value e)])
  | ESafeERC20FailedOperation e => ("SafeERC20FailedOperation"%string, [DAddress (SafeERC20FailedOperation_Token e)])
  | EUUPSUnauthorizedCallContext _ => ("UUPSUnauthorizedCallContext"%string, [])
  | EUUPSUnsupportedProxiableUUID e => ("UUPSUnsupportedProxiableUUID"%string, [DBytes32 (UUPSUnsupportedProxiableUUID_Slot e)])
  end.

(** The Go name and the fields of an error, as its text shows them. *)
Definition shown `{GoAbiErrors} (e : vault_error) : string * list (string * string) :=
  match e with
  | EAccessControlBadConfirmation _ => ("AccessControlBadConfirmation"%string, [])
  | EAccessControlEnforcedDefaultAdminDelay e => ("AccessControlEnforcedDefaultAdminDelay"%string,
      [("schedule"%string, show_big (AccessControlEnforcedDefaultAdminDelay_Schedule e))])
  | EAccessControlEnforcedDefaultAdminRules e => ("AccessControlEnforcedDefaultAdminRules"%string,
      [])
  | EAccessControlInvalidDefaultAdmin e => ("AccessControlInvalidDefaultAdmin"%string,
      [("defaultAdmin"%string, show_address (AccessControlInvalidDefaultAdmin_DefaultAdmin e))])
  | EAccessControlUnauthorizedAccount e => ("AccessControlUnauthorizedAccount"%string,
      [("account"%string, show_address (AccessControlUnauthorizedAccount_Account e));
       ("neededRole"%string, show_bytes32 (AccessControlUnauthorizedAccount_NeededRole e))])
  | EAddressEmptyCode e => ("AddressEmptyCode"%string,
      [("target"%string, show_address (AddressEmptyCode_Target e))])
  | EAllowlistUserNotAllowlisted e => ("AllowlistUserNotAllowlisted"%string,
      [("user"%string, show_address (AllowlistUserNotAllowlisted_User e))])
  | EBaseVaultDepositFailed e => ("BaseVaultDepositFailed"%string,
      [("amount"%string, show_big (BaseVaultDepositFailed_Amount e))])
  | EBaseVaultDestinationVaultNotSet e => ("BaseVaultDestinationVaultNotSet"%string,
      [("destinationChainSelector"%string, show_uint (BaseVaultDestinationVaultNotSet_DestinationChainSelector e))])
  | EBaseVaultEmptyInput _ => ("BaseVaultEmptyInput"%string, [])
  | EBaseVaultInvalidAdapterVault e => ("BaseVaultInvalidAdapterVault"%string,
      [("adapter"%string, show_address (BaseVaultInvalidAdapterVault_Adapter e));
       ("actualVault"%string, show_address (BaseVaultInvalidAdapterVault_ActualVault e));
       ("expectedVault"%string, show_address (BaseVaultInvalidAdapterVault_ExpectedVault e))])
  | EBaseVaultInvalidDestinationChainSelector e => ("BaseVaultInvalidDestinationChainSelector"%string,
      [("destinationChainSelector"%string, show_uint (BaseVaultInvalidDestinationChainSelector_DestinationChainSelector e))])
  | EBaseVaultInvalidInputLengths _ => ("BaseVaultInvalidInputLengths"%string, [])
  | EBaseVaultInvalidReceivedToken e => ("BaseVaultInvalidReceivedToken"%string,
      [("receivedToken"%string, show_address (BaseVaultInvalidReceivedToken_ReceivedToken e));
       ("expectedToken"%string, show_address (BaseVaultInvalidReceivedToken_ExpectedToken e))])
  | EBaseVaultInvalidSender e => ("BaseVaultInvalidSender"%string,
      [("sender"%string, show_address (BaseVaultInvalidSender_Sender e));
       ("srcChainSelector"%string, show_uint (BaseVaultInvalidSender_SrcChainSelector e))])
  | EBaseVaultInvalidSourceChainSelector e => ("BaseVaultInvalidSourceChainSelector"%string,
      [("sourceChainSelector"%string, show_uint (BaseVaultInvalidSourceChainSelector_SourceChainSelector e));
       ("expectedSourceChainSelector"%string, show_uint (BaseVaultInvalidSourceChainSelector_ExpectedSourceChainSelector e))])
  | EBaseVaultInvalidTokenAmountsLength e => ("BaseVaultInvalidTokenAmountsLength"%string,
      [("receivedLength"%string, show_big (BaseVaultInvalidTokenAmountsLength_ReceivedLength e));
       ("expectedLength"%string, show_big (BaseVaultInvalidTokenAmountsLength_ExpectedLength e))])
  | EBaseVaultInvalidTxType e => ("BaseVaultInvalidTxType"%string,
      [("ccipTxType"%string, show_uint (BaseVaultInvalidTxType_CcipTxType e))])
  | EBaseVaultNoActiveAdapter _ => ("BaseVaultNoActiveAdapter"%string, [])
  | EBaseVaultNoAdapterRegistered e => ("BaseVaultNoAdapterRegistered"%string,
      [("protocolId"%string, show_bytes32 (BaseVaultNoAdapterRegistered_ProtocolId e))])
  | EBaseVaultNoPendingRecovery _ => ("BaseVaultNoPendingRecovery"%string, [])
  | EBaseVaultNoZeroAddress _ => ("BaseVaultNoZeroAddress"%string, [])
  | EBaseVaultNoZeroAmount _ => ("BaseVaultNoZeroAmount"%string, [])
  | EBaseVaultNoZeroChainSelector _ => ("BaseVaultNoZeroChainSelector"%string, [])
  | EBaseVaultOnlySelf _ => ("BaseVaultOnlySelf"%string, [])
  | EBaseVaultRecoveryAlreadyPending _ => ("BaseVaultRecoveryAlreadyPending"%string, [])
  | EBaseVaultWithdrawFailed e => ("BaseVaultWithdrawFailed"%string,
      [("amount"%string, show_big (BaseVaultWithdrawFailed_Amount e))])
  | EBaseVaultZeroRecoveryAmount _ => ("BaseVaultZeroRecoveryAmount"%string, [])
  | EERC1967InvalidImplementation e => ("ERC1967InvalidImplementation"%string,
      [("implementation"%string, show_address (ERC1967InvalidImplementation_Implementation e))])
  | EERC1967NonPayable _ => ("ERC1967NonPayable"%string, [])
  | EEnforcedPause _ => ("EnforcedPause"%string, [])
  | EExpectedPause _ => ("ExpectedPause"%string, [])
  | EFailedCall _ => ("FailedCall"%string, [])
  | EInvalidInitialization _ => ("InvalidInitialization"%string, [])
  | EInvalidRouter e => ("InvalidRouter"%string,
      [("router"%string, show_address (InvalidRouter_Router e))])
  | ENotInitializing _ => ("NotInitializing"%string, [])
  | EParentVaultAmountTooSmall e => ("ParentVaultAmountTooSmall"%string,
      [("amount"%string, show_big (ParentVaultAmountTooSmall_Amount e))])
  | EParentVaultCannotCompleteLocalRebalance e => ("ParentVaultCannotCompleteLocalRebalance"%string,
      [])
  | EParentVaultCannotRemoveActiveProtocol e => ("ParentVaultCannotRemoveActiveProtocol"%string,
      [("protocolId"%string, show_bytes32 (ParentVaultCannotRemoveActiveProtocol_ProtocolId e))])
  | EParentVaultCannotRemovePendingProtocol e => ("ParentVaultCannotRemovePendingProtocol"%string,
      [("protocolId"%string, show_bytes32 (ParentVaultCannotRemovePendingProtocol_ProtocolId e))])
  | EParentVaultDepositWouldMintZeroShares _ => ("ParentVaultDepositWouldMintZeroShares"%string, [])
  | EParentVaultEmptyEpoch e => ("ParentVaultEmptyEpoch"%string,
      [("epochNonce"%string, show_big (ParentVaultEmptyEpoch_EpochNonce e))])
  | EParentVaultEpochExecuting e => ("ParentVaultEpochExecuting"%string,
      [("epochNonce"%string, show_big (ParentVaultEpochExecuting_EpochNonce e))])
  | EParentVaultEpochNotClaimable e => ("ParentVaultEpochNotClaimable"%string,
      [("epochNonce"%string, show_big (ParentVaultEpochNotClaimable_EpochNonce e))])
  | EParentVaultEpochNotExecuting e => ("ParentVaultEpochNotExecuting"%string,
      [("epochNonce"%string, show_big (ParentVaultEpochNotExecuting_EpochNonce e))])
  | EParentVaultEpochNotNetDeposit e => ("ParentVaultEpochNotNetDeposit"%string,
      [("epochNonce"%string, show_big (ParentVaultEpochNotNetDeposit_EpochNonce e))])
  | EParentVaultEpochNotNetWithdraw e => ("ParentVaultEpochNotNetWithdraw"%string,
      [("epochNonce"%string, show_big (ParentVaultEpochNotNetWithdraw_EpochNonce e))])
  | EParentVaultEpochNotOpen e => ("ParentVaultEpochNotOpen"%string,
      [("epochNonce"%string, show_big (ParentVaultEpochNotOpen_EpochNonce e))])
  | EParentVaultEpochTooShort e => ("ParentVaultEpochTooShort"%string,
      [("epochNonce"%string, show_big (ParentVaultEpochTooShort_EpochNonce e))])
  | EParentVaultInitialActiveProtocolAdapterAlreadySet e => ("ParentVaultInitialActiveProtocolAdapterAlreadySet"%string,
      [])
  | EParentVaultInvalidActualDepositAmount e => ("ParentVaultInvalidActualDepositAmount"%string,
      [("actualDepositAmount"%string, show_big (ParentVaultInvalidActualDepositAmount_ActualDepositAmount e));
       ("expectedDepositAmount"%string, show_big (ParentVaultInvalidActualDepositAmount_ExpectedDepositAmount e))])
  | EParentVaultInvalidBeneficiary _ => ("ParentVaultInvalidBeneficiary"%string, [])
  | EParentVaultInvalidChainSelector e => ("ParentVaultInvalidChainSelector"%string,
      [("chainSelector"%string, show_uint (ParentVaultInvalidChainSelector_ChainSelector e))])
  | EParentVaultInvalidEpochNonce e => ("ParentVaultInvalidEpochNonce"%string,
      [("epochNonce"%string, show_big (ParentVaultInvalidEpochNonce_EpochNonce e))])
  | EParentVaultInvalidPendingProtocolId e => ("ParentVaultInvalidPendingProtocolId"%string,
      [("protocolId"%string, show_bytes32 (ParentVaultInvalidPendingProtocolId_ProtocolId e))])
  | EParentVaultInvalidProtocolId e => ("ParentVaultInvalidProtocolId"%string,
      [("protocolId"%string, show_bytes32 (ParentVaultInvalidProtocolId_ProtocolId e))])
  | EParentVaultInvalidRebalanceNonce e => ("ParentVaultInvalidRebalanceNonce"%string,
      [("rebalanceNonce"%string, show_big (ParentVaultInvalidRebalanceNonce_RebalanceNonce e))])
  | EParentVaultNoCompletedEpoch _ => ("ParentVaultNoCompletedEpoch"%string, [])
  | EParentVaultNoDeposit e => ("ParentVaultNoDeposit"%string,
      [("depositor"%string, show_address (ParentVaultNoDeposit_Depositor e));
       ("epochNonce"%string, show_big (ParentVaultNoDeposit_EpochNonce e))])
  | EParentVaultNoRebalanceInProgress _ => ("ParentVaultNoRebalanceInProgress"%string, [])
  | EParentVaultNoWithdraw e => ("ParentVaultNoWithdraw"%string,
      [("withdrawer"%string, show_address (ParentVaultNoWithdraw_Withdrawer e));
       ("epochNonce"%string, show_big (ParentVaultNoWithdraw_EpochNonce e))])
  | EParentVaultNoZeroAmount _ => ("ParentVaultNoZeroAmount"%string, [])
  | EParentVaultNoZeroProtocolId _ => ("ParentVaultNoZeroProtocolId"%string, [])
  | EParentVaultRebalanceInProgress _ => ("ParentVaultRebalanceInProgress"%string, [])
  | EParentVaultRebalanceTooSoon e => ("ParentVaultRebalanceTooSoon"%string,
      [("rebalanceNonce"%string, show_big (ParentVaultRebalanceTooSoon_RebalanceNonce e))])
  | EParentVaultRemoteWithdrawAmountTooSmall e => ("ParentVaultRemoteWithdrawAmountTooSmall"%string,
      [("amount"%string, show_big (ParentVaultRemoteWithdrawAmountTooSmall_Amount e))])
  | EParentVaultSameStrategy _ => ("ParentVaultSameStrategy"%string, [])
  | EParentVaultShareBurnWithZeroTotalShares e => ("ParentVaultShareBurnWithZeroTotalShares"%string,
      [])
  | EParentVaultZeroPricePerShare _ => ("ParentVaultZeroPricePerShare"%string, [])
  | EParentVaultZeroTvlWithOutstandingShares e => ("ParentVaultZeroTvlWithOutstandingShares"%string,
      [])
  | EReentrancyGuardReentrantCall _ => ("ReentrancyGuardReentrantCall"%string, [])
  | ESafeCastOverflowedUintDowncast e => ("SafeCastOverflowedUintDowncast"%string,
      [("bits"%string, show_uint (SafeCastOverflowedUintDowncast_Bits e));
       ("value"%string, show_big (SafeCastOverflowedUintDowncast_Value e))])
  | ESafeERC20FailedOperation e => ("SafeERC20FailedOperation"%string,
      [("token"%string, show_address (SafeERC20FailedOperation_Token e))])
  | EUUPSUnauthorizedCallContext _ => ("UUPSUnauthorizedCallContext"%string, [])
  | EUUPSUnsupportedProxiableUUID e => ("UUPSUnsupportedProxiableUUID"%string,
      [("slot"%string, show_bytes32 (UUPSUnsupportedProxiableUUID_Slot e))])
  end.

(** ** Correctness *)
Section Correctness.
Context `{GoAbiErrors} (c : ParentVault) {HL : GoAbiErrorsLaws (vault_ABI c) errors}.

Lemma parent_cases_ok : Forall2 (case_ok (abi := vault_ABI c) describe) (cases c) errors.
Proof. unfold cases, errors. repeat (constructor; [decode_case|]). constructor. Qed.

Lemma parent_unpacked data : unpacked describe (vault_ABI c) errors data (UnpackError c data).
Proof. apply unpack_error_unpacked, parent_cases_ok. Qed.

Lemma parent_revert e tys rest :
  distinct_selectors (vault_ABI c) errors →
  ((describe e).1, tys) ∈ errors → Forall2 has_type (describe e).2 tys →
  UnpackError c (mkSlice (revert_data (describe e).1 tys (describe e).2) rest) = Ok e.
Proof.
  intros Hnd Hin Hty. pose proof parent_cases_ok as Hall.
  destruct e; destruct e; cbn [describe fst snd] in *; revert_case.
Qed.

(** C27: [UnpackError] of the parent vault, on every slice: it panics when there are
    fewer than four bytes to read a selector from, it reports an unknown
    selector exactly when no error of the ABI has it, it passes on a malformed
    payload as an error, and otherwise it returns an error of the ABI with that
    selector and values of the types the ABI gives; the generated checks of the
    number and of the types of the values never fire. *)
Theorem ParentUnpackError_outcome data :
  unpacked describe (vault_ABI c) errors data (UnpackError c data).
Proof. apply parent_unpacked. Qed.

(** C28: Round trip: when the parent vault reverts with any of its errors, with any
    values of their types, [UnpackError] returns that error, whatever bytes lie
    beyond the end of the slice. *)
Theorem ParentUnpackError_roundtrip e tys rest :
  distinct_selectors (vault_ABI c) errors →
  ((describe e).1, tys) ∈ errors → Forall2 has_type (describe e).2 tys →
  UnpackError c (mkSlice (revert_data (describe e).1 tys (describe e).2) rest) = Ok e.
Proof. apply parent_revert. Qed.
End Correctness.

(** Every [Error] method of the parent vault's errors names the error and shows
    each of its values under the name of its field, in the ABI's order. *)
Theorem ParentErrorText_spec `{GoUnicode, GoAbiErrors} e : ErrorText e = error_text (shown e).
Proof. destruct e; destruct e; cbn [ErrorText shown]; text_case. Qed.

(** ** Witnesses *)
Module SampleParentErrors.
#[local] Existing Instance ToyEthereum.ethereum.
#[local] Instance toy_errors : GoAbiErrors := ToyErrors.errors_of errors.
Definition vault : ParentVault := mkParentVault zeroAddress ParentVaultMetaData 1 (mkCodec ParentVaultMetaData).
#[local] Instance toy_laws : GoAbiErrorsLaws (vault_ABI vault) errors.
Proof.
  apply ToyErrors.errors_laws. apply (bool_decide_unpack _). vm_compute. exact I.
Defined.

Definition sample : vault_error := EParentVaultInvalidActualDepositAmount
    (mkParentVaultInvalidActualDepositAmount (Some 5) (Some 7)).
Definition sample_data : slice :=
  mkSlice (revert_data "ParentVault__InvalidActualDepositAmount" [TBig; TBig] [DBig (Some 5); DBig (Some 7)]) [Zbyte 7].

Lemma ParentUnpackError_outcome_witness :
  UnpackError vault sample_data = Ok sample ∧
  unpacked describe (vault_ABI vault) errors sample_data (UnpackError vault sample_data).
Proof. split; [vm_compute; reflexivity|apply (ParentUnpackError_outcome vault sample_data)]. Defined.

Lemma ParentUnpackError_roundtrip_witness : UnpackError vault sample_data = Ok sample.
Proof.
  apply (ParentUnpackError_roundtrip vault sample [TBig; TBig] [Zbyte 7]).
  - apply (bool_decide_unpack _). vm_compute. exact I.
  - unfold errors. concrete_elem.
  - repeat constructor; done.
Defined.
End SampleParentErrors.
End parent_vault_errors.
