(* ===== verification/ChildVaultErrors.v ===== *)
(** * The errors of the child vault

    The structs, decoders and [Error] methods of the errors in
    [cre/contracts/evm/src/generated/child_vault/ChildVault.go], and [UnpackError]. *)

From S2P Require Import Prelude GoText BigInt Ethereum Runtime Bindings ChildVault AbiErrors.

#[local] Open Scope Z_scope.

Module child_vault_errors.
Import child_vault.
(** ** Structs *)
Record AccessControlBadConfirmation := mkAccessControlBadConfirmation {}.
Record AccessControlEnforcedDefaultAdminDelay := mkAccessControlEnforcedDefaultAdminDelay {
  AccessControlEnforcedDefaultAdminDelay_Schedule : bigint }.
Record AccessControlEnforcedDefaultAdminRules := mkAccessControlEnforcedDefaultAdminRules {}.
Record AccessControlInvalidDefaultAdmin := mkAccessControlInvalidDefaultAdmin {
  AccessControlInvalidDefaultAdmin_DefaultAdmin : Address }.
Record AccessControlUnauthorizedAccount := mkAccessControlUnauthorizedAccount {
  AccessControlUnauthorizedAccount_Account : Address;
  AccessControlUnauthorizedAccount_NeededRole : bytes }.
Record AddressEmptyCode := mkAddressEmptyCode { AddressEmptyCode_Target : Address }.
Record BaseVaultDepositFailed := mkBaseVaultDepositFailed {
  BaseVaultDepositFailed_Amount : bigint }.
Record BaseVaultDestinationVaultNotSet := mkBaseVaultDestinationVaultNotSet {
  BaseVaultDestinationVaultNotSet_DestinationChainSelector : Z }.
Record BaseVaultEmptyInput := mkBaseVaultEmptyInput {}.
Record BaseVaultInvalidAdapterVault := mkBaseVaultInvalidAdapterVault {
  BaseVaultInvalidAdapterVault_Adapter : Address;
  BaseVaultInvalidAdapterVault_ActualVault : Address;
  BaseVaultInvalidAdapterVault_ExpectedVault : Address }.
Record BaseVaultInvalidDestinationChainSelector := mkBaseVaultInvalidDestinationChainSelector {
  BaseVaultInvalidDestinationChainSelector_DestinationChainSelector : Z }.
Record BaseVaultInvalidInputLengths := mkBaseVaultInvalidInputLengths {}.
Record BaseVaultInvalidReceivedToken := mkBaseVaultInvalidReceivedToken {
  BaseVaultInvalidReceivedToken_ReceivedToken : Address;
  BaseVaultInvalidReceivedToken_ExpectedToken : Address }.
Record BaseVaultInvalidSender := mkBaseVaultInvalidSender {
  BaseVaultInvalidSender_Sender : Address;
  BaseVaultInvalidSender_SrcChainSelector : Z }.
Record BaseVaultInvalidSourceChainSelector := mkBaseVaultInvalidSourceChainSelector {
  BaseVaultInvalidSourceChainSelector_SourceChainSelector : Z;
  BaseVaultInvalidSourceChainSelector_ExpectedSourceChainSelector : Z }.
Record BaseVaultInvalidTokenAmountsLength := mkBaseVaultInvalidTokenAmountsLength {
  BaseVaultInvalidTokenAmountsLength_ReceivedLength : bigint;
  BaseVaultInvalidTokenAmountsLength_ExpectedLength : bigint }.
Record BaseVaultInvalidTxType := mkBaseVaultInvalidTxType { BaseVaultInvalidTxType_CcipTxType : Z }.
Record BaseVaultNoActiveAdapter := mkBaseVaultNoActiveAdapter {}.
Record BaseVaultNoAdapterRegistered := mkBaseVaultNoAdapterRegistered {
  BaseVaultNoAdapterRegistered_ProtocolId : bytes }.
Record BaseVaultNoPendingRecovery := mkBaseVaultNoPendingRecovery {}.
Record BaseVaultNoZeroAddress := mkBaseVaultNoZeroAddress {}.
Record BaseVaultNoZeroAmount := mkBaseVaultNoZeroAmount {}.
Record BaseVaultNoZeroChainSelector := mkBaseVaultNoZeroChainSelector {}.
Record BaseVaultOnlySelf := mkBaseVaultOnlySelf {}.
Record BaseVaultRecoveryAlreadyPending := mkBaseVaultRecoveryAlreadyPending {}.
Record BaseVaultWithdrawFailed := mkBaseVaultWithdrawFailed {
  BaseVaultWithdrawFailed_Amount : bigint }.
Record BaseVaultZeroRecoveryAmount := mkBaseVaultZeroRecoveryAmount {}.
Record ChildVaultInvalidEpochNonce := mkChildVaultInvalidEpochNonce {
  ChildVaultInvalidEpochNonce_ProvidedNonce : bigint;
  ChildVaultInvalidEpochNonce_LastHandledNonce : bigint }.
Record ChildVaultInvalidParentChainSelector := mkChildVaultInvalidParentChainSelector {}.
Record ChildVaultInvalidRebalanceNonce := mkChildVaultInvalidRebalanceNonce {
  ChildVaultInvalidRebalanceNonce_ProvidedNonce : bigint;
  ChildVaultInvalidRebalanceNonce_LastHandledNonce : bigint }.
Record ChildVaultInvalidRecoveryStrategy := mkChildVaultInvalidRecoveryStrategy {}.
Record ChildVaultOnlySelf := mkChildVaultOnlySelf {}.
Record ERC1967InvalidImplementation := mkERC1967InvalidImplementation {
  ERC1967InvalidImplementation_Implementation : Address }.
Record ERC1967NonPayable := mkERC1967NonPayable {}.
Record EnforcedPause := mkEnforcedPause {}.
Record ExpectedPause := mkExpectedPause {}.
Record FailedCall := mkFailedCall {}.
Record InvalidInitialization := mkInvalidInitialization {}.
Record InvalidRouter := mkInvalidRouter { InvalidRouter_Router : Address }.
Record NotInitializing := mkNotInitializing {}.
Record ReentrancyGuardReentrantCall := mkReentrancyGuardReentrantCall {}.
Record SafeCastOverflowedUintDowncast := mkSafeCastOverflowedUintDowncast {
  SafeCastOverflowedUintDowncast_Bits : Z;
  SafeCastOverflowedUintDowncast_Value : bigint }.
Record SafeERC20FailedOperation := mkSafeERC20FailedOperation {
  SafeERC20FailedOperation_Token : Address }.
Record UUPSUnauthorizedCallContext := mkUUPSUnauthorizedCallContext {}.
Record UUPSUnsupportedProxiableUUID := mkUUPSUnsupportedProxiableUUID {
  UUPSUnsupportedProxiableUUID_Slot : bytes }.

(** The value [UnpackError] returns as an [any]. *)
Inductive vault_error : Type :=
| EAccessControlBadConfirmation (e : AccessControlBadConfirmation)
| EAccessControlEnforcedDefaultAdminDelay (e : AccessControlEnforcedDefaultAdminDelay)
| EAccessControlEnforcedDefaultAdminRules (e : AccessControlEnforcedDefaultAdminRules)
| EAccessControlInvalidDefaultAdmin (e : AccessControlInvalidDefaultAdmin)
| EAccessControlUnauthorizedAccount (e : AccessControlUnauthorizedAccount)
| EAddressEmptyCode (e : AddressEmptyCode)
| EBaseVaultDepositFailed (e : BaseVaultDepositFailed)
| EBaseVaultDestinationVaultNotSet (e : BaseVaultDestinationVaultNotSet)
| EBaseVaultEmptyInput (e : BaseVaultEmptyInput)
| EBaseVaultInvalidAdapterVault (e : BaseVaultInvalidAdapterVault)
| EBaseVaultInvalidDestinationChainSelector (e : BaseVaultInvalidDestinationChainSelector)
| EBaseVaultInvalidInputLengths (e : BaseVaultInvalidInputLengths)
| EBaseVaultInvalidReceivedToken (e : BaseVaultInvalidReceivedToken)
| EBaseVaultInvalidSender (e : BaseVaultInvalidSender)
| EBaseVaultInvalidSourceChainSelector (e : BaseVaultInvalidSourceChainSelector)
| EBaseVaultInvalidTokenAmountsLength (e : BaseVaultInvalidTokenAmountsLength)
| EBaseVaultInvalidTxType (e : BaseVaultInvalidTxType)
| EBaseVaultNoActiveAdapter (e : BaseVaultNoActiveAdapter)
| EBaseVaultNoAdapterRegistered (e : BaseVaultNoAdapterRegistered)
| EBaseVaultNoPendingRecovery (e : BaseVaultNoPendingRecovery)
| EBaseVaultNoZeroAddress (e : BaseVaultNoZeroAddress)
| EBaseVaultNoZeroAmount (e : BaseVaultNoZeroAmount)
| EBaseVaultNoZeroChainSelector (e : BaseVaultNoZeroChainSelector)
| EBaseVaultOnlySelf (e : BaseVaultOnlySelf)
| EBaseVaultRecoveryAlreadyPending (e : BaseVaultRecoveryAlreadyPending)
| EBaseVaultWithdrawFailed (e : BaseVaultWithdrawFailed)
| EBaseVaultZeroRecoveryAmount (e : BaseVaultZeroRecoveryAmount)
| EChildVaultInvalidEpochNonce (e : ChildVaultInvalidEpochNonce)
| EChildVaultInvalidParentChainSelector (e : ChildVaultInvalidParentChainSelector)
| EChildVaultInvalidRebalanceNonce (e : ChildVaultInvalidRebalanceNonce)
| EChildVaultInvalidRecoveryStrategy (e : ChildVaultInvalidRecoveryStrategy)
| EChildVaultOnlySelf (e : ChildVaultOnlySelf)
| EERC1967InvalidImplementation (e : ERC1967InvalidImplementation)
| EERC1967NonPayable (e : ERC1967NonPayable)
| EEnforcedPause (e : EnforcedPause)
| EExpectedPause (e : ExpectedPause)
| EFailedCall (e : FailedCall)
| EInvalidInitialization (e : InvalidInitialization)
| EInvalidRouter (e : InvalidRouter)
| ENotInitializing (e : NotInitializing)
| EReentrancyGuardReentrantCall (e : ReentrancyGuardReentrantCall)
| ESafeCastOverflowedUintDowncast (e : SafeCastOverflowedUintDowncast)
| ESafeERC20FailedOperation (e : SafeERC20FailedOperation)
| EUUPSUnauthorizedCallContext (e : UUPSUnauthorizedCallContext)
| EUUPSUnsupportedProxiableUUID (e : UUPSUnsupportedProxiableUUID).

(** The errors of the metadata, with the Go types of their inputs. *)
Definition errors : error_table :=
  [("AccessControlBadConfirmation"%string, []);
   ("AccessControlEnforcedDefaultAdminDelay"%string, [TBig]);
   ("AccessControlEnforcedDefaultAdminRules"%string, []);
   ("AccessControlInvalidDefaultAdmin"%string, [TAddress]);
   ("AccessControlUnauthorizedAccount"%string, [TAddress; TBytes32]);
   ("AddressEmptyCode"%string, [TAddress]);
   ("BaseVault__DepositFailed"%string, [TBig]);
   ("BaseVault__DestinationVaultNotSet"%string, [TUint64]);
   ("BaseVault__EmptyInput"%string, []);
   ("BaseVault__InvalidAdapterVault"%string, [TAddress; TAddress; TAddress]);
   ("BaseVault__InvalidDestinationChainSelector"%string, [TUint64]);
   ("BaseVault__InvalidInputLengths"%string, []);
   ("BaseVault__InvalidReceivedToken"%string, [TAddress; TAddress]);
   ("BaseVault__InvalidSender"%string, [TAddress; TUint64]);
   ("BaseVault__InvalidSourceChainSelector"%string, [TUint64; TUint64]);
   ("BaseVault__InvalidTokenAmountsLength"%string, [TBig; TBig]);
   ("BaseVault__InvalidTxType"%string, [TUint8]);
   ("BaseVault__NoActiveAdapter"%string, []);
   ("BaseVault__NoAdapterRegistered"%string, [TBytes32]);
   ("BaseVault__NoPendingRecovery"%string, []);
   ("BaseVault__NoZeroAddress"%string, []);
   ("BaseVault__NoZeroAmount"%string, []);
   ("BaseVault__NoZeroChainSelector"%string, []);
   ("BaseVault__OnlySelf"%string, []);
   ("BaseVault__RecoveryAlreadyPending"%string, []);
   ("BaseVault__WithdrawFailed"%string, [TBig]);
   ("BaseVault__ZeroRecoveryAmount"%string, []);
   ("ChildVault__InvalidEpochNonce"%string, [TBig; TBig]);
   ("ChildVault__InvalidParentChainSelector"%string, []);
   ("ChildVault__InvalidRebalanceNonce"%string, [TBig; TBig]);
   ("ChildVault__InvalidRecoveryStrategy"%string, []);
   ("ChildVault__OnlySelf"%string, []);
   ("ERC1967InvalidImplementation"%string, [TAddress]);
   ("ERC1967NonPayable"%string, []);
   ("EnforcedPause"%string, []);
   ("ExpectedPause"%string, []);
   ("FailedCall"%string, []);
   ("InvalidInitialization"%string, []);
   ("InvalidRouter"%string, [TAddress]);
   ("NotInitializing"%string, []);
   ("ReentrancyGuardReentrantCall"%string, []);
   ("SafeCastOverflowedUintDowncast"%string, [TUint8; TBig]);
   ("SafeERC20FailedOperation"%string, [TAddress]);
   ("UUPSUnauthorizedCallContext"%string, []);
   ("UUPSUnsupportedProxiableUUID"%string, [TBytes32])].

Section Decoders.
Context `{GoAbiErrors}.

(** ** Decoders *)
Definition DecodeAccessControlBadConfirmationError (c : ChildVault) (data : slice)
    : res AccessControlBadConfirmation :=
  _ ← unpack_values (vault_ABI c) "AccessControlBadConfirmation" 0 data;
  Ok mkAccessControlBadConfirmation.
Definition DecodeAccessControlEnforcedDefaultAdminDelayError (c : ChildVault) (data : slice)
    : res AccessControlEnforcedDefaultAdminDelay :=
  values ← unpack_values (vault_ABI c) "AccessControlEnforcedDefaultAdminDelay" 1 data;
  schedule ← assert_value to_big "schedule" "AccessControlEnforcedDefaultAdminDelay" values 0;
  Ok (mkAccessControlEnforcedDefaultAdminDelay schedule).
Definition DecodeAccessControlEnforcedDefaultAdminRulesError (c : ChildVault) (data : slice)
    : res AccessControlEnforcedDefaultAdminRules :=
  _ ← unpack_values (vault_ABI c) "AccessControlEnforcedDefaultAdminRules" 0 data;
  Ok mkAccessControlEnforcedDefaultAdminRules.
Definition DecodeAccessControlInvalidDefaultAdminError (c : ChildVault) (data : slice)
    : res AccessControlInvalidDefaultAdmin :=
  values ← unpack_values (vault_ABI c) "AccessControlInvalidDefaultAdmin" 1 data;
  defaultAdmin ← assert_value to_address "defaultAdmin" "AccessControlInvalidDefaultAdmin" values 0;
  Ok (mkAccessControlInvalidDefaultAdmin defaultAdmin).
Definition DecodeAccessControlUnauthorizedAccountError (c : ChildVault) (data : slice)
    : res AccessControlUnauthorizedAccount :=
  values ← unpack_values (vault_ABI c) "AccessControlUnauthorizedAccount" 2 data;
  account ← assert_value to_address "account" "AccessControlUnauthorizedAccount" values 0;
  neededRole ← assert_value to_bytes32 "neededRole" "AccessControlUnauthorizedAccount" values 1;
  Ok (mkAccessControlUnauthorizedAccount account neededRole).
Definition DecodeAddressEmptyCodeError (c : ChildVault) (data : slice)
    : res AddressEmptyCode :=
  values ← unpack_values (vault_ABI c) "AddressEmptyCode" 1 data;
  target ← assert_value to_address "target" "AddressEmptyCode" values 0;
  Ok (mkAddressEmptyCode target).
Definition DecodeBaseVaultDepositFailedError (c : ChildVault) (data : slice)
    : res BaseVaultDepositFailed :=
  values ← unpack_values (vault_ABI c) "BaseVault__DepositFailed" 1 data;
  amount ← assert_value to_big "amount" "BaseVaultDepositFailed" values 0;
  Ok (mkBaseVaultDepositFailed amount).
Definition DecodeBaseVaultDestinationVaultNotSetError (c : ChildVault) (data : slice)
    : res BaseVaultDestinationVaultNotSet :=
  values ← unpack_values (vault_ABI c) "BaseVault__DestinationVaultNotSet" 1 data;
  destinationChainSelector ← assert_value to_uint64 "destinationChainSelector" "BaseVaultDestinationVaultNotSet" values 0;
  Ok (mkBaseVaultDestinationVaultNotSet destinationChainSelector).
Definition DecodeBaseVaultEmptyInputError (c : ChildVault) (data : slice)
    : res BaseVaultEmptyInput :=
  _ ← unpack_values (vault_ABI c) "BaseVault__EmptyInput" 0 data;
  Ok mkBaseVaultEmptyInput.
Definition DecodeBaseVaultInvalidAdapterVaultError (c : ChildVault) (data : slice)
    : res BaseVaultInvalidAdapterVault :=
  values ← unpack_values (vault_ABI c) "BaseVault__InvalidAdapterVault" 3 data;
  adapter ← assert_value to_address "adapter" "BaseVaultInvalidAdapterVault" values 0;
  actualVault ← assert_value to_address "actualVault" "BaseVaultInvalidAdapterVault" values 1;
  expectedVault ← assert_value to_address "expectedVault" "BaseVaultInvalidAdapterVault" values 2;
  Ok (mkBaseVaultInvalidAdapterVault adapter actualVault expectedVault).
Definition DecodeBaseVaultInvalidDestinationChainSelectorError (c : ChildVault) (data : slice)
    : res BaseVaultInvalidDestinationChainSelector :=
  values ← unpack_values (vault_ABI c) "BaseVault__InvalidDestinationChainSelector" 1 data;
  destinationChainSelector ← assert_value to_uint64 "destinationChainSelector" "BaseVaultInvalidDestinationChainSelector" values 0;
  Ok (mkBaseVaultInvalidDestinationChainSelector destinationChainSelector).
Definition DecodeBaseVaultInvalidInputLengthsError (c : ChildVault) (data : slice)
    : res BaseVaultInvalidInputLengths :=
  _ ← unpack_values (vault_ABI c) "BaseVault__InvalidInputLengths" 0 data;
  Ok mkBaseVaultInvalidInputLengths.
Definition DecodeBaseVaultInvalidReceivedTokenError (c : ChildVault) (data : slice)
    : res BaseVaultInvalidReceivedToken :=
  values ← unpack_values (vault_ABI c) "BaseVault__InvalidReceivedToken" 2 data;
  receivedToken ← assert_value to_address "receivedToken" "BaseVaultInvalidReceivedToken" values 0;
  expectedToken ← assert_value to_address "expectedToken" "BaseVaultInvalidReceivedToken" values 1;
  Ok (mkBaseVaultInvalidReceivedToken receivedToken expectedToken).
Definition DecodeBaseVaultInvalidSenderError (c : ChildVault) (data : slice)
    : res BaseVaultInvalidSender :=
  values ← unpack_values (vault_ABI c) "BaseVault__InvalidSender" 2 data;
  sender ← assert_value to_address "sender" "BaseVaultInvalidSender" values 0;
  srcChainSelector ← assert_value to_uint64 "srcChainSelector" "BaseVaultInvalidSender" values 1;
  Ok (mkBaseVaultInvalidSender sender srcChainSelector).
Definition DecodeBaseVaultInvalidSourceChainSelectorError (c : ChildVault) (data : slice)
    : res BaseVaultInvalidSourceChainSelector :=
  values ← unpack_values (vault_ABI c) "BaseVault__InvalidSourceChainSelector" 2 data;
  sourceChainSelector ← assert_value to_uint64 "sourceChainSelector" "BaseVaultInvalidSourceChainSelector" values 0;
  expectedSourceChainSelector ← assert_value to_uint64 "expectedSourceChainSelector" "BaseVaultInvalidSourceChainSelector" values 1;
  Ok (mkBaseVaultInvalidSourceChainSelector sourceChainSelector expectedSourceChainSelector).
Definition DecodeBaseVaultInvalidTokenAmountsLengthError (c : ChildVault) (data : slice)
    : res BaseVaultInvalidTokenAmountsLength :=
  values ← unpack_values (vault_ABI c) "BaseVault__InvalidTokenAmountsLength" 2 data;
  receivedLength ← assert_value to_big "receivedLength" "BaseVaultInvalidTokenAmountsLength" values 0;
  expectedLength ← assert_value to_big "expectedLength" "BaseVaultInvalidTokenAmountsLength" values 1;
  Ok (mkBaseVaultInvalidTokenAmountsLength receivedLength expectedLength).
Definition DecodeBaseVaultInvalidTxTypeError (c : ChildVault) (data : slice)
    : res BaseVaultInvalidTxType :=
  values ← unpack_values (vault_ABI c) "BaseVault__InvalidTxType" 1 data;
  ccipTxType ← assert_value to_uint8 "ccipTxType" "BaseVaultInvalidTxType" values 0;
  Ok (mkBaseVaultInvalidTxType ccipTxType).
Definition DecodeBaseVaultNoActiveAdapterError (c : ChildVault) (data : slice)
    : res BaseVaultNoActiveAdapter :=
  _ ← unpack_values (vault_ABI c) "BaseVault__NoActiveAdapter" 0 data;
  Ok mkBaseVaultNoActiveAdapter.
Definition DecodeBaseVaultNoAdapterRegisteredError (c : ChildVault) (data : slice)
    : res BaseVaultNoAdapterRegistered :=
  values ← unpack_values (vault_ABI c) "BaseVault__NoAdapterRegistered" 1 data;
  protocolId ← assert_value to_bytes32 "protocolId" "BaseVaultNoAdapterRegistered" values 0;
  Ok (mkBaseVaultNoAdapterRegistered protocolId).
Definition DecodeBaseVaultNoPendingRecoveryError (c : ChildVault) (data : slice)
    : res BaseVaultNoPendingRecovery :=
  _ ← unpack_values (vault_ABI c) "BaseVault__NoPendingRecovery" 0 data;
  Ok mkBaseVaultNoPendingRecovery.
Definition DecodeBaseVaultNoZeroAddressError (c : ChildVault) (data : slice)
    : res BaseVaultNoZeroAddress :=
  _ ← unpack_values (vault_ABI c) "BaseVault__NoZeroAddress" 0 data;
  Ok mkBaseVaultNoZeroAddress.
Definition DecodeBaseVaultNoZeroAmountError (c : ChildVault) (data : slice)
    : res BaseVaultNoZeroAmount :=
  _ ← unpack_values (vault_ABI c) "BaseVault__NoZeroAmount" 0 data;
  Ok mkBaseVaultNoZeroAmount.
Definition DecodeBaseVaultNoZeroChainSelectorError (c : ChildVault) (data : slice)
    : res BaseVaultNoZeroChainSelector :=
  _ ← unpack_values (vault_ABI c) "BaseVault__NoZeroChainSelector" 0 data;
  Ok mkBaseVaultNoZeroChainSelector.
Definition DecodeBaseVaultOnlySelfError (c : ChildVault) (data : slice)
    : res BaseVaultOnlySelf :=
  _ ← unpack_values (vault_ABI c) "BaseVault__OnlySelf" 0 data;
  Ok mkBaseVaultOnlySelf.
Definition DecodeBaseVaultRecoveryAlreadyPendingError (c : ChildVault) (data : slice)
    : res BaseVaultRecoveryAlreadyPending :=
  _ ← unpack_values (vault_ABI c) "BaseVault__RecoveryAlreadyPending" 0 data;
  Ok mkBaseVaultRecoveryAlreadyPending.
Definition DecodeBaseVaultWithdrawFailedError (c : ChildVault) (data : slice)
    : res BaseVaultWithdrawFailed :=
  values ← unpack_values (vault_ABI c) "BaseVault__WithdrawFailed" 1 data;
  amount ← assert_value to_big "amount" "BaseVaultWithdrawFailed" values 0;
  Ok (mkBaseVaultWithdrawFailed amount).
Definition DecodeBaseVaultZeroRecoveryAmountError (c : ChildVault) (data : slice)
    : res BaseVaultZeroRecoveryAmount :=
  _ ← unpack_values (vault_ABI c) "BaseVault__ZeroRecoveryAmount" 0 data;
  Ok mkBaseVaultZeroRecoveryAmount.
Definition DecodeChildVaultInvalidEpochNonceError (c : ChildVault) (data : slice)
    : res ChildVaultInvalidEpochNonce :=
  values ← unpack_values (vault_ABI c) "ChildVault__InvalidEpochNonce" 2 data;
  providedNonce ← assert_value to_big "providedNonce" "ChildVaultInvalidEpochNonce" values 0;
  lastHandledNonce ← assert_value to_big "lastHandledNonce" "ChildVaultInvalidEpochNonce" values 1;
  Ok (mkChildVaultInvalidEpochNonce providedNonce lastHandledNonce).
Definition DecodeChildVaultInvalidParentChainSelectorError (c : ChildVault) (data : slice)
    : res ChildVaultInvalidParentChainSelector :=
  _ ← unpack_values (vault_ABI c) "ChildVault__InvalidParentChainSelector" 0 data;
  Ok mkChildVaultInvalidParentChainSelector.
Definition DecodeChildVaultInvalidRebalanceNonceError (c : ChildVault) (data : slice)
    : res ChildVaultInvalidRebalanceNonce :=
  values ← unpack_values (vault_ABI c) "ChildVault__InvalidRebalanceNonce" 2 data;
  providedNonce ← assert_value to_big "providedNonce" "ChildVaultInvalidRebalanceNonce" values 0;
  lastHandledNonce ← assert_value to_big "lastHandledNonce" "ChildVaultInvalidRebalanceNonce" values 1;
  Ok (mkChildVaultInvalidRebalanceNonce providedNonce lastHandledNonce).
Definition DecodeChildVaultInvalidRecoveryStrategyError (c : ChildVault) (data : slice)
    : res ChildVaultInvalidRecoveryStrategy :=
  _ ← unpack_values (vault_ABI c) "ChildVault__InvalidRecoveryStrategy" 0 data;
  Ok mkChildVaultInvalidRecoveryStrategy.
Definition DecodeChildVaultOnlySelfError (c : ChildVault) (data : slice)
    : res ChildVaultOnlySelf :=
  _ ← unpack_values (vault_ABI c) "ChildVault__OnlySelf" 0 data;
  Ok mkChildVaultOnlySelf.
Definition DecodeERC1967InvalidImplementationError (c : ChildVault) (data : slice)
    : res ERC1967InvalidImplementation :=
  values ← unpack_values (vault_ABI c) "ERC1967InvalidImplementation" 1 data;
  implementation ← assert_value to_address "implementation" "ERC1967InvalidImplementation" values 0;
  Ok (mkERC1967InvalidImplementation implementation).
Definition DecodeERC1967NonPayableError (c : ChildVault) (data : slice)
    : res ERC1967NonPayable :=
  _ ← unpack_values (vault_ABI c) "ERC1967NonPayable" 0 data;
  Ok mkERC1967NonPayable.
Definition DecodeEnforcedPauseError (c : ChildVault) (data : slice)
    : res EnforcedPause :=
  _ ← unpack_values (vault_ABI c) "EnforcedPause" 0 data;
  Ok mkEnforcedPause.
Definition DecodeExpectedPauseError (c : ChildVault) (data : slice)
    : res ExpectedPause :=
  _ ← unpack_values (vault_ABI c) "ExpectedPause" 0 data;
  Ok mkExpectedPause.
Definition DecodeFailedCallError (c : ChildVault) (data : slice)
    : res FailedCall :=
  _ ← unpack_values (vault_ABI c) "FailedCall" 0 data;
  Ok mkFailedCall.
Definition DecodeInvalidInitializationError (c : ChildVault) (data : slice)
    : res InvalidInitialization :=
  _ ← unpack_values (vault_ABI c) "InvalidInitialization" 0 data;
  Ok mkInvalidInitialization.
Definition DecodeInvalidRouterError (c : ChildVault) (data : slice)
    : res InvalidRouter :=
  values ← unpack_values (vault_ABI c) "InvalidRouter" 1 data;
  router ← assert_value to_address "router" "InvalidRouter" values 0;
  Ok (mkInvalidRouter router).
Definition DecodeNotInitializingError (c : ChildVault) (data : slice)
    : res NotInitializing :=
  _ ← unpack_values (vault_ABI c) "NotInitializing" 0 data;
  Ok mkNotInitializing.
Definition DecodeReentrancyGuardReentrantCallError (c : ChildVault) (data : slice)
    : res ReentrancyGuardReentrantCall :=
  _ ← unpack_values (vault_ABI c) "ReentrancyGuardReentrantCall" 0 data;
  Ok mkReentrancyGuardReentrantCall.
Definition DecodeSafeCastOverflowedUintDowncastError (c : ChildVault) (data : slice)
    : res SafeCastOverflowedUintDowncast :=
  values ← unpack_values (vault_ABI c) "SafeCastOverflowedUintDowncast" 2 data;
  bits ← assert_value to_uint8 "bits" "SafeCastOverflowedUintDowncast" values 0;
  value ← assert_value to_big "value" "SafeCastOverflowedUintDowncast" values 1;
  Ok (mkSafeCastOverflowedUintDowncast bits value).
Definition DecodeSafeERC20FailedOperationError (c : ChildVault) (data : slice)
    : res SafeERC20FailedOperation :=
  values ← unpack_values (vault_ABI c) "SafeERC20FailedOperation" 1 data;
  token ← assert_value to_address "token" "SafeERC20FailedOperation" values 0;
  Ok (mkSafeERC20FailedOperation token).
Definition DecodeUUPSUnauthorizedCallContextError (c : ChildVault) (data : slice)
    : res UUPSUnauthorizedCallContext :=
  _ ← unpack_values (vault_ABI c) "UUPSUnauthorizedCallContext" 0 data;
  Ok mkUUPSUnauthorizedCallContext.
Definition DecodeUUPSUnsupportedProxiableUUIDError (c : ChildVault) (data : slice)
    : res UUPSUnsupportedProxiableUUID :=
  values ← unpack_values (vault_ABI c) "UUPSUnsupportedProxiableUUID" 1 data;
  slot ← assert_value to_bytes32 "slot" "UUPSUnsupportedProxiableUUID" values 0;
  Ok (mkUUPSUnsupportedProxiableUUID slot).

(** ** [UnpackError]: the selectors in source order *)
Definition cases (c : ChildVault) : list (string * (slice → res vault_error)) :=
  [("AccessControlBadConfirmation"%string, λ data, EAccessControlBadConfirmation <$> DecodeAccessControlBadConfirmationError c data);
   ("AccessControlEnforcedDefaultAdminDelay"%string, λ data, EAccessControlEnforcedDefaultAdminDelay <$> DecodeAccessControlEnforcedDefaultAdminDelayError c data);
   ("AccessControlEnforcedDefaultAdminRules"%string, λ data, EAccessControlEnforcedDefaultAdminRules <$> DecodeAccessControlEnforcedDefaultAdminRulesError c data);
   ("AccessControlInvalidDefaultAdmin"%string, λ data, EAccessControlInvalidDefaultAdmin <$> DecodeAccessControlInvalidDefaultAdminError c data);
   ("AccessControlUnauthorizedAccount"%string, λ data, EAccessControlUnauthorizedAccount <$> DecodeAccessControlUnauthorizedAccountError c data);
   ("AddressEmptyCode"%string, λ data, EAddressEmptyCode <$> DecodeAddressEmptyCodeError c data);
   ("BaseVault__DepositFailed"%string, λ data, EBaseVaultDepositFailed <$> DecodeBaseVaultDepositFailedError c data);
   ("BaseVault__DestinationVaultNotSet"%string, λ data, EBaseVaultDestinationVaultNotSet <$> DecodeBaseVaultDestinationVaultNotSetError c data);
   ("BaseVault__EmptyInput"%string, λ data, EBaseVaultEmptyInput <$> DecodeBaseVaultEmptyInputError c data);
   ("BaseVault__InvalidAdapterVault"%string, λ data, EBaseVaultInvalidAdapterVault <$> DecodeBaseVaultInvalidAdapterVaultError c data);
   ("BaseVault__InvalidDestinationChainSelector"%string, λ data, EBaseVaultInvalidDestinationChainSelector <$> DecodeBaseVaultInvalidDestinationChainSelectorError c data);
   ("BaseVault__InvalidInputLengths"%string, λ data, EBaseVaultInvalidInputLengths <$> DecodeBaseVaultInvalidInputLengthsError c data);
   ("BaseVault__InvalidReceivedToken"%string, λ data, EBaseVaultInvalidReceivedToken <$> DecodeBaseVaultInvalidReceivedTokenError c data);
   ("BaseVault__InvalidSender"%string, λ data, EBaseVaultInvalidSender <$> DecodeBaseVaultInvalidSenderError c data);
   ("BaseVault__InvalidSourceChainSelector"%string, λ data, EBaseVaultInvalidSourceChainSelector <$> DecodeBaseVaultInvalidSourceChainSelectorError c data);
   ("BaseVault__InvalidTokenAmountsLength"%string, λ data, EBaseVaultInvalidTokenAmountsLength <$> DecodeBaseVaultInvalidTokenAmountsLengthError c data);
   ("BaseVault__InvalidTxType"%string, λ data, EBaseVaultInvalidTxType <$> DecodeBaseVaultInvalidTxTypeError c data);
   ("BaseVault__NoActiveAdapter"%string, λ data, EBaseVaultNoActiveAdapter <$> DecodeBaseVaultNoActiveAdapterError c data);
   ("BaseVault__NoAdapterRegistered"%string, λ data, EBaseVaultNoAdapterRegistered <$> DecodeBaseVaultNoAdapterRegisteredError c data);
   ("BaseVault__NoPendingRecovery"%string, λ data, EBaseVaultNoPendingRecovery <$> DecodeBaseVaultNoPendingRecoveryError c data);
   ("BaseVault__NoZeroAddress"%string, λ data, EBaseVaultNoZeroAddress <$> DecodeBaseVaultNoZeroAddressError c data);
   ("BaseVault__NoZeroAmount"%string, λ data, EBaseVaultNoZeroAmount <$> DecodeBaseVaultNoZeroAmountError c data);
   ("BaseVault__NoZeroChainSelector"%string, λ data, EBaseVaultNoZeroChainSelector <$> DecodeBaseVaultNoZeroChainSelectorError c data);
   ("BaseVault__OnlySelf"%string, λ data, EBaseVaultOnlySelf <$> DecodeBaseVaultOnlySelfError c data);
   ("BaseVault__RecoveryAlreadyPending"%string, λ data, EBaseVaultRecoveryAlreadyPending <$> DecodeBaseVaultRecoveryAlreadyPendingError c data);
   ("BaseVault__WithdrawFailed"%string, λ data, EBaseVaultWithdrawFailed <$> DecodeBaseVaultWithdrawFailedError c data);
   ("BaseVault__ZeroRecoveryAmount"%string, λ data, EBaseVaultZeroRecoveryAmount <$> DecodeBaseVaultZeroRecoveryAmountError c data);
   ("ChildVault__InvalidEpochNonce"%string, λ data, EChildVaultInvalidEpochNonce <$> DecodeChildVaultInvalidEpochNonceError c data);
   ("ChildVault__InvalidParentChainSelector"%string, λ data, EChildVaultInvalidParentChainSelector <$> DecodeChildVaultInvalidParentChainSelectorError c data);
   ("ChildVault__InvalidRebalanceNonce"%string, λ data, EChildVaultInvalidRebalanceNonce <$> DecodeChildVaultInvalidRebalanceNonceError c data);
   ("ChildVault__InvalidRecoveryStrategy"%string, λ data, EChildVaultInvalidRecoveryStrategy <$> DecodeChildVaultInvalidRecoveryStrategyError c data);
   ("ChildVault__OnlySelf"%string, λ data, EChildVaultOnlySelf <$> DecodeChildVaultOnlySelfError c data);
   ("ERC1967InvalidImplementation"%string, λ data, EERC1967InvalidImplementation <$> DecodeERC1967InvalidImplementationError c data);
   ("ERC1967NonPayable"%string, λ data, EERC1967NonPayable <$> DecodeERC1967NonPayableError c data);
   ("EnforcedPause"%string, λ data, EEnforcedPause <$> DecodeEnforcedPauseError c data);
   ("ExpectedPause"%string, λ data, EExpectedPause <$> DecodeExpectedPauseError c data);
   ("FailedCall"%string, λ data, EFailedCall <$> DecodeFailedCallError c data);
   ("InvalidInitialization"%string, λ data, EInvalidInitialization <$> DecodeInvalidInitializationError c data);
   ("InvalidRouter"%string, λ data, EInvalidRouter <$> DecodeInvalidRouterError c data);
   ("NotInitializing"%string, λ data, ENotInitializing <$> DecodeNotInitializingError c data);
   ("ReentrancyGuardReentrantCall"%string, λ data, EReentrancyGuardReentrantCall <$> DecodeReentrancyGuardReentrantCallError c data);
   ("SafeCastOverflowedUintDowncast"%string, λ data, ESafeCastOverflowedUintDowncast <$> DecodeSafeCastOverflowedUintDowncastError c data);
   ("SafeERC20FailedOperation"%string, λ data, ESafeERC20FailedOperation <$> DecodeSafeERC20FailedOperationError c data);
   ("UUPSUnauthorizedCallContext"%string, λ data, EUUPSUnauthorizedCallContext <$> DecodeUUPSUnauthorizedCallContextError c data);
   ("UUPSUnsupportedProxiableUUID"%string, λ data, EUUPSUnsupportedProxiableUUID <$> DecodeUUPSUnsupportedProxiableUUIDError c data)].
Definition UnpackError (c : ChildVault) (data : slice) : res vault_error :=
  unpack_error (vault_ABI c) (cases c) data.
End Decoders.

(** ** The [Error] methods *)
Section Texts.
Context `{GoUnicode, GoAbiErrors}.

Definition AccessControlBadConfirmation_Error (e : AccessControlBadConfirmation) : string :=
  Sprintf "AccessControlBadConfirmation error:" [].
Definition AccessControlEnforcedDefaultAdminDelay_Error (e : AccessControlEnforcedDefaultAdminDelay) : string :=
  Sprintf "AccessControlEnforcedDefaultAdminDelay error: schedule=%v;"
    [FStr (show_big (AccessControlEnforcedDefaultAdminDelay_Schedule e))].
Definition AccessControlEnforcedDefaultAdminRules_Error (e : AccessControlEnforcedDefaultAdminRules) : string :=
  Sprintf "AccessControlEnforcedDefaultAdminRules error:"
    [].
Definition AccessControlInvalidDefaultAdmin_Error (e : AccessControlInvalidDefaultAdmin) : string :=
  Sprintf "AccessControlInvalidDefaultAdmin error: defaultAdmin=%v;"
    [FStr (show_address (AccessControlInvalidDefaultAdmin_DefaultAdmin e))].
Definition AccessControlUnauthorizedAccount_Error (e : AccessControlUnauthorizedAccount) : string :=
  Sprintf "AccessControlUnauthorizedAccount error: account=%v; neededRole=%v;"
    [FStr (show_address (AccessControlUnauthorizedAccount_Account e));
     FStr (show_bytes32 (AccessControlUnauthorizedAccount_NeededRole e))].
Definition AddressEmptyCode_Error (e : AddressEmptyCode) : string :=
  Sprintf "AddressEmptyCode error: target=%v;" [FStr (show_address (AddressEmptyCode_Target e))].
Definition BaseVaultDepositFailed_Error (e : BaseVaultDepositFailed) : string :=
  Sprintf "BaseVaultDepositFailed error: amount=%v;"
    [FStr (show_big (BaseVaultDepositFailed_Amount e))].
Definition BaseVaultDestinationVaultNotSet_Error (e : BaseVaultDestinationVaultNotSet) : string :=
  Sprintf "BaseVaultDestinationVaultNotSet error: destinationChainSelector=%v;"
    [FStr (show_uint (BaseVaultDestinationVaultNotSet_DestinationChainSelector e))].
Definition BaseVaultEmptyInput_Error (e : BaseVaultEmptyInput) : string :=
  Sprintf "BaseVaultEmptyInput error:" [].
Definition BaseVaultInvalidAdapterVault_Error (e : BaseVaultInvalidAdapterVault) : string :=
  Sprintf "BaseVaultInvalidAdapterVault error: adapter=%v; actualVault=%v; expectedVault=%v;"
    [FStr (show_address (BaseVaultInvalidAdapterVault_Adapter e));
     FStr (show_address (BaseVaultInvalidAdapterVault_ActualVault e));
     FStr (show_address (BaseVaultInvalidAdapterVault_ExpectedVault e))].
Definition BaseVaultInvalidDestinationChainSelector_Error (e : BaseVaultInvalidDestinationChainSelector) : string :=
  Sprintf "BaseVaultInvalidDestinationChainSelector error: destinationChainSelector=%v;"
    [FStr (show_uint (BaseVaultInvalidDestinationChainSelector_DestinationChainSelector e))].
Definition BaseVaultInvalidInputLengths_Error (e : BaseVaultInvalidInputLengths) : string :=
  Sprintf "BaseVaultInvalidInputLengths error:" [].
Definition BaseVaultInvalidReceivedToken_Error (e : BaseVaultInvalidReceivedToken) : string :=
  Sprintf "BaseVaultInvalidReceivedToken error: receivedToken=%v; expectedToken=%v;"
    [FStr (show_address (BaseVaultInvalidReceivedToken_ReceivedToken e));
     FStr (show_address (BaseVaultInvalidReceivedToken_ExpectedToken e))].
Definition BaseVaultInvalidSender_Error (e : BaseVaultInvalidSender) : string :=
  Sprintf "BaseVaultInvalidSender error: sender=%v; srcChainSelector=%v;"
    [FStr (show_address (BaseVaultInvalidSender_Sender e));
     FStr (show_uint (BaseVaultInvalidSender_SrcChainSelector e))].
Definition BaseVaultInvalidSourceChainSelector_Error (e : BaseVaultInvalidSourceChainSelector) : string :=
  Sprintf "BaseVaultInvalidSourceChainSelector error: sourceChainSelector=%v; expectedSourceChainSelector=%v;"
    [FStr (show_uint (BaseVaultInvalidSourceChainSelector_SourceChainSelector e));
     FStr (show_uint (BaseVaultInvalidSourceChainSelector_ExpectedSourceChainSelector e))].
Definition BaseVaultInvalidTokenAmountsLength_Error (e : BaseVaultInvalidTokenAmountsLength) : string :=
  Sprintf "BaseVaultInvalidTokenAmountsLength error: receivedLength=%v; expectedLength=%v;"
    [FStr (show_big (BaseVaultInvalidTokenAmountsLength_ReceivedLength e));
     FStr (show_big (BaseVaultInvalidTokenAmountsLength_ExpectedLength e))].
Definition BaseVaultInvalidTxType_Error (e : BaseVaultInvalidTxType) : string :=
  Sprintf "BaseVaultInvalidTxType error: ccipTxType=%v;"
    [FStr (show_uint (BaseVaultInvalidTxType_CcipTxType e))].
Definition BaseVaultNoActiveAdapter_Error (e : BaseVaultNoActiveAdapter) : string :=
  Sprintf "BaseVaultNoActiveAdapter error:" [].
Definition BaseVaultNoAdapterRegistered_Error (e : BaseVaultNoAdapterRegistered) : string :=
  Sprintf "BaseVaultNoAdapterRegistered error: protocolId=%v;"
    [FStr (show_bytes32 (BaseVaultNoAdapterRegistered_ProtocolId e))].
Definition BaseVaultNoPendingRecovery_Error (e : BaseVaultNoPendingRecovery) : string :=
  Sprintf "BaseVaultNoPendingRecovery error:" [].
Definition BaseVaultNoZeroAddress_Error (e : BaseVaultNoZeroAddress) : string :=
  Sprintf "BaseVaultNoZeroAddress error:" [].
Definition BaseVaultNoZeroAmount_Error (e : BaseVaultNoZeroAmount) : string :=
  Sprintf "BaseVaultNoZeroAmount error:" [].
Definition BaseVaultNoZeroChainSelector_Error (e : BaseVaultNoZeroChainSelector) : string :=
  Sprintf "BaseVaultNoZeroChainSelector error:" [].
Definition BaseVaultOnlySelf_Error (e : BaseVaultOnlySelf) : string :=
  Sprintf "BaseVaultOnlySelf error:" [].
Definition BaseVaultRecoveryAlreadyPending_Error (e : BaseVaultRecoveryAlreadyPending) : string :=
  Sprintf "BaseVaultRecoveryAlreadyPending error:" [].
Definition BaseVaultWithdrawFailed_Error (e : BaseVaultWithdrawFailed) : string :=
  Sprintf "BaseVaultWithdrawFailed error: amount=%v;"
    [FStr (show_big (BaseVaultWithdrawFailed_Amount e))].
Definition BaseVaultZeroRecoveryAmount_Error (e : BaseVaultZeroRecoveryAmount) : string :=
  Sprintf "BaseVaultZeroRecoveryAmount error:" [].
Definition ChildVaultInvalidEpochNonce_Error (e : ChildVaultInvalidEpochNonce) : string :=
  Sprintf "ChildVaultInvalidEpochNonce error: providedNonce=%v; lastHandledNonce=%v;"
    [FStr (show_big (ChildVaultInvalidEpochNonce_ProvidedNonce e));
     FStr (show_big (ChildVaultInvalidEpochNonce_LastHandledNonce e))].
Definition ChildVaultInvalidParentChainSelector_Error (e : ChildVaultInvalidParentChainSelector) : string :=
  Sprintf "ChildVaultInvalidParentChainSelector error:"
    [].
Definition ChildVaultInvalidRebalanceNonce_Error (e : ChildVaultInvalidRebalanceNonce) : string :=
  Sprintf "ChildVaultInvalidRebalanceNonce error: providedNonce=%v; lastHandledNonce=%v;"
    [FStr (show_big (ChildVaultInvalidRebalanceNonce_ProvidedNonce e));
     FStr (show_big (ChildVaultInvalidRebalanceNonce_LastHandledNonce e))].
Definition ChildVaultInvalidRecoveryStrategy_Error (e : ChildVaultInvalidRecoveryStrategy) : string :=
  Sprintf "ChildVaultInvalidRecoveryStrategy error:"
    [].
Definition ChildVaultOnlySelf_Error (e : ChildVaultOnlySelf) : string :=
  Sprintf "ChildVaultOnlySelf error:" [].
Definition ERC1967InvalidImplementation_Error (e : ERC1967InvalidImplementation) : string :=
  Sprintf "ERC1967InvalidImplementation error: implementation=%v;"
    [FStr (show_address (ERC1967InvalidImplementation_Implementation e))].
Definition ERC1967NonPayable_Error (e : ERC1967NonPayable) : string :=
  Sprintf "ERC1967NonPayable error:" [].
Definition EnforcedPause_Error (e : EnforcedPause) : string :=
  Sprintf "EnforcedPause error:" [].
Definition ExpectedPause_Error (e : ExpectedPause) : string :=
  Sprintf "ExpectedPause error:" [].
Definition FailedCall_Error (e : FailedCall) : string :=
  Sprintf "FailedCall error:" [].
Definition InvalidInitialization_Error (e : InvalidInitialization) : string :=
  Sprintf "InvalidInitialization error:" [].
Definition InvalidRouter_Error (e : InvalidRouter) : string :=
  Sprintf "InvalidRouter error: router=%v;" [FStr (show_address (InvalidRouter_Router e))].
Definition NotInitializing_Error (e : NotInitializing) : string :=
  Sprintf "NotInitializing error:" [].
Definition ReentrancyGuardReentrantCall_Error (e : ReentrancyGuardReentrantCall) : string :=
  Sprintf "ReentrancyGuardReentrantCall error:" [].
Definition SafeCastOverflowedUintDowncast_Error (e : SafeCastOverflowedUintDowncast) : string :=
  Sprintf "SafeCastOverflowedUintDowncast error: bits=%v; value=%v;"
    [FStr (show_uint (SafeCastOverflowedUintDowncast_Bits e));
     FStr (show_big (SafeCastOverflowedUintDowncast_Value e))].
Definition SafeERC20FailedOperation_Error (e : SafeERC20FailedOperation) : string :=
  Sprintf "SafeERC20FailedOperation error: token=%v;"
    [FStr (show_address (SafeERC20FailedOperation_Token e))].
Definition UUPSUnauthorizedCallContext_Error (e : UUPSUnauthorizedCallContext) : string :=
  Sprintf "UUPSUnauthorizedCallContext error:" [].
Definition UUPSUnsupportedProxiableUUID_Error (e : UUPSUnsupportedProxiableUUID) : string :=
  Sprintf "UUPSUnsupportedProxiableUUID error: slot=%v;"
    [FStr (show_bytes32 (UUPSUnsupportedProxiableUUID_Slot e))].

(** The method of the dynamic type of an error. *)
Definition ErrorText (e : vault_error) : string :=
  match e with
  | EAccessControlBadConfirmation e => AccessControlBadConfirmation_Error e
  | EAccessControlEnforcedDefaultAdminDelay e => AccessControlEnforcedDefaultAdminDelay_Error e
  | EAccessControlEnforcedDefaultAdminRules e => AccessControlEnforcedDefaultAdminRules_Error e
  | EAccessControlInvalidDefaultAdmin e => AccessControlInvalidDefaultAdmin_Error e
  | EAccessControlUnauthorizedAccount e => AccessControlUnauthorizedAccount_Error e
  | EAddressEmptyCode e => AddressEmptyCode_Error e
  | EBaseVaultDepositFailed e => BaseVaultDepositFailed_Error e
  | EBaseVaultDestinationVaultNotSet e => BaseVaultDestinationVaultNotSet_Error e
  | EBaseVaultEmptyInput e => BaseVaultEmptyInput_Error e
  | EBaseVaultInvalidAdapterVault e => BaseVaultInvalidAdapterVault_Error e
  | EBaseVaultInvalidDestinationChainSelector e => BaseVaultInvalidDestinationChainSelector_Error e
  | EBaseVaultInvalidInputLengths e => BaseVaultInvalidInputLengths_Error e
  | EBaseVaultInvalidReceivedToken e => BaseVaultInvalidReceivedToken_Error e
  | EBaseVaultInvalidSender e => BaseVaultInvalidSender_Error e
  | EBaseVaultInvalidSourceChainSelector e => BaseVaultInvalidSourceChainSelector_Error e
  | EBaseVaultInvalidTokenAmountsLength e => BaseVaultInvalidTokenAmountsLength_Error e
  | EBaseVaultInvalidTxType e => BaseVaultInvalidTxType_Error e
  | EBaseVaultNoActiveAdapter e => BaseVaultNoActiveAdapter_Error e
  | EBaseVaultNoAdapterRegistered e => BaseVaultNoAdapterRegistered_Error e
  | EBaseVaultNoPendingRecovery e => BaseVaultNoPendingRecovery_Error e
  | EBaseVaultNoZeroAddress e => BaseVaultNoZeroAddress_Error e
  | EBaseVaultNoZeroAmount e => BaseVaultNoZeroAmount_Error e
  | EBaseVaultNoZeroChainSelector e => BaseVaultNoZeroChainSelector_Error e
  | EBaseVaultOnlySelf e => BaseVaultOnlySelf_Error e
  | EBaseVaultRecoveryAlreadyPending e => BaseVaultRecoveryAlreadyPending_Error e
  | EBaseVaultWithdrawFailed e => BaseVaultWithdrawFailed_Error e
  | EBaseVaultZeroRecoveryAmount e => BaseVaultZeroRecoveryAmount_Error e
  | EChildVaultInvalidEpochNonce e => ChildVaultInvalidEpochNonce_Error e
  | EChildVaultInvalidParentChainSelector e => ChildVaultInvalidParentChainSelector_Error e
  | EChildVaultInvalidRebalanceNonce e => ChildVaultInvalidRebalanceNonce_Error e
  | EChildVaultInvalidRecoveryStrategy e => ChildVaultInvalidRecoveryStrategy_Error e
  | EChildVaultOnlySelf e => ChildVaultOnlySelf_Error e
  | EERC1967InvalidImplementation e => ERC1967InvalidImplementation_Error e
  | EERC1967NonPayable e => ERC1967NonPayable_Error e
  | EEnforcedPause e => EnforcedPause_Error e
  | EExpectedPause e => ExpectedPause_Error e
  | EFailedCall e => FailedCall_Error e
  | EInvalidInitialization e => InvalidInitialization_Error e
  | EInvalidRouter e => InvalidRouter_Error e
  | ENotInitializing e => NotInitializing_Error e
  | EReentrancyGuardReentrantCall e => ReentrancyGuardReentrantCall_Error e
  | ESafeCastOverflowedUintDowncast e => SafeCastOverflowedUintDowncast_Error e
  | ESafeERC20FailedOperation e => SafeERC20FailedOperation_Error e
  | EUUPSUnauthorizedCallContext e => UUPSUnauthorizedCallContext_Error e
  | EUUPSUnsupportedProxiableUUID e => UUPSUnsupportedProxiableUUID_Error e
  end.
End Texts.

(** ** The description of an error: its ABI name and its values *)
Definition describe (e : vault_error) : string * list dyn :=
  match e with
  | EAccessControlBadConfirmation _ => ("AccessControlBadConfirmation"%string, [])
  | EAccessControlEnforcedDefaultAdminDelay e => ("AccessControlEnforcedDefaultAdminDelay"%string, [DBig (AccessControlEnforcedDefaultAdminDelay_Schedule e)])
  | EAccessControlEnforcedDefaultAdminRules _ => ("AccessControlEnforcedDefaultAdminRules"%string, [])
  | EAccessControlInvalidDefaultAdmin e => ("AccessControlInvalidDefaultAdmin"%string, [DAddress (AccessControlInvalidDefaultAdmin_DefaultAdmin e)])
  | EAccessControlUnauthorizedAccount e => ("AccessControlUnauthorizedAccount"%string, [DAddress (AccessControlUnauthorizedAccount_Account e); DBytes32 (AccessControlUnauthorizedAccount_NeededRole e)])
  | EAddressEmptyCode e => ("AddressEmptyCode"%string, [DAddress (AddressEmptyCode_Target e)])
  | EBaseVaultDepositFailed e => ("BaseVault__DepositFailed"%string, [DBig (BaseVaultDepositFailed_Amount e)])
  | EBaseVaultDestinationVaultNotSet e => ("BaseVault__DestinationVaultNotSet"%string, [DUint64 (BaseVaultDestinationVaultNotSet_DestinationChainSelector e)])
  | EBaseVaultEmptyInput _ => ("BaseVault__EmptyInput"%string, [])
  | EBaseVaultInvalidAdapterVault e => ("BaseVault__InvalidAdapterVault"%string, [DAddress (BaseVaultInvalidAdapterVault_Adapter e); DAddress (BaseVaultInvalidAdapterVault_ActualVault e); DAddress (BaseVaultInvalidAdapterVault_ExpectedVault e)])
  | EBaseVaultInvalidDestinationChainSelector e => ("BaseVault__InvalidDestinationChainSelector"%string, [DUint64 (BaseVaultInvalidDestinationChainSelector_DestinationChainSelector e)])
  | EBaseVaultInvalidInputLengths _ => ("BaseVault__InvalidInputLengths"%string, [])
  | EBaseVaultInvalidReceivedToken e => ("BaseVault__InvalidReceivedToken"%string, [DAddress (BaseVaultInvalidReceivedToken_ReceivedToken e); DAddress (BaseVaultInvalidReceivedToken_ExpectedToken e)])
  | EBaseVaultInvalidSender e => ("BaseVault__InvalidSender"%string, [DAddress (BaseVaultInvalidSender_Sender e); DUint64 (BaseVaultInvalidSender_SrcChainSelector e)])
  | EBaseVaultInvalidSourceChainSelector e => ("BaseVault__InvalidSourceChainSelector"%string, [DUint64 (BaseVaultInvalidSourceChainSelector_SourceChainSelector e); DUint64 (BaseVaultInvalidSourceChainSelector_ExpectedSourceChainSelector e)])
  | EBaseVaultInvalidTokenAmountsLength e => ("BaseVault__InvalidTokenAmountsLength"%string, [DBig (BaseVaultInvalidTokenAmountsLength_ReceivedLength e); DBig (BaseVaultInvalidTokenAmountsLength_ExpectedLength e)])
  | EBaseVaultInvalidTxType e => ("BaseVault__InvalidTxType"%string, [DUint8 (BaseVaultInvalidTxType_CcipTxType e)])
  | EBaseVaultNoActiveAdapter _ => ("BaseVault__NoActiveAdapter"%string, [])
  | EBaseVaultNoAdapterRegistered e => ("BaseVault__NoAdapterRegistered"%string, [DBytes32 (BaseVaultNoAdapterRegistered_ProtocolId e)])
  | EBaseVaultNoPendingRecovery _ => ("BaseVault__NoPendingRecovery"%string, [])
  | EBaseVaultNoZeroAddress _ => ("BaseVault__NoZeroAddress"%string, [])
  | EBaseVaultNoZeroAmount _ => ("BaseVault__NoZeroAmount"%string, [])
  | EBaseVaultNoZeroChainSelector _ => ("BaseVault__NoZeroChainSelector"%string, [])
  | EBaseVaultOnlySelf _ => ("BaseVault__OnlySelf"%string, [])
  | EBaseVaultRecoveryAlreadyPending _ => ("BaseVault__RecoveryAlreadyPending"%string, [])
  | EBaseVaultWithdrawFailed e => ("BaseVault__WithdrawFailed"%string, [DBig (BaseVaultWithdrawFailed_Amount e)])
  | EBaseVaultZeroRecoveryAmount _ => ("BaseVault__ZeroRecoveryAmount"%string, [])
  | EChildVaultInvalidEpochNonce e => ("ChildVault__InvalidEpochNonce"%string, [DBig (ChildVaultInvalidEpochNonce_ProvidedNonce e); DBig (ChildVaultInvalidEpochNonce_LastHandledNonce e)])
  | EChildVaultInvalidParentChainSelector _ => ("ChildVault__InvalidParentChainSelector"%string, [])
  | EChildVaultInvalidRebalanceNonce e => ("ChildVault__InvalidRebalanceNonce"%string, [DBig (ChildVaultInvalidRebalanceNonce_ProvidedNonce e); DBig (ChildVaultInvalidRebalanceNonce_LastHandledNonce e)])
  | EChildVaultInvalidRecoveryStrategy _ => ("ChildVault__InvalidRecoveryStrategy"%string, [])
  | EChildVaultOnlySelf _ => ("ChildVault__OnlySelf"%string, [])
  | EERC1967InvalidImplementation e => ("ERC1967InvalidImplementation"%string, [DAddress (ERC1967InvalidImplementation_Implementation e)])
  | EERC1967NonPayable _ => ("ERC1967NonPayable"%string, [])
  | EEnforcedPause _ => ("EnforcedPause"%string, [])
  | EExpectedPause _ => ("ExpectedPause"%string, [])
  | EFailedCall _ => ("FailedCall"%string, [])
  | EInvalidInitialization _ => ("InvalidInitialization"%string, [])
  | EInvalidRouter e => ("InvalidRouter"%string, [DAddress (InvalidRouter_Router e)])
  | ENotInitializing _ => ("NotInitializing"%string, [])
  | EReentrancyGuardReentrantCall _ => ("ReentrancyGuardReentrantCall"%string, [])
  | ESafeCastOverflowedUintDowncast e => ("SafeCastOverflowedUintDowncast"%string, [DUint8 (SafeCastOverflowedUintDowncast_Bits e); DBig (SafeCastOverflowedUintDowncast_Value e)])
  | ESafeERC20FailedOperation e => ("SafeERC20FailedOperation"%string, [DAddress (SafeERC20FailedOperation_Token e)])
  | EUUPSUnauthorizedCallContext _ => ("UUPSUnauthorizedCallContext"%string, [])
  | EUUPSUnsupportedProxiableUUID e => ("UUPSUnsupportedProxiableUUID"%string, [DBytes32 (UUPSUnsupportedProxiableUUID_Slot e)])
  end.

(** The Go name and the fields of an error, as its text shows them. *)
Definition shown `{GoAbiErrors} (e : vault_error) : string * list (string * string) :=
  match e with
  | EAccessControlBadConfirmation _ => ("AccessControlBadConfirmation"%string, [])
  | EAccessControlEnforcedDefaultAdminDelay e => ("AccessControlEnforcedDefaultAdminDelay"%string,
      [("schedule"%string, show_big (AccessControlEnforcedDefaultAdminDelay_Schedule e))])
  | EAccessControlEnforcedDefaultAdminRules e => ("AccessControlEnforcedDefaultAdminRules"%string,
      [])
  | EAccessControlInvalidDefaultAdmin e => ("AccessControlInvalidDefaultAdmin"%string,
      [("defaultAdmin"%string, show_address (AccessControlInvalidDefaultAdmin_DefaultAdmin e))])
  | EAccessControlUnauthorizedAccount e => ("AccessControlUnauthorizedAccount"%string,
      [("account"%string, show_address (AccessControlUnauthorizedAccount_Account e));
       ("neededRole"%string, show_bytes32 (AccessControlUnauthorizedAccount_NeededRole e))])
  | EAddressEmptyCode e => ("AddressEmptyCode"%string,
      [("target"%string, show_address (AddressEmptyCode_Target e))])
  | EBaseVaultDepositFailed e => ("BaseVaultDepositFailed"%string,
      [("amount"%string, show_big (BaseVaultDepositFailed_Amount e))])
  | EBaseVaultDestinationVaultNotSet e => ("BaseVaultDestinationVaultNotSet"%string,
      [("destinationChainSelector"%string, show_uint (BaseVaultDestinationVaultNotSet_DestinationChainSelector e))])
  | EBaseVaultEmptyInput _ => ("BaseVaultEmptyInput"%string, [])
  | EBaseVaultInvalidAdapterVault e => ("BaseVaultInvalidAdapterVault"%string,
      [("adapter"%string, show_address (BaseVaultInvalidAdapterVault_Adapter e));
       ("actualVault"%string, show_address (BaseVaultInvalidAdapterVault_ActualVault e));
       ("expectedVault"%string, show_address (BaseVaultInvalidAdapterVault_ExpectedVault e))])
  | EBaseVaultInvalidDestinationChainSelector e => ("BaseVaultInvalidDestinationChainSelector"%string,
      [("destinationChainSelector"%string, show_uint (BaseVaultInvalidDestinationChainSelector_DestinationChainSelector e))])
  | EBaseVaultInvalidInputLengths _ => ("BaseVaultInvalidInputLengths"%string, [])
  | EBaseVaultInvalidReceivedToken e => ("BaseVaultInvalidReceivedToken"%string,
      [("receivedToken"%string, show_address (BaseVaultInvalidReceivedToken_ReceivedToken e));
       ("expectedToken"%string, show_address (BaseVaultInvalidReceivedToken_ExpectedToken e))])
  | EBaseVaultInvalidSender e => ("BaseVaultInvalidSender"%string,
      [("sender"%string, show_address (BaseVaultInvalidSender_Sender e));
       ("srcChainSelector"%string, show_uint (BaseVaultInvalidSender_SrcChainSelector e))])
  | EBaseVaultInvalidSourceChainSelector e => ("BaseVaultInvalidSourceChainSelector"%string,
      [("sourceChainSelector"%string, show_uint (BaseVaultInvalidSourceChainSelector_SourceChainSelector e));
       ("expectedSourceChainSelector"%string, show_uint (BaseVaultInvalidSourceChainSelector_ExpectedSourceChainSelector e))])
  | EBaseVaultInvalidTokenAmountsLength e => ("BaseVaultInvalidTokenAmountsLength"%string,
      [("receivedLength"%string, show_big (BaseVaultInvalidTokenAmountsLength_ReceivedLength e));
       ("expectedLength"%string, show_big (BaseVaultInvalidTokenAmountsLength_ExpectedLength e))])
  | EBaseVaultInvalidTxType e => ("BaseVaultInvalidTxType"%string,
      [("ccipTxType"%string, show_uint (BaseVaultInvalidTxType_CcipTxType e))])
  | EBaseVaultNoActiveAdapter _ => ("BaseVaultNoActiveAdapter"%string, [])
  | EBaseVaultNoAdapterRegistered e => ("BaseVaultNoAdapterRegistered"%string,
      [("protocolId"%string, show_bytes32 (BaseVaultNoAdapterRegistered_ProtocolId e))])
  | EBaseVaultNoPendingRecovery _ => ("BaseVaultNoPendingRecovery"%string, [])
  | EBaseVaultNoZeroAddress _ => ("BaseVaultNoZeroAddress"%string, [])
  | EBaseVaultNoZeroAmount _ => ("BaseVaultNoZeroAmount"%string, [])
  | EBaseVaultNoZeroChainSelector _ => ("BaseVaultNoZeroChainSelector"%string, [])
  | EBaseVaultOnlySelf _ => ("BaseVaultOnlySelf"%string, [])
  | EBaseVaultRecoveryAlreadyPending _ => ("BaseVaultRecoveryAlreadyPending"%string, [])
  | EBaseVaultWithdrawFailed e => ("BaseVaultWithdrawFailed"%string,
      [("amount"%string, show_big (BaseVaultWithdrawFailed_Amount e))])
  | EBaseVaultZeroRecoveryAmount _ => ("BaseVaultZeroRecoveryAmount"%string, [])
  | EChildVaultInvalidEpochNonce e => ("ChildVaultInvalidEpochNonce"%string,
      [("providedNonce"%string, show_big (ChildVaultInvalidEpochNonce_ProvidedNonce e));
       ("lastHandledNonce"%string, show_big (ChildVaultInvalidEpochNonce_LastHandledNonce e))])
  | EChildVaultInvalidParentChainSelector _ => ("ChildVaultInvalidParentChainSelector"%string, [])
  | EChildVaultInvalidRebalanceNonce e => ("ChildVaultInvalidRebalanceNonce"%string,
      [("providedNonce"%string, show_big (ChildVaultInvalidRebalanceNonce_ProvidedNonce e));
       ("lastHandledNonce"%string, show_big (ChildVaultInvalidRebalanceNonce_LastHandledNonce e))])
  | EChildVaultInvalidRecoveryStrategy _ => ("ChildVaultInvalidRecoveryStrategy"%string, [])
  | EChildVaultOnlySelf _ => ("ChildVaultOnlySelf"%string, [])
  | EERC1967InvalidImplementation e => ("ERC1967InvalidImplementation"%string,
      [("implementation"%string, show_address (ERC1967InvalidImplementation_Implementation e))])
  | EERC1967NonPayable _ => ("ERC1967NonPayable"%string, [])
  | EEnforcedPause _ => ("EnforcedPause"%string, [])
  | EExpectedPause _ => ("ExpectedPause"%string, [])
  | EFailedCall _ => ("FailedCall"%string, [])
  | EInvalidInitialization _ => ("InvalidInitialization"%string, [])
  | EInvalidRouter e => ("InvalidRouter"%string,
      [("router"%string, show_address (InvalidRouter_Router e))])
  | ENotInitializing _ => ("NotInitializing"%string, [])
  | EReentrancyGuardReentrantCall _ => ("ReentrancyGuardReentrantCall"%string, [])
  | ESafeCastOverflowedUintDowncast e => ("SafeCastOverflowedUintDowncast"%string,
      [("bits"%string, show_uint (SafeCastOverflowedUintDowncast_Bits e));
       ("value"%string, show_big (SafeCastOverflowedUintDowncast_Value e))])
  | ESafeERC20FailedOperation e => ("SafeERC20FailedOperation"%string,
      [("token"%string, show_address (SafeERC20FailedOperation_Token e))])
  | EUUPSUnauthorizedCallContext _ => ("UUPSUnauthorizedCallContext"%string, [])
  | EUUPSUnsupportedProxiableUUID e => ("UUPSUnsupportedProxiableUUID"%string,
      [("slot"%string, show_bytes32 (UUPSUnsupportedProxiableUUID_Slot e))])
  end.

(** ** Correctness *)
Section Correctness.
Context `{GoAbiErrors} (c : ChildVault) {HL : GoAbiErrorsLaws (vault_ABI c) errors}.

Lemma child_cases_ok : Forall2 (case_ok (abi := vault_ABI c) describe) (cases c) errors.
Proof. unfold cases, errors. repeat (constructor; [decode_case|]). constructor. Qed.

Lemma child_unpacked data : unpacked describe (vault_ABI c) errors data (UnpackError c data).
Proof. apply unpack_error_unpacked, child_cases_ok. Qed.

Lemma child_revert e tys rest :
  distinct_selectors (vault_ABI c) errors →
  ((describe e).1, tys) ∈ errors → Forall2 has_type (describe e).2 tys →
  UnpackError c (mkSlice (revert_data (describe e).1 tys (describe e).2) rest) = Ok e.
Proof.
  intros Hnd Hin Hty. pose proof child_cases_ok as Hall.
  destruct e; destruct e; cbn [describe fst snd] in *; revert_case.
Qed.

(** [UnpackError] of the child vault, on every slice: it panics when there are
    fewer than four bytes to read a selector from, it reports an unknown
    selector exactly when no error of the ABI has it, it passes on a malformed
    payload as an error, and otherwise it returns an error of the ABI with that
    selector and values of the types the ABI gives; the generated checks of the
    number and of the types of the values never fire. *)
Theorem ChildUnpackError_outcome data :
  unpacked describe (vault_ABI c) errors data (UnpackError c data).
Proof. apply child_unpacked. Qed.

(** Round trip: when the child vault reverts with any of its errors, with any
    values of their types, [UnpackError] returns that error, whatever bytes lie
    beyond the end of the slice. *)
Theorem ChildUnpackError_roundtrip e tys rest :
  distinct_selectors (vault_ABI c) errors →
  ((describe e).1, tys) ∈ errors → Forall2 has_type (describe e).2 tys →
  UnpackError c (mkSlice (revert_data (describe e).1 tys (describe e).2) rest) = Ok e.
Proof. apply child_revert. Qed.
End Correctness.

(** Every [Error] method of the child vault's errors names the error and shows
    each of its values under the name of its field, in the ABI's order. *)
Theorem ChildErrorText_spec `{GoUnicode, GoAbiErrors} e : ErrorText e = error_text (shown e).
Proof. destruct e; destruct e; cbn [ErrorText shown]; text_case. Qed.

(** ** Witnesses *)
Module SampleChildErrors.
#[local] Existing Instance ToyEthereum.ethereum.
#[local] Instance toy_errors : GoAbiErrors := ToyErrors.errors_of errors.
Definition vault : ChildVault := mkChildVault zeroAddress ChildVaultMetaData 1 (mkCodec ChildVaultMetaData).
#[local] Instance toy_laws : GoAbiErrorsLaws (vault_ABI vault) errors.
Proof.
  apply ToyErrors.errors_laws. apply (bool_decide_unpack _). vm_compute. exact I.
Defined.

Definition sample : vault_error := EBaseVaultInvalidSender
    (mkBaseVaultInvalidSender zeroAddress 9).
Definition sample_data : slice :=
  mkSlice (revert_data "BaseVault__InvalidSender" [TAddress; TUint64] [DAddress zeroAddress; DUint64 9]) [Zbyte 7].

Lemma ChildUnpackError_outcome_witness :
  UnpackError vault sample_data = Ok sample ∧
  unpacked describe (vault_ABI vault) errors sample_data (UnpackError vault sample_data).
Proof. split; [vm_compute; reflexivity|apply (ChildUnpackError_outcome vault sample_data)]. Defined.

Lemma ChildUnpackError_roundtrip_witness : UnpackError vault sample_data = Ok sample.
Proof.
  apply (ChildUnpackError_roundtrip vault sample [TAddress; TUint64] [Zbyte 7]).
  - apply (bool_decide_unpack _). vm_compute. exact I.
  - unfold errors. concrete_elem.
  - repeat constructor; done.
Defined.
End SampleChildErrors.
End child_vault_errors.
