(* ===== verification/WorkflowRouterErrors.v ===== *)
(** * The errors of the workflow router

    The structs, decoders and [Error] methods of the errors in
    [cre/contracts/evm/src/generated/workflow_router/WorkflowRouter.go], and [UnpackError]. *)

From S2P Require Import Prelude GoText BigInt Ethereum Runtime Bindings WorkflowRouter AbiErrors.

#[local] Open Scope Z_scope.

Module workflow_router_errors.
Import workflow_router.
(** ** Structs *)
Record AccessControlBadConfirmation := mkAccessControlBadConfirmation {}.
Record AccessControlEnforcedDefaultAdminDelay := mkAccessControlEnforcedDefaultAdminDelay {
  AccessControlEnforcedDefaultAdminDelay_Schedule : bigint }.
Record AccessControlEnforcedDefaultAdminRules := mkAccessControlEnforcedDefaultAdminRules {}.
Record AccessControlInvalidDefaultAdmin := mkAccessControlInvalidDefaultAdmin {
  AccessControlInvalidDefaultAdmin_DefaultAdmin : Address }.
Record AccessControlUnauthorizedAccount := mkAccessControlUnauthorizedAccount {
  AccessControlUnauthorizedAccount_Account : Address;
  AccessControlUnauthorizedAccount_NeededRole : bytes }.
Record EnforcedPause := mkEnforcedPause {}.
Record ExpectedPause := mkExpectedPause {}.
Record SafeCastOverflowedUintDowncast := mkSafeCastOverflowedUintDowncast {
  SafeCastOverflowedUintDowncast_Bits : Z;
  SafeCastOverflowedUintDowncast_Value : bigint }.
Record WorkflowRouterCallFailed := mkWorkflowRouterCallFailed {
  WorkflowRouterCallFailed_ReturnData : bytes }.
Record WorkflowRouterInvalidMetadataLength := mkWorkflowRouterInvalidMetadataLength {
  WorkflowRouterInvalidMetadataLength_MetadataLength : bigint }.
Record WorkflowRouterInvalidReportDomain := mkWorkflowRouterInvalidReportDomain {
  WorkflowRouterInvalidReportDomain_TargetChainSelector : Z;
  WorkflowRouterInvalidReportDomain_TargetRouter : Address }.
Record WorkflowRouterMetadataMismatch := mkWorkflowRouterMetadataMismatch {
  WorkflowRouterMetadataMismatch_WorkflowId : bytes;
  WorkflowRouterMetadataMismatch_WorkflowName : bytes;
  WorkflowRouterMetadataMismatch_WorkflowOwner : Address }.
Record WorkflowRouterMetadataUnchanged := mkWorkflowRouterMetadataUnchanged {
  WorkflowRouterMetadataUnchanged_WorkflowId : bytes;
  WorkflowRouterMetadataUnchanged_Name : bytes;
  WorkflowRouterMetadataUnchanged_Owner : Address }.
Record WorkflowRouterMetadataZero := mkWorkflowRouterMetadataZero {
  WorkflowRouterMetadataZero_WorkflowId : bytes;
  WorkflowRouterMetadataZero_WorkflowName : bytes;
  WorkflowRouterMetadataZero_WorkflowOwner : Address }.
Record WorkflowRouterNoSelectors := mkWorkflowRouterNoSelectors {}.
Record WorkflowRouterNoZeroAddress := mkWorkflowRouterNoZeroAddress {}.
Record WorkflowRouterNoZeroChainSelector := mkWorkflowRouterNoZeroChainSelector {}.
Record WorkflowRouterNoZeroWorkflowId := mkWorkflowRouterNoZeroWorkflowId {}.
Record WorkflowRouterReportExpired := mkWorkflowRouterReportExpired {
  WorkflowRouterReportExpired_ObservedAt : bigint;
  WorkflowRouterReportExpired_Timestamp : bigint }.
Record WorkflowRouterReportFromFuture := mkWorkflowRouterReportFromFuture {
  WorkflowRouterReportFromFuture_ObservedAt : bigint;
  WorkflowRouterReportFromFuture_Timestamp : bigint }.
Record WorkflowRouterReportTooShort := mkWorkflowRouterReportTooShort {
  WorkflowRouterReportTooShort_ReportLength : bigint }.
Record WorkflowRouterSelectorNotAllowlisted := mkWorkflowRouterSelectorNotAllowlisted {
  WorkflowRouterSelectorNotAllowlisted_WorkflowId : bytes;
  WorkflowRouterSelectorNotAllowlisted_Selector : bytes }.
Record WorkflowRouterWorkflowNotRegistered := mkWorkflowRouterWorkflowNotRegistered {
  WorkflowRouterWorkflowNotRegistered_WorkflowId : bytes }.

(** The value [UnpackError] returns as an [any]. *)
Inductive vault_error : Type :=
| EAccessControlBadConfirmation (e : AccessControlBadConfirmation)
| EAccessControlEnforcedDefaultAdminDelay (e : AccessControlEnforcedDefaultAdminDelay)
| EAccessControlEnforcedDefaultAdminRules (e : AccessControlEnforcedDefaultAdminRules)
| EAccessControlInvalidDefaultAdmin (e : AccessControlInvalidDefaultAdmin)
| EAccessControlUnauthorizedAccount (e : AccessControlUnauthorizedAccount)
| EEnforcedPause (e : EnforcedPause)
| EExpectedPause (e : ExpectedPause)
| ESafeCastOverflowedUintDowncast (e : SafeCastOverflowedUintDowncast)
| EWorkflowRouterCallFailed (e : WorkflowRouterCallFailed)
| EWorkflowRouterInvalidMetadataLength (e : WorkflowRouterInvalidMetadataLength)
| EWorkflowRouterInvalidReportDomain (e : WorkflowRouterInvalidReportDomain)
| EWorkflowRouterMetadataMismatch (e : WorkflowRouterMetadataMismatch)
| EWorkflowRouterMetadataUnchanged (e : WorkflowRouterMetadataUnchanged)
| EWorkflowRouterMetadataZero (e : WorkflowRouterMetadataZero)
| EWorkflowRouterNoSelectors (e : WorkflowRouterNoSelectors)
| EWorkflowRouterNoZeroAddress (e : WorkflowRouterNoZeroAddress)
| EWorkflowRouterNoZeroChainSelector (e : WorkflowRouterNoZeroChainSelector)
| EWorkflowRouterNoZeroWorkflowId (e : WorkflowRouterNoZeroWorkflowId)
| EWorkflowRouterReportExpired (e : WorkflowRouterReportExpired)
| EWorkflowRouterReportFromFuture (e : WorkflowRouterReportFromFuture)
| EWorkflowRouterReportTooShort (e : WorkflowRouterReportTooShort)
| EWorkflowRouterSelectorNotAllowlisted (e : WorkflowRouterSelectorNotAllowlisted)
| EWorkflowRouterWorkflowNotRegistered (e : WorkflowRouterWorkflowNotRegistered).

(** The errors of the metadata, with the Go types of their inputs. *)
Definition errors : error_table :=
  [("AccessControlBadConfirmation"%string, []);
   ("AccessControlEnforcedDefaultAdminDelay"%string, [TBig]);
   ("AccessControlEnforcedDefaultAdminRules"%string, []);
   ("AccessControlInvalidDefaultAdmin"%string, [TAddress]);
   ("AccessControlUnauthorizedAccount"%string, [TAddress; TBytes32]);
   ("EnforcedPause"%string, []);
   ("ExpectedPause"%string, []);
   ("SafeCastOverflowedUintDowncast"%string, [TUint8; TBig]);
   ("WorkflowRouter__CallFailed"%string, [TBytes]);
   ("WorkflowRouter__InvalidMetadataLength"%string, [TBig]);
   ("WorkflowRouter__InvalidReportDomain"%string, [TUint64; TAddress]);
   ("WorkflowRouter__MetadataMismatch"%string, [TBytes32; TBytesN 10; TAddress]);
   ("WorkflowRouter__MetadataUnchanged"%string, [TBytes32; TBytesN 10; TAddress]);
   ("WorkflowRouter__MetadataZero"%string, [TBytes32; TBytesN 10; TAddress]);
   ("WorkflowRouter__NoSelectors"%string, []);
   ("WorkflowRouter__NoZeroAddress"%string, []);
   ("WorkflowRouter__NoZeroChainSelector"%string, []);
   ("WorkflowRouter__NoZeroWorkflowId"%string, []);
   ("WorkflowRouter__ReportExpired"%string, [TBig; TBig]);
   ("WorkflowRouter__ReportFromFuture"%string, [TBig; TBig]);
   ("WorkflowRouter__ReportTooShort"%string, [TBig]);
   ("WorkflowRouter__SelectorNotAllowlisted"%string, [TBytes32; TBytesN 4]);
   ("WorkflowRouter__WorkflowNotRegistered"%string, [TBytes32])].

Section Decoders.
Context `{GoAbiErrors}.

(** ** Decoders *)
Definition DecodeAccessControlBadConfirmationError (c : WorkflowRouter) (data : slice)
    : res AccessControlBadConfirmation :=
  _ ← unpack_values (vault_ABI c) "AccessControlBadConfirmation" 0 data;
  Ok mkAccessControlBadConfirmation.
Definition DecodeAccessControlEnforcedDefaultAdminDelayError (c : WorkflowRouter) (data : slice)
    : res AccessControlEnforcedDefaultAdminDelay :=
  values ← unpack_values (vault_ABI c) "AccessControlEnforcedDefaultAdminDelay" 1 data;
  schedule ← assert_value to_big "schedule" "AccessControlEnforcedDefaultAdminDelay" values 0;
  Ok (mkAccessControlEnforcedDefaultAdminDelay schedule).
Definition DecodeAccessControlEnforcedDefaultAdminRulesError (c : WorkflowRouter) (data : slice)
    : res AccessControlEnforcedDefaultAdminRules :=
  _ ← unpack_values (vault_ABI c) "AccessControlEnforcedDefaultAdminRules" 0 data;
  Ok mkAccessControlEnforcedDefaultAdminRules.
Definition DecodeAccessControlInvalidDefaultAdminError (c : WorkflowRouter) (data : slice)
    : res AccessControlInvalidDefaultAdmin :=
  values ← unpack_values (vault_ABI c) "AccessControlInvalidDefaultAdmin" 1 data;
  defaultAdmin ← assert_value to_address "defaultAdmin" "AccessControlInvalidDefaultAdmin" values 0;
  Ok (mkAccessControlInvalidDefaultAdmin defaultAdmin).
Definition DecodeAccessControlUnauthorizedAccountError (c : WorkflowRouter) (data : slice)
    : res AccessControlUnauthorizedAccount :=
  values ← unpack_values (vault_ABI c) "AccessControlUnauthorizedAccount" 2 data;
  account ← assert_value to_address "account" "AccessControlUnauthorizedAccount" values 0;
  neededRole ← assert_value to_bytes32 "neededRole" "AccessControlUnauthorizedAccount" values 1;
  Ok (mkAccessControlUnauthorizedAccount account neededRole).
Definition DecodeEnforcedPauseError (c : WorkflowRouter) (data : slice)
    : res EnforcedPause :=
  _ ← unpack_values (vault_ABI c) "EnforcedPause" 0 data;
  Ok mkEnforcedPause.
Definition DecodeExpectedPauseError (c : WorkflowRouter) (data : slice)
    : res ExpectedPause :=
  _ ← unpack_values (vault_ABI c) "ExpectedPause" 0 data;
  Ok mkExpectedPause.
Definition DecodeSafeCastOverflowedUintDowncastError (c : WorkflowRouter) (data : slice)
    : res SafeCastOverflowedUintDowncast :=
  values ← unpack_values (vault_ABI c) "SafeCastOverflowedUintDowncast" 2 data;
  bits ← assert_value to_uint8 "bits" "SafeCastOverflowedUintDowncast" values 0;
  value ← assert_value to_big "value" "SafeCastOverflowedUintDowncast" values 1;
  Ok (mkSafeCastOverflowedUintDowncast bits value).
Definition DecodeWorkflowRouterCallFailedError (c : WorkflowRouter) (data : slice)
    : res WorkflowRouterCallFailed :=
  values ← unpack_values (vault_ABI c) "WorkflowRouter__CallFailed" 1 data;
  returnData ← assert_value to_bytes_slice "returnData" "WorkflowRouterCallFailed" values 0;
  Ok (mkWorkflowRouterCallFailed returnData).
Definition DecodeWorkflowRouterInvalidMetadataLengthError (c : WorkflowRouter) (data : slice)
    : res WorkflowRouterInvalidMetadataLength :=
  values ← unpack_values (vault_ABI c) "WorkflowRouter__InvalidMetadataLength" 1 data;
  metadataLength ← assert_value to_big "metadataLength" "WorkflowRouterInvalidMetadataLength" values 0;
  Ok (mkWorkflowRouterInvalidMetadataLength metadataLength).
Definition DecodeWorkflowRouterInvalidReportDomainError (c : WorkflowRouter) (data : slice)
    : res WorkflowRouterInvalidReportDomain :=
  values ← unpack_values (vault_ABI c) "WorkflowRouter__InvalidReportDomain" 2 data;
  targetChainSelector ← assert_value to_uint64 "targetChainSelector" "WorkflowRouterInvalidReportDomain" values 0;
  targetRouter ← assert_value to_address "targetRouter" "WorkflowRouterInvalidReportDomain" values 1;
  Ok (mkWorkflowRouterInvalidReportDomain targetChainSelector targetRouter).
Definition DecodeWorkflowRouterMetadataMismatchError (c : WorkflowRouter) (data : slice)
    : res WorkflowRouterMetadataMismatch :=
  values ← unpack_values (vault_ABI c) "WorkflowRouter__MetadataMismatch" 3 data;
  workflowId ← assert_value to_bytes32 "workflowId" "WorkflowRouterMetadataMismatch" values 0;
  workflowName ← assert_value (to_bytesN 10) "workflowName" "WorkflowRouterMetadataMismatch" values 1;
  workflowOwner ← assert_value to_address "workflowOwner" "WorkflowRouterMetadataMismatch" values 2;
  Ok (mkWorkflowRouterMetadataMismatch workflowId workflowName workflowOwner).
Definition DecodeWorkflowRouterMetadataUnchangedError (c : WorkflowRouter) (data : slice)
    : res WorkflowRouterMetadataUnchanged :=
  values ← unpack_values (vault_ABI c) "WorkflowRouter__MetadataUnchanged" 3 data;
  workflowId ← assert_value to_bytes32 "workflowId" "WorkflowRouterMetadataUnchanged" values 0;
  name ← assert_value (to_bytesN 10) "name" "WorkflowRouterMetadataUnchanged" values 1;
  owner ← assert_value to_address "owner" "WorkflowRouterMetadataUnchanged" values 2;
  Ok (mkWorkflowRouterMetadataUnchanged workflowId name owner).
Definition DecodeWorkflowRouterMetadataZeroError (c : WorkflowRouter) (data : slice)
    : res WorkflowRouterMetadataZero :=
  values ← unpack_values (vault_ABI c) "WorkflowRouter__MetadataZero" 3 data;
  workflowId ← assert_value to_bytes32 "workflowId" "WorkflowRouterMetadataZero" values 0;
  workflowName ← assert_value (to_bytesN 10) "workflowName" "WorkflowRouterMetadataZero" values 1;
  workflowOwner ← assert_value to_address "workflowOwner" "WorkflowRouterMetadataZero" values 2;
  Ok (mkWorkflowRouterMetadataZero workflowId workflowName workflowOwner).
Definition DecodeWorkflowRouterNoSelectorsError (c : WorkflowRouter) (data : slice)
    : res WorkflowRouterNoSelectors :=
  _ ← unpack_values (vault_ABI c) "WorkflowRouter__NoSelectors" 0 data;
  Ok mkWorkflowRouterNoSelectors.
Definition DecodeWorkflowRouterNoZeroAddressError (c : WorkflowRouter) (data : slice)
    : res WorkflowRouterNoZeroAddress :=
  _ ← unpack_values (vault_ABI c) "WorkflowRouter__NoZeroAddress" 0 data;
  Ok mkWorkflowRouterNoZeroAddress.
Definition DecodeWorkflowRouterNoZeroChainSelectorError (c : WorkflowRouter) (data : slice)
    : res WorkflowRouterNoZeroChainSelector :=
  _ ← unpack_values (vault_ABI c) "WorkflowRouter__NoZeroChainSelector" 0 data;
  Ok mkWorkflowRouterNoZeroChainSelector.
Definition DecodeWorkflowRouterNoZeroWorkflowIdError (c : WorkflowRouter) (data : slice)
    : res WorkflowRouterNoZeroWorkflowId :=
  _ ← unpack_values (vault_ABI c) "WorkflowRouter__NoZeroWorkflowId" 0 data;
  Ok mkWorkflowRouterNoZeroWorkflowId.
Definition DecodeWorkflowRouterReportExpiredError (c : WorkflowRouter) (data : slice)
    : res WorkflowRouterReportExpired :=
  values ← unpack_values (vault_ABI c) "WorkflowRouter__ReportExpired" 2 data;
  observedAt ← assert_value to_big "observedAt" "WorkflowRouterReportExpired" values 0;
  timestamp ← assert_value to_big "timestamp" "WorkflowRouterReportExpired" values 1;
  Ok (mkWorkflowRouterReportExpired observedAt timestamp).
Definition DecodeWorkflowRouterReportFromFutureError (c : WorkflowRouter) (data : slice)
    : res WorkflowRouterReportFromFuture :=
  values ← unpack_values (vault_ABI c) "WorkflowRouter__ReportFromFuture" 2 data;
  observedAt ← assert_value to_big "observedAt" "WorkflowRouterReportFromFuture" values 0;
  timestamp ← assert_value to_big "timestamp" "WorkflowRouterReportFromFuture" values 1;
  Ok (mkWorkflowRouterReportFromFuture observedAt timestamp).
Definition DecodeWorkflowRouterReportTooShortError (c : WorkflowRouter) (data : slice)
    : res WorkflowRouterReportTooShort :=
  values ← unpack_values (vault_ABI c) "WorkflowRouter__ReportTooShort" 1 data;
  reportLength ← assert_value to_big "reportLength" "WorkflowRouterReportTooShort" values 0;
  Ok (mkWorkflowRouterReportTooShort reportLength).
Definition DecodeWorkflowRouterSelectorNotAllowlistedError (c : WorkflowRouter) (data : slice)
    : res WorkflowRouterSelectorNotAllowlisted :=
  values ← unpack_values (vault_ABI c) "WorkflowRouter__SelectorNotAllowlisted" 2 data;
  workflowId ← assert_value to_bytes32 "workflowId" "WorkflowRouterSelectorNotAllowlisted" values 0;
  selector ← assert_value (to_bytesN 4) "selector" "WorkflowRouterSelectorNotAllowlisted" values 1;
  Ok (mkWorkflowRouterSelectorNotAllowlisted workflowId selector).
Definition DecodeWorkflowRouterWorkflowNotRegisteredError (c : WorkflowRouter) (data : slice)
    : res WorkflowRouterWorkflowNotRegistered :=
  values ← unpack_values (vault_ABI c) "WorkflowRouter__WorkflowNotRegistered" 1 data;
  workflowId ← assert_value to_bytes32 "workflowId" "WorkflowRouterWorkflowNotRegistered" values 0;
  Ok (mkWorkflowRouterWorkflowNotRegistered workflowId).

(** ** [UnpackError]: the selectors in source order *)
Definition cases (c : WorkflowRouter) : list (string * (slice → res vault_error)) :=
  [("AccessControlBadConfirmation"%string, λ data, EAccessControlBadConfirmation <$> DecodeAccessControlBadConfirmationError c data);
   ("AccessControlEnforcedDefaultAdminDelay"%string, λ data, EAccessControlEnforcedDefaultAdminDelay <$> DecodeAccessControlEnforcedDefaultAdminDelayError c data);
   ("AccessControlEnforcedDefaultAdminRules"%string, λ data, EAccessControlEnforcedDefaultAdminRules <$> DecodeAccessControlEnforcedDefaultAdminRulesError c data);
   ("AccessControlInvalidDefaultAdmin"%string, λ data, EAccessControlInvalidDefaultAdmin <$> DecodeAccessControlInvalidDefaultAdminError c data);
   ("AccessControlUnauthorizedAccount"%string, λ data, EAccessControlUnauthorizedAccount <$> DecodeAccessControlUnauthorizedAccountError c data);
   ("EnforcedPause"%string, λ data, EEnforcedPause <$> DecodeEnforcedPauseError c data);
   ("ExpectedPause"%string, λ data, EExpectedPause <$> DecodeExpectedPauseError c data);
   ("SafeCastOverflowedUintDowncast"%string, λ data, ESafeCastOverflowedUintDowncast <$> DecodeSafeCastOverflowedUintDowncastError c data);
   ("WorkflowRouter__CallFailed"%string, λ data, EWorkflowRouterCallFailed <$> DecodeWorkflowRouterCallFailedError c data);
   ("WorkflowRouter__InvalidMetadataLength"%string, λ data, EWorkflowRouterInvalidMetadataLength <$> DecodeWorkflowRouterInvalidMetadataLengthError c data);
   ("WorkflowRouter__InvalidReportDomain"%string, λ data, EWorkflowRouterInvalidReportDomain <$> DecodeWorkflowRouterInvalidReportDomainError c data);
   ("WorkflowRouter__MetadataMismatch"%string, λ data, EWorkflowRouterMetadataMismatch <$> DecodeWorkflowRouterMetadataMismatchError c data);
   ("WorkflowRouter__MetadataUnchanged"%string, λ data, EWorkflowRouterMetadataUnchanged <$> DecodeWorkflowRouterMetadataUnchangedError c data);
   ("WorkflowRouter__MetadataZero"%string, λ data, EWorkflowRouterMetadataZero <$> DecodeWorkflowRouterMetadataZeroError c data);
   ("WorkflowRouter__NoSelectors"%string, λ data, EWorkflowRouterNoSelectors <$> DecodeWorkflowRouterNoSelectorsError c data);
   ("WorkflowRouter__NoZeroAddress"%string, λ data, EWorkflowRouterNoZeroAddress <$> DecodeWorkflowRouterNoZeroAddressError c data);
   ("WorkflowRouter__NoZeroChainSelector"%string, λ data, EWorkflowRouterNoZeroChainSelector <$> DecodeWorkflowRouterNoZeroChainSelectorError c data);
   ("WorkflowRouter__NoZeroWorkflowId"%string, λ data, EWorkflowRouterNoZeroWorkflowId <$> DecodeWorkflowRouterNoZeroWorkflowIdError c data);
   ("WorkflowRouter__ReportExpired"%string, λ data, EWorkflowRouterReportExpired <$> DecodeWorkflowRouterReportExpiredError c data);
   ("WorkflowRouter__ReportFromFuture"%string, λ data, EWorkflowRouterReportFromFuture <$> DecodeWorkflowRouterReportFromFutureError c data);
   ("WorkflowRouter__ReportTooShort"%string, λ data, EWorkflowRouterReportTooShort <$> DecodeWorkflowRouterReportTooShortError c data);
   ("WorkflowRouter__SelectorNotAllowlisted"%string, λ data, EWorkflowRouterSelectorNotAllowlisted <$> DecodeWorkflowRouterSelectorNotAllowlistedError c data);
   ("WorkflowRouter__WorkflowNotRegistered"%string, λ data, EWorkflowRouterWorkflowNotRegistered <$> DecodeWorkflowRouterWorkflowNotRegisteredError c data)].
Definition UnpackError (c : WorkflowRouter) (data : slice) : res vault_error :=
  unpack_error (vault_ABI c) (cases c) data.
End Decoders.

(** ** The [Error] methods *)
Section Texts.
Context `{GoUnicode, GoAbiErrors}.

Definition AccessControlBadConfirmation_Error (e : AccessControlBadConfirmation) : string :=
  Sprintf "AccessControlBadConfirmation error:" [].
Definition AccessControlEnforcedDefaultAdminDelay_Error (e : AccessControlEnforcedDefaultAdminDelay) : string :=
  Sprintf "AccessControlEnforcedDefaultAdminDelay error: schedule=%v;"
    [FStr (show_big (AccessControlEnforcedDefaultAdminDelay_Schedule e))].
Definition AccessControlEnforcedDefaultAdminRules_Error (e : AccessControlEnforcedDefaultAdminRules) : string :=
  Sprintf "AccessControlEnforcedDefaultAdminRules error:"
    [].
Definition AccessControlInvalidDefaultAdmin_Error (e : AccessControlInvalidDefaultAdmin) : string :=
  Sprintf "AccessControlInvalidDefaultAdmin error: defaultAdmin=%v;"
    [FStr (show_address (AccessControlInvalidDefaultAdmin_DefaultAdmin e))].
Definition AccessControlUnauthorizedAccount_Error (e : AccessControlUnauthorizedAccount) : string :=
  Sprintf "AccessControlUnauthorizedAccount error: account=%v; neededRole=%v;"
    [FStr (show_address (AccessControlUnauthorizedAccount_Account e));
     FStr (show_bytes32 (AccessControlUnauthorizedAccount_NeededRole e))].
Definition EnforcedPause_Error (e : EnforcedPause) : string :=
  Sprintf "EnforcedPause error:" [].
Definition ExpectedPause_Error (e : ExpectedPause) : string :=
  Sprintf "ExpectedPause error:" [].
Definition SafeCastOverflowedUintDowncast_Error (e : SafeCastOverflowedUintDowncast) : string :=
  Sprintf "SafeCastOverflowedUintDowncast error: bits=%v; value=%v;"
    [FStr (show_uint (SafeCastOverflowedUintDowncast_Bits e));
     FStr (show_big (SafeCastOverflowedUintDowncast_Value e))].
Definition WorkflowRouterCallFailed_Error (e : WorkflowRouterCallFailed) : string :=
  Sprintf "WorkflowRouterCallFailed error: returnData=%v;"
    [FStr (show_bytes32 (WorkflowRouterCallFailed_ReturnData e))].
Definition WorkflowRouterInvalidMetadataLength_Error (e : WorkflowRouterInvalidMetadataLength) : string :=
  Sprintf "WorkflowRouterInvalidMetadataLength error: metadataLength=%v;"
    [FStr (show_big (WorkflowRouterInvalidMetadataLength_MetadataLength e))].
Definition WorkflowRouterInvalidReportDomain_Error (e : WorkflowRouterInvalidReportDomain) : string :=
  Sprintf "WorkflowRouterInvalidReportDomain error: targetChainSelector=%v; targetRouter=%v;"
    [FStr (show_uint (WorkflowRouterInvalidReportDomain_TargetChainSelector e));
     FStr (show_address (WorkflowRouterInvalidReportDomain_TargetRouter e))].
Definition WorkflowRouterMetadataMismatch_Error (e : WorkflowRouterMetadataMismatch) : string :=
  Sprintf "WorkflowRouterMetadataMismatch error: workflowId=%v; workflowName=%v; workflowOwner=%v;"
    [FStr (show_bytes32 (WorkflowRouterMetadataMismatch_WorkflowId e));
     FStr (show_bytes32 (WorkflowRouterMetadataMismatch_WorkflowName e));
     FStr (show_address (WorkflowRouterMetadataMismatch_WorkflowOwner e))].
Definition WorkflowRouterMetadataUnchanged_Error (e : WorkflowRouterMetadataUnchanged) : string :=
  Sprintf "WorkflowRouterMetadataUnchanged error: workflowId=%v; name=%v; owner=%v;"
    [FStr (show_bytes32 (WorkflowRouterMetadataUnchanged_WorkflowId e));
     FStr (show_bytes32 (WorkflowRouterMetadataUnchanged_Name e));
     FStr (show_address (WorkflowRouterMetadataUnchanged_Owner e))].
Definition WorkflowRouterMetadataZero_Error (e : WorkflowRouterMetadataZero) : string :=
  Sprintf "WorkflowRouterMetadataZero error: workflowId=%v; workflowName=%v; workflowOwner=%v;"
    [FStr (show_bytes32 (WorkflowRouterMetadataZero_WorkflowId e));
     FStr (show_bytes32 (WorkflowRouterMetadataZero_WorkflowName e));
     FStr (show_address (WorkflowRouterMetadataZero_WorkflowOwner e))].
Definition WorkflowRouterNoSelectors_Error (e : WorkflowRouterNoSelectors) : string :=
  Sprintf "WorkflowRouterNoSelectors error:" [].
Definition WorkflowRouterNoZeroAddress_Error (e : WorkflowRouterNoZeroAddress) : string :=
  Sprintf "WorkflowRouterNoZeroAddress error:" [].
Definition WorkflowRouterNoZeroChainSelector_Error (e : WorkflowRouterNoZeroChainSelector) : string :=
  Sprintf "WorkflowRouterNoZeroChainSelector error:"
    [].
Definition WorkflowRouterNoZeroWorkflowId_Error (e : WorkflowRouterNoZeroWorkflowId) : string :=
  Sprintf "WorkflowRouterNoZeroWorkflowId error:" [].
Definition WorkflowRouterReportExpired_Error (e : WorkflowRouterReportExpired) : string :=
  Sprintf "WorkflowRouterReportExpired error: observedAt=%v; timestamp=%v;"
    [FStr (show_big (WorkflowRouterReportExpired_ObservedAt e));
     FStr (show_big (WorkflowRouterReportExpired_Timestamp e))].
Definition WorkflowRouterReportFromFuture_Error (e : WorkflowRouterReportFromFuture) : string :=
  Sprintf "WorkflowRouterReportFromFuture error: observedAt=%v; timestamp=%v;"
    [FStr (show_big (WorkflowRouterReportFromFuture_ObservedAt e));
     FStr (show_big (WorkflowRouterReportFromFuture_Timestamp e))].
Definition WorkflowRouterReportTooShort_Error (e : WorkflowRouterReportTooShort) : string :=
  Sprintf "WorkflowRouterReportTooShort error: reportLength=%v;"
    [FStr (show_big (WorkflowRouterReportTooShort_ReportLength e))].
Definition WorkflowRouterSelectorNotAllowlisted_Error (e : WorkflowRouterSelectorNotAllowlisted) : string :=
  Sprintf "WorkflowRouterSelectorNotAllowlisted error: workflowId=%v; selector=%v;"
    [FStr (show_bytes32 (WorkflowRouterSelectorNotAllowlisted_WorkflowId e));
     FStr (show_bytes32 (WorkflowRouterSelectorNotAllowlisted_Selector e))].
Definition WorkflowRouterWorkflowNotRegistered_Error (e : WorkflowRouterWorkflowNotRegistered) : string :=
  Sprintf "WorkflowRouterWorkflowNotRegistered error: workflowId=%v;"
    [FStr (show_bytes32 (WorkflowRouterWorkflowNotRegistered_WorkflowId e))].

(** The method of the dynamic type of an error. *)
Definition ErrorText (e : vault_error) : string :=
  match e with
  | EAccessControlBadConfirmation e => AccessControlBadConfirmation_Error e
  | EAccessControlEnforcedDefaultAdminDelay e => AccessControlEnforcedDefaultAdminDelay_Error e
  | EAccessControlEnforcedDefaultAdminRules e => AccessControlEnforcedDefaultAdminRules_Error e
  | EAccessControlInvalidDefaultAdmin e => AccessControlInvalidDefaultAdmin_Error e
  | EAccessControlUnauthorizedAccount e => AccessControlUnauthorizedAccount_Error e
  | EEnforcedPause e => EnforcedPause_Error e
  | EExpectedPause e => ExpectedPause_Error e
  | ESafeCastOverflowedUintDowncast e => SafeCastOverflowedUintDowncast_Error e
  | EWorkflowRouterCallFailed e => WorkflowRouterCallFailed_Error e
  | EWorkflowRouterInvalidMetadataLength e => WorkflowRouterInvalidMetadataLength_Error e
  | EWorkflowRouterInvalidReportDomain e => WorkflowRouterInvalidReportDomain_Error e
  | EWorkflowRouterMetadataMismatch e => WorkflowRouterMetadataMismatch_Error e
  | EWorkflowRouterMetadataUnchanged e => WorkflowRouterMetadataUnchanged_Error e
  | EWorkflowRouterMetadataZero e => WorkflowRouterMetadataZero_Error e
  | EWorkflowRouterNoSelectors e => WorkflowRouterNoSelectors_Error e
  | EWorkflowRouterNoZeroAddress e => WorkflowRouterNoZeroAddress_Error e
  | EWorkflowRouterNoZeroChainSelector e => WorkflowRouterNoZeroChainSelector_Error e
  | EWorkflowRouterNoZeroWorkflowId e => WorkflowRouterNoZeroWorkflowId_Error e
  | EWorkflowRouterReportExpired e => WorkflowRouterReportExpired_Error e
  | EWorkflowRouterReportFromFuture e => WorkflowRouterReportFromFuture_Error e
  | EWorkflowRouterReportTooShort e => WorkflowRouterReportTooShort_Error e
  | EWorkflowRouterSelectorNotAllowlisted e => WorkflowRouterSelectorNotAllowlisted_Error e
  | EWorkflowRouterWorkflowNotRegistered e => WorkflowRouterWorkflowNotRegistered_Error e
  end.
End Texts.

(** ** The description of an error: its ABI name and its values *)
Definition describe (e : vault_error) : string * list dyn :=
  match e with
  | EAccessControlBadConfirmation _ => ("AccessControlBadConfirmation"%string, [])
  | EAccessControlEnforcedDefaultAdminDelay e => ("AccessControlEnforcedDefaultAdminDelay"%string, [DBig (AccessControlEnforcedDefaultAdminDelay_Schedule e)])
  | EAccessControlEnforcedDefaultAdminRules _ => ("AccessControlEnforcedDefaultAdminRules"%string, [])
  | EAccessControlInvalidDefaultAdmin e => ("AccessControlInvalidDefaultAdmin"%string, [DAddress (AccessControlInvalidDefaultAdmin_DefaultAdmin e)])
  | EAccessControlUnauthorizedAccount e => ("AccessControlUnauthorizedAccount"%string, [DAddress (AccessControlUnauthorizedAccount_Account e); DBytes32 (AccessControlUnauthorizedAccount_NeededRole e)])
  | EEnforcedPause _ => ("EnforcedPause"%string, [])
  | EExpectedPause _ => ("ExpectedPause"%string, [])
  | ESafeCastOverflowedUintDowncast e => ("SafeCastOverflowedUintDowncast"%string, [DUint8 (SafeCastOverflowedUintDowncast_Bits e); DBig (SafeCastOverflowedUintDowncast_Value e)])
  | EWorkflowRouterCallFailed e => ("WorkflowRouter__CallFailed"%string, [DBytes (WorkflowRouterCallFailed_ReturnData e)])
  | EWorkflowRouterInvalidMetadataLength e => ("WorkflowRouter__InvalidMetadataLength"%string, [DBig (WorkflowRouterInvalidMetadataLength_MetadataLength e)])
  | EWorkflowRouterInvalidReportDomain e => ("WorkflowRouter__InvalidReportDomain"%string, [DUint64 (WorkflowRouterInvalidReportDomain_TargetChainSelector e); DAddress (WorkflowRouterInvalidReportDomain_TargetRouter e)])
  | EWorkflowRouterMetadataMismatch e => ("WorkflowRouter__MetadataMismatch"%string, [DBytes32 (WorkflowRouterMetadataMismatch_WorkflowId e); DBytesN 10 (WorkflowRouterMetadataMismatch_WorkflowName e); DAddress (WorkflowRouterMetadataMismatch_WorkflowOwner e)])
  | EWorkflowRouterMetadataUnchanged e => ("WorkflowRouter__MetadataUnchanged"%string, [DBytes32 (WorkflowRouterMetadataUnchanged_WorkflowId e); DBytesN 10 (WorkflowRouterMetadataUnchanged_Name e); DAddress (WorkflowRouterMetadataUnchanged_Owner e)])
  | EWorkflowRouterMetadataZero e => ("WorkflowRouter__MetadataZero"%string, [DBytes32 (WorkflowRouterMetadataZero_WorkflowId e); DBytesN 10 (WorkflowRouterMetadataZero_WorkflowName e); DAddress (WorkflowRouterMetadataZero_WorkflowOwner e)])
  | EWorkflowRouterNoSelectors _ => ("WorkflowRouter__NoSelectors"%string, [])
  | EWorkflowRouterNoZeroAddress _ => ("WorkflowRouter__NoZeroAddress"%string, [])
  | EWorkflowRouterNoZeroChainSelector _ => ("WorkflowRouter__NoZeroChainSelector"%string, [])
  | EWorkflowRouterNoZeroWorkflowId _ => ("WorkflowRouter__NoZeroWorkflowId"%string, [])
  | EWorkflowRouterReportExpired e => ("WorkflowRouter__ReportExpired"%string, [DBig (WorkflowRouterReportExpired_ObservedAt e); DBig (WorkflowRouterReportExpired_Timestamp e)])
  | EWorkflowRouterReportFromFuture e => ("WorkflowRouter__ReportFromFuture"%string, [DBig (WorkflowRouterReportFromFuture_ObservedAt e); DBig (WorkflowRouterReportFromFuture_Timestamp e)])
  | EWorkflowRouterReportTooShort e => ("WorkflowRouter__ReportTooShort"%string, [DBig (WorkflowRouterReportTooShort_ReportLength e)])
  | EWorkflowRouterSelectorNotAllowlisted e => ("WorkflowRouter__SelectorNotAllowlisted"%string, [DBytes32 (WorkflowRouterSelectorNotAllowlisted_WorkflowId e); DBytesN 4 (WorkflowRouterSelectorNotAllowlisted_Selector e)])
  | EWorkflowRouterWorkflowNotRegistered e => ("WorkflowRouter__WorkflowNotRegistered"%string, [DBytes32 (WorkflowRouterWorkflowNotRegistered_WorkflowId e)])
  end.

(** The Go name and the fields of an error, as its text shows them. *)
Definition shown `{GoAbiErrors} (e : vault_error) : string * list (string * string) :=
  match e with
  | EAccessControlBadConfirmation _ => ("AccessControlBadConfirmation"%string, [])
  | EAccessControlEnforcedDefaultAdminDelay e => ("AccessControlEnforcedDefaultAdminDelay"%string,
      [("schedule"%string, show_big (AccessControlEnforcedDefaultAdminDelay_Schedule e))])
  | EAccessControlEnforcedDefaultAdminRules e => ("AccessControlEnforcedDefaultAdminRules"%string,
      [])
  | EAccessControlInvalidDefaultAdmin e => ("AccessControlInvalidDefaultAdmin"%string,
      [("defaultAdmin"%string, show_address (AccessControlInvalidDefaultAdmin_DefaultAdmin e))])
  | EAccessControlUnauthorizedAccount e => ("AccessControlUnauthorizedAccount"%string,
      [("account"%string, show_address (AccessControlUnauthorizedAccount_Account e));
       ("neededRole"%string, show_bytes32 (AccessControlUnauthorizedAccount_NeededRole e))])
  | EEnforcedPause _ => ("EnforcedPause"%string, [])
  | EExpectedPause _ => ("ExpectedPause"%string, [])
  | ESafeCastOverflowedUintDowncast e => ("SafeCastOverflowedUintDowncast"%string,
      [("bits"%string, show_uint (SafeCastOverflowedUintDowncast_Bits e));
       ("value"%string, show_big (SafeCastOverflowedUintDowncast_Value e))])
  | EWorkflowRouterCallFailed e => ("WorkflowRouterCallFailed"%string,
      [("returnData"%string, show_bytes32 (WorkflowRouterCallFailed_ReturnData e))])
  | EWorkflowRouterInvalidMetadataLength e => ("WorkflowRouterInvalidMetadataLength"%string,
      [("metadataLength"%string, show_big (WorkflowRouterInvalidMetadataLength_MetadataLength e))])
  | EWorkflowRouterInvalidReportDomain e => ("WorkflowRouterInvalidReportDomain"%string,
      [("targetChainSelector"%string, show_uint (WorkflowRouterInvalidReportDomain_TargetChainSelector e));
       ("targetRouter"%string, show_address (WorkflowRouterInvalidReportDomain_TargetRouter e))])
  | EWorkflowRouterMetadataMismatch e => ("WorkflowRouterMetadataMismatch"%string,
      [("workflowId"%string, show_bytes32 (WorkflowRouterMetadataMismatch_WorkflowId e));
       ("workflowName"%string, show_bytes32 (WorkflowRouterMetadataMismatch_WorkflowName e));
       ("workflowOwner"%string, show_address (WorkflowRouterMetadataMismatch_WorkflowOwner e))])
  | EWorkflowRouterMetadataUnchanged e => ("WorkflowRouterMetadataUnchanged"%string,
      [("workflowId"%string, show_bytes32 (WorkflowRouterMetadataUnchanged_WorkflowId e));
       ("name"%string, show_bytes32 (WorkflowRouterMetadataUnchanged_Name e));
       ("owner"%string, show_address (WorkflowRouterMetadataUnchanged_Owner e))])
  | EWorkflowRouterMetadataZero e => ("WorkflowRouterMetadataZero"%string,
      [("workflowId"%string, show_bytes32 (WorkflowRouterMetadataZero_WorkflowId e));
       ("workflowName"%string, show_bytes32 (WorkflowRouterMetadataZero_WorkflowName e));
       ("workflowOwner"%string, show_address (WorkflowRouterMetadataZero_WorkflowOwner e))])
  | EWorkflowRouterNoSelectors _ => ("WorkflowRouterNoSelectors"%string, [])
  | EWorkflowRouterNoZeroAddress _ => ("WorkflowRouterNoZeroAddress"%string, [])
  | EWorkflowRouterNoZeroChainSelector _ => ("WorkflowRouterNoZeroChainSelector"%string, [])
  | EWorkflowRouterNoZeroWorkflowId _ => ("WorkflowRouterNoZeroWorkflowId"%string, [])
  | EWorkflowRouterReportExpired e => ("WorkflowRouterReportExpired"%string,
      [("observedAt"%string, show_big (WorkflowRouterReportExpired_ObservedAt e));
       ("timestamp"%string, show_big (WorkflowRouterReportExpired_Timestamp e))])
  | EWorkflowRouterReportFromFuture e => ("WorkflowRouterReportFromFuture"%string,
      [("observedAt"%string, show_big (WorkflowRouterReportFromFuture_ObservedAt e));
       ("timestamp"%string, show_big (WorkflowRouterReportFromFuture_Timestamp e))])
  | EWorkflowRouterReportTooShort e => ("WorkflowRouterReportTooShort"%string,
      [("reportLength"%string, show_big (WorkflowRouterReportTooShort_ReportLength e))])
  | EWorkflowRouterSelectorNotAllowlisted e => ("WorkflowRouterSelectorNotAllowlisted"%string,
      [("workflowId"%string, show_bytes32 (WorkflowRouterSelectorNotAllowlisted_WorkflowId e));
       ("selector"%string, show_bytes32 (WorkflowRouterSelectorNotAllowlisted_Selector e))])
  | EWorkflowRouterWorkflowNotRegistered e => ("WorkflowRouterWorkflowNotRegistered"%string,
      [("workflowId"%string, show_bytes32 (WorkflowRouterWorkflowNotRegistered_WorkflowId e))])
  end.

(** ** Correctness *)
Section Correctness.
Context `{GoAbiErrors} (c : WorkflowRouter) {HL : GoAbiErrorsLaws (vault_ABI c) errors}.

Lemma workflowrouter_cases_ok : Forall2 (case_ok (abi := vault_ABI c) describe) (cases c) errors.
Proof. unfold cases, errors. repeat (constructor; [decode_case|]). constructor. Qed.

Lemma workflowrouter_unpacked data : unpacked describe (vault_ABI c) errors data (UnpackError c data).
Proof. apply unpack_error_unpacked, workflowrouter_cases_ok. Qed.

Lemma workflowrouter_revert e tys rest :
  distinct_selectors (vault_ABI c) errors →
  ((describe e).1, tys) ∈ errors → Forall2 has_type (describe e).2 tys →
  UnpackError c (mkSlice (revert_data (describe e).1 tys (describe e).2) rest) = Ok e.
Proof.
  intros Hnd Hin Hty. pose proof workflowrouter_cases_ok as Hall.
  destruct e; destruct e; cbn [describe fst snd] in *; revert_case.
Qed.

(** [UnpackError] of the workflow router, on every slice: it panics when there are
    fewer than four bytes to read a selector from, it reports an unknown
    selector exactly when no error of the ABI has it, it passes on a malformed
    payload as an error, and otherwise it returns an error of the ABI with that
    selector and values of the types the ABI gives; the generated checks of the
    number and of the types of the values never fire. *)
Theorem WorkflowRouterUnpackError_outcome data :
  unpacked describe (vault_ABI c) errors data (UnpackError c data).
Proof. apply workflowrouter_unpacked. Qed.

(** Round trip: when the workflow router reverts with any of its errors, with any
    values of their types, [UnpackError] returns that error, whatever bytes lie
    beyond the end of the slice. *)
Theorem WorkflowRouterUnpackError_roundtrip e tys rest :
  distinct_selectors (vault_ABI c) errors →
  ((describe e).1, tys) ∈ errors → Forall2 has_type (describe e).2 tys →
  UnpackError c (mkSlice (revert_data (describe e).1 tys (describe e).2) rest) = Ok e.
Proof. apply workflowrouter_revert. Qed.
End Correctness.

(** Every [Error] method of the workflow router's errors names the error and shows
    each of its values under the name of its field, in the ABI's order. *)
Theorem WorkflowRouterErrorText_spec `{GoUnicode, GoAbiErrors} e : ErrorText e = error_text (shown e).
Proof. destruct e; destruct e; cbn [ErrorText shown]; text_case. Qed.

(** ** Witnesses *)
Module SampleWorkflowRouterErrors.
#[local] Existing Instance ToyEthereum.ethereum.
#[local] Instance toy_errors : GoAbiErrors := ToyErrors.errors_of errors.
Definition vault : WorkflowRouter := mkWorkflowRouter zeroAddress WorkflowRouterMetaData 1 (mkCodec WorkflowRouterMetaData).
#[local] Instance toy_laws : GoAbiErrorsLaws (vault_ABI vault) errors.
Proof.
  apply ToyErrors.errors_laws. apply (bool_decide_unpack _). vm_compute. exact I.
Defined.

Definition sample : vault_error := EWorkflowRouterCallFailed
    (mkWorkflowRouterCallFailed [Zbyte 1; Zbyte 2]).
Definition sample_data : slice :=
  mkSlice (revert_data "WorkflowRouter__CallFailed" [TBytes] [DBytes [Zbyte 1; Zbyte 2]]) [Zbyte 7].

Lemma WorkflowRouterUnpackError_outcome_witness :
  UnpackError vault sample_data = Ok sample ∧
  unpacked describe (vault_ABI vault) errors sample_data (UnpackError vault sample_data).
Proof. split; [vm_compute; reflexivity|apply (WorkflowRouterUnpackError_outcome vault sample_data)]. Defined.

Lemma WorkflowRouterUnpackError_roundtrip_witness : UnpackError vault sample_data = Ok sample.
Proof.
  apply (WorkflowRouterUnpackError_roundtrip vault sample [TBytes] [Zbyte 7]).
  - apply (bool_decide_unpack _). vm_compute. exact I.
  - unfold errors. concrete_elem.
  - repeat constructor; done.
Defined.
End SampleWorkflowRouterErrors.
End workflow_router_errors.
