(* ===== verification/AbiEvents.v ===== *)
(** * Events: the shape shared by the generated event codecs and triggers

    Per event of its ABI a binding of [cre/contracts/evm/src/generated] has a
    signature hash, an encoder of topic filters, a decoder, a trigger that
    decodes, a log trigger and a log query.  This file has the operations they
    are made of and the lemmas about them; the events of each contract are
    in [ParentVaultEvents], [ChildVaultEvents], [BaseVaultEvents] and
    [WorkflowRouterEvents]. *)

From S2P Require Import Prelude GoText BigInt Ethereum Runtime Bindings.

#[local] Open Scope Z_scope.

(** ** The parts of [accounts/abi] and of the SDK's [bindings] the encoders call *)

(** A position of a topic filter: the alternatives it admits. *)
Record TopicValues := mkTopicValues { Values : list bytes }.

Class GoTopics `{GoEthereum} := {
  bindings_PrepareTopicArg : Argument → abi_value → res abi_value;
  abi_MakeTopics : list (list abi_value) → res (list (list Hash));
  bindings_PrepareTopics : list (list Hash) → bytes → list TopicValues
}.

(** ** Topic filters *)

(** [reflect.ValueOf(v).IsZero()]: a nil pointer, a zero number, [false], an
    array of zero bytes. *)
Definition is_zero (v : abi_value) : bool :=
  match v with
  | VBig None => true
  | VBig (Some _) => false
  | VUint z => z =? 0
  | VBool b => negb b
  | VFixed b => forallb (λ c, byteZ c =? 0) b
  | VString s => bool_decide (s = EmptyString)
  | VBytes _ | VSlice _ | VTuple _ => false
  end.

(** [common.Hash{}] *)
Definition zero_hash : abi_value := VFixed (zeros 32).

Section Topics.
Context `{GoTopics}.

(** The loop that builds the rule of one field over the filters: [evt.Inputs[i]]
    is read only for a field that is not zero. *)
Fixpoint topic_rule {A} (evt : Event) (i : nat) (field : A → abi_value) (values : list A)
    : res (list abi_value) :=
  match values with
  | [] => Ok []
  | v :: values =>
      fieldVal ←
        (if is_zero (field v) then Ok zero_hash
         else arg ← deref (Event_Inputs evt !! i); bindings_PrepareTopicArg arg (field v));
      rest ← topic_rule evt i field values;
      Ok (fieldVal :: rest)
  end.

(** [abi.MakeTopics(rules...)] and [bindings.PrepareTopics]. *)
Definition make_topics (evt : Event) (rules : list (list abi_value)) : res (list TopicValues) :=
  rawTopics ← abi_MakeTopics rules;
  Ok (bindings_PrepareTopics rawTopics (Event_ID evt)).
End Topics.

(** ** Triggers *)

(** [evm.LogTrigger(chainSelector, &evm.FilterLogTriggerRequest{...})]; a
    confidence level is an enumeration of the SDK. *)
Record LogTrigger := mkLogTrigger {
  Trigger_Chain : Z;
  Trigger_Addresses : list bytes;
  Trigger_Topics : list TopicValues;
  Trigger_Confidence : Z }.

(** [bindings.DecodedLog[T]] *)
Record DecodedLog {T : Type} := mkDecodedLog { Decoded_Log : option Log; Decoded_Data : T }.
Arguments DecodedLog : clear implicits.

(** The [Adapt] method of a trigger. *)
Definition adapt {T} (name : string) (decode : option Log → res T) (l : option Log)
    : res (DecodedLog T) :=
  decoded ← wrap (String.append "failed to decode " (String.append name " log: %w")) [] (decode l);
  Ok (mkDecodedLog _ l decoded).

(** [LogTrigger<E>Log]: the raw trigger on the vault's address. *)
Definition log_trigger (name : string) (address : Address) (chainSelector confidence : Z)
    (topics : res (list TopicValues)) : res LogTrigger :=
  topics ← wrap (String.append "failed to encode topics for " (String.append name ": %w")) [] topics;
  Ok (mkLogTrigger chainSelector [address] topics confidence).

(** ** Log queries *)
Record FilterOptions := mkFilterOptions {
  Opt_BlockHash : bytes; Opt_FromBlock : bigint; Opt_ToBlock : bigint }.
Record FilterQuery := mkFilterQuery {
  Query_Addresses : list bytes; Query_Topics : list (list bytes);
  Query_BlockHash : bytes; Query_FromBlock : bigint; Query_ToBlock : bigint }.

(** [FilterLogs<E>]: the query it asks the client of the chain to run. *)
Definition filter_logs (client : Z) (address : Address) (signature : Hash)
    (options : option FilterOptions) : res (Z * FilterQuery) :=
  match options with
  | None => Err (Errorf "FilterLogs options are required." [])
  | Some o => Ok (client, mkFilterQuery [address] [[signature]]
                            (Opt_BlockHash o) (Opt_FromBlock o) (Opt_ToBlock o))
  end.

(** ** The ABI's table of events and the behaviour of the ABI decoder on them *)
Abbreviation event_table := (list (string * list Argument)).

Definition typed_values (inputs : list Argument) (vs : list abi_value) : Prop :=
  Forall2 (λ v a, topic_value_ok (Arg_Type a) v) vs inputs.

(** The types whose values are words: an indexed value of another type is only
    a hash. *)
Definition value_type (t : abi_type) : bool :=
  match t with
  | UintTy bits => 0 <=? bits
  | AddressTy | BoolTy => true
  | FixedBytesTy n => (0 <=? n) && (n <=? 32)
  | TupleTy | BytesTy | OtherTy => false
  end.

(** The named values of the indexed inputs, and of the others. *)
Definition named (inputs : list Argument) (vs : list abi_value) : list (Argument * abi_value) :=
  zip inputs vs.
Definition indexed_values (inputs : list Argument) (vs : list abi_value)
    : list (Argument * abi_value) := List.filter (λ p, Arg_Indexed p.1) (named inputs vs).
Definition data_values (inputs : list Argument) (vs : list abi_value)
    : list (Argument * abi_value) := List.filter (λ p, negb (Arg_Indexed p.1)) (named inputs vs).
Definition fields_of (l : list (Argument * abi_value)) : gmap string abi_value :=
  list_to_map ((λ p, (Arg_Name p.1, p.2)) <$> l).

(** Names are distinct and every input is a word. *)
Definition plain_inputs (inputs : list Argument) : bool :=
  bool_decide (NoDup (Arg_Name <$> inputs)) && forallb (λ a, value_type (Arg_Type a)) inputs.

(** [event_topic] and [event_data] play the contract that emits the event. *)
Class GoEventsLaws `{GoEthereum} (abi : abi_ABI) (table : event_table) := {
  event_topic : abi_value → Hash;
  event_data : list abi_value → bytes;
  Events_inputs name inputs : (name, inputs) ∈ table → Event_Inputs (abi_Events abi name) = inputs;
  event_topic_hash v : BytesToHash (event_topic v) = event_topic v;
  ParseTopics_emitted l :
    NoDup ((λ p, Arg_Name p.1) <$> l) → Forall (λ p, value_type (Arg_Type p.1) = true) l →
    Forall (λ p, topic_value_ok (Arg_Type p.1) p.2) l →
    abi_ParseTopics l.*1 ((λ p, event_topic p.2) <$> l) = Ok (fields_of l);
  Unpack_emitted name inputs vs :
    (name, inputs) ∈ table → typed_values inputs vs →
    abi_UnpackIntoInterface abi name (event_data (data_values inputs vs).*2) =
      Ok (fields_of (data_values inputs vs))
}.

(** The log of an event with these values. *)
Definition emitted `{GoEventsLaws} (address : bytes) (name : string) (inputs : list Argument)
    (vs : list abi_value) : Log :=
  mkLog address
    (Event_ID (abi_Events abi name) :: ((λ p, event_topic p.2) <$> indexed_values inputs vs))
    (event_data (data_values inputs vs).*2).

(** ** Lemmas *)
Section Emitted.
Context `{HL : GoEventsLaws}.

Lemma indexed_args_plain inputs :
  forallb (λ a, value_type (Arg_Type a)) inputs = true →
  indexed_args inputs = List.filter Arg_Indexed inputs.
Proof.
  unfold indexed_args. induction inputs as [|[n t i] inputs IH]; [done|].
  cbn [forallb List.filter Arg_Indexed Arg_Type]. rewrite andb_true_iff. intros [Ht Hr].
  destruct i; cbn; rewrite (IH Hr); [|done]. by destruct t.
Qed.

Lemma indexed_values_fst inputs vs :
  length vs = length inputs → (indexed_values inputs vs).*1 = List.filter Arg_Indexed inputs.
Proof.
  unfold indexed_values, named. revert vs.
  induction inputs as [|a inputs IH]; intros [|v vs]; cbn; try done. intros [= Hl].
  destruct (Arg_Indexed a); cbn; by rewrite (IH vs Hl).
Qed.

Lemma filter_named (P : Argument * abi_value → bool) l :
  NoDup ((λ p : Argument * abi_value, Arg_Name p.1) <$> l) →
  NoDup ((λ p : Argument * abi_value, Arg_Name p.1) <$> List.filter P l).
Proof.
  induction l as [|p l IH]; cbn; [done|]. intros [Hn Hd]%NoDup_cons.
  destruct (P p); cbn; [|by apply IH]. apply NoDup_cons. split; [|by apply IH].
  intros Hin. apply Hn. apply list_elem_of_fmap in Hin as (q & Hq & Hin).
  apply list_elem_of_fmap. exists q. split; [done|].
  apply list_elem_of_In in Hin. apply filter_In in Hin as [Hin _].
  by apply list_elem_of_In.
Qed.

Lemma named_names inputs vs :
  length vs = length inputs →
  (λ p : Argument * abi_value, Arg_Name p.1) <$> named inputs vs = Arg_Name <$> inputs.
Proof.
  unfold named. revert vs. induction inputs as [|a inputs IH]; intros [|v vs]; cbn; try done.
  intros [= Hl]. by rewrite (IH vs Hl).
Qed.

Lemma named_typed inputs vs (P : Argument * abi_value → bool) :
  typed_values inputs vs →
  Forall (λ p, topic_value_ok (Arg_Type p.1) p.2) (List.filter P (named inputs vs)).
Proof.
  unfold typed_values, named. induction 1 as [|v a vs inputs Hv _ IH]; [constructor|]. cbn.
  destruct (P (a, v)); [by constructor|done].
Qed.

Lemma named_words inputs vs (P : Argument * abi_value → bool) :
  forallb (λ a, value_type (Arg_Type a)) inputs = true →
  Forall (λ p, value_type (Arg_Type p.1) = true) (List.filter P (named inputs vs)).
Proof.
  unfold named. revert vs. induction inputs as [|a inputs IH]; intros [|v vs]; cbn; try constructor.
  rewrite andb_true_iff. intros [Ha Hr]. destruct (P (a, v)); [constructor; [done|]|]; by apply IH.
Qed.

(** Decoding an emitted log gives every input its value. *)
Lemma decode_emitted address name inputs vs :
  (name, inputs) ∈ table → plain_inputs inputs = true → typed_values inputs vs →
  decode_event abi name (Some (emitted address name inputs vs)) =
    Ok (fields_of (indexed_values inputs vs) ∪ fields_of (data_values inputs vs)).
Proof.
  intros Hin [Hnd Hpl]%andb_true_iff Hty. apply bool_decide_eq_true in Hnd.
  pose proof (Forall2_length _ _ _ Hty) as Hlen.
  assert (BytesToHash <$> ((λ p : Argument * abi_value, event_topic p.2) <$> indexed_values inputs vs)
    = (λ p, event_topic p.2) <$> indexed_values inputs vs) as Hhash.
  { rewrite <-list_fmap_compose. apply list_fmap_ext. intros i p _. apply event_topic_hash. }
  unfold decode_event, emitted. cbn [deref mbind res_bind Log_Data Log_Topics].
  rewrite (Unpack_emitted _ _ _ Hin Hty). cbn [fmap list_fmap slice_tail].
  rewrite (Events_inputs _ _ Hin), (indexed_args_plain _ Hpl).
  rewrite <-(indexed_values_fst inputs vs Hlen).
  change (list_fmap _ _ ?f ?l) with (f <$> l). rewrite Hhash. cbn [mbind res_bind].
  rewrite ParseTopics_emitted; [done| |by apply named_words|by apply named_typed].
  apply filter_named. by rewrite named_names.
Qed.
End Emitted.

(** The inputs of an event of a table. *)
Fixpoint inputs_of (table : event_table) (name : string) : list Argument :=
  match table with
  | [] => []
  | (n, inputs) :: r => if bool_decide (n = name) then inputs else inputs_of r name
  end.

(** ** The reference of the topic encoders: one rule per indexed input, in the
    ABI's order, over the rows of values of the filters. *)
Fixpoint indexed_positions (i : nat) (inputs : list Argument) : list nat :=
  match inputs with
  | [] => []
  | a :: r => if Arg_Indexed a then i :: indexed_positions (S i) r else indexed_positions (S i) r
  end.

Section Reference.
Context `{GoTopics}.

Fixpoint rules_of (evt : Event) (k : nat) (positions : list nat) (rows : list (list abi_value))
    : res (list (list abi_value)) :=
  match positions with
  | [] => Ok []
  | i :: positions =>
      rule ← topic_rule evt i (λ row, nth k row (VBig None)) rows;
      rest ← rules_of evt (S k) positions rows;
      Ok (rule :: rest)
  end.
Definition encode_topics (evt : Event) (inputs : list Argument) (rows : list (list abi_value))
    : res (list TopicValues) :=
  rules ← rules_of evt 0 (indexed_positions 0 inputs) rows;
  make_topics evt rules.

Lemma topic_rule_rows {A} evt i (row : A → list abi_value) k (values : list A) :
  topic_rule evt i (λ r, nth k r (VBig None)) (row <$> values) =
  topic_rule evt i (λ v, nth k (row v) (VBig None)) values.
Proof. induction values as [|v values IH]; cbn; [done|]. by rewrite IH. Qed.

(** A filter with nothing to encode in a field: no alternative is checked
    against the ABI. *)
Lemma topic_rule_zero {A} evt i (field : A → abi_value) values :
  (∀ v, v ∈ values → is_zero (field v) = true) →
  topic_rule evt i field values = Ok (replicate (length values) zero_hash).
Proof.
  induction values as [|v values IH]; intros Hz; cbn; [done|].
  rewrite Hz by left. cbn. rewrite IH; [done|]. intros w Hw. apply Hz. by right.
Qed.
End Reference.

(** One encoder is the reference. *)
Ltac topics_case :=
  cbn [fst snd];
  lazymatch goal with |- ?m = _ => let d := head_of m in unfold d end;
  unfold encode_topics; cbn [inputs_of bool_decide];
  lazymatch goal with |- context [indexed_positions 0 ?l] =>
    let ps := eval vm_compute in (indexed_positions 0 l) in
    change (indexed_positions 0 l) with ps end;
  cbn [rules_of]; rewrite ?topic_rule_rows; cbn [nth];
  repeat (lazymatch goal with |- topic_rule ?e ?i ?f ?vs ≫= _ = _ =>
    destruct (topic_rule e i f vs); [|reflexivity|reflexivity]; cbn [mbind res_bind] end);
  reflexivity.

(** The round trip of one event. *)
Ltac event_case :=
  let Hty := fresh "Hty" in intros Hty;
  lazymatch goal with |- _ <$> ?m = _ => let d := head_of m in unfold d end;
  unfold adapt;
  lazymatch goal with |- context [wrap _ _ ?m] => let d := head_of m in unfold d end;
  match type of Hty with typed_values (inputs_of ?t _) _ =>
    rewrite decode_emitted; [reflexivity|unfold t; concrete_elem|reflexivity|exact Hty]
  end.

(** A trigger returns on a log with topics. *)
Ltac adapt_case Hlog :=
  lazymatch goal with |- _ <$> ?m ≠ _ => let d := head_of m in unfold d end;
  unfold adapt;
  lazymatch goal with |- context [wrap _ _ ?m] =>
    let d := head_of m in unfold d;
    let H := fresh "H" in
    lazymatch goal with |- context [decode_event ?a ?n ?l] =>
      pose proof (decode_event_total a n _ Hlog) as H; destruct (decode_event a n l); done
    end
  end.

(** ** A computable instance over [ToyEthereum] *)
Module ToyEvents.
Import ToyEthereum.

Definition topic (v : abi_value) : Hash :=
  match v with
  | VBig (Some z) | VUint z => word 32 z
  | VBool b => word 32 (if b then 1 else 0)
  | VFixed b => fit 32 b
  | _ => zeros 32
  end.
Fixpoint chunks (n : nat) (l : bytes) : list Hash :=
  match n with O => [] | S n => take 32 l :: chunks n (drop 32 l) end.
Definition data_inputs (inputs : list Argument) : list Argument :=
  List.filter (λ a, negb (Arg_Indexed a)) inputs.

Definition ethereum_events (table : event_table) : GoEthereum := {|
  IsHexAddress := @IsHexAddress ethereum;
  HexToAddress := @HexToAddress ethereum;
  BytesToAddress := @BytesToAddress ethereum;
  BytesToHash := @BytesToHash ethereum;
  Keccak256 := @Keccak256 ethereum;
  abi_ABI := MetaData;
  abi_JSON := @abi_JSON ethereum;
  abi_Pack := @abi_Pack ethereum;
  abi_UnpackOutput := @abi_UnpackOutput ethereum;
  abi_Events c name := mkEvent (fit 32 (to_bytes name)) (inputs_of table name);
  abi_UnpackIntoInterface c name data :=
    let args := data_inputs (inputs_of table name) in parse_topics args (chunks (length args) data);
  abi_ParseTopics := parse_topics;
  FinalizedBlockNumber := @FinalizedBlockNumber ethereum
|}.

Lemma topic_length v : length (topic v) = 32%nat.
Proof. destruct v as [[]| | | | | | |]; cbn [topic]; (apply word_length || apply fit_length || done). Qed.

Lemma topic_value_topic t v :
  value_type t = true → topic_value_ok t v → topic_value t (topic v) = v.
Proof.
  assert (∀ z, bytes_to_Z (word 32 z) = z mod 2 ^ 256) as Hword by apply (bytes_to_Z_word 32).
  destruct t; cbn [value_type topic_value_ok]; try done;
    destruct v as [[z|]|z|b|b| | | |]; try done; cbn [topic topic_value].
  - intros _ [Hw Hz]. rewrite Hw, Hword, Zmod_mod, Z.mod_small by done. done.
  - intros _ [Hw Hz]. rewrite Hw, Hword.
    assert (2 ^ bits <= 2 ^ 256).
    { apply Z.pow_le_mono_r; [lia|]. unfold native_width in Hw.
      rewrite !orb_true_iff, !Z.eqb_eq in Hw. lia. }
    rewrite (Z.mod_small z) by lia. by rewrite Z.mod_small.
  - intros [Hn Hm]%andb_true_iff Hl. f_equal. apply fit_fit; lia.
  - intros _ Hl. f_equal. apply fit_fit; [done|]. unfold AddressLength. lia.
  - intros _ _. by destruct b.
Qed.

Lemma parse_topics_emitted l :
  NoDup ((λ p : Argument * abi_value, Arg_Name p.1) <$> l) →
  Forall (λ p, value_type (Arg_Type p.1) = true) l →
  Forall (λ p, topic_value_ok (Arg_Type p.1) p.2) l →
  parse_topics l.*1 ((λ p, topic p.2) <$> l) = Ok (fields_of l).
Proof.
  induction l as [|[a v] l IH]; cbn [fmap list_fmap parse_topics fst snd]; [done|].
  intros [Hn Hd]%NoDup_cons [Hw Hws]%Forall_cons [Hv Hvs]%Forall_cons. cbn [fst snd] in *.
  assert (representable (Arg_Type a) = true) as ->.
  { destruct (Arg_Type a); cbn in *; try done. by apply andb_true_iff in Hw as [? _]. }
  rewrite (IH Hd Hws Hvs). cbn [mbind res_bind].
  rewrite bool_decide_true.
  { rewrite topic_value_topic by done. done. }
  apply not_elem_of_list_to_map_1. by rewrite <-list_fmap_compose.
Qed.

Lemma chunks_topics l : chunks (length l) (concat (topic <$> l)) = topic <$> l.
Proof.
  induction l as [|v l IH]; [done|]. cbn [length chunks fmap list_fmap concat].
  rewrite take_app_length', drop_app_length' by apply topic_length. by rewrite IH.
Qed.

Lemma inputs_of_in (table : event_table) name inputs :
  NoDup table.*1 → (name, inputs) ∈ table → inputs_of table name = inputs.
Proof.
  induction table as [|[n i] table IH]; cbn.
  { intros _ Hin. by apply elem_of_nil in Hin. }
  intros [Hn Hnd]%NoDup_cons [[= -> ->]|Hin]%elem_of_cons.
  - by rewrite bool_decide_true.
  - rewrite bool_decide_false; [by apply IH|]. intros ->. apply Hn.
    apply list_elem_of_fmap. by exists (name, inputs).
Qed.

Lemma data_values_fst inputs vs :
  length vs = length inputs → (data_values inputs vs).*1 = data_inputs inputs.
Proof.
  unfold data_values, data_inputs, named. revert vs.
  induction inputs as [|a inputs IH]; intros [|v vs]; cbn; try done. intros [= Hl].
  destruct (Arg_Indexed a); cbn; by rewrite (IH vs Hl).
Qed.

Lemma events_laws (table : event_table) (abi : @abi_ABI (ethereum_events table)) :
  NoDup table.*1 → Forall (λ e, plain_inputs e.2 = true) table →
  @GoEventsLaws (ethereum_events table) abi table.
Proof.
  intros Hnd Hpl.
  apply (Build_GoEventsLaws _ _ _ topic (λ vs, concat (topic <$> vs))).
  - intros name inputs Hin. by apply inputs_of_in.
  - intros v. apply fit_id, topic_length.
  - apply parse_topics_emitted.
  - intros name inputs vs Hin Hty. cbn [abi_UnpackIntoInterface ethereum_events].
    rewrite (inputs_of_in _ _ _ Hnd Hin).
    rewrite Forall_forall in Hpl. specialize (Hpl _ Hin). cbn in Hpl.
    apply andb_true_iff in Hpl as [Hd%bool_decide_eq_true Hw].
    pose proof (Forall2_length _ _ _ Hty) as Hlen.
    rewrite <-(data_values_fst inputs vs Hlen).
    assert (length (data_values inputs vs).*1 = length (data_values inputs vs).*2) as Heq
      by by rewrite !length_fmap.
    rewrite Heq, chunks_topics, <-list_fmap_compose. apply parse_topics_emitted.
    + apply filter_named. by rewrite named_names.
    + by apply named_words.
    + by apply named_typed.
Defined.
End ToyEvents.
