(* ===== verification/ParentVaultEvents.v ===== *)
(** * The events of the parent vault

    The structs, topic encoders, decoders, triggers and log queries of the
    events in [cre/contracts/evm/src/generated/parent_vault/ParentVault.go]. *)

From S2P Require Import Prelude GoText BigInt Ethereum Runtime Bindings ParentVault AbiEvents.

#[local] Open Scope Z_scope.

Module parent_vault_events.
Import parent_vault.
(** ** Structs *)
Record ActiveProtocolAdapterClearedTopics := mkActiveProtocolAdapterClearedTopics {
  ActiveProtocolAdapterClearedTopics_Adapter : Address }.
Record ActiveProtocolAdapterClearedDecoded := mkActiveProtocolAdapterClearedDecoded {
  ActiveProtocolAdapterCleared_Adapter : Address }.
Record ActiveProtocolAdapterSetTopics := mkActiveProtocolAdapterSetTopics {
  ActiveProtocolAdapterSetTopics_ProtocolId : bytes;
  ActiveProtocolAdapterSetTopics_Adapter : Address }.
Record ActiveProtocolAdapterSetDecoded := mkActiveProtocolAdapterSetDecoded {
  ActiveProtocolAdapterSet_ProtocolId : bytes;
  ActiveProtocolAdapterSet_Adapter : Address }.
Record AllowlistEnabledSetTopics := mkAllowlistEnabledSetTopics {
  AllowlistEnabledSetTopics_Enabled : bool }.
Record AllowlistEnabledSetDecoded := mkAllowlistEnabledSetDecoded {
  AllowlistEnabledSet_Enabled : bool }.
Record AllowlistedUserSetTopics := mkAllowlistedUserSetTopics {
  AllowlistedUserSetTopics_User : Address;
  AllowlistedUserSetTopics_Allowed : bool }.
Record AllowlistedUserSetDecoded := mkAllowlistedUserSetDecoded {
  AllowlistedUserSet_User : Address;
  AllowlistedUserSet_Allowed : bool }.
Record CCIPBridgedTopics := mkCCIPBridgedTopics {
  CCIPBridgedTopics_CcipMessageId : bytes;
  CCIPBridgedTopics_DestinationChainSelector : Z;
  CCIPBridgedTopics_CcipTxType : Z }.
Record CCIPBridgedDecoded := mkCCIPBridgedDecoded {
  CCIPBridged_CcipMessageId : bytes;
  CCIPBridged_DestinationChainSelector : Z;
  CCIPBridged_CcipTxType : Z }.
Record CCIPReceivedTopics := mkCCIPReceivedTopics {
  CCIPReceivedTopics_CcipMessageId : bytes;
  CCIPReceivedTopics_SourceChainSelector : Z;
  CCIPReceivedTopics_CcipTxType : Z }.
Record CCIPReceivedDecoded := mkCCIPReceivedDecoded {
  CCIPReceived_CcipMessageId : bytes;
  CCIPReceived_SourceChainSelector : Z;
  CCIPReceived_CcipTxType : Z }.
Record CcipGasLimitSetTopics := mkCcipGasLimitSetTopics {
  CcipGasLimitSetTopics_ChainSelector : Z;
  CcipGasLimitSetTopics_GasLimit : bigint }.
Record CcipGasLimitSetDecoded := mkCcipGasLimitSetDecoded {
  CcipGasLimitSet_ChainSelector : Z;
  CcipGasLimitSet_GasLimit : bigint }.
Record CrosschainVaultSetTopics := mkCrosschainVaultSetTopics {
  CrosschainVaultSetTopics_ChainSelector : Z;
  CrosschainVaultSetTopics_Vault : Address }.
Record CrosschainVaultSetDecoded := mkCrosschainVaultSetDecoded {
  CrosschainVaultSet_ChainSelector : Z;
  CrosschainVaultSet_Vault : Address }.
Record DefaultAdminDelayChangeCanceledTopics := mkDefaultAdminDelayChangeCanceledTopics {}.
Record DefaultAdminDelayChangeCanceledDecoded := mkDefaultAdminDelayChangeCanceledDecoded {}.
Record DefaultAdminDelayChangeScheduledTopics := mkDefaultAdminDelayChangeScheduledTopics {}.
Record DefaultAdminDelayChangeScheduledDecoded := mkDefaultAdminDelayChangeScheduledDecoded {
  DefaultAdminDelayChangeScheduled_NewDelay : bigint;
  DefaultAdminDelayChangeScheduled_EffectSchedule : bigint }.
Record DefaultAdminTransferCanceledTopics := mkDefaultAdminTransferCanceledTopics {}.
Record DefaultAdminTransferCanceledDecoded := mkDefaultAdminTransferCanceledDecoded {}.
Record DefaultAdminTransferScheduledTopics := mkDefaultAdminTransferScheduledTopics {
  DefaultAdminTransferScheduledTopics_NewAdmin : Address }.
Record DefaultAdminTransferScheduledDecoded := mkDefaultAdminTransferScheduledDecoded {
  DefaultAdminTransferScheduled_NewAdmin : Address;
  DefaultAdminTransferScheduled_AcceptSchedule : bigint }.
Record DefaultCcipGasLimitSetTopics := mkDefaultCcipGasLimitSetTopics {
  DefaultCcipGasLimitSetTopics_GasLimit : bigint }.
Record DefaultCcipGasLimitSetDecoded := mkDefaultCcipGasLimitSetDecoded {
  DefaultCcipGasLimitSet_GasLimit : bigint }.
Record DepositCancelledTopics := mkDepositCancelledTopics {
  DepositCancelledTopics_EpochNonce : bigint;
  DepositCancelledTopics_Depositor : Address;
  DepositCancelledTopics_Amount : bigint }.
Record DepositCancelledDecoded := mkDepositCancelledDecoded {
  DepositCancelled_EpochNonce : bigint;
  DepositCancelled_Depositor : Address;
  DepositCancelled_Amount : bigint }.
Record DepositClaimedTopics := mkDepositClaimedTopics {
  DepositClaimedTopics_EpochNonce : bigint;
  DepositClaimedTopics_Depositor : Address;
  DepositClaimedTopics_ShareMintAmount : bigint }.
Record DepositClaimedDecoded := mkDepositClaimedDecoded {
  DepositClaimed_EpochNonce : bigint;
  DepositClaimed_Depositor : Address;
  DepositClaimed_ShareMintAmount : bigint }.
Record DepositForceCancelledTopics := mkDepositForceCancelledTopics {
  DepositForceCancelledTopics_EpochNonce : bigint;
  DepositForceCancelledTopics_Depositor : Address;
  DepositForceCancelledTopics_Amount : bigint }.
Record DepositForceCancelledDecoded := mkDepositForceCancelledDecoded {
  DepositForceCancelled_EpochNonce : bigint;
  DepositForceCancelled_Depositor : Address;
  DepositForceCancelled_Amount : bigint }.
Record DepositSubmittedTopics := mkDepositSubmittedTopics {
  DepositSubmittedTopics_EpochNonce : bigint;
  DepositSubmittedTopics_Depositor : Address;
  DepositSubmittedTopics_Amount : bigint }.
Record DepositSubmittedDecoded := mkDepositSubmittedDecoded {
  DepositSubmitted_EpochNonce : bigint;
  DepositSubmitted_Depositor : Address;
  DepositSubmitted_Amount : bigint }.
Record EpochClaimableTopics := mkEpochClaimableTopics { EpochClaimableTopics_EpochNonce : bigint }.
Record EpochClaimableDecoded := mkEpochClaimableDecoded { EpochClaimable_EpochNonce : bigint }.
Record EpochDepositExecutingTopics := mkEpochDepositExecutingTopics {
  EpochDepositExecutingTopics_EpochNonce : bigint;
  EpochDepositExecutingTopics_Amount : bigint }.
Record EpochDepositExecutingDecoded := mkEpochDepositExecutingDecoded {
  EpochDepositExecuting_EpochNonce : bigint;
  EpochDepositExecuting_Amount : bigint }.
Record EpochDepositReconciledTopics := mkEpochDepositReconciledTopics {
  EpochDepositReconciledTopics_EpochNonce : bigint;
  EpochDepositReconciledTopics_ActualDepositAmount : bigint;
  EpochDepositReconciledTopics_ShareReduction : bigint }.
Record EpochDepositReconciledDecoded := mkEpochDepositReconciledDecoded {
  EpochDepositReconciled_EpochNonce : bigint;
  EpochDepositReconciled_ActualDepositAmount : bigint;
  EpochDepositReconciled_ShareReduction : bigint }.
Record EpochDepositToStrategySuccessTopics := mkEpochDepositToStrategySuccessTopics {
  EpochDepositToStrategySuccessTopics_EpochNonce : bigint;
  EpochDepositToStrategySuccessTopics_Amount : bigint }.
Record EpochDepositToStrategySuccessDecoded := mkEpochDepositToStrategySuccessDecoded {
  EpochDepositToStrategySuccess_EpochNonce : bigint;
  EpochDepositToStrategySuccess_Amount : bigint }.
Record EpochOpenTopics := mkEpochOpenTopics { EpochOpenTopics_EpochNonce : bigint }.
Record EpochOpenDecoded := mkEpochOpenDecoded { EpochOpen_EpochNonce : bigint }.
Record EpochWithdrawAmountShortTopics := mkEpochWithdrawAmountShortTopics {
  EpochWithdrawAmountShortTopics_EpochNonce : bigint;
  EpochWithdrawAmountShortTopics_ExpectedAmount : bigint;
  EpochWithdrawAmountShortTopics_ActualAmount : bigint }.
Record EpochWithdrawAmountShortDecoded := mkEpochWithdrawAmountShortDecoded {
  EpochWithdrawAmountShort_EpochNonce : bigint;
  EpochWithdrawAmountShort_ExpectedAmount : bigint;
  EpochWithdrawAmountShort_ActualAmount : bigint }.
Record EpochWithdrawExecutingTopics := mkEpochWithdrawExecutingTopics {
  EpochWithdrawExecutingTopics_EpochNonce : bigint;
  EpochWithdrawExecutingTopics_Amount : bigint }.
Record EpochWithdrawFromStrategySuccessTopics := mkEpochWithdrawFromStrategySuccessTopics {
  EpochWithdrawFromStrategySuccessTopics_EpochNonce : bigint;
  EpochWithdrawFromStrategySuccessTopics_Amount : bigint }.
Record EpochWithdrawFromStrategySuccessDecoded := mkEpochWithdrawFromStrategySuccessDecoded {
  EpochWithdrawFromStrategySuccess_EpochNonce : bigint;
  EpochWithdrawFromStrategySuccess_Amount : bigint }.
Record InitialActiveProtocolAdapterSetTopics := mkInitialActiveProtocolAdapterSetTopics {
  InitialActiveProtocolAdapterSetTopics_ProtocolId : bytes;
  InitialActiveProtocolAdapterSetTopics_Adapter : Address }.
Record InitialActiveProtocolAdapterSetDecoded := mkInitialActiveProtocolAdapterSetDecoded {
  InitialActiveProtocolAdapterSet_ProtocolId : bytes;
  InitialActiveProtocolAdapterSet_Adapter : Address }.
Record InitializedTopics := mkInitializedTopics {}.
Record InitializedDecoded := mkInitializedDecoded { Initialized_Version : Z }.
Record LinkWithdrawnTopics := mkLinkWithdrawnTopics {
  LinkWithdrawnTopics_Operator : Address;
  LinkWithdrawnTopics_Amount : bigint }.
Record LinkWithdrawnDecoded := mkLinkWithdrawnDecoded {
  LinkWithdrawn_Operator : Address;
  LinkWithdrawn_Amount : bigint }.
Record ManagementFeeCollectedTopics := mkManagementFeeCollectedTopics {
  ManagementFeeCollectedTopics_RebalanceNonce : bigint;
  ManagementFeeCollectedTopics_FeeShares : bigint }.
Record ManagementFeeCollectedDecoded := mkManagementFeeCollectedDecoded {
  ManagementFeeCollected_RebalanceNonce : bigint;
  ManagementFeeCollected_FeeShares : bigint }.
Record PausedTopics := mkPausedTopics {}.
Record PausedDecoded := mkPausedDecoded { Paused_Account : Address }.
Record RebalanceCompletedTopics := mkRebalanceCompletedTopics {
  RebalanceCompletedTopics_RebalanceNonce : bigint;
  RebalanceCompletedTopics_NewProtocolId : bytes;
  RebalanceCompletedTopics_NewChainSelector : Z }.
Record RebalanceCompletedDecoded := mkRebalanceCompletedDecoded {
  RebalanceCompleted_RebalanceNonce : bigint;
  RebalanceCompleted_NewProtocolId : bytes;
  RebalanceCompleted_NewChainSelector : Z }.
Record RebalanceDepositFailureTopics := mkRebalanceDepositFailureTopics {
  RebalanceDepositFailureTopics_RebalanceNonce : bigint;
  RebalanceDepositFailureTopics_Amount : bigint }.
Record RebalanceDepositFailureDecoded := mkRebalanceDepositFailureDecoded {
  RebalanceDepositFailure_RebalanceNonce : bigint;
  RebalanceDepositFailure_Amount : bigint }.
Record RebalanceDepositRecoveryClearedTopics := mkRebalanceDepositRecoveryClearedTopics {
  RebalanceDepositRecoveryClearedTopics_RebalanceNonce : bigint }.
Record RebalanceDepositRecoveryClearedDecoded := mkRebalanceDepositRecoveryClearedDecoded {
  RebalanceDepositRecoveryCleared_RebalanceNonce : bigint }.
Record RebalanceDepositRecoveryStoredTopics := mkRebalanceDepositRecoveryStoredTopics {
  RebalanceDepositRecoveryStoredTopics_RebalanceNonce : bigint;
  RebalanceDepositRecoveryStoredTopics_Amount : bigint }.
Record RebalanceDepositRecoveryStoredDecoded := mkRebalanceDepositRecoveryStoredDecoded {
  RebalanceDepositRecoveryStored_RebalanceNonce : bigint;
  RebalanceDepositRecoveryStored_Amount : bigint }.
Record RebalanceDepositSuccessTopics := mkRebalanceDepositSuccessTopics {
  RebalanceDepositSuccessTopics_RebalanceNonce : bigint;
  RebalanceDepositSuccessTopics_Amount : bigint }.
Record RebalanceInitiatedTopics := mkRebalanceInitiatedTopics {
  RebalanceInitiatedTopics_RebalanceNonce : bigint;
  RebalanceInitiatedTopics_ProtocolId : bytes;
  RebalanceInitiatedTopics_ChainSelector : Z }.
Record RebalanceWithdrawSuccessTopics := mkRebalanceWithdrawSuccessTopics {
  RebalanceWithdrawSuccessTopics_RebalanceNonce : bigint;
  RebalanceWithdrawSuccessTopics_Amount : bigint }.
Record RebalanceWithdrawSuccessDecoded := mkRebalanceWithdrawSuccessDecoded {
  RebalanceWithdrawSuccess_RebalanceNonce : bigint;
  RebalanceWithdrawSuccess_Amount : bigint }.
Record RoleAdminChangedTopics := mkRoleAdminChangedTopics {
  RoleAdminChangedTopics_Role : bytes;
  RoleAdminChangedTopics_PreviousAdminRole : bytes;
  RoleAdminChangedTopics_NewAdminRole : bytes }.
Record RoleAdminChangedDecoded := mkRoleAdminChangedDecoded {
  RoleAdminChanged_Role : bytes;
  RoleAdminChanged_PreviousAdminRole : bytes;
  RoleAdminChanged_NewAdminRole : bytes }.
Record RoleGrantedTopics := mkRoleGrantedTopics {
  RoleGrantedTopics_Role : bytes;
  RoleGrantedTopics_Account : Address;
  RoleGrantedTopics_Sender : Address }.
Record RoleGrantedDecoded := mkRoleGrantedDecoded {
  RoleGranted_Role : bytes;
  RoleGranted_Account : Address;
  RoleGranted_Sender : Address }.
Record RoleRevokedTopics := mkRoleRevokedTopics {
  RoleRevokedTopics_Role : bytes;
  RoleRevokedTopics_Account : Address;
  RoleRevokedTopics_Sender : Address }.
Record RoleRevokedDecoded := mkRoleRevokedDecoded {
  RoleRevoked_Role : bytes;
  RoleRevoked_Account : Address;
  RoleRevoked_Sender : Address }.
Record SupportedProtocolSetTopics := mkSupportedProtocolSetTopics {
  SupportedProtocolSetTopics_ProtocolId : bytes;
  SupportedProtocolSetTopics_IsSupported : bool }.
Record SupportedProtocolSetDecoded := mkSupportedProtocolSetDecoded {
  SupportedProtocolSet_ProtocolId : bytes;
  SupportedProtocolSet_IsSupported : bool }.
Record TreasurySetTopics := mkTreasurySetTopics { TreasurySetTopics_Treasury : Address }.
Record TreasurySetDecoded := mkTreasurySetDecoded { TreasurySet_Treasury : Address }.
Record UnpausedTopics := mkUnpausedTopics {}.
Record UnpausedDecoded := mkUnpausedDecoded { Unpaused_Account : Address }.
Record UpgradedTopics := mkUpgradedTopics { UpgradedTopics_Implementation : Address }.
Record UpgradedDecoded := mkUpgradedDecoded { Upgraded_Implementation : Address }.
Record WithdrawCancelledTopics := mkWithdrawCancelledTopics {
  WithdrawCancelledTopics_EpochNonce : bigint;
  WithdrawCancelledTopics_Withdrawer : Address;
  WithdrawCancelledTopics_ShareBurnAmount : bigint }.
Record WithdrawCancelledDecoded := mkWithdrawCancelledDecoded {
  WithdrawCancelled_EpochNonce : bigint;
  WithdrawCancelled_Withdrawer : Address;
  WithdrawCancelled_ShareBurnAmount : bigint }.
Record WithdrawClaimedTopics := mkWithdrawClaimedTopics {
  WithdrawClaimedTopics_EpochNonce : bigint;
  WithdrawClaimedTopics_Withdrawer : Address;
  WithdrawClaimedTopics_Amount : bigint }.
Record WithdrawClaimedDecoded := mkWithdrawClaimedDecoded {
  WithdrawClaimed_EpochNonce : bigint;
  WithdrawClaimed_Withdrawer : Address;
  WithdrawClaimed_Amount : bigint }.
Record WithdrawSubmittedTopics := mkWithdrawSubmittedTopics {
  WithdrawSubmittedTopics_EpochNonce : bigint;
  WithdrawSubmittedTopics_Withdrawer : Address;
  WithdrawSubmittedTopics_ShareBurnAmount : bigint }.
Record WithdrawSubmittedDecoded := mkWithdrawSubmittedDecoded {
  WithdrawSubmitted_EpochNonce : bigint;
  WithdrawSubmitted_Withdrawer : Address;
  WithdrawSubmitted_ShareBurnAmount : bigint }.

(** The events of the metadata. *)
Definition events : event_table :=
  [("ActiveProtocolAdapterCleared"%string, [mkArgument "adapter" AddressTy true]);
   ("ActiveProtocolAdapterSet"%string, [mkArgument "protocolId" (FixedBytesTy 32) true;
      mkArgument "adapter" AddressTy true]);
   ("AllowlistEnabledSet"%string, [mkArgument "enabled" BoolTy true]);
   ("AllowlistedUserSet"%string, [mkArgument "user" AddressTy true;
      mkArgument "allowed" BoolTy true]);
   ("CCIPBridged"%string, [mkArgument "ccipMessageId" (FixedBytesTy 32) true;
      mkArgument "destinationChainSelector" (UintTy 64) true;
      mkArgument "ccipTxType" (UintTy 8) true]);
   ("CCIPReceived"%string, [mkArgument "ccipMessageId" (FixedBytesTy 32) true;
      mkArgument "sourceChainSelector" (UintTy 64) true;
      mkArgument "ccipTxType" (UintTy 8) true]);
   ("CcipGasLimitSet"%string, [mkArgument "chainSelector" (UintTy 64) true;
      mkArgument "gasLimit" (UintTy 256) true]);
   ("CrosschainVaultSet"%string, [mkArgument "chainSelector" (UintTy 64) true;
      mkArgument "vault" AddressTy true]);
   ("DefaultAdminDelayChangeCanceled"%string, []);
   ("DefaultAdminDelayChangeScheduled"%string, [mkArgument "newDelay" (UintTy 48) false;
      mkArgument "effectSchedule" (UintTy 48) false]);
   ("DefaultAdminTransferCanceled"%string, []);
   ("DefaultAdminTransferScheduled"%string, [mkArgument "newAdmin" AddressTy true;
      mkArgument "acceptSchedule" (UintTy 48) false]);
   ("DefaultCcipGasLimitSet"%string, [mkArgument "gasLimit" (UintTy 256) true]);
   ("DepositCancelled"%string, [mkArgument "epochNonce" (UintTy 256) true;
      mkArgument "depositor" AddressTy true;
      mkArgument "amount" (UintTy 256) true]);
   ("DepositClaimed"%string, [mkArgument "epochNonce" (UintTy 256) true;
      mkArgument "depositor" AddressTy true;
      mkArgument "shareMintAmount" (UintTy 256) true]);
   ("DepositForceCancelled"%string, [mkArgument "epochNonce" (UintTy 256) true;
      mkArgument "depositor" AddressTy true;
      mkArgument "amount" (UintTy 256) true]);
   ("DepositSubmitted"%string, [mkArgument "epochNonce" (UintTy 256) true;
      mkArgument "depositor" AddressTy true;
      mkArgument "amount" (UintTy 256) true]);
   ("EpochClaimable"%string, [mkArgument "epochNonce" (UintTy 256) true]);
   ("EpochDepositExecuting"%string, [mkArgument "epochNonce" (UintTy 256) true;
      mkArgument "amount" (UintTy 256) true]);
   ("EpochDepositReconciled"%string, [mkArgument "epochNonce" (UintTy 256) true;
      mkArgument "actualDepositAmount" (UintTy 256) true;
      mkArgument "shareReduction" (UintTy 256) true]);
   ("EpochDepositToStrategySuccess"%string, [mkArgument "epochNonce" (UintTy 256) true;
      mkArgument "amount" (UintTy 256) true]);
   ("EpochOpen"%string, [mkArgument "epochNonce" (UintTy 256) true]);
   ("EpochWithdrawAmountShort"%string, [mkArgument "epochNonce" (UintTy 256) true;
      mkArgument "expectedAmount" (UintTy 256) true;
      mkArgument "actualAmount" (UintTy 256) true]);
   ("EpochWithdrawExecuting"%string, [mkArgument "epochNonce" (UintTy 256) true;
      mkArgument "amount" (UintTy 256) true]);
   ("EpochWithdrawFromStrategySuccess"%string, [mkArgument "epochNonce" (UintTy 256) true;
      mkArgument "amount" (UintTy 256) true]);
   ("InitialActiveProtocolAdapterSet"%string, [mkArgument "protocolId" (FixedBytesTy 32) true;
      mkArgument "adapter" AddressTy true]);
   ("Initialized"%string, [mkArgument "version" (UintTy 64) false]);
   ("LinkWithdrawn"%string, [mkArgument "operator" AddressTy true;
      mkArgument "amount" (UintTy 256) true]);
   ("ManagementFeeCollected"%string, [mkArgument "rebalanceNonce" (UintTy 256) true;
      mkArgument "feeShares" (UintTy 256) true]);
   ("Paused"%string, [mkArgument "account" AddressTy false]);
   ("RebalanceCompleted"%string, [mkArgument "rebalanceNonce" (UintTy 256) true;
      mkArgument "newProtocolId" (FixedBytesTy 32) true;
      mkArgument "newChainSelector" (UintTy 64) true]);
   ("RebalanceDepositFailure"%string, [mkArgument "rebalanceNonce" (UintTy 256) true;
      mkArgument "amount" (UintTy 256) true]);
   ("RebalanceDepositRecoveryCleared"%string, [mkArgument "rebalanceNonce" (UintTy 256) true]);
   ("RebalanceDepositRecoveryStored"%string, [mkArgument "rebalanceNonce" (UintTy 256) true;
      mkArgument "amount" (UintTy 256) true]);
   ("RebalanceDepositSuccess"%string, [mkArgument "rebalanceNonce" (UintTy 256) true;
      mkArgument "amount" (UintTy 256) true]);
   ("RebalanceInitiated"%string, [mkArgument "rebalanceNonce" (UintTy 256) true;
      mkArgument "protocolId" (FixedBytesTy 32) true;
      mkArgument "chainSelector" (UintTy 64) true]);
   ("RebalanceWithdrawSuccess"%string, [mkArgument "rebalanceNonce" (UintTy 256) true;
      mkArgument "amount" (UintTy 256) true]);
   ("RoleAdminChanged"%string, [mkArgument "role" (FixedBytesTy 32) true;
      mkArgument "previousAdminRole" (FixedBytesTy 32) true;
      mkArgument "newAdminRole" (FixedBytesTy 32) true]);
   ("RoleGranted"%string, [mkArgument "role" (FixedBytesTy 32) true;
      mkArgument "account" AddressTy true;
      mkArgument "sender" AddressTy true]);
   ("RoleRevoked"%string, [mkArgument "role" (FixedBytesTy 32) true;
      mkArgument "account" AddressTy true;
      mkArgument "sender" AddressTy true]);
   ("SupportedProtocolSet"%string, [mkArgument "protocolId" (FixedBytesTy 32) true;
      mkArgument "isSupported" BoolTy true]);
   ("TreasurySet"%string, [mkArgument "treasury" AddressTy true]);
   ("Unpaused"%string, [mkArgument "account" AddressTy false]);
   ("Upgraded"%string, [mkArgument "implementation" AddressTy true]);
   ("WithdrawCancelled"%string, [mkArgument "epochNonce" (UintTy 256) true;
      mkArgument "withdrawer" AddressTy true;
      mkArgument "shareBurnAmount" (UintTy 256) true]);
   ("WithdrawClaimed"%string, [mkArgument "epochNonce" (UintTy 256) true;
      mkArgument "withdrawer" AddressTy true;
      mkArgument "amount" (UintTy 256) true]);
   ("WithdrawSubmitted"%string, [mkArgument "epochNonce" (UintTy 256) true;
      mkArgument "withdrawer" AddressTy true;
      mkArgument "shareBurnAmount" (UintTy 256) true])].

Section Events.
Context `{GoTopics}.

(** ** Signature hashes *)
Definition ActiveProtocolAdapterClearedLogHash (c : Codec) : Hash := LogHash c "ActiveProtocolAdapterCleared".
Definition ActiveProtocolAdapterSetLogHash (c : Codec) : Hash := LogHash c "ActiveProtocolAdapterSet".
Definition AllowlistEnabledSetLogHash (c : Codec) : Hash := LogHash c "AllowlistEnabledSet".
Definition AllowlistedUserSetLogHash (c : Codec) : Hash := LogHash c "AllowlistedUserSet".
Definition CCIPBridgedLogHash (c : Codec) : Hash := LogHash c "CCIPBridged".
Definition CCIPReceivedLogHash (c : Codec) : Hash := LogHash c "CCIPReceived".
Definition CcipGasLimitSetLogHash (c : Codec) : Hash := LogHash c "CcipGasLimitSet".
Definition CrosschainVaultSetLogHash (c : Codec) : Hash := LogHash c "CrosschainVaultSet".
Definition DefaultAdminDelayChangeCanceledLogHash (c : Codec) : Hash := LogHash c "DefaultAdminDelayChangeCanceled".
Definition DefaultAdminDelayChangeScheduledLogHash (c : Codec) : Hash := LogHash c "DefaultAdminDelayChangeScheduled".
Definition DefaultAdminTransferCanceledLogHash (c : Codec) : Hash := LogHash c "DefaultAdminTransferCanceled".
Definition DefaultAdminTransferScheduledLogHash (c : Codec) : Hash := LogHash c "DefaultAdminTransferScheduled".
Definition DefaultCcipGasLimitSetLogHash (c : Codec) : Hash := LogHash c "DefaultCcipGasLimitSet".
Definition DepositCancelledLogHash (c : Codec) : Hash := LogHash c "DepositCancelled".
Definition DepositClaimedLogHash (c : Codec) : Hash := LogHash c "DepositClaimed".
Definition DepositForceCancelledLogHash (c : Codec) : Hash := LogHash c "DepositForceCancelled".
Definition DepositSubmittedLogHash (c : Codec) : Hash := LogHash c "DepositSubmitted".
Definition EpochClaimableLogHash (c : Codec) : Hash := LogHash c "EpochClaimable".
Definition EpochDepositExecutingLogHash (c : Codec) : Hash := LogHash c "EpochDepositExecuting".
Definition EpochDepositReconciledLogHash (c : Codec) : Hash := LogHash c "EpochDepositReconciled".
Definition EpochDepositToStrategySuccessLogHash (c : Codec) : Hash := LogHash c "EpochDepositToStrategySuccess".
Definition EpochOpenLogHash (c : Codec) : Hash := LogHash c "EpochOpen".
Definition EpochWithdrawAmountShortLogHash (c : Codec) : Hash := LogHash c "EpochWithdrawAmountShort".
Definition EpochWithdrawFromStrategySuccessLogHash (c : Codec) : Hash := LogHash c "EpochWithdrawFromStrategySuccess".
Definition InitialActiveProtocolAdapterSetLogHash (c : Codec) : Hash := LogHash c "InitialActiveProtocolAdapterSet".
Definition InitializedLogHash (c : Codec) : Hash := LogHash c "Initialized".
Definition LinkWithdrawnLogHash (c : Codec) : Hash := LogHash c "LinkWithdrawn".
Definition ManagementFeeCollectedLogHash (c : Codec) : Hash := LogHash c "ManagementFeeCollected".
Definition PausedLogHash (c : Codec) : Hash := LogHash c "Paused".
Definition RebalanceCompletedLogHash (c : Codec) : Hash := LogHash c "RebalanceCompleted".
Definition RebalanceDepositFailureLogHash (c : Codec) : Hash := LogHash c "RebalanceDepositFailure".
Definition RebalanceDepositRecoveryClearedLogHash (c : Codec) : Hash := LogHash c "RebalanceDepositRecoveryCleared".
Definition RebalanceDepositRecoveryStoredLogHash (c : Codec) : Hash := LogHash c "RebalanceDepositRecoveryStored".
Definition RebalanceDepositSuccessLogHash (c : Codec) : Hash := LogHash c "RebalanceDepositSuccess".
Definition RebalanceWithdrawSuccessLogHash (c : Codec) : Hash := LogHash c "RebalanceWithdrawSuccess".
Definition RoleAdminChangedLogHash (c : Codec) : Hash := LogHash c "RoleAdminChanged".
Definition RoleGrantedLogHash (c : Codec) : Hash := LogHash c "RoleGranted".
Definition RoleRevokedLogHash (c : Codec) : Hash := LogHash c "RoleRevoked".
Definition SupportedProtocolSetLogHash (c : Codec) : Hash := LogHash c "SupportedProtocolSet".
Definition TreasurySetLogHash (c : Codec) : Hash := LogHash c "TreasurySet".
Definition UnpausedLogHash (c : Codec) : Hash := LogHash c "Unpaused".
Definition UpgradedLogHash (c : Codec) : Hash := LogHash c "Upgraded".
Definition WithdrawCancelledLogHash (c : Codec) : Hash := LogHash c "WithdrawCancelled".
Definition WithdrawClaimedLogHash (c : Codec) : Hash := LogHash c "WithdrawClaimed".
Definition WithdrawSubmittedLogHash (c : Codec) : Hash := LogHash c "WithdrawSubmitted".

(** ** Topic filters *)
Definition EncodeActiveProtocolAdapterClearedTopics (evt : Event) (values : list ActiveProtocolAdapterClearedTopics)
    : res (list TopicValues) :=
  adapterRule ← topic_rule evt 0 (λ v, VFixed (ActiveProtocolAdapterClearedTopics_Adapter v)) values;
  make_topics evt [adapterRule].
Definition EncodeActiveProtocolAdapterSetTopics (evt : Event) (values : list ActiveProtocolAdapterSetTopics)
    : res (list TopicValues) :=
  protocolIdRule ← topic_rule evt 0 (λ v, VFixed (ActiveProtocolAdapterSetTopics_ProtocolId v)) values;
  adapterRule ← topic_rule evt 1 (λ v, VFixed (ActiveProtocolAdapterSetTopics_Adapter v)) values;
  make_topics evt [protocolIdRule; adapterRule].
Definition EncodeAllowlistEnabledSetTopics (evt : Event) (values : list AllowlistEnabledSetTopics)
    : res (list TopicValues) :=
  enabledRule ← topic_rule evt 0 (λ v, VBool (AllowlistEnabledSetTopics_Enabled v)) values;
  make_topics evt [enabledRule].
Definition EncodeAllowlistedUserSetTopics (evt : Event) (values : list AllowlistedUserSetTopics)
    : res (list TopicValues) :=
  userRule ← topic_rule evt 0 (λ v, VFixed (AllowlistedUserSetTopics_User v)) values;
  allowedRule ← topic_rule evt 1 (λ v, VBool (AllowlistedUserSetTopics_Allowed v)) values;
  make_topics evt [userRule; allowedRule].
Definition EncodeCCIPBridgedTopics (evt : Event) (values : list CCIPBridgedTopics)
    : res (list TopicValues) :=
  ccipMessageIdRule ← topic_rule evt 0 (λ v, VFixed (CCIPBridgedTopics_CcipMessageId v)) values;
  destinationChainSelectorRule ← topic_rule evt 1 (λ v, VUint (CCIPBridgedTopics_DestinationChainSelector v)) values;
  ccipTxTypeRule ← topic_rule evt 2 (λ v, VUint (CCIPBridgedTopics_CcipTxType v)) values;
  make_topics evt [ccipMessageIdRule; destinationChainSelectorRule; ccipTxTypeRule].
Definition EncodeCCIPReceivedTopics (evt : Event) (values : list CCIPReceivedTopics)
    : res (list TopicValues) :=
  ccipMessageIdRule ← topic_rule evt 0 (λ v, VFixed (CCIPReceivedTopics_CcipMessageId v)) values;
  sourceChainSelectorRule ← topic_rule evt 1 (λ v, VUint (CCIPReceivedTopics_SourceChainSelector v)) values;
  ccipTxTypeRule ← topic_rule evt 2 (λ v, VUint (CCIPReceivedTopics_CcipTxType v)) values;
  make_topics evt [ccipMessageIdRule; sourceChainSelectorRule; ccipTxTypeRule].
Definition EncodeCcipGasLimitSetTopics (evt : Event) (values : list CcipGasLimitSetTopics)
    : res (list TopicValues) :=
  chainSelectorRule ← topic_rule evt 0 (λ v, VUint (CcipGasLimitSetTopics_ChainSelector v)) values;
  gasLimitRule ← topic_rule evt 1 (λ v, VBig (CcipGasLimitSetTopics_GasLimit v)) values;
  make_topics evt [chainSelectorRule; gasLimitRule].
Definition EncodeCrosschainVaultSetTopics (evt : Event) (values : list CrosschainVaultSetTopics)
    : res (list TopicValues) :=
  chainSelectorRule ← topic_rule evt 0 (λ v, VUint (CrosschainVaultSetTopics_ChainSelector v)) values;
  vaultRule ← topic_rule evt 1 (λ v, VFixed (CrosschainVaultSetTopics_Vault v)) values;
  make_topics evt [chainSelectorRule; vaultRule].
Definition EncodeDefaultAdminDelayChangeCanceledTopics (evt : Event) (values : list DefaultAdminDelayChangeCanceledTopics)
    : res (list TopicValues) :=
  make_topics evt [].
Definition EncodeDefaultAdminDelayChangeScheduledTopics (evt : Event) (values : list DefaultAdminDelayChangeScheduledTopics)
    : res (list TopicValues) :=
  make_topics evt [].
Definition EncodeDefaultAdminTransferCanceledTopics (evt : Event) (values : list DefaultAdminTransferCanceledTopics)
    : res (list TopicValues) :=
  make_topics evt [].
Definition EncodeDefaultAdminTransferScheduledTopics (evt : Event) (values : list DefaultAdminTransferScheduledTopics)
    : res (list TopicValues) :=
  newAdminRule ← topic_rule evt 0 (λ v, VFixed (DefaultAdminTransferScheduledTopics_NewAdmin v)) values;
  make_topics evt [newAdminRule].
Definition EncodeDefaultCcipGasLimitSetTopics (evt : Event) (values : list DefaultCcipGasLimitSetTopics)
    : res (list TopicValues) :=
  gasLimitRule ← topic_rule evt 0 (λ v, VBig (DefaultCcipGasLimitSetTopics_GasLimit v)) values;
  make_topics evt [gasLimitRule].
Definition EncodeDepositCancelledTopics (evt : Event) (values : list DepositCancelledTopics)
    : res (list TopicValues) :=
  epochNonceRule ← topic_rule evt 0 (λ v, VBig (DepositCancelledTopics_EpochNonce v)) values;
  depositorRule ← topic_rule evt 1 (λ v, VFixed (DepositCancelledTopics_Depositor v)) values;
  amountRule ← topic_rule evt 2 (λ v, VBig (DepositCancelledTopics_Amount v)) values;
  make_topics evt [epochNonceRule; depositorRule; amountRule].
Definition EncodeDepositClaimedTopics (evt : Event) (values : list DepositClaimedTopics)
    : res (list TopicValues) :=
  epochNonceRule ← topic_rule evt 0 (λ v, VBig (DepositClaimedTopics_EpochNonce v)) values;
  depositorRule ← topic_rule evt 1 (λ v, VFixed (DepositClaimedTopics_Depositor v)) values;
  shareMintAmountRule ← topic_rule evt 2 (λ v, VBig (DepositClaimedTopics_ShareMintAmount v)) values;
  make_topics evt [epochNonceRule; depositorRule; shareMintAmountRule].
Definition EncodeDepositForceCancelledTopics (evt : Event) (values : list DepositForceCancelledTopics)
    : res (list TopicValues) :=
  epochNonceRule ← topic_rule evt 0 (λ v, VBig (DepositForceCancelledTopics_EpochNonce v)) values;
  depositorRule ← topic_rule evt 1 (λ v, VFixed (DepositForceCancelledTopics_Depositor v)) values;
  amountRule ← topic_rule evt 2 (λ v, VBig (DepositForceCancelledTopics_Amount v)) values;
  make_topics evt [epochNonceRule; depositorRule; amountRule].
Definition EncodeDepositSubmittedTopics (evt : Event) (values : list DepositSubmittedTopics)
    : res (list TopicValues) :=
  epochNonceRule ← topic_rule evt 0 (λ v, VBig (DepositSubmittedTopics_EpochNonce v)) values;
  depositorRule ← topic_rule evt 1 (λ v, VFixed (DepositSubmittedTopics_Depositor v)) values;
  amountRule ← topic_rule evt 2 (λ v, VBig (DepositSubmittedTopics_Amount v)) values;
  make_topics evt [epochNonceRule; depositorRule; amountRule].
Definition EncodeEpochClaimableTopics (evt : Event) (values : list EpochClaimableTopics)
    : res (list TopicValues) :=
  epochNonceRule ← topic_rule evt 0 (λ v, VBig (EpochClaimableTopics_EpochNonce v)) values;
  make_topics evt [epochNonceRule].
Definition EncodeEpochDepositExecutingTopics (evt : Event) (values : list EpochDepositExecutingTopics)
    : res (list TopicValues) :=
  epochNonceRule ← topic_rule evt 0 (λ v, VBig (EpochDepositExecutingTopics_EpochNonce v)) values;
  amountRule ← topic_rule evt 1 (λ v, VBig (EpochDepositExecutingTopics_Amount v)) values;
  make_topics evt [epochNonceRule; amountRule].
Definition EncodeEpochDepositReconciledTopics (evt : Event) (values : list EpochDepositReconciledTopics)
    : res (list TopicValues) :=
  epochNonceRule ← topic_rule evt 0 (λ v, VBig (EpochDepositReconciledTopics_EpochNonce v)) values;
  actualDepositAmountRule ← topic_rule evt 1 (λ v, VBig (EpochDepositReconciledTopics_ActualDepositAmount v)) values;
  shareReductionRule ← topic_rule evt 2 (λ v, VBig (EpochDepositReconciledTopics_ShareReduction v)) values;
  make_topics evt [epochNonceRule; actualDepositAmountRule; shareReductionRule].
Definition EncodeEpochDepositToStrategySuccessTopics (evt : Event) (values : list EpochDepositToStrategySuccessTopics)
    : res (list TopicValues) :=
  epochNonceRule ← topic_rule evt 0 (λ v, VBig (EpochDepositToStrategySuccessTopics_EpochNonce v)) values;
  amountRule ← topic_rule evt 1 (λ v, VBig (EpochDepositToStrategySuccessTopics_Amount v)) values;
  make_topics evt [epochNonceRule; amountRule].
Definition EncodeEpochOpenTopics (evt : Event) (values : list EpochOpenTopics)
    : res (list TopicValues) :=
  epochNonceRule ← topic_rule evt 0 (λ v, VBig (EpochOpenTopics_EpochNonce v)) values;
  make_topics evt [epochNonceRule].
Definition EncodeEpochWithdrawAmountShortTopics (evt : Event) (values : list EpochWithdrawAmountShortTopics)
    : res (list TopicValues) :=
  epochNonceRule ← topic_rule evt 0 (λ v, VBig (EpochWithdrawAmountShortTopics_EpochNonce v)) values;
  expectedAmountRule ← topic_rule evt 1 (λ v, VBig (EpochWithdrawAmountShortTopics_ExpectedAmount v)) values;
  actualAmountRule ← topic_rule evt 2 (λ v, VBig (EpochWithdrawAmountShortTopics_ActualAmount v)) values;
  make_topics evt [epochNonceRule; expectedAmountRule; actualAmountRule].
Definition EncodeEpochWithdrawExecutingTopics (evt : Event) (values : list EpochWithdrawExecutingTopics)
    : res (list TopicValues) :=
  epochNonceRule ← topic_rule evt 0 (λ v, VBig (EpochWithdrawExecutingTopics_EpochNonce v)) values;
  amountRule ← topic_rule evt 1 (λ v, VBig (EpochWithdrawExecutingTopics_Amount v)) values;
  make_topics evt [epochNonceRule; amountRule].
Definition EncodeEpochWithdrawFromStrategySuccessTopics (evt : Event) (values : list EpochWithdrawFromStrategySuccessTopics)
    : res (list TopicValues) :=
  epochNonceRule ← topic_rule evt 0 (λ v, VBig (EpochWithdrawFromStrategySuccessTopics_EpochNonce v)) values;
  amountRule ← topic_rule evt 1 (λ v, VBig (EpochWithdrawFromStrategySuccessTopics_Amount v)) values;
  make_topics evt [epochNonceRule; amountRule].
Definition EncodeInitialActiveProtocolAdapterSetTopics (evt : Event) (values : list InitialActiveProtocolAdapterSetTopics)
    : res (list TopicValues) :=
  protocolIdRule ← topic_rule evt 0 (λ v, VFixed (InitialActiveProtocolAdapterSetTopics_ProtocolId v)) values;
  adapterRule ← topic_rule evt 1 (λ v, VFixed (InitialActiveProtocolAdapterSetTopics_Adapter v)) values;
  make_topics evt [protocolIdRule; adapterRule].
Definition EncodeInitializedTopics (evt : Event) (values : list InitializedTopics)
    : res (list TopicValues) :=
  make_topics evt [].
Definition EncodeLinkWithdrawnTopics (evt : Event) (values : list LinkWithdrawnTopics)
    : res (list TopicValues) :=
  operatorRule ← topic_rule evt 0 (λ v, VFixed (LinkWithdrawnTopics_Operator v)) values;
  amountRule ← topic_rule evt 1 (λ v, VBig (LinkWithdrawnTopics_Amount v)) values;
  make_topics evt [operatorRule; amountRule].
Definition EncodeManagementFeeCollectedTopics (evt : Event) (values : list ManagementFeeCollectedTopics)
    : res (list TopicValues) :=
  rebalanceNonceRule ← topic_rule evt 0 (λ v, VBig (ManagementFeeCollectedTopics_RebalanceNonce v)) values;
  feeSharesRule ← topic_rule evt 1 (λ v, VBig (ManagementFeeCollectedTopics_FeeShares v)) values;
  make_topics evt [rebalanceNonceRule; feeSharesRule].
Definition EncodePausedTopics (evt : Event) (values : list PausedTopics)
    : res (list TopicValues) :=
  make_topics evt [].
Definition EncodeRebalanceCompletedTopics (evt : Event) (values : list RebalanceCompletedTopics)
    : res (list TopicValues) :=
  rebalanceNonceRule ← topic_rule evt 0 (λ v, VBig (RebalanceCompletedTopics_RebalanceNonce v)) values;
  newProtocolIdRule ← topic_rule evt 1 (λ v, VFixed (RebalanceCompletedTopics_NewProtocolId v)) values;
  newChainSelectorRule ← topic_rule evt 2 (λ v, VUint (RebalanceCompletedTopics_NewChainSelector v)) values;
  make_topics evt [rebalanceNonceRule; newProtocolIdRule; newChainSelectorRule].
Definition EncodeRebalanceDepositFailureTopics (evt : Event) (values : list RebalanceDepositFailureTopics)
    : res (list TopicValues) :=
  rebalanceNonceRule ← topic_rule evt 0 (λ v, VBig (RebalanceDepositFailureTopics_RebalanceNonce v)) values;
  amountRule ← topic_rule evt 1 (λ v, VBig (RebalanceDepositFailureTopics_Amount v)) values;
  make_topics evt [rebalanceNonceRule; amountRule].
Definition EncodeRebalanceDepositRecoveryClearedTopics (evt : Event) (values : list RebalanceDepositRecoveryClearedTopics)
    : res (list TopicValues) :=
  rebalanceNonceRule ← topic_rule evt 0 (λ v, VBig (RebalanceDepositRecoveryClearedTopics_RebalanceNonce v)) values;
  make_topics evt [rebalanceNonceRule].
Definition EncodeRebalanceDepositRecoveryStoredTopics (evt : Event) (values : list RebalanceDepositRecoveryStoredTopics)
    : res (list TopicValues) :=
  rebalanceNonceRule ← topic_rule evt 0 (λ v, VBig (RebalanceDepositRecoveryStoredTopics_RebalanceNonce v)) values;
  amountRule ← topic_rule evt 1 (λ v, VBig (RebalanceDepositRecoveryStoredTopics_Amount v)) values;
  make_topics evt [rebalanceNonceRule; amountRule].
Definition EncodeRebalanceDepositSuccessTopics (evt : Event) (values : list RebalanceDepositSuccessTopics)
    : res (list TopicValues) :=
  rebalanceNonceRule ← topic_rule evt 0 (λ v, VBig (RebalanceDepositSuccessTopics_RebalanceNonce v)) values;
  amountRule ← topic_rule evt 1 (λ v, VBig (RebalanceDepositSuccessTopics_Amount v)) values;
  make_topics evt [rebalanceNonceRule; amountRule].
Definition EncodeRebalanceInitiatedTopics (evt : Event) (values : list RebalanceInitiatedTopics)
    : res (list TopicValues) :=
  rebalanceNonceRule ← topic_rule evt 0 (λ v, VBig (RebalanceInitiatedTopics_RebalanceNonce v)) values;
  protocolIdRule ← topic_rule evt 1 (λ v, VFixed (RebalanceInitiatedTopics_ProtocolId v)) values;
  chainSelectorRule ← topic_rule evt 2 (λ v, VUint (RebalanceInitiatedTopics_ChainSelector v)) values;
  make_topics evt [rebalanceNonceRule; protocolIdRule; chainSelectorRule].
Definition EncodeRebalanceWithdrawSuccessTopics (evt : Event) (values : list RebalanceWithdrawSuccessTopics)
    : res (list TopicValues) :=
  rebalanceNonceRule ← topic_rule evt 0 (λ v, VBig (RebalanceWithdrawSuccessTopics_RebalanceNonce v)) values;
  amountRule ← topic_rule evt 1 (λ v, VBig (RebalanceWithdrawSuccessTopics_Amount v)) values;
  make_topics evt [rebalanceNonceRule; amountRule].
Definition EncodeRoleAdminChangedTopics (evt : Event) (values : list RoleAdminChangedTopics)
    : res (list TopicValues) :=
  roleRule ← topic_rule evt 0 (λ v, VFixed (RoleAdminChangedTopics_Role v)) values;
  previousAdminRoleRule ← topic_rule evt 1 (λ v, VFixed (RoleAdminChangedTopics_PreviousAdminRole v)) values;
  newAdminRoleRule ← topic_rule evt 2 (λ v, VFixed (RoleAdminChangedTopics_NewAdminRole v)) values;
  make_topics evt [roleRule; previousAdminRoleRule; newAdminRoleRule].
Definition EncodeRoleGrantedTopics (evt : Event) (values : list RoleGrantedTopics)
    : res (list TopicValues) :=
  roleRule ← topic_rule evt 0 (λ v, VFixed (RoleGrantedTopics_Role v)) values;
  accountRule ← topic_rule evt 1 (λ v, VFixed (RoleGrantedTopics_Account v)) values;
  senderRule ← topic_rule evt 2 (λ v, VFixed (RoleGrantedTopics_Sender v)) values;
  make_topics evt [roleRule; accountRule; senderRule].
Definition EncodeRoleRevokedTopics (evt : Event) (values : list RoleRevokedTopics)
    : res (list TopicValues) :=
  roleRule ← topic_rule evt 0 (λ v, VFixed (RoleRevokedTopics_Role v)) values;
  accountRule ← topic_rule evt 1 (λ v, VFixed (RoleRevokedTopics_Account v)) values;
  senderRule ← topic_rule evt 2 (λ v, VFixed (RoleRevokedTopics_Sender v)) values;
  make_topics evt [roleRule; accountRule; senderRule].
Definition EncodeSupportedProtocolSetTopics (evt : Event) (values : list SupportedProtocolSetTopics)
    : res (list TopicValues) :=
  protocolIdRule ← topic_rule evt 0 (λ v, VFixed (SupportedProtocolSetTopics_ProtocolId v)) values;
  isSupportedRule ← topic_rule evt 1 (λ v, VBool (SupportedProtocolSetTopics_IsSupported v)) values;
  make_topics evt [protocolIdRule; isSupportedRule].
Definition EncodeTreasurySetTopics (evt : Event) (values : list TreasurySetTopics)
    : res (list TopicValues) :=
  treasuryRule ← topic_rule evt 0 (λ v, VFixed (TreasurySetTopics_Treasury v)) values;
  make_topics evt [treasuryRule].
Definition EncodeUnpausedTopics (evt : Event) (values : list UnpausedTopics)
    : res (list TopicValues) :=
  make_topics evt [].
Definition EncodeUpgradedTopics (evt : Event) (values : list UpgradedTopics)
    : res (list TopicValues) :=
  implementationRule ← topic_rule evt 0 (λ v, VFixed (UpgradedTopics_Implementation v)) values;
  make_topics evt [implementationRule].
Definition EncodeWithdrawCancelledTopics (evt : Event) (values : list WithdrawCancelledTopics)
    : res (list TopicValues) :=
  epochNonceRule ← topic_rule evt 0 (λ v, VBig (WithdrawCancelledTopics_EpochNonce v)) values;
  withdrawerRule ← topic_rule evt 1 (λ v, VFixed (WithdrawCancelledTopics_Withdrawer v)) values;
  shareBurnAmountRule ← topic_rule evt 2 (λ v, VBig (WithdrawCancelledTopics_ShareBurnAmount v)) values;
  make_topics evt [epochNonceRule; withdrawerRule; shareBurnAmountRule].
Definition EncodeWithdrawClaimedTopics (evt : Event) (values : list WithdrawClaimedTopics)
    : res (list TopicValues) :=
  epochNonceRule ← topic_rule evt 0 (λ v, VBig (WithdrawClaimedTopics_EpochNonce v)) values;
  withdrawerRule ← topic_rule evt 1 (λ v, VFixed (WithdrawClaimedTopics_Withdrawer v)) values;
  amountRule ← topic_rule evt 2 (λ v, VBig (WithdrawClaimedTopics_Amount v)) values;
  make_topics evt [epochNonceRule; withdrawerRule; amountRule].
Definition EncodeWithdrawSubmittedTopics (evt : Event) (values : list WithdrawSubmittedTopics)
    : res (list TopicValues) :=
  epochNonceRule ← topic_rule evt 0 (λ v, VBig (WithdrawSubmittedTopics_EpochNonce v)) values;
  withdrawerRule ← topic_rule evt 1 (λ v, VFixed (WithdrawSubmittedTopics_Withdrawer v)) values;
  shareBurnAmountRule ← topic_rule evt 2 (λ v, VBig (WithdrawSubmittedTopics_ShareBurnAmount v)) values;
  make_topics evt [epochNonceRule; withdrawerRule; shareBurnAmountRule].

(** ** Decoders *)
Definition DecodeActiveProtocolAdapterCleared (c : Codec) (log : option Log) : res ActiveProtocolAdapterClearedDecoded :=
  m ← decode_event (codec_abi c) "ActiveProtocolAdapterCleared" log;
  Ok (mkActiveProtocolAdapterClearedDecoded (event_address m "adapter")).
Definition DecodeActiveProtocolAdapterSet (c : Codec) (log : option Log) : res ActiveProtocolAdapterSetDecoded :=
  m ← decode_event (codec_abi c) "ActiveProtocolAdapterSet" log;
  Ok (mkActiveProtocolAdapterSetDecoded (event_bytes32 m "protocolId") (event_address m "adapter")).
Definition DecodeAllowlistEnabledSet (c : Codec) (log : option Log) : res AllowlistEnabledSetDecoded :=
  m ← decode_event (codec_abi c) "AllowlistEnabledSet" log;
  Ok (mkAllowlistEnabledSetDecoded (event_bool m "enabled")).
Definition DecodeAllowlistedUserSet (c : Codec) (log : option Log) : res AllowlistedUserSetDecoded :=
  m ← decode_event (codec_abi c) "AllowlistedUserSet" log;
  Ok (mkAllowlistedUserSetDecoded (event_address m "user") (event_bool m "allowed")).
Definition DecodeCCIPBridged (c : Codec) (log : option Log) : res CCIPBridgedDecoded :=
  m ← decode_event (codec_abi c) "CCIPBridged" log;
  Ok (mkCCIPBridgedDecoded
        (event_bytes32 m "ccipMessageId") (event_uint m "destinationChainSelector")
        (event_uint m "ccipTxType")).
Definition DecodeCCIPReceived (c : Codec) (log : option Log) : res CCIPReceivedDecoded :=
  m ← decode_event (codec_abi c) "CCIPReceived" log;
  Ok (mkCCIPReceivedDecoded
        (event_bytes32 m "ccipMessageId") (event_uint m "sourceChainSelector")
        (event_uint m "ccipTxType")).
Definition DecodeCcipGasLimitSet (c : Codec) (log : option Log) : res CcipGasLimitSetDecoded :=
  m ← decode_event (codec_abi c) "CcipGasLimitSet" log;
  Ok (mkCcipGasLimitSetDecoded (event_uint m "chainSelector") (event_big m "gasLimit")).
Definition DecodeCrosschainVaultSet (c : Codec) (log : option Log) : res CrosschainVaultSetDecoded :=
  m ← decode_event (codec_abi c) "CrosschainVaultSet" log;
  Ok (mkCrosschainVaultSetDecoded (event_uint m "chainSelector") (event_address m "vault")).
Definition DecodeDefaultAdminDelayChangeCanceled (c : Codec) (log : option Log) : res DefaultAdminDelayChangeCanceledDecoded :=
  _ ← decode_event (codec_abi c) "DefaultAdminDelayChangeCanceled" log; Ok mkDefaultAdminDelayChangeCanceledDecoded.
Definition DecodeDefaultAdminDelayChangeScheduled (c : Codec) (log : option Log) : res DefaultAdminDelayChangeScheduledDecoded :=
  m ← decode_event (codec_abi c) "DefaultAdminDelayChangeScheduled" log;
  Ok (mkDefaultAdminDelayChangeScheduledDecoded
        (event_big m "newDelay") (event_big m "effectSchedule")).
Definition DecodeDefaultAdminTransferCanceled (c : Codec) (log : option Log) : res DefaultAdminTransferCanceledDecoded :=
  _ ← decode_event (codec_abi c) "DefaultAdminTransferCanceled" log; Ok mkDefaultAdminTransferCanceledDecoded.
Definition DecodeDefaultAdminTransferScheduled (c : Codec) (log : option Log) : res DefaultAdminTransferScheduledDecoded :=
  m ← decode_event (codec_abi c) "DefaultAdminTransferScheduled" log;
  Ok (mkDefaultAdminTransferScheduledDecoded
        (event_address m "newAdmin") (event_big m "acceptSchedule")).
Definition DecodeDefaultCcipGasLimitSet (c : Codec) (log : option Log) : res DefaultCcipGasLimitSetDecoded :=
  m ← decode_event (codec_abi c) "DefaultCcipGasLimitSet" log;
  Ok (mkDefaultCcipGasLimitSetDecoded (event_big m "gasLimit")).
Definition DecodeDepositCancelled (c : Codec) (log : option Log) : res DepositCancelledDecoded :=
  m ← decode_event (codec_abi c) "DepositCancelled" log;
  Ok (mkDepositCancelledDecoded
        (event_big m "epochNonce") (event_address m "depositor") (event_big m "amount")).
Definition DecodeDepositClaimed (c : Codec) (log : option Log) : res DepositClaimedDecoded :=
  m ← decode_event (codec_abi c) "DepositClaimed" log;
  Ok (mkDepositClaimedDecoded
        (event_big m "epochNonce") (event_address m "depositor") (event_big m "shareMintAmount")).
Definition DecodeDepositForceCancelled (c : Codec) (log : option Log) : res DepositForceCancelledDecoded :=
  m ← decode_event (codec_abi c) "DepositForceCancelled" log;
  Ok (mkDepositForceCancelledDecoded
        (event_big m "epochNonce") (event_address m "depositor") (event_big m "amount")).
Definition DecodeDepositSubmitted (c : Codec) (log : option Log) : res DepositSubmittedDecoded :=
  m ← decode_event (codec_abi c) "DepositSubmitted" log;
  Ok (mkDepositSubmittedDecoded
        (event_big m "epochNonce") (event_address m "depositor") (event_big m "amount")).
Definition DecodeEpochClaimable (c : Codec) (log : option Log) : res EpochClaimableDecoded :=
  m ← decode_event (codec_abi c) "EpochClaimable" log;
  Ok (mkEpochClaimableDecoded (event_big m "epochNonce")).
Definition DecodeEpochDepositExecuting (c : Codec) (log : option Log) : res EpochDepositExecutingDecoded :=
  m ← decode_event (codec_abi c) "EpochDepositExecuting" log;
  Ok (mkEpochDepositExecutingDecoded (event_big m "epochNonce") (event_big m "amount")).
Definition DecodeEpochDepositReconciled (c : Codec) (log : option Log) : res EpochDepositReconciledDecoded :=
  m ← decode_event (codec_abi c) "EpochDepositReconciled" log;
  Ok (mkEpochDepositReconciledDecoded
        (event_big m "epochNonce") (event_big m "actualDepositAmount")
        (event_big m "shareReduction")).
Definition DecodeEpochDepositToStrategySuccess (c : Codec) (log : option Log) : res EpochDepositToStrategySuccessDecoded :=
  m ← decode_event (codec_abi c) "EpochDepositToStrategySuccess" log;
  Ok (mkEpochDepositToStrategySuccessDecoded (event_big m "epochNonce") (event_big m "amount")).
Definition DecodeEpochOpen (c : Codec) (log : option Log) : res EpochOpenDecoded :=
  m ← decode_event (codec_abi c) "EpochOpen" log;
  Ok (mkEpochOpenDecoded (event_big m "epochNonce")).
Definition DecodeEpochWithdrawAmountShort (c : Codec) (log : option Log) : res EpochWithdrawAmountShortDecoded :=
  m ← decode_event (codec_abi c) "EpochWithdrawAmountShort" log;
  Ok (mkEpochWithdrawAmountShortDecoded
        (event_big m "epochNonce") (event_big m "expectedAmount") (event_big m "actualAmount")).
Definition DecodeEpochWithdrawFromStrategySuccess (c : Codec) (log : option Log) : res EpochWithdrawFromStrategySuccessDecoded :=
  m ← decode_event (codec_abi c) "EpochWithdrawFromStrategySuccess" log;
  Ok (mkEpochWithdrawFromStrategySuccessDecoded (event_big m "epochNonce") (event_big m "amount")).
Definition DecodeInitialActiveProtocolAdapterSet (c : Codec) (log : option Log) : res InitialActiveProtocolAdapterSetDecoded :=
  m ← decode_event (codec_abi c) "InitialActiveProtocolAdapterSet" log;
  Ok (mkInitialActiveProtocolAdapterSetDecoded
        (event_bytes32 m "protocolId") (event_address m "adapter")).
Definition DecodeInitialized (c : Codec) (log : option Log) : res InitializedDecoded :=
  m ← decode_event (codec_abi c) "Initialized" log;
  Ok (mkInitializedDecoded (event_uint m "version")).
Definition DecodeLinkWithdrawn (c : Codec) (log : option Log) : res LinkWithdrawnDecoded :=
  m ← decode_event (codec_abi c) "LinkWithdrawn" log;
  Ok (mkLinkWithdrawnDecoded (event_address m "operator") (event_big m "amount")).
Definition DecodeManagementFeeCollected (c : Codec) (log : option Log) : res ManagementFeeCollectedDecoded :=
  m ← decode_event (codec_abi c) "ManagementFeeCollected" log;
  Ok (mkManagementFeeCollectedDecoded (event_big m "rebalanceNonce") (event_big m "feeShares")).
Definition DecodePaused (c : Codec) (log : option Log) : res PausedDecoded :=
  m ← decode_event (codec_abi c) "Paused" log;
  Ok (mkPausedDecoded (event_address m "account")).
Definition DecodeRebalanceCompleted (c : Codec) (log : option Log) : res RebalanceCompletedDecoded :=
  m ← decode_event (codec_abi c) "RebalanceCompleted" log;
  Ok (mkRebalanceCompletedDecoded
        (event_big m "rebalanceNonce") (event_bytes32 m "newProtocolId")
        (event_uint m "newChainSelector")).
Definition DecodeRebalanceDepositFailure (c : Codec) (log : option Log) : res RebalanceDepositFailureDecoded :=
  m ← decode_event (codec_abi c) "RebalanceDepositFailure" log;
  Ok (mkRebalanceDepositFailureDecoded (event_big m "rebalanceNonce") (event_big m "amount")).
Definition DecodeRebalanceDepositRecoveryCleared (c : Codec) (log : option Log) : res RebalanceDepositRecoveryClearedDecoded :=
  m ← decode_event (codec_abi c) "RebalanceDepositRecoveryCleared" log;
  Ok (mkRebalanceDepositRecoveryClearedDecoded (event_big m "rebalanceNonce")).
Definition DecodeRebalanceDepositRecoveryStored (c : Codec) (log : option Log) : res RebalanceDepositRecoveryStoredDecoded :=
  m ← decode_event (codec_abi c) "RebalanceDepositRecoveryStored" log;
  Ok (mkRebalanceDepositRecoveryStoredDecoded
        (event_big m "rebalanceNonce") (event_big m "amount")).
Definition DecodeRebalanceWithdrawSuccess (c : Codec) (log : option Log) : res RebalanceWithdrawSuccessDecoded :=
  m ← decode_event (codec_abi c) "RebalanceWithdrawSuccess" log;
  Ok (mkRebalanceWithdrawSuccessDecoded (event_big m "rebalanceNonce") (event_big m "amount")).
Definition DecodeRoleAdminChanged (c : Codec) (log : option Log) : res RoleAdminChangedDecoded :=
  m ← decode_event (codec_abi c) "RoleAdminChanged" log;
  Ok (mkRoleAdminChangedDecoded
        (event_bytes32 m "role") (event_bytes32 m "previousAdminRole")
        (event_bytes32 m "newAdminRole")).
Definition DecodeRoleGranted (c : Codec) (log : option Log) : res RoleGrantedDecoded :=
  m ← decode_event (codec_abi c) "RoleGranted" log;
  Ok (mkRoleGrantedDecoded
        (event_bytes32 m "role") (event_address m "account") (event_address m "sender")).
Definition DecodeRoleRevoked (c : Codec) (log : option Log) : res RoleRevokedDecoded :=
  m ← decode_event (codec_abi c) "RoleRevoked" log;
  Ok (mkRoleRevokedDecoded
        (event_bytes32 m "role") (event_address m "account") (event_address m "sender")).
Definition DecodeSupportedProtocolSet (c : Codec) (log : option Log) : res SupportedProtocolSetDecoded :=
  m ← decode_event (codec_abi c) "SupportedProtocolSet" log;
  Ok (mkSupportedProtocolSetDecoded (event_bytes32 m "protocolId") (event_bool m "isSupported")).
Definition DecodeTreasurySet (c : Codec) (log : option Log) : res TreasurySetDecoded :=
  m ← decode_event (codec_abi c) "TreasurySet" log;
  Ok (mkTreasurySetDecoded (event_address m "treasury")).
Definition DecodeUnpaused (c : Codec) (log : option Log) : res UnpausedDecoded :=
  m ← decode_event (codec_abi c) "Unpaused" log;
  Ok (mkUnpausedDecoded (event_address m "account")).
Definition DecodeUpgraded (c : Codec) (log : option Log) : res UpgradedDecoded :=
  m ← decode_event (codec_abi c) "Upgraded" log;
  Ok (mkUpgradedDecoded (event_address m "implementation")).
Definition DecodeWithdrawCancelled (c : Codec) (log : option Log) : res WithdrawCancelledDecoded :=
  m ← decode_event (codec_abi c) "WithdrawCancelled" log;
  Ok (mkWithdrawCancelledDecoded
        (event_big m "epochNonce") (event_address m "withdrawer") (event_big m "shareBurnAmount")).
Definition DecodeWithdrawClaimed (c : Codec) (log : option Log) : res WithdrawClaimedDecoded :=
  m ← decode_event (codec_abi c) "WithdrawClaimed" log;
  Ok (mkWithdrawClaimedDecoded
        (event_big m "epochNonce") (event_address m "withdrawer") (event_big m "amount")).
Definition DecodeWithdrawSubmitted (c : Codec) (log : option Log) : res WithdrawSubmittedDecoded :=
  m ← decode_event (codec_abi c) "WithdrawSubmitted" log;
  Ok (mkWithdrawSubmittedDecoded
        (event_big m "epochNonce") (event_address m "withdrawer") (event_big m "shareBurnAmount")).

(** ** Triggers *)
Record ActiveProtocolAdapterClearedTrigger := mkActiveProtocolAdapterClearedTrigger {
  ActiveProtocolAdapterCleared_Trigger : LogTrigger; ActiveProtocolAdapterCleared_contract : ParentVault }.
Definition AdaptActiveProtocolAdapterCleared (t : ActiveProtocolAdapterClearedTrigger) (l : option Log)
    : res (DecodedLog ActiveProtocolAdapterClearedDecoded) :=
  adapt "ActiveProtocolAdapterCleared" (DecodeActiveProtocolAdapterCleared (vault_Codec (ActiveProtocolAdapterCleared_contract t))) l.
Definition LogTriggerActiveProtocolAdapterClearedLog (c : ParentVault) (chainSelector confidence : Z)
    (filters : list ActiveProtocolAdapterClearedTopics) : res ActiveProtocolAdapterClearedTrigger :=
  let event := abi_Events (vault_ABI c) "ActiveProtocolAdapterCleared" in
  rawTrigger ← log_trigger "ActiveProtocolAdapterCleared" (vault_Address c) chainSelector confidence
                 (EncodeActiveProtocolAdapterClearedTopics event filters);
  Ok (mkActiveProtocolAdapterClearedTrigger rawTrigger c).
Definition FilterLogsActiveProtocolAdapterCleared (c : ParentVault) (options : option FilterOptions)
    : res (Z * FilterQuery) :=
  filter_logs (vault_client c) (vault_Address c) (ActiveProtocolAdapterClearedLogHash (vault_Codec c)) options.
Record ActiveProtocolAdapterSetTrigger := mkActiveProtocolAdapterSetTrigger {
  ActiveProtocolAdapterSet_Trigger : LogTrigger; ActiveProtocolAdapterSet_contract : ParentVault }.
Definition AdaptActiveProtocolAdapterSet (t : ActiveProtocolAdapterSetTrigger) (l : option Log)
    : res (DecodedLog ActiveProtocolAdapterSetDecoded) :=
  adapt "ActiveProtocolAdapterSet" (DecodeActiveProtocolAdapterSet (vault_Codec (ActiveProtocolAdapterSet_contract t))) l.
Definition LogTriggerActiveProtocolAdapterSetLog (c : ParentVault) (chainSelector confidence : Z)
    (filters : list ActiveProtocolAdapterSetTopics) : res ActiveProtocolAdapterSetTrigger :=
  let event := abi_Events (vault_ABI c) "ActiveProtocolAdapterSet" in
  rawTrigger ← log_trigger "ActiveProtocolAdapterSet" (vault_Address c) chainSelector confidence
                 (EncodeActiveProtocolAdapterSetTopics event filters);
  Ok (mkActiveProtocolAdapterSetTrigger rawTrigger c).
Definition FilterLogsActiveProtocolAdapterSet (c : ParentVault) (options : option FilterOptions)
    : res (Z * FilterQuery) :=
  filter_logs (vault_client c) (vault_Address c) (ActiveProtocolAdapterSetLogHash (vault_Codec c)) options.
Record AllowlistEnabledSetTrigger := mkAllowlistEnabledSetTrigger {
  AllowlistEnabledSet_Trigger : LogTrigger; AllowlistEnabledSet_contract : ParentVault }.
Definition AdaptAllowlistEnabledSet (t : AllowlistEnabledSetTrigger) (l : option Log)
    : res (DecodedLog AllowlistEnabledSetDecoded) :=
  adapt "AllowlistEnabledSet" (DecodeAllowlistEnabledSet (vault_Codec (AllowlistEnabledSet_contract t))) l.
Definition LogTriggerAllowlistEnabledSetLog (c : ParentVault) (chainSelector confidence : Z)
    (filters : list AllowlistEnabledSetTopics) : res AllowlistEnabledSetTrigger :=
  let event := abi_Events (vault_ABI c) "AllowlistEnabledSet" in
  rawTrigger ← log_trigger "AllowlistEnabledSet" (vault_Address c) chainSelector confidence
                 (EncodeAllowlistEnabledSetTopics event filters);
  Ok (mkAllowlistEnabledSetTrigger rawTrigger c).
Definition FilterLogsAllowlistEnabledSet (c : ParentVault) (options : option FilterOptions)
    : res (Z * FilterQuery) :=
  filter_logs (vault_client c) (vault_Address c) (AllowlistEnabledSetLogHash (vault_Codec c)) options.
Record AllowlistedUserSetTrigger := mkAllowlistedUserSetTrigger {
  AllowlistedUserSet_Trigger : LogTrigger; AllowlistedUserSet_contract : ParentVault }.
Definition AdaptAllowlistedUserSet (t : AllowlistedUserSetTrigger) (l : option Log)
    : res (DecodedLog AllowlistedUserSetDecoded) :=
  adapt "AllowlistedUserSet" (DecodeAllowlistedUserSet (vault_Codec (AllowlistedUserSet_contract t))) l.
Definition LogTriggerAllowlistedUserSetLog (c : ParentVault) (chainSelector confidence : Z)
    (filters : list AllowlistedUserSetTopics) : res AllowlistedUserSetTrigger :=
  let event := abi_Events (vault_ABI c) "AllowlistedUserSet" in
  rawTrigger ← log_trigger "AllowlistedUserSet" (vault_Address c) chainSelector confidence
                 (EncodeAllowlistedUserSetTopics event filters);
  Ok (mkAllowlistedUserSetTrigger rawTrigger c).
Definition FilterLogsAllowlistedUserSet (c : ParentVault) (options : option FilterOptions)
    : res (Z * FilterQuery) :=
  filter_logs (vault_client c) (vault_Address c) (AllowlistedUserSetLogHash (vault_Codec c)) options.
Record CCIPBridgedTrigger := mkCCIPBridgedTrigger {
  CCIPBridged_Trigger : LogTrigger; CCIPBridged_contract : ParentVault }.
Definition AdaptCCIPBridged (t : CCIPBridgedTrigger) (l : option Log)
    : res (DecodedLog CCIPBridgedDecoded) :=
  adapt "CCIPBridged" (DecodeCCIPBridged (vault_Codec (CCIPBridged_contract t))) l.
Definition LogTriggerCCIPBridgedLog (c : ParentVault) (chainSelector confidence : Z)
    (filters : list CCIPBridgedTopics) : res CCIPBridgedTrigger :=
  let event := abi_Events (vault_ABI c) "CCIPBridged" in
  rawTrigger ← log_trigger "CCIPBridged" (vault_Address c) chainSelector confidence
                 (EncodeCCIPBridgedTopics event filters);
  Ok (mkCCIPBridgedTrigger rawTrigger c).
Definition FilterLogsCCIPBridged (c : ParentVault) (options : option FilterOptions)
    : res (Z * FilterQuery) :=
  filter_logs (vault_client c) (vault_Address c) (CCIPBridgedLogHash (vault_Codec c)) options.
Record CCIPReceivedTrigger := mkCCIPReceivedTrigger {
  CCIPReceived_Trigger : LogTrigger; CCIPReceived_contract : ParentVault }.
Definition AdaptCCIPReceived (t : CCIPReceivedTrigger) (l : option Log)
    : res (DecodedLog CCIPReceivedDecoded) :=
  adapt "CCIPReceived" (DecodeCCIPReceived (vault_Codec (CCIPReceived_contract t))) l.
Definition LogTriggerCCIPReceivedLog (c : ParentVault) (chainSelector confidence : Z)
    (filters : list CCIPReceivedTopics) : res CCIPReceivedTrigger :=
  let event := abi_Events (vault_ABI c) "CCIPReceived" in
  rawTrigger ← log_trigger "CCIPReceived" (vault_Address c) chainSelector confidence
                 (EncodeCCIPReceivedTopics event filters);
  Ok (mkCCIPReceivedTrigger rawTrigger c).
Definition FilterLogsCCIPReceived (c : ParentVault) (options : option FilterOptions)
    : res (Z * FilterQuery) :=
  filter_logs (vault_client c) (vault_Address c) (CCIPReceivedLogHash (vault_Codec c)) options.
Record CcipGasLimitSetTrigger := mkCcipGasLimitSetTrigger {
  CcipGasLimitSet_Trigger : LogTrigger; CcipGasLimitSet_contract : ParentVault }.
Definition AdaptCcipGasLimitSet (t : CcipGasLimitSetTrigger) (l : option Log)
    : res (DecodedLog CcipGasLimitSetDecoded) :=
  adapt "CcipGasLimitSet" (DecodeCcipGasLimitSet (vault_Codec (CcipGasLimitSet_contract t))) l.
Definition LogTriggerCcipGasLimitSetLog (c : ParentVault) (chainSelector confidence : Z)
    (filters : list CcipGasLimitSetTopics) : res CcipGasLimitSetTrigger :=
  let event := abi_Events (vault_ABI c) "CcipGasLimitSet" in
  rawTrigger ← log_trigger "CcipGasLimitSet" (vault_Address c) chainSelector confidence
                 (EncodeCcipGasLimitSetTopics event filters);
  Ok (mkCcipGasLimitSetTrigger rawTrigger c).
Definition FilterLogsCcipGasLimitSet (c : ParentVault) (options : option FilterOptions)
    : res (Z * FilterQuery) :=
  filter_logs (vault_client c) (vault_Address c) (CcipGasLimitSetLogHash (vault_Codec c)) options.
Record CrosschainVaultSetTrigger := mkCrosschainVaultSetTrigger {
  CrosschainVaultSet_Trigger : LogTrigger; CrosschainVaultSet_contract : ParentVault }.
Definition AdaptCrosschainVaultSet (t : CrosschainVaultSetTrigger) (l : option Log)
    : res (DecodedLog CrosschainVaultSetDecoded) :=
  adapt "CrosschainVaultSet" (DecodeCrosschainVaultSet (vault_Codec (CrosschainVaultSet_contract t))) l.
Definition LogTriggerCrosschainVaultSetLog (c : ParentVault) (chainSelector confidence : Z)
    (filters : list CrosschainVaultSetTopics) : res CrosschainVaultSetTrigger :=
  let event := abi_Events (vault_ABI c) "CrosschainVaultSet" in
  rawTrigger ← log_trigger "CrosschainVaultSet" (vault_Address c) chainSelector confidence
                 (EncodeCrosschainVaultSetTopics event filters);
  Ok (mkCrosschainVaultSetTrigger rawTrigger c).
Definition FilterLogsCrosschainVaultSet (c : ParentVault) (options : option FilterOptions)
    : res (Z * FilterQuery) :=
  filter_logs (vault_client c) (vault_Address c) (CrosschainVaultSetLogHash (vault_Codec c)) options.
Record DefaultAdminDelayChangeCanceledTrigger := mkDefaultAdminDelayChangeCanceledTrigger {
  DefaultAdminDelayChangeCanceled_Trigger : LogTrigger; DefaultAdminDelayChangeCanceled_contract : ParentVault }.
Definition AdaptDefaultAdminDelayChangeCanceled (t : DefaultAdminDelayChangeCanceledTrigger) (l : option Log)
    : res (DecodedLog DefaultAdminDelayChangeCanceledDecoded) :=
  adapt "DefaultAdminDelayChangeCanceled" (DecodeDefaultAdminDelayChangeCanceled (vault_Codec (DefaultAdminDelayChangeCanceled_contract t))) l.
Definition LogTriggerDefaultAdminDelayChangeCanceledLog (c : ParentVault) (chainSelector confidence : Z)
    (filters : list DefaultAdminDelayChangeCanceledTopics) : res DefaultAdminDelayChangeCanceledTrigger :=
  let event := abi_Events (vault_ABI c) "DefaultAdminDelayChangeCanceled" in
  rawTrigger ← log_trigger "DefaultAdminDelayChangeCanceled" (vault_Address c) chainSelector confidence
                 (EncodeDefaultAdminDelayChangeCanceledTopics event filters);
  Ok (mkDefaultAdminDelayChangeCanceledTrigger rawTrigger c).
Definition FilterLogsDefaultAdminDelayChangeCanceled (c : ParentVault) (options : option FilterOptions)
    : res (Z * FilterQuery) :=
  filter_logs (vault_client c) (vault_Address c) (DefaultAdminDelayChangeCanceledLogHash (vault_Codec c)) options.
Record DefaultAdminDelayChangeScheduledTrigger := mkDefaultAdminDelayChangeScheduledTrigger {
  DefaultAdminDelayChangeScheduled_Trigger : LogTrigger; DefaultAdminDelayChangeScheduled_contract : ParentVault }.
Definition AdaptDefaultAdminDelayChangeScheduled (t : DefaultAdminDelayChangeScheduledTrigger) (l : option Log)
    : res (DecodedLog DefaultAdminDelayChangeScheduledDecoded) :=
  adapt "DefaultAdminDelayChangeScheduled" (DecodeDefaultAdminDelayChangeScheduled (vault_Codec (DefaultAdminDelayChangeScheduled_contract t))) l.
Definition LogTriggerDefaultAdminDelayChangeScheduledLog (c : ParentVault) (chainSelector confidence : Z)
    (filters : list DefaultAdminDelayChangeScheduledTopics) : res DefaultAdminDelayChangeScheduledTrigger :=
  let event := abi_Events (vault_ABI c) "DefaultAdminDelayChangeScheduled" in
  rawTrigger ← log_trigger "DefaultAdminDelayChangeScheduled" (vault_Address c) chainSelector confidence
                 (EncodeDefaultAdminDelayChangeScheduledTopics event filters);
  Ok (mkDefaultAdminDelayChangeScheduledTrigger rawTrigger c).
Definition FilterLogsDefaultAdminDelayChangeScheduled (c : ParentVault) (options : option FilterOptions)
    : res (Z * FilterQuery) :=
  filter_logs (vault_client c) (vault_Address c) (DefaultAdminDelayChangeScheduledLogHash (vault_Codec c)) options.
Record DefaultAdminTransferCanceledTrigger := mkDefaultAdminTransferCanceledTrigger {
  DefaultAdminTransferCanceled_Trigger : LogTrigger; DefaultAdminTransferCanceled_contract : ParentVault }.
Definition AdaptDefaultAdminTransferCanceled (t : DefaultAdminTransferCanceledTrigger) (l : option Log)
    : res (DecodedLog DefaultAdminTransferCanceledDecoded) :=
  adapt "DefaultAdminTransferCanceled" (DecodeDefaultAdminTransferCanceled (vault_Codec (DefaultAdminTransferCanceled_contract t))) l.
Definition LogTriggerDefaultAdminTransferCanceledLog (c : ParentVault) (chainSelector confidence : Z)
    (filters : list DefaultAdminTransferCanceledTopics) : res DefaultAdminTransferCanceledTrigger :=
  let event := abi_Events (vault_ABI c) "DefaultAdminTransferCanceled" in
  rawTrigger ← log_trigger "DefaultAdminTransferCanceled" (vault_Address c) chainSelector confidence
                 (EncodeDefaultAdminTransferCanceledTopics event filters);
  Ok (mkDefaultAdminTransferCanceledTrigger rawTrigger c).
Definition FilterLogsDefaultAdminTransferCanceled (c : ParentVault) (options : option FilterOptions)
    : res (Z * FilterQuery) :=
  filter_logs (vault_client c) (vault_Address c) (DefaultAdminTransferCanceledLogHash (vault_Codec c)) options.
Record DefaultAdminTransferScheduledTrigger := mkDefaultAdminTransferScheduledTrigger {
  DefaultAdminTransferScheduled_Trigger : LogTrigger; DefaultAdminTransferScheduled_contract : ParentVault }.
Definition AdaptDefaultAdminTransferScheduled (t : DefaultAdminTransferScheduledTrigger) (l : option Log)
    : res (DecodedLog DefaultAdminTransferScheduledDecoded) :=
  adapt "DefaultAdminTransferScheduled" (DecodeDefaultAdminTransferScheduled (vault_Codec (DefaultAdminTransferScheduled_contract t))) l.
Definition LogTriggerDefaultAdminTransferScheduledLog (c : ParentVault) (chainSelector confidence : Z)
    (filters : list DefaultAdminTransferScheduledTopics) : res DefaultAdminTransferScheduledTrigger :=
  let event := abi_Events (vault_ABI c) "DefaultAdminTransferScheduled" in
  rawTrigger ← log_trigger "DefaultAdminTransferScheduled" (vault_Address c) chainSelector confidence
                 (EncodeDefaultAdminTransferScheduledTopics event filters);
  Ok (mkDefaultAdminTransferScheduledTrigger rawTrigger c).
Definition FilterLogsDefaultAdminTransferScheduled (c : ParentVault) (options : option FilterOptions)
    : res (Z * FilterQuery) :=
  filter_logs (vault_client c) (vault_Address c) (DefaultAdminTransferScheduledLogHash (vault_Codec c)) options.
Record DefaultCcipGasLimitSetTrigger := mkDefaultCcipGasLimitSetTrigger {
  DefaultCcipGasLimitSet_Trigger : LogTrigger; DefaultCcipGasLimitSet_contract : ParentVault }.
Definition AdaptDefaultCcipGasLimitSet (t : DefaultCcipGasLimitSetTrigger) (l : option Log)
    : res (DecodedLog DefaultCcipGasLimitSetDecoded) :=
  adapt "DefaultCcipGasLimitSet" (DecodeDefaultCcipGasLimitSet (vault_Codec (DefaultCcipGasLimitSet_contract t))) l.
Definition LogTriggerDefaultCcipGasLimitSetLog (c : ParentVault) (chainSelector confidence : Z)
    (filters : list DefaultCcipGasLimitSetTopics) : res DefaultCcipGasLimitSetTrigger :=
  let event := abi_Events (vault_ABI c) "DefaultCcipGasLimitSet" in
  rawTrigger ← log_trigger "DefaultCcipGasLimitSet" (vault_Address c) chainSelector confidence
                 (EncodeDefaultCcipGasLimitSetTopics event filters);
  Ok (mkDefaultCcipGasLimitSetTrigger rawTrigger c).
Definition FilterLogsDefaultCcipGasLimitSet (c : ParentVault) (options : option FilterOptions)
    : res (Z * FilterQuery) :=
  filter_logs (vault_client c) (vault_Address c) (DefaultCcipGasLimitSetLogHash (vault_Codec c)) options.
Record DepositCancelledTrigger := mkDepositCancelledTrigger {
  DepositCancelled_Trigger : LogTrigger; DepositCancelled_contract : ParentVault }.
Definition AdaptDepositCancelled (t : DepositCancelledTrigger) (l : option Log)
    : res (DecodedLog DepositCancelledDecoded) :=
  adapt "DepositCancelled" (DecodeDepositCancelled (vault_Codec (DepositCancelled_contract t))) l.
Definition LogTriggerDepositCancelledLog (c : ParentVault) (chainSelector confidence : Z)
    (filters : list DepositCancelledTopics) : res DepositCancelledTrigger :=
  let event := abi_Events (vault_ABI c) "DepositCancelled" in
  rawTrigger ← log_trigger "DepositCancelled" (vault_Address c) chainSelector confidence
                 (EncodeDepositCancelledTopics event filters);
  Ok (mkDepositCancelledTrigger rawTrigger c).
Definition FilterLogsDepositCancelled (c : ParentVault) (options : option FilterOptions)
    : res (Z * FilterQuery) :=
  filter_logs (vault_client c) (vault_Address c) (DepositCancelledLogHash (vault_Codec c)) options.
Record DepositClaimedTrigger := mkDepositClaimedTrigger {
  DepositClaimed_Trigger : LogTrigger; DepositClaimed_contract : ParentVault }.
Definition AdaptDepositClaimed (t : DepositClaimedTrigger) (l : option Log)
    : res (DecodedLog DepositClaimedDecoded) :=
  adapt "DepositClaimed" (DecodeDepositClaimed (vault_Codec (DepositClaimed_contract t))) l.
Definition LogTriggerDepositClaimedLog (c : ParentVault) (chainSelector confidence : Z)
    (filters : list DepositClaimedTopics) : res DepositClaimedTrigger :=
  let event := abi_Events (vault_ABI c) "DepositClaimed" in
  rawTrigger ← log_trigger "DepositClaimed" (vault_Address c) chainSelector confidence
                 (EncodeDepositClaimedTopics event filters);
  Ok (mkDepositClaimedTrigger rawTrigger c).
Definition FilterLogsDepositClaimed (c : ParentVault) (options : option FilterOptions)
    : res (Z * FilterQuery) :=
  filter_logs (vault_client c) (vault_Address c) (DepositClaimedLogHash (vault_Codec c)) options.
Record DepositForceCancelledTrigger := mkDepositForceCancelledTrigger {
  DepositForceCancelled_Trigger : LogTrigger; DepositForceCancelled_contract : ParentVault }.
Definition AdaptDepositForceCancelled (t : DepositForceCancelledTrigger) (l : option Log)
    : res (DecodedLog DepositForceCancelledDecoded) :=
  adapt "DepositForceCancelled" (DecodeDepositForceCancelled (vault_Codec (DepositForceCancelled_contract t))) l.
Definition LogTriggerDepositForceCancelledLog (c : ParentVault) (chainSelector confidence : Z)
    (filters : list DepositForceCancelledTopics) : res DepositForceCancelledTrigger :=
  let event := abi_Events (vault_ABI c) "DepositForceCancelled" in
  rawTrigger ← log_trigger "DepositForceCancelled" (vault_Address c) chainSelector confidence
                 (EncodeDepositForceCancelledTopics event filters);
  Ok (mkDepositForceCancelledTrigger rawTrigger c).
Definition FilterLogsDepositForceCancelled (c : ParentVault) (options : option FilterOptions)
    : res (Z * FilterQuery) :=
  filter_logs (vault_client c) (vault_Address c) (DepositForceCancelledLogHash (vault_Codec c)) options.
Record DepositSubmittedTrigger := mkDepositSubmittedTrigger {
  DepositSubmitted_Trigger : LogTrigger; DepositSubmitted_contract : ParentVault }.
Definition AdaptDepositSubmitted (t : DepositSubmittedTrigger) (l : option Log)
    : res (DecodedLog DepositSubmittedDecoded) :=
  adapt "DepositSubmitted" (DecodeDepositSubmitted (vault_Codec (DepositSubmitted_contract t))) l.
Definition LogTriggerDepositSubmittedLog (c : ParentVault) (chainSelector confidence : Z)
    (filters : list DepositSubmittedTopics) : res DepositSubmittedTrigger :=
  let event := abi_Events (vault_ABI c) "DepositSubmitted" in
  rawTrigger ← log_trigger "DepositSubmitted" (vault_Address c) chainSelector confidence
                 (EncodeDepositSubmittedTopics event filters);
  Ok (mkDepositSubmittedTrigger rawTrigger c).
Definition FilterLogsDepositSubmitted (c : ParentVault) (options : option FilterOptions)
    : res (Z * FilterQuery) :=
  filter_logs (vault_client c) (vault_Address c) (DepositSubmittedLogHash (vault_Codec c)) options.
Record EpochClaimableTrigger := mkEpochClaimableTrigger {
  EpochClaimable_Trigger : LogTrigger; EpochClaimable_contract : ParentVault }.
Definition AdaptEpochClaimable (t : EpochClaimableTrigger) (l : option Log)
    : res (DecodedLog EpochClaimableDecoded) :=
  adapt "EpochClaimable" (DecodeEpochClaimable (vault_Codec (EpochClaimable_contract t))) l.
Definition LogTriggerEpochClaimableLog (c : ParentVault) (chainSelector confidence : Z)
    (filters : list EpochClaimableTopics) : res EpochClaimableTrigger :=
  let event := abi_Events (vault_ABI c) "EpochClaimable" in
  rawTrigger ← log_trigger "EpochClaimable" (vault_Address c) chainSelector confidence
                 (EncodeEpochClaimableTopics event filters);
  Ok (mkEpochClaimableTrigger rawTrigger c).
Definition FilterLogsEpochClaimable (c : ParentVault) (options : option FilterOptions)
    : res (Z * FilterQuery) :=
  filter_logs (vault_client c) (vault_Address c) (EpochClaimableLogHash (vault_Codec c)) options.
Record EpochDepositExecutingTrigger := mkEpochDepositExecutingTrigger {
  EpochDepositExecuting_Trigger : LogTrigger; EpochDepositExecuting_contract : ParentVault }.
Definition AdaptEpochDepositExecuting (t : EpochDepositExecutingTrigger) (l : option Log)
    : res (DecodedLog EpochDepositExecutingDecoded) :=
  adapt "EpochDepositExecuting" (DecodeEpochDepositExecuting (vault_Codec (EpochDepositExecuting_contract t))) l.
Definition LogTriggerEpochDepositExecutingLog (c : ParentVault) (chainSelector confidence : Z)
    (filters : list EpochDepositExecutingTopics) : res EpochDepositExecutingTrigger :=
  let event := abi_Events (vault_ABI c) "EpochDepositExecuting" in
  rawTrigger ← log_trigger "EpochDepositExecuting" (vault_Address c) chainSelector confidence
                 (EncodeEpochDepositExecutingTopics event filters);
  Ok (mkEpochDepositExecutingTrigger rawTrigger c).
Definition FilterLogsEpochDepositExecuting (c : ParentVault) (options : option FilterOptions)
    : res (Z * FilterQuery) :=
  filter_logs (vault_client c) (vault_Address c) (EpochDepositExecutingLogHash (vault_Codec c)) options.
Record EpochDepositReconciledTrigger := mkEpochDepositReconciledTrigger {
  EpochDepositReconciled_Trigger : LogTrigger; EpochDepositReconciled_contract : ParentVault }.
Definition AdaptEpochDepositReconciled (t : EpochDepositReconciledTrigger) (l : option Log)
    : res (DecodedLog EpochDepositReconciledDecoded) :=
  adapt "EpochDepositReconciled" (DecodeEpochDepositReconciled (vault_Codec (EpochDepositReconciled_contract t))) l.
Definition LogTriggerEpochDepositReconciledLog (c : ParentVault) (chainSelector confidence : Z)
    (filters : list EpochDepositReconciledTopics) : res EpochDepositReconciledTrigger :=
  let event := abi_Events (vault_ABI c) "EpochDepositReconciled" in
  rawTrigger ← log_trigger "EpochDepositReconciled" (vault_Address c) chainSelector confidence
                 (EncodeEpochDepositReconciledTopics event filters);
  Ok (mkEpochDepositReconciledTrigger rawTrigger c).
Definition FilterLogsEpochDepositReconciled (c : ParentVault) (options : option FilterOptions)
    : res (Z * FilterQuery) :=
  filter_logs (vault_client c) (vault_Address c) (EpochDepositReconciledLogHash (vault_Codec c)) options.
Record EpochDepositToStrategySuccessTrigger := mkEpochDepositToStrategySuccessTrigger {
  EpochDepositToStrategySuccess_Trigger : LogTrigger; EpochDepositToStrategySuccess_contract : ParentVault }.
Definition AdaptEpochDepositToStrategySuccess (t : EpochDepositToStrategySuccessTrigger) (l : option Log)
    : res (DecodedLog EpochDepositToStrategySuccessDecoded) :=
  adapt "EpochDepositToStrategySuccess" (DecodeEpochDepositToStrategySuccess (vault_Codec (EpochDepositToStrategySuccess_contract t))) l.
Definition LogTriggerEpochDepositToStrategySuccessLog (c : ParentVault) (chainSelector confidence : Z)
    (filters : list EpochDepositToStrategySuccessTopics) : res EpochDepositToStrategySuccessTrigger :=
  let event := abi_Events (vault_ABI c) "EpochDepositToStrategySuccess" in
  rawTrigger ← log_trigger "EpochDepositToStrategySuccess" (vault_Address c) chainSelector confidence
                 (EncodeEpochDepositToStrategySuccessTopics event filters);
  Ok (mkEpochDepositToStrategySuccessTrigger rawTrigger c).
Definition FilterLogsEpochDepositToStrategySuccess (c : ParentVault) (options : option FilterOptions)
    : res (Z * FilterQuery) :=
  filter_logs (vault_client c) (vault_Address c) (EpochDepositToStrategySuccessLogHash (vault_Codec c)) options.
Record EpochOpenTrigger := mkEpochOpenTrigger {
  EpochOpen_Trigger : LogTrigger; EpochOpen_contract : ParentVault }.
Definition AdaptEpochOpen (t : EpochOpenTrigger) (l : option Log)
    : res (DecodedLog EpochOpenDecoded) :=
  adapt "EpochOpen" (DecodeEpochOpen (vault_Codec (EpochOpen_contract t))) l.
Definition LogTriggerEpochOpenLog (c : ParentVault) (chainSelector confidence : Z)
    (filters : list EpochOpenTopics) : res EpochOpenTrigger :=
  let event := abi_Events (vault_ABI c) "EpochOpen" in
  rawTrigger ← log_trigger "EpochOpen" (vault_Address c) chainSelector confidence
                 (EncodeEpochOpenTopics event filters);
  Ok (mkEpochOpenTrigger rawTrigger c).
Definition FilterLogsEpochOpen (c : ParentVault) (options : option FilterOptions)
    : res (Z * FilterQuery) :=
  filter_logs (vault_client c) (vault_Address c) (EpochOpenLogHash (vault_Codec c)) options.
Record EpochWithdrawAmountShortTrigger := mkEpochWithdrawAmountShortTrigger {
  EpochWithdrawAmountShort_Trigger : LogTrigger; EpochWithdrawAmountShort_contract : ParentVault }.
Definition AdaptEpochWithdrawAmountShort (t : EpochWithdrawAmountShortTrigger) (l : option Log)
    : res (DecodedLog EpochWithdrawAmountShortDecoded) :=
  adapt "EpochWithdrawAmountShort" (DecodeEpochWithdrawAmountShort (vault_Codec (EpochWithdrawAmountShort_contract t))) l.
Definition LogTriggerEpochWithdrawAmountShortLog (c : ParentVault) (chainSelector confidence : Z)
    (filters : list EpochWithdrawAmountShortTopics) : res EpochWithdrawAmountShortTrigger :=
  let event := abi_Events (vault_ABI c) "EpochWithdrawAmountShort" in
  rawTrigger ← log_trigger "EpochWithdrawAmountShort" (vault_Address c) chainSelector confidence
                 (EncodeEpochWithdrawAmountShortTopics event filters);
  Ok (mkEpochWithdrawAmountShortTrigger rawTrigger c).
Definition FilterLogsEpochWithdrawAmountShort (c : ParentVault) (options : option FilterOptions)
    : res (Z * FilterQuery) :=
  filter_logs (vault_client c) (vault_Address c) (EpochWithdrawAmountShortLogHash (vault_Codec c)) options.
Record EpochWithdrawExecutingTrigger := mkEpochWithdrawExecutingTrigger {
  EpochWithdrawExecuting_Trigger : LogTrigger; EpochWithdrawExecuting_contract : ParentVault }.
Definition AdaptEpochWithdrawExecuting (t : EpochWithdrawExecutingTrigger) (l : option Log)
    : res (DecodedLog EpochWithdrawExecutingDecoded) :=
  adapt "EpochWithdrawExecuting" (DecodeEpochWithdrawExecuting (vault_Codec (EpochWithdrawExecuting_contract t))) l.
Definition LogTriggerEpochWithdrawExecutingLog (c : ParentVault) (chainSelector confidence : Z)
    (filters : list EpochWithdrawExecutingTopics) : res EpochWithdrawExecutingTrigger :=
  let event := abi_Events (vault_ABI c) "EpochWithdrawExecuting" in
  rawTrigger ← log_trigger "EpochWithdrawExecuting" (vault_Address c) chainSelector confidence
                 (EncodeEpochWithdrawExecutingTopics event filters);
  Ok (mkEpochWithdrawExecutingTrigger rawTrigger c).
Definition FilterLogsEpochWithdrawExecuting (c : ParentVault) (options : option FilterOptions)
    : res (Z * FilterQuery) :=
  filter_logs (vault_client c) (vault_Address c) (EpochWithdrawExecutingLogHash (vault_Codec c)) options.
Record EpochWithdrawFromStrategySuccessTrigger := mkEpochWithdrawFromStrategySuccessTrigger {
  EpochWithdrawFromStrategySuccess_Trigger : LogTrigger; EpochWithdrawFromStrategySuccess_contract : ParentVault }.
Definition AdaptEpochWithdrawFromStrategySuccess (t : EpochWithdrawFromStrategySuccessTrigger) (l : option Log)
    : res (DecodedLog EpochWithdrawFromStrategySuccessDecoded) :=
  adapt "EpochWithdrawFromStrategySuccess" (DecodeEpochWithdrawFromStrategySuccess (vault_Codec (EpochWithdrawFromStrategySuccess_contract t))) l.
Definition LogTriggerEpochWithdrawFromStrategySuccessLog (c : ParentVault) (chainSelector confidence : Z)
    (filters : list EpochWithdrawFromStrategySuccessTopics) : res EpochWithdrawFromStrategySuccessTrigger :=
  let event := abi_Events (vault_ABI c) "EpochWithdrawFromStrategySuccess" in
  rawTrigger ← log_trigger "EpochWithdrawFromStrategySuccess" (vault_Address c) chainSelector confidence
                 (EncodeEpochWithdrawFromStrategySuccessTopics event filters);
  Ok (mkEpochWithdrawFromStrategySuccessTrigger rawTrigger c).
Definition FilterLogsEpochWithdrawFromStrategySuccess (c : ParentVault) (options : option FilterOptions)
    : res (Z * FilterQuery) :=
  filter_logs (vault_client c) (vault_Address c) (EpochWithdrawFromStrategySuccessLogHash (vault_Codec c)) options.
Record InitialActiveProtocolAdapterSetTrigger := mkInitialActiveProtocolAdapterSetTrigger {
  InitialActiveProtocolAdapterSet_Trigger : LogTrigger; InitialActiveProtocolAdapterSet_contract : ParentVault }.
Definition AdaptInitialActiveProtocolAdapterSet (t : InitialActiveProtocolAdapterSetTrigger) (l : option Log)
    : res (DecodedLog InitialActiveProtocolAdapterSetDecoded) :=
  adapt "InitialActiveProtocolAdapterSet" (DecodeInitialActiveProtocolAdapterSet (vault_Codec (InitialActiveProtocolAdapterSet_contract t))) l.
Definition LogTriggerInitialActiveProtocolAdapterSetLog (c : ParentVault) (chainSelector confidence : Z)
    (filters : list InitialActiveProtocolAdapterSetTopics) : res InitialActiveProtocolAdapterSetTrigger :=
  let event := abi_Events (vault_ABI c) "InitialActiveProtocolAdapterSet" in
  rawTrigger ← log_trigger "InitialActiveProtocolAdapterSet" (vault_Address c) chainSelector confidence
                 (EncodeInitialActiveProtocolAdapterSetTopics event filters);
  Ok (mkInitialActiveProtocolAdapterSetTrigger rawTrigger c).
Definition FilterLogsInitialActiveProtocolAdapterSet (c : ParentVault) (options : option FilterOptions)
    : res (Z * FilterQuery) :=
  filter_logs (vault_client c) (vault_Address c) (InitialActiveProtocolAdapterSetLogHash (vault_Codec c)) options.
Record InitializedTrigger := mkInitializedTrigger {
  Initialized_Trigger : LogTrigger; Initialized_contract : ParentVault }.
Definition AdaptInitialized (t : InitializedTrigger) (l : option Log)
    : res (DecodedLog InitializedDecoded) :=
  adapt "Initialized" (DecodeInitialized (vault_Codec (Initialized_contract t))) l.
Definition LogTriggerInitializedLog (c : ParentVault) (chainSelector confidence : Z)
    (filters : list InitializedTopics) : res InitializedTrigger :=
  let event := abi_Events (vault_ABI c) "Initialized" in
  rawTrigger ← log_trigger "Initialized" (vault_Address c) chainSelector confidence
                 (EncodeInitializedTopics event filters);
  Ok (mkInitializedTrigger rawTrigger c).
Definition FilterLogsInitialized (c : ParentVault) (options : option FilterOptions)
    : res (Z * FilterQuery) :=
  filter_logs (vault_client c) (vault_Address c) (InitializedLogHash (vault_Codec c)) options.
Record LinkWithdrawnTrigger := mkLinkWithdrawnTrigger {
  LinkWithdrawn_Trigger : LogTrigger; LinkWithdrawn_contract : ParentVault }.
Definition AdaptLinkWithdrawn (t : LinkWithdrawnTrigger) (l : option Log)
    : res (DecodedLog LinkWithdrawnDecoded) :=
  adapt "LinkWithdrawn" (DecodeLinkWithdrawn (vault_Codec (LinkWithdrawn_contract t))) l.
Definition LogTriggerLinkWithdrawnLog (c : ParentVault) (chainSelector confidence : Z)
    (filters : list LinkWithdrawnTopics) : res LinkWithdrawnTrigger :=
  let event := abi_Events (vault_ABI c) "LinkWithdrawn" in
  rawTrigger ← log_trigger "LinkWithdrawn" (vault_Address c) chainSelector confidence
                 (EncodeLinkWithdrawnTopics event filters);
  Ok (mkLinkWithdrawnTrigger rawTrigger c).
Definition FilterLogsLinkWithdrawn (c : ParentVault) (options : option FilterOptions)
    : res (Z * FilterQuery) :=
  filter_logs (vault_client c) (vault_Address c) (LinkWithdrawnLogHash (vault_Codec c)) options.
Record ManagementFeeCollectedTrigger := mkManagementFeeCollectedTrigger {
  ManagementFeeCollected_Trigger : LogTrigger; ManagementFeeCollected_contract : ParentVault }.
Definition AdaptManagementFeeCollected (t : ManagementFeeCollectedTrigger) (l : option Log)
    : res (DecodedLog ManagementFeeCollectedDecoded) :=
  adapt "ManagementFeeCollected" (DecodeManagementFeeCollected (vault_Codec (ManagementFeeCollected_contract t))) l.
Definition LogTriggerManagementFeeCollectedLog (c : ParentVault) (chainSelector confidence : Z)
    (filters : list ManagementFeeCollectedTopics) : res ManagementFeeCollectedTrigger :=
  let event := abi_Events (vault_ABI c) "ManagementFeeCollected" in
  rawTrigger ← log_trigger "ManagementFeeCollected" (vault_Address c) chainSelector confidence
                 (EncodeManagementFeeCollectedTopics event filters);
  Ok (mkManagementFeeCollectedTrigger rawTrigger c).
Definition FilterLogsManagementFeeCollected (c : ParentVault) (options : option FilterOptions)
    : res (Z * FilterQuery) :=
  filter_logs (vault_client c) (vault_Address c) (ManagementFeeCollectedLogHash (vault_Codec c)) options.
Record PausedTrigger := mkPausedTrigger {
  Paused_Trigger : LogTrigger; Paused_contract : ParentVault }.
Definition AdaptPaused (t : PausedTrigger) (l : option Log)
    : res (DecodedLog PausedDecoded) :=
  adapt "Paused" (DecodePaused (vault_Codec (Paused_contract t))) l.
Definition LogTriggerPausedLog (c : ParentVault) (chainSelector confidence : Z)
    (filters : list PausedTopics) : res PausedTrigger :=
  let event := abi_Events (vault_ABI c) "Paused" in
  rawTrigger ← log_trigger "Paused" (vault_Address c) chainSelector confidence
                 (EncodePausedTopics event filters);
  Ok (mkPausedTrigger rawTrigger c).
Definition FilterLogsPaused (c : ParentVault) (options : option FilterOptions)
    : res (Z * FilterQuery) :=
  filter_logs (vault_client c) (vault_Address c) (PausedLogHash (vault_Codec c)) options.
Record RebalanceCompletedTrigger := mkRebalanceCompletedTrigger {
  RebalanceCompleted_Trigger : LogTrigger; RebalanceCompleted_contract : ParentVault }.
Definition AdaptRebalanceCompleted (t : RebalanceCompletedTrigger) (l : option Log)
    : res (DecodedLog RebalanceCompletedDecoded) :=
  adapt "RebalanceCompleted" (DecodeRebalanceCompleted (vault_Codec (RebalanceCompleted_contract t))) l.
Definition LogTriggerRebalanceCompletedLog (c : ParentVault) (chainSelector confidence : Z)
    (filters : list RebalanceCompletedTopics) : res RebalanceCompletedTrigger :=
  let event := abi_Events (vault_ABI c) "RebalanceCompleted" in
  rawTrigger ← log_trigger "RebalanceCompleted" (vault_Address c) chainSelector confidence
                 (EncodeRebalanceCompletedTopics event filters);
  Ok (mkRebalanceCompletedTrigger rawTrigger c).
Definition FilterLogsRebalanceCompleted (c : ParentVault) (options : option FilterOptions)
    : res (Z * FilterQuery) :=
  filter_logs (vault_client c) (vault_Address c) (RebalanceCompletedLogHash (vault_Codec c)) options.
Record RebalanceDepositFailureTrigger := mkRebalanceDepositFailureTrigger {
  RebalanceDepositFailure_Trigger : LogTrigger; RebalanceDepositFailure_contract : ParentVault }.
Definition AdaptRebalanceDepositFailure (t : RebalanceDepositFailureTrigger) (l : option Log)
    : res (DecodedLog RebalanceDepositFailureDecoded) :=
  adapt "RebalanceDepositFailure" (DecodeRebalanceDepositFailure (vault_Codec (RebalanceDepositFailure_contract t))) l.
Definition LogTriggerRebalanceDepositFailureLog (c : ParentVault) (chainSelector confidence : Z)
    (filters : list RebalanceDepositFailureTopics) : res RebalanceDepositFailureTrigger :=
  let event := abi_Events (vault_ABI c) "RebalanceDepositFailure" in
  rawTrigger ← log_trigger "RebalanceDepositFailure" (vault_Address c) chainSelector confidence
                 (EncodeRebalanceDepositFailureTopics event filters);
  Ok (mkRebalanceDepositFailureTrigger rawTrigger c).
Definition FilterLogsRebalanceDepositFailure (c : ParentVault) (options : option FilterOptions)
    : res (Z * FilterQuery) :=
  filter_logs (vault_client c) (vault_Address c) (RebalanceDepositFailureLogHash (vault_Codec c)) options.
Record RebalanceDepositRecoveryClearedTrigger := mkRebalanceDepositRecoveryClearedTrigger {
  RebalanceDepositRecoveryCleared_Trigger : LogTrigger; RebalanceDepositRecoveryCleared_contract : ParentVault }.
Definition AdaptRebalanceDepositRecoveryCleared (t : RebalanceDepositRecoveryClearedTrigger) (l : option Log)
    : res (DecodedLog RebalanceDepositRecoveryClearedDecoded) :=
  adapt "RebalanceDepositRecoveryCleared" (DecodeRebalanceDepositRecoveryCleared (vault_Codec (RebalanceDepositRecoveryCleared_contract t))) l.
Definition LogTriggerRebalanceDepositRecoveryClearedLog (c : ParentVault) (chainSelector confidence : Z)
    (filters : list RebalanceDepositRecoveryClearedTopics) : res RebalanceDepositRecoveryClearedTrigger :=
  let event := abi_Events (vault_ABI c) "RebalanceDepositRecoveryCleared" in
  rawTrigger ← log_trigger "RebalanceDepositRecoveryCleared" (vault_Address c) chainSelector confidence
                 (EncodeRebalanceDepositRecoveryClearedTopics event filters);
  Ok (mkRebalanceDepositRecoveryClearedTrigger rawTrigger c).
Definition FilterLogsRebalanceDepositRecoveryCleared (c : ParentVault) (options : option FilterOptions)
    : res (Z * FilterQuery) :=
  filter_logs (vault_client c) (vault_Address c) (RebalanceDepositRecoveryClearedLogHash (vault_Codec c)) options.
Record RebalanceDepositRecoveryStoredTrigger := mkRebalanceDepositRecoveryStoredTrigger {
  RebalanceDepositRecoveryStored_Trigger : LogTrigger; RebalanceDepositRecoveryStored_contract : ParentVault }.
Definition AdaptRebalanceDepositRecoveryStored (t : RebalanceDepositRecoveryStoredTrigger) (l : option Log)
    : res (DecodedLog RebalanceDepositRecoveryStoredDecoded) :=
  adapt "RebalanceDepositRecoveryStored" (DecodeRebalanceDepositRecoveryStored (vault_Codec (RebalanceDepositRecoveryStored_contract t))) l.
Definition LogTriggerRebalanceDepositRecoveryStoredLog (c : ParentVault) (chainSelector confidence : Z)
    (filters : list RebalanceDepositRecoveryStoredTopics) : res RebalanceDepositRecoveryStoredTrigger :=
  let event := abi_Events (vault_ABI c) "RebalanceDepositRecoveryStored" in
  rawTrigger ← log_trigger "RebalanceDepositRecoveryStored" (vault_Address c) chainSelector confidence
                 (EncodeRebalanceDepositRecoveryStoredTopics event filters);
  Ok (mkRebalanceDepositRecoveryStoredTrigger rawTrigger c).
Definition FilterLogsRebalanceDepositRecoveryStored (c : ParentVault) (options : option FilterOptions)
    : res (Z * FilterQuery) :=
  filter_logs (vault_client c) (vault_Address c) (RebalanceDepositRecoveryStoredLogHash (vault_Codec c)) options.
Record RebalanceDepositSuccessTrigger := mkRebalanceDepositSuccessTrigger {
  RebalanceDepositSuccess_Trigger : LogTrigger; RebalanceDepositSuccess_contract : ParentVault }.
Definition AdaptRebalanceDepositSuccess (t : RebalanceDepositSuccessTrigger) (l : option Log)
    : res (DecodedLog RebalanceDepositSuccessDecoded) :=
  adapt "RebalanceDepositSuccess" (DecodeRebalanceDepositSuccess (vault_Codec (RebalanceDepositSuccess_contract t))) l.
Definition LogTriggerRebalanceDepositSuccessLog (c : ParentVault) (chainSelector confidence : Z)
    (filters : list RebalanceDepositSuccessTopics) : res RebalanceDepositSuccessTrigger :=
  let event := abi_Events (vault_ABI c) "RebalanceDepositSuccess" in
  rawTrigger ← log_trigger "RebalanceDepositSuccess" (vault_Address c) chainSelector confidence
                 (EncodeRebalanceDepositSuccessTopics event filters);
  Ok (mkRebalanceDepositSuccessTrigger rawTrigger c).
Definition FilterLogsRebalanceDepositSuccess (c : ParentVault) (options : option FilterOptions)
    : res (Z * FilterQuery) :=
  filter_logs (vault_client c) (vault_Address c) (RebalanceDepositSuccessLogHash (vault_Codec c)) options.
Record RebalanceInitiatedTrigger := mkRebalanceInitiatedTrigger {
  RebalanceInitiated_Trigger : LogTrigger; RebalanceInitiated_contract : ParentVault }.
Definition AdaptRebalanceInitiated (t : RebalanceInitiatedTrigger) (l : option Log)
    : res (DecodedLog RebalanceInitiatedDecoded) :=
  adapt "RebalanceInitiated" (DecodeRebalanceInitiated (vault_Codec (RebalanceInitiated_contract t))) l.
Definition LogTriggerRebalanceInitiatedLog (c : ParentVault) (chainSelector confidence : Z)
    (filters : list RebalanceInitiatedTopics) : res RebalanceInitiatedTrigger :=
  let event := abi_Events (vault_ABI c) "RebalanceInitiated" in
  rawTrigger ← log_trigger "RebalanceInitiated" (vault_Address c) chainSelector confidence
                 (EncodeRebalanceInitiatedTopics event filters);
  Ok (mkRebalanceInitiatedTrigger rawTrigger c).
Definition FilterLogsRebalanceInitiated (c : ParentVault) (options : option FilterOptions)
    : res (Z * FilterQuery) :=
  filter_logs (vault_client c) (vault_Address c) (RebalanceInitiatedLogHash (vault_Codec c)) options.
Record RebalanceWithdrawSuccessTrigger := mkRebalanceWithdrawSuccessTrigger {
  RebalanceWithdrawSuccess_Trigger : LogTrigger; RebalanceWithdrawSuccess_contract : ParentVault }.
Definition AdaptRebalanceWithdrawSuccess (t : RebalanceWithdrawSuccessTrigger) (l : option Log)
    : res (DecodedLog RebalanceWithdrawSuccessDecoded) :=
  adapt "RebalanceWithdrawSuccess" (DecodeRebalanceWithdrawSuccess (vault_Codec (RebalanceWithdrawSuccess_contract t))) l.
Definition LogTriggerRebalanceWithdrawSuccessLog (c : ParentVault) (chainSelector confidence : Z)
    (filters : list RebalanceWithdrawSuccessTopics) : res RebalanceWithdrawSuccessTrigger :=
  let event := abi_Events (vault_ABI c) "RebalanceWithdrawSuccess" in
  rawTrigger ← log_trigger "RebalanceWithdrawSuccess" (vault_Address c) chainSelector confidence
                 (EncodeRebalanceWithdrawSuccessTopics event filters);
  Ok (mkRebalanceWithdrawSuccessTrigger rawTrigger c).
Definition FilterLogsRebalanceWithdrawSuccess (c : ParentVault) (options : option FilterOptions)
    : res (Z * FilterQuery) :=
  filter_logs (vault_client c) (vault_Address c) (RebalanceWithdrawSuccessLogHash (vault_Codec c)) options.
Record RoleAdminChangedTrigger := mkRoleAdminChangedTrigger {
  RoleAdminChanged_Trigger : LogTrigger; RoleAdminChanged_contract : ParentVault }.
Definition AdaptRoleAdminChanged (t : RoleAdminChangedTrigger) (l : option Log)
    : res (DecodedLog RoleAdminChangedDecoded) :=
  adapt "RoleAdminChanged" (DecodeRoleAdminChanged (vault_Codec (RoleAdminChanged_contract t))) l.
Definition LogTriggerRoleAdminChangedLog (c : ParentVault) (chainSelector confidence : Z)
    (filters : list RoleAdminChangedTopics) : res RoleAdminChangedTrigger :=
  let event := abi_Events (vault_ABI c) "RoleAdminChanged" in
  rawTrigger ← log_trigger "RoleAdminChanged" (vault_Address c) chainSelector confidence
                 (EncodeRoleAdminChangedTopics event filters);
  Ok (mkRoleAdminChangedTrigger rawTrigger c).
Definition FilterLogsRoleAdminChanged (c : ParentVault) (options : option FilterOptions)
    : res (Z * FilterQuery) :=
  filter_logs (vault_client c) (vault_Address c) (RoleAdminChangedLogHash (vault_Codec c)) options.
Record RoleGrantedTrigger := mkRoleGrantedTrigger {
  RoleGranted_Trigger : LogTrigger; RoleGranted_contract : ParentVault }.
Definition AdaptRoleGranted (t : RoleGrantedTrigger) (l : option Log)
    : res (DecodedLog RoleGrantedDecoded) :=
  adapt "RoleGranted" (DecodeRoleGranted (vault_Codec (RoleGranted_contract t))) l.
Definition LogTriggerRoleGrantedLog (c : ParentVault) (chainSelector confidence : Z)
    (filters : list RoleGrantedTopics) : res RoleGrantedTrigger :=
  let event := abi_Events (vault_ABI c) "RoleGranted" in
  rawTrigger ← log_trigger "RoleGranted" (vault_Address c) chainSelector confidence
                 (EncodeRoleGrantedTopics event filters);
  Ok (mkRoleGrantedTrigger rawTrigger c).
Definition FilterLogsRoleGranted (c : ParentVault) (options : option FilterOptions)
    : res (Z * FilterQuery) :=
  filter_logs (vault_client c) (vault_Address c) (RoleGrantedLogHash (vault_Codec c)) options.
Record RoleRevokedTrigger := mkRoleRevokedTrigger {
  RoleRevoked_Trigger : LogTrigger; RoleRevoked_contract : ParentVault }.
Definition AdaptRoleRevoked (t : RoleRevokedTrigger) (l : option Log)
    : res (DecodedLog RoleRevokedDecoded) :=
  adapt "RoleRevoked" (DecodeRoleRevoked (vault_Codec (RoleRevoked_contract t))) l.
Definition LogTriggerRoleRevokedLog (c : ParentVault) (chainSelector confidence : Z)
    (filters : list RoleRevokedTopics) : res RoleRevokedTrigger :=
  let event := abi_Events (vault_ABI c) "RoleRevoked" in
  rawTrigger ← log_trigger "RoleRevoked" (vault_Address c) chainSelector confidence
                 (EncodeRoleRevokedTopics event filters);
  Ok (mkRoleRevokedTrigger rawTrigger c).
Definition FilterLogsRoleRevoked (c : ParentVault) (options : option FilterOptions)
    : res (Z * FilterQuery) :=
  filter_logs (vault_client c) (vault_Address c) (RoleRevokedLogHash (vault_Codec c)) options.
Record SupportedProtocolSetTrigger := mkSupportedProtocolSetTrigger {
  SupportedProtocolSet_Trigger : LogTrigger; SupportedProtocolSet_contract : ParentVault }.
Definition AdaptSupportedProtocolSet (t : SupportedProtocolSetTrigger) (l : option Log)
    : res (DecodedLog SupportedProtocolSetDecoded) :=
  adapt "SupportedProtocolSet" (DecodeSupportedProtocolSet (vault_Codec (SupportedProtocolSet_contract t))) l.
Definition LogTriggerSupportedProtocolSetLog (c : ParentVault) (chainSelector confidence : Z)
    (filters : list SupportedProtocolSetTopics) : res SupportedProtocolSetTrigger :=
  let event := abi_Events (vault_ABI c) "SupportedProtocolSet" in
  rawTrigger ← log_trigger "SupportedProtocolSet" (vault_Address c) chainSelector confidence
                 (EncodeSupportedProtocolSetTopics event filters);
  Ok (mkSupportedProtocolSetTrigger rawTrigger c).
Definition FilterLogsSupportedProtocolSet (c : ParentVault) (options : option FilterOptions)
    : res (Z * FilterQuery) :=
  filter_logs (vault_client c) (vault_Address c) (SupportedProtocolSetLogHash (vault_Codec c)) options.
Record TreasurySetTrigger := mkTreasurySetTrigger {
  TreasurySet_Trigger : LogTrigger; TreasurySet_contract : ParentVault }.
Definition AdaptTreasurySet (t : TreasurySetTrigger) (l : option Log)
    : res (DecodedLog TreasurySetDecoded) :=
  adapt "TreasurySet" (DecodeTreasurySet (vault_Codec (TreasurySet_contract t))) l.
Definition LogTriggerTreasurySetLog (c : ParentVault) (chainSelector confidence : Z)
    (filters : list TreasurySetTopics) : res TreasurySetTrigger :=
  let event := abi_Events (vault_ABI c) "TreasurySet" in
  rawTrigger ← log_trigger "TreasurySet" (vault_Address c) chainSelector confidence
                 (EncodeTreasurySetTopics event filters);
  Ok (mkTreasurySetTrigger rawTrigger c).
Definition FilterLogsTreasurySet (c : ParentVault) (options : option FilterOptions)
    : res (Z * FilterQuery) :=
  filter_logs (vault_client c) (vault_Address c) (TreasurySetLogHash (vault_Codec c)) options.
Record UnpausedTrigger := mkUnpausedTrigger {
  Unpaused_Trigger : LogTrigger; Unpaused_contract : ParentVault }.
Definition AdaptUnpaused (t : UnpausedTrigger) (l : option Log)
    : res (DecodedLog UnpausedDecoded) :=
  adapt "Unpaused" (DecodeUnpaused (vault_Codec (Unpaused_contract t))) l.
Definition LogTriggerUnpausedLog (c : ParentVault) (chainSelector confidence : Z)
    (filters : list UnpausedTopics) : res UnpausedTrigger :=
  let event := abi_Events (vault_ABI c) "Unpaused" in
  rawTrigger ← log_trigger "Unpaused" (vault_Address c) chainSelector confidence
                 (EncodeUnpausedTopics event filters);
  Ok (mkUnpausedTrigger rawTrigger c).
Definition FilterLogsUnpaused (c : ParentVault) (options : option FilterOptions)
    : res (Z * FilterQuery) :=
  filter_logs (vault_client c) (vault_Address c) (UnpausedLogHash (vault_Codec c)) options.
Record UpgradedTrigger := mkUpgradedTrigger {
  Upgraded_Trigger : LogTrigger; Upgraded_contract : ParentVault }.
Definition AdaptUpgraded (t : UpgradedTrigger) (l : option Log)
    : res (DecodedLog UpgradedDecoded) :=
  adapt "Upgraded" (DecodeUpgraded (vault_Codec (Upgraded_contract t))) l.
Definition LogTriggerUpgradedLog (c : ParentVault) (chainSelector confidence : Z)
    (filters : list UpgradedTopics) : res UpgradedTrigger :=
  let event := abi_Events (vault_ABI c) "Upgraded" in
  rawTrigger ← log_trigger "Upgraded" (vault_Address c) chainSelector confidence
                 (EncodeUpgradedTopics event filters);
  Ok (mkUpgradedTrigger rawTrigger c).
Definition FilterLogsUpgraded (c : ParentVault) (options : option FilterOptions)
    : res (Z * FilterQuery) :=
  filter_logs (vault_client c) (vault_Address c) (UpgradedLogHash (vault_Codec c)) options.
Record WithdrawCancelledTrigger := mkWithdrawCancelledTrigger {
  WithdrawCancelled_Trigger : LogTrigger; WithdrawCancelled_contract : ParentVault }.
Definition AdaptWithdrawCancelled (t : WithdrawCancelledTrigger) (l : option Log)
    : res (DecodedLog WithdrawCancelledDecoded) :=
  adapt "WithdrawCancelled" (DecodeWithdrawCancelled (vault_Codec (WithdrawCancelled_contract t))) l.
Definition LogTriggerWithdrawCancelledLog (c : ParentVault) (chainSelector confidence : Z)
    (filters : list WithdrawCancelledTopics) : res WithdrawCancelledTrigger :=
  let event := abi_Events (vault_ABI c) "WithdrawCancelled" in
  rawTrigger ← log_trigger "WithdrawCancelled" (vault_Address c) chainSelector confidence
                 (EncodeWithdrawCancelledTopics event filters);
  Ok (mkWithdrawCancelledTrigger rawTrigger c).
Definition FilterLogsWithdrawCancelled (c : ParentVault) (options : option FilterOptions)
    : res (Z * FilterQuery) :=
  filter_logs (vault_client c) (vault_Address c) (WithdrawCancelledLogHash (vault_Codec c)) options.
Record WithdrawClaimedTrigger := mkWithdrawClaimedTrigger {
  WithdrawClaimed_Trigger : LogTrigger; WithdrawClaimed_contract : ParentVault }.
Definition AdaptWithdrawClaimed (t : WithdrawClaimedTrigger) (l : option Log)
    : res (DecodedLog WithdrawClaimedDecoded) :=
  adapt "WithdrawClaimed" (DecodeWithdrawClaimed (vault_Codec (WithdrawClaimed_contract t))) l.
Definition LogTriggerWithdrawClaimedLog (c : ParentVault) (chainSelector confidence : Z)
    (filters : list WithdrawClaimedTopics) : res WithdrawClaimedTrigger :=
  let event := abi_Events (vault_ABI c) "WithdrawClaimed" in
  rawTrigger ← log_trigger "WithdrawClaimed" (vault_Address c) chainSelector confidence
                 (EncodeWithdrawClaimedTopics event filters);
  Ok (mkWithdrawClaimedTrigger rawTrigger c).
Definition FilterLogsWithdrawClaimed (c : ParentVault) (options : option FilterOptions)
    : res (Z * FilterQuery) :=
  filter_logs (vault_client c) (vault_Address c) (WithdrawClaimedLogHash (vault_Codec c)) options.
Record WithdrawSubmittedTrigger := mkWithdrawSubmittedTrigger {
  WithdrawSubmitted_Trigger : LogTrigger; WithdrawSubmitted_contract : ParentVault }.
Definition AdaptWithdrawSubmitted (t : WithdrawSubmittedTrigger) (l : option Log)
    : res (DecodedLog WithdrawSubmittedDecoded) :=
  adapt "WithdrawSubmitted" (DecodeWithdrawSubmitted (vault_Codec (WithdrawSubmitted_contract t))) l.
Definition LogTriggerWithdrawSubmittedLog (c : ParentVault) (chainSelector confidence : Z)
    (filters : list WithdrawSubmittedTopics) : res WithdrawSubmittedTrigger :=
  let event := abi_Events (vault_ABI c) "WithdrawSubmitted" in
  rawTrigger ← log_trigger "WithdrawSubmitted" (vault_Address c) chainSelector confidence
                 (EncodeWithdrawSubmittedTopics event filters);
  Ok (mkWithdrawSubmittedTrigger rawTrigger c).
Definition FilterLogsWithdrawSubmitted (c : ParentVault) (options : option FilterOptions)
    : res (Z * FilterQuery) :=
  filter_logs (vault_client c) (vault_Address c) (WithdrawSubmittedLogHash (vault_Codec c)) options.
End Events.

(** ** All events *)
Inductive vault_event : Type :=
| EActiveProtocolAdapterCleared (e : ActiveProtocolAdapterClearedDecoded)
| EActiveProtocolAdapterSet (e : ActiveProtocolAdapterSetDecoded)
| EAllowlistEnabledSet (e : AllowlistEnabledSetDecoded)
| EAllowlistedUserSet (e : AllowlistedUserSetDecoded)
| ECCIPBridged (e : CCIPBridgedDecoded)
| ECCIPReceived (e : CCIPReceivedDecoded)
| ECcipGasLimitSet (e : CcipGasLimitSetDecoded)
| ECrosschainVaultSet (e : CrosschainVaultSetDecoded)
| EDefaultAdminDelayChangeCanceled (e : DefaultAdminDelayChangeCanceledDecoded)
| EDefaultAdminDelayChangeScheduled (e : DefaultAdminDelayChangeScheduledDecoded)
| EDefaultAdminTransferCanceled (e : DefaultAdminTransferCanceledDecoded)
| EDefaultAdminTransferScheduled (e : DefaultAdminTransferScheduledDecoded)
| EDefaultCcipGasLimitSet (e : DefaultCcipGasLimitSetDecoded)
| EDepositCancelled (e : DepositCancelledDecoded)
| EDepositClaimed (e : DepositClaimedDecoded)
| EDepositForceCancelled (e : DepositForceCancelledDecoded)
| EDepositSubmitted (e : DepositSubmittedDecoded)
| EEpochClaimable (e : EpochClaimableDecoded)
| EEpochDepositExecuting (e : EpochDepositExecutingDecoded)
| EEpochDepositReconciled (e : EpochDepositReconciledDecoded)
| EEpochDepositToStrategySuccess (e : EpochDepositToStrategySuccessDecoded)
| EEpochOpen (e : EpochOpenDecoded)
| EEpochWithdrawAmountShort (e : EpochWithdrawAmountShortDecoded)
| EEpochWithdrawExecuting (e : EpochWithdrawExecutingDecoded)
| EEpochWithdrawFromStrategySuccess (e : EpochWithdrawFromStrategySuccessDecoded)
| EInitialActiveProtocolAdapterSet (e : InitialActiveProtocolAdapterSetDecoded)
| EInitialized (e : InitializedDecoded)
| ELinkWithdrawn (e : LinkWithdrawnDecoded)
| EManagementFeeCollected (e : ManagementFeeCollectedDecoded)
| EPaused (e : PausedDecoded)
| ERebalanceCompleted (e : RebalanceCompletedDecoded)
| ERebalanceDepositFailure (e : RebalanceDepositFailureDecoded)
| ERebalanceDepositRecoveryCleared (e : RebalanceDepositRecoveryClearedDecoded)
| ERebalanceDepositRecoveryStored (e : RebalanceDepositRecoveryStoredDecoded)
| ERebalanceDepositSuccess (e : RebalanceDepositSuccessDecoded)
| ERebalanceInitiated (e : RebalanceInitiatedDecoded)
| ERebalanceWithdrawSuccess (e : RebalanceWithdrawSuccessDecoded)
| ERoleAdminChanged (e : RoleAdminChangedDecoded)
| ERoleGranted (e : RoleGrantedDecoded)
| ERoleRevoked (e : RoleRevokedDecoded)
| ESupportedProtocolSet (e : SupportedProtocolSetDecoded)
| ETreasurySet (e : TreasurySetDecoded)
| EUnpaused (e : UnpausedDecoded)
| EUpgraded (e : UpgradedDecoded)
| EWithdrawCancelled (e : WithdrawCancelledDecoded)
| EWithdrawClaimed (e : WithdrawClaimedDecoded)
| EWithdrawSubmitted (e : WithdrawSubmittedDecoded).

(** The ABI name of an event and its values in the ABI's order. *)
Definition describe (e : vault_event) : string * list abi_value :=
  match e with
  | EActiveProtocolAdapterCleared e => ("ActiveProtocolAdapterCleared"%string, [
      VFixed (ActiveProtocolAdapterCleared_Adapter e)])
  | EActiveProtocolAdapterSet e => ("ActiveProtocolAdapterSet"%string, [
      VFixed (ActiveProtocolAdapterSet_ProtocolId e); VFixed (ActiveProtocolAdapterSet_Adapter e)])
  | EAllowlistEnabledSet e => ("AllowlistEnabledSet"%string, [
      VBool (AllowlistEnabledSet_Enabled e)])
  | EAllowlistedUserSet e => ("AllowlistedUserSet"%string, [
      VFixed (AllowlistedUserSet_User e); VBool (AllowlistedUserSet_Allowed e)])
  | ECCIPBridged e => ("CCIPBridged"%string, [
      VFixed (CCIPBridged_CcipMessageId e); VUint (CCIPBridged_DestinationChainSelector e);
      VUint (CCIPBridged_CcipTxType e)])
  | ECCIPReceived e => ("CCIPReceived"%string, [
      VFixed (CCIPReceived_CcipMessageId e); VUint (CCIPReceived_SourceChainSelector e);
      VUint (CCIPReceived_CcipTxType e)])
  | ECcipGasLimitSet e => ("CcipGasLimitSet"%string, [
      VUint (CcipGasLimitSet_ChainSelector e); VBig (CcipGasLimitSet_GasLimit e)])
  | ECrosschainVaultSet e => ("CrosschainVaultSet"%string, [
      VUint (CrosschainVaultSet_ChainSelector e); VFixed (CrosschainVaultSet_Vault e)])
  | EDefaultAdminDelayChangeCanceled _ => ("DefaultAdminDelayChangeCanceled"%string, [])
  | EDefaultAdminDelayChangeScheduled e => ("DefaultAdminDelayChangeScheduled"%string, [
      VBig (DefaultAdminDelayChangeScheduled_NewDelay e);
      VBig (DefaultAdminDelayChangeScheduled_EffectSchedule e)])
  | EDefaultAdminTransferCanceled _ => ("DefaultAdminTransferCanceled"%string, [])
  | EDefaultAdminTransferScheduled e => ("DefaultAdminTransferScheduled"%string, [
      VFixed (DefaultAdminTransferScheduled_NewAdmin e);
      VBig (DefaultAdminTransferScheduled_AcceptSchedule e)])
  | EDefaultCcipGasLimitSet e => ("DefaultCcipGasLimitSet"%string, [
      VBig (DefaultCcipGasLimitSet_GasLimit e)])
  | EDepositCancelled e => ("DepositCancelled"%string, [
      VBig (DepositCancelled_EpochNonce e); VFixed (DepositCancelled_Depositor e);
      VBig (DepositCancelled_Amount e)])
  | EDepositClaimed e => ("DepositClaimed"%string, [
      VBig (DepositClaimed_EpochNonce e); VFixed (DepositClaimed_Depositor e);
      VBig (DepositClaimed_ShareMintAmount e)])
  | EDepositForceCancelled e => ("DepositForceCancelled"%string, [
      VBig (DepositForceCancelled_EpochNonce e); VFixed (DepositForceCancelled_Depositor e);
      VBig (DepositForceCancelled_Amount e)])
  | EDepositSubmitted e => ("DepositSubmitted"%string, [
      VBig (DepositSubmitted_EpochNonce e); VFixed (DepositSubmitted_Depositor e);
      VBig (DepositSubmitted_Amount e)])
  | EEpochClaimable e => ("EpochClaimable"%string, [VBig (EpochClaimable_EpochNonce e)])
  | EEpochDepositExecuting e => ("EpochDepositExecuting"%string, [
      VBig (EpochDepositExecuting_EpochNonce e); VBig (EpochDepositExecuting_Amount e)])
  | EEpochDepositReconciled e => ("EpochDepositReconciled"%string, [
      VBig (EpochDepositReconciled_EpochNonce e);
      VBig (EpochDepositReconciled_ActualDepositAmount e);
      VBig (EpochDepositReconciled_ShareReduction e)])
  | EEpochDepositToStrategySuccess e => ("EpochDepositToStrategySuccess"%string, [
      VBig (EpochDepositToStrategySuccess_EpochNonce e);
      VBig (EpochDepositToStrategySuccess_Amount e)])
  | EEpochOpen e => ("EpochOpen"%string, [VBig (EpochOpen_EpochNonce e)])
  | EEpochWithdrawAmountShort e => ("EpochWithdrawAmountShort"%string, [
      VBig (EpochWithdrawAmountShort_EpochNonce e);
      VBig (EpochWithdrawAmountShort_ExpectedAmount e);
      VBig (EpochWithdrawAmountShort_ActualAmount e)])
  | EEpochWithdrawExecuting e => ("EpochWithdrawExecuting"%string, [
      VBig (EpochWithdrawExecuting_EpochNonce e); VBig (EpochWithdrawExecuting_Amount e)])
  | EEpochWithdrawFromStrategySuccess e => ("EpochWithdrawFromStrategySuccess"%string, [
      VBig (EpochWithdrawFromStrategySuccess_EpochNonce e);
      VBig (EpochWithdrawFromStrategySuccess_Amount e)])
  | EInitialActiveProtocolAdapterSet e => ("InitialActiveProtocolAdapterSet"%string, [
      VFixed (InitialActiveProtocolAdapterSet_ProtocolId e);
      VFixed (InitialActiveProtocolAdapterSet_Adapter e)])
  | EInitialized e => ("Initialized"%string, [VUint (Initialized_Version e)])
  | ELinkWithdrawn e => ("LinkWithdrawn"%string, [
      VFixed (LinkWithdrawn_Operator e); VBig (LinkWithdrawn_Amount e)])
  | EManagementFeeCollected e => ("ManagementFeeCollected"%string, [
      VBig (ManagementFeeCollected_RebalanceNonce e); VBig (ManagementFeeCollected_FeeShares e)])
  | EPaused e => ("Paused"%string, [VFixed (Paused_Account e)])
  | ERebalanceCompleted e => ("RebalanceCompleted"%string, [
      VBig (RebalanceCompleted_RebalanceNonce e); VFixed (RebalanceCompleted_NewProtocolId e);
      VUint (RebalanceCompleted_NewChainSelector e)])
  | ERebalanceDepositFailure e => ("RebalanceDepositFailure"%string, [
      VBig (RebalanceDepositFailure_RebalanceNonce e); VBig (RebalanceDepositFailure_Amount e)])
  | ERebalanceDepositRecoveryCleared e => ("RebalanceDepositRecoveryCleared"%string, [
      VBig (RebalanceDepositRecoveryCleared_RebalanceNonce e)])
  | ERebalanceDepositRecoveryStored e => ("RebalanceDepositRecoveryStored"%string, [
      VBig (RebalanceDepositRecoveryStored_RebalanceNonce e);
      VBig (RebalanceDepositRecoveryStored_Amount e)])
  | ERebalanceDepositSuccess e => ("RebalanceDepositSuccess"%string, [
      VBig (RebalanceDepositSuccess_RebalanceNonce e); VBig (RebalanceDepositSuccess_Amount e)])
  | ERebalanceInitiated e => ("RebalanceInitiated"%string, [
      VBig (RebalanceInitiated_RebalanceNonce e); VFixed (RebalanceInitiated_ProtocolId e);
      VUint (RebalanceInitiated_ChainSelector e)])
  | ERebalanceWithdrawSuccess e => ("RebalanceWithdrawSuccess"%string, [
      VBig (RebalanceWithdrawSuccess_RebalanceNonce e); VBig (RebalanceWithdrawSuccess_Amount e)])
  | ERoleAdminChanged e => ("RoleAdminChanged"%string, [
      VFixed (RoleAdminChanged_Role e); VFixed (RoleAdminChanged_PreviousAdminRole e);
      VFixed (RoleAdminChanged_NewAdminRole e)])
  | ERoleGranted e => ("RoleGranted"%string, [
      VFixed (RoleGranted_Role e); VFixed (RoleGranted_Account e); VFixed (RoleGranted_Sender e)])
  | ERoleRevoked e => ("RoleRevoked"%string, [
      VFixed (RoleRevoked_Role e); VFixed (RoleRevoked_Account e); VFixed (RoleRevoked_Sender e)])
  | ESupportedProtocolSet e => ("SupportedProtocolSet"%string, [
      VFixed (SupportedProtocolSet_ProtocolId e); VBool (SupportedProtocolSet_IsSupported e)])
  | ETreasurySet e => ("TreasurySet"%string, [VFixed (TreasurySet_Treasury e)])
  | EUnpaused e => ("Unpaused"%string, [VFixed (Unpaused_Account e)])
  | EUpgraded e => ("Upgraded"%string, [VFixed (Upgraded_Implementation e)])
  | EWithdrawCancelled e => ("WithdrawCancelled"%string, [
      VBig (WithdrawCancelled_EpochNonce e); VFixed (WithdrawCancelled_Withdrawer e);
      VBig (WithdrawCancelled_ShareBurnAmount e)])
  | EWithdrawClaimed e => ("WithdrawClaimed"%string, [
      VBig (WithdrawClaimed_EpochNonce e); VFixed (WithdrawClaimed_Withdrawer e);
      VBig (WithdrawClaimed_Amount e)])
  | EWithdrawSubmitted e => ("WithdrawSubmitted"%string, [
      VBig (WithdrawSubmitted_EpochNonce e); VFixed (WithdrawSubmitted_Withdrawer e);
      VBig (WithdrawSubmitted_ShareBurnAmount e)])
  end.

(** Decoding with the trigger of the event that [e] is an instance of. *)
Definition adapt_like `{GoTopics} (e : vault_event) (raw : LogTrigger) (c : ParentVault)
    (l : option Log) : res (option Log * vault_event) :=
  let decoded {T} (f : T → vault_event) (d : DecodedLog T) := (Decoded_Log d, f (Decoded_Data d)) in
  match e with
  | EActiveProtocolAdapterCleared _ => decoded EActiveProtocolAdapterCleared <$> AdaptActiveProtocolAdapterCleared (mkActiveProtocolAdapterClearedTrigger raw c) l
  | EActiveProtocolAdapterSet _ => decoded EActiveProtocolAdapterSet <$> AdaptActiveProtocolAdapterSet (mkActiveProtocolAdapterSetTrigger raw c) l
  | EAllowlistEnabledSet _ => decoded EAllowlistEnabledSet <$> AdaptAllowlistEnabledSet (mkAllowlistEnabledSetTrigger raw c) l
  | EAllowlistedUserSet _ => decoded EAllowlistedUserSet <$> AdaptAllowlistedUserSet (mkAllowlistedUserSetTrigger raw c) l
  | ECCIPBridged _ => decoded ECCIPBridged <$> AdaptCCIPBridged (mkCCIPBridgedTrigger raw c) l
  | ECCIPReceived _ => decoded ECCIPReceived <$> AdaptCCIPReceived (mkCCIPReceivedTrigger raw c) l
  | ECcipGasLimitSet _ => decoded ECcipGasLimitSet <$> AdaptCcipGasLimitSet (mkCcipGasLimitSetTrigger raw c) l
  | ECrosschainVaultSet _ => decoded ECrosschainVaultSet <$> AdaptCrosschainVaultSet (mkCrosschainVaultSetTrigger raw c) l
  | EDefaultAdminDelayChangeCanceled _ => decoded EDefaultAdminDelayChangeCanceled <$> AdaptDefaultAdminDelayChangeCanceled (mkDefaultAdminDelayChangeCanceledTrigger raw c) l
  | EDefaultAdminDelayChangeScheduled _ => decoded EDefaultAdminDelayChangeScheduled <$> AdaptDefaultAdminDelayChangeScheduled (mkDefaultAdminDelayChangeScheduledTrigger raw c) l
  | EDefaultAdminTransferCanceled _ => decoded EDefaultAdminTransferCanceled <$> AdaptDefaultAdminTransferCanceled (mkDefaultAdminTransferCanceledTrigger raw c) l
  | EDefaultAdminTransferScheduled _ => decoded EDefaultAdminTransferScheduled <$> AdaptDefaultAdminTransferScheduled (mkDefaultAdminTransferScheduledTrigger raw c) l
  | EDefaultCcipGasLimitSet _ => decoded EDefaultCcipGasLimitSet <$> AdaptDefaultCcipGasLimitSet (mkDefaultCcipGasLimitSetTrigger raw c) l
  | EDepositCancelled _ => decoded EDepositCancelled <$> AdaptDepositCancelled (mkDepositCancelledTrigger raw c) l
  | EDepositClaimed _ => decoded EDepositClaimed <$> AdaptDepositClaimed (mkDepositClaimedTrigger raw c) l
  | EDepositForceCancelled _ => decoded EDepositForceCancelled <$> AdaptDepositForceCancelled (mkDepositForceCancelledTrigger raw c) l
  | EDepositSubmitted _ => decoded EDepositSubmitted <$> AdaptDepositSubmitted (mkDepositSubmittedTrigger raw c) l
  | EEpochClaimable _ => decoded EEpochClaimable <$> AdaptEpochClaimable (mkEpochClaimableTrigger raw c) l
  | EEpochDepositExecuting _ => decoded EEpochDepositExecuting <$> AdaptEpochDepositExecuting (mkEpochDepositExecutingTrigger raw c) l
  | EEpochDepositReconciled _ => decoded EEpochDepositReconciled <$> AdaptEpochDepositReconciled (mkEpochDepositReconciledTrigger raw c) l
  | EEpochDepositToStrategySuccess _ => decoded EEpochDepositToStrategySuccess <$> AdaptEpochDepositToStrategySuccess (mkEpochDepositToStrategySuccessTrigger raw c) l
  | EEpochOpen _ => decoded EEpochOpen <$> AdaptEpochOpen (mkEpochOpenTrigger raw c) l
  | EEpochWithdrawAmountShort _ => decoded EEpochWithdrawAmountShort <$> AdaptEpochWithdrawAmountShort (mkEpochWithdrawAmountShortTrigger raw c) l
  | EEpochWithdrawExecuting _ => decoded EEpochWithdrawExecuting <$> AdaptEpochWithdrawExecuting (mkEpochWithdrawExecutingTrigger raw c) l
  | EEpochWithdrawFromStrategySuccess _ => decoded EEpochWithdrawFromStrategySuccess <$> AdaptEpochWithdrawFromStrategySuccess (mkEpochWithdrawFromStrategySuccessTrigger raw c) l
  | EInitialActiveProtocolAdapterSet _ => decoded EInitialActiveProtocolAdapterSet <$> AdaptInitialActiveProtocolAdapterSet (mkInitialActiveProtocolAdapterSetTrigger raw c) l
  | EInitialized _ => decoded EInitialized <$> AdaptInitialized (mkInitializedTrigger raw c) l
  | ELinkWithdrawn _ => decoded ELinkWithdrawn <$> AdaptLinkWithdrawn (mkLinkWithdrawnTrigger raw c) l
  | EManagementFeeCollected _ => decoded EManagementFeeCollected <$> AdaptManagementFeeCollected (mkManagementFeeCollectedTrigger raw c) l
  | EPaused _ => decoded EPaused <$> AdaptPaused (mkPausedTrigger raw c) l
  | ERebalanceCompleted _ => decoded ERebalanceCompleted <$> AdaptRebalanceCompleted (mkRebalanceCompletedTrigger raw c) l
  | ERebalanceDepositFailure _ => decoded ERebalanceDepositFailure <$> AdaptRebalanceDepositFailure (mkRebalanceDepositFailureTrigger raw c) l
  | ERebalanceDepositRecoveryCleared _ => decoded ERebalanceDepositRecoveryCleared <$> AdaptRebalanceDepositRecoveryCleared (mkRebalanceDepositRecoveryClearedTrigger raw c) l
  | ERebalanceDepositRecoveryStored _ => decoded ERebalanceDepositRecoveryStored <$> AdaptRebalanceDepositRecoveryStored (mkRebalanceDepositRecoveryStoredTrigger raw c) l
  | ERebalanceDepositSuccess _ => decoded ERebalanceDepositSuccess <$> AdaptRebalanceDepositSuccess (mkRebalanceDepositSuccessTrigger raw c) l
  | ERebalanceInitiated _ => decoded ERebalanceInitiated <$> AdaptRebalanceInitiated (mkRebalanceInitiatedTrigger raw c) l
  | ERebalanceWithdrawSuccess _ => decoded ERebalanceWithdrawSuccess <$> AdaptRebalanceWithdrawSuccess (mkRebalanceWithdrawSuccessTrigger raw c) l
  | ERoleAdminChanged _ => decoded ERoleAdminChanged <$> AdaptRoleAdminChanged (mkRoleAdminChangedTrigger raw c) l
  | ERoleGranted _ => decoded ERoleGranted <$> AdaptRoleGranted (mkRoleGrantedTrigger raw c) l
  | ERoleRevoked _ => decoded ERoleRevoked <$> AdaptRoleRevoked (mkRoleRevokedTrigger raw c) l
  | ESupportedProtocolSet _ => decoded ESupportedProtocolSet <$> AdaptSupportedProtocolSet (mkSupportedProtocolSetTrigger raw c) l
  | ETreasurySet _ => decoded ETreasurySet <$> AdaptTreasurySet (mkTreasurySetTrigger raw c) l
  | EUnpaused _ => decoded EUnpaused <$> AdaptUnpaused (mkUnpausedTrigger raw c) l
  | EUpgraded _ => decoded EUpgraded <$> AdaptUpgraded (mkUpgradedTrigger raw c) l
  | EWithdrawCancelled _ => decoded EWithdrawCancelled <$> AdaptWithdrawCancelled (mkWithdrawCancelledTrigger raw c) l
  | EWithdrawClaimed _ => decoded EWithdrawClaimed <$> AdaptWithdrawClaimed (mkWithdrawClaimedTrigger raw c) l
  | EWithdrawSubmitted _ => decoded EWithdrawSubmitted <$> AdaptWithdrawSubmitted (mkWithdrawSubmittedTrigger raw c) l
  end.

(** The filters of a subscription. *)
Inductive vault_filters : Type :=
| FActiveProtocolAdapterCleared (values : list ActiveProtocolAdapterClearedTopics)
| FActiveProtocolAdapterSet (values : list ActiveProtocolAdapterSetTopics)
| FAllowlistEnabledSet (values : list AllowlistEnabledSetTopics)
| FAllowlistedUserSet (values : list AllowlistedUserSetTopics)
| FCCIPBridged (values : list CCIPBridgedTopics)
| FCCIPReceived (values : list CCIPReceivedTopics)
| FCcipGasLimitSet (values : list CcipGasLimitSetTopics)
| FCrosschainVaultSet (values : list CrosschainVaultSetTopics)
| FDefaultAdminDelayChangeCanceled (values : list DefaultAdminDelayChangeCanceledTopics)
| FDefaultAdminDelayChangeScheduled (values : list DefaultAdminDelayChangeScheduledTopics)
| FDefaultAdminTransferCanceled (values : list DefaultAdminTransferCanceledTopics)
| FDefaultAdminTransferScheduled (values : list DefaultAdminTransferScheduledTopics)
| FDefaultCcipGasLimitSet (values : list DefaultCcipGasLimitSetTopics)
| FDepositCancelled (values : list DepositCancelledTopics)
| FDepositClaimed (values : list DepositClaimedTopics)
| FDepositForceCancelled (values : list DepositForceCancelledTopics)
| FDepositSubmitted (values : list DepositSubmittedTopics)
| FEpochClaimable (values : list EpochClaimableTopics)
| FEpochDepositExecuting (values : list EpochDepositExecutingTopics)
| FEpochDepositReconciled (values : list EpochDepositReconciledTopics)
| FEpochDepositToStrategySuccess (values : list EpochDepositToStrategySuccessTopics)
| FEpochOpen (values : list EpochOpenTopics)
| FEpochWithdrawAmountShort (values : list EpochWithdrawAmountShortTopics)
| FEpochWithdrawExecuting (values : list EpochWithdrawExecutingTopics)
| FEpochWithdrawFromStrategySuccess (values : list EpochWithdrawFromStrategySuccessTopics)
| FInitialActiveProtocolAdapterSet (values : list InitialActiveProtocolAdapterSetTopics)
| FInitialized (values : list InitializedTopics)
| FLinkWithdrawn (values : list LinkWithdrawnTopics)
| FManagementFeeCollected (values : list ManagementFeeCollectedTopics)
| FPaused (values : list PausedTopics)
| FRebalanceCompleted (values : list RebalanceCompletedTopics)
| FRebalanceDepositFailure (values : list RebalanceDepositFailureTopics)
| FRebalanceDepositRecoveryCleared (values : list RebalanceDepositRecoveryClearedTopics)
| FRebalanceDepositRecoveryStored (values : list RebalanceDepositRecoveryStoredTopics)
| FRebalanceDepositSuccess (values : list RebalanceDepositSuccessTopics)
| FRebalanceInitiated (values : list RebalanceInitiatedTopics)
| FRebalanceWithdrawSuccess (values : list RebalanceWithdrawSuccessTopics)
| FRoleAdminChanged (values : list RoleAdminChangedTopics)
| FRoleGranted (values : list RoleGrantedTopics)
| FRoleRevoked (values : list RoleRevokedTopics)
| FSupportedProtocolSet (values : list SupportedProtocolSetTopics)
| FTreasurySet (values : list TreasurySetTopics)
| FUnpaused (values : list UnpausedTopics)
| FUpgraded (values : list UpgradedTopics)
| FWithdrawCancelled (values : list WithdrawCancelledTopics)
| FWithdrawClaimed (values : list WithdrawClaimedTopics)
| FWithdrawSubmitted (values : list WithdrawSubmittedTopics).

(** The ABI name of the event and, per filter, its values in the ABI's order. *)
Definition filter_rows (f : vault_filters) : string * list (list abi_value) :=
  match f with
  | FActiveProtocolAdapterCleared values => ("ActiveProtocolAdapterCleared"%string, (λ v, [
      VFixed (ActiveProtocolAdapterClearedTopics_Adapter v)]) <$> values)
  | FActiveProtocolAdapterSet values => ("ActiveProtocolAdapterSet"%string, (λ v, [
      VFixed (ActiveProtocolAdapterSetTopics_ProtocolId v);
      VFixed (ActiveProtocolAdapterSetTopics_Adapter v)]) <$> values)
  | FAllowlistEnabledSet values => ("AllowlistEnabledSet"%string, (λ v, [
      VBool (AllowlistEnabledSetTopics_Enabled v)]) <$> values)
  | FAllowlistedUserSet values => ("AllowlistedUserSet"%string, (λ v, [
      VFixed (AllowlistedUserSetTopics_User v);
      VBool (AllowlistedUserSetTopics_Allowed v)]) <$> values)
  | FCCIPBridged values => ("CCIPBridged"%string, (λ v, [
      VFixed (CCIPBridgedTopics_CcipMessageId v);
      VUint (CCIPBridgedTopics_DestinationChainSelector v);
      VUint (CCIPBridgedTopics_CcipTxType v)]) <$> values)
  | FCCIPReceived values => ("CCIPReceived"%string, (λ v, [
      VFixed (CCIPReceivedTopics_CcipMessageId v);
      VUint (CCIPReceivedTopics_SourceChainSelector v);
      VUint (CCIPReceivedTopics_CcipTxType v)]) <$> values)
  | FCcipGasLimitSet values => ("CcipGasLimitSet"%string, (λ v, [
      VUint (CcipGasLimitSetTopics_ChainSelector v);
      VBig (CcipGasLimitSetTopics_GasLimit v)]) <$> values)
  | FCrosschainVaultSet values => ("CrosschainVaultSet"%string, (λ v, [
      VUint (CrosschainVaultSetTopics_ChainSelector v);
      VFixed (CrosschainVaultSetTopics_Vault v)]) <$> values)
  | FDefaultAdminDelayChangeCanceled values => ("DefaultAdminDelayChangeCanceled"%string, (λ _, []) <$> values)
  | FDefaultAdminDelayChangeScheduled values => ("DefaultAdminDelayChangeScheduled"%string, (λ _, []) <$> values)
  | FDefaultAdminTransferCanceled values => ("DefaultAdminTransferCanceled"%string, (λ _, []) <$> values)
  | FDefaultAdminTransferScheduled values => ("DefaultAdminTransferScheduled"%string, (λ v, [
      VFixed (DefaultAdminTransferScheduledTopics_NewAdmin v)]) <$> values)
  | FDefaultCcipGasLimitSet values => ("DefaultCcipGasLimitSet"%string, (λ v, [
      VBig (DefaultCcipGasLimitSetTopics_GasLimit v)]) <$> values)
  | FDepositCancelled values => ("DepositCancelled"%string, (λ v, [
      VBig (DepositCancelledTopics_EpochNonce v); VFixed (DepositCancelledTopics_Depositor v);
      VBig (DepositCancelledTopics_Amount v)]) <$> values)
  | FDepositClaimed values => ("DepositClaimed"%string, (λ v, [
      VBig (DepositClaimedTopics_EpochNonce v); VFixed (DepositClaimedTopics_Depositor v);
      VBig (DepositClaimedTopics_ShareMintAmount v)]) <$> values)
  | FDepositForceCancelled values => ("DepositForceCancelled"%string, (λ v, [
      VBig (DepositForceCancelledTopics_EpochNonce v);
      VFixed (DepositForceCancelledTopics_Depositor v);
      VBig (DepositForceCancelledTopics_Amount v)]) <$> values)
  | FDepositSubmitted values => ("DepositSubmitted"%string, (λ v, [
      VBig (DepositSubmittedTopics_EpochNonce v); VFixed (DepositSubmittedTopics_Depositor v);
      VBig (DepositSubmittedTopics_Amount v)]) <$> values)
  | FEpochClaimable values => ("EpochClaimable"%string, (λ v, [
      VBig (EpochClaimableTopics_EpochNonce v)]) <$> values)
  | FEpochDepositExecuting values => ("EpochDepositExecuting"%string, (λ v, [
      VBig (EpochDepositExecutingTopics_EpochNonce v);
      VBig (EpochDepositExecutingTopics_Amount v)]) <$> values)
  | FEpochDepositReconciled values => ("EpochDepositReconciled"%string, (λ v, [
      VBig (EpochDepositReconciledTopics_EpochNonce v);
      VBig (EpochDepositReconciledTopics_ActualDepositAmount v);
      VBig (EpochDepositReconciledTopics_ShareReduction v)]) <$> values)
  | FEpochDepositToStrategySuccess values => ("EpochDepositToStrategySuccess"%string, (λ v, [
      VBig (EpochDepositToStrategySuccessTopics_EpochNonce v);
      VBig (EpochDepositToStrategySuccessTopics_Amount v)]) <$> values)
  | FEpochOpen values => ("EpochOpen"%string, (λ v, [
      VBig (EpochOpenTopics_EpochNonce v)]) <$> values)
  | FEpochWithdrawAmountShort values => ("EpochWithdrawAmountShort"%string, (λ v, [
      VBig (EpochWithdrawAmountShortTopics_EpochNonce v);
      VBig (EpochWithdrawAmountShortTopics_ExpectedAmount v);
      VBig (EpochWithdrawAmountShortTopics_ActualAmount v)]) <$> values)
  | FEpochWithdrawExecuting values => ("EpochWithdrawExecuting"%string, (λ v, [
      VBig (EpochWithdrawExecutingTopics_EpochNonce v);
      VBig (EpochWithdrawExecutingTopics_Amount v)]) <$> values)
  | FEpochWithdrawFromStrategySuccess values => ("EpochWithdrawFromStrategySuccess"%string, (λ v, [
      VBig (EpochWithdrawFromStrategySuccessTopics_EpochNonce v);
      VBig (EpochWithdrawFromStrategySuccessTopics_Amount v)]) <$> values)
  | FInitialActiveProtocolAdapterSet values => ("InitialActiveProtocolAdapterSet"%string, (λ v, [
      VFixed (InitialActiveProtocolAdapterSetTopics_ProtocolId v);
      VFixed (InitialActiveProtocolAdapterSetTopics_Adapter v)]) <$> values)
  | FInitialized values => ("Initialized"%string, (λ _, []) <$> values)
  | FLinkWithdrawn values => ("LinkWithdrawn"%string, (λ v, [
      VFixed (LinkWithdrawnTopics_Operator v); VBig (LinkWithdrawnTopics_Amount v)]) <$> values)
  | FManagementFeeCollected values => ("ManagementFeeCollected"%string, (λ v, [
      VBig (ManagementFeeCollectedTopics_RebalanceNonce v);
      VBig (ManagementFeeCollectedTopics_FeeShares v)]) <$> values)
  | FPaused values => ("Paused"%string, (λ _, []) <$> values)
  | FRebalanceCompleted values => ("RebalanceCompleted"%string, (λ v, [
      VBig (RebalanceCompletedTopics_RebalanceNonce v);
      VFixed (RebalanceCompletedTopics_NewProtocolId v);
      VUint (RebalanceCompletedTopics_NewChainSelector v)]) <$> values)
  | FRebalanceDepositFailure values => ("RebalanceDepositFailure"%string, (λ v, [
      VBig (RebalanceDepositFailureTopics_RebalanceNonce v);
      VBig (RebalanceDepositFailureTopics_Amount v)]) <$> values)
  | FRebalanceDepositRecoveryCleared values => ("RebalanceDepositRecoveryCleared"%string, (λ v, [
      VBig (RebalanceDepositRecoveryClearedTopics_RebalanceNonce v)]) <$> values)
  | FRebalanceDepositRecoveryStored values => ("RebalanceDepositRecoveryStored"%string, (λ v, [
      VBig (RebalanceDepositRecoveryStoredTopics_RebalanceNonce v);
      VBig (RebalanceDepositRecoveryStoredTopics_Amount v)]) <$> values)
  | FRebalanceDepositSuccess values => ("RebalanceDepositSuccess"%string, (λ v, [
      VBig (RebalanceDepositSuccessTopics_RebalanceNonce v);
      VBig (RebalanceDepositSuccessTopics_Amount v)]) <$> values)
  | FRebalanceInitiated values => ("RebalanceInitiated"%string, (λ v, [
      VBig (RebalanceInitiatedTopics_RebalanceNonce v);
      VFixed (RebalanceInitiatedTopics_ProtocolId v);
      VUint (RebalanceInitiatedTopics_ChainSelector v)]) <$> values)
  | FRebalanceWithdrawSuccess values => ("RebalanceWithdrawSuccess"%string, (λ v, [
      VBig (RebalanceWithdrawSuccessTopics_RebalanceNonce v);
      VBig (RebalanceWithdrawSuccessTopics_Amount v)]) <$> values)
  | FRoleAdminChanged values => ("RoleAdminChanged"%string, (λ v, [
      VFixed (RoleAdminChangedTopics_Role v); VFixed (RoleAdminChangedTopics_PreviousAdminRole v);
      VFixed (RoleAdminChangedTopics_NewAdminRole v)]) <$> values)
  | FRoleGranted values => ("RoleGranted"%string, (λ v, [
      VFixed (RoleGrantedTopics_Role v); VFixed (RoleGrantedTopics_Account v);
      VFixed (RoleGrantedTopics_Sender v)]) <$> values)
  | FRoleRevoked values => ("RoleRevoked"%string, (λ v, [
      VFixed (RoleRevokedTopics_Role v); VFixed (RoleRevokedTopics_Account v);
      VFixed (RoleRevokedTopics_Sender v)]) <$> values)
  | FSupportedProtocolSet values => ("SupportedProtocolSet"%string, (λ v, [
      VFixed (SupportedProtocolSetTopics_ProtocolId v);
      VBool (SupportedProtocolSetTopics_IsSupported v)]) <$> values)
  | FTreasurySet values => ("TreasurySet"%string, (λ v, [
      VFixed (TreasurySetTopics_Treasury v)]) <$> values)
  | FUnpaused values => ("Unpaused"%string, (λ _, []) <$> values)
  | FUpgraded values => ("Upgraded"%string, (λ v, [
      VFixed (UpgradedTopics_Implementation v)]) <$> values)
  | FWithdrawCancelled values => ("WithdrawCancelled"%string, (λ v, [
      VBig (WithdrawCancelledTopics_EpochNonce v); VFixed (WithdrawCancelledTopics_Withdrawer v);
      VBig (WithdrawCancelledTopics_ShareBurnAmount v)]) <$> values)
  | FWithdrawClaimed values => ("WithdrawClaimed"%string, (λ v, [
      VBig (WithdrawClaimedTopics_EpochNonce v); VFixed (WithdrawClaimedTopics_Withdrawer v);
      VBig (WithdrawClaimedTopics_Amount v)]) <$> values)
  | FWithdrawSubmitted values => ("WithdrawSubmitted"%string, (λ v, [
      VBig (WithdrawSubmittedTopics_EpochNonce v); VFixed (WithdrawSubmittedTopics_Withdrawer v);
      VBig (WithdrawSubmittedTopics_ShareBurnAmount v)]) <$> values)
  end.
Definition encode_filters `{GoTopics} (evt : Event) (f : vault_filters) : res (list TopicValues) :=
  match f with
  | FActiveProtocolAdapterCleared values => EncodeActiveProtocolAdapterClearedTopics evt values
  | FActiveProtocolAdapterSet values => EncodeActiveProtocolAdapterSetTopics evt values
  | FAllowlistEnabledSet values => EncodeAllowlistEnabledSetTopics evt values
  | FAllowlistedUserSet values => EncodeAllowlistedUserSetTopics evt values
  | FCCIPBridged values => EncodeCCIPBridgedTopics evt values
  | FCCIPReceived values => EncodeCCIPReceivedTopics evt values
  | FCcipGasLimitSet values => EncodeCcipGasLimitSetTopics evt values
  | FCrosschainVaultSet values => EncodeCrosschainVaultSetTopics evt values
  | FDefaultAdminDelayChangeCanceled values => EncodeDefaultAdminDelayChangeCanceledTopics evt values
  | FDefaultAdminDelayChangeScheduled values => EncodeDefaultAdminDelayChangeScheduledTopics evt values
  | FDefaultAdminTransferCanceled values => EncodeDefaultAdminTransferCanceledTopics evt values
  | FDefaultAdminTransferScheduled values => EncodeDefaultAdminTransferScheduledTopics evt values
  | FDefaultCcipGasLimitSet values => EncodeDefaultCcipGasLimitSetTopics evt values
  | FDepositCancelled values => EncodeDepositCancelledTopics evt values
  | FDepositClaimed values => EncodeDepositClaimedTopics evt values
  | FDepositForceCancelled values => EncodeDepositForceCancelledTopics evt values
  | FDepositSubmitted values => EncodeDepositSubmittedTopics evt values
  | FEpochClaimable values => EncodeEpochClaimableTopics evt values
  | FEpochDepositExecuting values => EncodeEpochDepositExecutingTopics evt values
  | FEpochDepositReconciled values => EncodeEpochDepositReconciledTopics evt values
  | FEpochDepositToStrategySuccess values => EncodeEpochDepositToStrategySuccessTopics evt values
  | FEpochOpen values => EncodeEpochOpenTopics evt values
  | FEpochWithdrawAmountShort values => EncodeEpochWithdrawAmountShortTopics evt values
  | FEpochWithdrawExecuting values => EncodeEpochWithdrawExecutingTopics evt values
  | FEpochWithdrawFromStrategySuccess values => EncodeEpochWithdrawFromStrategySuccessTopics evt values
  | FInitialActiveProtocolAdapterSet values => EncodeInitialActiveProtocolAdapterSetTopics evt values
  | FInitialized values => EncodeInitializedTopics evt values
  | FLinkWithdrawn values => EncodeLinkWithdrawnTopics evt values
  | FManagementFeeCollected values => EncodeManagementFeeCollectedTopics evt values
  | FPaused values => EncodePausedTopics evt values
  | FRebalanceCompleted values => EncodeRebalanceCompletedTopics evt values
  | FRebalanceDepositFailure values => EncodeRebalanceDepositFailureTopics evt values
  | FRebalanceDepositRecoveryCleared values => EncodeRebalanceDepositRecoveryClearedTopics evt values
  | FRebalanceDepositRecoveryStored values => EncodeRebalanceDepositRecoveryStoredTopics evt values
  | FRebalanceDepositSuccess values => EncodeRebalanceDepositSuccessTopics evt values
  | FRebalanceInitiated values => EncodeRebalanceInitiatedTopics evt values
  | FRebalanceWithdrawSuccess values => EncodeRebalanceWithdrawSuccessTopics evt values
  | FRoleAdminChanged values => EncodeRoleAdminChangedTopics evt values
  | FRoleGranted values => EncodeRoleGrantedTopics evt values
  | FRoleRevoked values => EncodeRoleRevokedTopics evt values
  | FSupportedProtocolSet values => EncodeSupportedProtocolSetTopics evt values
  | FTreasurySet values => EncodeTreasurySetTopics evt values
  | FUnpaused values => EncodeUnpausedTopics evt values
  | FUpgraded values => EncodeUpgradedTopics evt values
  | FWithdrawCancelled values => EncodeWithdrawCancelledTopics evt values
  | FWithdrawClaimed values => EncodeWithdrawClaimedTopics evt values
  | FWithdrawSubmitted values => EncodeWithdrawSubmittedTopics evt values
  end.

(** ** Correctness *)
Definition inputs (e : vault_event) : list Argument := inputs_of events (describe e).1.
Definition well_typed (e : vault_event) : Prop := typed_values (inputs e) (describe e).2.

Section Correctness.
Context `{GoTopics} (c : ParentVault).

(** The encoders of topic filters: one rule per indexed input of the ABI, in its
    order, from the field of that name. *)
Theorem ParentTopics_reference evt f :
  encode_filters evt f = encode_topics evt (inputs_of events (filter_rows f).1) (filter_rows f).2.
Proof. destruct f; cbn [encode_filters filter_rows]; topics_case. Qed.

(** A trigger panics only on a nil log or on one without topics. *)
Theorem ParentAdapt_total {HE : GoEthereumLaws} e raw log :
  Log_Topics log ≠ [] → adapt_like e raw c (Some log) ≠ Crash.
Proof. destruct e; intros Hlog; cbn [adapt_like]; adapt_case Hlog. Qed.

Section Emitted.
Context {HL : GoEventsLaws (codec_abi (vault_Codec c)) events}.

(** The log the contract emits for an event. *)
Definition emit (address : bytes) (e : vault_event) : Log :=
  emitted address (describe e).1 (inputs e) (describe e).2.

Lemma parent_event e raw address :
  well_typed e → adapt_like e raw c (Some (emit address e)) = Ok (Some (emit address e), e).
Proof.
  unfold well_typed, emit, inputs.
  destruct e as [e|e|e|e|e|e|e|e|e|e|e|e|e|e|e|e|e|e|e|e|e|e|e|e|e|e|e|e|e|e|e|e|e|e|e|e|e|e|e|e|e|e|e|e|e|e|e];
    destruct e; cbn [describe adapt_like fst snd]; event_case.
Qed.

(** C29: Round trip of every event of the parent vault: the trigger of an event,
    given the log the contract emits for it with any values of the ABI's types,
    indexed or in the data, returns that log and the event's values, each in its
    field. *)
Theorem ParentEvent_roundtrip e raw address :
  well_typed e → adapt_like e raw c (Some (emit address e)) = Ok (Some (emit address e), e).
Proof. apply parent_event. Qed.
End Emitted.
End Correctness.

(** ** Witness *)
Module SampleParentEvents.
#[local] Instance toy_ethereum : GoEthereum := ToyEvents.ethereum_events events.
#[local] Instance toy_topics : GoTopics := {|
  bindings_PrepareTopicArg _ v := Ok v;
  abi_MakeTopics rules := Ok (map (map ToyEvents.topic) rules);
  bindings_PrepareTopics raw signature := mkTopicValues [signature] :: map mkTopicValues raw |}.
Definition vault : ParentVault := mkParentVault zeroAddress ParentVaultMetaData 1 (mkCodec ParentVaultMetaData).
#[local] Instance toy_laws : GoEventsLaws (codec_abi (vault_Codec vault)) events.
Proof.
  apply ToyEvents.events_laws.
  - apply (bool_decide_unpack _). vm_compute. exact I.
  - unfold events. repeat constructor.
Defined.

Definition raw : LogTrigger := mkLogTrigger 1 [zeroAddress] [] 0.
Definition sample : vault_event := EDepositSubmitted
  (mkDepositSubmittedDecoded (Some 3) zeroAddress (Some 1000000)).

Lemma ParentEvent_roundtrip_witness :
  adapt_like sample raw vault (Some (emit vault zeroAddress sample))
    = Ok (Some (emit vault zeroAddress sample), sample).
Proof.
  apply (ParentEvent_roundtrip vault sample raw zeroAddress). repeat constructor; done.
Defined.
End SampleParentEvents.
End parent_vault_events.
