(* ===== verification/BaseVaultEvents.v ===== *)
(** * The events of the base vault

    The structs, topic encoders, decoders, triggers and log queries of the
    events in [cre/contracts/evm/src/generated/base_vault/BaseVault.go]. *)

From S2P Require Import Prelude GoText BigInt Ethereum Runtime Bindings BaseVault AbiEvents.

#[local] Open Scope Z_scope.

Module base_vault_events.
Import base_vault.
(** ** Structs *)
Record ActiveProtocolAdapterClearedTopics := mkActiveProtocolAdapterClearedTopics {
  ActiveProtocolAdapterClearedTopics_Adapter : Address }.
Record ActiveProtocolAdapterClearedDecoded := mkActiveProtocolAdapterClearedDecoded {
  ActiveProtocolAdapterCleared_Adapter : Address }.
Record ActiveProtocolAdapterSetTopics := mkActiveProtocolAdapterSetTopics {
  ActiveProtocolAdapterSetTopics_ProtocolId : bytes;
  ActiveProtocolAdapterSetTopics_Adapter : Address }.
Record ActiveProtocolAdapterSetDecoded := mkActiveProtocolAdapterSetDecoded {
  ActiveProtocolAdapterSet_ProtocolId : bytes;
  ActiveProtocolAdapterSet_Adapter : Address }.
Record CCIPBridgedTopics := mkCCIPBridgedTopics {
  CCIPBridgedTopics_CcipMessageId : bytes;
  CCIPBridgedTopics_DestinationChainSelector : Z;
  CCIPBridgedTopics_CcipTxType : Z }.
Record CCIPBridgedDecoded := mkCCIPBridgedDecoded {
  CCIPBridged_CcipMessageId : bytes;
  CCIPBridged_DestinationChainSelector : Z;
  CCIPBridged_CcipTxType : Z }.
Record CCIPReceivedTopics := mkCCIPReceivedTopics {
  CCIPReceivedTopics_CcipMessageId : bytes;
  CCIPReceivedTopics_SourceChainSelector : Z;
  CCIPReceivedTopics_CcipTxType : Z }.
Record CCIPReceivedDecoded := mkCCIPReceivedDecoded {
  CCIPReceived_CcipMessageId : bytes;
  CCIPReceived_SourceChainSelector : Z;
  CCIPReceived_CcipTxType : Z }.
Record CcipGasLimitSetTopics := mkCcipGasLimitSetTopics {
  CcipGasLimitSetTopics_ChainSelector : Z;
  CcipGasLimitSetTopics_GasLimit : bigint }.
Record CcipGasLimitSetDecoded := mkCcipGasLimitSetDecoded {
  CcipGasLimitSet_ChainSelector : Z;
  CcipGasLimitSet_GasLimit : bigint }.
Record CrosschainVaultSetTopics := mkCrosschainVaultSetTopics {
  CrosschainVaultSetTopics_ChainSelector : Z;
  CrosschainVaultSetTopics_Vault : Address }.
Record CrosschainVaultSetDecoded := mkCrosschainVaultSetDecoded {
  CrosschainVaultSet_ChainSelector : Z;
  CrosschainVaultSet_Vault : Address }.
Record DefaultAdminDelayChangeCanceledTopics := mkDefaultAdminDelayChangeCanceledTopics {}.
Record DefaultAdminDelayChangeCanceledDecoded := mkDefaultAdminDelayChangeCanceledDecoded {}.
Record DefaultAdminDelayChangeScheduledTopics := mkDefaultAdminDelayChangeScheduledTopics {}.
Record DefaultAdminDelayChangeScheduledDecoded := mkDefaultAdminDelayChangeScheduledDecoded {
  DefaultAdminDelayChangeScheduled_NewDelay : bigint;
  DefaultAdminDelayChangeScheduled_EffectSchedule : bigint }.
Record DefaultAdminTransferCanceledTopics := mkDefaultAdminTransferCanceledTopics {}.
Record DefaultAdminTransferCanceledDecoded := mkDefaultAdminTransferCanceledDecoded {}.
Record DefaultAdminTransferScheduledTopics := mkDefaultAdminTransferScheduledTopics {
  DefaultAdminTransferScheduledTopics_NewAdmin : Address }.
Record DefaultAdminTransferScheduledDecoded := mkDefaultAdminTransferScheduledDecoded {
  DefaultAdminTransferScheduled_NewAdmin : Address;
  DefaultAdminTransferScheduled_AcceptSchedule : bigint }.
Record DefaultCcipGasLimitSetTopics := mkDefaultCcipGasLimitSetTopics {
  DefaultCcipGasLimitSetTopics_GasLimit : bigint }.
Record DefaultCcipGasLimitSetDecoded := mkDefaultCcipGasLimitSetDecoded {
  DefaultCcipGasLimitSet_GasLimit : bigint }.
Record EpochDepositToStrategySuccessTopics := mkEpochDepositToStrategySuccessTopics {
  EpochDepositToStrategySuccessTopics_EpochNonce : bigint;
  EpochDepositToStrategySuccessTopics_Amount : bigint }.
Record EpochDepositToStrategySuccessDecoded := mkEpochDepositToStrategySuccessDecoded {
  EpochDepositToStrategySuccess_EpochNonce : bigint;
  EpochDepositToStrategySuccess_Amount : bigint }.
Record EpochWithdrawFromStrategySuccessTopics := mkEpochWithdrawFromStrategySuccessTopics {
  EpochWithdrawFromStrategySuccessTopics_EpochNonce : bigint;
  EpochWithdrawFromStrategySuccessTopics_Amount : bigint }.
Record EpochWithdrawFromStrategySuccessDecoded := mkEpochWithdrawFromStrategySuccessDecoded {
  EpochWithdrawFromStrategySuccess_EpochNonce : bigint;
  EpochWithdrawFromStrategySuccess_Amount : bigint }.
Record InitializedTopics := mkInitializedTopics {}.
Record InitializedDecoded := mkInitializedDecoded { Initialized_Version : Z }.
Record LinkWithdrawnTopics := mkLinkWithdrawnTopics {
  LinkWithdrawnTopics_Operator : Address;
  LinkWithdrawnTopics_Amount : bigint }.
Record LinkWithdrawnDecoded := mkLinkWithdrawnDecoded {
  LinkWithdrawn_Operator : Address;
  LinkWithdrawn_Amount : bigint }.
Record PausedTopics := mkPausedTopics {}.
Record PausedDecoded := mkPausedDecoded { Paused_Account : Address }.
Record RebalanceDepositFailureTopics := mkRebalanceDepositFailureTopics {
  RebalanceDepositFailureTopics_RebalanceNonce : bigint;
  RebalanceDepositFailureTopics_Amount : bigint }.
Record RebalanceDepositFailureDecoded := mkRebalanceDepositFailureDecoded {
  RebalanceDepositFailure_RebalanceNonce : bigint;
  RebalanceDepositFailure_Amount : bigint }.
Record RebalanceDepositRecoveryClearedTopics := mkRebalanceDepositRecoveryClearedTopics {
  RebalanceDepositRecoveryClearedTopics_RebalanceNonce : bigint }.
Record RebalanceDepositRecoveryClearedDecoded := mkRebalanceDepositRecoveryClearedDecoded {
  RebalanceDepositRecoveryCleared_RebalanceNonce : bigint }.
Record RebalanceDepositRecoveryStoredTopics := mkRebalanceDepositRecoveryStoredTopics {
  RebalanceDepositRecoveryStoredTopics_RebalanceNonce : bigint;
  RebalanceDepositRecoveryStoredTopics_Amount : bigint }.
Record RebalanceDepositRecoveryStoredDecoded := mkRebalanceDepositRecoveryStoredDecoded {
  RebalanceDepositRecoveryStored_RebalanceNonce : bigint;
  RebalanceDepositRecoveryStored_Amount : bigint }.
Record RebalanceDepositSuccessTopics := mkRebalanceDepositSuccessTopics {
  RebalanceDepositSuccessTopics_RebalanceNonce : bigint;
  RebalanceDepositSuccessTopics_Amount : bigint }.
Record RebalanceDepositSuccessDecoded := mkRebalanceDepositSuccessDecoded {
  RebalanceDepositSuccess_RebalanceNonce : bigint;
  RebalanceDepositSuccess_Amount : bigint }.
Record RebalanceWithdrawSuccessTopics := mkRebalanceWithdrawSuccessTopics {
  RebalanceWithdrawSuccessTopics_RebalanceNonce : bigint;
  RebalanceWithdrawSuccessTopics_Amount : bigint }.
Record RebalanceWithdrawSuccessDecoded := mkRebalanceWithdrawSuccessDecoded {
  RebalanceWithdrawSuccess_RebalanceNonce : bigint;
  RebalanceWithdrawSuccess_Amount : bigint }.
Record RoleAdminChangedTopics := mkRoleAdminChangedTopics {
  RoleAdminChangedTopics_Role : bytes;
  RoleAdminChangedTopics_PreviousAdminRole : bytes;
  RoleAdminChangedTopics_NewAdminRole : bytes }.
Record RoleAdminChangedDecoded := mkRoleAdminChangedDecoded {
  RoleAdminChanged_Role : bytes;
  RoleAdminChanged_PreviousAdminRole : bytes;
  RoleAdminChanged_NewAdminRole : bytes }.
Record RoleGrantedTopics := mkRoleGrantedTopics {
  RoleGrantedTopics_Role : bytes;
  RoleGrantedTopics_Account : Address;
  RoleGrantedTopics_Sender : Address }.
Record RoleGrantedDecoded := mkRoleGrantedDecoded {
  RoleGranted_Role : bytes;
  RoleGranted_Account : Address;
  RoleGranted_Sender : Address }.
Record RoleRevokedTopics := mkRoleRevokedTopics {
  RoleRevokedTopics_Role : bytes;
  RoleRevokedTopics_Account : Address;
  RoleRevokedTopics_Sender : Address }.
Record RoleRevokedDecoded := mkRoleRevokedDecoded {
  RoleRevoked_Role : bytes;
  RoleRevoked_Account : Address;
  RoleRevoked_Sender : Address }.
Record UnpausedTopics := mkUnpausedTopics {}.
Record UnpausedDecoded := mkUnpausedDecoded { Unpaused_Account : Address }.
Record UpgradedTopics := mkUpgradedTopics { UpgradedTopics_Implementation : Address }.
Record UpgradedDecoded := mkUpgradedDecoded { Upgraded_Implementation : Address }.

(** The events of the metadata. *)
Definition events : event_table :=
  [("ActiveProtocolAdapterCleared"%string, [mkArgument "adapter" AddressTy true]);
   ("ActiveProtocolAdapterSet"%string, [mkArgument "protocolId" (FixedBytesTy 32) true;
      mkArgument "adapter" AddressTy true]);
   ("CCIPBridged"%string, [mkArgument "ccipMessageId" (FixedBytesTy 32) true;
      mkArgument "destinationChainSelector" (UintTy 64) true;
      mkArgument "ccipTxType" (UintTy 8) true]);
   ("CCIPReceived"%string, [mkArgument "ccipMessageId" (FixedBytesTy 32) true;
      mkArgument "sourceChainSelector" (UintTy 64) true;
      mkArgument "ccipTxType" (UintTy 8) true]);
   ("CcipGasLimitSet"%string, [mkArgument "chainSelector" (UintTy 64) true;
      mkArgument "gasLimit" (UintTy 256) true]);
   ("CrosschainVaultSet"%string, [mkArgument "chainSelector" (UintTy 64) true;
      mkArgument "vault" AddressTy true]);
   ("DefaultAdminDelayChangeCanceled"%string, []);
   ("DefaultAdminDelayChangeScheduled"%string, [mkArgument "newDelay" (UintTy 48) false;
      mkArgument "effectSchedule" (UintTy 48) false]);
   ("DefaultAdminTransferCanceled"%string, []);
   ("DefaultAdminTransferScheduled"%string, [mkArgument "newAdmin" AddressTy true;
      mkArgument "acceptSchedule" (UintTy 48) false]);
   ("DefaultCcipGasLimitSet"%string, [mkArgument "gasLimit" (UintTy 256) true]);
   ("EpochDepositToStrategySuccess"%string, [mkArgument "epochNonce" (UintTy 256) true;
      mkArgument "amount" (UintTy 256) true]);
   ("EpochWithdrawFromStrategySuccess"%string, [mkArgument "epochNonce" (UintTy 256) true;
      mkArgument "amount" (UintTy 256) true]);
   ("Initialized"%string, [mkArgument "version" (UintTy 64) false]);
   ("LinkWithdrawn"%string, [mkArgument "operator" AddressTy true;
      mkArgument "amount" (UintTy 256) true]);
   ("Paused"%string, [mkArgument "account" AddressTy false]);
   ("RebalanceDepositFailure"%string, [mkArgument "rebalanceNonce" (UintTy 256) true;
      mkArgument "amount" (UintTy 256) true]);
   ("RebalanceDepositRecoveryCleared"%string, [mkArgument "rebalanceNonce" (UintTy 256) true]);
   ("RebalanceDepositRecoveryStored"%string, [mkArgument "rebalanceNonce" (UintTy 256) true;
      mkArgument "amount" (UintTy 256) true]);
   ("RebalanceDepositSuccess"%string, [mkArgument "rebalanceNonce" (UintTy 256) true;
      mkArgument "amount" (UintTy 256) true]);
   ("RebalanceWithdrawSuccess"%string, [mkArgument "rebalanceNonce" (UintTy 256) true;
      mkArgument "amount" (UintTy 256) true]);
   ("RoleAdminChanged"%string, [mkArgument "role" (FixedBytesTy 32) true;
      mkArgument "previousAdminRole" (FixedBytesTy 32) true;
      mkArgument "newAdminRole" (FixedBytesTy 32) true]);
   ("RoleGranted"%string, [mkArgument "role" (FixedBytesTy 32) true;
      mkArgument "account" AddressTy true;
      mkArgument "sender" AddressTy true]);
   ("RoleRevoked"%string, [mkArgument "role" (FixedBytesTy 32) true;
      mkArgument "account" AddressTy true;
      mkArgument "sender" AddressTy true]);
   ("Unpaused"%string, [mkArgument "account" AddressTy false]);
   ("Upgraded"%string, [mkArgument "implementation" AddressTy true])].

Section Events.
Context `{GoTopics}.

(** ** Signature hashes *)
Definition ActiveProtocolAdapterClearedLogHash (c : Codec) : Hash := LogHash c "ActiveProtocolAdapterCleared".
Definition ActiveProtocolAdapterSetLogHash (c : Codec) : Hash := LogHash c "ActiveProtocolAdapterSet".
Definition CCIPBridgedLogHash (c : Codec) : Hash := LogHash c "CCIPBridged".
Definition CCIPReceivedLogHash (c : Codec) : Hash := LogHash c "CCIPReceived".
Definition CcipGasLimitSetLogHash (c : Codec) : Hash := LogHash c "CcipGasLimitSet".
Definition CrosschainVaultSetLogHash (c : Codec) : Hash := LogHash c "CrosschainVaultSet".
Definition DefaultAdminDelayChangeCanceledLogHash (c : Codec) : Hash := LogHash c "DefaultAdminDelayChangeCanceled".
Definition DefaultAdminDelayChangeScheduledLogHash (c : Codec) : Hash := LogHash c "DefaultAdminDelayChangeScheduled".
Definition DefaultAdminTransferCanceledLogHash (c : Codec) : Hash := LogHash c "DefaultAdminTransferCanceled".
Definition DefaultAdminTransferScheduledLogHash (c : Codec) : Hash := LogHash c "DefaultAdminTransferScheduled".
Definition DefaultCcipGasLimitSetLogHash (c : Codec) : Hash := LogHash c "DefaultCcipGasLimitSet".
Definition EpochDepositToStrategySuccessLogHash (c : Codec) : Hash := LogHash c "EpochDepositToStrategySuccess".
Definition EpochWithdrawFromStrategySuccessLogHash (c : Codec) : Hash := LogHash c "EpochWithdrawFromStrategySuccess".
Definition InitializedLogHash (c : Codec) : Hash := LogHash c "Initialized".
Definition LinkWithdrawnLogHash (c : Codec) : Hash := LogHash c "LinkWithdrawn".
Definition PausedLogHash (c : Codec) : Hash := LogHash c "Paused".
Definition RebalanceDepositFailureLogHash (c : Codec) : Hash := LogHash c "RebalanceDepositFailure".
Definition RebalanceDepositRecoveryClearedLogHash (c : Codec) : Hash := LogHash c "RebalanceDepositRecoveryCleared".
Definition RebalanceDepositRecoveryStoredLogHash (c : Codec) : Hash := LogHash c "RebalanceDepositRecoveryStored".
Definition RebalanceDepositSuccessLogHash (c : Codec) : Hash := LogHash c "RebalanceDepositSuccess".
Definition RebalanceWithdrawSuccessLogHash (c : Codec) : Hash := LogHash c "RebalanceWithdrawSuccess".
Definition RoleAdminChangedLogHash (c : Codec) : Hash := LogHash c "RoleAdminChanged".
Definition RoleGrantedLogHash (c : Codec) : Hash := LogHash c "RoleGranted".
Definition RoleRevokedLogHash (c : Codec) : Hash := LogHash c "RoleRevoked".
Definition UnpausedLogHash (c : Codec) : Hash := LogHash c "Unpaused".
Definition UpgradedLogHash (c : Codec) : Hash := LogHash c "Upgraded".

(** ** Topic filters *)
Definition EncodeActiveProtocolAdapterClearedTopics (evt : Event) (values : list ActiveProtocolAdapterClearedTopics)
    : res (list TopicValues) :=
  adapterRule ← topic_rule evt 0 (λ v, VFixed (ActiveProtocolAdapterClearedTopics_Adapter v)) values;
  make_topics evt [adapterRule].
Definition EncodeActiveProtocolAdapterSetTopics (evt : Event) (values : list ActiveProtocolAdapterSetTopics)
    : res (list TopicValues) :=
  protocolIdRule ← topic_rule evt 0 (λ v, VFixed (ActiveProtocolAdapterSetTopics_ProtocolId v)) values;
  adapterRule ← topic_rule evt 1 (λ v, VFixed (ActiveProtocolAdapterSetTopics_Adapter v)) values;
  make_topics evt [protocolIdRule; adapterRule].
Definition EncodeCCIPBridgedTopics (evt : Event) (values : list CCIPBridgedTopics)
    : res (list TopicValues) :=
  ccipMessageIdRule ← topic_rule evt 0 (λ v, VFixed (CCIPBridgedTopics_CcipMessageId v)) values;
  destinationChainSelectorRule ← topic_rule evt 1 (λ v, VUint (CCIPBridgedTopics_DestinationChainSelector v)) values;
  ccipTxTypeRule ← topic_rule evt 2 (λ v, VUint (CCIPBridgedTopics_CcipTxType v)) values;
  make_topics evt [ccipMessageIdRule; destinationChainSelectorRule; ccipTxTypeRule].
Definition EncodeCCIPReceivedTopics (evt : Event) (values : list CCIPReceivedTopics)
    : res (list TopicValues) :=
  ccipMessageIdRule ← topic_rule evt 0 (λ v, VFixed (CCIPReceivedTopics_CcipMessageId v)) values;
  sourceChainSelectorRule ← topic_rule evt 1 (λ v, VUint (CCIPReceivedTopics_SourceChainSelector v)) values;
  ccipTxTypeRule ← topic_rule evt 2 (λ v, VUint (CCIPReceivedTopics_CcipTxType v)) values;
  make_topics evt [ccipMessageIdRule; sourceChainSelectorRule; ccipTxTypeRule].
Definition EncodeCcipGasLimitSetTopics (evt : Event) (values : list CcipGasLimitSetTopics)
    : res (list TopicValues) :=
  chainSelectorRule ← topic_rule evt 0 (λ v, VUint (CcipGasLimitSetTopics_ChainSelector v)) values;
  gasLimitRule ← topic_rule evt 1 (λ v, VBig (CcipGasLimitSetTopics_GasLimit v)) values;
  make_topics evt [chainSelectorRule; gasLimitRule].
Definition EncodeCrosschainVaultSetTopics (evt : Event) (values : list CrosschainVaultSetTopics)
    : res (list TopicValues) :=
  chainSelectorRule ← topic_rule evt 0 (λ v, VUint (CrosschainVaultSetTopics_ChainSelector v)) values;
  vaultRule ← topic_rule evt 1 (λ v, VFixed (CrosschainVaultSetTopics_Vault v)) values;
  make_topics evt [chainSelectorRule; vaultRule].
Definition EncodeDefaultAdminDelayChangeCanceledTopics (evt : Event) (values : list DefaultAdminDelayChangeCanceledTopics)
    : res (list TopicValues) :=
  make_topics evt [].
Definition EncodeDefaultAdminDelayChangeScheduledTopics (evt : Event) (values : list DefaultAdminDelayChangeScheduledTopics)
    : res (list TopicValues) :=
  make_topics evt [].
Definition EncodeDefaultAdminTransferCanceledTopics (evt : Event) (values : list DefaultAdminTransferCanceledTopics)
    : res (list TopicValues) :=
  make_topics evt [].
Definition EncodeDefaultAdminTransferScheduledTopics (evt : Event) (values : list DefaultAdminTransferScheduledTopics)
    : res (list TopicValues) :=
  newAdminRule ← topic_rule evt 0 (λ v, VFixed (DefaultAdminTransferScheduledTopics_NewAdmin v)) values;
  make_topics evt [newAdminRule].
Definition EncodeDefaultCcipGasLimitSetTopics (evt : Event) (values : list DefaultCcipGasLimitSetTopics)
    : res (list TopicValues) :=
  gasLimitRule ← topic_rule evt 0 (λ v, VBig (DefaultCcipGasLimitSetTopics_GasLimit v)) values;
  make_topics evt [gasLimitRule].
Definition EncodeEpochDepositToStrategySuccessTopics (evt : Event) (values : list EpochDepositToStrategySuccessTopics)
    : res (list TopicValues) :=
  epochNonceRule ← topic_rule evt 0 (λ v, VBig (EpochDepositToStrategySuccessTopics_EpochNonce v)) values;
  amountRule ← topic_rule evt 1 (λ v, VBig (EpochDepositToStrategySuccessTopics_Amount v)) values;
  make_topics evt [epochNonceRule; amountRule].
Definition EncodeEpochWithdrawFromStrategySuccessTopics (evt : Event) (values : list EpochWithdrawFromStrategySuccessTopics)
    : res (list TopicValues) :=
  epochNonceRule ← topic_rule evt 0 (λ v, VBig (EpochWithdrawFromStrategySuccessTopics_EpochNonce v)) values;
  amountRule ← topic_rule evt 1 (λ v, VBig (EpochWithdrawFromStrategySuccessTopics_Amount v)) values;
  make_topics evt [epochNonceRule; amountRule].
Definition EncodeInitializedTopics (evt : Event) (values : list InitializedTopics)
    : res (list TopicValues) :=
  make_topics evt [].
Definition EncodeLinkWithdrawnTopics (evt : Event) (values : list LinkWithdrawnTopics)
    : res (list TopicValues) :=
  operatorRule ← topic_rule evt 0 (λ v, VFixed (LinkWithdrawnTopics_Operator v)) values;
  amountRule ← topic_rule evt 1 (λ v, VBig (LinkWithdrawnTopics_Amount v)) values;
  make_topics evt [operatorRule; amountRule].
Definition EncodePausedTopics (evt : Event) (values : list PausedTopics)
    : res (list TopicValues) :=
  make_topics evt [].
Definition EncodeRebalanceDepositFailureTopics (evt : Event) (values : list RebalanceDepositFailureTopics)
    : res (list TopicValues) :=
  rebalanceNonceRule ← topic_rule evt 0 (λ v, VBig (RebalanceDepositFailureTopics_RebalanceNonce v)) values;
  amountRule ← topic_rule evt 1 (λ v, VBig (RebalanceDepositFailureTopics_Amount v)) values;
  make_topics evt [rebalanceNonceRule; amountRule].
Definition EncodeRebalanceDepositRecoveryClearedTopics (evt : Event) (values : list RebalanceDepositRecoveryClearedTopics)
    : res (list TopicValues) :=
  rebalanceNonceRule ← topic_rule evt 0 (λ v, VBig (RebalanceDepositRecoveryClearedTopics_RebalanceNonce v)) values;
  make_topics evt [rebalanceNonceRule].
Definition EncodeRebalanceDepositRecoveryStoredTopics (evt : Event) (values : list RebalanceDepositRecoveryStoredTopics)
    : res (list TopicValues) :=
  rebalanceNonceRule ← topic_rule evt 0 (λ v, VBig (RebalanceDepositRecoveryStoredTopics_RebalanceNonce v)) values;
  amountRule ← topic_rule evt 1 (λ v, VBig (RebalanceDepositRecoveryStoredTopics_Amount v)) values;
  make_topics evt [rebalanceNonceRule; amountRule].
Definition EncodeRebalanceDepositSuccessTopics (evt : Event) (values : list RebalanceDepositSuccessTopics)
    : res (list TopicValues) :=
  rebalanceNonceRule ← topic_rule evt 0 (λ v, VBig (RebalanceDepositSuccessTopics_RebalanceNonce v)) values;
  amountRule ← topic_rule evt 1 (λ v, VBig (RebalanceDepositSuccessTopics_Amount v)) values;
  make_topics evt [rebalanceNonceRule; amountRule].
Definition EncodeRebalanceWithdrawSuccessTopics (evt : Event) (values : list RebalanceWithdrawSuccessTopics)
    : res (list TopicValues) :=
  rebalanceNonceRule ← topic_rule evt 0 (λ v, VBig (RebalanceWithdrawSuccessTopics_RebalanceNonce v)) values;
  amountRule ← topic_rule evt 1 (λ v, VBig (RebalanceWithdrawSuccessTopics_Amount v)) values;
  make_topics evt [rebalanceNonceRule; amountRule].
Definition EncodeRoleAdminChangedTopics (evt : Event) (values : list RoleAdminChangedTopics)
    : res (list TopicValues) :=
  roleRule ← topic_rule evt 0 (λ v, VFixed (RoleAdminChangedTopics_Role v)) values;
  previousAdminRoleRule ← topic_rule evt 1 (λ v, VFixed (RoleAdminChangedTopics_PreviousAdminRole v)) values;
  newAdminRoleRule ← topic_rule evt 2 (λ v, VFixed (RoleAdminChangedTopics_NewAdminRole v)) values;
  make_topics evt [roleRule; previousAdminRoleRule; newAdminRoleRule].
Definition EncodeRoleGrantedTopics (evt : Event) (values : list RoleGrantedTopics)
    : res (list TopicValues) :=
  roleRule ← topic_rule evt 0 (λ v, VFixed (RoleGrantedTopics_Role v)) values;
  accountRule ← topic_rule evt 1 (λ v, VFixed (RoleGrantedTopics_Account v)) values;
  senderRule ← topic_rule evt 2 (λ v, VFixed (RoleGrantedTopics_Sender v)) values;
  make_topics evt [roleRule; accountRule; senderRule].
Definition EncodeRoleRevokedTopics (evt : Event) (values : list RoleRevokedTopics)
    : res (list TopicValues) :=
  roleRule ← topic_rule evt 0 (λ v, VFixed (RoleRevokedTopics_Role v)) values;
  accountRule ← topic_rule evt 1 (λ v, VFixed (RoleRevokedTopics_Account v)) values;
  senderRule ← topic_rule evt 2 (λ v, VFixed (RoleRevokedTopics_Sender v)) values;
  make_topics evt [roleRule; accountRule; senderRule].
Definition EncodeUnpausedTopics (evt : Event) (values : list UnpausedTopics)
    : res (list TopicValues) :=
  make_topics evt [].
Definition EncodeUpgradedTopics (evt : Event) (values : list UpgradedTopics)
    : res (list TopicValues) :=
  implementationRule ← topic_rule evt 0 (λ v, VFixed (UpgradedTopics_Implementation v)) values;
  make_topics evt [implementationRule].

(** ** Decoders *)
Definition DecodeActiveProtocolAdapterCleared (c : Codec) (log : option Log) : res ActiveProtocolAdapterClearedDecoded :=
  m ← decode_event (codec_abi c) "ActiveProtocolAdapterCleared" log;
  Ok (mkActiveProtocolAdapterClearedDecoded (event_address m "adapter")).
Definition DecodeActiveProtocolAdapterSet (c : Codec) (log : option Log) : res ActiveProtocolAdapterSetDecoded :=
  m ← decode_event (codec_abi c) "ActiveProtocolAdapterSet" log;
  Ok (mkActiveProtocolAdapterSetDecoded (event_bytes32 m "protocolId") (event_address m "adapter")).
Definition DecodeCCIPBridged (c : Codec) (log : option Log) : res CCIPBridgedDecoded :=
  m ← decode_event (codec_abi c) "CCIPBridged" log;
  Ok (mkCCIPBridgedDecoded
        (event_bytes32 m "ccipMessageId") (event_uint m "destinationChainSelector")
        (event_uint m "ccipTxType")).
Definition DecodeCCIPReceived (c : Codec) (log : option Log) : res CCIPReceivedDecoded :=
  m ← decode_event (codec_abi c) "CCIPReceived" log;
  Ok (mkCCIPReceivedDecoded
        (event_bytes32 m "ccipMessageId") (event_uint m "sourceChainSelector")
        (event_uint m "ccipTxType")).
Definition DecodeCcipGasLimitSet (c : Codec) (log : option Log) : res CcipGasLimitSetDecoded :=
  m ← decode_event (codec_abi c) "CcipGasLimitSet" log;
  Ok (mkCcipGasLimitSetDecoded (event_uint m "chainSelector") (event_big m "gasLimit")).
Definition DecodeCrosschainVaultSet (c : Codec) (log : option Log) : res CrosschainVaultSetDecoded :=
  m ← decode_event (codec_abi c) "CrosschainVaultSet" log;
  Ok (mkCrosschainVaultSetDecoded (event_uint m "chainSelector") (event_address m "vault")).
Definition DecodeDefaultAdminDelayChangeCanceled (c : Codec) (log : option Log) : res DefaultAdminDelayChangeCanceledDecoded :=
  _ ← decode_event (codec_abi c) "DefaultAdminDelayChangeCanceled" log; Ok mkDefaultAdminDelayChangeCanceledDecoded.
Definition DecodeDefaultAdminDelayChangeScheduled (c : Codec) (log : option Log) : res DefaultAdminDelayChangeScheduledDecoded :=
  m ← decode_event (codec_abi c) "DefaultAdminDelayChangeScheduled" log;
  Ok (mkDefaultAdminDelayChangeScheduledDecoded
        (event_big m "newDelay") (event_big m "effectSchedule")).
Definition DecodeDefaultAdminTransferCanceled (c : Codec) (log : option Log) : res DefaultAdminTransferCanceledDecoded :=
  _ ← decode_event (codec_abi c) "DefaultAdminTransferCanceled" log; Ok mkDefaultAdminTransferCanceledDecoded.
Definition DecodeDefaultAdminTransferScheduled (c : Codec) (log : option Log) : res DefaultAdminTransferScheduledDecoded :=
  m ← decode_event (codec_abi c) "DefaultAdminTransferScheduled" log;
  Ok (mkDefaultAdminTransferScheduledDecoded
        (event_address m "newAdmin") (event_big m "acceptSchedule")).
Definition DecodeDefaultCcipGasLimitSet (c : Codec) (log : option Log) : res DefaultCcipGasLimitSetDecoded :=
  m ← decode_event (codec_abi c) "DefaultCcipGasLimitSet" log;
  Ok (mkDefaultCcipGasLimitSetDecoded (event_big m "gasLimit")).
Definition DecodeEpochDepositToStrategySuccess (c : Codec) (log : option Log) : res EpochDepositToStrategySuccessDecoded :=
  m ← decode_event (codec_abi c) "EpochDepositToStrategySuccess" log;
  Ok (mkEpochDepositToStrategySuccessDecoded (event_big m "epochNonce") (event_big m "amount")).
Definition DecodeEpochWithdrawFromStrategySuccess (c : Codec) (log : option Log) : res EpochWithdrawFromStrategySuccessDecoded :=
  m ← decode_event (codec_abi c) "EpochWithdrawFromStrategySuccess" log;
  Ok (mkEpochWithdrawFromStrategySuccessDecoded (event_big m "epochNonce") (event_big m "amount")).
Definition DecodeInitialized (c : Codec) (log : option Log) : res InitializedDecoded :=
  m ← decode_event (codec_abi c) "Initialized" log;
  Ok (mkInitializedDecoded (event_uint m "version")).
Definition DecodeLinkWithdrawn (c : Codec) (log : option Log) : res LinkWithdrawnDecoded :=
  m ← decode_event (codec_abi c) "LinkWithdrawn" log;
  Ok (mkLinkWithdrawnDecoded (event_address m "operator") (event_big m "amount")).
Definition DecodePaused (c : Codec) (log : option Log) : res PausedDecoded :=
  m ← decode_event (codec_abi c) "Paused" log;
  Ok (mkPausedDecoded (event_address m "account")).
Definition DecodeRebalanceDepositFailure (c : Codec) (log : option Log) : res RebalanceDepositFailureDecoded :=
  m ← decode_event (codec_abi c) "RebalanceDepositFailure" log;
  Ok (mkRebalanceDepositFailureDecoded (event_big m "rebalanceNonce") (event_big m "amount")).
Definition DecodeRebalanceDepositRecoveryCleared (c : Codec) (log : option Log) : res RebalanceDepositRecoveryClearedDecoded :=
  m ← decode_event (codec_abi c) "RebalanceDepositRecoveryCleared" log;
  Ok (mkRebalanceDepositRecoveryClearedDecoded (event_big m "rebalanceNonce")).
Definition DecodeRebalanceDepositRecoveryStored (c : Codec) (log : option Log) : res RebalanceDepositRecoveryStoredDecoded :=
  m ← decode_event (codec_abi c) "RebalanceDepositRecoveryStored" log;
  Ok (mkRebalanceDepositRecoveryStoredDecoded
        (event_big m "rebalanceNonce") (event_big m "amount")).
Definition DecodeRebalanceDepositSuccess (c : Codec) (log : option Log) : res RebalanceDepositSuccessDecoded :=
  m ← decode_event (codec_abi c) "RebalanceDepositSuccess" log;
  Ok (mkRebalanceDepositSuccessDecoded (event_big m "rebalanceNonce") (event_big m "amount")).
Definition DecodeRebalanceWithdrawSuccess (c : Codec) (log : option Log) : res RebalanceWithdrawSuccessDecoded :=
  m ← decode_event (codec_abi c) "RebalanceWithdrawSuccess" log;
  Ok (mkRebalanceWithdrawSuccessDecoded (event_big m "rebalanceNonce") (event_big m "amount")).
Definition DecodeRoleAdminChanged (c : Codec) (log : option Log) : res RoleAdminChangedDecoded :=
  m ← decode_event (codec_abi c) "RoleAdminChanged" log;
  Ok (mkRoleAdminChangedDecoded
        (event_bytes32 m "role") (event_bytes32 m "previousAdminRole")
        (event_bytes32 m "newAdminRole")).
Definition DecodeRoleGranted (c : Codec) (log : option Log) : res RoleGrantedDecoded :=
  m ← decode_event (codec_abi c) "RoleGranted" log;
  Ok (mkRoleGrantedDecoded
        (event_bytes32 m "role") (event_address m "account") (event_address m "sender")).
Definition DecodeRoleRevoked (c : Codec) (log : option Log) : res RoleRevokedDecoded :=
  m ← decode_event (codec_abi c) "RoleRevoked" log;
  Ok (mkRoleRevokedDecoded
        (event_bytes32 m "role") (event_address m "account") (event_address m "sender")).
Definition DecodeUnpaused (c : Codec) (log : option Log) : res UnpausedDecoded :=
  m ← decode_event (codec_abi c) "Unpaused" log;
  Ok (mkUnpausedDecoded (event_address m "account")).
Definition DecodeUpgraded (c : Codec) (log : option Log) : res UpgradedDecoded :=
  m ← decode_event (codec_abi c) "Upgraded" log;
  Ok (mkUpgradedDecoded (event_address m "implementation")).

(** ** Triggers *)
Record ActiveProtocolAdapterClearedTrigger := mkActiveProtocolAdapterClearedTrigger {
  ActiveProtocolAdapterCleared_Trigger : LogTrigger; ActiveProtocolAdapterCleared_contract : BaseVault }.
Definition AdaptActiveProtocolAdapterCleared (t : ActiveProtocolAdapterClearedTrigger) (l : option Log)
    : res (DecodedLog ActiveProtocolAdapterClearedDecoded) :=
  adapt "ActiveProtocolAdapterCleared" (DecodeActiveProtocolAdapterCleared (vault_Codec (ActiveProtocolAdapterCleared_contract t))) l.
Definition LogTriggerActiveProtocolAdapterClearedLog (c : BaseVault) (chainSelector confidence : Z)
    (filters : list ActiveProtocolAdapterClearedTopics) : res ActiveProtocolAdapterClearedTrigger :=
  let event := abi_Events (vault_ABI c) "ActiveProtocolAdapterCleared" in
  rawTrigger ← log_trigger "ActiveProtocolAdapterCleared" (vault_Address c) chainSelector confidence
                 (EncodeActiveProtocolAdapterClearedTopics event filters);
  Ok (mkActiveProtocolAdapterClearedTrigger rawTrigger c).
Definition FilterLogsActiveProtocolAdapterCleared (c : BaseVault) (options : option FilterOptions)
    : res (Z * FilterQuery) :=
  filter_logs (vault_client c) (vault_Address c) (ActiveProtocolAdapterClearedLogHash (vault_Codec c)) options.
Record ActiveProtocolAdapterSetTrigger := mkActiveProtocolAdapterSetTrigger {
  ActiveProtocolAdapterSet_Trigger : LogTrigger; ActiveProtocolAdapterSet_contract : BaseVault }.
Definition AdaptActiveProtocolAdapterSet (t : ActiveProtocolAdapterSetTrigger) (l : option Log)
    : res (DecodedLog ActiveProtocolAdapterSetDecoded) :=
  adapt "ActiveProtocolAdapterSet" (DecodeActiveProtocolAdapterSet (vault_Codec (ActiveProtocolAdapterSet_contract t))) l.
Definition LogTriggerActiveProtocolAdapterSetLog (c : BaseVault) (chainSelector confidence : Z)
    (filters : list ActiveProtocolAdapterSetTopics) : res ActiveProtocolAdapterSetTrigger :=
  let event := abi_Events (vault_ABI c) "ActiveProtocolAdapterSet" in
  rawTrigger ← log_trigger "ActiveProtocolAdapterSet" (vault_Address c) chainSelector confidence
                 (EncodeActiveProtocolAdapterSetTopics event filters);
  Ok (mkActiveProtocolAdapterSetTrigger rawTrigger c).
Definition FilterLogsActiveProtocolAdapterSet (c : BaseVault) (options : option FilterOptions)
    : res (Z * FilterQuery) :=
  filter_logs (vault_client c) (vault_Address c) (ActiveProtocolAdapterSetLogHash (vault_Codec c)) options.
Record CCIPBridgedTrigger := mkCCIPBridgedTrigger {
  CCIPBridged_Trigger : LogTrigger; CCIPBridged_contract : BaseVault }.
Definition AdaptCCIPBridged (t : CCIPBridgedTrigger) (l : option Log)
    : res (DecodedLog CCIPBridgedDecoded) :=
  adapt "CCIPBridged" (DecodeCCIPBridged (vault_Codec (CCIPBridged_contract t))) l.
Definition LogTriggerCCIPBridgedLog (c : BaseVault) (chainSelector confidence : Z)
    (filters : list CCIPBridgedTopics) : res CCIPBridgedTrigger :=
  let event := abi_Events (vault_ABI c) "CCIPBridged" in
  rawTrigger ← log_trigger "CCIPBridged" (vault_Address c) chainSelector confidence
                 (EncodeCCIPBridgedTopics event filters);
  Ok (mkCCIPBridgedTrigger rawTrigger c).
Definition FilterLogsCCIPBridged (c : BaseVault) (options : option FilterOptions)
    : res (Z * FilterQuery) :=
  filter_logs (vault_client c) (vault_Address c) (CCIPBridgedLogHash (vault_Codec c)) options.
Record CCIPReceivedTrigger := mkCCIPReceivedTrigger {
  CCIPReceived_Trigger : LogTrigger; CCIPReceived_contract : BaseVault }.
Definition AdaptCCIPReceived (t : CCIPReceivedTrigger) (l : option Log)
    : res (DecodedLog CCIPReceivedDecoded) :=
  adapt "CCIPReceived" (DecodeCCIPReceived (vault_Codec (CCIPReceived_contract t))) l.
Definition LogTriggerCCIPReceivedLog (c : BaseVault) (chainSelector confidence : Z)
    (filters : list CCIPReceivedTopics) : res CCIPReceivedTrigger :=
  let event := abi_Events (vault_ABI c) "CCIPReceived" in
  rawTrigger ← log_trigger "CCIPReceived" (vault_Address c) chainSelector confidence
                 (EncodeCCIPReceivedTopics event filters);
  Ok (mkCCIPReceivedTrigger rawTrigger c).
Definition FilterLogsCCIPReceived (c : BaseVault) (options : option FilterOptions)
    : res (Z * FilterQuery) :=
  filter_logs (vault_client c) (vault_Address c) (CCIPReceivedLogHash (vault_Codec c)) options.
Record CcipGasLimitSetTrigger := mkCcipGasLimitSetTrigger {
  CcipGasLimitSet_Trigger : LogTrigger; CcipGasLimitSet_contract : BaseVault }.
Definition AdaptCcipGasLimitSet (t : CcipGasLimitSetTrigger) (l : option Log)
    : res (DecodedLog CcipGasLimitSetDecoded) :=
  adapt "CcipGasLimitSet" (DecodeCcipGasLimitSet (vault_Codec (CcipGasLimitSet_contract t))) l.
Definition LogTriggerCcipGasLimitSetLog (c : BaseVault) (chainSelector confidence : Z)
    (filters : list CcipGasLimitSetTopics) : res CcipGasLimitSetTrigger :=
  let event := abi_Events (vault_ABI c) "CcipGasLimitSet" in
  rawTrigger ← log_trigger "CcipGasLimitSet" (vault_Address c) chainSelector confidence
                 (EncodeCcipGasLimitSetTopics event filters);
  Ok (mkCcipGasLimitSetTrigger rawTrigger c).
Definition FilterLogsCcipGasLimitSet (c : BaseVault) (options : option FilterOptions)
    : res (Z * FilterQuery) :=
  filter_logs (vault_client c) (vault_Address c) (CcipGasLimitSetLogHash (vault_Codec c)) options.
Record CrosschainVaultSetTrigger := mkCrosschainVaultSetTrigger {
  CrosschainVaultSet_Trigger : LogTrigger; CrosschainVaultSet_contract : BaseVault }.
Definition AdaptCrosschainVaultSet (t : CrosschainVaultSetTrigger) (l : option Log)
    : res (DecodedLog CrosschainVaultSetDecoded) :=
  adapt "CrosschainVaultSet" (DecodeCrosschainVaultSet (vault_Codec (CrosschainVaultSet_contract t))) l.
Definition LogTriggerCrosschainVaultSetLog (c : BaseVault) (chainSelector confidence : Z)
    (filters : list CrosschainVaultSetTopics) : res CrosschainVaultSetTrigger :=
  let event := abi_Events (vault_ABI c) "CrosschainVaultSet" in
  rawTrigger ← log_trigger "CrosschainVaultSet" (vault_Address c) chainSelector confidence
                 (EncodeCrosschainVaultSetTopics event filters);
  Ok (mkCrosschainVaultSetTrigger rawTrigger c).
Definition FilterLogsCrosschainVaultSet (c : BaseVault) (options : option FilterOptions)
    : res (Z * FilterQuery) :=
  filter_logs (vault_client c) (vault_Address c) (CrosschainVaultSetLogHash (vault_Codec c)) options.
Record DefaultAdminDelayChangeCanceledTrigger := mkDefaultAdminDelayChangeCanceledTrigger {
  DefaultAdminDelayChangeCanceled_Trigger : LogTrigger; DefaultAdminDelayChangeCanceled_contract : BaseVault }.
Definition AdaptDefaultAdminDelayChangeCanceled (t : DefaultAdminDelayChangeCanceledTrigger) (l : option Log)
    : res (DecodedLog DefaultAdminDelayChangeCanceledDecoded) :=
  adapt "DefaultAdminDelayChangeCanceled" (DecodeDefaultAdminDelayChangeCanceled (vault_Codec (DefaultAdminDelayChangeCanceled_contract t))) l.
Definition LogTriggerDefaultAdminDelayChangeCanceledLog (c : BaseVault) (chainSelector confidence : Z)
    (filters : list DefaultAdminDelayChangeCanceledTopics) : res DefaultAdminDelayChangeCanceledTrigger :=
  let event := abi_Events (vault_ABI c) "DefaultAdminDelayChangeCanceled" in
  rawTrigger ← log_trigger "DefaultAdminDelayChangeCanceled" (vault_Address c) chainSelector confidence
                 (EncodeDefaultAdminDelayChangeCanceledTopics event filters);
  Ok (mkDefaultAdminDelayChangeCanceledTrigger rawTrigger c).
Definition FilterLogsDefaultAdminDelayChangeCanceled (c : BaseVault) (options : option FilterOptions)
    : res (Z * FilterQuery) :=
  filter_logs (vault_client c) (vault_Address c) (DefaultAdminDelayChangeCanceledLogHash (vault_Codec c)) options.
Record DefaultAdminDelayChangeScheduledTrigger := mkDefaultAdminDelayChangeScheduledTrigger {
  DefaultAdminDelayChangeScheduled_Trigger : LogTrigger; DefaultAdminDelayChangeScheduled_contract : BaseVault }.
Definition AdaptDefaultAdminDelayChangeScheduled (t : DefaultAdminDelayChangeScheduledTrigger) (l : option Log)
    : res (DecodedLog DefaultAdminDelayChangeScheduledDecoded) :=
  adapt "DefaultAdminDelayChangeScheduled" (DecodeDefaultAdminDelayChangeScheduled (vault_Codec (DefaultAdminDelayChangeScheduled_contract t))) l.
Definition LogTriggerDefaultAdminDelayChangeScheduledLog (c : BaseVault) (chainSelector confidence : Z)
    (filters : list DefaultAdminDelayChangeScheduledTopics) : res DefaultAdminDelayChangeScheduledTrigger :=
  let event := abi_Events (vault_ABI c) "DefaultAdminDelayChangeScheduled" in
  rawTrigger ← log_trigger "DefaultAdminDelayChangeScheduled" (vault_Address c) chainSelector confidence
                 (EncodeDefaultAdminDelayChangeScheduledTopics event filters);
  Ok (mkDefaultAdminDelayChangeScheduledTrigger rawTrigger c).
Definition FilterLogsDefaultAdminDelayChangeScheduled (c : BaseVault) (options : option FilterOptions)
    : res (Z * FilterQuery) :=
  filter_logs (vault_client c) (vault_Address c) (DefaultAdminDelayChangeScheduledLogHash (vault_Codec c)) options.
Record DefaultAdminTransferCanceledTrigger := mkDefaultAdminTransferCanceledTrigger {
  DefaultAdminTransferCanceled_Trigger : LogTrigger; DefaultAdminTransferCanceled_contract : BaseVault }.
Definition AdaptDefaultAdminTransferCanceled (t : DefaultAdminTransferCanceledTrigger) (l : option Log)
    : res (DecodedLog DefaultAdminTransferCanceledDecoded) :=
  adapt "DefaultAdminTransferCanceled" (DecodeDefaultAdminTransferCanceled (vault_Codec (DefaultAdminTransferCanceled_contract t))) l.
Definition LogTriggerDefaultAdminTransferCanceledLog (c : BaseVault) (chainSelector confidence : Z)
    (filters : list DefaultAdminTransferCanceledTopics) : res DefaultAdminTransferCanceledTrigger :=
  let event := abi_Events (vault_ABI c) "DefaultAdminTransferCanceled" in
  rawTrigger ← log_trigger "DefaultAdminTransferCanceled" (vault_Address c) chainSelector confidence
                 (EncodeDefaultAdminTransferCanceledTopics event filters);
  Ok (mkDefaultAdminTransferCanceledTrigger rawTrigger c).
Definition FilterLogsDefaultAdminTransferCanceled (c : BaseVault) (options : option FilterOptions)
    : res (Z * FilterQuery) :=
  filter_logs (vault_client c) (vault_Address c) (DefaultAdminTransferCanceledLogHash (vault_Codec c)) options.
Record DefaultAdminTransferScheduledTrigger := mkDefaultAdminTransferScheduledTrigger {
  DefaultAdminTransferScheduled_Trigger : LogTrigger; DefaultAdminTransferScheduled_contract : BaseVault }.
Definition AdaptDefaultAdminTransferScheduled (t : DefaultAdminTransferScheduledTrigger) (l : option Log)
    : res (DecodedLog DefaultAdminTransferScheduledDecoded) :=
  adapt "DefaultAdminTransferScheduled" (DecodeDefaultAdminTransferScheduled (vault_Codec (DefaultAdminTransferScheduled_contract t))) l.
Definition LogTriggerDefaultAdminTransferScheduledLog (c : BaseVault) (chainSelector confidence : Z)
    (filters : list DefaultAdminTransferScheduledTopics) : res DefaultAdminTransferScheduledTrigger :=
  let event := abi_Events (vault_ABI c) "DefaultAdminTransferScheduled" in
  rawTrigger ← log_trigger "DefaultAdminTransferScheduled" (vault_Address c) chainSelector confidence
                 (EncodeDefaultAdminTransferScheduledTopics event filters);
  Ok (mkDefaultAdminTransferScheduledTrigger rawTrigger c).
Definition FilterLogsDefaultAdminTransferScheduled (c : BaseVault) (options : option FilterOptions)
    : res (Z * FilterQuery) :=
  filter_logs (vault_client c) (vault_Address c) (DefaultAdminTransferScheduledLogHash (vault_Codec c)) options.
Record DefaultCcipGasLimitSetTrigger := mkDefaultCcipGasLimitSetTrigger {
  DefaultCcipGasLimitSet_Trigger : LogTrigger; DefaultCcipGasLimitSet_contract : BaseVault }.
Definition AdaptDefaultCcipGasLimitSet (t : DefaultCcipGasLimitSetTrigger) (l : option Log)
    : res (DecodedLog DefaultCcipGasLimitSetDecoded) :=
  adapt "DefaultCcipGasLimitSet" (DecodeDefaultCcipGasLimitSet (vault_Codec (DefaultCcipGasLimitSet_contract t))) l.
Definition LogTriggerDefaultCcipGasLimitSetLog (c : BaseVault) (chainSelector confidence : Z)
    (filters : list DefaultCcipGasLimitSetTopics) : res DefaultCcipGasLimitSetTrigger :=
  let event := abi_Events (vault_ABI c) "DefaultCcipGasLimitSet" in
  rawTrigger ← log_trigger "DefaultCcipGasLimitSet" (vault_Address c) chainSelector confidence
                 (EncodeDefaultCcipGasLimitSetTopics event filters);
  Ok (mkDefaultCcipGasLimitSetTrigger rawTrigger c).
Definition FilterLogsDefaultCcipGasLimitSet (c : BaseVault) (options : option FilterOptions)
    : res (Z * FilterQuery) :=
  filter_logs (vault_client c) (vault_Address c) (DefaultCcipGasLimitSetLogHash (vault_Codec c)) options.
Record EpochDepositToStrategySuccessTrigger := mkEpochDepositToStrategySuccessTrigger {
  EpochDepositToStrategySuccess_Trigger : LogTrigger; EpochDepositToStrategySuccess_contract : BaseVault }.
Definition AdaptEpochDepositToStrategySuccess (t : EpochDepositToStrategySuccessTrigger) (l : option Log)
    : res (DecodedLog EpochDepositToStrategySuccessDecoded) :=
  adapt "EpochDepositToStrategySuccess" (DecodeEpochDepositToStrategySuccess (vault_Codec (EpochDepositToStrategySuccess_contract t))) l.
Definition LogTriggerEpochDepositToStrategySuccessLog (c : BaseVault) (chainSelector confidence : Z)
    (filters : list EpochDepositToStrategySuccessTopics) : res EpochDepositToStrategySuccessTrigger :=
  let event := abi_Events (vault_ABI c) "EpochDepositToStrategySuccess" in
  rawTrigger ← log_trigger "EpochDepositToStrategySuccess" (vault_Address c) chainSelector confidence
                 (EncodeEpochDepositToStrategySuccessTopics event filters);
  Ok (mkEpochDepositToStrategySuccessTrigger rawTrigger c).
Definition FilterLogsEpochDepositToStrategySuccess (c : BaseVault) (options : option FilterOptions)
    : res (Z * FilterQuery) :=
  filter_logs (vault_client c) (vault_Address c) (EpochDepositToStrategySuccessLogHash (vault_Codec c)) options.
Record EpochWithdrawFromStrategySuccessTrigger := mkEpochWithdrawFromStrategySuccessTrigger {
  EpochWithdrawFromStrategySuccess_Trigger : LogTrigger; EpochWithdrawFromStrategySuccess_contract : BaseVault }.
Definition AdaptEpochWithdrawFromStrategySuccess (t : EpochWithdrawFromStrategySuccessTrigger) (l : option Log)
    : res (DecodedLog EpochWithdrawFromStrategySuccessDecoded) :=
  adapt "EpochWithdrawFromStrategySuccess" (DecodeEpochWithdrawFromStrategySuccess (vault_Codec (EpochWithdrawFromStrategySuccess_contract t))) l.
Definition LogTriggerEpochWithdrawFromStrategySuccessLog (c : BaseVault) (chainSelector confidence : Z)
    (filters : list EpochWithdrawFromStrategySuccessTopics) : res EpochWithdrawFromStrategySuccessTrigger :=
  let event := abi_Events (vault_ABI c) "EpochWithdrawFromStrategySuccess" in
  rawTrigger ← log_trigger "EpochWithdrawFromStrategySuccess" (vault_Address c) chainSelector confidence
                 (EncodeEpochWithdrawFromStrategySuccessTopics event filters);
  Ok (mkEpochWithdrawFromStrategySuccessTrigger rawTrigger c).
Definition FilterLogsEpochWithdrawFromStrategySuccess (c : BaseVault) (options : option FilterOptions)
    : res (Z * FilterQuery) :=
  filter_logs (vault_client c) (vault_Address c) (EpochWithdrawFromStrategySuccessLogHash (vault_Codec c)) options.
Record InitializedTrigger := mkInitializedTrigger {
  Initialized_Trigger : LogTrigger; Initialized_contract : BaseVault }.
Definition AdaptInitialized (t : InitializedTrigger) (l : option Log)
    : res (DecodedLog InitializedDecoded) :=
  adapt "Initialized" (DecodeInitialized (vault_Codec (Initialized_contract t))) l.
Definition LogTriggerInitializedLog (c : BaseVault) (chainSelector confidence : Z)
    (filters : list InitializedTopics) : res InitializedTrigger :=
  let event := abi_Events (vault_ABI c) "Initialized" in
  rawTrigger ← log_trigger "Initialized" (vault_Address c) chainSelector confidence
                 (EncodeInitializedTopics event filters);
  Ok (mkInitializedTrigger rawTrigger c).
Definition FilterLogsInitialized (c : BaseVault) (options : option FilterOptions)
    : res (Z * FilterQuery) :=
  filter_logs (vault_client c) (vault_Address c) (InitializedLogHash (vault_Codec c)) options.
Record LinkWithdrawnTrigger := mkLinkWithdrawnTrigger {
  LinkWithdrawn_Trigger : LogTrigger; LinkWithdrawn_contract : BaseVault }.
Definition AdaptLinkWithdrawn (t : LinkWithdrawnTrigger) (l : option Log)
    : res (DecodedLog LinkWithdrawnDecoded) :=
  adapt "LinkWithdrawn" (DecodeLinkWithdrawn (vault_Codec (LinkWithdrawn_contract t))) l.
Definition LogTriggerLinkWithdrawnLog (c : BaseVault) (chainSelector confidence : Z)
    (filters : list LinkWithdrawnTopics) : res LinkWithdrawnTrigger :=
  let event := abi_Events (vault_ABI c) "LinkWithdrawn" in
  rawTrigger ← log_trigger "LinkWithdrawn" (vault_Address c) chainSelector confidence
                 (EncodeLinkWithdrawnTopics event filters);
  Ok (mkLinkWithdrawnTrigger rawTrigger c).
Definition FilterLogsLinkWithdrawn (c : BaseVault) (options : option FilterOptions)
    : res (Z * FilterQuery) :=
  filter_logs (vault_client c) (vault_Address c) (LinkWithdrawnLogHash (vault_Codec c)) options.
Record PausedTrigger := mkPausedTrigger {
  Paused_Trigger : LogTrigger; Paused_contract : BaseVault }.
Definition AdaptPaused (t : PausedTrigger) (l : option Log)
    : res (DecodedLog PausedDecoded) :=
  adapt "Paused" (DecodePaused (vault_Codec (Paused_contract t))) l.
Definition LogTriggerPausedLog (c : BaseVault) (chainSelector confidence : Z)
    (filters : list PausedTopics) : res PausedTrigger :=
  let event := abi_Events (vault_ABI c) "Paused" in
  rawTrigger ← log_trigger "Paused" (vault_Address c) chainSelector confidence
                 (EncodePausedTopics event filters);
  Ok (mkPausedTrigger rawTrigger c).
Definition FilterLogsPaused (c : BaseVault) (options : option FilterOptions)
    : res (Z * FilterQuery) :=
  filter_logs (vault_client c) (vault_Address c) (PausedLogHash (vault_Codec c)) options.
Record RebalanceDepositFailureTrigger := mkRebalanceDepositFailureTrigger {
  RebalanceDepositFailure_Trigger : LogTrigger; RebalanceDepositFailure_contract : BaseVault }.
Definition AdaptRebalanceDepositFailure (t : RebalanceDepositFailureTrigger) (l : option Log)
    : res (DecodedLog RebalanceDepositFailureDecoded) :=
  adapt "RebalanceDepositFailure" (DecodeRebalanceDepositFailure (vault_Codec (RebalanceDepositFailure_contract t))) l.
Definition LogTriggerRebalanceDepositFailureLog (c : BaseVault) (chainSelector confidence : Z)
    (filters : list RebalanceDepositFailureTopics) : res RebalanceDepositFailureTrigger :=
  let event := abi_Events (vault_ABI c) "RebalanceDepositFailure" in
  rawTrigger ← log_trigger "RebalanceDepositFailure" (vault_Address c) chainSelector confidence
                 (EncodeRebalanceDepositFailureTopics event filters);
  Ok (mkRebalanceDepositFailureTrigger rawTrigger c).
Definition FilterLogsRebalanceDepositFailure (c : BaseVault) (options : option FilterOptions)
    : res (Z * FilterQuery) :=
  filter_logs (vault_client c) (vault_Address c) (RebalanceDepositFailureLogHash (vault_Codec c)) options.
Record RebalanceDepositRecoveryClearedTrigger := mkRebalanceDepositRecoveryClearedTrigger {
  RebalanceDepositRecoveryCleared_Trigger : LogTrigger; RebalanceDepositRecoveryCleared_contract : BaseVault }.
Definition AdaptRebalanceDepositRecoveryCleared (t : RebalanceDepositRecoveryClearedTrigger) (l : option Log)
    : res (DecodedLog RebalanceDepositRecoveryClearedDecoded) :=
  adapt "RebalanceDepositRecoveryCleared" (DecodeRebalanceDepositRecoveryCleared (vault_Codec (RebalanceDepositRecoveryCleared_contract t))) l.
Definition LogTriggerRebalanceDepositRecoveryClearedLog (c : BaseVault) (chainSelector confidence : Z)
    (filters : list RebalanceDepositRecoveryClearedTopics) : res RebalanceDepositRecoveryClearedTrigger :=
  let event := abi_Events (vault_ABI c) "RebalanceDepositRecoveryCleared" in
  rawTrigger ← log_trigger "RebalanceDepositRecoveryCleared" (vault_Address c) chainSelector confidence
                 (EncodeRebalanceDepositRecoveryClearedTopics event filters);
  Ok (mkRebalanceDepositRecoveryClearedTrigger rawTrigger c).
Definition FilterLogsRebalanceDepositRecoveryCleared (c : BaseVault) (options : option FilterOptions)
    : res (Z * FilterQuery) :=
  filter_logs (vault_client c) (vault_Address c) (RebalanceDepositRecoveryClearedLogHash (vault_Codec c)) options.
Record RebalanceDepositRecoveryStoredTrigger := mkRebalanceDepositRecoveryStoredTrigger {
  RebalanceDepositRecoveryStored_Trigger : LogTrigger; RebalanceDepositRecoveryStored_contract : BaseVault }.
Definition AdaptRebalanceDepositRecoveryStored (t : RebalanceDepositRecoveryStoredTrigger) (l : option Log)
    : res (DecodedLog RebalanceDepositRecoveryStoredDecoded) :=
  adapt "RebalanceDepositRecoveryStored" (DecodeRebalanceDepositRecoveryStored (vault_Codec (RebalanceDepositRecoveryStored_contract t))) l.
Definition LogTriggerRebalanceDepositRecoveryStoredLog (c : BaseVault) (chainSelector confidence : Z)
    (filters : list RebalanceDepositRecoveryStoredTopics) : res RebalanceDepositRecoveryStoredTrigger :=
  let event := abi_Events (vault_ABI c) "RebalanceDepositRecoveryStored" in
  rawTrigger ← log_trigger "RebalanceDepositRecoveryStored" (vault_Address c) chainSelector confidence
                 (EncodeRebalanceDepositRecoveryStoredTopics event filters);
  Ok (mkRebalanceDepositRecoveryStoredTrigger rawTrigger c).
Definition FilterLogsRebalanceDepositRecoveryStored (c : BaseVault) (options : option FilterOptions)
    : res (Z * FilterQuery) :=
  filter_logs (vault_client c) (vault_Address c) (RebalanceDepositRecoveryStoredLogHash (vault_Codec c)) options.
Record RebalanceDepositSuccessTrigger := mkRebalanceDepositSuccessTrigger {
  RebalanceDepositSuccess_Trigger : LogTrigger; RebalanceDepositSuccess_contract : BaseVault }.
Definition AdaptRebalanceDepositSuccess (t : RebalanceDepositSuccessTrigger) (l : option Log)
    : res (DecodedLog RebalanceDepositSuccessDecoded) :=
  adapt "RebalanceDepositSuccess" (DecodeRebalanceDepositSuccess (vault_Codec (RebalanceDepositSuccess_contract t))) l.
Definition LogTriggerRebalanceDepositSuccessLog (c : BaseVault) (chainSelector confidence : Z)
    (filters : list RebalanceDepositSuccessTopics) : res RebalanceDepositSuccessTrigger :=
  let event := abi_Events (vault_ABI c) "RebalanceDepositSuccess" in
  rawTrigger ← log_trigger "RebalanceDepositSuccess" (vault_Address c) chainSelector confidence
                 (EncodeRebalanceDepositSuccessTopics event filters);
  Ok (mkRebalanceDepositSuccessTrigger rawTrigger c).
Definition FilterLogsRebalanceDepositSuccess (c : BaseVault) (options : option FilterOptions)
    : res (Z * FilterQuery) :=
  filter_logs (vault_client c) (vault_Address c) (RebalanceDepositSuccessLogHash (vault_Codec c)) options.
Record RebalanceWithdrawSuccessTrigger := mkRebalanceWithdrawSuccessTrigger {
  RebalanceWithdrawSuccess_Trigger : LogTrigger; RebalanceWithdrawSuccess_contract : BaseVault }.
Definition AdaptRebalanceWithdrawSuccess (t : RebalanceWithdrawSuccessTrigger) (l : option Log)
    : res (DecodedLog RebalanceWithdrawSuccessDecoded) :=
  adapt "RebalanceWithdrawSuccess" (DecodeRebalanceWithdrawSuccess (vault_Codec (RebalanceWithdrawSuccess_contract t))) l.
Definition LogTriggerRebalanceWithdrawSuccessLog (c : BaseVault) (chainSelector confidence : Z)
    (filters : list RebalanceWithdrawSuccessTopics) : res RebalanceWithdrawSuccessTrigger :=
  let event := abi_Events (vault_ABI c) "RebalanceWithdrawSuccess" in
  rawTrigger ← log_trigger "RebalanceWithdrawSuccess" (vault_Address c) chainSelector confidence
                 (EncodeRebalanceWithdrawSuccessTopics event filters);
  Ok (mkRebalanceWithdrawSuccessTrigger rawTrigger c).
Definition FilterLogsRebalanceWithdrawSuccess (c : BaseVault) (options : option FilterOptions)
    : res (Z * FilterQuery) :=
  filter_logs (vault_client c) (vault_Address c) (RebalanceWithdrawSuccessLogHash (vault_Codec c)) options.
Record RoleAdminChangedTrigger := mkRoleAdminChangedTrigger {
  RoleAdminChanged_Trigger : LogTrigger; RoleAdminChanged_contract : BaseVault }.
Definition AdaptRoleAdminChanged (t : RoleAdminChangedTrigger) (l : option Log)
    : res (DecodedLog RoleAdminChangedDecoded) :=
  adapt "RoleAdminChanged" (DecodeRoleAdminChanged (vault_Codec (RoleAdminChanged_contract t))) l.
Definition LogTriggerRoleAdminChangedLog (c : BaseVault) (chainSelector confidence : Z)
    (filters : list RoleAdminChangedTopics) : res RoleAdminChangedTrigger :=
  let event := abi_Events (vault_ABI c) "RoleAdminChanged" in
  rawTrigger ← log_trigger "RoleAdminChanged" (vault_Address c) chainSelector confidence
                 (EncodeRoleAdminChangedTopics event filters);
  Ok (mkRoleAdminChangedTrigger rawTrigger c).
Definition FilterLogsRoleAdminChanged (c : BaseVault) (options : option FilterOptions)
    : res (Z * FilterQuery) :=
  filter_logs (vault_client c) (vault_Address c) (RoleAdminChangedLogHash (vault_Codec c)) options.
Record RoleGrantedTrigger := mkRoleGrantedTrigger {
  RoleGranted_Trigger : LogTrigger; RoleGranted_contract : BaseVault }.
Definition AdaptRoleGranted (t : RoleGrantedTrigger) (l : option Log)
    : res (DecodedLog RoleGrantedDecoded) :=
  adapt "RoleGranted" (DecodeRoleGranted (vault_Codec (RoleGranted_contract t))) l.
Definition LogTriggerRoleGrantedLog (c : BaseVault) (chainSelector confidence : Z)
    (filters : list RoleGrantedTopics) : res RoleGrantedTrigger :=
  let event := abi_Events (vault_ABI c) "RoleGranted" in
  rawTrigger ← log_trigger "RoleGranted" (vault_Address c) chainSelector confidence
                 (EncodeRoleGrantedTopics event filters);
  Ok (mkRoleGrantedTrigger rawTrigger c).
Definition FilterLogsRoleGranted (c : BaseVault) (options : option FilterOptions)
    : res (Z * FilterQuery) :=
  filter_logs (vault_client c) (vault_Address c) (RoleGrantedLogHash (vault_Codec c)) options.
Record RoleRevokedTrigger := mkRoleRevokedTrigger {
  RoleRevoked_Trigger : LogTrigger; RoleRevoked_contract : BaseVault }.
Definition AdaptRoleRevoked (t : RoleRevokedTrigger) (l : option Log)
    : res (DecodedLog RoleRevokedDecoded) :=
  adapt "RoleRevoked" (DecodeRoleRevoked (vault_Codec (RoleRevoked_contract t))) l.
Definition LogTriggerRoleRevokedLog (c : BaseVault) (chainSelector confidence : Z)
    (filters : list RoleRevokedTopics) : res RoleRevokedTrigger :=
  let event := abi_Events (vault_ABI c) "RoleRevoked" in
  rawTrigger ← log_trigger "RoleRevoked" (vault_Address c) chainSelector confidence
                 (EncodeRoleRevokedTopics event filters);
  Ok (mkRoleRevokedTrigger rawTrigger c).
Definition FilterLogsRoleRevoked (c : BaseVault) (options : option FilterOptions)
    : res (Z * FilterQuery) :=
  filter_logs (vault_client c) (vault_Address c) (RoleRevokedLogHash (vault_Codec c)) options.
Record UnpausedTrigger := mkUnpausedTrigger {
  Unpaused_Trigger : LogTrigger; Unpaused_contract : BaseVault }.
Definition AdaptUnpaused (t : UnpausedTrigger) (l : option Log)
    : res (DecodedLog UnpausedDecoded) :=
  adapt "Unpaused" (DecodeUnpaused (vault_Codec (Unpaused_contract t))) l.
Definition LogTriggerUnpausedLog (c : BaseVault) (chainSelector confidence : Z)
    (filters : list UnpausedTopics) : res UnpausedTrigger :=
  let event := abi_Events (vault_ABI c) "Unpaused" in
  rawTrigger ← log_trigger "Unpaused" (vault_Address c) chainSelector confidence
                 (EncodeUnpausedTopics event filters);
  Ok (mkUnpausedTrigger rawTrigger c).
Definition FilterLogsUnpaused (c : BaseVault) (options : option FilterOptions)
    : res (Z * FilterQuery) :=
  filter_logs (vault_client c) (vault_Address c) (UnpausedLogHash (vault_Codec c)) options.
Record UpgradedTrigger := mkUpgradedTrigger {
  Upgraded_Trigger : LogTrigger; Upgraded_contract : BaseVault }.
Definition AdaptUpgraded (t : UpgradedTrigger) (l : option Log)
    : res (DecodedLog UpgradedDecoded) :=
  adapt "Upgraded" (DecodeUpgraded (vault_Codec (Upgraded_contract t))) l.
Definition LogTriggerUpgradedLog (c : BaseVault) (chainSelector confidence : Z)
    (filters : list UpgradedTopics) : res UpgradedTrigger :=
  let event := abi_Events (vault_ABI c) "Upgraded" in
  rawTrigger ← log_trigger "Upgraded" (vault_Address c) chainSelector confidence
                 (EncodeUpgradedTopics event filters);
  Ok (mkUpgradedTrigger rawTrigger c).
Definition FilterLogsUpgraded (c : BaseVault) (options : option FilterOptions)
    : res (Z * FilterQuery) :=
  filter_logs (vault_client c) (vault_Address c) (UpgradedLogHash (vault_Codec c)) options.
End Events.

(** ** All events *)
Inductive vault_event : Type :=
| EActiveProtocolAdapterCleared (e : ActiveProtocolAdapterClearedDecoded)
| EActiveProtocolAdapterSet (e : ActiveProtocolAdapterSetDecoded)
| ECCIPBridged (e : CCIPBridgedDecoded)
| ECCIPReceived (e : CCIPReceivedDecoded)
| ECcipGasLimitSet (e : CcipGasLimitSetDecoded)
| ECrosschainVaultSet (e : CrosschainVaultSetDecoded)
| EDefaultAdminDelayChangeCanceled (e : DefaultAdminDelayChangeCanceledDecoded)
| EDefaultAdminDelayChangeScheduled (e : DefaultAdminDelayChangeScheduledDecoded)
| EDefaultAdminTransferCanceled (e : DefaultAdminTransferCanceledDecoded)
| EDefaultAdminTransferScheduled (e : DefaultAdminTransferScheduledDecoded)
| EDefaultCcipGasLimitSet (e : DefaultCcipGasLimitSetDecoded)
| EEpochDepositToStrategySuccess (e : EpochDepositToStrategySuccessDecoded)
| EEpochWithdrawFromStrategySuccess (e : EpochWithdrawFromStrategySuccessDecoded)
| EInitialized (e : InitializedDecoded)
| ELinkWithdrawn (e : LinkWithdrawnDecoded)
| EPaused (e : PausedDecoded)
| ERebalanceDepositFailure (e : RebalanceDepositFailureDecoded)
| ERebalanceDepositRecoveryCleared (e : RebalanceDepositRecoveryClearedDecoded)
| ERebalanceDepositRecoveryStored (e : RebalanceDepositRecoveryStoredDecoded)
| ERebalanceDepositSuccess (e : RebalanceDepositSuccessDecoded)
| ERebalanceWithdrawSuccess (e : RebalanceWithdrawSuccessDecoded)
| ERoleAdminChanged (e : RoleAdminChangedDecoded)
| ERoleGranted (e : RoleGrantedDecoded)
| ERoleRevoked (e : RoleRevokedDecoded)
| EUnpaused (e : UnpausedDecoded)
| EUpgraded (e : UpgradedDecoded).

(** The ABI name of an event and its values in the ABI's order. *)
Definition describe (e : vault_event) : string * list abi_value :=
  match e with
  | EActiveProtocolAdapterCleared e => ("ActiveProtocolAdapterCleared"%string, [
      VFixed (ActiveProtocolAdapterCleared_Adapter e)])
  | EActiveProtocolAdapterSet e => ("ActiveProtocolAdapterSet"%string, [
      VFixed (ActiveProtocolAdapterSet_ProtocolId e); VFixed (ActiveProtocolAdapterSet_Adapter e)])
  | ECCIPBridged e => ("CCIPBridged"%string, [
      VFixed (CCIPBridged_CcipMessageId e); VUint (CCIPBridged_DestinationChainSelector e);
      VUint (CCIPBridged_CcipTxType e)])
  | ECCIPReceived e => ("CCIPReceived"%string, [
      VFixed (CCIPReceived_CcipMessageId e); VUint (CCIPReceived_SourceChainSelector e);
      VUint (CCIPReceived_CcipTxType e)])
  | ECcipGasLimitSet e => ("CcipGasLimitSet"%string, [
      VUint (CcipGasLimitSet_ChainSelector e); VBig (CcipGasLimitSet_GasLimit e)])
  | ECrosschainVaultSet e => ("CrosschainVaultSet"%string, [
      VUint (CrosschainVaultSet_ChainSelector e); VFixed (CrosschainVaultSet_Vault e)])
  | EDefaultAdminDelayChangeCanceled _ => ("DefaultAdminDelayChangeCanceled"%string, [])
  | EDefaultAdminDelayChangeScheduled e => ("DefaultAdminDelayChangeScheduled"%string, [
      VBig (DefaultAdminDelayChangeScheduled_NewDelay e);
      VBig (DefaultAdminDelayChangeScheduled_EffectSchedule e)])
  | EDefaultAdminTransferCanceled _ => ("DefaultAdminTransferCanceled"%string, [])
  | EDefaultAdminTransferScheduled e => ("DefaultAdminTransferScheduled"%string, [
      VFixed (DefaultAdminTransferScheduled_NewAdmin e);
      VBig (DefaultAdminTransferScheduled_AcceptSchedule e)])
  | EDefaultCcipGasLimitSet e => ("DefaultCcipGasLimitSet"%string, [
      VBig (DefaultCcipGasLimitSet_GasLimit e)])
  | EEpochDepositToStrategySuccess e => ("EpochDepositToStrategySuccess"%string, [
      VBig (EpochDepositToStrategySuccess_EpochNonce e);
      VBig (EpochDepositToStrategySuccess_Amount e)])
  | EEpochWithdrawFromStrategySuccess e => ("EpochWithdrawFromStrategySuccess"%string, [
      VBig (EpochWithdrawFromStrategySuccess_EpochNonce e);
      VBig (EpochWithdrawFromStrategySuccess_Amount e)])
  | EInitialized e => ("Initialized"%string, [VUint (Initialized_Version e)])
  | ELinkWithdrawn e => ("LinkWithdrawn"%string, [
      VFixed (LinkWithdrawn_Operator e); VBig (LinkWithdrawn_Amount e)])
  | EPaused e => ("Paused"%string, [VFixed (Paused_Account e)])
  | ERebalanceDepositFailure e => ("RebalanceDepositFailure"%string, [
      VBig (RebalanceDepositFailure_RebalanceNonce e); VBig (RebalanceDepositFailure_Amount e)])
  | ERebalanceDepositRecoveryCleared e => ("RebalanceDepositRecoveryCleared"%string, [
      VBig (RebalanceDepositRecoveryCleared_RebalanceNonce e)])
  | ERebalanceDepositRecoveryStored e => ("RebalanceDepositRecoveryStored"%string, [
      VBig (RebalanceDepositRecoveryStored_RebalanceNonce e);
      VBig (RebalanceDepositRecoveryStored_Amount e)])
  | ERebalanceDepositSuccess e => ("RebalanceDepositSuccess"%string, [
      VBig (RebalanceDepositSuccess_RebalanceNonce e); VBig (RebalanceDepositSuccess_Amount e)])
  | ERebalanceWithdrawSuccess e => ("RebalanceWithdrawSuccess"%string, [
      VBig (RebalanceWithdrawSuccess_RebalanceNonce e); VBig (RebalanceWithdrawSuccess_Amount e)])
  | ERoleAdminChanged e => ("RoleAdminChanged"%string, [
      VFixed (RoleAdminChanged_Role e); VFixed (RoleAdminChanged_PreviousAdminRole e);
      VFixed (RoleAdminChanged_NewAdminRole e)])
  | ERoleGranted e => ("RoleGranted"%string, [
      VFixed (RoleGranted_Role e); VFixed (RoleGranted_Account e); VFixed (RoleGranted_Sender e)])
  | ERoleRevoked e => ("RoleRevoked"%string, [
      VFixed (RoleRevoked_Role e); VFixed (RoleRevoked_Account e); VFixed (RoleRevoked_Sender e)])
  | EUnpaused e => ("Unpaused"%string, [VFixed (Unpaused_Account e)])
  | EUpgraded e => ("Upgraded"%string, [VFixed (Upgraded_Implementation e)])
  end.

(** Decoding with the trigger of the event that [e] is an instance of. *)
Definition adapt_like `{GoTopics} (e : vault_event) (raw : LogTrigger) (c : BaseVault)
    (l : option Log) : res (option Log * vault_event) :=
  let decoded {T} (f : T → vault_event) (d : DecodedLog T) := (Decoded_Log d, f (Decoded_Data d)) in
  match e with
  | EActiveProtocolAdapterCleared _ => decoded EActiveProtocolAdapterCleared <$> AdaptActiveProtocolAdapterCleared (mkActiveProtocolAdapterClearedTrigger raw c) l
  | EActiveProtocolAdapterSet _ => decoded EActiveProtocolAdapterSet <$> AdaptActiveProtocolAdapterSet (mkActiveProtocolAdapterSetTrigger raw c) l
  | ECCIPBridged _ => decoded ECCIPBridged <$> AdaptCCIPBridged (mkCCIPBridgedTrigger raw c) l
  | ECCIPReceived _ => decoded ECCIPReceived <$> AdaptCCIPReceived (mkCCIPReceivedTrigger raw c) l
  | ECcipGasLimitSet _ => decoded ECcipGasLimitSet <$> AdaptCcipGasLimitSet (mkCcipGasLimitSetTrigger raw c) l
  | ECrosschainVaultSet _ => decoded ECrosschainVaultSet <$> AdaptCrosschainVaultSet (mkCrosschainVaultSetTrigger raw c) l
  | EDefaultAdminDelayChangeCanceled _ => decoded EDefaultAdminDelayChangeCanceled <$> AdaptDefaultAdminDelayChangeCanceled (mkDefaultAdminDelayChangeCanceledTrigger raw c) l
  | EDefaultAdminDelayChangeScheduled _ => decoded EDefaultAdminDelayChangeScheduled <$> AdaptDefaultAdminDelayChangeScheduled (mkDefaultAdminDelayChangeScheduledTrigger raw c) l
  | EDefaultAdminTransferCanceled _ => decoded EDefaultAdminTransferCanceled <$> AdaptDefaultAdminTransferCanceled (mkDefaultAdminTransferCanceledTrigger raw c) l
  | EDefaultAdminTransferScheduled _ => decoded EDefaultAdminTransferScheduled <$> AdaptDefaultAdminTransferScheduled (mkDefaultAdminTransferScheduledTrigger raw c) l
  | EDefaultCcipGasLimitSet _ => decoded EDefaultCcipGasLimitSet <$> AdaptDefaultCcipGasLimitSet (mkDefaultCcipGasLimitSetTrigger raw c) l
  | EEpochDepositToStrategySuccess _ => decoded EEpochDepositToStrategySuccess <$> AdaptEpochDepositToStrategySuccess (mkEpochDepositToStrategySuccessTrigger raw c) l
  | EEpochWithdrawFromStrategySuccess _ => decoded EEpochWithdrawFromStrategySuccess <$> AdaptEpochWithdrawFromStrategySuccess (mkEpochWithdrawFromStrategySuccessTrigger raw c) l
  | EInitialized _ => decoded EInitialized <$> AdaptInitialized (mkInitializedTrigger raw c) l
  | ELinkWithdrawn _ => decoded ELinkWithdrawn <$> AdaptLinkWithdrawn (mkLinkWithdrawnTrigger raw c) l
  | EPaused _ => decoded EPaused <$> AdaptPaused (mkPausedTrigger raw c) l
  | ERebalanceDepositFailure _ => decoded ERebalanceDepositFailure <$> AdaptRebalanceDepositFailure (mkRebalanceDepositFailureTrigger raw c) l
  | ERebalanceDepositRecoveryCleared _ => decoded ERebalanceDepositRecoveryCleared <$> AdaptRebalanceDepositRecoveryCleared (mkRebalanceDepositRecoveryClearedTrigger raw c) l
  | ERebalanceDepositRecoveryStored _ => decoded ERebalanceDepositRecoveryStored <$> AdaptRebalanceDepositRecoveryStored (mkRebalanceDepositRecoveryStoredTrigger raw c) l
  | ERebalanceDepositSuccess _ => decoded ERebalanceDepositSuccess <$> AdaptRebalanceDepositSuccess (mkRebalanceDepositSuccessTrigger raw c) l
  | ERebalanceWithdrawSuccess _ => decoded ERebalanceWithdrawSuccess <$> AdaptRebalanceWithdrawSuccess (mkRebalanceWithdrawSuccessTrigger raw c) l
  | ERoleAdminChanged _ => decoded ERoleAdminChanged <$> AdaptRoleAdminChanged (mkRoleAdminChangedTrigger raw c) l
  | ERoleGranted _ => decoded ERoleGranted <$> AdaptRoleGranted (mkRoleGrantedTrigger raw c) l
  | ERoleRevoked _ => decoded ERoleRevoked <$> AdaptRoleRevoked (mkRoleRevokedTrigger raw c) l
  | EUnpaused _ => decoded EUnpaused <$> AdaptUnpaused (mkUnpausedTrigger raw c) l
  | EUpgraded _ => decoded EUpgraded <$> AdaptUpgraded (mkUpgradedTrigger raw c) l
  end.

(** The filters of a subscription. *)
Inductive vault_filters : Type :=
| FActiveProtocolAdapterCleared (values : list ActiveProtocolAdapterClearedTopics)
| FActiveProtocolAdapterSet (values : list ActiveProtocolAdapterSetTopics)
| FCCIPBridged (values : list CCIPBridgedTopics)
| FCCIPReceived (values : list CCIPReceivedTopics)
| FCcipGasLimitSet (values : list CcipGasLimitSetTopics)
| FCrosschainVaultSet (values : list CrosschainVaultSetTopics)
| FDefaultAdminDelayChangeCanceled (values : list DefaultAdminDelayChangeCanceledTopics)
| FDefaultAdminDelayChangeScheduled (values : list DefaultAdminDelayChangeScheduledTopics)
| FDefaultAdminTransferCanceled (values : list DefaultAdminTransferCanceledTopics)
| FDefaultAdminTransferScheduled (values : list DefaultAdminTransferScheduledTopics)
| FDefaultCcipGasLimitSet (values : list DefaultCcipGasLimitSetTopics)
| FEpochDepositToStrategySuccess (values : list EpochDepositToStrategySuccessTopics)
| FEpochWithdrawFromStrategySuccess (values : list EpochWithdrawFromStrategySuccessTopics)
| FInitialized (values : list InitializedTopics)
| FLinkWithdrawn (values : list LinkWithdrawnTopics)
| FPaused (values : list PausedTopics)
| FRebalanceDepositFailure (values : list RebalanceDepositFailureTopics)
| FRebalanceDepositRecoveryCleared (values : list RebalanceDepositRecoveryClearedTopics)
| FRebalanceDepositRecoveryStored (values : list RebalanceDepositRecoveryStoredTopics)
| FRebalanceDepositSuccess (values : list RebalanceDepositSuccessTopics)
| FRebalanceWithdrawSuccess (values : list RebalanceWithdrawSuccessTopics)
| FRoleAdminChanged (values : list RoleAdminChangedTopics)
| FRoleGranted (values : list RoleGrantedTopics)
| FRoleRevoked (values : list RoleRevokedTopics)
| FUnpaused (values : list UnpausedTopics)
| FUpgraded (values : list UpgradedTopics).

(** The ABI name of the event and, per filter, its values in the ABI's order. *)
Definition filter_rows (f : vault_filters) : string * list (list abi_value) :=
  match f with
  | FActiveProtocolAdapterCleared values => ("ActiveProtocolAdapterCleared"%string, (λ v, [
      VFixed (ActiveProtocolAdapterClearedTopics_Adapter v)]) <$> values)
  | FActiveProtocolAdapterSet values => ("ActiveProtocolAdapterSet"%string, (λ v, [
      VFixed (ActiveProtocolAdapterSetTopics_ProtocolId v);
      VFixed (ActiveProtocolAdapterSetTopics_Adapter v)]) <$> values)
  | FCCIPBridged values => ("CCIPBridged"%string, (λ v, [
      VFixed (CCIPBridgedTopics_CcipMessageId v);
      VUint (CCIPBridgedTopics_DestinationChainSelector v);
      VUint (CCIPBridgedTopics_CcipTxType v)]) <$> values)
  | FCCIPReceived values => ("CCIPReceived"%string, (λ v, [
      VFixed (CCIPReceivedTopics_CcipMessageId v);
      VUint (CCIPReceivedTopics_SourceChainSelector v);
      VUint (CCIPReceivedTopics_CcipTxType v)]) <$> values)
  | FCcipGasLimitSet values => ("CcipGasLimitSet"%string, (λ v, [
      VUint (CcipGasLimitSetTopics_ChainSelector v);
      VBig (CcipGasLimitSetTopics_GasLimit v)]) <$> values)
  | FCrosschainVaultSet values => ("CrosschainVaultSet"%string, (λ v, [
      VUint (CrosschainVaultSetTopics_ChainSelector v);
      VFixed (CrosschainVaultSetTopics_Vault v)]) <$> values)
  | FDefaultAdminDelayChangeCanceled values => ("DefaultAdminDelayChangeCanceled"%string, (λ _, []) <$> values)
  | FDefaultAdminDelayChangeScheduled values => ("DefaultAdminDelayChangeScheduled"%string, (λ _, []) <$> values)
  | FDefaultAdminTransferCanceled values => ("DefaultAdminTransferCanceled"%string, (λ _, []) <$> values)
  | FDefaultAdminTransferScheduled values => ("DefaultAdminTransferScheduled"%string, (λ v, [
      VFixed (DefaultAdminTransferScheduledTopics_NewAdmin v)]) <$> values)
  | FDefaultCcipGasLimitSet values => ("DefaultCcipGasLimitSet"%string, (λ v, [
      VBig (DefaultCcipGasLimitSetTopics_GasLimit v)]) <$> values)
  | FEpochDepositToStrategySuccess values => ("EpochDepositToStrategySuccess"%string, (λ v, [
      VBig (EpochDepositToStrategySuccessTopics_EpochNonce v);
      VBig (EpochDepositToStrategySuccessTopics_Amount v)]) <$> values)
  | FEpochWithdrawFromStrategySuccess values => ("EpochWithdrawFromStrategySuccess"%string, (λ v, [
      VBig (EpochWithdrawFromStrategySuccessTopics_EpochNonce v);
      VBig (EpochWithdrawFromStrategySuccessTopics_Amount v)]) <$> values)
  | FInitialized values => ("Initialized"%string, (λ _, []) <$> values)
  | FLinkWithdrawn values => ("LinkWithdrawn"%string, (λ v, [
      VFixed (LinkWithdrawnTopics_Operator v); VBig (LinkWithdrawnTopics_Amount v)]) <$> values)
  | FPaused values => ("Paused"%string, (λ _, []) <$> values)
  | FRebalanceDepositFailure values => ("RebalanceDepositFailure"%string, (λ v, [
      VBig (RebalanceDepositFailureTopics_RebalanceNonce v);
      VBig (RebalanceDepositFailureTopics_Amount v)]) <$> values)
  | FRebalanceDepositRecoveryCleared values => ("RebalanceDepositRecoveryCleared"%string, (λ v, [
      VBig (RebalanceDepositRecoveryClearedTopics_RebalanceNonce v)]) <$> values)
  | FRebalanceDepositRecoveryStored values => ("RebalanceDepositRecoveryStored"%string, (λ v, [
      VBig (RebalanceDepositRecoveryStoredTopics_RebalanceNonce v);
      VBig (RebalanceDepositRecoveryStoredTopics_Amount v)]) <$> values)
  | FRebalanceDepositSuccess values => ("RebalanceDepositSuccess"%string, (λ v, [
      VBig (RebalanceDepositSuccessTopics_RebalanceNonce v);
      VBig (RebalanceDepositSuccessTopics_Amount v)]) <$> values)
  | FRebalanceWithdrawSuccess values => ("RebalanceWithdrawSuccess"%string, (λ v, [
      VBig (RebalanceWithdrawSuccessTopics_RebalanceNonce v);
      VBig (RebalanceWithdrawSuccessTopics_Amount v)]) <$> values)
  | FRoleAdminChanged values => ("RoleAdminChanged"%string, (λ v, [
      VFixed (RoleAdminChangedTopics_Role v); VFixed (RoleAdminChangedTopics_PreviousAdminRole v);
      VFixed (RoleAdminChangedTopics_NewAdminRole v)]) <$> values)
  | FRoleGranted values => ("RoleGranted"%string, (λ v, [
      VFixed (RoleGrantedTopics_Role v); VFixed (RoleGrantedTopics_Account v);
      VFixed (RoleGrantedTopics_Sender v)]) <$> values)
  | FRoleRevoked values => ("RoleRevoked"%string, (λ v, [
      VFixed (RoleRevokedTopics_Role v); VFixed (RoleRevokedTopics_Account v);
      VFixed (RoleRevokedTopics_Sender v)]) <$> values)
  | FUnpaused values => ("Unpaused"%string, (λ _, []) <$> values)
  | FUpgraded values => ("Upgraded"%string, (λ v, [
      VFixed (UpgradedTopics_Implementation v)]) <$> values)
  end.
Definition encode_filters `{GoTopics} (evt : Event) (f : vault_filters) : res (list TopicValues) :=
  match f with
  | FActiveProtocolAdapterCleared values => EncodeActiveProtocolAdapterClearedTopics evt values
  | FActiveProtocolAdapterSet values => EncodeActiveProtocolAdapterSetTopics evt values
  | FCCIPBridged values => EncodeCCIPBridgedTopics evt values
  | FCCIPReceived values => EncodeCCIPReceivedTopics evt values
  | FCcipGasLimitSet values => EncodeCcipGasLimitSetTopics evt values
  | FCrosschainVaultSet values => EncodeCrosschainVaultSetTopics evt values
  | FDefaultAdminDelayChangeCanceled values => EncodeDefaultAdminDelayChangeCanceledTopics evt values
  | FDefaultAdminDelayChangeScheduled values => EncodeDefaultAdminDelayChangeScheduledTopics evt values
  | FDefaultAdminTransferCanceled values => EncodeDefaultAdminTransferCanceledTopics evt values
  | FDefaultAdminTransferScheduled values => EncodeDefaultAdminTransferScheduledTopics evt values
  | FDefaultCcipGasLimitSet values => EncodeDefaultCcipGasLimitSetTopics evt values
  | FEpochDepositToStrategySuccess values => EncodeEpochDepositToStrategySuccessTopics evt values
  | FEpochWithdrawFromStrategySuccess values => EncodeEpochWithdrawFromStrategySuccessTopics evt values
  | FInitialized values => EncodeInitializedTopics evt values
  | FLinkWithdrawn values => EncodeLinkWithdrawnTopics evt values
  | FPaused values => EncodePausedTopics evt values
  | FRebalanceDepositFailure values => EncodeRebalanceDepositFailureTopics evt values
  | FRebalanceDepositRecoveryCleared values => EncodeRebalanceDepositRecoveryClearedTopics evt values
  | FRebalanceDepositRecoveryStored values => EncodeRebalanceDepositRecoveryStoredTopics evt values
  | FRebalanceDepositSuccess values => EncodeRebalanceDepositSuccessTopics evt values
  | FRebalanceWithdrawSuccess values => EncodeRebalanceWithdrawSuccessTopics evt values
  | FRoleAdminChanged values => EncodeRoleAdminChangedTopics evt values
  | FRoleGranted values => EncodeRoleGrantedTopics evt values
  | FRoleRevoked values => EncodeRoleRevokedTopics evt values
  | FUnpaused values => EncodeUnpausedTopics evt values
  | FUpgraded values => EncodeUpgradedTopics evt values
  end.

(** ** Correctness *)
Definition inputs (e : vault_event) : list Argument := inputs_of events (describe e).1.
Definition well_typed (e : vault_event) : Prop := typed_values (inputs e) (describe e).2.

Section Correctness.
Context `{GoTopics} (c : BaseVault).

(** The encoders of topic filters: one rule per indexed input of the ABI, in its
    order, from the field of that name. *)
Theorem BaseTopics_reference evt f :
  encode_filters evt f = encode_topics evt (inputs_of events (filter_rows f).1) (filter_rows f).2.
Proof. destruct f; cbn [encode_filters filter_rows]; topics_case. Qed.

(** A trigger panics only on a nil log or on one without topics. *)
Theorem BaseAdapt_total {HE : GoEthereumLaws} e raw log :
  Log_Topics log ≠ [] → adapt_like e raw c (Some log) ≠ Crash.
Proof. destruct e; intros Hlog; cbn [adapt_like]; adapt_case Hlog. Qed.

Section Emitted.
Context {HL : GoEventsLaws (codec_abi (vault_Codec c)) events}.

(** The log the contract emits for an event. *)
Definition emit (address : bytes) (e : vault_event) : Log :=
  emitted address (describe e).1 (inputs e) (describe e).2.

Lemma base_event e raw address :
  well_typed e → adapt_like e raw c (Some (emit address e)) = Ok (Some (emit address e), e).
Proof.
  unfold well_typed, emit, inputs.
  destruct e as [e|e|e|e|e|e|e|e|e|e|e|e|e|e|e|e|e|e|e|e|e|e|e|e|e|e];
    destruct e; cbn [describe adapt_like fst snd]; event_case.
Qed.

(** Round trip of every event of the base vault: the trigger of an event,
    given the log the contract emits for it with any values of the ABI's types,
    indexed or in the data, returns that log and the event's values, each in its
    field. *)
Theorem BaseEvent_roundtrip e raw address :
  well_typed e → adapt_like e raw c (Some (emit address e)) = Ok (Some (emit address e), e).
Proof. apply base_event. Qed.
End Emitted.
End Correctness.

(** ** Witness *)
Module SampleBaseEvents.
#[local] Instance toy_ethereum : GoEthereum := ToyEvents.ethereum_events events.
#[local] Instance toy_topics : GoTopics := {|
  bindings_PrepareTopicArg _ v := Ok v;
  abi_MakeTopics rules := Ok (map (map ToyEvents.topic) rules);
  bindings_PrepareTopics raw signature := mkTopicValues [signature] :: map mkTopicValues raw |}.
Definition vault : BaseVault := mkBaseVault zeroAddress BaseVaultMetaData 1 (mkCodec BaseVaultMetaData).
#[local] Instance toy_laws : GoEventsLaws (codec_abi (vault_Codec vault)) events.
Proof.
  apply ToyEvents.events_laws.
  - apply (bool_decide_unpack _). vm_compute. exact I.
  - unfold events. repeat constructor.
Defined.

Definition raw : LogTrigger := mkLogTrigger 1 [zeroAddress] [] 0.
Definition sample : vault_event := EDefaultAdminTransferScheduled
  (mkDefaultAdminTransferScheduledDecoded zeroAddress (Some 77)).

Lemma BaseEvent_roundtrip_witness :
  adapt_like sample raw vault (Some (emit vault zeroAddress sample))
    = Ok (Some (emit vault zeroAddress sample), sample).
Proof.
  apply (BaseEvent_roundtrip vault sample raw zeroAddress). repeat constructor; done.
Defined.
End SampleBaseEvents.
End base_vault_events.
