(* ===== verification/WorkflowRouterEvents.v ===== *)
(** * The events of the workflow router

    The structs, topic encoders, decoders, triggers and log queries of the
    events in [cre/contracts/evm/src/generated/workflow_router/WorkflowRouter.go]. *)

From S2P Require Import Prelude GoText BigInt Ethereum Runtime Bindings WorkflowRouter AbiEvents.

#[local] Open Scope Z_scope.

Module workflow_router_events.
Import workflow_router.
(** ** Structs *)
Record DefaultAdminDelayChangeCanceledTopics := mkDefaultAdminDelayChangeCanceledTopics {}.
Record DefaultAdminDelayChangeCanceledDecoded := mkDefaultAdminDelayChangeCanceledDecoded {}.
Record DefaultAdminDelayChangeScheduledTopics := mkDefaultAdminDelayChangeScheduledTopics {}.
Record DefaultAdminDelayChangeScheduledDecoded := mkDefaultAdminDelayChangeScheduledDecoded {
  DefaultAdminDelayChangeScheduled_NewDelay : bigint;
  DefaultAdminDelayChangeScheduled_EffectSchedule : bigint }.
Record DefaultAdminTransferCanceledTopics := mkDefaultAdminTransferCanceledTopics {}.
Record DefaultAdminTransferCanceledDecoded := mkDefaultAdminTransferCanceledDecoded {}.
Record DefaultAdminTransferScheduledTopics := mkDefaultAdminTransferScheduledTopics {
  DefaultAdminTransferScheduledTopics_NewAdmin : Address }.
Record DefaultAdminTransferScheduledDecoded := mkDefaultAdminTransferScheduledDecoded {
  DefaultAdminTransferScheduled_NewAdmin : Address;
  DefaultAdminTransferScheduled_AcceptSchedule : bigint }.
Record PausedTopics := mkPausedTopics {}.
Record PausedDecoded := mkPausedDecoded { Paused_Account : Address }.
Record RoleAdminChangedTopics := mkRoleAdminChangedTopics {
  RoleAdminChangedTopics_Role : bytes;
  RoleAdminChangedTopics_PreviousAdminRole : bytes;
  RoleAdminChangedTopics_NewAdminRole : bytes }.
Record RoleAdminChangedDecoded := mkRoleAdminChangedDecoded {
  RoleAdminChanged_Role : bytes;
  RoleAdminChanged_PreviousAdminRole : bytes;
  RoleAdminChanged_NewAdminRole : bytes }.
Record RoleGrantedTopics := mkRoleGrantedTopics {
  RoleGrantedTopics_Role : bytes;
  RoleGrantedTopics_Account : Address;
  RoleGrantedTopics_Sender : Address }.
Record RoleGrantedDecoded := mkRoleGrantedDecoded {
  RoleGranted_Role : bytes;
  RoleGranted_Account : Address;
  RoleGranted_Sender : Address }.
Record RoleRevokedTopics := mkRoleRevokedTopics {
  RoleRevokedTopics_Role : bytes;
  RoleRevokedTopics_Account : Address;
  RoleRevokedTopics_Sender : Address }.
Record RoleRevokedDecoded := mkRoleRevokedDecoded {
  RoleRevoked_Role : bytes;
  RoleRevoked_Account : Address;
  RoleRevoked_Sender : Address }.
Record UnpausedTopics := mkUnpausedTopics {}.
Record UnpausedDecoded := mkUnpausedDecoded { Unpaused_Account : Address }.
Record WorkflowMetadataSetTopics := mkWorkflowMetadataSetTopics {
  WorkflowMetadataSetTopics_WorkflowId : bytes;
  WorkflowMetadataSetTopics_Name : bytes;
  WorkflowMetadataSetTopics_Owner : Address }.
Record WorkflowMetadataSetDecoded := mkWorkflowMetadataSetDecoded {
  WorkflowMetadataSet_WorkflowId : bytes;
  WorkflowMetadataSet_Name : bytes;
  WorkflowMetadataSet_Owner : Address }.
Record WorkflowSelectorSetTopics := mkWorkflowSelectorSetTopics {
  WorkflowSelectorSetTopics_WorkflowId : bytes;
  WorkflowSelectorSetTopics_Selector : bytes;
  WorkflowSelectorSetTopics_IsAllowlisted : bool }.
Record WorkflowSelectorSetDecoded := mkWorkflowSelectorSetDecoded {
  WorkflowSelectorSet_WorkflowId : bytes;
  WorkflowSelectorSet_Selector : bytes;
  WorkflowSelectorSet_IsAllowlisted : bool }.

(** The events of the metadata. *)
Definition events : event_table :=
  [("DefaultAdminDelayChangeCanceled"%string, []);
   ("DefaultAdminDelayChangeScheduled"%string, [mkArgument "newDelay" (UintTy 48) false;
      mkArgument "effectSchedule" (UintTy 48) false]);
   ("DefaultAdminTransferCanceled"%string, []);
   ("DefaultAdminTransferScheduled"%string, [mkArgument "newAdmin" AddressTy true;
      mkArgument "acceptSchedule" (UintTy 48) false]);
   ("Paused"%string, [mkArgument "account" AddressTy false]);
   ("RoleAdminChanged"%string, [mkArgument "role" (FixedBytesTy 32) true;
      mkArgument "previousAdminRole" (FixedBytesTy 32) true;
      mkArgument "newAdminRole" (FixedBytesTy 32) true]);
   ("RoleGranted"%string, [mkArgument "role" (FixedBytesTy 32) true;
      mkArgument "account" AddressTy true;
      mkArgument "sender" AddressTy true]);
   ("RoleRevoked"%string, [mkArgument "role" (FixedBytesTy 32) true;
      mkArgument "account" AddressTy true;
      mkArgument "sender" AddressTy true]);
   ("Unpaused"%string, [mkArgument "account" AddressTy false]);
   ("WorkflowMetadataSet"%string, [mkArgument "workflowId" (FixedBytesTy 32) true;
      mkArgument "name" (FixedBytesTy 10) true;
      mkArgument "owner" AddressTy true]);
   ("WorkflowSelectorSet"%string, [mkArgument "workflowId" (FixedBytesTy 32) true;
      mkArgument "selector" (FixedBytesTy 4) true;
      mkArgument "isAllowlisted" BoolTy true])].

Section Events.
Context `{GoTopics}.

(** ** Signature hashes *)
Definition DefaultAdminDelayChangeCanceledLogHash (c : Codec) : Hash := LogHash c "DefaultAdminDelayChangeCanceled".
Definition DefaultAdminDelayChangeScheduledLogHash (c : Codec) : Hash := LogHash c "DefaultAdminDelayChangeScheduled".
Definition DefaultAdminTransferCanceledLogHash (c : Codec) : Hash := LogHash c "DefaultAdminTransferCanceled".
Definition DefaultAdminTransferScheduledLogHash (c : Codec) : Hash := LogHash c "DefaultAdminTransferScheduled".
Definition PausedLogHash (c : Codec) : Hash := LogHash c "Paused".
Definition RoleAdminChangedLogHash (c : Codec) : Hash := LogHash c "RoleAdminChanged".
Definition RoleGrantedLogHash (c : Codec) : Hash := LogHash c "RoleGranted".
Definition RoleRevokedLogHash (c : Codec) : Hash := LogHash c "RoleRevoked".
Definition UnpausedLogHash (c : Codec) : Hash := LogHash c "Unpaused".
Definition WorkflowMetadataSetLogHash (c : Codec) : Hash := LogHash c "WorkflowMetadataSet".
Definition WorkflowSelectorSetLogHash (c : Codec) : Hash := LogHash c "WorkflowSelectorSet".

(** ** Topic filters *)
Definition EncodeDefaultAdminDelayChangeCanceledTopics (evt : Event) (values : list DefaultAdminDelayChangeCanceledTopics)
    : res (list TopicValues) :=
  make_topics evt [].
Definition EncodeDefaultAdminDelayChangeScheduledTopics (evt : Event) (values : list DefaultAdminDelayChangeScheduledTopics)
    : res (list TopicValues) :=
  make_topics evt [].
Definition EncodeDefaultAdminTransferCanceledTopics (evt : Event) (values : list DefaultAdminTransferCanceledTopics)
    : res (list TopicValues) :=
  make_topics evt [].
Definition EncodeDefaultAdminTransferScheduledTopics (evt : Event) (values : list DefaultAdminTransferScheduledTopics)
    : res (list TopicValues) :=
  newAdminRule ← topic_rule evt 0 (λ v, VFixed (DefaultAdminTransferScheduledTopics_NewAdmin v)) values;
  make_topics evt [newAdminRule].
Definition EncodePausedTopics (evt : Event) (values : list PausedTopics)
    : res (list TopicValues) :=
  make_topics evt [].
Definition EncodeRoleAdminChangedTopics (evt : Event) (values : list RoleAdminChangedTopics)
    : res (list TopicValues) :=
  roleRule ← topic_rule evt 0 (λ v, VFixed (RoleAdminChangedTopics_Role v)) values;
  previousAdminRoleRule ← topic_rule evt 1 (λ v, VFixed (RoleAdminChangedTopics_PreviousAdminRole v)) values;
  newAdminRoleRule ← topic_rule evt 2 (λ v, VFixed (RoleAdminChangedTopics_NewAdminRole v)) values;
  make_topics evt [roleRule; previousAdminRoleRule; newAdminRoleRule].
Definition EncodeRoleGrantedTopics (evt : Event) (values : list RoleGrantedTopics)
    : res (list TopicValues) :=
  roleRule ← topic_rule evt 0 (λ v, VFixed (RoleGrantedTopics_Role v)) values;
  accountRule ← topic_rule evt 1 (λ v, VFixed (RoleGrantedTopics_Account v)) values;
  senderRule ← topic_rule evt 2 (λ v, VFixed (RoleGrantedTopics_Sender v)) values;
  make_topics evt [roleRule; accountRule; senderRule].
Definition EncodeRoleRevokedTopics (evt : Event) (values : list RoleRevokedTopics)
    : res (list TopicValues) :=
  roleRule ← topic_rule evt 0 (λ v, VFixed (RoleRevokedTopics_Role v)) values;
  accountRule ← topic_rule evt 1 (λ v, VFixed (RoleRevokedTopics_Account v)) values;
  senderRule ← topic_rule evt 2 (λ v, VFixed (RoleRevokedTopics_Sender v)) values;
  make_topics evt [roleRule; accountRule; senderRule].
Definition EncodeUnpausedTopics (evt : Event) (values : list UnpausedTopics)
    : res (list TopicValues) :=
  make_topics evt [].
Definition EncodeWorkflowMetadataSetTopics (evt : Event) (values : list WorkflowMetadataSetTopics)
    : res (list TopicValues) :=
  workflowIdRule ← topic_rule evt 0 (λ v, VFixed (WorkflowMetadataSetTopics_WorkflowId v)) values;
  nameRule ← topic_rule evt 1 (λ v, VFixed (WorkflowMetadataSetTopics_Name v)) values;
  ownerRule ← topic_rule evt 2 (λ v, VFixed (WorkflowMetadataSetTopics_Owner v)) values;
  make_topics evt [workflowIdRule; nameRule; ownerRule].
Definition EncodeWorkflowSelectorSetTopics (evt : Event) (values : list WorkflowSelectorSetTopics)
    : res (list TopicValues) :=
  workflowIdRule ← topic_rule evt 0 (λ v, VFixed (WorkflowSelectorSetTopics_WorkflowId v)) values;
  selectorRule ← topic_rule evt 1 (λ v, VFixed (WorkflowSelectorSetTopics_Selector v)) values;
  isAllowlistedRule ← topic_rule evt 2 (λ v, VBool (WorkflowSelectorSetTopics_IsAllowlisted v)) values;
  make_topics evt [workflowIdRule; selectorRule; isAllowlistedRule].

(** ** Decoders *)
Definition DecodeDefaultAdminDelayChangeCanceled (c : Codec) (log : option Log) : res DefaultAdminDelayChangeCanceledDecoded :=
  _ ← decode_event (codec_abi c) "DefaultAdminDelayChangeCanceled" log; Ok mkDefaultAdminDelayChangeCanceledDecoded.
Definition DecodeDefaultAdminDelayChangeScheduled (c : Codec) (log : option Log) : res DefaultAdminDelayChangeScheduledDecoded :=
  m ← decode_event (codec_abi c) "DefaultAdminDelayChangeScheduled" log;
  Ok (mkDefaultAdminDelayChangeScheduledDecoded
        (event_big m "newDelay") (event_big m "effectSchedule")).
Definition DecodeDefaultAdminTransferCanceled (c : Codec) (log : option Log) : res DefaultAdminTransferCanceledDecoded :=
  _ ← decode_event (codec_abi c) "DefaultAdminTransferCanceled" log; Ok mkDefaultAdminTransferCanceledDecoded.
Definition DecodeDefaultAdminTransferScheduled (c : Codec) (log : option Log) : res DefaultAdminTransferScheduledDecoded :=
  m ← decode_event (codec_abi c) "DefaultAdminTransferScheduled" log;
  Ok (mkDefaultAdminTransferScheduledDecoded
        (event_address m "newAdmin") (event_big m "acceptSchedule")).
Definition DecodePaused (c : Codec) (log : option Log) : res PausedDecoded :=
  m ← decode_event (codec_abi c) "Paused" log;
  Ok (mkPausedDecoded (event_address m "account")).
Definition DecodeRoleAdminChanged (c : Codec) (log : option Log) : res RoleAdminChangedDecoded :=
  m ← decode_event (codec_abi c) "RoleAdminChanged" log;
  Ok (mkRoleAdminChangedDecoded
        (event_bytes32 m "role") (event_bytes32 m "previousAdminRole")
        (event_bytes32 m "newAdminRole")).
Definition DecodeRoleGranted (c : Codec) (log : option Log) : res RoleGrantedDecoded :=
  m ← decode_event (codec_abi c) "RoleGranted" log;
  Ok (mkRoleGrantedDecoded
        (event_bytes32 m "role") (event_address m "account") (event_address m "sender")).
Definition DecodeRoleRevoked (c : Codec) (log : option Log) : res RoleRevokedDecoded :=
  m ← decode_event (codec_abi c) "RoleRevoked" log;
  Ok (mkRoleRevokedDecoded
        (event_bytes32 m "role") (event_address m "account") (event_address m "sender")).
Definition DecodeUnpaused (c : Codec) (log : option Log) : res UnpausedDecoded :=
  m ← decode_event (codec_abi c) "Unpaused" log;
  Ok (mkUnpausedDecoded (event_address m "account")).
Definition DecodeWorkflowMetadataSet (c : Codec) (log : option Log) : res WorkflowMetadataSetDecoded :=
  m ← decode_event (codec_abi c) "WorkflowMetadataSet" log;
  Ok (mkWorkflowMetadataSetDecoded
        (event_bytes32 m "workflowId") (event_bytesN 10 m "name") (event_address m "owner")).
Definition DecodeWorkflowSelectorSet (c : Codec) (log : option Log) : res WorkflowSelectorSetDecoded :=
  m ← decode_event (codec_abi c) "WorkflowSelectorSet" log;
  Ok (mkWorkflowSelectorSetDecoded
        (event_bytes32 m "workflowId") (event_bytesN 4 m "selector")
        (event_bool m "isAllowlisted")).

(** ** Triggers *)
Record DefaultAdminDelayChangeCanceledTrigger := mkDefaultAdminDelayChangeCanceledTrigger {
  DefaultAdminDelayChangeCanceled_Trigger : LogTrigger; DefaultAdminDelayChangeCanceled_contract : WorkflowRouter }.
Definition AdaptDefaultAdminDelayChangeCanceled (t : DefaultAdminDelayChangeCanceledTrigger) (l : option Log)
    : res (DecodedLog DefaultAdminDelayChangeCanceledDecoded) :=
  adapt "DefaultAdminDelayChangeCanceled" (DecodeDefaultAdminDelayChangeCanceled (vault_Codec (DefaultAdminDelayChangeCanceled_contract t))) l.
Definition LogTriggerDefaultAdminDelayChangeCanceledLog (c : WorkflowRouter) (chainSelector confidence : Z)
    (filters : list DefaultAdminDelayChangeCanceledTopics) : res DefaultAdminDelayChangeCanceledTrigger :=
  let event := abi_Events (vault_ABI c) "DefaultAdminDelayChangeCanceled" in
  rawTrigger ← log_trigger "DefaultAdminDelayChangeCanceled" (vault_Address c) chainSelector confidence
                 (EncodeDefaultAdminDelayChangeCanceledTopics event filters);
  Ok (mkDefaultAdminDelayChangeCanceledTrigger rawTrigger c).
Definition FilterLogsDefaultAdminDelayChangeCanceled (c : WorkflowRouter) (options : option FilterOptions)
    : res (Z * FilterQuery) :=
  filter_logs (vault_client c) (vault_Address c) (DefaultAdminDelayChangeCanceledLogHash (vault_Codec c)) options.
Record DefaultAdminDelayChangeScheduledTrigger := mkDefaultAdminDelayChangeScheduledTrigger {
  DefaultAdminDelayChangeScheduled_Trigger : LogTrigger; DefaultAdminDelayChangeScheduled_contract : WorkflowRouter }.
Definition AdaptDefaultAdminDelayChangeScheduled (t : DefaultAdminDelayChangeScheduledTrigger) (l : option Log)
    : res (DecodedLog DefaultAdminDelayChangeScheduledDecoded) :=
  adapt "DefaultAdminDelayChangeScheduled" (DecodeDefaultAdminDelayChangeScheduled (vault_Codec (DefaultAdminDelayChangeScheduled_contract t))) l.
Definition LogTriggerDefaultAdminDelayChangeScheduledLog (c : WorkflowRouter) (chainSelector confidence : Z)
    (filters : list DefaultAdminDelayChangeScheduledTopics) : res DefaultAdminDelayChangeScheduledTrigger :=
  let event := abi_Events (vault_ABI c) "DefaultAdminDelayChangeScheduled" in
  rawTrigger ← log_trigger "DefaultAdminDelayChangeScheduled" (vault_Address c) chainSelector confidence
                 (EncodeDefaultAdminDelayChangeScheduledTopics event filters);
  Ok (mkDefaultAdminDelayChangeScheduledTrigger rawTrigger c).
Definition FilterLogsDefaultAdminDelayChangeScheduled (c : WorkflowRouter) (options : option FilterOptions)
    : res (Z * FilterQuery) :=
  filter_logs (vault_client c) (vault_Address c) (DefaultAdminDelayChangeScheduledLogHash (vault_Codec c)) options.
Record DefaultAdminTransferCanceledTrigger := mkDefaultAdminTransferCanceledTrigger {
  DefaultAdminTransferCanceled_Trigger : LogTrigger; DefaultAdminTransferCanceled_contract : WorkflowRouter }.
Definition AdaptDefaultAdminTransferCanceled (t : DefaultAdminTransferCanceledTrigger) (l : option Log)
    : res (DecodedLog DefaultAdminTransferCanceledDecoded) :=
  adapt "DefaultAdminTransferCanceled" (DecodeDefaultAdminTransferCanceled (vault_Codec (DefaultAdminTransferCanceled_contract t))) l.
Definition LogTriggerDefaultAdminTransferCanceledLog (c : WorkflowRouter) (chainSelector confidence : Z)
    (filters : list DefaultAdminTransferCanceledTopics) : res DefaultAdminTransferCanceledTrigger :=
  let event := abi_Events (vault_ABI c) "DefaultAdminTransferCanceled" in
  rawTrigger ← log_trigger "DefaultAdminTransferCanceled" (vault_Address c) chainSelector confidence
                 (EncodeDefaultAdminTransferCanceledTopics event filters);
  Ok (mkDefaultAdminTransferCanceledTrigger rawTrigger c).
Definition FilterLogsDefaultAdminTransferCanceled (c : WorkflowRouter) (options : option FilterOptions)
    : res (Z * FilterQuery) :=
  filter_logs (vault_client c) (vault_Address c) (DefaultAdminTransferCanceledLogHash (vault_Codec c)) options.
Record DefaultAdminTransferScheduledTrigger := mkDefaultAdminTransferScheduledTrigger {
  DefaultAdminTransferScheduled_Trigger : LogTrigger; DefaultAdminTransferScheduled_contract : WorkflowRouter }.
Definition AdaptDefaultAdminTransferScheduled (t : DefaultAdminTransferScheduledTrigger) (l : option Log)
    : res (DecodedLog DefaultAdminTransferScheduledDecoded) :=
  adapt "DefaultAdminTransferScheduled" (DecodeDefaultAdminTransferScheduled (vault_Codec (DefaultAdminTransferScheduled_contract t))) l.
Definition LogTriggerDefaultAdminTransferScheduledLog (c : WorkflowRouter) (chainSelector confidence : Z)
    (filters : list DefaultAdminTransferScheduledTopics) : res DefaultAdminTransferScheduledTrigger :=
  let event := abi_Events (vault_ABI c) "DefaultAdminTransferScheduled" in
  rawTrigger ← log_trigger "DefaultAdminTransferScheduled" (vault_Address c) chainSelector confidence
                 (EncodeDefaultAdminTransferScheduledTopics event filters);
  Ok (mkDefaultAdminTransferScheduledTrigger rawTrigger c).
Definition FilterLogsDefaultAdminTransferScheduled (c : WorkflowRouter) (options : option FilterOptions)
    : res (Z * FilterQuery) :=
  filter_logs (vault_client c) (vault_Address c) (DefaultAdminTransferScheduledLogHash (vault_Codec c)) options.
Record PausedTrigger := mkPausedTrigger {
  Paused_Trigger : LogTrigger; Paused_contract : WorkflowRouter }.
Definition AdaptPaused (t : PausedTrigger) (l : option Log)
    : res (DecodedLog PausedDecoded) :=
  adapt "Paused" (DecodePaused (vault_Codec (Paused_contract t))) l.
Definition LogTriggerPausedLog (c : WorkflowRouter) (chainSelector confidence : Z)
    (filters : list PausedTopics) : res PausedTrigger :=
  let event := abi_Events (vault_ABI c) "Paused" in
  rawTrigger ← log_trigger "Paused" (vault_Address c) chainSelector confidence
                 (EncodePausedTopics event filters);
  Ok (mkPausedTrigger rawTrigger c).
Definition FilterLogsPaused (c : WorkflowRouter) (options : option FilterOptions)
    : res (Z * FilterQuery) :=
  filter_logs (vault_client c) (vault_Address c) (PausedLogHash (vault_Codec c)) options.
Record RoleAdminChangedTrigger := mkRoleAdminChangedTrigger {
  RoleAdminChanged_Trigger : LogTrigger; RoleAdminChanged_contract : WorkflowRouter }.
Definition AdaptRoleAdminChanged (t : RoleAdminChangedTrigger) (l : option Log)
    : res (DecodedLog RoleAdminChangedDecoded) :=
  adapt "RoleAdminChanged" (DecodeRoleAdminChanged (vault_Codec (RoleAdminChanged_contract t))) l.
Definition LogTriggerRoleAdminChangedLog (c : WorkflowRouter) (chainSelector confidence : Z)
    (filters : list RoleAdminChangedTopics) : res RoleAdminChangedTrigger :=
  let event := abi_Events (vault_ABI c) "RoleAdminChanged" in
  rawTrigger ← log_trigger "RoleAdminChanged" (vault_Address c) chainSelector confidence
                 (EncodeRoleAdminChangedTopics event filters);
  Ok (mkRoleAdminChangedTrigger rawTrigger c).
Definition FilterLogsRoleAdminChanged (c : WorkflowRouter) (options : option FilterOptions)
    : res (Z * FilterQuery) :=
  filter_logs (vault_client c) (vault_Address c) (RoleAdminChangedLogHash (vault_Codec c)) options.
Record RoleGrantedTrigger := mkRoleGrantedTrigger {
  RoleGranted_Trigger : LogTrigger; RoleGranted_contract : WorkflowRouter }.
Definition AdaptRoleGranted (t : RoleGrantedTrigger) (l : option Log)
    : res (DecodedLog RoleGrantedDecoded) :=
  adapt "RoleGranted" (DecodeRoleGranted (vault_Codec (RoleGranted_contract t))) l.
Definition LogTriggerRoleGrantedLog (c : WorkflowRouter) (chainSelector confidence : Z)
    (filters : list RoleGrantedTopics) : res RoleGrantedTrigger :=
  let event := abi_Events (vault_ABI c) "RoleGranted" in
  rawTrigger ← log_trigger "RoleGranted" (vault_Address c) chainSelector confidence
                 (EncodeRoleGrantedTopics event filters);
  Ok (mkRoleGrantedTrigger rawTrigger c).
Definition FilterLogsRoleGranted (c : WorkflowRouter) (options : option FilterOptions)
    : res (Z * FilterQuery) :=
  filter_logs (vault_client c) (vault_Address c) (RoleGrantedLogHash (vault_Codec c)) options.
Record RoleRevokedTrigger := mkRoleRevokedTrigger {
  RoleRevoked_Trigger : LogTrigger; RoleRevoked_contract : WorkflowRouter }.
Definition AdaptRoleRevoked (t : RoleRevokedTrigger) (l : option Log)
    : res (DecodedLog RoleRevokedDecoded) :=
  adapt "RoleRevoked" (DecodeRoleRevoked (vault_Codec (RoleRevoked_contract t))) l.
Definition LogTriggerRoleRevokedLog (c : WorkflowRouter) (chainSelector confidence : Z)
    (filters : list RoleRevokedTopics) : res RoleRevokedTrigger :=
  let event := abi_Events (vault_ABI c) "RoleRevoked" in
  rawTrigger ← log_trigger "RoleRevoked" (vault_Address c) chainSelector confidence
                 (EncodeRoleRevokedTopics event filters);
  Ok (mkRoleRevokedTrigger rawTrigger c).
Definition FilterLogsRoleRevoked (c : WorkflowRouter) (options : option FilterOptions)
    : res (Z * FilterQuery) :=
  filter_logs (vault_client c) (vault_Address c) (RoleRevokedLogHash (vault_Codec c)) options.
Record UnpausedTrigger := mkUnpausedTrigger {
  Unpaused_Trigger : LogTrigger; Unpaused_contract : WorkflowRouter }.
Definition AdaptUnpaused (t : UnpausedTrigger) (l : option Log)
    : res (DecodedLog UnpausedDecoded) :=
  adapt "Unpaused" (DecodeUnpaused (vault_Codec (Unpaused_contract t))) l.
Definition LogTriggerUnpausedLog (c : WorkflowRouter) (chainSelector confidence : Z)
    (filters : list UnpausedTopics) : res UnpausedTrigger :=
  let event := abi_Events (vault_ABI c) "Unpaused" in
  rawTrigger ← log_trigger "Unpaused" (vault_Address c) chainSelector confidence
                 (EncodeUnpausedTopics event filters);
  Ok (mkUnpausedTrigger rawTrigger c).
Definition FilterLogsUnpaused (c : WorkflowRouter) (options : option FilterOptions)
    : res (Z * FilterQuery) :=
  filter_logs (vault_client c) (vault_Address c) (UnpausedLogHash (vault_Codec c)) options.
Record WorkflowMetadataSetTrigger := mkWorkflowMetadataSetTrigger {
  WorkflowMetadataSet_Trigger : LogTrigger; WorkflowMetadataSet_contract : WorkflowRouter }.
Definition AdaptWorkflowMetadataSet (t : WorkflowMetadataSetTrigger) (l : option Log)
    : res (DecodedLog WorkflowMetadataSetDecoded) :=
  adapt "WorkflowMetadataSet" (DecodeWorkflowMetadataSet (vault_Codec (WorkflowMetadataSet_contract t))) l.
Definition LogTriggerWorkflowMetadataSetLog (c : WorkflowRouter) (chainSelector confidence : Z)
    (filters : list WorkflowMetadataSetTopics) : res WorkflowMetadataSetTrigger :=
  let event := abi_Events (vault_ABI c) "WorkflowMetadataSet" in
  rawTrigger ← log_trigger "WorkflowMetadataSet" (vault_Address c) chainSelector confidence
                 (EncodeWorkflowMetadataSetTopics event filters);
  Ok (mkWorkflowMetadataSetTrigger rawTrigger c).
Definition FilterLogsWorkflowMetadataSet (c : WorkflowRouter) (options : option FilterOptions)
    : res (Z * FilterQuery) :=
  filter_logs (vault_client c) (vault_Address c) (WorkflowMetadataSetLogHash (vault_Codec c)) options.
Record WorkflowSelectorSetTrigger := mkWorkflowSelectorSetTrigger {
  WorkflowSelectorSet_Trigger : LogTrigger; WorkflowSelectorSet_contract : WorkflowRouter }.
Definition AdaptWorkflowSelectorSet (t : WorkflowSelectorSetTrigger) (l : option Log)
    : res (DecodedLog WorkflowSelectorSetDecoded) :=
  adapt "WorkflowSelectorSet" (DecodeWorkflowSelectorSet (vault_Codec (WorkflowSelectorSet_contract t))) l.
Definition LogTriggerWorkflowSelectorSetLog (c : WorkflowRouter) (chainSelector confidence : Z)
    (filters : list WorkflowSelectorSetTopics) : res WorkflowSelectorSetTrigger :=
  let event := abi_Events (vault_ABI c) "WorkflowSelectorSet" in
  rawTrigger ← log_trigger "WorkflowSelectorSet" (vault_Address c) chainSelector confidence
                 (EncodeWorkflowSelectorSetTopics event filters);
  Ok (mkWorkflowSelectorSetTrigger rawTrigger c).
Definition FilterLogsWorkflowSelectorSet (c : WorkflowRouter) (options : option FilterOptions)
    : res (Z * FilterQuery) :=
  filter_logs (vault_client c) (vault_Address c) (WorkflowSelectorSetLogHash (vault_Codec c)) options.
End Events.

(** ** All events *)
Inductive vault_event : Type :=
| EDefaultAdminDelayChangeCanceled (e : DefaultAdminDelayChangeCanceledDecoded)
| EDefaultAdminDelayChangeScheduled (e : DefaultAdminDelayChangeScheduledDecoded)
| EDefaultAdminTransferCanceled (e : DefaultAdminTransferCanceledDecoded)
| EDefaultAdminTransferScheduled (e : DefaultAdminTransferScheduledDecoded)
| EPaused (e : PausedDecoded)
| ERoleAdminChanged (e : RoleAdminChangedDecoded)
| ERoleGranted (e : RoleGrantedDecoded)
| ERoleRevoked (e : RoleRevokedDecoded)
| EUnpaused (e : UnpausedDecoded)
| EWorkflowMetadataSet (e : WorkflowMetadataSetDecoded)
| EWorkflowSelectorSet (e : WorkflowSelectorSetDecoded).

(** The ABI name of an event and its values in the ABI's order. *)
Definition describe (e : vault_event) : string * list abi_value :=
  match e with
  | EDefaultAdminDelayChangeCanceled _ => ("DefaultAdminDelayChangeCanceled"%string, [])
  | EDefaultAdminDelayChangeScheduled e => ("DefaultAdminDelayChangeScheduled"%string, [
      VBig (DefaultAdminDelayChangeScheduled_NewDelay e);
      VBig (DefaultAdminDelayChangeScheduled_EffectSchedule e)])
  | EDefaultAdminTransferCanceled _ => ("DefaultAdminTransferCanceled"%string, [])
  | EDefaultAdminTransferScheduled e => ("DefaultAdminTransferScheduled"%string, [
      VFixed (DefaultAdminTransferScheduled_NewAdmin e);
      VBig (DefaultAdminTransferScheduled_AcceptSchedule e)])
  | EPaused e => ("Paused"%string, [VFixed (Paused_Account e)])
  | ERoleAdminChanged e => ("RoleAdminChanged"%string, [
      VFixed (RoleAdminChanged_Role e); VFixed (RoleAdminChanged_PreviousAdminRole e);
      VFixed (RoleAdminChanged_NewAdminRole e)])
  | ERoleGranted e => ("RoleGranted"%string, [
      VFixed (RoleGranted_Role e); VFixed (RoleGranted_Account e); VFixed (RoleGranted_Sender e)])
  | ERoleRevoked e => ("RoleRevoked"%string, [
      VFixed (RoleRevoked_Role e); VFixed (RoleRevoked_Account e); VFixed (RoleRevoked_Sender e)])
  | EUnpaused e => ("Unpaused"%string, [VFixed (Unpaused_Account e)])
  | EWorkflowMetadataSet e => ("WorkflowMetadataSet"%string, [
      VFixed (WorkflowMetadataSet_WorkflowId e); VFixed (WorkflowMetadataSet_Name e);
      VFixed (WorkflowMetadataSet_Owner e)])
  | EWorkflowSelectorSet e => ("WorkflowSelectorSet"%string, [
      VFixed (WorkflowSelectorSet_WorkflowId e); VFixed (WorkflowSelectorSet_Selector e);
      VBool (WorkflowSelectorSet_IsAllowlisted e)])
  end.

(** Decoding with the trigger of the event that [e] is an instance of. *)
Definition adapt_like `{GoTopics} (e : vault_event) (raw : LogTrigger) (c : WorkflowRouter)
    (l : option Log) : res (option Log * vault_event) :=
  let decoded {T} (f : T → vault_event) (d : DecodedLog T) := (Decoded_Log d, f (Decoded_Data d)) in
  match e with
  | EDefaultAdminDelayChangeCanceled _ => decoded EDefaultAdminDelayChangeCanceled <$> AdaptDefaultAdminDelayChangeCanceled (mkDefaultAdminDelayChangeCanceledTrigger raw c) l
  | EDefaultAdminDelayChangeScheduled _ => decoded EDefaultAdminDelayChangeScheduled <$> AdaptDefaultAdminDelayChangeScheduled (mkDefaultAdminDelayChangeScheduledTrigger raw c) l
  | EDefaultAdminTransferCanceled _ => decoded EDefaultAdminTransferCanceled <$> AdaptDefaultAdminTransferCanceled (mkDefaultAdminTransferCanceledTrigger raw c) l
  | EDefaultAdminTransferScheduled _ => decoded EDefaultAdminTransferScheduled <$> AdaptDefaultAdminTransferScheduled (mkDefaultAdminTransferScheduledTrigger raw c) l
  | EPaused _ => decoded EPaused <$> AdaptPaused (mkPausedTrigger raw c) l
  | ERoleAdminChanged _ => decoded ERoleAdminChanged <$> AdaptRoleAdminChanged (mkRoleAdminChangedTrigger raw c) l
  | ERoleGranted _ => decoded ERoleGranted <$> AdaptRoleGranted (mkRoleGrantedTrigger raw c) l
  | ERoleRevoked _ => decoded ERoleRevoked <$> AdaptRoleRevoked (mkRoleRevokedTrigger raw c) l
  | EUnpaused _ => decoded EUnpaused <$> AdaptUnpaused (mkUnpausedTrigger raw c) l
  | EWorkflowMetadataSet _ => decoded EWorkflowMetadataSet <$> AdaptWorkflowMetadataSet (mkWorkflowMetadataSetTrigger raw c) l
  | EWorkflowSelectorSet _ => decoded EWorkflowSelectorSet <$> AdaptWorkflowSelectorSet (mkWorkflowSelectorSetTrigger raw c) l
  end.

(** The filters of a subscription. *)
Inductive vault_filters : Type :=
| FDefaultAdminDelayChangeCanceled (values : list DefaultAdminDelayChangeCanceledTopics)
| FDefaultAdminDelayChangeScheduled (values : list DefaultAdminDelayChangeScheduledTopics)
| FDefaultAdminTransferCanceled (values : list DefaultAdminTransferCanceledTopics)
| FDefaultAdminTransferScheduled (values : list DefaultAdminTransferScheduledTopics)
| FPaused (values : list PausedTopics)
| FRoleAdminChanged (values : list RoleAdminChangedTopics)
| FRoleGranted (values : list RoleGrantedTopics)
| FRoleRevoked (values : list RoleRevokedTopics)
| FUnpaused (values : list UnpausedTopics)
| FWorkflowMetadataSet (values : list WorkflowMetadataSetTopics)
| FWorkflowSelectorSet (values : list WorkflowSelectorSetTopics).

(** The ABI name of the event and, per filter, its values in the ABI's order. *)
Definition filter_rows (f : vault_filters) : string * list (list abi_value) :=
  match f with
  | FDefaultAdminDelayChangeCanceled values => ("DefaultAdminDelayChangeCanceled"%string, (λ _, []) <$> values)
  | FDefaultAdminDelayChangeScheduled values => ("DefaultAdminDelayChangeScheduled"%string, (λ _, []) <$> values)
  | FDefaultAdminTransferCanceled values => ("DefaultAdminTransferCanceled"%string, (λ _, []) <$> values)
  | FDefaultAdminTransferScheduled values => ("DefaultAdminTransferScheduled"%string, (λ v, [
      VFixed (DefaultAdminTransferScheduledTopics_NewAdmin v)]) <$> values)
  | FPaused values => ("Paused"%string, (λ _, []) <$> values)
  | FRoleAdminChanged values => ("RoleAdminChanged"%string, (λ v, [
      VFixed (RoleAdminChangedTopics_Role v); VFixed (RoleAdminChangedTopics_PreviousAdminRole v);
      VFixed (RoleAdminChangedTopics_NewAdminRole v)]) <$> values)
  | FRoleGranted values => ("RoleGranted"%string, (λ v, [
      VFixed (RoleGrantedTopics_Role v); VFixed (RoleGrantedTopics_Account v);
      VFixed (RoleGrantedTopics_Sender v)]) <$> values)
  | FRoleRevoked values => ("RoleRevoked"%string, (λ v, [
      VFixed (RoleRevokedTopics_Role v); VFixed (RoleRevokedTopics_Account v);
      VFixed (RoleRevokedTopics_Sender v)]) <$> values)
  | FUnpaused values => ("Unpaused"%string, (λ _, []) <$> values)
  | FWorkflowMetadataSet values => ("WorkflowMetadataSet"%string, (λ v, [
      VFixed (WorkflowMetadataSetTopics_WorkflowId v); VFixed (WorkflowMetadataSetTopics_Name v);
      VFixed (WorkflowMetadataSetTopics_Owner v)]) <$> values)
  | FWorkflowSelectorSet values => ("WorkflowSelectorSet"%string, (λ v, [
      VFixed (WorkflowSelectorSetTopics_WorkflowId v);
      VFixed (WorkflowSelectorSetTopics_Selector v);
      VBool (WorkflowSelectorSetTopics_IsAllowlisted v)]) <$> values)
  end.
Definition encode_filters `{GoTopics} (evt : Event) (f : vault_filters) : res (list TopicValues) :=
  match f with
  | FDefaultAdminDelayChangeCanceled values => EncodeDefaultAdminDelayChangeCanceledTopics evt values
  | FDefaultAdminDelayChangeScheduled values => EncodeDefaultAdminDelayChangeScheduledTopics evt values
  | FDefaultAdminTransferCanceled values => EncodeDefaultAdminTransferCanceledTopics evt values
  | FDefaultAdminTransferScheduled values => EncodeDefaultAdminTransferScheduledTopics evt values
  | FPaused values => EncodePausedTopics evt values
  | FRoleAdminChanged values => EncodeRoleAdminChangedTopics evt values
  | FRoleGranted values => EncodeRoleGrantedTopics evt values
  | FRoleRevoked values => EncodeRoleRevokedTopics evt values
  | FUnpaused values => EncodeUnpausedTopics evt values
  | FWorkflowMetadataSet values => EncodeWorkflowMetadataSetTopics evt values
  | FWorkflowSelectorSet values => EncodeWorkflowSelectorSetTopics evt values
  end.

(** ** Correctness *)
Definition inputs (e : vault_event) : list Argument := inputs_of events (describe e).1.
Definition well_typed (e : vault_event) : Prop := typed_values (inputs e) (describe e).2.

Section Correctness.
Context `{GoTopics} (c : WorkflowRouter).

(** The encoders of topic filters: one rule per indexed input of the ABI, in its
    order, from the field of that name. *)
Theorem WorkflowRouterTopics_reference evt f :
  encode_filters evt f = encode_topics evt (inputs_of events (filter_rows f).1) (filter_rows f).2.
Proof. destruct f; cbn [encode_filters filter_rows]; topics_case. Qed.

(** A trigger panics only on a nil log or on one without topics. *)
Theorem WorkflowRouterAdapt_total {HE : GoEthereumLaws} e raw log :
  Log_Topics log ≠ [] → adapt_like e raw c (Some log) ≠ Crash.
Proof. destruct e; intros Hlog; cbn [adapt_like]; adapt_case Hlog. Qed.

Section Emitted.
Context {HL : GoEventsLaws (codec_abi (vault_Codec c)) events}.

(** The log the contract emits for an event. *)
Definition emit (address : bytes) (e : vault_event) : Log :=
  emitted address (describe e).1 (inputs e) (describe e).2.

Lemma workflowrouter_event e raw address :
  well_typed e → adapt_like e raw c (Some (emit address e)) = Ok (Some (emit address e), e).
Proof.
  unfold well_typed, emit, inputs.
  destruct e as [e|e|e|e|e|e|e|e|e|e|e];
    destruct e; cbn [describe adapt_like fst snd]; event_case.
Qed.

(** Round trip of every event of the workflow router: the trigger of an event,
    given the log the contract emits for it with any values of the ABI's types,
    indexed or in the data, returns that log and the event's values, each in its
    field. *)
Theorem WorkflowRouterEvent_roundtrip e raw address :
  well_typed e → adapt_like e raw c (Some (emit address e)) = Ok (Some (emit address e), e).
Proof. apply workflowrouter_event. Qed.
End Emitted.
End Correctness.

(** ** Witness *)
Module SampleWorkflowRouterEvents.
#[local] Instance toy_ethereum : GoEthereum := ToyEvents.ethereum_events events.
#[local] Instance toy_topics : GoTopics := {|
  bindings_PrepareTopicArg _ v := Ok v;
  abi_MakeTopics rules := Ok (map (map ToyEvents.topic) rules);
  bindings_PrepareTopics raw signature := mkTopicValues [signature] :: map mkTopicValues raw |}.
Definition vault : WorkflowRouter := mkWorkflowRouter zeroAddress WorkflowRouterMetaData 1 (mkCodec WorkflowRouterMetaData).
#[local] Instance toy_laws : GoEventsLaws (codec_abi (vault_Codec vault)) events.
Proof.
  apply ToyEvents.events_laws.
  - apply (bool_decide_unpack _). vm_compute. exact I.
  - unfold events. repeat constructor.
Defined.

Definition raw : LogTrigger := mkLogTrigger 1 [zeroAddress] [] 0.
Definition sample : vault_event := EWorkflowSelectorSet
  (mkWorkflowSelectorSetDecoded (zeros 32) (zeros 4) true).

Lemma WorkflowRouterEvent_roundtrip_witness :
  adapt_like sample raw vault (Some (emit vault zeroAddress sample))
    = Ok (Some (emit vault zeroAddress sample), sample).
Proof.
  apply (WorkflowRouterEvent_roundtrip vault sample raw zeroAddress). repeat constructor; done.
Defined.
End SampleWorkflowRouterEvents.
End workflow_router_events.
