(* ===== verification/AbiMethods.v ===== *)
(** * Methods: the shape shared by the generated calls, outputs, reads and reports

    Per method of its ABI a binding of [cre/contracts/evm/src/generated] has an
    encoder of calls; methods with outputs have a decoder, view methods a read;
    per struct there is a tuple encoder and a report writer.  This file has the
    operations they are made of and the lemmas about them; the methods of each
    contract are in [ParentVaultMethods], [ChildVaultMethods],
    [BaseVaultMethods] and [WorkflowRouterMethods]. *)

From S2P Require Import Prelude GoText BigInt Ethereum Runtime Bindings.

#[local] Open Scope Z_scope.

(** ** More output conversions: values through JSON, as in [Bindings] *)
Definition as_bytesN (n : nat) (ty : string) (v : option abi_value) : res bytes :=
  match v with
  | Some (VFixed b) => Ok (take n (b ++ zeros n))
  | None => Ok (zeros n)
  | _ => Err (json_error ty)
  end.
Definition as_address (ty : string) (v : option abi_value) : res Address :=
  match v with
  | Some (VFixed b) => if Nat.eqb (length b) AddressLength then Ok b else Err (json_error ty)
  | None => Ok zeroAddress
  | _ => Err (json_error ty)
  end.
Definition as_string (ty : string) (v : option abi_value) : res string :=
  match v with Some (VString s) => Ok s | None => Ok EmptyString | _ => Err (json_error ty) end.
Fixpoint as_elements {A} (conv : option abi_value → res A) (vs : list abi_value) : res (list A) :=
  match vs with
  | [] => Ok []
  | v :: vs => a ← conv (Some v); rest ← as_elements conv vs; Ok (a :: rest)
  end.
Definition as_slice {A} (ty : string) (conv : option abi_value → res A) (v : option abi_value)
    : res (list A) :=
  match v with
  | Some (VSlice vs) => as_elements conv vs
  | None => Ok []
  | _ => Err (json_error ty)
  end.

(** ** Decoding outputs *)
Section Outputs.
Context `{GoEthereum}.

(** [Decode<M>MethodOutput] of a single value. *)
Definition decode_value {A} (abi : abi_ABI) (method : string)
    (conv : option abi_value → res A) (data : bytes) : res A :=
  vals ← abi_UnpackOutput abi method data;
  v ← deref (head vals);
  conv (Some v).

(** [Decode<M>MethodOutput] of several values: their number is checked. *)
Definition output_values (abi : abi_ABI) (method : string) (n : nat) (data : bytes)
    : res (list abi_value) :=
  vals ← abi_UnpackOutput abi method data;
  _ ← fail_if (negb (Nat.eqb (length vals) n))
        (Errorf (String.append "expected " (String.append (pretty n) " values, got %d"))
           [FInt (Z.of_nat (length vals))]);
  Ok vals.
Definition output_value {A} (vals : list abi_value) (i : nat) (conv : option abi_value → res A)
    : res A :=
  v ← deref (vals !! i); conv (Some v).
End Outputs.

(** ** Encoding a struct as a tuple *)
Class GoAbiTypes `{GoEthereum} := {
  abi_Type : Type;
  abi_NewTuple : list (string * string) → res abi_Type;   (* abi.NewType("tuple", "", components) *)
  abi_Arguments_Pack : list (string * abi_Type) → abi_value → res bytes
}.

Definition encode_struct `{GoAbiTypes} (struct_name arg_name : string)
    (components : list (string * string)) (v : abi_value) : res bytes :=
  tupleType ← wrap (String.append "failed to create tuple type for "
                      (String.append struct_name ": %w")) [] (abi_NewTuple components);
  abi_Arguments_Pack [(arg_name, tupleType)] v.

(** ** Reports *)

(** [WriteReport]: the report goes to the vault itself. *)
Definition write_report {R} (client : Z) (address : Address) (report : option Report)
    (gasConfig : option GasConfig) : prog (cre_eff R) (option WriteReportReply) :=
  await (EWriteReport client (mkWriteCreReportRequest address report gasConfig)).

(** [WriteReportFrom<S>]: sign the encoded struct and write the report. *)
Definition write_report_from {R} (client : Z) (address : Address) (encoded : res bytes)
    (gasConfig : option GasConfig) : prog (cre_eff R) (option WriteReportReply) :=
  payload ← lift encoded;
  report ← await (EGenerateReport (mkReportRequest payload "evm" "ecdsa" "keccak256"));
  write_report client address report gasConfig.

(** A report is signed before it is written, and each at most once. *)
Definition report_written {R} client address (encoded : res bytes) gasConfig
    (t : list (step (cre_eff R))) (r : res (option WriteReportReply)) : Prop :=
  match encoded with
  | Ok payload =>
      reports t = [mkReportRequest payload "evm" "ecdsa" "keccak256"] ∧
      (writes t = [] ∧ (∃ e, r = Err e) ∨
       ∃ report, writes t = [(client, mkWriteCreReportRequest address report gasConfig)])
  | Err e => t = [] ∧ r = Err e
  | Crash => t = [] ∧ r = Crash
  end.
Lemma write_report_from_seg {R} adm h client address encoded gasConfig :
  wp_seg adm h (@write_report_from R client address encoded gasConfig)
    (report_written client address encoded gasConfig).
Proof.
  unfold write_report_from, write_report, await. destruct encoded as [payload|e|]; cbn [lift].
  - intros x _. destruct x as [report|e]; cbn.
    + intros y _. destruct y as [reply|e]; cbn; eexists; rewrite <-app_assoc;
        (split; [done|]); (split; [done|]); right; by exists report.
    + eexists. split; [done|]. split; [done|]. left. split; [done|]. by exists e.
  - exists []. by rewrite app_nil_r.
  - exists []. by rewrite app_nil_r.
Qed.

(** ** The ABI's table of methods *)
Inductive sol_type : Type :=
| SUint (bits : Z) | SAddress | SBool | SBytesN (n : nat) | SBytes | SString
| SSlice (t : sol_type) | STuple (fields : list (string * sol_type)).

Record Method := mkMethod {
  Method_Inputs : list (string * sol_type); Method_Outputs : list (string * sol_type) }.
Abbreviation method_table := (list (string * Method)).

Fixpoint method_of (table : method_table) (name : string) : Method :=
  match table with
  | [] => mkMethod [] []
  | (n, m) :: r => if bool_decide (n = name) then m else method_of r name
  end.

(** The Go representation of a Solidity type. *)
Fixpoint has_shape (t : sol_type) (v : abi_value) : bool :=
  match t, v with
  | SUint bits, VBig _ => negb (native_width bits)
  | SUint bits, VUint _ => native_width bits
  | (SAddress | SBytesN _), VFixed _ => true
  | SBool, VBool _ | SBytes, VBytes _ | SString, VString _ => true
  | SSlice t, VSlice vs => forallb (has_shape t) vs
  | STuple fs, VTuple ws =>
      (fix fields fs ws :=
         match fs, ws with
         | [], [] => true
         | (n, t) :: fs, (m, w) :: ws => bool_decide (n = m) && has_shape t w && fields fs ws
         | _, _ => false
         end) fs ws
  | _, _ => false
  end.

(** The text of a type in the metadata, with tuples as their components. *)
Fixpoint type_text (t : sol_type) : string :=
  match t with
  | SUint bits => String.append "uint" (pretty bits)
  | SAddress => "address"
  | SBool => "bool"
  | SBytesN n => String.append "bytes" (pretty n)
  | SBytes => "bytes"
  | SString => "string"
  | SSlice t => String.append (type_text t) "[]"
  | STuple fs => String.append "(" (String.append (String.concat "," ((λ f, type_text f.2) <$> fs)) ")")
  end.
Definition components (t : sol_type) : list (string * string) :=
  match t with STuple fs => (λ f, (f.1, type_text f.2)) <$> fs | _ => [] end.

(** A value of a Solidity type, as the ABI decoder produces it. *)
Fixpoint has_sol_type (t : sol_type) (v : abi_value) : Prop :=
  match t, v with
  | SUint bits, VBig (Some z) => native_width bits = false ∧ 0 <= z < 2 ^ 256
  | SUint bits, VUint z => native_width bits = true ∧ 0 <= z < 2 ^ bits
  | SAddress, VFixed b => length b = AddressLength
  | SBytesN n, VFixed b => length b = n
  | SBool, VBool _ | SBytes, VBytes _ | SString, VString _ => True
  | SSlice t, VSlice vs => Forall (has_sol_type t) vs
  | STuple fs, VTuple ws =>
      (fix fields fs ws :=
         match fs, ws with
         | [], [] => True
         | (n, t) :: fs, (m, w) :: ws => n = m ∧ has_sol_type t w ∧ fields fs ws
         | _, _ => False
         end) fs ws
  | _, _ => False
  end.

(** ** Lemmas *)
Lemma as_uint_typed bits ty z : 0 <= z → z < 2 ^ bits → as_uint bits ty (Some (VUint z)) = Ok z.
Proof.
  intros Hl Hu. cbn. by rewrite (proj2 (Z.leb_le _ _) Hl), (proj2 (Z.ltb_lt _ _) Hu).
Qed.
Lemma as_bytes32_typed ty b : length b = 32%nat → as_bytes32 ty (Some (VFixed b)) = Ok b.
Proof. intros Hb. cbn. by rewrite take_app_length'. Qed.
Lemma as_bytesN_typed n ty b : length b = n → as_bytesN n ty (Some (VFixed b)) = Ok b.
Proof. intros Hb. cbn. by rewrite take_app_length'. Qed.
Lemma as_address_typed ty b : length b = AddressLength → as_address ty (Some (VFixed b)) = Ok b.
Proof. intros Hb. cbn. by rewrite Hb, Nat.eqb_refl. Qed.
Lemma as_addresses_typed ty ty' (l : list Address) :
  Forall (has_sol_type SAddress) (VFixed <$> l) →
  as_slice ty (as_address ty') (Some (VSlice (VFixed <$> l))) = Ok l.
Proof.
  cbn [as_slice]. induction l as [|b l IH]; [done|].
  rewrite fmap_cons, Forall_cons. intros [Hb Hl]. cbn [as_elements].
  rewrite as_address_typed by done. cbn. by rewrite (IH Hl).
Qed.

(** The hints decode the structs a struct has as fields. *)
Create HintDb decoded.

(** Shapes of slices and of tuples, without computing under the binder of a slice. *)
Lemma has_shape_slice {A} t (f : A → abi_value) (l : list A) :
  (∀ a, has_shape t (f a) = true) → has_shape (SSlice t) (VSlice (f <$> l)) = true.
Proof. intros Hf. cbn [has_shape]. induction l as [|a l IH]; [done|]. cbn. by rewrite Hf. Qed.
Lemma has_shape_tuple fs ws :
  Forall2 (λ f w, f.1 = w.1 ∧ has_shape f.2 w.2 = true) fs ws →
  has_shape (STuple fs) (VTuple ws) = true.
Proof.
  induction 1 as [|[n t] [m w] fs ws [Hn Hw] _ IH]; [done|].
  cbn in *. by rewrite bool_decide_eq_true_2, Hw.
Qed.

Lemma encode_struct_components `{GoAbiTypes} struct_name arg_name comps comps' v :
  comps = comps' →
  encode_struct struct_name arg_name comps v = encode_struct struct_name arg_name comps' v.
Proof. by intros ->. Qed.

(** The arguments of one call have the ABI's names and shapes. *)
Ltac shape_value :=
  first [reflexivity
        | apply has_shape_slice; intros; reflexivity
        | apply has_shape_tuple;
          repeat (apply List.Forall2_cons; [split; [reflexivity | shape_value]|]); apply List.Forall2_nil].
Ltac shape_case :=
  split; [reflexivity|]; split; [reflexivity|];
  repeat (apply List.Forall2_cons; [shape_value|]); apply List.Forall2_nil.

Ltac open_head := lazymatch goal with |- ?m = _ => let d := head_of m in unfold d end.
(** One tuple encoder. *)
Ltac struct_case :=
  eexists _, _; split; [open_head; apply encode_struct_components; vm_compute; reflexivity|];
  shape_value.

Lemma bind_Ok {A B} (m : res A) (k : A → res B) a r : m = Ok a → k a = r → (m ≫= k) = r.
Proof. by intros -> <-. Qed.

Ltac decoded_field :=
  lazymatch goal with |- as_struct ?ty ?conv ?field = _ =>
    let v := eval hnf in field in change field with v; solve [eauto with decoded nocore]
  end.
(** One conversion of a typed value; the conversions of a struct in the source's order. *)
Ltac decoded_value :=
  first [apply as_uint_typed; assumption | apply as_bytes32_typed; assumption
        | apply as_address_typed; assumption | apply as_bytesN_typed; assumption
        | apply as_addresses_typed; assumption | decoded_field | reflexivity].
Ltac decoded_struct :=
  let Hty := fresh "Hty" in
  intros Hty; cbn -[Z.pow AddressLength] in Hty; destruct_and?;
  cbn [as_struct]; eapply bind_Ok; [reflexivity|]; open_head; cbv zeta;
  repeat (eapply bind_Ok; [decoded_value|]); reflexivity.

(** The typed values of one output are decoded to it. *)
Ltac output_case :=
  let Hty := fresh "Hty" in let Hu := fresh "Hu" in
  intros Hty Hu;
  repeat (apply Forall2_cons in Hty as [? Hty]);
  lazymatch goal with |- _ <$> ?m = Ok (?o ?v) => enough (m = Ok v) as ->; [reflexivity|] end;
  open_head; unfold decode_value, decode_output, output_values;
  rewrite Hu; cbn -[Z.pow AddressLength] in * |-; destruct_and?;
  repeat (lazymatch goal with
          | |- as_struct _ _ _ = _ => fail
          | |- _ => eapply bind_Ok; [decoded_value|]
          end); decoded_value.

Lemma fmap_Ok {A B} (f : A → B) (m : res A) b : f <$> m = Ok b → ∃ a, m = Ok a ∧ b = f a.
Proof. destruct m; cbn; intros [= <-]; eauto. Qed.

(** A read that is answered: one call of the vault's method, and its output. *)
Lemma read_contract_answered `{GoEthereum} {R A B} (o : oracle (cre_eff R)) chain address calldata
    bn (decode : bytes → res A) (inj : A → B) data answer a :
  let request := mkCallContractRequest address data (default FinalizedBlockNumber bn) in
  calldata = Ok data → decode answer = Ok a →
  o [] _ (ECallContract chain request) = Reply (Some answer) →
  run o [] (v ← read_contract chain address calldata bn decode; Ret (inj v)) =
    ([Step _ (ECallContract chain request) (Reply (Some answer))], Ok (inj a)).
Proof.
  intros request -> Hd Ho. unfold request in *. cbn in *. rewrite Ho. cbn. by rewrite Hd.
Qed.
