(* ===== verification/ParentVaultMethods.v ===== *)
(** * The methods of the parent vault

    The calls, outputs, reads, tuple encoders and report writers in
    [cre/contracts/evm/src/generated/parent_vault/ParentVault.go]; those the workflow
    uses are in [ParentVault]. *)

From S2P Require Import Prelude GoText BigInt Ethereum Runtime Bindings ParentVault AbiMethods.

#[local] Open Scope Z_scope.

Module parent_vault_methods.
Import parent_vault.
(** ** Structs *)
Record BaseVaultConstructorParams := mkBaseVaultConstructorParams {
  BaseVaultConstructorParams_Link : Address;
  BaseVaultConstructorParams_Asset : Address;
  BaseVaultConstructorParams_CcipRouter : Address;
  BaseVaultConstructorParams_AdapterRegistry : Address;
  BaseVaultConstructorParams_ThisChainSelector : Z }.
Record BaseVaultInitParams := mkBaseVaultInitParams {
  BaseVaultInitParams_DefaultAdmin : Address;
  BaseVaultInitParams_Pauser : Address;
  BaseVaultInitParams_Unpauser : Address;
  BaseVaultInitParams_ConfigOperator : Address;
  BaseVaultInitParams_InitialDefaultCcipGasLimit : bigint;
  BaseVaultInitParams_Upgrader : Address }.
Record ClientEVMTokenAmount := mkClientEVMTokenAmount {
  ClientEVMTokenAmount_Token : Address;
  ClientEVMTokenAmount_Amount : bigint }.
Record ClientAny2EVMMessage := mkClientAny2EVMMessage {
  ClientAny2EVMMessage_MessageId : bytes;
  ClientAny2EVMMessage_SourceChainSelector : Z;
  ClientAny2EVMMessage_Sender : bytes;
  ClientAny2EVMMessage_Data : bytes;
  ClientAny2EVMMessage_DestTokenAmounts : list ClientEVMTokenAmount }.
Record TypesRebalanceDepositRecovery := mkTypesRebalanceDepositRecovery {
  TypesRebalanceDepositRecovery_RebalanceNonce : bigint;
  TypesRebalanceDepositRecovery_Amount : bigint }.
Record BeginDefaultAdminTransferInput := mkBeginDefaultAdminTransferInput {
  BeginDefaultAdminTransfer_NewAdmin : Address }.
Record CcipReceiveInput := mkCcipReceiveInput { CcipReceive_Message : ClientAny2EVMMessage }.
Record ChangeDefaultAdminDelayInput := mkChangeDefaultAdminDelayInput {
  ChangeDefaultAdminDelay_NewDelay : bigint }.
Record ClaimAssetInput := mkClaimAssetInput { ClaimAsset_EpochNonce : bigint }.
Record ClaimAssetForInput := mkClaimAssetForInput {
  ClaimAssetFor_User : Address;
  ClaimAssetFor_EpochNonce : bigint }.
Record ClaimSharesInput := mkClaimSharesInput { ClaimShares_EpochNonce : bigint }.
Record ClaimSharesForInput := mkClaimSharesForInput {
  ClaimSharesFor_User : Address;
  ClaimSharesFor_EpochNonce : bigint }.
Record DepositInput := mkDepositInput { Deposit_Amount : bigint }.
Record DepositForInput := mkDepositForInput {
  DepositFor_Beneficiary : Address;
  DepositFor_Amount : bigint }.
Record ForceCancelDepositInput := mkForceCancelDepositInput { ForceCancelDeposit_User : Address }.
Record GetAllowlistedUserInput := mkGetAllowlistedUserInput { GetAllowlistedUser_User : Address }.
Record GetCCVsAndFinalityConfigInput := mkGetCCVsAndFinalityConfigInput {
  GetCCVsAndFinalityConfig_Arg0 : Z;
  GetCCVsAndFinalityConfig_Arg1 : bytes }.
Record GetCcipGasLimitInput := mkGetCcipGasLimitInput { GetCcipGasLimit_ChainSelector : Z }.
Record GetCrosschainVaultInput := mkGetCrosschainVaultInput {
  GetCrosschainVault_ChainSelector : Z }.
Record GetDepositAmountInput := mkGetDepositAmountInput {
  GetDepositAmount_User : Address;
  GetDepositAmount_EpochNonce : bigint }.
Record GetEpochInput := mkGetEpochInput { GetEpoch_EpochNonce : bigint }.
Record GetRoleAdminInput := mkGetRoleAdminInput { GetRoleAdmin_Role : bytes }.
Record GetSupportedProtocolInput := mkGetSupportedProtocolInput {
  GetSupportedProtocol_ProtocolId : bytes }.
Record GetWithdrawShareBurnAmountInput := mkGetWithdrawShareBurnAmountInput {
  GetWithdrawShareBurnAmount_User : Address;
  GetWithdrawShareBurnAmount_EpochNonce : bigint }.
Record GrantRoleInput := mkGrantRoleInput { GrantRole_Role : bytes; GrantRole_Account : Address }.
Record HasRoleInput := mkHasRoleInput { HasRole_Role : bytes; HasRole_Account : Address }.
Record InitializeInput := mkInitializeInput {
  Initialize_Params : BaseVaultInitParams;
  Initialize_Treasury : Address;
  Initialize_CancelDepositOperator : Address;
  Initialize_AllowlistOperator : Address;
  Initialize_AllowlistEnabled : bool }.
Record RenounceRoleInput := mkRenounceRoleInput {
  RenounceRole_Role : bytes;
  RenounceRole_Account : Address }.
Record RevokeRoleInput := mkRevokeRoleInput {
  RevokeRole_Role : bytes;
  RevokeRole_Account : Address }.
Record SetAllowlistEnabledInput := mkSetAllowlistEnabledInput {
  SetAllowlistEnabled_Enabled : bool }.
Record SetAllowlistedUsersInput := mkSetAllowlistedUsersInput {
  SetAllowlistedUsers_Users : list Address;
  SetAllowlistedUsers_Allowed : bool }.
Record SetCcipGasLimitInput := mkSetCcipGasLimitInput {
  SetCcipGasLimit_ChainSelector : Z;
  SetCcipGasLimit_GasLimit : bigint }.
Record SetCrosschainVaultsInput := mkSetCrosschainVaultsInput {
  SetCrosschainVaults_ChainSelectors : list Z;
  SetCrosschainVaults_Vaults : list Address }.
Record SetDefaultCcipGasLimitInput := mkSetDefaultCcipGasLimitInput {
  SetDefaultCcipGasLimit_GasLimit : bigint }.
Record SetInitialActiveProtocolAdapterInput := mkSetInitialActiveProtocolAdapterInput {
  SetInitialActiveProtocolAdapter_ProtocolId : bytes }.
Record SetSupportedProtocolInput := mkSetSupportedProtocolInput {
  SetSupportedProtocol_ProtocolId : bytes;
  SetSupportedProtocol_IsSupported : bool }.
Record SetTreasuryInput := mkSetTreasuryInput { SetTreasury_Treasury : Address }.
Record SupportsInterfaceInput := mkSupportsInterfaceInput { SupportsInterface_InterfaceId : bytes }.
Record TryDepositToAdapterInput := mkTryDepositToAdapterInput {
  TryDepositToAdapter_Adapter : Address;
  TryDepositToAdapter_Amount : bigint }.
Record UpgradeToAndCallInput := mkUpgradeToAndCallInput {
  UpgradeToAndCall_NewImplementation : Address;
  UpgradeToAndCall_Data : bytes }.
Record WithdrawInput := mkWithdrawInput { Withdraw_ShareBurnAmount : bigint }.
Record WithdrawForInput := mkWithdrawForInput {
  WithdrawFor_Beneficiary : Address;
  WithdrawFor_ShareBurnAmount : bigint }.
Record WithdrawLinkInput := mkWithdrawLinkInput { WithdrawLink_Amount : bigint }.
Record GetCCVsAndFinalityConfigOutput := mkGetCCVsAndFinalityConfigOutput {
  GetCCVsAndFinalityConfigOutput_RequiredCCVs : list Address;
  GetCCVsAndFinalityConfigOutput_OptionalCCVs : list Address;
  GetCCVsAndFinalityConfigOutput_OptionalThreshold : Z;
  GetCCVsAndFinalityConfigOutput_AllowedFinalityConfig : bytes }.
Record PendingDefaultAdminOutput := mkPendingDefaultAdminOutput {
  PendingDefaultAdminOutput_NewAdmin : Address;
  PendingDefaultAdminOutput_Schedule : bigint }.
Record PendingDefaultAdminDelayOutput := mkPendingDefaultAdminDelayOutput {
  PendingDefaultAdminDelayOutput_NewDelay : bigint;
  PendingDefaultAdminDelayOutput_Schedule : bigint }.

(** ** Structs as tuples *)
Definition BaseVaultConstructorParams_value (s : BaseVaultConstructorParams) : abi_value := VTuple [
    ("link"%string, VFixed (BaseVaultConstructorParams_Link s));
    ("asset"%string, VFixed (BaseVaultConstructorParams_Asset s));
    ("ccipRouter"%string, VFixed (BaseVaultConstructorParams_CcipRouter s));
    ("adapterRegistry"%string, VFixed (BaseVaultConstructorParams_AdapterRegistry s));
    ("thisChainSelector"%string, VUint (BaseVaultConstructorParams_ThisChainSelector s))].
Definition BaseVaultInitParams_value (s : BaseVaultInitParams) : abi_value := VTuple [
    ("defaultAdmin"%string, VFixed (BaseVaultInitParams_DefaultAdmin s));
    ("pauser"%string, VFixed (BaseVaultInitParams_Pauser s));
    ("unpauser"%string, VFixed (BaseVaultInitParams_Unpauser s));
    ("configOperator"%string, VFixed (BaseVaultInitParams_ConfigOperator s));
    ("initialDefaultCcipGasLimit"%string, VBig (BaseVaultInitParams_InitialDefaultCcipGasLimit s));
    ("upgrader"%string, VFixed (BaseVaultInitParams_Upgrader s))].
Definition ClientEVMTokenAmount_value (s : ClientEVMTokenAmount) : abi_value := VTuple [
    ("token"%string, VFixed (ClientEVMTokenAmount_Token s));
    ("amount"%string, VBig (ClientEVMTokenAmount_Amount s))].
Definition ClientAny2EVMMessage_value (s : ClientAny2EVMMessage) : abi_value := VTuple [
    ("messageId"%string, VFixed (ClientAny2EVMMessage_MessageId s));
    ("sourceChainSelector"%string, VUint (ClientAny2EVMMessage_SourceChainSelector s));
    ("sender"%string, VBytes (ClientAny2EVMMessage_Sender s));
    ("data"%string, VBytes (ClientAny2EVMMessage_Data s));
    ("destTokenAmounts"%string, VSlice (ClientEVMTokenAmount_value <$> (ClientAny2EVMMessage_DestTokenAmounts s)))].
Definition TypesEpoch_value (s : TypesEpoch) : abi_value := VTuple [
    ("totalDepositAmount"%string, VBig (parent_vault.TotalDepositAmount s));
    ("totalShareBurnAmount"%string, VBig (parent_vault.TotalShareBurnAmount s));
    ("totalWithdrawClaimAmount"%string, VBig (parent_vault.TotalWithdrawClaimAmount s));
    ("remainingDepositClaimAmount"%string, VBig (parent_vault.RemainingDepositClaimAmount s));
    ("remainingShareMintAmount"%string, VBig (parent_vault.RemainingShareMintAmount s));
    ("remainingShareBurnAmount"%string, VBig (parent_vault.RemainingShareBurnAmount s));
    ("remainingWithdrawClaimAmount"%string, VBig (parent_vault.RemainingWithdrawClaimAmount s));
    ("openedAtTimestamp"%string, VBig (parent_vault.OpenedAtTimestamp s));
    ("status"%string, VUint (parent_vault.Status s))].
Definition TypesRebalance_value (s : TypesRebalance) : abi_value := VTuple [
    ("nonce"%string, VBig (parent_vault.Nonce s)); ("state"%string, VUint (parent_vault.State s));
    ("activeStrategy"%string, strategy_value (parent_vault.ActiveStrategy s));
    ("pendingStrategy"%string, strategy_value (parent_vault.PendingStrategy s));
    ("lastRebalanceCompletedTimestamp"%string, VBig (parent_vault.LastRebalanceCompletedTimestamp s))].
Definition TypesParentOperationalState_value (s : TypesParentOperationalState) : abi_value := VTuple [
    ("paused"%string, VBool (parent_vault.Paused s));
    ("recoveryMode"%string, VUint (parent_vault.RecoveryMode s));
    ("currentEpochNonce"%string, VBig (parent_vault.CurrentEpochNonce s));
    ("currentEpoch"%string, TypesEpoch_value (parent_vault.CurrentEpoch s));
    ("previousEpoch"%string, TypesEpoch_value (parent_vault.PreviousEpoch s));
    ("rebalance"%string, TypesRebalance_value (parent_vault.Rebalance s));
    ("totalShares"%string, VBig (parent_vault.TotalShares s));
    ("tvl"%string, VBig (parent_vault.Tvl s))].
Definition TypesRebalanceDepositRecovery_value (s : TypesRebalanceDepositRecovery) : abi_value := VTuple [
    ("rebalanceNonce"%string, VBig (TypesRebalanceDepositRecovery_RebalanceNonce s));
    ("amount"%string, VBig (TypesRebalanceDepositRecovery_Amount s))].

(** ** Structs from outputs: the fields are copied by name through JSON *)
Definition decode_TypesRebalanceDepositRecovery (ty : string) (fs : list (string * abi_value))
    : res TypesRebalanceDepositRecovery :=
  x0 ← as_big ty (tuple_field "rebalanceNonce" fs);
  x1 ← as_big ty (tuple_field "amount" fs);
  Ok (mkTypesRebalanceDepositRecovery x0 x1).

(** ** Structs in the metadata *)
Definition ClientEVMTokenAmount_type : sol_type := STuple [
    ("token"%string, SAddress); ("amount"%string, SUint 256)].
Arguments ClientEVMTokenAmount_type : simpl never.
Definition ClientAny2EVMMessage_type : sol_type := STuple [
    ("messageId"%string, SBytesN 32); ("sourceChainSelector"%string, SUint 64);
    ("sender"%string, SBytes); ("data"%string, SBytes);
    ("destTokenAmounts"%string, SSlice (ClientEVMTokenAmount_type))].
Arguments ClientAny2EVMMessage_type : simpl never.
Definition TypesEpoch_type : sol_type := STuple [
    ("totalDepositAmount"%string, SUint 256); ("totalShareBurnAmount"%string, SUint 256);
    ("totalWithdrawClaimAmount"%string, SUint 256);
    ("remainingDepositClaimAmount"%string, SUint 256);
    ("remainingShareMintAmount"%string, SUint 256); ("remainingShareBurnAmount"%string, SUint 256);
    ("remainingWithdrawClaimAmount"%string, SUint 256); ("openedAtTimestamp"%string, SUint 256);
    ("status"%string, SUint 8)].
Arguments TypesEpoch_type : simpl never.
Definition TypesStrategy_type : sol_type := STuple [
    ("protocolId"%string, SBytesN 32); ("chainSelector"%string, SUint 64)].
Arguments TypesStrategy_type : simpl never.
Definition TypesRebalance_type : sol_type := STuple [
    ("nonce"%string, SUint 256); ("state"%string, SUint 8);
    ("activeStrategy"%string, TypesStrategy_type); ("pendingStrategy"%string, TypesStrategy_type);
    ("lastRebalanceCompletedTimestamp"%string, SUint 256)].
Arguments TypesRebalance_type : simpl never.
Definition TypesParentOperationalState_type : sol_type := STuple [
    ("paused"%string, SBool); ("recoveryMode"%string, SUint 8);
    ("currentEpochNonce"%string, SUint 256); ("currentEpoch"%string, TypesEpoch_type);
    ("previousEpoch"%string, TypesEpoch_type); ("rebalance"%string, TypesRebalance_type);
    ("totalShares"%string, SUint 256); ("tvl"%string, SUint 256)].
Arguments TypesParentOperationalState_type : simpl never.
Definition TypesRebalanceDepositRecovery_type : sol_type := STuple [
    ("rebalanceNonce"%string, SUint 256); ("amount"%string, SUint 256)].
Arguments TypesRebalanceDepositRecovery_type : simpl never.
Definition BaseVaultInitParams_type : sol_type := STuple [
    ("defaultAdmin"%string, SAddress); ("pauser"%string, SAddress); ("unpauser"%string, SAddress);
    ("configOperator"%string, SAddress); ("initialDefaultCcipGasLimit"%string, SUint 256);
    ("upgrader"%string, SAddress)].
Arguments BaseVaultInitParams_type : simpl never.
Definition BaseVaultConstructorParams_type : sol_type := STuple [
    ("link"%string, SAddress); ("asset"%string, SAddress); ("ccipRouter"%string, SAddress);
    ("adapterRegistry"%string, SAddress); ("thisChainSelector"%string, SUint 64)].
Arguments BaseVaultConstructorParams_type : simpl never.

(** ** The methods of the metadata; an input without a name is [arg<i>]. *)
Definition methods : method_table :=
  [("DEFAULT_ADMIN_ROLE"%string, mkMethod
     []
     [(""%string, SBytesN 32)]);
   ("UPGRADE_INTERFACE_VERSION"%string, mkMethod
     []
     [(""%string, SString)]);
   ("acceptDefaultAdminTransfer"%string, mkMethod
     []
     []);
   ("beginDefaultAdminTransfer"%string, mkMethod
     [("newAdmin"%string, SAddress)]
     []);
   ("cancelDefaultAdminTransfer"%string, mkMethod
     []
     []);
   ("cancelDeposit"%string, mkMethod
     []
     []);
   ("cancelWithdraw"%string, mkMethod
     []
     []);
   ("ccipReceive"%string, mkMethod
     [("message"%string, ClientAny2EVMMessage_type)]
     []);
   ("changeDefaultAdminDelay"%string, mkMethod
     [("newDelay"%string, SUint 48)]
     []);
   ("claimAsset"%string, mkMethod
     [("epochNonce"%string, SUint 256)]
     [("withdrawAmount"%string, SUint 256)]);
   ("claimAssetFor"%string, mkMethod
     [("user"%string, SAddress); ("epochNonce"%string, SUint 256)]
     [("withdrawAmount"%string, SUint 256)]);
   ("claimShares"%string, mkMethod
     [("epochNonce"%string, SUint 256)]
     [("shareMintAmount"%string, SUint 256)]);
   ("claimSharesFor"%string, mkMethod
     [("user"%string, SAddress); ("epochNonce"%string, SUint 256)]
     [("shareMintAmount"%string, SUint 256)]);
   ("closeEpoch"%string, mkMethod
     [("expectedEpochNonce"%string, SUint 256); ("tvl"%string, SUint 256)]
     []);
   ("completeEpochDeposit"%string, mkMethod
     [("expectedEpochNonce"%string, SUint 256); ("actualDepositAmount"%string, SUint 256)]
     []);
   ("completeRebalance"%string, mkMethod
     [("expectedRebalanceNonce"%string, SUint 256)]
     []);
   ("defaultAdmin"%string, mkMethod
     []
     [(""%string, SAddress)]);
   ("defaultAdminDelay"%string, mkMethod
     []
     [(""%string, SUint 48)]);
   ("defaultAdminDelayIncreaseWait"%string, mkMethod
     []
     [(""%string, SUint 48)]);
   ("deposit"%string, mkMethod
     [("amount"%string, SUint 256)]
     [("epochNonce"%string, SUint 256)]);
   ("depositFor"%string, mkMethod
     [("beneficiary"%string, SAddress); ("amount"%string, SUint 256)]
     [("epochNonce"%string, SUint 256)]);
   ("executeRecovery"%string, mkMethod
     []
     []);
   ("forceCancelDeposit"%string, mkMethod
     [("user"%string, SAddress)]
     []);
   ("getActiveProtocolAdapter"%string, mkMethod
     []
     [("activeProtocolAdapter"%string, SAddress)]);
   ("getAdapterRegistry"%string, mkMethod
     []
     [("adapterRegistry"%string, SAddress)]);
   ("getAllowlistEnabled"%string, mkMethod
     []
     [("allowlistEnabled"%string, SBool)]);
   ("getAllowlistedUser"%string, mkMethod
     [("user"%string, SAddress)]
     [("allowlisted"%string, SBool)]);
   ("getAsset"%string, mkMethod
     []
     [("asset"%string, SAddress)]);
   ("getAssetPrecision"%string, mkMethod
     []
     [("assetPrecision"%string, SUint 256)]);
   ("getCCVsAndFinalityConfig"%string, mkMethod
     [(EmptyString, SUint 64); (EmptyString, SBytes)]
     [("requiredCCVs"%string, SSlice (SAddress)); ("optionalCCVs"%string, SSlice (SAddress));
      ("optionalThreshold"%string, SUint 8); ("allowedFinalityConfig"%string, SBytesN 4)]);
   ("getCcipGasLimit"%string, mkMethod
     [("chainSelector"%string, SUint 64)]
     [("gasLimit"%string, SUint 256)]);
   ("getCrosschainVault"%string, mkMethod
     [("chainSelector"%string, SUint 64)]
     [("vault"%string, SAddress)]);
   ("getDefaultCcipGasLimit"%string, mkMethod
     []
     [("defaultCcipGasLimit"%string, SUint 256)]);
   ("getDepositAmount"%string, mkMethod
     [("user"%string, SAddress); ("epochNonce"%string, SUint 256)]
     [("amount"%string, SUint 256)]);
   ("getEpoch"%string, mkMethod
     [("epochNonce"%string, SUint 256)]
     [("epoch"%string, TypesEpoch_type)]);
   ("getEpochNonce"%string, mkMethod
     []
     [("epochNonce"%string, SUint 256)]);
   ("getInitialActiveProtocolAdapterSet"%string, mkMethod
     []
     [("initialActiveProtocolAdapterSet"%string, SBool)]);
   ("getLink"%string, mkMethod
     []
     [("link"%string, SAddress)]);
   ("getMinAssetAmount"%string, mkMethod
     []
     [("minAssetAmount"%string, SUint 256)]);
   ("getParentOperationalState"%string, mkMethod
     []
     [("state"%string, TypesParentOperationalState_type)]);
   ("getRebalance"%string, mkMethod
     []
     [("rebalance"%string, TypesRebalance_type)]);
   ("getRebalanceDepositRecovery"%string, mkMethod
     []
     [("recovery"%string, TypesRebalanceDepositRecovery_type)]);
   ("getRecoveryMode"%string, mkMethod
     []
     [("recoveryMode"%string, SUint 8)]);
   ("getRoleAdmin"%string, mkMethod
     [("role"%string, SBytesN 32)]
     [(""%string, SBytesN 32)]);
   ("getRouter"%string, mkMethod
     []
     [(""%string, SAddress)]);
   ("getShare"%string, mkMethod
     []
     [("share"%string, SAddress)]);
   ("getSharePrecision"%string, mkMethod
     []
     [("sharePrecision"%string, SUint 256)]);
   ("getSupportedProtocol"%string, mkMethod
     [("protocolId"%string, SBytesN 32)]
     [("isSupported"%string, SBool)]);
   ("getTVL"%string, mkMethod
     []
     [("tvl"%string, SUint 256)]);
   ("getThisChainSelector"%string, mkMethod
     []
     [("thisChainSelector"%string, SUint 64)]);
   ("getTotalShares"%string, mkMethod
     []
     [("totalShares"%string, SUint 256)]);
   ("getTreasury"%string, mkMethod
     []
     [("treasury"%string, SAddress)]);
   ("getWithdrawShareBurnAmount"%string, mkMethod
     [("user"%string, SAddress); ("epochNonce"%string, SUint 256)]
     [("shareBurnAmount"%string, SUint 256)]);
   ("grantRole"%string, mkMethod
     [("role"%string, SBytesN 32); ("account"%string, SAddress)]
     []);
   ("hasRole"%string, mkMethod
     [("role"%string, SBytesN 32); ("account"%string, SAddress)]
     [(""%string, SBool)]);
   ("initialize"%string, mkMethod
     [("params"%string, BaseVaultInitParams_type); ("treasury"%string, SAddress);
      ("cancelDepositOperator"%string, SAddress); ("allowlistOperator"%string, SAddress);
      ("allowlistEnabled"%string, SBool)]
     []);
   ("initiateRebalance"%string, mkMethod
     [("expectedRebalanceNonce"%string, SUint 256); ("newStrategy"%string, TypesStrategy_type)]
     []);
   ("owner"%string, mkMethod
     []
     [(""%string, SAddress)]);
   ("pause"%string, mkMethod
     []
     []);
   ("paused"%string, mkMethod
     []
     [(""%string, SBool)]);
   ("pendingDefaultAdmin"%string, mkMethod
     []
     [("newAdmin"%string, SAddress); ("schedule"%string, SUint 48)]);
   ("pendingDefaultAdminDelay"%string, mkMethod
     []
     [("newDelay"%string, SUint 48); ("schedule"%string, SUint 48)]);
   ("proxiableUUID"%string, mkMethod
     []
     [(""%string, SBytesN 32)]);
   ("renounceRole"%string, mkMethod
     [("role"%string, SBytesN 32); ("account"%string, SAddress)]
     []);
   ("revokeRole"%string, mkMethod
     [("role"%string, SBytesN 32); ("account"%string, SAddress)]
     []);
   ("rollbackDefaultAdminDelay"%string, mkMethod
     []
     []);
   ("setAllowlistEnabled"%string, mkMethod
     [("enabled"%string, SBool)]
     []);
   ("setAllowlistedUsers"%string, mkMethod
     [("users"%string, SSlice (SAddress)); ("allowed"%string, SBool)]
     []);
   ("setCcipGasLimit"%string, mkMethod
     [("chainSelector"%string, SUint 64); ("gasLimit"%string, SUint 256)]
     []);
   ("setCrosschainVaults"%string, mkMethod
     [("chainSelectors"%string, SSlice (SUint 64)); ("vaults"%string, SSlice (SAddress))]
     []);
   ("setDefaultCcipGasLimit"%string, mkMethod
     [("gasLimit"%string, SUint 256)]
     []);
   ("setInitialActiveProtocolAdapter"%string, mkMethod
     [("protocolId"%string, SBytesN 32)]
     []);
   ("setSupportedProtocol"%string, mkMethod
     [("protocolId"%string, SBytesN 32); ("isSupported"%string, SBool)]
     []);
   ("setTreasury"%string, mkMethod
     [("treasury"%string, SAddress)]
     []);
   ("supportsInterface"%string, mkMethod
     [("interfaceId"%string, SBytesN 4)]
     [("isSupported"%string, SBool)]);
   ("tryDepositToAdapter"%string, mkMethod
     [("adapter"%string, SAddress); ("amount"%string, SUint 256)]
     []);
   ("unpause"%string, mkMethod
     []
     []);
   ("upgradeToAndCall"%string, mkMethod
     [("newImplementation"%string, SAddress); ("data"%string, SBytes)]
     []);
   ("withdraw"%string, mkMethod
     [("shareBurnAmount"%string, SUint 256)]
     [("epochNonce"%string, SUint 256)]);
   ("withdrawFor"%string, mkMethod
     [("beneficiary"%string, SAddress); ("shareBurnAmount"%string, SUint 256)]
     [("epochNonce"%string, SUint 256)]);
   ("withdrawLink"%string, mkMethod
     [("amount"%string, SUint 256)]
     [])].

Section Methods.
Context `{GoAbiTypes}.

(** ** Calls *)
Definition EncodeDEFAULTADMINROLEMethodCall (c : Codec) : res bytes :=
  abi_Pack (codec_abi c) "DEFAULT_ADMIN_ROLE" [].
Definition EncodeUPGRADEINTERFACEVERSIONMethodCall (c : Codec) : res bytes :=
  abi_Pack (codec_abi c) "UPGRADE_INTERFACE_VERSION" [].
Definition EncodeAcceptDefaultAdminTransferMethodCall (c : Codec) : res bytes :=
  abi_Pack (codec_abi c) "acceptDefaultAdminTransfer" [].
Definition EncodeBeginDefaultAdminTransferMethodCall (c : Codec) (i : BeginDefaultAdminTransferInput)
    : res bytes :=
  abi_Pack (codec_abi c) "beginDefaultAdminTransfer" [
    VFixed (BeginDefaultAdminTransfer_NewAdmin i)].
Definition EncodeCancelDefaultAdminTransferMethodCall (c : Codec) : res bytes :=
  abi_Pack (codec_abi c) "cancelDefaultAdminTransfer" [].
Definition EncodeCancelDepositMethodCall (c : Codec) : res bytes :=
  abi_Pack (codec_abi c) "cancelDeposit" [].
Definition EncodeCancelWithdrawMethodCall (c : Codec) : res bytes :=
  abi_Pack (codec_abi c) "cancelWithdraw" [].
Definition EncodeCcipReceiveMethodCall (c : Codec) (i : CcipReceiveInput) : res bytes :=
  abi_Pack (codec_abi c) "ccipReceive" [ClientAny2EVMMessage_value (CcipReceive_Message i)].
Definition EncodeChangeDefaultAdminDelayMethodCall (c : Codec) (i : ChangeDefaultAdminDelayInput)
    : res bytes :=
  abi_Pack (codec_abi c) "changeDefaultAdminDelay" [VBig (ChangeDefaultAdminDelay_NewDelay i)].
Definition EncodeClaimAssetMethodCall (c : Codec) (i : ClaimAssetInput) : res bytes :=
  abi_Pack (codec_abi c) "claimAsset" [VBig (ClaimAsset_EpochNonce i)].
Definition EncodeClaimAssetForMethodCall (c : Codec) (i : ClaimAssetForInput) : res bytes :=
  abi_Pack (codec_abi c) "claimAssetFor" [
    VFixed (ClaimAssetFor_User i); VBig (ClaimAssetFor_EpochNonce i)].
Definition EncodeClaimSharesMethodCall (c : Codec) (i : ClaimSharesInput) : res bytes :=
  abi_Pack (codec_abi c) "claimShares" [VBig (ClaimShares_EpochNonce i)].
Definition EncodeClaimSharesForMethodCall (c : Codec) (i : ClaimSharesForInput) : res bytes :=
  abi_Pack (codec_abi c) "claimSharesFor" [
    VFixed (ClaimSharesFor_User i); VBig (ClaimSharesFor_EpochNonce i)].
Definition EncodeDefaultAdminMethodCall (c : Codec) : res bytes :=
  abi_Pack (codec_abi c) "defaultAdmin" [].
Definition EncodeDefaultAdminDelayMethodCall (c : Codec) : res bytes :=
  abi_Pack (codec_abi c) "defaultAdminDelay" [].
Definition EncodeDefaultAdminDelayIncreaseWaitMethodCall (c : Codec) : res bytes :=
  abi_Pack (codec_abi c) "defaultAdminDelayIncreaseWait" [].
Definition EncodeDepositMethodCall (c : Codec) (i : DepositInput) : res bytes :=
  abi_Pack (codec_abi c) "deposit" [VBig (Deposit_Amount i)].
Definition EncodeDepositForMethodCall (c : Codec) (i : DepositForInput) : res bytes :=
  abi_Pack (codec_abi c) "depositFor" [
    VFixed (DepositFor_Beneficiary i); VBig (DepositFor_Amount i)].
Definition EncodeExecuteRecoveryMethodCall (c : Codec) : res bytes :=
  abi_Pack (codec_abi c) "executeRecovery" [].
Definition EncodeForceCancelDepositMethodCall (c : Codec) (i : ForceCancelDepositInput)
    : res bytes :=
  abi_Pack (codec_abi c) "forceCancelDeposit" [VFixed (ForceCancelDeposit_User i)].
Definition EncodeGetActiveProtocolAdapterMethodCall (c : Codec) : res bytes :=
  abi_Pack (codec_abi c) "getActiveProtocolAdapter" [].
Definition EncodeGetAdapterRegistryMethodCall (c : Codec) : res bytes :=
  abi_Pack (codec_abi c) "getAdapterRegistry" [].
Definition EncodeGetAllowlistEnabledMethodCall (c : Codec) : res bytes :=
  abi_Pack (codec_abi c) "getAllowlistEnabled" [].
Definition EncodeGetAllowlistedUserMethodCall (c : Codec) (i : GetAllowlistedUserInput)
    : res bytes :=
  abi_Pack (codec_abi c) "getAllowlistedUser" [VFixed (GetAllowlistedUser_User i)].
Definition EncodeGetAssetMethodCall (c : Codec) : res bytes :=
  abi_Pack (codec_abi c) "getAsset" [].
Definition EncodeGetAssetPrecisionMethodCall (c : Codec) : res bytes :=
  abi_Pack (codec_abi c) "getAssetPrecision" [].
Definition EncodeGetCCVsAndFinalityConfigMethodCall (c : Codec) (i : GetCCVsAndFinalityConfigInput)
    : res bytes :=
  abi_Pack (codec_abi c) "getCCVsAndFinalityConfig" [
    VUint (GetCCVsAndFinalityConfig_Arg0 i); VBytes (GetCCVsAndFinalityConfig_Arg1 i)].
Definition EncodeGetCcipGasLimitMethodCall (c : Codec) (i : GetCcipGasLimitInput) : res bytes :=
  abi_Pack (codec_abi c) "getCcipGasLimit" [VUint (GetCcipGasLimit_ChainSelector i)].
Definition EncodeGetCrosschainVaultMethodCall (c : Codec) (i : GetCrosschainVaultInput)
    : res bytes :=
  abi_Pack (codec_abi c) "getCrosschainVault" [VUint (GetCrosschainVault_ChainSelector i)].
Definition EncodeGetDefaultCcipGasLimitMethodCall (c : Codec) : res bytes :=
  abi_Pack (codec_abi c) "getDefaultCcipGasLimit" [].
Definition EncodeGetDepositAmountMethodCall (c : Codec) (i : GetDepositAmountInput) : res bytes :=
  abi_Pack (codec_abi c) "getDepositAmount" [
    VFixed (GetDepositAmount_User i); VBig (GetDepositAmount_EpochNonce i)].
Definition EncodeGetEpochMethodCall (c : Codec) (i : GetEpochInput) : res bytes :=
  abi_Pack (codec_abi c) "getEpoch" [VBig (GetEpoch_EpochNonce i)].
Definition EncodeGetEpochNonceMethodCall (c : Codec) : res bytes :=
  abi_Pack (codec_abi c) "getEpochNonce" [].
Definition EncodeGetInitialActiveProtocolAdapterSetMethodCall (c : Codec) : res bytes :=
  abi_Pack (codec_abi c) "getInitialActiveProtocolAdapterSet" [].
Definition EncodeGetLinkMethodCall (c : Codec) : res bytes :=
  abi_Pack (codec_abi c) "getLink" [].
Definition EncodeGetMinAssetAmountMethodCall (c : Codec) : res bytes :=
  abi_Pack (codec_abi c) "getMinAssetAmount" [].
Definition EncodeGetRebalanceMethodCall (c : Codec) : res bytes :=
  abi_Pack (codec_abi c) "getRebalance" [].
Definition EncodeGetRebalanceDepositRecoveryMethodCall (c : Codec) : res bytes :=
  abi_Pack (codec_abi c) "getRebalanceDepositRecovery" [].
Definition EncodeGetRecoveryModeMethodCall (c : Codec) : res bytes :=
  abi_Pack (codec_abi c) "getRecoveryMode" [].
Definition EncodeGetRoleAdminMethodCall (c : Codec) (i : GetRoleAdminInput) : res bytes :=
  abi_Pack (codec_abi c) "getRoleAdmin" [VFixed (GetRoleAdmin_Role i)].
Definition EncodeGetRouterMethodCall (c : Codec) : res bytes :=
  abi_Pack (codec_abi c) "getRouter" [].
Definition EncodeGetShareMethodCall (c : Codec) : res bytes :=
  abi_Pack (codec_abi c) "getShare" [].
Definition EncodeGetSharePrecisionMethodCall (c : Codec) : res bytes :=
  abi_Pack (codec_abi c) "getSharePrecision" [].
Definition EncodeGetSupportedProtocolMethodCall (c : Codec) (i : GetSupportedProtocolInput)
    : res bytes :=
  abi_Pack (codec_abi c) "getSupportedProtocol" [VFixed (GetSupportedProtocol_ProtocolId i)].
Definition EncodeGetTVLMethodCall (c : Codec) : res bytes :=
  abi_Pack (codec_abi c) "getTVL" [].
Definition EncodeGetThisChainSelectorMethodCall (c : Codec) : res bytes :=
  abi_Pack (codec_abi c) "getThisChainSelector" [].
Definition EncodeGetTotalSharesMethodCall (c : Codec) : res bytes :=
  abi_Pack (codec_abi c) "getTotalShares" [].
Definition EncodeGetTreasuryMethodCall (c : Codec) : res bytes :=
  abi_Pack (codec_abi c) "getTreasury" [].
Definition EncodeGetWithdrawShareBurnAmountMethodCall (c : Codec) (i : GetWithdrawShareBurnAmountInput)
    : res bytes :=
  abi_Pack (codec_abi c) "getWithdrawShareBurnAmount" [
    VFixed (GetWithdrawShareBurnAmount_User i); VBig (GetWithdrawShareBurnAmount_EpochNonce i)].
Definition EncodeGrantRoleMethodCall (c : Codec) (i : GrantRoleInput) : res bytes :=
  abi_Pack (codec_abi c) "grantRole" [VFixed (GrantRole_Role i); VFixed (GrantRole_Account i)].
Definition EncodeHasRoleMethodCall (c : Codec) (i : HasRoleInput) : res bytes :=
  abi_Pack (codec_abi c) "hasRole" [VFixed (HasRole_Role i); VFixed (HasRole_Account i)].
Definition EncodeInitializeMethodCall (c : Codec) (i : InitializeInput) : res bytes :=
  abi_Pack (codec_abi c) "initialize" [
    BaseVaultInitParams_value (Initialize_Params i); VFixed (Initialize_Treasury i);
    VFixed (Initialize_CancelDepositOperator i); VFixed (Initialize_AllowlistOperator i);
    VBool (Initialize_AllowlistEnabled i)].
Definition EncodeOwnerMethodCall (c : Codec) : res bytes :=
  abi_Pack (codec_abi c) "owner" [].
Definition EncodePauseMethodCall (c : Codec) : res bytes :=
  abi_Pack (codec_abi c) "pause" [].
Definition EncodePausedMethodCall (c : Codec) : res bytes :=
  abi_Pack (codec_abi c) "paused" [].
Definition EncodePendingDefaultAdminMethodCall (c : Codec) : res bytes :=
  abi_Pack (codec_abi c) "pendingDefaultAdmin" [].
Definition EncodePendingDefaultAdminDelayMethodCall (c : Codec) : res bytes :=
  abi_Pack (codec_abi c) "pendingDefaultAdminDelay" [].
Definition EncodeProxiableUUIDMethodCall (c : Codec) : res bytes :=
  abi_Pack (codec_abi c) "proxiableUUID" [].
Definition EncodeRenounceRoleMethodCall (c : Codec) (i : RenounceRoleInput) : res bytes :=
  abi_Pack (codec_abi c) "renounceRole" [
    VFixed (RenounceRole_Role i); VFixed (RenounceRole_Account i)].
Definition EncodeRevokeRoleMethodCall (c : Codec) (i : RevokeRoleInput) : res bytes :=
  abi_Pack (codec_abi c) "revokeRole" [VFixed (RevokeRole_Role i); VFixed (RevokeRole_Account i)].
Definition EncodeRollbackDefaultAdminDelayMethodCall (c : Codec) : res bytes :=
  abi_Pack (codec_abi c) "rollbackDefaultAdminDelay" [].
Definition EncodeSetAllowlistEnabledMethodCall (c : Codec) (i : SetAllowlistEnabledInput)
    : res bytes :=
  abi_Pack (codec_abi c) "setAllowlistEnabled" [VBool (SetAllowlistEnabled_Enabled i)].
Definition EncodeSetAllowlistedUsersMethodCall (c : Codec) (i : SetAllowlistedUsersInput)
    : res bytes :=
  abi_Pack (codec_abi c) "setAllowlistedUsers" [
    VSlice (VFixed <$> (SetAllowlistedUsers_Users i)); VBool (SetAllowlistedUsers_Allowed i)].
Definition EncodeSetCcipGasLimitMethodCall (c : Codec) (i : SetCcipGasLimitInput) : res bytes :=
  abi_Pack (codec_abi c) "setCcipGasLimit" [
    VUint (SetCcipGasLimit_ChainSelector i); VBig (SetCcipGasLimit_GasLimit i)].
Definition EncodeSetCrosschainVaultsMethodCall (c : Codec) (i : SetCrosschainVaultsInput)
    : res bytes :=
  abi_Pack (codec_abi c) "setCrosschainVaults" [
    VSlice (VUint <$> (SetCrosschainVaults_ChainSelectors i));
    VSlice (VFixed <$> (SetCrosschainVaults_Vaults i))].
Definition EncodeSetDefaultCcipGasLimitMethodCall (c : Codec) (i : SetDefaultCcipGasLimitInput)
    : res bytes :=
  abi_Pack (codec_abi c) "setDefaultCcipGasLimit" [VBig (SetDefaultCcipGasLimit_GasLimit i)].
Definition EncodeSetInitialActiveProtocolAdapterMethodCall (c : Codec) (i : SetInitialActiveProtocolAdapterInput)
    : res bytes :=
  abi_Pack (codec_abi c) "setInitialActiveProtocolAdapter" [
    VFixed (SetInitialActiveProtocolAdapter_ProtocolId i)].
Definition EncodeSetSupportedProtocolMethodCall (c : Codec) (i : SetSupportedProtocolInput)
    : res bytes :=
  abi_Pack (codec_abi c) "setSupportedProtocol" [
    VFixed (SetSupportedProtocol_ProtocolId i); VBool (SetSupportedProtocol_IsSupported i)].
Definition EncodeSetTreasuryMethodCall (c : Codec) (i : SetTreasuryInput) : res bytes :=
  abi_Pack (codec_abi c) "setTreasury" [VFixed (SetTreasury_Treasury i)].
Definition EncodeSupportsInterfaceMethodCall (c : Codec) (i : SupportsInterfaceInput) : res bytes :=
  abi_Pack (codec_abi c) "supportsInterface" [VFixed (SupportsInterface_InterfaceId i)].
Definition EncodeTryDepositToAdapterMethodCall (c : Codec) (i : TryDepositToAdapterInput)
    : res bytes :=
  abi_Pack (codec_abi c) "tryDepositToAdapter" [
    VFixed (TryDepositToAdapter_Adapter i); VBig (TryDepositToAdapter_Amount i)].
Definition EncodeUnpauseMethodCall (c : Codec) : res bytes :=
  abi_Pack (codec_abi c) "unpause" [].
Definition EncodeUpgradeToAndCallMethodCall (c : Codec) (i : UpgradeToAndCallInput) : res bytes :=
  abi_Pack (codec_abi c) "upgradeToAndCall" [
    VFixed (UpgradeToAndCall_NewImplementation i); VBytes (UpgradeToAndCall_Data i)].
Definition EncodeWithdrawMethodCall (c : Codec) (i : WithdrawInput) : res bytes :=
  abi_Pack (codec_abi c) "withdraw" [VBig (Withdraw_ShareBurnAmount i)].
Definition EncodeWithdrawForMethodCall (c : Codec) (i : WithdrawForInput) : res bytes :=
  abi_Pack (codec_abi c) "withdrawFor" [
    VFixed (WithdrawFor_Beneficiary i); VBig (WithdrawFor_ShareBurnAmount i)].
Definition EncodeWithdrawLinkMethodCall (c : Codec) (i : WithdrawLinkInput) : res bytes :=
  abi_Pack (codec_abi c) "withdrawLink" [VBig (WithdrawLink_Amount i)].

(** ** Outputs *)
Definition DecodeDEFAULTADMINROLEMethodOutput (c : Codec) (data : bytes)
    : res bytes :=
  decode_value (codec_abi c) "DEFAULT_ADMIN_ROLE" (as_bytes32 "[32]byte") data.
Definition DecodeUPGRADEINTERFACEVERSIONMethodOutput (c : Codec) (data : bytes)
    : res string :=
  decode_value (codec_abi c) "UPGRADE_INTERFACE_VERSION" (as_string "string") data.
Definition DecodeClaimAssetMethodOutput (c : Codec) (data : bytes)
    : res bigint :=
  decode_value (codec_abi c) "claimAsset" (as_big "*big.Int") data.
Definition DecodeClaimAssetForMethodOutput (c : Codec) (data : bytes)
    : res bigint :=
  decode_value (codec_abi c) "claimAssetFor" (as_big "*big.Int") data.
Definition DecodeClaimSharesMethodOutput (c : Codec) (data : bytes)
    : res bigint :=
  decode_value (codec_abi c) "claimShares" (as_big "*big.Int") data.
Definition DecodeClaimSharesForMethodOutput (c : Codec) (data : bytes)
    : res bigint :=
  decode_value (codec_abi c) "claimSharesFor" (as_big "*big.Int") data.
Definition DecodeDefaultAdminMethodOutput (c : Codec) (data : bytes)
    : res Address :=
  decode_value (codec_abi c) "defaultAdmin" (as_address "common.Address") data.
Definition DecodeDefaultAdminDelayMethodOutput (c : Codec) (data : bytes)
    : res bigint :=
  decode_value (codec_abi c) "defaultAdminDelay" (as_big "*big.Int") data.
Definition DecodeDefaultAdminDelayIncreaseWaitMethodOutput (c : Codec) (data : bytes)
    : res bigint :=
  decode_value (codec_abi c) "defaultAdminDelayIncreaseWait" (as_big "*big.Int") data.
Definition DecodeDepositMethodOutput (c : Codec) (data : bytes)
    : res bigint :=
  decode_value (codec_abi c) "deposit" (as_big "*big.Int") data.
Definition DecodeDepositForMethodOutput (c : Codec) (data : bytes)
    : res bigint :=
  decode_value (codec_abi c) "depositFor" (as_big "*big.Int") data.
Definition DecodeGetActiveProtocolAdapterMethodOutput (c : Codec) (data : bytes)
    : res Address :=
  decode_value (codec_abi c) "getActiveProtocolAdapter" (as_address "common.Address") data.
Definition DecodeGetAdapterRegistryMethodOutput (c : Codec) (data : bytes)
    : res Address :=
  decode_value (codec_abi c) "getAdapterRegistry" (as_address "common.Address") data.
Definition DecodeGetAllowlistEnabledMethodOutput (c : Codec) (data : bytes)
    : res bool :=
  decode_value (codec_abi c) "getAllowlistEnabled" (as_bool "bool") data.
Definition DecodeGetAllowlistedUserMethodOutput (c : Codec) (data : bytes)
    : res bool :=
  decode_value (codec_abi c) "getAllowlistedUser" (as_bool "bool") data.
Definition DecodeGetAssetMethodOutput (c : Codec) (data : bytes)
    : res Address :=
  decode_value (codec_abi c) "getAsset" (as_address "common.Address") data.
Definition DecodeGetAssetPrecisionMethodOutput (c : Codec) (data : bytes)
    : res bigint :=
  decode_value (codec_abi c) "getAssetPrecision" (as_big "*big.Int") data.
Definition DecodeGetCCVsAndFinalityConfigMethodOutput (c : Codec) (data : bytes)
    : res GetCCVsAndFinalityConfigOutput :=
  vals ← output_values (codec_abi c) "getCCVsAndFinalityConfig" 4 data;
  result0 ← output_value vals 0 (as_slice "[]common.Address" (as_address "[]common.Address"));
  result1 ← output_value vals 1 (as_slice "[]common.Address" (as_address "[]common.Address"));
  result2 ← output_value vals 2 (as_uint 8 "uint8");
  result3 ← output_value vals 3 (as_bytesN 4 "[4]byte");
  Ok (mkGetCCVsAndFinalityConfigOutput result0 result1 result2 result3).
Definition DecodeGetCcipGasLimitMethodOutput (c : Codec) (data : bytes)
    : res bigint :=
  decode_value (codec_abi c) "getCcipGasLimit" (as_big "*big.Int") data.
Definition DecodeGetCrosschainVaultMethodOutput (c : Codec) (data : bytes)
    : res Address :=
  decode_value (codec_abi c) "getCrosschainVault" (as_address "common.Address") data.
Definition DecodeGetDefaultCcipGasLimitMethodOutput (c : Codec) (data : bytes)
    : res bigint :=
  decode_value (codec_abi c) "getDefaultCcipGasLimit" (as_big "*big.Int") data.
Definition DecodeGetDepositAmountMethodOutput (c : Codec) (data : bytes)
    : res bigint :=
  decode_value (codec_abi c) "getDepositAmount" (as_big "*big.Int") data.
Definition DecodeGetEpochMethodOutput (c : Codec) (data : bytes)
    : res TypesEpoch :=
  decode_output (codec_abi c) "getEpoch" "TypesEpoch"
    (decode_epoch "TypesEpoch") data.
Definition DecodeGetEpochNonceMethodOutput (c : Codec) (data : bytes)
    : res bigint :=
  decode_value (codec_abi c) "getEpochNonce" (as_big "*big.Int") data.
Definition DecodeGetInitialActiveProtocolAdapterSetMethodOutput (c : Codec) (data : bytes)
    : res bool :=
  decode_value (codec_abi c) "getInitialActiveProtocolAdapterSet" (as_bool "bool") data.
Definition DecodeGetLinkMethodOutput (c : Codec) (data : bytes)
    : res Address :=
  decode_value (codec_abi c) "getLink" (as_address "common.Address") data.
Definition DecodeGetMinAssetAmountMethodOutput (c : Codec) (data : bytes)
    : res bigint :=
  decode_value (codec_abi c) "getMinAssetAmount" (as_big "*big.Int") data.
Definition DecodeGetRebalanceMethodOutput (c : Codec) (data : bytes)
    : res TypesRebalance :=
  decode_output (codec_abi c) "getRebalance" "TypesRebalance"
    (decode_rebalance "TypesRebalance") data.
Definition DecodeGetRebalanceDepositRecoveryMethodOutput (c : Codec) (data : bytes)
    : res TypesRebalanceDepositRecovery :=
  decode_output (codec_abi c) "getRebalanceDepositRecovery" "TypesRebalanceDepositRecovery"
    (decode_TypesRebalanceDepositRecovery "TypesRebalanceDepositRecovery") data.
Definition DecodeGetRecoveryModeMethodOutput (c : Codec) (data : bytes)
    : res Z :=
  decode_value (codec_abi c) "getRecoveryMode" (as_uint 8 "uint8") data.
Definition DecodeGetRoleAdminMethodOutput (c : Codec) (data : bytes)
    : res bytes :=
  decode_value (codec_abi c) "getRoleAdmin" (as_bytes32 "[32]byte") data.
Definition DecodeGetRouterMethodOutput (c : Codec) (data : bytes)
    : res Address :=
  decode_value (codec_abi c) "getRouter" (as_address "common.Address") data.
Definition DecodeGetShareMethodOutput (c : Codec) (data : bytes)
    : res Address :=
  decode_value (codec_abi c) "getShare" (as_address "common.Address") data.
Definition DecodeGetSharePrecisionMethodOutput (c : Codec) (data : bytes)
    : res bigint :=
  decode_value (codec_abi c) "getSharePrecision" (as_big "*big.Int") data.
Definition DecodeGetSupportedProtocolMethodOutput (c : Codec) (data : bytes)
    : res bool :=
  decode_value (codec_abi c) "getSupportedProtocol" (as_bool "bool") data.
Definition DecodeGetTVLMethodOutput (c : Codec) (data : bytes)
    : res bigint :=
  decode_value (codec_abi c) "getTVL" (as_big "*big.Int") data.
Definition DecodeGetThisChainSelectorMethodOutput (c : Codec) (data : bytes)
    : res Z :=
  decode_value (codec_abi c) "getThisChainSelector" (as_uint 64 "uint64") data.
Definition DecodeGetTotalSharesMethodOutput (c : Codec) (data : bytes)
    : res bigint :=
  decode_value (codec_abi c) "getTotalShares" (as_big "*big.Int") data.
Definition DecodeGetTreasuryMethodOutput (c : Codec) (data : bytes)
    : res Address :=
  decode_value (codec_abi c) "getTreasury" (as_address "common.Address") data.
Definition DecodeGetWithdrawShareBurnAmountMethodOutput (c : Codec) (data : bytes)
    : res bigint :=
  decode_value (codec_abi c) "getWithdrawShareBurnAmount" (as_big "*big.Int") data.
Definition DecodeHasRoleMethodOutput (c : Codec) (data : bytes)
    : res bool :=
  decode_value (codec_abi c) "hasRole" (as_bool "bool") data.
Definition DecodeOwnerMethodOutput (c : Codec) (data : bytes)
    : res Address :=
  decode_value (codec_abi c) "owner" (as_address "common.Address") data.
Definition DecodePausedMethodOutput (c : Codec) (data : bytes)
    : res bool :=
  decode_value (codec_abi c) "paused" (as_bool "bool") data.
Definition DecodePendingDefaultAdminMethodOutput (c : Codec) (data : bytes)
    : res PendingDefaultAdminOutput :=
  vals ← output_values (codec_abi c) "pendingDefaultAdmin" 2 data;
  result0 ← output_value vals 0 (as_address "common.Address");
  result1 ← output_value vals 1 (as_big "*big.Int");
  Ok (mkPendingDefaultAdminOutput result0 result1).
Definition DecodePendingDefaultAdminDelayMethodOutput (c : Codec) (data : bytes)
    : res PendingDefaultAdminDelayOutput :=
  vals ← output_values (codec_abi c) "pendingDefaultAdminDelay" 2 data;
  result0 ← output_value vals 0 (as_big "*big.Int");
  result1 ← output_value vals 1 (as_big "*big.Int");
  Ok (mkPendingDefaultAdminDelayOutput result0 result1).
Definition DecodeProxiableUUIDMethodOutput (c : Codec) (data : bytes)
    : res bytes :=
  decode_value (codec_abi c) "proxiableUUID" (as_bytes32 "[32]byte") data.
Definition DecodeSupportsInterfaceMethodOutput (c : Codec) (data : bytes)
    : res bool :=
  decode_value (codec_abi c) "supportsInterface" (as_bool "bool") data.
Definition DecodeWithdrawMethodOutput (c : Codec) (data : bytes)
    : res bigint :=
  decode_value (codec_abi c) "withdraw" (as_big "*big.Int") data.
Definition DecodeWithdrawForMethodOutput (c : Codec) (data : bytes)
    : res bigint :=
  decode_value (codec_abi c) "withdrawFor" (as_big "*big.Int") data.

(** ** Tuple encoders *)
Definition EncodeBaseVaultConstructorParamsStruct (i : BaseVaultConstructorParams) : res bytes :=
  encode_struct "BaseVaultConstructorParams" "baseVaultConstructorParams" [
    ("link", "address"); ("asset", "address"); ("ccipRouter", "address");
    ("adapterRegistry", "address"); ("thisChainSelector", "uint64")]%string
    (BaseVaultConstructorParams_value i).
Definition EncodeBaseVaultInitParamsStruct (i : BaseVaultInitParams) : res bytes :=
  encode_struct "BaseVaultInitParams" "baseVaultInitParams" [
    ("defaultAdmin", "address"); ("pauser", "address"); ("unpauser", "address");
    ("configOperator", "address"); ("initialDefaultCcipGasLimit", "uint256");
    ("upgrader", "address")]%string
    (BaseVaultInitParams_value i).
Definition EncodeClientAny2EVMMessageStruct (i : ClientAny2EVMMessage) : res bytes :=
  encode_struct "ClientAny2EVMMessage" "clientAny2EVMMessage" [
    ("messageId", "bytes32"); ("sourceChainSelector", "uint64"); ("sender", "bytes");
    ("data", "bytes"); ("destTokenAmounts", "(address,uint256)[]")]%string
    (ClientAny2EVMMessage_value i).
Definition EncodeClientEVMTokenAmountStruct (i : ClientEVMTokenAmount) : res bytes :=
  encode_struct "ClientEVMTokenAmount" "clientEVMTokenAmount" [
    ("token", "address"); ("amount", "uint256")]%string
    (ClientEVMTokenAmount_value i).
Definition EncodeTypesEpochStruct (i : TypesEpoch) : res bytes :=
  encode_struct "TypesEpoch" "typesEpoch" [
    ("totalDepositAmount", "uint256"); ("totalShareBurnAmount", "uint256");
    ("totalWithdrawClaimAmount", "uint256"); ("remainingDepositClaimAmount", "uint256");
    ("remainingShareMintAmount", "uint256"); ("remainingShareBurnAmount", "uint256");
    ("remainingWithdrawClaimAmount", "uint256"); ("openedAtTimestamp", "uint256");
    ("status", "uint8")]%string
    (TypesEpoch_value i).
Definition EncodeTypesParentOperationalStateStruct (i : TypesParentOperationalState) : res bytes :=
  encode_struct "TypesParentOperationalState" "typesParentOperationalState" [
    ("paused", "bool"); ("recoveryMode", "uint8"); ("currentEpochNonce", "uint256");
    ("currentEpoch", "(uint256,uint256,uint256,uint256,uint256,uint256,uint256,uint256,uint8)");
    ("previousEpoch", "(uint256,uint256,uint256,uint256,uint256,uint256,uint256,uint256,uint8)");
    ("rebalance", "(uint256,uint8,(bytes32,uint64),(bytes32,uint64),uint256)");
    ("totalShares", "uint256"); ("tvl", "uint256")]%string
    (TypesParentOperationalState_value i).
Definition EncodeTypesRebalanceStruct (i : TypesRebalance) : res bytes :=
  encode_struct "TypesRebalance" "typesRebalance" [
    ("nonce", "uint256"); ("state", "uint8"); ("activeStrategy", "(bytes32,uint64)");
    ("pendingStrategy", "(bytes32,uint64)"); ("lastRebalanceCompletedTimestamp", "uint256")]%string
    (TypesRebalance_value i).
Definition EncodeTypesRebalanceDepositRecoveryStruct (i : TypesRebalanceDepositRecovery) : res bytes :=
  encode_struct "TypesRebalanceDepositRecovery" "typesRebalanceDepositRecovery" [
    ("rebalanceNonce", "uint256"); ("amount", "uint256")]%string
    (TypesRebalanceDepositRecovery_value i).
Definition EncodeTypesStrategyStruct (i : TypesStrategy) : res bytes :=
  encode_struct "TypesStrategy" "typesStrategy" [
    ("protocolId", "bytes32"); ("chainSelector", "uint64")]%string
    (strategy_value i).

(** ** Reads *)
Definition DEFAULTADMINROLE {R} (c : ParentVault) (blockNumber : bigint)
    : prog (cre_eff R) bytes :=
  read_contract (vault_client c) (vault_Address c)
    (EncodeDEFAULTADMINROLEMethodCall (vault_Codec c)) blockNumber
    (DecodeDEFAULTADMINROLEMethodOutput (vault_Codec c)).
Definition UPGRADEINTERFACEVERSION {R} (c : ParentVault) (blockNumber : bigint)
    : prog (cre_eff R) string :=
  read_contract (vault_client c) (vault_Address c)
    (EncodeUPGRADEINTERFACEVERSIONMethodCall (vault_Codec c)) blockNumber
    (DecodeUPGRADEINTERFACEVERSIONMethodOutput (vault_Codec c)).
Definition DefaultAdmin {R} (c : ParentVault) (blockNumber : bigint)
    : prog (cre_eff R) Address :=
  read_contract (vault_client c) (vault_Address c)
    (EncodeDefaultAdminMethodCall (vault_Codec c)) blockNumber
    (DecodeDefaultAdminMethodOutput (vault_Codec c)).
Definition DefaultAdminDelay {R} (c : ParentVault) (blockNumber : bigint)
    : prog (cre_eff R) bigint :=
  read_contract (vault_client c) (vault_Address c)
    (EncodeDefaultAdminDelayMethodCall (vault_Codec c)) blockNumber
    (DecodeDefaultAdminDelayMethodOutput (vault_Codec c)).
Definition DefaultAdminDelayIncreaseWait {R} (c : ParentVault) (blockNumber : bigint)
    : prog (cre_eff R) bigint :=
  read_contract (vault_client c) (vault_Address c)
    (EncodeDefaultAdminDelayIncreaseWaitMethodCall (vault_Codec c)) blockNumber
    (DecodeDefaultAdminDelayIncreaseWaitMethodOutput (vault_Codec c)).
Definition GetActiveProtocolAdapter {R} (c : ParentVault) (blockNumber : bigint)
    : prog (cre_eff R) Address :=
  read_contract (vault_client c) (vault_Address c)
    (EncodeGetActiveProtocolAdapterMethodCall (vault_Codec c)) blockNumber
    (DecodeGetActiveProtocolAdapterMethodOutput (vault_Codec c)).
Definition GetAdapterRegistry {R} (c : ParentVault) (blockNumber : bigint)
    : prog (cre_eff R) Address :=
  read_contract (vault_client c) (vault_Address c)
    (EncodeGetAdapterRegistryMethodCall (vault_Codec c)) blockNumber
    (DecodeGetAdapterRegistryMethodOutput (vault_Codec c)).
Definition GetAllowlistEnabled {R} (c : ParentVault) (blockNumber : bigint)
    : prog (cre_eff R) bool :=
  read_contract (vault_client c) (vault_Address c)
    (EncodeGetAllowlistEnabledMethodCall (vault_Codec c)) blockNumber
    (DecodeGetAllowlistEnabledMethodOutput (vault_Codec c)).
Definition GetAllowlistedUser {R} (c : ParentVault) (args : GetAllowlistedUserInput) (blockNumber : bigint)
    : prog (cre_eff R) bool :=
  read_contract (vault_client c) (vault_Address c)
    (EncodeGetAllowlistedUserMethodCall (vault_Codec c) args) blockNumber
    (DecodeGetAllowlistedUserMethodOutput (vault_Codec c)).
Definition GetAsset {R} (c : ParentVault) (blockNumber : bigint)
    : prog (cre_eff R) Address :=
  read_contract (vault_client c) (vault_Address c)
    (EncodeGetAssetMethodCall (vault_Codec c)) blockNumber
    (DecodeGetAssetMethodOutput (vault_Codec c)).
Definition GetAssetPrecision {R} (c : ParentVault) (blockNumber : bigint)
    : prog (cre_eff R) bigint :=
  read_contract (vault_client c) (vault_Address c)
    (EncodeGetAssetPrecisionMethodCall (vault_Codec c)) blockNumber
    (DecodeGetAssetPrecisionMethodOutput (vault_Codec c)).
Definition GetCCVsAndFinalityConfig {R} (c : ParentVault) (args : GetCCVsAndFinalityConfigInput) (blockNumber : bigint)
    : prog (cre_eff R) GetCCVsAndFinalityConfigOutput :=
  read_contract (vault_client c) (vault_Address c)
    (EncodeGetCCVsAndFinalityConfigMethodCall (vault_Codec c) args) blockNumber
    (DecodeGetCCVsAndFinalityConfigMethodOutput (vault_Codec c)).
Definition GetCcipGasLimit {R} (c : ParentVault) (args : GetCcipGasLimitInput) (blockNumber : bigint)
    : prog (cre_eff R) bigint :=
  read_contract (vault_client c) (vault_Address c)
    (EncodeGetCcipGasLimitMethodCall (vault_Codec c) args) blockNumber
    (DecodeGetCcipGasLimitMethodOutput (vault_Codec c)).
Definition GetCrosschainVault {R} (c : ParentVault) (args : GetCrosschainVaultInput) (blockNumber : bigint)
    : prog (cre_eff R) Address :=
  read_contract (vault_client c) (vault_Address c)
    (EncodeGetCrosschainVaultMethodCall (vault_Codec c) args) blockNumber
    (DecodeGetCrosschainVaultMethodOutput (vault_Codec c)).
Definition GetDefaultCcipGasLimit {R} (c : ParentVault) (blockNumber : bigint)
    : prog (cre_eff R) bigint :=
  read_contract (vault_client c) (vault_Address c)
    (EncodeGetDefaultCcipGasLimitMethodCall (vault_Codec c)) blockNumber
    (DecodeGetDefaultCcipGasLimitMethodOutput (vault_Codec c)).
Definition GetDepositAmount {R} (c : ParentVault) (args : GetDepositAmountInput) (blockNumber : bigint)
    : prog (cre_eff R) bigint :=
  read_contract (vault_client c) (vault_Address c)
    (EncodeGetDepositAmountMethodCall (vault_Codec c) args) blockNumber
    (DecodeGetDepositAmountMethodOutput (vault_Codec c)).
Definition GetEpoch {R} (c : ParentVault) (args : GetEpochInput) (blockNumber : bigint)
    : prog (cre_eff R) TypesEpoch :=
  read_contract (vault_client c) (vault_Address c)
    (EncodeGetEpochMethodCall (vault_Codec c) args) blockNumber
    (DecodeGetEpochMethodOutput (vault_Codec c)).
Definition GetEpochNonce {R} (c : ParentVault) (blockNumber : bigint)
    : prog (cre_eff R) bigint :=
  read_contract (vault_client c) (vault_Address c)
    (EncodeGetEpochNonceMethodCall (vault_Codec c)) blockNumber
    (DecodeGetEpochNonceMethodOutput (vault_Codec c)).
Definition GetInitialActiveProtocolAdapterSet {R} (c : ParentVault) (blockNumber : bigint)
    : prog (cre_eff R) bool :=
  read_contract (vault_client c) (vault_Address c)
    (EncodeGetInitialActiveProtocolAdapterSetMethodCall (vault_Codec c)) blockNumber
    (DecodeGetInitialActiveProtocolAdapterSetMethodOutput (vault_Codec c)).
Definition GetLink {R} (c : ParentVault) (blockNumber : bigint)
    : prog (cre_eff R) Address :=
  read_contract (vault_client c) (vault_Address c)
    (EncodeGetLinkMethodCall (vault_Codec c)) blockNumber
    (DecodeGetLinkMethodOutput (vault_Codec c)).
Definition GetMinAssetAmount {R} (c : ParentVault) (blockNumber : bigint)
    : prog (cre_eff R) bigint :=
  read_contract (vault_client c) (vault_Address c)
    (EncodeGetMinAssetAmountMethodCall (vault_Codec c)) blockNumber
    (DecodeGetMinAssetAmountMethodOutput (vault_Codec c)).
Definition GetRebalance {R} (c : ParentVault) (blockNumber : bigint)
    : prog (cre_eff R) TypesRebalance :=
  read_contract (vault_client c) (vault_Address c)
    (EncodeGetRebalanceMethodCall (vault_Codec c)) blockNumber
    (DecodeGetRebalanceMethodOutput (vault_Codec c)).
Definition GetRebalanceDepositRecovery {R} (c : ParentVault) (blockNumber : bigint)
    : prog (cre_eff R) TypesRebalanceDepositRecovery :=
  read_contract (vault_client c) (vault_Address c)
    (EncodeGetRebalanceDepositRecoveryMethodCall (vault_Codec c)) blockNumber
    (DecodeGetRebalanceDepositRecoveryMethodOutput (vault_Codec c)).
Definition GetRecoveryMode {R} (c : ParentVault) (blockNumber : bigint)
    : prog (cre_eff R) Z :=
  read_contract (vault_client c) (vault_Address c)
    (EncodeGetRecoveryModeMethodCall (vault_Codec c)) blockNumber
    (DecodeGetRecoveryModeMethodOutput (vault_Codec c)).
Definition GetRoleAdmin {R} (c : ParentVault) (args : GetRoleAdminInput) (blockNumber : bigint)
    : prog (cre_eff R) bytes :=
  read_contract (vault_client c) (vault_Address c)
    (EncodeGetRoleAdminMethodCall (vault_Codec c) args) blockNumber
    (DecodeGetRoleAdminMethodOutput (vault_Codec c)).
Definition GetRouter {R} (c : ParentVault) (blockNumber : bigint)
    : prog (cre_eff R) Address :=
  read_contract (vault_client c) (vault_Address c)
    (EncodeGetRouterMethodCall (vault_Codec c)) blockNumber
    (DecodeGetRouterMethodOutput (vault_Codec c)).
Definition GetShare {R} (c : ParentVault) (blockNumber : bigint)
    : prog (cre_eff R) Address :=
  read_contract (vault_client c) (vault_Address c)
    (EncodeGetShareMethodCall (vault_Codec c)) blockNumber
    (DecodeGetShareMethodOutput (vault_Codec c)).
Definition GetSupportedProtocol {R} (c : ParentVault) (args : GetSupportedProtocolInput) (blockNumber : bigint)
    : prog (cre_eff R) bool :=
  read_contract (vault_client c) (vault_Address c)
    (EncodeGetSupportedProtocolMethodCall (vault_Codec c) args) blockNumber
    (DecodeGetSupportedProtocolMethodOutput (vault_Codec c)).
Definition GetTVL {R} (c : ParentVault) (blockNumber : bigint)
    : prog (cre_eff R) bigint :=
  read_contract (vault_client c) (vault_Address c)
    (EncodeGetTVLMethodCall (vault_Codec c)) blockNumber
    (DecodeGetTVLMethodOutput (vault_Codec c)).
Definition GetThisChainSelector {R} (c : ParentVault) (blockNumber : bigint)
    : prog (cre_eff R) Z :=
  read_contract (vault_client c) (vault_Address c)
    (EncodeGetThisChainSelectorMethodCall (vault_Codec c)) blockNumber
    (DecodeGetThisChainSelectorMethodOutput (vault_Codec c)).
Definition GetTotalShares {R} (c : ParentVault) (blockNumber : bigint)
    : prog (cre_eff R) bigint :=
  read_contract (vault_client c) (vault_Address c)
    (EncodeGetTotalSharesMethodCall (vault_Codec c)) blockNumber
    (DecodeGetTotalSharesMethodOutput (vault_Codec c)).
Definition GetTreasury {R} (c : ParentVault) (blockNumber : bigint)
    : prog (cre_eff R) Address :=
  read_contract (vault_client c) (vault_Address c)
    (EncodeGetTreasuryMethodCall (vault_Codec c)) blockNumber
    (DecodeGetTreasuryMethodOutput (vault_Codec c)).
Definition GetWithdrawShareBurnAmount {R} (c : ParentVault) (args : GetWithdrawShareBurnAmountInput) (blockNumber : bigint)
    : prog (cre_eff R) bigint :=
  read_contract (vault_client c) (vault_Address c)
    (EncodeGetWithdrawShareBurnAmountMethodCall (vault_Codec c) args) blockNumber
    (DecodeGetWithdrawShareBurnAmountMethodOutput (vault_Codec c)).
Definition HasRole {R} (c : ParentVault) (args : HasRoleInput) (blockNumber : bigint)
    : prog (cre_eff R) bool :=
  read_contract (vault_client c) (vault_Address c)
    (EncodeHasRoleMethodCall (vault_Codec c) args) blockNumber
    (DecodeHasRoleMethodOutput (vault_Codec c)).
Definition Owner {R} (c : ParentVault) (blockNumber : bigint)
    : prog (cre_eff R) Address :=
  read_contract (vault_client c) (vault_Address c)
    (EncodeOwnerMethodCall (vault_Codec c)) blockNumber
    (DecodeOwnerMethodOutput (vault_Codec c)).
Definition Paused {R} (c : ParentVault) (blockNumber : bigint)
    : prog (cre_eff R) bool :=
  read_contract (vault_client c) (vault_Address c)
    (EncodePausedMethodCall (vault_Codec c)) blockNumber
    (DecodePausedMethodOutput (vault_Codec c)).
Definition PendingDefaultAdmin {R} (c : ParentVault) (blockNumber : bigint)
    : prog (cre_eff R) PendingDefaultAdminOutput :=
  read_contract (vault_client c) (vault_Address c)
    (EncodePendingDefaultAdminMethodCall (vault_Codec c)) blockNumber
    (DecodePendingDefaultAdminMethodOutput (vault_Codec c)).
Definition PendingDefaultAdminDelay {R} (c : ParentVault) (blockNumber : bigint)
    : prog (cre_eff R) PendingDefaultAdminDelayOutput :=
  read_contract (vault_client c) (vault_Address c)
    (EncodePendingDefaultAdminDelayMethodCall (vault_Codec c)) blockNumber
    (DecodePendingDefaultAdminDelayMethodOutput (vault_Codec c)).
Definition ProxiableUUID {R} (c : ParentVault) (blockNumber : bigint)
    : prog (cre_eff R) bytes :=
  read_contract (vault_client c) (vault_Address c)
    (EncodeProxiableUUIDMethodCall (vault_Codec c)) blockNumber
    (DecodeProxiableUUIDMethodOutput (vault_Codec c)).

(** ** Reports *)
Definition WriteReport {R} (c : ParentVault) (report : option Report) (gasConfig : option GasConfig)
    : prog (cre_eff R) (option WriteReportReply) :=
  write_report (vault_client c) (vault_Address c) report gasConfig.
Definition WriteReportFromBaseVaultConstructorParams {R} (c : ParentVault) (input : BaseVaultConstructorParams)
    (gasConfig : option GasConfig) : prog (cre_eff R) (option WriteReportReply) :=
  write_report_from (vault_client c) (vault_Address c)
    (EncodeBaseVaultConstructorParamsStruct input) gasConfig.
Definition WriteReportFromBaseVaultInitParams {R} (c : ParentVault) (input : BaseVaultInitParams)
    (gasConfig : option GasConfig) : prog (cre_eff R) (option WriteReportReply) :=
  write_report_from (vault_client c) (vault_Address c)
    (EncodeBaseVaultInitParamsStruct input) gasConfig.
Definition WriteReportFromClientAny2EVMMessage {R} (c : ParentVault) (input : ClientAny2EVMMessage)
    (gasConfig : option GasConfig) : prog (cre_eff R) (option WriteReportReply) :=
  write_report_from (vault_client c) (vault_Address c)
    (EncodeClientAny2EVMMessageStruct input) gasConfig.
Definition WriteReportFromClientEVMTokenAmount {R} (c : ParentVault) (input : ClientEVMTokenAmount)
    (gasConfig : option GasConfig) : prog (cre_eff R) (option WriteReportReply) :=
  write_report_from (vault_client c) (vault_Address c)
    (EncodeClientEVMTokenAmountStruct input) gasConfig.
Definition WriteReportFromTypesEpoch {R} (c : ParentVault) (input : TypesEpoch)
    (gasConfig : option GasConfig) : prog (cre_eff R) (option WriteReportReply) :=
  write_report_from (vault_client c) (vault_Address c)
    (EncodeTypesEpochStruct input) gasConfig.
Definition WriteReportFromTypesParentOperationalState {R} (c : ParentVault) (input : TypesParentOperationalState)
    (gasConfig : option GasConfig) : prog (cre_eff R) (option WriteReportReply) :=
  write_report_from (vault_client c) (vault_Address c)
    (EncodeTypesParentOperationalStateStruct input) gasConfig.
Definition WriteReportFromTypesRebalance {R} (c : ParentVault) (input : TypesRebalance)
    (gasConfig : option GasConfig) : prog (cre_eff R) (option WriteReportReply) :=
  write_report_from (vault_client c) (vault_Address c)
    (EncodeTypesRebalanceStruct input) gasConfig.
Definition WriteReportFromTypesRebalanceDepositRecovery {R} (c : ParentVault) (input : TypesRebalanceDepositRecovery)
    (gasConfig : option GasConfig) : prog (cre_eff R) (option WriteReportReply) :=
  write_report_from (vault_client c) (vault_Address c)
    (EncodeTypesRebalanceDepositRecoveryStruct input) gasConfig.
Definition WriteReportFromTypesStrategy {R} (c : ParentVault) (input : TypesStrategy)
    (gasConfig : option GasConfig) : prog (cre_eff R) (option WriteReportReply) :=
  write_report_from (vault_client c) (vault_Address c)
    (EncodeTypesStrategyStruct input) gasConfig.
End Methods.

(** ** All calls, outputs and reads *)
Inductive vault_call : Type :=
| CDEFAULTADMINROLE
| CUPGRADEINTERFACEVERSION
| CAcceptDefaultAdminTransfer
| CBeginDefaultAdminTransfer (i : BeginDefaultAdminTransferInput)
| CCancelDefaultAdminTransfer
| CCancelDeposit
| CCancelWithdraw
| CCcipReceive (i : CcipReceiveInput)
| CChangeDefaultAdminDelay (i : ChangeDefaultAdminDelayInput)
| CClaimAsset (i : ClaimAssetInput)
| CClaimAssetFor (i : ClaimAssetForInput)
| CClaimShares (i : ClaimSharesInput)
| CClaimSharesFor (i : ClaimSharesForInput)
| CCloseEpoch (i : CloseEpochInput)
| CCompleteEpochDeposit (i : CompleteEpochDepositInput)
| CCompleteRebalance (i : CompleteRebalanceInput)
| CDefaultAdmin
| CDefaultAdminDelay
| CDefaultAdminDelayIncreaseWait
| CDeposit (i : DepositInput)
| CDepositFor (i : DepositForInput)
| CExecuteRecovery
| CForceCancelDeposit (i : ForceCancelDepositInput)
| CGetActiveProtocolAdapter
| CGetAdapterRegistry
| CGetAllowlistEnabled
| CGetAllowlistedUser (i : GetAllowlistedUserInput)
| CGetAsset
| CGetAssetPrecision
| CGetCCVsAndFinalityConfig (i : GetCCVsAndFinalityConfigInput)
| CGetCcipGasLimit (i : GetCcipGasLimitInput)
| CGetCrosschainVault (i : GetCrosschainVaultInput)
| CGetDefaultCcipGasLimit
| CGetDepositAmount (i : GetDepositAmountInput)
| CGetEpoch (i : GetEpochInput)
| CGetEpochNonce
| CGetInitialActiveProtocolAdapterSet
| CGetLink
| CGetMinAssetAmount
| CGetParentOperationalState
| CGetRebalance
| CGetRebalanceDepositRecovery
| CGetRecoveryMode
| CGetRoleAdmin (i : GetRoleAdminInput)
| CGetRouter
| CGetShare
| CGetSharePrecision
| CGetSupportedProtocol (i : GetSupportedProtocolInput)
| CGetTVL
| CGetThisChainSelector
| CGetTotalShares
| CGetTreasury
| CGetWithdrawShareBurnAmount (i : GetWithdrawShareBurnAmountInput)
| CGrantRole (i : GrantRoleInput)
| CHasRole (i : HasRoleInput)
| CInitialize (i : InitializeInput)
| CInitiateRebalance (i : InitiateRebalanceInput)
| COwner
| CPause
| CPaused
| CPendingDefaultAdmin
| CPendingDefaultAdminDelay
| CProxiableUUID
| CRenounceRole (i : RenounceRoleInput)
| CRevokeRole (i : RevokeRoleInput)
| CRollbackDefaultAdminDelay
| CSetAllowlistEnabled (i : SetAllowlistEnabledInput)
| CSetAllowlistedUsers (i : SetAllowlistedUsersInput)
| CSetCcipGasLimit (i : SetCcipGasLimitInput)
| CSetCrosschainVaults (i : SetCrosschainVaultsInput)
| CSetDefaultCcipGasLimit (i : SetDefaultCcipGasLimitInput)
| CSetInitialActiveProtocolAdapter (i : SetInitialActiveProtocolAdapterInput)
| CSetSupportedProtocol (i : SetSupportedProtocolInput)
| CSetTreasury (i : SetTreasuryInput)
| CSupportsInterface (i : SupportsInterfaceInput)
| CTryDepositToAdapter (i : TryDepositToAdapterInput)
| CUnpause
| CUpgradeToAndCall (i : UpgradeToAndCallInput)
| CWithdraw (i : WithdrawInput)
| CWithdrawFor (i : WithdrawForInput)
| CWithdrawLink (i : WithdrawLinkInput).

(** The ABI name of the method and the named arguments. *)
Definition describe (x : vault_call) : string * list (string * abi_value) :=
  match x with
  | CDEFAULTADMINROLE => ("DEFAULT_ADMIN_ROLE"%string, [])
  | CUPGRADEINTERFACEVERSION => ("UPGRADE_INTERFACE_VERSION"%string, [])
  | CAcceptDefaultAdminTransfer => ("acceptDefaultAdminTransfer"%string, [])
  | CBeginDefaultAdminTransfer i => ("beginDefaultAdminTransfer"%string, [
      ("newAdmin"%string, VFixed (BeginDefaultAdminTransfer_NewAdmin i))])
  | CCancelDefaultAdminTransfer => ("cancelDefaultAdminTransfer"%string, [])
  | CCancelDeposit => ("cancelDeposit"%string, [])
  | CCancelWithdraw => ("cancelWithdraw"%string, [])
  | CCcipReceive i => ("ccipReceive"%string, [
      ("message"%string, ClientAny2EVMMessage_value (CcipReceive_Message i))])
  | CChangeDefaultAdminDelay i => ("changeDefaultAdminDelay"%string, [
      ("newDelay"%string, VBig (ChangeDefaultAdminDelay_NewDelay i))])
  | CClaimAsset i => ("claimAsset"%string, [("epochNonce"%string, VBig (ClaimAsset_EpochNonce i))])
  | CClaimAssetFor i => ("claimAssetFor"%string, [
      ("user"%string, VFixed (ClaimAssetFor_User i));
      ("epochNonce"%string, VBig (ClaimAssetFor_EpochNonce i))])
  | CClaimShares i => ("claimShares"%string, [
      ("epochNonce"%string, VBig (ClaimShares_EpochNonce i))])
  | CClaimSharesFor i => ("claimSharesFor"%string, [
      ("user"%string, VFixed (ClaimSharesFor_User i));
      ("epochNonce"%string, VBig (ClaimSharesFor_EpochNonce i))])
  | CCloseEpoch i => ("closeEpoch"%string, [
      ("expectedEpochNonce"%string, VBig (CloseEpoch_ExpectedEpochNonce i));
      ("tvl"%string, VBig (CloseEpoch_Tvl i))])
  | CCompleteEpochDeposit i => ("completeEpochDeposit"%string, [
      ("expectedEpochNonce"%string, VBig (CompleteEpochDeposit_ExpectedEpochNonce i));
      ("actualDepositAmount"%string, VBig (CompleteEpochDeposit_ActualDepositAmount i))])
  | CCompleteRebalance i => ("completeRebalance"%string, [
      ("expectedRebalanceNonce"%string, VBig (CompleteRebalance_ExpectedRebalanceNonce i))])
  | CDefaultAdmin => ("defaultAdmin"%string, [])
  | CDefaultAdminDelay => ("defaultAdminDelay"%string, [])
  | CDefaultAdminDelayIncreaseWait => ("defaultAdminDelayIncreaseWait"%string, [])
  | CDeposit i => ("deposit"%string, [("amount"%string, VBig (Deposit_Amount i))])
  | CDepositFor i => ("depositFor"%string, [
      ("beneficiary"%string, VFixed (DepositFor_Beneficiary i));
      ("amount"%string, VBig (DepositFor_Amount i))])
  | CExecuteRecovery => ("executeRecovery"%string, [])
  | CForceCancelDeposit i => ("forceCancelDeposit"%string, [
      ("user"%string, VFixed (ForceCancelDeposit_User i))])
  | CGetActiveProtocolAdapter => ("getActiveProtocolAdapter"%string, [])
  | CGetAdapterRegistry => ("getAdapterRegistry"%string, [])
  | CGetAllowlistEnabled => ("getAllowlistEnabled"%string, [])
  | CGetAllowlistedUser i => ("getAllowlistedUser"%string, [
      ("user"%string, VFixed (GetAllowlistedUser_User i))])
  | CGetAsset => ("getAsset"%string, [])
  | CGetAssetPrecision => ("getAssetPrecision"%string, [])
  | CGetCCVsAndFinalityConfig i => ("getCCVsAndFinalityConfig"%string, [
      (EmptyString, VUint (GetCCVsAndFinalityConfig_Arg0 i));
      (EmptyString, VBytes (GetCCVsAndFinalityConfig_Arg1 i))])
  | CGetCcipGasLimit i => ("getCcipGasLimit"%string, [
      ("chainSelector"%string, VUint (GetCcipGasLimit_ChainSelector i))])
  | CGetCrosschainVault i => ("getCrosschainVault"%string, [
      ("chainSelector"%string, VUint (GetCrosschainVault_ChainSelector i))])
  | CGetDefaultCcipGasLimit => ("getDefaultCcipGasLimit"%string, [])
  | CGetDepositAmount i => ("getDepositAmount"%string, [
      ("user"%string, VFixed (GetDepositAmount_User i));
      ("epochNonce"%string, VBig (GetDepositAmount_EpochNonce i))])
  | CGetEpoch i => ("getEpoch"%string, [("epochNonce"%string, VBig (GetEpoch_EpochNonce i))])
  | CGetEpochNonce => ("getEpochNonce"%string, [])
  | CGetInitialActiveProtocolAdapterSet => ("getInitialActiveProtocolAdapterSet"%string, [])
  | CGetLink => ("getLink"%string, [])
  | CGetMinAssetAmount => ("getMinAssetAmount"%string, [])
  | CGetParentOperationalState => ("getParentOperationalState"%string, [])
  | CGetRebalance => ("getRebalance"%string, [])
  | CGetRebalanceDepositRecovery => ("getRebalanceDepositRecovery"%string, [])
  | CGetRecoveryMode => ("getRecoveryMode"%string, [])
  | CGetRoleAdmin i => ("getRoleAdmin"%string, [("role"%string, VFixed (GetRoleAdmin_Role i))])
  | CGetRouter => ("getRouter"%string, [])
  | CGetShare => ("getShare"%string, [])
  | CGetSharePrecision => ("getSharePrecision"%string, [])
  | CGetSupportedProtocol i => ("getSupportedProtocol"%string, [
      ("protocolId"%string, VFixed (GetSupportedProtocol_ProtocolId i))])
  | CGetTVL => ("getTVL"%string, [])
  | CGetThisChainSelector => ("getThisChainSelector"%string, [])
  | CGetTotalShares => ("getTotalShares"%string, [])
  | CGetTreasury => ("getTreasury"%string, [])
  | CGetWithdrawShareBurnAmount i => ("getWithdrawShareBurnAmount"%string, [
      ("user"%string, VFixed (GetWithdrawShareBurnAmount_User i));
      ("epochNonce"%string, VBig (GetWithdrawShareBurnAmount_EpochNonce i))])
  | CGrantRole i => ("grantRole"%string, [
      ("role"%string, VFixed (GrantRole_Role i));
      ("account"%string, VFixed (GrantRole_Account i))])
  | CHasRole i => ("hasRole"%string, [
      ("role"%string, VFixed (HasRole_Role i)); ("account"%string, VFixed (HasRole_Account i))])
  | CInitialize i => ("initialize"%string, [
      ("params"%string, BaseVaultInitParams_value (Initialize_Params i));
      ("treasury"%string, VFixed (Initialize_Treasury i));
      ("cancelDepositOperator"%string, VFixed (Initialize_CancelDepositOperator i));
      ("allowlistOperator"%string, VFixed (Initialize_AllowlistOperator i));
      ("allowlistEnabled"%string, VBool (Initialize_AllowlistEnabled i))])
  | CInitiateRebalance i => ("initiateRebalance"%string, [
      ("expectedRebalanceNonce"%string, VBig (InitiateRebalance_ExpectedRebalanceNonce i));
      ("newStrategy"%string, strategy_value (InitiateRebalance_NewStrategy i))])
  | COwner => ("owner"%string, [])
  | CPause => ("pause"%string, [])
  | CPaused => ("paused"%string, [])
  | CPendingDefaultAdmin => ("pendingDefaultAdmin"%string, [])
  | CPendingDefaultAdminDelay => ("pendingDefaultAdminDelay"%string, [])
  | CProxiableUUID => ("proxiableUUID"%string, [])
  | CRenounceRole i => ("renounceRole"%string, [
      ("role"%string, VFixed (RenounceRole_Role i));
      ("account"%string, VFixed (RenounceRole_Account i))])
  | CRevokeRole i => ("revokeRole"%string, [
      ("role"%string, VFixed (RevokeRole_Role i));
      ("account"%string, VFixed (RevokeRole_Account i))])
  | CRollbackDefaultAdminDelay => ("rollbackDefaultAdminDelay"%string, [])
  | CSetAllowlistEnabled i => ("setAllowlistEnabled"%string, [
      ("enabled"%string, VBool (SetAllowlistEnabled_Enabled i))])
  | CSetAllowlistedUsers i => ("setAllowlistedUsers"%string, [
      ("users"%string, VSlice (VFixed <$> (SetAllowlistedUsers_Users i)));
      ("allowed"%string, VBool (SetAllowlistedUsers_Allowed i))])
  | CSetCcipGasLimit i => ("setCcipGasLimit"%string, [
      ("chainSelector"%string, VUint (SetCcipGasLimit_ChainSelector i));
      ("gasLimit"%string, VBig (SetCcipGasLimit_GasLimit i))])
  | CSetCrosschainVaults i => ("setCrosschainVaults"%string, [
      ("chainSelectors"%string, VSlice (VUint <$> (SetCrosschainVaults_ChainSelectors i)));
      ("vaults"%string, VSlice (VFixed <$> (SetCrosschainVaults_Vaults i)))])
  | CSetDefaultCcipGasLimit i => ("setDefaultCcipGasLimit"%string, [
      ("gasLimit"%string, VBig (SetDefaultCcipGasLimit_GasLimit i))])
  | CSetInitialActiveProtocolAdapter i => ("setInitialActiveProtocolAdapter"%string, [
      ("protocolId"%string, VFixed (SetInitialActiveProtocolAdapter_ProtocolId i))])
  | CSetSupportedProtocol i => ("setSupportedProtocol"%string, [
      ("protocolId"%string, VFixed (SetSupportedProtocol_ProtocolId i));
      ("isSupported"%string, VBool (SetSupportedProtocol_IsSupported i))])
  | CSetTreasury i => ("setTreasury"%string, [("treasury"%string, VFixed (SetTreasury_Treasury i))])
  | CSupportsInterface i => ("supportsInterface"%string, [
      ("interfaceId"%string, VFixed (SupportsInterface_InterfaceId i))])
  | CTryDepositToAdapter i => ("tryDepositToAdapter"%string, [
      ("adapter"%string, VFixed (TryDepositToAdapter_Adapter i));
      ("amount"%string, VBig (TryDepositToAdapter_Amount i))])
  | CUnpause => ("unpause"%string, [])
  | CUpgradeToAndCall i => ("upgradeToAndCall"%string, [
      ("newImplementation"%string, VFixed (UpgradeToAndCall_NewImplementation i));
      ("data"%string, VBytes (UpgradeToAndCall_Data i))])
  | CWithdraw i => ("withdraw"%string, [
      ("shareBurnAmount"%string, VBig (Withdraw_ShareBurnAmount i))])
  | CWithdrawFor i => ("withdrawFor"%string, [
      ("beneficiary"%string, VFixed (WithdrawFor_Beneficiary i));
      ("shareBurnAmount"%string, VBig (WithdrawFor_ShareBurnAmount i))])
  | CWithdrawLink i => ("withdrawLink"%string, [("amount"%string, VBig (WithdrawLink_Amount i))])
  end.
Definition encode_call `{GoEthereum} (c : Codec) (x : vault_call) : res bytes :=
  match x with
  | CDEFAULTADMINROLE => EncodeDEFAULTADMINROLEMethodCall c
  | CUPGRADEINTERFACEVERSION => EncodeUPGRADEINTERFACEVERSIONMethodCall c
  | CAcceptDefaultAdminTransfer => EncodeAcceptDefaultAdminTransferMethodCall c
  | CBeginDefaultAdminTransfer i => EncodeBeginDefaultAdminTransferMethodCall c i
  | CCancelDefaultAdminTransfer => EncodeCancelDefaultAdminTransferMethodCall c
  | CCancelDeposit => EncodeCancelDepositMethodCall c
  | CCancelWithdraw => EncodeCancelWithdrawMethodCall c
  | CCcipReceive i => EncodeCcipReceiveMethodCall c i
  | CChangeDefaultAdminDelay i => EncodeChangeDefaultAdminDelayMethodCall c i
  | CClaimAsset i => EncodeClaimAssetMethodCall c i
  | CClaimAssetFor i => EncodeClaimAssetForMethodCall c i
  | CClaimShares i => EncodeClaimSharesMethodCall c i
  | CClaimSharesFor i => EncodeClaimSharesForMethodCall c i
  | CCloseEpoch i => EncodeCloseEpochMethodCall c i
  | CCompleteEpochDeposit i => EncodeCompleteEpochDepositMethodCall c i
  | CCompleteRebalance i => EncodeCompleteRebalanceMethodCall c i
  | CDefaultAdmin => EncodeDefaultAdminMethodCall c
  | CDefaultAdminDelay => EncodeDefaultAdminDelayMethodCall c
  | CDefaultAdminDelayIncreaseWait => EncodeDefaultAdminDelayIncreaseWaitMethodCall c
  | CDeposit i => EncodeDepositMethodCall c i
  | CDepositFor i => EncodeDepositForMethodCall c i
  | CExecuteRecovery => EncodeExecuteRecoveryMethodCall c
  | CForceCancelDeposit i => EncodeForceCancelDepositMethodCall c i
  | CGetActiveProtocolAdapter => EncodeGetActiveProtocolAdapterMethodCall c
  | CGetAdapterRegistry => EncodeGetAdapterRegistryMethodCall c
  | CGetAllowlistEnabled => EncodeGetAllowlistEnabledMethodCall c
  | CGetAllowlistedUser i => EncodeGetAllowlistedUserMethodCall c i
  | CGetAsset => EncodeGetAssetMethodCall c
  | CGetAssetPrecision => EncodeGetAssetPrecisionMethodCall c
  | CGetCCVsAndFinalityConfig i => EncodeGetCCVsAndFinalityConfigMethodCall c i
  | CGetCcipGasLimit i => EncodeGetCcipGasLimitMethodCall c i
  | CGetCrosschainVault i => EncodeGetCrosschainVaultMethodCall c i
  | CGetDefaultCcipGasLimit => EncodeGetDefaultCcipGasLimitMethodCall c
  | CGetDepositAmount i => EncodeGetDepositAmountMethodCall c i
  | CGetEpoch i => EncodeGetEpochMethodCall c i
  | CGetEpochNonce => EncodeGetEpochNonceMethodCall c
  | CGetInitialActiveProtocolAdapterSet => EncodeGetInitialActiveProtocolAdapterSetMethodCall c
  | CGetLink => EncodeGetLinkMethodCall c
  | CGetMinAssetAmount => EncodeGetMinAssetAmountMethodCall c
  | CGetParentOperationalState => EncodeGetParentOperationalStateMethodCall c
  | CGetRebalance => EncodeGetRebalanceMethodCall c
  | CGetRebalanceDepositRecovery => EncodeGetRebalanceDepositRecoveryMethodCall c
  | CGetRecoveryMode => EncodeGetRecoveryModeMethodCall c
  | CGetRoleAdmin i => EncodeGetRoleAdminMethodCall c i
  | CGetRouter => EncodeGetRouterMethodCall c
  | CGetShare => EncodeGetShareMethodCall c
  | CGetSharePrecision => EncodeGetSharePrecisionMethodCall c
  | CGetSupportedProtocol i => EncodeGetSupportedProtocolMethodCall c i
  | CGetTVL => EncodeGetTVLMethodCall c
  | CGetThisChainSelector => EncodeGetThisChainSelectorMethodCall c
  | CGetTotalShares => EncodeGetTotalSharesMethodCall c
  | CGetTreasury => EncodeGetTreasuryMethodCall c
  | CGetWithdrawShareBurnAmount i => EncodeGetWithdrawShareBurnAmountMethodCall c i
  | CGrantRole i => EncodeGrantRoleMethodCall c i
  | CHasRole i => EncodeHasRoleMethodCall c i
  | CInitialize i => EncodeInitializeMethodCall c i
  | CInitiateRebalance i => EncodeInitiateRebalanceMethodCall c i
  | COwner => EncodeOwnerMethodCall c
  | CPause => EncodePauseMethodCall c
  | CPaused => EncodePausedMethodCall c
  | CPendingDefaultAdmin => EncodePendingDefaultAdminMethodCall c
  | CPendingDefaultAdminDelay => EncodePendingDefaultAdminDelayMethodCall c
  | CProxiableUUID => EncodeProxiableUUIDMethodCall c
  | CRenounceRole i => EncodeRenounceRoleMethodCall c i
  | CRevokeRole i => EncodeRevokeRoleMethodCall c i
  | CRollbackDefaultAdminDelay => EncodeRollbackDefaultAdminDelayMethodCall c
  | CSetAllowlistEnabled i => EncodeSetAllowlistEnabledMethodCall c i
  | CSetAllowlistedUsers i => EncodeSetAllowlistedUsersMethodCall c i
  | CSetCcipGasLimit i => EncodeSetCcipGasLimitMethodCall c i
  | CSetCrosschainVaults i => EncodeSetCrosschainVaultsMethodCall c i
  | CSetDefaultCcipGasLimit i => EncodeSetDefaultCcipGasLimitMethodCall c i
  | CSetInitialActiveProtocolAdapter i => EncodeSetInitialActiveProtocolAdapterMethodCall c i
  | CSetSupportedProtocol i => EncodeSetSupportedProtocolMethodCall c i
  | CSetTreasury i => EncodeSetTreasuryMethodCall c i
  | CSupportsInterface i => EncodeSupportsInterfaceMethodCall c i
  | CTryDepositToAdapter i => EncodeTryDepositToAdapterMethodCall c i
  | CUnpause => EncodeUnpauseMethodCall c
  | CUpgradeToAndCall i => EncodeUpgradeToAndCallMethodCall c i
  | CWithdraw i => EncodeWithdrawMethodCall c i
  | CWithdrawFor i => EncodeWithdrawForMethodCall c i
  | CWithdrawLink i => EncodeWithdrawLinkMethodCall c i
  end.

Inductive vault_output : Type :=
| ODEFAULTADMINROLE (v : bytes)
| OUPGRADEINTERFACEVERSION (v : string)
| OClaimAsset (v : bigint)
| OClaimAssetFor (v : bigint)
| OClaimShares (v : bigint)
| OClaimSharesFor (v : bigint)
| ODefaultAdmin (v : Address)
| ODefaultAdminDelay (v : bigint)
| ODefaultAdminDelayIncreaseWait (v : bigint)
| ODeposit (v : bigint)
| ODepositFor (v : bigint)
| OGetActiveProtocolAdapter (v : Address)
| OGetAdapterRegistry (v : Address)
| OGetAllowlistEnabled (v : bool)
| OGetAllowlistedUser (v : bool)
| OGetAsset (v : Address)
| OGetAssetPrecision (v : bigint)
| OGetCCVsAndFinalityConfig (v : GetCCVsAndFinalityConfigOutput)
| OGetCcipGasLimit (v : bigint)
| OGetCrosschainVault (v : Address)
| OGetDefaultCcipGasLimit (v : bigint)
| OGetDepositAmount (v : bigint)
| OGetEpoch (v : TypesEpoch)
| OGetEpochNonce (v : bigint)
| OGetInitialActiveProtocolAdapterSet (v : bool)
| OGetLink (v : Address)
| OGetMinAssetAmount (v : bigint)
| OGetParentOperationalState (v : TypesParentOperationalState)
| OGetRebalance (v : TypesRebalance)
| OGetRebalanceDepositRecovery (v : TypesRebalanceDepositRecovery)
| OGetRecoveryMode (v : Z)
| OGetRoleAdmin (v : bytes)
| OGetRouter (v : Address)
| OGetShare (v : Address)
| OGetSharePrecision (v : bigint)
| OGetSupportedProtocol (v : bool)
| OGetTVL (v : bigint)
| OGetThisChainSelector (v : Z)
| OGetTotalShares (v : bigint)
| OGetTreasury (v : Address)
| OGetWithdrawShareBurnAmount (v : bigint)
| OHasRole (v : bool)
| OOwner (v : Address)
| OPaused (v : bool)
| OPendingDefaultAdmin (v : PendingDefaultAdminOutput)
| OPendingDefaultAdminDelay (v : PendingDefaultAdminDelayOutput)
| OProxiableUUID (v : bytes)
| OSupportsInterface (v : bool)
| OWithdraw (v : bigint)
| OWithdrawFor (v : bigint).

(** The ABI name of the method and its output values. *)
Definition output_values_of (x : vault_output) : string * list abi_value :=
  match x with
  | ODEFAULTADMINROLE v => ("DEFAULT_ADMIN_ROLE"%string, [VFixed v])
  | OUPGRADEINTERFACEVERSION v => ("UPGRADE_INTERFACE_VERSION"%string, [VString v])
  | OClaimAsset v => ("claimAsset"%string, [VBig v])
  | OClaimAssetFor v => ("claimAssetFor"%string, [VBig v])
  | OClaimShares v => ("claimShares"%string, [VBig v])
  | OClaimSharesFor v => ("claimSharesFor"%string, [VBig v])
  | ODefaultAdmin v => ("defaultAdmin"%string, [VFixed v])
  | ODefaultAdminDelay v => ("defaultAdminDelay"%string, [VBig v])
  | ODefaultAdminDelayIncreaseWait v => ("defaultAdminDelayIncreaseWait"%string, [VBig v])
  | ODeposit v => ("deposit"%string, [VBig v])
  | ODepositFor v => ("depositFor"%string, [VBig v])
  | OGetActiveProtocolAdapter v => ("getActiveProtocolAdapter"%string, [VFixed v])
  | OGetAdapterRegistry v => ("getAdapterRegistry"%string, [VFixed v])
  | OGetAllowlistEnabled v => ("getAllowlistEnabled"%string, [VBool v])
  | OGetAllowlistedUser v => ("getAllowlistedUser"%string, [VBool v])
  | OGetAsset v => ("getAsset"%string, [VFixed v])
  | OGetAssetPrecision v => ("getAssetPrecision"%string, [VBig v])
  | OGetCCVsAndFinalityConfig v => ("getCCVsAndFinalityConfig"%string, [
      VSlice (VFixed <$> (GetCCVsAndFinalityConfigOutput_RequiredCCVs v));
      VSlice (VFixed <$> (GetCCVsAndFinalityConfigOutput_OptionalCCVs v));
      VUint (GetCCVsAndFinalityConfigOutput_OptionalThreshold v);
      VFixed (GetCCVsAndFinalityConfigOutput_AllowedFinalityConfig v)])
  | OGetCcipGasLimit v => ("getCcipGasLimit"%string, [VBig v])
  | OGetCrosschainVault v => ("getCrosschainVault"%string, [VFixed v])
  | OGetDefaultCcipGasLimit v => ("getDefaultCcipGasLimit"%string, [VBig v])
  | OGetDepositAmount v => ("getDepositAmount"%string, [VBig v])
  | OGetEpoch v => ("getEpoch"%string, [TypesEpoch_value v])
  | OGetEpochNonce v => ("getEpochNonce"%string, [VBig v])
  | OGetInitialActiveProtocolAdapterSet v => ("getInitialActiveProtocolAdapterSet"%string, [
      VBool v])
  | OGetLink v => ("getLink"%string, [VFixed v])
  | OGetMinAssetAmount v => ("getMinAssetAmount"%string, [VBig v])
  | OGetParentOperationalState v => ("getParentOperationalState"%string, [
      TypesParentOperationalState_value v])
  | OGetRebalance v => ("getRebalance"%string, [TypesRebalance_value v])
  | OGetRebalanceDepositRecovery v => ("getRebalanceDepositRecovery"%string, [
      TypesRebalanceDepositRecovery_value v])
  | OGetRecoveryMode v => ("getRecoveryMode"%string, [VUint v])
  | OGetRoleAdmin v => ("getRoleAdmin"%string, [VFixed v])
  | OGetRouter v => ("getRouter"%string, [VFixed v])
  | OGetShare v => ("getShare"%string, [VFixed v])
  | OGetSharePrecision v => ("getSharePrecision"%string, [VBig v])
  | OGetSupportedProtocol v => ("getSupportedProtocol"%string, [VBool v])
  | OGetTVL v => ("getTVL"%string, [VBig v])
  | OGetThisChainSelector v => ("getThisChainSelector"%string, [VUint v])
  | OGetTotalShares v => ("getTotalShares"%string, [VBig v])
  | OGetTreasury v => ("getTreasury"%string, [VFixed v])
  | OGetWithdrawShareBurnAmount v => ("getWithdrawShareBurnAmount"%string, [VBig v])
  | OHasRole v => ("hasRole"%string, [VBool v])
  | OOwner v => ("owner"%string, [VFixed v])
  | OPaused v => ("paused"%string, [VBool v])
  | OPendingDefaultAdmin v => ("pendingDefaultAdmin"%string, [
      VFixed (PendingDefaultAdminOutput_NewAdmin v); VBig (PendingDefaultAdminOutput_Schedule v)])
  | OPendingDefaultAdminDelay v => ("pendingDefaultAdminDelay"%string, [
      VBig (PendingDefaultAdminDelayOutput_NewDelay v);
      VBig (PendingDefaultAdminDelayOutput_Schedule v)])
  | OProxiableUUID v => ("proxiableUUID"%string, [VFixed v])
  | OSupportsInterface v => ("supportsInterface"%string, [VBool v])
  | OWithdraw v => ("withdraw"%string, [VBig v])
  | OWithdrawFor v => ("withdrawFor"%string, [VBig v])
  end.

(** Decoding with the decoder of the method that [x] is an output of. *)
Definition decode_like `{GoEthereum} (x : vault_output) (c : Codec) (data : bytes)
    : res vault_output :=
  match x with
  | ODEFAULTADMINROLE _ => ODEFAULTADMINROLE <$> DecodeDEFAULTADMINROLEMethodOutput c data
  | OUPGRADEINTERFACEVERSION _ => OUPGRADEINTERFACEVERSION <$> DecodeUPGRADEINTERFACEVERSIONMethodOutput c data
  | OClaimAsset _ => OClaimAsset <$> DecodeClaimAssetMethodOutput c data
  | OClaimAssetFor _ => OClaimAssetFor <$> DecodeClaimAssetForMethodOutput c data
  | OClaimShares _ => OClaimShares <$> DecodeClaimSharesMethodOutput c data
  | OClaimSharesFor _ => OClaimSharesFor <$> DecodeClaimSharesForMethodOutput c data
  | ODefaultAdmin _ => ODefaultAdmin <$> DecodeDefaultAdminMethodOutput c data
  | ODefaultAdminDelay _ => ODefaultAdminDelay <$> DecodeDefaultAdminDelayMethodOutput c data
  | ODefaultAdminDelayIncreaseWait _ => ODefaultAdminDelayIncreaseWait <$> DecodeDefaultAdminDelayIncreaseWaitMethodOutput c data
  | ODeposit _ => ODeposit <$> DecodeDepositMethodOutput c data
  | ODepositFor _ => ODepositFor <$> DecodeDepositForMethodOutput c data
  | OGetActiveProtocolAdapter _ => OGetActiveProtocolAdapter <$> DecodeGetActiveProtocolAdapterMethodOutput c data
  | OGetAdapterRegistry _ => OGetAdapterRegistry <$> DecodeGetAdapterRegistryMethodOutput c data
  | OGetAllowlistEnabled _ => OGetAllowlistEnabled <$> DecodeGetAllowlistEnabledMethodOutput c data
  | OGetAllowlistedUser _ => OGetAllowlistedUser <$> DecodeGetAllowlistedUserMethodOutput c data
  | OGetAsset _ => OGetAsset <$> DecodeGetAssetMethodOutput c data
  | OGetAssetPrecision _ => OGetAssetPrecision <$> DecodeGetAssetPrecisionMethodOutput c data
  | OGetCCVsAndFinalityConfig _ => OGetCCVsAndFinalityConfig <$> DecodeGetCCVsAndFinalityConfigMethodOutput c data
  | OGetCcipGasLimit _ => OGetCcipGasLimit <$> DecodeGetCcipGasLimitMethodOutput c data
  | OGetCrosschainVault _ => OGetCrosschainVault <$> DecodeGetCrosschainVaultMethodOutput c data
  | OGetDefaultCcipGasLimit _ => OGetDefaultCcipGasLimit <$> DecodeGetDefaultCcipGasLimitMethodOutput c data
  | OGetDepositAmount _ => OGetDepositAmount <$> DecodeGetDepositAmountMethodOutput c data
  | OGetEpoch _ => OGetEpoch <$> DecodeGetEpochMethodOutput c data
  | OGetEpochNonce _ => OGetEpochNonce <$> DecodeGetEpochNonceMethodOutput c data
  | OGetInitialActiveProtocolAdapterSet _ => OGetInitialActiveProtocolAdapterSet <$> DecodeGetInitialActiveProtocolAdapterSetMethodOutput c data
  | OGetLink _ => OGetLink <$> DecodeGetLinkMethodOutput c data
  | OGetMinAssetAmount _ => OGetMinAssetAmount <$> DecodeGetMinAssetAmountMethodOutput c data
  | OGetParentOperationalState _ => OGetParentOperationalState <$> DecodeGetParentOperationalStateMethodOutput c data
  | OGetRebalance _ => OGetRebalance <$> DecodeGetRebalanceMethodOutput c data
  | OGetRebalanceDepositRecovery _ => OGetRebalanceDepositRecovery <$> DecodeGetRebalanceDepositRecoveryMethodOutput c data
  | OGetRecoveryMode _ => OGetRecoveryMode <$> DecodeGetRecoveryModeMethodOutput c data
  | OGetRoleAdmin _ => OGetRoleAdmin <$> DecodeGetRoleAdminMethodOutput c data
  | OGetRouter _ => OGetRouter <$> DecodeGetRouterMethodOutput c data
  | OGetShare _ => OGetShare <$> DecodeGetShareMethodOutput c data
  | OGetSharePrecision _ => OGetSharePrecision <$> DecodeGetSharePrecisionMethodOutput c data
  | OGetSupportedProtocol _ => OGetSupportedProtocol <$> DecodeGetSupportedProtocolMethodOutput c data
  | OGetTVL _ => OGetTVL <$> DecodeGetTVLMethodOutput c data
  | OGetThisChainSelector _ => OGetThisChainSelector <$> DecodeGetThisChainSelectorMethodOutput c data
  | OGetTotalShares _ => OGetTotalShares <$> DecodeGetTotalSharesMethodOutput c data
  | OGetTreasury _ => OGetTreasury <$> DecodeGetTreasuryMethodOutput c data
  | OGetWithdrawShareBurnAmount _ => OGetWithdrawShareBurnAmount <$> DecodeGetWithdrawShareBurnAmountMethodOutput c data
  | OHasRole _ => OHasRole <$> DecodeHasRoleMethodOutput c data
  | OOwner _ => OOwner <$> DecodeOwnerMethodOutput c data
  | OPaused _ => OPaused <$> DecodePausedMethodOutput c data
  | OPendingDefaultAdmin _ => OPendingDefaultAdmin <$> DecodePendingDefaultAdminMethodOutput c data
  | OPendingDefaultAdminDelay _ => OPendingDefaultAdminDelay <$> DecodePendingDefaultAdminDelayMethodOutput c data
  | OProxiableUUID _ => OProxiableUUID <$> DecodeProxiableUUIDMethodOutput c data
  | OSupportsInterface _ => OSupportsInterface <$> DecodeSupportsInterfaceMethodOutput c data
  | OWithdraw _ => OWithdraw <$> DecodeWithdrawMethodOutput c data
  | OWithdrawFor _ => OWithdrawFor <$> DecodeWithdrawForMethodOutput c data
  end.

Inductive vault_read : Type :=
| RDEFAULTADMINROLE
| RUPGRADEINTERFACEVERSION
| RDefaultAdmin
| RDefaultAdminDelay
| RDefaultAdminDelayIncreaseWait
| RGetActiveProtocolAdapter
| RGetAdapterRegistry
| RGetAllowlistEnabled
| RGetAllowlistedUser (i : GetAllowlistedUserInput)
| RGetAsset
| RGetAssetPrecision
| RGetCCVsAndFinalityConfig (i : GetCCVsAndFinalityConfigInput)
| RGetCcipGasLimit (i : GetCcipGasLimitInput)
| RGetCrosschainVault (i : GetCrosschainVaultInput)
| RGetDefaultCcipGasLimit
| RGetDepositAmount (i : GetDepositAmountInput)
| RGetEpoch (i : GetEpochInput)
| RGetEpochNonce
| RGetInitialActiveProtocolAdapterSet
| RGetLink
| RGetMinAssetAmount
| RGetParentOperationalState
| RGetRebalance
| RGetRebalanceDepositRecovery
| RGetRecoveryMode
| RGetRoleAdmin (i : GetRoleAdminInput)
| RGetRouter
| RGetShare
| RGetSupportedProtocol (i : GetSupportedProtocolInput)
| RGetTVL
| RGetThisChainSelector
| RGetTotalShares
| RGetTreasury
| RGetWithdrawShareBurnAmount (i : GetWithdrawShareBurnAmountInput)
| RHasRole (i : HasRoleInput)
| ROwner
| RPaused
| RPendingDefaultAdmin
| RPendingDefaultAdminDelay
| RProxiableUUID.
Definition call_of (r : vault_read) : vault_call :=
  match r with
  | RDEFAULTADMINROLE => CDEFAULTADMINROLE
  | RUPGRADEINTERFACEVERSION => CUPGRADEINTERFACEVERSION
  | RDefaultAdmin => CDefaultAdmin
  | RDefaultAdminDelay => CDefaultAdminDelay
  | RDefaultAdminDelayIncreaseWait => CDefaultAdminDelayIncreaseWait
  | RGetActiveProtocolAdapter => CGetActiveProtocolAdapter
  | RGetAdapterRegistry => CGetAdapterRegistry
  | RGetAllowlistEnabled => CGetAllowlistEnabled
  | RGetAllowlistedUser i => CGetAllowlistedUser i
  | RGetAsset => CGetAsset
  | RGetAssetPrecision => CGetAssetPrecision
  | RGetCCVsAndFinalityConfig i => CGetCCVsAndFinalityConfig i
  | RGetCcipGasLimit i => CGetCcipGasLimit i
  | RGetCrosschainVault i => CGetCrosschainVault i
  | RGetDefaultCcipGasLimit => CGetDefaultCcipGasLimit
  | RGetDepositAmount i => CGetDepositAmount i
  | RGetEpoch i => CGetEpoch i
  | RGetEpochNonce => CGetEpochNonce
  | RGetInitialActiveProtocolAdapterSet => CGetInitialActiveProtocolAdapterSet
  | RGetLink => CGetLink
  | RGetMinAssetAmount => CGetMinAssetAmount
  | RGetParentOperationalState => CGetParentOperationalState
  | RGetRebalance => CGetRebalance
  | RGetRebalanceDepositRecovery => CGetRebalanceDepositRecovery
  | RGetRecoveryMode => CGetRecoveryMode
  | RGetRoleAdmin i => CGetRoleAdmin i
  | RGetRouter => CGetRouter
  | RGetShare => CGetShare
  | RGetSupportedProtocol i => CGetSupportedProtocol i
  | RGetTVL => CGetTVL
  | RGetThisChainSelector => CGetThisChainSelector
  | RGetTotalShares => CGetTotalShares
  | RGetTreasury => CGetTreasury
  | RGetWithdrawShareBurnAmount i => CGetWithdrawShareBurnAmount i
  | RHasRole i => CHasRole i
  | ROwner => COwner
  | RPaused => CPaused
  | RPendingDefaultAdmin => CPendingDefaultAdmin
  | RPendingDefaultAdminDelay => CPendingDefaultAdminDelay
  | RProxiableUUID => CProxiableUUID
  end.
Definition read `{GoEthereum} {R} (c : ParentVault) (r : vault_read) (bn : bigint)
    : prog (cre_eff R) vault_output :=
  match r with
  | RDEFAULTADMINROLE => v ← DEFAULTADMINROLE c bn; Ret (ODEFAULTADMINROLE v)
  | RUPGRADEINTERFACEVERSION => v ← UPGRADEINTERFACEVERSION c bn; Ret (OUPGRADEINTERFACEVERSION v)
  | RDefaultAdmin => v ← DefaultAdmin c bn; Ret (ODefaultAdmin v)
  | RDefaultAdminDelay => v ← DefaultAdminDelay c bn; Ret (ODefaultAdminDelay v)
  | RDefaultAdminDelayIncreaseWait => v ← DefaultAdminDelayIncreaseWait c bn; Ret (ODefaultAdminDelayIncreaseWait v)
  | RGetActiveProtocolAdapter => v ← GetActiveProtocolAdapter c bn; Ret (OGetActiveProtocolAdapter v)
  | RGetAdapterRegistry => v ← GetAdapterRegistry c bn; Ret (OGetAdapterRegistry v)
  | RGetAllowlistEnabled => v ← GetAllowlistEnabled c bn; Ret (OGetAllowlistEnabled v)
  | RGetAllowlistedUser i => v ← GetAllowlistedUser c i bn; Ret (OGetAllowlistedUser v)
  | RGetAsset => v ← GetAsset c bn; Ret (OGetAsset v)
  | RGetAssetPrecision => v ← GetAssetPrecision c bn; Ret (OGetAssetPrecision v)
  | RGetCCVsAndFinalityConfig i => v ← GetCCVsAndFinalityConfig c i bn; Ret (OGetCCVsAndFinalityConfig v)
  | RGetCcipGasLimit i => v ← GetCcipGasLimit c i bn; Ret (OGetCcipGasLimit v)
  | RGetCrosschainVault i => v ← GetCrosschainVault c i bn; Ret (OGetCrosschainVault v)
  | RGetDefaultCcipGasLimit => v ← GetDefaultCcipGasLimit c bn; Ret (OGetDefaultCcipGasLimit v)
  | RGetDepositAmount i => v ← GetDepositAmount c i bn; Ret (OGetDepositAmount v)
  | RGetEpoch i => v ← GetEpoch c i bn; Ret (OGetEpoch v)
  | RGetEpochNonce => v ← GetEpochNonce c bn; Ret (OGetEpochNonce v)
  | RGetInitialActiveProtocolAdapterSet => v ← GetInitialActiveProtocolAdapterSet c bn; Ret (OGetInitialActiveProtocolAdapterSet v)
  | RGetLink => v ← GetLink c bn; Ret (OGetLink v)
  | RGetMinAssetAmount => v ← GetMinAssetAmount c bn; Ret (OGetMinAssetAmount v)
  | RGetParentOperationalState => v ← GetParentOperationalState c bn; Ret (OGetParentOperationalState v)
  | RGetRebalance => v ← GetRebalance c bn; Ret (OGetRebalance v)
  | RGetRebalanceDepositRecovery => v ← GetRebalanceDepositRecovery c bn; Ret (OGetRebalanceDepositRecovery v)
  | RGetRecoveryMode => v ← GetRecoveryMode c bn; Ret (OGetRecoveryMode v)
  | RGetRoleAdmin i => v ← GetRoleAdmin c i bn; Ret (OGetRoleAdmin v)
  | RGetRouter => v ← GetRouter c bn; Ret (OGetRouter v)
  | RGetShare => v ← GetShare c bn; Ret (OGetShare v)
  | RGetSupportedProtocol i => v ← GetSupportedProtocol c i bn; Ret (OGetSupportedProtocol v)
  | RGetTVL => v ← GetTVL c bn; Ret (OGetTVL v)
  | RGetThisChainSelector => v ← GetThisChainSelector c bn; Ret (OGetThisChainSelector v)
  | RGetTotalShares => v ← GetTotalShares c bn; Ret (OGetTotalShares v)
  | RGetTreasury => v ← GetTreasury c bn; Ret (OGetTreasury v)
  | RGetWithdrawShareBurnAmount i => v ← GetWithdrawShareBurnAmount c i bn; Ret (OGetWithdrawShareBurnAmount v)
  | RHasRole i => v ← HasRole c i bn; Ret (OHasRole v)
  | ROwner => v ← Owner c bn; Ret (OOwner v)
  | RPaused => v ← Paused c bn; Ret (OPaused v)
  | RPendingDefaultAdmin => v ← PendingDefaultAdmin c bn; Ret (OPendingDefaultAdmin v)
  | RPendingDefaultAdminDelay => v ← PendingDefaultAdminDelay c bn; Ret (OPendingDefaultAdminDelay v)
  | RProxiableUUID => v ← ProxiableUUID c bn; Ret (OProxiableUUID v)
  end.

Inductive vault_struct : Type :=
| SBaseVaultConstructorParams (s : BaseVaultConstructorParams)
| SBaseVaultInitParams (s : BaseVaultInitParams)
| SClientAny2EVMMessage (s : ClientAny2EVMMessage)
| SClientEVMTokenAmount (s : ClientEVMTokenAmount)
| STypesEpoch (s : TypesEpoch)
| STypesParentOperationalState (s : TypesParentOperationalState)
| STypesRebalance (s : TypesRebalance)
| STypesRebalanceDepositRecovery (s : TypesRebalanceDepositRecovery)
| STypesStrategy (s : TypesStrategy).
Definition struct_type (x : vault_struct) : sol_type :=
  match x with
  | SBaseVaultConstructorParams _ => BaseVaultConstructorParams_type
  | SBaseVaultInitParams _ => BaseVaultInitParams_type
  | SClientAny2EVMMessage _ => ClientAny2EVMMessage_type
  | SClientEVMTokenAmount _ => ClientEVMTokenAmount_type
  | STypesEpoch _ => TypesEpoch_type
  | STypesParentOperationalState _ => TypesParentOperationalState_type
  | STypesRebalance _ => TypesRebalance_type
  | STypesRebalanceDepositRecovery _ => TypesRebalanceDepositRecovery_type
  | STypesStrategy _ => TypesStrategy_type
  end.
Definition struct_value (x : vault_struct) : abi_value :=
  match x with
  | SBaseVaultConstructorParams s => BaseVaultConstructorParams_value s
  | SBaseVaultInitParams s => BaseVaultInitParams_value s
  | SClientAny2EVMMessage s => ClientAny2EVMMessage_value s
  | SClientEVMTokenAmount s => ClientEVMTokenAmount_value s
  | STypesEpoch s => TypesEpoch_value s
  | STypesParentOperationalState s => TypesParentOperationalState_value s
  | STypesRebalance s => TypesRebalance_value s
  | STypesRebalanceDepositRecovery s => TypesRebalanceDepositRecovery_value s
  | STypesStrategy s => strategy_value s
  end.
Definition encode_vault_struct `{GoAbiTypes} (x : vault_struct) : res bytes :=
  match x with
  | SBaseVaultConstructorParams s => EncodeBaseVaultConstructorParamsStruct s
  | SBaseVaultInitParams s => EncodeBaseVaultInitParamsStruct s
  | SClientAny2EVMMessage s => EncodeClientAny2EVMMessageStruct s
  | SClientEVMTokenAmount s => EncodeClientEVMTokenAmountStruct s
  | STypesEpoch s => EncodeTypesEpochStruct s
  | STypesParentOperationalState s => EncodeTypesParentOperationalStateStruct s
  | STypesRebalance s => EncodeTypesRebalanceStruct s
  | STypesRebalanceDepositRecovery s => EncodeTypesRebalanceDepositRecoveryStruct s
  | STypesStrategy s => EncodeTypesStrategyStruct s
  end.
Definition write_struct `{GoAbiTypes} {R} (c : ParentVault) (x : vault_struct)
    (gasConfig : option GasConfig) : prog (cre_eff R) (option WriteReportReply) :=
  match x with
  | SBaseVaultConstructorParams s => WriteReportFromBaseVaultConstructorParams c s gasConfig
  | SBaseVaultInitParams s => WriteReportFromBaseVaultInitParams c s gasConfig
  | SClientAny2EVMMessage s => WriteReportFromClientAny2EVMMessage c s gasConfig
  | SClientEVMTokenAmount s => WriteReportFromClientEVMTokenAmount c s gasConfig
  | STypesEpoch s => WriteReportFromTypesEpoch c s gasConfig
  | STypesParentOperationalState s => WriteReportFromTypesParentOperationalState c s gasConfig
  | STypesRebalance s => WriteReportFromTypesRebalance c s gasConfig
  | STypesRebalanceDepositRecovery s => WriteReportFromTypesRebalanceDepositRecovery c s gasConfig
  | STypesStrategy s => WriteReportFromTypesStrategy c s gasConfig
  end.

(** ** Correctness *)

(** The values of an output have the types of the metadata. *)
Definition typed_output (x : vault_output) : Prop :=
  Forall2 (λ v o, has_sol_type o.2 v) (output_values_of x).2
    (Method_Outputs (method_of methods (output_values_of x).1)).

Lemma parent_TypesStrategy_value ty s :
  has_sol_type TypesStrategy_type (strategy_value s) →
  as_struct ty (decode_strategy ty)
    (Some (strategy_value s)) = Ok s.
Proof. unfold TypesStrategy_type. destruct s. decoded_struct. Qed.
#[local] Hint Resolve parent_TypesStrategy_value : decoded.

Lemma parent_TypesEpoch_value ty s :
  has_sol_type TypesEpoch_type (TypesEpoch_value s) →
  as_struct ty (decode_epoch ty)
    (Some (TypesEpoch_value s)) = Ok s.
Proof. unfold TypesEpoch_type. destruct s. decoded_struct. Qed.
#[local] Hint Resolve parent_TypesEpoch_value : decoded.

Lemma parent_TypesRebalance_value ty s :
  has_sol_type TypesRebalance_type (TypesRebalance_value s) →
  as_struct ty (decode_rebalance ty)
    (Some (TypesRebalance_value s)) = Ok s.
Proof. unfold TypesRebalance_type. destruct s. decoded_struct. Qed.
#[local] Hint Resolve parent_TypesRebalance_value : decoded.

Lemma parent_TypesRebalanceDepositRecovery_value ty s :
  has_sol_type TypesRebalanceDepositRecovery_type (TypesRebalanceDepositRecovery_value s) →
  as_struct ty (decode_TypesRebalanceDepositRecovery ty)
    (Some (TypesRebalanceDepositRecovery_value s)) = Ok s.
Proof. unfold TypesRebalanceDepositRecovery_type. destruct s. decoded_struct. Qed.
#[local] Hint Resolve parent_TypesRebalanceDepositRecovery_value : decoded.

Lemma parent_state_value s :
  has_sol_type TypesParentOperationalState_type (TypesParentOperationalState_value s) →
  as_struct state_type decode_state
    (Some (TypesParentOperationalState_value s)) = Ok s.
Proof. unfold TypesParentOperationalState_type. destruct s. decoded_struct. Qed.
#[local] Hint Resolve parent_state_value : decoded.

Lemma parent_output `{GoEthereum} x c data :
  typed_output x →
  abi_UnpackOutput (codec_abi c) (output_values_of x).1 data = Ok (output_values_of x).2 →
  decode_like x c data = Ok x.
Proof.
  unfold typed_output. destruct x; cbn [output_values_of decode_like fst snd].
  all: first [output_case | destruct v; output_case].
Qed.

(** C31: every [Encode<M>MethodCall] of the parent vault packs the method [M] of the
    metadata, with the fields of its input struct in the order of the metadata's
    inputs, each under the metadata's name and in the Go representation of the
    metadata's type. *)
Theorem ParentCalls_abi `{GoEthereum} c x :
  encode_call c x = abi_Pack (codec_abi c) (describe x).1 (describe x).2.*2 ∧
  (describe x).2.*1 = (Method_Inputs (method_of methods (describe x).1)).*1 ∧
  Forall2 (λ v i, has_shape i.2 v = true) (describe x).2.*2
    (Method_Inputs (method_of methods (describe x).1)).
Proof. destruct x; cbn [encode_call describe fst snd fmap list_fmap]; shape_case. Qed.

(** A read that the node answers. *)
Lemma parent_read_answered `{GoEthereum} {R} (o : oracle (cre_eff R)) c r x bn data answer :
  (describe (call_of r)).1 = (output_values_of x).1 → typed_output x →
  encode_call (vault_Codec c) (call_of r) = Ok data →
  abi_UnpackOutput (codec_abi (vault_Codec c)) (output_values_of x).1 answer =
    Ok (output_values_of x).2 →
  let request := mkCallContractRequest (vault_Address c) data (default FinalizedBlockNumber bn) in
  o [] _ (ECallContract (vault_client c) request) = Reply (Some answer) →
  run o [] (read c r bn) =
    ([Step _ (ECallContract (vault_client c) request) (Reply (Some answer))], Ok x).
Proof.
  intros Hm Hty Hdata Hu request Ho.
  pose proof (parent_output x (vault_Codec c) answer Hty Hu) as Hd. clear Hty Hu.
  destruct r, x; try discriminate Hm.
  all: cbn [decode_like] in Hd; apply fmap_Ok in Hd as (v' & Hd & [= ->]);
    exact (read_contract_answered o _ _ _ bn _ _ _ _ _ Hdata Hd Ho).
Qed.

(** C30: a view method of the parent vault that the node answers with the encoding of
    a value of the method's output types is one contract call, to the vault's
    address, of the method's call data at the requested (default: the finalized)
    block, and returns that value. *)
Theorem ParentRead_spec `{GoEthereum} {R} (o : oracle (cre_eff R)) c r x bn data answer :
  (describe (call_of r)).1 = (output_values_of x).1 → typed_output x →
  encode_call (vault_Codec c) (call_of r) = Ok data →
  abi_UnpackOutput (codec_abi (vault_Codec c)) (output_values_of x).1 answer =
    Ok (output_values_of x).2 →
  let request := mkCallContractRequest (vault_Address c) data (default FinalizedBlockNumber bn) in
  o [] _ (ECallContract (vault_client c) request) = Reply (Some answer) →
  run o [] (read c r bn) =
    ([Step _ (ECallContract (vault_client c) request) (Reply (Some answer))], Ok x).
Proof. apply parent_read_answered. Qed.

(** Every tuple encoder of the parent vault names and types the components of
    its struct as the metadata does, in the order of the fields. *)
Theorem ParentStructs_abi `{GoAbiTypes} x :
  ∃ struct_name arg_name,
    encode_vault_struct x =
      encode_struct struct_name arg_name (components (struct_type x)) (struct_value x) ∧
    has_shape (struct_type x) (struct_value x) = true.
Proof. destruct x; cbn [encode_vault_struct struct_type struct_value]; struct_case. Qed.

(** A report of a struct of the parent vault is signed before it is written, to
    the vault itself, and each at most once; when the struct cannot be encoded
    nothing is done. *)
Theorem ParentReports_spec `{GoAbiTypes} {R} adm h c x gasConfig :
  wp_seg adm h (@write_struct _ _ R c x gasConfig)
    (report_written (vault_client c) (vault_Address c) (encode_vault_struct x) gasConfig).
Proof. destruct x; apply write_report_from_seg. Qed.

(** ** Witnesses *)
Module SampleParentMethods.
(** The epoch nonce is 5, and no other output decodes. *)
Definition unpack (md : MetaData) (name : string) (data : bytes) : res (list abi_value) :=
  if bool_decide (name = "getEpochNonce"%string) then Ok [VBig (Some 5)] else Err (Errorf "abi: no method" []).
#[local] Instance toy_ethereum : GoEthereum := ToyEthereum.ethereum_with unpack.
Definition vault : ParentVault := mkParentVault zeroAddress ParentVaultMetaData 1 (mkCodec ParentVaultMetaData).
Definition host : oracle (cre_eff unit) := λ _ X c,
  match c in cre_eff _ X return X with
  | ENow => 10000
  | ELog _ _ => tt
  | EGenerateReport _ => Failed (Errorf "no report" [])
  | EWriteReport _ _ => Failed (Errorf "no write" [])
  | ECallContract _ _ => Reply (Some [])
  | EGetSecret _ => Failed (Errorf "no secret" [])
  | ESendRequest _ => Failed (Errorf "no consensus" [])
  end.

Lemma ParentRead_spec_witness :
  (run host [] (read vault RGetEpochNonce None)).2 = Ok (OGetEpochNonce (Some 5)).
Proof.
  rewrite (ParentRead_spec host vault RGetEpochNonce (OGetEpochNonce (Some 5)) None
             (ToyEthereum.fit 4 (to_bytes "getEpochNonce")) []); [reflexivity|reflexivity| |reflexivity..].
  repeat constructor; vm_compute; done.
Defined.
End SampleParentMethods.
End parent_vault_methods.
