(* ===== verification/ChildVaultMethods.v ===== *)
(** * The methods of the child vault

    The calls, outputs, reads, tuple encoders and report writers in
    [cre/contracts/evm/src/generated/child_vault/ChildVault.go]; those the workflow
    uses are in [ChildVault]. *)

From S2P Require Import Prelude GoText BigInt Ethereum Runtime Bindings ChildVault AbiMethods.

#[local] Open Scope Z_scope.

Module child_vault_methods.
Import child_vault.
(** ** Structs *)
Record BaseVaultConstructorParams := mkBaseVaultConstructorParams {
  BaseVaultConstructorParams_Link : Address;
  BaseVaultConstructorParams_Asset : Address;
  BaseVaultConstructorParams_CcipRouter : Address;
  BaseVaultConstructorParams_AdapterRegistry : Address;
  BaseVaultConstructorParams_ThisChainSelector : Z }.
Record BaseVaultInitParams := mkBaseVaultInitParams {
  BaseVaultInitParams_DefaultAdmin : Address;
  BaseVaultInitParams_Pauser : Address;
  BaseVaultInitParams_Unpauser : Address;
  BaseVaultInitParams_ConfigOperator : Address;
  BaseVaultInitParams_InitialDefaultCcipGasLimit : bigint;
  BaseVaultInitParams_Upgrader : Address }.
Record ClientEVMTokenAmount := mkClientEVMTokenAmount {
  ClientEVMTokenAmount_Token : Address;
  ClientEVMTokenAmount_Amount : bigint }.
Record ClientAny2EVMMessage := mkClientAny2EVMMessage {
  ClientAny2EVMMessage_MessageId : bytes;
  ClientAny2EVMMessage_SourceChainSelector : Z;
  ClientAny2EVMMessage_Sender : bytes;
  ClientAny2EVMMessage_Data : bytes;
  ClientAny2EVMMessage_DestTokenAmounts : list ClientEVMTokenAmount }.
Record TypesCcipSendRecovery := mkTypesCcipSendRecovery {
  TypesCcipSendRecovery_Amount : bigint;
  TypesCcipSendRecovery_Nonce : bigint;
  TypesCcipSendRecovery_ProtocolId : bytes;
  TypesCcipSendRecovery_DestinationChainSelector : Z;
  TypesCcipSendRecovery_CcipTxType : Z }.
Record TypesEpochRecovery := mkTypesEpochRecovery {
  TypesEpochRecovery_EpochNonce : bigint;
  TypesEpochRecovery_Amount : bigint }.
Record TypesRebalanceDepositRecovery := mkTypesRebalanceDepositRecovery {
  TypesRebalanceDepositRecovery_RebalanceNonce : bigint;
  TypesRebalanceDepositRecovery_Amount : bigint }.
Record TypesRebalanceWithdrawRecovery := mkTypesRebalanceWithdrawRecovery {
  TypesRebalanceWithdrawRecovery_RebalanceNonce : bigint;
  TypesRebalanceWithdrawRecovery_Strategy : TypesStrategy }.
Record BeginDefaultAdminTransferInput := mkBeginDefaultAdminTransferInput {
  BeginDefaultAdminTransfer_NewAdmin : Address }.
Record CcipReceiveInput := mkCcipReceiveInput { CcipReceive_Message : ClientAny2EVMMessage }.
Record ChangeDefaultAdminDelayInput := mkChangeDefaultAdminDelayInput {
  ChangeDefaultAdminDelay_NewDelay : bigint }.
Record GetCCVsAndFinalityConfigInput := mkGetCCVsAndFinalityConfigInput {
  GetCCVsAndFinalityConfig_Arg0 : Z;
  GetCCVsAndFinalityConfig_Arg1 : bytes }.
Record GetCcipGasLimitInput := mkGetCcipGasLimitInput { GetCcipGasLimit_ChainSelector : Z }.
Record GetCrosschainVaultInput := mkGetCrosschainVaultInput {
  GetCrosschainVault_ChainSelector : Z }.
Record GetRoleAdminInput := mkGetRoleAdminInput { GetRoleAdmin_Role : bytes }.
Record GrantRoleInput := mkGrantRoleInput { GrantRole_Role : bytes; GrantRole_Account : Address }.
Record HasRoleInput := mkHasRoleInput { HasRole_Role : bytes; HasRole_Account : Address }.
Record InitializeInput := mkInitializeInput { Initialize_Params : BaseVaultInitParams }.
Record RenounceRoleInput := mkRenounceRoleInput {
  RenounceRole_Role : bytes;
  RenounceRole_Account : Address }.
Record RevokeRoleInput := mkRevokeRoleInput {
  RevokeRole_Role : bytes;
  RevokeRole_Account : Address }.
Record SetCcipGasLimitInput := mkSetCcipGasLimitInput {
  SetCcipGasLimit_ChainSelector : Z;
  SetCcipGasLimit_GasLimit : bigint }.
Record SetCrosschainVaultsInput := mkSetCrosschainVaultsInput {
  SetCrosschainVaults_ChainSelectors : list Z;
  SetCrosschainVaults_Vaults : list Address }.
Record SetDefaultCcipGasLimitInput := mkSetDefaultCcipGasLimitInput {
  SetDefaultCcipGasLimit_GasLimit : bigint }.
Record SupportsInterfaceInput := mkSupportsInterfaceInput { SupportsInterface_InterfaceId : bytes }.
Record TryCcipSendInput := mkTryCcipSendInput {
  TryCcipSend_BridgeAmount : bigint;
  TryCcipSend_DestinationChainSelector : Z;
  TryCcipSend_CcipTxType : Z;
  TryCcipSend_Nonce : bigint;
  TryCcipSend_ProtocolId : bytes }.
Record TryDepositToAdapterInput := mkTryDepositToAdapterInput {
  TryDepositToAdapter_Adapter : Address;
  TryDepositToAdapter_Amount : bigint }.
Record UpgradeToAndCallInput := mkUpgradeToAndCallInput {
  UpgradeToAndCall_NewImplementation : Address;
  UpgradeToAndCall_Data : bytes }.
Record WithdrawLinkInput := mkWithdrawLinkInput { WithdrawLink_Amount : bigint }.
Record GetCCVsAndFinalityConfigOutput := mkGetCCVsAndFinalityConfigOutput {
  GetCCVsAndFinalityConfigOutput_RequiredCCVs : list Address;
  GetCCVsAndFinalityConfigOutput_OptionalCCVs : list Address;
  GetCCVsAndFinalityConfigOutput_OptionalThreshold : Z;
  GetCCVsAndFinalityConfigOutput_AllowedFinalityConfig : bytes }.
Record PendingDefaultAdminOutput := mkPendingDefaultAdminOutput {
  PendingDefaultAdminOutput_NewAdmin : Address;
  PendingDefaultAdminOutput_Schedule : bigint }.
Record PendingDefaultAdminDelayOutput := mkPendingDefaultAdminDelayOutput {
  PendingDefaultAdminDelayOutput_NewDelay : bigint;
  PendingDefaultAdminDelayOutput_Schedule : bigint }.

(** ** Structs as tuples *)
Definition BaseVaultConstructorParams_value (s : BaseVaultConstructorParams) : abi_value := VTuple [
    ("link"%string, VFixed (BaseVaultConstructorParams_Link s));
    ("asset"%string, VFixed (BaseVaultConstructorParams_Asset s));
    ("ccipRouter"%string, VFixed (BaseVaultConstructorParams_CcipRouter s));
    ("adapterRegistry"%string, VFixed (BaseVaultConstructorParams_AdapterRegistry s));
    ("thisChainSelector"%string, VUint (BaseVaultConstructorParams_ThisChainSelector s))].
Definition BaseVaultInitParams_value (s : BaseVaultInitParams) : abi_value := VTuple [
    ("defaultAdmin"%string, VFixed (BaseVaultInitParams_DefaultAdmin s));
    ("pauser"%string, VFixed (BaseVaultInitParams_Pauser s));
    ("unpauser"%string, VFixed (BaseVaultInitParams_Unpauser s));
    ("configOperator"%string, VFixed (BaseVaultInitParams_ConfigOperator s));
    ("initialDefaultCcipGasLimit"%string, VBig (BaseVaultInitParams_InitialDefaultCcipGasLimit s));
    ("upgrader"%string, VFixed (BaseVaultInitParams_Upgrader s))].
Definition ClientEVMTokenAmount_value (s : ClientEVMTokenAmount) : abi_value := VTuple [
    ("token"%string, VFixed (ClientEVMTokenAmount_Token s));
    ("amount"%string, VBig (ClientEVMTokenAmount_Amount s))].
Definition ClientAny2EVMMessage_value (s : ClientAny2EVMMessage) : abi_value := VTuple [
    ("messageId"%string, VFixed (ClientAny2EVMMessage_MessageId s));
    ("sourceChainSelector"%string, VUint (ClientAny2EVMMessage_SourceChainSelector s));
    ("sender"%string, VBytes (ClientAny2EVMMessage_Sender s));
    ("data"%string, VBytes (ClientAny2EVMMessage_Data s));
    ("destTokenAmounts"%string, VSlice (ClientEVMTokenAmount_value <$> (ClientAny2EVMMessage_DestTokenAmounts s)))].
Definition TypesCcipSendRecovery_value (s : TypesCcipSendRecovery) : abi_value := VTuple [
    ("amount"%string, VBig (TypesCcipSendRecovery_Amount s));
    ("nonce"%string, VBig (TypesCcipSendRecovery_Nonce s));
    ("protocolId"%string, VFixed (TypesCcipSendRecovery_ProtocolId s));
    ("destinationChainSelector"%string, VUint (TypesCcipSendRecovery_DestinationChainSelector s));
    ("ccipTxType"%string, VUint (TypesCcipSendRecovery_CcipTxType s))].
Definition TypesChildOperationalState_value (s : TypesChildOperationalState) : abi_value := VTuple [
    ("paused"%string, VBool (child_vault.Paused s));
    ("recoveryMode"%string, VUint (child_vault.RecoveryMode s));
    ("lastHandledEpochNonce"%string, VBig (child_vault.LastHandledEpochNonce s));
    ("lastHandledRebalanceNonce"%string, VBig (child_vault.LastHandledRebalanceNonce s));
    ("tvl"%string, VBig (child_vault.Tvl s))].
Definition TypesEpochRecovery_value (s : TypesEpochRecovery) : abi_value := VTuple [
    ("epochNonce"%string, VBig (TypesEpochRecovery_EpochNonce s));
    ("amount"%string, VBig (TypesEpochRecovery_Amount s))].
Definition TypesRebalanceDepositRecovery_value (s : TypesRebalanceDepositRecovery) : abi_value := VTuple [
    ("rebalanceNonce"%string, VBig (TypesRebalanceDepositRecovery_RebalanceNonce s));
    ("amount"%string, VBig (TypesRebalanceDepositRecovery_Amount s))].
Definition TypesRebalanceWithdrawRecovery_value (s : TypesRebalanceWithdrawRecovery) : abi_value := VTuple [
    ("rebalanceNonce"%string, VBig (TypesRebalanceWithdrawRecovery_RebalanceNonce s));
    ("strategy"%string, strategy_value (TypesRebalanceWithdrawRecovery_Strategy s))].

(** ** Structs from outputs: the fields are copied by name through JSON *)
Definition decode_TypesCcipSendRecovery (ty : string) (fs : list (string * abi_value))
    : res TypesCcipSendRecovery :=
  x0 ← as_big ty (tuple_field "amount" fs);
  x1 ← as_big ty (tuple_field "nonce" fs);
  x2 ← as_bytes32 ty (tuple_field "protocolId" fs);
  x3 ← as_uint 64 ty (tuple_field "destinationChainSelector" fs);
  x4 ← as_uint 8 ty (tuple_field "ccipTxType" fs);
  Ok (mkTypesCcipSendRecovery x0 x1 x2 x3 x4).
Definition decode_TypesEpochRecovery (ty : string) (fs : list (string * abi_value))
    : res TypesEpochRecovery :=
  x0 ← as_big ty (tuple_field "epochNonce" fs);
  x1 ← as_big ty (tuple_field "amount" fs);
  Ok (mkTypesEpochRecovery x0 x1).
Definition decode_TypesRebalanceDepositRecovery (ty : string) (fs : list (string * abi_value))
    : res TypesRebalanceDepositRecovery :=
  x0 ← as_big ty (tuple_field "rebalanceNonce" fs);
  x1 ← as_big ty (tuple_field "amount" fs);
  Ok (mkTypesRebalanceDepositRecovery x0 x1).
Definition decode_TypesStrategy (ty : string) (fs : list (string * abi_value))
    : res TypesStrategy :=
  x0 ← as_bytes32 ty (tuple_field "protocolId" fs);
  x1 ← as_uint 64 ty (tuple_field "chainSelector" fs);
  Ok (mkTypesStrategy x0 x1).
Definition decode_TypesRebalanceWithdrawRecovery (ty : string) (fs : list (string * abi_value))
    : res TypesRebalanceWithdrawRecovery :=
  x0 ← as_big ty (tuple_field "rebalanceNonce" fs);
  x1 ← as_struct ty (decode_TypesStrategy ty) (tuple_field "strategy" fs);
  Ok (mkTypesRebalanceWithdrawRecovery x0 x1).

(** ** Structs in the metadata *)
Definition ClientEVMTokenAmount_type : sol_type := STuple [
    ("token"%string, SAddress); ("amount"%string, SUint 256)].
Arguments ClientEVMTokenAmount_type : simpl never.
Definition ClientAny2EVMMessage_type : sol_type := STuple [
    ("messageId"%string, SBytesN 32); ("sourceChainSelector"%string, SUint 64);
    ("sender"%string, SBytes); ("data"%string, SBytes);
    ("destTokenAmounts"%string, SSlice (ClientEVMTokenAmount_type))].
Arguments ClientAny2EVMMessage_type : simpl never.
Definition TypesStrategy_type : sol_type := STuple [
    ("protocolId"%string, SBytesN 32); ("chainSelector"%string, SUint 64)].
Arguments TypesStrategy_type : simpl never.
Definition TypesCcipSendRecovery_type : sol_type := STuple [
    ("amount"%string, SUint 256); ("nonce"%string, SUint 256); ("protocolId"%string, SBytesN 32);
    ("destinationChainSelector"%string, SUint 64); ("ccipTxType"%string, SUint 8)].
Arguments TypesCcipSendRecovery_type : simpl never.
Definition TypesChildOperationalState_type : sol_type := STuple [
    ("paused"%string, SBool); ("recoveryMode"%string, SUint 8);
    ("lastHandledEpochNonce"%string, SUint 256); ("lastHandledRebalanceNonce"%string, SUint 256);
    ("tvl"%string, SUint 256)].
Arguments TypesChildOperationalState_type : simpl never.
Definition TypesEpochRecovery_type : sol_type := STuple [
    ("epochNonce"%string, SUint 256); ("amount"%string, SUint 256)].
Arguments TypesEpochRecovery_type : simpl never.
Definition TypesRebalanceDepositRecovery_type : sol_type := STuple [
    ("rebalanceNonce"%string, SUint 256); ("amount"%string, SUint 256)].
Arguments TypesRebalanceDepositRecovery_type : simpl never.
Definition TypesRebalanceWithdrawRecovery_type : sol_type := STuple [
    ("rebalanceNonce"%string, SUint 256); ("strategy"%string, TypesStrategy_type)].
Arguments TypesRebalanceWithdrawRecovery_type : simpl never.
Definition BaseVaultInitParams_type : sol_type := STuple [
    ("defaultAdmin"%string, SAddress); ("pauser"%string, SAddress); ("unpauser"%string, SAddress);
    ("configOperator"%string, SAddress); ("initialDefaultCcipGasLimit"%string, SUint 256);
    ("upgrader"%string, SAddress)].
Arguments BaseVaultInitParams_type : simpl never.
Definition BaseVaultConstructorParams_type : sol_type := STuple [
    ("link"%string, SAddress); ("asset"%string, SAddress); ("ccipRouter"%string, SAddress);
    ("adapterRegistry"%string, SAddress); ("thisChainSelector"%string, SUint 64)].
Arguments BaseVaultConstructorParams_type : simpl never.

(** ** The methods of the metadata; an input without a name is [arg<i>]. *)
Definition methods : method_table :=
  [("DEFAULT_ADMIN_ROLE"%string, mkMethod
     []
     [(""%string, SBytesN 32)]);
   ("UPGRADE_INTERFACE_VERSION"%string, mkMethod
     []
     [(""%string, SString)]);
   ("acceptDefaultAdminTransfer"%string, mkMethod
     []
     []);
   ("beginDefaultAdminTransfer"%string, mkMethod
     [("newAdmin"%string, SAddress)]
     []);
   ("cancelDefaultAdminTransfer"%string, mkMethod
     []
     []);
   ("ccipReceive"%string, mkMethod
     [("message"%string, ClientAny2EVMMessage_type)]
     []);
   ("changeDefaultAdminDelay"%string, mkMethod
     [("newDelay"%string, SUint 48)]
     []);
   ("defaultAdmin"%string, mkMethod
     []
     [(""%string, SAddress)]);
   ("defaultAdminDelay"%string, mkMethod
     []
     [(""%string, SUint 48)]);
   ("defaultAdminDelayIncreaseWait"%string, mkMethod
     []
     [(""%string, SUint 48)]);
   ("executeEpochWithdraw"%string, mkMethod
     [("epochNonce"%string, SUint 256); ("amount"%string, SUint 256)]
     []);
   ("executeRebalance"%string, mkMethod
     [("rebalanceNonce"%string, SUint 256); ("newStrategy"%string, TypesStrategy_type)]
     []);
   ("executeRecovery"%string, mkMethod
     []
     []);
   ("getActiveProtocolAdapter"%string, mkMethod
     []
     [("activeProtocolAdapter"%string, SAddress)]);
   ("getAdapterRegistry"%string, mkMethod
     []
     [("adapterRegistry"%string, SAddress)]);
   ("getAsset"%string, mkMethod
     []
     [("asset"%string, SAddress)]);
   ("getAssetPrecision"%string, mkMethod
     []
     [("assetPrecision"%string, SUint 256)]);
   ("getCCVsAndFinalityConfig"%string, mkMethod
     [(EmptyString, SUint 64); (EmptyString, SBytes)]
     [("requiredCCVs"%string, SSlice (SAddress)); ("optionalCCVs"%string, SSlice (SAddress));
      ("optionalThreshold"%string, SUint 8); ("allowedFinalityConfig"%string, SBytesN 4)]);
   ("getCcipGasLimit"%string, mkMethod
     [("chainSelector"%string, SUint 64)]
     [("gasLimit"%string, SUint 256)]);
   ("getCcipSendRecovery"%string, mkMethod
     []
     [("recovery"%string, TypesCcipSendRecovery_type)]);
   ("getChildOperationalState"%string, mkMethod
     []
     [("state"%string, TypesChildOperationalState_type)]);
   ("getCrosschainVault"%string, mkMethod
     [("chainSelector"%string, SUint 64)]
     [("vault"%string, SAddress)]);
   ("getDefaultCcipGasLimit"%string, mkMethod
     []
     [("defaultCcipGasLimit"%string, SUint 256)]);
   ("getEpochDepositRecovery"%string, mkMethod
     []
     [("recovery"%string, TypesEpochRecovery_type)]);
   ("getEpochWithdrawRecovery"%string, mkMethod
     []
     [("recovery"%string, TypesEpochRecovery_type)]);
   ("getLastHandledEpochNonce"%string, mkMethod
     []
     [("lastHandledEpochNonce"%string, SUint 256)]);
   ("getLastHandledRebalanceNonce"%string, mkMethod
     []
     [("lastHandledRebalanceNonce"%string, SUint 256)]);
   ("getLink"%string, mkMethod
     []
     [("link"%string, SAddress)]);
   ("getParentChainSelector"%string, mkMethod
     []
     [("parentChainSelector"%string, SUint 64)]);
   ("getRebalanceDepositRecovery"%string, mkMethod
     []
     [("recovery"%string, TypesRebalanceDepositRecovery_type)]);
   ("getRebalanceWithdrawRecovery"%string, mkMethod
     []
     [("recovery"%string, TypesRebalanceWithdrawRecovery_type)]);
   ("getRecoveryMode"%string, mkMethod
     []
     [("recoveryMode"%string, SUint 8)]);
   ("getRoleAdmin"%string, mkMethod
     [("role"%string, SBytesN 32)]
     [(""%string, SBytesN 32)]);
   ("getRouter"%string, mkMethod
     []
     [(""%string, SAddress)]);
   ("getTVL"%string, mkMethod
     []
     [("tvl"%string, SUint 256)]);
   ("getThisChainSelector"%string, mkMethod
     []
     [("thisChainSelector"%string, SUint 64)]);
   ("grantRole"%string, mkMethod
     [("role"%string, SBytesN 32); ("account"%string, SAddress)]
     []);
   ("hasRole"%string, mkMethod
     [("role"%string, SBytesN 32); ("account"%string, SAddress)]
     [(""%string, SBool)]);
   ("initialize"%string, mkMethod
     [("params"%string, BaseVaultInitParams_type)]
     []);
   ("owner"%string, mkMethod
     []
     [(""%string, SAddress)]);
   ("pause"%string, mkMethod
     []
     []);
   ("paused"%string, mkMethod
     []
     [(""%string, SBool)]);
   ("pendingDefaultAdmin"%string, mkMethod
     []
     [("newAdmin"%string, SAddress); ("schedule"%string, SUint 48)]);
   ("pendingDefaultAdminDelay"%string, mkMethod
     []
     [("newDelay"%string, SUint 48); ("schedule"%string, SUint 48)]);
   ("proxiableUUID"%string, mkMethod
     []
     [(""%string, SBytesN 32)]);
   ("renounceRole"%string, mkMethod
     [("role"%string, SBytesN 32); ("account"%string, SAddress)]
     []);
   ("revokeRole"%string, mkMethod
     [("role"%string, SBytesN 32); ("account"%string, SAddress)]
     []);
   ("rollbackDefaultAdminDelay"%string, mkMethod
     []
     []);
   ("setCcipGasLimit"%string, mkMethod
     [("chainSelector"%string, SUint 64); ("gasLimit"%string, SUint 256)]
     []);
   ("setCrosschainVaults"%string, mkMethod
     [("chainSelectors"%string, SSlice (SUint 64)); ("vaults"%string, SSlice (SAddress))]
     []);
   ("setDefaultCcipGasLimit"%string, mkMethod
     [("gasLimit"%string, SUint 256)]
     []);
   ("supportsInterface"%string, mkMethod
     [("interfaceId"%string, SBytesN 4)]
     [("isSupported"%string, SBool)]);
   ("tryCcipSend"%string, mkMethod
     [("bridgeAmount"%string, SUint 256); ("destinationChainSelector"%string, SUint 64);
      ("ccipTxType"%string, SUint 8); ("nonce"%string, SUint 256);
      ("protocolId"%string, SBytesN 32)]
     []);
   ("tryDepositToAdapter"%string, mkMethod
     [("adapter"%string, SAddress); ("amount"%string, SUint 256)]
     []);
   ("unpause"%string, mkMethod
     []
     []);
   ("upgradeToAndCall"%string, mkMethod
     [("newImplementation"%string, SAddress); ("data"%string, SBytes)]
     []);
   ("withdrawLink"%string, mkMethod
     [("amount"%string, SUint 256)]
     [])].

Section Methods.
Context `{GoAbiTypes}.

(** ** Calls *)
Definition EncodeDEFAULTADMINROLEMethodCall (c : Codec) : res bytes :=
  abi_Pack (codec_abi c) "DEFAULT_ADMIN_ROLE" [].
Definition EncodeUPGRADEINTERFACEVERSIONMethodCall (c : Codec) : res bytes :=
  abi_Pack (codec_abi c) "UPGRADE_INTERFACE_VERSION" [].
Definition EncodeAcceptDefaultAdminTransferMethodCall (c : Codec) : res bytes :=
  abi_Pack (codec_abi c) "acceptDefaultAdminTransfer" [].
Definition EncodeBeginDefaultAdminTransferMethodCall (c : Codec) (i : BeginDefaultAdminTransferInput)
    : res bytes :=
  abi_Pack (codec_abi c) "beginDefaultAdminTransfer" [
    VFixed (BeginDefaultAdminTransfer_NewAdmin i)].
Definition EncodeCancelDefaultAdminTransferMethodCall (c : Codec) : res bytes :=
  abi_Pack (codec_abi c) "cancelDefaultAdminTransfer" [].
Definition EncodeCcipReceiveMethodCall (c : Codec) (i : CcipReceiveInput) : res bytes :=
  abi_Pack (codec_abi c) "ccipReceive" [ClientAny2EVMMessage_value (CcipReceive_Message i)].
Definition EncodeChangeDefaultAdminDelayMethodCall (c : Codec) (i : ChangeDefaultAdminDelayInput)
    : res bytes :=
  abi_Pack (codec_abi c) "changeDefaultAdminDelay" [VBig (ChangeDefaultAdminDelay_NewDelay i)].
Definition EncodeDefaultAdminMethodCall (c : Codec) : res bytes :=
  abi_Pack (codec_abi c) "defaultAdmin" [].
Definition EncodeDefaultAdminDelayMethodCall (c : Codec) : res bytes :=
  abi_Pack (codec_abi c) "defaultAdminDelay" [].
Definition EncodeDefaultAdminDelayIncreaseWaitMethodCall (c : Codec) : res bytes :=
  abi_Pack (codec_abi c) "defaultAdminDelayIncreaseWait" [].
Definition EncodeExecuteRecoveryMethodCall (c : Codec) : res bytes :=
  abi_Pack (codec_abi c) "executeRecovery" [].
Definition EncodeGetActiveProtocolAdapterMethodCall (c : Codec) : res bytes :=
  abi_Pack (codec_abi c) "getActiveProtocolAdapter" [].
Definition EncodeGetAdapterRegistryMethodCall (c : Codec) : res bytes :=
  abi_Pack (codec_abi c) "getAdapterRegistry" [].
Definition EncodeGetAssetMethodCall (c : Codec) : res bytes :=
  abi_Pack (codec_abi c) "getAsset" [].
Definition EncodeGetAssetPrecisionMethodCall (c : Codec) : res bytes :=
  abi_Pack (codec_abi c) "getAssetPrecision" [].
Definition EncodeGetCCVsAndFinalityConfigMethodCall (c : Codec) (i : GetCCVsAndFinalityConfigInput)
    : res bytes :=
  abi_Pack (codec_abi c) "getCCVsAndFinalityConfig" [
    VUint (GetCCVsAndFinalityConfig_Arg0 i); VBytes (GetCCVsAndFinalityConfig_Arg1 i)].
Definition EncodeGetCcipGasLimitMethodCall (c : Codec) (i : GetCcipGasLimitInput) : res bytes :=
  abi_Pack (codec_abi c) "getCcipGasLimit" [VUint (GetCcipGasLimit_ChainSelector i)].
Definition EncodeGetCcipSendRecoveryMethodCall (c : Codec) : res bytes :=
  abi_Pack (codec_abi c) "getCcipSendRecovery" [].
Definition EncodeGetCrosschainVaultMethodCall (c : Codec) (i : GetCrosschainVaultInput)
    : res bytes :=
  abi_Pack (codec_abi c) "getCrosschainVault" [VUint (GetCrosschainVault_ChainSelector i)].
Definition EncodeGetDefaultCcipGasLimitMethodCall (c : Codec) : res bytes :=
  abi_Pack (codec_abi c) "getDefaultCcipGasLimit" [].
Definition EncodeGetEpochDepositRecoveryMethodCall (c : Codec) : res bytes :=
  abi_Pack (codec_abi c) "getEpochDepositRecovery" [].
Definition EncodeGetEpochWithdrawRecoveryMethodCall (c : Codec) : res bytes :=
  abi_Pack (codec_abi c) "getEpochWithdrawRecovery" [].
Definition EncodeGetLastHandledEpochNonceMethodCall (c : Codec) : res bytes :=
  abi_Pack (codec_abi c) "getLastHandledEpochNonce" [].
Definition EncodeGetLastHandledRebalanceNonceMethodCall (c : Codec) : res bytes :=
  abi_Pack (codec_abi c) "getLastHandledRebalanceNonce" [].
Definition EncodeGetLinkMethodCall (c : Codec) : res bytes :=
  abi_Pack (codec_abi c) "getLink" [].
Definition EncodeGetParentChainSelectorMethodCall (c : Codec) : res bytes :=
  abi_Pack (codec_abi c) "getParentChainSelector" [].
Definition EncodeGetRebalanceDepositRecoveryMethodCall (c : Codec) : res bytes :=
  abi_Pack (codec_abi c) "getRebalanceDepositRecovery" [].
Definition EncodeGetRebalanceWithdrawRecoveryMethodCall (c : Codec) : res bytes :=
  abi_Pack (codec_abi c) "getRebalanceWithdrawRecovery" [].
Definition EncodeGetRecoveryModeMethodCall (c : Codec) : res bytes :=
  abi_Pack (codec_abi c) "getRecoveryMode" [].
Definition EncodeGetRoleAdminMethodCall (c : Codec) (i : GetRoleAdminInput) : res bytes :=
  abi_Pack (codec_abi c) "getRoleAdmin" [VFixed (GetRoleAdmin_Role i)].
Definition EncodeGetRouterMethodCall (c : Codec) : res bytes :=
  abi_Pack (codec_abi c) "getRouter" [].
Definition EncodeGetTVLMethodCall (c : Codec) : res bytes :=
  abi_Pack (codec_abi c) "getTVL" [].
Definition EncodeGetThisChainSelectorMethodCall (c : Codec) : res bytes :=
  abi_Pack (codec_abi c) "getThisChainSelector" [].
Definition EncodeGrantRoleMethodCall (c : Codec) (i : GrantRoleInput) : res bytes :=
  abi_Pack (codec_abi c) "grantRole" [VFixed (GrantRole_Role i); VFixed (GrantRole_Account i)].
Definition EncodeHasRoleMethodCall (c : Codec) (i : HasRoleInput) : res bytes :=
  abi_Pack (codec_abi c) "hasRole" [VFixed (HasRole_Role i); VFixed (HasRole_Account i)].
Definition EncodeInitializeMethodCall (c : Codec) (i : InitializeInput) : res bytes :=
  abi_Pack (codec_abi c) "initialize" [BaseVaultInitParams_value (Initialize_Params i)].
Definition EncodeOwnerMethodCall (c : Codec) : res bytes :=
  abi_Pack (codec_abi c) "owner" [].
Definition EncodePauseMethodCall (c : Codec) : res bytes :=
  abi_Pack (codec_abi c) "pause" [].
Definition EncodePausedMethodCall (c : Codec) : res bytes :=
  abi_Pack (codec_abi c) "paused" [].
Definition EncodePendingDefaultAdminMethodCall (c : Codec) : res bytes :=
  abi_Pack (codec_abi c) "pendingDefaultAdmin" [].
Definition EncodePendingDefaultAdminDelayMethodCall (c : Codec) : res bytes :=
  abi_Pack (codec_abi c) "pendingDefaultAdminDelay" [].
Definition EncodeProxiableUUIDMethodCall (c : Codec) : res bytes :=
  abi_Pack (codec_abi c) "proxiableUUID" [].
Definition EncodeRenounceRoleMethodCall (c : Codec) (i : RenounceRoleInput) : res bytes :=
  abi_Pack (codec_abi c) "renounceRole" [
    VFixed (RenounceRole_Role i); VFixed (RenounceRole_Account i)].
Definition EncodeRevokeRoleMethodCall (c : Codec) (i : RevokeRoleInput) : res bytes :=
  abi_Pack (codec_abi c) "revokeRole" [VFixed (RevokeRole_Role i); VFixed (RevokeRole_Account i)].
Definition EncodeRollbackDefaultAdminDelayMethodCall (c : Codec) : res bytes :=
  abi_Pack (codec_abi c) "rollbackDefaultAdminDelay" [].
Definition EncodeSetCcipGasLimitMethodCall (c : Codec) (i : SetCcipGasLimitInput) : res bytes :=
  abi_Pack (codec_abi c) "setCcipGasLimit" [
    VUint (SetCcipGasLimit_ChainSelector i); VBig (SetCcipGasLimit_GasLimit i)].
Definition EncodeSetCrosschainVaultsMethodCall (c : Codec) (i : SetCrosschainVaultsInput)
    : res bytes :=
  abi_Pack (codec_abi c) "setCrosschainVaults" [
    VSlice (VUint <$> (SetCrosschainVaults_ChainSelectors i));
    VSlice (VFixed <$> (SetCrosschainVaults_Vaults i))].
Definition EncodeSetDefaultCcipGasLimitMethodCall (c : Codec) (i : SetDefaultCcipGasLimitInput)
    : res bytes :=
  abi_Pack (codec_abi c) "setDefaultCcipGasLimit" [VBig (SetDefaultCcipGasLimit_GasLimit i)].
Definition EncodeSupportsInterfaceMethodCall (c : Codec) (i : SupportsInterfaceInput) : res bytes :=
  abi_Pack (codec_abi c) "supportsInterface" [VFixed (SupportsInterface_InterfaceId i)].
Definition EncodeTryCcipSendMethodCall (c : Codec) (i : TryCcipSendInput) : res bytes :=
  abi_Pack (codec_abi c) "tryCcipSend" [
    VBig (TryCcipSend_BridgeAmount i); VUint (TryCcipSend_DestinationChainSelector i);
    VUint (TryCcipSend_CcipTxType i); VBig (TryCcipSend_Nonce i);
    VFixed (TryCcipSend_ProtocolId i)].
Definition EncodeTryDepositToAdapterMethodCall (c : Codec) (i : TryDepositToAdapterInput)
    : res bytes :=
  abi_Pack (codec_abi c) "tryDepositToAdapter" [
    VFixed (TryDepositToAdapter_Adapter i); VBig (TryDepositToAdapter_Amount i)].
Definition EncodeUnpauseMethodCall (c : Codec) : res bytes :=
  abi_Pack (codec_abi c) "unpause" [].
Definition EncodeUpgradeToAndCallMethodCall (c : Codec) (i : UpgradeToAndCallInput) : res bytes :=
  abi_Pack (codec_abi c) "upgradeToAndCall" [
    VFixed (UpgradeToAndCall_NewImplementation i); VBytes (UpgradeToAndCall_Data i)].
Definition EncodeWithdrawLinkMethodCall (c : Codec) (i : WithdrawLinkInput) : res bytes :=
  abi_Pack (codec_abi c) "withdrawLink" [VBig (WithdrawLink_Amount i)].

(** ** Outputs *)
Definition DecodeDEFAULTADMINROLEMethodOutput (c : Codec) (data : bytes)
    : res bytes :=
  decode_value (codec_abi c) "DEFAULT_ADMIN_ROLE" (as_bytes32 "[32]byte") data.
Definition DecodeUPGRADEINTERFACEVERSIONMethodOutput (c : Codec) (data : bytes)
    : res string :=
  decode_value (codec_abi c) "UPGRADE_INTERFACE_VERSION" (as_string "string") data.
Definition DecodeDefaultAdminMethodOutput (c : Codec) (data : bytes)
    : res Address :=
  decode_value (codec_abi c) "defaultAdmin" (as_address "common.Address") data.
Definition DecodeDefaultAdminDelayMethodOutput (c : Codec) (data : bytes)
    : res bigint :=
  decode_value (codec_abi c) "defaultAdminDelay" (as_big "*big.Int") data.
Definition DecodeDefaultAdminDelayIncreaseWaitMethodOutput (c : Codec) (data : bytes)
    : res bigint :=
  decode_value (codec_abi c) "defaultAdminDelayIncreaseWait" (as_big "*big.Int") data.
Definition DecodeGetActiveProtocolAdapterMethodOutput (c : Codec) (data : bytes)
    : res Address :=
  decode_value (codec_abi c) "getActiveProtocolAdapter" (as_address "common.Address") data.
Definition DecodeGetAdapterRegistryMethodOutput (c : Codec) (data : bytes)
    : res Address :=
  decode_value (codec_abi c) "getAdapterRegistry" (as_address "common.Address") data.
Definition DecodeGetAssetMethodOutput (c : Codec) (data : bytes)
    : res Address :=
  decode_value (codec_abi c) "getAsset" (as_address "common.Address") data.
Definition DecodeGetAssetPrecisionMethodOutput (c : Codec) (data : bytes)
    : res bigint :=
  decode_value (codec_abi c) "getAssetPrecision" (as_big "*big.Int") data.
Definition DecodeGetCCVsAndFinalityConfigMethodOutput (c : Codec) (data : bytes)
    : res GetCCVsAndFinalityConfigOutput :=
  vals ← output_values (codec_abi c) "getCCVsAndFinalityConfig" 4 data;
  result0 ← output_value vals 0 (as_slice "[]common.Address" (as_address "[]common.Address"));
  result1 ← output_value vals 1 (as_slice "[]common.Address" (as_address "[]common.Address"));
  result2 ← output_value vals 2 (as_uint 8 "uint8");
  result3 ← output_value vals 3 (as_bytesN 4 "[4]byte");
  Ok (mkGetCCVsAndFinalityConfigOutput result0 result1 result2 result3).
Definition DecodeGetCcipGasLimitMethodOutput (c : Codec) (data : bytes)
    : res bigint :=
  decode_value (codec_abi c) "getCcipGasLimit" (as_big "*big.Int") data.
Definition DecodeGetCcipSendRecoveryMethodOutput (c : Codec) (data : bytes)
    : res TypesCcipSendRecovery :=
  decode_output (codec_abi c) "getCcipSendRecovery" "TypesCcipSendRecovery"
    (decode_TypesCcipSendRecovery "TypesCcipSendRecovery") data.
Definition DecodeGetCrosschainVaultMethodOutput (c : Codec) (data : bytes)
    : res Address :=
  decode_value (codec_abi c) "getCrosschainVault" (as_address "common.Address") data.
Definition DecodeGetDefaultCcipGasLimitMethodOutput (c : Codec) (data : bytes)
    : res bigint :=
  decode_value (codec_abi c) "getDefaultCcipGasLimit" (as_big "*big.Int") data.
Definition DecodeGetEpochDepositRecoveryMethodOutput (c : Codec) (data : bytes)
    : res TypesEpochRecovery :=
  decode_output (codec_abi c) "getEpochDepositRecovery" "TypesEpochRecovery"
    (decode_TypesEpochRecovery "TypesEpochRecovery") data.
Definition DecodeGetEpochWithdrawRecoveryMethodOutput (c : Codec) (data : bytes)
    : res TypesEpochRecovery :=
  decode_output (codec_abi c) "getEpochWithdrawRecovery" "TypesEpochRecovery"
    (decode_TypesEpochRecovery "TypesEpochRecovery") data.
Definition DecodeGetLastHandledEpochNonceMethodOutput (c : Codec) (data : bytes)
    : res bigint :=
  decode_value (codec_abi c) "getLastHandledEpochNonce" (as_big "*big.Int") data.
Definition DecodeGetLastHandledRebalanceNonceMethodOutput (c : Codec) (data : bytes)
    : res bigint :=
  decode_value (codec_abi c) "getLastHandledRebalanceNonce" (as_big "*big.Int") data.
Definition DecodeGetLinkMethodOutput (c : Codec) (data : bytes)
    : res Address :=
  decode_value (codec_abi c) "getLink" (as_address "common.Address") data.
Definition DecodeGetParentChainSelectorMethodOutput (c : Codec) (data : bytes)
    : res Z :=
  decode_value (codec_abi c) "getParentChainSelector" (as_uint 64 "uint64") data.
Definition DecodeGetRebalanceDepositRecoveryMethodOutput (c : Codec) (data : bytes)
    : res TypesRebalanceDepositRecovery :=
  decode_output (codec_abi c) "getRebalanceDepositRecovery" "TypesRebalanceDepositRecovery"
    (decode_TypesRebalanceDepositRecovery "TypesRebalanceDepositRecovery") data.
Definition DecodeGetRebalanceWithdrawRecoveryMethodOutput (c : Codec) (data : bytes)
    : res TypesRebalanceWithdrawRecovery :=
  decode_output (codec_abi c) "getRebalanceWithdrawRecovery" "TypesRebalanceWithdrawRecovery"
    (decode_TypesRebalanceWithdrawRecovery "TypesRebalanceWithdrawRecovery") data.
Definition DecodeGetRecoveryModeMethodOutput (c : Codec) (data : bytes)
    : res Z :=
  decode_value (codec_abi c) "getRecoveryMode" (as_uint 8 "uint8") data.
Definition DecodeGetRoleAdminMethodOutput (c : Codec) (data : bytes)
    : res bytes :=
  decode_value (codec_abi c) "getRoleAdmin" (as_bytes32 "[32]byte") data.
Definition DecodeGetRouterMethodOutput (c : Codec) (data : bytes)
    : res Address :=
  decode_value (codec_abi c) "getRouter" (as_address "common.Address") data.
Definition DecodeGetTVLMethodOutput (c : Codec) (data : bytes)
    : res bigint :=
  decode_value (codec_abi c) "getTVL" (as_big "*big.Int") data.
Definition DecodeGetThisChainSelectorMethodOutput (c : Codec) (data : bytes)
    : res Z :=
  decode_value (codec_abi c) "getThisChainSelector" (as_uint 64 "uint64") data.
Definition DecodeHasRoleMethodOutput (c : Codec) (data : bytes)
    : res bool :=
  decode_value (codec_abi c) "hasRole" (as_bool "bool") data.
Definition DecodeOwnerMethodOutput (c : Codec) (data : bytes)
    : res Address :=
  decode_value (codec_abi c) "owner" (as_address "common.Address") data.
Definition DecodePausedMethodOutput (c : Codec) (data : bytes)
    : res bool :=
  decode_value (codec_abi c) "paused" (as_bool "bool") data.
Definition DecodePendingDefaultAdminMethodOutput (c : Codec) (data : bytes)
    : res PendingDefaultAdminOutput :=
  vals ← output_values (codec_abi c) "pendingDefaultAdmin" 2 data;
  result0 ← output_value vals 0 (as_address "common.Address");
  result1 ← output_value vals 1 (as_big "*big.Int");
  Ok (mkPendingDefaultAdminOutput result0 result1).
Definition DecodePendingDefaultAdminDelayMethodOutput (c : Codec) (data : bytes)
    : res PendingDefaultAdminDelayOutput :=
  vals ← output_values (codec_abi c) "pendingDefaultAdminDelay" 2 data;
  result0 ← output_value vals 0 (as_big "*big.Int");
  result1 ← output_value vals 1 (as_big "*big.Int");
  Ok (mkPendingDefaultAdminDelayOutput result0 result1).
Definition DecodeProxiableUUIDMethodOutput (c : Codec) (data : bytes)
    : res bytes :=
  decode_value (codec_abi c) "proxiableUUID" (as_bytes32 "[32]byte") data.
Definition DecodeSupportsInterfaceMethodOutput (c : Codec) (data : bytes)
    : res bool :=
  decode_value (codec_abi c) "supportsInterface" (as_bool "bool") data.

(** ** Tuple encoders *)
Definition EncodeBaseVaultConstructorParamsStruct (i : BaseVaultConstructorParams) : res bytes :=
  encode_struct "BaseVaultConstructorParams" "baseVaultConstructorParams" [
    ("link", "address"); ("asset", "address"); ("ccipRouter", "address");
    ("adapterRegistry", "address"); ("thisChainSelector", "uint64")]%string
    (BaseVaultConstructorParams_value i).
Definition EncodeBaseVaultInitParamsStruct (i : BaseVaultInitParams) : res bytes :=
  encode_struct "BaseVaultInitParams" "baseVaultInitParams" [
    ("defaultAdmin", "address"); ("pauser", "address"); ("unpauser", "address");
    ("configOperator", "address"); ("initialDefaultCcipGasLimit", "uint256");
    ("upgrader", "address")]%string
    (BaseVaultInitParams_value i).
Definition EncodeClientAny2EVMMessageStruct (i : ClientAny2EVMMessage) : res bytes :=
  encode_struct "ClientAny2EVMMessage" "clientAny2EVMMessage" [
    ("messageId", "bytes32"); ("sourceChainSelector", "uint64"); ("sender", "bytes");
    ("data", "bytes"); ("destTokenAmounts", "(address,uint256)[]")]%string
    (ClientAny2EVMMessage_value i).
Definition EncodeClientEVMTokenAmountStruct (i : ClientEVMTokenAmount) : res bytes :=
  encode_struct "ClientEVMTokenAmount" "clientEVMTokenAmount" [
    ("token", "address"); ("amount", "uint256")]%string
    (ClientEVMTokenAmount_value i).
Definition EncodeTypesCcipSendRecoveryStruct (i : TypesCcipSendRecovery) : res bytes :=
  encode_struct "TypesCcipSendRecovery" "typesCcipSendRecovery" [
    ("amount", "uint256"); ("nonce", "uint256"); ("protocolId", "bytes32");
    ("destinationChainSelector", "uint64"); ("ccipTxType", "uint8")]%string
    (TypesCcipSendRecovery_value i).
Definition EncodeTypesChildOperationalStateStruct (i : TypesChildOperationalState) : res bytes :=
  encode_struct "TypesChildOperationalState" "typesChildOperationalState" [
    ("paused", "bool"); ("recoveryMode", "uint8"); ("lastHandledEpochNonce", "uint256");
    ("lastHandledRebalanceNonce", "uint256"); ("tvl", "uint256")]%string
    (TypesChildOperationalState_value i).
Definition EncodeTypesEpochRecoveryStruct (i : TypesEpochRecovery) : res bytes :=
  encode_struct "TypesEpochRecovery" "typesEpochRecovery" [
    ("epochNonce", "uint256"); ("amount", "uint256")]%string
    (TypesEpochRecovery_value i).
Definition EncodeTypesRebalanceDepositRecoveryStruct (i : TypesRebalanceDepositRecovery) : res bytes :=
  encode_struct "TypesRebalanceDepositRecovery" "typesRebalanceDepositRecovery" [
    ("rebalanceNonce", "uint256"); ("amount", "uint256")]%string
    (TypesRebalanceDepositRecovery_value i).
Definition EncodeTypesRebalanceWithdrawRecoveryStruct (i : TypesRebalanceWithdrawRecovery) : res bytes :=
  encode_struct "TypesRebalanceWithdrawRecovery" "typesRebalanceWithdrawRecovery" [
    ("rebalanceNonce", "uint256"); ("strategy", "(bytes32,uint64)")]%string
    (TypesRebalanceWithdrawRecovery_value i).
Definition EncodeTypesStrategyStruct (i : TypesStrategy) : res bytes :=
  encode_struct "TypesStrategy" "typesStrategy" [
    ("protocolId", "bytes32"); ("chainSelector", "uint64")]%string
    (strategy_value i).

(** ** Reads *)
Definition DEFAULTADMINROLE {R} (c : ChildVault) (blockNumber : bigint)
    : prog (cre_eff R) bytes :=
  read_contract (vault_client c) (vault_Address c)
    (EncodeDEFAULTADMINROLEMethodCall (vault_Codec c)) blockNumber
    (DecodeDEFAULTADMINROLEMethodOutput (vault_Codec c)).
Definition UPGRADEINTERFACEVERSION {R} (c : ChildVault) (blockNumber : bigint)
    : prog (cre_eff R) string :=
  read_contract (vault_client c) (vault_Address c)
    (EncodeUPGRADEINTERFACEVERSIONMethodCall (vault_Codec c)) blockNumber
    (DecodeUPGRADEINTERFACEVERSIONMethodOutput (vault_Codec c)).
Definition DefaultAdmin {R} (c : ChildVault) (blockNumber : bigint)
    : prog (cre_eff R) Address :=
  read_contract (vault_client c) (vault_Address c)
    (EncodeDefaultAdminMethodCall (vault_Codec c)) blockNumber
    (DecodeDefaultAdminMethodOutput (vault_Codec c)).
Definition DefaultAdminDelay {R} (c : ChildVault) (blockNumber : bigint)
    : prog (cre_eff R) bigint :=
  read_contract (vault_client c) (vault_Address c)
    (EncodeDefaultAdminDelayMethodCall (vault_Codec c)) blockNumber
    (DecodeDefaultAdminDelayMethodOutput (vault_Codec c)).
Definition DefaultAdminDelayIncreaseWait {R} (c : ChildVault) (blockNumber : bigint)
    : prog (cre_eff R) bigint :=
  read_contract (vault_client c) (vault_Address c)
    (EncodeDefaultAdminDelayIncreaseWaitMethodCall (vault_Codec c)) blockNumber
    (DecodeDefaultAdminDelayIncreaseWaitMethodOutput (vault_Codec c)).
Definition GetActiveProtocolAdapter {R} (c : ChildVault) (blockNumber : bigint)
    : prog (cre_eff R) Address :=
  read_contract (vault_client c) (vault_Address c)
    (EncodeGetActiveProtocolAdapterMethodCall (vault_Codec c)) blockNumber
    (DecodeGetActiveProtocolAdapterMethodOutput (vault_Codec c)).
Definition GetAdapterRegistry {R} (c : ChildVault) (blockNumber : bigint)
    : prog (cre_eff R) Address :=
  read_contract (vault_client c) (vault_Address c)
    (EncodeGetAdapterRegistryMethodCall (vault_Codec c)) blockNumber
    (DecodeGetAdapterRegistryMethodOutput (vault_Codec c)).
Definition GetAsset {R} (c : ChildVault) (blockNumber : bigint)
    : prog (cre_eff R) Address :=
  read_contract (vault_client c) (vault_Address c)
    (EncodeGetAssetMethodCall (vault_Codec c)) blockNumber
    (DecodeGetAssetMethodOutput (vault_Codec c)).
Definition GetAssetPrecision {R} (c : ChildVault) (blockNumber : bigint)
    : prog (cre_eff R) bigint :=
  read_contract (vault_client c) (vault_Address c)
    (EncodeGetAssetPrecisionMethodCall (vault_Codec c)) blockNumber
    (DecodeGetAssetPrecisionMethodOutput (vault_Codec c)).
Definition GetCCVsAndFinalityConfig {R} (c : ChildVault) (args : GetCCVsAndFinalityConfigInput) (blockNumber : bigint)
    : prog (cre_eff R) GetCCVsAndFinalityConfigOutput :=
  read_contract (vault_client c) (vault_Address c)
    (EncodeGetCCVsAndFinalityConfigMethodCall (vault_Codec c) args) blockNumber
    (DecodeGetCCVsAndFinalityConfigMethodOutput (vault_Codec c)).
Definition GetCcipGasLimit {R} (c : ChildVault) (args : GetCcipGasLimitInput) (blockNumber : bigint)
    : prog (cre_eff R) bigint :=
  read_contract (vault_client c) (vault_Address c)
    (EncodeGetCcipGasLimitMethodCall (vault_Codec c) args) blockNumber
    (DecodeGetCcipGasLimitMethodOutput (vault_Codec c)).
Definition GetCcipSendRecovery {R} (c : ChildVault) (blockNumber : bigint)
    : prog (cre_eff R) TypesCcipSendRecovery :=
  read_contract (vault_client c) (vault_Address c)
    (EncodeGetCcipSendRecoveryMethodCall (vault_Codec c)) blockNumber
    (DecodeGetCcipSendRecoveryMethodOutput (vault_Codec c)).
Definition GetCrosschainVault {R} (c : ChildVault) (args : GetCrosschainVaultInput) (blockNumber : bigint)
    : prog (cre_eff R) Address :=
  read_contract (vault_client c) (vault_Address c)
    (EncodeGetCrosschainVaultMethodCall (vault_Codec c) args) blockNumber
    (DecodeGetCrosschainVaultMethodOutput (vault_Codec c)).
Definition GetDefaultCcipGasLimit {R} (c : ChildVault) (blockNumber : bigint)
    : prog (cre_eff R) bigint :=
  read_contract (vault_client c) (vault_Address c)
    (EncodeGetDefaultCcipGasLimitMethodCall (vault_Codec c)) blockNumber
    (DecodeGetDefaultCcipGasLimitMethodOutput (vault_Codec c)).
Definition GetEpochDepositRecovery {R} (c : ChildVault) (blockNumber : bigint)
    : prog (cre_eff R) TypesEpochRecovery :=
  read_contract (vault_client c) (vault_Address c)
    (EncodeGetEpochDepositRecoveryMethodCall (vault_Codec c)) blockNumber
    (DecodeGetEpochDepositRecoveryMethodOutput (vault_Codec c)).
Definition GetEpochWithdrawRecovery {R} (c : ChildVault) (blockNumber : bigint)
    : prog (cre_eff R) TypesEpochRecovery :=
  read_contract (vault_client c) (vault_Address c)
    (EncodeGetEpochWithdrawRecoveryMethodCall (vault_Codec c)) blockNumber
    (DecodeGetEpochWithdrawRecoveryMethodOutput (vault_Codec c)).
Definition GetLastHandledEpochNonce {R} (c : ChildVault) (blockNumber : bigint)
    : prog (cre_eff R) bigint :=
  read_contract (vault_client c) (vault_Address c)
    (EncodeGetLastHandledEpochNonceMethodCall (vault_Codec c)) blockNumber
    (DecodeGetLastHandledEpochNonceMethodOutput (vault_Codec c)).
Definition GetLastHandledRebalanceNonce {R} (c : ChildVault) (blockNumber : bigint)
    : prog (cre_eff R) bigint :=
  read_contract (vault_client c) (vault_Address c)
    (EncodeGetLastHandledRebalanceNonceMethodCall (vault_Codec c)) blockNumber
    (DecodeGetLastHandledRebalanceNonceMethodOutput (vault_Codec c)).
Definition GetLink {R} (c : ChildVault) (blockNumber : bigint)
    : prog (cre_eff R) Address :=
  read_contract (vault_client c) (vault_Address c)
    (EncodeGetLinkMethodCall (vault_Codec c)) blockNumber
    (DecodeGetLinkMethodOutput (vault_Codec c)).
Definition GetParentChainSelector {R} (c : ChildVault) (blockNumber : bigint)
    : prog (cre_eff R) Z :=
  read_contract (vault_client c) (vault_Address c)
    (EncodeGetParentChainSelectorMethodCall (vault_Codec c)) blockNumber
    (DecodeGetParentChainSelectorMethodOutput (vault_Codec c)).
Definition GetRebalanceDepositRecovery {R} (c : ChildVault) (blockNumber : bigint)
    : prog (cre_eff R) TypesRebalanceDepositRecovery :=
  read_contract (vault_client c) (vault_Address c)
    (EncodeGetRebalanceDepositRecoveryMethodCall (vault_Codec c)) blockNumber
    (DecodeGetRebalanceDepositRecoveryMethodOutput (vault_Codec c)).
Definition GetRebalanceWithdrawRecovery {R} (c : ChildVault) (blockNumber : bigint)
    : prog (cre_eff R) TypesRebalanceWithdrawRecovery :=
  read_contract (vault_client c) (vault_Address c)
    (EncodeGetRebalanceWithdrawRecoveryMethodCall (vault_Codec c)) blockNumber
    (DecodeGetRebalanceWithdrawRecoveryMethodOutput (vault_Codec c)).
Definition GetRecoveryMode {R} (c : ChildVault) (blockNumber : bigint)
    : prog (cre_eff R) Z :=
  read_contract (vault_client c) (vault_Address c)
    (EncodeGetRecoveryModeMethodCall (vault_Codec c)) blockNumber
    (DecodeGetRecoveryModeMethodOutput (vault_Codec c)).
Definition GetRoleAdmin {R} (c : ChildVault) (args : GetRoleAdminInput) (blockNumber : bigint)
    : prog (cre_eff R) bytes :=
  read_contract (vault_client c) (vault_Address c)
    (EncodeGetRoleAdminMethodCall (vault_Codec c) args) blockNumber
    (DecodeGetRoleAdminMethodOutput (vault_Codec c)).
Definition GetRouter {R} (c : ChildVault) (blockNumber : bigint)
    : prog (cre_eff R) Address :=
  read_contract (vault_client c) (vault_Address c)
    (EncodeGetRouterMethodCall (vault_Codec c)) blockNumber
    (DecodeGetRouterMethodOutput (vault_Codec c)).
Definition GetTVL {R} (c : ChildVault) (blockNumber : bigint)
    : prog (cre_eff R) bigint :=
  read_contract (vault_client c) (vault_Address c)
    (EncodeGetTVLMethodCall (vault_Codec c)) blockNumber
    (DecodeGetTVLMethodOutput (vault_Codec c)).
Definition GetThisChainSelector {R} (c : ChildVault) (blockNumber : bigint)
    : prog (cre_eff R) Z :=
  read_contract (vault_client c) (vault_Address c)
    (EncodeGetThisChainSelectorMethodCall (vault_Codec c)) blockNumber
    (DecodeGetThisChainSelectorMethodOutput (vault_Codec c)).
Definition HasRole {R} (c : ChildVault) (args : HasRoleInput) (blockNumber : bigint)
    : prog (cre_eff R) bool :=
  read_contract (vault_client c) (vault_Address c)
    (EncodeHasRoleMethodCall (vault_Codec c) args) blockNumber
    (DecodeHasRoleMethodOutput (vault_Codec c)).
Definition Owner {R} (c : ChildVault) (blockNumber : bigint)
    : prog (cre_eff R) Address :=
  read_contract (vault_client c) (vault_Address c)
    (EncodeOwnerMethodCall (vault_Codec c)) blockNumber
    (DecodeOwnerMethodOutput (vault_Codec c)).
Definition Paused {R} (c : ChildVault) (blockNumber : bigint)
    : prog (cre_eff R) bool :=
  read_contract (vault_client c) (vault_Address c)
    (EncodePausedMethodCall (vault_Codec c)) blockNumber
    (DecodePausedMethodOutput (vault_Codec c)).
Definition PendingDefaultAdmin {R} (c : ChildVault) (blockNumber : bigint)
    : prog (cre_eff R) PendingDefaultAdminOutput :=
  read_contract (vault_client c) (vault_Address c)
    (EncodePendingDefaultAdminMethodCall (vault_Codec c)) blockNumber
    (DecodePendingDefaultAdminMethodOutput (vault_Codec c)).
Definition PendingDefaultAdminDelay {R} (c : ChildVault) (blockNumber : bigint)
    : prog (cre_eff R) PendingDefaultAdminDelayOutput :=
  read_contract (vault_client c) (vault_Address c)
    (EncodePendingDefaultAdminDelayMethodCall (vault_Codec c)) blockNumber
    (DecodePendingDefaultAdminDelayMethodOutput (vault_Codec c)).
Definition ProxiableUUID {R} (c : ChildVault) (blockNumber : bigint)
    : prog (cre_eff R) bytes :=
  read_contract (vault_client c) (vault_Address c)
    (EncodeProxiableUUIDMethodCall (vault_Codec c)) blockNumber
    (DecodeProxiableUUIDMethodOutput (vault_Codec c)).

(** ** Reports *)
Definition WriteReport {R} (c : ChildVault) (report : option Report) (gasConfig : option GasConfig)
    : prog (cre_eff R) (option WriteReportReply) :=
  write_report (vault_client c) (vault_Address c) report gasConfig.
Definition WriteReportFromBaseVaultConstructorParams {R} (c : ChildVault) (input : BaseVaultConstructorParams)
    (gasConfig : option GasConfig) : prog (cre_eff R) (option WriteReportReply) :=
  write_report_from (vault_client c) (vault_Address c)
    (EncodeBaseVaultConstructorParamsStruct input) gasConfig.
Definition WriteReportFromBaseVaultInitParams {R} (c : ChildVault) (input : BaseVaultInitParams)
    (gasConfig : option GasConfig) : prog (cre_eff R) (option WriteReportReply) :=
  write_report_from (vault_client c) (vault_Address c)
    (EncodeBaseVaultInitParamsStruct input) gasConfig.
Definition WriteReportFromClientAny2EVMMessage {R} (c : ChildVault) (input : ClientAny2EVMMessage)
    (gasConfig : option GasConfig) : prog (cre_eff R) (option WriteReportReply) :=
  write_report_from (vault_client c) (vault_Address c)
    (EncodeClientAny2EVMMessageStruct input) gasConfig.
Definition WriteReportFromClientEVMTokenAmount {R} (c : ChildVault) (input : ClientEVMTokenAmount)
    (gasConfig : option GasConfig) : prog (cre_eff R) (option WriteReportReply) :=
  write_report_from (vault_client c) (vault_Address c)
    (EncodeClientEVMTokenAmountStruct input) gasConfig.
Definition WriteReportFromTypesCcipSendRecovery {R} (c : ChildVault) (input : TypesCcipSendRecovery)
    (gasConfig : option GasConfig) : prog (cre_eff R) (option WriteReportReply) :=
  write_report_from (vault_client c) (vault_Address c)
    (EncodeTypesCcipSendRecoveryStruct input) gasConfig.
Definition WriteReportFromTypesChildOperationalState {R} (c : ChildVault) (input : TypesChildOperationalState)
    (gasConfig : option GasConfig) : prog (cre_eff R) (option WriteReportReply) :=
  write_report_from (vault_client c) (vault_Address c)
    (EncodeTypesChildOperationalStateStruct input) gasConfig.
Definition WriteReportFromTypesEpochRecovery {R} (c : ChildVault) (input : TypesEpochRecovery)
    (gasConfig : option GasConfig) : prog (cre_eff R) (option WriteReportReply) :=
  write_report_from (vault_client c) (vault_Address c)
    (EncodeTypesEpochRecoveryStruct input) gasConfig.
Definition WriteReportFromTypesRebalanceDepositRecovery {R} (c : ChildVault) (input : TypesRebalanceDepositRecovery)
    (gasConfig : option GasConfig) : prog (cre_eff R) (option WriteReportReply) :=
  write_report_from (vault_client c) (vault_Address c)
    (EncodeTypesRebalanceDepositRecoveryStruct input) gasConfig.
Definition WriteReportFromTypesRebalanceWithdrawRecovery {R} (c : ChildVault) (input : TypesRebalanceWithdrawRecovery)
    (gasConfig : option GasConfig) : prog (cre_eff R) (option WriteReportReply) :=
  write_report_from (vault_client c) (vault_Address c)
    (EncodeTypesRebalanceWithdrawRecoveryStruct input) gasConfig.
Definition WriteReportFromTypesStrategy {R} (c : ChildVault) (input : TypesStrategy)
    (gasConfig : option GasConfig) : prog (cre_eff R) (option WriteReportReply) :=
  write_report_from (vault_client c) (vault_Address c)
    (EncodeTypesStrategyStruct input) gasConfig.
End Methods.

(** ** All calls, outputs and reads *)
Inductive vault_call : Type :=
| CDEFAULTADMINROLE
| CUPGRADEINTERFACEVERSION
| CAcceptDefaultAdminTransfer
| CBeginDefaultAdminTransfer (i : BeginDefaultAdminTransferInput)
| CCancelDefaultAdminTransfer
| CCcipReceive (i : CcipReceiveInput)
| CChangeDefaultAdminDelay (i : ChangeDefaultAdminDelayInput)
| CDefaultAdmin
| CDefaultAdminDelay
| CDefaultAdminDelayIncreaseWait
| CExecuteEpochWithdraw (i : ExecuteEpochWithdrawInput)
| CExecuteRebalance (i : ExecuteRebalanceInput)
| CExecuteRecovery
| CGetActiveProtocolAdapter
| CGetAdapterRegistry
| CGetAsset
| CGetAssetPrecision
| CGetCCVsAndFinalityConfig (i : GetCCVsAndFinalityConfigInput)
| CGetCcipGasLimit (i : GetCcipGasLimitInput)
| CGetCcipSendRecovery
| CGetChildOperationalState
| CGetCrosschainVault (i : GetCrosschainVaultInput)
| CGetDefaultCcipGasLimit
| CGetEpochDepositRecovery
| CGetEpochWithdrawRecovery
| CGetLastHandledEpochNonce
| CGetLastHandledRebalanceNonce
| CGetLink
| CGetParentChainSelector
| CGetRebalanceDepositRecovery
| CGetRebalanceWithdrawRecovery
| CGetRecoveryMode
| CGetRoleAdmin (i : GetRoleAdminInput)
| CGetRouter
| CGetTVL
| CGetThisChainSelector
| CGrantRole (i : GrantRoleInput)
| CHasRole (i : HasRoleInput)
| CInitialize (i : InitializeInput)
| COwner
| CPause
| CPaused
| CPendingDefaultAdmin
| CPendingDefaultAdminDelay
| CProxiableUUID
| CRenounceRole (i : RenounceRoleInput)
| CRevokeRole (i : RevokeRoleInput)
| CRollbackDefaultAdminDelay
| CSetCcipGasLimit (i : SetCcipGasLimitInput)
| CSetCrosschainVaults (i : SetCrosschainVaultsInput)
| CSetDefaultCcipGasLimit (i : SetDefaultCcipGasLimitInput)
| CSupportsInterface (i : SupportsInterfaceInput)
| CTryCcipSend (i : TryCcipSendInput)
| CTryDepositToAdapter (i : TryDepositToAdapterInput)
| CUnpause
| CUpgradeToAndCall (i : UpgradeToAndCallInput)
| CWithdrawLink (i : WithdrawLinkInput).

(** The ABI name of the method and the named arguments. *)
Definition describe (x : vault_call) : string * list (string * abi_value) :=
  match x with
  | CDEFAULTADMINROLE => ("DEFAULT_ADMIN_ROLE"%string, [])
  | CUPGRADEINTERFACEVERSION => ("UPGRADE_INTERFACE_VERSION"%string, [])
  | CAcceptDefaultAdminTransfer => ("acceptDefaultAdminTransfer"%string, [])
  | CBeginDefaultAdminTransfer i => ("beginDefaultAdminTransfer"%string, [
      ("newAdmin"%string, VFixed (BeginDefaultAdminTransfer_NewAdmin i))])
  | CCancelDefaultAdminTransfer => ("cancelDefaultAdminTransfer"%string, [])
  | CCcipReceive i => ("ccipReceive"%string, [
      ("message"%string, ClientAny2EVMMessage_value (CcipReceive_Message i))])
  | CChangeDefaultAdminDelay i => ("changeDefaultAdminDelay"%string, [
      ("newDelay"%string, VBig (ChangeDefaultAdminDelay_NewDelay i))])
  | CDefaultAdmin => ("defaultAdmin"%string, [])
  | CDefaultAdminDelay => ("defaultAdminDelay"%string, [])
  | CDefaultAdminDelayIncreaseWait => ("defaultAdminDelayIncreaseWait"%string, [])
  | CExecuteEpochWithdraw i => ("executeEpochWithdraw"%string, [
      ("epochNonce"%string, VBig (ExecuteEpochWithdraw_EpochNonce i));
      ("amount"%string, VBig (ExecuteEpochWithdraw_Amount i))])
  | CExecuteRebalance i => ("executeRebalance"%string, [
      ("rebalanceNonce"%string, VBig (ExecuteRebalance_RebalanceNonce i));
      ("newStrategy"%string, strategy_value (ExecuteRebalance_NewStrategy i))])
  | CExecuteRecovery => ("executeRecovery"%string, [])
  | CGetActiveProtocolAdapter => ("getActiveProtocolAdapter"%string, [])
  | CGetAdapterRegistry => ("getAdapterRegistry"%string, [])
  | CGetAsset => ("getAsset"%string, [])
  | CGetAssetPrecision => ("getAssetPrecision"%string, [])
  | CGetCCVsAndFinalityConfig i => ("getCCVsAndFinalityConfig"%string, [
      (EmptyString, VUint (GetCCVsAndFinalityConfig_Arg0 i));
      (EmptyString, VBytes (GetCCVsAndFinalityConfig_Arg1 i))])
  | CGetCcipGasLimit i => ("getCcipGasLimit"%string, [
      ("chainSelector"%string, VUint (GetCcipGasLimit_ChainSelector i))])
  | CGetCcipSendRecovery => ("getCcipSendRecovery"%string, [])
  | CGetChildOperationalState => ("getChildOperationalState"%string, [])
  | CGetCrosschainVault i => ("getCrosschainVault"%string, [
      ("chainSelector"%string, VUint (GetCrosschainVault_ChainSelector i))])
  | CGetDefaultCcipGasLimit => ("getDefaultCcipGasLimit"%string, [])
  | CGetEpochDepositRecovery => ("getEpochDepositRecovery"%string, [])
  | CGetEpochWithdrawRecovery => ("getEpochWithdrawRecovery"%string, [])
  | CGetLastHandledEpochNonce => ("getLastHandledEpochNonce"%string, [])
  | CGetLastHandledRebalanceNonce => ("getLastHandledRebalanceNonce"%string, [])
  | CGetLink => ("getLink"%string, [])
  | CGetParentChainSelector => ("getParentChainSelector"%string, [])
  | CGetRebalanceDepositRecovery => ("getRebalanceDepositRecovery"%string, [])
  | CGetRebalanceWithdrawRecovery => ("getRebalanceWithdrawRecovery"%string, [])
  | CGetRecoveryMode => ("getRecoveryMode"%string, [])
  | CGetRoleAdmin i => ("getRoleAdmin"%string, [("role"%string, VFixed (GetRoleAdmin_Role i))])
  | CGetRouter => ("getRouter"%string, [])
  | CGetTVL => ("getTVL"%string, [])
  | CGetThisChainSelector => ("getThisChainSelector"%string, [])
  | CGrantRole i => ("grantRole"%string, [
      ("role"%string, VFixed (GrantRole_Role i));
      ("account"%string, VFixed (GrantRole_Account i))])
  | CHasRole i => ("hasRole"%string, [
      ("role"%string, VFixed (HasRole_Role i)); ("account"%string, VFixed (HasRole_Account i))])
  | CInitialize i => ("initialize"%string, [
      ("params"%string, BaseVaultInitParams_value (Initialize_Params i))])
  | COwner => ("owner"%string, [])
  | CPause => ("pause"%string, [])
  | CPaused => ("paused"%string, [])
  | CPendingDefaultAdmin => ("pendingDefaultAdmin"%string, [])
  | CPendingDefaultAdminDelay => ("pendingDefaultAdminDelay"%string, [])
  | CProxiableUUID => ("proxiableUUID"%string, [])
  | CRenounceRole i => ("renounceRole"%string, [
      ("role"%string, VFixed (RenounceRole_Role i));
      ("account"%string, VFixed (RenounceRole_Account i))])
  | CRevokeRole i => ("revokeRole"%string, [
      ("role"%string, VFixed (RevokeRole_Role i));
      ("account"%string, VFixed (RevokeRole_Account i))])
  | CRollbackDefaultAdminDelay => ("rollbackDefaultAdminDelay"%string, [])
  | CSetCcipGasLimit i => ("setCcipGasLimit"%string, [
      ("chainSelector"%string, VUint (SetCcipGasLimit_ChainSelector i));
      ("gasLimit"%string, VBig (SetCcipGasLimit_GasLimit i))])
  | CSetCrosschainVaults i => ("setCrosschainVaults"%string, [
      ("chainSelectors"%string, VSlice (VUint <$> (SetCrosschainVaults_ChainSelectors i)));
      ("vaults"%string, VSlice (VFixed <$> (SetCrosschainVaults_Vaults i)))])
  | CSetDefaultCcipGasLimit i => ("setDefaultCcipGasLimit"%string, [
      ("gasLimit"%string, VBig (SetDefaultCcipGasLimit_GasLimit i))])
  | CSupportsInterface i => ("supportsInterface"%string, [
      ("interfaceId"%string, VFixed (SupportsInterface_InterfaceId i))])
  | CTryCcipSend i => ("tryCcipSend"%string, [
      ("bridgeAmount"%string, VBig (TryCcipSend_BridgeAmount i));
      ("destinationChainSelector"%string, VUint (TryCcipSend_DestinationChainSelector i));
      ("ccipTxType"%string, VUint (TryCcipSend_CcipTxType i));
      ("nonce"%string, VBig (TryCcipSend_Nonce i));
      ("protocolId"%string, VFixed (TryCcipSend_ProtocolId i))])
  | CTryDepositToAdapter i => ("tryDepositToAdapter"%string, [
      ("adapter"%string, VFixed (TryDepositToAdapter_Adapter i));
      ("amount"%string, VBig (TryDepositToAdapter_Amount i))])
  | CUnpause => ("unpause"%string, [])
  | CUpgradeToAndCall i => ("upgradeToAndCall"%string, [
      ("newImplementation"%string, VFixed (UpgradeToAndCall_NewImplementation i));
      ("data"%string, VBytes (UpgradeToAndCall_Data i))])
  | CWithdrawLink i => ("withdrawLink"%string, [("amount"%string, VBig (WithdrawLink_Amount i))])
  end.
Definition encode_call `{GoEthereum} (c : Codec) (x : vault_call) : res bytes :=
  match x with
  | CDEFAULTADMINROLE => EncodeDEFAULTADMINROLEMethodCall c
  | CUPGRADEINTERFACEVERSION => EncodeUPGRADEINTERFACEVERSIONMethodCall c
  | CAcceptDefaultAdminTransfer => EncodeAcceptDefaultAdminTransferMethodCall c
  | CBeginDefaultAdminTransfer i => EncodeBeginDefaultAdminTransferMethodCall c i
  | CCancelDefaultAdminTransfer => EncodeCancelDefaultAdminTransferMethodCall c
  | CCcipReceive i => EncodeCcipReceiveMethodCall c i
  | CChangeDefaultAdminDelay i => EncodeChangeDefaultAdminDelayMethodCall c i
  | CDefaultAdmin => EncodeDefaultAdminMethodCall c
  | CDefaultAdminDelay => EncodeDefaultAdminDelayMethodCall c
  | CDefaultAdminDelayIncreaseWait => EncodeDefaultAdminDelayIncreaseWaitMethodCall c
  | CExecuteEpochWithdraw i => EncodeExecuteEpochWithdrawMethodCall c i
  | CExecuteRebalance i => EncodeExecuteRebalanceMethodCall c i
  | CExecuteRecovery => EncodeExecuteRecoveryMethodCall c
  | CGetActiveProtocolAdapter => EncodeGetActiveProtocolAdapterMethodCall c
  | CGetAdapterRegistry => EncodeGetAdapterRegistryMethodCall c
  | CGetAsset => EncodeGetAssetMethodCall c
  | CGetAssetPrecision => EncodeGetAssetPrecisionMethodCall c
  | CGetCCVsAndFinalityConfig i => EncodeGetCCVsAndFinalityConfigMethodCall c i
  | CGetCcipGasLimit i => EncodeGetCcipGasLimitMethodCall c i
  | CGetCcipSendRecovery => EncodeGetCcipSendRecoveryMethodCall c
  | CGetChildOperationalState => EncodeGetChildOperationalStateMethodCall c
  | CGetCrosschainVault i => EncodeGetCrosschainVaultMethodCall c i
  | CGetDefaultCcipGasLimit => EncodeGetDefaultCcipGasLimitMethodCall c
  | CGetEpochDepositRecovery => EncodeGetEpochDepositRecoveryMethodCall c
  | CGetEpochWithdrawRecovery => EncodeGetEpochWithdrawRecoveryMethodCall c
  | CGetLastHandledEpochNonce => EncodeGetLastHandledEpochNonceMethodCall c
  | CGetLastHandledRebalanceNonce => EncodeGetLastHandledRebalanceNonceMethodCall c
  | CGetLink => EncodeGetLinkMethodCall c
  | CGetParentChainSelector => EncodeGetParentChainSelectorMethodCall c
  | CGetRebalanceDepositRecovery => EncodeGetRebalanceDepositRecoveryMethodCall c
  | CGetRebalanceWithdrawRecovery => EncodeGetRebalanceWithdrawRecoveryMethodCall c
  | CGetRecoveryMode => EncodeGetRecoveryModeMethodCall c
  | CGetRoleAdmin i => EncodeGetRoleAdminMethodCall c i
  | CGetRouter => EncodeGetRouterMethodCall c
  | CGetTVL => EncodeGetTVLMethodCall c
  | CGetThisChainSelector => EncodeGetThisChainSelectorMethodCall c
  | CGrantRole i => EncodeGrantRoleMethodCall c i
  | CHasRole i => EncodeHasRoleMethodCall c i
  | CInitialize i => EncodeInitializeMethodCall c i
  | COwner => EncodeOwnerMethodCall c
  | CPause => EncodePauseMethodCall c
  | CPaused => EncodePausedMethodCall c
  | CPendingDefaultAdmin => EncodePendingDefaultAdminMethodCall c
  | CPendingDefaultAdminDelay => EncodePendingDefaultAdminDelayMethodCall c
  | CProxiableUUID => EncodeProxiableUUIDMethodCall c
  | CRenounceRole i => EncodeRenounceRoleMethodCall c i
  | CRevokeRole i => EncodeRevokeRoleMethodCall c i
  | CRollbackDefaultAdminDelay => EncodeRollbackDefaultAdminDelayMethodCall c
  | CSetCcipGasLimit i => EncodeSetCcipGasLimitMethodCall c i
  | CSetCrosschainVaults i => EncodeSetCrosschainVaultsMethodCall c i
  | CSetDefaultCcipGasLimit i => EncodeSetDefaultCcipGasLimitMethodCall c i
  | CSupportsInterface i => EncodeSupportsInterfaceMethodCall c i
  | CTryCcipSend i => EncodeTryCcipSendMethodCall c i
  | CTryDepositToAdapter i => EncodeTryDepositToAdapterMethodCall c i
  | CUnpause => EncodeUnpauseMethodCall c
  | CUpgradeToAndCall i => EncodeUpgradeToAndCallMethodCall c i
  | CWithdrawLink i => EncodeWithdrawLinkMethodCall c i
  end.

Inductive vault_output : Type :=
| ODEFAULTADMINROLE (v : bytes)
| OUPGRADEINTERFACEVERSION (v : string)
| ODefaultAdmin (v : Address)
| ODefaultAdminDelay (v : bigint)
| ODefaultAdminDelayIncreaseWait (v : bigint)
| OGetActiveProtocolAdapter (v : Address)
| OGetAdapterRegistry (v : Address)
| OGetAsset (v : Address)
| OGetAssetPrecision (v : bigint)
| OGetCCVsAndFinalityConfig (v : GetCCVsAndFinalityConfigOutput)
| OGetCcipGasLimit (v : bigint)
| OGetCcipSendRecovery (v : TypesCcipSendRecovery)
| OGetChildOperationalState (v : TypesChildOperationalState)
| OGetCrosschainVault (v : Address)
| OGetDefaultCcipGasLimit (v : bigint)
| OGetEpochDepositRecovery (v : TypesEpochRecovery)
| OGetEpochWithdrawRecovery (v : TypesEpochRecovery)
| OGetLastHandledEpochNonce (v : bigint)
| OGetLastHandledRebalanceNonce (v : bigint)
| OGetLink (v : Address)
| OGetParentChainSelector (v : Z)
| OGetRebalanceDepositRecovery (v : TypesRebalanceDepositRecovery)
| OGetRebalanceWithdrawRecovery (v : TypesRebalanceWithdrawRecovery)
| OGetRecoveryMode (v : Z)
| OGetRoleAdmin (v : bytes)
| OGetRouter (v : Address)
| OGetTVL (v : bigint)
| OGetThisChainSelector (v : Z)
| OHasRole (v : bool)
| OOwner (v : Address)
| OPaused (v : bool)
| OPendingDefaultAdmin (v : PendingDefaultAdminOutput)
| OPendingDefaultAdminDelay (v : PendingDefaultAdminDelayOutput)
| OProxiableUUID (v : bytes)
| OSupportsInterface (v : bool).

(** The ABI name of the method and its output values. *)
Definition output_values_of (x : vault_output) : string * list abi_value :=
  match x with
  | ODEFAULTADMINROLE v => ("DEFAULT_ADMIN_ROLE"%string, [VFixed v])
  | OUPGRADEINTERFACEVERSION v => ("UPGRADE_INTERFACE_VERSION"%string, [VString v])
  | ODefaultAdmin v => ("defaultAdmin"%string, [VFixed v])
  | ODefaultAdminDelay v => ("defaultAdminDelay"%string, [VBig v])
  | ODefaultAdminDelayIncreaseWait v => ("defaultAdminDelayIncreaseWait"%string, [VBig v])
  | OGetActiveProtocolAdapter v => ("getActiveProtocolAdapter"%string, [VFixed v])
  | OGetAdapterRegistry v => ("getAdapterRegistry"%string, [VFixed v])
  | OGetAsset v => ("getAsset"%string, [VFixed v])
  | OGetAssetPrecision v => ("getAssetPrecision"%string, [VBig v])
  | OGetCCVsAndFinalityConfig v => ("getCCVsAndFinalityConfig"%string, [
      VSlice (VFixed <$> (GetCCVsAndFinalityConfigOutput_RequiredCCVs v));
      VSlice (VFixed <$> (GetCCVsAndFinalityConfigOutput_OptionalCCVs v));
      VUint (GetCCVsAndFinalityConfigOutput_OptionalThreshold v);
      VFixed (GetCCVsAndFinalityConfigOutput_AllowedFinalityConfig v)])
  | OGetCcipGasLimit v => ("getCcipGasLimit"%string, [VBig v])
  | OGetCcipSendRecovery v => ("getCcipSendRecovery"%string, [TypesCcipSendRecovery_value v])
  | OGetChildOperationalState v => ("getChildOperationalState"%string, [
      TypesChildOperationalState_value v])
  | OGetCrosschainVault v => ("getCrosschainVault"%string, [VFixed v])
  | OGetDefaultCcipGasLimit v => ("getDefaultCcipGasLimit"%string, [VBig v])
  | OGetEpochDepositRecovery v => ("getEpochDepositRecovery"%string, [TypesEpochRecovery_value v])
  | OGetEpochWithdrawRecovery v => ("getEpochWithdrawRecovery"%string, [TypesEpochRecovery_value v])
  | OGetLastHandledEpochNonce v => ("getLastHandledEpochNonce"%string, [VBig v])
  | OGetLastHandledRebalanceNonce v => ("getLastHandledRebalanceNonce"%string, [VBig v])
  | OGetLink v => ("getLink"%string, [VFixed v])
  | OGetParentChainSelector v => ("getParentChainSelector"%string, [VUint v])
  | OGetRebalanceDepositRecovery v => ("getRebalanceDepositRecovery"%string, [
      TypesRebalanceDepositRecovery_value v])
  | OGetRebalanceWithdrawRecovery v => ("getRebalanceWithdrawRecovery"%string, [
      TypesRebalanceWithdrawRecovery_value v])
  | OGetRecoveryMode v => ("getRecoveryMode"%string, [VUint v])
  | OGetRoleAdmin v => ("getRoleAdmin"%string, [VFixed v])
  | OGetRouter v => ("getRouter"%string, [VFixed v])
  | OGetTVL v => ("getTVL"%string, [VBig v])
  | OGetThisChainSelector v => ("getThisChainSelector"%string, [VUint v])
  | OHasRole v => ("hasRole"%string, [VBool v])
  | OOwner v => ("owner"%string, [VFixed v])
  | OPaused v => ("paused"%string, [VBool v])
  | OPendingDefaultAdmin v => ("pendingDefaultAdmin"%string, [
      VFixed (PendingDefaultAdminOutput_NewAdmin v); VBig (PendingDefaultAdminOutput_Schedule v)])
  | OPendingDefaultAdminDelay v => ("pendingDefaultAdminDelay"%string, [
      VBig (PendingDefaultAdminDelayOutput_NewDelay v);
      VBig (PendingDefaultAdminDelayOutput_Schedule v)])
  | OProxiableUUID v => ("proxiableUUID"%string, [VFixed v])
  | OSupportsInterface v => ("supportsInterface"%string, [VBool v])
  end.

(** Decoding with the decoder of the method that [x] is an output of. *)
Definition decode_like `{GoEthereum} (x : vault_output) (c : Codec) (data : bytes)
    : res vault_output :=
  match x with
  | ODEFAULTADMINROLE _ => ODEFAULTADMINROLE <$> DecodeDEFAULTADMINROLEMethodOutput c data
  | OUPGRADEINTERFACEVERSION _ => OUPGRADEINTERFACEVERSION <$> DecodeUPGRADEINTERFACEVERSIONMethodOutput c data
  | ODefaultAdmin _ => ODefaultAdmin <$> DecodeDefaultAdminMethodOutput c data
  | ODefaultAdminDelay _ => ODefaultAdminDelay <$> DecodeDefaultAdminDelayMethodOutput c data
  | ODefaultAdminDelayIncreaseWait _ => ODefaultAdminDelayIncreaseWait <$> DecodeDefaultAdminDelayIncreaseWaitMethodOutput c data
  | OGetActiveProtocolAdapter _ => OGetActiveProtocolAdapter <$> DecodeGetActiveProtocolAdapterMethodOutput c data
  | OGetAdapterRegistry _ => OGetAdapterRegistry <$> DecodeGetAdapterRegistryMethodOutput c data
  | OGetAsset _ => OGetAsset <$> DecodeGetAssetMethodOutput c data
  | OGetAssetPrecision _ => OGetAssetPrecision <$> DecodeGetAssetPrecisionMethodOutput c data
  | OGetCCVsAndFinalityConfig _ => OGetCCVsAndFinalityConfig <$> DecodeGetCCVsAndFinalityConfigMethodOutput c data
  | OGetCcipGasLimit _ => OGetCcipGasLimit <$> DecodeGetCcipGasLimitMethodOutput c data
  | OGetCcipSendRecovery _ => OGetCcipSendRecovery <$> DecodeGetCcipSendRecoveryMethodOutput c data
  | OGetChildOperationalState _ => OGetChildOperationalState <$> DecodeGetChildOperationalStateMethodOutput c data
  | OGetCrosschainVault _ => OGetCrosschainVault <$> DecodeGetCrosschainVaultMethodOutput c data
  | OGetDefaultCcipGasLimit _ => OGetDefaultCcipGasLimit <$> DecodeGetDefaultCcipGasLimitMethodOutput c data
  | OGetEpochDepositRecovery _ => OGetEpochDepositRecovery <$> DecodeGetEpochDepositRecoveryMethodOutput c data
  | OGetEpochWithdrawRecovery _ => OGetEpochWithdrawRecovery <$> DecodeGetEpochWithdrawRecoveryMethodOutput c data
  | OGetLastHandledEpochNonce _ => OGetLastHandledEpochNonce <$> DecodeGetLastHandledEpochNonceMethodOutput c data
  | OGetLastHandledRebalanceNonce _ => OGetLastHandledRebalanceNonce <$> DecodeGetLastHandledRebalanceNonceMethodOutput c data
  | OGetLink _ => OGetLink <$> DecodeGetLinkMethodOutput c data
  | OGetParentChainSelector _ => OGetParentChainSelector <$> DecodeGetParentChainSelectorMethodOutput c data
  | OGetRebalanceDepositRecovery _ => OGetRebalanceDepositRecovery <$> DecodeGetRebalanceDepositRecoveryMethodOutput c data
  | OGetRebalanceWithdrawRecovery _ => OGetRebalanceWithdrawRecovery <$> DecodeGetRebalanceWithdrawRecoveryMethodOutput c data
  | OGetRecoveryMode _ => OGetRecoveryMode <$> DecodeGetRecoveryModeMethodOutput c data
  | OGetRoleAdmin _ => OGetRoleAdmin <$> DecodeGetRoleAdminMethodOutput c data
  | OGetRouter _ => OGetRouter <$> DecodeGetRouterMethodOutput c data
  | OGetTVL _ => OGetTVL <$> DecodeGetTVLMethodOutput c data
  | OGetThisChainSelector _ => OGetThisChainSelector <$> DecodeGetThisChainSelectorMethodOutput c data
  | OHasRole _ => OHasRole <$> DecodeHasRoleMethodOutput c data
  | OOwner _ => OOwner <$> DecodeOwnerMethodOutput c data
  | OPaused _ => OPaused <$> DecodePausedMethodOutput c data
  | OPendingDefaultAdmin _ => OPendingDefaultAdmin <$> DecodePendingDefaultAdminMethodOutput c data
  | OPendingDefaultAdminDelay _ => OPendingDefaultAdminDelay <$> DecodePendingDefaultAdminDelayMethodOutput c data
  | OProxiableUUID _ => OProxiableUUID <$> DecodeProxiableUUIDMethodOutput c data
  | OSupportsInterface _ => OSupportsInterface <$> DecodeSupportsInterfaceMethodOutput c data
  end.

Inductive vault_read : Type :=
| RDEFAULTADMINROLE
| RUPGRADEINTERFACEVERSION
| RDefaultAdmin
| RDefaultAdminDelay
| RDefaultAdminDelayIncreaseWait
| RGetActiveProtocolAdapter
| RGetAdapterRegistry
| RGetAsset
| RGetAssetPrecision
| RGetCCVsAndFinalityConfig (i : GetCCVsAndFinalityConfigInput)
| RGetCcipGasLimit (i : GetCcipGasLimitInput)
| RGetCcipSendRecovery
| RGetChildOperationalState
| RGetCrosschainVault (i : GetCrosschainVaultInput)
| RGetDefaultCcipGasLimit
| RGetEpochDepositRecovery
| RGetEpochWithdrawRecovery
| RGetLastHandledEpochNonce
| RGetLastHandledRebalanceNonce
| RGetLink
| RGetParentChainSelector
| RGetRebalanceDepositRecovery
| RGetRebalanceWithdrawRecovery
| RGetRecoveryMode
| RGetRoleAdmin (i : GetRoleAdminInput)
| RGetRouter
| RGetTVL
| RGetThisChainSelector
| RHasRole (i : HasRoleInput)
| ROwner
| RPaused
| RPendingDefaultAdmin
| RPendingDefaultAdminDelay
| RProxiableUUID.
Definition call_of (r : vault_read) : vault_call :=
  match r with
  | RDEFAULTADMINROLE => CDEFAULTADMINROLE
  | RUPGRADEINTERFACEVERSION => CUPGRADEINTERFACEVERSION
  | RDefaultAdmin => CDefaultAdmin
  | RDefaultAdminDelay => CDefaultAdminDelay
  | RDefaultAdminDelayIncreaseWait => CDefaultAdminDelayIncreaseWait
  | RGetActiveProtocolAdapter => CGetActiveProtocolAdapter
  | RGetAdapterRegistry => CGetAdapterRegistry
  | RGetAsset => CGetAsset
  | RGetAssetPrecision => CGetAssetPrecision
  | RGetCCVsAndFinalityConfig i => CGetCCVsAndFinalityConfig i
  | RGetCcipGasLimit i => CGetCcipGasLimit i
  | RGetCcipSendRecovery => CGetCcipSendRecovery
  | RGetChildOperationalState => CGetChildOperationalState
  | RGetCrosschainVault i => CGetCrosschainVault i
  | RGetDefaultCcipGasLimit => CGetDefaultCcipGasLimit
  | RGetEpochDepositRecovery => CGetEpochDepositRecovery
  | RGetEpochWithdrawRecovery => CGetEpochWithdrawRecovery
  | RGetLastHandledEpochNonce => CGetLastHandledEpochNonce
  | RGetLastHandledRebalanceNonce => CGetLastHandledRebalanceNonce
  | RGetLink => CGetLink
  | RGetParentChainSelector => CGetParentChainSelector
  | RGetRebalanceDepositRecovery => CGetRebalanceDepositRecovery
  | RGetRebalanceWithdrawRecovery => CGetRebalanceWithdrawRecovery
  | RGetRecoveryMode => CGetRecoveryMode
  | RGetRoleAdmin i => CGetRoleAdmin i
  | RGetRouter => CGetRouter
  | RGetTVL => CGetTVL
  | RGetThisChainSelector => CGetThisChainSelector
  | RHasRole i => CHasRole i
  | ROwner => COwner
  | RPaused => CPaused
  | RPendingDefaultAdmin => CPendingDefaultAdmin
  | RPendingDefaultAdminDelay => CPendingDefaultAdminDelay
  | RProxiableUUID => CProxiableUUID
  end.
Definition read `{GoEthereum} {R} (c : ChildVault) (r : vault_read) (bn : bigint)
    : prog (cre_eff R) vault_output :=
  match r with
  | RDEFAULTADMINROLE => v ← DEFAULTADMINROLE c bn; Ret (ODEFAULTADMINROLE v)
  | RUPGRADEINTERFACEVERSION => v ← UPGRADEINTERFACEVERSION c bn; Ret (OUPGRADEINTERFACEVERSION v)
  | RDefaultAdmin => v ← DefaultAdmin c bn; Ret (ODefaultAdmin v)
  | RDefaultAdminDelay => v ← DefaultAdminDelay c bn; Ret (ODefaultAdminDelay v)
  | RDefaultAdminDelayIncreaseWait => v ← DefaultAdminDelayIncreaseWait c bn; Ret (ODefaultAdminDelayIncreaseWait v)
  | RGetActiveProtocolAdapter => v ← GetActiveProtocolAdapter c bn; Ret (OGetActiveProtocolAdapter v)
  | RGetAdapterRegistry => v ← GetAdapterRegistry c bn; Ret (OGetAdapterRegistry v)
  | RGetAsset => v ← GetAsset c bn; Ret (OGetAsset v)
  | RGetAssetPrecision => v ← GetAssetPrecision c bn; Ret (OGetAssetPrecision v)
  | RGetCCVsAndFinalityConfig i => v ← GetCCVsAndFinalityConfig c i bn; Ret (OGetCCVsAndFinalityConfig v)
  | RGetCcipGasLimit i => v ← GetCcipGasLimit c i bn; Ret (OGetCcipGasLimit v)
  | RGetCcipSendRecovery => v ← GetCcipSendRecovery c bn; Ret (OGetCcipSendRecovery v)
  | RGetChildOperationalState => v ← GetChildOperationalState c bn; Ret (OGetChildOperationalState v)
  | RGetCrosschainVault i => v ← GetCrosschainVault c i bn; Ret (OGetCrosschainVault v)
  | RGetDefaultCcipGasLimit => v ← GetDefaultCcipGasLimit c bn; Ret (OGetDefaultCcipGasLimit v)
  | RGetEpochDepositRecovery => v ← GetEpochDepositRecovery c bn; Ret (OGetEpochDepositRecovery v)
  | RGetEpochWithdrawRecovery => v ← GetEpochWithdrawRecovery c bn; Ret (OGetEpochWithdrawRecovery v)
  | RGetLastHandledEpochNonce => v ← GetLastHandledEpochNonce c bn; Ret (OGetLastHandledEpochNonce v)
  | RGetLastHandledRebalanceNonce => v ← GetLastHandledRebalanceNonce c bn; Ret (OGetLastHandledRebalanceNonce v)
  | RGetLink => v ← GetLink c bn; Ret (OGetLink v)
  | RGetParentChainSelector => v ← GetParentChainSelector c bn; Ret (OGetParentChainSelector v)
  | RGetRebalanceDepositRecovery => v ← GetRebalanceDepositRecovery c bn; Ret (OGetRebalanceDepositRecovery v)
  | RGetRebalanceWithdrawRecovery => v ← GetRebalanceWithdrawRecovery c bn; Ret (OGetRebalanceWithdrawRecovery v)
  | RGetRecoveryMode => v ← GetRecoveryMode c bn; Ret (OGetRecoveryMode v)
  | RGetRoleAdmin i => v ← GetRoleAdmin c i bn; Ret (OGetRoleAdmin v)
  | RGetRouter => v ← GetRouter c bn; Ret (OGetRouter v)
  | RGetTVL => v ← GetTVL c bn; Ret (OGetTVL v)
  | RGetThisChainSelector => v ← GetThisChainSelector c bn; Ret (OGetThisChainSelector v)
  | RHasRole i => v ← HasRole c i bn; Ret (OHasRole v)
  | ROwner => v ← Owner c bn; Ret (OOwner v)
  | RPaused => v ← Paused c bn; Ret (OPaused v)
  | RPendingDefaultAdmin => v ← PendingDefaultAdmin c bn; Ret (OPendingDefaultAdmin v)
  | RPendingDefaultAdminDelay => v ← PendingDefaultAdminDelay c bn; Ret (OPendingDefaultAdminDelay v)
  | RProxiableUUID => v ← ProxiableUUID c bn; Ret (OProxiableUUID v)
  end.

Inductive vault_struct : Type :=
| SBaseVaultConstructorParams (s : BaseVaultConstructorParams)
| SBaseVaultInitParams (s : BaseVaultInitParams)
| SClientAny2EVMMessage (s : ClientAny2EVMMessage)
| SClientEVMTokenAmount (s : ClientEVMTokenAmount)
| STypesCcipSendRecovery (s : TypesCcipSendRecovery)
| STypesChildOperationalState (s : TypesChildOperationalState)
| STypesEpochRecovery (s : TypesEpochRecovery)
| STypesRebalanceDepositRecovery (s : TypesRebalanceDepositRecovery)
| STypesRebalanceWithdrawRecovery (s : TypesRebalanceWithdrawRecovery)
| STypesStrategy (s : TypesStrategy).
Definition struct_type (x : vault_struct) : sol_type :=
  match x with
  | SBaseVaultConstructorParams _ => BaseVaultConstructorParams_type
  | SBaseVaultInitParams _ => BaseVaultInitParams_type
  | SClientAny2EVMMessage _ => ClientAny2EVMMessage_type
  | SClientEVMTokenAmount _ => ClientEVMTokenAmount_type
  | STypesCcipSendRecovery _ => TypesCcipSendRecovery_type
  | STypesChildOperationalState _ => TypesChildOperationalState_type
  | STypesEpochRecovery _ => TypesEpochRecovery_type
  | STypesRebalanceDepositRecovery _ => TypesRebalanceDepositRecovery_type
  | STypesRebalanceWithdrawRecovery _ => TypesRebalanceWithdrawRecovery_type
  | STypesStrategy _ => TypesStrategy_type
  end.
Definition struct_value (x : vault_struct) : abi_value :=
  match x with
  | SBaseVaultConstructorParams s => BaseVaultConstructorParams_value s
  | SBaseVaultInitParams s => BaseVaultInitParams_value s
  | SClientAny2EVMMessage s => ClientAny2EVMMessage_value s
  | SClientEVMTokenAmount s => ClientEVMTokenAmount_value s
  | STypesCcipSendRecovery s => TypesCcipSendRecovery_value s
  | STypesChildOperationalState s => TypesChildOperationalState_value s
  | STypesEpochRecovery s => TypesEpochRecovery_value s
  | STypesRebalanceDepositRecovery s => TypesRebalanceDepositRecovery_value s
  | STypesRebalanceWithdrawRecovery s => TypesRebalanceWithdrawRecovery_value s
  | STypesStrategy s => strategy_value s
  end.
Definition encode_vault_struct `{GoAbiTypes} (x : vault_struct) : res bytes :=
  match x with
  | SBaseVaultConstructorParams s => EncodeBaseVaultConstructorParamsStruct s
  | SBaseVaultInitParams s => EncodeBaseVaultInitParamsStruct s
  | SClientAny2EVMMessage s => EncodeClientAny2EVMMessageStruct s
  | SClientEVMTokenAmount s => EncodeClientEVMTokenAmountStruct s
  | STypesCcipSendRecovery s => EncodeTypesCcipSendRecoveryStruct s
  | STypesChildOperationalState s => EncodeTypesChildOperationalStateStruct s
  | STypesEpochRecovery s => EncodeTypesEpochRecoveryStruct s
  | STypesRebalanceDepositRecovery s => EncodeTypesRebalanceDepositRecoveryStruct s
  | STypesRebalanceWithdrawRecovery s => EncodeTypesRebalanceWithdrawRecoveryStruct s
  | STypesStrategy s => EncodeTypesStrategyStruct s
  end.
Definition write_struct `{GoAbiTypes} {R} (c : ChildVault) (x : vault_struct)
    (gasConfig : option GasConfig) : prog (cre_eff R) (option WriteReportReply) :=
  match x with
  | SBaseVaultConstructorParams s => WriteReportFromBaseVaultConstructorParams c s gasConfig
  | SBaseVaultInitParams s => WriteReportFromBaseVaultInitParams c s gasConfig
  | SClientAny2EVMMessage s => WriteReportFromClientAny2EVMMessage c s gasConfig
  | SClientEVMTokenAmount s => WriteReportFromClientEVMTokenAmount c s gasConfig
  | STypesCcipSendRecovery s => WriteReportFromTypesCcipSendRecovery c s gasConfig
  | STypesChildOperationalState s => WriteReportFromTypesChildOperationalState c s gasConfig
  | STypesEpochRecovery s => WriteReportFromTypesEpochRecovery c s gasConfig
  | STypesRebalanceDepositRecovery s => WriteReportFromTypesRebalanceDepositRecovery c s gasConfig
  | STypesRebalanceWithdrawRecovery s => WriteReportFromTypesRebalanceWithdrawRecovery c s gasConfig
  | STypesStrategy s => WriteReportFromTypesStrategy c s gasConfig
  end.

(** ** Correctness *)

(** The values of an output have the types of the metadata. *)
Definition typed_output (x : vault_output) : Prop :=
  Forall2 (λ v o, has_sol_type o.2 v) (output_values_of x).2
    (Method_Outputs (method_of methods (output_values_of x).1)).

Lemma child_TypesStrategy_value ty s :
  has_sol_type TypesStrategy_type (strategy_value s) →
  as_struct ty (decode_TypesStrategy ty)
    (Some (strategy_value s)) = Ok s.
Proof. unfold TypesStrategy_type. destruct s. decoded_struct. Qed.
#[local] Hint Resolve child_TypesStrategy_value : decoded.

Lemma child_TypesCcipSendRecovery_value ty s :
  has_sol_type TypesCcipSendRecovery_type (TypesCcipSendRecovery_value s) →
  as_struct ty (decode_TypesCcipSendRecovery ty)
    (Some (TypesCcipSendRecovery_value s)) = Ok s.
Proof. unfold TypesCcipSendRecovery_type. destruct s. decoded_struct. Qed.
#[local] Hint Resolve child_TypesCcipSendRecovery_value : decoded.

Lemma child_TypesEpochRecovery_value ty s :
  has_sol_type TypesEpochRecovery_type (TypesEpochRecovery_value s) →
  as_struct ty (decode_TypesEpochRecovery ty)
    (Some (TypesEpochRecovery_value s)) = Ok s.
Proof. unfold TypesEpochRecovery_type. destruct s. decoded_struct. Qed.
#[local] Hint Resolve child_TypesEpochRecovery_value : decoded.

Lemma child_TypesRebalanceDepositRecovery_value ty s :
  has_sol_type TypesRebalanceDepositRecovery_type (TypesRebalanceDepositRecovery_value s) →
  as_struct ty (decode_TypesRebalanceDepositRecovery ty)
    (Some (TypesRebalanceDepositRecovery_value s)) = Ok s.
Proof. unfold TypesRebalanceDepositRecovery_type. destruct s. decoded_struct. Qed.
#[local] Hint Resolve child_TypesRebalanceDepositRecovery_value : decoded.

Lemma child_TypesRebalanceWithdrawRecovery_value ty s :
  has_sol_type TypesRebalanceWithdrawRecovery_type (TypesRebalanceWithdrawRecovery_value s) →
  as_struct ty (decode_TypesRebalanceWithdrawRecovery ty)
    (Some (TypesRebalanceWithdrawRecovery_value s)) = Ok s.
Proof. unfold TypesRebalanceWithdrawRecovery_type. destruct s. decoded_struct. Qed.
#[local] Hint Resolve child_TypesRebalanceWithdrawRecovery_value : decoded.

Lemma child_state_value s :
  has_sol_type TypesChildOperationalState_type (TypesChildOperationalState_value s) →
  as_struct state_type decode_state
    (Some (TypesChildOperationalState_value s)) = Ok s.
Proof. unfold TypesChildOperationalState_type. destruct s. decoded_struct. Qed.
#[local] Hint Resolve child_state_value : decoded.

Lemma child_output `{GoEthereum} x c data :
  typed_output x →
  abi_UnpackOutput (codec_abi c) (output_values_of x).1 data = Ok (output_values_of x).2 →
  decode_like x c data = Ok x.
Proof.
  unfold typed_output. destruct x; cbn [output_values_of decode_like fst snd].
  all: first [output_case | destruct v; output_case].
Qed.

(** Every [Encode<M>MethodCall] of the child vault packs the method [M] of the
    metadata, with the fields of its input struct in the order of the metadata's
    inputs, each under the metadata's name and in the Go representation of the
    metadata's type. *)
Theorem ChildCalls_abi `{GoEthereum} c x :
  encode_call c x = abi_Pack (codec_abi c) (describe x).1 (describe x).2.*2 ∧
  (describe x).2.*1 = (Method_Inputs (method_of methods (describe x).1)).*1 ∧
  Forall2 (λ v i, has_shape i.2 v = true) (describe x).2.*2
    (Method_Inputs (method_of methods (describe x).1)).
Proof. destruct x; cbn [encode_call describe fst snd fmap list_fmap]; shape_case. Qed.

(** A read that the node answers. *)
Lemma child_read_answered `{GoEthereum} {R} (o : oracle (cre_eff R)) c r x bn data answer :
  (describe (call_of r)).1 = (output_values_of x).1 → typed_output x →
  encode_call (vault_Codec c) (call_of r) = Ok data →
  abi_UnpackOutput (codec_abi (vault_Codec c)) (output_values_of x).1 answer =
    Ok (output_values_of x).2 →
  let request := mkCallContractRequest (vault_Address c) data (default FinalizedBlockNumber bn) in
  o [] _ (ECallContract (vault_client c) request) = Reply (Some answer) →
  run o [] (read c r bn) =
    ([Step _ (ECallContract (vault_client c) request) (Reply (Some answer))], Ok x).
Proof.
  intros Hm Hty Hdata Hu request Ho.
  pose proof (child_output x (vault_Codec c) answer Hty Hu) as Hd. clear Hty Hu.
  destruct r, x; try discriminate Hm.
  all: cbn [decode_like] in Hd; apply fmap_Ok in Hd as (v' & Hd & [= ->]);
    exact (read_contract_answered o _ _ _ bn _ _ _ _ _ Hdata Hd Ho).
Qed.

(** A view method of the child vault that the node answers with the encoding of
    a value of the method's output types is one contract call, to the vault's
    address, of the method's call data at the requested (default: the finalized)
    block, and returns that value. *)
Theorem ChildRead_spec `{GoEthereum} {R} (o : oracle (cre_eff R)) c r x bn data answer :
  (describe (call_of r)).1 = (output_values_of x).1 → typed_output x →
  encode_call (vault_Codec c) (call_of r) = Ok data →
  abi_UnpackOutput (codec_abi (vault_Codec c)) (output_values_of x).1 answer =
    Ok (output_values_of x).2 →
  let request := mkCallContractRequest (vault_Address c) data (default FinalizedBlockNumber bn) in
  o [] _ (ECallContract (vault_client c) request) = Reply (Some answer) →
  run o [] (read c r bn) =
    ([Step _ (ECallContract (vault_client c) request) (Reply (Some answer))], Ok x).
Proof. apply child_read_answered. Qed.

(** Every tuple encoder of the child vault names and types the components of
    its struct as the metadata does, in the order of the fields. *)
Theorem ChildStructs_abi `{GoAbiTypes} x :
  ∃ struct_name arg_name,
    encode_vault_struct x =
      encode_struct struct_name arg_name (components (struct_type x)) (struct_value x) ∧
    has_shape (struct_type x) (struct_value x) = true.
Proof. destruct x; cbn [encode_vault_struct struct_type struct_value]; struct_case. Qed.

(** A report of a struct of the child vault is signed before it is written, to
    the vault itself, and each at most once; when the struct cannot be encoded
    nothing is done. *)
Theorem ChildReports_spec `{GoAbiTypes} {R} adm h c x gasConfig :
  wp_seg adm h (@write_struct _ _ R c x gasConfig)
    (report_written (vault_client c) (vault_Address c) (encode_vault_struct x) gasConfig).
Proof. destruct x; apply write_report_from_seg. Qed.

(** ** Witnesses *)
Module SampleChildMethods.
(** The last handled epoch nonce is 5, and no other output decodes. *)
Definition unpack (md : MetaData) (name : string) (data : bytes) : res (list abi_value) :=
  if bool_decide (name = "getLastHandledEpochNonce"%string) then Ok [VBig (Some 5)] else Err (Errorf "abi: no method" []).
#[local] Instance toy_ethereum : GoEthereum := ToyEthereum.ethereum_with unpack.
Definition vault : ChildVault := mkChildVault zeroAddress ChildVaultMetaData 1 (mkCodec ChildVaultMetaData).
Definition host : oracle (cre_eff unit) := λ _ X c,
  match c in cre_eff _ X return X with
  | ENow => 10000
  | ELog _ _ => tt
  | EGenerateReport _ => Failed (Errorf "no report" [])
  | EWriteReport _ _ => Failed (Errorf "no write" [])
  | ECallContract _ _ => Reply (Some [])
  | EGetSecret _ => Failed (Errorf "no secret" [])
  | ESendRequest _ => Failed (Errorf "no consensus" [])
  end.

Lemma ChildRead_spec_witness :
  (run host [] (read vault RGetLastHandledEpochNonce None)).2 = Ok (OGetLastHandledEpochNonce (Some 5)).
Proof.
  rewrite (ChildRead_spec host vault RGetLastHandledEpochNonce (OGetLastHandledEpochNonce (Some 5)) None
             (ToyEthereum.fit 4 (to_bytes "getLastHandledEpochNonce")) []); [reflexivity|reflexivity| |reflexivity..].
  repeat constructor; vm_compute; done.
Defined.
End SampleChildMethods.
End child_vault_methods.
