(* ===== verification/WorkflowRouterMethods.v ===== *)
(** * The methods of the workflow router

    The calls, outputs, reads, tuple encoders and report writers in
    [cre/contracts/evm/src/generated/workflow_router/WorkflowRouter.go]; those the workflow
    uses are in [WorkflowRouter]. *)

From S2P Require Import Prelude GoText BigInt Ethereum Runtime Bindings WorkflowRouter AbiMethods.

#[local] Open Scope Z_scope.

Module workflow_router_methods.
Import workflow_router.
(** ** Structs *)
Record IWorkflowRouterWorkflowMetadata := mkIWorkflowRouterWorkflowMetadata {
  IWorkflowRouterWorkflowMetadata_Owner : Address;
  IWorkflowRouterWorkflowMetadata_Name : bytes }.
Record ConstructorParams := mkConstructorParams {
  ConstructorParams_InitialDelay : bigint;
  ConstructorParams_DefaultAdmin : Address;
  ConstructorParams_Pauser : Address;
  ConstructorParams_Unpauser : Address;
  ConstructorParams_ConfigOperator : Address;
  ConstructorParams_KeystoneForwarder : Address;
  ConstructorParams_Vault : Address }.
Record BeginDefaultAdminTransferInput := mkBeginDefaultAdminTransferInput {
  BeginDefaultAdminTransfer_NewAdmin : Address }.
Record ChangeDefaultAdminDelayInput := mkChangeDefaultAdminDelayInput {
  ChangeDefaultAdminDelay_NewDelay : bigint }.
Record GetAllowlistedWorkflowSelectorInput := mkGetAllowlistedWorkflowSelectorInput {
  GetAllowlistedWorkflowSelector_WorkflowId : bytes;
  GetAllowlistedWorkflowSelector_Selector : bytes }.
Record GetRoleAdminInput := mkGetRoleAdminInput { GetRoleAdmin_Role : bytes }.
Record GetWorkflowGenerationInput := mkGetWorkflowGenerationInput {
  GetWorkflowGeneration_WorkflowId : bytes }.
Record GetWorkflowMetadataInput := mkGetWorkflowMetadataInput {
  GetWorkflowMetadata_WorkflowId : bytes }.
Record GrantRoleInput := mkGrantRoleInput { GrantRole_Role : bytes; GrantRole_Account : Address }.
Record HasRoleInput := mkHasRoleInput { HasRole_Role : bytes; HasRole_Account : Address }.
Record OnReportInput := mkOnReportInput { OnReport_Metadata : bytes; OnReport_Report : bytes }.
Record RenounceRoleInput := mkRenounceRoleInput {
  RenounceRole_Role : bytes;
  RenounceRole_Account : Address }.
Record RevokeRoleInput := mkRevokeRoleInput {
  RevokeRole_Role : bytes;
  RevokeRole_Account : Address }.
Record SetWorkflowMetadataInput := mkSetWorkflowMetadataInput {
  SetWorkflowMetadata_WorkflowId : bytes;
  SetWorkflowMetadata_Name : bytes;
  SetWorkflowMetadata_Owner : Address }.
Record SetWorkflowSelectorsInput := mkSetWorkflowSelectorsInput {
  SetWorkflowSelectors_WorkflowId : bytes;
  SetWorkflowSelectors_Selectors : list bytes;
  SetWorkflowSelectors_IsAllowlisted : bool }.
Record SupportsInterfaceInput := mkSupportsInterfaceInput { SupportsInterface_InterfaceId : bytes }.
Record PendingDefaultAdminOutput := mkPendingDefaultAdminOutput {
  PendingDefaultAdminOutput_NewAdmin : Address;
  PendingDefaultAdminOutput_Schedule : bigint }.
Record PendingDefaultAdminDelayOutput := mkPendingDefaultAdminDelayOutput {
  PendingDefaultAdminDelayOutput_NewDelay : bigint;
  PendingDefaultAdminDelayOutput_Schedule : bigint }.

(** ** Structs as tuples *)
Definition IWorkflowRouterWorkflowMetadata_value (s : IWorkflowRouterWorkflowMetadata) : abi_value := VTuple [
    ("owner"%string, VFixed (IWorkflowRouterWorkflowMetadata_Owner s));
    ("name"%string, VFixed (IWorkflowRouterWorkflowMetadata_Name s))].
Definition ConstructorParams_value (s : ConstructorParams) : abi_value := VTuple [
    ("initialDelay"%string, VBig (ConstructorParams_InitialDelay s));
    ("defaultAdmin"%string, VFixed (ConstructorParams_DefaultAdmin s));
    ("pauser"%string, VFixed (ConstructorParams_Pauser s));
    ("unpauser"%string, VFixed (ConstructorParams_Unpauser s));
    ("configOperator"%string, VFixed (ConstructorParams_ConfigOperator s));
    ("keystoneForwarder"%string, VFixed (ConstructorParams_KeystoneForwarder s));
    ("vault"%string, VFixed (ConstructorParams_Vault s))].

(** ** Structs from outputs: the fields are copied by name through JSON *)
Definition decode_IWorkflowRouterWorkflowMetadata (ty : string) (fs : list (string * abi_value))
    : res IWorkflowRouterWorkflowMetadata :=
  x0 ← as_address ty (tuple_field "owner" fs);
  x1 ← as_bytesN 10 ty (tuple_field "name" fs);
  Ok (mkIWorkflowRouterWorkflowMetadata x0 x1).

(** ** Structs in the metadata *)
Definition IWorkflowRouterWorkflowMetadata_type : sol_type := STuple [
    ("owner"%string, SAddress); ("name"%string, SBytesN 10)].
Arguments IWorkflowRouterWorkflowMetadata_type : simpl never.
Definition ConstructorParams_type : sol_type := STuple [
    ("initialDelay"%string, SUint 48); ("defaultAdmin"%string, SAddress);
    ("pauser"%string, SAddress); ("unpauser"%string, SAddress);
    ("configOperator"%string, SAddress); ("keystoneForwarder"%string, SAddress);
    ("vault"%string, SAddress)].
Arguments ConstructorParams_type : simpl never.

(** ** The methods of the metadata; an input without a name is [arg<i>]. *)
Definition methods : method_table :=
  [("DEFAULT_ADMIN_ROLE"%string, mkMethod
     []
     [(""%string, SBytesN 32)]);
   ("acceptDefaultAdminTransfer"%string, mkMethod
     []
     []);
   ("beginDefaultAdminTransfer"%string, mkMethod
     [("newAdmin"%string, SAddress)]
     []);
   ("cancelDefaultAdminTransfer"%string, mkMethod
     []
     []);
   ("changeDefaultAdminDelay"%string, mkMethod
     [("newDelay"%string, SUint 48)]
     []);
   ("defaultAdmin"%string, mkMethod
     []
     [(""%string, SAddress)]);
   ("defaultAdminDelay"%string, mkMethod
     []
     [(""%string, SUint 48)]);
   ("defaultAdminDelayIncreaseWait"%string, mkMethod
     []
     [(""%string, SUint 48)]);
   ("getAllowlistedWorkflowSelector"%string, mkMethod
     [("workflowId"%string, SBytesN 32); ("selector"%string, SBytesN 4)]
     [("isAllowlisted"%string, SBool)]);
   ("getRoleAdmin"%string, mkMethod
     [("role"%string, SBytesN 32)]
     [(""%string, SBytesN 32)]);
   ("getThisChainSelector"%string, mkMethod
     []
     [("chainSelector"%string, SUint 64)]);
   ("getVault"%string, mkMethod
     []
     [("vault"%string, SAddress)]);
   ("getWorkflowGeneration"%string, mkMethod
     [("workflowId"%string, SBytesN 32)]
     [("generation"%string, SUint 256)]);
   ("getWorkflowMetadata"%string, mkMethod
     [("workflowId"%string, SBytesN 32)]
     [("metadata"%string, IWorkflowRouterWorkflowMetadata_type)]);
   ("grantRole"%string, mkMethod
     [("role"%string, SBytesN 32); ("account"%string, SAddress)]
     []);
   ("hasRole"%string, mkMethod
     [("role"%string, SBytesN 32); ("account"%string, SAddress)]
     [(""%string, SBool)]);
   ("onReport"%string, mkMethod
     [("metadata"%string, SBytes); ("report"%string, SBytes)]
     []);
   ("owner"%string, mkMethod
     []
     [(""%string, SAddress)]);
   ("pause"%string, mkMethod
     []
     []);
   ("paused"%string, mkMethod
     []
     [(""%string, SBool)]);
   ("pendingDefaultAdmin"%string, mkMethod
     []
     [("newAdmin"%string, SAddress); ("schedule"%string, SUint 48)]);
   ("pendingDefaultAdminDelay"%string, mkMethod
     []
     [("newDelay"%string, SUint 48); ("schedule"%string, SUint 48)]);
   ("renounceRole"%string, mkMethod
     [("role"%string, SBytesN 32); ("account"%string, SAddress)]
     []);
   ("revokeRole"%string, mkMethod
     [("role"%string, SBytesN 32); ("account"%string, SAddress)]
     []);
   ("rollbackDefaultAdminDelay"%string, mkMethod
     []
     []);
   ("setWorkflowMetadata"%string, mkMethod
     [("workflowId"%string, SBytesN 32); ("name"%string, SBytesN 10); ("owner"%string, SAddress)]
     []);
   ("setWorkflowSelectors"%string, mkMethod
     [("workflowId"%string, SBytesN 32); ("selectors"%string, SSlice (SBytesN 4));
      ("isAllowlisted"%string, SBool)]
     []);
   ("supportsInterface"%string, mkMethod
     [("interfaceId"%string, SBytesN 4)]
     [(""%string, SBool)]);
   ("unpause"%string, mkMethod
     []
     [])].

Section Methods.
Context `{GoAbiTypes}.

(** ** Calls *)
Definition EncodeDEFAULTADMINROLEMethodCall (c : Codec) : res bytes :=
  abi_Pack (codec_abi c) "DEFAULT_ADMIN_ROLE" [].
Definition EncodeAcceptDefaultAdminTransferMethodCall (c : Codec) : res bytes :=
  abi_Pack (codec_abi c) "acceptDefaultAdminTransfer" [].
Definition EncodeBeginDefaultAdminTransferMethodCall (c : Codec) (i : BeginDefaultAdminTransferInput)
    : res bytes :=
  abi_Pack (codec_abi c) "beginDefaultAdminTransfer" [
    VFixed (BeginDefaultAdminTransfer_NewAdmin i)].
Definition EncodeCancelDefaultAdminTransferMethodCall (c : Codec) : res bytes :=
  abi_Pack (codec_abi c) "cancelDefaultAdminTransfer" [].
Definition EncodeChangeDefaultAdminDelayMethodCall (c : Codec) (i : ChangeDefaultAdminDelayInput)
    : res bytes :=
  abi_Pack (codec_abi c) "changeDefaultAdminDelay" [VBig (ChangeDefaultAdminDelay_NewDelay i)].
Definition EncodeDefaultAdminMethodCall (c : Codec) : res bytes :=
  abi_Pack (codec_abi c) "defaultAdmin" [].
Definition EncodeDefaultAdminDelayMethodCall (c : Codec) : res bytes :=
  abi_Pack (codec_abi c) "defaultAdminDelay" [].
Definition EncodeDefaultAdminDelayIncreaseWaitMethodCall (c : Codec) : res bytes :=
  abi_Pack (codec_abi c) "defaultAdminDelayIncreaseWait" [].
Definition EncodeGetAllowlistedWorkflowSelectorMethodCall (c : Codec) (i : GetAllowlistedWorkflowSelectorInput)
    : res bytes :=
  abi_Pack (codec_abi c) "getAllowlistedWorkflowSelector" [
    VFixed (GetAllowlistedWorkflowSelector_WorkflowId i);
    VFixed (GetAllowlistedWorkflowSelector_Selector i)].
Definition EncodeGetRoleAdminMethodCall (c : Codec) (i : GetRoleAdminInput) : res bytes :=
  abi_Pack (codec_abi c) "getRoleAdmin" [VFixed (GetRoleAdmin_Role i)].
Definition EncodeGetThisChainSelectorMethodCall (c : Codec) : res bytes :=
  abi_Pack (codec_abi c) "getThisChainSelector" [].
Definition EncodeGetVaultMethodCall (c : Codec) : res bytes :=
  abi_Pack (codec_abi c) "getVault" [].
Definition EncodeGetWorkflowGenerationMethodCall (c : Codec) (i : GetWorkflowGenerationInput)
    : res bytes :=
  abi_Pack (codec_abi c) "getWorkflowGeneration" [VFixed (GetWorkflowGeneration_WorkflowId i)].
Definition EncodeGetWorkflowMetadataMethodCall (c : Codec) (i : GetWorkflowMetadataInput)
    : res bytes :=
  abi_Pack (codec_abi c) "getWorkflowMetadata" [VFixed (GetWorkflowMetadata_WorkflowId i)].
Definition EncodeGrantRoleMethodCall (c : Codec) (i : GrantRoleInput) : res bytes :=
  abi_Pack (codec_abi c) "grantRole" [VFixed (GrantRole_Role i); VFixed (GrantRole_Account i)].
Definition EncodeHasRoleMethodCall (c : Codec) (i : HasRoleInput) : res bytes :=
  abi_Pack (codec_abi c) "hasRole" [VFixed (HasRole_Role i); VFixed (HasRole_Account i)].
Definition EncodeOnReportMethodCall (c : Codec) (i : OnReportInput) : res bytes :=
  abi_Pack (codec_abi c) "onReport" [VBytes (OnReport_Metadata i); VBytes (OnReport_Report i)].
Definition EncodeOwnerMethodCall (c : Codec) : res bytes :=
  abi_Pack (codec_abi c) "owner" [].
Definition EncodePauseMethodCall (c : Codec) : res bytes :=
  abi_Pack (codec_abi c) "pause" [].
Definition EncodePausedMethodCall (c : Codec) : res bytes :=
  abi_Pack (codec_abi c) "paused" [].
Definition EncodePendingDefaultAdminMethodCall (c : Codec) : res bytes :=
  abi_Pack (codec_abi c) "pendingDefaultAdmin" [].
Definition EncodePendingDefaultAdminDelayMethodCall (c : Codec) : res bytes :=
  abi_Pack (codec_abi c) "pendingDefaultAdminDelay" [].
Definition EncodeRenounceRoleMethodCall (c : Codec) (i : RenounceRoleInput) : res bytes :=
  abi_Pack (codec_abi c) "renounceRole" [
    VFixed (RenounceRole_Role i); VFixed (RenounceRole_Account i)].
Definition EncodeRevokeRoleMethodCall (c : Codec) (i : RevokeRoleInput) : res bytes :=
  abi_Pack (codec_abi c) "revokeRole" [VFixed (RevokeRole_Role i); VFixed (RevokeRole_Account i)].
Definition EncodeRollbackDefaultAdminDelayMethodCall (c : Codec) : res bytes :=
  abi_Pack (codec_abi c) "rollbackDefaultAdminDelay" [].
Definition EncodeSetWorkflowMetadataMethodCall (c : Codec) (i : SetWorkflowMetadataInput)
    : res bytes :=
  abi_Pack (codec_abi c) "setWorkflowMetadata" [
    VFixed (SetWorkflowMetadata_WorkflowId i); VFixed (SetWorkflowMetadata_Name i);
    VFixed (SetWorkflowMetadata_Owner i)].
Definition EncodeSetWorkflowSelectorsMethodCall (c : Codec) (i : SetWorkflowSelectorsInput)
    : res bytes :=
  abi_Pack (codec_abi c) "setWorkflowSelectors" [
    VFixed (SetWorkflowSelectors_WorkflowId i);
    VSlice (VFixed <$> (SetWorkflowSelectors_Selectors i));
    VBool (SetWorkflowSelectors_IsAllowlisted i)].
Definition EncodeSupportsInterfaceMethodCall (c : Codec) (i : SupportsInterfaceInput) : res bytes :=
  abi_Pack (codec_abi c) "supportsInterface" [VFixed (SupportsInterface_InterfaceId i)].
Definition EncodeUnpauseMethodCall (c : Codec) : res bytes :=
  abi_Pack (codec_abi c) "unpause" [].

(** ** Outputs *)
Definition DecodeDEFAULTADMINROLEMethodOutput (c : Codec) (data : bytes)
    : res bytes :=
  decode_value (codec_abi c) "DEFAULT_ADMIN_ROLE" (as_bytes32 "[32]byte") data.
Definition DecodeDefaultAdminMethodOutput (c : Codec) (data : bytes)
    : res Address :=
  decode_value (codec_abi c) "defaultAdmin" (as_address "common.Address") data.
Definition DecodeDefaultAdminDelayMethodOutput (c : Codec) (data : bytes)
    : res bigint :=
  decode_value (codec_abi c) "defaultAdminDelay" (as_big "*big.Int") data.
Definition DecodeDefaultAdminDelayIncreaseWaitMethodOutput (c : Codec) (data : bytes)
    : res bigint :=
  decode_value (codec_abi c) "defaultAdminDelayIncreaseWait" (as_big "*big.Int") data.
Definition DecodeGetAllowlistedWorkflowSelectorMethodOutput (c : Codec) (data : bytes)
    : res bool :=
  decode_value (codec_abi c) "getAllowlistedWorkflowSelector" (as_bool "bool") data.
Definition DecodeGetRoleAdminMethodOutput (c : Codec) (data : bytes)
    : res bytes :=
  decode_value (codec_abi c) "getRoleAdmin" (as_bytes32 "[32]byte") data.
Definition DecodeGetThisChainSelectorMethodOutput (c : Codec) (data : bytes)
    : res Z :=
  decode_value (codec_abi c) "getThisChainSelector" (as_uint 64 "uint64") data.
Definition DecodeGetVaultMethodOutput (c : Codec) (data : bytes)
    : res Address :=
  decode_value (codec_abi c) "getVault" (as_address "common.Address") data.
Definition DecodeGetWorkflowGenerationMethodOutput (c : Codec) (data : bytes)
    : res bigint :=
  decode_value (codec_abi c) "getWorkflowGeneration" (as_big "*big.Int") data.
Definition DecodeGetWorkflowMetadataMethodOutput (c : Codec) (data : bytes)
    : res IWorkflowRouterWorkflowMetadata :=
  decode_output (codec_abi c) "getWorkflowMetadata" "IWorkflowRouterWorkflowMetadata"
    (decode_IWorkflowRouterWorkflowMetadata "IWorkflowRouterWorkflowMetadata") data.
Definition DecodeHasRoleMethodOutput (c : Codec) (data : bytes)
    : res bool :=
  decode_value (codec_abi c) "hasRole" (as_bool "bool") data.
Definition DecodeOwnerMethodOutput (c : Codec) (data : bytes)
    : res Address :=
  decode_value (codec_abi c) "owner" (as_address "common.Address") data.
Definition DecodePausedMethodOutput (c : Codec) (data : bytes)
    : res bool :=
  decode_value (codec_abi c) "paused" (as_bool "bool") data.
Definition DecodePendingDefaultAdminMethodOutput (c : Codec) (data : bytes)
    : res PendingDefaultAdminOutput :=
  vals ← output_values (codec_abi c) "pendingDefaultAdmin" 2 data;
  result0 ← output_value vals 0 (as_address "common.Address");
  result1 ← output_value vals 1 (as_big "*big.Int");
  Ok (mkPendingDefaultAdminOutput result0 result1).
Definition DecodePendingDefaultAdminDelayMethodOutput (c : Codec) (data : bytes)
    : res PendingDefaultAdminDelayOutput :=
  vals ← output_values (codec_abi c) "pendingDefaultAdminDelay" 2 data;
  result0 ← output_value vals 0 (as_big "*big.Int");
  result1 ← output_value vals 1 (as_big "*big.Int");
  Ok (mkPendingDefaultAdminDelayOutput result0 result1).
Definition DecodeSupportsInterfaceMethodOutput (c : Codec) (data : bytes)
    : res bool :=
  decode_value (codec_abi c) "supportsInterface" (as_bool "bool") data.

(** ** Tuple encoders *)
Definition EncodeIWorkflowRouterWorkflowMetadataStruct (i : IWorkflowRouterWorkflowMetadata) : res bytes :=
  encode_struct "IWorkflowRouterWorkflowMetadata" "iWorkflowRouterWorkflowMetadata" [
    ("owner", "address"); ("name", "bytes10")]%string
    (IWorkflowRouterWorkflowMetadata_value i).
Definition EncodeConstructorParamsStruct (i : ConstructorParams) : res bytes :=
  encode_struct "ConstructorParams" "constructorParams" [
    ("initialDelay", "uint48"); ("defaultAdmin", "address"); ("pauser", "address");
    ("unpauser", "address"); ("configOperator", "address"); ("keystoneForwarder", "address");
    ("vault", "address")]%string
    (ConstructorParams_value i).

(** ** Reads *)
Definition DEFAULTADMINROLE {R} (c : WorkflowRouter) (blockNumber : bigint)
    : prog (cre_eff R) bytes :=
  read_contract (vault_client c) (vault_Address c)
    (EncodeDEFAULTADMINROLEMethodCall (vault_Codec c)) blockNumber
    (DecodeDEFAULTADMINROLEMethodOutput (vault_Codec c)).
Definition DefaultAdmin {R} (c : WorkflowRouter) (blockNumber : bigint)
    : prog (cre_eff R) Address :=
  read_contract (vault_client c) (vault_Address c)
    (EncodeDefaultAdminMethodCall (vault_Codec c)) blockNumber
    (DecodeDefaultAdminMethodOutput (vault_Codec c)).
Definition DefaultAdminDelay {R} (c : WorkflowRouter) (blockNumber : bigint)
    : prog (cre_eff R) bigint :=
  read_contract (vault_client c) (vault_Address c)
    (EncodeDefaultAdminDelayMethodCall (vault_Codec c)) blockNumber
    (DecodeDefaultAdminDelayMethodOutput (vault_Codec c)).
Definition DefaultAdminDelayIncreaseWait {R} (c : WorkflowRouter) (blockNumber : bigint)
    : prog (cre_eff R) bigint :=
  read_contract (vault_client c) (vault_Address c)
    (EncodeDefaultAdminDelayIncreaseWaitMethodCall (vault_Codec c)) blockNumber
    (DecodeDefaultAdminDelayIncreaseWaitMethodOutput (vault_Codec c)).
Definition GetAllowlistedWorkflowSelector {R} (c : WorkflowRouter) (args : GetAllowlistedWorkflowSelectorInput) (blockNumber : bigint)
    : prog (cre_eff R) bool :=
  read_contract (vault_client c) (vault_Address c)
    (EncodeGetAllowlistedWorkflowSelectorMethodCall (vault_Codec c) args) blockNumber
    (DecodeGetAllowlistedWorkflowSelectorMethodOutput (vault_Codec c)).
Definition GetRoleAdmin {R} (c : WorkflowRouter) (args : GetRoleAdminInput) (blockNumber : bigint)
    : prog (cre_eff R) bytes :=
  read_contract (vault_client c) (vault_Address c)
    (EncodeGetRoleAdminMethodCall (vault_Codec c) args) blockNumber
    (DecodeGetRoleAdminMethodOutput (vault_Codec c)).
Definition GetThisChainSelector {R} (c : WorkflowRouter) (blockNumber : bigint)
    : prog (cre_eff R) Z :=
  read_contract (vault_client c) (vault_Address c)
    (EncodeGetThisChainSelectorMethodCall (vault_Codec c)) blockNumber
    (DecodeGetThisChainSelectorMethodOutput (vault_Codec c)).
Definition GetVault {R} (c : WorkflowRouter) (blockNumber : bigint)
    : prog (cre_eff R) Address :=
  read_contract (vault_client c) (vault_Address c)
    (EncodeGetVaultMethodCall (vault_Codec c)) blockNumber
    (DecodeGetVaultMethodOutput (vault_Codec c)).
Definition GetWorkflowGeneration {R} (c : WorkflowRouter) (args : GetWorkflowGenerationInput) (blockNumber : bigint)
    : prog (cre_eff R) bigint :=
  read_contract (vault_client c) (vault_Address c)
    (EncodeGetWorkflowGenerationMethodCall (vault_Codec c) args) blockNumber
    (DecodeGetWorkflowGenerationMethodOutput (vault_Codec c)).
Definition GetWorkflowMetadata {R} (c : WorkflowRouter) (args : GetWorkflowMetadataInput) (blockNumber : bigint)
    : prog (cre_eff R) IWorkflowRouterWorkflowMetadata :=
  read_contract (vault_client c) (vault_Address c)
    (EncodeGetWorkflowMetadataMethodCall (vault_Codec c) args) blockNumber
    (DecodeGetWorkflowMetadataMethodOutput (vault_Codec c)).
Definition HasRole {R} (c : WorkflowRouter) (args : HasRoleInput) (blockNumber : bigint)
    : prog (cre_eff R) bool :=
  read_contract (vault_client c) (vault_Address c)
    (EncodeHasRoleMethodCall (vault_Codec c) args) blockNumber
    (DecodeHasRoleMethodOutput (vault_Codec c)).
Definition Owner {R} (c : WorkflowRouter) (blockNumber : bigint)
    : prog (cre_eff R) Address :=
  read_contract (vault_client c) (vault_Address c)
    (EncodeOwnerMethodCall (vault_Codec c)) blockNumber
    (DecodeOwnerMethodOutput (vault_Codec c)).
Definition Paused {R} (c : WorkflowRouter) (blockNumber : bigint)
    : prog (cre_eff R) bool :=
  read_contract (vault_client c) (vault_Address c)
    (EncodePausedMethodCall (vault_Codec c)) blockNumber
    (DecodePausedMethodOutput (vault_Codec c)).
Definition PendingDefaultAdmin {R} (c : WorkflowRouter) (blockNumber : bigint)
    : prog (cre_eff R) PendingDefaultAdminOutput :=
  read_contract (vault_client c) (vault_Address c)
    (EncodePendingDefaultAdminMethodCall (vault_Codec c)) blockNumber
    (DecodePendingDefaultAdminMethodOutput (vault_Codec c)).
Definition PendingDefaultAdminDelay {R} (c : WorkflowRouter) (blockNumber : bigint)
    : prog (cre_eff R) PendingDefaultAdminDelayOutput :=
  read_contract (vault_client c) (vault_Address c)
    (EncodePendingDefaultAdminDelayMethodCall (vault_Codec c)) blockNumber
    (DecodePendingDefaultAdminDelayMethodOutput (vault_Codec c)).
Definition SupportsInterface {R} (c : WorkflowRouter) (args : SupportsInterfaceInput) (blockNumber : bigint)
    : prog (cre_eff R) bool :=
  read_contract (vault_client c) (vault_Address c)
    (EncodeSupportsInterfaceMethodCall (vault_Codec c) args) blockNumber
    (DecodeSupportsInterfaceMethodOutput (vault_Codec c)).

(** ** Reports *)
Definition WriteReport {R} (c : WorkflowRouter) (report : option Report) (gasConfig : option GasConfig)
    : prog (cre_eff R) (option WriteReportReply) :=
  write_report (vault_client c) (vault_Address c) report gasConfig.
Definition WriteReportFromIWorkflowRouterWorkflowMetadata {R} (c : WorkflowRouter) (input : IWorkflowRouterWorkflowMetadata)
    (gasConfig : option GasConfig) : prog (cre_eff R) (option WriteReportReply) :=
  write_report_from (vault_client c) (vault_Address c)
    (EncodeIWorkflowRouterWorkflowMetadataStruct input) gasConfig.
Definition WriteReportFromConstructorParams {R} (c : WorkflowRouter) (input : ConstructorParams)
    (gasConfig : option GasConfig) : prog (cre_eff R) (option WriteReportReply) :=
  write_report_from (vault_client c) (vault_Address c)
    (EncodeConstructorParamsStruct input) gasConfig.
End Methods.

(** ** All calls, outputs and reads *)
Inductive vault_call : Type :=
| CDEFAULTADMINROLE
| CAcceptDefaultAdminTransfer
| CBeginDefaultAdminTransfer (i : BeginDefaultAdminTransferInput)
| CCancelDefaultAdminTransfer
| CChangeDefaultAdminDelay (i : ChangeDefaultAdminDelayInput)
| CDefaultAdmin
| CDefaultAdminDelay
| CDefaultAdminDelayIncreaseWait
| CGetAllowlistedWorkflowSelector (i : GetAllowlistedWorkflowSelectorInput)
| CGetRoleAdmin (i : GetRoleAdminInput)
| CGetThisChainSelector
| CGetVault
| CGetWorkflowGeneration (i : GetWorkflowGenerationInput)
| CGetWorkflowMetadata (i : GetWorkflowMetadataInput)
| CGrantRole (i : GrantRoleInput)
| CHasRole (i : HasRoleInput)
| COnReport (i : OnReportInput)
| COwner
| CPause
| CPaused
| CPendingDefaultAdmin
| CPendingDefaultAdminDelay
| CRenounceRole (i : RenounceRoleInput)
| CRevokeRole (i : RevokeRoleInput)
| CRollbackDefaultAdminDelay
| CSetWorkflowMetadata (i : SetWorkflowMetadataInput)
| CSetWorkflowSelectors (i : SetWorkflowSelectorsInput)
| CSupportsInterface (i : SupportsInterfaceInput)
| CUnpause.

(** The ABI name of the method and the named arguments. *)
Definition describe (x : vault_call) : string * list (string * abi_value) :=
  match x with
  | CDEFAULTADMINROLE => ("DEFAULT_ADMIN_ROLE"%string, [])
  | CAcceptDefaultAdminTransfer => ("acceptDefaultAdminTransfer"%string, [])
  | CBeginDefaultAdminTransfer i => ("beginDefaultAdminTransfer"%string, [
      ("newAdmin"%string, VFixed (BeginDefaultAdminTransfer_NewAdmin i))])
  | CCancelDefaultAdminTransfer => ("cancelDefaultAdminTransfer"%string, [])
  | CChangeDefaultAdminDelay i => ("changeDefaultAdminDelay"%string, [
      ("newDelay"%string, VBig (ChangeDefaultAdminDelay_NewDelay i))])
  | CDefaultAdmin => ("defaultAdmin"%string, [])
  | CDefaultAdminDelay => ("defaultAdminDelay"%string, [])
  | CDefaultAdminDelayIncreaseWait => ("defaultAdminDelayIncreaseWait"%string, [])
  | CGetAllowlistedWorkflowSelector i => ("getAllowlistedWorkflowSelector"%string, [
      ("workflowId"%string, VFixed (GetAllowlistedWorkflowSelector_WorkflowId i));
      ("selector"%string, VFixed (GetAllowlistedWorkflowSelector_Selector i))])
  | CGetRoleAdmin i => ("getRoleAdmin"%string, [("role"%string, VFixed (GetRoleAdmin_Role i))])
  | CGetThisChainSelector => ("getThisChainSelector"%string, [])
  | CGetVault => ("getVault"%string, [])
  | CGetWorkflowGeneration i => ("getWorkflowGeneration"%string, [
      ("workflowId"%string, VFixed (GetWorkflowGeneration_WorkflowId i))])
  | CGetWorkflowMetadata i => ("getWorkflowMetadata"%string, [
      ("workflowId"%string, VFixed (GetWorkflowMetadata_WorkflowId i))])
  | CGrantRole i => ("grantRole"%string, [
      ("role"%string, VFixed (GrantRole_Role i));
      ("account"%string, VFixed (GrantRole_Account i))])
  | CHasRole i => ("hasRole"%string, [
      ("role"%string, VFixed (HasRole_Role i)); ("account"%string, VFixed (HasRole_Account i))])
  | COnReport i => ("onReport"%string, [
      ("metadata"%string, VBytes (OnReport_Metadata i));
      ("report"%string, VBytes (OnReport_Report i))])
  | COwner => ("owner"%string, [])
  | CPause => ("pause"%string, [])
  | CPaused => ("paused"%string, [])
  | CPendingDefaultAdmin => ("pendingDefaultAdmin"%string, [])
  | CPendingDefaultAdminDelay => ("pendingDefaultAdminDelay"%string, [])
  | CRenounceRole i => ("renounceRole"%string, [
      ("role"%string, VFixed (RenounceRole_Role i));
      ("account"%string, VFixed (RenounceRole_Account i))])
  | CRevokeRole i => ("revokeRole"%string, [
      ("role"%string, VFixed (RevokeRole_Role i));
      ("account"%string, VFixed (RevokeRole_Account i))])
  | CRollbackDefaultAdminDelay => ("rollbackDefaultAdminDelay"%string, [])
  | CSetWorkflowMetadata i => ("setWorkflowMetadata"%string, [
      ("workflowId"%string, VFixed (SetWorkflowMetadata_WorkflowId i));
      ("name"%string, VFixed (SetWorkflowMetadata_Name i));
      ("owner"%string, VFixed (SetWorkflowMetadata_Owner i))])
  | CSetWorkflowSelectors i => ("setWorkflowSelectors"%string, [
      ("workflowId"%string, VFixed (SetWorkflowSelectors_WorkflowId i));
      ("selectors"%string, VSlice (VFixed <$> (SetWorkflowSelectors_Selectors i)));
      ("isAllowlisted"%string, VBool (SetWorkflowSelectors_IsAllowlisted i))])
  | CSupportsInterface i => ("supportsInterface"%string, [
      ("interfaceId"%string, VFixed (SupportsInterface_InterfaceId i))])
  | CUnpause => ("unpause"%string, [])
  end.
Definition encode_call `{GoEthereum} (c : Codec) (x : vault_call) : res bytes :=
  match x with
  | CDEFAULTADMINROLE => EncodeDEFAULTADMINROLEMethodCall c
  | CAcceptDefaultAdminTransfer => EncodeAcceptDefaultAdminTransferMethodCall c
  | CBeginDefaultAdminTransfer i => EncodeBeginDefaultAdminTransferMethodCall c i
  | CCancelDefaultAdminTransfer => EncodeCancelDefaultAdminTransferMethodCall c
  | CChangeDefaultAdminDelay i => EncodeChangeDefaultAdminDelayMethodCall c i
  | CDefaultAdmin => EncodeDefaultAdminMethodCall c
  | CDefaultAdminDelay => EncodeDefaultAdminDelayMethodCall c
  | CDefaultAdminDelayIncreaseWait => EncodeDefaultAdminDelayIncreaseWaitMethodCall c
  | CGetAllowlistedWorkflowSelector i => EncodeGetAllowlistedWorkflowSelectorMethodCall c i
  | CGetRoleAdmin i => EncodeGetRoleAdminMethodCall c i
  | CGetThisChainSelector => EncodeGetThisChainSelectorMethodCall c
  | CGetVault => EncodeGetVaultMethodCall c
  | CGetWorkflowGeneration i => EncodeGetWorkflowGenerationMethodCall c i
  | CGetWorkflowMetadata i => EncodeGetWorkflowMetadataMethodCall c i
  | CGrantRole i => EncodeGrantRoleMethodCall c i
  | CHasRole i => EncodeHasRoleMethodCall c i
  | COnReport i => EncodeOnReportMethodCall c i
  | COwner => EncodeOwnerMethodCall c
  | CPause => EncodePauseMethodCall c
  | CPaused => EncodePausedMethodCall c
  | CPendingDefaultAdmin => EncodePendingDefaultAdminMethodCall c
  | CPendingDefaultAdminDelay => EncodePendingDefaultAdminDelayMethodCall c
  | CRenounceRole i => EncodeRenounceRoleMethodCall c i
  | CRevokeRole i => EncodeRevokeRoleMethodCall c i
  | CRollbackDefaultAdminDelay => EncodeRollbackDefaultAdminDelayMethodCall c
  | CSetWorkflowMetadata i => EncodeSetWorkflowMetadataMethodCall c i
  | CSetWorkflowSelectors i => EncodeSetWorkflowSelectorsMethodCall c i
  | CSupportsInterface i => EncodeSupportsInterfaceMethodCall c i
  | CUnpause => EncodeUnpauseMethodCall c
  end.

Inductive vault_output : Type :=
| ODEFAULTADMINROLE (v : bytes)
| ODefaultAdmin (v : Address)
| ODefaultAdminDelay (v : bigint)
| ODefaultAdminDelayIncreaseWait (v : bigint)
| OGetAllowlistedWorkflowSelector (v : bool)
| OGetRoleAdmin (v : bytes)
| OGetThisChainSelector (v : Z)
| OGetVault (v : Address)
| OGetWorkflowGeneration (v : bigint)
| OGetWorkflowMetadata (v : IWorkflowRouterWorkflowMetadata)
| OHasRole (v : bool)
| OOwner (v : Address)
| OPaused (v : bool)
| OPendingDefaultAdmin (v : PendingDefaultAdminOutput)
| OPendingDefaultAdminDelay (v : PendingDefaultAdminDelayOutput)
| OSupportsInterface (v : bool).

(** The ABI name of the method and its output values. *)
Definition output_values_of (x : vault_output) : string * list abi_value :=
  match x with
  | ODEFAULTADMINROLE v => ("DEFAULT_ADMIN_ROLE"%string, [VFixed v])
  | ODefaultAdmin v => ("defaultAdmin"%string, [VFixed v])
  | ODefaultAdminDelay v => ("defaultAdminDelay"%string, [VBig v])
  | ODefaultAdminDelayIncreaseWait v => ("defaultAdminDelayIncreaseWait"%string, [VBig v])
  | OGetAllowlistedWorkflowSelector v => ("getAllowlistedWorkflowSelector"%string, [VBool v])
  | OGetRoleAdmin v => ("getRoleAdmin"%string, [VFixed v])
  | OGetThisChainSelector v => ("getThisChainSelector"%string, [VUint v])
  | OGetVault v => ("getVault"%string, [VFixed v])
  | OGetWorkflowGeneration v => ("getWorkflowGeneration"%string, [VBig v])
  | OGetWorkflowMetadata v => ("getWorkflowMetadata"%string, [
      IWorkflowRouterWorkflowMetadata_value v])
  | OHasRole v => ("hasRole"%string, [VBool v])
  | OOwner v => ("owner"%string, [VFixed v])
  | OPaused v => ("paused"%string, [VBool v])
  | OPendingDefaultAdmin v => ("pendingDefaultAdmin"%string, [
      VFixed (PendingDefaultAdminOutput_NewAdmin v); VBig (PendingDefaultAdminOutput_Schedule v)])
  | OPendingDefaultAdminDelay v => ("pendingDefaultAdminDelay"%string, [
      VBig (PendingDefaultAdminDelayOutput_NewDelay v);
      VBig (PendingDefaultAdminDelayOutput_Schedule v)])
  | OSupportsInterface v => ("supportsInterface"%string, [VBool v])
  end.

(** Decoding with the decoder of the method that [x] is an output of. *)
Definition decode_like `{GoEthereum} (x : vault_output) (c : Codec) (data : bytes)
    : res vault_output :=
  match x with
  | ODEFAULTADMINROLE _ => ODEFAULTADMINROLE <$> DecodeDEFAULTADMINROLEMethodOutput c data
  | ODefaultAdmin _ => ODefaultAdmin <$> DecodeDefaultAdminMethodOutput c data
  | ODefaultAdminDelay _ => ODefaultAdminDelay <$> DecodeDefaultAdminDelayMethodOutput c data
  | ODefaultAdminDelayIncreaseWait _ => ODefaultAdminDelayIncreaseWait <$> DecodeDefaultAdminDelayIncreaseWaitMethodOutput c data
  | OGetAllowlistedWorkflowSelector _ => OGetAllowlistedWorkflowSelector <$> DecodeGetAllowlistedWorkflowSelectorMethodOutput c data
  | OGetRoleAdmin _ => OGetRoleAdmin <$> DecodeGetRoleAdminMethodOutput c data
  | OGetThisChainSelector _ => OGetThisChainSelector <$> DecodeGetThisChainSelectorMethodOutput c data
  | OGetVault _ => OGetVault <$> DecodeGetVaultMethodOutput c data
  | OGetWorkflowGeneration _ => OGetWorkflowGeneration <$> DecodeGetWorkflowGenerationMethodOutput c data
  | OGetWorkflowMetadata _ => OGetWorkflowMetadata <$> DecodeGetWorkflowMetadataMethodOutput c data
  | OHasRole _ => OHasRole <$> DecodeHasRoleMethodOutput c data
  | OOwner _ => OOwner <$> DecodeOwnerMethodOutput c data
  | OPaused _ => OPaused <$> DecodePausedMethodOutput c data
  | OPendingDefaultAdmin _ => OPendingDefaultAdmin <$> DecodePendingDefaultAdminMethodOutput c data
  | OPendingDefaultAdminDelay _ => OPendingDefaultAdminDelay <$> DecodePendingDefaultAdminDelayMethodOutput c data
  | OSupportsInterface _ => OSupportsInterface <$> DecodeSupportsInterfaceMethodOutput c data
  end.

Inductive vault_read : Type :=
| RDEFAULTADMINROLE
| RDefaultAdmin
| RDefaultAdminDelay
| RDefaultAdminDelayIncreaseWait
| RGetAllowlistedWorkflowSelector (i : GetAllowlistedWorkflowSelectorInput)
| RGetRoleAdmin (i : GetRoleAdminInput)
| RGetThisChainSelector
| RGetVault
| RGetWorkflowGeneration (i : GetWorkflowGenerationInput)
| RGetWorkflowMetadata (i : GetWorkflowMetadataInput)
| RHasRole (i : HasRoleInput)
| ROwner
| RPaused
| RPendingDefaultAdmin
| RPendingDefaultAdminDelay
| RSupportsInterface (i : SupportsInterfaceInput).
Definition call_of (r : vault_read) : vault_call :=
  match r with
  | RDEFAULTADMINROLE => CDEFAULTADMINROLE
  | RDefaultAdmin => CDefaultAdmin
  | RDefaultAdminDelay => CDefaultAdminDelay
  | RDefaultAdminDelayIncreaseWait => CDefaultAdminDelayIncreaseWait
  | RGetAllowlistedWorkflowSelector i => CGetAllowlistedWorkflowSelector i
  | RGetRoleAdmin i => CGetRoleAdmin i
  | RGetThisChainSelector => CGetThisChainSelector
  | RGetVault => CGetVault
  | RGetWorkflowGeneration i => CGetWorkflowGeneration i
  | RGetWorkflowMetadata i => CGetWorkflowMetadata i
  | RHasRole i => CHasRole i
  | ROwner => COwner
  | RPaused => CPaused
  | RPendingDefaultAdmin => CPendingDefaultAdmin
  | RPendingDefaultAdminDelay => CPendingDefaultAdminDelay
  | RSupportsInterface i => CSupportsInterface i
  end.
Definition read `{GoEthereum} {R} (c : WorkflowRouter) (r : vault_read) (bn : bigint)
    : prog (cre_eff R) vault_output :=
  match r with
  | RDEFAULTADMINROLE => v ← DEFAULTADMINROLE c bn; Ret (ODEFAULTADMINROLE v)
  | RDefaultAdmin => v ← DefaultAdmin c bn; Ret (ODefaultAdmin v)
  | RDefaultAdminDelay => v ← DefaultAdminDelay c bn; Ret (ODefaultAdminDelay v)
  | RDefaultAdminDelayIncreaseWait => v ← DefaultAdminDelayIncreaseWait c bn; Ret (ODefaultAdminDelayIncreaseWait v)
  | RGetAllowlistedWorkflowSelector i => v ← GetAllowlistedWorkflowSelector c i bn; Ret (OGetAllowlistedWorkflowSelector v)
  | RGetRoleAdmin i => v ← GetRoleAdmin c i bn; Ret (OGetRoleAdmin v)
  | RGetThisChainSelector => v ← GetThisChainSelector c bn; Ret (OGetThisChainSelector v)
  | RGetVault => v ← GetVault c bn; Ret (OGetVault v)
  | RGetWorkflowGeneration i => v ← GetWorkflowGeneration c i bn; Ret (OGetWorkflowGeneration v)
  | RGetWorkflowMetadata i => v ← GetWorkflowMetadata c i bn; Ret (OGetWorkflowMetadata v)
  | RHasRole i => v ← HasRole c i bn; Ret (OHasRole v)
  | ROwner => v ← Owner c bn; Ret (OOwner v)
  | RPaused => v ← Paused c bn; Ret (OPaused v)
  | RPendingDefaultAdmin => v ← PendingDefaultAdmin c bn; Ret (OPendingDefaultAdmin v)
  | RPendingDefaultAdminDelay => v ← PendingDefaultAdminDelay c bn; Ret (OPendingDefaultAdminDelay v)
  | RSupportsInterface i => v ← SupportsInterface c i bn; Ret (OSupportsInterface v)
  end.

Inductive vault_struct : Type :=
| SIWorkflowRouterWorkflowMetadata (s : IWorkflowRouterWorkflowMetadata)
| SConstructorParams (s : ConstructorParams).
Definition struct_type (x : vault_struct) : sol_type :=
  match x with
  | SIWorkflowRouterWorkflowMetadata _ => IWorkflowRouterWorkflowMetadata_type
  | SConstructorParams _ => ConstructorParams_type
  end.
Definition struct_value (x : vault_struct) : abi_value :=
  match x with
  | SIWorkflowRouterWorkflowMetadata s => IWorkflowRouterWorkflowMetadata_value s
  | SConstructorParams s => ConstructorParams_value s
  end.
Definition encode_vault_struct `{GoAbiTypes} (x : vault_struct) : res bytes :=
  match x with
  | SIWorkflowRouterWorkflowMetadata s => EncodeIWorkflowRouterWorkflowMetadataStruct s
  | SConstructorParams s => EncodeConstructorParamsStruct s
  end.
Definition write_struct `{GoAbiTypes} {R} (c : WorkflowRouter) (x : vault_struct)
    (gasConfig : option GasConfig) : prog (cre_eff R) (option WriteReportReply) :=
  match x with
  | SIWorkflowRouterWorkflowMetadata s => WriteReportFromIWorkflowRouterWorkflowMetadata c s gasConfig
  | SConstructorParams s => WriteReportFromConstructorParams c s gasConfig
  end.

(** ** Correctness *)

(** The values of an output have the types of the metadata. *)
Definition typed_output (x : vault_output) : Prop :=
  Forall2 (λ v o, has_sol_type o.2 v) (output_values_of x).2
    (Method_Outputs (method_of methods (output_values_of x).1)).

Lemma workflowrouter_IWorkflowRouterWorkflowMetadata_value ty s :
  has_sol_type IWorkflowRouterWorkflowMetadata_type (IWorkflowRouterWorkflowMetadata_value s) →
  as_struct ty (decode_IWorkflowRouterWorkflowMetadata ty)
    (Some (IWorkflowRouterWorkflowMetadata_value s)) = Ok s.
Proof. unfold IWorkflowRouterWorkflowMetadata_type. destruct s. decoded_struct. Qed.
#[local] Hint Resolve workflowrouter_IWorkflowRouterWorkflowMetadata_value : decoded.

Lemma workflowrouter_output `{GoEthereum} x c data :
  typed_output x →
  abi_UnpackOutput (codec_abi c) (output_values_of x).1 data = Ok (output_values_of x).2 →
  decode_like x c data = Ok x.
Proof.
  unfold typed_output. destruct x; cbn [output_values_of decode_like fst snd].
  all: first [output_case | destruct v; output_case].
Qed.

(** Every [Encode<M>MethodCall] of the workflow router packs the method [M] of the
    metadata, with the fields of its input struct in the order of the metadata's
    inputs, each under the metadata's name and in the Go representation of the
    metadata's type. *)
Theorem WorkflowRouterCalls_abi `{GoEthereum} c x :
  encode_call c x = abi_Pack (codec_abi c) (describe x).1 (describe x).2.*2 ∧
  (describe x).2.*1 = (Method_Inputs (method_of methods (describe x).1)).*1 ∧
  Forall2 (λ v i, has_shape i.2 v = true) (describe x).2.*2
    (Method_Inputs (method_of methods (describe x).1)).
Proof. destruct x; cbn [encode_call describe fst snd fmap list_fmap]; shape_case. Qed.

(** A read that the node answers. *)
Lemma workflowrouter_read_answered `{GoEthereum} {R} (o : oracle (cre_eff R)) c r x bn data answer :
  (describe (call_of r)).1 = (output_values_of x).1 → typed_output x →
  encode_call (vault_Codec c) (call_of r) = Ok data →
  abi_UnpackOutput (codec_abi (vault_Codec c)) (output_values_of x).1 answer =
    Ok (output_values_of x).2 →
  let request := mkCallContractRequest (vault_Address c) data (default FinalizedBlockNumber bn) in
  o [] _ (ECallContract (vault_client c) request) = Reply (Some answer) →
  run o [] (read c r bn) =
    ([Step _ (ECallContract (vault_client c) request) (Reply (Some answer))], Ok x).
Proof.
  intros Hm Hty Hdata Hu request Ho.
  pose proof (workflowrouter_output x (vault_Codec c) answer Hty Hu) as Hd. clear Hty Hu.
  destruct r, x; try discriminate Hm.
  all: cbn [decode_like] in Hd; apply fmap_Ok in Hd as (v' & Hd & [= ->]);
    exact (read_contract_answered o _ _ _ bn _ _ _ _ _ Hdata Hd Ho).
Qed.

(** A view method of the workflow router that the node answers with the encoding of
    a value of the method's output types is one contract call, to the vault's
    address, of the method's call data at the requested (default: the finalized)
    block, and returns that value. *)
Theorem WorkflowRouterRead_spec `{GoEthereum} {R} (o : oracle (cre_eff R)) c r x bn data answer :
  (describe (call_of r)).1 = (output_values_of x).1 → typed_output x →
  encode_call (vault_Codec c) (call_of r) = Ok data →
  abi_UnpackOutput (codec_abi (vault_Codec c)) (output_values_of x).1 answer =
    Ok (output_values_of x).2 →
  let request := mkCallContractRequest (vault_Address c) data (default FinalizedBlockNumber bn) in
  o [] _ (ECallContract (vault_client c) request) = Reply (Some answer) →
  run o [] (read c r bn) =
    ([Step _ (ECallContract (vault_client c) request) (Reply (Some answer))], Ok x).
Proof. apply workflowrouter_read_answered. Qed.

(** Every tuple encoder of the workflow router names and types the components of
    its struct as the metadata does, in the order of the fields. *)
Theorem WorkflowRouterStructs_abi `{GoAbiTypes} x :
  ∃ struct_name arg_name,
    encode_vault_struct x =
      encode_struct struct_name arg_name (components (struct_type x)) (struct_value x) ∧
    has_shape (struct_type x) (struct_value x) = true.
Proof. destruct x; cbn [encode_vault_struct struct_type struct_value]; struct_case. Qed.

(** A report of a struct of the workflow router is signed before it is written, to
    the vault itself, and each at most once; when the struct cannot be encoded
    nothing is done. *)
Theorem WorkflowRouterReports_spec `{GoAbiTypes} {R} adm h c x gasConfig :
  wp_seg adm h (@write_struct _ _ R c x gasConfig)
    (report_written (vault_client c) (vault_Address c) (encode_vault_struct x) gasConfig).
Proof. destruct x; apply write_report_from_seg. Qed.

(** ** Witnesses *)
Module SampleWorkflowRouterMethods.
(** The delay is 5, and no other output decodes. *)
Definition unpack (md : MetaData) (name : string) (data : bytes) : res (list abi_value) :=
  if bool_decide (name = "defaultAdminDelay"%string) then Ok [VBig (Some 5)] else Err (Errorf "abi: no method" []).
#[local] Instance toy_ethereum : GoEthereum := ToyEthereum.ethereum_with unpack.
Definition vault : WorkflowRouter := mkWorkflowRouter zeroAddress WorkflowRouterMetaData 1 (mkCodec WorkflowRouterMetaData).
Definition host : oracle (cre_eff unit) := λ _ X c,
  match c in cre_eff _ X return X with
  | ENow => 10000
  | ELog _ _ => tt
  | EGenerateReport _ => Failed (Errorf "no report" [])
  | EWriteReport _ _ => Failed (Errorf "no write" [])
  | ECallContract _ _ => Reply (Some [])
  | EGetSecret _ => Failed (Errorf "no secret" [])
  | ESendRequest _ => Failed (Errorf "no consensus" [])
  end.

Lemma WorkflowRouterRead_spec_witness :
  (run host [] (read vault RDefaultAdminDelay None)).2 = Ok (ODefaultAdminDelay (Some 5)).
Proof.
  rewrite (WorkflowRouterRead_spec host vault RDefaultAdminDelay (ODefaultAdminDelay (Some 5)) None
             (ToyEthereum.fit 4 (to_bytes "defaultAdminDelay")) []); [reflexivity|reflexivity| |reflexivity..].
  repeat constructor; vm_compute; done.
Defined.
End SampleWorkflowRouterMethods.
End workflow_router_methods.
