(* ===== verification/AbiMocks.v ===== *)
(** * Mocks: the shape shared by the generated test doubles

    Each binding of [cre/contracts/evm/src/generated] comes with a mock of its
    contract for the unit tests: a struct with one optional function per view
    method, and a table that maps the method selectors to handlers which unpack
    the call data, call the function and pack its result.  This file has the
    shape of a handler and of the table, and the lemmas about them; the mocks of
    the contracts are in [ParentVaultMock], [ChildVaultMock], [BaseVaultMock] and
    [WorkflowRouterMock].  The functions of a mock are pure here: a closure that
    changes state between calls is a different mock for each call. *)

From S2P Require Import Prelude GoText BigInt Ethereum Runtime Bindings AbiErrors AbiMethods.

#[local] Open Scope Z_scope.

(** ** The parts of [accounts/abi] the mocks call *)
Class GoAbiMocks `{GoEthereum} := {
  abi_MethodID : abi_ABI → string → bytes;   (* abi.Methods[name].ID, nil for an unknown method *)
  abi_Inputs_Unpack : abi_ABI → string → bytes → res (list dyn);
  abi_Outputs_Pack : abi_ABI → string → list abi_value → res bytes }.

(** A handler of the table: [func(payload []byte) ([]byte, error)]. *)
Definition handler : Type := bytes → res bytes.

Definition not_mocked (name : string) : error :=
  Errorf (String.append name " method not mocked") [].
Definition input_count_error (n : nat) : error :=
  Errorf (if Nat.eqb n 1 then "expected 1 input value"
          else String.append "expected " (String.append (pretty n) " input values")) [].

Section Shapes.
Context `{GoAbiMocks} (abi : abi_ABI).

(** [values[i].(T)] panics when the value has another type. *)
Definition mock_arg {A} (to : dyn → option A) (values : list dyn) (i : nat) : res A :=
  v ← index values i; deref (to v).

(** [inputs.Unpack(payload)], the number of values, and the input struct. *)
Definition mock_inputs {I} (name : string) (n : nat) (args : list dyn → res I) (payload : bytes)
    : res I :=
  values ← (match abi_Inputs_Unpack abi name payload with
            | Err _ => Err (Errorf "Failed to unpack payload" [])
            | r => r
            end);
  _ ← fail_if (negb (Nat.eqb (length values) n)) (input_count_error n);
  args values.

(** A handler of a method without inputs. *)
Definition mock_value {A} (name : string) (f : option (res A)) (values : A → list abi_value)
    : handler := λ _,
  match f with
  | None => Err (not_mocked name)
  | Some result => v ← result; abi_Outputs_Pack abi name (values v)
  end.

(** A handler of a method with inputs. *)
Definition mock_call {I A} (name : string) (n : nat) (args : list dyn → res I)
    (f : option (I → res A)) (values : A → list abi_value) : handler := λ payload,
  match f with
  | None => Err (not_mocked name)
  | Some g => i ← mock_inputs name n args payload; v ← g i; abi_Outputs_Pack abi name (values v)
  end.

(** [abi.Methods[name].ID[:4]] panics for an unknown method. *)
Definition mock_selector (name : string) : res bytes :=
  if Nat.ltb (length (abi_MethodID abi name)) 4 then Crash
  else Ok (take 4 (abi_MethodID abi name)).

(** The table literal: its entries are evaluated in order, a later one replaces an
    earlier one with the same selector. *)
Fixpoint mock_table (l : list (string * handler)) (m : gmap bytes handler)
    : res (gmap bytes handler) :=
  match l with
  | [] => Ok m
  | (name, h) :: r => sel ← mock_selector name; mock_table r (<[sel := h]> m)
  end.

(** ** Lemmas *)
Lemma mock_selector_Ok name sel :
  mock_selector name = Ok sel ↔ (4 ≤ length (abi_MethodID abi name))%nat ∧ sel = take 4 (abi_MethodID abi name).
Proof.
  unfold mock_selector. destruct (Nat.ltb_spec (length (abi_MethodID abi name)) 4); naive_solver lia.
Qed.

Lemma mock_table_other l m m' sel :
  mock_table l m = Ok m' → sel ∉ (λ e, take 4 (abi_MethodID abi e.1)) <$> l → m' !! sel = m !! sel.
Proof.
  revert m. induction l as [|[name h] l IH]; intros m; cbn [mock_table fmap list_fmap].
  { by intros [= ->]. }
  intros (s & [_ ->]%mock_selector_Ok & Ht)%res_bind_Ok [Hne Hni]%not_elem_of_cons.
  rewrite (IH _ Ht Hni). by rewrite lookup_insert_ne.
Qed.

(** Distinct selectors: every entry is reached by its own. *)
Lemma mock_table_lookup l m m' name h :
  mock_table l m = Ok m' → NoDup ((λ e, take 4 (abi_MethodID abi e.1)) <$> l) →
  (name, h) ∈ l → m' !! take 4 (abi_MethodID abi name) = Some h.
Proof.
  revert m. induction l as [|[name' h'] l IH]; intros m; cbn [mock_table fmap list_fmap].
  { by intros _ _ ?%elem_of_nil. }
  intros (s & [_ ->]%mock_selector_Ok & Ht)%res_bind_Ok [Hni Hnd]%NoDup_cons [[= -> ->]|Hin]%elem_of_cons.
  - pose proof (mock_table_other _ _ _ _ Ht Hni) as E. cbn [fst] in E. by rewrite E, lookup_insert_eq.
  - by apply (IH _ Ht).
Qed.

(** The table exists exactly when every method of the mock is in the ABI. *)
Lemma mock_table_total l m :
  (∃ m', mock_table l m = Ok m') ↔ Forall (λ e, (4 ≤ length (abi_MethodID abi e.1))%nat) l.
Proof.
  revert m. induction l as [|[name h] l IH]; intros m; cbn [mock_table]; [naive_solver|].
  rewrite Forall_cons, <-(IH (<[take 4 (abi_MethodID abi name) := h]> m)). cbn [fst]. split.
  - intros (m' & (s & [? ->]%mock_selector_Ok & Ht)%res_bind_Ok). eauto.
  - intros (Hl & m' & Ht). exists m'. apply res_bind_Ok. exists (take 4 (abi_MethodID abi name)).
    split; [by apply mock_selector_Ok|done].
Qed.

(** The result of a mocked function among the outputs of the contract. *)
Definition mocked_value {A X} (inj : A → X) (f : option (res A)) : option (res X) :=
  match f with Some r => Some (inj <$> r) | None => None end.
Definition mocked_call {I A X} (inj : A → X) (f : option (I → res A)) (i : I) : option (res X) :=
  match f with Some g => Some (inj <$> g i) | None => None end.

(** What a handler answers, in terms of the mocked function. *)
Definition mock_answer {X} (name : string) (values : X → list abi_value) (mocked : option (res X))
    : res bytes :=
  match mocked with
  | None => Err (not_mocked name)
  | Some out => x ← out; abi_Outputs_Pack abi name (values x)
  end.

Lemma mock_value_answer {A X} name (f : option (res A)) (values : A → list abi_value) (inj : A → X)
    (values' : X → list abi_value) payload :
  (∀ a, values' (inj a) = values a) →
  mock_value name f values payload = mock_answer name values' (mocked_value inj f).
Proof. intros Hv. destruct f as [[a|e|]|]; cbn; rewrite ?Hv; done. Qed.

Lemma mock_call_answer {I A X} name n args (f : option (I → res A)) (values : A → list abi_value) (inj : A → X)
    (values' : X → list abi_value) payload dyns (i : I) :
  (∀ a, values' (inj a) = values a) →
  abi_Inputs_Unpack abi name payload = Ok dyns → length dyns = n → args dyns = Ok i →
  mock_call name n args f values payload = mock_answer name values' (mocked_call inj f i).
Proof.
  intros Hv Hu <- Ha. unfold mock_call, mock_inputs. destruct f as [g|]; [|done].
  rewrite Hu. cbn [mbind res_bind]. rewrite Nat.eqb_refl. cbn [negb fail_if]. rewrite Ha. cbn.
  destruct (g i) as [a|e|]; cbn; rewrite ?Hv; done.
Qed.
End Shapes.

Lemma mocked_value_Ok {A X} (inj : A → X) f x : mocked_value inj f = Some (Ok x) → ∃ a, x = inj a.
Proof. destruct f as [[a|e|]|]; cbn; intros [=]; eauto. Qed.
Lemma mocked_call_Ok {I A X} (inj : A → X) (f : option (I → res A)) i x :
  mocked_call inj f i = Some (Ok x) → ∃ a, x = inj a.
Proof. destruct f as [g|]; cbn; [|done]. destruct (g i) as [a|e|]; cbn; intros [=]; eauto. Qed.

(** A call that a mock answers: [client.CallContract] reaches the handler that
    the table has for the selector with the rest of the call data. *)
Definition mock_reply (funcs : gmap bytes handler) (data : bytes) : option (res bytes) :=
  (λ h, h (drop 4 data)) <$> funcs !! take 4 data.

Lemma is_Ok_default {A} (r : res A) d : is_Ok r = true → r = Ok (match r with Ok a => a | _ => d end).
Proof. by destruct r. Qed.

(** Every method of a mock is an entry of its table. *)
Ltac table_entry :=
  solve [repeat first [apply list_elem_of_here | apply list_elem_of_further]].
(** The handler of one method, against the mocked function. *)
Ltac mock_case Hu :=
  first [apply mock_value_answer; intros; reflexivity
        | eapply mock_call_answer; [intros; reflexivity | exact Hu | reflexivity
          | lazymatch goal with i : _ |- _ = Ok ?i' => by destruct i' end]].
