(* ===== verification/ParentVaultMock.v ===== *)
(** * The mock of the parent vault

    [cre/contracts/evm/src/generated/parent_vault/ParentVault_mock.go]: the test double of the
    contract, and the theorem that a read of the binding sees what the mocked
    function returned.  [evmmock.AddContractMock], which hands the table to the
    simulated chain client, is code of the SDK: [mock_reply] is how the client
    uses the table. *)

From S2P Require Import Prelude GoText BigInt Ethereum Runtime Bindings AbiErrors ParentVault AbiMethods ParentVaultMethods AbiMocks.

#[local] Open Scope Z_scope.

Module parent_vault_mock.
Import parent_vault parent_vault_methods.

(** ** The functions of the mock: nil until a test sets them *)
Record ParentVaultMock := mkParentVaultMock {
  Mock_DEFAULTADMINROLE : option (res bytes);
  Mock_UPGRADEINTERFACEVERSION : option (res string);
  Mock_DefaultAdmin : option (res Address);
  Mock_DefaultAdminDelay : option (res bigint);
  Mock_DefaultAdminDelayIncreaseWait : option (res bigint);
  Mock_GetActiveProtocolAdapter : option (res Address);
  Mock_GetAdapterRegistry : option (res Address);
  Mock_GetAllowlistEnabled : option (res bool);
  Mock_GetAllowlistedUser : option (GetAllowlistedUserInput → res bool);
  Mock_GetAsset : option (res Address);
  Mock_GetAssetPrecision : option (res bigint);
  Mock_GetCCVsAndFinalityConfig : option (GetCCVsAndFinalityConfigInput → res GetCCVsAndFinalityConfigOutput);
  Mock_GetCcipGasLimit : option (GetCcipGasLimitInput → res bigint);
  Mock_GetCrosschainVault : option (GetCrosschainVaultInput → res Address);
  Mock_GetDefaultCcipGasLimit : option (res bigint);
  Mock_GetDepositAmount : option (GetDepositAmountInput → res bigint);
  Mock_GetEpoch : option (GetEpochInput → res TypesEpoch);
  Mock_GetEpochNonce : option (res bigint);
  Mock_GetInitialActiveProtocolAdapterSet : option (res bool);
  Mock_GetLink : option (res Address);
  Mock_GetMinAssetAmount : option (res bigint);
  Mock_GetParentOperationalState : option (res TypesParentOperationalState);
  Mock_GetRebalance : option (res TypesRebalance);
  Mock_GetRebalanceDepositRecovery : option (res TypesRebalanceDepositRecovery);
  Mock_GetRecoveryMode : option (res Z);
  Mock_GetRoleAdmin : option (GetRoleAdminInput → res bytes);
  Mock_GetRouter : option (res Address);
  Mock_GetShare : option (res Address);
  Mock_GetSupportedProtocol : option (GetSupportedProtocolInput → res bool);
  Mock_GetTVL : option (res bigint);
  Mock_GetThisChainSelector : option (res Z);
  Mock_GetTotalShares : option (res bigint);
  Mock_GetTreasury : option (res Address);
  Mock_GetWithdrawShareBurnAmount : option (GetWithdrawShareBurnAmountInput → res bigint);
  Mock_HasRole : option (HasRoleInput → res bool);
  Mock_Owner : option (res Address);
  Mock_Paused : option (res bool);
  Mock_PendingDefaultAdmin : option (res PendingDefaultAdminOutput);
  Mock_PendingDefaultAdminDelay : option (res PendingDefaultAdminDelayOutput);
  Mock_ProxiableUUID : option (res bytes) }.

Section Handlers.
Context `{GoAbiMocks} (abi : abi_ABI) (mock : ParentVaultMock).

(** ** The handlers *)
Definition mock_DEFAULT_ADMIN_ROLE : handler :=
  mock_value abi "DEFAULT_ADMIN_ROLE" (Mock_DEFAULTADMINROLE mock) (λ v, [VFixed v]).
Definition mock_UPGRADE_INTERFACE_VERSION : handler :=
  mock_value abi "UPGRADE_INTERFACE_VERSION" (Mock_UPGRADEINTERFACEVERSION mock) (λ v, [VString v]).
Definition mock_defaultAdmin : handler :=
  mock_value abi "defaultAdmin" (Mock_DefaultAdmin mock) (λ v, [VFixed v]).
Definition mock_defaultAdminDelay : handler :=
  mock_value abi "defaultAdminDelay" (Mock_DefaultAdminDelay mock) (λ v, [VBig v]).
Definition mock_defaultAdminDelayIncreaseWait : handler :=
  mock_value abi "defaultAdminDelayIncreaseWait" (Mock_DefaultAdminDelayIncreaseWait mock) (λ v, [VBig v]).
Definition mock_getActiveProtocolAdapter : handler :=
  mock_value abi "getActiveProtocolAdapter" (Mock_GetActiveProtocolAdapter mock) (λ v, [VFixed v]).
Definition mock_getAdapterRegistry : handler :=
  mock_value abi "getAdapterRegistry" (Mock_GetAdapterRegistry mock) (λ v, [VFixed v]).
Definition mock_getAllowlistEnabled : handler :=
  mock_value abi "getAllowlistEnabled" (Mock_GetAllowlistEnabled mock) (λ v, [VBool v]).
Definition mock_getAllowlistedUser : handler :=
  mock_call abi "getAllowlistedUser" 1
    (λ values,
       a0 ← mock_arg to_address values 0;
       Ok (mkGetAllowlistedUserInput a0))
    (Mock_GetAllowlistedUser mock) (λ v, [VBool v]).
Definition mock_getAsset : handler :=
  mock_value abi "getAsset" (Mock_GetAsset mock) (λ v, [VFixed v]).
Definition mock_getAssetPrecision : handler :=
  mock_value abi "getAssetPrecision" (Mock_GetAssetPrecision mock) (λ v, [VBig v]).
Definition mock_getCCVsAndFinalityConfig : handler :=
  mock_call abi "getCCVsAndFinalityConfig" 2
    (λ values,
       a0 ← mock_arg to_uint64 values 0;
       a1 ← mock_arg to_bytes_slice values 1;
       Ok (mkGetCCVsAndFinalityConfigInput a0 a1))
    (Mock_GetCCVsAndFinalityConfig mock) (λ v, [VSlice (VFixed <$> (GetCCVsAndFinalityConfigOutput_RequiredCCVs v)); VSlice (VFixed <$> (GetCCVsAndFinalityConfigOutput_OptionalCCVs v)); VUint (GetCCVsAndFinalityConfigOutput_OptionalThreshold v); VFixed (GetCCVsAndFinalityConfigOutput_AllowedFinalityConfig v)]).
Definition mock_getCcipGasLimit : handler :=
  mock_call abi "getCcipGasLimit" 1
    (λ values,
       a0 ← mock_arg to_uint64 values 0;
       Ok (mkGetCcipGasLimitInput a0))
    (Mock_GetCcipGasLimit mock) (λ v, [VBig v]).
Definition mock_getCrosschainVault : handler :=
  mock_call abi "getCrosschainVault" 1
    (λ values,
       a0 ← mock_arg to_uint64 values 0;
       Ok (mkGetCrosschainVaultInput a0))
    (Mock_GetCrosschainVault mock) (λ v, [VFixed v]).
Definition mock_getDefaultCcipGasLimit : handler :=
  mock_value abi "getDefaultCcipGasLimit" (Mock_GetDefaultCcipGasLimit mock) (λ v, [VBig v]).
Definition mock_getDepositAmount : handler :=
  mock_call abi "getDepositAmount" 2
    (λ values,
       a0 ← mock_arg to_address values 0;
       a1 ← mock_arg to_big values 1;
       Ok (mkGetDepositAmountInput a0 a1))
    (Mock_GetDepositAmount mock) (λ v, [VBig v]).
Definition mock_getEpoch : handler :=
  mock_call abi "getEpoch" 1
    (λ values,
       a0 ← mock_arg to_big values 0;
       Ok (mkGetEpochInput a0))
    (Mock_GetEpoch mock) (λ v, [TypesEpoch_value v]).
Definition mock_getEpochNonce : handler :=
  mock_value abi "getEpochNonce" (Mock_GetEpochNonce mock) (λ v, [VBig v]).
Definition mock_getInitialActiveProtocolAdapterSet : handler :=
  mock_value abi "getInitialActiveProtocolAdapterSet" (Mock_GetInitialActiveProtocolAdapterSet mock) (λ v, [VBool v]).
Definition mock_getLink : handler :=
  mock_value abi "getLink" (Mock_GetLink mock) (λ v, [VFixed v]).
Definition mock_getMinAssetAmount : handler :=
  mock_value abi "getMinAssetAmount" (Mock_GetMinAssetAmount mock) (λ v, [VBig v]).
Definition mock_getParentOperationalState : handler :=
  mock_value abi "getParentOperationalState" (Mock_GetParentOperationalState mock) (λ v, [TypesParentOperationalState_value v]).
Definition mock_getRebalance : handler :=
  mock_value abi "getRebalance" (Mock_GetRebalance mock) (λ v, [TypesRebalance_value v]).
Definition mock_getRebalanceDepositRecovery : handler :=
  mock_value abi "getRebalanceDepositRecovery" (Mock_GetRebalanceDepositRecovery mock) (λ v, [TypesRebalanceDepositRecovery_value v]).
Definition mock_getRecoveryMode : handler :=
  mock_value abi "getRecoveryMode" (Mock_GetRecoveryMode mock) (λ v, [VUint v]).
Definition mock_getRoleAdmin : handler :=
  mock_call abi "getRoleAdmin" 1
    (λ values,
       a0 ← mock_arg to_bytes32 values 0;
       Ok (mkGetRoleAdminInput a0))
    (Mock_GetRoleAdmin mock) (λ v, [VFixed v]).
Definition mock_getRouter : handler :=
  mock_value abi "getRouter" (Mock_GetRouter mock) (λ v, [VFixed v]).
Definition mock_getShare : handler :=
  mock_value abi "getShare" (Mock_GetShare mock) (λ v, [VFixed v]).
Definition mock_getSupportedProtocol : handler :=
  mock_call abi "getSupportedProtocol" 1
    (λ values,
       a0 ← mock_arg to_bytes32 values 0;
       Ok (mkGetSupportedProtocolInput a0))
    (Mock_GetSupportedProtocol mock) (λ v, [VBool v]).
Definition mock_getTVL : handler :=
  mock_value abi "getTVL" (Mock_GetTVL mock) (λ v, [VBig v]).
Definition mock_getThisChainSelector : handler :=
  mock_value abi "getThisChainSelector" (Mock_GetThisChainSelector mock) (λ v, [VUint v]).
Definition mock_getTotalShares : handler :=
  mock_value abi "getTotalShares" (Mock_GetTotalShares mock) (λ v, [VBig v]).
Definition mock_getTreasury : handler :=
  mock_value abi "getTreasury" (Mock_GetTreasury mock) (λ v, [VFixed v]).
Definition mock_getWithdrawShareBurnAmount : handler :=
  mock_call abi "getWithdrawShareBurnAmount" 2
    (λ values,
       a0 ← mock_arg to_address values 0;
       a1 ← mock_arg to_big values 1;
       Ok (mkGetWithdrawShareBurnAmountInput a0 a1))
    (Mock_GetWithdrawShareBurnAmount mock) (λ v, [VBig v]).
Definition mock_hasRole : handler :=
  mock_call abi "hasRole" 2
    (λ values,
       a0 ← mock_arg to_bytes32 values 0;
       a1 ← mock_arg to_address values 1;
       Ok (mkHasRoleInput a0 a1))
    (Mock_HasRole mock) (λ v, [VBool v]).
Definition mock_owner : handler :=
  mock_value abi "owner" (Mock_Owner mock) (λ v, [VFixed v]).
Definition mock_paused : handler :=
  mock_value abi "paused" (Mock_Paused mock) (λ v, [VBool v]).
Definition mock_pendingDefaultAdmin : handler :=
  mock_value abi "pendingDefaultAdmin" (Mock_PendingDefaultAdmin mock) (λ v, [VFixed (PendingDefaultAdminOutput_NewAdmin v); VBig (PendingDefaultAdminOutput_Schedule v)]).
Definition mock_pendingDefaultAdminDelay : handler :=
  mock_value abi "pendingDefaultAdminDelay" (Mock_PendingDefaultAdminDelay mock) (λ v, [VBig (PendingDefaultAdminDelayOutput_NewDelay v); VBig (PendingDefaultAdminDelayOutput_Schedule v)]).
Definition mock_proxiableUUID : handler :=
  mock_value abi "proxiableUUID" (Mock_ProxiableUUID mock) (λ v, [VFixed v]).

(** ** The table *)
Definition funcMap : list (string * handler) := [
  ("DEFAULT_ADMIN_ROLE"%string, mock_DEFAULT_ADMIN_ROLE);
  ("UPGRADE_INTERFACE_VERSION"%string, mock_UPGRADE_INTERFACE_VERSION);
  ("defaultAdmin"%string, mock_defaultAdmin);
  ("defaultAdminDelay"%string, mock_defaultAdminDelay);
  ("defaultAdminDelayIncreaseWait"%string, mock_defaultAdminDelayIncreaseWait);
  ("getActiveProtocolAdapter"%string, mock_getActiveProtocolAdapter);
  ("getAdapterRegistry"%string, mock_getAdapterRegistry);
  ("getAllowlistEnabled"%string, mock_getAllowlistEnabled);
  ("getAllowlistedUser"%string, mock_getAllowlistedUser);
  ("getAsset"%string, mock_getAsset);
  ("getAssetPrecision"%string, mock_getAssetPrecision);
  ("getCCVsAndFinalityConfig"%string, mock_getCCVsAndFinalityConfig);
  ("getCcipGasLimit"%string, mock_getCcipGasLimit);
  ("getCrosschainVault"%string, mock_getCrosschainVault);
  ("getDefaultCcipGasLimit"%string, mock_getDefaultCcipGasLimit);
  ("getDepositAmount"%string, mock_getDepositAmount);
  ("getEpoch"%string, mock_getEpoch);
  ("getEpochNonce"%string, mock_getEpochNonce);
  ("getInitialActiveProtocolAdapterSet"%string, mock_getInitialActiveProtocolAdapterSet);
  ("getLink"%string, mock_getLink);
  ("getMinAssetAmount"%string, mock_getMinAssetAmount);
  ("getParentOperationalState"%string, mock_getParentOperationalState);
  ("getRebalance"%string, mock_getRebalance);
  ("getRebalanceDepositRecovery"%string, mock_getRebalanceDepositRecovery);
  ("getRecoveryMode"%string, mock_getRecoveryMode);
  ("getRoleAdmin"%string, mock_getRoleAdmin);
  ("getRouter"%string, mock_getRouter);
  ("getShare"%string, mock_getShare);
  ("getSupportedProtocol"%string, mock_getSupportedProtocol);
  ("getTVL"%string, mock_getTVL);
  ("getThisChainSelector"%string, mock_getThisChainSelector);
  ("getTotalShares"%string, mock_getTotalShares);
  ("getTreasury"%string, mock_getTreasury);
  ("getWithdrawShareBurnAmount"%string, mock_getWithdrawShareBurnAmount);
  ("hasRole"%string, mock_hasRole);
  ("owner"%string, mock_owner);
  ("paused"%string, mock_paused);
  ("pendingDefaultAdmin"%string, mock_pendingDefaultAdmin);
  ("pendingDefaultAdminDelay"%string, mock_pendingDefaultAdminDelay);
  ("proxiableUUID"%string, mock_proxiableUUID)].
End Handlers.

Definition NewParentVaultMock `{GoAbiMocks} (mock : ParentVaultMock) : res (gmap bytes handler) :=
  codec ← (match NewCodec with Ok codec => Ok codec | _ => Crash end);
  let abi := codec_abi codec in
  mock_table abi (funcMap abi mock) ∅.

(** ** What the mock stands for *)

(** The mocked result of a read: [None] when its function is nil. *)
Definition mocked (mock : ParentVaultMock) (r : vault_read) : option (res vault_output) :=
  match r with
  | RDEFAULTADMINROLE => mocked_value ODEFAULTADMINROLE (Mock_DEFAULTADMINROLE mock)
  | RUPGRADEINTERFACEVERSION => mocked_value OUPGRADEINTERFACEVERSION (Mock_UPGRADEINTERFACEVERSION mock)
  | RDefaultAdmin => mocked_value ODefaultAdmin (Mock_DefaultAdmin mock)
  | RDefaultAdminDelay => mocked_value ODefaultAdminDelay (Mock_DefaultAdminDelay mock)
  | RDefaultAdminDelayIncreaseWait => mocked_value ODefaultAdminDelayIncreaseWait (Mock_DefaultAdminDelayIncreaseWait mock)
  | RGetActiveProtocolAdapter => mocked_value OGetActiveProtocolAdapter (Mock_GetActiveProtocolAdapter mock)
  | RGetAdapterRegistry => mocked_value OGetAdapterRegistry (Mock_GetAdapterRegistry mock)
  | RGetAllowlistEnabled => mocked_value OGetAllowlistEnabled (Mock_GetAllowlistEnabled mock)
  | RGetAllowlistedUser i => mocked_call OGetAllowlistedUser (Mock_GetAllowlistedUser mock) i
  | RGetAsset => mocked_value OGetAsset (Mock_GetAsset mock)
  | RGetAssetPrecision => mocked_value OGetAssetPrecision (Mock_GetAssetPrecision mock)
  | RGetCCVsAndFinalityConfig i => mocked_call OGetCCVsAndFinalityConfig (Mock_GetCCVsAndFinalityConfig mock) i
  | RGetCcipGasLimit i => mocked_call OGetCcipGasLimit (Mock_GetCcipGasLimit mock) i
  | RGetCrosschainVault i => mocked_call OGetCrosschainVault (Mock_GetCrosschainVault mock) i
  | RGetDefaultCcipGasLimit => mocked_value OGetDefaultCcipGasLimit (Mock_GetDefaultCcipGasLimit mock)
  | RGetDepositAmount i => mocked_call OGetDepositAmount (Mock_GetDepositAmount mock) i
  | RGetEpoch i => mocked_call OGetEpoch (Mock_GetEpoch mock) i
  | RGetEpochNonce => mocked_value OGetEpochNonce (Mock_GetEpochNonce mock)
  | RGetInitialActiveProtocolAdapterSet => mocked_value OGetInitialActiveProtocolAdapterSet (Mock_GetInitialActiveProtocolAdapterSet mock)
  | RGetLink => mocked_value OGetLink (Mock_GetLink mock)
  | RGetMinAssetAmount => mocked_value OGetMinAssetAmount (Mock_GetMinAssetAmount mock)
  | RGetParentOperationalState => mocked_value OGetParentOperationalState (Mock_GetParentOperationalState mock)
  | RGetRebalance => mocked_value OGetRebalance (Mock_GetRebalance mock)
  | RGetRebalanceDepositRecovery => mocked_value OGetRebalanceDepositRecovery (Mock_GetRebalanceDepositRecovery mock)
  | RGetRecoveryMode => mocked_value OGetRecoveryMode (Mock_GetRecoveryMode mock)
  | RGetRoleAdmin i => mocked_call OGetRoleAdmin (Mock_GetRoleAdmin mock) i
  | RGetRouter => mocked_value OGetRouter (Mock_GetRouter mock)
  | RGetShare => mocked_value OGetShare (Mock_GetShare mock)
  | RGetSupportedProtocol i => mocked_call OGetSupportedProtocol (Mock_GetSupportedProtocol mock) i
  | RGetTVL => mocked_value OGetTVL (Mock_GetTVL mock)
  | RGetThisChainSelector => mocked_value OGetThisChainSelector (Mock_GetThisChainSelector mock)
  | RGetTotalShares => mocked_value OGetTotalShares (Mock_GetTotalShares mock)
  | RGetTreasury => mocked_value OGetTreasury (Mock_GetTreasury mock)
  | RGetWithdrawShareBurnAmount i => mocked_call OGetWithdrawShareBurnAmount (Mock_GetWithdrawShareBurnAmount mock) i
  | RHasRole i => mocked_call OHasRole (Mock_HasRole mock) i
  | ROwner => mocked_value OOwner (Mock_Owner mock)
  | RPaused => mocked_value OPaused (Mock_Paused mock)
  | RPendingDefaultAdmin => mocked_value OPendingDefaultAdmin (Mock_PendingDefaultAdmin mock)
  | RPendingDefaultAdminDelay => mocked_value OPendingDefaultAdminDelay (Mock_PendingDefaultAdminDelay mock)
  | RProxiableUUID => mocked_value OProxiableUUID (Mock_ProxiableUUID mock)
  end.
Definition handler_of `{GoAbiMocks} (abi : abi_ABI) (mock : ParentVaultMock) (r : vault_read)
    : string * handler :=
  match r with
  | RDEFAULTADMINROLE => ("DEFAULT_ADMIN_ROLE"%string, mock_DEFAULT_ADMIN_ROLE abi mock)
  | RUPGRADEINTERFACEVERSION => ("UPGRADE_INTERFACE_VERSION"%string, mock_UPGRADE_INTERFACE_VERSION abi mock)
  | RDefaultAdmin => ("defaultAdmin"%string, mock_defaultAdmin abi mock)
  | RDefaultAdminDelay => ("defaultAdminDelay"%string, mock_defaultAdminDelay abi mock)
  | RDefaultAdminDelayIncreaseWait => ("defaultAdminDelayIncreaseWait"%string, mock_defaultAdminDelayIncreaseWait abi mock)
  | RGetActiveProtocolAdapter => ("getActiveProtocolAdapter"%string, mock_getActiveProtocolAdapter abi mock)
  | RGetAdapterRegistry => ("getAdapterRegistry"%string, mock_getAdapterRegistry abi mock)
  | RGetAllowlistEnabled => ("getAllowlistEnabled"%string, mock_getAllowlistEnabled abi mock)
  | RGetAllowlistedUser _ => ("getAllowlistedUser"%string, mock_getAllowlistedUser abi mock)
  | RGetAsset => ("getAsset"%string, mock_getAsset abi mock)
  | RGetAssetPrecision => ("getAssetPrecision"%string, mock_getAssetPrecision abi mock)
  | RGetCCVsAndFinalityConfig _ => ("getCCVsAndFinalityConfig"%string, mock_getCCVsAndFinalityConfig abi mock)
  | RGetCcipGasLimit _ => ("getCcipGasLimit"%string, mock_getCcipGasLimit abi mock)
  | RGetCrosschainVault _ => ("getCrosschainVault"%string, mock_getCrosschainVault abi mock)
  | RGetDefaultCcipGasLimit => ("getDefaultCcipGasLimit"%string, mock_getDefaultCcipGasLimit abi mock)
  | RGetDepositAmount _ => ("getDepositAmount"%string, mock_getDepositAmount abi mock)
  | RGetEpoch _ => ("getEpoch"%string, mock_getEpoch abi mock)
  | RGetEpochNonce => ("getEpochNonce"%string, mock_getEpochNonce abi mock)
  | RGetInitialActiveProtocolAdapterSet => ("getInitialActiveProtocolAdapterSet"%string, mock_getInitialActiveProtocolAdapterSet abi mock)
  | RGetLink => ("getLink"%string, mock_getLink abi mock)
  | RGetMinAssetAmount => ("getMinAssetAmount"%string, mock_getMinAssetAmount abi mock)
  | RGetParentOperationalState => ("getParentOperationalState"%string, mock_getParentOperationalState abi mock)
  | RGetRebalance => ("getRebalance"%string, mock_getRebalance abi mock)
  | RGetRebalanceDepositRecovery => ("getRebalanceDepositRecovery"%string, mock_getRebalanceDepositRecovery abi mock)
  | RGetRecoveryMode => ("getRecoveryMode"%string, mock_getRecoveryMode abi mock)
  | RGetRoleAdmin _ => ("getRoleAdmin"%string, mock_getRoleAdmin abi mock)
  | RGetRouter => ("getRouter"%string, mock_getRouter abi mock)
  | RGetShare => ("getShare"%string, mock_getShare abi mock)
  | RGetSupportedProtocol _ => ("getSupportedProtocol"%string, mock_getSupportedProtocol abi mock)
  | RGetTVL => ("getTVL"%string, mock_getTVL abi mock)
  | RGetThisChainSelector => ("getThisChainSelector"%string, mock_getThisChainSelector abi mock)
  | RGetTotalShares => ("getTotalShares"%string, mock_getTotalShares abi mock)
  | RGetTreasury => ("getTreasury"%string, mock_getTreasury abi mock)
  | RGetWithdrawShareBurnAmount _ => ("getWithdrawShareBurnAmount"%string, mock_getWithdrawShareBurnAmount abi mock)
  | RHasRole _ => ("hasRole"%string, mock_hasRole abi mock)
  | ROwner => ("owner"%string, mock_owner abi mock)
  | RPaused => ("paused"%string, mock_paused abi mock)
  | RPendingDefaultAdmin => ("pendingDefaultAdmin"%string, mock_pendingDefaultAdmin abi mock)
  | RPendingDefaultAdminDelay => ("pendingDefaultAdminDelay"%string, mock_pendingDefaultAdminDelay abi mock)
  | RProxiableUUID => ("proxiableUUID"%string, mock_proxiableUUID abi mock)
  end.
(** The inputs of a read, as the ABI unpacks them. *)
Definition inputs_of (r : vault_read) : list dyn :=
  match r with
  | RGetAllowlistedUser i => [DAddress (GetAllowlistedUser_User i)]
  | RGetCCVsAndFinalityConfig i => [DUint64 (GetCCVsAndFinalityConfig_Arg0 i); DBytes (GetCCVsAndFinalityConfig_Arg1 i)]
  | RGetCcipGasLimit i => [DUint64 (GetCcipGasLimit_ChainSelector i)]
  | RGetCrosschainVault i => [DUint64 (GetCrosschainVault_ChainSelector i)]
  | RGetDepositAmount i => [DAddress (GetDepositAmount_User i); DBig (GetDepositAmount_EpochNonce i)]
  | RGetEpoch i => [DBig (GetEpoch_EpochNonce i)]
  | RGetRoleAdmin i => [DBytes32 (GetRoleAdmin_Role i)]
  | RGetSupportedProtocol i => [DBytes32 (GetSupportedProtocol_ProtocolId i)]
  | RGetWithdrawShareBurnAmount i => [DAddress (GetWithdrawShareBurnAmount_User i); DBig (GetWithdrawShareBurnAmount_EpochNonce i)]
  | RHasRole i => [DBytes32 (HasRole_Role i); DAddress (HasRole_Account i)]
  | _ => []
  end.

(** ** Correctness *)
Lemma parent_entry `{GoAbiMocks} abi mock r : handler_of abi mock r ∈ funcMap abi mock.
Proof. destruct r; table_entry. Qed.
Lemma parent_name `{GoAbiMocks} abi mock r : (handler_of abi mock r).1 = (describe (call_of r)).1.
Proof. by destruct r. Qed.

(** A handler of the mock of the parent vault, on call data that the ABI unpacks to
    the inputs of a read, answers with the encoding of what the mocked function
    returns on these inputs, with its error, or, when it is nil, with the error
    that names the method. *)
Theorem ParentMock_handler `{GoAbiMocks} abi mock r payload :
  abi_Inputs_Unpack abi (handler_of abi mock r).1 payload = Ok (inputs_of r) →
  (handler_of abi mock r).2 payload =
    mock_answer abi (handler_of abi mock r).1 (λ x, (output_values_of x).2) (mocked mock r).
Proof. intros Hu. destruct r; cbn [handler_of fst snd mocked inputs_of] in *; mock_case Hu. Qed.

(** C32: A test that sets a function of the mock sees through the binding what this
    function returns: the read of a method of the parent vault, against a client
    that answers from the mock's table, returns the mocked value, provided the
    selectors differ and the ABI inverts its encodings. *)
Theorem ParentMock_read `{GoAbiMocks} {R} (o : oracle (cre_eff R)) c mock funcs r x bn data answer
    (HCodec : NewCodec = Ok (vault_Codec c)) (HNew : NewParentVaultMock mock = Ok funcs)
    (HSel : NoDup ((λ e, take 4 (abi_MethodID (codec_abi (vault_Codec c)) e.1))
       <$> funcMap (codec_abi (vault_Codec c)) mock))
    (HMock : mocked mock r = Some (Ok x)) (HTyped : typed_output x)
    (HCall : encode_call (vault_Codec c) (call_of r) = Ok data)
    (HId : take 4 data
       = take 4 (abi_MethodID (codec_abi (vault_Codec c)) (describe (call_of r)).1))
    (HIn : abi_Inputs_Unpack (codec_abi (vault_Codec c)) (describe (call_of r)).1 (drop 4 data)
       = Ok (inputs_of r))
    (HOut : abi_Outputs_Pack (codec_abi (vault_Codec c)) (describe (call_of r)).1 (output_values_of x).2
       = Ok answer)
    (HBack : abi_UnpackOutput (codec_abi (vault_Codec c)) (output_values_of x).1 answer
       = Ok (output_values_of x).2)
    (HHost : mock_reply funcs data = Some (Ok answer) →
       o [] _ (ECallContract (vault_client c) (mkCallContractRequest (vault_Address c) data
         (default FinalizedBlockNumber bn))) = Reply (Some answer)) :
  (run o [] (read c r bn)).2 = Ok x.
Proof.
  set (abi := codec_abi (vault_Codec c)) in *.
  assert (mock_reply funcs data = Some (Ok answer)) as Hr.
  { unfold NewParentVaultMock in HNew. rewrite HCodec in HNew.
    cbn [mbind res_bind] in HNew. fold abi in HNew.
    pose proof (parent_entry abi mock r) as He. pose proof (parent_name abi mock r) as Hn.
    pose proof (ParentMock_handler abi mock r (drop 4 data)) as Hh. rewrite Hn in Hh. specialize (Hh HIn).
    destruct (handler_of abi mock r) as [name h]. cbn [fst snd] in *. subst name.
    pose proof (mock_table_lookup _ _ _ _ _ _ HNew HSel He) as Hl.
    apply (f_equal (fmap (λ h, h (drop 4 data)))) in Hl. unfold mock_reply. rewrite HId.
    etransitivity; [exact Hl|]. cbn. rewrite Hh, HMock. cbn. by rewrite HOut. }
  assert ((describe (call_of r)).1 = (output_values_of x).1) as Hname.
  { destruct r; cbn in HMock;
      first [apply mocked_value_Ok in HMock as (v & ->) | apply mocked_call_Ok in HMock as (v & ->)];
      done. }
  by rewrite (parent_read_answered o c r x bn data answer Hname HTyped HCall HBack (HHost Hr)).
Qed.
(** ** A concrete mock *)
Module SampleParentMock.
(** One method, [getEpochNonce], is mocked: it returns 5, which the sample ABI encodes in a word. *)
Definition unpack (md : MetaData) (name : string) (data : bytes) : res (list abi_value) :=
  if bool_decide (name = "getEpochNonce"%string) then Ok [VBig (Some (ToyEthereum.bytes_to_Z data))]
  else Err (Errorf "abi: no method" []).
#[local] Instance toy_ethereum : GoEthereum := ToyEthereum.ethereum_with unpack.
(** The identifier of a method: a hash of its name; that of the mocked method is
    what the sample call data starts with. *)
Definition toy_id (name : string) : bytes :=
  if bool_decide (name = "getEpochNonce"%string) then ToyEthereum.fit 4 (to_bytes name)
  else ToyEthereum.word 4 (fold_left (λ acc b, acc * 31 + byteZ b) (to_bytes name) 0).
#[local] Instance toy_mocks : GoAbiMocks := {|
  abi_MethodID _ name := toy_id name;
  abi_Inputs_Unpack _ _ _ := Ok [];
  abi_Outputs_Pack _ _ vs := Ok (concat (ToyEthereum.encode_value <$> vs)) |}.
Definition mock : ParentVaultMock := mkParentVaultMock None None None None None None None None None None None None None None None None None (Some (Ok (Some 5))) None None None None None None None None None None None None None None None None None None None None None None.
Definition vault : ParentVault := mkParentVault zeroAddress ParentVaultMetaData 1 (mkCodec ParentVaultMetaData).
Definition funcs : gmap bytes handler := match NewParentVaultMock mock with Ok m => m | _ => ∅ end.
(** A client that answers every call from the mock's table. *)
Definition host : oracle (cre_eff unit) := λ _ X c,
  match c in cre_eff _ X return X with
  | ENow => 10000
  | ELog _ _ => tt
  | EGenerateReport _ => Failed (Errorf "no report" [])
  | EWriteReport _ _ => Failed (Errorf "no write" [])
  | ECallContract _ r => match mock_reply funcs (Call_Data r) with
                         | Some (Ok answer) => Reply (Some answer)
                         | _ => Failed (Errorf "no mock" [])
                         end
  | EGetSecret _ => Failed (Errorf "no secret" [])
  | ESendRequest _ => Failed (Errorf "no consensus" [])
  end.

Lemma ParentMock_read_witness :
  (run host [] (read vault RGetEpochNonce None)).2 = Ok (OGetEpochNonce (Some 5)).
Proof.
  apply (ParentMock_read host vault mock funcs RGetEpochNonce (OGetEpochNonce (Some 5)) None
    (ToyEthereum.fit 4 (to_bytes "getEpochNonce")) (ToyEthereum.word 32 5)).
  - reflexivity.
  - apply is_Ok_default. vm_compute. reflexivity.
  - apply (bool_decide_unpack _). vm_compute. exact I.
  - reflexivity.
  - repeat constructor; vm_compute; done.
  - reflexivity.
  - reflexivity.
  - reflexivity.
  - reflexivity.
  - vm_compute. reflexivity.
  - intros Hr. vm_compute. reflexivity.
Defined.
End SampleParentMock.
End parent_vault_mock.
