(* ===== verification/WorkflowRouterMock.v ===== *)
(** * The mock of the workflow router

    [cre/contracts/evm/src/generated/workflow_router/WorkflowRouter_mock.go]: the test double of the
    contract, and the theorem that a read of the binding sees what the mocked
    function returned.  [evmmock.AddContractMock], which hands the table to the
    simulated chain client, is code of the SDK: [mock_reply] is how the client
    uses the table. *)

From S2P Require Import Prelude GoText BigInt Ethereum Runtime Bindings AbiErrors WorkflowRouter AbiMethods WorkflowRouterMethods AbiMocks.

#[local] Open Scope Z_scope.

Module workflow_router_mock.
Import workflow_router workflow_router_methods.

(** ** The functions of the mock: nil until a test sets them *)
Record WorkflowRouterMock := mkWorkflowRouterMock {
  Mock_DEFAULTADMINROLE : option (res bytes);
  Mock_DefaultAdmin : option (res Address);
  Mock_DefaultAdminDelay : option (res bigint);
  Mock_DefaultAdminDelayIncreaseWait : option (res bigint);
  Mock_GetAllowlistedWorkflowSelector : option (GetAllowlistedWorkflowSelectorInput → res bool);
  Mock_GetRoleAdmin : option (GetRoleAdminInput → res bytes);
  Mock_GetThisChainSelector : option (res Z);
  Mock_GetVault : option (res Address);
  Mock_GetWorkflowGeneration : option (GetWorkflowGenerationInput → res bigint);
  Mock_GetWorkflowMetadata : option (GetWorkflowMetadataInput → res IWorkflowRouterWorkflowMetadata);
  Mock_HasRole : option (HasRoleInput → res bool);
  Mock_Owner : option (res Address);
  Mock_Paused : option (res bool);
  Mock_PendingDefaultAdmin : option (res PendingDefaultAdminOutput);
  Mock_PendingDefaultAdminDelay : option (res PendingDefaultAdminDelayOutput);
  Mock_SupportsInterface : option (SupportsInterfaceInput → res bool) }.

Section Handlers.
Context `{GoAbiMocks} (abi : abi_ABI) (mock : WorkflowRouterMock).

(** ** The handlers *)
Definition mock_DEFAULT_ADMIN_ROLE : handler :=
  mock_value abi "DEFAULT_ADMIN_ROLE" (Mock_DEFAULTADMINROLE mock) (λ v, [VFixed v]).
Definition mock_defaultAdmin : handler :=
  mock_value abi "defaultAdmin" (Mock_DefaultAdmin mock) (λ v, [VFixed v]).
Definition mock_defaultAdminDelay : handler :=
  mock_value abi "defaultAdminDelay" (Mock_DefaultAdminDelay mock) (λ v, [VBig v]).
Definition mock_defaultAdminDelayIncreaseWait : handler :=
  mock_value abi "defaultAdminDelayIncreaseWait" (Mock_DefaultAdminDelayIncreaseWait mock) (λ v, [VBig v]).
Definition mock_getAllowlistedWorkflowSelector : handler :=
  mock_call abi "getAllowlistedWorkflowSelector" 2
    (λ values,
       a0 ← mock_arg to_bytes32 values 0;
       a1 ← mock_arg (to_bytesN 4) values 1;
       Ok (mkGetAllowlistedWorkflowSelectorInput a0 a1))
    (Mock_GetAllowlistedWorkflowSelector mock) (λ v, [VBool v]).
Definition mock_getRoleAdmin : handler :=
  mock_call abi "getRoleAdmin" 1
    (λ values,
       a0 ← mock_arg to_bytes32 values 0;
       Ok (mkGetRoleAdminInput a0))
    (Mock_GetRoleAdmin mock) (λ v, [VFixed v]).
Definition mock_getThisChainSelector : handler :=
  mock_value abi "getThisChainSelector" (Mock_GetThisChainSelector mock) (λ v, [VUint v]).
Definition mock_getVault : handler :=
  mock_value abi "getVault" (Mock_GetVault mock) (λ v, [VFixed v]).
Definition mock_getWorkflowGeneration : handler :=
  mock_call abi "getWorkflowGeneration" 1
    (λ values,
       a0 ← mock_arg to_bytes32 values 0;
       Ok (mkGetWorkflowGenerationInput a0))
    (Mock_GetWorkflowGeneration mock) (λ v, [VBig v]).
Definition mock_getWorkflowMetadata : handler :=
  mock_call abi "getWorkflowMetadata" 1
    (λ values,
       a0 ← mock_arg to_bytes32 values 0;
       Ok (mkGetWorkflowMetadataInput a0))
    (Mock_GetWorkflowMetadata mock) (λ v, [IWorkflowRouterWorkflowMetadata_value v]).
Definition mock_hasRole : handler :=
  mock_call abi "hasRole" 2
    (λ values,
       a0 ← mock_arg to_bytes32 values 0;
       a1 ← mock_arg to_address values 1;
       Ok (mkHasRoleInput a0 a1))
    (Mock_HasRole mock) (λ v, [VBool v]).
Definition mock_owner : handler :=
  mock_value abi "owner" (Mock_Owner mock) (λ v, [VFixed v]).
Definition mock_paused : handler :=
  mock_value abi "paused" (Mock_Paused mock) (λ v, [VBool v]).
Definition mock_pendingDefaultAdmin : handler :=
  mock_value abi "pendingDefaultAdmin" (Mock_PendingDefaultAdmin mock) (λ v, [VFixed (PendingDefaultAdminOutput_NewAdmin v); VBig (PendingDefaultAdminOutput_Schedule v)]).
Definition mock_pendingDefaultAdminDelay : handler :=
  mock_value abi "pendingDefaultAdminDelay" (Mock_PendingDefaultAdminDelay mock) (λ v, [VBig (PendingDefaultAdminDelayOutput_NewDelay v); VBig (PendingDefaultAdminDelayOutput_Schedule v)]).
Definition mock_supportsInterface : handler :=
  mock_call abi "supportsInterface" 1
    (λ values,
       a0 ← mock_arg (to_bytesN 4) values 0;
       Ok (mkSupportsInterfaceInput a0))
    (Mock_SupportsInterface mock) (λ v, [VBool v]).

(** ** The table *)
Definition funcMap : list (string * handler) := [
  ("DEFAULT_ADMIN_ROLE"%string, mock_DEFAULT_ADMIN_ROLE);
  ("defaultAdmin"%string, mock_defaultAdmin);
  ("defaultAdminDelay"%string, mock_defaultAdminDelay);
  ("defaultAdminDelayIncreaseWait"%string, mock_defaultAdminDelayIncreaseWait);
  ("getAllowlistedWorkflowSelector"%string, mock_getAllowlistedWorkflowSelector);
  ("getRoleAdmin"%string, mock_getRoleAdmin);
  ("getThisChainSelector"%string, mock_getThisChainSelector);
  ("getVault"%string, mock_getVault);
  ("getWorkflowGeneration"%string, mock_getWorkflowGeneration);
  ("getWorkflowMetadata"%string, mock_getWorkflowMetadata);
  ("hasRole"%string, mock_hasRole);
  ("owner"%string, mock_owner);
  ("paused"%string, mock_paused);
  ("pendingDefaultAdmin"%string, mock_pendingDefaultAdmin);
  ("pendingDefaultAdminDelay"%string, mock_pendingDefaultAdminDelay);
  ("supportsInterface"%string, mock_supportsInterface)].
End Handlers.

Definition NewWorkflowRouterMock `{GoAbiMocks} (mock : WorkflowRouterMock) : res (gmap bytes handler) :=
  codec ← (match NewCodec with Ok codec => Ok codec | _ => Crash end);
  let abi := codec_abi codec in
  mock_table abi (funcMap abi mock) ∅.

(** ** What the mock stands for *)

(** The mocked result of a read: [None] when its function is nil. *)
Definition mocked (mock : WorkflowRouterMock) (r : vault_read) : option (res vault_output) :=
  match r with
  | RDEFAULTADMINROLE => mocked_value ODEFAULTADMINROLE (Mock_DEFAULTADMINROLE mock)
  | RDefaultAdmin => mocked_value ODefaultAdmin (Mock_DefaultAdmin mock)
  | RDefaultAdminDelay => mocked_value ODefaultAdminDelay (Mock_DefaultAdminDelay mock)
  | RDefaultAdminDelayIncreaseWait => mocked_value ODefaultAdminDelayIncreaseWait (Mock_DefaultAdminDelayIncreaseWait mock)
  | RGetAllowlistedWorkflowSelector i => mocked_call OGetAllowlistedWorkflowSelector (Mock_GetAllowlistedWorkflowSelector mock) i
  | RGetRoleAdmin i => mocked_call OGetRoleAdmin (Mock_GetRoleAdmin mock) i
  | RGetThisChainSelector => mocked_value OGetThisChainSelector (Mock_GetThisChainSelector mock)
  | RGetVault => mocked_value OGetVault (Mock_GetVault mock)
  | RGetWorkflowGeneration i => mocked_call OGetWorkflowGeneration (Mock_GetWorkflowGeneration mock) i
  | RGetWorkflowMetadata i => mocked_call OGetWorkflowMetadata (Mock_GetWorkflowMetadata mock) i
  | RHasRole i => mocked_call OHasRole (Mock_HasRole mock) i
  | ROwner => mocked_value OOwner (Mock_Owner mock)
  | RPaused => mocked_value OPaused (Mock_Paused mock)
  | RPendingDefaultAdmin => mocked_value OPendingDefaultAdmin (Mock_PendingDefaultAdmin mock)
  | RPendingDefaultAdminDelay => mocked_value OPendingDefaultAdminDelay (Mock_PendingDefaultAdminDelay mock)
  | RSupportsInterface i => mocked_call OSupportsInterface (Mock_SupportsInterface mock) i
  end.
Definition handler_of `{GoAbiMocks} (abi : abi_ABI) (mock : WorkflowRouterMock) (r : vault_read)
    : string * handler :=
  match r with
  | RDEFAULTADMINROLE => ("DEFAULT_ADMIN_ROLE"%string, mock_DEFAULT_ADMIN_ROLE abi mock)
  | RDefaultAdmin => ("defaultAdmin"%string, mock_defaultAdmin abi mock)
  | RDefaultAdminDelay => ("defaultAdminDelay"%string, mock_defaultAdminDelay abi mock)
  | RDefaultAdminDelayIncreaseWait => ("defaultAdminDelayIncreaseWait"%string, mock_defaultAdminDelayIncreaseWait abi mock)
  | RGetAllowlistedWorkflowSelector _ => ("getAllowlistedWorkflowSelector"%string, mock_getAllowlistedWorkflowSelector abi mock)
  | RGetRoleAdmin _ => ("getRoleAdmin"%string, mock_getRoleAdmin abi mock)
  | RGetThisChainSelector => ("getThisChainSelector"%string, mock_getThisChainSelector abi mock)
  | RGetVault => ("getVault"%string, mock_getVault abi mock)
  | RGetWorkflowGeneration _ => ("getWorkflowGeneration"%string, mock_getWorkflowGeneration abi mock)
  | RGetWorkflowMetadata _ => ("getWorkflowMetadata"%string, mock_getWorkflowMetadata abi mock)
  | RHasRole _ => ("hasRole"%string, mock_hasRole abi mock)
  | ROwner => ("owner"%string, mock_owner abi mock)
  | RPaused => ("paused"%string, mock_paused abi mock)
  | RPendingDefaultAdmin => ("pendingDefaultAdmin"%string, mock_pendingDefaultAdmin abi mock)
  | RPendingDefaultAdminDelay => ("pendingDefaultAdminDelay"%string, mock_pendingDefaultAdminDelay abi mock)
  | RSupportsInterface _ => ("supportsInterface"%string, mock_supportsInterface abi mock)
  end.
(** The inputs of a read, as the ABI unpacks them. *)
Definition inputs_of (r : vault_read) : list dyn :=
  match r with
  | RGetAllowlistedWorkflowSelector i => [DBytes32 (GetAllowlistedWorkflowSelector_WorkflowId i); DBytesN 4 (GetAllowlistedWorkflowSelector_Selector i)]
  | RGetRoleAdmin i => [DBytes32 (GetRoleAdmin_Role i)]
  | RGetWorkflowGeneration i => [DBytes32 (GetWorkflowGeneration_WorkflowId i)]
  | RGetWorkflowMetadata i => [DBytes32 (GetWorkflowMetadata_WorkflowId i)]
  | RHasRole i => [DBytes32 (HasRole_Role i); DAddress (HasRole_Account i)]
  | RSupportsInterface i => [DBytesN 4 (SupportsInterface_InterfaceId i)]
  | _ => []
  end.

(** ** Correctness *)
Lemma workflowrouter_entry `{GoAbiMocks} abi mock r : handler_of abi mock r ∈ funcMap abi mock.
Proof. destruct r; table_entry. Qed.
Lemma workflowrouter_name `{GoAbiMocks} abi mock r : (handler_of abi mock r).1 = (describe (call_of r)).1.
Proof. by destruct r. Qed.

(** A handler of the mock of the workflow router, on call data that the ABI unpacks to
    the inputs of a read, answers with the encoding of what the mocked function
    returns on these inputs, with its error, or, when it is nil, with the error
    that names the method. *)
Theorem WorkflowRouterMock_handler `{GoAbiMocks} abi mock r payload :
  abi_Inputs_Unpack abi (handler_of abi mock r).1 payload = Ok (inputs_of r) →
  (handler_of abi mock r).2 payload =
    mock_answer abi (handler_of abi mock r).1 (λ x, (output_values_of x).2) (mocked mock r).
Proof. intros Hu. destruct r; cbn [handler_of fst snd mocked inputs_of] in *; mock_case Hu. Qed.

(** A test that sets a function of the mock sees through the binding what this
    function returns: the read of a method of the workflow router, against a client
    that answers from the mock's table, returns the mocked value, provided the
    selectors differ and the ABI inverts its encodings. *)
Theorem WorkflowRouterMock_read `{GoAbiMocks} {R} (o : oracle (cre_eff R)) c mock funcs r x bn data answer
    (HCodec : NewCodec = Ok (vault_Codec c)) (HNew : NewWorkflowRouterMock mock = Ok funcs)
    (HSel : NoDup ((λ e, take 4 (abi_MethodID (codec_abi (vault_Codec c)) e.1))
       <$> funcMap (codec_abi (vault_Codec c)) mock))
    (HMock : mocked mock r = Some (Ok x)) (HTyped : typed_output x)
    (HCall : encode_call (vault_Codec c) (call_of r) = Ok data)
    (HId : take 4 data
       = take 4 (abi_MethodID (codec_abi (vault_Codec c)) (describe (call_of r)).1))
    (HIn : abi_Inputs_Unpack (codec_abi (vault_Codec c)) (describe (call_of r)).1 (drop 4 data)
       = Ok (inputs_of r))
    (HOut : abi_Outputs_Pack (codec_abi (vault_Codec c)) (describe (call_of r)).1 (output_values_of x).2
       = Ok answer)
    (HBack : abi_UnpackOutput (codec_abi (vault_Codec c)) (output_values_of x).1 answer
       = Ok (output_values_of x).2)
    (HHost : mock_reply funcs data = Some (Ok answer) →
       o [] _ (ECallContract (vault_client c) (mkCallContractRequest (vault_Address c) data
         (default FinalizedBlockNumber bn))) = Reply (Some answer)) :
  (run o [] (read c r bn)).2 = Ok x.
Proof.
  set (abi := codec_abi (vault_Codec c)) in *.
  assert (mock_reply funcs data = Some (Ok answer)) as Hr.
  { unfold NewWorkflowRouterMock in HNew. rewrite HCodec in HNew.
    cbn [mbind res_bind] in HNew. fold abi in HNew.
    pose proof (workflowrouter_entry abi mock r) as He. pose proof (workflowrouter_name abi mock r) as Hn.
    pose proof (WorkflowRouterMock_handler abi mock r (drop 4 data)) as Hh. rewrite Hn in Hh. specialize (Hh HIn).
    destruct (handler_of abi mock r) as [name h]. cbn [fst snd] in *. subst name.
    pose proof (mock_table_lookup _ _ _ _ _ _ HNew HSel He) as Hl.
    apply (f_equal (fmap (λ h, h (drop 4 data)))) in Hl. unfold mock_reply. rewrite HId.
    etransitivity; [exact Hl|]. cbn. rewrite Hh, HMock. cbn. by rewrite HOut. }
  assert ((describe (call_of r)).1 = (output_values_of x).1) as Hname.
  { destruct r; cbn in HMock;
      first [apply mocked_value_Ok in HMock as (v & ->) | apply mocked_call_Ok in HMock as (v & ->)];
      done. }
  by rewrite (workflowrouter_read_answered o c r x bn data answer Hname HTyped HCall HBack (HHost Hr)).
Qed.
(** ** A concrete mock *)
Module SampleWorkflowRouterMock.
(** One method, [defaultAdminDelay], is mocked: it returns 5, which the sample ABI encodes in a word. *)
Definition unpack (md : MetaData) (name : string) (data : bytes) : res (list abi_value) :=
  if bool_decide (name = "defaultAdminDelay"%string) then Ok [VBig (Some (ToyEthereum.bytes_to_Z data))]
  else Err (Errorf "abi: no method" []).
#[local] Instance toy_ethereum : GoEthereum := ToyEthereum.ethereum_with unpack.
(** The identifier of a method: a hash of its name; that of the mocked method is
    what the sample call data starts with. *)
Definition toy_id (name : string) : bytes :=
  if bool_decide (name = "defaultAdminDelay"%string) then ToyEthereum.fit 4 (to_bytes name)
  else ToyEthereum.word 4 (fold_left (λ acc b, acc * 31 + byteZ b) (to_bytes name) 0).
#[local] Instance toy_mocks : GoAbiMocks := {|
  abi_MethodID _ name := toy_id name;
  abi_Inputs_Unpack _ _ _ := Ok [];
  abi_Outputs_Pack _ _ vs := Ok (concat (ToyEthereum.encode_value <$> vs)) |}.
Definition mock : WorkflowRouterMock := mkWorkflowRouterMock None None (Some (Ok (Some 5))) None None None None None None None None None None None None None.
Definition vault : WorkflowRouter := mkWorkflowRouter zeroAddress WorkflowRouterMetaData 1 (mkCodec WorkflowRouterMetaData).
Definition funcs : gmap bytes handler := match NewWorkflowRouterMock mock with Ok m => m | _ => ∅ end.
(** A client that answers every call from the mock's table. *)
Definition host : oracle (cre_eff unit) := λ _ X c,
  match c in cre_eff _ X return X with
  | ENow => 10000
  | ELog _ _ => tt
  | EGenerateReport _ => Failed (Errorf "no report" [])
  | EWriteReport _ _ => Failed (Errorf "no write" [])
  | ECallContract _ r => match mock_reply funcs (Call_Data r) with
                         | Some (Ok answer) => Reply (Some answer)
                         | _ => Failed (Errorf "no mock" [])
                         end
  | EGetSecret _ => Failed (Errorf "no secret" [])
  | ESendRequest _ => Failed (Errorf "no consensus" [])
  end.

Lemma WorkflowRouterMock_read_witness :
  (run host [] (read vault RDefaultAdminDelay None)).2 = Ok (ODefaultAdminDelay (Some 5)).
Proof.
  apply (WorkflowRouterMock_read host vault mock funcs RDefaultAdminDelay (ODefaultAdminDelay (Some 5)) None
    (ToyEthereum.fit 4 (to_bytes "defaultAdminDelay")) (ToyEthereum.word 32 5)).
  - reflexivity.
  - apply is_Ok_default. vm_compute. reflexivity.
  - apply (bool_decide_unpack _). vm_compute. exact I.
  - reflexivity.
  - repeat constructor; vm_compute; done.
  - reflexivity.
  - reflexivity.
  - reflexivity.
  - reflexivity.
  - vm_compute. reflexivity.
  - intros Hr. vm_compute. reflexivity.
Defined.
End SampleWorkflowRouterMock.
End workflow_router_mock.
