(* ===== verification/Config.v ===== *)
(** * Workflow configuration ([cre/workflow/internal/helper/config.go])

    The configuration records, their validation in the order the code checks
    them, and the lookups the handlers use. *)

From S2P Require Import Prelude GoText BigInt Ethereum.

#[local] Open Scope Z_scope.

(** ** Data *)
Record DefiLlama := mkDefiLlama {
  PoolIDs : list string; Projects : list string; Symbols : list string }.

Record EvmConfig := mkEvmConfig {
  IsParent : bool;
  ChainName : string;
  DefiLlamaChainName : string;
  ChainSelector : Z;             (* uint64 *)
  VaultAddress : string;
  WorkflowRouterAddress : string;
  GasLimit : Z }.                (* uint64 *)

Record Config := mkConfig {
  RebalanceSchedule : string;
  EpochSchedule : string;
  AssetDecimals : option Z;      (* *uint8 *)
  BlockNumber : option Z;        (* *int64 *)
  Config_DefiLlama : DefiLlama;
  Evms : list EvmConfig }.

(** The machine widths of the integer fields. *)
Record TypedConfig (cfg : Config) : Prop := {
  tc_selectors : Forall (λ e, in_uint64 (ChainSelector e)) (Evms cfg);
  tc_gas : Forall (λ e, in_uint64 (GasLimit e)) (Evms cfg);
  tc_decimals : ∀ d, AssetDecimals cfg = Some d → 0 <= d < 256;
  tc_block : ∀ b, BlockNumber cfg = Some b → in_int64 b }.

(** ** Lookups *)
Fixpoint FindEvmConfigByChainSelector (evms : list EvmConfig) (target : Z) : res EvmConfig :=
  match evms with
  | [] => Err (Errorf "no evm config found for chainSelector %d" [FInt target])
  | e :: r => if ChainSelector e =? target then Ok e else FindEvmConfigByChainSelector r target
  end.

Fixpoint FindParent (evms : list EvmConfig) : res EvmConfig :=
  match evms with
  | [] => Err (Errorf "no parent chain configured" [])
  | e :: r => if IsParent e then Ok e else FindParent r
  end.

Definition TriggerCount (chains : Z) : Z := chains + 2.

(** The CRE gas quota of a report. *)
Definition MaxGasLimit : Z := 5000000.

(** ** Validation *)
Section Validation.
Context `{GoUnicode, GoEthereum}.

Definition canonicalDefiLlamaValue (value : string) : string := ToLower (TrimSpace value).

Definition isRequiredAddress (value : string) : bool :=
  if bool_decide (value = EmptyString) || negb (IsHexAddress value) then false
  else bool_decide (HexToAddress value ≠ zeroAddress).

(** The loop of [validateUniqueNonEmptyStrings] from index [i] with the set of
    canonical values seen so far. *)
Fixpoint uniqueNonEmpty_loop (field : string) (i : Z) (seen : gset string)
    (values : list string) : res unit :=
  match values with
  | [] => Ok tt
  | value :: rest =>
      let canonicalValue := canonicalDefiLlamaValue value in
      if bool_decide (canonicalValue = EmptyString)
      then Err (Errorf "%s[%d]: value must be non-empty" [FStr field; FInt i])
      else if bool_decide (canonicalValue ∈ seen)
      then Err (Errorf "%s[%d]: duplicate value %q" [FStr field; FInt i; FStr value])
      else uniqueNonEmpty_loop field (i + 1) ({[canonicalValue]} ∪ seen) rest
  end.

Definition validateUniqueNonEmptyStrings (field : string) (values : list string) : res unit :=
  if bool_decide (values = [])
  then Err (Errorf "%s must contain at least one value" [FStr field])
  else uniqueNonEmpty_loop field 0 ∅ values.

Definition supportedProjects : list string :=
  ["aave-v3"; "aave-v4"; "compound-v3"]%string.

Fixpoint checkProjects (projects : list string) : res unit :=
  match projects with
  | [] => Ok tt
  | project :: rest =>
      if bool_decide (project ∈ supportedProjects) then checkProjects rest
      else Err (Errorf
        "unsupported defiLlama project %q: expected aave-v3, aave-v4, or compound-v3"
        [FStr project])
  end.

Definition validateDefiLlamaConfig (cfg : DefiLlama) : res unit :=
  _ ← validateUniqueNonEmptyStrings "defiLlama.poolIds" (PoolIDs cfg);
  _ ← validateUniqueNonEmptyStrings "defiLlama.projects" (Projects cfg);
  _ ← checkProjects (Projects cfg);
  validateUniqueNonEmptyStrings "defiLlama.symbols" (Symbols cfg).

(** The state of the chain loop of [ValidateConfig]. *)
Record chainLoop := mkChainLoop {
  seenSelectors : gset Z; seenDefiLlamaChains : gset string; parentCount : Z }.

(** The body of the chain loop at index [i]. *)
Definition validateChain (i : Z) (e : EvmConfig) (st : chainLoop) : res chainLoop :=
  _ ← fail_if (ChainSelector e =? 0)
        (Errorf "evms[%d]: chainSelector must be non-zero" [FInt i]);
  _ ← fail_if (bool_decide (ChainSelector e ∈ seenSelectors st))
        (Errorf "evms[%d]: duplicate chainSelector %d" [FInt i; FInt (ChainSelector e)]);
  let selectors := {[ChainSelector e]} ∪ seenSelectors st in
  _ ← fail_if (negb (isRequiredAddress (VaultAddress e)))
        (Errorf "evms[%d] (chain %d): invalid vaultAddress %q"
           [FInt i; FInt (ChainSelector e); FStr (VaultAddress e)]);
  _ ← fail_if (negb (isRequiredAddress (WorkflowRouterAddress e)))
        (Errorf "evms[%d] (chain %d): invalid workflowRouterAddress %q"
           [FInt i; FInt (ChainSelector e); FStr (WorkflowRouterAddress e)]);
  _ ← fail_if (GasLimit e =? 0)
        (Errorf "evms[%d] (chain %d): gasLimit must be non-zero"
           [FInt i; FInt (ChainSelector e)]);
  _ ← fail_if (MaxGasLimit <? GasLimit e)
        (Errorf "evms[%d]: gasLimit exceeds CRE's 5,000,000 quota" [FInt i]);
  names ←
    (if bool_decide (DefiLlamaChainName e = EmptyString) then Ok (seenDefiLlamaChains st)
     else
       let canonicalName := canonicalDefiLlamaValue (DefiLlamaChainName e) in
       _ ← fail_if (bool_decide (canonicalName ∈ seenDefiLlamaChains st))
             (Errorf "evms[%d] (chain %d): duplicate defiLlamaChainName %q"
                [FInt i; FInt (ChainSelector e); FStr (DefiLlamaChainName e)]);
       Ok ({[canonicalName]} ∪ seenDefiLlamaChains st));
  Ok (mkChainLoop selectors names
        (if IsParent e then parentCount st + 1 else parentCount st)).

Fixpoint validateChains (i : Z) (evms : list EvmConfig) (st : chainLoop) : res chainLoop :=
  match evms with
  | [] => Ok st
  | e :: rest => st' ← validateChain i e st; validateChains (i + 1) rest st'
  end.

Definition ValidateConfig (cfg : option Config) : res unit :=
  match cfg with
  | None => Err (Errorf "no EVM configs provided" [])
  | Some cfg =>
      _ ← fail_if (bool_decide (Evms cfg = [])) (Errorf "no EVM configs provided" []);
      _ ← validateDefiLlamaConfig (Config_DefiLlama cfg);
      st ← validateChains 0 (Evms cfg) (mkChainLoop ∅ ∅ 0);
      _ ← fail_if (negb (parentCount st =? 1))
            (Errorf "expected exactly one parent chain (IsParent=true), got %d"
               [FInt (parentCount st)]);
      let n := Z.of_nat (length (Evms cfg)) in
      _ ← fail_if (10 <? TriggerCount n)
            (Errorf "%d chains require %d triggers; CRE permits 10"
               [FInt n; FInt (TriggerCount n)]);
      _ ← fail_if (match AssetDecimals cfg with None => true | Some d => 77 <? d end)
            (Errorf "assetDecimals must be specified and between 0 and 77" []);
      _ ← fail_if (match BlockNumber cfg with None => true | Some _ => false end)
            (Errorf "blockNumber must be specified" []);
      fail_if (bool_decide (TrimSpace (EpochSchedule cfg) = EmptyString)
               || bool_decide (TrimSpace (RebalanceSchedule cfg) = EmptyString))
        (Errorf "epochSchedule and rebalanceSchedule must be specified" [])
  end.
End Validation.

(** ** Specification of a valid configuration *)
Section Spec.
Context `{GoUnicode, GoEthereum}.

Definition uniqueNonEmpty (values : list string) : Prop :=
  Forall (λ v, canonicalDefiLlamaValue v ≠ EmptyString) values ∧
  NoDup (canonicalDefiLlamaValue <$> values).

(** The canonical DefiLlama names of the chains that have one. *)
Definition chainName (e : EvmConfig) : option string :=
  if bool_decide (DefiLlamaChainName e = EmptyString) then None
  else Some (canonicalDefiLlamaValue (DefiLlamaChainName e)).
Definition chainNames (evms : list EvmConfig) : list string := omap chainName evms.

Record ValidChain (e : EvmConfig) : Prop := {
  vc_selector : ChainSelector e ≠ 0;
  vc_vault : isRequiredAddress (VaultAddress e) = true;
  vc_router : isRequiredAddress (WorkflowRouterAddress e) = true;
  vc_gas : GasLimit e ≠ 0 ∧ GasLimit e <= MaxGasLimit }.

Definition parents (evms : list EvmConfig) : list EvmConfig :=
  filter (λ e, IsParent e = true) evms.

Record ValidConfig (cfg : Config) : Prop := {
  valid_poolIds : PoolIDs (Config_DefiLlama cfg) ≠ [] ∧ uniqueNonEmpty (PoolIDs (Config_DefiLlama cfg));
  valid_projects : Projects (Config_DefiLlama cfg) ≠ [] ∧ uniqueNonEmpty (Projects (Config_DefiLlama cfg));
  valid_protocols : Forall (λ p, p ∈ supportedProjects) (Projects (Config_DefiLlama cfg));
  valid_symbols : Symbols (Config_DefiLlama cfg) ≠ [] ∧ uniqueNonEmpty (Symbols (Config_DefiLlama cfg));
  valid_chains : Forall ValidChain (Evms cfg);
  valid_selectors : NoDup (ChainSelector <$> Evms cfg);
  valid_names : NoDup (chainNames (Evms cfg));
  valid_parent : length (parents (Evms cfg)) = 1%nat;
  valid_triggers : TriggerCount (Z.of_nat (length (Evms cfg))) <= 10;
  valid_decimals : ∃ d, AssetDecimals cfg = Some d ∧ d <= 77;
  valid_block : is_Some (BlockNumber cfg);
  valid_schedules : TrimSpace (EpochSchedule cfg) ≠ EmptyString ∧
                    TrimSpace (RebalanceSchedule cfg) ≠ EmptyString }.

(** ** The loops decide the specification *)
Lemma uniqueNonEmpty_loop_spec field i seen values u :
  uniqueNonEmpty_loop field i seen values = Ok u ↔
  uniqueNonEmpty values ∧ Forall (λ v, canonicalDefiLlamaValue v ∉ seen) values.
Proof.
  unfold uniqueNonEmpty. destruct u.
  revert i seen. induction values as [|v values IH]; intros i seen; cbn.
  { split; [intros _; repeat constructor|done]. }
  rewrite !Forall_cons, NoDup_cons.
  repeat case_bool_decide; try (split; [done|naive_solver]).
  rewrite IH. rewrite !Forall_forall, list_elem_of_fmap. set_solver.
Qed.

Lemma validateUnique_spec field values u :
  validateUniqueNonEmptyStrings field values = Ok u ↔ values ≠ [] ∧ uniqueNonEmpty values.
Proof.
  unfold validateUniqueNonEmptyStrings. case_bool_decide; [split; [done|naive_solver]|].
  rewrite uniqueNonEmpty_loop_spec, Forall_forall. set_solver.
Qed.

Lemma checkProjects_spec projects u :
  checkProjects projects = Ok u ↔ Forall (λ p, p ∈ supportedProjects) projects.
Proof.
  destruct u. induction projects as [|p projects IH]; cbn.
  { split; [constructor|done]. }
  rewrite Forall_cons. case_bool_decide; [rewrite IH; naive_solver|].
  split; [done|naive_solver].
Qed.

(** One iteration of the chain loop. *)
Definition next_chain (e : EvmConfig) (st : chainLoop) : chainLoop :=
  mkChainLoop ({[ChainSelector e]} ∪ seenSelectors st)
    (list_to_set (option_list (chainName e)) ∪ seenDefiLlamaChains st)
    (if IsParent e then parentCount st + 1 else parentCount st).

Lemma validateChain_spec i e st st' :
  validateChain i e st = Ok st' ↔
  ValidChain e ∧ (ChainSelector e ∉ seenSelectors st) ∧
  (∀ n, chainName e = Some n → n ∉ seenDefiLlamaChains st) ∧ st' = next_chain e st.
Proof.
  unfold validateChain, next_chain, chainName.
  rewrite !fail_if_bind, Z.eqb_neq, bool_decide_eq_false, !negb_false_iff, Z.eqb_neq,
    Z.ltb_ge, res_bind_Ok.
  split.
  - intros (? & ? & ? & ? & ? & ? & names & Hn & [= <-]).
    case_bool_decide as Hname.
    + injection Hn as <-. repeat split; try done. f_equal. set_solver.
    + apply fail_if_bind in Hn as [Hd%bool_decide_eq_false [= <-]].
      repeat split; [done..|naive_solver|]. f_equal. set_solver.
  - intros ([????] & ? & Hn & ->). do 6 (split; [naive_solver|]).
    exists (list_to_set (option_list (chainName e)) ∪ seenDefiLlamaChains st).
    unfold chainName. split; [|done]. case_bool_decide.
    + f_equal. set_solver.
    + apply fail_if_bind. split; [|f_equal; set_solver].
      apply bool_decide_eq_false. naive_solver.
Qed.

Lemma validateChains_spec i evms st st' :
  validateChains i evms st = Ok st' ↔
  (Forall ValidChain evms ∧
   NoDup (ChainSelector <$> evms) ∧ Forall (λ e, ChainSelector e ∉ seenSelectors st) evms ∧
   NoDup (chainNames evms) ∧ Forall (λ n, n ∉ seenDefiLlamaChains st) (chainNames evms)) ∧
  st' = foldl (λ s e, next_chain e s) st evms.
Proof.
  revert i st. induction evms as [|e evms IH]; intros i st; cbn [validateChains foldl].
  { split; [intros [= <-]; repeat constructor|intros [_ ->]; done]. }
  rewrite res_bind_Ok. setoid_rewrite validateChain_spec. setoid_rewrite IH.
  rewrite !Forall_cons, fmap_cons, NoDup_cons, list_elem_of_fmap.
  unfold chainNames. cbn [omap list_omap]. fold (chainNames evms).
  destruct (chainName e) as [n|] eqn:Hn; rewrite ?NoDup_cons, ?Forall_cons.
  - split.
    + intros (? & (? & ? & Hne & ->) & (? & ? & Hs & ? & Hm) & ->).
      cbn [seenSelectors seenDefiLlamaChains next_chain] in *. rewrite Hn in *.
      rewrite !Forall_forall in *. set_solver.
    + intros [Hall ->]. exists (next_chain e st).
      cbn [seenSelectors seenDefiLlamaChains next_chain] in *. rewrite Hn in *.
      rewrite !Forall_forall in *. destruct_and!. set_solver.
  - split.
    + intros (? & (? & ? & Hne & ->) & (? & ? & Hs & ? & Hm) & ->).
      cbn [seenSelectors seenDefiLlamaChains next_chain] in *. rewrite Hn in *.
      rewrite !Forall_forall in *. set_solver.
    + intros [Hall ->]. exists (next_chain e st).
      cbn [seenSelectors seenDefiLlamaChains next_chain] in *. rewrite Hn in *.
      rewrite !Forall_forall in *. destruct_and!. set_solver.
Qed.

Lemma parentCount_foldl evms st :
  parentCount (foldl (λ s e, next_chain e s) st evms)
  = parentCount st + Z.of_nat (length (parents evms)).
Proof.
  revert st. induction evms as [|e evms IH]; intros st; cbn [foldl]; [cbn; lia|].
  rewrite IH. unfold parents. rewrite filter_cons. cbn [next_chain parentCount].
  destruct (IsParent e); case_decide; try done; cbn [length]; lia.
Qed.

Lemma ValidateConfig_iff cfg u :
  ValidateConfig (Some cfg) = Ok u ↔ ValidConfig cfg.
Proof.
  destruct u. cbn [ValidateConfig]. unfold validateDefiLlamaConfig.
  rewrite fail_if_bind, bool_decide_eq_false, !res_bind_assoc, !res_unit_bind,
    !validateUnique_spec, checkProjects_spec, res_bind_Ok.
  split.
  - intros (Hne & HP & HJ & HR & HS & st & Hst & Hend).
    apply validateChains_spec in Hst as [(HC & HD & _ & HN & _) ->].
    rewrite !fail_if_bind, fail_if_Ok in Hend. destruct Hend as (Hp & Ht & Hd & Hb & Hs).
    apply negb_false_iff, Z.eqb_eq in Hp. rewrite parentCount_foldl in Hp.
    cbn [parentCount] in Hp. apply Z.ltb_ge in Ht.
    apply orb_false_iff in Hs as [?%bool_decide_eq_false ?%bool_decide_eq_false].
    split; try done; [lia| |by destruct (BlockNumber cfg)].
    destruct (AssetDecimals cfg) as [d|]; [|done]. apply Z.ltb_ge in Hd. eauto.
  - intros [HP HJ HR HS HC HD HN Hp Ht (d & Hd & Hd77) [b Hb] [Hs1 Hs2]].
    split; [by intros Hnil; rewrite Hnil in Hp|]. do 4 (split; [done|]).
    eexists. split.
    { apply validateChains_spec. split; [|done].
      split_and!; try done; apply Forall_forall; set_solver. }
    rewrite !fail_if_bind, fail_if_Ok, parentCount_foldl, Hd, Hb. cbn [parentCount].
    split_and!; [apply negb_false_iff; lia|by apply Z.ltb_ge|by apply Z.ltb_ge|done|].
    by rewrite !bool_decide_eq_false_2.
Qed.

Lemma uniqueNonEmpty_loop_no_crash field i seen values :
  uniqueNonEmpty_loop field i seen values ≠ Crash.
Proof.
  revert i seen. induction values as [|v values IH]; intros i seen; cbn; [done|].
  by repeat (case_bool_decide; cbn; try done).
Qed.
Lemma validateUnique_no_crash field values : validateUniqueNonEmptyStrings field values ≠ Crash.
Proof.
  unfold validateUniqueNonEmptyStrings. case_bool_decide; [done|].
  apply uniqueNonEmpty_loop_no_crash.
Qed.
Lemma checkProjects_no_crash projects : checkProjects projects ≠ Crash.
Proof. induction projects; cbn; [done|]. by case_bool_decide. Qed.
Lemma validateChain_no_crash i e st : validateChain i e st ≠ Crash.
Proof. unfold validateChain. no_crash. Qed.
Lemma validateChains_no_crash i evms st : validateChains i evms st ≠ Crash.
Proof.
  revert i st. induction evms as [|e evms IH]; intros i st; cbn [validateChains]; [done|].
  apply bind_no_crash; [apply validateChain_no_crash|auto].
Qed.
Lemma ValidateConfig_no_crash cfg : ValidateConfig cfg ≠ Crash.
Proof.
  destruct cfg as [cfg|]; [|done]. cbn [ValidateConfig]. unfold validateDefiLlamaConfig.
  repeat (apply bind_no_crash; [auto using fail_if_no_crash, validateUnique_no_crash,
    checkProjects_no_crash, validateChains_no_crash, bind_no_crash|intros ? _]).
  apply fail_if_no_crash.
Qed.

(** C36: [ValidateConfig] accepts exactly the valid configurations: the loops
    with their seen-sets and counters decide the declarative specification
    (distinct non-zero selectors, non-zero addresses, gas within the quota,
    distinct canonical DefiLlama names, one parent, at most ten triggers, and
    the scalar fields present). *)
Theorem ValidateConfig_spec cfg u :
  ValidateConfig (Some cfg) = Ok u ↔ ValidConfig cfg.
Proof. apply ValidateConfig_iff. Qed.

(** ** Lookups *)
Lemma FindEvmConfig_Ok evms s e :
  FindEvmConfigByChainSelector evms s = Ok e → e ∈ evms ∧ ChainSelector e = s.
Proof.
  induction evms as [|x evms IH]; cbn; [done|].
  destruct (Z.eqb_spec (ChainSelector x) s) as [Hx|Hx].
  - intros [= <-]. split; [left|done].
  - intros [? ?]%IH. split; [by right|done].
Qed.

Lemma FindEvmConfig_no_crash evms s : FindEvmConfigByChainSelector evms s ≠ Crash.
Proof. induction evms as [|x evms IH]; cbn; [done|]. by case_match. Qed.

Lemma FindEvmConfig_Err evms s err :
  FindEvmConfigByChainSelector evms s = Err err → Forall (λ e, ChainSelector e ≠ s) evms.
Proof.
  induction evms as [|x evms IH]; cbn; [constructor|].
  destruct (Z.eqb_spec (ChainSelector x) s) as [Hx|Hx]; [done|]. intros. constructor; auto.
Qed.

Lemma FindEvmConfig_unique evms e :
  NoDup (ChainSelector <$> evms) → e ∈ evms →
  FindEvmConfigByChainSelector evms (ChainSelector e) = Ok e.
Proof.
  induction evms as [|x evms IH]; cbn; [set_solver|].
  rewrite NoDup_cons, elem_of_cons. intros [Hx Hnd] [->|He].
  - by rewrite Z.eqb_refl.
  - destruct (Z.eqb_spec (ChainSelector x) (ChainSelector e)) as [Heq|]; [|by apply IH].
    destruct Hx. rewrite Heq. by apply list_elem_of_fmap_2.
Qed.

Lemma FindParent_no_crash evms : FindParent evms ≠ Crash.
Proof. induction evms as [|x evms IH]; cbn; [done|]. by case_match. Qed.

Lemma FindParent_Ok evms p : FindParent evms = Ok p → p ∈ evms ∧ IsParent p = true.
Proof.
  induction evms as [|x evms IH]; cbn; [done|].
  destruct (IsParent x) eqn:Hx.
  - intros [= <-]. split; [left|done].
  - intros [? ?]%IH. split; [by right|done].
Qed.

Lemma FindParent_head evms p l : parents evms = p :: l → FindParent evms = Ok p.
Proof.
  unfold parents. induction evms as [|x evms IH]; cbn [FindParent]; [done|].
  rewrite filter_cons. destruct (IsParent x); case_decide; try done. by intros [= -> _].
Qed.

Lemma ValidConfig_lookup cfg (HV : ValidConfig cfg) :
  (∃ p, FindParent (Evms cfg) = Ok p ∧
        ∀ e, e ∈ Evms cfg → (IsParent e = true ↔ e = p)) ∧
  (∀ s e, FindEvmConfigByChainSelector (Evms cfg) s = Ok e ↔
          e ∈ Evms cfg ∧ ChainSelector e = s) ∧
  (∀ s, (∃ err, FindEvmConfigByChainSelector (Evms cfg) s = Err err) ↔
        Forall (λ e, ChainSelector e ≠ s) (Evms cfg)).
Proof.
  split; [|split].
  - destruct (parents (Evms cfg)) as [|p [|q l]] eqn:Hp;
      pose proof (valid_parent _ HV) as Hlen; rewrite Hp in Hlen; try done.
    exists p. split; [by eapply FindParent_head|]. intros e He. split.
    + intros Hpar. apply list_elem_of_singleton. rewrite <-Hp.
      by apply list_elem_of_filter.
    + intros ->. assert (p ∈ parents (Evms cfg)) as Hin by (rewrite Hp; set_solver).
      by apply list_elem_of_filter in Hin as [??].
  - intros s e. split; [apply FindEvmConfig_Ok|]. intros [He <-].
    apply FindEvmConfig_unique; [apply (valid_selectors _ HV)|done].
  - intros s. split; [intros [err Herr]; by eapply FindEvmConfig_Err|].
    intros Hall. destruct (FindEvmConfigByChainSelector (Evms cfg) s) as [e|err|] eqn:E.
    + apply FindEvmConfig_Ok in E as [He Hs]. rewrite Forall_forall in Hall.
      by destruct (Hall e He).
    + by exists err.
    + by destruct (FindEvmConfig_no_crash (Evms cfg) s).
Qed.

(** In a valid configuration [FindParent] returns the one chain marked as
    parent, and looking a chain up by its selector is exact: it returns the
    configured chain with that selector, and fails for any other selector. *)
Theorem valid_config_lookup cfg (HV : ValidConfig cfg) :
  (∃ p, FindParent (Evms cfg) = Ok p ∧
        ∀ e, e ∈ Evms cfg → (IsParent e = true ↔ e = p)) ∧
  (∀ s e, FindEvmConfigByChainSelector (Evms cfg) s = Ok e ↔
          e ∈ Evms cfg ∧ ChainSelector e = s) ∧
  (∀ s, (∃ err, FindEvmConfigByChainSelector (Evms cfg) s = Err err) ↔
        Forall (λ e, ChainSelector e ≠ s) (Evms cfg)).
Proof. by apply ValidConfig_lookup. Qed.
End Spec.

(** ** A concrete configuration: a parent chain and two children that share a
    vault address *)
Module Sample.
#[local] Existing Instance ToyEthereum.ethereum.
#[local] Existing Instance ascii_unicode.

Definition address (c : string) : string := String.append
  "0x000000000000000000000000000000000000000" c.

Definition parent_chain : EvmConfig :=
  mkEvmConfig true "parent" "Ethereum" 1 (address "1") (address "a") 500000.
Definition child_chain : EvmConfig :=
  mkEvmConfig false "child" "Base" 2 (address "2") (address "b") 5000000.
Definition other_chain : EvmConfig :=
  mkEvmConfig false "other" "Arbitrum" 3 (address "2") (address "c") 1.

Definition config : Config :=
  mkConfig "0 0 * * *" "0 * * * *" (Some 6) (Some (-2))
    (mkDefiLlama ["pool-1"; "pool-2"; "pool-3"] ["aave-v3"; "compound-v3"] ["USDC"])%string
    [parent_chain; child_chain; other_chain].

Lemma config_accepted : ValidateConfig (Some config) = Ok tt.
Proof. vm_compute. reflexivity. Defined.

Lemma config_valid : ValidConfig config.
Proof. exact (proj1 (ValidateConfig_iff config tt) config_accepted). Defined.

Lemma config_typed : TypedConfig config.
Proof.
  split; cbn;
    [repeat apply Forall_cons_2; (split; done) || constructor
    |repeat apply Forall_cons_2; (split; done) || constructor
    |intros ? [= <-]; split; done|intros ? [= <-]; split; done].
Qed.

Lemma valid_config_lookup_witness :
  (∃ p, FindParent (Evms config) = Ok p ∧
        ∀ e, e ∈ Evms config → (IsParent e = true ↔ e = p)) ∧
  (∀ s e, FindEvmConfigByChainSelector (Evms config) s = Ok e ↔
          e ∈ Evms config ∧ ChainSelector e = s) ∧
  (∀ s, (∃ err, FindEvmConfigByChainSelector (Evms config) s = Err err) ↔
        Forall (λ e, ChainSelector e ≠ s) (Evms config)).
Proof. exact (valid_config_lookup config config_valid). Defined.
End Sample.
