(* ===== verification/State.v ===== *)
(** * On-chain state snapshots ([cre/workflow/internal/onchain])

    [bindings.go], [interfaces.go] and [state.go]: the vault bindings, the
    snapshot that is read once per execution, its validation, the operational
    guard, the active strategy's TVL and the event-source check. *)

From S2P Require Import Prelude GoText BigInt Ethereum Runtime Bindings ParentVault ChildVault Config.

#[local] Open Scope Z_scope.

Definition RebalanceNone : Z := 0.
Definition Rebalancing : Z := 1.
Definition EpochOpen : Z := 1.
Definition EpochExecuting : Z := 2.
Definition EpochClaimable : Z := 3.

Record Snapshot := mkSnapshot {
  ObservedAt : Z;  (* int64 *)
  Parent : parent_vault.TypesParentOperationalState;
  Children : gmap Z child_vault.TypesChildOperationalState }.

Section State.
Context `{GoUnicode, GoEthereum} {R : Type}.
Abbreviation M := (prog (cre_eff R)).

(** ** Interfaces: what the snapshot reader needs of a vault *)
Record ParentVaultInterface := mkParentVaultInterface {
  GetParentOperationalState : bigint → M parent_vault.TypesParentOperationalState }.
Record ChildVaultInterface := mkChildVaultInterface {
  GetChildOperationalState : bigint → M child_vault.TypesChildOperationalState }.

(** ** Bindings; a client is its chain selector *)
Definition NewParentVaultBinding (client : Z) (addr : string) : res ParentVaultInterface :=
  if negb (IsHexAddress addr)
  then Err (Errorf "invalid ParentVault address: %s" [FStr addr])
  else
    v ← parent_vault.NewParentVault client (HexToAddress addr);
    Ok (mkParentVaultInterface (parent_vault.GetParentOperationalState v)).

Definition NewChildVaultBinding (client : Z) (addr : string) : res ChildVaultInterface :=
  if negb (IsHexAddress addr)
  then Err (Errorf "invalid ChildVault address: %s" [FStr addr])
  else
    v ← child_vault.NewChildVault client (HexToAddress addr);
    Ok (mkChildVaultInterface (child_vault.GetChildOperationalState v)).

Definition parentFactory := Z → string → res ParentVaultInterface.
Definition childFactory := Z → string → res ChildVaultInterface.
Definition SnapshotReader := Config → M (option Snapshot).

(** ** Validation of a snapshot *)
Definition epoch_integers (e : parent_vault.TypesEpoch) : list bigint :=
  [parent_vault.TotalDepositAmount e; parent_vault.TotalShareBurnAmount e;
   parent_vault.TotalWithdrawClaimAmount e; parent_vault.RemainingDepositClaimAmount e;
   parent_vault.RemainingShareMintAmount e; parent_vault.RemainingShareBurnAmount e;
   parent_vault.RemainingWithdrawClaimAmount e; parent_vault.OpenedAtTimestamp e].

Definition ValidateEpoch (e : parent_vault.TypesEpoch) : res unit :=
  _ ← fail_if (negb (forallb Uint256 (epoch_integers e))) (Errorf "invalid epoch integer" []);
  fail_if (EpochClaimable <? parent_vault.Status e) (Errorf "invalid epoch status" []).

(** [!Uint256(v) || v.Sign() == 0] *)
Definition not_positive_uint256 (v : bigint) : bool :=
  negb (Uint256 v) || match v with Some z => z =? 0 | None => true end.

Fixpoint ValidateChildren (children : gmap Z child_vault.TypesChildOperationalState)
    (evms : list EvmConfig) : res unit :=
  match evms with
  | [] => Ok tt
  | cfg :: rest =>
      if IsParent cfg then ValidateChildren children rest
      else
        _ ← fail_if (match children !! ChainSelector cfg with
                     | None => true
                     | Some c =>
                         negb (Uint256 (child_vault.LastHandledEpochNonce c))
                         || negb (Uint256 (child_vault.LastHandledRebalanceNonce c))
                         || negb (Uint256 (child_vault.Tvl c))
                         || (5 <? child_vault.RecoveryMode c)
                     end)
              (Errorf "invalid child operational state on %s" [FStr (ChainName cfg)]);
        ValidateChildren children rest
  end.

Definition Validate (snapshot : option Snapshot) (config : Config) : res unit :=
  match snapshot with
  | None => Err (Errorf "invalid operational snapshot" [])
  | Some s =>
      let p := Parent s in
      let r := parent_vault.Rebalance p in
      _ ← fail_if (ObservedAt s <? 0) (Errorf "invalid operational snapshot" []);
      _ ← fail_if (not_positive_uint256 (parent_vault.CurrentEpochNonce p))
            (Errorf "invalid parent epoch nonce" []);
      _ ← fail_if (not_positive_uint256 (parent_vault.Nonce r)
                   || negb (Uint256 (parent_vault.LastRebalanceCompletedTimestamp r))
                   || (Rebalancing <? parent_vault.State r)
                   || (5 <? parent_vault.RecoveryMode p))
            (Errorf "invalid parent rebalance or recovery state" []);
      _ ← fail_if (negb (Uint256 (parent_vault.TotalShares p))
                   || negb (Uint256 (parent_vault.Tvl p)))
            (Errorf "invalid parent total shares or TVL" []);
      _ ← ValidateEpoch (parent_vault.CurrentEpoch p);
      _ ← ValidateEpoch (parent_vault.PreviousEpoch p);
      ValidateChildren (Children s) (Evms config)
  end.

(** ** Reading the snapshot *)

(** One iteration of the read loop; [*config.BlockNumber] panics when unset. *)
Definition read_chain (config : Config) (newParent : parentFactory) (newChild : childFactory)
    (snapshot : Snapshot) (cfg : EvmConfig) : M Snapshot :=
  block ← lift (deref (BlockNumber config));
  if IsParent cfg then
    vault ← lift (wrap "bind parent on %s: %w" [FStr (ChainName cfg)]
                    (newParent (ChainSelector cfg) (VaultAddress cfg)));
    state ← prog_wrap "read parent on %s: %w" [FStr (ChainName cfg)]
              (GetParentOperationalState vault (Some block));
    Ret (mkSnapshot (ObservedAt snapshot) state (Children snapshot))
  else
    vault ← lift (wrap "bind child on %s: %w" [FStr (ChainName cfg)]
                    (newChild (ChainSelector cfg) (VaultAddress cfg)));
    state ← prog_wrap "read child on %s: %w" [FStr (ChainName cfg)]
              (GetChildOperationalState vault (Some block));
    Ret (mkSnapshot (ObservedAt snapshot) (Parent snapshot)
           (<[ChainSelector cfg := state]> (Children snapshot))).

Fixpoint read_chains (config : Config) (newParent : parentFactory) (newChild : childFactory)
    (snapshot : Snapshot) (evms : list EvmConfig) : M Snapshot :=
  match evms with
  | [] => Ret snapshot
  | cfg :: rest =>
      s ← read_chain config newParent newChild snapshot cfg;
      read_chains config newParent newChild s rest
  end.

Definition readSnapshot (config : Config) (newParent : parentFactory)
    (newChild : childFactory) : M (option Snapshot) :=
  now ← act ENow;
  if now <? 0 then Throw (Errorf "negative observation timestamp" [])
  else
    snapshot ← read_chains config newParent newChild
                 (mkSnapshot now parent_vault.zeroState ∅) (Evms config);
    _ ← lift (Validate (Some snapshot) config);
    Ret (Some snapshot).

Definition ReadSnapshot : SnapshotReader :=
  λ config, readSnapshot config NewParentVaultBinding NewChildVaultBinding.

(** ** The operational guard *)
Definition child_state (s : Snapshot) (selector : Z) : child_vault.TypesChildOperationalState :=
  default child_vault.zeroState (Children s !! selector).

Definition paused_and_recovery (s : Snapshot) (cfg : EvmConfig) : bool * Z :=
  if IsParent cfg
  then (parent_vault.Paused (Parent s), parent_vault.RecoveryMode (Parent s))
  else let c := child_state s (ChainSelector cfg) in
       (child_vault.Paused c, child_vault.RecoveryMode c).

Fixpoint BlockedReason_loop (s : Snapshot) (evms : list EvmConfig) : string :=
  match evms with
  | [] => EmptyString
  | cfg :: rest =>
      let '(paused, recovery) := paused_and_recovery s cfg in
      if paused then Sprintf "vault paused on %s" [FStr (ChainName cfg)]
      else if negb (recovery =? 0)
      then Sprintf "recovery active on %s (mode %d)" [FStr (ChainName cfg); FInt recovery]
      else BlockedReason_loop s rest
  end.
Definition BlockedReason (s : Snapshot) (config : Config) : string :=
  BlockedReason_loop s (Evms config).

(** ** TVL of the active strategy *)
Definition ActiveTVL (s : Snapshot) (parentChain : Z) : res bigint :=
  let chain := parent_vault.ChainSelector
                 (parent_vault.ActiveStrategy (parent_vault.Rebalance (Parent s))) in
  if chain =? parentChain then Ok (parent_vault.Tvl (Parent s))
  else
    match Children s !! chain with
    | None => Err (Errorf "active strategy chain %d is not configured" [FInt chain])
    | Some child => Ok (child_vault.Tvl child)
    end.

(** ** The source of an event *)
Definition MatchSource (config : Config) (log : option Log) (source expected : Z) : bool :=
  match FindEvmConfigByChainSelector (Evms config) source with
  | Ok cfg =>
      (source =? expected) &&
      match log with
      | Some l =>
          Nat.eqb (length (Log_Address l)) AddressLength
          && bool_decide (BytesToAddress (Log_Address l) = HexToAddress (VaultAddress cfg))
      | None => false
      end
  | _ => false
  end.
End State.

(** ** Specification *)
Definition uint256_ptr (v : bigint) : Prop := ∃ z, v = Some z ∧ is_uint256 z.
Definition positive_ptr (v : bigint) : Prop := ∃ z, v = Some z ∧ 0 < z < 2 ^ 256.

Record ValidEpoch (e : parent_vault.TypesEpoch) : Prop := {
  ve_integers : Forall uint256_ptr (epoch_integers e);
  ve_status : parent_vault.Status e <= EpochClaimable }.

Record ValidChild (c : child_vault.TypesChildOperationalState) : Prop := {
  vch_epoch_nonce : uint256_ptr (child_vault.LastHandledEpochNonce c);
  vch_rebalance_nonce : uint256_ptr (child_vault.LastHandledRebalanceNonce c);
  vch_tvl : uint256_ptr (child_vault.Tvl c);
  vch_recovery : child_vault.RecoveryMode c <= 5 }.

Record ValidSnapshot (s : Snapshot) (config : Config) : Prop := {
  vs_time : 0 <= ObservedAt s;
  vs_epoch_nonce : positive_ptr (parent_vault.CurrentEpochNonce (Parent s));
  vs_rebalance_nonce : positive_ptr (parent_vault.Nonce (parent_vault.Rebalance (Parent s)));
  vs_completed : uint256_ptr
    (parent_vault.LastRebalanceCompletedTimestamp (parent_vault.Rebalance (Parent s)));
  vs_rebalance_state : parent_vault.State (parent_vault.Rebalance (Parent s)) <= Rebalancing;
  vs_recovery : parent_vault.RecoveryMode (Parent s) <= 5;
  vs_shares : uint256_ptr (parent_vault.TotalShares (Parent s));
  vs_tvl : uint256_ptr (parent_vault.Tvl (Parent s));
  vs_current : ValidEpoch (parent_vault.CurrentEpoch (Parent s));
  vs_previous : ValidEpoch (parent_vault.PreviousEpoch (Parent s));
  vs_children : ∀ e, e ∈ Evms config → IsParent e = false →
    ∃ c, Children s !! ChainSelector e = Some c ∧ ValidChild c }.

Lemma negb_Uint256 v : negb (Uint256 v) = false ↔ uint256_ptr v.
Proof. rewrite negb_false_iff. apply Uint256_spec. Qed.

Lemma not_positive_spec v : not_positive_uint256 v = false ↔ positive_ptr v.
Proof.
  unfold not_positive_uint256, positive_ptr. rewrite orb_false_iff, negb_Uint256.
  unfold uint256_ptr, is_uint256. split.
  - intros [(z & -> & ?) ?%Z.eqb_neq]. exists z. split; [done|lia].
  - intros (z & -> & ?). split; [exists z; split; [done|lia]|]. apply Z.eqb_neq. lia.
Qed.

Lemma ValidateEpoch_spec e : ValidateEpoch e = Ok tt ↔ ValidEpoch e.
Proof.
  unfold ValidateEpoch. rewrite fail_if_bind, fail_if_Ok, negb_false_iff, Z.ltb_ge.
  rewrite forallb_forall. setoid_rewrite Uint256_spec. split.
  - intros [Hall ?]. split; [|done]. apply Forall_forall. intros v Hv.
    apply Hall. by apply list_elem_of_In.
  - intros [Hall ?]. split; [|done]. intros v Hv.
    rewrite Forall_forall in Hall. apply Hall. by apply list_elem_of_In.
Qed.

Lemma ValidateChildren_spec children evms :
  ValidateChildren children evms = Ok tt ↔
  ∀ e, e ∈ evms → IsParent e = false →
    ∃ c, children !! ChainSelector e = Some c ∧ ValidChild c.
Proof.
  induction evms as [|e evms IH]; cbn [ValidateChildren].
  { split; [intros _ e He; by apply elem_of_nil in He|done]. }
  setoid_rewrite elem_of_cons. destruct (IsParent e) eqn:He.
  { rewrite IH. split; [intros Hall x [->|?]; [congruence|auto]|auto]. }
  rewrite fail_if_bind, IH.
  assert (match children !! ChainSelector e with
          | None => true
          | Some c => negb (Uint256 (child_vault.LastHandledEpochNonce c))
              || negb (Uint256 (child_vault.LastHandledRebalanceNonce c))
              || negb (Uint256 (child_vault.Tvl c)) || (5 <? child_vault.RecoveryMode c)
          end = false ↔ ∃ c, children !! ChainSelector e = Some c ∧ ValidChild c) as ->.
  { destruct (children !! ChainSelector e) as [c|]; [|naive_solver].
    rewrite !orb_false_iff, !negb_Uint256, Z.ltb_ge. split.
    - intros [[[??]?]?]. by exists c.
    - by intros (? & [= <-] & [????]). }
  split; [intros [? Hall] x [->|?]; auto|intros Hall; split; auto].
Qed.

(** [Snapshot.Validate] accepts exactly the well-formed snapshots: every
    integer present and within uint256, nonces positive, enums in range, and a
    well-formed state for every configured child chain. *)
Lemma Validate_iff s config u :
  Validate (Some s) config = Ok u ↔ ValidSnapshot s config.
Proof.
  destruct u. cbn [Validate].
  rewrite !fail_if_bind, !res_unit_bind, !orb_false_iff, !negb_Uint256, !not_positive_spec,
    !ValidateEpoch_spec, ValidateChildren_spec, !Z.ltb_ge.
  split; [intros (?&?&[[[??]?]?]&[??]&?&?&?); by split|].
  intros []. split_and!; done.
Qed.

Lemma Validate_no_crash s config : Validate s config ≠ Crash.
Proof.
  destruct s as [s|]; cbn [Validate]; [|done].
  assert (∀ e, ValidateEpoch e ≠ Crash) as HE.
  { intros e. unfold ValidateEpoch, fail_if. by repeat case_match. }
  assert (∀ ch evms, ValidateChildren ch evms ≠ Crash) as HC.
  { intros ch evms. induction evms; cbn; [done|]. unfold fail_if.
    by repeat case_match. }
  unfold fail_if. repeat (case_match; cbn; try done).
  destruct (ValidateEpoch (parent_vault.CurrentEpoch (Parent s))) eqn:E1; cbn; try done.
  - destruct (ValidateEpoch (parent_vault.PreviousEpoch (Parent s))) eqn:E2; cbn; try done.
    by destruct (HE (parent_vault.PreviousEpoch (Parent s))).
  - by destruct (HE (parent_vault.CurrentEpoch (Parent s))).
Qed.

(** ** The operational guard *)
Section Guard.
Context `{GoUnicode}.

(** A chain blocks the workflow when its vault is paused or in recovery. *)
Definition chain_clear (s : Snapshot) (e : EvmConfig) : Prop :=
  paused_and_recovery s e = (false, 0).

(** The guard is silent exactly when no configured vault is paused or in a
    recovery mode, and otherwise reports the first such chain in configuration
    order. *)
Lemma BlockedReason_iff s config :
  (BlockedReason s config = EmptyString ↔ Forall (chain_clear s) (Evms config)) ∧
  (BlockedReason s config ≠ EmptyString →
   ∃ before e after, Evms config = before ++ e :: after ∧
     Forall (chain_clear s) before ∧ ¬ chain_clear s e ∧
     BlockedReason s config =
       if (paused_and_recovery s e).1
       then Sprintf "vault paused on %s" [FStr (ChainName e)]
       else Sprintf "recovery active on %s (mode %d)"
              [FStr (ChainName e); FInt (paused_and_recovery s e).2]).
Proof.
  unfold BlockedReason, chain_clear.
  induction (Evms config) as [|e evms [IH1 IH2]]; cbn [BlockedReason_loop].
  { split; [split; [constructor|done]|done]. }
  rewrite Forall_cons.
  destruct (paused_and_recovery s e) as [[] r] eqn:He.
  { split; [split; [done|naive_solver]|]. intros _.
    exists [], e, evms. rewrite He. by split_and!. }
  destruct (Z.eqb_spec r 0) as [->|Hr]; cbn [negb].
  - split; [naive_solver|]. intros (before & e' & after & Heq & Hall & Hne & Hres)%IH2.
    exists (e :: before), e', after. split_and!; [by rewrite Heq|by constructor|done|done].
  - split; [split; [done|naive_solver]|]. intros _.
    exists [], e, evms. rewrite He. split_and!; [done|constructor|naive_solver|done].
Qed.
End Guard.

(** ** Event sources *)

(** A log matches exactly when it comes from the vault configured for the
    subscription's chain and that chain is the expected one; the vault address
    alone never suffices (several chains share one). *)
Lemma MatchSource_iff `{HL : GoEthereumLaws, GoUnicode} config l source expected
    (HV : ValidConfig config) :
  MatchSource config (Some l) source expected = true ↔
  source = expected ∧
  ∃ e, e ∈ Evms config ∧ ChainSelector e = source ∧
       Log_Address l = HexToAddress (VaultAddress e).
Proof.
  pose proof (ValidConfig_lookup _ HV) as (_ & Hfind & _). unfold MatchSource.
  destruct (FindEvmConfigByChainSelector (Evms config) source) as [e|err|] eqn:E.
  - rewrite !andb_true_iff, Z.eqb_eq, Nat.eqb_eq, bool_decide_eq_true.
    apply Hfind in E as [He Hs]. split.
    + intros (-> & Hlen & Haddr). rewrite BytesToAddress_id in Haddr by done. eauto.
    + intros (-> & e' & He' & Hs' & Haddr).
      assert (e' = e) as ->.
      { assert (Ok e' = Ok e) as [=]; [|done].
        rewrite <-(proj2 (Hfind _ _) (conj He Hs)). symmetry. by apply Hfind. }
      split; [done|]. rewrite Haddr. split; [apply HexToAddress_length|].
      apply BytesToAddress_id, HexToAddress_length.
  - split; [done|]. intros (_ & e & He & Hs & _).
    by rewrite (proj2 (Hfind _ _) (conj He Hs)) in E.
  - by destruct (FindEvmConfig_no_crash (Evms config) source).
Qed.

(** ** Reading the chains *)
Section Reading.
Context `{GoUnicode, HL : GoEthereumLaws} {R : Type}.
Abbreviation trace := (list (step (cre_eff R))).

Definition parent_request (data : bytes) (block : Z) (e : EvmConfig) : CallContractRequest :=
  mkCallContractRequest (HexToAddress (VaultAddress e)) data block.

(** One chain is read by one call at its vault, at the configured block; the
    snapshot takes the decoded answer. *)
Definition chain_read (config : Config) (e : EvmConfig) (s : Snapshot) (t : trace)
    (s' : Snapshot) : Prop :=
  ∃ block data answer,
    BlockNumber config = Some block ∧ IsHexAddress (VaultAddress e) = true ∧
    t = [Step _ (ECallContract (ChainSelector e) (parent_request data block e))
           (Reply (Some answer))] ∧
    if IsParent e then
      ∃ c p, parent_vault.NewCodec = Ok c ∧
        parent_vault.EncodeGetParentOperationalStateMethodCall c = Ok data ∧
        parent_vault.DecodeGetParentOperationalStateMethodOutput c answer = Ok p ∧
        s' = mkSnapshot (ObservedAt s) p (Children s)
    else
      ∃ c p, child_vault.NewCodec = Ok c ∧
        child_vault.EncodeGetChildOperationalStateMethodCall c = Ok data ∧
        child_vault.DecodeGetChildOperationalStateMethodOutput c answer = Ok p ∧
        s' = mkSnapshot (ObservedAt s) (Parent s) (<[ChainSelector e := p]> (Children s)).

Inductive chains_read (config : Config) :
    list EvmConfig → Snapshot → trace → Snapshot → Prop :=
| chains_read_nil s : chains_read config [] s [] s
| chains_read_cons e evms s s1 s' t t' :
    chain_read config e s t s1 → chains_read config evms s1 t' s' →
    chains_read config (e :: evms) s (t ++ t') s'.

Lemma NewParentVaultBinding_Ok client addr v :
  NewParentVaultBinding (R:=R) client addr = Ok v →
  IsHexAddress addr = true ∧ ∃ c, parent_vault.NewCodec = Ok c ∧
    v = mkParentVaultInterface (parent_vault.GetParentOperationalState
          (parent_vault.mkParentVault (HexToAddress addr) (parent_vault.codec_abi c) client c)).
Proof.
  unfold NewParentVaultBinding, parent_vault.NewParentVault.
  destruct (IsHexAddress addr); cbn [negb]; [|done].
  unfold parent_vault.NewCodec.
  destruct (abi_JSON ParentVaultMetaData); cbn; [|done..]. intros [= <-]. eauto.
Qed.

Lemma NewChildVaultBinding_Ok client addr v :
  NewChildVaultBinding (R:=R) client addr = Ok v →
  IsHexAddress addr = true ∧ ∃ c, child_vault.NewCodec = Ok c ∧
    v = mkChildVaultInterface (child_vault.GetChildOperationalState
          (child_vault.mkChildVault (HexToAddress addr) (child_vault.codec_abi c) client c)).
Proof.
  unfold NewChildVaultBinding, child_vault.NewChildVault.
  destruct (IsHexAddress addr); cbn [negb]; [|done].
  unfold child_vault.NewCodec.
  destruct (abi_JSON ChildVaultMetaData); cbn; [|done..]. intros [= <-]. eauto.
Qed.

(** Binding a vault and reading it, in the shape both branches share. *)
Lemma bind_and_read_seg {V A} adm h (bind : res V) (read : V → prog (cre_eff R) A)
    (k : A → Snapshot) f1 a1 f2 a2 (Q : trace → Snapshot → Prop) :
  (∀ v, bind = Ok v → wp_seg adm h (read v) (λ t r,
     quiet t ∧ ∀ a, r = Ok a → Q t (k a))) →
  wp_seg adm h
    (v ← lift (wrap f1 a1 bind); a ← prog_wrap f2 a2 (read v); Ret (k a))
    (λ t r, quiet t ∧ ∀ s, r = Ok s → Q t s).
Proof.
  intros Hread. destruct bind as [v|e|]; cbn [wrap lift].
  - cbn [mbind prog_bind prog_bind_def].
    eapply (wp_seg_bind _ _ _ _ (λ t r, quiet t ∧ ∀ a, r = Ok a → Q t (k a))).
    + apply wp_seg_wrap. eapply wp_seg_mono; [|by apply Hread]. cbn.
      intros t r [Hq HQ]. split; [done|]. intros a Ha%wrap_Ok. by apply HQ.
    + intros t a [Hq HQ]. apply (wp_seg_ret _ _ (Ok (k a))). rewrite app_nil_r.
      split; [done|]. intros s [= <-]. by apply HQ.
    + intros t e [Hq _]. done.
    + intros t [Hq _]. done.
  - exists []. by rewrite app_nil_r.
  - exists []. by rewrite app_nil_r.
Qed.

Lemma read_chain_seg adm h config s e :
  wp_seg adm h (read_chain config NewParentVaultBinding NewChildVaultBinding s e)
    (λ t r, quiet t ∧ ∀ s', r = Ok s' → chain_read config e s t s').
Proof.
  unfold read_chain. destruct (BlockNumber config) as [block|] eqn:Hb; cbn [deref lift].
  2:{ exists []. by rewrite app_nil_r. }
  cbn [mbind prog_bind prog_bind_def]. destruct (IsParent e) eqn:Hp.
  - apply (bind_and_read_seg _ _ _ _ (λ a, mkSnapshot _ a _)).
    intros v (Hhex & c & Hc & ->)%NewParentVaultBinding_Ok.
    eapply wp_seg_mono; [|apply read_contract_seg]. cbn.
    intros t r (Hq & _ & Hr). split; [done|].
    intros a (data & answer & Hd & Ha & ->)%Hr.
    exists block, data, answer. rewrite Hp. split_and!; try done. eauto 10.
  - apply (bind_and_read_seg _ _ _ _ (λ a, mkSnapshot _ _ _)).
    intros v (Hhex & c & Hc & ->)%NewChildVaultBinding_Ok.
    eapply wp_seg_mono; [|apply read_contract_seg]. cbn.
    intros t r (Hq & _ & Hr). split; [done|].
    intros a (data & answer & Hd & Ha & ->)%Hr.
    exists block, data, answer. rewrite Hp. split_and!; try done. eauto 10.
Qed.

Lemma read_chains_seg adm h config evms s :
  wp_seg adm h (read_chains config NewParentVaultBinding NewChildVaultBinding s evms)
    (λ t r, quiet t ∧ ∀ s', r = Ok s' → chains_read config evms s t s').
Proof.
  revert h s. induction evms as [|e evms IH]; intros h s; cbn [read_chains].
  { apply (wp_seg_ret _ _ (Ok s)). split; [done|]. intros s' [= <-]. constructor. }
  eapply wp_seg_bind; [apply read_chain_seg|..]; cbn.
  - intros t s1 [Hq H1]. eapply wp_seg_mono; [|apply IH]. cbn.
    intros t' r [Hq' H']. split; [by apply quiet_app|].
    intros s' ->. econstructor; eauto.
  - intros t err [Hq _]. done.
  - intros t [Hq _]. done.
Qed.

(** [s] is the snapshot that the segment [t] reads: the clock, then exactly one
    call per configured chain, each state the decoding of its chain's answer. *)
Definition snapshot_taken (config : Config) (t : trace) (s : Snapshot) : Prop :=
  ValidSnapshot s config ∧
  ∃ t', t = Step _ ENow (ObservedAt s) :: t' ∧
    chains_read config (Evms config) (mkSnapshot (ObservedAt s) parent_vault.zeroState ∅) t' s.

(** What a successful read of the snapshot has done. *)
Definition snapshot_read (config : Config) (t : trace) (r : res (option Snapshot)) : Prop :=
  quiet t ∧ ∀ so, r = Ok so → ∃ s, so = Some s ∧ snapshot_taken config t s.

Lemma chains_read_observed config evms s t s' :
  chains_read config evms s t s' → ObservedAt s' = ObservedAt s.
Proof.
  induction 1 as [|e evms s s1 s' t t' Hr _ IH]; [done|]. rewrite IH.
  destruct Hr as (?&?&?&?&?&?&Hr). destruct (IsParent e); naive_solver.
Qed.

Lemma ReadSnapshot_seg adm h config :
  wp_seg adm h (ReadSnapshot config) (snapshot_read config).
Proof.
  unfold ReadSnapshot, readSnapshot. intros now _. cbn [mbind prog_bind prog_bind_def].
  destruct (now <? 0); [by exists [Step _ ENow now]|].
  pose proof (read_chains_seg adm (h ++ [Step _ ENow now]) config (Evms config)
    (mkSnapshot now parent_vault.zeroState ∅)) as Hseg.
  assert (wp_seg adm (h ++ [Step _ ENow now])
    (snapshot ← read_chains config NewParentVaultBinding NewChildVaultBinding
       (mkSnapshot now parent_vault.zeroState ∅) (Evms config);
     _ ← lift (Validate (Some snapshot) config); Ret (Some snapshot))
    (λ t r, snapshot_read config (Step _ ENow now :: t) r)) as Hrest.
  { eapply wp_seg_bind; [apply Hseg|..]; cbv beta.
    - intros t s [Hq Hs]. specialize (Hs s eq_refl).
      pose proof (Validate_iff s config) as Hv.
      destruct (Validate (Some s) config) as [u|e|]; cbn [lift mbind prog_bind prog_bind_def].
      + apply (wp_seg_ret _ _ (Ok (Some s))). rewrite app_nil_r. split; [done|].
        intros so [= <-]. exists s. split; [done|]. split; [by apply (Hv u)|].
        exists t. pose proof (chains_read_observed _ _ _ _ _ Hs) as Hobs. cbn in Hobs. by rewrite Hobs.
      + apply (wp_seg_ret _ _ (Err e)). by rewrite app_nil_r.
      + apply (wp_seg_ret _ _ Crash). by rewrite app_nil_r.
    - intros t e [Hq _]. by split.
    - intros t [Hq _]. by split. }
  eapply wp_mono; [|exact Hrest]. cbn. intros h' r (t & -> & Ht).
  exists (Step _ ENow now :: t). by rewrite <-app_assoc.
Qed.

(** ** The answers determine the snapshot *)
Definition step_reply (x : step (cre_eff R)) : option (reply (option bytes)) :=
  match x with
  | Step X c x =>
      match c in cre_eff _ X return X → option (reply (option bytes)) with
      | ECallContract _ _ => Some
      | _ => λ _, None
      end x
  end.
Definition step_time (x : step (cre_eff R)) : option Z :=
  match x with
  | Step X c x => match c in cre_eff _ X return X → option Z with ENow => Some | _ => λ _, None end x
  end.

Lemma chain_read_unique config e s t t' u u' s1 s1' :
  chain_read config e s t s1 → chain_read config e s t' s1' → t ++ u = t' ++ u' →
  u = u' ∧ s1 = s1'.
Proof.
  intros (b & d & a & Hb & _ & -> & Hc) (b' & d' & a' & Hb' & _ & -> & Hc') Heq.
  split; [exact (f_equal tail Heq)|].
  assert (Some (Reply (Some a)) = Some (Reply (Some a'))) as [= ->].
  { exact (f_equal (λ l : trace, match l with x :: _ => step_reply x | [] => None end) Heq). }
  destruct (IsParent e);
    destruct Hc as (? & ? & ? & ? & ? & ->), Hc' as (? & ? & ? & ? & ? & ->); congruence.
Qed.

Lemma chains_read_unique config evms s0 t s :
  chains_read config evms s0 t s → ∀ t' u u' s', chains_read config evms s0 t' s' →
  t ++ u = t' ++ u' → s = s'.
Proof.
  induction 1 as [s0|e evms s0 s1 s t t2 Hr _ IH]; intros t' u u' s' Hr' Heq.
  - inversion Hr'. by subst.
  - inversion Hr' as [|e' evms' s2 s3 s4 v v2 Hr1 Hr2]. subst. rewrite <-!app_assoc in Heq.
    destruct (chain_read_unique _ _ _ _ _ _ _ _ _ Hr Hr1 Heq) as [Heq' <-]. by eapply IH.
Qed.

(** One trace is the reading of at most one snapshot. *)
Lemma snapshot_taken_unique config t t' u u' s s' :
  snapshot_taken config t s → snapshot_taken config t' s' → t ++ u = t' ++ u' → s = s'.
Proof.
  intros (_ & r & -> & Hr) (_ & r' & -> & Hr') Heq. cbn [app] in Heq.
  assert (Some (ObservedAt s) = Some (ObservedAt s')) as [= E].
  { exact (f_equal (λ l : trace, match l with x :: _ => step_time x | [] => None end) Heq). }
  rewrite E in Hr. eapply chains_read_unique; [exact Hr|exact Hr'|exact (f_equal tail Heq)].
Qed.

(** [answered t e answer]: the call for chain [e] was answered by [answer]. *)
Definition answered (config : Config) (t : trace) (e : EvmConfig) (answer : bytes) : Prop :=
  ∃ data block, BlockNumber config = Some block ∧
    Step _ (ECallContract (ChainSelector e) (parent_request data block e)) (Reply (Some answer))
      ∈ t.

Lemma chains_read_frame config evms s t s' :
  chains_read config evms s t s' →
  (Forall (λ e, IsParent e = false) evms → Parent s' = Parent s) ∧
  (∀ sel, Forall (λ e, ChainSelector e ≠ sel) evms →
     Children s' !! sel = Children s !! sel).
Proof.
  induction 1 as [|e evms s s1 s' t t' Hr _ [IH1 IH2]]; [done|].
  destruct Hr as (?&?&?&?&?&?&Hr). setoid_rewrite Forall_cons. split.
  - intros [He Hall]. rewrite He in Hr. destruct Hr as (?&?&?&?&?&->). by rewrite IH1.
  - intros sel [Hsel Hall]. rewrite IH2 by done.
    destruct (IsParent e); destruct Hr as (?&?&?&?&?&->); [done|]. by apply lookup_insert_ne.
Qed.

Lemma parents_cons_nil e evms :
  IsParent e = true → (length (parents (e :: evms)) ≤ 1)%nat →
  Forall (λ e, IsParent e = false) evms.
Proof.
  unfold parents. rewrite filter_cons. intros He. case_decide; [|done]. cbn. intros Hlen.
  apply Forall_forall. intros x Hx. destruct (IsParent x) eqn:Hp; [|done].
  assert (x ∈ filter (λ e, IsParent e = true) evms) as Hin by (by apply list_elem_of_filter).
  destruct (filter _ evms); [by apply elem_of_nil in Hin|cbn in Hlen; lia].
Qed.

Lemma parents_cons_le e evms : (length (parents evms) ≤ length (parents (e :: evms)))%nat.
Proof. unfold parents. rewrite filter_cons. case_decide; cbn; lia. Qed.

Definition chain_state (config : Config) (s : Snapshot) (t : trace) (e : EvmConfig) : Prop :=
  ∃ answer, answered config t e answer ∧
    if IsParent e then
      ∃ c, parent_vault.NewCodec = Ok c ∧
        parent_vault.DecodeGetParentOperationalStateMethodOutput c answer = Ok (Parent s)
    else
      ∃ c p, child_vault.NewCodec = Ok c ∧
        child_vault.DecodeGetChildOperationalStateMethodOutput c answer = Ok p ∧
        Children s !! ChainSelector e = Some p.

Lemma answered_app config t t' e a :
  answered config t e a ∨ answered config t' e a → answered config (t ++ t') e a.
Proof. intros [(d&b&?&?)|(d&b&?&?)]; exists d, b; rewrite elem_of_app; auto. Qed.

Lemma chains_read_states config evms s t s' :
  NoDup (ChainSelector <$> evms) → (length (parents evms) ≤ 1)%nat →
  chains_read config evms s t s' → ∀ e, e ∈ evms → chain_state config s' t e.
Proof.
  intros Hnd Hpar Hr. induction Hr as [|e evms s s1 s' t t' Hc Hr IH].
  { intros e He. by apply elem_of_nil in He. }
  rewrite fmap_cons, NoDup_cons in Hnd. destruct Hnd as [He Hnd].
  apply chains_read_frame in Hr as [HfP HfC]. intros x [->|Hx]%elem_of_cons.
  - destruct Hc as (block & data & answer & Hb & _ & -> & Hc). exists answer. split.
    { apply answered_app. left. exists data, block. split; [done|]. by left. }
    destruct (IsParent e) eqn:Hpe.
    + destruct Hc as (c & p & ? & ? & ? & ->). exists c. split; [done|].
      rewrite HfP by (by eapply parents_cons_nil). done.
    + destruct Hc as (c & p & ? & ? & ? & ->). exists c, p. split_and!; [done..|].
      rewrite HfC; [apply lookup_insert_eq|]. apply Forall_forall. intros y Hy Heq.
      apply He. rewrite <-Heq. by apply list_elem_of_fmap_2.
  - destruct IH with x as (answer & Hans & ?); [done| |done|].
    { pose proof (parents_cons_le e evms). lia. }
    exists answer. split; [|done]. apply answered_app. by right.
Qed.

(** ** No panic *)
Lemma read_chain_no_crash h config s e :
  is_Some (BlockNumber config) →
  wp (@host_ok R) h (read_chain config NewParentVaultBinding NewChildVaultBinding s e)
    (λ _ r, r ≠ Crash).
Proof.
  intros [block Hb]. unfold read_chain. rewrite Hb. cbn [deref lift mbind prog_bind prog_bind_def].
  pose proof abi_JSON_no_crash as HJ. pose proof parent_vault.ParentCodec_no_crash.
  pose proof child_vault.ChildCodec_no_crash.
  assert (∀ a, @NewParentVaultBinding _ R (ChainSelector e) a ≠ Crash) as HP.
  { intros a. unfold NewParentVaultBinding, parent_vault.NewParentVault. no_crash. }
  assert (∀ a, @NewChildVaultBinding _ R (ChainSelector e) a ≠ Crash) as HC.
  { intros a. unfold NewChildVaultBinding, child_vault.NewChildVault. no_crash. }
  destruct (IsParent e).
  - destruct (NewParentVaultBinding (ChainSelector e) (VaultAddress e)) as [v|err|] eqn:Hv;
      cbn [wrap lift mbind prog_bind prog_bind_def]; [|done|by destruct (HP (VaultAddress e))].
    apply NewParentVaultBinding_Ok in Hv as (_ & c & Hc & ->). cbn [GetParentOperationalState].
    change (prog_bind_def ?f ?p) with (p ≫= f). rewrite wp_bind, wp_wrap.
    eapply wp_mono; [|apply read_contract_no_crash].
    + intros h' [p|err|] Hr; cbn; done.
    + by apply abi_Pack_no_crash.
    + intros d. by apply parent_vault.DecodeState_no_crash.
  - destruct (NewChildVaultBinding (ChainSelector e) (VaultAddress e)) as [v|err|] eqn:Hv;
      cbn [wrap lift mbind prog_bind prog_bind_def]; [|done|by destruct (HC (VaultAddress e))].
    apply NewChildVaultBinding_Ok in Hv as (_ & c & Hc & ->). cbn [GetChildOperationalState].
    change (prog_bind_def ?f ?p) with (p ≫= f). rewrite wp_bind, wp_wrap.
    eapply wp_mono; [|apply read_contract_no_crash].
    + intros h' [p|err|] Hr; cbn; done.
    + by apply abi_Pack_no_crash.
    + intros d. by apply child_vault.DecodeChildState_no_crash.
Qed.

Lemma ReadSnapshot_no_crash h config :
  is_Some (BlockNumber config) →
  wp (@host_ok R) h (ReadSnapshot config) (λ _ r, r ≠ Crash).
Proof.
  intros Hb. unfold ReadSnapshot, readSnapshot. intros now _.
  cbn [mbind prog_bind prog_bind_def]. destruct (now <? 0); [done|].
  change (prog_bind_def ?f ?p) with (p ≫= f). rewrite wp_bind.
  generalize (h ++ [Step Z ENow now]) (mkSnapshot now parent_vault.zeroState ∅).
  assert (∀ h s, wp (@host_ok R) h
    (read_chains config NewParentVaultBinding NewChildVaultBinding s (Evms config))
    (λ _ r, r ≠ Crash)) as Hreads.
  { induction (Evms config) as [|e evms IH]; intros h' s; cbn [read_chains]; [done|].
    rewrite wp_bind. eapply wp_mono; [|by apply read_chain_no_crash].
    intros h'' [s1|err|] Hr; cbn; done. }
  intros h' s. eapply wp_mono; [|apply Hreads]. intros h'' [s1|err|] Hr; cbn [bind_post]; try done.
  pose proof (Validate_no_crash (Some s1) config).
  by destruct (Validate (Some s1) config).
Qed.

(** The calls of a successful read: one per configured chain, in order, each to
    that chain's vault. *)
Lemma chains_read_reads config evms s t s' :
  chains_read config evms s t s' →
  (λ q, (q.1, Call_To q.2)) <$> reads t =
  (λ e, (ChainSelector e, HexToAddress (VaultAddress e))) <$> evms.
Proof.
  induction 1 as [|e evms s s1 s' t t' Hr _ IH]; [done|].
  destruct Hr as (?&?&?&_&_&->&_). rewrite reads_app, fmap_app, IH. done.
Qed.

(** ** Properties *)

(** C17: A successful [ReadSnapshot] under a valid configuration returns a
    well-formed snapshot that is exactly the chain state: it has made one call
    per configured chain, in order, to that chain's vault at the configured
    block, each state in the snapshot is the decoding of the answer of its own
    chain, and nothing was signed or written. *)
Theorem ReadSnapshot_faithful config o t so
    (HV : ValidConfig config)
    (HR : run o [] (@ReadSnapshot _ R config) = (t, Ok so)) :
  ∃ s, so = Some s ∧ ValidSnapshot s config ∧ quiet t ∧
    (λ q, (q.1, Call_To q.2)) <$> reads t =
      (λ e, (ChainSelector e, HexToAddress (VaultAddress e))) <$> Evms config ∧
    (∀ e, e ∈ Evms config → chain_state config s t e).
Proof.
  pose proof (wp_seg_run any_answer o _ _ (respects_any o) (ReadSnapshot_seg _ [] config)) as H1.
  rewrite HR in H1. cbn [fst snd] in H1. destruct H1 as [Hq Hs].
  destruct (Hs so eq_refl) as (s & -> & Hvalid & t' & -> & Hreads).
  exists s. split_and!; try done.
  - apply (chains_read_reads _ _ _ _ _ Hreads).
  - intros e He.
    pose proof (valid_parent _ HV).
    destruct (chains_read_states _ _ _ _ _ (valid_selectors _ HV) ltac:(lia) Hreads e He)
      as (a & (d & b & ? & ?) & ?).
    exists a. split; [|done]. exists d, b. split; [done|by right].
Qed.

(** C26: [ReadSnapshot] never panics under a valid configuration when the host
    answers its calls as documented, and even a failing read has signed and
    written nothing. *)
Theorem ReadSnapshot_safe config o
    (HV : ValidConfig config) (HO : respects (@host_ok R) o) :
  (run o [] (@ReadSnapshot _ R config)).2 ≠ Crash ∧
  quiet (run o [] (@ReadSnapshot _ R config)).1.
Proof.
  split.
  - apply (wp_run host_ok o [] (ReadSnapshot config) (λ _ r, r ≠ Crash) HO).
    apply ReadSnapshot_no_crash, (valid_block _ HV).
  - apply (wp_seg_run any_answer o _ _ (respects_any o) (ReadSnapshot_seg _ [] config)).
Qed.

(** [Snapshot.Validate] accepts exactly the well-formed snapshots: every
    integer present and within uint256, nonces positive, enums in range, and a
    well-formed state for every configured child chain; a nil snapshot is an
    error and no snapshot makes it panic. *)
Theorem Validate_spec so config :
  (∀ u, Validate so config = Ok u ↔ ∃ s, so = Some s ∧ ValidSnapshot s config) ∧
  Validate so config ≠ Crash.
Proof.
  split; [|apply Validate_no_crash]. intros u. destruct so as [s|].
  - rewrite Validate_iff. naive_solver.
  - split; [done|by intros (?&?&?)].
Qed.

(** The operational guard is silent exactly when no configured vault is
    paused or in a recovery mode, and otherwise reports the first such chain in
    configuration order. *)
Theorem BlockedReason_spec s config :
  (BlockedReason s config = EmptyString ↔ Forall (chain_clear s) (Evms config)) ∧
  (BlockedReason s config ≠ EmptyString →
   ∃ before e after, Evms config = before ++ e :: after ∧
     Forall (chain_clear s) before ∧ ¬ chain_clear s e ∧
     BlockedReason s config =
       if (paused_and_recovery s e).1
       then Sprintf "vault paused on %s" [FStr (ChainName e)]
       else Sprintf "recovery active on %s (mode %d)"
              [FStr (ChainName e); FInt (paused_and_recovery s e).2]).
Proof. apply BlockedReason_iff. Qed.

(** A log matches exactly when it comes from the vault configured for the
    subscription's chain and that chain is the expected one; the vault address
    alone never suffices (several chains share one). *)
Theorem MatchSource_spec config l source expected (HV : ValidConfig config) :
  MatchSource config (Some l) source expected = true ↔
  source = expected ∧
  ∃ e, e ∈ Evms config ∧ ChainSelector e = source ∧
       Log_Address l = HexToAddress (VaultAddress e).
Proof. by apply MatchSource_iff. Qed.
End Reading.

(** ** A concrete snapshot and host *)
Module SampleState.
#[local] Existing Instance ascii_unicode.

Definition epoch_tuple (status : Z) : abi_value :=
  VTuple [("totalDepositAmount", VBig (Some 1000000)); ("totalShareBurnAmount", VBig (Some 0));
          ("totalWithdrawClaimAmount", VBig (Some 0));
          ("remainingDepositClaimAmount", VBig (Some 1000000));
          ("remainingShareMintAmount", VBig (Some 1000000000000000000));
          ("remainingShareBurnAmount", VBig (Some 0));
          ("remainingWithdrawClaimAmount", VBig (Some 0));
          ("openedAtTimestamp", VBig (Some 1)); ("status", VUint status)]%string.

Definition unpack (md : MetaData) (name : string) (data : bytes) : res (list abi_value) :=
  match md with
  | ParentVaultMetaData => Ok [VTuple
      [("paused", VBool false); ("recoveryMode", VUint 0); ("currentEpochNonce", VBig (Some 2));
       ("currentEpoch", epoch_tuple 1); ("previousEpoch", epoch_tuple 3);
       ("rebalance", VTuple [("nonce", VBig (Some 7)); ("state", VUint 0);
          ("activeStrategy", VTuple [("protocolId", VFixed (zeros 32)); ("chainSelector", VUint 2)]);
          ("pendingStrategy", VTuple [("protocolId", VFixed (zeros 32)); ("chainSelector", VUint 0)]);
          ("lastRebalanceCompletedTimestamp", VBig (Some 1))]);
       ("totalShares", VBig (Some 1000000000000000000)); ("tvl", VBig (Some 8000000))]]%string
  | ChildVaultMetaData => Ok [VTuple
      [("paused", VBool false); ("recoveryMode", VUint 0); ("lastHandledEpochNonce", VBig (Some 0));
       ("lastHandledRebalanceNonce", VBig (Some 6)); ("tvl", VBig (Some 1000000))]]%string
  | _ => Err (Errorf "abi: no method" [])
  end.

Definition ethereum : GoEthereum := ToyEthereum.ethereum_with unpack.
#[local] Existing Instance ethereum.
Lemma sample_ethereum_laws : GoEthereumLaws.
Proof.
  apply ToyEthereum.ethereum_laws_with; [by intros []|].
  by intros [] name data vals [= <-].
Qed.
#[local] Existing Instance sample_ethereum_laws.

Definition host {R} : oracle (cre_eff R) := λ _ X c,
  match c in cre_eff _ X return X with
  | ENow => 10000
  | ELog _ _ => tt
  | EGenerateReport _ => Reply (Some (mkReport 7))
  | EWriteReport _ _ => Reply (Some
      (mkWriteReportReply TX_STATUS_SUCCESS (Some RECEIVER_SUCCESS) [] None None))
  | ECallContract _ _ => Reply (Some [])
  | EGetSecret _ => Reply (Some "key"%string)
  | ESendRequest _ => Failed (Errorf "no consensus" [])
  end.

Lemma host_is_ok {R} : respects (@host_ok R) host.
Proof. intros h X []; done. Qed.

(** The same configuration is valid under this instance. *)
Lemma sample_config_valid : ValidConfig Sample.config.
Proof.
  assert (ValidateConfig (Some Sample.config) = Ok tt) as H by (vm_compute; reflexivity).
  exact (proj1 (ValidateConfig_iff _ tt) H).
Qed.

Definition read : list (step (cre_eff unit)) * res (option Snapshot) :=
  run host [] (ReadSnapshot Sample.config).

Definition snapshot : Snapshot :=
  match read.2 with
  | Ok (Some s) => s
  | _ => mkSnapshot 0 parent_vault.zeroState ∅
  end.

Example read_ok : read.2 = Ok (Some snapshot).
Proof. vm_compute. reflexivity. Qed.
Example read_parent : parent_vault.Tvl (Parent snapshot) = Some 8000000.
Proof. vm_compute. reflexivity. Qed.

Lemma ReadSnapshot_faithful_witness :
  ∃ s, Some snapshot = Some s ∧ ValidSnapshot s Sample.config ∧ quiet read.1 ∧
    (λ q, (q.1, Call_To q.2)) <$> reads read.1 =
      (λ e, (ChainSelector e, HexToAddress (VaultAddress e))) <$> Evms Sample.config ∧
    (∀ e, e ∈ Evms Sample.config → chain_state Sample.config s read.1 e).
Proof.
  apply (ReadSnapshot_faithful Sample.config host read.1 (Some snapshot) sample_config_valid).
  rewrite <-read_ok. apply surjective_pairing.
Defined.

Lemma ReadSnapshot_safe_witness :
  (run host [] (@ReadSnapshot _ unit Sample.config)).2 ≠ Crash ∧
  quiet (run host [] (@ReadSnapshot _ unit Sample.config)).1.
Proof. exact (ReadSnapshot_safe Sample.config host sample_config_valid host_is_ok). Defined.

Definition log : Log :=
  mkLog (HexToAddress (VaultAddress Sample.child_chain)) [] [].

Lemma MatchSource_spec_witness :
  MatchSource Sample.config (Some log) 2 2 = true ↔
  2 = 2 ∧ ∃ e, e ∈ Evms Sample.config ∧ ChainSelector e = 2 ∧
    Log_Address log = HexToAddress (VaultAddress e).
Proof. exact (MatchSource_spec Sample.config log 2 2 sample_config_valid). Defined.
End SampleState.
