(* ===== verification/Report.v ===== *)
(** * Reports ([cre/workflow/internal/onchain/report.go])

    The signed envelope, its submission through the DON, and the envelope
    checks of [WorkflowRouter.onReport], the contract that decodes it. *)

From S2P Require Import Prelude GoText BigInt Ethereum Runtime Config.

#[local] Open Scope Z_scope.

(** ** Big-endian integers *)
Fixpoint be_bytes (n : nat) (z : Z) : bytes :=
  match n with
  | O => []
  | S k => Zbyte (Z.shiftr z (8 * Z.of_nat k)) :: be_bytes k z
  end.

Definition be_value (l : bytes) : Z := fold_left (λ acc b, acc * 256 + byteZ b) l 0.

Lemma be_bytes_length n z : length (be_bytes n z) = n.
Proof. induction n; cbn; auto. Qed.

Lemma be_value_acc l acc :
  fold_left (λ acc b, acc * 256 + byteZ b) l acc = acc * 256 ^ Z.of_nat (length l) + be_value l.
Proof.
  unfold be_value. revert acc. induction l as [|b l IH]; intros acc; cbn [fold_left length].
  { cbn. lia. }
  rewrite IH, (IH (0 * 256 + _)), Nat2Z.inj_succ, Z.pow_succ_r by lia. lia.
Qed.

Lemma be_value_be_bytes n z : be_value (be_bytes n z) = z mod 256 ^ Z.of_nat n.
Proof.
  induction n as [|n IH]; [cbn; by rewrite Z.mod_1_r|].
  unfold be_value. cbn [be_bytes fold_left]. rewrite be_value_acc, IH, be_bytes_length, byteZ_Zbyte.
  rewrite Z.shiftr_div_pow2 by lia.
  replace (2 ^ (8 * Z.of_nat n)) with (256 ^ Z.of_nat n)
    by (rewrite Z.pow_mul_r by lia; reflexivity).
  rewrite Nat2Z.inj_succ, Z.pow_succ_r, (Z.mul_comm 256) by lia.
  rewrite Z.rem_mul_r by (try apply Z.pow_nonzero; lia). lia.
Qed.

(** [binary.BigEndian.PutUint64] and [big.Int.FillBytes]: the latter panics when
    the absolute value does not fit the buffer. *)
Definition PutUint64 (z : Z) : bytes := be_bytes 8 z.
Definition FillBytes (n : nat) (z : Z) : res bytes :=
  if BitLen z <=? 8 * Z.of_nat n then Ok (be_bytes n (Z.abs z)) else Crash.

(** [copy(dst[a:b], src)] *)
Definition copy_range (a b : nat) (src dst : bytes) : bytes :=
  let k := Nat.min (length src) (b - a) in
  take a dst ++ take k src ++ drop (a + k) dst.

(** ** The envelope *)
Definition MaxReportSize : Z := 5 * 1024.

Section Report.
Context `{GoEthereum}.

Definition EncodeReport (target : EvmConfig) (observedAt : Z) (calldata : bytes) : res bytes :=
  let router := WorkflowRouterAddress target in
  let n := length calldata in
  _ ← fail_if ((ChainSelector target =? 0) || negb (IsHexAddress router)
               || bool_decide (HexToAddress router = zeroAddress))
        (Errorf "invalid report destination" []);
  _ ← fail_if (observedAt <? 0) (Errorf "negative observation timestamp" []);
  _ ← fail_if ((Z.of_nat n <? 4) || (MaxReportSize <? Z.of_nat n + 60))
        (Errorf "invalid report calldata length" []);
  let payload := zeros (60 + n) in
  let payload := copy_range 0 8 (PutUint64 (ChainSelector target)) payload in
  let payload := copy_range 8 28 (HexToAddress router) payload in
  timestamp ← FillBytes 32 observedAt;
  let payload := copy_range 28 60 timestamp payload in
  Ok (copy_range 60 (60 + n) calldata payload).

(** ** Submission *)
Definition hex_digits : string := "0123456789abcdef".
Definition hex_byte (b : byte) : string :=
  String (default "0"%char (String.get (Z.to_nat (byteZ b / 16)) hex_digits))
    (String (default "0"%char (String.get (Z.to_nat (byteZ b mod 16)) hex_digits)) EmptyString).
Definition hex_string (l : bytes) : string :=
  String.append "0x" (String.concat EmptyString (map hex_byte l)).

Definition TxStatus_name (s : TxStatus) : string :=
  match s with TX_STATUS_SUCCESS => "TX_STATUS_SUCCESS" | TX_STATUS_OTHER n => n end.
Definition is_tx_success (s : TxStatus) : bool :=
  match s with TX_STATUS_SUCCESS => true | TX_STATUS_OTHER _ => false end.
Definition is_receiver_success (s : ReceiverStatus) : bool :=
  match s with RECEIVER_SUCCESS => true | RECEIVER_OTHER _ => false end.
Definition ReceiverStatus_name (s : ReceiverStatus) : string :=
  match s with
  | RECEIVER_SUCCESS => "RECEIVER_CONTRACT_EXECUTION_STATUS_SUCCESS"
  | RECEIVER_OTHER n => n
  end.

Section Submit.
Context {R : Type}.
Abbreviation M := (prog (cre_eff R)).

(** [Submitter] *)
Definition Submitter := EvmConfig → Z → bytes → M unit.

Definition report_request (payload : bytes) : ReportRequest :=
  mkReportRequest payload "evm" "ecdsa" "keccak256".
Definition write_request (target : EvmConfig) (report : Report) : WriteCreReportRequest :=
  mkWriteCreReportRequest (HexToAddress (WorkflowRouterAddress target)) (Some report)
    (Some (mkGasConfig (GasLimit target))).

(** The checks on the write's reply, in order. *)
Definition check_reply (resp : WriteReportReply) : res string :=
  let txHash := hex_string (Reply_TxHash resp) in
  let errorMessage := default "unknown error"%string (Reply_ErrorMessage resp) in
  _ ← fail_if (negb (is_tx_success (Reply_TxStatus resp)))
        (Errorf "tx not success: status=%s txHash=%s err=%s"
           [FStr (TxStatus_name (Reply_TxStatus resp)); FStr txHash; FStr errorMessage]);
  match Reply_ReceiverStatus resp with
  | None => Err (Errorf "contract execution status missing" [])
  | Some status =>
      _ ← fail_if (negb (is_receiver_success status))
            (Errorf "contract execution failed: status=%s txHash=%s err=%s"
               [FStr (ReceiverStatus_name status); FStr txHash; FStr errorMessage]);
      Ok txHash
  end.

(** [client] is the chain selector of the EVM client that writes; the age is
    an int64 subtraction. *)
Definition submitReport (client : Z) (target : EvmConfig) (observedAt : Z) (calldata : bytes)
    : M unit :=
  payload ← lift (EncodeReport target observedAt calldata);
  if (GasLimit target =? 0) || (MaxGasLimit <? GasLimit target)
  then Throw (Errorf "invalid report gas limit" [])
  else
    now ← act ENow;
    if (now <? observedAt) || (1800 <? int64 (now - observedAt))
    then Throw (Errorf "report observation outside 30-minute window" [])
    else
      report ← prog_wrap "generate report: %w" []
                 (await (EGenerateReport (report_request payload)));
      match report with
      | None => Throw (Errorf "generate report: nil report" [])
      | Some report =>
          resp ← prog_wrap "write report: %w" []
                   (await (EWriteReport client (write_request target report)));
          match resp with
          | None => Throw (Errorf "write report: nil response" [])
          | Some resp =>
              txHash ← lift (check_reply resp);
              act (ELog "CRE write succeeded"
                     [("txHash", LStr txHash); ("fee", LBytes (Reply_TransactionFee resp))]%string)
          end
      end.

Definition SubmitReport : Submitter :=
  λ target, submitReport (ChainSelector target) target.
End Submit.
End Report.

(** ** The layout of the envelope *)
Lemma copy_range_at pre mid post src a b :
  length pre = a → length mid = (b - a)%nat → length src = (b - a)%nat →
  copy_range a b src (pre ++ mid ++ post) = pre ++ src ++ post.
Proof.
  intros Ha Hm Hs. unfold copy_range. rewrite Hs, Nat.min_id, <-Hs.
  rewrite (take_ge src) by done. rewrite take_app_length' by done.
  rewrite drop_app, Ha. rewrite (drop_ge pre) by lia. cbn [app].
  replace (a + length src - a)%nat with (length mid) by lia.
  by rewrite drop_app_length.
Qed.

Lemma zeros_app n m : zeros (n + m) = zeros n ++ zeros m.
Proof. apply replicate_add. Qed.
Lemma zeros_length n : length (zeros n) = n.
Proof. apply length_replicate. Qed.

Lemma FillBytes_small n z :
  0 <= z < 256 ^ Z.of_nat n → FillBytes n z = Ok (be_bytes n z).
Proof.
  intros [Hz Hn]. unfold FillBytes. rewrite Z.abs_eq by done.
  assert (BitLen z <= 8 * Z.of_nat n) as ->%Z.leb_le; [|done].
  apply BitLen_le; [done|lia|]. rewrite Z.pow_mul_r by lia. done.
Qed.

Section ReportSpec.
Context `{HL : GoEthereumLaws}.

Definition ValidDestination (target : EvmConfig) : Prop :=
  ChainSelector target ≠ 0 ∧ IsHexAddress (WorkflowRouterAddress target) = true ∧
  HexToAddress (WorkflowRouterAddress target) ≠ zeroAddress.

Definition ValidCalldata (calldata : bytes) : Prop := 4 <= Z.of_nat (length calldata) <= 5060.

Definition envelope (target : EvmConfig) (observedAt : Z) (calldata : bytes) : bytes :=
  be_bytes 8 (ChainSelector target) ++ HexToAddress (WorkflowRouterAddress target)
  ++ be_bytes 32 observedAt ++ calldata.

(** Writing the four fields over a zeroed buffer concatenates them. *)
Lemma payload_layout target observedAt calldata (n := length calldata) :
  copy_range 60 (60 + n) calldata
    (copy_range 28 60 (be_bytes 32 observedAt)
      (copy_range 8 28 (HexToAddress (WorkflowRouterAddress target))
        (copy_range 0 8 (PutUint64 (ChainSelector target)) (zeros (60 + n)))))
  = envelope target observedAt calldata.
Proof.
  unfold envelope, PutUint64.
  change (60 + n)%nat with (8 + (20 + (32 + n)))%nat at 2. rewrite !zeros_app.
  pose proof (HexToAddress_length (WorkflowRouterAddress target)) as Hr.
  unfold AddressLength in Hr.
  change (zeros 8 ++ ?r) with ([] ++ zeros 8 ++ r).
  rewrite copy_range_at by (rewrite ?be_bytes_length, ?zeros_length; done). cbn [app].
  rewrite copy_range_at by (rewrite ?be_bytes_length, ?zeros_length; done).
  rewrite !(app_assoc _ _ (zeros 32 ++ _)).
  rewrite copy_range_at
    by (rewrite ?length_app, ?be_bytes_length, ?zeros_length, ?Hr; lia).
  rewrite !(app_assoc _ _ (zeros n)). rewrite <-(app_nil_r (_ ++ zeros n)), <-app_assoc.
  rewrite copy_range_at
    by (rewrite ?length_app, ?be_bytes_length, ?zeros_length, ?Hr; lia).
  by rewrite app_nil_r, <-!app_assoc.
Qed.

Lemma in_int64_256 z : in_int64 z → 0 <= z → 0 <= z < 256 ^ Z.of_nat 32.
Proof.
  unfold in_int64, MaxInt64. intros ? ?. split; [done|].
  assert (2 ^ 63 < 256 ^ Z.of_nat 32) by (by vm_compute). lia.
Qed.

Lemma EncodeReport_iff target observedAt calldata (HT : in_int64 observedAt) :
  (∀ payload, EncodeReport target observedAt calldata = Ok payload ↔
    ValidDestination target ∧ 0 <= observedAt ∧ ValidCalldata calldata ∧
    payload = envelope target observedAt calldata) ∧
  EncodeReport target observedAt calldata ≠ Crash.
Proof.
  unfold EncodeReport, ValidDestination, ValidCalldata, MaxReportSize.
  destruct (_ || _ || _) eqn:Hd; cbn [fail_if mbind res_bind].
  { split; [|done]. intros p. split; [done|]. intros ((H1&H2&H3)&_).
    rewrite !orb_true_iff, Z.eqb_eq, negb_true_iff, bool_decide_eq_true in Hd.
    destruct Hd as [[?|?]|?]; congruence. }
  rewrite !orb_false_iff, Z.eqb_neq, negb_false_iff, bool_decide_eq_false in Hd.
  destruct Hd as [[Hd1 Hd2] Hd3].
  destruct (Z.ltb_spec observedAt 0); cbn [fail_if mbind res_bind].
  { split; [|done]. intros p. split; [done|lia]. }
  destruct (_ || _) eqn:Hc; cbn [fail_if mbind res_bind].
  { split; [|done]. intros p. split; [done|]. intros (_&_&?&_).
    rewrite orb_true_iff, !Z.ltb_lt in Hc. lia. }
  rewrite orb_false_iff, !Z.ltb_ge in Hc.
  rewrite FillBytes_small by (by apply in_int64_256). cbn [mbind res_bind].
  rewrite payload_layout. split; [|done]. intros p. split.
  - intros [= <-]. split_and!; try done; lia.
  - intros (_&_&_&->). done.
Qed.

(** ** The contract that decodes the envelope

    [WorkflowRouter.onReport] ([evm/src/modules/WorkflowRouter.sol]): [Some call]
    is the calldata the router calls its vault with, [None] a revert before that
    call (a failing vault call reverts too, and changes nothing).  The checks of
    the report itself come first, for the router [this] of the chain
    [thisSelector] at time [timestamp]. *)
Definition openEnvelope (this : Address) (thisSelector timestamp : Z) (report : bytes)
    : option bytes :=
  if bool_decide (length report < 64)%nat then None
  else
    let targetChainSelector := be_value (take 8 report) in
    let targetRouter := take 20 (drop 8 report) in
    let observedAt := be_value (take 32 (drop 28 report)) in
    if negb (targetChainSelector =? thisSelector) || negb (bool_decide (targetRouter = this))
    then None
    else if timestamp <? observedAt then None
    else if 1800 <? timestamp - observedAt then None
    else Some (drop 60 report).

(** The state of the router, with its own address and the holders of
    [KEYSTONE_FORWARDER_ROLE]; [s_workflowMetadata] gives the owner and the name
    of a workflow ID, zeros when it is not registered. *)
Record Router := mkRouter {
  router_address : Address;
  i_thisChainSelector : Z;
  s_paused : bool;
  s_isForwarder : Address → bool;
  s_workflowMetadata : bytes → bytes * bytes;
  s_workflowGenerations : bytes → Z;
  s_workflowSelectors : bytes → Z → bytes → bool }.

(** [_decodeMetadata]: the workflow ID, name and owner. *)
Definition decodeMetadata (metadata : bytes) : option (bytes * bytes * bytes) :=
  if bool_decide (length metadata = 64%nat)
  then Some (take 32 metadata, take 10 (drop 32 metadata), take 20 (drop 42 metadata))
  else None.

Definition onReport (router : Router) (sender : Address) (timestamp : Z) (metadata report : bytes)
    : option bytes :=
  if s_paused router then None
  else if negb (s_isForwarder router sender) then None
  else
    match decodeMetadata metadata with
    | None => None
    | Some (id, name, owner) =>
        if bool_decide (id = zeros 32) || bool_decide (name = zeros 10)
           || bool_decide (owner = zeros 20) then None
        else if negb (bool_decide (s_workflowMetadata router id = (owner, name))) then None
        else
          match openEnvelope (router_address router) (i_thisChainSelector router) timestamp report with
          | None => None
          | Some vaultCall =>
              if s_workflowSelectors router id (s_workflowGenerations router id) (take 4 vaultCall)
              then Some vaultCall else None
          end
    end.

(** What the router requires of a delivery besides the report: it is not paused,
    the forwarder delivers, and the metadata is of a registered workflow that is
    allowed the function [selector]. *)
Definition admits (router : Router) (sender : Address) (metadata selector : bytes) : Prop :=
  s_paused router = false ∧ s_isForwarder router sender = true ∧ length metadata = 64%nat ∧
  let id := take 32 metadata in
  let name := take 10 (drop 32 metadata) in
  let owner := take 20 (drop 42 metadata) in
  id ≠ zeros 32 ∧ name ≠ zeros 10 ∧ owner ≠ zeros 20 ∧
  s_workflowMetadata router id = (owner, name) ∧
  s_workflowSelectors router id (s_workflowGenerations router id) selector = true.

Lemma onReport_Some router sender timestamp metadata report call :
  onReport router sender timestamp metadata report = Some call ↔
  openEnvelope (router_address router) (i_thisChainSelector router) timestamp report = Some call ∧
  admits router sender metadata (take 4 call).
Proof.
  unfold onReport, admits, decodeMetadata.
  destruct (s_paused router); [naive_solver|].
  destruct (s_isForwarder router sender); cbn [negb]; [|naive_solver].
  case_bool_decide; [|naive_solver].
  repeat (case_bool_decide; cbn [negb orb]; [naive_solver|]).
  case_bool_decide; cbn [negb]; [|naive_solver].
  destruct (openEnvelope _ _ _ _) as [c|]; [|naive_solver].
  destruct (s_workflowSelectors _ _ _ (take 4 c)) eqn:Hsel; split.
  - intros [= <-]. by split_and!.
  - by intros [[= <-] _].
  - done.
  - intros ([= <-] & _ & _ & _ & _ & _ & _ & _ & Hs). congruence.
Qed.

Lemma envelope_fields target observedAt calldata :
  take 8 (envelope target observedAt calldata) = be_bytes 8 (ChainSelector target) ∧
  take 20 (drop 8 (envelope target observedAt calldata))
    = HexToAddress (WorkflowRouterAddress target) ∧
  take 32 (drop 28 (envelope target observedAt calldata)) = be_bytes 32 observedAt ∧
  drop 60 (envelope target observedAt calldata) = calldata.
Proof.
  unfold envelope.
  pose proof (HexToAddress_length (WorkflowRouterAddress target)) as Hr.
  unfold AddressLength in Hr.
  split_and!.
  - by rewrite take_app_length' by apply be_bytes_length.
  - rewrite drop_app_length' by apply be_bytes_length. by rewrite take_app_length'.
  - rewrite (app_assoc (be_bytes 8 _)), drop_app_length'
      by (rewrite length_app, be_bytes_length, Hr; done).
    by rewrite take_app_length' by apply be_bytes_length.
  - rewrite (app_assoc (be_bytes 8 _)), (app_assoc (be_bytes 8 _ ++ _)), drop_app_length'; [done|].
    by rewrite !length_app, !be_bytes_length, Hr.
Qed.

Lemma EncodeReport_forwarded target observedAt calldata payload this thisSelector timestamp
    (HT : in_int64 observedAt) (HS : in_uint64 (ChainSelector target))
    (HE : EncodeReport target observedAt calldata = Ok payload) call :
  openEnvelope this thisSelector timestamp payload = Some call ↔
  thisSelector = ChainSelector target ∧
  this = HexToAddress (WorkflowRouterAddress target) ∧
  observedAt <= timestamp <= observedAt + 1800 ∧ call = calldata.
Proof.
  pose proof (proj1 (EncodeReport_iff target observedAt calldata HT)) as Hspec.
  apply Hspec in HE as (_ & Hpos & Hlen & ->). clear Hspec.
  destruct (envelope_fields target observedAt calldata) as (E1 & E2 & E3 & E4).
  unfold openEnvelope. rewrite E1, E2, E3, E4, !be_value_be_bytes.
  rewrite (Z.mod_small observedAt) by (by apply in_int64_256).
  rewrite (Z.mod_small (ChainSelector target)) by (unfold in_uint64 in HS; exact HS).
  assert (bool_decide (length (envelope target observedAt calldata) < 64)%nat = false) as ->.
  { apply bool_decide_eq_false. unfold envelope.
    rewrite !length_app, !be_bytes_length, HexToAddress_length.
    unfold ValidCalldata, AddressLength in *. lia. }
  destruct (Z.eqb_spec (ChainSelector target) thisSelector); cbn [negb orb];
    [|split; [done|naive_solver]].
  case_bool_decide; cbn [negb]; [|split; [done|naive_solver]].
  destruct (Z.ltb_spec timestamp observedAt); [split; [done|lia]|].
  destruct (Z.ltb_spec 1800 (timestamp - observedAt)); [split; [done|lia]|].
  split; [intros [= <-]; split_and!; (done || lia)|by intros (_&_&_&->)].
Qed.

(** C24: a report encoded for a chain makes a router call its vault exactly when
    it is that chain's router, within the 30 minutes after the observation, and
    the router admits the delivery: it is not paused, the sender is the
    forwarder, and the metadata is of a registered workflow whose allowlist has
    the selector of the encoded calldata; and the vault is then called with
    exactly that calldata. *)
Theorem EncodeReport_onReport target observedAt calldata payload router sender timestamp metadata
    (HT : in_int64 observedAt) (HS : in_uint64 (ChainSelector target))
    (HE : EncodeReport target observedAt calldata = Ok payload) call :
  onReport router sender timestamp metadata payload = Some call ↔
  call = calldata ∧
  i_thisChainSelector router = ChainSelector target ∧
  router_address router = HexToAddress (WorkflowRouterAddress target) ∧
  observedAt <= timestamp <= observedAt + 1800 ∧
  admits router sender metadata (take 4 calldata).
Proof.
  rewrite onReport_Some, (EncodeReport_forwarded _ _ _ _ _ _ _ HT HS HE). naive_solver.
Qed.
End ReportSpec.

(** ** Submissions *)

(** A delivery is a report write with the host's reply. *)
Record delivery := mkDelivery {
  d_chain : Z; d_request : WriteCreReportRequest; d_reply : reply (option WriteReportReply) }.

Definition step_delivery {R} (s : step (cre_eff R)) : option delivery :=
  match s with
  | Step X c x =>
      match c in cre_eff _ X return X → option delivery with
      | EWriteReport chain r => λ a, Some (mkDelivery chain r a)
      | _ => λ _, None
      end x
  end.
Definition deliveries {R} (t : list (step (cre_eff R))) : list delivery := omap step_delivery t.

Definition confirmed (d : delivery) : Prop :=
  ∃ resp, d_reply d = Reply (Some resp) ∧ Reply_TxStatus resp = TX_STATUS_SUCCESS ∧
    Reply_ReceiverStatus resp = Some RECEIVER_SUCCESS.

Lemma deliveries_writes {R} (t : list (step (cre_eff R))) :
  (λ d, (d_chain d, d_request d)) <$> deliveries t = writes t.
Proof.
  unfold deliveries, writes. induction t as [|[X c x] t IH]; [done|].
  destruct c; cbn; rewrite <-?IH; done.
Qed.

Lemma check_reply_spec resp :
  (∃ txHash, check_reply resp = Ok txHash) ↔
  Reply_TxStatus resp = TX_STATUS_SUCCESS ∧ Reply_ReceiverStatus resp = Some RECEIVER_SUCCESS.
Proof.
  unfold check_reply.
  destruct (Reply_TxStatus resp), (Reply_ReceiverStatus resp) as [[]|]; cbn; naive_solver.
Qed.
Lemma check_reply_no_crash resp : check_reply resp ≠ Crash.
Proof.
  unfold check_reply, fail_if. by repeat (case_match; cbn).
Qed.

(** A step in which the host did its part of a submission observed at
    [observedAt]: the clock is inside the window, the report was signed, and
    the write was accepted. *)
Definition responsive {R} (observedAt : Z) (s : step (cre_eff R)) : Prop :=
  match s with
  | Step X c x =>
      match c in cre_eff _ X return X → Prop with
      | ENow => λ now, observedAt <= now <= observedAt + 1800
      | EGenerateReport _ => λ r, ∃ report, r = Reply (Some report)
      | EWriteReport _ _ => λ r, ∃ resp, r = Reply (Some resp) ∧
          Reply_TxStatus resp = TX_STATUS_SUCCESS ∧
          Reply_ReceiverStatus resp = Some RECEIVER_SUCCESS
      | _ => λ _, True
      end x
  end.

Section SubmitSpec.
Context `{HL : GoEthereumLaws} {R : Type}.
Abbreviation trace := (list (step (cre_eff R))).

(** The submission is within the static limits. *)
Definition submittable (target : EvmConfig) (observedAt : Z) (calldata : bytes) : Prop :=
  0 < GasLimit target <= MaxGasLimit ∧ ∃ payload, EncodeReport target observedAt calldata = Ok payload.

(** What one call of a submitter may do to the trace: nothing, or sign and
    write exactly the report of this calldata for this target, within the gas
    quota and the observation window; and [nil] is returned exactly when that
    write was confirmed. *)
Record Submission (target : EvmConfig) (observedAt : Z) (calldata : bytes)
    (t : trace) (r : res unit) : Prop := {
  sub_payload : ∀ q, q ∈ reports t →
    ∃ payload, EncodeReport target observedAt calldata = Ok payload ∧ q = report_request payload;
  sub_writes : writes t = [] ∨
    (0 < GasLimit target <= MaxGasLimit ∧
     (∃ now t', t = Step _ ENow now :: t' ∧ observedAt <= now <= observedAt + 1800) ∧
     ∃ payload report, reports t = [report_request payload] ∧
       writes t = [(ChainSelector target, write_request target report)]);
  sub_result : r = Ok tt ↔ ∃ d, deliveries t = [d] ∧ confirmed d;
  sub_no_crash : r ≠ Crash;
  sub_live : submittable target observedAt calldata → Forall (responsive observedAt) t → r = Ok tt }.

Lemma Submission_idle target observedAt calldata t e :
  writes t = [] →
  (∀ q, q ∈ reports t → ∃ payload,
     EncodeReport target observedAt calldata = Ok payload ∧ q = report_request payload) →
  ¬ (submittable target observedAt calldata ∧ Forall (responsive observedAt) t) →
  Submission target observedAt calldata t (Err e).
Proof.
  intros Hw Hr Hdead. split; [done|by left| |done|by intros ? ?; destruct Hdead].
  split; [done|]. intros (d & Hd & _).
  pose proof (deliveries_writes t) as Heq. by rewrite Hd, Hw in Heq.
Qed.

Lemma Submission_written target observedAt calldata payload now report resp more r :
  EncodeReport target observedAt calldata = Ok payload →
  0 < GasLimit target <= MaxGasLimit → observedAt <= now <= observedAt + 1800 →
  more = [] ∨ (∃ m a u, more = [Step _ (ELog m a) u]) →
  (r = Ok tt ↔ confirmed (mkDelivery (ChainSelector target) (write_request target report) resp)) →
  r ≠ Crash →
  Submission target observedAt calldata
    (Step _ ENow now :: Step _ (EGenerateReport (report_request payload)) (Reply (Some report)) ::
     Step _ (EWriteReport (ChainSelector target) (write_request target report)) resp :: more) r.
Proof.
  intros HE Hg Hnow Hmore Hiff Hcr.
  assert (writes more = [] ∧ reports more = [] ∧ deliveries more = []) as (Hw & Hr & Hd).
  { by destruct Hmore as [->|(?&?&?&->)]. }
  split; [| | |done|].
  - cbn. fold (reports more). rewrite Hr. intros q ->%list_elem_of_singleton. eauto.
  - right. split; [done|]. split; [eauto|]. exists payload, report. cbn.
    fold (reports more) (writes more). by rewrite Hr, Hw.
  - cbn. fold (deliveries more). rewrite Hd, Hiff.
    split; [eauto|]. by intros (d & [= <-] & ?).
  - intros _. rewrite !Forall_cons. intros (_ & _ & (a & -> & ? & ?) & _). apply Hiff. by exists a.
Qed.

(** The age is computed without wrapping inside the window. *)
Lemma age_exact now observedAt :
  in_int64 now → 0 <= observedAt <= now → int64 (now - observedAt) = now - observedAt.
Proof. intros ? ?. apply int64_id. unfold in_int64, MaxInt64 in *. lia. Qed.

Lemma SubmitReport_seg h target observedAt calldata
    (HT : in_int64 observedAt) (HG : in_uint64 (GasLimit target)) :
  wp_seg typed_host h (@SubmitReport _ R target observedAt calldata)
    (Submission target observedAt calldata).
Proof.
  unfold SubmitReport, submitReport.
  destruct (EncodeReport_iff target observedAt calldata HT) as [Hspec Hnc].
  eapply (wp_seg_bind _ _ _ _ (λ t r, t = [] ∧ r = EncodeReport target observedAt calldata));
    [by apply wp_seg_ret|..].
  2:{ intros t e [-> He]. apply Submission_idle; [done| |].
      - intros q Hq. by apply elem_of_nil in Hq.
      - intros [(_ & payload & ?) _]. congruence. }
  2:{ intros t [_ ?]. by destruct Hnc. }
  intros t payload [-> HE]. symmetry in HE. rewrite app_nil_r. cbn [app].
  destruct (_ || _) eqn:Hgas.
  { apply (wp_seg_ret _ _ (Err _)). apply Submission_idle; [done| |].
    - intros q Hq. by apply elem_of_nil in Hq.
    - intros [[Hg _] _]. rewrite orb_true_iff, Z.eqb_eq, Z.ltb_lt in Hgas. lia. }
  rewrite orb_false_iff, Z.eqb_neq, Z.ltb_ge in Hgas.
  intros now Hnow. cbn [mbind prog_bind prog_bind_def].
  destruct (_ || _) eqn:Hwin.
  { exists [Step _ ENow now]. split; [done|]. apply Submission_idle; [done| |].
    - intros q Hq. by apply elem_of_nil in Hq.
    - intros [_ Hlive]. rewrite Forall_cons in Hlive. destruct Hlive as [Hlive _]. cbn in Hlive.
      assert (0 <= observedAt) by (by apply Hspec in HE as (_ & ? & _)).
      rewrite age_exact in Hwin by (done || lia).
      rewrite orb_true_iff, !Z.ltb_lt in Hwin. lia. }
  rewrite orb_false_iff, !Z.ltb_ge in Hwin.
  assert (0 <= observedAt) by (by apply Hspec in HE as (_ & ? & _)).
  rewrite age_exact in Hwin by (done || lia).
  unfold in_uint64 in HG. cbn. intros [[report|]|e] _; cbn.
  2,3: eexists; (split; [by rewrite <-app_assoc|]); apply Submission_idle; [done| |];
    [intros q ->%list_elem_of_singleton; eauto|];
    intros [_ Hlive]; cbn [app] in Hlive; rewrite ?Forall_cons in Hlive;
    destruct Hlive as (_ & [? ?] & _); done.
  intros [[resp|]|e] _; cbn.
  2,3: eexists; (split; [by rewrite <-!app_assoc|]); apply Submission_written; try (done || lia);
    [by left|split; [done|]; by intros (? & [=] & _)].
  pose proof (check_reply_no_crash resp). pose proof (check_reply_spec resp) as Hck.
  destruct (check_reply resp) as [txHash|e|]; cbn; [| |done].
  - intros [] _. eexists. split; [by rewrite <-!app_assoc|].
    apply Submission_written; try (done || lia); [right; eauto|]. split; [|done].
    intros _. destruct (proj1 Hck) as [??]; [eauto|]. exists resp. eauto.
  - eexists. split; [by rewrite <-!app_assoc|].
    apply Submission_written; try (done || lia); [by left|]. split; [done|].
    intros (? & [= <-] & Hok). by apply Hck in Hok as [??].
Qed.
End SubmitSpec.

(** ** The interface of a submitter

    What the handlers rely on; [SubmitReport] implements it. *)
Class SubmitterLaws `{GoEthereum} {R} (submit : @Submitter R) : Prop :=
  submit_ok h target observedAt calldata :
    in_int64 observedAt → in_uint64 (GasLimit target) →
    wp_seg typed_host h (submit target observedAt calldata)
      (Submission target observedAt calldata).

#[export] Instance SubmitReport_laws `{HL : GoEthereumLaws} {R} :
  SubmitterLaws (@SubmitReport _ R).
Proof. intros ????. apply SubmitReport_seg. Qed.

(** ** The decision of a handler

    [decided plan observedAt what]: either the handler has a plan and has
    handed exactly that calldata to exactly that target, succeeding iff the
    submission was confirmed; or it has none, and it has neither signed nor
    written anything, and returned a no-op or an error. *)
Section Decisions.
Context `{HL : GoEthereumLaws} {R : Type}.
Abbreviation trace := (list (step (cre_eff R))).

Definition Submitted (target : EvmConfig) (observedAt : Z) (calldata : bytes) (what : string)
    (t : trace) (r : res ExecutionResult) : Prop :=
  ∃ t0 t1 r1 t2, t = t0 ++ t1 ++ t2 ∧ quiet t0 ∧ deliveries t0 = [] ∧
    Submission target observedAt calldata t1 r1 ∧
    quiet t2 ∧ deliveries t2 = [] ∧
    (r1 = Ok tt → r = Ok (mkExecutionResult what)) ∧
    (r1 ≠ Ok tt → ∃ e, r = Err e).

Definition idle (t : trace) (r : res ExecutionResult) : Prop :=
  quiet t ∧ r ≠ Crash ∧ ∀ x, r = Ok x → is_noop x.

Definition decided (plan : EvmConfig → bytes → Prop) (observedAt : Z) (what : string)
    (t : trace) (r : res ExecutionResult) : Prop :=
  (∃ target calldata, plan target calldata ∧ Submitted target observedAt calldata what t r) ∨
  ((∀ target calldata, ¬ plan target calldata) ∧ idle t r).

Lemma decided_noop adm h plan observedAt what reason args :
  (∀ target calldata, ¬ plan target calldata) →
  wp_seg adm h (Noop reason args) (decided plan observedAt what).
Proof.
  intros Hno. apply Noop_seg. intros t r Hq Hr. right. split; [done|].
  split; [done|]. split; [done|]. by intros x [= <-].
Qed.

Lemma decided_err plan observedAt what e :
  (∀ target calldata, ¬ plan target calldata) → decided plan observedAt what [] (Err e).
Proof. intros Hno. by right. Qed.

(** The last lines of every handler. *)
Lemma decided_submit (submit : Submitter) `{!SubmitterLaws submit} h
    (plan : EvmConfig → bytes → Prop) target observedAt calldata what fmt msg attrs :
  plan target calldata → in_int64 observedAt → in_uint64 (GasLimit target) →
  wp_seg typed_host h
    (_ ← prog_wrap fmt [] (submit target observedAt calldata);
     _ ← act (ELog msg attrs);
     Ret (mkExecutionResult what))
    (decided plan observedAt what).
Proof.
  intros Hplan Hobs Hgas.
  eapply (wp_seg_bind _ _ _ _ (λ t r, ∃ r1, r = wrap fmt [] r1 ∧
    Submission target observedAt calldata t r1)).
  - apply wp_seg_wrap. eapply wp_seg_mono; [|by apply submit_ok]. eauto.
  - intros t [] (r1 & Hr & Hsub) u _. exists [Step _ (ELog msg attrs) u]. split; [done|].
    left. exists target, calldata. split; [done|].
    exists [], t, r1, [Step _ (ELog msg attrs) u]. split_and!; try done.
    symmetry in Hr. apply wrap_Ok in Hr. by intros [].
  - intros t e (r1 & Hr & Hsub). left. exists target, calldata. split; [done|].
    exists [], t, r1, []. rewrite app_nil_r. split_and!; try done; [by intros ->|eauto].
  - intros t (r1 & Hr & Hsub). destruct (sub_no_crash _ _ _ _ _ Hsub).
    symmetry in Hr. by apply wrap_crash in Hr.
Qed.

(** What follows for the trace, whatever the plan. *)
Lemma Submitted_deliveries target observedAt calldata what t r :
  Submitted target observedAt calldata what t r →
  (r = Ok (mkExecutionResult what) ↔ ∃ d, deliveries t = [d] ∧ confirmed d) ∧
  (length (writes t) ≤ 1)%nat ∧
  (∀ w, w ∈ writes t → w.1 = ChainSelector target ∧
     Receiver w.2 = HexToAddress (WorkflowRouterAddress target)) ∧
  (∀ q, q ∈ reports t → ∃ payload,
     EncodeReport target observedAt calldata = Ok payload ∧ q = report_request payload) ∧
  r ≠ Crash.
Proof.
  intros (t0 & t1 & r1 & t2 & -> & [Hw0 Hr0] & Hd0 & [Hp Hw Hres Hnc] & [Hw2 Hr2] & Hd2 & Hok & Herr).
  rewrite !writes_app, !reports_app, Hw0, Hr0, Hw2, Hr2, !app_nil_r. cbn [app].
  unfold deliveries in *. rewrite !omap_app, Hd0, Hd2, app_nil_r. cbn [app].
  split_and!.
  - rewrite <-Hres. split; [|done]. intros Hr. destruct r1 as [[]|e|]; [done| |done].
    destruct Herr as [? ->]; [done|done].
  - destruct Hw as [->|(_&_&?&?&_&->)]; cbn; lia.
  - intros w. destruct Hw as [->|(_&_&?&?&_&->)].
    + by intros ?%elem_of_nil.
    + intros ->%list_elem_of_singleton. done.
  - done.
  - destruct r1 as [[]|e|]; [by rewrite Hok| |done]. by destruct Herr as [? ->].
Qed.

(** Progress: a planned submission within the static limits goes through when
    the host does its part. *)
Lemma decided_live plan observedAt what t r target calldata :
  decided plan observedAt what t r → plan target calldata →
  (∀ tgt cd, plan tgt cd → submittable tgt observedAt cd) → Forall (responsive observedAt) t →
  r = Ok (mkExecutionResult what) ∧
  ∃ tgt cd d, plan tgt cd ∧ deliveries t = [d] ∧ confirmed d ∧ d_chain d = ChainSelector tgt ∧
    Receiver (d_request d) = HexToAddress (WorkflowRouterAddress tgt).
Proof.
  intros [(tgt & cd & Hplan & Hsub)|[Hno _]] Hp Hs Hlive; [|by destruct (Hno target calldata)].
  pose proof (Submitted_deliveries _ _ _ _ _ _ Hsub) as (Hiff & _ & Hw & _ & _).
  assert (r = Ok (mkExecutionResult what)) as Hr.
  { destruct Hsub as (t0 & t1 & r1 & t2 & -> & _ & _ & Hs1 & _ & _ & Hok & _).
    rewrite !Forall_app in Hlive. apply Hok, (sub_live _ _ _ _ _ Hs1); [by apply Hs|apply Hlive]. }
  split; [done|]. apply Hiff in Hr as (d & Hd & Hc). exists tgt, cd, d.
  pose proof (deliveries_writes t) as Hdw. rewrite Hd in Hdw.
  destruct (Hw (d_chain d, d_request d)) as [? ?]; [|by split_and!].
  rewrite <-Hdw. left.
Qed.
End Decisions.

(** ** A quiet prefix *)
Lemma quiet_deliveries {R} (t : list (step (cre_eff R))) : quiet t → deliveries t = [].
Proof.
  intros [Hw _]. pose proof (deliveries_writes t) as Hd. rewrite Hw in Hd.
  by destruct (deliveries t).
Qed.

Lemma Submitted_prefix `{GoEthereum} {R} target observedAt calldata what
    (t1 t2 : list (step (cre_eff R))) r :
  quiet t1 → Submitted target observedAt calldata what t2 r →
  Submitted target observedAt calldata what (t1 ++ t2) r.
Proof.
  intros Hq (t0 & t & r1 & t3 & -> & Hq0 & Hd0 & Hrest).
  exists (t1 ++ t0), t, r1, t3. rewrite <-!app_assoc. split; [done|].
  split; [by apply quiet_app|]. split; [|done].
  unfold deliveries in *. rewrite omap_app, Hd0, app_nil_r. by apply quiet_deliveries.
Qed.

(** ** Automation for the handlers' proofs *)
Lemma wrap_Err {A} f args (m : res A) e : wrap f args m = Err e → ∀ a, m ≠ Ok a.
Proof. by destruct m. Qed.

Ltac destruct_plan H :=
  repeat match type of H with
  | ex _ => let x := fresh "x" in destruct H as [x H]
  | _ ∧ _ => let P := fresh "P" in destruct H as [P H]
  end.
Ltac unify_results :=
  repeat match goal with
  | H1 : ?x = Ok ?a, H2 : ?x = Ok ?b |- _ =>
      let E := fresh in assert (E : Ok a = Ok b) by (by rewrite <-H1, <-H2);
      clear H2; injection E; intros; subst
  end.
(** A guard that failed contradicts the plan that contains it. *)
Ltac refute_plan unfold_plan unfold_parts :=
  let H := fresh "Hplan" in
  intros ? ? H; unfold_plan H; destruct_plan H;
  unify_results;
  try match goal with H : ¬ ?P, H' : ?P |- _ => destruct (H H') end;
  unfold_parts; destruct_and?; simplify_eq;
  repeat match goal with
  | H : wrap _ _ _ = _ |- _ => progress (cbn [wrap] in H)
  end;
  first [congruence | lia].

(** One pure call of a handler: it does not panic, its error ends the handler,
    its result continues. *)
Ltac seg_bind :=
  apply wp_seg_lift_bind;
  [ try (rewrite wrap_crash)
  | let e := fresh "e" in let He := fresh "He" in intros e He; apply decided_err
  | let a := fresh "a" in let Ha := fresh "Ha" in intros a Ha; try apply wrap_Ok in Ha ].

(** ** Properties *)
Section ReportProperties.
Context `{HL : GoEthereumLaws} {R : Type}.

(** [EncodeReport] succeeds exactly for a non-zero destination, a
    non-negative observation time and calldata of 4 to 5060 bytes, and then the
    payload is the 60-byte envelope (selector, router, timestamp, all
    big-endian) followed by the calldata; it never panics. *)
Theorem EncodeReport_spec target observedAt calldata (HT : in_int64 observedAt) :
  (∀ payload, EncodeReport target observedAt calldata = Ok payload ↔
    ValidDestination target ∧ 0 <= observedAt ∧ ValidCalldata calldata ∧
    payload = envelope target observedAt calldata) ∧
  EncodeReport target observedAt calldata ≠ Crash.
Proof. by apply EncodeReport_iff. Qed.

End ReportProperties.

(** ** Concrete reports *)
Module SampleReport.
#[local] Existing Instance ToyEthereum.ethereum.
#[local] Existing Instance ToyEthereum.ethereum_laws.

Definition calldata : bytes := to_bytes "calldata".
Definition payload : bytes := envelope Sample.child_chain 1000 calldata.

Lemma EncodeReport_spec_witness :
  (∀ p, EncodeReport Sample.child_chain 1000 calldata = Ok p ↔
    ValidDestination Sample.child_chain ∧ 0 <= 1000 ∧ ValidCalldata calldata ∧
    p = envelope Sample.child_chain 1000 calldata) ∧
  EncodeReport Sample.child_chain 1000 calldata ≠ Crash.
Proof.
  apply (EncodeReport_spec Sample.child_chain 1000 calldata).
  vm_compute. split; discriminate.
Defined.

(** The router of the child chain, with one workflow that may call one function. *)
Definition metadata : bytes := replicate 62 (Zbyte 1) ++ zeros 2.
Definition router : Router :=
  mkRouter (HexToAddress (WorkflowRouterAddress Sample.child_chain)) 2 false
    (λ sender, bool_decide (sender = zeros 20)) (λ _, (replicate 20 (Zbyte 1), replicate 10 (Zbyte 1)))
    (λ _, 1) (λ _ generation selector,
      (generation =? 1) && bool_decide (selector = to_bytes "call")).

Example forwarded_call : onReport router (zeros 20) 2800 metadata payload = Some calldata.
Proof. vm_compute. reflexivity. Qed.
Example expired_report : onReport router (zeros 20) 2801 metadata payload = None.
Proof. vm_compute. reflexivity. Qed.
Example unregistered_workflow : onReport router (zeros 20) 2800 (replicate 64 (Zbyte 2)) payload = None.
Proof. vm_compute. reflexivity. Qed.
Example other_selector : onReport router (zeros 20) 2800 metadata
    (envelope Sample.child_chain 1000 (to_bytes "withdraw")) = None.
Proof. vm_compute. reflexivity. Qed.

Lemma EncodeReport_onReport_witness :
  onReport router (zeros 20) 2800 metadata payload = Some calldata ∧
  (onReport router (zeros 20) 2800 metadata payload = Some calldata ↔
   calldata = calldata ∧ i_thisChainSelector router = ChainSelector Sample.child_chain ∧
   router_address router = HexToAddress (WorkflowRouterAddress Sample.child_chain) ∧
   1000 <= 2800 <= 1000 + 1800 ∧ admits router (zeros 20) metadata (take 4 calldata)).
Proof.
  split; [vm_compute; reflexivity|].
  apply (EncodeReport_onReport Sample.child_chain 1000 calldata payload router (zeros 20) 2800 metadata).
  - vm_compute. split; discriminate.
  - vm_compute. split; [discriminate|reflexivity].
  - vm_compute. reflexivity.
Defined.

(** A host that confirms every write. *)
Definition host : oracle (cre_eff unit) := λ _ X c,
  match c in cre_eff _ X return X with
  | ENow => 1500
  | ELog _ _ => tt
  | EGenerateReport _ => Reply (Some (mkReport 1))
  | EWriteReport _ _ => Reply (Some
      (mkWriteReportReply TX_STATUS_SUCCESS (Some RECEIVER_SUCCESS) [] None None))
  | ECallContract _ _ => Reply None
  | EGetSecret _ => Reply None
  | ESendRequest _ => Reply tt
  end.

Example submitted : (run host [] (SubmitReport Sample.child_chain 1000 calldata)).2 = Ok tt.
Proof. vm_compute. reflexivity. Qed.

End SampleReport.
