(* ===== verification/Accounting.v ===== *)
(** * Epoch accounting ([cre/workflow/internal/epoch/accounting.go])

    The preflight of [closeEpoch] and [completeEpochDeposit].  Inputs are
    [*big.Int] pointers, results are fresh integers; the second half of the
    file models the functions on a store of mutable integers, where the code
    updates integers in place, and shows that the inputs are never mutated. *)

From S2P Require Import Prelude BigInt ParentVault.

#[local] Open Scope Z_scope.

(** ** The functions on values *)
Definition sharePrecision : Z := 10 ^ 18.

Record epochAccounting := mkEpochAccounting {
  TotalWithdraw : Z; NewShares : Z; NetFlow : Z; TotalShares : Z }.

(** [result := new(big.Int).Mul(x, y); result.Quo(result, denominator)]: [Quo]
    truncates and panics on zero, which the first check excludes. *)
Definition mulDivDown (x y denominator : Z) : res Z :=
  _ ← fail_if (Z.sgn denominator =? 0) (Errorf "division by zero" []);
  let result := x * y in
  let result := Z.quot result denominator in
  _ ← fail_if (negb (Uint256 (Some result))) (Errorf "mulDiv result overflows uint256" []);
  Ok result.

Definition invalid_input : error := Errorf "invalid epoch accounting input" [].

Definition calculateEpochClose (epoch : parent_vault.TypesEpoch) (totalShares tvl : bigint)
    (assetDecimals : Z) (isLocal : bool) : res epochAccounting :=
  let deposit := parent_vault.TotalDepositAmount epoch in
  let burn := parent_vault.TotalShareBurnAmount epoch in
  _ ← fail_if (negb (Uint256 deposit) || negb (Uint256 burn) || negb (Uint256 totalShares)
               || negb (Uint256 tvl) || (77 <? assetDecimals)) invalid_input;
  deposit ← deref deposit; burn ← deref burn; totalShares ← deref totalShares; tvl ← deref tvl;
  _ ← fail_if ((Z.sgn deposit =? 0) && (Z.sgn burn =? 0)) (Errorf "no epoch activity" []);
  let assetPrecision := 10 ^ assetDecimals in
  amounts ←
    (if negb (Z.sgn totalShares =? 0) then
       _ ← fail_if (Z.sgn tvl =? 0) (Errorf "zero TVL with outstanding shares" []);
       price ← mulDivDown tvl sharePrecision totalShares;
       _ ← fail_if (Z.sgn price =? 0) (Errorf "zero price per share" []);
       totalWithdraw ← mulDivDown burn tvl totalShares;
       newShares ← mulDivDown deposit totalShares tvl;
       Ok (totalWithdraw, newShares)
     else
       _ ← fail_if (negb (Z.sgn burn =? 0)) (Errorf "share burn with zero total shares" []);
       newShares ← mulDivDown deposit sharePrecision assetPrecision;
       Ok (0, newShares));
  let '(totalWithdraw, newShares) := amounts in
  _ ← fail_if ((255 <? BitLen deposit) || (255 <? BitLen totalWithdraw))
        (Errorf "epoch net flow exceeds int256" []);
  let netFlow := deposit - totalWithdraw in
  _ ← (if negb (Z.sgn deposit =? 0) then
         let minimumDepositShares := newShares * assetPrecision in
         _ ← fail_if (negb (Uint256 (Some minimumDepositShares)))
               (Errorf "minimum deposit share calculation overflows" []);
         fail_if (cmp minimumDepositShares deposit <? 0) (Errorf "deposit would mint zero shares" [])
       else Ok tt);
  _ ← (if negb isLocal && (Z.sgn netFlow <? 0) then
         let withdraw := - netFlow in
         fail_if (cmp withdraw assetPrecision <? 0)
           (Errorf "remote withdrawal below minimum asset amount" [])
       else Ok tt);
  let total := totalShares + newShares in
  _ ← fail_if (negb (Uint256 (Some total))) (Errorf "total shares overflow" []);
  let total := total - burn in
  _ ← fail_if (Z.sgn total <? 0) (Errorf "total shares underflow" []);
  Ok (mkEpochAccounting totalWithdraw newShares netFlow total).

Definition reconcileEpochDeposit (epoch : parent_vault.TypesEpoch)
    (totalShares actualAmount : bigint) : res Z :=
  _ ← fail_if (negb (forallb Uint256
        [parent_vault.TotalDepositAmount epoch; parent_vault.TotalWithdrawClaimAmount epoch;
         parent_vault.RemainingShareMintAmount epoch; totalShares; actualAmount]))
        (Errorf "invalid deposit reconciliation input" []);
  deposit ← deref (parent_vault.TotalDepositAmount epoch);
  withdraw ← deref (parent_vault.TotalWithdrawClaimAmount epoch);
  mint ← deref (parent_vault.RemainingShareMintAmount epoch);
  totalShares ← deref totalShares; actual ← deref actualAmount;
  let expected := deposit - withdraw in
  _ ← fail_if (Z.sgn expected <=? 0) (Errorf "epoch is not a net deposit" []);
  _ ← fail_if ((Z.sgn actual =? 0) || (0 <? cmp actual expected))
        (Errorf "invalid actual deposit amount" []);
  if cmp actual expected =? 0 then Ok mint
  else
    let shortfall := expected - actual in
    let effectiveDeposit := deposit - shortfall in
    let adjusted := mint * effectiveDeposit in
    adjusted ← (if deposit =? 0 then Crash else Ok (Z.quot adjusted deposit));
    _ ← fail_if (Z.sgn adjusted =? 0) (Errorf "deposit would mint zero shares" []);
    let reduction := mint - adjusted in
    _ ← fail_if (0 <? cmp reduction totalShares)
          (Errorf "deposit reconciliation underflows total shares" []);
    Ok adjusted.

(** ** Functional lemmas *)
Lemma sgn_eqb_0 z : (Z.sgn z =? 0) = (z =? 0).
Proof. by destruct z. Qed.

Lemma uint256_mul_nonneg a b : is_uint256 a → is_uint256 b → 0 <= a * b.
Proof. unfold is_uint256. nia. Qed.

Lemma mulDivDown_spec x y d :
  0 <= x * y → 0 <= d →
  mulDivDown x y d =
    if d =? 0 then Err (Errorf "division by zero" [])
    else if bool_decide (x * y / d < 2 ^ 256) then Ok (x * y / d)
    else Err (Errorf "mulDiv result overflows uint256" []).
Proof.
  intros Hxy Hd. unfold mulDivDown. rewrite sgn_eqb_0.
  destruct (Z.eqb_spec d 0); cbn [fail_if mbind res_bind]; [done|].
  rewrite Z.quot_div_nonneg by lia. rewrite Uint256_Some.
  assert (0 <= x * y / d) by (apply Z.div_pos; lia).
  rewrite (bool_decide_ext _ (x * y / d < 2 ^ 256)) by (unfold is_uint256; lia).
  by case_bool_decide.
Qed.

Lemma mulDivDown_no_crash x y d : mulDivDown x y d ≠ Crash.
Proof. unfold mulDivDown. no_crash. Qed.
#[export] Hint Resolve mulDivDown_no_crash : yieldv2.

Lemma Uint256_negb_false v : negb (Uint256 v) = false → ∃ z, v = Some z ∧ is_uint256 z.
Proof. intros ?%negb_false_iff. by apply Uint256_spec. Qed.

Lemma calculateEpochClose_no_crash epoch totalShares tvl d isLocal :
  calculateEpochClose epoch totalShares tvl d isLocal ≠ Crash.
Proof.
  unfold calculateEpochClose. apply bind_no_crash; [apply fail_if_no_crash|].
  intros u Hg%fail_if_Ok. rewrite !orb_false_iff in Hg. destruct Hg as [[[[H1 H2] H3] H4] _].
  apply Uint256_negb_false in H1 as (? & -> & _), H2 as (? & -> & _),
    H3 as (? & -> & _), H4 as (? & -> & _).
  cbn [deref]. no_crash.
Qed.

Lemma reconcileEpochDeposit_no_crash epoch totalShares actual :
  reconcileEpochDeposit epoch totalShares actual ≠ Crash.
Proof.
  unfold reconcileEpochDeposit. apply bind_no_crash; [apply fail_if_no_crash|].
  intros u Hg%fail_if_Ok%negb_false_iff. cbn [forallb] in Hg.
  rewrite !andb_true_iff, !Uint256_spec in Hg.
  destruct Hg as ((a & -> & Ha) & (b & -> & Hb) & (c & -> & _) & (d & -> & _) & (e & -> & _) & _).
  cbn [deref mbind res_bind]. unfold is_uint256 in *.
  apply bind_no_crash; [apply fail_if_no_crash|]. intros _ Hexp%fail_if_Ok.
  assert ((a =? 0) = false) as ->.
  { apply Z.eqb_neq. apply Z.leb_gt in Hexp. apply Z.sgn_pos_iff in Hexp. lia. }
  no_crash.
Qed.

(** ** The functions on a store of mutable integers

    A [*big.Int] is nil or the index of a cell; [new(big.Int).Op(x, y)]
    allocates a cell and [z.Op(x, y)] overwrites the cell of [z]. *)
Module Heap.
Abbreviation heap := (list Z).
Abbreviation ptr := (option nat).
Definition hm (A : Type) := heap → res A * heap.

#[global] Instance hm_ret : MRet hm := λ A a h, (Ok a, h).
#[global] Instance hm_bind : MBind hm := λ A B f m h,
  match m h with
  | (Ok a, h') => f a h'
  | (Err e, h') => (Err e, h')
  | (Crash, h') => (Crash, h')
  end.
Definition hlift {A} (r : res A) : hm A := λ h, (r, h).

Definition value (h : heap) (p : ptr) : bigint := i ← p; h !! i.

Definition hnew (z : Z) : hm ptr := λ h, (Ok (Some (length h)), h ++ [z]).
Definition hget (p : ptr) : hm Z := λ h, (deref (value h p), h).
Definition hset (p : ptr) (z : Z) : hm unit := λ h,
  match p with Some i => (Ok tt, <[i := z]> h) | None => (Crash, h) end.
Definition hUint256 (p : ptr) : hm bool := λ h, (Ok (Uint256 (value h p)), h).
Definition hfail_if (b : bool) (e : error) : hm unit := hlift (fail_if b e).

Record epochAccountingPtr := mkEpochAccountingPtr {
  TotalWithdrawPtr : ptr; NewSharesPtr : ptr; NetFlowPtr : ptr; TotalSharesPtr : ptr }.

Definition mulDivDown (x y denominator : ptr) : hm ptr :=
  d ← hget denominator;
  _ ← hfail_if (Z.sgn d =? 0) (Errorf "division by zero" []);
  result ← hnew 0;
  x ← hget x; y ← hget y; _ ← hset result (x * y);
  r ← hget result; d ← hget denominator; _ ← hset result (Z.quot r d);
  ok ← hUint256 result;
  _ ← hfail_if (negb ok) (Errorf "mulDiv result overflows uint256" []);
  mret result.

(** The tail of [calculateEpochClose]: the total is updated in place. *)
Definition settleShares (totalShares newShares burn : ptr) : hm ptr :=
  t ← hget totalShares; n ← hget newShares;
  total ← hnew (t + n);
  ok ← hUint256 total;
  _ ← hfail_if (negb ok) (Errorf "total shares overflow" []);
  t ← hget total; b ← hget burn; _ ← hset total (t - b);
  t ← hget total;
  _ ← hfail_if (Z.sgn t <? 0) (Errorf "total shares underflow" []);
  mret total.

(** [sharePrecision] is the pointer of the package variable. *)
Definition calculateEpochClose (sharePrecision deposit burn totalShares tvl : ptr)
    (assetDecimals : Z) (isLocal : bool) : hm epochAccountingPtr :=
  okd ← hUint256 deposit; okb ← hUint256 burn; oks ← hUint256 totalShares; okt ← hUint256 tvl;
  _ ← hfail_if (negb okd || negb okb || negb oks || negb okt || (77 <? assetDecimals))
        invalid_input;
  d ← hget deposit; b ← hget burn;
  _ ← hfail_if ((Z.sgn d =? 0) && (Z.sgn b =? 0)) (Errorf "no epoch activity" []);
  assetPrecision ← hnew (10 ^ assetDecimals);
  zeroWithdraw ← hnew 0;
  s ← hget totalShares;
  amounts ←
    (if negb (Z.sgn s =? 0) then
       v ← hget tvl;
       _ ← hfail_if (Z.sgn v =? 0) (Errorf "zero TVL with outstanding shares" []);
       price ← mulDivDown tvl sharePrecision totalShares;
       p ← hget price;
       _ ← hfail_if (Z.sgn p =? 0) (Errorf "zero price per share" []);
       totalWithdraw ← mulDivDown burn tvl totalShares;
       newShares ← mulDivDown deposit totalShares tvl;
       mret (totalWithdraw, newShares)
     else
       b ← hget burn;
       _ ← hfail_if (negb (Z.sgn b =? 0)) (Errorf "share burn with zero total shares" []);
       newShares ← mulDivDown deposit sharePrecision assetPrecision;
       mret (zeroWithdraw, newShares));
  let '(totalWithdraw, newShares) := amounts in
  d ← hget deposit; w ← hget totalWithdraw;
  _ ← hfail_if ((255 <? BitLen d) || (255 <? BitLen w)) (Errorf "epoch net flow exceeds int256" []);
  netFlow ← hnew (d - w);
  _ ← (if negb (Z.sgn d =? 0) then
         n ← hget newShares; a ← hget assetPrecision;
         minimumDepositShares ← hnew (n * a);
         ok ← hUint256 minimumDepositShares;
         _ ← hfail_if (negb ok) (Errorf "minimum deposit share calculation overflows" []);
         m ← hget minimumDepositShares;
         hfail_if (cmp m d <? 0) (Errorf "deposit would mint zero shares" [])
       else mret tt);
  nf ← hget netFlow;
  _ ← (if negb isLocal && (Z.sgn nf <? 0) then
         withdraw ← hnew (- nf);
         w ← hget withdraw; a ← hget assetPrecision;
         hfail_if (cmp w a <? 0) (Errorf "remote withdrawal below minimum asset amount" [])
       else mret tt);
  total ← settleShares totalShares newShares burn;
  mret (mkEpochAccountingPtr totalWithdraw newShares netFlow total).

(** [adjusted] is multiplied, then divided in place. *)
Definition reconcileEpochDeposit (totalDeposit totalWithdrawClaim remainingMint totalShares
    actualAmount : ptr) : hm ptr :=
  k1 ← hUint256 totalDeposit; k2 ← hUint256 totalWithdrawClaim; k3 ← hUint256 remainingMint;
  k4 ← hUint256 totalShares; k5 ← hUint256 actualAmount;
  _ ← hfail_if (negb (forallb id [k1; k2; k3; k4; k5]))
        (Errorf "invalid deposit reconciliation input" []);
  d ← hget totalDeposit; w ← hget totalWithdrawClaim;
  expected ← hnew (d - w);
  e ← hget expected;
  _ ← hfail_if (Z.sgn e <=? 0) (Errorf "epoch is not a net deposit" []);
  a ← hget actualAmount;
  _ ← hfail_if ((Z.sgn a =? 0) || (0 <? cmp a e)) (Errorf "invalid actual deposit amount" []);
  if cmp a e =? 0 then m ← hget remainingMint; hnew m
  else
    shortfall ← hnew (e - a);
    sf ← hget shortfall;
    effectiveDeposit ← hnew (d - sf);
    m ← hget remainingMint; ef ← hget effectiveDeposit;
    adjusted ← hnew (m * ef);
    x ← hget adjusted;
    _ ← (if d =? 0 then hlift Crash else hset adjusted (Z.quot x d));
    x ← hget adjusted;
    _ ← hfail_if (Z.sgn x =? 0) (Errorf "deposit would mint zero shares" []);
    m ← hget remainingMint;
    reduction ← hnew (m - x);
    r ← hget reduction; s ← hget totalShares;
    _ ← hfail_if (0 <? cmp r s) (Errorf "deposit reconciliation underflows total shares" []);
    mret adjusted.

(** ** Simulation: the store only grows, and the outcomes agree *)
Definition hsim {A B} (h : heap) (m : hm A) (r : res B) (Q : heap → A → B → Prop) : Prop :=
  ∃ r' h', m h = (r', h') ∧ h `prefix_of` h' ∧
    match r', r with
    | Ok a, Ok b => Q h' a b
    | Err e, Err e' => e = e'
    | Crash, Crash => True
    | _, _ => False
    end.

Definition fresh (h : heap) (p : ptr) : Prop := ∃ i, p = Some i ∧ (length h ≤ i)%nat.

Lemma value_prefix h h' p z : h `prefix_of` h' → value h p = Some z → value h' p = Some z.
Proof.
  intros [t ->]. destruct p as [i|]; [|done]. apply (lookup_app_l_Some h t i z).
Qed.
Lemma fresh_prefix h h' p : h `prefix_of` h' → fresh h' p → fresh h p.
Proof. intros Hp%prefix_length (i & -> & ?). exists i. split; [done|lia]. Qed.
Lemma set_last (h : heap) a v : <[length h := v]> (h ++ [a]) = h ++ [v].
Proof. induction h; cbn; f_equal; done. Qed.
Lemma value_last (h : heap) v : value (h ++ [v]) (Some (length h)) = Some v.
Proof. by apply (list_lookup_middle h [] v). Qed.

Section Rules.
Context {A B : Type} (Q : heap → A → B → Prop).

Lemma hsim_ret h a b : Q h a b → hsim h (mret a) (Ok b) Q.
Proof. intros HQ. exists (Ok a), h. done. Qed.

Lemma hsim_get h p z (f : Z → hm A) r :
  value h p = Some z → hsim h (f z) r Q → hsim h (hget p ≫= f) r Q.
Proof. unfold hsim, mbind, hm_bind, hget. by intros ->. Qed.

Lemma hsim_uint h p (f : bool → hm A) r :
  hsim h (f (Uint256 (value h p))) r Q → hsim h (hUint256 p ≫= f) r Q.
Proof. done. Qed.

Lemma hsim_fail_if h b e (f : unit → hm A) (g : unit → res B) :
  (b = false → hsim h (f tt) (g tt) Q) →
  hsim h (hfail_if b e ≫= f) (fail_if b e ≫= g) Q.
Proof. destruct b; [|by auto]. intros _. exists (Err e), h. done. Qed.

Lemma hsim_from h h' (f : hm A) m r :
  m h = f h' → h `prefix_of` h' → hsim h' f r Q → hsim h m r Q.
Proof.
  intros Hm Hp (r' & h'' & Hf & Hp' & HQ). exists r', h''. rewrite Hm.
  split; [done|]. split; [by transitivity h'|done].
Qed.

Lemma hsim_new h z (f : ptr → hm A) r :
  (∀ h' p, h `prefix_of` h' → value h' p = Some z → fresh h p → hsim h' (f p) r Q) →
  hsim h (hnew z ≫= f) r Q.
Proof.
  intros Hf. apply (hsim_from _ (h ++ [z]) (f (Some (length h)))); [done|by eexists|].
  apply Hf; [by eexists|apply value_last|by exists (length h)].
Qed.

(** A fresh cell that is updated in place is as good as a cell that was
    created with its final value. *)
Lemma hsim_new_set h z (v : Z → Z) (f : ptr → hm A) r :
  (∀ h' p, h `prefix_of` h' → value h' p = Some (v z) → fresh h p → hsim h' (f p) r Q) →
  hsim h (p ← hnew z; x ← hget p; _ ← hset p (v x); f p) r Q.
Proof.
  intros Hf. apply (hsim_from _ (h ++ [v z]) (f (Some (length h)))); [|by eexists|].
  - unfold mbind, hm_bind, hnew, hget, hset. rewrite value_last. cbn [deref].
    by rewrite set_last.
  - apply Hf; [by eexists|apply value_last|by exists (length h)].
Qed.
End Rules.

Lemma hsim_bind {A B A' B'} (P : heap → A → B → Prop) (Q : heap → A' → B' → Prop) h m r
    (f : A → hm A') (g : B → res B') :
  hsim h m r P →
  (∀ h' a b, h `prefix_of` h' → P h' a b → hsim h' (f a) (g b) Q) →
  hsim h (m ≫= f) (r ≫= g) Q.
Proof.
  intros (r' & h' & Hm & Hp & HP) Hf. unfold hsim, mbind, hm_bind. rewrite Hm.
  destruct r' as [a|e|], r as [b|e'|]; try done; cbn.
  - destruct (Hf h' a b Hp HP) as (r'' & h'' & -> & Hp' & HQ).
    exists r'', h''. split; [done|]. split; [by transitivity h'|done].
  - subst. exists (Err e'), h'. done.
  - exists Crash, h'. done.
Qed.

(** A result is a fresh cell holding the value. *)
Definition holds (h0 : heap) : heap → ptr → Z → Prop := λ h p z, value h p = Some z ∧ fresh h0 p.

Lemma mulDivDown_sim h px py pd x y d :
  value h px = Some x → value h py = Some y → value h pd = Some d →
  hsim h (mulDivDown px py pd) (Accounting.mulDivDown x y d) (holds h).
Proof.
  intros Hx Hy Hd. unfold mulDivDown, Accounting.mulDivDown.
  eapply hsim_get; [done|]. apply hsim_fail_if. intros _.
  apply (hsim_from _ _ (h ++ [Z.quot (x * y) d])
    (ok ← hUint256 (Some (length h));
     _ ← hfail_if (negb ok) (Errorf "mulDiv result overflows uint256" []);
     mret (Some (length h)))); [|by eexists|].
  - assert (∀ v p z, value h p = Some z → value (h ++ [v]) p = Some z) as Hpre.
    { intros v p z. apply value_prefix. by eexists. }
    unfold mbind, hm_bind, hget, hset, hnew.
    rewrite (Hpre 0 _ _ Hx). cbn [deref]. rewrite (Hpre 0 _ _ Hy). cbn [deref].
    rewrite set_last, value_last. cbn [deref]. rewrite (Hpre _ _ _ Hd). cbn [deref].
    by rewrite set_last.
  - apply hsim_uint. rewrite value_last. apply hsim_fail_if. intros _.
    apply hsim_ret. split; [apply value_last|by exists (length h)].
Qed.

Lemma settleShares_sim h pt pn pb t n b :
  value h pt = Some t → value h pn = Some n → value h pb = Some b →
  hsim h (settleShares pt pn pb)
    (_ ← fail_if (negb (Uint256 (Some (t + n)))) (Errorf "total shares overflow" []);
     _ ← fail_if (Z.sgn (t + n - b) <? 0) (Errorf "total shares underflow" []);
     Ok (t + n - b)) (holds h).
Proof.
  intros Ht Hn Hb. unfold settleShares.
  eapply hsim_get; [done|]. eapply hsim_get; [done|].
  assert (∀ v p z, value h p = Some z → value (h ++ [v]) p = Some z) as Hpre.
  { intros v p z. apply value_prefix. by eexists. }
  destruct (Uint256 (Some (t + n))) eqn:Hu; cbn [negb].
  - apply (hsim_from _ _ (h ++ [t + n - b])
      (_ ← hfail_if (Z.sgn (t + n - b) <? 0) (Errorf "total shares underflow" []);
       mret (Some (length h)))); [|by eexists|].
    + unfold mbind, hm_bind, hUint256, hget, hset, hnew. rewrite value_last, Hu.
      cbn [deref negb hfail_if hlift fail_if]. rewrite value_last, (Hpre _ _ _ Hb). cbn [deref].
      rewrite set_last, value_last. done.
    + change (hsim (h ++ [t + n - b])
        (_ ← hfail_if (Z.sgn (t + n - b) <? 0) (Errorf "total shares underflow" []);
         mret (Some (length h)))
        (_ ← fail_if (Z.sgn (t + n - b) <? 0) (Errorf "total shares underflow" []);
         Ok (t + n - b)) (holds h)).
      apply hsim_fail_if. intros _. apply hsim_ret. split; [apply value_last|by exists (length h)].
  - apply hsim_new. intros h' p _ Hp _. apply hsim_uint. rewrite Hp, Hu.
    exists (Err (Errorf "total shares overflow" [])), h'. done.
Qed.

(** Carry what is known about cells to a larger store. *)
Ltac grow h h' Hp :=
  repeat match goal with
  | H : value h _ = Some _ |- _ => apply (value_prefix h h' _ _ Hp) in H
  end.
Ltac hstep :=
  match goal with
  | |- hsim _ (hget _ ≫= _) _ _ => eapply hsim_get; [eassumption|]
  | |- hsim _ (hUint256 _ ≫= _) _ _ => eapply hsim_uint;
      match goal with H : value ?h ?p = _ |- context [Uint256 (value ?h ?p)] => rewrite H end
  | |- hsim _ (hfail_if _ _ ≫= _) _ _ =>
      apply hsim_fail_if; let Hf := fresh "Hf" in intros Hf
  | |- hsim ?h (hnew _ ≫= _) _ _ =>
      apply hsim_new;
      let h' := fresh "h" in let p := fresh "p" in let Hp := fresh "Hp" in
      let Hv := fresh "Hv" in let Hfr := fresh "Hfr" in
      intros h' p Hp Hv Hfr; grow h h' Hp
  end.

Definition agrees (h0 h : heap) (a : epochAccountingPtr) (b : epochAccounting) : Prop :=
  holds h0 h (TotalWithdrawPtr a) (TotalWithdraw b) ∧ holds h0 h (NewSharesPtr a) (NewShares b) ∧
  holds h0 h (NetFlowPtr a) (NetFlow b) ∧ holds h0 h (TotalSharesPtr a) (TotalShares b).

(** A pair of fresh cells. *)
Definition holds2 (h0 h : heap) (p : ptr * ptr) (v : Z * Z) : Prop :=
  holds h0 h p.1 v.1 ∧ holds h0 h p.2 v.2.

Lemma holds_grow h0 h1 h h' p z :
  h `prefix_of` h' → h0 `prefix_of` h1 → holds h1 h p z → holds h0 h' p z.
Proof.
  intros Hp Hp0 [Hv Hf]. split; [by eapply value_prefix|by eapply fresh_prefix].
Qed.


Definition anything {A B} : heap → A → B → Prop := λ _ _ _, True.

Lemma hsim_check h b e : hsim h (hfail_if b e) (fail_if b e) anything.
Proof. destruct b; [by exists (Err e), h|by exists (Ok tt), h]. Qed.

(** The branch on the share supply. *)
Lemma amounts_sim h0 h prec pd pb ps pt pa pz d b s t a :
  h0 `prefix_of` h → value h prec = Some sharePrecision → value h pd = Some d →
  value h pb = Some b → value h ps = Some s → value h pt = Some t → value h pa = Some a →
  value h pz = Some 0 → fresh h0 pz →
  hsim h
    (if negb (Z.sgn s =? 0) then
       v ← hget pt;
       _ ← hfail_if (Z.sgn v =? 0) (Errorf "zero TVL with outstanding shares" []);
       price ← mulDivDown pt prec ps;
       p ← hget price;
       _ ← hfail_if (Z.sgn p =? 0) (Errorf "zero price per share" []);
       totalWithdraw ← mulDivDown pb pt ps;
       newShares ← mulDivDown pd ps pt;
       mret (totalWithdraw, newShares)
     else
       b ← hget pb;
       _ ← hfail_if (negb (Z.sgn b =? 0)) (Errorf "share burn with zero total shares" []);
       newShares ← mulDivDown pd prec pa;
       mret (pz, newShares))
    (if negb (Z.sgn s =? 0) then
       _ ← fail_if (Z.sgn t =? 0) (Errorf "zero TVL with outstanding shares" []);
       price ← Accounting.mulDivDown t sharePrecision s;
       _ ← fail_if (Z.sgn price =? 0) (Errorf "zero price per share" []);
       totalWithdraw ← Accounting.mulDivDown b t s;
       newShares ← Accounting.mulDivDown d s t;
       Ok (totalWithdraw, newShares)
     else
       _ ← fail_if (negb (Z.sgn b =? 0)) (Errorf "share burn with zero total shares" []);
       newShares ← Accounting.mulDivDown d sharePrecision a;
       Ok (0, newShares))
    (holds2 h0).
Proof.
  intros Hp0 Hprec Hd Hb Hs Ht Ha Hz Hzf. destruct (negb _).
  - hstep. hstep. eapply hsim_bind; [by apply mulDivDown_sim|].
    intros h1 p1 v1 Hp1 [Hv1 _]. grow h h1 Hp1. hstep. hstep.
    eapply hsim_bind; [by apply mulDivDown_sim|].
    intros h2 p2 v2 Hp2 Hh2. grow h1 h2 Hp2.
    eapply hsim_bind; [by apply mulDivDown_sim|].
    intros h3 p3 v3 Hp3 Hh3. apply hsim_ret.
    assert (h0 `prefix_of` h1) by (by transitivity h).
    assert (h0 `prefix_of` h2) by (by transitivity h1).
    split; [by eapply (holds_grow h0 h1 h2 h3)|by eapply (holds_grow h0 h2 h3 h3)].
  - hstep. hstep. eapply hsim_bind; [by apply mulDivDown_sim|].
    intros h1 p1 v1 Hp1 Hh1. apply hsim_ret.
    split; [by split; [by apply (value_prefix h)|]|by eapply (holds_grow h0 h h1 h1)].
Qed.

Lemma calculateEpochClose_sim h prec pd pb ps pt epoch totalShares tvl dec loc :
  value h prec = Some sharePrecision →
  value h pd = parent_vault.TotalDepositAmount epoch →
  value h pb = parent_vault.TotalShareBurnAmount epoch →
  value h ps = totalShares → value h pt = tvl →
  hsim h (calculateEpochClose prec pd pb ps pt dec loc)
    (Accounting.calculateEpochClose epoch totalShares tvl dec loc) (agrees h).
Proof.
  intros Hprec Hd Hb Hs Ht. unfold calculateEpochClose, Accounting.calculateEpochClose.
  do 5 hstep.
  rewrite !orb_false_iff in Hf. destruct Hf as [[[[H1 H2] H3] H4] _].
  apply Uint256_negb_false in H1 as (d & H1 & _), H2 as (b & H2 & _),
    H3 as (s & H3 & _), H4 as (t & H4 & _).
  rewrite H1 in *. rewrite H2 in *. rewrite H3 in *. rewrite H4 in *.
  clear H1 H2 H3 H4. cbn [deref mbind res_bind].
  do 6 hstep. assert (h `prefix_of` h1) by (by transitivity h0).
  eapply hsim_bind; [apply (amounts_sim h); try done; by apply (fresh_prefix h h0)|].
  intros h3 [pw pn] [w n] Hp3 [[Hw Hwf] [Hn Hnf]]. cbn [fst snd] in *. grow h1 h3 Hp3.
  do 4 hstep. eapply (hsim_bind anything).
  { destruct (negb _); [|by apply hsim_ret]. do 6 hstep. apply hsim_check. }
  intros h4 [] [] Hp4 _. grow h2 h4 Hp4. hstep. eapply (hsim_bind anything).
  { destruct (negb loc && _); [|by apply hsim_ret]. do 3 hstep. apply hsim_check. }
  intros h5 [] [] Hp5 _. grow h4 h5 Hp5.
  replace (_ ← fail_if (negb (Uint256 _)) _; _) with
    (total ← (_ ← fail_if (negb (Uint256 (Some (s + n)))) (Errorf "total shares overflow" []);
       _ ← fail_if (Z.sgn (s + n - b) <? 0) (Errorf "total shares underflow" []);
       Ok (s + n - b)); Ok (mkEpochAccounting w n (d - w) total))
    by (rewrite !res_bind_assoc; by destruct (negb (Uint256 _)), (_ <? _)).
  eapply hsim_bind; [by apply settleShares_sim|].
  intros h6 ptot tot Hp6 [Htot Htf]. grow h5 h6 Hp6. apply hsim_ret.
  assert (h `prefix_of` h3) by (by transitivity h1).
  assert (h `prefix_of` h2) by (by transitivity h3).
  assert (h `prefix_of` h5) by (transitivity h2; [done|by transitivity h4]).
  split; [by split|]. split; [by split|].
  split; (split; [done|]); [by apply (fresh_prefix h h3)|by apply (fresh_prefix h h5)].
Qed.

Lemma reconcileEpochDeposit_sim h pd pw pm ps pa epoch totalShares actual :
  value h pd = parent_vault.TotalDepositAmount epoch →
  value h pw = parent_vault.TotalWithdrawClaimAmount epoch →
  value h pm = parent_vault.RemainingShareMintAmount epoch →
  value h ps = totalShares → value h pa = actual →
  hsim h (reconcileEpochDeposit pd pw pm ps pa)
    (Accounting.reconcileEpochDeposit epoch totalShares actual) (holds h).
Proof.
  intros Hd Hw Hm Hs Ha. unfold reconcileEpochDeposit, Accounting.reconcileEpochDeposit.
  do 5 hstep. cbn [forallb id]. hstep.
  rewrite negb_false_iff, !andb_true_iff, !Uint256_spec in Hf.
  destruct Hf as ((d & H1 & _) & (w & H2 & _) & (m & H3 & _) & (s & H4 & _) & (a & H5 & _) & _).
  rewrite H1 in *. rewrite H2 in *. rewrite H3 in *. rewrite H4 in *. rewrite H5 in *.
  clear H1 H2 H3 H4 H5. cbn [deref mbind res_bind].
  do 7 hstep. destruct (cmp a (d - w) =? 0).
  { hstep. exists (Ok (Some (length h0))), (h0 ++ [m]). split; [done|]. split; [by eexists|].
    split; [apply value_last|]. exists (length h0). split; [done|]. by apply prefix_length. }
  do 5 hstep. assert (h `prefix_of` h2) by (transitivity h0; [done|by transitivity h1]).
  destruct (d =? 0).
  { apply hsim_new. intros h3 p3 Hp3 Hv3 _. hstep. by exists Crash, h3. }
  apply (hsim_new_set _ _ _ (λ x, Z.quot x d)). intros h3 p3 Hp3 Hv3 Hf3. grow h2 h3 Hp3.
  cbn [mbind res_bind]. do 6 hstep. hstep. apply hsim_ret.
  split; [done|]. by apply (fresh_prefix h h2).
Qed.
End Heap.

(** ** The inputs are never mutated *)

(** C40: On a store of mutable integers, [calculateEpochClose] computes what the
    value-level definition computes (same result, same error), leaves every
    existing integer unchanged, and returns only freshly allocated integers. *)
Theorem calculateEpochClose_heap h prec pd pb ps pt epoch totalShares tvl dec loc
    (Hprec : Heap.value h prec = Some sharePrecision)
    (Hd : Heap.value h pd = parent_vault.TotalDepositAmount epoch)
    (Hb : Heap.value h pb = parent_vault.TotalShareBurnAmount epoch)
    (Hs : Heap.value h ps = totalShares) (Ht : Heap.value h pt = tvl) :
  ∃ outcome h', Heap.calculateEpochClose prec pd pb ps pt dec loc h = (outcome, h') ∧
    (∀ p z, Heap.value h p = Some z → Heap.value h' p = Some z) ∧
    match outcome, calculateEpochClose epoch totalShares tvl dec loc with
    | Ok a, Ok b => Heap.agrees h h' a b
    | Err e, Err e' => e = e'
    | _, _ => False
    end.
Proof.
  destruct (Heap.calculateEpochClose_sim h prec pd pb ps pt epoch totalShares tvl dec loc)
    as (r & h' & Hrun & Hp & Hr); try done.
  exists r, h'. split; [done|]. split; [intros p z; by apply Heap.value_prefix|].
  pose proof (calculateEpochClose_no_crash epoch totalShares tvl dec loc).
  by destruct r, (calculateEpochClose epoch totalShares tvl dec loc).
Qed.

(** The same for [reconcileEpochDeposit]; in particular the returned mint
    amount never aliases the epoch's own field, also when it is unchanged. *)
Theorem reconcileEpochDeposit_heap h pd pw pm ps pa epoch totalShares actual
    (Hd : Heap.value h pd = parent_vault.TotalDepositAmount epoch)
    (Hw : Heap.value h pw = parent_vault.TotalWithdrawClaimAmount epoch)
    (Hm : Heap.value h pm = parent_vault.RemainingShareMintAmount epoch)
    (Hs : Heap.value h ps = totalShares) (Ha : Heap.value h pa = actual) :
  ∃ outcome h', Heap.reconcileEpochDeposit pd pw pm ps pa h = (outcome, h') ∧
    (∀ p z, Heap.value h p = Some z → Heap.value h' p = Some z) ∧
    match outcome, reconcileEpochDeposit epoch totalShares actual with
    | Ok p, Ok z => Heap.holds h h' p z
    | Err e, Err e' => e = e'
    | _, _ => False
    end.
Proof.
  destruct (Heap.reconcileEpochDeposit_sim h pd pw pm ps pa epoch totalShares actual)
    as (r & h' & Hrun & Hp & Hr); try done.
  exists r, h'. split; [done|]. split; [intros p z; by apply Heap.value_prefix|].
  pose proof (reconcileEpochDeposit_no_crash epoch totalShares actual).
  by destruct r, (reconcileEpochDeposit epoch totalShares actual).
Qed.

(** C38: The settlement never over-allocates: the assets owed to withdrawers
    never exceed the TVL's share for the burned shares, the value of the newly
    minted shares never exceeds the deposit, and the supply is exact. *)
Theorem calculateEpochClose_conserves epoch d b s t dec loc a
    (Ed : parent_vault.TotalDepositAmount epoch = Some d)
    (Eb : parent_vault.TotalShareBurnAmount epoch = Some b)
    (Hs : 0 < s)
    (HC : calculateEpochClose epoch (Some s) (Some t) dec loc = Ok a) :
  TotalWithdraw a * s <= b * t ∧ b * t < (TotalWithdraw a + 1) * s ∧
  NewShares a * t <= d * s ∧ d * s < (NewShares a + 1) * t ∧
  NetFlow a = d - TotalWithdraw a ∧
  TotalShares a = s + NewShares a - b ∧ is_uint256 (TotalShares a).
Proof.
  unfold calculateEpochClose in HC. rewrite Ed, Eb in HC.
  apply fail_if_bind in HC as [Hin HC]. cbn [deref mbind res_bind] in HC.
  rewrite !orb_false_iff, !negb_false_iff, !Uint256_spec in Hin.
  destruct Hin as [[[[(? & [= <-] & Hd) (? & [= <-] & Hb)] (? & [= <-] & Hs')]
    (? & [= <-] & Ht)] _].
  apply fail_if_bind in HC as [_ HC]. rewrite (sgn_eqb_0 s) in HC.
  destruct (Z.eqb_spec s 0) as [|Hs0]; [lia|]. cbn [negb] in HC.
  apply res_bind_Ok in HC as ([w n] & Ham & HC).
  unfold is_uint256 in *.
  apply fail_if_bind in Ham as [Ht0 Ham]. rewrite sgn_eqb_0, Z.eqb_neq in Ht0.
  apply res_bind_Ok in Ham as (price & _ & Ham). apply fail_if_bind in Ham as [_ Ham].
  apply res_bind_Ok in Ham as (w' & Hw & Ham). apply res_bind_Ok in Ham as (n' & Hn & [= <- <-]).
  rewrite mulDivDown_spec in Hw, Hn by nia.
  destruct (Z.eqb_spec s 0); [done|]. destruct (Z.eqb_spec t 0); [done|].
  case_bool_decide; [|done]. case_bool_decide; [|done]. injection Hw as <-. injection Hn as <-.
  apply fail_if_bind in HC as [_ HC]. apply res_unit_bind in HC as [_ HC].
  apply res_unit_bind in HC as [_ HC].
  apply fail_if_bind in HC as [Hsum HC]. apply fail_if_bind in HC as [Htot [= <-]]. cbn.
  apply Uint256_negb_false in Hsum as (? & [= <-] & Hsum). unfold is_uint256 in Hsum.
  apply Z.ltb_ge in Htot.
  pose proof (Z.mul_div_le (b * t) s ltac:(lia)). pose proof (Z.mul_succ_div_gt (b * t) s ltac:(lia)).
  pose proof (Z.mul_div_le (d * s) t ltac:(lia)). pose proof (Z.mul_succ_div_gt (d * s) t ltac:(lia)).
  split_and!; lia.
Qed.

(** ** Concrete stores *)
Module SampleAccounting.
Definition epoch : parent_vault.TypesEpoch :=
  parent_vault.mkTypesEpoch (Some 1000000) (Some 0) (Some 0) (Some 0) (Some 5) (Some 0) (Some 0)
    (Some 1) 1.
(** Cells: share precision, deposit, burn, shares, TVL, withdrawal, mint, delivered. *)
Definition store : list Z := [sharePrecision; 1000000; 0; 10 ^ 18; 8000000; 0; 5; 700000].

Lemma calculateEpochClose_heap_witness :
  ∃ outcome h',
    Heap.calculateEpochClose (Some 0%nat) (Some 1%nat) (Some 2%nat) (Some 3%nat) (Some 4%nat) 6 false store
      = (outcome, h') ∧
    (∀ p z, Heap.value store p = Some z → Heap.value h' p = Some z) ∧
    match outcome, calculateEpochClose epoch (Some (10 ^ 18)) (Some 8000000) 6 false with
    | Ok a, Ok b => Heap.agrees store h' a b
    | Err e, Err e' => e = e'
    | _, _ => False
    end.
Proof.
  apply (calculateEpochClose_heap store (Some 0%nat) (Some 1%nat) (Some 2%nat) (Some 3%nat) (Some 4%nat)
    epoch (Some (10 ^ 18)) (Some 8000000) 6 false); vm_compute; reflexivity.
Defined.

Lemma reconcileEpochDeposit_heap_witness :
  ∃ outcome h',
    Heap.reconcileEpochDeposit (Some 1%nat) (Some 5%nat) (Some 6%nat) (Some 3%nat) (Some 7%nat) store = (outcome, h') ∧
    (∀ p z, Heap.value store p = Some z → Heap.value h' p = Some z) ∧
    match outcome, reconcileEpochDeposit epoch (Some (10 ^ 18)) (Some 700000) with
    | Ok p, Ok z => Heap.holds store h' p z
    | Err e, Err e' => e = e'
    | _, _ => False
    end.
Proof.
  apply (reconcileEpochDeposit_heap store (Some 1%nat) (Some 5%nat) (Some 6%nat) (Some 3%nat) (Some 7%nat)
    epoch (Some (10 ^ 18)) (Some 700000)); vm_compute; reflexivity.
Defined.
Definition accounting : epochAccounting := mkEpochAccounting 0 125000000000000000 1000000 1125000000000000000.
Lemma calculateEpochClose_conserves_witness :
  TotalWithdraw accounting * 10 ^ 18 <= 0 * 8000000 ∧
  0 * 8000000 < (TotalWithdraw accounting + 1) * 10 ^ 18 ∧
  NewShares accounting * 8000000 <= 1000000 * 10 ^ 18 ∧
  1000000 * 10 ^ 18 < (NewShares accounting + 1) * 8000000 ∧
  NetFlow accounting = 1000000 - TotalWithdraw accounting ∧
  TotalShares accounting = 10 ^ 18 + NewShares accounting - 0 ∧
  is_uint256 (TotalShares accounting).
Proof.
  apply (calculateEpochClose_conserves epoch 1000000 0 (10 ^ 18) 8000000 6 false accounting);
    reflexivity.
Defined.
End SampleAccounting.
