(* ===== verification/EpochContract.v ===== *)
(** * The contract the epoch preflight mirrors

    [ParentVaultEpochLib._closeEpoch] and [._completeEpochDeposit]
    ([evm/src/libraries/vaults/ParentVaultEpochLib.sol]) on the part of the
    storage that [getParentOperationalState] exposes, in checked uint256 and
    int256 arithmetic ([None] is a revert; the checks of the external functions
    around them, paused, recovery and role, are left out), and the theorems that the
    workflow's preflight decides whether they revert. *)

From S2P Require Import Prelude BigInt ParentVault Accounting.

#[local] Open Scope Z_scope.

Module ParentVaultEpochLib.
(** ** Checked arithmetic *)
Definition u256 (z : Z) : option Z := if bool_decide (is_uint256 z) then Some z else None.
Definition require (b : bool) : option unit := if b then Some tt else None.
Definition toInt256 (z : Z) : option Z := if z <? 2 ^ 255 then Some z else None.
Definition mulDivDown (x y d : Z) : option Z := if d =? 0 then None else u256 (x * y / d).

Definition MIN_EPOCH_PERIOD : Z := 3600.
Definition SHARE_PRECISION : Z := 10 ^ 18.

Inductive EpochStatus := NONE | OPEN | EXECUTING | CLAIMABLE.
#[export] Instance EpochStatus_eq_dec : EqDecision EpochStatus.
Proof. solve_decision. Defined.

Record Epoch := mkEpoch {
  totalDepositAmount : Z; totalShareBurnAmount : Z; totalWithdrawClaimAmount : Z;
  remainingShareMintAmount : Z; openedAtTimestamp : Z; status : EpochStatus }.

Record Storage := mkStorage {
  s_epochNonce : Z; rebalancing : bool; current : Epoch; previous : Epoch;
  s_totalShares : Z; assetPrecision : Z; isLocalStrategy : bool }.

Record Accounting := mkAccounting {
  totalWithdraw : Z; newShares : Z; netFlow : Z; totalShares : Z }.

(** ** Settlement arithmetic of [_closeEpoch] *)
Definition settle (deposit burn shares tvl precision : Z) (isLocal : bool) : option Accounting :=
  _ ← require (negb ((deposit =? 0) && (burn =? 0)));
  amounts ←
    (if negb (shares =? 0) then
       _ ← require (negb (tvl =? 0));
       price ← mulDivDown tvl SHARE_PRECISION shares;
       _ ← require (negb (price =? 0));
       w ← mulDivDown burn tvl shares;
       n ← mulDivDown deposit shares tvl;
       Some (w, n)
     else
       _ ← require (burn =? 0);
       n ← mulDivDown deposit SHARE_PRECISION precision;
       Some (0, n));
  let '(w, n) := amounts in
  d ← toInt256 deposit; w' ← toInt256 w;
  let net := d - w' in
  _ ← (if deposit =? 0 then Some tt
       else m ← u256 (n * precision); require (negb (m <? deposit)));
  _ ← require (negb (negb isLocal && (net <? 0) && (- net <? precision)));
  t ← u256 (shares + n);
  t ← u256 (t - burn);
  Some (mkAccounting w n net t).

(** ** [_closeEpoch] *)
Inductive ExternalAction :=
| NoAction | DEPOSIT_TO_LOCAL_STRATEGY | SEND_DEPOSIT_TO_REMOTE_STRATEGY
| WITHDRAW_FROM_LOCAL_STRATEGY | WAIT_FOR_REMOTE_WITHDRAW.

Definition action_of (isLocal : bool) (net : Z) : ExternalAction :=
  if net =? 0 then NoAction
  else if 0 <? net then
    if isLocal then DEPOSIT_TO_LOCAL_STRATEGY else SEND_DEPOSIT_TO_REMOTE_STRATEGY
  else if isLocal then WITHDRAW_FROM_LOCAL_STRATEGY else WAIT_FOR_REMOTE_WITHDRAW.

Definition close_guards (st : Storage) (timestamp expectedEpochNonce : Z) : option unit :=
  _ ← require (expectedEpochNonce =? s_epochNonce st);
  _ ← require (negb (rebalancing st));
  p ← u256 (s_epochNonce st - 1);
  _ ← require ((p =? 0) || bool_decide (status (previous st) = CLAIMABLE));
  _ ← require (bool_decide (status (current st) = OPEN));
  due ← u256 (openedAtTimestamp (current st) + MIN_EPOCH_PERIOD);
  require (due <=? timestamp).

Definition closeEpoch (st : Storage) (timestamp expectedEpochNonce tvl : Z)
    : option (Accounting * ExternalAction) :=
  _ ← close_guards st timestamp expectedEpochNonce;
  a ← settle (totalDepositAmount (current st)) (totalShareBurnAmount (current st))
        (s_totalShares st) tvl (assetPrecision st) (isLocalStrategy st);
  Some (a, action_of (isLocalStrategy st) (netFlow a)).

(** ** [_completeEpochDeposit]: the adjusted mint amount and the new supply *)
Definition reconcile (e : Epoch) (shares actual : Z) : option (Z * Z) :=
  _ ← require (totalWithdrawClaimAmount e <? totalDepositAmount e);
  expected ← u256 (totalDepositAmount e - totalWithdrawClaimAmount e);
  _ ← require (negb ((actual =? 0) || (expected <? actual)));
  if actual <? expected then
    let shortfall := expected - actual in
    let original := remainingShareMintAmount e in
    effective ← u256 (totalDepositAmount e - shortfall);
    adjusted ← mulDivDown original effective (totalDepositAmount e);
    _ ← require (negb (adjusted =? 0));
    reduction ← u256 (original - adjusted);
    shares' ← u256 (shares - reduction);
    Some (adjusted, shares')
  else Some (remainingShareMintAmount e, shares).

Definition completeEpochDeposit (st : Storage) (expectedEpochNonce actual : Z) : option (Z * Z) :=
  nonce ← u256 (s_epochNonce st - 1);
  _ ← require (expectedEpochNonce =? nonce);
  _ ← require (negb (s_epochNonce st =? 1));
  r ← reconcile (previous st) (s_totalShares st) actual;
  _ ← require (bool_decide (status (previous st) = EXECUTING));
  Some r.
End ParentVaultEpochLib.

(** ** The Go and the contract arithmetic agree *)
Module C := ParentVaultEpochLib.

(** The checked operations as propositions. *)
Lemma require_Some b u : C.require b = Some u ↔ b = true.
Proof. destruct b, u; cbn; split; congruence. Qed.

Lemma u256_Some z y : C.u256 z = Some y ↔ z = y ∧ is_uint256 z.
Proof. unfold C.u256. case_bool_decide; naive_solver. Qed.

Lemma require_bind {A} b (k : option A) x :
  (_ ← C.require b; k) = Some x ↔ b = true ∧ k = Some x.
Proof. destruct b; cbn; naive_solver. Qed.

Lemma u256_bind {A} z (k : Z → option A) x :
  (C.u256 z ≫= k) = Some x ↔ is_uint256 z ∧ k z = Some x.
Proof. unfold C.u256. case_bool_decide; cbn; naive_solver. Qed.

Lemma u256_spec z : 0 <= z → C.u256 z = if z <? 2 ^ 256 then Some z else None.
Proof.
  intros ?. unfold C.u256, is_uint256. case_bool_decide; destruct (Z.ltb_spec z (2 ^ 256)); lia || done.
Qed.

(** A Go computation that returns an error corresponds to a revert. *)
Definition corresponds {A B} (R : A → B → Prop) (r : res A) (o : option B) : Prop :=
  match r, o with
  | Ok a, Some b => R a b
  | Err _, None => True
  | _, _ => False
  end.

Lemma corresponds_bind {A B A' B'} (R : A → B → Prop) (S : A' → B' → Prop) r o f g :
  corresponds R r o → (∀ a b, R a b → r = Ok a → o = Some b → corresponds S (f a) (g b)) →
  corresponds S (r ≫= f) (o ≫= g).
Proof. destruct r, o; cbn; try done. auto. Qed.

Lemma corresponds_guard {A B} (S : A → B → Prop) b b' e f g :
  b = negb b' → (b = false → corresponds S (f tt) (g tt)) →
  corresponds S (fail_if b e ≫= f) (C.require b' ≫= g).
Proof. intros ->. destruct b'; cbn; auto. Qed.

Lemma corresponds_guard_end b b' e :
  b = negb b' → corresponds (λ _ _, True) (fail_if b e) (C.require b').
Proof. intros ->. by destruct b'. Qed.

Lemma corresponds_check {A B} (S : A → B → Prop) z e f g :
  0 <= z → (is_uint256 z → corresponds S (f tt) (g z)) →
  corresponds S (fail_if (negb (Uint256 (Some z))) e ≫= f) (C.u256 z ≫= g).
Proof. intros Hz Hk. rewrite Uint256_Some. unfold C.u256. case_bool_decide; cbn; auto. Qed.

Definition same_uint (a b : Z) : Prop := a = b ∧ is_uint256 a.

Lemma mulDivDown_corresponds x y d :
  is_uint256 x → is_uint256 y → is_uint256 d →
  corresponds same_uint (mulDivDown x y d) (C.mulDivDown x y d).
Proof.
  unfold is_uint256. intros Hx Hy Hd. rewrite mulDivDown_spec by nia.
  unfold C.mulDivDown. destruct (Z.eqb_spec d 0); [done|].
  assert (0 <= x * y / d) by (apply Z.div_pos; nia).
  rewrite u256_spec by done. case_bool_decide; destruct (Z.ltb_spec (x * y / d) (2 ^ 256));
    cbn; unfold same_uint, is_uint256; lia || done.
Qed.

Lemma BitLen_255 z : 0 <= z → (255 <? BitLen z) = negb (z <? 2 ^ 255).
Proof.
  intros Hz. pose proof (BitLen_le z 255 Hz).
  destruct (Z.ltb_spec 255 (BitLen z)), (Z.ltb_spec z (2 ^ 255)); cbn; lia.
Qed.

Definition same_accounting (a : epochAccounting) (b : C.Accounting) : Prop :=
  TotalWithdraw a = C.totalWithdraw b ∧ NewShares a = C.newShares b ∧
  NetFlow a = C.netFlow b ∧ TotalShares a = C.totalShares b.

Lemma pow10_uint256 dec : 0 <= dec <= 77 → 0 < 10 ^ dec < 2 ^ 256.
Proof.
  intros ?. split; [apply Z.pow_pos_nonneg; lia|].
  apply (Z.le_lt_trans _ (10 ^ 77)); [apply Z.pow_le_mono_r; lia|reflexivity].
Qed.

Definition amounts_ok (a b : Z * Z) : Prop :=
  a = b ∧ is_uint256 a.1 ∧ is_uint256 a.2.

Lemma amounts_correspond d b s t prec :
  is_uint256 d → is_uint256 b → is_uint256 s → is_uint256 t → is_uint256 prec →
  corresponds amounts_ok
    (if negb (Z.sgn s =? 0) then
       _ ← fail_if (Z.sgn t =? 0) (Errorf "zero TVL with outstanding shares" []);
       price ← mulDivDown t sharePrecision s;
       _ ← fail_if (Z.sgn price =? 0) (Errorf "zero price per share" []);
       totalWithdraw ← mulDivDown b t s;
       newShares ← mulDivDown d s t;
       Ok (totalWithdraw, newShares)
     else
       _ ← fail_if (negb (Z.sgn b =? 0)) (Errorf "share burn with zero total shares" []);
       newShares ← mulDivDown d sharePrecision prec;
       Ok (0, newShares))
    (if negb (s =? 0) then
       _ ← C.require (negb (t =? 0));
       price ← C.mulDivDown t C.SHARE_PRECISION s;
       _ ← C.require (negb (price =? 0));
       w ← C.mulDivDown b t s;
       n ← C.mulDivDown d s t;
       Some (w, n)
     else
       _ ← C.require (b =? 0);
       n ← C.mulDivDown d C.SHARE_PRECISION prec;
       Some (0, n)).
Proof.
  intros Hd Hb Hs Ht Hp. assert (is_uint256 sharePrecision) by (by vm_compute).
  rewrite sgn_eqb_0. destruct (s =? 0); cbn [negb].
  - apply corresponds_guard; [by rewrite sgn_eqb_0|]. intros _.
    eapply corresponds_bind; [by apply mulDivDown_corresponds|].
    intros n ? [<- ?] _ _. cbn. split; [done|]. split; [by vm_compute|done].
  - apply corresponds_guard; [by rewrite sgn_eqb_0, negb_involutive|]. intros _.
    eapply corresponds_bind; [by apply mulDivDown_corresponds|].
    intros price ? [<- ?] _ _. apply corresponds_guard; [by rewrite sgn_eqb_0, negb_involutive|].
    intros _.
    eapply corresponds_bind; [by apply mulDivDown_corresponds|]. intros w ? [<- ?] _ _.
    eapply corresponds_bind; [by apply mulDivDown_corresponds|]. intros n ? [<- ?] _ _.
    done.
Qed.

Lemma settle_corresponds epoch d b s t dec loc :
  parent_vault.TotalDepositAmount epoch = Some d → parent_vault.TotalShareBurnAmount epoch = Some b →
  is_uint256 d → is_uint256 b → is_uint256 s → is_uint256 t → 0 <= dec <= 77 →
  corresponds same_accounting
    (calculateEpochClose epoch (Some s) (Some t) dec loc)
    (C.settle d b s t (10 ^ dec) loc).
Proof.
  intros Ed Eb Hd Hb Hs Ht Hdec. pose proof (pow10_uint256 dec Hdec) as Hprec.
  unfold calculateEpochClose, C.settle. rewrite Ed, Eb.
  rewrite (proj2 (Uint256_spec (Some d))), (proj2 (Uint256_spec (Some b))),
    (proj2 (Uint256_spec (Some s))), (proj2 (Uint256_spec (Some t))) by eauto.
  destruct (Z.ltb_spec 77 dec); [lia|].
  cbn [negb orb fail_if mbind res_bind deref].
  apply corresponds_guard; [by rewrite !sgn_eqb_0, negb_involutive|]. intros _.
  eapply corresponds_bind; [apply amounts_correspond; unfold is_uint256 in *; done || lia|].
  intros [w n] ? (<- & Hw & Hn) _ _. cbn [fst snd] in *.
  unfold is_uint256 in *. rewrite !BitLen_255 by lia. unfold C.toInt256.
  destruct (Z.ltb_spec d (2 ^ 255)), (Z.ltb_spec w (2 ^ 255));
    cbn [negb orb fail_if mbind res_bind option_bind]; try done.
  eapply (corresponds_bind (λ _ _, True)).
  { rewrite sgn_eqb_0. destruct (d =? 0); cbn [negb]; [done|].
    apply corresponds_check; [nia|]. intros _. apply corresponds_guard_end.
    rewrite negb_involutive. pose proof (cmp_lt_0 (n * 10 ^ dec) d).
    destruct (Z.ltb_spec (cmp (n * 10 ^ dec) d) 0), (Z.ltb_spec (n * 10 ^ dec) d); lia || done. }
  intros _ _ _ _ _.
  assert (corresponds (λ _ _, True)
    (if negb loc && (Z.sgn (d - w) <? 0)
     then fail_if (cmp (- (d - w)) (10 ^ dec) <? 0)
            (Errorf "remote withdrawal below minimum asset amount" []) else Ok ())
    (C.require (negb (negb loc && (d - w <? 0) && (- (d - w) <? 10 ^ dec))))) as Hmin.
  { assert ((Z.sgn (d - w) <? 0) = (d - w <? 0)) as -> by (destruct (Z.ltb_spec (d - w) 0); lia).
    destruct (negb loc && (d - w <? 0)); cbn [andb]; [|done].
    apply corresponds_guard_end. rewrite negb_involutive.
    pose proof (cmp_lt_0 (- (d - w)) (10 ^ dec)).
    destruct (Z.ltb_spec (cmp (- (d - w)) (10 ^ dec)) 0), (Z.ltb_spec (- (d - w)) (10 ^ dec));
      lia || done. }
  eapply corresponds_bind; [exact Hmin|]. intros _ _ _ _ _.
  apply corresponds_check; [lia|]. intros Hsn.
  unfold C.u256, is_uint256 in *.
  destruct (Z.ltb_spec (Z.sgn (s + n - b)) 0); case_bool_decide;
    cbn [fail_if mbind res_bind option_bind corresponds]; try done; try lia.
Qed.

(** The contract's view of an epoch the workflow has read. *)
Definition represents_epoch (epoch : parent_vault.TypesEpoch) (e : C.Epoch) : Prop :=
  parent_vault.TotalDepositAmount epoch = Some (C.totalDepositAmount e) ∧
  parent_vault.TotalShareBurnAmount epoch = Some (C.totalShareBurnAmount e) ∧
  parent_vault.TotalWithdrawClaimAmount epoch = Some (C.totalWithdrawClaimAmount e) ∧
  parent_vault.RemainingShareMintAmount epoch = Some (C.remainingShareMintAmount e) ∧
  parent_vault.OpenedAtTimestamp epoch = Some (C.openedAtTimestamp e) ∧
  parent_vault.Status epoch =
    match C.status e with C.NONE => 0 | C.OPEN => 1 | C.EXECUTING => 2 | C.CLAIMABLE => 3 end.

Record ValidContractEpoch (e : C.Epoch) : Prop := {
  ce_deposit : is_uint256 (C.totalDepositAmount e);
  ce_burn : is_uint256 (C.totalShareBurnAmount e);
  ce_withdraw : is_uint256 (C.totalWithdrawClaimAmount e);
  ce_mint : is_uint256 (C.remainingShareMintAmount e);
  ce_opened : is_uint256 (C.openedAtTimestamp e) }.

Lemma adjusted_bounds m d e : 0 <= m → 0 < e <= d → 0 <= m * e / d <= m.
Proof.
  intros Hm He. split; [apply Z.div_pos; nia|]. apply Z.div_le_upper_bound; nia.
Qed.

Lemma reconcile_corresponds epoch e s a :
  represents_epoch epoch e → ValidContractEpoch e → is_uint256 s → is_uint256 a →
  corresponds (λ mint r, mint = r.1 ∧ s - r.2 = C.remainingShareMintAmount e - mint)
    (reconcileEpochDeposit epoch (Some s) (Some a)) (C.reconcile e s a).
Proof.
  intros (Ed & _ & Ew & Em & _) [Hd _ Hw Hm _] Hs Ha.
  unfold reconcileEpochDeposit, C.reconcile. rewrite Ed, Ew, Em. cbn [forallb].
  rewrite (proj2 (Uint256_spec (Some (C.totalDepositAmount e)))),
    (proj2 (Uint256_spec (Some (C.totalWithdrawClaimAmount e)))),
    (proj2 (Uint256_spec (Some (C.remainingShareMintAmount e)))),
    (proj2 (Uint256_spec (Some s))), (proj2 (Uint256_spec (Some a))) by eauto.
  cbn [andb negb fail_if mbind res_bind deref]. unfold is_uint256 in *.
  generalize dependent (C.totalDepositAmount e). generalize dependent (C.totalWithdrawClaimAmount e).
  generalize dependent (C.remainingShareMintAmount e). intros m Em Hm w Ew Hw d Ed Hd.
  apply corresponds_guard.
  { destruct (Z.leb_spec (Z.sgn (d - w)) 0), (Z.ltb_spec w d); lia || done. }
  intros Hpos. apply Z.leb_gt, Z.sgn_pos_iff in Hpos.
  rewrite u256_spec by lia. destruct (Z.ltb_spec (d - w) (2 ^ 256)); [|lia].
  cbn [mbind option_bind]. pose proof (cmp_gt_0 a (d - w)). pose proof (cmp_eq_0 a (d - w)).
  apply corresponds_guard.
  { rewrite negb_involutive, sgn_eqb_0.
    destruct (Z.ltb_spec 0 (cmp a (d - w))), (Z.ltb_spec (d - w) a); lia || done. }
  rewrite orb_false_iff, Z.ltb_ge, sgn_eqb_0, Z.eqb_neq. intros [Ha0 Hle].
  assert (a <= d - w) by lia.
  destruct (Z.eqb_spec (cmp a (d - w)) 0), (Z.ltb_spec a (d - w)); try lia.
  { cbn. lia. }
  destruct (Z.eqb_spec d 0); [lia|]. cbn [mbind res_bind].
  set (f := d - (d - w - a)) in *. assert (0 < f <= d) by lia.
  rewrite (u256_spec f) by lia. destruct (Z.ltb_spec f (2 ^ 256)); [|lia].
  pose proof (adjusted_bounds m d f ltac:(lia) ltac:(lia)) as Hadj.
  rewrite Z.quot_div_nonneg by nia. cbn [mbind option_bind].
  unfold C.mulDivDown. destruct (Z.eqb_spec d 0); [done|].
  rewrite (u256_spec (m * f / d)) by lia.
  destruct (Z.ltb_spec (m * f / d) (2 ^ 256)); [|lia]. cbn [mbind option_bind].
  apply corresponds_guard; [by rewrite sgn_eqb_0, negb_involutive|]. intros _.
  rewrite u256_spec by lia. destruct (Z.ltb_spec (m - m * f / d) (2 ^ 256)); [|lia].
  cbn [mbind option_bind]. pose proof (cmp_gt_0 (m - m * f / d) s).
  unfold C.u256, is_uint256.
  destruct (Z.ltb_spec 0 (cmp (m - m * f / d) s)); case_bool_decide; cbn; lia || done.
Qed.

(** ** Properties *)

(** C6: The Go preflight and the contract's settlement arithmetic agree on
    every uint256 input and every asset precision: the preflight returns an
    error exactly when [_closeEpoch] would revert in its arithmetic, and
    otherwise both compute the same withdrawal, mint, net flow and supply. *)
Theorem calculateEpochClose_mirrors epoch d b s t dec loc
    (Ed : parent_vault.TotalDepositAmount epoch = Some d)
    (Eb : parent_vault.TotalShareBurnAmount epoch = Some b)
    (Hd : is_uint256 d) (Hb : is_uint256 b) (Hs : is_uint256 s) (Ht : is_uint256 t)
    (Hdec : 0 <= dec <= 77) :
  corresponds same_accounting
    (calculateEpochClose epoch (Some s) (Some t) dec loc)
    (C.settle d b s t (10 ^ dec) loc).
Proof. by apply settle_corresponds. Qed.

(** C37: [reconcileEpochDeposit] agrees with the adjustment of
    [_completeEpochDeposit] on every uint256 input: an error exactly when the
    contract reverts, otherwise the same mint amount, and the contract burns
    exactly the difference from the supply. *)
Theorem reconcileEpochDeposit_mirrors epoch e s a
    (HR : represents_epoch epoch e) (HE : ValidContractEpoch e)
    (Hs : is_uint256 s) (Ha : is_uint256 a) :
  corresponds (λ mint r, mint = r.1 ∧ s - r.2 = C.remainingShareMintAmount e - mint)
    (reconcileEpochDeposit epoch (Some s) (Some a)) (C.reconcile e s a).
Proof. by apply reconcile_corresponds. Qed.

(** ** Concrete epochs *)
Module SampleContract.
Abbreviation epoch := SampleAccounting.epoch.
Definition contract_epoch : C.Epoch := C.mkEpoch 1000000 0 0 5 1 C.OPEN.

Lemma calculateEpochClose_mirrors_witness :
  corresponds same_accounting
    (calculateEpochClose epoch (Some (10 ^ 18)) (Some 8000000) 6 false)
    (C.settle 1000000 0 (10 ^ 18) 8000000 (10 ^ 6) false).
Proof.
  apply (calculateEpochClose_mirrors epoch 1000000 0 (10 ^ 18) 8000000 6 false);
    unfold is_uint256; try reflexivity; lia.
Defined.

Lemma reconcileEpochDeposit_mirrors_witness :
  corresponds (λ mint r, mint = r.1 ∧ 10 ^ 18 - r.2 = C.remainingShareMintAmount contract_epoch - mint)
    (reconcileEpochDeposit epoch (Some (10 ^ 18)) (Some 700000))
    (C.reconcile contract_epoch (10 ^ 18) 700000).
Proof.
  apply (reconcileEpochDeposit_mirrors epoch contract_epoch (10 ^ 18) 700000).
  - vm_compute. repeat split.
  - split; vm_compute; (split; [discriminate|reflexivity]).
  - vm_compute. split; [discriminate|reflexivity].
  - vm_compute. split; [discriminate|reflexivity].
Defined.

End SampleContract.
