(* ===== verification/Epoch.v ===== *)
(** * Epoch handlers ([cre/workflow/internal/epoch/handlers.go])

    The three epoch triggers: closing an epoch on schedule, forwarding a net
    withdrawal to the strategy chain, and completing a net deposit. *)

From S2P Require Import Prelude GoText BigInt Ethereum Runtime Bindings ParentVault ChildVault Config State Report Accounting EpochContract.

#[local] Open Scope Z_scope.

Definition minEpochPeriod : Z := 3600.

(** ** The codec interfaces of the handlers *)
Record parentCodec := mkParentCodec {
  EncodeCloseEpochMethodCall : parent_vault.CloseEpochInput → res bytes;
  EncodeCompleteEpochDepositMethodCall : parent_vault.CompleteEpochDepositInput → res bytes;
  DecodeEpochWithdrawExecuting : option Log → res parent_vault.EpochWithdrawExecutingDecoded }.

Record childCodec := mkChildCodec {
  EncodeExecuteEpochWithdrawMethodCall : child_vault.ExecuteEpochWithdrawInput → res bytes;
  DecodeEpochDepositToStrategySuccess :
    option Log → res child_vault.EpochDepositToStrategySuccessDecoded }.

(** The package variables [newParentCodec] and [newChildCodec]. *)
Class EpochCodecs := {
  newParentCodec : res parentCodec;
  newChildCodec : res childCodec }.

(** The defaults: the generated bindings. *)
#[export] Instance generated_codecs `{GoEthereum} : EpochCodecs := {
  newParentCodec :=
    c ← parent_vault.NewCodec;
    Ok (mkParentCodec (parent_vault.EncodeCloseEpochMethodCall c)
          (parent_vault.EncodeCompleteEpochDepositMethodCall c)
          (parent_vault.DecodeEpochWithdrawExecuting c));
  newChildCodec :=
    c ← child_vault.NewCodec;
    Ok (mkChildCodec (child_vault.EncodeExecuteEpochWithdrawMethodCall c)
          (child_vault.DecodeEpochDepositToStrategySuccess c)) }.

Section Epoch.
Context `{GoUnicode, GoEthereum, EpochCodecs} {R : Type}.
Abbreviation M := (prog (cre_eff R)).

(** ** [onEpochCronTriggerWithDeps] *)
Definition onEpochCronTriggerWithDeps (config : Config) (snapshot : option Snapshot)
    (submit : Submitter) : M ExecutionResult :=
  pvCodec ← lift (wrap "init parent vault codec: %w" [] newParentCodec);
  parentCfg ← lift (FindParent (Evms config));
  s ← lift (deref snapshot);
  let parent := Parent s in
  let epoch := parent_vault.CurrentEpoch parent in
  let epochNonce := parent_vault.CurrentEpochNonce parent in
  if negb (parent_vault.State (parent_vault.Rebalance parent) =? RebalanceNone)
  then Noop "rebalance in progress" []
  else
    order ← lift (big_Cmp epochNonce (Some 1));
    if (0 <? order)
       && negb (parent_vault.Status (parent_vault.PreviousEpoch parent) =? EpochClaimable)
    then Noop "previous epoch not claimable" []
    else if negb (parent_vault.Status epoch =? EpochOpen) then Noop "epoch not open" []
    else if negb (PeriodElapsed (parent_vault.OpenedAtTimestamp epoch) (ObservedAt s) minEpochPeriod)
    then Noop "epoch too young" []
    else
      tvl ← lift (ActiveTVL s (ChainSelector parentCfg));
      let isLocal := parent_vault.ChainSelector
        (parent_vault.ActiveStrategy (parent_vault.Rebalance parent)) =? ChainSelector parentCfg in
      decimals ← lift (deref (AssetDecimals config));
      match calculateEpochClose epoch (parent_vault.TotalShares parent) tvl decimals isLocal with
      | Crash => Panic
      | Err err => Noop (Error err) []
      | Ok _ =>
          calldata ← lift (wrap "encode closeEpoch: %w" []
            (EncodeCloseEpochMethodCall pvCodec (parent_vault.mkCloseEpochInput epochNonce tvl)));
          _ ← prog_wrap "submit closeEpoch: %w" [] (submit parentCfg (ObservedAt s) calldata);
          _ ← act (ELog "Closed epoch" [("nonce", LBig epochNonce); ("tvl", LBig tvl)]%string);
          Ret (mkExecutionResult "closed epoch")
      end.

(** ** [matchesExecutingEpoch] *)
Definition matchesExecutingEpoch (parent : parent_vault.TypesParentOperationalState)
    (eventNonce : bigint) : res bool :=
  previousNonce ← big_Sub (parent_vault.CurrentEpochNonce parent) (Some 1);
  order ← big_Cmp (parent_vault.CurrentEpochNonce parent) (Some 1);
  if negb (0 <? order) then Ok false
  else
    same ← big_Cmp (Some previousNonce) eventNonce;
    Ok ((same =? 0)
        && (parent_vault.Status (parent_vault.PreviousEpoch parent) =? EpochExecuting)).

(** ** [onEpochWithdrawExecutingWithDeps] *)
Definition withdraw_amount_mismatch (expectedAmount : Z) (amount : bigint) : res bool :=
  if Z.sgn expectedAmount <=? 0 then Ok true
  else
    sign ← big_Sign amount;
    if sign <=? 0 then Ok true
    else order ← big_Cmp (Some expectedAmount) amount; Ok (negb (order =? 0)).

Definition onEpochWithdrawExecutingWithDeps (config : Config) (log : option Log)
    (snapshot : option Snapshot) (sourceChain : Z) (submit : Submitter) : M ExecutionResult :=
  pvCodec ← lift (wrap "init parent vault codec: %w" [] newParentCodec);
  evt ← lift (wrap "decode EpochWithdrawExecuting: %w" [] (DecodeEpochWithdrawExecuting pvCodec log));
  let nonce := parent_vault.EpochWithdrawExecuting_EpochNonce evt in
  let amount := parent_vault.EpochWithdrawExecuting_Amount evt in
  parentCfg ← lift (FindParent (Evms config));
  if negb (MatchSource config log sourceChain (ChainSelector parentCfg))
  then Noop "wrong epoch event source" []
  else
    s ← lift (deref snapshot);
    let parent := Parent s in
    let rebalance := parent_vault.Rebalance parent in
    let active := parent_vault.ChainSelector (parent_vault.ActiveStrategy rebalance) in
    if negb (parent_vault.State rebalance =? RebalanceNone) then Noop "rebalance in progress" []
    else
      matches ← lift (matchesExecutingEpoch parent nonce);
      if negb matches then Noop "stale epoch event" []
      else
        expectedAmount ← lift (big_Sub
          (parent_vault.TotalWithdrawClaimAmount (parent_vault.PreviousEpoch parent))
          (parent_vault.TotalDepositAmount (parent_vault.PreviousEpoch parent)));
        mismatch ← lift (withdraw_amount_mismatch expectedAmount amount);
        if (mismatch : bool) then Noop "epoch withdrawal amount mismatch" []
        else if active =? ChainSelector parentCfg
        then Noop "active strategy on parent; no action required" [("nonce"%string, LBig nonce)]
        else
          cvCodec ← lift (wrap "init child vault codec: %w" [] newChildCodec);
          stratCfg ← lift (wrap "find strategy chain: %w" []
            (FindEvmConfigByChainSelector (Evms config) active));
          let child := child_state s (ChainSelector stratCfg) in
          handled ← lift (big_Cmp nonce (child_vault.LastHandledEpochNonce child));
          if handled <=? 0 then Noop "epoch already handled" []
          else
            calldata ← lift (wrap "encode executeEpochWithdraw: %w" []
              (EncodeExecuteEpochWithdrawMethodCall cvCodec
                 (child_vault.mkExecuteEpochWithdrawInput nonce amount)));
            _ ← prog_wrap "submit executeEpochWithdraw: %w" []
                  (submit stratCfg (ObservedAt s) calldata);
            _ ← act (ELog "Submitted executeEpochWithdraw"
                   [("nonce", LBig nonce); ("amount", LBig amount);
                    ("strategyChain", LStr (ChainName stratCfg))]%string);
            Ret (mkExecutionResult "submitted executeEpochWithdraw").

(** ** [onEpochDepositToStrategySuccessWithDeps] *)
Definition onEpochDepositToStrategySuccessWithDeps (config : Config) (log : option Log)
    (snapshot : option Snapshot) (sourceChain : Z) (submit : Submitter) : M ExecutionResult :=
  cvCodec ← lift (wrap "init child vault codec: %w" [] newChildCodec);
  evt ← lift (wrap "decode EpochDepositToStrategySuccess: %w" []
    (DecodeEpochDepositToStrategySuccess cvCodec log));
  let nonce := child_vault.EpochDepositToStrategySuccess_EpochNonce evt in
  let amount := child_vault.EpochDepositToStrategySuccess_Amount evt in
  parentCfg ← lift (FindParent (Evms config));
  s ← lift (deref snapshot);
  let parent := Parent s in
  let active := parent_vault.ChainSelector
    (parent_vault.ActiveStrategy (parent_vault.Rebalance parent)) in
  if (active =? ChainSelector parentCfg) || negb (MatchSource config log sourceChain active)
  then Noop "wrong epoch deposit destination" []
  else
    matches ← lift (matchesExecutingEpoch parent nonce);
    if negb matches then Noop "stale epoch event" []
    else
      match reconcileEpochDeposit (parent_vault.PreviousEpoch parent)
              (parent_vault.TotalShares parent) amount with
      | Crash => Panic
      | Err err => Noop (Error err) []
      | Ok _ =>
          pvCodec ← lift (wrap "init parent vault codec: %w" [] newParentCodec);
          calldata ← lift (wrap "encode completeEpochDeposit: %w" []
            (EncodeCompleteEpochDepositMethodCall pvCodec
               (parent_vault.mkCompleteEpochDepositInput nonce amount)));
          _ ← prog_wrap "submit completeEpochDeposit: %w" []
                (submit parentCfg (ObservedAt s) calldata);
          _ ← act (ELog "Completed epoch deposit"
                 [("nonce", LBig nonce); ("amount", LBig amount)]%string);
          Ret (mkExecutionResult "completed epoch deposit")
      end.

(** ** The exported handlers *)
Definition OnEpochCronTrigger (config : Config) (snapshot : option Snapshot) : M ExecutionResult :=
  onEpochCronTriggerWithDeps config snapshot SubmitReport.
Definition OnEpochWithdrawExecuting (config : Config) (log : option Log)
    (snapshot : option Snapshot) (sourceChain : Z) : M ExecutionResult :=
  onEpochWithdrawExecutingWithDeps config log snapshot sourceChain SubmitReport.
Definition OnEpochDepositToStrategySuccess (config : Config) (log : option Log)
    (snapshot : option Snapshot) (sourceChain : Z) : M ExecutionResult :=
  onEpochDepositToStrategySuccessWithDeps config log snapshot sourceChain SubmitReport.
End Epoch.

(** ** What the handlers need of the codecs *)
Class EpochCodecLaws `{EpochCodecs} : Prop := {
  newParentCodec_no_crash : newParentCodec ≠ Crash;
  newChildCodec_no_crash : newChildCodec ≠ Crash;
  close_no_crash c n t : newParentCodec = Ok c →
    EncodeCloseEpochMethodCall c (parent_vault.mkCloseEpochInput (Some n) (Some t)) ≠ Crash;
  complete_no_crash c n a : newParentCodec = Ok c →
    EncodeCompleteEpochDepositMethodCall c
      (parent_vault.mkCompleteEpochDepositInput (Some n) (Some a)) ≠ Crash;
  withdraw_total c log : newParentCodec = Ok c → Log_Topics log ≠ [] →
    DecodeEpochWithdrawExecuting c (Some log) ≠ Crash;
  withdraw_decoded c log evt : newParentCodec = Ok c →
    DecodeEpochWithdrawExecuting c log = Ok evt →
    ∃ n a, evt = parent_vault.mkEpochWithdrawExecutingDecoded (Some n) (Some a)
      ∧ is_uint256 n ∧ is_uint256 a;
  execute_no_crash c n a : newChildCodec = Ok c →
    EncodeExecuteEpochWithdrawMethodCall c
      (child_vault.mkExecuteEpochWithdrawInput (Some n) (Some a)) ≠ Crash;
  deposit_total c log : newChildCodec = Ok c → Log_Topics log ≠ [] →
    DecodeEpochDepositToStrategySuccess c (Some log) ≠ Crash;
  deposit_decoded c log evt : newChildCodec = Ok c →
    DecodeEpochDepositToStrategySuccess c log = Ok evt →
    ∃ n a, evt = child_vault.mkEpochDepositToStrategySuccessDecoded (Some n) (Some a)
      ∧ is_uint256 n ∧ is_uint256 a }.

#[export] Instance generated_codecs_laws `{HL : GoEthereumLaws} : EpochCodecLaws.
Proof.
  assert (∀ c log, Log_Topics log ≠ [] →
    parent_vault.DecodeEpochWithdrawExecuting c (Some log) ≠ Crash) as HP.
  { intros c log Ht. apply bind_no_crash; [by apply decode_event_total|done]. }
  assert (∀ c log, Log_Topics log ≠ [] →
    child_vault.DecodeEpochDepositToStrategySuccess c (Some log) ≠ Crash) as HC.
  { intros c log Ht. apply bind_no_crash; [by apply decode_event_total|done]. }
  pose proof parent_vault.ParentCodec_no_crash. pose proof child_vault.ChildCodec_no_crash.
  split; unfold newParentCodec, newChildCodec, generated_codecs;
    try (by apply bind_no_crash);
    intros; match goal with H : _ = Ok _ |- _ => apply res_bind_Ok in H as (? & ? & [= <-]) end;
    cbn [EncodeCloseEpochMethodCall EncodeCompleteEpochDepositMethodCall
      DecodeEpochWithdrawExecuting EncodeExecuteEpochWithdrawMethodCall
      DecodeEpochDepositToStrategySuccess] in *;
    auto; try (apply abi_Pack_no_crash; repeat constructor).
  - by eapply parent_vault.DecodeEpochWithdrawExecuting_ok.
  - by eapply child_vault.DecodeEpochDepositToStrategySuccess_ok.
Qed.

(** ** The plans: what each handler submits, and when *)
Section Plans.
Context `{EpochCodecs, GoEthereum} (config : Config) (s : Snapshot).

Definition activeChain : Z := parent_vault.ChainSelector
  (parent_vault.ActiveStrategy (parent_vault.Rebalance (Parent s))).

(** The previous epoch is settled: epoch 1 has none. *)
Definition previous_settled (n : Z) : Prop :=
  1 < n → parent_vault.Status (parent_vault.PreviousEpoch (Parent s)) = EpochClaimable.

Definition close_plan (target : EvmConfig) (calldata : bytes) : Prop :=
  ∃ codec n o tvl decimals accounting,
    newParentCodec = Ok codec ∧
    FindParent (Evms config) = Ok target ∧
    parent_vault.State (parent_vault.Rebalance (Parent s)) = RebalanceNone ∧
    parent_vault.CurrentEpochNonce (Parent s) = Some n ∧ previous_settled n ∧
    parent_vault.Status (parent_vault.CurrentEpoch (Parent s)) = EpochOpen ∧
    parent_vault.OpenedAtTimestamp (parent_vault.CurrentEpoch (Parent s)) = Some o ∧
    o + minEpochPeriod <= ObservedAt s ∧
    ActiveTVL s (ChainSelector target) = Ok tvl ∧
    AssetDecimals config = Some decimals ∧
    calculateEpochClose (parent_vault.CurrentEpoch (Parent s))
      (parent_vault.TotalShares (Parent s)) tvl decimals (activeChain =? ChainSelector target)
      = Ok accounting ∧
    EncodeCloseEpochMethodCall codec (parent_vault.mkCloseEpochInput (Some n) tvl) = Ok calldata.

(** The event's epoch is the last closed one and is still executing. *)
Definition executing (n : Z) : Prop :=
  parent_vault.CurrentEpochNonce (Parent s) = Some (n + 1) ∧ 0 < n ∧
  parent_vault.Status (parent_vault.PreviousEpoch (Parent s)) = EpochExecuting.

Definition withdraw_plan (log : option Log) (source : Z) (target : EvmConfig) (calldata : bytes)
    : Prop :=
  ∃ pcodec ccodec n a handled p w d,
    newParentCodec = Ok pcodec ∧ newChildCodec = Ok ccodec ∧
    DecodeEpochWithdrawExecuting pcodec log
      = Ok (parent_vault.mkEpochWithdrawExecutingDecoded (Some n) (Some a)) ∧
    FindParent (Evms config) = Ok p ∧
    MatchSource config log source (ChainSelector p) = true ∧
    parent_vault.State (parent_vault.Rebalance (Parent s)) = RebalanceNone ∧
    executing n ∧
    parent_vault.TotalWithdrawClaimAmount (parent_vault.PreviousEpoch (Parent s)) = Some w ∧
    parent_vault.TotalDepositAmount (parent_vault.PreviousEpoch (Parent s)) = Some d ∧
    0 < a ∧ w - d = a ∧
    activeChain ≠ ChainSelector p ∧
    FindEvmConfigByChainSelector (Evms config) activeChain = Ok target ∧
    child_vault.LastHandledEpochNonce (child_state s (ChainSelector target)) = Some handled ∧
    handled < n ∧
    EncodeExecuteEpochWithdrawMethodCall ccodec
      (child_vault.mkExecuteEpochWithdrawInput (Some n) (Some a)) = Ok calldata.

Definition complete_plan (log : option Log) (source : Z) (target : EvmConfig) (calldata : bytes)
    : Prop :=
  ∃ pcodec ccodec n a mint,
    newParentCodec = Ok pcodec ∧ newChildCodec = Ok ccodec ∧
    DecodeEpochDepositToStrategySuccess ccodec log
      = Ok (child_vault.mkEpochDepositToStrategySuccessDecoded (Some n) (Some a)) ∧
    FindParent (Evms config) = Ok target ∧
    activeChain ≠ ChainSelector target ∧
    MatchSource config log source activeChain = true ∧
    executing n ∧
    reconcileEpochDeposit (parent_vault.PreviousEpoch (Parent s))
      (parent_vault.TotalShares (Parent s)) (Some a) = Ok mint ∧
    EncodeCompleteEpochDepositMethodCall pcodec
      (parent_vault.mkCompleteEpochDepositInput (Some n) (Some a)) = Ok calldata.
End Plans.

(** ** The handlers follow their plans *)
Section HandlerSpecs.
Context `{GoUnicode, HL : GoEthereumLaws, HC : EpochCodecLaws} {R : Type}.
Context (submit : @Submitter R) `{!SubmitterLaws submit}.
Context (config : Config) (s : Snapshot).
Context (HV : ValidConfig config) (HTy : TypedConfig config).
Context (HS : ValidSnapshot s config) (HObs : in_int64 (ObservedAt s)).

Ltac refute :=
  refute_plan ltac:(fun H => unfold close_plan, withdraw_plan, complete_plan in H)
    ltac:(unfold executing, previous_settled in *).

Lemma target_gas e : e ∈ Evms config → in_uint64 (GasLimit e).
Proof. intros He. pose proof (tc_gas _ HTy) as Hg. rewrite Forall_forall in Hg. auto. Qed.

Lemma epoch_cron_seg h :
  wp_seg typed_host h (onEpochCronTriggerWithDeps config (Some s) submit)
    (decided (close_plan config s) (ObservedAt s) "closed epoch").
Proof.
  pose proof newParentCodec_no_crash. pose proof (FindParent_no_crash (Evms config)).
  unfold onEpochCronTriggerWithDeps. seg_bind; [done|pose proof (wrap_Err _ _ _ _ He); refute|].
  seg_bind; [done|refute|]. rename a into codec, a0 into target.
  cbn [deref lift mbind prog_bind prog_bind_def].
  destruct (Z.eqb_spec (parent_vault.State (parent_vault.Rebalance (Parent s))) RebalanceNone);
    cbn [negb]; [|apply decided_noop; refute].
  destruct (vs_epoch_nonce _ _ HS) as (n & Hn & Hpos). rewrite Hn.
  cbn [big_Cmp lift mbind prog_bind prog_bind_def].
  destruct (_ && _) eqn:Hprev.
  { apply decided_noop. apply andb_true_iff in Hprev as [Hlt Hst].
    rewrite Z.ltb_lt, cmp_gt_0 in Hlt.
    apply negb_true_iff, Z.eqb_neq in Hst. refute. }
  assert (previous_settled s n) as Hsettled.
  { intros Hlt. rewrite <-(cmp_gt_0 n 1), <-Z.ltb_lt in Hlt. rewrite Hlt in Hprev.
    cbn [andb] in Hprev.
    by apply negb_false_iff, Z.eqb_eq in Hprev. }
  clear Hprev.
  destruct (Z.eqb_spec (parent_vault.Status (parent_vault.CurrentEpoch (Parent s))) EpochOpen);
    cbn [negb]; [|apply decided_noop; refute].
  destruct (PeriodElapsed _ _ _) eqn:Hper; cbn [negb].
  2:{ apply decided_noop. rewrite <-not_true_iff_false, PeriodElapsed_spec in Hper.
      intros ? ? (?&?&o&?&?&?&_&_&_&_&_&_&Ho&Hle&_). apply Hper. exists o.
      destruct (vs_current _ _ HS) as [Hints _]. unfold epoch_integers in Hints.
      rewrite !Forall_cons in Hints. destruct Hints as (_&_&_&_&_&_&_&(o'&Ho'&Hu)&_).
      pose proof (vs_time _ _ HS). simplify_eq. done. }
  apply PeriodElapsed_spec in Hper as (o & Ho & _ & _ & Hle).
  seg_bind; [unfold ActiveTVL; by repeat case_match|refute|]. rename a into tvl.
  destruct (valid_decimals _ HV) as (decimals & Hdec & _). rewrite Hdec.
  cbn [deref lift mbind prog_bind prog_bind_def].
  pose proof (calculateEpochClose_no_crash (parent_vault.CurrentEpoch (Parent s))
    (parent_vault.TotalShares (Parent s)) tvl decimals (activeChain s =? ChainSelector target))
    as Hcalc_nc.
  fold (activeChain s). destruct (calculateEpochClose _ _ _ _ _) as [acc|err|] eqn:Hcalc;
    [|apply decided_noop; refute|done].
  assert (∃ t, tvl = Some t) as [t ->].
  { destruct tvl; [eauto|]. unfold calculateEpochClose in Hcalc.
    cbn [Uint256 negb] in Hcalc. rewrite orb_true_r in Hcalc. done. }
  seg_bind; [by apply close_no_crash|pose proof (wrap_Err _ _ _ _ He); refute|].
  apply (decided_submit submit); [|exact HObs|apply target_gas; by apply FindParent_Ok in Ha0 as [? _]].
  exists codec, n, o, (Some t), decimals, acc. done.
Qed.

Lemma matchesExecutingEpoch_spec n :
  ∃ b, matchesExecutingEpoch (Parent s) (Some n) = Ok b ∧ (b = true ↔ executing s n).
Proof.
  destruct (vs_epoch_nonce _ _ HS) as (c & Hc & Hpos). unfold matchesExecutingEpoch, executing.
  rewrite Hc. cbn [big_Sub big_Cmp deref mbind res_bind].
  pose proof (cmp_gt_0 c 1). pose proof (cmp_eq_0 (c - 1) n).
  destruct (Z.ltb_spec 0 (cmp c 1)); cbn [negb].
  - eexists. split; [done|]. rewrite andb_true_iff, !Z.eqb_eq. split.
    + intros [? ?]. split_and!; [f_equal; lia|lia|done].
    + intros ([= ->] & ? & ?). split; [|done]. lia.
  - eexists. split; [done|]. split; [done|]. intros ([= ->] & ? & _). lia.
Qed.

Lemma withdraw_amount_mismatch_spec expected a :
  ∃ b, withdraw_amount_mismatch expected (Some a) = Ok b ∧
    (b = false ↔ 0 < a ∧ expected = a).
Proof.
  unfold withdraw_amount_mismatch. cbn [big_Sign big_Cmp deref mbind res_bind].
  pose proof (cmp_eq_0 expected a).
  destruct (Z.leb_spec (Z.sgn expected) 0); [eexists; split; [done|]; split; [done|lia]|].
  destruct (Z.leb_spec (Z.sgn a) 0); [eexists; split; [done|]; split; [done|lia]|].
  eexists. split; [done|]. rewrite negb_false_iff, Z.eqb_eq. lia.
Qed.

Lemma previous_integers :
  ∃ d w m, parent_vault.TotalDepositAmount (parent_vault.PreviousEpoch (Parent s)) = Some d ∧
    parent_vault.TotalWithdrawClaimAmount (parent_vault.PreviousEpoch (Parent s)) = Some w ∧
    parent_vault.RemainingShareMintAmount (parent_vault.PreviousEpoch (Parent s)) = Some m ∧
    is_uint256 d ∧ is_uint256 w ∧ is_uint256 m.
Proof.
  destruct (vs_previous _ _ HS) as [Hints _]. unfold epoch_integers in Hints.
  rewrite !Forall_cons in Hints.
  destruct Hints as ((d&?&?)&_&(w&?&?)&_&(m&?&?)&_&_&_&_). eauto 10.
Qed.

Lemma child_nonce p e :
  FindParent (Evms config) = Ok p → e ∈ Evms config → ChainSelector e ≠ ChainSelector p →
  ∃ handled, child_vault.LastHandledEpochNonce (child_state s (ChainSelector e)) = Some handled.
Proof.
  intros Hp He Hne. destruct (ValidConfig_lookup _ HV) as ((p' & Hp' & Hpar) & _ & _).
  assert (p' = p) as -> by congruence.
  destruct (IsParent e) eqn:Hipe; [apply Hpar in Hipe; [congruence|done]|].
  destruct (vs_children _ _ HS e He Hipe) as (c & Hc & [(z & Hz & _) _ _ _]).
  exists z. unfold child_state. by rewrite Hc.
Qed.

Lemma epoch_withdraw_seg h log source (HL' : Log_Topics log ≠ []) :
  wp_seg typed_host h
    (onEpochWithdrawExecutingWithDeps config (Some log) (Some s) source submit)
    (decided (withdraw_plan config s (Some log) source) (ObservedAt s)
       "submitted executeEpochWithdraw").
Proof.
  pose proof newParentCodec_no_crash. pose proof newChildCodec_no_crash.
  pose proof (FindParent_no_crash (Evms config)).
  unfold onEpochWithdrawExecutingWithDeps.
  seg_bind; [done|pose proof (wrap_Err _ _ _ _ He); refute|]. rename a into pcodec.
  seg_bind; [by apply withdraw_total|pose proof (wrap_Err _ _ _ _ He); refute|].
  destruct (withdraw_decoded _ _ _ Ha Ha0) as (n & a' & -> & Hn & Ha').
  cbn [parent_vault.EpochWithdrawExecuting_EpochNonce parent_vault.EpochWithdrawExecuting_Amount].
  seg_bind; [done|refute|]. rename a into p.
  destruct (MatchSource config (Some log) source (ChainSelector p)) eqn:Hms; cbn [negb];
    [|apply decided_noop; refute].
  cbn [deref lift mbind prog_bind prog_bind_def]. fold (activeChain s).
  destruct (Z.eqb_spec (parent_vault.State (parent_vault.Rebalance (Parent s))) RebalanceNone)
    as [Hst|Hst]; cbn [negb]; [|apply decided_noop; refute].
  destruct (matchesExecutingEpoch_spec n) as (b & -> & Hb).
  cbn [lift mbind prog_bind prog_bind_def].
  destruct b; cbn [negb]; [|apply decided_noop; assert (¬ executing s n) by (by intros ?%Hb); refute].
  destruct previous_integers as (d & w & m & Hd & Hw & _ & _ & _ & _). rewrite Hd, Hw.
  cbn [big_Sub deref lift mbind prog_bind prog_bind_def res_bind].
  destruct (withdraw_amount_mismatch_spec (w - d) a') as (mm & -> & Hmm).
  cbn [lift mbind prog_bind prog_bind_def].
  destruct mm; [apply decided_noop; refute|].
  destruct (Z.eqb_spec (activeChain s) (ChainSelector p)) as [Hac|Hac];
    [apply decided_noop; refute|].
  seg_bind; [done|pose proof (wrap_Err _ _ _ _ He); refute|]. rename a into ccodec.
  seg_bind; [apply FindEvmConfig_no_crash|pose proof (wrap_Err _ _ _ _ He); refute|].
  rename a into target.
  pose proof Ha3 as Htarget. apply FindEvmConfig_Ok in Htarget as [Hin Hsel].
  destruct (child_nonce p target) as (handled & Hh); [done|done|by rewrite Hsel|].
  rewrite Hh. cbn [big_Cmp deref lift mbind prog_bind prog_bind_def res_bind].
  pose proof (cmp_le_0 n handled).
  destruct (Z.leb_spec (cmp n handled) 0); [apply decided_noop; refute|].
  seg_bind; [by apply execute_no_crash|pose proof (wrap_Err _ _ _ _ He); refute|].
  apply (decided_submit submit); [|exact HObs|by apply target_gas].
  exists pcodec, ccodec, n, a', handled, p, w, d.
  destruct (proj1 Hmm eq_refl). split_and!; try done; [by apply Hb|lia].
Qed.

Lemma epoch_complete_seg h log source (HL' : Log_Topics log ≠ []) :
  wp_seg typed_host h
    (onEpochDepositToStrategySuccessWithDeps config (Some log) (Some s) source submit)
    (decided (complete_plan config s (Some log) source) (ObservedAt s)
       "completed epoch deposit").
Proof.
  pose proof newParentCodec_no_crash. pose proof newChildCodec_no_crash.
  pose proof (FindParent_no_crash (Evms config)).
  unfold onEpochDepositToStrategySuccessWithDeps.
  seg_bind; [done|pose proof (wrap_Err _ _ _ _ He); refute|]. rename a into ccodec.
  seg_bind; [by apply deposit_total|pose proof (wrap_Err _ _ _ _ He); refute|].
  destruct (deposit_decoded _ _ _ Ha Ha0) as (n & a' & -> & Hn & Ha').
  cbn [child_vault.EpochDepositToStrategySuccess_EpochNonce
    child_vault.EpochDepositToStrategySuccess_Amount].
  seg_bind; [done|refute|]. rename a into p.
  cbn [deref lift mbind prog_bind prog_bind_def]. fold (activeChain s).
  destruct (Z.eqb_spec (activeChain s) (ChainSelector p)) as [Hac|Hac]; cbn [orb];
    [apply decided_noop; refute|].
  destruct (MatchSource config (Some log) source (activeChain s)) eqn:Hms; cbn [negb];
    [|apply decided_noop; refute].
  destruct (matchesExecutingEpoch_spec n) as (b & -> & Hb).
  cbn [lift mbind prog_bind prog_bind_def].
  destruct b; cbn [negb]; [|apply decided_noop; assert (¬ executing s n) by (by intros ?%Hb); refute].
  pose proof (reconcileEpochDeposit_no_crash (parent_vault.PreviousEpoch (Parent s))
    (parent_vault.TotalShares (Parent s)) (Some a')) as Hnc.
  destruct (reconcileEpochDeposit _ _ _) as [mint|err|] eqn:Hrec;
    [|apply decided_noop; refute|done].
  seg_bind; [done|pose proof (wrap_Err _ _ _ _ He); refute|]. rename a into pcodec.
  seg_bind; [by apply complete_no_crash|pose proof (wrap_Err _ _ _ _ He); refute|].
  apply (decided_submit submit); [|exact HObs|apply target_gas; by apply FindParent_Ok in Ha1 as [? _]].
  exists pcodec, ccodec, n, a', mint. destruct (proj1 Hb eq_refl) as (? & ? & ?). done.
Qed.
End HandlerSpecs.

(** ** The handlers against the contract *)

(** The contract storage that the snapshot was read from. *)
Record represents (config : Config) (s : Snapshot) (p : EvmConfig) (st : C.Storage) : Prop := {
  rep_parent : FindParent (Evms config) = Ok p;
  rep_nonce : parent_vault.CurrentEpochNonce (Parent s) = Some (C.s_epochNonce st);
  rep_rebalance : parent_vault.State (parent_vault.Rebalance (Parent s))
    = if C.rebalancing st then Rebalancing else RebalanceNone;
  rep_current : represents_epoch (parent_vault.CurrentEpoch (Parent s)) (C.current st);
  rep_previous : represents_epoch (parent_vault.PreviousEpoch (Parent s)) (C.previous st);
  rep_shares : parent_vault.TotalShares (Parent s) = Some (C.s_totalShares st);
  rep_precision : ∃ d, AssetDecimals config = Some d ∧ C.assetPrecision st = 10 ^ d;
  rep_local : C.isLocalStrategy st = (activeChain s =? ChainSelector p) }.

Lemma valid_contract_epoch epoch e :
  ValidEpoch epoch → represents_epoch epoch e → ValidContractEpoch e.
Proof.
  intros [Hints _] (E1 & E2 & E3 & E4 & E5 & _). unfold epoch_integers, uint256_ptr in Hints.
  rewrite !Forall_cons in Hints.
  destruct Hints as ((?&?&?)&(?&?&?)&(?&?&?)&_&(?&?&?)&_&_&(?&?&?)&_).
  split; congruence.
Qed.

Lemma status_is epoch e :
  represents_epoch epoch e →
  (parent_vault.Status epoch = EpochOpen ↔ C.status e = C.OPEN) ∧
  (parent_vault.Status epoch = EpochExecuting ↔ C.status e = C.EXECUTING) ∧
  (parent_vault.Status epoch = EpochClaimable ↔ C.status e = C.CLAIMABLE).
Proof.
  intros (_ & _ & _ & _ & _ & ->). unfold EpochOpen, EpochExecuting, EpochClaimable.
  destruct (C.status e); split_and!; split; done || lia.
Qed.

Lemma close_guards_spec st timestamp n :
  (∃ u, C.close_guards st timestamp n = Some u) ↔
  n = C.s_epochNonce st ∧ C.rebalancing st = false ∧ is_uint256 (C.s_epochNonce st - 1) ∧
  (C.s_epochNonce st = 1 ∨ C.status (C.previous st) = C.CLAIMABLE) ∧
  C.status (C.current st) = C.OPEN ∧
  is_uint256 (C.openedAtTimestamp (C.current st) + C.MIN_EPOCH_PERIOD) ∧
  C.openedAtTimestamp (C.current st) + C.MIN_EPOCH_PERIOD <= timestamp.
Proof.
  unfold C.close_guards. setoid_rewrite require_bind. setoid_rewrite require_bind.
  setoid_rewrite u256_bind. setoid_rewrite require_bind. setoid_rewrite require_bind.
  setoid_rewrite u256_bind. setoid_rewrite require_Some.
  setoid_rewrite orb_true_iff. setoid_rewrite negb_true_iff. setoid_rewrite Z.eqb_eq.
  setoid_rewrite Z.leb_le. setoid_rewrite bool_decide_eq_true. split.
  - intros (_ & ? & ? & ? & [?|?] & ? & ? & ?); split_and!; try done; [left; lia|by right].
  - intros (? & ? & ? & [?|?] & ? & ? & ?); exists tt; split_and!; try done; [left; lia|by right].
Qed.

Section ContractSpecs.
Context `{GoUnicode, HL : GoEthereumLaws, HC : EpochCodecLaws} {R : Type}.
Context (config : Config) (s : Snapshot) (p : EvmConfig) (st : C.Storage).
Context (HV : ValidConfig config) (HTy : TypedConfig config) (HS : ValidSnapshot s config).
Context (HObs : in_int64 (ObservedAt s)) (HRep : represents config s p st).

Lemma previous_settled_iff :
  previous_settled s (C.s_epochNonce st) ↔
  C.s_epochNonce st = 1 ∨ C.status (C.previous st) = C.CLAIMABLE.
Proof.
  destruct (vs_epoch_nonce _ _ HS) as (n & Hn & Hpos).
  rewrite (rep_nonce _ _ _ _ HRep) in Hn. injection Hn as <-.
  destruct (status_is _ _ (rep_previous _ _ _ _ HRep)) as (_ & _ & <-).
  unfold previous_settled. split.
  - intros Hs. destruct (Z.eq_dec (C.s_epochNonce st) 1); [by left|right; apply Hs; lia].
  - intros [?|?]; [lia|done].
Qed.

(** The plan exists exactly when the contract would accept the call. *)
Lemma close_plan_contract codec t calldata :
  newParentCodec = Ok codec → ActiveTVL s (ChainSelector p) = Ok (Some t) → is_uint256 t →
  EncodeCloseEpochMethodCall codec
    (parent_vault.mkCloseEpochInput (Some (C.s_epochNonce st)) (Some t)) = Ok calldata →
  ((∃ r, C.closeEpoch st (ObservedAt s) (C.s_epochNonce st) t = Some r) →
     close_plan config s p calldata) ∧
  (∀ target cd, close_plan config s target cd →
     target = p ∧ cd = calldata ∧
     ∃ r, C.closeEpoch st (ObservedAt s) (C.s_epochNonce st) t = Some r).
Proof.
  intros Hcodec Htvl Ht Henc.
  pose proof (rep_current _ _ _ _ HRep) as Hcur.
  destruct (valid_contract_epoch _ _ (vs_current _ _ HS) Hcur) as [Hd Hb _ _ Ho].
  pose proof Hcur as (Ed & Eb & _ & _ & Eo & _).
  destruct (rep_precision _ _ _ _ HRep) as (dec & Hdec & Hprec).
  destruct (valid_decimals _ HV) as (dec' & Hdec' & Hle).
  assert (dec' = dec) as -> by congruence.
  pose proof (tc_decimals _ HTy dec Hdec) as Hdec0.
  destruct (vs_shares _ _ HS) as (sh & Hsh & Hshu).
  assert (sh = C.s_totalShares st) as -> by (rewrite (rep_shares _ _ _ _ HRep) in Hsh; congruence).
  pose proof (settle_corresponds _ _ _ (C.s_totalShares st) t dec
    (activeChain s =? ChainSelector p) Ed Eb Hd Hb Hshu Ht ltac:(lia)) as Hset.
  pose proof (close_guards_spec st (ObservedAt s) (C.s_epochNonce st)) as Hg.
  assert (is_uint256 (C.s_epochNonce st - 1)) as Hn1.
  { destruct (vs_epoch_nonce _ _ HS) as (n & Hn & Hpos). rewrite (rep_nonce _ _ _ _ HRep) in Hn.
    injection Hn as <-. unfold is_uint256. lia. }
  destruct (status_is _ _ Hcur) as (Hopen & _).
  pose proof (rep_rebalance _ _ _ _ HRep) as Hreb. unfold C.closeEpoch.
  rewrite Hprec, (rep_local _ _ _ _ HRep). split.
  - intros (r & Hr). destruct (C.close_guards _ _ _) as [u|] eqn:Hgu; [|done].
    cbn [mbind option_bind] in Hr.
    destruct (proj1 Hg (ex_intro _ u eq_refl)) as (_ & Hnr & _ & Hprev & Hst & _ & Hper).
    rewrite Hnr in Hreb. destruct (C.settle _ _ _ _ _ _) as [acc|]; [|done].
    destruct (calculateEpochClose _ _ _ _ _) as [a|e|] eqn:Hcalc; try done.
    exists codec, (C.s_epochNonce st), (C.openedAtTimestamp (C.current st)), (Some t), dec, a.
    rewrite (rep_shares _ _ _ _ HRep). split_and!; try done.
    + apply HRep. + apply HRep. + by apply previous_settled_iff. + by apply Hopen.
  - intros target cd (codec' & n & o & tvl & dec' & acc & Hc' & Hp' & Hr' & Hn' & Hps & Hst & Ho'
      & Hper & Htvl' & Hdec1 & Hcalc & Henc').
    assert (target = p) as -> by (pose proof (rep_parent _ _ _ _ HRep); congruence).
    rewrite (rep_nonce _ _ _ _ HRep) in Hn'. rewrite (rep_shares _ _ _ _ HRep) in Hcalc.
    simplify_eq. rewrite Hcodec in Hc'. injection Hc' as <-. rewrite Htvl in Htvl'.
    injection Htvl' as <-. rewrite Henc in Henc'. injection Henc' as ->.
    split; [done|]. split; [done|].
    rewrite Hcalc in Hset. destruct (C.settle _ _ _ _ _ _) as [r|]; [|done].
    assert (∃ u, C.close_guards st (ObservedAt s) (C.s_epochNonce st) = Some u) as [u ->];
      [|cbn; eauto].
    apply Hg. rewrite <-previous_settled_iff, <-Hopen.
    unfold minEpochPeriod, C.MIN_EPOCH_PERIOD, is_uint256, in_int64, MaxInt64 in *.
    destruct (C.rebalancing st); [by rewrite Hreb in Hr'|].
    assert (2 ^ 63 < 2 ^ 256) by (by vm_compute). split_and!; try done; lia.
Qed.

Lemma executing_contract n :
  executing s n ↔ n = C.s_epochNonce st - 1 ∧ C.s_epochNonce st ≠ 1 ∧
    C.status (C.previous st) = C.EXECUTING.
Proof.
  destruct (vs_epoch_nonce _ _ HS) as (m & Hm & Hpos).
  rewrite (rep_nonce _ _ _ _ HRep) in Hm. injection Hm as <-.
  destruct (status_is _ _ (rep_previous _ _ _ _ HRep)) as (_ & <- & _).
  unfold executing. rewrite (rep_nonce _ _ _ _ HRep). split.
  - intros ([= ->] & ? & ?). split_and!; [lia|lia|done].
  - intros (-> & ? & ?). split_and!; [f_equal; lia|lia|done].
Qed.

Lemma complete_contract n a :
  is_uint256 a →
  (∃ r, C.completeEpochDeposit st n a = Some r) ↔
  executing s n ∧ ∃ mint, reconcileEpochDeposit (parent_vault.PreviousEpoch (Parent s))
    (parent_vault.TotalShares (Parent s)) (Some a) = Ok mint.
Proof.
  intros Ha. rewrite executing_contract, (rep_shares _ _ _ _ HRep).
  pose proof (rep_previous _ _ _ _ HRep) as Hprev.
  pose proof (valid_contract_epoch _ _ (vs_previous _ _ HS) Hprev) as He.
  destruct (vs_shares _ _ HS) as (sh & Hsh & Hshu).
  assert (sh = C.s_totalShares st) as -> by (rewrite (rep_shares _ _ _ _ HRep) in Hsh; congruence).
  pose proof (reconcile_corresponds _ _ _ a Hprev He Hshu Ha) as Hrec.
  assert (is_uint256 (C.s_epochNonce st - 1)) as Hn1.
  { destruct (vs_epoch_nonce _ _ HS) as (m & Hm & Hpos). rewrite (rep_nonce _ _ _ _ HRep) in Hm.
    injection Hm as <-. unfold is_uint256. lia. }
  unfold C.completeEpochDeposit. setoid_rewrite u256_bind. setoid_rewrite require_bind.
  setoid_rewrite require_bind. setoid_rewrite Z.eqb_eq. setoid_rewrite negb_true_iff.
  setoid_rewrite Z.eqb_neq.
  destruct (C.reconcile _ _ _) as [r|], (reconcileEpochDeposit _ _ _) as [m|e|]; try done;
    cbn [mbind option_bind].
  - setoid_rewrite require_bind. setoid_rewrite bool_decide_eq_true. split.
    + intros (? & _ & -> & ? & ? & _). eauto.
    + intros [(-> & ? & ?) _]. eauto 10.
  - split; [intros (?&?&?&?&?); done|intros [_ [? ?]]; done].
Qed.
End ContractSpecs.

(** ** Properties *)
Section EpochProperties.
Context `{GoUnicode, HL : GoEthereumLaws} {R : Type}.
Context (o : oracle (cre_eff R)) (HO : respects (@typed_host R) o).
Context (config : Config) (s : Snapshot).
Context (HV : ValidConfig config) (HTy : TypedConfig config).
Context (HS : ValidSnapshot s config) (HObs : in_int64 (ObservedAt s)).

Definition cron_run := run o [] (OnEpochCronTrigger config (Some s)).
Definition withdraw_run (log : Log) (source : Z) :=
  run o [] (OnEpochWithdrawExecuting config (Some log) (Some s) source).
Definition complete_run (log : Log) (source : Z) :=
  run o [] (OnEpochDepositToStrategySuccess config (Some log) (Some s) source).

(** C5: The epoch cron handler submits [closeEpoch(nonce, tvl)] to the parent
    chain's router exactly when the contract, in the state the snapshot was
    read from and at the observation time, would accept that call; otherwise it
    signs and writes nothing and reports a no-op. *)
Theorem OnEpochCronTrigger_contract p st codec t calldata
    (HRep : represents config s p st)
    (HC : newParentCodec = Ok codec)
    (HT : ActiveTVL s (ChainSelector p) = Ok (Some t)) (HTu : is_uint256 t)
    (HE : EncodeCloseEpochMethodCall codec
       (parent_vault.mkCloseEpochInput (Some (C.s_epochNonce st)) (Some t)) = Ok calldata) :
  if C.closeEpoch st (ObservedAt s) (C.s_epochNonce st) t is Some _
  then Submitted p (ObservedAt s) calldata "closed epoch" cron_run.1 cron_run.2
  else idle cron_run.1 cron_run.2.
Proof.
  destruct (close_plan_contract config s p st HV HTy HS HObs HRep codec t calldata HC HT HTu HE)
    as [Hsome Hplan].
  destruct (wp_seg_run typed_host o _ _ HO
    (epoch_cron_seg SubmitReport config s HV HTy HS HObs [])) as [(target & cd & Hp & Hsub)|[Hno Hidle]].
  - destruct (Hplan _ _ Hp) as (-> & -> & [r ->]). done.
  - destruct (C.closeEpoch _ _ _ _) as [r|]; [|done].
    destruct (Hno p calldata). apply Hsome. eauto.
Qed.

(** Whatever the snapshot, a run of the epoch cron handler is decided by
    its plan: all the guards (no rebalance, previous epoch settled, open epoch,
    one hour elapsed, accounting preflight) hold and exactly the planned
    calldata was submitted once, or nothing was signed or written. *)
Theorem OnEpochCronTrigger_decided :
  decided (close_plan config s) (ObservedAt s) "closed epoch" cron_run.1 cron_run.2.
Proof.
  apply (wp_seg_run typed_host o _ _ HO), (epoch_cron_seg SubmitReport config s HV HTy HS HObs []).
Qed.

(** C9: The withdrawal handler submits [executeEpochWithdraw] to the active
    remote chain exactly when the event comes from the parent vault, names the
    executing epoch with exactly its net withdrawal, and the child has not yet
    handled that epoch (replay protection); otherwise it is idle. *)
Theorem OnEpochWithdrawExecuting_decided log source (HLog : Log_Topics log ≠ []) :
  decided (withdraw_plan config s (Some log) source) (ObservedAt s)
    "submitted executeEpochWithdraw" (withdraw_run log source).1 (withdraw_run log source).2.
Proof.
  apply (wp_seg_run typed_host o _ _ HO), (epoch_withdraw_seg SubmitReport config s HV HTy HS HObs []).
  done.
Qed.

(** C8: The deposit-completion handler, on an event of the active remote
    strategy's vault, submits [completeEpochDeposit(nonce, amount)] to the
    parent exactly when the contract would accept it; otherwise it is idle. *)
Theorem OnEpochDepositToStrategySuccess_contract log source p st pcodec ccodec n a calldata
    (HRep : represents config s p st) (HLog : Log_Topics log ≠ [])
    (HP : newParentCodec = Ok pcodec) (HC : newChildCodec = Ok ccodec)
    (HD : DecodeEpochDepositToStrategySuccess ccodec (Some log)
       = Ok (child_vault.mkEpochDepositToStrategySuccessDecoded (Some n) (Some a)))
    (HSrc : MatchSource config (Some log) source (activeChain s) = true)
    (HRem : activeChain s ≠ ChainSelector p)
    (HE : EncodeCompleteEpochDepositMethodCall pcodec
       (parent_vault.mkCompleteEpochDepositInput (Some n) (Some a)) = Ok calldata) :
  if C.completeEpochDeposit st n a is Some _
  then Submitted p (ObservedAt s) calldata "completed epoch deposit"
         (complete_run log source).1 (complete_run log source).2
  else idle (complete_run log source).1 (complete_run log source).2.
Proof.
  destruct (deposit_decoded _ _ _ HC HD) as (n' & a' & [= <- <-] & _ & Ha).
  pose proof (complete_contract config s p st HS HRep n a Ha) as Hc.
  destruct (wp_seg_run typed_host o _ _ HO
    (epoch_complete_seg SubmitReport config s HTy HS HObs [] log source HLog))
    as [(target & cd & Hp & Hsub)|[Hno Hidle]].
  - destruct Hp as (pc & cc & n1 & a1 & mint & Hpc & Hcc & Hdec & Hpar & _ & _ & Hex & Hrec & Henc).
    pose proof (rep_parent _ _ _ _ HRep).
    assert (cc = ccodec) as -> by congruence. assert (pc = pcodec) as -> by congruence.
    assert (target = p) as -> by congruence. rewrite HD in Hdec. injection Hdec as <- <-.
    assert (cd = calldata) as -> by congruence.
    destruct (proj2 Hc) as [r ->]; eauto.
  - destruct (C.completeEpochDeposit st n a) as [r|] eqn:Hr; [|done].
    destruct (proj1 Hc (ex_intro _ r eq_refl)) as [Hex [mint Hrec]].
    destruct (Hno p calldata). exists pcodec, ccodec, n, a, mint. split_and!; try done. apply HRep.
Qed.

(** The deposit-completion handler is decided by its plan for every event:
    a wrong source, a stale epoch, or an amount the accounting rejects submit
    nothing. *)
Theorem OnEpochDepositToStrategySuccess_decided log source (HLog : Log_Topics log ≠ []) :
  decided (complete_plan config s (Some log) source) (ObservedAt s)
    "completed epoch deposit" (complete_run log source).1 (complete_run log source).2.
Proof.
  apply (wp_seg_run typed_host o _ _ HO), (epoch_complete_seg SubmitReport config s HTy HS HObs []).
  done.
Qed.
End EpochProperties.

(** ** Concrete runs *)
Module SampleEpoch.
#[local] Existing Instance ascii_unicode.
#[local] Existing Instance SampleState.ethereum.
#[local] Existing Instance SampleState.sample_ethereum_laws.
Abbreviation config := Sample.config.
Abbreviation snapshot := SampleState.snapshot.

Lemma sample_host_typed : respects (@typed_host unit) SampleState.host.
Proof. intros h X c. apply (host_ok_typed h), SampleState.host_is_ok. Qed.

Lemma snapshot_valid : ValidSnapshot snapshot config.
Proof.
  apply (Validate_iff _ _ tt). vm_compute. reflexivity.
Qed.
Lemma observed_typed : in_int64 (ObservedAt snapshot).
Proof. vm_compute. split; discriminate. Qed.

(** The contract storage behind the sample. *)
Definition contract_epoch (st : C.EpochStatus) (w : Z) : C.Epoch :=
  C.mkEpoch 1000000 0 w 1000000000000000000 1 st.
Definition storage : C.Storage :=
  C.mkStorage 2 false (contract_epoch C.OPEN 0) (contract_epoch C.CLAIMABLE 0)
    1000000000000000000 1000000 false.

Lemma storage_represents : represents config snapshot Sample.parent_chain storage.
Proof.
  split; try (vm_compute; reflexivity).
  - vm_compute. repeat split.
  - vm_compute. repeat split.
  - exists 6. split; reflexivity.
Qed.

Definition pcodec : parentCodec := match newParentCodec with Ok c => c | _ =>
  mkParentCodec (λ _, Crash) (λ _, Crash) (λ _, Crash) end.
Definition ccodec : childCodec := match newChildCodec with Ok c => c | _ =>
  mkChildCodec (λ _, Crash) (λ _, Crash) end.
Lemma pcodec_ok : newParentCodec = Ok pcodec.
Proof. reflexivity. Qed.
Lemma ccodec_ok : newChildCodec = Ok ccodec.
Proof. reflexivity. Qed.
Definition close_calldata : bytes :=
  match EncodeCloseEpochMethodCall pcodec (parent_vault.mkCloseEpochInput (Some 2) (Some 1000000))
  with Ok b => b | _ => [] end.

Example cron_closes :
  (cron_run (R:=unit) SampleState.host config snapshot).2 = Ok (mkExecutionResult "closed epoch").
Proof. vm_compute. reflexivity. Qed.

Lemma OnEpochCronTrigger_contract_witness :
  if C.closeEpoch storage (ObservedAt snapshot) (C.s_epochNonce storage) 1000000 is Some _
  then Submitted Sample.parent_chain (ObservedAt snapshot) close_calldata "closed epoch"
         (cron_run (R:=unit) SampleState.host config snapshot).1
         (cron_run (R:=unit) SampleState.host config snapshot).2
  else idle (cron_run (R:=unit) SampleState.host config snapshot).1
         (cron_run (R:=unit) SampleState.host config snapshot).2.
Proof.
  apply (OnEpochCronTrigger_contract SampleState.host sample_host_typed config snapshot
    SampleState.sample_config_valid Sample.config_typed snapshot_valid observed_typed
    Sample.parent_chain storage pcodec 1000000 close_calldata storage_represents
    pcodec_ok); try (vm_compute; reflexivity).
  vm_compute. split; [discriminate|reflexivity].
Defined.

Lemma OnEpochCronTrigger_decided_witness :
  decided (close_plan config snapshot) (ObservedAt snapshot) "closed epoch"
    (cron_run (R:=unit) SampleState.host config snapshot).1
    (cron_run (R:=unit) SampleState.host config snapshot).2.
Proof.
  exact (OnEpochCronTrigger_decided SampleState.host sample_host_typed config snapshot
    SampleState.sample_config_valid Sample.config_typed snapshot_valid observed_typed).
Defined.

(** A snapshot whose previous epoch executes with a total withdrawal [w]. *)
Definition executing_snapshot (w : Z) : Snapshot :=
  let p := Parent snapshot in
  let e := parent_vault.PreviousEpoch p in
  mkSnapshot (ObservedAt snapshot)
    (parent_vault.mkTypesParentOperationalState (parent_vault.Paused p)
       (parent_vault.RecoveryMode p) (parent_vault.CurrentEpochNonce p)
       (parent_vault.CurrentEpoch p)
       (parent_vault.mkTypesEpoch (parent_vault.TotalDepositAmount e)
          (parent_vault.TotalShareBurnAmount e) (Some w)
          (parent_vault.RemainingDepositClaimAmount e) (parent_vault.RemainingShareMintAmount e)
          (parent_vault.RemainingShareBurnAmount e)
          (parent_vault.RemainingWithdrawClaimAmount e) (parent_vault.OpenedAtTimestamp e)
          EpochExecuting)
       (parent_vault.Rebalance p) (parent_vault.TotalShares p) (parent_vault.Tvl p))
    (Children snapshot).

Lemma executing_valid_0 : ValidSnapshot (executing_snapshot 0) config.
Proof. apply (Validate_iff _ _ tt). vm_compute. reflexivity. Qed.
Lemma executing_valid_2 : ValidSnapshot (executing_snapshot 2000000) config.
Proof. apply (Validate_iff _ _ tt). vm_compute. reflexivity. Qed.

Definition event_log (e : EvmConfig) (nonce amount : Z) : Log :=
  mkLog (HexToAddress (VaultAddress e)) [zeros 32; be_bytes 32 nonce; be_bytes 32 amount] [].

Definition withdraw_log : Log := event_log Sample.parent_chain 1 1000000.
Example withdraw_submits :
  (withdraw_run (R:=unit) SampleState.host config (executing_snapshot 2000000) withdraw_log 1).2
  = Ok (mkExecutionResult "submitted executeEpochWithdraw").
Proof. vm_compute. reflexivity. Qed.

Lemma OnEpochWithdrawExecuting_decided_witness :
  decided (withdraw_plan config (executing_snapshot 2000000) (Some withdraw_log) 1)
    (ObservedAt (executing_snapshot 2000000)) "submitted executeEpochWithdraw"
    (withdraw_run (R:=unit) SampleState.host config (executing_snapshot 2000000) withdraw_log 1).1
    (withdraw_run (R:=unit) SampleState.host config (executing_snapshot 2000000) withdraw_log 1).2.
Proof.
  apply (OnEpochWithdrawExecuting_decided SampleState.host sample_host_typed config
    (executing_snapshot 2000000) SampleState.sample_config_valid Sample.config_typed executing_valid_2
    observed_typed withdraw_log 1). discriminate.
Defined.

Definition deposit_log : Log := event_log Sample.child_chain 1 500000.
Definition executing_storage : C.Storage :=
  C.mkStorage 2 false (contract_epoch C.OPEN 0) (contract_epoch C.EXECUTING 0)
    1000000000000000000 1000000 false.
Lemma executing_represents :
  represents config (executing_snapshot 0) Sample.parent_chain executing_storage.
Proof.
  split; try (vm_compute; reflexivity).
  - vm_compute. repeat split.
  - vm_compute. repeat split.
  - exists 6. split; reflexivity.
Qed.
Definition complete_calldata : bytes :=
  match EncodeCompleteEpochDepositMethodCall pcodec
    (parent_vault.mkCompleteEpochDepositInput (Some 1) (Some 500000)) with
  Ok b => b | _ => [] end.

Example complete_submits :
  (complete_run (R:=unit) SampleState.host config (executing_snapshot 0) deposit_log 2).2
  = Ok (mkExecutionResult "completed epoch deposit").
Proof. vm_compute. reflexivity. Qed.

Lemma OnEpochDepositToStrategySuccess_contract_witness :
  if C.completeEpochDeposit executing_storage 1 500000 is Some _
  then Submitted Sample.parent_chain (ObservedAt (executing_snapshot 0)) complete_calldata
         "completed epoch deposit"
         (complete_run (R:=unit) SampleState.host config (executing_snapshot 0) deposit_log 2).1
         (complete_run (R:=unit) SampleState.host config (executing_snapshot 0) deposit_log 2).2
  else idle
         (complete_run (R:=unit) SampleState.host config (executing_snapshot 0) deposit_log 2).1
         (complete_run (R:=unit) SampleState.host config (executing_snapshot 0) deposit_log 2).2.
Proof.
  apply (OnEpochDepositToStrategySuccess_contract SampleState.host sample_host_typed config
    (executing_snapshot 0) Sample.config_typed executing_valid_0 observed_typed
    deposit_log 2 Sample.parent_chain executing_storage pcodec ccodec 1 500000 complete_calldata
    executing_represents ltac:(discriminate) pcodec_ok ccodec_ok);
    try (vm_compute; reflexivity); vm_compute; discriminate.
Defined.

Lemma OnEpochDepositToStrategySuccess_decided_witness :
  decided (complete_plan config (executing_snapshot 0) (Some deposit_log) 2)
    (ObservedAt (executing_snapshot 0)) "completed epoch deposit"
    (complete_run (R:=unit) SampleState.host config (executing_snapshot 0) deposit_log 2).1
    (complete_run (R:=unit) SampleState.host config (executing_snapshot 0) deposit_log 2).2.
Proof.
  apply (OnEpochDepositToStrategySuccess_decided SampleState.host sample_host_typed config
    (executing_snapshot 0) Sample.config_typed executing_valid_0 observed_typed deposit_log 2).
  discriminate.
Defined.
End SampleEpoch.
