(* ===== verification/Float.v ===== *)
(** * Go's [float64] and [strconv] on JSON numbers

    A [float64] is an IEEE binary64 value of the Standard Library's [SpecFloat]
    (precision 53, maximal exponent 1024): comparison and subtraction are its
    exact specifications.  [ParseFloat] and [ParseInt] are given on the number
    literals of the JSON grammar. *)

From S2P Require Import Prelude GoText BigInt.
From Stdlib Require Import Floats.SpecFloat.

#[local] Open Scope Z_scope.

Definition float64 := spec_float.
Definition prec : Z := 53.
Definition emax : Z := 1024.

Definition f64_zero : float64 := S754_zero false.
Definition f64_of_Z (z : Z) : float64 := binary_normalize prec emax z 0 false.
Definition f64_sub (x y : float64) : float64 := SFsub prec emax x y.
(** [x == y], [x < y], [x <= y]; every comparison with NaN is false. *)
Definition f64_eq (x y : float64) : bool := SFeqb x y.
Definition f64_lt (x y : float64) : bool := SFltb x y.
Definition f64_le (x y : float64) : bool := SFleb x y.
Definition IsNaN (x : float64) : bool := match x with S754_nan => true | _ => false end.
(** [math.IsInf(x, 0)] *)
Definition IsInf (x : float64) : bool := match x with S754_infinity _ => true | _ => false end.

#[export] Instance float64_eq_dec : EqDecision float64.
Proof. solve_decision. Defined.

(** ** The order of the numbers *)

(** Non-NaN values are ordered lexicographically by class, exponent and
    mantissa, signed. *)
Definition key (x : float64) : Z * Z * Z :=
  match x with
  | S754_zero _ => (0, 0, 0)
  | S754_infinity s => (if s then -2 else 2, 0, 0)
  | S754_nan => (3, 0, 0)
  | S754_finite true m e => (-1, - e, - Zpos m)
  | S754_finite false m e => (1, e, Zpos m)
  end.

Definition lex_compare (x y : Z * Z * Z) : comparison :=
  match x.1.1 ?= y.1.1 with
  | Eq => match x.1.2 ?= y.1.2 with Eq => x.2 ?= y.2 | c => c end
  | c => c
  end.

Lemma SFcompare_key x y :
  IsNaN x = false → IsNaN y = false → SFcompare x y = Some (lex_compare (key x) (key y)).
Proof.
  destruct x as [sx|sx| |sx mx ex], y as [sy|sy| |sy my ey]; try done; intros _ _;
    try (destruct sx; done); try (destruct sy; done); try (destruct sx, sy; done).
  unfold lex_compare, key. cbn [SFcompare]. destruct sx, sy; cbn [fst snd]; try done.
  change (-1 ?= -1) with Eq. cbn [fst snd].
  replace (- ex ?= - ey) with (CompOpp (ex ?= ey))
      by (by rewrite Z.compare_opp, (Z.compare_antisym ex ey)).
  destruct (ex ?= ey); reflexivity.
Qed.

Lemma lex_compare_lt x y :
  lex_compare x y = Lt ↔
  x.1.1 < y.1.1 ∨ x.1.1 = y.1.1 ∧ (x.1.2 < y.1.2 ∨ x.1.2 = y.1.2 ∧ x.2 < y.2).
Proof.
  unfold lex_compare.
  destruct (Z.compare_spec x.1.1 y.1.1), (Z.compare_spec x.1.2 y.1.2),
    (Z.compare_spec x.2 y.2); (split; [intros ?|intros ?]); try done; lia.
Qed.
Lemma lex_compare_eq x y : lex_compare x y = Eq ↔ x = y.
Proof.
  destruct x as [[a b] c], y as [[a' b'] c']. unfold lex_compare. cbn.
  destruct (Z.compare_spec a a'), (Z.compare_spec b b'), (Z.compare_spec c c');
    (split; [intros ?|intros [=]]); try done; try congruence; lia.
Qed.
Lemma lex_compare_antisym x y : lex_compare y x = CompOpp (lex_compare x y).
Proof.
  unfold lex_compare. rewrite (Z.compare_antisym x.1.1), (Z.compare_antisym x.1.2),
    (Z.compare_antisym x.2).
  by destruct (x.1.1 ?= y.1.1), (x.1.2 ?= y.1.2), (x.2 ?= y.2).
Qed.

Definition key_lt (a b : Z * Z * Z) : Prop := lex_compare a b = Lt.
Definition key_le (a b : Z * Z * Z) : Prop := ¬ key_lt b a.

Section Order.
Context (x y : float64) (Hx : IsNaN x = false) (Hy : IsNaN y = false).

Lemma f64_lt_key : f64_lt x y = true ↔ key_lt (key x) (key y).
Proof.
  unfold f64_lt, SFltb, key_lt. rewrite SFcompare_key by done.
  by destruct (lex_compare (key x) (key y)).
Qed.
Lemma f64_le_key : f64_le x y = true ↔ key_le (key x) (key y).
Proof.
  unfold f64_le, SFleb, key_le, key_lt. rewrite SFcompare_key by done.
  rewrite (lex_compare_antisym (key x) (key y)). by destruct (lex_compare (key x) (key y)).
Qed.
Lemma f64_eq_key : f64_eq x y = true ↔ key x = key y.
Proof.
  unfold f64_eq, SFeqb. rewrite SFcompare_key, <-lex_compare_eq by done.
  by destruct (lex_compare (key x) (key y)).
Qed.
End Order.

Lemma key_lt_trans a b c : key_lt a b → key_lt b c → key_lt a c.
Proof. unfold key_lt. rewrite !lex_compare_lt. lia. Qed.
Lemma key_lt_irrefl a : ¬ key_lt a a.
Proof. unfold key_lt. rewrite lex_compare_lt. lia. Qed.
Lemma key_lt_total a b : key_lt a b ∨ a = b ∨ key_lt b a.
Proof.
  unfold key_lt. rewrite (lex_compare_antisym a b), <-(lex_compare_eq a b).
  destruct (lex_compare a b); auto.
Qed.
Lemma key_le_trans a b c : key_le a b → key_le b c → key_le a c.
Proof.
  intros Hab Hbc Hca. destruct (key_lt_total b c) as [H|[->|H]]; [|done|done].
  apply Hab. by eapply key_lt_trans.
Qed.

(** ** Subtraction *)

(** The sign of a rounded difference is the sign of the exact one, so a
    difference that is at least one rules out the opposite one. *)
Definition negative_or_zero (x : float64) : bool :=
  match x with
  | S754_zero _ | S754_nan => true
  | S754_infinity s => s
  | S754_finite s _ _ => s
  end.

Lemma binary_round_aux_neg mx ex lx : negative_or_zero (binary_round_aux prec emax true mx ex lx) = true.
Proof.
  unfold binary_round_aux.
  destruct (shr_fexp prec emax mx ex lx) as [mrs' e'].
  destruct (shr_fexp prec emax _ e' loc_Exact) as [mrs'' e''].
  destruct (shr_m mrs''); try done. by case_match.
Qed.

Lemma normalize_nonpos m e s : m <= 0 → negative_or_zero (binary_normalize prec emax m e s) = true.
Proof.
  intros Hm. destruct m as [|p|p]; [done|lia|]. unfold binary_normalize, binary_round.
  destruct (shl_align _ _ _). apply binary_round_aux_neg.
Qed.

Definition is_finite_f64 (x : float64) : bool :=
  match x with S754_zero _ | S754_finite _ _ _ => true | _ => false end.

(** The exact difference over the common exponent. *)
Definition diff_mantissa (x y : float64) : Z :=
  match x, y with
  | S754_finite sx mx ex, S754_finite sy my ey =>
      let ez := Z.min ex ey in
      cond_Zopp sx (Zpos (fst (shl_align mx ex ez))) - cond_Zopp sy (Zpos (fst (shl_align my ey ez)))
  | S754_finite sx mx _, _ => cond_Zopp sx (Zpos mx)
  | _, S754_finite sy my _ => - cond_Zopp sy (Zpos my)
  | _, _ => 0
  end.

Lemma diff_mantissa_antisym x y : diff_mantissa y x = - diff_mantissa x y.
Proof. destruct x, y; cbn; try lia. rewrite Z.min_comm. lia. Qed.

Lemma sub_nonpos x y :
  is_finite_f64 x = true → is_finite_f64 y = true → diff_mantissa x y <= 0 →
  negative_or_zero (f64_sub x y) = true.
Proof.
  unfold f64_sub. destruct x as [sx|sx| |sx mx ex], y as [sy|sy| |sy my ey]; try done;
    intros _ _; cbn [SFsub diff_mantissa].
  - by destruct sx, sy.
  - destruct sy; cbn; [lia|done].
  - destruct sx; cbn; [done|lia].
  - intros Hd. by apply normalize_nonpos.
Qed.

(** If [x - y] rounds to at least one, [y - x] does not. *)
Lemma sub_ge_one_asym x y :
  is_finite_f64 x = true → is_finite_f64 y = true →
  f64_le (f64_of_Z 1) (f64_sub x y) = true → f64_le (f64_of_Z 1) (f64_sub y x) = false.
Proof.
  intros Hx Hy Hge.
  assert (∀ z, negative_or_zero z = true → f64_le (f64_of_Z 1) z = false) as Hneg.
  { intros [s|s| |s m e]; cbn; try done; destruct s; done. }
  apply Hneg, sub_nonpos; [done|done|].
  destruct (Z.le_gt_cases (diff_mantissa x y) 0) as [Hle|Hgt].
  - by rewrite (Hneg _ (sub_nonpos x y Hx Hy Hle)) in Hge.
  - rewrite diff_mantissa_antisym. lia.
Qed.

(** ** [strconv.ParseFloat] and [strconv.ParseInt] on JSON number literals *)
Definition is_digit (b : byte) : bool := (0x30 <=? byteZ b) && (byteZ b <=? 0x39).
Definition digit (b : byte) : Z := byteZ b - 0x30.

(** The leading digits appended to a mantissa, their number, and the rest. *)
Fixpoint take_digits (m : Z) (n : Z) (l : bytes) : Z * Z * bytes :=
  match l with
  | b :: r => if is_digit b then take_digits (m * 10 + digit b) (n + 1) r else (m, n, l)
  | [] => (m, n, [])
  end.

(** The exponent: digits stop counting once the value reaches 10000, as in
    [readFloat]. *)
Fixpoint take_exponent (e : Z) (l : bytes) : Z :=
  match l with
  | b :: r =>
      if is_digit b then take_exponent (if e <? 10000 then e * 10 + digit b else e) r else e
  | [] => e
  end.

Definition strip_minus (l : bytes) : bool * bytes :=
  match l with
  | b :: r => if bool_decide (b = "-"%char) then (true, r) else (false, l)
  | [] => (false, [])
  end.

(** Sign, mantissa and decimal exponent of a literal. *)
Definition decimal_of (l : bytes) : bool * Z * Z :=
  let '(neg, l) := strip_minus l in
  let '(m, _, l) := take_digits 0 0 l in
  let '(m, frac, l) :=
    match l with
    | b :: r => if bool_decide (b = "."%char) then take_digits m 0 r else (m, 0, l)
    | [] => (m, 0, [])
    end in
  let e :=
    match l with
    | b :: r =>
        if bool_decide (b = "e"%char) || bool_decide (b = "E"%char) then
          match r with
          | s :: r' =>
              if bool_decide (s = "-"%char) then - take_exponent 0 r'
              else if bool_decide (s = "+"%char) then take_exponent 0 r'
              else take_exponent 0 r
          | [] => 0
          end
        else 0
    | [] => 0
    end in
  (neg, m, e - frac).

(** The correctly rounded value of [(-1)^neg * m * 10^e]. *)
Definition of_decimal (neg : bool) (m e : Z) : float64 :=
  match m with
  | Zpos p =>
      if 0 <=? e then binary_normalize prec emax (if neg then - (m * 10 ^ e) else m * 10 ^ e) 0 neg
      else
        match 10 ^ (- e) with
        | Zpos d => SFdiv prec emax (S754_finite neg p 0) (S754_finite false d 0)
        | _ => S754_nan
        end
  | _ => S754_zero neg
  end.

(** A literal whose value rounds to an infinity is out of range. *)
Definition ParseFloat (l : bytes) : option float64 :=
  let '(neg, m, e) := decimal_of l in
  let f := of_decimal neg m e in
  if IsInf f then None else Some f.

(** A fraction or an exponent is a syntax error, a value outside int64 is out
    of range. *)
Definition ParseInt (l : bytes) : option Z :=
  let '(neg, l) := strip_minus l in
  let '(m, n, rest) := take_digits 0 0 l in
  let z := if neg then - m else m in
  if (n =? 0) || negb (bool_decide (rest = [])) then None
  else if bool_decide (- 2 ^ 63 <= z <= MaxInt64) then Some z else None.

Lemma ParseInt_range l z : ParseInt l = Some z → in_int64 z.
Proof.
  unfold ParseInt. destruct (strip_minus l) as [neg l'].
  destruct (take_digits 0 0 l') as [[m n] rest].
  destruct (_ || _); [done|]. case_bool_decide; [|done]. by intros [= <-].
Qed.

Lemma ParseFloat_not_inf l f : ParseFloat l = Some f → IsInf f = false.
Proof.
  unfold ParseFloat. destruct (decimal_of l) as [[neg m] e].
  destruct (IsInf (of_decimal neg m e)) eqn:Hi; [done|]. by intros [= <-].
Qed.

Example ParseFloat_ex : ParseFloat (to_bytes "5.25") = Some (S754_finite false 5910974510923776 (-50)).
Proof. vm_compute. reflexivity. Qed.
Example ParseFloat_tenth : ParseFloat (to_bytes "1e-1") = Some (S754_finite false 7205759403792794 (-56)).
Proof. vm_compute. reflexivity. Qed.
Example ParseFloat_range : ParseFloat (to_bytes "1e309") = None.
Proof. vm_compute. reflexivity. Qed.
Example ParseFloat_max : is_Some (ParseFloat (to_bytes "1.7976931348623157e308")).
Proof. vm_compute. eauto. Qed.
Example ParseFloat_subnormal : ParseFloat (to_bytes "4.9e-324") = Some (S754_finite false 1 (-1074)).
Proof. vm_compute. reflexivity. Qed.
Example ParseInt_ex : ParseInt (to_bytes "-12") = Some (-12).
Proof. vm_compute. reflexivity. Qed.
Example ParseInt_float : ParseInt (to_bytes "1e3") = None.
Proof. vm_compute. reflexivity. Qed.
