(* ===== verification/Json.v ===== *)
(** * [encoding/json]: values, the streaming decoder and struct decoding

    The part of Go's [encoding/json] that [offchain/defillama.go] uses: the
    grammar (with the scanner's nesting limit), [Unmarshal], and the token
    state machine of [Decoder] ([Token], [More], [Decode]) over input that is
    completely available.  Error texts are not modelled beyond their kind. *)

From S2P Require Import Prelude GoText BigInt Float.

#[local] Open Scope Z_scope.

(** ** Values; a number keeps its literal, a string is decoded *)
Inductive json : Type :=
| JNull
| JBool (b : bool)
| JNum (lit : bytes)
| JStr (s : string)
| JArr (l : list json)
| JObj (l : list (string * json)).

(** Induction through the lists of a value. *)
Section json_induction.
Context (P : json → Prop).
Context (HNull : P JNull) (HBool : ∀ b, P (JBool b)) (HNum : ∀ lit, P (JNum lit))
  (HStr : ∀ s, P (JStr s)) (HArr : ∀ l, Forall P l → P (JArr l))
  (HObj : ∀ l, Forall (λ kv, P kv.2) l → P (JObj l)).
Fixpoint json_induction (v : json) : P v :=
  match v with
  | JNull => HNull
  | JBool b => HBool b
  | JNum lit => HNum lit
  | JStr s => HStr s
  | JArr l => HArr l ((fix go l : Forall P l :=
      match l with
      | [] => Forall_nil_2 _
      | x :: l => Forall_cons_2 _ x l (json_induction x) (go l)
      end) l)
  | JObj l => HObj l ((fix go l : Forall (λ kv, P kv.2) l :=
      match l with
      | [] => Forall_nil_2 _
      | x :: l => Forall_cons_2 _ x l (json_induction x.2) (go l)
      end) l)
  end.
End json_induction.

(** ** Lexing *)
Definition ch (b : byte) (c : ascii) : bool := bool_decide (b = c).
Definition quote : ascii := "034"%char.
Definition backslash : ascii := "092"%char.

Definition is_ws (b : byte) : bool :=
  (byteZ b =? 0x20) || (byteZ b =? 0x09) || (byteZ b =? 0x0D) || (byteZ b =? 0x0A).
Fixpoint skip_ws (l : bytes) : bytes :=
  match l with b :: r => if is_ws b then skip_ws r else l | [] => [] end.

Definition hex_val (b : byte) : option Z :=
  let c := byteZ b in
  if (0x30 <=? c) && (c <=? 0x39) then Some (c - 0x30)
  else if (0x61 <=? c) && (c <=? 0x66) then Some (c - 0x57)
  else if (0x41 <=? c) && (c <=? 0x46) then Some (c - 0x37)
  else None.
Definition hex4 (l : bytes) : option (Z * bytes) :=
  match l with
  | a :: b :: c :: d :: r =>
      a ← hex_val a; b ← hex_val b; c ← hex_val c; d ← hex_val d;
      Some (((a * 16 + b) * 16 + c) * 16 + d, r)
  | _ => None
  end.

(** [\uXXXX], with the surrogate pair rule of [unquote]: a surrogate that is
    not the first half of a pair becomes U+FFFD. *)
Definition unicode_escape (l : bytes) : option (Z * bytes) :=
  '(rr, r) ← hex4 l;
  if (0xD800 <=? rr) && (rr <=? 0xDFFF) then
    match r with
    | b :: u :: r' =>
        if ch b backslash && ch u "u"%char then
          match hex4 r' with
          | Some (lo, r'') =>
              if (rr <=? 0xDBFF) && (0xDC00 <=? lo) && (lo <=? 0xDFFF)
              then Some (0x10000 + (rr - 0xD800) * 0x400 + (lo - 0xDC00), r'')
              else Some (RuneError, r)
          | None => Some (RuneError, r)
          end
        else Some (RuneError, r)
    | _ => Some (RuneError, r)
    end
  else Some (rr, r).

Definition simple_escape (b : byte) : option byte :=
  if ch b quote || ch b backslash || ch b "/"%char then Some b
  else if ch b "b"%char then Some (Zbyte 0x08)
  else if ch b "f"%char then Some (Zbyte 0x0C)
  else if ch b "n"%char then Some (Zbyte 0x0A)
  else if ch b "r"%char then Some (Zbyte 0x0D)
  else if ch b "t"%char then Some (Zbyte 0x09)
  else None.

(** The body of a string after its opening quote: the decoded bytes and the
    input after the closing quote. *)
Fixpoint parse_string (n : nat) (l : bytes) : option (bytes * bytes) :=
  match n, l with
  | S n', b :: r =>
      if ch b quote then Some ([], r)
      else if ch b backslash then
        match r with
        | e :: r' =>
            if ch e "u"%char then
              '(rune, r'') ← unicode_escape r';
              '(s, rest) ← parse_string n' r'';
              Some (EncodeRune rune ++ s, rest)
            else
              c ← simple_escape e;
              '(s, rest) ← parse_string n' r';
              Some (c :: s, rest)
        | [] => None
        end
      else if byteZ b <? 0x20 then None
      else
        let d := DecodeRune l in
        '(s, rest) ← parse_string n' (drop d.2 l);
        Some (EncodeRune d.1 ++ s, rest)
  | _, _ => None
  end.

(** A maximal run of digits. *)
Fixpoint digit_run (l : bytes) : bytes * bytes :=
  match l with
  | b :: r => if is_digit b then let '(ds, rest) := digit_run r in (b :: ds, rest) else ([], l)
  | [] => ([], [])
  end.

(** The scanner's number automaton. *)
Definition parse_int_part (l : bytes) : option (bytes * bytes) :=
  match l with
  | b :: r =>
      if ch b "0"%char then Some ([b], r)
      else if is_digit b then Some (digit_run l) else None
  | [] => None
  end.
Definition parse_fraction (l : bytes) : option (bytes * bytes) :=
  match l with
  | b :: r =>
      if ch b "."%char then
        match digit_run r with ([], _) => None | (ds, rest) => Some (b :: ds, rest) end
      else Some ([], l)
  | [] => Some ([], [])
  end.
Definition parse_exponent (l : bytes) : option (bytes * bytes) :=
  match l with
  | b :: r =>
      if ch b "e"%char || ch b "E"%char then
        let '(sign, r') :=
          match r with
          | s :: r' => if ch s "+"%char || ch s "-"%char then ([s], r') else ([], r)
          | [] => ([], [])
          end in
        match digit_run r' with ([], _) => None | (ds, rest) => Some (b :: sign ++ ds, rest) end
      else Some ([], l)
  | [] => Some ([], [])
  end.
Definition parse_number (l : bytes) : option (bytes * bytes) :=
  let '(sign, l) :=
    match l with b :: r => if ch b "-"%char then ([b], r) else ([], l) | [] => ([], []) end in
  '(i, l) ← parse_int_part l;
  '(f, l) ← parse_fraction l;
  '(e, l) ← parse_exponent l;
  Some (sign ++ i ++ f ++ e, l).

Fixpoint strip_prefix (p l : bytes) : option bytes :=
  match p, l with
  | [], _ => Some l
  | a :: p', b :: l' => if ch b a then strip_prefix p' l' else None
  | _, [] => None
  end.

(** A scalar that does not start a container. *)
Definition parse_scalar (l : bytes) : option (json * bytes) :=
  match l with
  | [] => None
  | b :: r =>
      if ch b quote then '(s, rest) ← parse_string (length r) r; Some (JStr (of_bytes s), rest)
      else if ch b "t"%char then rest ← strip_prefix (to_bytes "true") l; Some (JBool true, rest)
      else if ch b "f"%char then rest ← strip_prefix (to_bytes "false") l; Some (JBool false, rest)
      else if ch b "n"%char then rest ← strip_prefix (to_bytes "null") l; Some (JNull, rest)
      else '(lit, rest) ← parse_number l; Some (JNum lit, rest)
  end.

(** ** Parsing: the scanner allows 10000 open containers *)
Definition maxNestingDepth : Z := 10000.

(** [parse_value] reads one value; [parse_elements] reads the elements of an
    array from a value on, [parse_members] the members of an object from a key
    on, both up to the closing bracket. *)
Fixpoint parse_value (n : nat) (depth : Z) (l : bytes) : option (json * bytes) :=
  match n with
  | O => None
  | S n' =>
      match skip_ws l with
      | [] => None
      | b :: r =>
          if ch b "["%char then
            if maxNestingDepth <=? depth then None
            else
              match skip_ws r with
              | c :: r' =>
                  if ch c "]"%char then Some (JArr [], r')
                  else '(vs, rest) ← parse_elements n' (depth + 1) r; Some (JArr vs, rest)
              | [] => None
              end
          else if ch b "{"%char then
            if maxNestingDepth <=? depth then None
            else
              match skip_ws r with
              | c :: r' =>
                  if ch c "}"%char then Some (JObj [], r')
                  else '(ms, rest) ← parse_members n' (depth + 1) r; Some (JObj ms, rest)
              | [] => None
              end
          else parse_scalar (b :: r)
      end
  end
with parse_elements (n : nat) (depth : Z) (l : bytes) : option (list json * bytes) :=
  match n with
  | O => None
  | S n' =>
      '(v, l) ← parse_value n' depth l;
      match skip_ws l with
      | c :: r =>
          if ch c ","%char then '(vs, rest) ← parse_elements n' depth r; Some (v :: vs, rest)
          else if ch c "]"%char then Some ([v], r) else None
      | [] => None
      end
  end
with parse_members (n : nat) (depth : Z) (l : bytes) : option (list (string * json) * bytes) :=
  match n with
  | O => None
  | S n' =>
      match skip_ws l with
      | q :: r =>
          if ch q quote then
            '(k, l) ← parse_string (length r) r;
            match skip_ws l with
            | c :: r =>
                if ch c ":"%char then
                  '(v, l) ← parse_value n' depth r;
                  match skip_ws l with
                  | c :: r =>
                      if ch c ","%char then
                        '(ms, rest) ← parse_members n' depth r; Some ((of_bytes k, v) :: ms, rest)
                      else if ch c "}"%char then Some ([(of_bytes k, v)], r) else None
                  | [] => None
                  end
                else None
            | [] => None
            end
          else None
      | [] => None
      end
  end.

Definition value_fuel (l : bytes) : nat := 2 * length l + 2.
Definition read_value (l : bytes) : option (json * bytes) := parse_value (value_fuel l) 0 l.

(** The whole input is one value ([checkValid]). *)
Definition parse_document (l : bytes) : option json :=
  '(v, rest) ← read_value l;
  if bool_decide (skip_ws rest = []) then Some v else None.

(** ** [json.Unmarshal] into the structs of the client *)

(** A field is matched by its exact name or case-insensitively; the names of
    one struct are distinct under folding. *)
Definition field_is (name : string) (key : string) : bool :=
  EqualFold_ascii (to_bytes key) (to_bytes name).

(** Storing a value into a [string], a [*float64] and a [*int64] field: [null]
    leaves a string unchanged and clears a pointer; [None] is a type error. *)
Definition store_string (cur : string) (v : json) : option string :=
  match v with JStr s => Some s | JNull => Some cur | _ => None end.
Definition store_float (v : json) : option (option float64) :=
  match v with JNum lit => f ← ParseFloat lit; Some (Some f) | JNull => Some None | _ => None end.
Definition store_int (v : json) : option (option Z) :=
  match v with JNum lit => z ← ParseInt lit; Some (Some z) | JNull => Some None | _ => None end.

(** The members of an object are stored in order, so the last one wins; a type
    error anywhere makes the call fail. *)
Fixpoint store_members {A} (store : A → string → json → option A) (a : A)
    (ms : list (string * json)) : option A :=
  match ms with
  | [] => Some a
  | (k, v) :: ms => a ← store a k v; store_members store a ms
  end.

(** A top-level [null] stores nothing, another non-object is a type error. *)
Definition unmarshal_struct {A} (zero : A) (store : A → string → json → option A)
    (v : json) : option A :=
  match v with
  | JObj ms => store_members store zero ms
  | JNull => Some zero
  | _ => None
  end.

(** ** [json.Decoder] *)
Inductive tokenState :=
| tokenTopValue | tokenArrayStart | tokenArrayValue | tokenArrayComma
| tokenObjectStart | tokenObjectKey | tokenObjectColon | tokenObjectValue | tokenObjectComma.

Record decoder := mkDecoder { d_rest : bytes; d_state : tokenState; d_stack : list tokenState }.
Definition NewDecoder (l : bytes) : decoder := mkDecoder l tokenTopValue [].

(** [json.Token]: a delimiter, a string, or another scalar. *)
Inductive token := Delim (c : ascii) | TString (s : string) | TScalar (v : json).

Definition json_syntax : error := Errorf "json: syntax error" [].
Definition json_EOF : error := Errorf "EOF" [].
Definition json_number_range : error := Errorf "json: cannot unmarshal number into Go value of type float64" [].

Definition peek (d : decoder) : option (ascii * bytes) :=
  match skip_ws (d_rest d) with b :: r => Some (b, r) | [] => None end.

Definition More (d : decoder) : bool :=
  match peek d with Some (c, _) => negb (ch c "]"%char) && negb (ch c "}"%char) | None => false end.

Definition tokenValueAllowed (s : tokenState) : bool :=
  match s with
  | tokenTopValue | tokenArrayStart | tokenArrayValue | tokenObjectValue => true
  | _ => false
  end.
Definition tokenValueEnd (s : tokenState) : tokenState :=
  match s with
  | tokenArrayStart | tokenArrayValue => tokenArrayComma
  | tokenObjectValue => tokenObjectComma
  | s => s
  end.

(** [Decode(&raw)]: the separator that is due, then one whole value. *)
Definition tokenPrepareForDecode (d : decoder) : res decoder :=
  match d_state d with
  | tokenArrayComma =>
      match peek d with
      | Some (c, r) =>
          if ch c ","%char then Ok (mkDecoder r tokenArrayValue (d_stack d)) else Err json_syntax
      | None => Err json_EOF
      end
  | tokenObjectColon =>
      match peek d with
      | Some (c, r) =>
          if ch c ":"%char then Ok (mkDecoder r tokenObjectValue (d_stack d)) else Err json_syntax
      | None => Err json_EOF
      end
  | _ => Ok d
  end.

Definition DecodeRaw (d : decoder) : res (json * decoder) :=
  d ← tokenPrepareForDecode d;
  if negb (tokenValueAllowed (d_state d)) then Err json_syntax
  else
    match read_value (d_rest d) with
    | None => Err json_syntax
    | Some (v, rest) => Ok (v, mkDecoder rest (tokenValueEnd (d_state d)) (d_stack d))
    end.

(** A value starting with [c] in [Token]: a key, or a scalar decoded into an
    [any], for which a number must fit a [float64]. *)
Definition scalar_token (d : decoder) (c : ascii) (r : bytes) : res (token * decoder) :=
  let is_key := match d_state d with tokenObjectStart | tokenObjectKey => true | _ => false end in
  if ch c quote && is_key then
    match parse_string (length r) r with
    | None => Err json_syntax
    | Some (s, rest) => Ok (TString (of_bytes s), mkDecoder rest tokenObjectColon (d_stack d))
    end
  else if negb (tokenValueAllowed (d_state d)) then Err json_syntax
  else
    match parse_scalar (c :: r) with
    | None => Err json_syntax
    | Some (v, rest) =>
        let d' := mkDecoder rest (tokenValueEnd (d_state d)) (d_stack d) in
        match v with
        | JStr s => Ok (TString s, d')
        | JNum lit =>
            match ParseFloat lit with
            | Some _ => Ok (TScalar v, d')
            | None => Err json_number_range
            end
        | v => Ok (TScalar v, d')
        end
    end.

Definition open_container (d : decoder) (c : ascii) (r : bytes) (start : tokenState)
    : res (token * decoder) :=
  if tokenValueAllowed (d_state d)
  then Ok (Delim c, mkDecoder r start (d_state d :: d_stack d)) else Err json_syntax.

Definition close_container (d : decoder) (c : ascii) (r : bytes) (allowed : bool)
    : res (token * decoder) :=
  if allowed then
    match d_stack d with
    | s :: stack => Ok (Delim c, mkDecoder r (tokenValueEnd s) stack)
    | [] => Crash
    end
  else Err json_syntax.

(** [Token]; after one separator comes a value, a key or an error, so the loop
    runs at most twice. *)
Fixpoint Token_loop (n : nat) (d : decoder) : res (token * decoder) :=
  match n with
  | O => Crash
  | S n' =>
      match peek d with
      | None => Err json_EOF
      | Some (c, r) =>
          let s := d_state d in
          if ch c "["%char then open_container d c r tokenArrayStart
          else if ch c "]"%char then
            close_container d c r
              (match s with tokenArrayStart | tokenArrayComma => true | _ => false end)
          else if ch c "{"%char then open_container d c r tokenObjectStart
          else if ch c "}"%char then
            close_container d c r
              (match s with tokenObjectStart | tokenObjectComma => true | _ => false end)
          else if ch c ":"%char then
            match s with
            | tokenObjectColon => Token_loop n' (mkDecoder r tokenObjectValue (d_stack d))
            | _ => Err json_syntax
            end
          else if ch c ","%char then
            match s with
            | tokenArrayComma => Token_loop n' (mkDecoder r tokenArrayValue (d_stack d))
            | tokenObjectComma => Token_loop n' (mkDecoder r tokenObjectKey (d_stack d))
            | _ => Err json_syntax
            end
          else scalar_token d c r
      end
  end.
Definition Token (d : decoder) : res (token * decoder) := Token_loop 3 d.

(** ** Progress: every reader consumes input *)
Lemma skip_ws_length l : (length (skip_ws l) ≤ length l)%nat.
Proof. induction l as [|b l IH]; cbn; [done|]. case_match; cbn; lia. Qed.

Lemma hex4_length l z r : hex4 l = Some (z, r) → (length r < length l)%nat.
Proof.
  destruct l as [|a [|b [|c [|d l]]]]; cbn; try done.
  intros (?&_&(?&_&(?&_&(?&_&[= _ <-])%bind_Some)%bind_Some)%bind_Some)%bind_Some. lia.
Qed.

Lemma unicode_escape_length l z r : unicode_escape l = Some (z, r) → (length r < length l)%nat.
Proof.
  unfold unicode_escape. intros ([rr r0] & Hh & Hr)%bind_Some. apply hex4_length in Hh.
  destruct (_ && _); [|by simplify_eq].
  destruct r0 as [|b [|u r1]]; [by simplify_eq..|].
  destruct (_ && _); [|by simplify_eq].
  destruct (hex4 r1) as [[lo r2]|] eqn:H2; [|by simplify_eq].
  apply hex4_length in H2. destruct (_ && _); simplify_eq; cbn in *; lia.
Qed.

Lemma parse_string_length n l s rest :
  parse_string n l = Some (s, rest) → (length rest < length l)%nat.
Proof.
  revert l s rest. induction n as [|n IH]; intros [|b l] s rest; cbn [parse_string]; try done.
  destruct (ch b quote); [intros [= _ <-]; cbn; lia|].
  destruct (ch b backslash).
  - destruct l as [|e l]; [done|]. destruct (ch e "u"%char).
    + intros ([z r] & Hu & ([s' r'] & Hs & [= _ <-])%bind_Some)%bind_Some.
      apply unicode_escape_length in Hu. apply IH in Hs. cbn. lia.
    + intros (c & _ & ([s' r'] & Hs & [= _ <-])%bind_Some)%bind_Some.
      apply IH in Hs. cbn. lia.
  - destruct (_ <? _); [done|]. intros ([s' r'] & Hs & [= _ <-])%bind_Some.
    apply IH in Hs. pose proof (DecodeRune_width (b :: l) ltac:(done)).
    rewrite length_drop in Hs. lia.
Qed.

Lemma digit_run_length l : (length (digit_run l).2 ≤ length l)%nat.
Proof.
  induction l as [|b l IH]; cbn; [done|]. destruct (is_digit b); [|done].
  destruct (digit_run l). cbn in *. lia.
Qed.

Lemma parse_int_part_length l i r : parse_int_part l = Some (i, r) → (length r < length l)%nat.
Proof.
  destruct l as [|b l]; cbn [parse_int_part]; [done|].
  destruct (ch b "0"%char); [intros [= _ <-]; cbn; lia|].
  destruct (is_digit b) eqn:Hb; [|done]. intros [= H1]. cbn in H1. rewrite Hb in H1.
  pose proof (digit_run_length l). destruct (digit_run l). simplify_eq. cbn in *. lia.
Qed.

Lemma parse_fraction_length l i r : parse_fraction l = Some (i, r) → (length r ≤ length l)%nat.
Proof.
  destruct l as [|b l]; cbn [parse_fraction]; [by intros [= _ <-]|].
  destruct (ch b "."%char); [|by intros [= _ <-]].
  pose proof (digit_run_length l). destruct (digit_run l) as [[|] ?]; intros; simplify_eq.
  cbn in *. lia.
Qed.

Lemma parse_exponent_length l i r : parse_exponent l = Some (i, r) → (length r ≤ length l)%nat.
Proof.
  destruct l as [|b l]; cbn [parse_exponent]; [by intros [= _ <-]|].
  destruct (_ || _); [|by intros [= _ <-]].
  destruct l as [|s l]; [done|]. destruct (_ || _).
  - pose proof (digit_run_length l). destruct (digit_run l) as [[|] ?]; intros; simplify_eq.
    cbn in *. lia.
  - pose proof (digit_run_length (s :: l)). destruct (digit_run (s :: l)) as [[|] ?];
      intros; simplify_eq. cbn in *. lia.
Qed.

Lemma parse_number_length l lit r : parse_number l = Some (lit, r) → (length r < length l)%nat.
Proof.
  unfold parse_number. destruct l as [|b l]; [done|].
  assert (∀ l' (sign : bytes), (length l' ≤ length (b :: l))%nat →
    ('(i, l) ← parse_int_part l'; '(f, l) ← parse_fraction l; '(e, l) ← parse_exponent l;
     Some (sign ++ i ++ f ++ e, l)) = Some (lit, r) → (length r < length (b :: l))%nat) as Hgo.
  { intros l' sign Hl'. intros ([i l1] & H1 & ([f l2] & H2 & ([e l3] & H3 & [= _ <-])%bind_Some)%bind_Some)%bind_Some.
    apply parse_int_part_length in H1. apply parse_fraction_length in H2.
    apply parse_exponent_length in H3. lia. }
  destruct (ch b "-"%char); apply Hgo; cbn; lia.
Qed.

Lemma strip_prefix_length p l r : strip_prefix p l = Some r → length l = (length p + length r)%nat.
Proof.
  revert l. induction p as [|a p IH]; intros l; cbn; [by intros [= <-]|].
  destruct l as [|b l]; [done|]. destruct (ch b a); [|done]. intros ?%IH. cbn. lia.
Qed.

Lemma parse_scalar_length l v rest : parse_scalar l = Some (v, rest) → (length rest < length l)%nat.
Proof.
  destruct l as [|b l]; [done|]. unfold parse_scalar.
  destruct (ch b quote).
  { intros ([s r] & Hs & [= _ <-])%bind_Some. apply parse_string_length in Hs. cbn. lia. }
  repeat (destruct (ch b _);
    [intros (r & Hr & [= _ <-])%bind_Some; apply strip_prefix_length in Hr; cbn in *; lia|]).
  intros ([lit r] & Hn & [= _ <-])%bind_Some. by apply parse_number_length in Hn.
Qed.

Lemma parse_length n :
  (∀ d l v rest, parse_value n d l = Some (v, rest) → (length rest < length l)%nat) ∧
  (∀ d l vs rest, parse_elements n d l = Some (vs, rest) → (length rest < length l)%nat) ∧
  (∀ d l ms rest, parse_members n d l = Some (ms, rest) → (length rest < length l)%nat).
Proof.
  induction n as [|n (IHv & IHe & IHm)]; [done|]. split_and!.
  - intros d l v rest. cbn [parse_value]. pose proof (skip_ws_length l).
    destruct (skip_ws l) as [|b r] eqn:Hl; [done|]. cbn [length] in *.
    destruct (ch b "["%char).
    { destruct (_ <=? _); [done|]. pose proof (skip_ws_length r).
      destruct (skip_ws r) as [|c r'] eqn:Hr; [done|]. cbn [length] in *.
      destruct (ch c "]"%char); [intros [= _ <-]; lia|].
      intros ([vs r''] & Hvs & [= _ <-])%bind_Some. apply IHe in Hvs. lia. }
    destruct (ch b "{"%char).
    { destruct (_ <=? _); [done|]. pose proof (skip_ws_length r).
      destruct (skip_ws r) as [|c r'] eqn:Hr; [done|]. cbn [length] in *.
      destruct (ch c "}"%char); [intros [= _ <-]; lia|].
      intros ([vs r''] & Hvs & [= _ <-])%bind_Some. apply IHm in Hvs. lia. }
    intros Hs%parse_scalar_length. cbn [length] in *. lia.
  - intros d l vs rest. cbn [parse_elements].
    intros ([v l1] & Hv & Hr)%bind_Some. apply IHv in Hv. pose proof (skip_ws_length l1).
    destruct (skip_ws l1) as [|c r]; [done|]. cbn [length] in *.
    destruct (ch c ","%char).
    + apply bind_Some in Hr as ([vs' r'] & Hr & [= _ <-]). apply IHe in Hr. lia.
    + destruct (ch c "]"%char); simplify_eq. lia.
  - intros d l ms rest. cbn [parse_members]. pose proof (skip_ws_length l).
    destruct (skip_ws l) as [|q r]; [done|]. cbn [length] in *. destruct (ch q quote); [|done].
    intros ([k l1] & Hk & Hr)%bind_Some. apply parse_string_length in Hk.
    pose proof (skip_ws_length l1). destruct (skip_ws l1) as [|c r1]; [done|]. cbn [length] in *.
    destruct (ch c ":"%char); [|done].
    apply bind_Some in Hr as ([v l2] & Hv & Hr). apply IHv in Hv.
    pose proof (skip_ws_length l2). destruct (skip_ws l2) as [|c2 r2]; [done|]. cbn [length] in *.
    destruct (ch c2 ","%char).
    + apply bind_Some in Hr as ([ms' r'] & Hr & [= _ <-]). apply IHm in Hr. lia.
    + destruct (ch c2 "}"%char); simplify_eq. lia.
Qed.

(** ** The fuel is enough

    A parse that succeeds with any fuel and at any nesting depth succeeds, with
    the same result, with the fuel of [read_value] and at a smaller depth. *)
Lemma parse_fuel n :
  (∀ d l x, parse_value n d l = Some x → ∀ m d', (2 * length l + 1 ≤ m)%nat → d' <= d →
     parse_value m d' l = Some x) ∧
  (∀ d l x, parse_elements n d l = Some x → ∀ m d', (2 * length l + 2 ≤ m)%nat → d' <= d →
     parse_elements m d' l = Some x) ∧
  (∀ d l x, parse_members n d l = Some x → ∀ m d', (2 * length l + 1 ≤ m)%nat → d' <= d →
     parse_members m d' l = Some x).
Proof.
  induction n as [|n (IHv & IHe & IHm)]; [done|].
  destruct (parse_length n) as (Lv & _ & _). split_and!.
  - intros d l x Hx [|m] d' Hm Hd; [lia|]. cbn [parse_value] in *.
    pose proof (skip_ws_length l). destruct (skip_ws l) as [|b r]; [done|]. cbn [length] in *.
    destruct (ch b "["%char).
    { destruct (Z.leb_spec maxNestingDepth d); [done|].
      destruct (Z.leb_spec maxNestingDepth d'); [lia|].
      destruct (skip_ws r) as [|c r']; [done|]. destruct (ch c "]"%char); [done|].
      apply bind_Some in Hx as (p & Hp & Hx). rewrite (IHe _ _ _ Hp) by lia. done. }
    destruct (ch b "{"%char).
    { destruct (Z.leb_spec maxNestingDepth d); [done|].
      destruct (Z.leb_spec maxNestingDepth d'); [lia|].
      destruct (skip_ws r) as [|c r']; [done|]. destruct (ch c "}"%char); [done|].
      apply bind_Some in Hx as (p & Hp & Hx). rewrite (IHm _ _ _ Hp) by lia. done. }
    done.
  - intros d l x Hx [|m] d' Hm Hd; [lia|]. cbn [parse_elements] in *.
    apply bind_Some in Hx as ([v l1] & Hv & Hx). pose proof (Lv _ _ _ _ Hv).
    rewrite (IHv _ _ _ Hv) by lia. cbn [mbind option_bind].
    pose proof (skip_ws_length l1). destruct (skip_ws l1) as [|c r]; [done|]. cbn [length] in *.
    destruct (ch c ","%char); [|done].
    apply bind_Some in Hx as (p & Hp & Hx). rewrite (IHe _ _ _ Hp) by lia. done.
  - intros d l x Hx [|m] d' Hm Hd; [lia|]. cbn [parse_members] in *.
    pose proof (skip_ws_length l). destruct (skip_ws l) as [|q r]; [done|]. cbn [length] in *.
    destruct (ch q quote); [|done].
    apply bind_Some in Hx as ([k l1] & Hk & Hx). rewrite Hk. cbn [mbind option_bind].
    apply parse_string_length in Hk. pose proof (skip_ws_length l1).
    destruct (skip_ws l1) as [|c r1]; [done|]. cbn [length] in *. destruct (ch c ":"%char); [|done].
    apply bind_Some in Hx as ([v l2] & Hv & Hx). pose proof (Lv _ _ _ _ Hv).
    rewrite (IHv _ _ _ Hv) by lia. cbn [mbind option_bind].
    pose proof (skip_ws_length l2). destruct (skip_ws l2) as [|c2 r2]; [done|]. cbn [length] in *.
    destruct (ch c2 ","%char); [|done].
    apply bind_Some in Hx as (p & Hp & Hx). rewrite (IHm _ _ _ Hp) by lia. done.
Qed.

Lemma read_value_complete n d l x : 0 <= d → parse_value n d l = Some x → read_value l = Some x.
Proof. intros Hd Hx. eapply parse_fuel; [exact Hx|unfold value_fuel; lia|done]. Qed.

(** An input that [read_value] rejects has no parse at all. *)
Lemma read_value_sound l : read_value l = None → ∀ n d, 0 <= d → parse_value n d l = None.
Proof.
  intros Hn n d Hd. destruct (parse_value n d l) eqn:Hp; [|done].
  by rewrite (read_value_complete _ _ _ _ Hd Hp) in Hn.
Qed.

Example parse_ex :
  parse_document (to_bytes " [1.5e3, true, {}, [] , null]")
  = Some (JArr [JNum (to_bytes "1.5e3"); JBool true; JObj []; JArr []; JNull]).
Proof. vm_compute. reflexivity. Qed.
Example parse_reject : parse_document (to_bytes "[1,]") = None.
Proof. vm_compute. reflexivity. Qed.

(** ** The decoder never panics, and every token consumes input *)
Fixpoint stack_ok (s : tokenState) (stack : list tokenState) : Prop :=
  match stack with
  | [] => s = tokenTopValue
  | s' :: stack' => s ≠ tokenTopValue ∧ stack_ok s' stack'
  end.
Definition decoder_ok (d : decoder) : Prop := stack_ok (d_state d) (d_stack d).

Lemma stack_ok_change s s' stack :
  (s = tokenTopValue ↔ s' = tokenTopValue) → stack_ok s stack → stack_ok s' stack.
Proof. destruct stack; cbn; naive_solver. Qed.

Lemma stack_ok_end s stack : stack_ok s stack → stack_ok (tokenValueEnd s) stack.
Proof. apply stack_ok_change. by destruct s. Qed.

Lemma peek_length d c r : peek d = Some (c, r) → (length r < length (d_rest d))%nat.
Proof.
  unfold peek. pose proof (skip_ws_length (d_rest d)).
  destruct (skip_ws (d_rest d)); [done|]. intros [= <- <-]. cbn in *. lia.
Qed.

Lemma scalar_token_ok d c r t d' :
  (length r < length (d_rest d))%nat → decoder_ok d → scalar_token d c r = Ok (t, d') →
  (length (d_rest d') < length (d_rest d))%nat ∧ decoder_ok d'.
Proof.
  intros Hr Hok. unfold scalar_token, decoder_ok in *.
  destruct (_ && _) eqn:Hk.
  { destruct (parse_string _ _) as [[s rest]|] eqn:Hs; [|done]. intros [= _ <-]. cbn.
    apply parse_string_length in Hs. split; [lia|].
    apply andb_true_iff in Hk as [_ Hk]. eapply stack_ok_change; [|exact Hok].
    by destruct (d_state d). }
  destruct (negb _); [done|].
  destruct (parse_scalar (c :: r)) as [[v rest]|] eqn:Hs; [|done].
  apply parse_scalar_length in Hs. cbn in Hs.
  assert (stack_ok (tokenValueEnd (d_state d)) (d_stack d)) by (by apply stack_ok_end).
  destruct v as [|?|lit|?|?|?]; try (destruct (ParseFloat lit); [|done]);
    intros ?; simplify_eq; cbn; split; (lia || done).
Qed.

Lemma Token_loop_ok n d t d' :
  decoder_ok d → Token_loop n d = Ok (t, d') →
  (length (d_rest d') < length (d_rest d))%nat ∧ decoder_ok d'.
Proof.
  revert d. induction n as [|n IH]; intros d Hok; cbn [Token_loop]; [done|].
  destruct (peek d) as [[c r]|] eqn:Hp; [|done]. apply peek_length in Hp.
  unfold open_container, close_container.
  destruct (ch c "["%char).
  { destruct (tokenValueAllowed _); [|done]. intros [= _ <-]. split; [done|by split]. }
  destruct (ch c "]"%char).
  { destruct (match d_state d with tokenArrayStart | tokenArrayComma => true | _ => false end); [|done].
    destruct (d_stack d) as [|s stack] eqn:Hs; [done|]. intros [= _ <-]. split; [done|].
    unfold decoder_ok in *. rewrite Hs in Hok. apply stack_ok_end, Hok. }
  destruct (ch c "{"%char).
  { destruct (tokenValueAllowed _); [|done]. intros [= _ <-]. split; [done|by split]. }
  destruct (ch c "}"%char).
  { destruct (match d_state d with tokenObjectStart | tokenObjectComma => true | _ => false end); [|done].
    destruct (d_stack d) as [|s stack] eqn:Hs; [done|]. intros [= _ <-]. split; [done|].
    unfold decoder_ok in *. rewrite Hs in Hok. apply stack_ok_end, Hok. }
  assert (∀ s', (d_state d = tokenTopValue ↔ s' = tokenTopValue) →
    Token_loop n (mkDecoder r s' (d_stack d)) = Ok (t, d') →
    (length (d_rest d') < length (d_rest d))%nat ∧ decoder_ok d') as Hrec.
  { intros s' Hs' Ht. apply IH in Ht as [? ?]; [cbn in *; split; [lia|done]|].
    by (eapply stack_ok_change; [|exact Hok]). }
  destruct (ch c ":"%char).
  { destruct (d_state d) eqn:Hs; try done; apply Hrec; done. }
  destruct (ch c ","%char).
  { destruct (d_state d) eqn:Hs; try done; apply Hrec; done. }
  by apply scalar_token_ok.
Qed.

Lemma Token_ok d t d' :
  decoder_ok d → Token d = Ok (t, d') →
  (length (d_rest d') < length (d_rest d))%nat ∧ decoder_ok d'.
Proof. apply Token_loop_ok. Qed.

Lemma scalar_token_no_crash d c r : scalar_token d c r ≠ Crash.
Proof. unfold scalar_token. repeat (case_match; try done). Qed.

(** The number of rounds of the token loop a state can need. *)
Definition token_rounds (s : tokenState) : nat :=
  match s with tokenArrayComma | tokenObjectComma | tokenObjectColon => 2 | _ => 1 end.

Lemma Token_loop_no_crash n d :
  decoder_ok d → (token_rounds (d_state d) ≤ n)%nat → Token_loop n d ≠ Crash.
Proof.
  revert d. induction n as [|n IH]; intros d Hok Hn.
  { destruct (d_state d); cbn in Hn; lia. }
  cbn [Token_loop]. destruct (peek d) as [[c r]|]; [|done].
  unfold open_container, close_container, decoder_ok in *.
  destruct (ch c "["%char); [by case_match|].
  destruct (ch c "]"%char).
  { destruct (d_state d), (d_stack d); cbn in *; try done; naive_solver. }
  destruct (ch c "{"%char); [by case_match|].
  destruct (ch c "}"%char).
  { destruct (d_state d), (d_stack d); cbn in *; try done; naive_solver. }
  destruct (ch c ":"%char).
  { destruct (d_state d) eqn:Hs; try done. apply IH; [|cbn in *; lia].
    by (eapply stack_ok_change; [|exact Hok]). }
  destruct (ch c ","%char).
  { destruct (d_state d) eqn:Hs; try done; (apply IH; [|cbn in *; lia]; by (eapply stack_ok_change; [|exact Hok])). }
  apply scalar_token_no_crash.
Qed.

Lemma Token_no_crash d : decoder_ok d → Token d ≠ Crash.
Proof. intros Hok. apply Token_loop_no_crash; [done|]. destruct (d_state d); cbn; lia. Qed.

Lemma DecodeRaw_ok d v d' :
  decoder_ok d → DecodeRaw d = Ok (v, d') →
  (length (d_rest d') < length (d_rest d))%nat ∧ decoder_ok d'.
Proof.
  intros Hok. unfold DecodeRaw. intros (d1 & H1 & H2)%res_bind_Ok.
  assert ((length (d_rest d1) ≤ length (d_rest d))%nat ∧ decoder_ok d1) as [Hlen Hok1].
  { unfold tokenPrepareForDecode, decoder_ok in *. destruct (d_state d) eqn:Hs; simplify_eq;
      try (rewrite Hs; by split).
    - destruct (peek d) as [[c r]|] eqn:Hp; [|done]. apply peek_length in Hp.
      destruct (ch c _); [|done]. simplify_eq. cbn. split; [lia|]. by (eapply stack_ok_change; [|exact Hok]).
    - destruct (peek d) as [[c r]|] eqn:Hp; [|done]. apply peek_length in Hp.
      destruct (ch c _); [|done]. simplify_eq. cbn. split; [lia|]. by (eapply stack_ok_change; [|exact Hok]). }
  destruct (negb _); [done|]. destruct (read_value (d_rest d1)) as [[v' rest]|] eqn:Hv; [|done].
  simplify_eq. cbn. apply (parse_length (value_fuel (d_rest d1))) in Hv.
  split; [lia|]. by apply stack_ok_end.
Qed.

Lemma DecodeRaw_no_crash d : DecodeRaw d ≠ Crash.
Proof.
  unfold DecodeRaw. apply bind_no_crash.
  - unfold tokenPrepareForDecode. repeat case_match; done.
  - intros d1 _. repeat case_match; done.
Qed.

(** Between the members of an object, the next token is a key. *)
Lemma Token_key d t d' :
  (d_state d = tokenObjectStart ∨ d_state d = tokenObjectComma) → More d = true →
  Token d = Ok (t, d') → (∃ s, t = TString s) ∧ d_state d' = tokenObjectColon ∧ d_stack d' = d_stack d.
Proof.
  intros Hst Hmore. unfold More in Hmore.
  assert (∀ r stack c r', scalar_token (mkDecoder r tokenObjectKey stack) c r' = Ok (t, d') →
    (∃ s, t = TString s) ∧ d_state d' = tokenObjectColon ∧ d_stack d' = stack) as Hkey.
  { intros r stack c r'. unfold scalar_token. cbn [d_state tokenValueAllowed negb].
    destruct (ch c quote && true); [|done]. destruct (parse_string _ _) as [[s rest]|]; [|done].
    intros [= <- <-]. eauto. }
  assert (∀ d0 n, d_state d0 = tokenObjectKey → Token_loop n d0 = Ok (t, d') →
    (∃ s, t = TString s) ∧ d_state d' = tokenObjectColon ∧ d_stack d' = d_stack d0) as Hloop.
  { intros [r s stack] [|n]; cbn [d_state]; intros ->; cbn [Token_loop]; [done|].
    destruct (peek (mkDecoder r tokenObjectKey stack)) as [[c r']|]; [|done]. unfold open_container, close_container.
    cbn [d_state tokenValueAllowed]. repeat (destruct (ch c _); [done|]). apply Hkey. }
  unfold Token. cbn [Token_loop]. destruct (peek d) as [[c r]|]; [|done].
  apply andb_true_iff in Hmore as [H1%negb_true_iff H2%negb_true_iff].
  unfold open_container, close_container. rewrite H1, H2.
  destruct d as [rest st stack]. cbn [d_state d_stack] in *.
  destruct Hst as [-> | ->]; cbn [tokenValueAllowed].
  - destruct (ch c "["%char); [done|]. destruct (ch c "{"%char); [done|].
    destruct (ch c ":"%char); [done|]. destruct (ch c ","%char); [done|].
    unfold scalar_token. cbn [d_state tokenValueAllowed negb].
    destruct (ch c quote && true); [|done]. destruct (parse_string _ _) as [[s r']|]; [|done].
    intros [= <- <-]. eauto.
  - destruct (ch c "["%char); [done|]. destruct (ch c "{"%char); [done|].
    destruct (ch c ":"%char); [done|]. destruct (ch c ","%char).
    + apply (Hloop (mkDecoder r tokenObjectKey stack) 2%nat). done.
    + unfold scalar_token. cbn [d_state tokenValueAllowed negb].
      by rewrite andb_false_r.
Qed.
