(* ===== verification/ConfigJson.v ===== *)
(** * Decoding the configuration ([cre/workflow/internal/helper/config.go])

    [Config] with its json tags, as [encoding/json.Unmarshal] reads it: what a
    decoded configuration satisfies whatever the document, and that every field
    is read from the member of its tag. *)

From S2P Require Import Prelude GoText BigInt Ethereum Config Float Json.

#[local] Open Scope Z_scope.

(** ** Storing a value into a field *)

(** [strconv.ParseUint] on a number literal: digits only, within the width. *)
Definition ParseUint (bits : Z) (l : bytes) : option Z :=
  let '(m, n, rest) := take_digits 0 0 l in
  if (n =? 0) || negb (bool_decide (rest = [])) then None
  else if m <? 2 ^ bits then Some m else None.

(** [null] leaves a number, a bool or a struct unchanged and clears a pointer or
    a slice; [None] is a type error. *)
Definition store_uint (bits : Z) (cur : Z) (v : json) : option Z :=
  match v with JNum lit => ParseUint bits lit | JNull => Some cur | _ => None end.
Definition store_uint_ptr (bits : Z) (v : json) : option (option Z) :=
  match v with JNum lit => z ← ParseUint bits lit; Some (Some z) | JNull => Some None | _ => None end.
Definition store_bool (cur : bool) (v : json) : option bool :=
  match v with JBool b => Some b | JNull => Some cur | _ => None end.
Definition store_struct {A} (store : A → string → json → option A) (cur : A) (v : json)
    : option A := unmarshal_struct cur store v.

(** A slice is reset to length zero and the elements are appended. *)
Definition store_slice {A} (element : json → option A) (v : json) : option (list A) :=
  match v with JArr vs => mapM element vs | JNull => Some [] | _ => None end.
Definition store_strings : json → option (list string) := store_slice (store_string EmptyString).

(** ** The structs and their tags *)
Definition store_defiLlama (c : DefiLlama) (k : string) (v : json) : option DefiLlama :=
  if field_is "poolIds" k then
    l ← store_strings v; Some (mkDefiLlama l (Projects c) (Symbols c))
  else if field_is "projects" k then
    l ← store_strings v; Some (mkDefiLlama (PoolIDs c) l (Symbols c))
  else if field_is "symbols" k then
    l ← store_strings v; Some (mkDefiLlama (PoolIDs c) (Projects c) l)
  else Some c.

Definition store_evmConfig (c : EvmConfig) (k : string) (v : json) : option EvmConfig :=
  let '(mkEvmConfig parent name llama selector vault router gas) := c in
  if field_is "isParent" k then
    b ← store_bool parent v; Some (mkEvmConfig b name llama selector vault router gas)
  else if field_is "chainName" k then
    s ← store_string name v; Some (mkEvmConfig parent s llama selector vault router gas)
  else if field_is "defiLlamaChainName" k then
    s ← store_string llama v; Some (mkEvmConfig parent name s selector vault router gas)
  else if field_is "chainSelector" k then
    z ← store_uint 64 selector v; Some (mkEvmConfig parent name llama z vault router gas)
  else if field_is "vaultAddress" k then
    s ← store_string vault v; Some (mkEvmConfig parent name llama selector s router gas)
  else if field_is "workflowRouterAddress" k then
    s ← store_string router v; Some (mkEvmConfig parent name llama selector vault s gas)
  else if field_is "gasLimit" k then
    z ← store_uint 64 gas v; Some (mkEvmConfig parent name llama selector vault router z)
  else Some c.

Definition zeroDefiLlama : DefiLlama := mkDefiLlama [] [] [].
Definition zeroEvmConfig : EvmConfig :=
  mkEvmConfig false EmptyString EmptyString 0 EmptyString EmptyString 0.
Definition zeroConfig : Config := mkConfig EmptyString EmptyString None None zeroDefiLlama [].

Definition store_config (c : Config) (k : string) (v : json) : option Config :=
  let '(mkConfig rebalance epoch decimals block llama evms) := c in
  if field_is "rebalanceSchedule" k then
    s ← store_string rebalance v; Some (mkConfig s epoch decimals block llama evms)
  else if field_is "epochSchedule" k then
    s ← store_string epoch v; Some (mkConfig rebalance s decimals block llama evms)
  else if field_is "assetDecimals" k then
    d ← store_uint_ptr 8 v; Some (mkConfig rebalance epoch d block llama evms)
  else if field_is "blockNumber" k then
    b ← store_int v; Some (mkConfig rebalance epoch decimals b llama evms)
  else if field_is "defiLlama" k then
    d ← store_struct store_defiLlama llama v; Some (mkConfig rebalance epoch decimals block d evms)
  else if field_is "evms" k then
    l ← store_slice (store_struct store_evmConfig zeroEvmConfig) v;
    Some (mkConfig rebalance epoch decimals block llama l)
  else Some c.

Definition decodeConfig (v : json) : option Config := unmarshal_struct zeroConfig store_config v.
Definition unmarshalConfig (file : bytes) : option Config :=
  v ← parse_document file; decodeConfig v.

(** ** A decoded configuration has the machine widths of its fields *)
Lemma take_digits_nonneg l m n : 0 <= m → 0 <= (take_digits m n l).1.1.
Proof.
  revert m n. induction l as [|b l IH]; intros m n Hm; cbn; [done|].
  destruct (is_digit b) eqn:Hb; [|done]. apply IH. unfold is_digit in Hb. unfold digit. lia.
Qed.

Lemma ParseUint_range bits l z : ParseUint bits l = Some z → 0 <= z < 2 ^ bits.
Proof.
  unfold ParseUint. pose proof (take_digits_nonneg l 0 0 ltac:(done)) as Hm.
  destruct (take_digits 0 0 l) as [[m n] rest]. cbn in Hm.
  destruct (_ || _); [done|]. destruct (m <? 2 ^ bits) eqn:Hlt; [|done]. intros [= <-]. lia.
Qed.

(** An invariant of the members' stores holds of what they build. *)
Lemma store_members_inv {A} (P : A → Prop) store ms :
  (∀ a k v a', P a → store a k v = Some a' → P a') →
  ∀ a a', P a → store_members store a ms = Some a' → P a'.
Proof.
  intros Hstep. induction ms as [|[k v] ms IH]; cbn; intros a a' Ha; [by intros [= <-]|].
  intros (a1 & H1 & H2)%bind_Some. eauto.
Qed.

Lemma unmarshal_struct_inv {A} (P : A → Prop) zero store v a :
  P zero → (∀ a k v a', P a → store a k v = Some a' → P a') →
  unmarshal_struct zero store v = Some a → P a.
Proof.
  intros Hz Hstep. destruct v; cbn; try done; [by intros [= <-]|].
  by apply store_members_inv.
Qed.

Definition typed_evm (e : EvmConfig) : Prop :=
  in_uint64 (ChainSelector e) ∧ in_uint64 (GasLimit e).

Ltac decode_step :=
  match goal with
  | H : (if ?b then _ else _) = Some _ |- _ => destruct b
  | H : (_ ≫= _) = Some _ |- _ => apply bind_Some in H as (? & ? & H)
  | H : Some _ = Some _ |- _ => injection H as <-
  end.

Lemma store_uint_range bits cur v z :
  0 <= cur < 2 ^ bits → store_uint bits cur v = Some z → 0 <= z < 2 ^ bits.
Proof. intros Hc. destruct v; cbn; [by intros [= <-]|done|apply ParseUint_range|done..]. Qed.

Lemma store_evmConfig_typed e k v e' :
  typed_evm e → store_evmConfig e k v = Some e' → typed_evm e'.
Proof.
  destruct e. unfold typed_evm, store_evmConfig. cbn. intros [Hs Hg] H.
  repeat decode_step; cbn; try done; split; try done;
    (eapply (store_uint_range 64); [|eassumption]; done).
Qed.

Lemma store_slice_Forall {A} (P : A → Prop) element v l :
  (∀ w a, element w = Some a → P a) → store_slice element v = Some l → Forall P l.
Proof.
  intros He. destruct v; cbn; try done; [by intros [= <-]|].
  intros Hl%mapM_Some. induction Hl; constructor; eauto.
Qed.

Definition typed_config (c : Config) : Prop :=
  Forall typed_evm (Evms c) ∧ (∀ d, AssetDecimals c = Some d → 0 <= d < 256) ∧
  (∀ b, BlockNumber c = Some b → in_int64 b).

Lemma store_config_typed c k v c' :
  typed_config c → store_config c k v = Some c' → typed_config c'.
Proof.
  destruct c. unfold typed_config, store_config. cbn. intros (He & Hd & Hb) H.
  repeat decode_step; cbn; try done.
  - split_and!; [done| |done]. intros d ->. destruct v as [| |lit| | |]; try done.
    cbn in *. decode_step. simplify_eq. by eapply (ParseUint_range 8).
  - split_and!; [done|done|]. intros b ->. destruct v as [| |lit| | |]; try done.
    cbn in *. decode_step. simplify_eq. by eapply ParseInt_range.
  - split_and!; [|done|done]. eapply store_slice_Forall; [|eassumption].
    intros w e. apply unmarshal_struct_inv; [done|apply store_evmConfig_typed].
Qed.

(** Whatever the document, a decoded configuration is typed: the hypothesis of
    the theorems about handlers is discharged by the decoder. *)
Lemma unmarshalConfig_typed file cfg : unmarshalConfig file = Some cfg → TypedConfig cfg.
Proof.
  intros (v & _ & Hv)%bind_Some.
  assert (typed_config cfg) as (He & Hd & Hb).
  { revert Hv. apply unmarshal_struct_inv; [done|apply store_config_typed]. }
  split; [| |done|done]; (eapply Forall_impl; [exact He|]); by intros e [].
Qed.

(** ** Every field is read from the member of its tag *)
Definition literal (z : Z) : json := JNum (to_bytes (pretty z)).
Definition pointer_json (p : option Z) : json := match p with Some z => literal z | None => JNull end.
Definition strings_json (l : list string) : json := JArr (JStr <$> l).

Definition defiLlama_json (c : DefiLlama) : json :=
  JObj [("poolIds", strings_json (PoolIDs c)); ("projects", strings_json (Projects c));
        ("symbols", strings_json (Symbols c))]%string.
Definition evmConfig_json (e : EvmConfig) : json :=
  JObj [("isParent", JBool (IsParent e)); ("chainName", JStr (ChainName e));
        ("defiLlamaChainName", JStr (DefiLlamaChainName e));
        ("chainSelector", literal (ChainSelector e)); ("vaultAddress", JStr (VaultAddress e));
        ("workflowRouterAddress", JStr (WorkflowRouterAddress e));
        ("gasLimit", literal (GasLimit e))]%string.
Definition config_json (c : Config) : json :=
  JObj [("rebalanceSchedule", JStr (RebalanceSchedule c)); ("epochSchedule", JStr (EpochSchedule c));
        ("assetDecimals", pointer_json (AssetDecimals c)); ("blockNumber", pointer_json (BlockNumber c));
        ("defiLlama", defiLlama_json (Config_DefiLlama c));
        ("evms", JArr (evmConfig_json <$> Evms c))]%string.

Lemma take_digits_char d m n l : (d < 10)%N →
  take_digits m n (pretty_N_char d :: l) = take_digits (m * 10 + Z.of_N d) (n + 1) l.
Proof.
  intros Hd. assert (d ∈ [0;1;2;3;4;5;6;7;8;9]%N) as Hin.
  { rewrite !elem_of_cons. lia. }
  repeat (apply elem_of_cons in Hin as [->|Hin]; [reflexivity|]). by apply elem_of_nil in Hin.
Qed.

Lemma take_digits_go x s m n :
  ∃ k, 0 <= k ∧ ((0 < x)%N → 0 < k) ∧
    take_digits m n (to_bytes (pretty_N_go x s))
      = take_digits (m * 10 ^ k + Z.of_N x) (n + k) (to_bytes s).
Proof.
  revert s m n. induction (N.lt_wf_0 x) as [x _ IH]. intros s m n.
  destruct (decide (0 < x)%N) as [Hx|Hx].
  - destruct (IH (x `div` 10)%N ltac:(by apply N.div_lt; lia)
      (String (pretty_N_char (x `mod` 10)) s) m n) as (k & Hk & _ & Heq).
    exists (k + 1). split; [lia|]. split; [lia|]. rewrite pretty_N_go_step, Heq by done.
    cbn [to_bytes list_ascii_of_string].
    rewrite take_digits_char by (apply N.mod_lt; lia). f_equal; [|lia].
    rewrite Z.pow_add_r, N2Z.inj_div, N2Z.inj_mod by lia.
    pose proof (Z.div_mod (Z.of_N x) 10 ltac:(lia)). change (Z.of_N 10) with 10. lia.
  - assert (x = 0%N) as -> by lia. exists 0. rewrite pretty_N_go_0. split; [done|]. split; [lia|].
    f_equal; lia.
Qed.

Lemma take_digits_pretty x :
  ∃ k, 0 < k ∧ take_digits 0 0 (to_bytes (pretty x)) = (Z.of_N x, k, []).
Proof.
  unfold pretty, pretty_N. case_decide as Hx; [subst; by exists 1|].
  destruct (take_digits_go x "" 0 0) as (k & _ & Hk & ->). exists k. split; [lia|]. reflexivity.
Qed.

Lemma ParseUint_literal bits z : 0 <= z < 2 ^ bits → ParseUint bits (to_bytes (pretty z)) = Some z.
Proof.
  intros Hz. assert (pretty z = pretty (Z.to_N z)) as -> by (by destruct z; try lia).
  unfold ParseUint. destruct (take_digits_pretty (Z.to_N z)) as (k & Hk & ->).
  rewrite Z2N.id by lia. rewrite (proj2 (Z.eqb_neq k 0)) by lia. cbn.
  by rewrite (proj2 (Z.ltb_lt _ _)) by lia.
Qed.

Lemma strip_minus_pretty (x : N) :
  strip_minus (to_bytes (pretty x)) = (false, to_bytes (pretty x)).
Proof.
  unfold strip_minus. destruct (pretty x) as [|b s] eqn:Hp; [done|]. cbn.
  case_bool_decide as Hb; [|done]. subst b. exfalso. revert Hp.
  unfold pretty, pretty_N. case_decide; [done|]. by apply (pretty_N_go_ne_dash _ "").
Qed.

Lemma ParseInt_literal z : in_int64 z → ParseInt (to_bytes (pretty z)) = Some z.
Proof.
  intros Hz. unfold ParseInt.
  assert (∃ (neg : bool) (x : N), (if neg then - Z.of_N x else Z.of_N x) = z ∧
    strip_minus (to_bytes (pretty z)) = (neg, to_bytes (pretty x))) as (neg & x & Hx & ->).
  { destruct z as [|p|p].
    - exists false, 0%N. by split.
    - exists false, (Npos p). split; [done|]. exact (strip_minus_pretty (Npos p)).
    - exists true, (Npos p). by split. }
  destruct (take_digits_pretty x) as (k & Hk & ->). rewrite Hx.
  rewrite (proj2 (Z.eqb_neq k 0)) by lia. by rewrite !bool_decide_eq_true_2 by done.
Qed.

(** Evaluates the match of a tag with a member's name. *)
Ltac match_tags :=
  repeat match goal with
  | |- context [field_is ?name ?key] =>
      let r := eval vm_compute in (field_is name key) in
      replace (field_is name key) with r by (vm_compute; reflexivity)
  end.

Lemma store_strings_json l : store_strings (strings_json l) = Some l.
Proof. cbn. induction l as [|s l IH]; [done|]. cbn. by rewrite IH. Qed.

Lemma store_defiLlama_json cur c :
  store_struct store_defiLlama cur (defiLlama_json c) = Some c.
Proof.
  destruct c as [ids ps ss]. unfold defiLlama_json, store_struct, unmarshal_struct, store_members.
  unfold store_defiLlama. match_tags. cbn [PoolIDs Projects Symbols].
  do 3 (rewrite store_strings_json; cbn [mbind option_bind Projects Symbols PoolIDs]). done.
Qed.

Lemma store_uint_literal bits cur z :
  0 <= z < 2 ^ bits → store_uint bits cur (literal z) = Some z.
Proof. apply ParseUint_literal. Qed.

Lemma store_evmConfig_json e :
  typed_evm e → store_struct store_evmConfig zeroEvmConfig (evmConfig_json e) = Some e.
Proof.
  destruct e as [parent name llama selector vault router gas]. intros [Hs Hg].
  unfold evmConfig_json, store_struct, unmarshal_struct, store_members, store_evmConfig. match_tags.
  cbn [zeroEvmConfig IsParent ChainName DefiLlamaChainName ChainSelector VaultAddress
       WorkflowRouterAddress GasLimit store_bool store_string mbind option_bind] in *.
  by do 2 (rewrite store_uint_literal by done; cbn [mbind option_bind]).
Qed.

Lemma store_evms_json l :
  Forall typed_evm l →
  store_slice (store_struct store_evmConfig zeroEvmConfig) (JArr (evmConfig_json <$> l)) = Some l.
Proof.
  cbn [store_slice]. induction 1 as [|e l He Hl IH]; [done|].
  cbn [fmap list_fmap mapM]. by rewrite store_evmConfig_json, IH.
Qed.

Lemma store_uint_ptr_json bits p :
  (∀ z, p = Some z → 0 <= z < 2 ^ bits) → store_uint_ptr bits (pointer_json p) = Some p.
Proof.
  intros Hp. destruct p as [z|]; [|done]. cbn [pointer_json store_uint_ptr literal].
  by rewrite ParseUint_literal by auto.
Qed.

Lemma store_int_json p :
  (∀ z, p = Some z → in_int64 z) → store_int (pointer_json p) = Some p.
Proof.
  intros Hp. destruct p as [z|]; [|done]. cbn [pointer_json store_int literal].
  by rewrite ParseInt_literal by auto.
Qed.

(** C25: decoding a configuration written with the tags of the structs gives the
    configuration back: no member is ignored, stored into another field, or
    truncated, for all strings and all integers of the fields' widths. *)
Theorem decodeConfig_roundtrip cfg (HTy : TypedConfig cfg) : decodeConfig (config_json cfg) = Some cfg.
Proof.
  destruct HTy as [Hs Hg Hd Hb].
  assert (Forall typed_evm (Evms cfg)) as He by (by apply Forall_and).
  destruct cfg as [rebalance epoch decimals block llama evms].
  unfold decodeConfig, config_json, unmarshal_struct, store_members, store_config. match_tags.
  cbn [zeroConfig RebalanceSchedule EpochSchedule AssetDecimals BlockNumber Config_DefiLlama Evms
       store_string mbind option_bind] in *.
  rewrite (store_uint_ptr_json 8) by done. cbn [mbind option_bind].
  rewrite store_int_json by done. cbn [mbind option_bind].
  rewrite store_defiLlama_json. cbn [mbind option_bind].
  by rewrite store_evms_json.
Qed.

(** ** The deployed configurations

    The text of [cre/workflow/config.production.json] and
    [cre/workflow/config.staging.json], with an apostrophe for every quote. *)
Definition json_text (s : string) : bytes :=
  (λ c, if bool_decide (c = "039"%char) then quote else c) <$> to_bytes s.

Definition config_production : bytes := json_text "{
  'rebalanceSchedule': '0 0 18 * * *',
  'epochSchedule': '0 0 12 * * 3',
  'blockNumber': -3,
  'assetDecimals': 6,
  'defiLlama': {
    'poolIds': [
      'aa70268e-4b52-42bf-a116-608b370f9501',
      '7da72d09-56ca-4ec5-a45f-59114353e487',
      '4ac1a968-68ab-4da8-87e3-8f1e15e3dae2',
      'd9fa8e14-0447-4207-9ae8-7810199dfa1f',
      'd9c395b9-00d0-4426-a6b3-572a6dd68e54',
      '7e0661bf-8cf3-45e6-9424-31916d4c7b84',
      '0c8567f8-ba5b-41ad-80de-00a71895eb19',
      'c4b05318-88af-4536-a834-f5fc8940d2d3',
      '22323e90-bde5-54a1-8686-53b4205b61b7',
      '0758c3b8-4ffb-4176-b0a9-f446e367db46',
      'b828f0cb-853d-4b32-aebb-2e20d7fd70a8',
      '1b8b4cdb-0728-42a8-bf13-2c8fea7427ee'
    ],
    'projects': ['aave-v3', 'compound-v3', 'aave-v4'],
    'symbols': ['USDC']
  },
  'evms': [
    {
      'isParent': true,
      'chainName': 'ethereum-mainnet-base-1',
      'defiLlamaChainName': 'Base',
      'chainSelector': 15971525489660198786,
      'vaultAddress': '0x664EFe3859165011b811d8AFc127872520e97079',
      'workflowRouterAddress': '0xAAac2c5e99cBf3dBb8d9c1fe96F968ce9cC7518b',
      'gasLimit': 1500000
    },
    {
      'isParent': false,
      'chainName': 'ethereum-mainnet-arbitrum-1',
      'defiLlamaChainName': 'Arbitrum',
      'chainSelector': 4949039107694359620,
      'vaultAddress': '0xd2F0E776312567e3157577B429bB210a4656Fa04',
      'workflowRouterAddress': '0xf5A044C79d1cfD1128ea082AccE8DaEd9d631045',
      'gasLimit': 1500000
    },
    {
      'isParent': false,
      'chainName': 'avalanche-mainnet',
      'defiLlamaChainName': 'Avalanche',
      'chainSelector': 6433500567565415381,
      'vaultAddress': '0xd2F0E776312567e3157577B429bB210a4656Fa04',
      'workflowRouterAddress': '0xf5A044C79d1cfD1128ea082AccE8DaEd9d631045',
      'gasLimit': 1500000
    },
    {
      'isParent': false,
      'chainName': 'ethereum-mainnet',
      'defiLlamaChainName': 'Ethereum',
      'chainSelector': 5009297550715157269,
      'vaultAddress': '0xd2F0E776312567e3157577B429bB210a4656Fa04',
      'workflowRouterAddress': '0x76893B35F88F1b0106eE30C75cD9C121C85A6bfc',
      'gasLimit': 1500000
    },
    {
      'isParent': false,
      'chainName': 'ethereum-mainnet-optimism-1',
      'defiLlamaChainName': 'OP Mainnet',
      'chainSelector': 3734403246176062136,
      'vaultAddress': '0xd2F0E776312567e3157577B429bB210a4656Fa04',
      'workflowRouterAddress': '0xf5A044C79d1cfD1128ea082AccE8DaEd9d631045',
      'gasLimit': 1500000
    },
    {
      'isParent': false,
      'chainName': 'polygon-mainnet',
      'defiLlamaChainName': 'Polygon',
      'chainSelector': 4051577828743386545,
      'vaultAddress': '0xd2F0E776312567e3157577B429bB210a4656Fa04',
      'workflowRouterAddress': '0x3445734F6a0ac10185Fe23Bb645eC45aFEa3f782',
      'gasLimit': 1500000
    }
  ]
}
".

Definition config_staging : bytes := json_text "{
  'rebalanceSchedule': '0 30 0,3,6,9,12,15,18,21 * * *',
  'epochSchedule': '0 0 2,5,8,11,14,17,20,23 * * *',
  'blockNumber': -2,
  'assetDecimals': 6,
  'defiLlama': {
    'poolIds': [
      'aa70268e-4b52-42bf-a116-608b370f9501',
      '7da72d09-56ca-4ec5-a45f-59114353e487',
      '4ac1a968-68ab-4da8-87e3-8f1e15e3dae2',
      'd9fa8e14-0447-4207-9ae8-7810199dfa1f',
      'd9c395b9-00d0-4426-a6b3-572a6dd68e54',
      '7e0661bf-8cf3-45e6-9424-31916d4c7b84',
      '0c8567f8-ba5b-41ad-80de-00a71895eb19',
      'c4b05318-88af-4536-a834-f5fc8940d2d3',
      '22323e90-bde5-54a1-8686-53b4205b61b7',
      '0758c3b8-4ffb-4176-b0a9-f446e367db46',
      'b828f0cb-853d-4b32-aebb-2e20d7fd70a8',
      '1b8b4cdb-0728-42a8-bf13-2c8fea7427ee'
    ],
    'projects': ['aave-v3', 'compound-v3', 'aave-v4'],
    'symbols': ['USDC']
  },
  'evms': [
    {
      'isParent': true,
      'chainName': 'ethereum-testnet-sepolia-base-1',
      'defiLlamaChainName': 'Base',
      'chainSelector': 10344971235874465080,
      'vaultAddress': '0x6fbB019A1d9F49BD2e667de994CC3588eDB4b09d',
      'workflowRouterAddress': '0x7Ceeb23617a99038DADEb30566290b7442Ead006',
      'gasLimit': 1000000
    },
    {
      'isParent': false,
      'chainName': 'ethereum-testnet-sepolia-arbitrum-1',
      'defiLlamaChainName': 'Arbitrum',
      'chainSelector': 3478487238524512106,
      'vaultAddress': '0xE995ddFe2df6fce2e3cAf4028e94e771EbE0e34b',
      'workflowRouterAddress': '0x117D5Fec39C7209A618D71b52B834eb44C5aff7F',
      'gasLimit': 1000000
    },
    {
      'isParent': false,
      'chainName': 'avalanche-testnet-fuji',
      'defiLlamaChainName': 'Avalanche',
      'chainSelector': 14767482510784806043,
      'vaultAddress': '0xCD6F007979bfb9F1ea9a9df432A298d0469861d3',
      'workflowRouterAddress': '0xdAd87492A140283Dc2C8b4A5A217A832bb31fbFE',
      'gasLimit': 1000000
    },
    {
      'isParent': false,
      'chainName': 'ethereum-testnet-sepolia',
      'defiLlamaChainName': 'Ethereum',
      'chainSelector': 16015286601757825753,
      'vaultAddress': '0xd2c6088555AD7eAdFa602138F75AfBabeBc433B9',
      'workflowRouterAddress': '0x5f8191e9FE6b4164930Cdf92F6fe824aE35602e0',
      'gasLimit': 1000000
    },
    {
      'isParent': false,
      'chainName': 'ethereum-testnet-sepolia-optimism-1',
      'defiLlamaChainName': 'OP Mainnet',
      'chainSelector': 5224473277236331295,
      'vaultAddress': '0x66738D30269F1E88A762F421995FeeBe8E617d52',
      'workflowRouterAddress': '0xEE4D89b06fE9082FE9A737De2a5a061e07BEF781',
      'gasLimit': 1000000
    },
    {
      'isParent': false,
      'chainName': 'polygon-testnet-amoy',
      'defiLlamaChainName': 'Polygon',
      'chainSelector': 16281711391670634445,
      'vaultAddress': '0xDc0239d860DC5b3356e9Ab260B56cF69e9Cfb92a',
      'workflowRouterAddress': '0x079A90B7761FF10F455BC2188392b2ae765F8DAd',
      'gasLimit': 1000000
    }
  ]
}
".

Definition production : Config := default zeroConfig (unmarshalConfig config_production).
Definition staging : Config := default zeroConfig (unmarshalConfig config_staging).

(** Both decode, with every chain's selector, addresses and gas limit. *)
Lemma production_decodes : unmarshalConfig config_production = Some production.
Proof. vm_compute. reflexivity. Qed.
Lemma staging_decodes : unmarshalConfig config_staging = Some staging.
Proof. vm_compute. reflexivity. Qed.

Example production_chains :
  ((λ e, (DefiLlamaChainName e, ChainSelector e, GasLimit e)) <$> Evms production)
  = [("Base", 15971525489660198786, 1500000); ("Arbitrum", 4949039107694359620, 1500000);
     ("Avalanche", 6433500567565415381, 1500000); ("Ethereum", 5009297550715157269, 1500000);
     ("OP Mainnet", 3734403246176062136, 1500000); ("Polygon", 4051577828743386545, 1500000)]%string.
Proof. vm_compute. reflexivity. Qed.

Example staging_blocks :
  (BlockNumber staging, BlockNumber production, AssetDecimals staging)
  = (Some (-2), Some (-3), Some 6).
Proof. vm_compute. reflexivity. Qed.

Lemma decodeConfig_roundtrip_witness : decodeConfig (config_json production) = Some production.
Proof.
  exact (decodeConfig_roundtrip production (unmarshalConfig_typed _ _ production_decodes)).
Defined.
