(* ===== verification/DefiLlama.v ===== *)
(** * The DefiLlama client ([cre/workflow/internal/offchain/defillama.go])

    Fetching the relay's pool snapshot in node mode, streaming it through the
    JSON decoder, and selecting the best and the current pool. *)

From S2P Require Import Prelude GoText BigInt Ethereum Runtime Float Json.

#[local] Open Scope Z_scope.

Module offchain.
(** ** Data *)
Record ChainConfig := mkChainConfig { ChainSelector : Z; DefiLlamaChainName : string }.
Record Config := mkConfig {
  PoolIDs : list string; Chains : list ChainConfig; Projects : list string; Symbols : list string }.

Record Pool := mkPool {
  Pool_Pool : string; Pool_Chain : string; Pool_Project : string; Pool_Symbol : string;
  Apy : float64 }.
Record poolJSON := mkPoolJSON {
  pj_Pool : string; pj_Chain : string; pj_Project : string; pj_Symbol : string;
  pj_Apy : option float64 }.

Record fetchParams := mkFetchParams {
  fp_Config : Config; ActiveProtocolId : bytes; ActiveChainName : string; BearerToken : string;
  fp_ObservedAt : Z }.
Record fetchResult := mkFetchResult {
  BestPool : Pool; HasBest : bool; CurrentPool : Pool; HasCurrent : bool }.

Definition zeroPool : Pool :=
  mkPool EmptyString EmptyString EmptyString EmptyString f64_zero.
#[export] Instance Pool_eq_dec : EqDecision Pool.
Proof. solve_decision. Defined.

(** ** Constants *)
Definition defiLlamaRelayURL : string :=
  "https://yield-v2-defillama-relay.contractlevel.workers.dev/v1/defillama/pools".
Definition defiLlamaRelayBearerTokenSecret : string := "DEFILLAMA_RELAY_BEARER_TOKEN".
Definition defiLlamaRequestTimeout : Z := 10.
Definition defiLlamaMaxResponseBytes : Z := Z.shiftl 100 10.
Definition defiLlamaMaxSnapshotAgeSeconds : Z := 15 * 60.
Definition maxJSONNestingDepth : Z := 256.
Definition minPoolAPY : float64 := f64_of_Z 0.
Definition maxPoolAPY : float64 := f64_of_Z 1000.

Definition ValidPoolAPY (apy : float64) : bool :=
  negb (IsNaN apy) && negb (IsInf apy) && f64_le minPoolAPY apy && f64_le apy maxPoolAPY.

(** ** [sort.SliceStable] and the order of pools *)
Fixpoint insert_by {A} (less : A → A → bool) (x : A) (l : list A) : list A :=
  match l with
  | [] => [x]
  | y :: r => if less y x then y :: insert_by less x r else x :: l
  end.
Definition SliceStable {A} (less : A → A → bool) (l : list A) : list A :=
  foldr (insert_by less) [] l.

Definition str_lt (a b : string) : bool := String.ltb a b.

Definition poolLess (left right : Pool) : bool :=
  if negb (f64_eq (Apy left) (Apy right)) then f64_lt (Apy right) (Apy left)
  else if bool_decide (Pool_Chain left ≠ Pool_Chain right)
  then str_lt (Pool_Chain left) (Pool_Chain right)
  else if bool_decide (Pool_Project left ≠ Pool_Project right)
  then str_lt (Pool_Project left) (Pool_Project right)
  else if bool_decide (Pool_Symbol left ≠ Pool_Symbol right)
  then str_lt (Pool_Symbol left) (Pool_Symbol right)
  else str_lt (Pool_Pool left) (Pool_Pool right).
Definition sortPools (pools : list Pool) : list Pool := SliceStable poolLess pools.

(** ** Skipping a JSON value token by token *)
Definition depth_error : error := Errorf "maximum JSON nesting depth exceeded" [].

(** The recursion of [skipJSONValueDepth] and its two loops, with fuel. *)
Fixpoint skipJSONValueDepth (n : nat) (d : decoder) (depth : Z) : res decoder :=
  match n with
  | O => Crash
  | S n' =>
      if maxJSONNestingDepth <? depth then Err depth_error
      else
        '(t, d) ← Token d;
        match t with
        | Delim c =>
            if ch c "{"%char then skip_members n' d depth
            else if ch c "["%char then skip_elements n' d depth
            else Ok d
        | _ => Ok d
        end
  end
with skip_members (n : nat) (d : decoder) (depth : Z) : res decoder :=
  match n with
  | O => Crash
  | S n' =>
      if More d then
        '(_, d) ← Token d;
        d ← skipJSONValueDepth n' d (depth + 1);
        skip_members n' d depth
      else '(_, d) ← Token d; Ok d
  end
with skip_elements (n : nat) (d : decoder) (depth : Z) : res decoder :=
  match n with
  | O => Crash
  | S n' =>
      if More d then
        d ← skipJSONValueDepth n' d (depth + 1);
        skip_elements n' d depth
      else '(_, d) ← Token d; Ok d
  end.

Definition skip_fuel (d : decoder) : nat := 2 * length (d_rest d) + 2.
Definition skipJSONValue (d : decoder) : res decoder := skipJSONValueDepth (skip_fuel d) d 0.

Section Client.
Context `{GoUnicode, GoEthereum}.

Definition canonicalDefiLlamaValue (value : string) : string := ToLower (TrimSpace value).

(** ** Lookup maps: a later entry replaces an earlier one *)
Definition chainSelectorToName (cfg : Config) : gmap Z string :=
  foldl (λ m c, if bool_decide (DefiLlamaChainName c = EmptyString) then m
                else <[ChainSelector c := DefiLlamaChainName c]> m) ∅ (Chains cfg).
Definition allowedChains (cfg : Config) : gmap string string :=
  foldl (λ m c, if bool_decide (DefiLlamaChainName c = EmptyString) then m
                else <[canonicalDefiLlamaValue (DefiLlamaChainName c) := DefiLlamaChainName c]> m)
    ∅ (Chains cfg).
Definition allowedValues (values : list string) : gmap string string :=
  foldl (λ m v, <[canonicalDefiLlamaValue v := v]> m) ∅ values.

(** [copy(id[:], crypto.Keccak256([]byte(project)))] *)
Definition PoolToProtocolId (project : string) : bytes :=
  take 32 (Keccak256 (to_bytes project) ++ zeros 32).

(** ** Decoding the structs *)
Definition store_pool (p : poolJSON) (k : string) (v : json) : option poolJSON :=
  if field_is "pool" k then
    s ← store_string (pj_Pool p) v; Some (mkPoolJSON s (pj_Chain p) (pj_Project p) (pj_Symbol p) (pj_Apy p))
  else if field_is "chain" k then
    s ← store_string (pj_Chain p) v; Some (mkPoolJSON (pj_Pool p) s (pj_Project p) (pj_Symbol p) (pj_Apy p))
  else if field_is "project" k then
    s ← store_string (pj_Project p) v; Some (mkPoolJSON (pj_Pool p) (pj_Chain p) s (pj_Symbol p) (pj_Apy p))
  else if field_is "symbol" k then
    s ← store_string (pj_Symbol p) v; Some (mkPoolJSON (pj_Pool p) (pj_Chain p) (pj_Project p) s (pj_Apy p))
  else if field_is "apyBase" k then
    f ← store_float v; Some (mkPoolJSON (pj_Pool p) (pj_Chain p) (pj_Project p) (pj_Symbol p) f)
  else Some p.
Definition unmarshalPool (v : json) : option poolJSON :=
  unmarshal_struct (mkPoolJSON EmptyString EmptyString EmptyString EmptyString None) store_pool v.

Definition store_metadata (m : option Z) (k : string) (v : json) : option (option Z) :=
  if field_is "refreshedAt" k then store_int v else Some m.

(** ** [validateSnapshotFreshness] *)
Definition metadata_error : error :=
  Wrapf "decode snapshot metadata: %w" [] json_syntax.

Definition validateSnapshotFreshness (body : bytes) (observedAt : Z) : res unit :=
  match v ← parse_document body; unmarshal_struct None store_metadata v with
  | None => Err metadata_error
  | Some refreshedAt =>
      match refreshedAt with
      | None => Err (Errorf "invalid snapshot refresh timestamp" [])
      | Some refreshedAt =>
          _ ← fail_if ((observedAt <? 0) || (refreshedAt <? 0))
                (Errorf "invalid snapshot refresh timestamp" []);
          _ ← fail_if (observedAt <? refreshedAt)
                (Errorf "snapshot refresh timestamp is in the future" []);
          fail_if (defiLlamaMaxSnapshotAgeSeconds <? int64 (observedAt - refreshedAt))
            (Errorf "snapshot is older than 15 minutes" [])
      end
  end.

(** ** [parsePools] *)

(** The body of the pool loop: the candidate an element contributes, if any. *)
Definition candidate (cfg : Config) (raw : json) : option Pool :=
  pj ← unmarshalPool raw;
  apy ← pj_Apy pj;
  poolID ← allowedValues (PoolIDs cfg) !! canonicalDefiLlamaValue (pj_Pool pj);
  chainName ← allowedChains cfg !! canonicalDefiLlamaValue (pj_Chain pj);
  projectName ← allowedValues (Projects cfg) !! canonicalDefiLlamaValue (pj_Project pj);
  symbolName ← allowedValues (Symbols cfg) !! canonicalDefiLlamaValue (pj_Symbol pj);
  if ValidPoolAPY apy then Some (mkPool poolID chainName projectName symbolName apy) else None.

Definition is_data (key : string) : bool := EqualFold_ascii (to_bytes key) (to_bytes "data").

(** The loop over the top-level keys: [true] once the data key was read. *)
Fixpoint find_data (n : nat) (d : decoder) : res (bool * decoder) :=
  match n with
  | O => Crash
  | S n' =>
      if More d then
        '(t, d) ← wrap "read top-level key: %w" [] (Token d);
        match t with
        | TString key =>
            if negb (is_data key) then
              d ← wrap "skip top-level key %q: %w" [FStr key] (skipJSONValue d);
              find_data n' d
            else Ok (true, d)
        | _ => Crash
        end
      else Ok (false, d)
  end.

Fixpoint read_pools (cfg : Config) (n : nat) (d : decoder) (candidates : list Pool)
    : res (list Pool) :=
  match n with
  | O => Crash
  | S n' =>
      if More d then
        '(raw, d) ← wrap "read pool element: %w" [] (DecodeRaw d);
        read_pools cfg n' d
          (candidates ++ match candidate cfg raw with Some p => [p] | None => [] end)
      else Ok candidates
  end.

(** The selection from the sorted candidates. *)
Definition is_current (activeProtocolId : bytes) (activeChainName : string) (p : Pool) : bool :=
  bool_decide (Pool_Chain p = activeChainName)
  && bool_decide (PoolToProtocolId (Pool_Project p) = activeProtocolId).
Fixpoint find_current (activeProtocolId : bytes) (activeChainName : string) (pools : list Pool)
    : option Pool :=
  match pools with
  | [] => None
  | p :: r =>
      if is_current activeProtocolId activeChainName p then Some p
      else find_current activeProtocolId activeChainName r
  end.
Definition select (activeProtocolId : bytes) (activeChainName : string) (candidates : list Pool)
    : fetchResult :=
  let pools := sortPools candidates in
  let '(best, hasBest) := match pools with p :: _ => (p, true) | [] => (zeroPool, false) end in
  match find_current activeProtocolId activeChainName pools with
  | Some p => mkFetchResult best hasBest p true
  | None => mkFetchResult best hasBest zeroPool false
  end.

Definition is_delim (t : token) (c : ascii) : bool :=
  match t with Delim c' => ch c' c | _ => false end.

Definition parsePools (body : bytes) (cfg : Config) (activeProtocolId : bytes)
    (activeChainName : string) : res fetchResult :=
  let d := NewDecoder body in
  '(t, d) ← wrap "read object start: %w" [] (Token d);
  if negb (is_delim t "{"%char) then Err (Errorf "expected top-level object" [])
  else
    '(foundData, d) ← find_data (S (length (d_rest d))) d;
    if negb foundData then Err (Errorf "'data' key not found in response" [])
    else
      '(t, d) ← wrap "read array start: %w" [] (Token d);
      if negb (is_delim t "["%char) then Err (Errorf "expected '[' after 'data' key" [])
      else
        candidates ← read_pools cfg (S (length (d_rest d))) d [];
        Ok (select activeProtocolId activeChainName candidates).

(** ** [fetchAndParseWithRequester] *)
Definition relay_request (token : string) : http_Request :=
  mkHttpRequest defiLlamaRelayURL "GET"
    [("Accept", "application/json"); ("Authorization", String.append "Bearer " token)]%string
    defiLlamaRequestTimeout.

Definition fetchAndParseWithRequester (params : fetchParams)
    (requester : http_Request → reply (option http_Response)) : res fetchResult :=
  resp ← wrap "do request: %w" [] (of_reply (requester (relay_request (BearerToken params))));
  match resp with
  | None => Err (Errorf "do request: nil response" [])
  | Some resp =>
      _ ← fail_if (negb (Resp_StatusCode resp =? 200))
            (Errorf "unexpected status %d" [FInt (Resp_StatusCode resp)]);
      _ ← fail_if (defiLlamaMaxResponseBytes <? Z.of_nat (length (Resp_Body resp)))
            (Errorf "relay response body exceeds %d bytes" [FInt defiLlamaMaxResponseBytes]);
      _ ← validateSnapshotFreshness (Resp_Body resp) (fp_ObservedAt params);
      parsePools (Resp_Body resp) (fp_Config params) (ActiveProtocolId params)
        (ActiveChainName params)
  end.
Definition fetchAndParse (params : fetchParams) : node_function fetchResult :=
  fetchAndParseWithRequester params.

(** ** [FetchAndSelectPools] *)
Definition fetchResultToPools (raw : fetchResult) : option Pool * option Pool :=
  (if HasBest raw then Some (BestPool raw) else None,
   if HasCurrent raw then Some (CurrentPool raw) else None).

Definition FetchAndSelectPools (cfg : Config) (activeProtocolId : bytes)
    (activeChainSelector : Z) : prog (cre_eff fetchResult) (option Pool * option Pool) :=
  let activeChainName := default EmptyString (chainSelectorToName cfg !! activeChainSelector) in
  secret ← prog_wrap "get relay bearer token: %w" []
             (await (EGetSecret defiLlamaRelayBearerTokenSecret));
  match secret with
  | None => Throw (Errorf "get relay bearer token: empty secret" [])
  | Some value =>
      if bool_decide (TrimSpace value = EmptyString)
      then Throw (Errorf "get relay bearer token: empty secret" [])
      else
        now ← act ENow;
        raw ← prog_wrap "fetch pools: %w" []
          (await (ESendRequest (fetchAndParse
            (mkFetchParams cfg activeProtocolId activeChainName value now))));
        Ret (fetchResultToPools raw)
  end.

(** ** [PoolToChainSelector]: a [range] over a Go map visits the entries in an
    arbitrary order. *)
Fixpoint first_selector (chain : string) (entries : list (Z * string)) : res Z :=
  match entries with
  | [] => Err (Errorf "no chain selector for DefiLlama chain %q" [FStr chain])
  | (sel, name) :: r =>
      if bool_decide (canonicalDefiLlamaValue name = canonicalDefiLlamaValue chain)
      then Ok sel else first_selector chain r
  end.
Definition PoolToChainSelector (order : gmap Z string → list (Z * string)) (cfg : Config)
    (chain : string) : res Z := first_selector chain (order (chainSelectorToName cfg)).
End Client.
End offchain.
