(* ===== verification/PoolStream.v ===== *)
(** * Streaming the snapshot: [parsePools] against a reference on JSON values

    [parsePools] reads the body token by token and stops after the pools.  On a
    body that is a valid JSON document it computes [pools_of], a function of
    the document; on any body it returns, with the fuel it is given. *)

From S2P Require Import Prelude GoText BigInt Ethereum Runtime Float Json DefiLlama.

#[local] Open Scope Z_scope.
Import offchain.

(** ** The reference *)
Definition each {A} (f : A → res unit) : list A → res unit :=
  fix go l := match l with [] => Ok tt | x :: l => _ ← f x; go l end.

(** Skipping a value fails on a number that no [float64] holds and on nesting
    below the limit of [skipJSONValueDepth]. *)
Fixpoint skip_ref (depth : Z) (v : json) : res unit :=
  if maxJSONNestingDepth <? depth then Err depth_error
  else
    match v with
    | JNum lit => match ParseFloat lit with Some _ => Ok tt | None => Err json_number_range end
    | JArr l => each (skip_ref (depth + 1)) l
    | JObj l => each (λ kv, skip_ref (depth + 1) kv.2) l
    | _ => Ok tt
    end.

(** The first member named [data]; the members before it are skipped. *)
Fixpoint data_of (ms : list (string * json)) : res (option json) :=
  match ms with
  | [] => Ok None
  | (k, v) :: ms =>
      if is_data k then Ok (Some v)
      else _ ← wrap "skip top-level key %q: %w" [FStr k] (skip_ref 0 v); data_of ms
  end.

(** Reading the first token of a value fails only on a number. *)
Definition first_token (v : json) : res unit :=
  match v with
  | JNum lit => match ParseFloat lit with Some _ => Ok tt | None => Err json_number_range end
  | _ => Ok tt
  end.

Definition pools_of `{GoUnicode, GoEthereum} (v : json) (cfg : Config) (id : bytes) (name : string)
    : res fetchResult :=
  match v with
  | JObj ms =>
      data ← data_of ms;
      match data with
      | None => Err (Errorf "'data' key not found in response" [])
      | Some (JArr l) => Ok (select id name (omap (candidate cfg) l))
      | Some v =>
          _ ← wrap "read array start: %w" [] (first_token v);
          Err (Errorf "expected '[' after 'data' key" [])
      end
  | v =>
      _ ← wrap "read object start: %w" [] (first_token v);
      Err (Errorf "expected top-level object" [])
  end.

(** ** The first character of a value *)
Definition starts_value (c : ascii) : bool :=
  negb (ch c "]"%char) && negb (ch c "}"%char) && negb (ch c ":"%char) && negb (ch c ","%char).

Lemma ch_true c a : ch c a = true ↔ c = a.
Proof. apply bool_decide_eq_true. Qed.

Lemma parse_value_start n dp l x :
  parse_value n dp l = Some x → ∃ c r, skip_ws l = c :: r ∧ starts_value c = true.
Proof.
  destruct n as [|n]; [done|]. cbn [parse_value]. destruct (skip_ws l) as [|c r]; [done|].
  intros Hp. exists c, r. split; [done|]. unfold starts_value.
  destruct (ch c "]"%char) eqn:E1; [apply ch_true in E1 as ->; done|].
  destruct (ch c "}"%char) eqn:E2; [apply ch_true in E2 as ->; done|].
  destruct (ch c ":"%char) eqn:E3; [apply ch_true in E3 as ->; done|].
  destruct (ch c ","%char) eqn:E4; [apply ch_true in E4 as ->; done|]. done.
Qed.

(** [reads_at d l s st]: the next token of [d] is the one at [l] in state [s]. *)
Definition reads_at (d : decoder) (l : bytes) (s : tokenState) (st : list tokenState) : Prop :=
  ∃ k, Token d = Token_loop (S k) (mkDecoder l s st).

Lemma reads_self l s st : reads_at (mkDecoder l s st) l s st.
Proof. by exists 2%nat. Qed.

(** After a separator. *)
Lemma reads_colon l r st :
  skip_ws l = ":"%char :: r → reads_at (mkDecoder l tokenObjectColon st) r tokenObjectValue st.
Proof.
  intros Hl. exists 1%nat. unfold Token. cbn [Token_loop]. unfold peek at 1. cbn [d_rest].
  by rewrite Hl.
Qed.
Lemma reads_array_comma l r st :
  skip_ws l = ","%char :: r → reads_at (mkDecoder l tokenArrayComma st) r tokenArrayValue st.
Proof.
  intros Hl. exists 1%nat. unfold Token. cbn [Token_loop]. unfold peek at 1. cbn [d_rest].
  by rewrite Hl.
Qed.
Lemma reads_object_comma l r st :
  skip_ws l = ","%char :: r → reads_at (mkDecoder l tokenObjectComma st) r tokenObjectKey st.
Proof.
  intros Hl. exists 1%nat. unfold Token. cbn [Token_loop]. unfold peek at 1. cbn [d_rest].
  by rewrite Hl.
Qed.

Lemma More_at l s st c r :
  skip_ws l = c :: r → starts_value c = true ∨ c = ","%char → More (mkDecoder l s st) = true.
Proof.
  intros Hl Hc. unfold More, peek. cbn [d_rest]. rewrite Hl.
  destruct Hc as [Hc| ->]; [|done]. unfold starts_value in Hc.
  by destruct (ch c "]"%char), (ch c "}"%char).
Qed.

(** ** The token at a value *)
Lemma parse_scalar_kind l v rest :
  parse_scalar l = Some (v, rest) →
  match v with JArr _ | JObj _ => False | _ => True end.
Proof.
  destruct l as [|b l]; [done|]. unfold parse_scalar.
  destruct (ch b quote); [by intros ([??] & _ & [= <- _])%bind_Some|].
  repeat (destruct (ch b _); [by intros (? & _ & [= <- _])%bind_Some|]).
  by intros ([??] & _ & [= <- _])%bind_Some.
Qed.

Definition scalar_of (v : json) : token := match v with JStr s => TString s | v => TScalar v end.

(** A value is an array, an object or a scalar, and so is its first token. *)
Inductive token_view (n : nat) (dp : Z) (d : decoder) (l : bytes) (s : tokenState)
    (st : list tokenState) (rest : bytes) : json → Prop :=
| view_nil_arr r : (length r < length l)%nat →
    Token d = Ok (Delim "[", mkDecoder r tokenArrayStart (s :: st)) →
    skip_ws r = "]"%char :: rest → token_view n dp d l s st rest (JArr [])
| view_arr r vs : (length r < length l)%nat →
    Token d = Ok (Delim "[", mkDecoder r tokenArrayStart (s :: st)) →
    parse_elements n (dp + 1) r = Some (vs, rest) → token_view n dp d l s st rest (JArr vs)
| view_nil_obj r : (length r < length l)%nat →
    Token d = Ok (Delim "{", mkDecoder r tokenObjectStart (s :: st)) →
    skip_ws r = "}"%char :: rest → token_view n dp d l s st rest (JObj [])
| view_obj r ms : (length r < length l)%nat →
    Token d = Ok (Delim "{", mkDecoder r tokenObjectStart (s :: st)) →
    parse_members n (dp + 1) r = Some (ms, rest) → token_view n dp d l s st rest (JObj ms)
| view_scalar v :
    match v with JArr _ | JObj _ => False | _ => True end →
    Token d = (_ ← first_token v; Ok (scalar_of v, mkDecoder rest (tokenValueEnd s) st)) →
    token_view n dp d l s st rest v.

Lemma value_token n dp d l s st v rest :
  parse_value (S n) dp l = Some (v, rest) → tokenValueAllowed s = true → reads_at d l s st →
  token_view n dp d l s st rest v.
Proof.
  intros Hp Hs [k Hd]. destruct (parse_value_start _ _ _ _ Hp) as (c & r & Hl & Hc).
  assert (length r < length l)%nat as Hlen.
  { pose proof (skip_ws_length l). rewrite Hl in *. cbn in *. lia. }
  cbn [parse_value Token_loop] in *. unfold peek in Hd. cbn [d_rest d_state] in Hd.
  rewrite Hl in Hd, Hp. unfold starts_value in Hc.
  destruct (ch c "]"%char) eqn:E1; [done|]. destruct (ch c "}"%char) eqn:E2; [done|].
  destruct (ch c ":"%char) eqn:E3; [done|]. destruct (ch c ","%char) eqn:E4; [done|].
  unfold open_container in Hd. cbn [d_state d_stack] in Hd. rewrite Hs in Hd.
  destruct (ch c "["%char) eqn:E5.
  { apply ch_true in E5 as ->. destruct (_ <=? dp); [done|].
    destruct (skip_ws r) as [|c' r'] eqn:Hr; [done|]. destruct (ch c' "]"%char) eqn:E6.
    - apply ch_true in E6 as ->. simplify_eq. by eapply view_nil_arr.
    - apply bind_Some in Hp as ([vs rest'] & Hp & ?). simplify_eq. by eapply view_arr. }
  destruct (ch c "{"%char) eqn:E6.
  { apply ch_true in E6 as ->. destruct (_ <=? dp); [done|].
    destruct (skip_ws r) as [|c' r'] eqn:Hr; [done|]. destruct (ch c' "}"%char) eqn:E7.
    - apply ch_true in E7 as ->. simplify_eq. by eapply view_nil_obj.
    - apply bind_Some in Hp as ([ms rest'] & Hp & ?). simplify_eq. by eapply view_obj. }
  pose proof (parse_scalar_kind _ _ _ Hp) as Hk. apply view_scalar; [done|].
  rewrite Hd. unfold scalar_token. cbn [d_state d_stack]. rewrite Hs, Hp.
  replace (match s with tokenObjectStart | tokenObjectKey => true | _ => false end) with false
    by (by destruct s).
  rewrite andb_false_r. cbn [negb].
  destruct v; try done. unfold first_token. by destruct (ParseFloat lit).
Qed.

(** The token at a key. *)
Lemma key_token d l s st r k l1 :
  s = tokenObjectStart ∨ s = tokenObjectKey → reads_at d l s st →
  skip_ws l = quote :: r → parse_string (length r) r = Some (k, l1) →
  Token d = Ok (TString (of_bytes k), mkDecoder l1 tokenObjectColon st).
Proof.
  intros Hs [n Hd] Hl Hk. cbn [Token_loop] in Hd. unfold peek in Hd. cbn [d_rest] in Hd.
  rewrite Hl in Hd. rewrite Hd. unfold quote.
  unfold scalar_token. destruct Hs as [-> | ->]; cbn [d_state d_stack]; by rewrite Hk.
Qed.

(** Closing tokens. *)
Lemma close_array l r s s0 st :
  s = tokenArrayStart ∨ s = tokenArrayComma → skip_ws l = "]"%char :: r →
  Token (mkDecoder l s (s0 :: st)) = Ok (Delim "]", mkDecoder r (tokenValueEnd s0) st) ∧
  More (mkDecoder l s (s0 :: st)) = false.
Proof.
  intros Hs Hl. unfold Token, More. cbn [Token_loop]. unfold peek. cbn [d_rest]. rewrite Hl.
  by destruct Hs as [-> | ->].
Qed.
Lemma close_object l r s s0 st :
  s = tokenObjectStart ∨ s = tokenObjectComma → skip_ws l = "}"%char :: r →
  Token (mkDecoder l s (s0 :: st)) = Ok (Delim "}", mkDecoder r (tokenValueEnd s0) st) ∧
  More (mkDecoder l s (s0 :: st)) = false.
Proof.
  intros Hs Hl. unfold Token, More. cbn [Token_loop]. unfold peek. cbn [d_rest]. rewrite Hl.
  by destruct Hs as [-> | ->].
Qed.

(** ** Skipping *)
Lemma skip_ws_cons_length l c r : skip_ws l = c :: r → (length r < length l)%nat.
Proof. intros Hl. pose proof (skip_ws_length l). rewrite Hl in *. cbn in *. lia. Qed.

Lemma parse_elements_inv n dp l vs rest :
  parse_elements (S n) dp l = Some (vs, rest) →
  ∃ v l1 r, parse_value n dp l = Some (v, l1) ∧
    (skip_ws l1 = ","%char :: r ∧ (∃ vs', vs = v :: vs' ∧ parse_elements n dp r = Some (vs', rest))
     ∨ skip_ws l1 = "]"%char :: r ∧ vs = [v] ∧ rest = r).
Proof.
  cbn [parse_elements]. intros ([v l1] & Hv & Hr)%bind_Some.
  destruct (skip_ws l1) as [|c r] eqn:Hl1; [done|]. exists v, l1, r. split; [done|].
  destruct (ch c ","%char) eqn:E1.
  { apply ch_true in E1 as ->. apply bind_Some in Hr as ([vs' rest'] & Hr & ?).
    simplify_eq. left. eauto. }
  destruct (ch c "]"%char) eqn:E2; [|done]. apply ch_true in E2 as ->. simplify_eq. by right.
Qed.

Lemma parse_members_inv n dp l ms rest :
  parse_members (S n) dp l = Some (ms, rest) →
  ∃ k r l1 r1 v l2 r2, skip_ws l = quote :: r ∧ parse_string (length r) r = Some (k, l1) ∧
    skip_ws l1 = ":"%char :: r1 ∧ parse_value n dp r1 = Some (v, l2) ∧
    (skip_ws l2 = ","%char :: r2 ∧
       (∃ ms', ms = (of_bytes k, v) :: ms' ∧ parse_members n dp r2 = Some (ms', rest))
     ∨ skip_ws l2 = "}"%char :: r2 ∧ ms = [(of_bytes k, v)] ∧ rest = r2).
Proof.
  cbn [parse_members]. destruct (skip_ws l) as [|q r] eqn:Hl; [done|].
  destruct (ch q quote) eqn:Eq; [|done]. apply ch_true in Eq as ->.
  intros ([k l1] & Hk & Hr)%bind_Some. destruct (skip_ws l1) as [|c r1] eqn:Hl1; [done|].
  destruct (ch c ":"%char) eqn:Ec; [|done]. apply ch_true in Ec as ->.
  apply bind_Some in Hr as ([v l2] & Hv & Hr).
  destruct (skip_ws l2) as [|c r2] eqn:Hl2; [done|].
  exists k, r, l1, r1, v, l2, r2. do 4 (split; [done|]).
  destruct (ch c ","%char) eqn:E1.
  { apply ch_true in E1 as ->. apply bind_Some in Hr as ([ms' rest'] & Hr & ?).
    simplify_eq. left. eauto. }
  destruct (ch c "}"%char) eqn:E2; [|done]. apply ch_true in E2 as ->. simplify_eq. by right.
Qed.

Lemma parse_elements_start n dp l x s st :
  parse_elements n dp l = Some x → More (mkDecoder l s st) = true.
Proof.
  destruct n as [|n]; [done|]. destruct x. intros (?&?&?&Hv&_)%parse_elements_inv.
  apply parse_value_start in Hv as (c & r & Hl & Hc). eapply More_at; eauto.
Qed.
Lemma parse_members_start n dp l x s st :
  parse_members n dp l = Some x → More (mkDecoder l s st) = true.
Proof.
  destruct n as [|n]; [done|]. destruct x. intros (?&?&?&?&?&?&?&Hl&_)%parse_members_inv.
  eapply More_at; [done|by left].
Qed.

Lemma skip_ref_eq depth v : skip_ref depth v =
  if maxJSONNestingDepth <? depth then Err depth_error
  else
    match v with
    | JArr l => each (skip_ref (depth + 1)) l
    | JObj l => each (λ kv, skip_ref (depth + 1) kv.2) l
    | v => first_token v
    end.
Proof. by destruct v. Qed.

(** Skipping token by token is skipping the parsed value. *)
Lemma skip_equiv n :
  (∀ dp l v rest, parse_value n dp l = Some (v, rest) →
     ∀ d s st m depth, tokenValueAllowed s = true → reads_at d l s st → (2 * length l + 1 ≤ m)%nat →
     skipJSONValueDepth m d depth
     = (_ ← skip_ref depth v; Ok (mkDecoder rest (tokenValueEnd s) st))) ∧
  (∀ dp l vs rest, parse_elements n dp l = Some (vs, rest) →
     ∀ d s s0 st m depth, s = tokenArrayStart ∨ s = tokenArrayValue →
     reads_at d l s (s0 :: st) → More d = true → (2 * length l + 2 ≤ m)%nat →
     skip_elements m d depth
     = (_ ← each (skip_ref (depth + 1)) vs; Ok (mkDecoder rest (tokenValueEnd s0) st))) ∧
  (∀ dp l ms rest, parse_members n dp l = Some (ms, rest) →
     ∀ d s s0 st m depth, s = tokenObjectStart ∨ s = tokenObjectKey →
     reads_at d l s (s0 :: st) → More d = true → (2 * length l + 2 ≤ m)%nat →
     skip_members m d depth
     = (_ ← each (λ kv, skip_ref (depth + 1) kv.2) ms; Ok (mkDecoder rest (tokenValueEnd s0) st))).
Proof.
  induction n as [|n (IHv & IHe & IHm)]; [done|]. split_and!.
  - intros dp l v rest Hp d s st [|m] depth Hs Hd Hm; [lia|].
    cbn [skipJSONValueDepth]. rewrite skip_ref_eq.
    destruct (value_token _ _ _ _ _ _ _ _ Hp Hs Hd)
      as [r Hlen Ht Hr|r vs Hlen Ht Hr|r Hlen Ht Hr|r ms Hlen Ht Hr|v Hk Ht];
      (destruct (_ <? _); [done|]); rewrite Ht;
      cbn [mbind res_bind].
    + cbn. destruct m as [|m]; [lia|]. cbn [skip_elements].
      destruct (close_array r rest tokenArrayStart s st (or_introl eq_refl) Hr) as [-> ->]. done.
    + cbn [ch]. apply (IHe _ _ _ _ Hr _ tokenArrayStart);
        [by left|apply reads_self|by eapply parse_elements_start|lia].
    + cbn. destruct m as [|m]; [lia|]. cbn [skip_members].
      destruct (close_object r rest tokenObjectStart s st (or_introl eq_refl) Hr) as [-> ->]. done.
    + apply (IHm _ _ _ _ Hr _ tokenObjectStart);
        [by left|apply reads_self|by eapply parse_members_start|lia].
    + destruct v as [|?|lit|?|?|?]; try done. cbn. by destruct (ParseFloat lit).
  - intros dp l vs rest (v & l1 & r & Hv & Hr)%parse_elements_inv d s s0 st [|m] depth Hs Hd Hmore Hm;
      [lia|].
    pose proof (proj1 (parse_length n) _ _ _ _ Hv) as Hlen.
    cbn [skip_elements]. rewrite Hmore.
    rewrite (IHv _ _ _ _ Hv d s (s0 :: st) m (depth + 1)); [|by destruct Hs as [-> | ->]|done|lia].
    rewrite res_bind_assoc. cbn [mbind res_bind].
    replace (tokenValueEnd s) with tokenArrayComma by (by destruct Hs as [-> | ->]).
    destruct Hr as [(Hl1 & vs' & -> & Hvs)|(Hl1 & -> & ->)]; cbn [each];
      pose proof (skip_ws_cons_length _ _ _ Hl1); rewrite res_bind_assoc;
      (destruct (skip_ref _ v); [|done..]); cbn [mbind res_bind].
    + apply (IHe _ _ _ _ Hvs _ tokenArrayValue); [by right|by apply reads_array_comma| |lia].
      eapply More_at; [done|by right].
    + destruct m as [|m]; [lia|]. cbn [skip_elements].
      destruct (close_array l1 r tokenArrayComma s0 st (or_intror eq_refl) Hl1) as [-> ->]. done.
  - intros dp l ms rest Hp d s s0 st [|m] depth Hs Hd Hmore Hm; [lia|].
    apply parse_members_inv in Hp as (k & r & l1 & r1 & v & l2 & r2 & Hl & Hk & Hl1 & Hv & Hr).
    pose proof (proj1 (parse_length n) _ _ _ _ Hv) as Hlen. pose proof (skip_ws_cons_length _ _ _ Hl).
    pose proof (parse_string_length _ _ _ _ Hk). pose proof (skip_ws_cons_length _ _ _ Hl1).
    cbn [skip_members]. rewrite Hmore, (key_token _ _ _ _ _ _ _ Hs Hd Hl Hk). cbn [mbind res_bind].
    rewrite (IHv _ _ _ _ Hv _ tokenObjectValue (s0 :: st) m (depth + 1));
      [|done|by apply reads_colon|lia].
    rewrite res_bind_assoc. cbn [mbind res_bind tokenValueEnd].
    destruct Hr as [(Hl2 & ms' & -> & Hms)|(Hl2 & -> & ->)]; cbn [each snd];
      pose proof (skip_ws_cons_length _ _ _ Hl2); rewrite res_bind_assoc;
      (destruct (skip_ref _ v); [|done..]); cbn [mbind res_bind].
    + apply (IHm _ _ _ _ Hms _ tokenObjectKey); [by right|by apply reads_object_comma| |lia].
      eapply More_at; [done|by right].
    + destruct m as [|m]; [lia|]. cbn [skip_members].
      destruct (close_object l2 r2 tokenObjectComma s0 st (or_intror eq_refl) Hl2) as [-> ->]. done.
Qed.

(** The reference never panics. *)
Lemma each_no_crash {A} (f : A → res unit) l : Forall (λ x, f x ≠ Crash) l → each f l ≠ Crash.
Proof. induction 1 as [|x l Hx Hl IH]; cbn [each]; [done|]. by apply bind_no_crash. Qed.

Lemma first_token_no_crash v : first_token v ≠ Crash.
Proof. destruct v; try done. cbn. by destruct (ParseFloat lit). Qed.

Lemma skip_ref_no_crash v depth : skip_ref depth v ≠ Crash.
Proof.
  revert depth. induction v as [| | | |l Hl|l Hl] using json_induction; intros depth;
    rewrite skip_ref_eq; (destruct (_ <? _); [done|]); try apply first_token_no_crash;
    apply each_no_crash; eapply Forall_impl; naive_solver.
Qed.

(** ** The loops of [parsePools] *)
Lemma find_equiv n dp l ms rest d s m :
  parse_members n dp l = Some (ms, rest) → s = tokenObjectStart ∨ s = tokenObjectKey →
  reads_at d l s [tokenTopValue] → More d = true → (length l < m)%nat →
  match data_of ms with
  | Ok (Some v) => ∃ d' l' n' rest', find_data m d = Ok (true, d') ∧
      reads_at d' l' tokenObjectValue [tokenTopValue] ∧ parse_value n' dp l' = Some (v, rest')
  | Ok None => ∃ d', find_data m d = Ok (false, d')
  | Err e => find_data m d = Err e
  | Crash => False
  end.
Proof.
  revert l ms d s m. induction n as [|n IH]; [done|].
  intros l ms d s [|m] Hp Hs Hd Hmore Hm; [lia|].
  apply parse_members_inv in Hp as (k & r & l1 & r1 & v & l2 & r2 & Hl & Hk & Hl1 & Hv & Hr).
  pose proof (proj1 (parse_length n) _ _ _ _ Hv) as Hlen. pose proof (skip_ws_cons_length _ _ _ Hl).
  pose proof (parse_string_length _ _ _ _ Hk). pose proof (skip_ws_cons_length _ _ _ Hl1).
  assert (∀ ms', data_of ((of_bytes k, v) :: ms') = if is_data (of_bytes k) then Ok (Some v) else
    _ ← wrap "skip top-level key %q: %w" [FStr (of_bytes k)] (skip_ref 0 v); data_of ms') as Hdata
    by done.
  cbn [find_data]. rewrite Hmore, (key_token _ _ _ _ _ _ _ Hs Hd Hl Hk). cbn [wrap mbind res_bind].
  unfold skipJSONValue.
  rewrite (proj1 (skip_equiv n) _ _ _ _ Hv (mkDecoder l1 tokenObjectColon [tokenTopValue])
    tokenObjectValue [tokenTopValue]); [|done|by apply reads_colon|unfold skip_fuel; cbn; lia].
  destruct Hr as [(Hl2 & ms' & -> & Hms)|(Hl2 & -> & ->)]; rewrite Hdata;
    pose proof (skip_ws_cons_length _ _ _ Hl2); pose proof (skip_ref_no_crash v 0);
    (destruct (is_data (of_bytes k)); cbn [negb];
      [eexists _, r1, n, l2; split; [done|]; split; [by apply reads_colon|done]|]);
    (destruct (skip_ref 0 v) as [[]|e|]; cbn [mbind res_bind wrap tokenValueEnd]; [|done..]).
  - eapply (IH r2); [done|by right|by apply reads_object_comma| |lia].
    eapply More_at; [done|by right].
  - destruct m as [|m]; [lia|]. cbn [find_data data_of].
    destruct (close_object l2 r2 tokenObjectComma tokenTopValue [] (or_intror eq_refl) Hl2) as [_ ->].
    eauto.
Qed.

Section Pools.
Context `{GoUnicode, GoEthereum}.

Lemma read_equiv cfg n dp l vs rest d s s0 st m acc :
  parse_elements n dp l = Some (vs, rest) → 0 <= dp →
  s = tokenArrayStart ∨ s = tokenArrayValue →
  tokenPrepareForDecode d = Ok (mkDecoder l s (s0 :: st)) → More d = true → (length l < m)%nat →
  read_pools cfg m d acc = Ok (acc ++ omap (candidate cfg) vs).
Proof.
  intros Hp Hdp. revert l vs d s m acc Hp.
  induction n as [|n IH]; [done|]. intros l vs d s [|m] acc Hp Hs Hd Hmore Hm; [lia|].
  apply parse_elements_inv in Hp as (v & l1 & r & Hv & Hr).
  pose proof (proj1 (parse_length n) _ _ _ _ Hv) as Hlen.
  cbn [read_pools]. rewrite Hmore. unfold DecodeRaw. rewrite Hd. cbn [mbind res_bind d_state d_rest].
  replace (tokenValueAllowed s) with true by (by destruct Hs as [-> | ->]).
  rewrite (read_value_complete _ _ _ _ Hdp Hv). cbn [negb wrap mbind res_bind d_stack].
  replace (tokenValueEnd s) with tokenArrayComma by (by destruct Hs as [-> | ->]).
  assert (∀ vs', acc ++ omap (candidate cfg) (v :: vs')
    = (acc ++ match candidate cfg v with Some p => [p] | None => [] end) ++ omap (candidate cfg) vs')
    as Hacc.
  { intros vs'. cbn [omap list_omap]. rewrite <-app_assoc. by destruct (candidate cfg v). }
  destruct Hr as [(Hl1 & vs' & -> & Hvs)|(Hl1 & -> & ->)];
    pose proof (skip_ws_cons_length _ _ _ Hl1); rewrite Hacc.
  - apply (IH r _ _ tokenArrayValue); [done|by right| | |lia].
    + unfold tokenPrepareForDecode, peek. cbn [d_state d_rest]. by rewrite Hl1.
    + eapply More_at; [done|by right].
  - destruct m as [|m]; [lia|]. cbn [read_pools omap list_omap].
    destruct (close_array l1 r tokenArrayComma s0 st (or_intror eq_refl) Hl1) as [_ ->].
    by rewrite app_nil_r.
Qed.

(** Reading the pools from the position of their array. *)
Lemma parse_array_equiv cfg id name n dp d l s st v rest :
  parse_value n dp l = Some (v, rest) → 0 <= dp → tokenValueAllowed s = true → reads_at d l s st →
  ('(t, d) ← wrap "read array start: %w" [] (Token d);
   if negb (is_delim t "["%char) then Err (Errorf "expected '[' after 'data' key" [])
   else
     candidates ← read_pools cfg (S (length (d_rest d))) d [];
     Ok (select id name candidates))
  = match v with
    | JArr l => Ok (select id name (omap (candidate cfg) l))
    | v => _ ← wrap "read array start: %w" [] (first_token v);
           Err (Errorf "expected '[' after 'data' key" [])
    end.
Proof.
  destruct n as [|n]; [done|]. intros Hp Hdp Hs Hd.
  destruct (value_token _ _ _ _ _ _ _ _ Hp Hs Hd)
    as [r Hlen Ht Hr|r vs Hlen Ht Hr|r Hlen Ht Hr|r ms Hlen Ht Hr|v Hk Ht]; rewrite Ht;
    cbn [wrap mbind res_bind is_delim d_rest]; try done.
  - cbn [read_pools].
    by destruct (close_array r rest tokenArrayStart s st (or_introl eq_refl) Hr) as [_ ->].
  - rewrite (read_equiv _ _ _ _ _ _ (mkDecoder r tokenArrayStart (s :: st)) _ _ _ _ [] Hr
      ltac:(lia) (or_introl eq_refl) eq_refl); [done|by eapply parse_elements_start|lia].
  - destruct v as [|?|lit|?|?|?]; try done. cbn. by destruct (ParseFloat lit).
Qed.

Lemma parsePools_equiv body v cfg id name :
  parse_document body = Some v → parsePools body cfg id name = pools_of v cfg id name.
Proof.
  unfold parse_document, read_value. intros ([v' rest] & Hp & Hv)%bind_Some.
  case_bool_decide; [|done]. simplify_eq. unfold parsePools, NewDecoder.
  replace (value_fuel body) with (S (2 * length body + 1)) in Hp by (unfold value_fuel; lia).
  pose proof (reads_self body tokenTopValue []) as Hd.
  destruct (value_token _ _ _ _ tokenTopValue _ _ _ Hp eq_refl Hd)
    as [r Hlen Ht Hr|r vs Hlen Ht Hr|r Hlen Ht Hr|r ms Hlen Ht Hr|v Hk Ht]; rewrite Ht;
    cbn [wrap mbind res_bind is_delim d_rest]; try done.
  - cbn [find_data].
    by destruct (close_object r rest tokenObjectStart tokenTopValue [] (or_introl eq_refl) Hr) as [_ ->].
  - pose proof (find_equiv _ _ _ _ _ _ _ (S (length r)) Hr (or_introl eq_refl)
      (reads_self r tokenObjectStart [tokenTopValue]) (parse_members_start _ _ _ _ _ _ Hr) ltac:(lia))
      as Hf.
    cbn [pools_of negb]. destruct (data_of ms) as [[v|]|e|]; cbn [mbind res_bind].
    + destruct Hf as (d' & l' & n' & rest' & Hf & Hd' & Hv). rewrite Hf. cbn [mbind res_bind negb].
      eapply (parse_array_equiv cfg id name n' (0 + 1)); [exact Hv|lia| |exact Hd']; done.
    + destruct Hf as (d' & Hf). by rewrite Hf.
    + by rewrite Hf.
    + done.
  - destruct v as [|?|lit|?|?|?]; try done. cbn. by destruct (ParseFloat lit).
Qed.

(** C12: streaming the body token by token is evaluating the document: on a body
    that is a valid JSON document, [parsePools] returns exactly what [pools_of]
    computes from the parsed value (which member is the pool array, which
    skipped members are an error, which elements are candidates, and every error
    result), and the fuel of its loops and of the recursive skip suffices. *)
Theorem parsePools_document body v cfg id name :
  parse_document body = Some v → parsePools body cfg id name = pools_of v cfg id name.
Proof. apply parsePools_equiv. Qed.

Lemma data_of_no_crash ms : data_of ms ≠ Crash.
Proof.
  induction ms as [|[k v] ms IH]; cbn [data_of]; [done|]. destruct (is_data k); [done|].
  apply bind_no_crash; [|done]. rewrite wrap_crash. apply skip_ref_no_crash.
Qed.
Lemma pools_of_no_crash v cfg id name : pools_of v cfg id name ≠ Crash.
Proof.
  destruct v; try done; cbn [pools_of].
  - apply bind_no_crash; [|done]. rewrite wrap_crash. apply first_token_no_crash.
  - apply bind_no_crash; [apply data_of_no_crash|]. intros [v|] _; [|done].
    destruct v; try done. apply bind_no_crash; [|done]. rewrite wrap_crash.
    apply first_token_no_crash.
Qed.
End Pools.
