(* ===== verification/PoolSelect.v ===== *)
(** * Selecting a pool: order, sorting, lookups and the fetch

    The comparison of [sortPools] is a strict total order on approved pools (up
    to the sign of a zero APY), so the selection is the maximum whatever the
    order of the response; lookups map back to configured values only; and a
    fetch succeeds exactly on a fresh, small, valid snapshot. *)

From stdpp Require Import sorting.
From S2P Require Import Prelude GoText BigInt Ethereum Runtime Float Json Config State DefiLlama PoolStream.

#[local] Open Scope Z_scope.
Import offchain.

(** ** Strict total orders and their lexicographic product *)
Class TotalOrder {A} (lt : relation A) : Prop := {
  lt_trans : ∀ a b c, lt a b → lt b c → lt a c;
  lt_irrefl : ∀ a, ¬ lt a a;
  lt_total : ∀ a b, lt a b ∨ a = b ∨ lt b a }.

Definition lex {A B} (ltA : relation A) (ltB : relation B) : relation (A * B) :=
  λ x y, ltA x.1 y.1 ∨ x.1 = y.1 ∧ ltB x.2 y.2.

#[export] Instance lex_total {A B} (ltA : relation A) (ltB : relation B) :
  TotalOrder ltA → TotalOrder ltB → TotalOrder (lex ltA ltB).
Proof.
  intros [TA IA LA] [TB IB LB]. split; unfold lex.
  - intros [a b] [a' b'] [a'' b'']; cbn. intros [?|[-> ?]] [?|[-> ?]]; eauto.
  - intros [a b]; cbn. naive_solver.
  - intros [a b] [a' b']; cbn. destruct (LA a a') as [?|[->|?]]; eauto.
    destruct (LB b b') as [?|[->|?]]; eauto.
Qed.

Lemma flip_total {A} (lt : relation A) : TotalOrder lt → TotalOrder (flip lt).
Proof.
  intros [T I L]. split; unfold flip; [eauto|eauto|].
  intros a b. destruct (L a b) as [?|[?|?]]; eauto.
Qed.

#[export] Instance key_total : TotalOrder key_lt.
Proof. split; [apply key_lt_trans|apply key_lt_irrefl|apply key_lt_total]. Qed.

Definition string_lt (a b : string) : Prop := str_lt a b = true.

Lemma compare_refl s : String.compare s s = Eq.
Proof.
  induction s as [|c s IH]; [done|]. cbn.
  assert (Ascii.compare c c = Eq) as -> by (apply N.compare_refl). done.
Qed.

Lemma string_lt_cons a s b t :
  string_lt (String a s) (String b t) ↔
  (N_of_ascii a < N_of_ascii b)%N ∨ a = b ∧ string_lt s t.
Proof.
  unfold string_lt, str_lt, String.ltb. cbn [String.compare]. unfold Ascii.compare.
  destruct (N.compare_spec (N_of_ascii a) (N_of_ascii b)) as [Heq|Hlt|Hgt].
  - assert (a = b) as -> by (by rewrite <-(ascii_N_embedding a), Heq, ascii_N_embedding).
    split; [by right|]. intros [?|[_ ?]]; [lia|done].
  - split; [by left|done].
  - split; [done|]. intros [?|[-> _]]; lia.
Qed.

#[export] Instance string_total : TotalOrder string_lt.
Proof.
  split.
  - intros a. induction a as [|x a IH]; intros [|y b] [|z c]; try done.
    rewrite !string_lt_cons. intros [?|[-> ?]] [?|[-> ?]]; [left; lia|by left|by left|].
    right. eauto.
  - intros a. unfold string_lt, str_lt, String.ltb. by rewrite compare_refl.
  - intros a b. unfold string_lt, str_lt, String.ltb. rewrite (compare_antisym b a).
    destruct (String.compare a b) eqn:Hc; cbn; auto. by apply compare_eq_iff in Hc; auto.
Qed.

(** ** Stable insertion sort by a rank *)
Section Sorting.
Context {A B : Type} (rank : A → B) (lt : relation B) `{!TotalOrder lt} (less : A → A → bool).
Context (valid : A → Prop)
  (less_rank : ∀ x y, valid x → valid y → less x y = true ↔ lt (rank x) (rank y)).

Definition le : relation B := λ a b, ¬ lt b a.

#[local] Instance le_trans : Transitive le.
Proof.
  intros a b c Hab Hbc Hca. destruct (lt_total (lt := lt) b c) as [?|[->|?]]; [|done|done].
  apply Hab. by eapply lt_trans.
Qed.
#[local] Instance le_antisymm : AntiSymm (=) le.
Proof. intros a b Hab Hba. by destruct (lt_total (lt := lt) a b) as [?|[->|?]]. Qed.

Lemma insert_permutation x l : insert_by less x l ≡ₚ x :: l.
Proof.
  induction l as [|y l IH]; cbn; [done|]. destruct (less y x); [|done]. rewrite IH. constructor.
Qed.
Lemma sort_permutation l : SliceStable less l ≡ₚ l.
Proof.
  induction l as [|x l IH]; cbn; [done|]. by rewrite insert_permutation, IH.
Qed.

Lemma insert_sorted x l :
  valid x → Forall valid l → StronglySorted le (rank <$> l) →
  StronglySorted le (rank <$> insert_by less x l).
Proof.
  intros Hx Hl Hs. induction l as [|y l IH]; [by repeat constructor|].
  apply Forall_cons in Hl as [Hy Hl]. rewrite fmap_cons in Hs.
  apply StronglySorted_inv in Hs as [Hs Hall].
  cbn [insert_by]. destruct (less y x) eqn:Hlt.
  - rewrite fmap_cons. constructor; [by apply IH|].
    rewrite insert_permutation, fmap_cons, Forall_cons. split; [|done].
    apply less_rank in Hlt; [|done|done]. intros Hlt'.
    by eapply (lt_irrefl (lt := lt)), lt_trans.
  - assert (le (rank x) (rank y)) as Hle by (intros ?%less_rank; [congruence|done|done]).
    rewrite !fmap_cons. constructor; [by constructor|]. constructor; [done|].
    eapply Forall_impl; [exact Hall|]. intros z Hz. by etrans.
Qed.
Lemma sort_sorted l :
  Forall valid l → StronglySorted le (rank <$> SliceStable less l).
Proof.
  induction l as [|x l IH]; [constructor|]. rewrite Forall_cons. intros [Hx Hl].
  apply insert_sorted; [done| |auto]. by rewrite sort_permutation.
Qed.

Lemma sort_ranks l l' :
  l ≡ₚ l' → Forall valid l → rank <$> SliceStable less l = rank <$> SliceStable less l'.
Proof.
  intros Hl Hv. apply (StronglySorted_unique le); [by apply sort_sorted| |].
  - apply sort_sorted. by rewrite <-Hl.
  - by rewrite !sort_permutation, Hl.
Qed.
End Sorting.

(** ** The order of pools *)
Abbreviation rank_type := (Z * Z * Z * (string * (string * (string * string))))%type.
Definition rank (p : Pool) : rank_type :=
  (key (Apy p), (Pool_Chain p, (Pool_Project p, (Pool_Symbol p, Pool_Pool p)))).
Definition rank_lt : relation rank_type :=
  lex (flip key_lt) (lex string_lt (lex string_lt (lex string_lt string_lt))).
#[export] Instance rank_total : TotalOrder rank_lt.
Proof. apply lex_total; [apply flip_total, key_total|]. repeat apply lex_total; apply string_total. Qed.

Definition valid_apy (p : Pool) : Prop := ValidPoolAPY (Apy p) = true.

Lemma valid_not_nan p : valid_apy p → IsNaN (Apy p) = false.
Proof.
  unfold valid_apy, ValidPoolAPY. rewrite !andb_true_iff, negb_true_iff. tauto.
Qed.

Lemma string_lex {B} (s t : string) (x y : B) (ltB : relation B) (b : bool) :
  (b = true ↔ ltB x y) →
  (if bool_decide (s ≠ t) then str_lt s t else b) = true ↔ lex string_lt ltB (s, x) (t, y).
Proof.
  intros Hb. unfold lex; cbn. case_bool_decide as Hst.
  - split; [by left|]. by intros [?|[-> ?]].
  - rewrite Hb. destruct (decide (s = t)) as [->|]; [|tauto].
    split; [by right|]. by intros [?%lt_irrefl|[_ ?]].
Qed.

Lemma poolLess_rank p q :
  valid_apy p → valid_apy q → poolLess p q = true ↔ rank_lt (rank p) (rank q).
Proof.
  intros Hp%valid_not_nan Hq%valid_not_nan. unfold poolLess, rank_lt, rank.
  assert ((if bool_decide (Pool_Chain p ≠ Pool_Chain q) then str_lt (Pool_Chain p) (Pool_Chain q)
    else if bool_decide (Pool_Project p ≠ Pool_Project q)
    then str_lt (Pool_Project p) (Pool_Project q)
    else if bool_decide (Pool_Symbol p ≠ Pool_Symbol q)
    then str_lt (Pool_Symbol p) (Pool_Symbol q)
    else str_lt (Pool_Pool p) (Pool_Pool q)) = true ↔
    lex string_lt (lex string_lt (lex string_lt string_lt))
      (Pool_Chain p, (Pool_Project p, (Pool_Symbol p, Pool_Pool p)))
      (Pool_Chain q, (Pool_Project q, (Pool_Symbol q, Pool_Pool q)))) as Hrest.
  { do 3 (apply string_lex). done. }
  pose proof (f64_eq_key _ _ Hp Hq) as Heq. pose proof (f64_lt_key _ _ Hq Hp) as Hlt.
  unfold lex at 1, flip; cbn [fst snd]. destruct (f64_eq (Apy p) (Apy q)); cbn [negb].
  - rewrite Hrest. rewrite (proj1 Heq eq_refl). split; [by right|].
    by intros [?%key_lt_irrefl|[_ ?]].
  - rewrite Hlt. split; [by left|]. intros [?|[Hk _]]; [done|]. by apply Heq in Hk.
Qed.

(** ** Selection *)
Definition pool_equiv (p q : Pool) : Prop :=
  f64_eq (Apy p) (Apy q) = true ∧ Pool_Chain p = Pool_Chain q ∧ Pool_Project p = Pool_Project q ∧
  Pool_Symbol p = Pool_Symbol q ∧ Pool_Pool p = Pool_Pool q.

Lemma pool_equiv_rank p q : valid_apy p → valid_apy q → pool_equiv p q ↔ rank p = rank q.
Proof.
  intros Hp%valid_not_nan Hq%valid_not_nan. unfold pool_equiv, rank.
  rewrite f64_eq_key by done. split; [by intros (-> & -> & -> & -> & ->)|by intros [=]].
Qed.

Definition result_equiv (r r' : fetchResult) : Prop :=
  HasBest r = HasBest r' ∧ pool_equiv (BestPool r) (BestPool r') ∧
  HasCurrent r = HasCurrent r' ∧ pool_equiv (CurrentPool r) (CurrentPool r').

Section Selection.
Context `{GoUnicode, GoEthereum} (id : bytes) (name : string).
Abbreviation sorted l := (StronglySorted (le rank_lt) (rank <$> l)).

(** [p] is a least element of the pools that satisfy [P]. *)
Definition first_of (P : Pool → Prop) (l : list Pool) (p : Pool) : Prop :=
  p ∈ l ∧ P p ∧ ∀ q, q ∈ l → P q → poolLess q p = false.

Lemma not_less p q : valid_apy p → valid_apy q → le rank_lt (rank p) (rank q) → poolLess q p = false.
Proof.
  intros Hp Hq Hle. destruct (poolLess q p) eqn:Hlt; [|done]. by apply poolLess_rank in Hlt.
Qed.

Lemma head_first p l : Forall valid_apy (p :: l) → sorted (p :: l) → first_of (λ _, True) (p :: l) p.
Proof.
  rewrite fmap_cons. intros [Hp Hl]%Forall_cons [_ Hall]%StronglySorted_inv.
  split_and!; [left|done|]. intros q [->|Hq]%elem_of_cons _.
  - apply not_less; [done..|]. apply lt_irrefl.
  - rewrite Forall_forall in Hl. apply not_less; [done|auto|].
    rewrite Forall_forall in Hall. apply Hall. by apply list_elem_of_fmap_2.
Qed.

Lemma find_current_first l :
  Forall valid_apy l → sorted l →
  match find_current id name l with
  | Some p => first_of (λ p, is_current id name p = true) l p
  | None => ∀ q, q ∈ l → is_current id name q = false
  end.
Proof.
  induction l as [|p l IH]; intros Hv Hs; cbn [find_current].
  { intros q Hq. by apply not_elem_of_nil in Hq. }
  destruct (head_first p l Hv Hs) as (_ & _ & Hmin).
  apply Forall_cons in Hv as [Hp Hl]. rewrite fmap_cons in Hs.
  apply StronglySorted_inv in Hs as [Hs _].
  destruct (is_current id name p) eqn:Hc.
  - split_and!; [left|done|]. intros q Hq _. by apply Hmin.
  - specialize (IH Hl Hs). destruct (find_current id name l) as [c|].
    + destruct IH as (Hin & Hcur & Hc'). split_and!; [by right|done|].
      intros q [->|Hq]%elem_of_cons; [congruence|eauto].
    + intros q [->|Hq]%elem_of_cons; eauto.
Qed.

Lemma sortPools_sorted l : Forall valid_apy l → sorted (sortPools l).
Proof. apply (sort_sorted rank rank_lt poolLess valid_apy poolLess_rank). Qed.
Lemma sortPools_permutation l : sortPools l ≡ₚ l.
Proof. apply sort_permutation. Qed.

Lemma first_of_permutation P l l' p : l ≡ₚ l' → first_of P l p → first_of P l' p.
Proof. intros Hl (? & ? & Hm). split_and!; [by rewrite <-Hl|done|]. intros q. rewrite <-Hl. apply Hm. Qed.

(** What a selection promises. *)
Definition selection_of (candidates : list Pool) (r : fetchResult) : Prop :=
  (if HasBest r then first_of (λ _, True) candidates (BestPool r) else candidates = []) ∧
  (if HasCurrent r
   then first_of (λ p, Pool_Chain p = name ∧ PoolToProtocolId (Pool_Project p) = id)
          candidates (CurrentPool r)
   else ∀ p, p ∈ candidates → ¬ (Pool_Chain p = name ∧ PoolToProtocolId (Pool_Project p) = id)).

Lemma select_selection candidates :
  Forall valid_apy candidates → selection_of candidates (select id name candidates).
Proof.
  intros Hv. unfold selection_of, select.
  pose proof (sortPools_permutation candidates) as Hperm.
  assert (Forall valid_apy (sortPools candidates)) as Hv' by (by rewrite Hperm).
  pose proof (find_current_first _ Hv' (sortPools_sorted _ Hv)) as Hfind.
  pose proof (λ p l Hl, eq_ind _ (λ k, sorted k) (sortPools_sorted _ Hv) (p :: l) Hl) as Hs.
  generalize dependent (sortPools candidates). intros k Hperm Hv' Hfind Hs.
  assert (∀ p, is_current id name p = true ↔
    Pool_Chain p = name ∧ PoolToProtocolId (Pool_Project p) = id) as Hcur.
  { intros p. unfold is_current. by rewrite andb_true_iff, !bool_decide_eq_true. }
  assert (if find_current id name k is Some p
    then first_of (λ p, Pool_Chain p = name ∧ PoolToProtocolId (Pool_Project p) = id) candidates p
    else ∀ p, p ∈ candidates → ¬ (Pool_Chain p = name ∧ PoolToProtocolId (Pool_Project p) = id))
    as Hc.
  { destruct (find_current id name k) as [c|].
    - eapply first_of_permutation; [exact Hperm|]. destruct Hfind as (Hin & Hc & Hm).
      split; [done|]. split; [by apply Hcur|]. intros q Hq Hqc. apply Hm; [done|by apply Hcur].
    - intros p Hp Hpc%Hcur. rewrite <-Hperm in Hp. apply Hfind in Hp. congruence. }
  destruct k as [|b l].
  { cbn in *. split; [by apply Permutation_nil|done]. }
  pose proof (first_of_permutation _ _ _ _ Hperm (head_first b l Hv' (Hs b l eq_refl))) as Hb.
  by destruct (find_current id name (b :: l)).
Qed.

(** C33: the selection from a response: the best pool is a candidate that no
    candidate precedes (a higher APY, then the names), the current pool is such
    a one among the candidates on the active chain whose project hashes to the
    active protocol id, and either is missing exactly when there is none. *)
Theorem select_spec candidates :
  Forall valid_apy candidates → selection_of candidates (select id name candidates).
Proof. apply select_selection. Qed.
End Selection.

(** ** The order of the response does not matter *)
Section Determinism.
Context `{GoUnicode, GoEthereum} (id : bytes) (name : string).

Lemma is_current_rank p q : rank p = rank q → is_current id name p = is_current id name q.
Proof. unfold is_current. by intros [= _ -> -> _ _]. Qed.

Lemma find_current_ranks l l' :
  rank <$> l = rank <$> l' →
  rank <$> find_current id name l = rank <$> find_current id name l'.
Proof.
  revert l'. induction l as [|p l IH]; intros [|p' l'] Hr; try done.
  rewrite !fmap_cons in Hr. injection Hr as E1 E2 E3 E4 E5 Hl.
  assert (rank p = rank p') as Hp by (unfold rank; congruence).
  cbn [find_current]. rewrite (is_current_rank _ _ Hp).
  destruct (is_current id name p'); cbn; [by rewrite Hp|auto].
Qed.

Lemma find_current_in l p : find_current id name l = Some p → p ∈ l.
Proof.
  induction l as [|q l IH]; cbn [find_current]; [done|].
  destruct (is_current id name q); [intros [= ->]; left|right; auto].
Qed.

(** C34: the nodes of the network agree whatever the order in which the relay
    lists the pools: permuted candidates give the same selection, up to the
    sign of a zero APY. *)
Theorem select_permutation l l' :
  l ≡ₚ l' → Forall valid_apy l → result_equiv (select id name l) (select id name l').
Proof.
  intros Hl Hv. assert (Forall valid_apy l') as Hv' by (by rewrite <-Hl).
  pose proof (sort_ranks rank rank_lt poolLess valid_apy poolLess_rank _ _ Hl Hv) as Hranks.
  fold (sortPools l) (sortPools l') in Hranks.
  assert (∀ p, p ∈ sortPools l → valid_apy p) as Hs.
  { intros p. rewrite sortPools_permutation. by apply Forall_forall. }
  assert (∀ p, p ∈ sortPools l' → valid_apy p) as Hs'.
  { intros p. rewrite sortPools_permutation. by apply Forall_forall. }
  pose proof (find_current_ranks _ _ Hranks) as Hcur.
  assert (pool_equiv zeroPool zeroPool) by done.
  assert (∀ o o', rank <$> o = rank <$> o' → (∀ p, o = Some p → p ∈ sortPools l) →
    (∀ p, o' = Some p → p ∈ sortPools l') →
    match o, o' with Some p, Some p' => pool_equiv p p' | None, None => True | _, _ => False end)
    as Hopt.
  { intros [p|] [p'|] Ho Hin Hin'; try done. injection Ho as E1 E2 E3 E4 E5.
    apply pool_equiv_rank; [auto|auto|]. unfold rank. congruence. }
  pose proof (Hopt _ _ Hcur (find_current_in _) (find_current_in _)) as Hc.
  assert (rank <$> head (sortPools l) = rank <$> head (sortPools l')) as Hhead.
  { destruct (sortPools l), (sortPools l'); try done; cbn in *; congruence. }
  pose proof (Hopt _ _ Hhead (head_Some_elem_of _) (head_Some_elem_of _)) as Hb.
  unfold select, result_equiv.
  destruct (sortPools l) as [|b k], (sortPools l') as [|b' k']; cbn [head] in Hb; try done;
    destruct (find_current id name _) as [c|], (find_current id name _) as [c'|]; done.
Qed.
End Determinism.

(** ** Lookups *)
Section Lookup.
Context {A V : Type} `{Countable K} (keep : A → bool) (k : A → K) (v : A → V).

(** The maps of the client: a later element replaces an earlier one. *)
Definition build (m : gmap K V) (l : list A) : gmap K V :=
  foldl (λ m a, if keep a then m else <[k a := v a]> m) m l.

Lemma build_lookup l m i x :
  build m l !! i = Some x → m !! i = Some x ∨ ∃ a, a ∈ l ∧ keep a = false ∧ k a = i ∧ v a = x.
Proof.
  revert m. induction l as [|a l IH]; intros m; cbn; [by left|].
  intros [Hm|(b & Hb & Hr)]%IH.
  - destruct (keep a) eqn:Ha; [by left|]. apply lookup_insert_Some in Hm as [[<- <-]|[_ Hm]].
    + right. exists a. by repeat (left || split).
    + by left.
  - right. exists b. split; [by right|done].
Qed.

Lemma build_other l m i : (∀ a, a ∈ l → keep a = false → k a ≠ i) → build m l !! i = m !! i.
Proof.
  revert m. induction l as [|a l IH]; intros m Hi; cbn; [done|].
  rewrite IH by (intros b Hb; apply Hi; by right).
  destruct (keep a) eqn:Ha; [done|]. apply lookup_insert_ne, Hi; [left|done].
Qed.

Lemma build_unique l m a :
  NoDup (k <$> l) → a ∈ l → keep a = false → build m l !! k a = Some (v a).
Proof.
  revert m. induction l as [|b l IH]; intros m Hnd Ha Hk; [by apply not_elem_of_nil in Ha|].
  rewrite fmap_cons in Hnd. apply NoDup_cons in Hnd as [Hb Hnd]. cbn.
  apply elem_of_cons in Ha as [->|Ha]; [|by apply IH].
  rewrite Hk. rewrite build_other; [by rewrite lookup_insert, decide_True|].
  intros c Hc _ Heq. apply Hb. rewrite <-Heq. by apply list_elem_of_fmap_2.
Qed.
End Lookup.

Section Client.
Context `{GoUnicode, GoEthereum}.

Record approved (cfg : Config) (p : Pool) : Prop := {
  approved_id : Pool_Pool p ∈ PoolIDs cfg;
  approved_chain : ∃ c, c ∈ Chains cfg ∧ DefiLlamaChainName c = Pool_Chain p ∧ Pool_Chain p ≠ EmptyString;
  approved_project : Pool_Project p ∈ Projects cfg;
  approved_symbol : Pool_Symbol p ∈ Symbols cfg;
  approved_apy : valid_apy p }.

Lemma allowedValues_build values :
  allowedValues values = build (λ _, false) canonicalDefiLlamaValue (λ x, x) ∅ values.
Proof. reflexivity. Qed.
Lemma allowedChains_build cfg :
  allowedChains cfg = build (λ c, bool_decide (DefiLlamaChainName c = EmptyString))
    (λ c, canonicalDefiLlamaValue (DefiLlamaChainName c)) DefiLlamaChainName ∅ (Chains cfg).
Proof. reflexivity. Qed.
Lemma chainSelectorToName_build cfg :
  chainSelectorToName cfg = build (λ c, bool_decide (DefiLlamaChainName c = EmptyString))
    ChainSelector DefiLlamaChainName ∅ (Chains cfg).
Proof. reflexivity. Qed.

Lemma allowedValues_in values k x : allowedValues values !! k = Some x → x ∈ values.
Proof.
  rewrite allowedValues_build. intros [Hm|(a & Ha & _ & _ & <-)]%build_lookup; [|exact Ha].
  by rewrite lookup_empty in Hm.
Qed.

Lemma candidate_approved cfg raw p : candidate cfg raw = Some p → approved cfg p.
Proof.
  unfold candidate. intros (pj & _ & Hc)%bind_Some. apply bind_Some in Hc as (apy & _ & Hc).
  apply bind_Some in Hc as (i & Hi & Hc). apply bind_Some in Hc as (ch & Hch & Hc).
  apply bind_Some in Hc as (pr & Hpr & Hc). apply bind_Some in Hc as (sy & Hsy & Hc).
  destruct (ValidPoolAPY apy) eqn:Hapy; [|done]. injection Hc as <-.
  split; cbn; [by eapply allowedValues_in| |by eapply allowedValues_in..|done].
  rewrite allowedChains_build in Hch.
  apply build_lookup in Hch as [Hm|(c & Hc & Hk & _ & <-)]; [by rewrite lookup_empty in Hm|].
  apply bool_decide_eq_false in Hk. eauto.
Qed.

Lemma candidates_approved cfg l : Forall (approved cfg) (omap (candidate cfg) l).
Proof.
  apply Forall_forall. intros p (raw & _ & Hp)%list_elem_of_omap. by eapply candidate_approved.
Qed.

(** The configured chain with a given name is unique. *)
Record unambiguous (cfg : Config) : Prop := {
  unique_selectors : NoDup (ChainSelector <$> Chains cfg);
  unique_names : NoDup (omap (λ c, if bool_decide (DefiLlamaChainName c = EmptyString) then None
    else Some (canonicalDefiLlamaValue (DefiLlamaChainName c))) (Chains cfg)) }.

Lemma omap_NoDup_inj {A B} (f : A → option B) l a b x :
  NoDup (omap f l) → a ∈ l → b ∈ l → f a = Some x → f b = Some x → a = b.
Proof.
  induction l as [|c l IH]; intros Hnd Ha Hb Hfa Hfb; [by apply not_elem_of_nil in Ha|].
  cbn [omap list_omap] in Hnd.
  assert (∀ d, d ∈ l → f c = Some x → f d = Some x → False) as Hout.
  { intros d Hd Hfc Hfd. rewrite Hfc in Hnd. apply NoDup_cons in Hnd as [Hn _].
    apply Hn, list_elem_of_omap. eauto. }
  assert (NoDup (omap f l)) as Hnd' by (destruct (f c); [by apply NoDup_cons in Hnd as [_ ?]|done]).
  apply elem_of_cons in Ha as [->|Ha]; apply elem_of_cons in Hb as [->|Hb];
    [done|exfalso; eauto|exfalso; eauto|auto].
Qed.

Lemma first_selector_spec chain entries :
  match first_selector chain entries with
  | Ok sel => ∃ name, (sel, name) ∈ entries ∧
      canonicalDefiLlamaValue name = canonicalDefiLlamaValue chain
  | Err _ => ∀ sel name, (sel, name) ∈ entries →
      canonicalDefiLlamaValue name ≠ canonicalDefiLlamaValue chain
  | Crash => False
  end.
Proof.
  induction entries as [|[sel name] entries IH]; cbn [first_selector].
  { intros ? ? Hin. by apply not_elem_of_nil in Hin. }
  case_bool_decide as Hn; [exists name; by split; [left|]|].
  destruct (first_selector chain entries) as [s|e|]; [| |done].
  - destruct IH as (n & Hin & Heq). exists n. split; [by right|done].
  - intros s n [[= -> ->]|Hin]%elem_of_cons; [done|by eapply IH].
Qed.

Lemma PoolToChainSelector_exact order cfg chain :
  unambiguous cfg → (∀ m, order m ≡ₚ map_to_list m) →
  PoolToChainSelector order cfg chain ≠ Crash ∧
  ∀ sel, PoolToChainSelector order cfg chain = Ok sel ↔
    ∃ c, c ∈ Chains cfg ∧ ChainSelector c = sel ∧ DefiLlamaChainName c ≠ EmptyString ∧
      canonicalDefiLlamaValue (DefiLlamaChainName c) = canonicalDefiLlamaValue chain.
Proof.
  intros [HS HN] Hord. unfold PoolToChainSelector.
  pose proof (first_selector_spec chain (order (chainSelectorToName cfg))) as Hf.
  assert (∀ sel name, (sel, name) ∈ order (chainSelectorToName cfg) ↔
    ∃ c, c ∈ Chains cfg ∧ ChainSelector c = sel ∧ DefiLlamaChainName c = name ∧ name ≠ EmptyString)
    as Hin.
  { intros sel name. rewrite Hord, elem_of_map_to_list, chainSelectorToName_build. split.
    - intros [Hm|(c & Hc & Hk & <- & <-)]%build_lookup; [by rewrite lookup_empty in Hm|].
      apply bool_decide_eq_false in Hk. eauto.
    - intros (c & Hc & <- & <- & Hne).
      by apply (build_unique (λ c, bool_decide (DefiLlamaChainName c = EmptyString))
        ChainSelector DefiLlamaChainName); [| |apply bool_decide_eq_false]. }
  destruct (first_selector _ _) as [s|e|]; [| |done]; (split; [done|]); intros sel; split.
  - destruct Hf as (name & (c & Hc & <- & <- & Hne)%Hin & Heq). intros [= <-]. eauto.
  - intros (c' & Hc' & <- & Hne' & Heq'). f_equal.
    destruct Hf as (name & (c & Hc & <- & <- & Hne)%Hin & Heq). f_equal.
    eapply omap_NoDup_inj; [exact HN|done|done| |]; cbn; rewrite bool_decide_eq_false_2 by done;
      [done|congruence].
  - done.
  - intros (c & Hc & <- & Hne & Heq). exfalso. eapply Hf; [|exact Heq]. apply Hin. eauto.
Qed.

Lemma PoolToChainSelector_total order cfg chain sel :
  unambiguous cfg → (∀ m, order m ≡ₚ map_to_list m) →
  PoolToChainSelector order cfg chain = Ok sel →
  ∃ c, c ∈ Chains cfg ∧ ChainSelector c = sel ∧ DefiLlamaChainName c ≠ EmptyString ∧
    canonicalDefiLlamaValue (DefiLlamaChainName c) = canonicalDefiLlamaValue chain.
Proof. intros HU Hord. by apply (PoolToChainSelector_exact order cfg chain HU Hord). Qed.

(** Mapping a pool's chain name back to a selector: over configured chains
    with distinct selectors and distinct canonical names, the lookup finds the
    selector of the one chain with that name, fails when there is none, and
    does not depend on the order in which Go ranges over the map. *)
Theorem PoolToChainSelector_spec order cfg chain :
  unambiguous cfg → (∀ m, order m ≡ₚ map_to_list m) →
  PoolToChainSelector order cfg chain ≠ Crash ∧
  ∀ sel, PoolToChainSelector order cfg chain = Ok sel ↔
    ∃ c, c ∈ Chains cfg ∧ ChainSelector c = sel ∧ DefiLlamaChainName c ≠ EmptyString ∧
      canonicalDefiLlamaValue (DefiLlamaChainName c) = canonicalDefiLlamaValue chain.
Proof. apply PoolToChainSelector_exact. Qed.

(** What the nodes agree on is selected from approved pools only. *)
Lemma pools_of_select v cfg i name r :
  pools_of v cfg i name = Ok r → ∃ l, Forall (approved cfg) l ∧ r = select i name l.
Proof.
  intros Hr. assert (∃ l, r = select i name (omap (candidate cfg) l)) as [l ->].
  { destruct v as [|?|?|?|?|ms]; cbn [pools_of] in Hr;
      try (destruct (first_token _) as [[]| |]; done).
    destruct (data_of ms) as [[v|]| |]; try done. cbn [mbind res_bind] in Hr.
    destruct v; try (destruct (first_token _) as [[]| |]; done). injection Hr as <-. eauto. }
  eexists. split; [apply candidates_approved|done].
Qed.

(** ** The fetch of one node *)
Definition fresh (observedAt : Z) (v : json) : Prop :=
  ∃ t, unmarshal_struct None store_metadata v = Some (Some t) ∧
    0 <= t <= observedAt ∧ observedAt - t <= 900.

Lemma freshness_spec body observedAt :
  in_int64 observedAt →
  validateSnapshotFreshness body observedAt ≠ Crash ∧
  ∀ u, validateSnapshotFreshness body observedAt = Ok u ↔
    ∃ v, parse_document body = Some v ∧ fresh observedAt v.
Proof.
  intros Hobs. unfold validateSnapshotFreshness, fresh.
  destruct (parse_document body) as [v|] eqn:Hp; cbn [mbind option_bind];
    [|split; [done|intros u; split; [done|by intros (?&?&?)]]].
  destruct (unmarshal_struct None store_metadata v) as [[t|]|] eqn:Hu;
    [|split; [done|intros u; split; [done|]; intros (v' & [= <-] & t' & Ht & _); congruence]..].
  split; [repeat (apply bind_no_crash; [apply fail_if_no_crash|intros ? _]); apply fail_if_no_crash|].
  intros u. rewrite !fail_if_bind, fail_if_Ok, orb_false_iff, !Z.ltb_ge.
  split.
  - intros ([? ?] & ? & Hd). exists v. split; [done|]. exists t. split; [done|].
    rewrite int64_id in Hd by (unfold in_int64 in *; lia). unfold defiLlamaMaxSnapshotAgeSeconds in Hd.
    lia.
  - intros (v' & [= <-] & t' & Ht & Hle & Hd).
    assert (t' = t) as -> by congruence.
    rewrite int64_id by (unfold in_int64 in *; lia). unfold defiLlamaMaxSnapshotAgeSeconds. lia.
Qed.

Lemma fetchAndParse_total params requester :
  in_int64 (fp_ObservedAt params) →
  fetchAndParse params requester ≠ Crash ∧
  ∀ r, fetchAndParse params requester = Ok r ↔
    ∃ body v, requester (relay_request (BearerToken params)) = Reply (Some (mkHttpResponse 200 body)) ∧
      Z.of_nat (length body) <= 102400 ∧ parse_document body = Some v ∧
      fresh (fp_ObservedAt params) v ∧
      pools_of v (fp_Config params) (ActiveProtocolId params) (ActiveChainName params) = Ok r.
Proof.
  intros Hobs. unfold fetchAndParse, fetchAndParseWithRequester.
  destruct (requester _) as [[[status body]|]|e]; cbn [of_reply wrap mbind res_bind];
    [|split; [done|intros r; split; [done|by intros (?&?&?&_)]]..].
  cbn [Resp_StatusCode Resp_Body].
  destruct (freshness_spec body (fp_ObservedAt params) Hobs) as [Hnc Hf]. split.
  - do 2 (apply bind_no_crash; [apply fail_if_no_crash|intros ? _]).
    apply bind_no_crash; [done|]. intros u (v & Hp & _)%Hf.
    rewrite (parsePools_equiv _ _ _ _ _ Hp). apply pools_of_no_crash.
  - intros r. rewrite !fail_if_bind, res_unit_bind, Hf, negb_false_iff, Z.eqb_eq, Z.ltb_ge.
    change defiLlamaMaxResponseBytes with 102400. split.
    + intros (-> & Hlen & (v & Hp & Hfr) & Hr). rewrite (parsePools_equiv _ _ _ _ _ Hp) in Hr. eauto 10.
    + intros (? & v & [= -> <-] & Hlen & Hp & Hfr & Hr).
      rewrite (parsePools_equiv _ _ _ _ _ Hp). eauto 10.
Qed.

Lemma fetchAndParse_exact params requester r :
  in_int64 (fp_ObservedAt params) → fetchAndParse params requester = Ok r →
  ∃ body v, requester (relay_request (BearerToken params)) = Reply (Some (mkHttpResponse 200 body)) ∧
    Z.of_nat (length body) <= 102400 ∧ parse_document body = Some v ∧
    fresh (fp_ObservedAt params) v ∧
    pools_of v (fp_Config params) (ActiveProtocolId params) (ActiveChainName params) = Ok r.
Proof. intros Hobs Hr. by apply (fetchAndParse_total params requester Hobs). Qed.

(** C23: a node's fetch asks the relay with the bearer token and never panics;
    it returns a result exactly when the relay answers 200 with at most 100 KiB
    of valid JSON whose refresh time is at most 15 minutes before the observed
    time and not after it, and whose pools can be selected: [pools_of] fails on a
    document that is not an object with an array of pools under [data].  The
    result is the selection of that document. *)
Theorem fetchAndParse_spec params requester :
  in_int64 (fp_ObservedAt params) →
  fetchAndParse params requester ≠ Crash ∧
  ∀ r, fetchAndParse params requester = Ok r ↔
    ∃ body v, requester (relay_request (BearerToken params)) = Reply (Some (mkHttpResponse 200 body)) ∧
      Z.of_nat (length body) <= 102400 ∧ parse_document body = Some v ∧
      fresh (fp_ObservedAt params) v ∧
      pools_of v (fp_Config params) (ActiveProtocolId params) (ActiveChainName params) = Ok r.
Proof. apply fetchAndParse_total. Qed.
End Client.

(** ** A concrete response *)
Module SamplePools.
#[local] Existing Instance ascii_unicode.
#[local] Existing Instance SampleState.ethereum.

(** JSON text written with single quotes. *)
Definition text (s : string) : bytes :=
  (λ c, if ch c "'"%char then quote else c) <$> to_bytes s.

Definition config : offchain.Config :=
  mkConfig ["pool-1"; "pool-2"]%string
    [mkChainConfig 1 "Ethereum"; mkChainConfig 2 "Base"; mkChainConfig 3 ""]%string
    ["aave-v3"; "compound-v3"]%string ["USDC"]%string.

Definition body : bytes := text (String.append
  "{'refreshedAt': 9900, 'meta': {'n': [1, {}, []]}, 'DATA': [ 7, {'pool':'pool-9'},"
  (String.append
  "{'pool':'POOL-1 ','chain':'base','project':'aave-v3','symbol':'usdc','apyBase':4.5},"
  "{'pool':'pool-2','chain':'Ethereum','project':'aave-v3','symbol':'USDC','apyBase':6.25}], 'x': 1}")).

Definition value : json := default JNull (parse_document body).
Definition base_pool : Pool := default zeroPool (head (drop 1 (sortPools
  match value with JObj ms => match data_of ms with Ok (Some (JArr l)) => omap (candidate config) l
                  | _ => [] end | _ => [] end))).
Definition id : bytes := PoolToProtocolId "aave-v3".
Definition result : fetchResult :=
  match pools_of value config id "Base" with
  | Ok r => r | _ => mkFetchResult zeroPool false zeroPool false
  end.

Example value_ok : parse_document body = Some value.
Proof. vm_compute. reflexivity. Qed.
Example result_ok :
  pools_of value config id "Base" = Ok result ∧
  HasBest result = true ∧ Pool_Chain (BestPool result) = "Ethereum"%string ∧
  HasCurrent result = true ∧ Pool_Pool (CurrentPool result) = "pool-1"%string ∧
  f64_eq (f64_sub (Apy (BestPool result)) (Apy (CurrentPool result))) (f64_of_Z 1) = false ∧
  f64_le (f64_of_Z 1) (f64_sub (Apy (BestPool result)) (Apy (CurrentPool result))) = true.
Proof. vm_compute. repeat split. Qed.

Lemma parsePools_document_witness :
  parsePools body config id "Base" = Ok result.
Proof.
  transitivity (pools_of value config id "Base"); [|vm_compute; reflexivity].
  exact (parsePools_document body value config id "Base" value_ok).
Defined.

Definition candidates : list Pool := [BestPool result; CurrentPool result].

Lemma candidates_valid : Forall valid_apy candidates.
Proof. repeat constructor; vm_compute; reflexivity. Qed.

Lemma select_spec_witness : selection_of id "Base" candidates (select id "Base" candidates).
Proof. exact (select_spec id "Base" candidates candidates_valid). Defined.

Lemma select_permutation_witness :
  result_equiv (select id "Base" candidates) (select id "Base" (reverse candidates)).
Proof.
  apply (select_permutation id "Base" candidates (reverse candidates));
    [symmetry; apply reverse_Permutation|exact candidates_valid].
Defined.

Lemma config_unambiguous : unambiguous config.
Proof.
  split; apply (bool_decide_eq_true_1 _); vm_compute; reflexivity.
Qed.

Lemma PoolToChainSelector_witness :
  PoolToChainSelector (reverse ∘ map_to_list) config " BASE" = Ok 2.
Proof.
  apply (PoolToChainSelector_spec (reverse ∘ map_to_list) config " BASE" config_unambiguous).
  - intros m. apply reverse_Permutation.
  - exists (mkChainConfig 2 "Base"). split; [by right; left|]. split; [reflexivity|].
    split; [done|vm_compute; reflexivity].
Defined.

Definition params : fetchParams := mkFetchParams config id "Base" "token" 10000.

Lemma fetchAndParse_witness :
  fetchAndParse params (λ _, Reply (Some (mkHttpResponse 200 body))) = Ok result.
Proof.
  apply (fetchAndParse_spec params); [vm_compute; split; discriminate|].
  exists body, value. split; [reflexivity|]. split; [vm_compute; discriminate|].
  split; [exact value_ok|]. split; [|apply result_ok].
  exists 9900. split; [vm_compute; reflexivity|cbn; lia].
Defined.
End SamplePools.
