(* ===== verification/PoolTotal.v ===== *)
(** * Streaming any body: [parsePools] returns

    [PoolStream] relates [parsePools] to the document of a valid body.  Here the
    body is arbitrary (truncated, malformed, any bytes): the decoder is followed
    through its token states, every token consumes input, and the recursive skip
    leaves the decoder behind the value it skipped.  So the loops end, within the
    fuel they are given, the assertion that a key is a string holds, and what is
    selected is selected from approved pools. *)

From S2P Require Import Prelude GoText BigInt Ethereum Runtime Float Json DefiLlama PoolStream PoolSelect.

#[local] Open Scope Z_scope.
Import offchain.

(** ** Computations that return and what they return *)
Definition returns {A} (m : res A) (P : A → Prop) : Prop :=
  match m with Ok a => P a | Err _ => True | Crash => False end.

Lemma returns_bind {A B} (m : res A) (f : A → res B) P Q :
  returns m P → (∀ a, P a → returns (f a) Q) → returns (m ≫= f) Q.
Proof. destruct m; cbn; eauto. Qed.
Lemma returns_wrap {A} fmt args (m : res A) P : returns m P → returns (wrap fmt args m) P.
Proof. by destruct m. Qed.
Lemma returns_intro {A} (m : res A) (P : A → Prop) :
  m ≠ Crash → (∀ a, m = Ok a → P a) → returns m P.
Proof. destruct m; cbn; eauto. Qed.

(** ** Tokens *)

(** [d'] is behind [d], in the state [s] and with the stack [st]. *)
Definition arrives (d d' : decoder) (s : tokenState) (st : list tokenState) : Prop :=
  (length (d_rest d') < length (d_rest d))%nat ∧ decoder_ok d' ∧ d_state d' = s ∧ d_stack d' = st.
(** [d'] is behind [d], in a container that was opened in a state that [s] follows. *)
Definition enters (d d' : decoder) (start s : tokenState) (st : list tokenState) : Prop :=
  ∃ s0, arrives d d' start (s0 :: st) ∧ tokenValueEnd s0 = s.

(** The states in which a value is due, and the state that follows it. *)
Definition value_due (d : decoder) (s : tokenState) : Prop :=
  (d_state d = tokenObjectColon ∧ s = tokenObjectComma) ∨
  ((d_state d = tokenArrayStart ∨ d_state d = tokenArrayComma) ∧ More d = true ∧ s = tokenArrayComma).

(** The token of a value in the state [s0]. *)
Definition value_started (d : decoder) (s : tokenState) (st : list tokenState)
    (x : token * decoder) : Prop :=
  match x.1 with
  | Delim c =>
      (c = "{"%char ∧ enters d x.2 tokenObjectStart s st) ∨
      (c = "["%char ∧ enters d x.2 tokenArrayStart s st)
  | _ => arrives d x.2 s st
  end.

(** A value that is not a closing delimiter, read in a state that allows one. *)
Lemma value_read n d c r s :
  decoder_ok d → peek d = Some (c, r) → tokenValueAllowed (d_state d) = true →
  d_state d ≠ tokenTopValue → tokenValueEnd (d_state d) = s →
  (ch c "]"%char = false ∧ ch c "}"%char = false ∨ d_state d ≠ tokenArrayStart) →
  ∀ x, Token_loop (S n) d = Ok x → value_started d s (d_stack d) x.
Proof.
  intros Hok Hp Hall Htop Hs Hclose [t d'] Hx.
  pose proof (Token_loop_ok _ _ _ _ Hok Hx) as [Hlen Hok'].
  cbn [Token_loop] in Hx. rewrite Hp in Hx. unfold open_container in Hx. rewrite Hall in Hx.
  assert (∀ c' start, Ok (Delim c', mkDecoder r start (d_state d :: d_stack d)) = Ok (t, d') →
    t = Delim c' ∧ enters d d' start s (d_stack d)) as Hopen.
  { intros c' start [= <- <-]. split; [done|]. exists (d_state d). done. }
  unfold value_started. cbn [fst snd].
  destruct (ch c "["%char) eqn:E1; [apply ch_true in E1 as ->; apply Hopen in Hx as [-> ?]; auto|].
  destruct (ch c "]"%char) eqn:E2; [by destruct (d_state d) eqn:Hd; naive_solver|].
  destruct (ch c "{"%char) eqn:E3; [apply ch_true in E3 as ->; apply Hopen in Hx as [-> ?]; auto|].
  destruct (ch c "}"%char) eqn:E4; [by destruct (d_state d) eqn:Hd; naive_solver|].
  destruct (ch c ":"%char); [by destruct (d_state d)|].
  destruct (ch c ","%char); [by destruct (d_state d)|].
  unfold scalar_token in Hx. rewrite Hall in Hx.
  assert ((match d_state d with tokenObjectStart | tokenObjectKey => true | _ => false end) = false)
    as Hkey by (by destruct (d_state d)).
  rewrite Hkey, andb_false_r in Hx. cbn [negb] in Hx.
  destruct (parse_scalar (c :: r)) as [[v rest]|]; [|done].
  assert (d' = mkDecoder rest (tokenValueEnd (d_state d)) (d_stack d) → arrives d d' s (d_stack d))
    as Harr by (intros ->; done).
  destruct v as [|?|lit|?|?|?]; try (destruct (ParseFloat lit); [|done]); simplify_eq; by apply Harr.
Qed.

Lemma value_started_after d d2 s st x :
  (length (d_rest d2) ≤ length (d_rest d))%nat → value_started d2 s st x → value_started d s st x.
Proof.
  intros Hlen. unfold value_started, enters, arrives. destruct x as [[c|?|?] d']; cbn [fst snd];
    naive_solver lia.
Qed.

Lemma Token_value d s :
  decoder_ok d → value_due d s → returns (Token d) (value_started d s (d_stack d)).
Proof.
  intros Hok Hdue. apply returns_intro; [by apply Token_no_crash|]. unfold Token. intros x Hx.
  destruct (peek d) as [[c r]|] eqn:Hp; [|by cbn [Token_loop] in Hx; rewrite Hp in Hx].
  assert (∀ s', tokenValueAllowed s' = true → s' ≠ tokenTopValue → s' ≠ tokenArrayStart →
    d_state d ≠ tokenTopValue → tokenValueEnd s' = s →
    Token_loop 2 (mkDecoder r s' (d_stack d)) = Ok x → value_started d s (d_stack d) x) as Hsep.
  { intros s' Hall Htop Hst Hdt Hs Hx'.
    destruct (peek (mkDecoder r s' (d_stack d))) as [[c' r']|] eqn:Hp'.
    2: by cbn [Token_loop] in Hx'; rewrite Hp' in Hx'.
    apply (value_started_after d (mkDecoder r s' (d_stack d))).
    { apply peek_length in Hp. cbn. lia. }
    refine (value_read 1 (mkDecoder r s' (d_stack d)) c' r' s _ Hp' Hall Htop Hs _ x Hx'); [|right; exact Hst].
    eapply stack_ok_change; [|exact Hok]. naive_solver. }
  destruct Hdue as [[Hst ->] | [[Hst|Hst] [Hmore ->]]].
  - cbn [Token_loop] in Hx. rewrite Hp in Hx. unfold open_container, close_container, scalar_token in Hx.
    rewrite Hst, andb_false_r in Hx. cbn [tokenValueAllowed negb] in Hx.
    do 4 (destruct (ch c _); [done|]). destruct (ch c ":"%char); [|by destruct (ch c _)].
    by apply (Hsep tokenObjectValue); rewrite ?Hst.
  - unfold More in Hmore. rewrite Hp in Hmore.
    apply andb_true_iff in Hmore as [H1%negb_true_iff H2%negb_true_iff].
    refine (value_read 2 d c r _ Hok Hp _ _ _ _ x Hx); rewrite ?Hst; auto.
  - cbn [Token_loop] in Hx. rewrite Hp in Hx. unfold open_container, close_container, scalar_token in Hx.
    unfold More in Hmore. rewrite Hp in Hmore.
    apply andb_true_iff in Hmore as [H1%negb_true_iff H2%negb_true_iff].
    rewrite Hst, H1, H2, andb_false_r in Hx. cbn [tokenValueAllowed negb] in Hx.
    destruct (ch c "["%char), (ch c "{"%char), (ch c ":"%char); try done.
    destruct (ch c ","%char); [|by destruct (ch c quote)].
    by apply (Hsep tokenArrayValue); rewrite ?Hst.
Qed.

(** Between members with one more to come, the next token is a key. *)
Lemma Token_member d :
  decoder_ok d → d_state d = tokenObjectStart ∨ d_state d = tokenObjectComma → More d = true →
  returns (Token d) (λ x, (∃ s, x.1 = TString s) ∧ arrives d x.2 tokenObjectColon (d_stack d)).
Proof.
  intros Hok Hst Hmore. apply returns_intro; [by apply Token_no_crash|]. intros [t d'] Hx.
  destruct (Token_ok _ _ _ Hok Hx) as [Hlen Hok'].
  destruct (Token_key _ _ _ Hst Hmore Hx) as (? & ? & ?). done.
Qed.

(** With nothing more to come, the next token closes the container. *)
Lemma Token_close d s0 st :
  decoder_ok d → d_stack d = s0 :: st → More d = false →
  d_state d = tokenObjectStart ∨ d_state d = tokenObjectComma ∨
  d_state d = tokenArrayStart ∨ d_state d = tokenArrayComma →
  returns (Token d) (λ x, arrives d x.2 (tokenValueEnd s0) st).
Proof.
  intros Hok Hstack Hmore Hst. apply returns_intro; [by apply Token_no_crash|]. intros [t d'] Hx.
  pose proof (Token_ok _ _ _ Hok Hx) as [Hlen Hok'].
  unfold Token in Hx. cbn [Token_loop] in Hx. unfold More in Hmore.
  destruct (peek d) as [[c r]|]; [|done]. apply andb_false_iff in Hmore.
  unfold close_container in Hx. rewrite Hstack in Hx.
  assert (∀ (b : bool) c', (if b then Ok (Delim c', mkDecoder r (tokenValueEnd s0) st)
    else Err json_syntax) = Ok (t, d') → arrives d d' (tokenValueEnd s0) st) as Hclose.
  { intros [] c'; [|done]. by intros [= <- <-]. }
  destruct (ch c "["%char) eqn:E; [by destruct Hmore as [H|H]; apply negb_false_iff, ch_true in H; subst|].
  destruct (ch c "]"%char); [by eapply Hclose|].
  destruct Hmore as [H|H]; [done|]. apply negb_false_iff, ch_true in H. subst c.
  change (ch "}" "{") with false in Hx. change (ch "}" "}") with true in Hx. cbn iota in Hx.
  by eapply Hclose.
Qed.

(** An opening brace is read into the object state. *)
Lemma Token_brace n d t d' :
  Token_loop n d = Ok (t, d') → is_delim t "{"%char = true → d_state d' = tokenObjectStart.
Proof.
  revert d. induction n as [|n IH]; intros d; [done|]. cbn [Token_loop].
  destruct (peek d) as [[c r]|]; [|done]. unfold open_container, close_container.
  destruct (ch c "["%char) eqn:E1; [apply ch_true in E1 as ->; case_match; [by intros [= <- <-]|done]|].
  destruct (ch c "]"%char) eqn:E2.
  { apply ch_true in E2 as ->. repeat (case_match; try done); by intros [= <- <-]. }
  destruct (ch c "{"%char); [by case_match; [intros [= <- <-]|]|].
  destruct (ch c "}"%char) eqn:E4.
  { apply ch_true in E4 as ->. repeat (case_match; try done); by intros [= <- <-]. }
  destruct (ch c ":"%char); [case_match; try done; apply IH|].
  destruct (ch c ","%char); [case_match; try done; apply IH|].
  unfold scalar_token. repeat (case_match; try done); by intros [= <- <-].
Qed.

(** ** Skipping a value ends behind it *)
Lemma skip_returns n :
  (∀ d depth s, decoder_ok d → value_due d s → (2 * length (d_rest d) < n)%nat →
    returns (skipJSONValueDepth n d depth) (λ d', arrives d d' s (d_stack d))) ∧
  (∀ d depth s0 st, decoder_ok d → d_stack d = s0 :: st →
    d_state d = tokenObjectStart ∨ d_state d = tokenObjectComma →
    (2 * length (d_rest d) + 1 < n)%nat →
    returns (skip_members n d depth) (λ d', arrives d d' (tokenValueEnd s0) st)) ∧
  (∀ d depth s0 st, decoder_ok d → d_stack d = s0 :: st →
    d_state d = tokenArrayStart ∨ d_state d = tokenArrayComma →
    (2 * length (d_rest d) + 1 < n)%nat →
    returns (skip_elements n d depth) (λ d', arrives d d' (tokenValueEnd s0) st)).
Proof.
  induction n as [|n (IHv & IHm & IHe)]; [split_and!; intros; lia|].
  split_and!.
  - intros d depth s Hok Hdue Hn. cbn [skipJSONValueDepth].
    destruct (_ <? depth); [done|].
    eapply returns_bind; [by apply Token_value|]. intros [t d1] Ht. unfold value_started in Ht.
    destruct t as [c|?|?]; cbn [fst snd] in Ht; [|done|done].
    destruct Ht as [[-> (s0 & (Hlen & Hok1 & Hs & Hst) & Hend)]
                   |[-> (s0 & (Hlen & Hok1 & Hs & Hst) & Hend)]]; rewrite <-Hend.
    + change (ch "{" "{") with true. cbn iota. specialize (IHm d1 depth s0 (d_stack d) Hok1 Hst
        (or_introl Hs) ltac:(lia)).
      destruct (skip_members n d1 depth); cbn in *; unfold arrives in *; naive_solver lia.
    + change (ch "[" "{") with false. change (ch "[" "[") with true. cbn iota.
      specialize (IHe d1 depth s0 (d_stack d) Hok1 Hst (or_introl Hs) ltac:(lia)).
      destruct (skip_elements n d1 depth); cbn in *; unfold arrives in *; naive_solver lia.
  - intros d depth s0 st Hok Hstack Hs Hn. cbn [skip_members]. destruct (More d) eqn:Hmore.
    + eapply returns_bind; [by apply Token_member|].
      intros [t d1] [_ (Hlen1 & Hok1 & Hs1 & Hst1)]. cbn [fst snd] in *.
      eapply returns_bind; [apply IHv; [done|by left|lia]|].
      intros d2 (Hlen2 & Hok2 & Hs2 & Hst2).
      specialize (IHm d2 depth s0 st Hok2 ltac:(congruence) (or_intror Hs2) ltac:(lia)).
      destruct (skip_members n d2 depth); cbn in *; unfold arrives in *; naive_solver lia.
    + eapply returns_bind; [apply (Token_close d s0 st); tauto|]. by intros [t d1].
  - intros d depth s0 st Hok Hstack Hs Hn. cbn [skip_elements]. destruct (More d) eqn:Hmore.
    + eapply returns_bind; [apply IHv; [done|by right|lia]|].
      intros d1 (Hlen1 & Hok1 & Hs1 & Hst1).
      specialize (IHe d1 depth s0 st Hok1 ltac:(congruence) (or_intror Hs1) ltac:(lia)).
      destruct (skip_elements n d1 depth); cbn in *; unfold arrives in *; naive_solver lia.
    + eapply returns_bind; [apply (Token_close d s0 st); tauto|]. by intros [t d1].
Qed.

Lemma skipJSONValue_returns d s :
  decoder_ok d → value_due d s →
  returns (skipJSONValue d) (λ d', arrives d d' s (d_stack d)).
Proof. intros Hok Hdue. apply skip_returns; [done|done|unfold skip_fuel; lia]. Qed.

(** ** The two loops of [parsePools] *)
Section Pools.
Context `{GoUnicode, GoEthereum}.

Lemma find_data_returns n d :
  decoder_ok d → d_state d = tokenObjectStart ∨ d_state d = tokenObjectComma →
  (length (d_rest d) < n)%nat →
  returns (find_data n d) (λ x, x.1 = true → decoder_ok x.2 ∧ d_state x.2 = tokenObjectColon).
Proof.
  revert d. induction n as [|n IH]; intros d Hok Hs Hn; [lia|]. cbn [find_data].
  destruct (More d) eqn:Hmore; [|done].
  eapply returns_bind; [by apply returns_wrap, Token_member|].
  intros [t d1] [[key Hkey] (Hlen & Hok1 & Hs1 & Hst1)]. cbn [fst snd] in *. subst t.
  destruct (negb (is_data key)); [|done].
  eapply returns_bind; [apply returns_wrap, (skipJSONValue_returns d1 tokenObjectComma); [done|by left]|].
  intros d2 (Hlen2 & Hok2 & Hs2 & _). apply IH; [done|by right|lia].
Qed.

Lemma read_pools_returns cfg n d acc :
  decoder_ok d → (length (d_rest d) < n)%nat → Forall (approved cfg) acc →
  returns (read_pools cfg n d acc) (Forall (approved cfg)).
Proof.
  revert d acc. induction n as [|n IH]; intros d acc Hok Hn Hacc; [lia|]. cbn [read_pools].
  destruct (More d); [|done].
  eapply (returns_bind _ _ (λ x, (length (d_rest x.2) < length (d_rest d))%nat ∧ decoder_ok x.2)).
  { apply returns_wrap, returns_intro; [apply DecodeRaw_no_crash|]. intros [v d1] Hd.
    by apply (DecodeRaw_ok d v). }
  intros [v d1] [Hlen Hok1]. cbn [snd] in *. apply IH; [done|lia|].
  apply Forall_app_2; [done|]. destruct (candidate cfg v) as [p|] eqn:Hc; [|done].
  apply Forall_singleton. by eapply candidate_approved.
Qed.

Definition selected_from_approved (cfg : Config) (id : bytes) (name : string) (r : fetchResult)
    : Prop := ∃ candidates, Forall (approved cfg) candidates ∧ r = select id name candidates.

(** C13: [parsePools] terminates normally on every body, valid JSON or not: its
    loops and the recursive skip end within their fuel, no assertion panics, and
    a result is the selection from a list of approved pools only (configured
    identifiers, names and chains, and a valid base APY). *)
Theorem parsePools_returns body cfg id name :
  returns (parsePools body cfg id name) (selected_from_approved cfg id name).
Proof.
  unfold parsePools. assert (decoder_ok (NewDecoder body)) as Hok by done.
  assert (∀ d, decoder_ok d → returns (Token d) (λ x, decoder_ok x.2)) as Htok.
  { intros d Hd. apply returns_intro; [by apply Token_no_crash|]. intros [t d'] Ht.
    by destruct (Token_ok _ _ _ Hd Ht). }
  eapply (returns_bind _ _ (λ x, decoder_ok x.2 ∧
    (is_delim x.1 "{"%char = true → d_state x.2 = tokenObjectStart))).
  { apply returns_wrap, returns_intro; [by apply Token_no_crash|]. intros [t d'] Ht.
    destruct (Token_ok _ _ _ Hok Ht) as [_ Hd']. split; [done|]. by eapply Token_brace. }
  intros [t d] [Hd Hopen]. cbn [fst snd] in *. destruct (is_delim t "{"%char); [|done].
  cbn [negb]. specialize (Hopen eq_refl).
  eapply returns_bind; [apply find_data_returns; [done|by left|lia]|].
  intros [found d1] Hf. cbn [fst snd] in Hf. destruct found; [|done]. cbn [negb].
  destruct (Hf eq_refl) as [Hd1 Hs1].
  eapply returns_bind; [by apply returns_wrap, Htok|]. intros [t2 d2] Hd2. cbn [snd] in Hd2.
  destruct (negb _); [done|].
  eapply returns_bind; [apply read_pools_returns; [done|lia|done]|].
  intros candidates Hc. by exists candidates.
Qed.
End Pools.
