(* ===== verification/Rebalance.v ===== *)
(** * Rebalance policy and handlers ([cre/workflow/internal/rebalance])

    The policy of [policy.go] and the three rebalance triggers of
    [handlers.go]: initiating a rebalance on schedule, forwarding it to the
    vault of the previous strategy, and completing it.  The client of the pool
    service is an injected dependency, specified by the class [FetcherLaws]. *)

From S2P Require Import Prelude GoText BigInt Ethereum Runtime Bindings ParentVault ChildVault Config State Report Float Json DefiLlama PoolStream PoolSelect.

#[local] Open Scope Z_scope.

(** ** [policy.go] *)
Definition DifferentialThreshold : float64 := f64_of_Z 1.
Definition minRebalanceIntervalSeconds : Z := 1 * 60 * 60.

Definition NeedRebalance (optimal current : option offchain.Pool) : bool :=
  match optimal with
  | None => false
  | Some optimal =>
      match current with
      | None => false
      | Some current =>
          if negb (offchain.ValidPoolAPY (offchain.Apy optimal))
             || negb (offchain.ValidPoolAPY (offchain.Apy current))
          then false
          else f64_le DifferentialThreshold
                 (f64_sub (offchain.Apy optimal) (offchain.Apy current))
      end
  end.

(** ** The codec interfaces of the handlers *)
Record parentCodec := mkParentCodec {
  EncodeInitiateRebalanceMethodCall : parent_vault.InitiateRebalanceInput → res bytes;
  DecodeRebalanceInitiated : option Log → res parent_vault.RebalanceInitiatedDecoded;
  DecodeRebalanceDepositSuccess : option Log → res parent_vault.RebalanceDepositSuccessDecoded;
  EncodeCompleteRebalanceMethodCall : parent_vault.CompleteRebalanceInput → res bytes }.

Record childCodec := mkChildCodec {
  EncodeExecuteRebalanceMethodCall : child_vault.ExecuteRebalanceInput → res bytes }.

(** The package variables [newParentCodec] and [newChildCodec]. *)
Class RebalanceCodecs := {
  newParentCodec : res parentCodec;
  newChildCodec : res childCodec }.

(** The defaults: the generated bindings. *)
#[export] Instance rebalance_generated_codecs `{GoEthereum} : RebalanceCodecs := {
  newParentCodec :=
    c ← parent_vault.NewCodec;
    Ok (mkParentCodec (parent_vault.EncodeInitiateRebalanceMethodCall c)
          (parent_vault.DecodeRebalanceInitiated c)
          (parent_vault.DecodeRebalanceDepositSuccess c)
          (parent_vault.EncodeCompleteRebalanceMethodCall c));
  newChildCodec :=
    c ← child_vault.NewCodec;
    Ok (mkChildCodec (child_vault.EncodeExecuteRebalanceMethodCall c)) }.

Section Rebalance.
Context `{GoUnicode, GoEthereum, RebalanceCodecs} {R : Type}.
Abbreviation M := (prog (cre_eff R)).

(** [CronDeps] *)
Definition Fetcher := offchain.Config → bytes → Z → M (option offchain.Pool * option offchain.Pool).
Record CronDeps := mkCronDeps {
  FetchAndSelectPools : Fetcher;
  deps_SubmitReport : @Submitter R }.

Definition newDefiLlamaConfig (config : Config) : offchain.Config :=
  offchain.mkConfig (PoolIDs (Config_DefiLlama config))
    ((λ e, offchain.mkChainConfig (ChainSelector e) (DefiLlamaChainName e)) <$> Evms config)
    (Projects (Config_DefiLlama config)) (Symbols (Config_DefiLlama config)).

(** ** [onRebalanceCronTriggerWithDeps]: [order] is the order in which the Go
    map of [PoolToChainSelector] is visited. *)
Definition onRebalanceCronTriggerWithDeps (order : gmap Z string → list (Z * string))
    (config : Config) (snapshot : option Snapshot) (deps : CronDeps) : M ExecutionResult :=
  pvCodec ← lift (wrap "init parent vault codec: %w" [] newParentCodec);
  parentCfg ← lift (FindParent (Evms config));
  s ← lift (deref snapshot);
  let parent := Parent s in
  let rebalance := parent_vault.Rebalance parent in
  if negb (parent_vault.State rebalance =? RebalanceNone) then Noop "rebalance in progress" []
  else
    epochs ← lift (big_Cmp (parent_vault.CurrentEpochNonce parent) (Some 1));
    if epochs <=? 0 then Noop "no completed epoch" []
    else if parent_vault.Status (parent_vault.PreviousEpoch parent) =? EpochExecuting
    then Noop "epoch executing" []
    else if negb (PeriodElapsed (parent_vault.LastRebalanceCompletedTimestamp rebalance)
                    (ObservedAt s) minRebalanceIntervalSeconds)
    then Noop "rebalance cooldown active" []
    else
      let activeStrategy := parent_vault.ActiveStrategy rebalance in
      empty ← lift
        (if parent_vault.ChainSelector activeStrategy =? ChainSelector parentCfg
         then sign ← big_Sign (parent_vault.Tvl parent); Ok (sign =? 0)
         else Ok false);
      if (empty : bool) then Noop "zero local strategy TVL" []
      else
        let defiLlamaConfig := newDefiLlamaConfig config in
        pools ← prog_wrap "fetch pools: %w" []
          (FetchAndSelectPools deps defiLlamaConfig (parent_vault.ProtocolId activeStrategy)
             (parent_vault.ChainSelector activeStrategy));
        match pools.1 with
        | None => Noop "no approved pool" []
        | Some bestPool =>
            let bestProtocolId := offchain.PoolToProtocolId (offchain.Pool_Project bestPool) in
            bestChainSelector ← lift (wrap "map best pool chain: %w" []
              (offchain.PoolToChainSelector order defiLlamaConfig (offchain.Pool_Chain bestPool)));
            if bool_decide (parent_vault.ProtocolId activeStrategy = bestProtocolId)
               && (parent_vault.ChainSelector activeStrategy =? bestChainSelector)
            then Noop "already on optimal strategy; no action required"
                   [("project", LStr (offchain.Pool_Project bestPool));
                    ("chain", LStr (offchain.Pool_Chain bestPool))]%string
            else if bool_decide (pools.2 = None) then Noop "current pool missing" []
            else if negb (NeedRebalance (Some bestPool) pools.2)
            then Noop "APY delta below threshold; no action required"
                   [("delta", LOther); ("threshold", LOther)]%string
            else
              calldata ← lift (wrap "encode initiateRebalance: %w" []
                (EncodeInitiateRebalanceMethodCall pvCodec
                   (parent_vault.mkInitiateRebalanceInput (parent_vault.Nonce rebalance)
                      (parent_vault.mkTypesStrategy bestProtocolId bestChainSelector))));
              _ ← prog_wrap "submit initiateRebalance: %w" []
                    (deps_SubmitReport deps parentCfg (ObservedAt s) calldata);
              _ ← act (ELog "Initiated rebalance"
                     [("toProject", LStr (offchain.Pool_Project bestPool));
                      ("toChain", LStr (offchain.Pool_Chain bestPool));
                      ("apyBase", LOther)]%string);
              Ret (mkExecutionResult "initiated rebalance")
        end.

(** ** [onRebalanceInitiatedWithDeps] *)
Definition onRebalanceInitiatedWithDeps (config : Config) (log : option Log)
    (snapshot : option Snapshot) (sourceChain : Z) (submit : Submitter) : M ExecutionResult :=
  pvCodec ← lift (wrap "init parent vault codec: %w" [] newParentCodec);
  cvCodec ← lift (wrap "init child vault codec: %w" [] newChildCodec);
  parentCfg ← lift (FindParent (Evms config));
  evt ← lift (wrap "decode RebalanceInitiated: %w" [] (DecodeRebalanceInitiated pvCodec log));
  let nonce := parent_vault.RebalanceInitiated_RebalanceNonce evt in
  let protocolId := parent_vault.RebalanceInitiated_ProtocolId evt in
  let chainSelector := parent_vault.RebalanceInitiated_ChainSelector evt in
  if negb (MatchSource config log sourceChain (ChainSelector parentCfg))
  then Noop "wrong rebalance event source" []
  else
    s ← lift (deref snapshot);
    let rebalance := parent_vault.Rebalance (Parent s) in
    let active := parent_vault.ChainSelector (parent_vault.ActiveStrategy rebalance) in
    same ← lift (big_Cmp (parent_vault.Nonce rebalance) nonce);
    if negb (same =? 0) then Noop "stale rebalance event" []
    else if (parent_vault.State rebalance =? Rebalancing)
       && (negb (bool_decide
             (parent_vault.ProtocolId (parent_vault.PendingStrategy rebalance) = protocolId))
           || negb (parent_vault.ChainSelector (parent_vault.PendingStrategy rebalance)
                    =? chainSelector))
    then Noop "rebalance destination mismatch" []
    else if active =? ChainSelector parentCfg
    then Noop "active strategy on parent; no action required" [("nonce"%string, LBig nonce)]
    else
      prevChainCfg ← lift (wrap "find prev strategy chain: %w" []
        (FindEvmConfigByChainSelector (Evms config) active));
      let child := child_state s (ChainSelector prevChainCfg) in
      handled ← lift (big_Cmp nonce (child_vault.LastHandledRebalanceNonce child));
      if handled <=? 0 then Noop "rebalance already handled" []
      else
        _ ← lift (FindEvmConfigByChainSelector (Evms config) chainSelector);
        calldata ← lift (wrap "encode executeRebalance: %w" []
          (EncodeExecuteRebalanceMethodCall cvCodec
             (child_vault.mkExecuteRebalanceInput nonce
                (child_vault.mkTypesStrategy protocolId chainSelector))));
        _ ← prog_wrap "submit executeRebalance: %w" []
              (submit prevChainCfg (ObservedAt s) calldata);
        _ ← act (ELog "Submitted executeRebalance"
               [("nonce", LBig nonce); ("prevChain", LStr (ChainName prevChainCfg))]%string);
        Ret (mkExecutionResult "submitted executeRebalance").

(** ** [onRebalanceDepositSuccessWithDeps] *)
Definition onRebalanceDepositSuccessWithDeps (config : Config) (log : option Log)
    (snapshot : option Snapshot) (sourceChain : Z) (submit : Submitter) : M ExecutionResult :=
  pvCodec ← lift (wrap "init parent vault codec: %w" [] newParentCodec);
  parentCfg ← lift (FindParent (Evms config));
  evt ← lift (wrap "decode RebalanceDepositSuccess: %w" []
    (DecodeRebalanceDepositSuccess pvCodec log));
  let nonce := parent_vault.RebalanceDepositSuccess_RebalanceNonce evt in
  s ← lift (deref snapshot);
  let rebalance := parent_vault.Rebalance (Parent s) in
  let pending := parent_vault.ChainSelector (parent_vault.PendingStrategy rebalance) in
  stale ← lift
    (if negb (parent_vault.State rebalance =? Rebalancing) then Ok true
     else same ← big_Cmp (parent_vault.Nonce rebalance) nonce; Ok (negb (same =? 0)));
  if (stale : bool) then Noop "stale rebalance event" []
  else if (pending =? ChainSelector parentCfg) || negb (MatchSource config log sourceChain pending)
  then Noop "wrong rebalance destination" []
  else
    calldata ← lift (wrap "encode completeRebalance: %w" []
      (EncodeCompleteRebalanceMethodCall pvCodec (parent_vault.mkCompleteRebalanceInput nonce)));
    _ ← prog_wrap "submit completeRebalance: %w" [] (submit parentCfg (ObservedAt s) calldata);
    _ ← act (ELog "Submitted completeRebalance" [("nonce"%string, LBig nonce)]);
    Ret (mkExecutionResult "submitted completeRebalance").

(** ** The exported event handlers *)
Definition OnRebalanceInitiated (config : Config) (log : option Log)
    (snapshot : option Snapshot) (sourceChain : Z) : M ExecutionResult :=
  onRebalanceInitiatedWithDeps config log snapshot sourceChain SubmitReport.
Definition OnRebalanceDepositSuccess (config : Config) (log : option Log)
    (snapshot : option Snapshot) (sourceChain : Z) : M ExecutionResult :=
  onRebalanceDepositSuccessWithDeps config log snapshot sourceChain SubmitReport.
End Rebalance.

(** The cron handler with the real dependencies. *)
Definition defaultCronDeps `{GoUnicode, GoEthereum} : CronDeps :=
  mkCronDeps offchain.FetchAndSelectPools SubmitReport.
Definition OnRebalanceCronTrigger `{GoUnicode, GoEthereum, RebalanceCodecs}
    (order : gmap Z string → list (Z * string)) (config : Config) (snapshot : option Snapshot)
    : prog (cre_eff offchain.fetchResult) ExecutionResult :=
  onRebalanceCronTriggerWithDeps order config snapshot defaultCronDeps.

(** ** The pool service *)

(** Consensus on identical answers ([ConsensusIdenticalAggregation]): a value
    that the capability returns was computed by a node's run of the function. *)
Definition consensus_host : admissible (cre_eff offchain.fetchResult) := λ h X c x,
  typed_host h X c x ∧
  match c in cre_eff _ X return X → Prop with
  | ESendRequest f => λ r, ∀ a, r = Reply a → ∃ requester, f requester = Ok a
  | _ => λ _, True
  end x.

Section Fetch.
Context `{GoUnicode, GoEthereum}.

(** What a handler may rely on: the best pool is approved, the current pool is
    an approved one of the active strategy, and does not precede the best. *)
Record pools_from (cfg : offchain.Config) (id : bytes) (selector : Z)
    (best current : option offchain.Pool) : Prop := {
  best_approved b : best = Some b → approved cfg b;
  current_approved c : current = Some c → approved cfg c;
  current_active c : current = Some c →
    offchain.chainSelectorToName cfg !! selector = Some (offchain.Pool_Chain c) ∧
    offchain.PoolToProtocolId (offchain.Pool_Project c) = id;
  best_first b c : best = Some b → current = Some c → offchain.poolLess c b = false }.

Definition fetched {R} (cfg : offchain.Config) (id : bytes) (selector : Z)
    (t : list (step (cre_eff R))) (r : res (option offchain.Pool * option offchain.Pool)) : Prop :=
  quiet t ∧ r ≠ Crash ∧
  ∀ pools, r = Ok pools → pools_from cfg id selector pools.1 pools.2.

Class FetcherLaws {R} (adm : admissible (cre_eff R)) (fetch : @Fetcher R) : Prop :=
  fetch_ok h cfg id selector : wp_seg adm h (fetch cfg id selector) (fetched cfg id selector).

(** The selection of a valid document satisfies the interface. *)
Lemma pools_of_from v cfg id selector r :
  pools_of v cfg id (default EmptyString (offchain.chainSelectorToName cfg !! selector)) = Ok r →
  pools_from cfg id selector (offchain.fetchResultToPools r).1 (offchain.fetchResultToPools r).2.
Proof.
  intros (l & Hl & ->)%pools_of_select.
  assert (∀ p, p ∈ l → approved cfg p) as Hin by (by apply Forall_forall).
  destruct (select_selection id (default EmptyString (offchain.chainSelectorToName cfg !! selector)) l)
    as [Hbest Hcur].
  { eapply Forall_impl; [exact Hl|]. apply approved_apy. }
  destruct (offchain.select _ _ l) as [b hb c hc]. unfold offchain.fetchResultToPools.
  cbn [offchain.HasBest offchain.HasCurrent offchain.BestPool offchain.CurrentPool fst snd] in *.
  split.
  - destruct hb; [|done]. intros b' [= <-]. apply Hin, Hbest.
  - destruct hc; [|done]. intros c' [= <-]. apply Hin, Hcur.
  - destruct hc; [|done]. intros c' [= <-]. destruct Hcur as (Hc & [Hname Hid] & _). split; [|done].
    destruct (approved_chain _ _ (Hin _ Hc)) as (_ & _ & _ & Hne).
    rewrite Hname in Hne |- *. by destruct (offchain.chainSelectorToName cfg !! selector).
  - destruct hb; [|done]. destruct hc; [|done]. intros b' c' [= <-] [= <-].
    destruct Hbest as (_ & _ & Hm). apply Hm; [|done]. apply Hcur.
Qed.

(** The observation time of a node's run. *)
Definition fetch_params (cfg : offchain.Config) (id : bytes) (selector : Z) (token : string)
    (now : Z) : offchain.fetchParams :=
  offchain.mkFetchParams cfg id (default EmptyString (offchain.chainSelectorToName cfg !! selector))
    token now.

(** What a node saw when its run of the fetch returned [raw]: the relay's answer
    to the authorised request, a fresh document of which [raw] is the selection. *)
Definition node_document (params : offchain.fetchParams)
    (requester : http_Request → reply (option http_Response)) (raw : offchain.fetchResult) : Prop :=
  ∃ body v,
    requester (offchain.relay_request (offchain.BearerToken params))
      = Reply (Some (mkHttpResponse 200 body)) ∧
    Z.of_nat (length body) <= 102400 ∧ parse_document body = Some v ∧
    fresh (offchain.fp_ObservedAt params) v ∧
    pools_of v (offchain.fp_Config params) (offchain.ActiveProtocolId params)
      (offchain.ActiveChainName params) = Ok raw.

(** The fetch as the network executes it: it asks for the relay's token, fixes
    the time, and asks the nodes to run [f]; the value they agree on is the
    result of some node's run, and every run with that result saw such a
    document. *)
Definition fetched_fresh (cfg : offchain.Config) (id : bytes) (selector : Z)
    (t : list (step (cre_eff offchain.fetchResult)))
    (r : res (option offchain.Pool * option offchain.Pool)) : Prop :=
  quiet t ∧ r ≠ Crash ∧
  ∀ pools, r = Ok pools → ∃ token now f raw,
    t = [Step _ (EGetSecret offchain.defiLlamaRelayBearerTokenSecret) (Reply (Some token));
         Step Z ENow now; Step _ (ESendRequest f) (Reply raw)] ∧
    TrimSpace token ≠ EmptyString ∧ (∃ requester, f requester = Ok raw) ∧
    (∀ requester, f requester = Ok raw →
       node_document (fetch_params cfg id selector token now) requester raw) ∧
    pools = offchain.fetchResultToPools raw.

Lemma fetched_fresh_pools cfg id selector t pools :
  fetched_fresh cfg id selector t (Ok pools) → pools_from cfg id selector pools.1 pools.2.
Proof.
  intros (_ & _ & Hok). destruct (Hok pools eq_refl) as (token & now & f & raw & _ & _ & [rq Hrq] & Hdoc & ->).
  destruct (Hdoc rq Hrq) as (body & v & _ & _ & _ & _ & Hraw). by eapply pools_of_from.
Qed.

Lemma FetchAndSelectPools_seg h cfg id selector :
  wp_seg consensus_host h (offchain.FetchAndSelectPools cfg id selector)
    (fetched_fresh cfg id selector).
Proof.
  unfold offchain.FetchAndSelectPools. intros secret _.
  destruct secret as [[token|]|e]; cbn [of_reply lift prog_wrap prog_bind_def prog_bind mbind await act wp].
  2,3: eexists; split; [reflexivity|]; by split_and!.
  case_bool_decide as Htok.
  { eexists. split; [reflexivity|]. by split_and!. }
  intros now [Hnow _] answer [_ Hans]. cbn in Hnow, Hans.
  destruct answer as [raw|e]; cbn [of_reply lift prog_wrap prog_bind_def prog_bind mbind await act wp].
  - eexists. split; [cbn; rewrite <-!app_assoc; reflexivity|]. split; [done|]. split; [done|].
    intros pools [= <-]. eexists token, now, _, raw. split; [done|]. split; [done|].
    split; [exact (Hans raw eq_refl)|]. split; [|done].
    intros requester Hreq. by apply fetchAndParse_exact in Hreq.
  - eexists. split; [cbn; rewrite <-!app_assoc; reflexivity|]. by split_and!.
Qed.

#[export] Instance FetchAndSelectPools_laws :
  FetcherLaws consensus_host offchain.FetchAndSelectPools.
Proof.
  intros h cfg id selector. eapply wp_seg_mono; [|apply FetchAndSelectPools_seg].
  intros t r Hf. split; [apply Hf|]. split; [apply Hf|].
  intros pools ->. by eapply fetched_fresh_pools.
Qed.
End Fetch.

(** ** What the handlers need of the codecs *)
Class RebalanceCodecLaws `{RebalanceCodecs} : Prop := {
  newParentCodec_no_crash : newParentCodec ≠ Crash;
  newChildCodec_no_crash : newChildCodec ≠ Crash;
  initiate_no_crash c n st : newParentCodec = Ok c →
    EncodeInitiateRebalanceMethodCall c (parent_vault.mkInitiateRebalanceInput (Some n) st) ≠ Crash;
  complete_no_crash c n : newParentCodec = Ok c →
    EncodeCompleteRebalanceMethodCall c (parent_vault.mkCompleteRebalanceInput (Some n)) ≠ Crash;
  execute_no_crash c n st : newChildCodec = Ok c →
    EncodeExecuteRebalanceMethodCall c (child_vault.mkExecuteRebalanceInput (Some n) st) ≠ Crash;
  initiated_total c log : newParentCodec = Ok c → Log_Topics log ≠ [] →
    DecodeRebalanceInitiated c (Some log) ≠ Crash;
  initiated_decoded c log evt : newParentCodec = Ok c → DecodeRebalanceInitiated c log = Ok evt →
    ∃ n, parent_vault.RebalanceInitiated_RebalanceNonce evt = Some n ∧ is_uint256 n;
  deposit_total c log : newParentCodec = Ok c → Log_Topics log ≠ [] →
    DecodeRebalanceDepositSuccess c (Some log) ≠ Crash;
  deposit_decoded c log evt : newParentCodec = Ok c →
    DecodeRebalanceDepositSuccess c log = Ok evt →
    ∃ n a, evt = parent_vault.mkRebalanceDepositSuccessDecoded (Some n) (Some a)
      ∧ is_uint256 n ∧ is_uint256 a }.

#[export] Instance rebalance_generated_codecs_laws `{HL : GoEthereumLaws} : RebalanceCodecLaws.
Proof.
  assert (∀ c log, Log_Topics log ≠ [] →
    parent_vault.DecodeRebalanceInitiated c (Some log) ≠ Crash) as HI.
  { intros c log Ht. apply bind_no_crash; [by apply decode_event_total|done]. }
  assert (∀ c log, Log_Topics log ≠ [] →
    parent_vault.DecodeRebalanceDepositSuccess c (Some log) ≠ Crash) as HD.
  { intros c log Ht. apply bind_no_crash; [by apply decode_event_total|done]. }
  pose proof parent_vault.ParentCodec_no_crash. pose proof child_vault.ChildCodec_no_crash.
  split; unfold newParentCodec, newChildCodec, rebalance_generated_codecs;
    try (by apply bind_no_crash);
    intros; match goal with H : _ = Ok _ |- _ => apply res_bind_Ok in H as (? & ? & [= <-]) end;
    cbn [EncodeInitiateRebalanceMethodCall DecodeRebalanceInitiated
      DecodeRebalanceDepositSuccess EncodeCompleteRebalanceMethodCall
      EncodeExecuteRebalanceMethodCall] in *;
    auto; try (apply abi_Pack_no_crash; repeat constructor).
  - by eapply parent_vault.DecodeRebalanceInitiated_ok.
  - by eapply parent_vault.DecodeRebalanceDepositSuccess_ok.
Qed.

(** ** The plans: what each handler submits, and when *)
Section Plans.
Context `{GoUnicode, GoEthereum, RebalanceCodecs} (config : Config) (s : Snapshot).

Definition rebalance : parent_vault.TypesRebalance := parent_vault.Rebalance (Parent s).
Definition active : parent_vault.TypesStrategy := parent_vault.ActiveStrategy rebalance.
Definition pending : parent_vault.TypesStrategy := parent_vault.PendingStrategy rebalance.

(** The guards of the cron handler before it asks for the pools. *)
Definition rebalance_due (codec : parentCodec) (p : EvmConfig) : Prop :=
  newParentCodec = Ok codec ∧ FindParent (Evms config) = Ok p ∧
  parent_vault.State rebalance = RebalanceNone ∧
  (∃ n, parent_vault.CurrentEpochNonce (Parent s) = Some n ∧ 1 < n) ∧
  parent_vault.Status (parent_vault.PreviousEpoch (Parent s)) ≠ EpochExecuting ∧
  (∃ o, parent_vault.LastRebalanceCompletedTimestamp rebalance = Some o ∧
     o + minRebalanceIntervalSeconds <= ObservedAt s) ∧
  (parent_vault.ChainSelector active = ChainSelector p →
     parent_vault.Tvl (Parent s) ≠ Some 0).

(** What it does with the pools. *)
Definition initiate_plan (order : gmap Z string → list (Z * string)) (codec : parentCodec)
    (p : EvmConfig) (best current : option offchain.Pool) (target : EvmConfig) (calldata : bytes)
    : Prop :=
  ∃ b selector,
    target = p ∧ best = Some b ∧
    offchain.PoolToChainSelector order (newDefiLlamaConfig config) (offchain.Pool_Chain b)
      = Ok selector ∧
    (parent_vault.ProtocolId active ≠ offchain.PoolToProtocolId (offchain.Pool_Project b) ∨
     parent_vault.ChainSelector active ≠ selector) ∧
    NeedRebalance best current = true ∧
    EncodeInitiateRebalanceMethodCall codec
      (parent_vault.mkInitiateRebalanceInput (parent_vault.Nonce rebalance)
         (parent_vault.mkTypesStrategy (offchain.PoolToProtocolId (offchain.Pool_Project b)) selector))
      = Ok calldata.

Definition execute_plan (log : option Log) (source : Z) (target : EvmConfig) (calldata : bytes)
    : Prop :=
  ∃ pcodec ccodec p evt n handled destination,
    newParentCodec = Ok pcodec ∧ newChildCodec = Ok ccodec ∧
    FindParent (Evms config) = Ok p ∧
    DecodeRebalanceInitiated pcodec log = Ok evt ∧
    MatchSource config log source (ChainSelector p) = true ∧
    parent_vault.RebalanceInitiated_RebalanceNonce evt = Some n ∧
    parent_vault.Nonce rebalance = Some n ∧
    (parent_vault.State rebalance = Rebalancing →
       parent_vault.ProtocolId pending = parent_vault.RebalanceInitiated_ProtocolId evt ∧
       parent_vault.ChainSelector pending = parent_vault.RebalanceInitiated_ChainSelector evt) ∧
    parent_vault.ChainSelector active ≠ ChainSelector p ∧
    FindEvmConfigByChainSelector (Evms config) (parent_vault.ChainSelector active) = Ok target ∧
    child_vault.LastHandledRebalanceNonce (child_state s (ChainSelector target)) = Some handled ∧
    handled < n ∧
    FindEvmConfigByChainSelector (Evms config)
      (parent_vault.RebalanceInitiated_ChainSelector evt) = Ok destination ∧
    EncodeExecuteRebalanceMethodCall ccodec
      (child_vault.mkExecuteRebalanceInput (Some n)
         (child_vault.mkTypesStrategy (parent_vault.RebalanceInitiated_ProtocolId evt)
            (parent_vault.RebalanceInitiated_ChainSelector evt))) = Ok calldata.

Definition complete_plan (log : option Log) (source : Z) (target : EvmConfig) (calldata : bytes)
    : Prop :=
  ∃ codec n a,
    newParentCodec = Ok codec ∧ FindParent (Evms config) = Ok target ∧
    DecodeRebalanceDepositSuccess codec log
      = Ok (parent_vault.mkRebalanceDepositSuccessDecoded (Some n) (Some a)) ∧
    parent_vault.State rebalance = Rebalancing ∧
    parent_vault.Nonce rebalance = Some n ∧
    parent_vault.ChainSelector pending ≠ ChainSelector target ∧
    MatchSource config log source (parent_vault.ChainSelector pending) = true ∧
    EncodeCompleteRebalanceMethodCall codec (parent_vault.mkCompleteRebalanceInput (Some n))
      = Ok calldata.
End Plans.

(** ** The handlers follow their plans *)
Section HandlerSpecs.
Context `{GoUnicode, HL : GoEthereumLaws, HC : RebalanceCodecLaws} {R : Type}.
Context (submit : @Submitter R) `{!SubmitterLaws submit}.
Context (config : Config) (s : Snapshot).
Context (HV : ValidConfig config) (HTy : TypedConfig config).
Context (HS : ValidSnapshot s config) (HObs : in_int64 (ObservedAt s)).

Ltac refute :=
  refute_plan ltac:(fun H => unfold rebalance_due, initiate_plan, execute_plan, complete_plan in H)
    ltac:(idtac).

Lemma rebalance_target_gas e : e ∈ Evms config → in_uint64 (GasLimit e).
Proof. intros He. pose proof (tc_gas _ HTy) as Hg. rewrite Forall_forall in Hg. auto. Qed.

(** The outcome of the cron handler: [F] is what is known of the fetch. *)
Definition initiated (order : gmap Z string → list (Z * string))
    (F : list (step (cre_eff R)) → res (option offchain.Pool * option offchain.Pool) → Prop)
    (t : list (step (cre_eff R))) (r : res ExecutionResult) : Prop :=
  (∃ codec p t1 t2 fetch, rebalance_due config s codec p ∧ t = t1 ++ t2 ∧ F t1 fetch ∧
     match fetch with
     | Ok pools => decided (initiate_plan config s order codec p pools.1 pools.2) (ObservedAt s)
                     "initiated rebalance" t2 r
     | Err e => t2 = [] ∧ r = Err (Wrapf "fetch pools: %w" [] e)
     | Crash => False
     end) ∨
  ((∀ codec p, ¬ rebalance_due config s codec p) ∧ idle t r).

Lemma initiated_noop adm order F h reason args :
  (∀ codec p, ¬ rebalance_due config s codec p) →
  wp_seg adm h (Noop reason args) (initiated order F).
Proof.
  intros Hno. apply Noop_seg. intros t r Hq Hr. right. split; [done|].
  split; [done|]. split; [done|]. by intros x [= <-].
Qed.

Lemma initiated_err order F e :
  (∀ codec p, ¬ rebalance_due config s codec p) → initiated order F [] (Err e).
Proof. intros Hno. by right. Qed.

Lemma first_selector_no_crash chain entries : offchain.first_selector chain entries ≠ Crash.
Proof.
  pose proof (first_selector_spec chain entries). by destruct (offchain.first_selector chain entries).
Qed.

(** The part of the cron handler after the fetch. *)
Lemma initiate_seg order codec p pools h :
  newParentCodec = Ok codec → p ∈ Evms config →
  wp_seg typed_host h
    (match pools.1 with
     | None => Noop "no approved pool" []
     | Some bestPool =>
         bestChainSelector ← lift (wrap "map best pool chain: %w" []
           (offchain.PoolToChainSelector order (newDefiLlamaConfig config)
              (offchain.Pool_Chain bestPool)));
         if bool_decide (parent_vault.ProtocolId (active s)
              = offchain.PoolToProtocolId (offchain.Pool_Project bestPool))
            && (parent_vault.ChainSelector (active s) =? bestChainSelector)
         then Noop "already on optimal strategy; no action required"
                [("project", LStr (offchain.Pool_Project bestPool));
                 ("chain", LStr (offchain.Pool_Chain bestPool))]%string
         else if bool_decide (pools.2 = None) then Noop "current pool missing" []
         else if negb (NeedRebalance (Some bestPool) pools.2)
         then Noop "APY delta below threshold; no action required"
                [("delta", LOther); ("threshold", LOther)]%string
         else
           calldata ← lift (wrap "encode initiateRebalance: %w" []
             (EncodeInitiateRebalanceMethodCall codec
                (parent_vault.mkInitiateRebalanceInput (parent_vault.Nonce (rebalance s))
                   (parent_vault.mkTypesStrategy
                      (offchain.PoolToProtocolId (offchain.Pool_Project bestPool))
                      bestChainSelector))));
           _ ← prog_wrap "submit initiateRebalance: %w" [] (submit p (ObservedAt s) calldata);
           _ ← act (ELog "Initiated rebalance"
                  [("toProject", LStr (offchain.Pool_Project bestPool));
                   ("toChain", LStr (offchain.Pool_Chain bestPool)); ("apyBase", LOther)]%string);
           Ret (mkExecutionResult "initiated rebalance")
     end)
    (decided (initiate_plan config s order codec p pools.1 pools.2) (ObservedAt s)
       "initiated rebalance").
Proof.
  intros Hcodec Hp. destruct pools as [[b|] cur]; cbn [fst snd];
    [|apply decided_noop; refute].
  seg_bind; [apply first_selector_no_crash|pose proof (wrap_Err _ _ _ _ He); refute|].
  rename a into sel.
  destruct (_ && _) eqn:Hsame.
  { apply decided_noop. apply andb_true_iff in Hsame as [E1%bool_decide_eq_true E2%Z.eqb_eq].
    intros ? ? (b' & sel' & _ & [= <-] & Hsel & [?|?] & _); congruence. }
  apply andb_false_iff in Hsame. rewrite bool_decide_eq_false, Z.eqb_neq in Hsame.
  case_bool_decide as Hcur; [apply decided_noop; subst; refute|].
  destruct (NeedRebalance (Some b) cur) eqn:Hneed; cbn [negb]; [|apply decided_noop; refute].
  destruct (vs_rebalance_nonce _ _ HS) as (n & Hn & _).
  seg_bind; [unfold rebalance; rewrite Hn; by apply initiate_no_crash
    |pose proof (wrap_Err _ _ _ _ He); refute|].
  apply (decided_submit submit); [|exact HObs|by apply rebalance_target_gas].
  exists b, sel. done.
Qed.

(** The guards before the fetch. *)
Lemma due_tvl p :
  (parent_vault.ChainSelector (active s) = ChainSelector p → parent_vault.Tvl (Parent s) ≠ Some 0) ↔
  (if parent_vault.ChainSelector (active s) =? ChainSelector p
   then sign ← big_Sign (parent_vault.Tvl (Parent s)); Ok (sign =? 0)
   else Ok false) = Ok false.
Proof.
  destruct (vs_tvl _ _ HS) as (t & -> & _). cbn [big_Sign deref mbind res_bind].
  destruct (Z.eqb_spec (parent_vault.ChainSelector (active s)) (ChainSelector p)); [|done].
  destruct t; cbn; split; try done; intros Ht; by (destruct Ht || intros ?).
Qed.

Lemma rebalance_cron_seg adm order fetch F h :
  (∀ h X c x, adm h X c x → typed_host h X c x) →
  (∀ h, wp_seg adm h (fetch (newDefiLlamaConfig config) (parent_vault.ProtocolId (active s))
     (parent_vault.ChainSelector (active s))) F) →
  (∀ t r, F t r → r ≠ Crash) →
  wp_seg adm h
    (onRebalanceCronTriggerWithDeps order config (Some s) (mkCronDeps fetch submit))
    (initiated order F).
Proof.
  intros Hadm HF HFnc. pose proof newParentCodec_no_crash.
  pose proof (FindParent_no_crash (Evms config)).
  unfold onRebalanceCronTriggerWithDeps.
  apply wp_seg_lift_bind; [by rewrite wrap_crash|intros e He; apply initiated_err;
    pose proof (wrap_Err _ _ _ _ He); intros ?? (?&?); congruence|intros codec Hc%wrap_Ok].
  apply wp_seg_lift_bind; [done|intros e He; apply initiated_err; intros ?? (?&?&?); congruence|
    intros p Hp].
  cbn [deref lift mbind prog_bind prog_bind_def]. fold (rebalance s). fold (active s).
  destruct (Z.eqb_spec (parent_vault.State (rebalance s)) RebalanceNone); cbn [negb];
    [|apply initiated_noop; intros ?? (?&?&?&?); congruence].
  destruct (vs_epoch_nonce _ _ HS) as (n & Hn & Hpos). rewrite Hn.
  cbn [big_Cmp deref lift mbind prog_bind prog_bind_def res_bind].
  pose proof (cmp_le_0 n 1).
  destruct (Z.leb_spec (cmp n 1) 0);
    [apply initiated_noop; intros ?? (?&?&?&(n'&?&?)&?); simplify_eq; lia|].
  destruct (Z.eqb_spec (parent_vault.Status (parent_vault.PreviousEpoch (Parent s))) EpochExecuting);
    [apply initiated_noop; intros ?? (?&?&?&?&?&?); congruence|].
  destruct (PeriodElapsed _ _ _) eqn:Hper; cbn [negb].
  2:{ apply initiated_noop. rewrite <-not_true_iff_false, PeriodElapsed_spec in Hper.
      intros ?? (?&?&?&?&?&(o&Ho&Hle)&?). apply Hper. exists o.
      destruct (vs_completed _ _ HS) as (o'&Ho'&Hu). pose proof (vs_time _ _ HS).
      unfold rebalance in Ho. simplify_eq. done. }
  apply PeriodElapsed_spec in Hper as (o & Ho & _ & _ & Hle).
  pose proof (due_tvl p) as Htvl.
  assert (∃ b, (if parent_vault.ChainSelector (active s) =? ChainSelector p
   then sign ← big_Sign (parent_vault.Tvl (Parent s)); Ok (sign =? 0) else Ok false) = Ok b)
    as [b Hb].
  { destruct (vs_tvl _ _ HS) as (t & -> & _). destruct (_ =? _); eexists; done. }
  rewrite Hb in *. cbn [lift mbind prog_bind prog_bind_def]. destruct b.
  { apply initiated_noop. intros codec' p' (_&Hp'&_&_&_&_&Ht).
    assert (p' = p) as -> by congruence. by apply Htvl in Ht. }
  assert (rebalance_due config s codec p) as Hdue.
  { split_and!; try done; [by exists n; split; [|lia]|eauto|by apply Htvl]. }
  eapply (wp_seg_bind _ _ _ _ (λ t r, ∃ r0, r = wrap "fetch pools: %w" [] r0 ∧ F t r0)).
  - apply wp_seg_wrap. eapply wp_seg_mono; [|apply HF]. eauto.
  - intros t pools (r0 & Hr0 & HFt). symmetry in Hr0. apply wrap_Ok in Hr0 as ->.
    eapply wp_weaken; [exact Hadm|]. eapply wp_seg_mono; [|apply initiate_seg; [exact Hc|]].
    + intros t2 r Hdec. left. exists codec, p, t, t2, (Ok pools). done.
    + by apply FindParent_Ok in Hp as [? _].
  - intros t err (r0 & Hr0 & HFt). destruct r0 as [?|err0|]; [done| |done].
    left. exists codec, p, t, [], (Err err0). rewrite app_nil_r. injection Hr0 as ->. done.
  - intros t (r0 & Hr0 & HFt). by destruct r0; [| |apply HFnc in HFt].
Qed.

Lemma rebalance_child_nonce p e :
  FindParent (Evms config) = Ok p → e ∈ Evms config → ChainSelector e ≠ ChainSelector p →
  ∃ handled, child_vault.LastHandledRebalanceNonce (child_state s (ChainSelector e)) = Some handled.
Proof.
  intros Hp He Hne. destruct (ValidConfig_lookup _ HV) as ((p' & Hp' & Hpar) & _ & _).
  assert (p' = p) as -> by congruence.
  destruct (IsParent e) eqn:Hipe; [apply Hpar in Hipe; [congruence|done]|].
  destruct (vs_children _ _ HS e He Hipe) as (c & Hc & [_ (z & Hz & _) _ _]).
  exists z. unfold child_state. by rewrite Hc.
Qed.

Lemma rebalance_initiated_seg h log source (HL' : Log_Topics log ≠ []) :
  wp_seg typed_host h (onRebalanceInitiatedWithDeps config (Some log) (Some s) source submit)
    (decided (execute_plan config s (Some log) source) (ObservedAt s) "submitted executeRebalance").
Proof.
  pose proof newParentCodec_no_crash. pose proof newChildCodec_no_crash.
  pose proof (FindParent_no_crash (Evms config)).
  unfold onRebalanceInitiatedWithDeps.
  seg_bind; [done|pose proof (wrap_Err _ _ _ _ He); refute|]. rename a into pcodec.
  seg_bind; [done|pose proof (wrap_Err _ _ _ _ He); refute|]. rename a into ccodec.
  seg_bind; [done|refute|]. rename a into p.
  seg_bind; [by apply initiated_total|pose proof (wrap_Err _ _ _ _ He); refute|]. rename a into evt.
  destruct (initiated_decoded _ _ _ Ha Ha2) as (n & Hn & _).
  destruct (MatchSource config (Some log) source (ChainSelector p)) eqn:Hms; cbn [negb];
    [|apply decided_noop; refute].
  cbn [deref lift mbind prog_bind prog_bind_def]. fold (rebalance s). fold (active s) (pending s).
  destruct (vs_rebalance_nonce _ _ HS) as (m & Hm & _). fold (rebalance s) in Hm. rewrite Hn, Hm.
  cbn [big_Cmp deref lift mbind prog_bind prog_bind_def res_bind].
  pose proof (cmp_eq_0 m n).
  destruct (Z.eqb_spec (cmp m n) 0); cbn [negb]; [|apply decided_noop; refute].
  assert (m = n) as -> by tauto.
  destruct (_ && _) eqn:Hdest.
  { apply decided_noop. apply andb_true_iff in Hdest as [Hst%Z.eqb_eq Hne].
    apply orb_true_iff in Hne. rewrite !negb_true_iff, bool_decide_eq_false, Z.eqb_neq in Hne.
    intros ? ? (?&?&?&?&?&?&?&?&?&?&?&?&?&?&Hpend&?). unify_results.
    destruct (Hpend Hst). destruct Hne; congruence. }
  assert (parent_vault.State (rebalance s) = Rebalancing →
    parent_vault.ProtocolId (pending s) = parent_vault.RebalanceInitiated_ProtocolId evt ∧
    parent_vault.ChainSelector (pending s) = parent_vault.RebalanceInitiated_ChainSelector evt)
    as Hpend.
  { intros Hst. rewrite Hst, Z.eqb_refl in Hdest. apply orb_false_iff in Hdest.
    rewrite !negb_false_iff, bool_decide_eq_true, Z.eqb_eq in Hdest. done. }
  clear Hdest.
  destruct (Z.eqb_spec (parent_vault.ChainSelector (active s)) (ChainSelector p)) as [Hac|Hac];
    [apply decided_noop; refute|].
  seg_bind; [apply FindEvmConfig_no_crash|pose proof (wrap_Err _ _ _ _ He); refute|].
  rename a into target.
  pose proof Ha3 as Htarget. apply FindEvmConfig_Ok in Htarget as [Hin Hsel].
  destruct (rebalance_child_nonce p target) as (handled & Hh); [done|done|by rewrite Hsel|].
  rewrite Hh. cbn [big_Cmp deref lift mbind prog_bind prog_bind_def res_bind].
  pose proof (cmp_le_0 n handled).
  destruct (Z.leb_spec (cmp n handled) 0); [apply decided_noop; refute|].
  seg_bind; [apply FindEvmConfig_no_crash|refute|]. rename a into destination.
  seg_bind; [by apply execute_no_crash|pose proof (wrap_Err _ _ _ _ He); refute|].
  apply (decided_submit submit); [|exact HObs|by apply rebalance_target_gas].
  exists pcodec, ccodec, p, evt, n, handled, destination. split_and!; try done. lia.
Qed.

Lemma rebalance_complete_seg h log source (HL' : Log_Topics log ≠ []) :
  wp_seg typed_host h (onRebalanceDepositSuccessWithDeps config (Some log) (Some s) source submit)
    (decided (complete_plan config s (Some log) source) (ObservedAt s)
       "submitted completeRebalance").
Proof.
  pose proof newParentCodec_no_crash. pose proof (FindParent_no_crash (Evms config)).
  unfold onRebalanceDepositSuccessWithDeps.
  seg_bind; [done|pose proof (wrap_Err _ _ _ _ He); refute|]. rename a into codec.
  seg_bind; [done|refute|]. rename a into p.
  seg_bind; [by apply deposit_total|pose proof (wrap_Err _ _ _ _ He); refute|].
  destruct (deposit_decoded _ _ _ Ha Ha1) as (n & a' & -> & _ & _).
  cbn [parent_vault.RebalanceDepositSuccess_RebalanceNonce deref lift mbind prog_bind prog_bind_def].
  fold (rebalance s). fold (pending s).
  destruct (vs_rebalance_nonce _ _ HS) as (m & Hm & _). fold (rebalance s) in Hm.
  pose proof (cmp_eq_0 m n).
  destruct (Z.eqb_spec (parent_vault.State (rebalance s)) Rebalancing) as [Hst|Hst]; cbn [negb];
    [|apply decided_noop; refute].
  rewrite Hm. cbn [big_Cmp deref lift mbind prog_bind prog_bind_def res_bind].
  destruct (Z.eqb_spec (cmp m n) 0); cbn [negb]; [|apply decided_noop; refute].
  assert (m = n) as -> by tauto.
  destruct (Z.eqb_spec (parent_vault.ChainSelector (pending s)) (ChainSelector p)) as [Hpc|Hpc];
    cbn [orb]; [apply decided_noop; refute|].
  destruct (MatchSource config (Some log) source (parent_vault.ChainSelector (pending s))) eqn:Hms;
    cbn [negb]; [|apply decided_noop; refute].
  seg_bind; [by apply complete_no_crash|pose proof (wrap_Err _ _ _ _ He); refute|].
  apply (decided_submit submit);
    [|exact HObs|apply rebalance_target_gas; by apply FindParent_Ok in Ha0 as [? _]].
  exists codec, n, a'. done.
Qed.
End HandlerSpecs.

(** ** Properties *)
Lemma valid_apy_finite f : offchain.ValidPoolAPY f = true → is_finite_f64 f = true.
Proof.
  unfold offchain.ValidPoolAPY. rewrite !andb_true_iff, !negb_true_iff. intros [[[? ?] _] _]. by destruct f.
Qed.

Lemma NeedRebalance_Some o c :
  NeedRebalance (Some o) (Some c) = true ↔
  offchain.ValidPoolAPY (offchain.Apy o) = true ∧ offchain.ValidPoolAPY (offchain.Apy c) = true ∧
  f64_le DifferentialThreshold (f64_sub (offchain.Apy o) (offchain.Apy c)) = true.
Proof.
  cbn [NeedRebalance]. destruct (offchain.ValidPoolAPY (offchain.Apy o));
    destruct (offchain.ValidPoolAPY (offchain.Apy c)); cbn; naive_solver.
Qed.

(** C39: the rebalance policy is asymmetric for every pair of pools (missing
    ones, NaN, infinite and out-of-range APYs included): when a move from one to
    the other is warranted, the move back is not, so rounding in the binary64
    subtraction cannot make the workflow oscillate. *)
Theorem NeedRebalance_asymmetric optimal current :
  ¬ (NeedRebalance optimal current = true ∧ NeedRebalance current optimal = true).
Proof.
  destruct optimal as [o|]; [|by intros [? _]]. destruct current as [c|]; [|by intros [_ ?]].
  rewrite !NeedRebalance_Some. intros [(Ho%valid_apy_finite & Hc%valid_apy_finite & H1) (_ & _ & H2)].
  pose proof (sub_ge_one_asym _ _ Ho Hc H1) as Hf. unfold DifferentialThreshold in H2. congruence.
Qed.

(** The threshold is a point of binary64, not of decimal percentages: 4.1 against
    3.1 is not a move, 1 against 1e-17 is. *)
Definition pool_at (apy : string) : option offchain.Pool :=
  Some (offchain.mkPool EmptyString EmptyString EmptyString EmptyString
    (default f64_zero (ParseFloat (to_bytes apy)))).
Example NeedRebalance_decimal :
  NeedRebalance (pool_at "4.1") (pool_at "3.1") = false ∧
  NeedRebalance (pool_at "1") (pool_at "1e-17") = true.
Proof. split; vm_compute; reflexivity. Qed.

Section RebalanceProperties.
Context `{GoUnicode, HL : GoEthereumLaws} {R : Type}.
Context (config : Config) (s : Snapshot).
Context (HV : ValidConfig config) (HTy : TypedConfig config).
Context (HS : ValidSnapshot s config) (HObs : in_int64 (ObservedAt s)).

(** Whatever pool client the rebalance cron handler is given, as long as it
    keeps the contract [FetcherLaws], a run never panics and is decided by the
    plan: when a guard fails nothing is fetched for a submission, signed or
    written; when all hold the pools are fetched once, a fetch error is
    returned, and the planned [initiateRebalance] is submitted once exactly when
    the best pool maps to a chain, differs from the active strategy and passes
    the APY policy against the current pool. *)
Theorem OnRebalanceCronTrigger_decided adm fetch order (o : oracle (cre_eff R))
    (HF : FetcherLaws adm fetch) (Hadm : ∀ h X c x, adm h X c x → typed_host h X c x)
    (HO : respects adm o) :
  let run := run o [] (onRebalanceCronTriggerWithDeps order config (Some s)
    (mkCronDeps fetch SubmitReport)) in
  initiated config s order
    (fetched (newDefiLlamaConfig config) (parent_vault.ProtocolId (active s))
       (parent_vault.ChainSelector (active s))) run.1 run.2.
Proof.
  apply (wp_seg_run adm o _ _ HO).
  apply (rebalance_cron_seg SubmitReport config s HTy HS HObs adm); [done| |].
  - intros h. apply fetch_ok.
  - by intros t r (_ & ? & _).
Qed.

(** C10: the executor of a rebalance is decided by its plan for every event: the
    log must come from the parent's vault, carry the nonce of the snapshot and,
    while a rebalance is in progress, its destination; the previous strategy
    must be remote and configured, its child must not have handled the nonce,
    and the destination must be a configured chain.  Then [executeRebalance] is
    submitted once to that child, otherwise nothing is signed or written. *)
Theorem OnRebalanceInitiated_decided (o : oracle (cre_eff R)) log source
    (HO : respects typed_host o) (HLog : Log_Topics log ≠ []) :
  let run := run o [] (OnRebalanceInitiated config (Some log) (Some s) source) in
  decided (execute_plan config s (Some log) source) (ObservedAt s)
    "submitted executeRebalance" run.1 run.2.
Proof.
  apply (wp_seg_run typed_host o _ _ HO).
  by apply (rebalance_initiated_seg SubmitReport config s HV HTy HS HObs).
Qed.
End RebalanceProperties.

(** What the deployed cron handler knows of the pools it acts on. *)
Section DefaultClient.
Context `{GoUnicode, HL : GoEthereumLaws}.
Context (config : Config) (s : Snapshot).
Context (HV : ValidConfig config) (HTy : TypedConfig config).
Context (HS : ValidSnapshot s config) (HObs : in_int64 (ObservedAt s)).

Lemma consensus_typed h X (c : cre_eff offchain.fetchResult X) x :
  consensus_host h X c x → typed_host h X c x.
Proof. by intros [? _]. Qed.

Lemma OnRebalanceCronTrigger_seg order h :
  wp_seg consensus_host h (OnRebalanceCronTrigger order config (Some s))
    (initiated config s order
       (fetched_fresh (newDefiLlamaConfig config) (parent_vault.ProtocolId (active s))
          (parent_vault.ChainSelector (active s)))).
Proof.
  apply (rebalance_cron_seg SubmitReport config s HTy HS HObs consensus_host).
  - apply consensus_typed.
  - intros h'. apply FetchAndSelectPools_seg.
  - by intros t r (_ & ? & _).
Qed.

(** C16: a run of the rebalance cron handler that signs or writes anything has
    asked the nodes once for the pools, with the relay's token and at the time it
    fixed for all of them; every node whose run gives the agreed result saw a
    document of at most 100 KiB that was refreshed at most 15 minutes before that
    time, of which the result is the selection; the result has a best pool and a
    pool of the active strategy that the best one beats under [NeedRebalance]; and
    what is submitted, to the parent, is [initiateRebalance] towards that best
    pool. *)
Theorem OnRebalanceCronTrigger_fresh order (o : oracle (cre_eff offchain.fetchResult))
    (HO : respects consensus_host o) :
  let run := run o [] (OnRebalanceCronTrigger order config (Some s)) in
  let cfg := newDefiLlamaConfig config in
  ¬ quiet run.1 →
  ∃ token now f raw t best current selector codec p calldata,
    run.1 = [Step _ (EGetSecret offchain.defiLlamaRelayBearerTokenSecret) (Reply (Some token));
             Step Z ENow now; Step _ (ESendRequest f) (Reply raw)] ++ t ∧
    (∃ requester, f requester = Ok raw) ∧
    (∀ requester, f requester = Ok raw →
       node_document (fetch_params cfg (parent_vault.ProtocolId (active s))
         (parent_vault.ChainSelector (active s)) token now) requester raw) ∧
    offchain.fetchResultToPools raw = (Some best, Some current) ∧
    NeedRebalance (Some best) (Some current) = true ∧
    offchain.PoolToChainSelector order cfg (offchain.Pool_Chain best) = Ok selector ∧
    newParentCodec = Ok codec ∧ FindParent (Evms config) = Ok p ∧
    EncodeInitiateRebalanceMethodCall codec
      (parent_vault.mkInitiateRebalanceInput (parent_vault.Nonce (rebalance s))
         (parent_vault.mkTypesStrategy
            (offchain.PoolToProtocolId (offchain.Pool_Project best)) selector)) = Ok calldata ∧
    Submitted p (ObservedAt s) calldata "initiated rebalance" run.1 run.2.
Proof.
  intros r cfg Hw.
  destruct (wp_seg_run consensus_host o _ _ HO (OnRebalanceCronTrigger_seg order []))
    as [(codec & p & t1 & t2 & fetch & Hdue & Ht & (Hq & Hnc & Hok) & Hf)|[_ [Hq _]]]; [|done].
  fold r in Ht, Hf. destruct fetch as [pools|e|];
    [|destruct Hf as [-> _]; rewrite app_nil_r in Ht; by rewrite Ht in Hw|done].
  destruct Hf as [(target & cd & Hplan & Hsub)|[_ [Hq2 _]]];
    [|rewrite Ht in Hw; by destruct Hw; apply quiet_app].
  destruct (Hok pools eq_refl) as (token & now & f & raw & Ht1 & _ & Hagreed & Hdoc & Hp).
  destruct Hplan as (b & sel & -> & Hb & Hsel & _ & Hneed & Henc).
  destruct pools as [best [c|]]; cbn [fst snd] in *; subst best; [|done].
  destruct Hdue as (Hcodec & Hpar & _).
  exists token, now, f, raw, t2, b, c, sel, codec, p, cd.
  split; [by rewrite Ht, Ht1|]. do 8 (split; [done|]).
  rewrite Ht. by apply Submitted_prefix.
Qed.
End DefaultClient.
