(* ===== verification/RebalanceContract.v ===== *)
(** * The rebalance handlers against the contract

    [ParentVaultRebalanceLib._initiateRebalance], without the checks of the
    external function around it, and the whole of [ParentVault.completeRebalance]
    with [_finalizeRebalance] ([evm/src/libraries/vaults/ParentVaultRebalanceLib.sol],
    [evm/src/vaults/ParentVault.sol]) on the storage that
    [getParentOperationalState] exposes and the role of the caller ([None] is a
    revert; the calls into strategy adapters, CCIP and fees are left out), and the
    theorems that what the workflow submits is accepted, once. *)

From S2P Require Import Prelude GoText BigInt Ethereum Runtime Bindings ParentVault ChildVault Config State Report Float Json DefiLlama PoolStream PoolSelect EpochContract Rebalance.

#[local] Open Scope Z_scope.

Module ParentVaultRebalanceLib.
Import ParentVaultEpochLib.

Abbreviation Strategy := parent_vault.TypesStrategy.
Definition no_strategy : Strategy := parent_vault.mkTypesStrategy (zeros 32) 0.

Record Storage := mkStorage {
  nonce : Z; in_progress : bool; activeStrategy : Strategy; pendingStrategy : Strategy;
  lastCompleted : Z; epochNonce : Z; previousExecuting : bool;
  thisChainSelector : Z; isSupportedChain : Z → bool; s_supportedProtocol : bytes → bool;
  paused : bool; s_recoveryMode : Z; isRebalanceOperator : Address → bool }.

(** The rebalance part of the storage after a call. *)
Definition with_rebalance (st : Storage) (n : Z) (progress : bool) (act pend : Strategy)
    (completed : Z) : Storage :=
  mkStorage n progress act pend completed (epochNonce st) (previousExecuting st)
    (thisChainSelector st) (isSupportedChain st) (s_supportedProtocol st)
    (paused st) (s_recoveryMode st) (isRebalanceOperator st).

Definition MIN_REBALANCE_PERIOD : Z := 3600.

(** The guards, in the order of the code. *)
Definition initiate_guards (st : Storage) (now expected : Z) (target : Strategy) : option unit :=
  _ ← require (expected =? nonce st);
  _ ← require (negb (in_progress st));
  earliest ← u256 (lastCompleted st + MIN_REBALANCE_PERIOD);
  _ ← require (earliest <=? now);
  _ ← require (negb
    (bool_decide (parent_vault.ProtocolId (activeStrategy st) = parent_vault.ProtocolId target)
     && (parent_vault.ChainSelector (activeStrategy st) =? parent_vault.ChainSelector target)));
  _ ← require (isSupportedChain st (parent_vault.ChainSelector target));
  _ ← require (s_supportedProtocol st (parent_vault.ProtocolId target));
  _ ← require (negb (epochNonce st =? 1));
  require (negb (previousExecuting st)).

(** [_finalizeRebalance], after its guards; a local-to-local rebalance has no
    pending strategy to clear. *)
Definition finalize (st : Storage) (now : Z) (target : Strategy) (isLocalToLocal : bool)
    : option Storage :=
  next ← u256 (nonce st + 1);
  Some (with_rebalance st next false target
          (if isLocalToLocal then pendingStrategy st else no_strategy) now).

(** A local-to-local rebalance completes in the same call. *)
Definition initiateRebalance (st : Storage) (now expected : Z) (target : Strategy)
    : option Storage :=
  _ ← initiate_guards st now expected target;
  if (parent_vault.ChainSelector (activeStrategy st) =? thisChainSelector st)
     && (parent_vault.ChainSelector target =? thisChainSelector st)
  then finalize st now target true
  else Some (with_rebalance st (nonce st) true (activeStrategy st) target (lastCompleted st)).

(** [whenNotPaused], [onlyRole], [_requireNoRecovery], then the body. *)
Definition completeRebalance (st : Storage) (sender : Address) (now expected : Z)
    : option Storage :=
  _ ← require (negb (paused st));
  _ ← require (isRebalanceOperator st sender);
  _ ← require (s_recoveryMode st =? 0);
  _ ← require (negb (parent_vault.ChainSelector (pendingStrategy st) =? thisChainSelector st));
  _ ← require (expected =? nonce st);
  _ ← require (in_progress st);
  finalize st now (pendingStrategy st) false.
End ParentVaultRebalanceLib.
Module RC := ParentVaultRebalanceLib.

(** The contract storage that the snapshot was read from. *)
Record represents_rebalance (config : Config) (s : Snapshot) (p : EvmConfig) (st : RC.Storage)
    : Prop := {
  rr_parent : FindParent (Evms config) = Ok p;
  rr_nonce : parent_vault.Nonce (rebalance s) = Some (RC.nonce st);
  rr_state : parent_vault.State (rebalance s)
    = if RC.in_progress st then Rebalancing else RebalanceNone;
  rr_active : active s = RC.activeStrategy st;
  rr_pending : pending s = RC.pendingStrategy st;
  rr_completed : parent_vault.LastRebalanceCompletedTimestamp (rebalance s)
    = Some (RC.lastCompleted st);
  rr_epoch : parent_vault.CurrentEpochNonce (Parent s) = Some (RC.epochNonce st);
  rr_previous : RC.previousExecuting st
    = (parent_vault.Status (parent_vault.PreviousEpoch (Parent s)) =? EpochExecuting);
  rr_this : RC.thisChainSelector st = ChainSelector p;
  rr_paused : parent_vault.Paused (Parent s) = RC.paused st;
  rr_recovery : parent_vault.RecoveryMode (Parent s) = RC.s_recoveryMode st }.

(** The parent vault is called by the router of its chain. *)
Definition router_of (p : EvmConfig) `{GoEthereum} : Address :=
  HexToAddress (WorkflowRouterAddress p).

(** The contract is deployed for the strategies of the configuration. *)
Record supports `{GoUnicode, GoEthereum} (config : Config) (st : RC.Storage) : Prop := {
  supports_chains e : e ∈ Evms config → RC.isSupportedChain st (ChainSelector e) = true;
  supports_protocols project : project ∈ Projects (Config_DefiLlama config) →
    RC.s_supportedProtocol st (offchain.PoolToProtocolId project) = true }.

(** A valid configuration names every chain once. *)
Lemma rebalance_config_unambiguous `{GoUnicode, GoEthereum} config :
  ValidConfig config → unambiguous (newDefiLlamaConfig config).
Proof.
  intros HV. split.
  - unfold newDefiLlamaConfig. cbn. rewrite <-list_fmap_compose. exact (valid_selectors _ HV).
  - pose proof (valid_names _ HV) as HN. unfold newDefiLlamaConfig, chainNames in *. cbn.
    revert HN. induction (Evms config) as [|e l IH]; cbn; [done|].
    unfold chainName at 1. case_bool_decide; [auto|]. rewrite !NoDup_cons. intros [Hin Hnd].
    split; [|auto]. intros Hin'. apply Hin. clear -Hin'.
    apply list_elem_of_omap in Hin' as (c & Hc & Heq).
    apply list_elem_of_fmap in Hc as (e' & -> & He'). apply list_elem_of_omap. eauto.
Qed.

Lemma config_chain `{GoUnicode, GoEthereum} config c :
  c ∈ offchain.Chains (newDefiLlamaConfig config) →
  ∃ e, e ∈ Evms config ∧ ChainSelector e = offchain.ChainSelector c ∧
    DefiLlamaChainName e = offchain.DefiLlamaChainName c.
Proof. intros (e & -> & He)%list_elem_of_fmap. eauto. Qed.

(** ** Acceptance *)
Section ContractSpecs.
Context `{GoUnicode, HL : GoEthereumLaws, HC : RebalanceCodecLaws}.
Context (config : Config) (s : Snapshot) (p : EvmConfig) (st : RC.Storage).
Context (HV : ValidConfig config) (HS : ValidSnapshot s config).
Context (HObs : in_int64 (ObservedAt s)) (HRep : represents_rebalance config s p st).
Context (HNext : RC.nonce st + 1 < 2 ^ 256).

Lemma nonce_bounds : 0 < RC.nonce st < 2 ^ 256.
Proof.
  destruct (vs_rebalance_nonce _ _ HS) as (n & Hn & Hpos). fold (rebalance s) in Hn.
  rewrite (rr_nonce _ _ _ _ HRep) in Hn. by injection Hn as ->.
Qed.

Lemma finalize_accepts now target loc : ∃ st', RC.finalize st now target loc = Some st'.
Proof.
  pose proof nonce_bounds. unfold RC.finalize. rewrite (proj2 (u256_Some _ (RC.nonce st + 1))).
  - eexists. done.
  - split; [done|]. unfold is_uint256. lia.
Qed.

(** The guards of the workflow imply the guards of the contract. *)
Lemma initiate_accepts codec target :
  rebalance_due config s codec p →
  RC.activeStrategy st ≠ target →
  RC.isSupportedChain st (parent_vault.ChainSelector target) = true →
  RC.s_supportedProtocol st (parent_vault.ProtocolId target) = true →
  ∃ st', RC.initiateRebalance st (ObservedAt s) (RC.nonce st) target = Some st'.
Proof.
  intros (_ & _ & Hst & (n & Hn & Hn1) & Hex & (o & Ho & Hle) & _) Hne Hch Hpr.
  assert (RC.initiate_guards st (ObservedAt s) (RC.nonce st) target = Some tt) as Hg.
  { rewrite (rr_epoch _ _ _ _ HRep) in Hn. injection Hn as <-.
    rewrite (rr_completed _ _ _ _ HRep) in Ho. injection Ho as <-.
    destruct (vs_completed _ _ HS) as (o' & Ho' & Hu). fold (rebalance s) in Ho'.
    rewrite (rr_completed _ _ _ _ HRep) in Ho'. injection Ho' as <-.
    rewrite (rr_state _ _ _ _ HRep) in Hst.
    unfold RC.initiate_guards, RC.MIN_REBALANCE_PERIOD, minRebalanceIntervalSeconds in *.
    rewrite !require_bind, u256_bind, !require_bind, require_Some, !negb_true_iff, Z.eqb_refl,
      Z.leb_le, Z.eqb_neq.
    split; [done|]. split; [by destruct (RC.in_progress st)|].
    unfold is_uint256, in_int64, MaxInt64 in *.
    split; [lia|]. split; [lia|]. split; [|split; [done|]; split; [done|]; split; [lia|]].
    - apply andb_false_iff. destruct (Z.eqb_spec (parent_vault.ChainSelector (RC.activeStrategy st))
        (parent_vault.ChainSelector target)) as [Hc|]; [left|by right].
      apply bool_decide_eq_false. intros Hp. apply Hne.
      destruct (RC.activeStrategy st), target; cbn in *; congruence.
    - rewrite (rr_previous _ _ _ _ HRep). by apply Z.eqb_neq. }
  unfold RC.initiateRebalance. rewrite Hg. cbn [mbind option_bind].
  destruct (_ && _); [apply finalize_accepts|eauto].
Qed.

(** A planned rebalance is one that the contract accepts. *)
Lemma initiate_plan_accepted order codec best current target calldata :
  supports config st → (∀ m, order m ≡ₚ map_to_list m) →
  rebalance_due config s codec p →
  pools_from (newDefiLlamaConfig config) (parent_vault.ProtocolId (active s))
    (parent_vault.ChainSelector (active s)) best current →
  initiate_plan config s order codec p best current target calldata →
  ∃ b e st', best = Some b ∧ target = p ∧ e ∈ Evms config ∧
    let strategy := parent_vault.mkTypesStrategy
      (offchain.PoolToProtocolId (offchain.Pool_Project b)) (ChainSelector e) in
    offchain.canonicalDefiLlamaValue (DefiLlamaChainName e)
      = offchain.canonicalDefiLlamaValue (offchain.Pool_Chain b) ∧
    EncodeInitiateRebalanceMethodCall codec
      (parent_vault.mkInitiateRebalanceInput (Some (RC.nonce st)) strategy) = Ok calldata ∧
    RC.initiateRebalance st (ObservedAt s) (RC.nonce st) strategy = Some st'.
Proof.
  intros Hsup Hord Hdue Hpools (b & sel & -> & -> & Hsel & Hne & _ & Henc).
  apply (PoolToChainSelector_total order) in Hsel as (c & Hc & <- & _ & Hname);
    [|by apply rebalance_config_unambiguous|done].
  apply config_chain in Hc as (e & He & Hes & Hen). rewrite <-Hes, <-Hen in *.
  rewrite (rr_nonce _ _ _ _ HRep) in Henc.
  destruct (initiate_accepts codec (parent_vault.mkTypesStrategy
    (offchain.PoolToProtocolId (offchain.Pool_Project b)) (ChainSelector e))) as [st' Hst'].
  - done.
  - rewrite <-(rr_active _ _ _ _ HRep). intros Heq. destruct Hne as [Hne|Hne]; apply Hne; by rewrite Heq.
  - by apply (supports_chains _ _ Hsup).
  - apply (supports_protocols _ _ Hsup). by apply (best_approved _ _ _ _ _ Hpools b).
  - exists b, e, st'. done.
Qed.
End ContractSpecs.

(** ** Properties *)
Section RebalanceContractProperties.
Context `{GoUnicode, HL : GoEthereumLaws}.
Context (config : Config) (s : Snapshot) (p : EvmConfig) (st : RC.Storage).
Context (HV : ValidConfig config) (HTy : TypedConfig config).
Context (HS : ValidSnapshot s config) (HObs : in_int64 (ObservedAt s)).
Context (HRep : represents_rebalance config s p st).

(** C4: the rebalance that the cron handler submits is one that the contract
    accepts in the state the snapshot was read from: a run that signs or writes
    anything submits, to the parent chain, [initiateRebalance] with the current
    nonce and a strategy made of an approved project and a configured chain, and
    the contract, deployed for the configured strategies, does not revert. *)
Theorem OnRebalanceCronTrigger_accepted order (o : oracle (cre_eff offchain.fetchResult))
    (HO : respects consensus_host o) (Hord : ∀ m, order m ≡ₚ map_to_list m)
    (HSup : supports config st) (HNext : RC.nonce st + 1 < 2 ^ 256) :
  let run := run o [] (OnRebalanceCronTrigger order config (Some s)) in
  ¬ quiet run.1 →
  ∃ project e codec calldata st',
    project ∈ Projects (Config_DefiLlama config) ∧ e ∈ Evms config ∧
    let strategy := parent_vault.mkTypesStrategy (offchain.PoolToProtocolId project)
      (ChainSelector e) in
    newParentCodec = Ok codec ∧
    EncodeInitiateRebalanceMethodCall codec
      (parent_vault.mkInitiateRebalanceInput (Some (RC.nonce st)) strategy) = Ok calldata ∧
    RC.initiateRebalance st (ObservedAt s) (RC.nonce st) strategy = Some st' ∧
    Submitted p (ObservedAt s) calldata "initiated rebalance" run.1 run.2.
Proof.
  intros r Hw.
  destruct (wp_seg_run consensus_host o _ _ HO
    (OnRebalanceCronTrigger_seg config s HTy HS HObs order []))
    as [(codec & p' & t1 & t2 & fetch & Hdue & Ht & Hfetch & Hf)|[_ [Hq _]]]; [|done].
  pose proof (proj1 Hfetch) as Hq. fold r in Ht, Hf.
  assert (p' = p) as -> by (destruct Hdue as (_ & ? & _); pose proof (rr_parent _ _ _ _ HRep); congruence).
  destruct fetch as [pools|e|];
    [|destruct Hf as [-> _]; rewrite app_nil_r in Ht; by rewrite Ht in Hw|done].
  destruct Hf as [(target & cd & Hplan & Hsub)|[_ [Hq2 _]]];
    [|rewrite Ht in Hw; by destruct Hw; apply quiet_app].
  pose proof (fetched_fresh_pools _ _ _ _ _ Hfetch) as Hfrom.
  destruct (initiate_plan_accepted config s p st HV HS HObs HRep HNext order codec
    pools.1 pools.2 target cd HSup Hord Hdue Hfrom Hplan)
    as (b & e & st' & Hb & -> & He & _ & Henc & Hst').
  exists (offchain.Pool_Project b), e, codec, cd, st'.
  split; [by apply (approved_project _ _ (best_approved _ _ _ _ _ Hfrom b Hb))|].
  split; [done|]. split; [by destruct Hdue|]. split; [done|]. split; [done|].
  rewrite Ht. by apply Submitted_prefix.
Qed.

Definition complete_rebalance_run {R} (o : oracle (cre_eff R)) (log : Log) (source : Z) :=
  run o [] (OnRebalanceDepositSuccess config (Some log) (Some s) source).

Lemma complete_rebalance_iff now n (HNext : RC.nonce st + 1 < 2 ^ 256) :
  BlockedReason s config = EmptyString → RC.isRebalanceOperator st (router_of p) = true →
  (∃ st', RC.completeRebalance st (router_of p) now n = Some st') ↔
  parent_vault.ChainSelector (pending s) ≠ ChainSelector p ∧ n = RC.nonce st ∧
  parent_vault.State (rebalance s) = Rebalancing.
Proof.
  intros Hclear Hrole. pose proof (rr_parent _ _ _ _ HRep) as [Hin Hpar]%FindParent_Ok.
  apply BlockedReason_iff in Hclear. rewrite Forall_forall in Hclear. specialize (Hclear p Hin).
  unfold chain_clear, paused_and_recovery in Hclear. rewrite Hpar in Hclear.
  rewrite (rr_paused _ _ _ _ HRep), (rr_recovery _ _ _ _ HRep) in Hclear.
  injection Hclear as Hpaused Hrec.
  unfold RC.completeRebalance. rewrite Hpaused, Hrole, Hrec. cbn [negb Z.eqb].
  do 6 setoid_rewrite require_bind. setoid_rewrite negb_true_iff. setoid_rewrite Z.eqb_neq.
  setoid_rewrite Z.eqb_eq. rewrite (rr_pending _ _ _ _ HRep), (rr_this _ _ _ _ HRep),
    (rr_state _ _ _ _ HRep).
  destruct (finalize_accepts config s p st HS HRep HNext now (RC.pendingStrategy st) false) as [st' Hst'].
  destruct (RC.in_progress st); split.
  - intros (? & _ & _ & _ & ? & ? & _). done.
  - intros (? & ? & _). exists st'. by split_and!.
  - intros (? & _ & _ & _ & _ & _ & ? & _). done.
  - by intros (_ & _ & Hst).
Qed.

(** C7: the completion handler, on a snapshot that passes the operational guard
    and a log of the pending strategy's vault, submits [completeRebalance(nonce)]
    to the parent exactly when the parent vault, called by its router, accepts
    it (a remote rebalance in progress with that nonce); otherwise it signs and
    writes nothing.  The router has the role that the vault asks for. *)
Theorem OnRebalanceDepositSuccess_contract {R} (o : oracle (cre_eff R)) log source now codec n a
    calldata (HO : respects typed_host o) (HLog : Log_Topics log ≠ [])
    (HClear : BlockedReason s config = EmptyString)
    (HRole : RC.isRebalanceOperator st (router_of p) = true)
    (HC : newParentCodec = Ok codec)
    (HD : DecodeRebalanceDepositSuccess codec (Some log)
       = Ok (parent_vault.mkRebalanceDepositSuccessDecoded (Some n) (Some a)))
    (HSrc : MatchSource config (Some log) source (parent_vault.ChainSelector (pending s)) = true)
    (HNext : RC.nonce st + 1 < 2 ^ 256)
    (HE : EncodeCompleteRebalanceMethodCall codec (parent_vault.mkCompleteRebalanceInput (Some n))
       = Ok calldata) :
  if RC.completeRebalance st (router_of p) now n is Some _
  then Submitted p (ObservedAt s) calldata "submitted completeRebalance"
         (complete_rebalance_run o log source).1 (complete_rebalance_run o log source).2
  else idle (complete_rebalance_run o log source).1 (complete_rebalance_run o log source).2.
Proof.
  pose proof (complete_rebalance_iff now n HNext HClear HRole) as Hc.
  pose proof (rr_parent _ _ _ _ HRep) as Hp. pose proof (rr_nonce _ _ _ _ HRep) as Hn.
  destruct (wp_seg_run typed_host o _ _ HO
    (rebalance_complete_seg SubmitReport config s HTy HS HObs [] log source HLog))
    as [(target & cd & (c & n' & a' & Hcodec & Hpar & Hdec & Hst & Hnonce & Hne & _ & Henc) & Hsub)
       |[Hno Hidle]].
  - assert (c = codec) as -> by congruence. assert (target = p) as -> by congruence.
    rewrite HD in Hdec. injection Hdec as <- <-. assert (cd = calldata) as -> by congruence.
    destruct (proj2 Hc) as [st' ->]; [|done]. split_and!; [done|congruence|done].
  - destruct (RC.completeRebalance st (router_of p) now n) as [st'|] eqn:Hst'; [|done].
    destruct (proj1 Hc (ex_intro _ _ eq_refl)) as (Hne & -> & Hst).
    destruct (Hno p calldata). exists codec, (RC.nonce st), a. done.
Qed.

(** ** Replays *)

(** C21: a completion is submitted once: after the contract has completed the
    rebalance, the same log, and any other completion log, is a no-op on every
    snapshot of the new state. *)
Theorem OnRebalanceDepositSuccess_once {R} (o : oracle (cre_eff R)) st' s' log source sender now n
    (HO : respects typed_host o) (HLog : Log_Topics log ≠ [])
    (HDone : RC.completeRebalance st sender now n = Some st')
    (HRep' : represents_rebalance config s' p st')
    (HS' : ValidSnapshot s' config) (HObs' : in_int64 (ObservedAt s')) :
  let run := run o [] (OnRebalanceDepositSuccess config (Some log) (Some s') source) in
  idle run.1 run.2.
Proof.
  intros r. assert (RC.in_progress st' = false) as Hst'.
  { unfold RC.completeRebalance, RC.finalize in HDone.
    do 6 (apply require_bind in HDone as [_ HDone]). by apply u256_bind in HDone as [_ [= <-]]. }
  destruct (wp_seg_run typed_host o _ _ HO
    (rebalance_complete_seg SubmitReport config s' HTy HS' HObs' [] log source HLog))
    as [(? & ? & (? & ? & ? & _ & _ & _ & Hst & _) & _)|[_ Hidle]]; [|done].
  rewrite (rr_state _ _ _ _ HRep'), Hst' in Hst. done.
Qed.

(** C22: a rebalance is initiated once: after the contract has accepted an
    initiation, the cron handler submits nothing on a snapshot of the new state:
    at any time when the rebalance is in progress, and, when it was local to the
    parent chain and so completed in the same call, until an hour after it. *)
Theorem OnRebalanceCronTrigger_once order (o : oracle (cre_eff offchain.fetchResult)) st' s' now n
    target (HO : respects consensus_host o)
    (HDone : RC.initiateRebalance st now n target = Some st')
    (HRep' : represents_rebalance config s' p st')
    (HS' : ValidSnapshot s' config) (HObs' : in_int64 (ObservedAt s'))
    (HTime : RC.in_progress st' = false → ObservedAt s' < now + RC.MIN_REBALANCE_PERIOD) :
  let run := run o [] (OnRebalanceCronTrigger order config (Some s')) in
  idle run.1 run.2.
Proof.
  intros r.
  destruct (wp_seg_run consensus_host o _ _ HO
    (OnRebalanceCronTrigger_seg config s' HTy HS' HObs' order []))
    as [(codec & p' & ? & ? & ? & Hdue & _)|[_ Hidle]]; [exfalso|done].
  destruct Hdue as (_ & _ & Hst & _ & _ & (o' & Ho & Hle) & _).
  rewrite (rr_state _ _ _ _ HRep') in Hst. rewrite (rr_completed _ _ _ _ HRep') in Ho.
  injection Ho as <-. unfold RC.initiateRebalance, RC.finalize in HDone.
  destruct (RC.initiate_guards st now n target); [|done]. cbn [mbind option_bind] in HDone.
  destruct (_ && _).
  - apply u256_bind in HDone as [_ [= <-]]. specialize (HTime eq_refl). cbn in Hle.
    unfold minRebalanceIntervalSeconds, RC.MIN_REBALANCE_PERIOD in *. lia.
  - injection HDone as <-. done.
Qed.
End RebalanceContractProperties.

(** ** Concrete runs *)
Module SampleRebalance.
#[local] Existing Instance ascii_unicode.
#[local] Existing Instance SampleState.ethereum.
#[local] Existing Instance SampleState.sample_ethereum_laws.
Abbreviation config := Sample.config.
Abbreviation pv_state := parent_vault.mkTypesParentOperationalState.

(** The host of the state sample, with a relay that answers every node. *)
Definition relay : http_Request → reply (option http_Response) :=
  λ _, Reply (Some (mkHttpResponse 200 SamplePools.body)).
Definition host : oracle (cre_eff offchain.fetchResult) := λ h X c,
  match c in cre_eff _ X return X → X with
  | ESendRequest f => λ _, match f relay with Ok r => Reply r | _ => Failed json_EOF end
  | _ => λ x, x
  end (SampleState.host h X c).

Lemma host_consensus : respects consensus_host host.
Proof.
  intros h X c. split.
  - by destruct c.
  - destruct c; try done. cbn. intros a. destruct (f relay) eqn:Hf; [|done|done].
    intros [= <-]. by exists relay.
Qed.
Lemma rebalance_host_typed : respects typed_host host.
Proof. intros h X c. apply (consensus_typed h), host_consensus. Qed.

(** The sample snapshot with a given rebalance state. *)
Definition with_rebalance (state : Z) (act pend : parent_vault.TypesStrategy) (observed : Z)
    : Snapshot :=
  let s := SampleState.snapshot in let q := Parent s in
  mkSnapshot observed
    (pv_state (parent_vault.Paused q) (parent_vault.RecoveryMode q)
       (parent_vault.CurrentEpochNonce q) (parent_vault.CurrentEpoch q)
       (parent_vault.PreviousEpoch q)
       (parent_vault.mkTypesRebalance (Some 7) state act pend (Some 1))
       (parent_vault.TotalShares q) (parent_vault.Tvl q))
    (Children s).
Definition aave_on (chain : Z) : parent_vault.TypesStrategy :=
  parent_vault.mkTypesStrategy (offchain.PoolToProtocolId "aave-v3") chain.

Definition snapshot : Snapshot := with_rebalance 0 (aave_on 2) RC.no_strategy 10000.
Definition moving : Snapshot := with_rebalance 1 (aave_on 2) (aave_on 3) 10000.

Lemma rebalance_snapshot_valid : ValidSnapshot snapshot config.
Proof. apply (Validate_iff _ _ tt). vm_compute. reflexivity. Qed.
Lemma moving_valid : ValidSnapshot moving config.
Proof. apply (Validate_iff _ _ tt). vm_compute. reflexivity. Qed.
Lemma rebalance_observed_typed : in_int64 10000.
Proof. split; discriminate. Qed.

Definition storage_of (progress : bool) (act pend : parent_vault.TypesStrategy) : RC.Storage :=
  RC.mkStorage 7 progress act pend 1 2 false 1 (λ _, true) (λ _, true) false 0
    (λ sender, bool_decide (sender = router_of Sample.parent_chain)).
Definition storage : RC.Storage := storage_of false (aave_on 2) RC.no_strategy.
Definition moving_storage : RC.Storage := storage_of true (aave_on 2) (aave_on 3).

Lemma rebalance_storage_represents : represents_rebalance config snapshot Sample.parent_chain storage.
Proof. split; vm_compute; reflexivity. Qed.
Lemma moving_represents : represents_rebalance config moving Sample.parent_chain moving_storage.
Proof. split; vm_compute; reflexivity. Qed.
Lemma storage_supports : supports config storage.
Proof. by split. Qed.

Definition cron := run host [] (OnRebalanceCronTrigger map_to_list config (Some snapshot)).
Example cron_initiates : cron.2 = Ok (mkExecutionResult "initiated rebalance").
Proof. vm_compute. reflexivity. Qed.
Lemma cron_writes : ¬ quiet cron.1.
Proof.
  intros [Hw _].
  assert (length (writes cron.1) = 1%nat) as Hl by (vm_compute; reflexivity).
  by rewrite Hw in Hl.
Qed.

Lemma OnRebalanceCronTrigger_accepted_witness :
  ∃ project e codec calldata st',
    project ∈ Projects (Config_DefiLlama config) ∧ e ∈ Evms config ∧
    let strategy := parent_vault.mkTypesStrategy (offchain.PoolToProtocolId project)
      (ChainSelector e) in
    newParentCodec = Ok codec ∧
    EncodeInitiateRebalanceMethodCall codec
      (parent_vault.mkInitiateRebalanceInput (Some (RC.nonce storage)) strategy) = Ok calldata ∧
    RC.initiateRebalance storage 10000 (RC.nonce storage) strategy = Some st' ∧
    Submitted Sample.parent_chain 10000 calldata "initiated rebalance" cron.1 cron.2.
Proof.
  apply (OnRebalanceCronTrigger_accepted config snapshot Sample.parent_chain storage
    SampleState.sample_config_valid Sample.config_typed rebalance_snapshot_valid rebalance_observed_typed
    rebalance_storage_represents map_to_list host host_consensus (λ _, Permutation_refl _)
    storage_supports eq_refl cron_writes).
Defined.

Lemma OnRebalanceCronTrigger_fresh_witness :
  let cfg := newDefiLlamaConfig config in
  ∃ token now f raw t best current selector codec p calldata,
    cron.1 = [Step _ (EGetSecret offchain.defiLlamaRelayBearerTokenSecret) (Reply (Some token));
              Step Z ENow now; Step _ (ESendRequest f) (Reply raw)] ++ t ∧
    (∃ requester, f requester = Ok raw) ∧
    (∀ requester, f requester = Ok raw →
       node_document (fetch_params cfg (parent_vault.ProtocolId (active snapshot))
         (parent_vault.ChainSelector (active snapshot)) token now) requester raw) ∧
    offchain.fetchResultToPools raw = (Some best, Some current) ∧
    NeedRebalance (Some best) (Some current) = true ∧
    offchain.PoolToChainSelector map_to_list cfg (offchain.Pool_Chain best) = Ok selector ∧
    newParentCodec = Ok codec ∧ FindParent (Evms config) = Ok p ∧
    EncodeInitiateRebalanceMethodCall codec
      (parent_vault.mkInitiateRebalanceInput (parent_vault.Nonce (rebalance snapshot))
         (parent_vault.mkTypesStrategy
            (offchain.PoolToProtocolId (offchain.Pool_Project best)) selector)) = Ok calldata ∧
    Submitted p 10000 calldata "initiated rebalance" cron.1 cron.2.
Proof.
  apply (OnRebalanceCronTrigger_fresh config snapshot Sample.config_typed rebalance_snapshot_valid
    rebalance_observed_typed map_to_list host host_consensus cron_writes).
Defined.

Lemma OnRebalanceCronTrigger_decided_witness :
  initiated config snapshot map_to_list
    (fetched (newDefiLlamaConfig config) (parent_vault.ProtocolId (active snapshot))
       (parent_vault.ChainSelector (active snapshot))) cron.1 cron.2.
Proof.
  apply (OnRebalanceCronTrigger_decided config snapshot Sample.config_typed rebalance_snapshot_valid
    rebalance_observed_typed consensus_host offchain.FetchAndSelectPools map_to_list host
    FetchAndSelectPools_laws consensus_typed host_consensus).
Defined.

(** A log of the executing nonce 7 towards (aave-v3, chain 3). *)
Definition pcodec : parentCodec := match newParentCodec with Ok c => c | _ =>
  mkParentCodec (λ _, Crash) (λ _, Crash) (λ _, Crash) (λ _, Crash) end.
Lemma rebalance_pcodec_ok : newParentCodec = Ok pcodec.
Proof. reflexivity. Qed.

Definition initiated_log : Log :=
  mkLog (HexToAddress (VaultAddress Sample.parent_chain))
    [zeros 32; be_bytes 32 7; offchain.PoolToProtocolId "aave-v3"; be_bytes 32 3] [].
Definition execute := run host [] (OnRebalanceInitiated config (Some initiated_log) (Some moving) 1).
Example execute_submits : execute.2 = Ok (mkExecutionResult "submitted executeRebalance").
Proof. vm_compute. reflexivity. Qed.

Lemma OnRebalanceInitiated_decided_witness :
  decided (execute_plan config moving (Some initiated_log) 1) 10000
    "submitted executeRebalance" execute.1 execute.2.
Proof.
  apply (OnRebalanceInitiated_decided config moving SampleState.sample_config_valid
    Sample.config_typed moving_valid rebalance_observed_typed host initiated_log 1 rebalance_host_typed).
  discriminate.
Defined.

Definition success_log : Log :=
  mkLog (HexToAddress (VaultAddress Sample.other_chain))
    [zeros 32; be_bytes 32 7; be_bytes 32 500000] [].
Definition complete_calldata : bytes :=
  match EncodeCompleteRebalanceMethodCall pcodec (parent_vault.mkCompleteRebalanceInput (Some 7)) with
  Ok b => b | _ => [] end.
Abbreviation complete := (complete_rebalance_run config moving host success_log 3).

Lemma OnRebalanceDepositSuccess_contract_witness :
  if RC.completeRebalance moving_storage (router_of Sample.parent_chain) 10000 7 is Some _
  then Submitted Sample.parent_chain 10000 complete_calldata "submitted completeRebalance"
         complete.1 complete.2
  else idle complete.1 complete.2.
Proof.
  apply (OnRebalanceDepositSuccess_contract config moving Sample.parent_chain moving_storage
    Sample.config_typed moving_valid rebalance_observed_typed moving_represents host success_log 3 10000
    pcodec 7 500000 complete_calldata rebalance_host_typed ltac:(discriminate));
    [..|exact rebalance_pcodec_ok| | | |]; vm_compute; reflexivity.
Defined.

Lemma complete_responsive : Forall (responsive 10000) complete.1.
Proof.
  vm_compute. repeat apply Forall_cons_2; try done; [by eexists|by eexists; split_and!].
Qed.

(** The states after the completion and after the initiation. *)
Definition moved_storage : RC.Storage :=
  default moving_storage (RC.completeRebalance moving_storage (router_of Sample.parent_chain) 10000 7).
Definition moved : Snapshot :=
  let q := Parent moving in
  mkSnapshot 10001
    (pv_state (parent_vault.Paused q) (parent_vault.RecoveryMode q)
       (parent_vault.CurrentEpochNonce q) (parent_vault.CurrentEpoch q)
       (parent_vault.PreviousEpoch q)
       (parent_vault.mkTypesRebalance (Some 8) 0 (aave_on 3) RC.no_strategy (Some 10000))
       (parent_vault.TotalShares q) (parent_vault.Tvl q))
    (Children moving).
Lemma moved_valid : ValidSnapshot moved config.
Proof. apply (Validate_iff _ _ tt). vm_compute. reflexivity. Qed.
Lemma moved_represents : represents_rebalance config moved Sample.parent_chain moved_storage.
Proof. split; vm_compute; reflexivity. Qed.

Lemma OnRebalanceDepositSuccess_once_witness :
  let r := run host [] (OnRebalanceDepositSuccess config (Some success_log) (Some moved) 3) in
  idle r.1 r.2.
Proof.
  apply (OnRebalanceDepositSuccess_once config Sample.parent_chain moving_storage
    Sample.config_typed host moved_storage moved success_log 3
    (router_of Sample.parent_chain) 10000 7 rebalance_host_typed
    ltac:(discriminate) eq_refl moved_represents moved_valid).
  split; discriminate.
Defined.

Definition initiated_storage : RC.Storage :=
  default storage (RC.initiateRebalance storage 10000 7 (aave_on 3)).
Lemma initiated_represents :
  represents_rebalance config moving Sample.parent_chain initiated_storage.
Proof. split; vm_compute; reflexivity. Qed.

Lemma OnRebalanceCronTrigger_once_witness :
  let r := run host [] (OnRebalanceCronTrigger map_to_list config (Some moving)) in
  idle r.1 r.2.
Proof.
  apply (OnRebalanceCronTrigger_once config Sample.parent_chain storage
    Sample.config_typed map_to_list host initiated_storage moving 10000 7 (aave_on 3)
    host_consensus); try (vm_compute; reflexivity);
    [exact initiated_represents|exact moving_valid|exact rebalance_observed_typed].
Defined.
End SampleRebalance.
