(* ===== verification/System.v ===== *)
(** * Runs of the workflow and what their reports can do

    One run of any of the six handlers on a valid, possibly stale snapshot; the
    calls that the vault contracts decode from forwarded reports; and the lemma
    that every call a signed report of a run can cause, on any chain and at any
    time, is justified by what that run observed.  [RebalanceSystem] and
    [EpochSystem] build their transition systems on it. *)

From S2P Require Import Prelude GoText BigInt Ethereum Runtime Bindings ParentVault ChildVault Config State Report Accounting EpochContract Epoch Float Json DefiLlama PoolStream PoolSelect Rebalance RebalanceContract.

#[local] Open Scope Z_scope.

(** ** The calls of the workflow on the vaults *)
Inductive call :=
| Initiate (n : Z) (target : parent_vault.TypesStrategy)
| Complete (n : Z)
| Close (n tvl : Z)
| CompleteDeposit (n amount : Z).

Inductive child_call :=
| ExecuteWithdraw (n amount : Z)
| ExecuteRebalance.

(** The contracts' decoding of their calldata inverts the ABI encoding. *)
Class VaultDispatch `{GoEthereum} := {
  dispatch : bytes → option call;
  child_dispatch : bytes → option child_call }.
Class VaultDispatchLaws `{VaultDispatch} : Prop := {
  dispatch_initiate c n s data :
    parent_vault.NewCodec = Ok c → is_uint256 n → length (parent_vault.ProtocolId s) = 32%nat →
    in_uint64 (parent_vault.ChainSelector s) →
    parent_vault.EncodeInitiateRebalanceMethodCall c
      (parent_vault.mkInitiateRebalanceInput (Some n) s) = Ok data →
    dispatch data = Some (Initiate n s);
  dispatch_complete c n data :
    parent_vault.NewCodec = Ok c → is_uint256 n →
    parent_vault.EncodeCompleteRebalanceMethodCall c
      (parent_vault.mkCompleteRebalanceInput (Some n)) = Ok data →
    dispatch data = Some (Complete n);
  dispatch_close c n tvl data :
    parent_vault.NewCodec = Ok c → is_uint256 n → is_uint256 tvl →
    parent_vault.EncodeCloseEpochMethodCall c
      (parent_vault.mkCloseEpochInput (Some n) (Some tvl)) = Ok data →
    dispatch data = Some (Close n tvl);
  dispatch_deposit c n a data :
    parent_vault.NewCodec = Ok c → is_uint256 n → is_uint256 a →
    parent_vault.EncodeCompleteEpochDepositMethodCall c
      (parent_vault.mkCompleteEpochDepositInput (Some n) (Some a)) = Ok data →
    dispatch data = Some (CompleteDeposit n a);
  dispatch_withdraw c n a data :
    child_vault.NewCodec = Ok c → is_uint256 n → is_uint256 a →
    child_vault.EncodeExecuteEpochWithdrawMethodCall c
      (child_vault.mkExecuteEpochWithdrawInput (Some n) (Some a)) = Ok data →
    child_dispatch data = Some (ExecuteWithdraw n a);
  dispatch_execute c n s data :
    child_vault.NewCodec = Ok c →
    child_vault.EncodeExecuteRebalanceMethodCall c
      (child_vault.mkExecuteRebalanceInput (Some n) s) = Ok data →
    child_dispatch data = Some ExecuteRebalance
}.

(** The payloads a run had signed. *)
Definition signed {R} (t : list (step (cre_eff R))) : list bytes := EncodedPayload <$> reports t.

Lemma NoDup_snoc {A} (l : list A) x : x ∉ l → NoDup l → NoDup (l ++ [x]).
Proof.
  intros Hx Hl. apply NoDup_app. split; [done|]. split; [|apply NoDup_singleton].
  intros y Hy ->%list_elem_of_singleton. done.
Qed.

Section System.
Context `{GoUnicode, HL : GoEthereumLaws, !VaultDispatch, HD : !VaultDispatchLaws}.
Context (config : Config) (p : EvmConfig).
Context (HV : ValidConfig config) (HTy : TypedConfig config).
Context (HP : FindParent (Evms config) = Ok p).

Abbreviation eff := (cre_eff offchain.fetchResult).

(** ** One run of one of the six handlers, on any valid snapshot

    The event is the log that triggered the run and the chain that delivered it. *)
Definition event : Type := option (Log * Z).

Inductive handler_run (s : Snapshot) : event → list (Runtime.step eff) → Prop :=
| run_rebalance_cron order (o : oracle eff) :
    ValidSnapshot s config → in_int64 (ObservedAt s) → respects consensus_host o →
    (∀ m, order m ≡ₚ map_to_list m) →
    handler_run s None (run o [] (OnRebalanceCronTrigger order config (Some s))).1
| run_rebalance_initiated log source (o : oracle eff) :
    ValidSnapshot s config → in_int64 (ObservedAt s) → respects consensus_host o →
    Log_Topics log ≠ [] →
    handler_run s (Some (log, source)) (run o [] (OnRebalanceInitiated config (Some log) (Some s) source)).1
| run_rebalance_success log source (o : oracle eff) :
    ValidSnapshot s config → in_int64 (ObservedAt s) → respects consensus_host o →
    Log_Topics log ≠ [] →
    handler_run s (Some (log, source)) (run o [] (OnRebalanceDepositSuccess config (Some log) (Some s) source)).1
| run_epoch_cron (o : oracle eff) :
    ValidSnapshot s config → in_int64 (ObservedAt s) → respects consensus_host o →
    handler_run s None (run o [] (OnEpochCronTrigger config (Some s))).1
| run_epoch_withdraw log source (o : oracle eff) :
    ValidSnapshot s config → in_int64 (ObservedAt s) → respects consensus_host o →
    Log_Topics log ≠ [] →
    handler_run s (Some (log, source)) (run o [] (OnEpochWithdrawExecuting config (Some log) (Some s) source)).1
| run_epoch_deposit log source (o : oracle eff) :
    ValidSnapshot s config → in_int64 (ObservedAt s) → respects consensus_host o →
    Log_Topics log ≠ [] →
    handler_run s (Some (log, source)) (run o [] (OnEpochDepositToStrategySuccess config (Some log) (Some s) source)).1.

(** The router of a chain: any report that passes its checks of the report may
    reach the vault, whoever delivers it. *)
Definition forwarded (e : EvmConfig) (now : Z) (report : bytes) : option bytes :=
  openEnvelope (HexToAddress (WorkflowRouterAddress e)) (ChainSelector e) now report.

Definition approved_strategy (s : parent_vault.TypesStrategy) : Prop :=
  ∃ project e, project ∈ Projects (Config_DefiLlama config) ∧ e ∈ Evms config ∧
    s = parent_vault.mkTypesStrategy (offchain.PoolToProtocolId project) (ChainSelector e).

(** ** What a run must have observed to cause a call *)
Inductive justified (s : Snapshot) (ev : event) : call → Prop :=
| initiate_justified n target :
    parent_vault.Nonce (rebalance s) = Some n →
    parent_vault.State (rebalance s) = RebalanceNone → approved_strategy target →
    justified s ev (Initiate n target)
| complete_justified n :
    parent_vault.Nonce (rebalance s) = Some n →
    parent_vault.State (rebalance s) = Rebalancing → justified s ev (Complete n)
| close_justified n tvl :
    ev = None → parent_vault.CurrentEpochNonce (Parent s) = Some n →
    parent_vault.State (rebalance s) = RebalanceNone →
    ActiveTVL s (ChainSelector p) = Ok (Some tvl) → justified s ev (Close n tvl)
| deposit_justified n a log source codec :
    ev = Some (log, source) → Epoch.newChildCodec = Ok codec →
    DecodeEpochDepositToStrategySuccess codec (Some log)
      = Ok (child_vault.mkEpochDepositToStrategySuccessDecoded (Some n) (Some a)) →
    activeChain s ≠ ChainSelector p →
    MatchSource config (Some log) source (activeChain s) = true →
    executing s n → justified s ev (CompleteDeposit n a).

Inductive child_justified (s : Snapshot) (e : EvmConfig) : child_call → Prop :=
| withdraw_justified n a w d :
    executing s n →
    parent_vault.TotalWithdrawClaimAmount (parent_vault.PreviousEpoch (Parent s)) = Some w →
    parent_vault.TotalDepositAmount (parent_vault.PreviousEpoch (Parent s)) = Some d →
    w - d = a → 0 < a → activeChain s = ChainSelector e →
    child_justified s e (ExecuteWithdraw n a)
| execute_justified :
    parent_vault.ChainSelector (active s) = ChainSelector e → child_justified s e ExecuteRebalance.

(** Delivered to the router of chain [e], the report is in its window and causes
    a justified call. *)
Definition explained (s : Snapshot) (ev : event) (report : bytes) : Prop :=
  ∀ e now data, e ∈ Evms config → forwarded e now report = Some data →
    ObservedAt s <= now <= ObservedAt s + 1800 ∧
    (e = p → ∃ c, dispatch data = Some c ∧ justified s ev c) ∧
    (e ≠ p → ∃ c, child_dispatch data = Some c ∧ child_justified s e c).

Lemma chain_typed e : e ∈ Evms config → in_uint64 (ChainSelector e).
Proof. intros He. pose proof (tc_selectors _ HTy) as Hs. rewrite Forall_forall in Hs. auto. Qed.

Lemma chain_unique e e' :
  e ∈ Evms config → e' ∈ Evms config → ChainSelector e = ChainSelector e' → e = e'.
Proof.
  intros He He' Heq.
  pose proof (FindEvmConfig_unique _ _ (valid_selectors _ HV) He) as E1.
  pose proof (FindEvmConfig_unique _ _ (valid_selectors _ HV) He') as E2.
  rewrite Heq in E1. congruence.
Qed.

Lemma parent_in : p ∈ Evms config.
Proof. by apply FindParent_Ok in HP as [? _]. Qed.

Lemma remote_target target selector :
  FindEvmConfigByChainSelector (Evms config) selector = Ok target → selector ≠ ChainSelector p →
  target ∈ Evms config ∧ target ≠ p ∧ ChainSelector target = selector.
Proof. intros [Hin Hs]%FindEvmConfig_Ok Hne. split_and!; [done|congruence|done]. Qed.

(** Every signed payload of a decided run encodes the planned calldata. *)
Lemma decided_signed {R} plan observedAt what (t : list (Runtime.step (cre_eff R))) r payload :
  decided plan observedAt what t r → payload ∈ signed t →
  ∃ target calldata, plan target calldata ∧ EncodeReport target observedAt calldata = Ok payload.
Proof.
  intros [(target & cd & Hplan & Hsub)|[_ [[_ Hr] _]]] (q & -> & Hq)%list_elem_of_fmap.
  - apply Submitted_deliveries in Hsub as (_ & _ & _ & Hrep & _).
    destruct (Hrep q Hq) as (payload & HE & ->). by exists target, cd.
  - rewrite Hr in Hq. by apply elem_of_nil in Hq.
Qed.

(** A decided run is explained by its plan: only the target's router forwards the
    report, and what it forwards is the planned calldata. *)
Lemma decided_explained {R} plan s ev what (t : list (Runtime.step (cre_eff R))) r :
  in_int64 (ObservedAt s) → decided plan (ObservedAt s) what t r →
  (∀ target calldata, plan target calldata →
     (target = p ∧ ∃ c, dispatch calldata = Some c ∧ justified s ev c) ∨
     (target ∈ Evms config ∧ target ≠ p ∧
      ∃ c, child_dispatch calldata = Some c ∧ child_justified s target c)) →
  Forall (explained s ev) (signed t).
Proof.
  intros Hobs Hd Hplan. apply Forall_forall. intros payload Hin e now data He Hf.
  destruct (decided_signed _ _ _ _ _ _ Hd Hin) as (target & cd & Hp & HE).
  assert (target ∈ Evms config) as Ht.
  { destruct (Hplan _ _ Hp) as [[-> _]|[? _]]; [apply parent_in|done]. }
  destruct (proj1 (EncodeReport_forwarded _ _ _ _ _ _ _ Hobs (chain_typed _ Ht) HE _) Hf)
    as (Hsel & _ & Hw & Hcd).
  assert (e = target) as -> by (by apply chain_unique).
  rewrite Hcd. split; [done|]. destruct (Hplan _ _ Hp) as [[-> Hc]|(_ & Hne & Hc)]; done.
Qed.

(** Progress: when the host does its part, the only planned report is signed. *)
Lemma decided_live_signed {R} plan observedAt what (t : list (Runtime.step (cre_eff R))) r target
    calldata payload :
  decided plan observedAt what t r → plan target calldata →
  (∀ tgt cd, plan tgt cd → tgt = target ∧ cd = calldata) →
  target ∈ Evms config → EncodeReport target observedAt calldata = Ok payload →
  Forall (responsive observedAt) t → payload ∈ signed t.
Proof.
  intros Hdec Hp Honly Hin HE Hlive.
  destruct Hdec as [(tgt & cd & Hplan & Hsub)|[Hno _]]; [|by destruct (Hno target calldata)].
  destruct (Honly _ _ Hplan) as [-> ->].
  destruct Hsub as (t0 & t1 & r1 & t2 & -> & _ & _ & [Hpay Hw Hres _ Hok] & _ & _ & _ & _).
  rewrite !Forall_app in Hlive. destruct Hlive as (_ & Hlive & _).
  assert (submittable target observedAt calldata) as Hs.
  { split; [|eauto]. pose proof (valid_chains _ HV) as Hc. rewrite Forall_forall in Hc.
    destruct (vc_gas _ (Hc _ Hin)) as [Hg0 Hg]. pose proof (tc_gas _ HTy) as Hu.
    rewrite Forall_forall in Hu. specialize (Hu _ Hin). unfold in_uint64 in Hu. lia. }
  apply Hres in Hok as (d & Hd & _); [|done..].
  pose proof (deliveries_writes t1) as Hdw. rewrite Hd in Hdw.
  destruct Hw as [Hw|(_ & _ & pl & rep & Hreps & _)]; [by rewrite Hw in Hdw|].
  destruct (Hpay (report_request pl)) as (pl' & HE' & Heq); [rewrite Hreps; left|].
  assert (pl' = payload) as -> by congruence. unfold signed.
  rewrite !reports_app, Hreps, !fmap_app, Heq. apply elem_of_app. right. left.
Qed.

(** The routers forward such a report within half an hour. *)
Lemma report_delivered target observedAt calldata payload now :
  in_int64 observedAt → target ∈ Evms config →
  EncodeReport target observedAt calldata = Ok payload →
  observedAt <= now <= observedAt + 1800 → forwarded target now payload = Some calldata.
Proof.
  intros Hobs Hin HE Hnow. unfold forwarded.
  by apply (EncodeReport_forwarded _ _ _ _ _ _ _ Hobs (chain_typed _ Hin) HE).
Qed.

Lemma nonce_uint256 s : ValidSnapshot s config →
  ∃ n, parent_vault.Nonce (rebalance s) = Some n ∧ is_uint256 n.
Proof.
  intros HS. destruct (vs_rebalance_nonce _ _ HS) as (n & Hn & ?). exists n. split; [exact Hn|].
  unfold is_uint256. lia.
Qed.

Lemma epoch_nonce_uint256 s n :
  ValidSnapshot s config → parent_vault.CurrentEpochNonce (Parent s) = Some n → is_uint256 n.
Proof.
  intros HS Hn. destruct (vs_epoch_nonce _ _ HS) as (n' & Hn' & ?). unfold is_uint256.
  assert (n' = n) as -> by congruence. lia.
Qed.

Lemma executing_uint256 s n : ValidSnapshot s config → executing s n → is_uint256 n.
Proof.
  intros HS (Hn & Hpos & _). apply (epoch_nonce_uint256 _ _ HS) in Hn.
  unfold is_uint256 in *. lia.
Qed.

Lemma protocol_id_length project : length (offchain.PoolToProtocolId project) = 32%nat.
Proof.
  unfold offchain.PoolToProtocolId. rewrite take_app_length' by apply Keccak256_length.
  apply Keccak256_length.
Qed.

(** The close handler only encodes a TVL that is a uint256. *)
Lemma calculateEpochClose_tvl epoch shares tvl dec loc acc :
  calculateEpochClose epoch shares tvl dec loc = Ok acc → ∃ t, tvl = Some t ∧ is_uint256 t.
Proof.
  unfold calculateEpochClose. intros Hc. apply fail_if_bind in Hc as [Hb _].
  rewrite !orb_false_iff in Hb. destruct Hb as [[_ Ht] _]. by apply negb_Uint256 in Ht.
Qed.

(** The cron plan initiates a move to an approved strategy. *)
Lemma initiate_explained s order codec best current target calldata :
  ValidSnapshot s config → (∀ m, order m ≡ₚ map_to_list m) → rebalance_due config s codec p →
  pools_from (newDefiLlamaConfig config) (parent_vault.ProtocolId (active s))
    (parent_vault.ChainSelector (active s)) best current →
  initiate_plan config s order codec p best current target calldata →
  target = p ∧ ∃ c, dispatch calldata = Some c ∧ justified s None c.
Proof.
  intros HS Hord (Hcodec & _ & Hnone & _) Hpools (b & sel & -> & -> & Hsel & _ & _ & Henc).
  split; [done|].
  apply (PoolToChainSelector_total order) in Hsel as (c & Hc & <- & _ & _);
    [|by apply rebalance_config_unambiguous|done].
  apply config_chain in Hc as (e & He & Hes & _). rewrite <-Hes in *.
  destruct (nonce_uint256 s HS) as (n & Hn & Hu). rewrite Hn in Henc.
  apply res_bind_Ok in Hcodec as (c0 & Hc0 & [= <-]).
  exists (Initiate n (parent_vault.mkTypesStrategy
    (offchain.PoolToProtocolId (offchain.Pool_Project b)) (ChainSelector e))). split.
  - eapply dispatch_initiate; [exact Hc0|done| | |exact Henc].
    + apply protocol_id_length.
    + by apply chain_typed.
  - constructor; [done|done|].
    exists (offchain.Pool_Project b), e. split_and!; [|done|done].
    by apply (approved_project _ _ (best_approved _ _ _ _ _ Hpools b eq_refl)).
Qed.

Lemma close_explained s target calldata :
  ValidSnapshot s config → close_plan config s target calldata →
  target = p ∧ ∃ c, dispatch calldata = Some c ∧ justified s None c.
Proof.
  intros HS (codec & n & o & tvl & dec & acc & Hcodec & Hpar & Hnone & Hn & _ & _ & _ & _ & Htvl
    & _ & Hcalc & Henc).
  split; [congruence|]. assert (target = p) as -> by congruence.
  apply calculateEpochClose_tvl in Hcalc as (t & -> & Ht).
  apply res_bind_Ok in Hcodec as (c0 & Hc0 & [= <-]).
  exists (Close n t). split; [|by constructor].
  eapply dispatch_close; [exact Hc0|by eapply epoch_nonce_uint256|done|exact Henc].
Qed.

Lemma withdraw_explained s log source target calldata :
  ValidSnapshot s config → withdraw_plan config s log source target calldata →
  target ∈ Evms config ∧ target ≠ p ∧
  ∃ c, child_dispatch calldata = Some c ∧ child_justified s target c.
Proof.
  intros HS (pc & cc & n & a & handled & q & w & d & Hpc & Hcc & Hdec & Hpar & _ & _ & Hex & Hw & Hd
    & Hpos & Hamt & Hne & Hfind & _ & _ & Henc).
  assert (q = p) as -> by congruence.
  destruct (remote_target _ _ Hfind Hne) as (Hin & Hnp & Hsel). split_and!; [done|done|].
  destruct (withdraw_decoded _ _ _ Hpc Hdec) as (n' & a' & [= <- <-] & _ & Ha).
  apply res_bind_Ok in Hcc as (c0 & Hc0 & [= <-]).
  exists (ExecuteWithdraw n a). split.
  - eapply dispatch_withdraw; [exact Hc0|by eapply executing_uint256|done|exact Henc].
  - by econstructor.
Qed.

Lemma deposit_explained s log source target calldata :
  ValidSnapshot s config → Epoch.complete_plan config s (Some log) source target calldata →
  target = p ∧ ∃ c, dispatch calldata = Some c ∧ justified s (Some (log, source)) c.
Proof.
  intros HS (pc & cc & n & a & mint & Hpc & Hcc & Hdec & Hpar & Hne & Hms & Hex & _ & Henc).
  split; [congruence|]. assert (target = p) as -> by congruence.
  destruct (Epoch.deposit_decoded _ _ _ Hcc Hdec) as (n' & a' & [= <- <-] & _ & Ha).
  apply res_bind_Ok in Hpc as (c0 & Hc0 & [= <-]).
  exists (CompleteDeposit n a). split; [|by econstructor].
  eapply dispatch_deposit; [exact Hc0|by eapply executing_uint256|done|exact Henc].
Qed.

Lemma execute_explained s log source target calldata :
  execute_plan config s log source target calldata →
  target ∈ Evms config ∧ target ≠ p ∧
  ∃ c, child_dispatch calldata = Some c ∧ child_justified s target c.
Proof.
  intros (pc & cc & q & evt & n & handled & dest & _ & Hcc & Hpar & _ & _ & _ & _ & _ & Hne & Hfind
    & _ & _ & _ & Henc).
  assert (q = p) as -> by congruence.
  destruct (remote_target _ _ Hfind Hne) as (Hin & Hnp & Hsel). split_and!; [done|done|].
  apply res_bind_Ok in Hcc as (c0 & Hc0 & [= <-]).
  exists ExecuteRebalance. split; [by eapply dispatch_execute|by constructor].
Qed.

Lemma complete_explained s ev log source target calldata :
  ValidSnapshot s config → complete_plan config s log source target calldata →
  target = p ∧ ∃ c, dispatch calldata = Some c ∧ justified s ev c.
Proof.
  intros HS (codec & n & a & Hcodec & Hpar & _ & Hst & Hn & _ & _ & Henc).
  split; [congruence|]. assert (target = p) as -> by congruence.
  destruct (nonce_uint256 s HS) as (n' & Hn' & Hu). assert (n' = n) as -> by congruence.
  apply res_bind_Ok in Hcodec as (c0 & Hc0 & [= <-]).
  exists (Complete n). split; [by eapply dispatch_complete|by constructor].
Qed.

(** Every report of every run is explained by what the run observed. *)
Lemma handler_run_explained s ev t : handler_run s ev t → Forall (explained s ev) (signed t).
Proof.
  intros Hrun.
  assert (∀ o : oracle eff, respects consensus_host o → respects typed_host o) as Htyped.
  { intros o HO h X c. apply (consensus_typed h), HO. }
  destruct Hrun as [order o HS Hobs HO Hord|log source o HS Hobs HO HLog
    |log source o HS Hobs HO HLog|o HS Hobs HO|log source o HS Hobs HO HLog
    |log source o HS Hobs HO HLog].
  - destruct (wp_seg_run consensus_host o _ _ HO (OnRebalanceCronTrigger_seg config s HTy HS Hobs order []))
      as [(codec & p' & t1 & t2 & fetch & Hdue & Ht & Hfetch & Hf)|[_ [[_ Hr] _]]];
      [|unfold signed; by rewrite Hr].
    rewrite Ht. unfold signed. rewrite reports_app, fmap_app. destruct (proj1 Hfetch) as [_ ->].
    destruct fetch as [pools|e|]; [|by destruct Hf as [-> _]|done].
    assert (p' = p) as -> by (destruct Hdue as (_ & Hpar & _); congruence).
    apply (decided_explained _ _ _ _ _ _ Hobs Hf). intros target cd Hplan. left.
    pose proof (fetched_fresh_pools _ _ _ _ _ Hfetch) as Hfrom.
    by eapply initiate_explained.
  - eapply (decided_explained _ _ _ _ _ _ Hobs).
    { exact (wp_seg_run typed_host o _ _ (Htyped o HO)
        (rebalance_initiated_seg SubmitReport config s HV HTy HS Hobs [] log source HLog)). }
    intros target cd Hplan. right. by eapply execute_explained.
  - eapply (decided_explained _ _ _ _ _ _ Hobs).
    { exact (wp_seg_run typed_host o _ _ (Htyped o HO)
        (rebalance_complete_seg SubmitReport config s HTy HS Hobs [] log source HLog)). }
    intros target cd Hplan. left. by eapply complete_explained.
  - eapply (decided_explained _ _ _ _ _ _ Hobs).
    { exact (wp_seg_run typed_host o _ _ (Htyped o HO)
        (epoch_cron_seg SubmitReport config s HV HTy HS Hobs [])). }
    intros target cd Hplan. left. by eapply close_explained.
  - eapply (decided_explained _ _ _ _ _ _ Hobs).
    { exact (wp_seg_run typed_host o _ _ (Htyped o HO)
        (epoch_withdraw_seg SubmitReport config s HV HTy HS Hobs [] log source HLog)). }
    intros target cd Hplan. right. by eapply withdraw_explained.
  - eapply (decided_explained _ _ _ _ _ _ Hobs).
    { exact (wp_seg_run typed_host o _ _ (Htyped o HO)
        (epoch_complete_seg SubmitReport config s HTy HS Hobs [] log source HLog)). }
    intros target cd Hplan. left. by eapply deposit_explained.
Qed.
End System.

(** ** A dispatcher for the sample ABI

    The sample ABI packs a selector and words; the selectors of the two rebalance
    calls of the parent end alike, and their lengths differ. *)
Module ToyDispatch.
#[local] Existing Instance SampleState.ethereum.
#[local] Existing Instance SampleState.sample_ethereum_laws.
Import ToyEthereum.

Definition selector (name : string) : bytes := fit 4 (to_bytes name).
Definition word_at (i : nat) (data : bytes) : Z := bytes_to_Z (take 32 (drop (4 + 32 * i) data)).

#[export] Instance toy_dispatch : VaultDispatch := {|
  dispatch data :=
    let sel := take 4 data in
    if bool_decide (sel = selector "initiateRebalance") then
      if Nat.eqb (length data) 36 then Some (Complete (word_at 0 data))
      else Some (Initiate (word_at 0 data)
             (parent_vault.mkTypesStrategy (take 32 (drop 36 data)) (word_at 2 data)))
    else if bool_decide (sel = selector "closeEpoch") then
      Some (Close (word_at 0 data) (word_at 1 data))
    else Some (CompleteDeposit (word_at 0 data) (word_at 1 data));
  child_dispatch data :=
    if bool_decide (take 4 data = selector "executeEpochWithdraw") then
      Some (ExecuteWithdraw (word_at 0 data) (word_at 1 data))
    else Some ExecuteRebalance |}.

Lemma Ok_inj {A} (a b : A) : Ok a = Ok b → a = b.
Proof. by intros [= ->]. Qed.

Lemma selector_packed name (b : bytes) : take 4 (selector name ++ b) = selector name.
Proof. apply take_app_length', fit_length. Qed.

(** The words of an encoded call. *)
Lemma word_at_first name n b : is_uint256 n → word_at 0 (selector name ++ word 32 n ++ b) = n.
Proof.
  intros Hn. unfold word_at, selector. cbn [Nat.add Nat.mul].
  rewrite (drop_app_length' (fit 4 (to_bytes name)) _ 4) by apply fit_length.
  rewrite (take_app_length' (word 32 n)) by apply word_length. rewrite bytes_to_Z_word.
  by apply Z.mod_small.
Qed.

Lemma word_at_later name n i b :
  word_at (S i) (selector name ++ word 32 n ++ b) = word_at i (selector name ++ b).
Proof.
  unfold word_at, selector. replace (4 + 32 * S i)%nat with (4 + (32 + 32 * i))%nat by lia.
  rewrite <-!(drop_drop _ _ 4), !(drop_app_length' (fit 4 _)) by apply fit_length.
  by rewrite <-(drop_drop _ _ 32), drop_app_length' by apply word_length.
Qed.

#[export] Instance toy_dispatch_laws : VaultDispatchLaws.
Proof.
  split.
  - intros c n [pid sel] data _ Hn Hpid Hsel Hd. cbn in Hpid, Hsel.
    change (Ok (selector "initiateRebalance" ++ word 32 n ++ (pid ++ word 32 sel ++ []) ++ [])
      = Ok data) in Hd. apply Ok_inj in Hd as <-. rewrite !app_nil_r.
    unfold dispatch, toy_dispatch. rewrite selector_packed, bool_decide_true by done.
    rewrite word_at_first by done. change 2%nat with (S 1). rewrite word_at_later.
    unfold selector in *. rewrite !length_app, !word_length, fit_length, Hpid. cbn [Nat.eqb Nat.add].
    unfold word_at. rewrite (app_assoc _ (word 32 n)), (drop_app_length' _ _ 36)
      by (rewrite !length_app, ?word_length, fit_length; done).
    rewrite take_app_length' by done.
    rewrite (app_assoc _ pid), (drop_app_length' _ _ (4 + 32 * 1))
      by (rewrite !length_app, fit_length, Hpid; done).
    rewrite firstn_all2 by (rewrite word_length; done). rewrite bytes_to_Z_word, Z.mod_small; [done|].
    unfold in_uint64 in Hsel. lia.
  - intros c n data _ Hn Hd. change (Ok (selector "completeRebalance" ++ word 32 n ++ []) = Ok data) in Hd.
    apply Ok_inj in Hd as <-. unfold dispatch, toy_dispatch.
    rewrite selector_packed, bool_decide_true by reflexivity. rewrite word_at_first by done.
    unfold selector. rewrite !length_app, word_length, fit_length. done.
  - intros c n t data _ Hn Ht Hd.
    change (Ok (selector "closeEpoch" ++ word 32 n ++ word 32 t ++ []) = Ok data) in Hd.
    apply Ok_inj in Hd as <-. unfold dispatch, toy_dispatch.
    rewrite selector_packed, bool_decide_false, bool_decide_true by (done || (intros Hs; vm_compute in Hs; discriminate)).
    by rewrite word_at_later, !word_at_first.
  - intros c n a data _ Hn Ha Hd.
    change (Ok (selector "completeEpochDeposit" ++ word 32 n ++ word 32 a ++ []) = Ok data) in Hd.
    apply Ok_inj in Hd as <-. unfold dispatch, toy_dispatch.
    rewrite selector_packed, !bool_decide_false by (intros Hs; vm_compute in Hs; discriminate).
    by rewrite word_at_later, !word_at_first.
  - intros c n a data _ Hn Ha Hd.
    change (Ok (selector "executeEpochWithdraw" ++ word 32 n ++ word 32 a ++ []) = Ok data) in Hd.
    apply Ok_inj in Hd as <-. unfold child_dispatch, toy_dispatch.
    rewrite selector_packed, bool_decide_true by done. by rewrite word_at_later, !word_at_first.
  - intros c n [pid sel] data _ Hd.
    change (Ok (selector "executeRebalance" ++ word 32 n ++ (pid ++ word 32 sel ++ []) ++ [])
      = Ok data) in Hd. apply Ok_inj in Hd as <-. unfold child_dispatch, toy_dispatch.
    by rewrite selector_packed, bool_decide_false by (intros Hs; vm_compute in Hs; discriminate).
Qed.
End ToyDispatch.
