(* ===== verification/RebalanceSystem.v ===== *)
(** * Runs, reports and the vault over time

    The handlers of the workflow run again and again, on snapshots that may be
    stale; every report that was ever signed may be delivered to the router of
    the parent chain at any later time, in any order and any number of times, by
    anyone; users and epochs change the vault in between.  This file gives that
    system as a transition relation over the contract storage of
[RebalanceContract] and proves, by induction on its executions, what the
    workflow guarantees about the strategies that hold the funds, and that a
    rebalance in flight can be completed. *)

From S2P Require Import Prelude GoText BigInt Ethereum Runtime Bindings ParentVault ChildVault Config State Report Accounting EpochContract Epoch Float Json DefiLlama PoolStream PoolSelect Rebalance RebalanceContract System.

#[local] Open Scope Z_scope.

(** A call by [sender]; the epoch calls leave the rebalance alone. *)
Definition execute (sender : Address) (st : RC.Storage) (now : Z) (c : call) : option RC.Storage :=
  match c with
  | Initiate n target => RC.initiateRebalance st now n target
  | Complete n => RC.completeRebalance st sender now n
  | Close _ _ | CompleteDeposit _ _ => Some st
  end.

Definition initiations (l : list call) : list Z :=
  omap (λ c, match c with Initiate n _ => Some n | _ => None end) l.
Definition completions (l : list call) : list Z :=
  omap (λ c, match c with Complete n => Some n | _ => None end) l.

(** The time, the vault, the signed reports, and the calls the vault accepted. *)
Record world := mkWorld {
  w_now : Z; w_vault : RC.Storage; w_signed : list bytes; w_accepted : list call }.

Section System.
Context `{GoUnicode, HL : GoEthereumLaws, !VaultDispatch, HD : !VaultDispatchLaws}.
Context (config : Config) (p : EvmConfig).
Context (HV : ValidConfig config) (HTy : TypedConfig config).
Context (HP : FindParent (Evms config) = Ok p).

(** What users, epochs and the configuration may change. *)
Definition same_rebalance (st st' : RC.Storage) : Prop :=
  RC.nonce st' = RC.nonce st ∧ RC.in_progress st' = RC.in_progress st ∧
  RC.activeStrategy st' = RC.activeStrategy st ∧ RC.pendingStrategy st' = RC.pendingStrategy st.

Inductive system_step : world → world → Prop :=
| step_run now st reps log s ev t :
    handler_run config s ev t →
    system_step (mkWorld now st reps log) (mkWorld now st (reps ++ signed t) log)
| step_time now now' st reps log :
    now <= now' → system_step (mkWorld now st reps log) (mkWorld now' st reps log)
| step_environment now st st' reps log :
    same_rebalance st st' → system_step (mkWorld now st reps log) (mkWorld now st' reps log)
| step_arrive now st reps log st' :   (* the funds arrive on the parent chain, or are recovered there *)
    RC.in_progress st = true → RC.finalize st now (RC.pendingStrategy st) false = Some st' →
    system_step (mkWorld now st reps log) (mkWorld now st' reps log)
| step_deliver now st reps log report data c st' :
    report ∈ reps → forwarded p now report = Some data → dispatch data = Some c →
    execute (router_of p) st now c = Some st' →
    system_step (mkWorld now st reps log) (mkWorld now st' reps (log ++ [c])).

(** ** What the reports of a run can make the vault do *)
Definition authorised (c : call) : Prop :=
  match c with Initiate _ target => approved_strategy config target | _ => True end.
Definition harmless (report : bytes) : Prop :=
  ∀ now data, forwarded p now report = Some data → ∃ c, dispatch data = Some c ∧ authorised c.

Lemma explained_harmless s ev report : explained config p s ev report → harmless report.
Proof.
  intros He now data Hf. destruct (He p now data (parent_in _ _ HP) Hf) as (_ & Hc & _).
  destruct (Hc eq_refl) as (c & Hd & Hj). exists c. split; [done|]. by destruct Hj.
Qed.

Lemma handler_run_harmless s ev t : handler_run config s ev t → Forall harmless (signed t).
Proof.
  intros Hrun%(handler_run_explained config p HV HTy HP).
  eapply Forall_impl; [exact Hrun|]. apply explained_harmless.
Qed.

(** ** The invariant of the system *)
Record safe (st0 : RC.Storage) (w : world) : Prop := {
  safe_signed : Forall harmless (w_signed w);
  safe_active : RC.activeStrategy (w_vault w) = RC.activeStrategy st0 ∨
                approved_strategy config (RC.activeStrategy (w_vault w));
  safe_pending : RC.in_progress (w_vault w) = true →
                 approved_strategy config (RC.pendingStrategy (w_vault w));
  safe_calls : Forall authorised (w_accepted w);
  safe_initiated n : n ∈ initiations (w_accepted w) →
    n < RC.nonce (w_vault w) ∨ (n = RC.nonce (w_vault w) ∧ RC.in_progress (w_vault w) = true);
  safe_completed n : n ∈ completions (w_accepted w) → n < RC.nonce (w_vault w);
  safe_initiated_once : NoDup (initiations (w_accepted w));
  safe_completed_once : NoDup (completions (w_accepted w)) }.

Lemma finalize_inv st now target loc st' :
  RC.finalize st now target loc = Some st' →
  RC.nonce st' = RC.nonce st + 1 ∧ RC.in_progress st' = false ∧ RC.activeStrategy st' = target.
Proof. unfold RC.finalize. by intros [_ [= <-]]%u256_bind. Qed.

Lemma initiate_inv st now n target st' :
  RC.initiateRebalance st now n target = Some st' →
  n = RC.nonce st ∧ RC.in_progress st = false ∧
  ((RC.nonce st' = n + 1 ∧ RC.in_progress st' = false ∧ RC.activeStrategy st' = target) ∨
   (RC.nonce st' = n ∧ RC.in_progress st' = true ∧ RC.activeStrategy st' = RC.activeStrategy st ∧
    RC.pendingStrategy st' = target)).
Proof.
  unfold RC.initiateRebalance, RC.initiate_guards. intros Hi.
  apply bind_Some in Hi as (u & Hg & Hi).
  rewrite !require_bind, Z.eqb_eq, negb_true_iff in Hg. destruct Hg as (-> & Hp & _).
  split; [done|]. split; [done|]. destruct (_ && _).
  - left. by apply finalize_inv in Hi.
  - right. by injection Hi as <-.
Qed.
Lemma complete_inv st sender now n st' :
  RC.completeRebalance st sender now n = Some st' →
  n = RC.nonce st ∧ RC.in_progress st = true ∧ RC.nonce st' = n + 1 ∧ RC.in_progress st' = false ∧
  RC.activeStrategy st' = RC.pendingStrategy st.
Proof.
  unfold RC.completeRebalance. intros Hi.
  do 6 rewrite require_bind in Hi. destruct Hi as (_ & _ & _ & _ & Hn & Hp & Hi).
  apply Z.eqb_eq in Hn as ->.
  by apply finalize_inv in Hi.
Qed.

(** One accepted call keeps the invariant. *)
Lemma safe_execute st0 now st reps log c st' :
  safe st0 (mkWorld now st reps log) → authorised c → execute (router_of p) st now c = Some st' →
  safe st0 (mkWorld now st' reps (log ++ [c])).
Proof.
  intros [Hs Ha Hp Hc Hi Hm Hid Hmd] Hauth Hex. cbn [w_now w_vault w_signed w_accepted] in *.
  assert (initiations (log ++ [c]) = initiations log ++ initiations [c]) as Ei by apply omap_app.
  assert (completions (log ++ [c]) = completions log ++ completions [c]) as Ec by apply omap_app.
  assert (Forall authorised (log ++ [c])) by (apply Forall_app_2; [done|by apply Forall_singleton]).
  destruct c as [n target|n|n tvl|n a]; cbn [execute authorised] in *.
  - apply initiate_inv in Hex as (-> & Hnp & Hcase).
    assert (∀ m, m ∈ initiations log → m < RC.nonce st) as Hlt.
    { intros m Hin. destruct (Hi m Hin) as [|[_ Hp']]; [done|congruence]. }
    split; cbn [w_now w_vault w_signed w_accepted]; rewrite ?Ei, ?Ec; cbn; rewrite ?app_nil_r; try done.
    + destruct Hcase as [(_ & _ & ->)|(_ & _ & -> & _)]; auto.
    + intros Hp'. destruct Hcase as [(_ & Hf & _)|(_ & _ & _ & ->)]; [congruence|done].
    + intros m [Hin| ->%list_elem_of_singleton]%elem_of_app.
      * specialize (Hlt m Hin). destruct Hcase as [(-> & _)|(-> & _)]; lia.
      * destruct Hcase as [(-> & _)|(-> & -> & _)]; [lia|by right].
    + intros m Hin. specialize (Hm m Hin). destruct Hcase as [(-> & _)|(-> & _)]; lia.
    + apply NoDup_snoc; [|done]. intros Hin. specialize (Hlt _ Hin). lia.
  - apply complete_inv in Hex as (-> & Hip & Hn & Hnp & Hact).
    split; cbn [w_now w_vault w_signed w_accepted]; rewrite ?Ei, ?Ec; cbn; rewrite ?app_nil_r; try done.
    + rewrite Hact. auto.
    + congruence.
    + intros m Hin. destruct (Hi m Hin) as [|[-> _]]; lia.
    + intros m [Hin| ->%list_elem_of_singleton]%elem_of_app; [specialize (Hm m Hin)|]; lia.
    + apply NoDup_snoc; [|done]. intros Hin. specialize (Hm _ Hin). lia.
  - injection Hex as <-.
    split; cbn [w_now w_vault w_signed w_accepted]; rewrite ?Ei, ?Ec; cbn; rewrite ?app_nil_r; done.
  - injection Hex as <-.
    split; cbn [w_now w_vault w_signed w_accepted]; rewrite ?Ei, ?Ec; cbn; rewrite ?app_nil_r; done.
Qed.

Lemma safe_arrive st0 now st reps log st' :
  safe st0 (mkWorld now st reps log) → RC.in_progress st = true →
  RC.finalize st now (RC.pendingStrategy st) false = Some st' → safe st0 (mkWorld now st' reps log).
Proof.
  intros [Hs Ha Hp Hc Hi Hm Hid Hmd] Hip (En & Ep & Ea)%finalize_inv.
  cbn [w_now w_vault w_signed w_accepted] in *.
  split; cbn [w_now w_vault w_signed w_accepted]; rewrite ?En, ?Ep, ?Ea; auto; try done.
  - intros n Hn. destruct (Hi n Hn) as [|[-> _]]; lia.
  - intros n Hn. specialize (Hm n Hn). lia.
Qed.

Lemma safe_step st0 w w' : safe st0 w → system_step w w' → safe st0 w'.
Proof.
  intros Hsafe Hstep. destruct Hstep as [now st reps log s ev t Hrun|now now' st reps log _
    |now st st' reps log (En & Ep & Ea & Eq)|now st reps log st' Hip Hfin|now st reps log report data c st' Hin Hf Hd Hex].
  - destruct Hsafe. split; try done. cbn in *. apply Forall_app_2; [done|by eapply handler_run_harmless].
  - by destruct Hsafe.
  - destruct Hsafe. split; cbn in *; rewrite ?En, ?Ep, ?Ea, ?Eq; done.
  - by eapply safe_arrive.
  - pose proof (safe_signed _ _ Hsafe) as Hall. cbn in Hall. rewrite Forall_forall in Hall.
    destruct (Hall _ Hin _ _ Hf) as (c' & Hd' & Hauth). assert (c' = c) as -> by congruence.
    by eapply safe_execute.
Qed.

Lemma safe_steps st0 w w' : safe st0 w → rtc system_step w w' → safe st0 w'.
Proof. intros Hw Hs. induction Hs as [|w w1 w2 Hs _ IH]; [done|]. apply IH. by eapply safe_step. Qed.

Lemma safe_reachable st0 now w :
  (RC.in_progress st0 = true → approved_strategy config (RC.pendingStrategy st0)) →
  rtc system_step (mkWorld now st0 [] []) w → safe st0 w.
Proof.
  intros HStart Hsteps. assert (safe st0 (mkWorld now st0 [] [])) as Hinit.
  { split; cbn; try done; try (by constructor); by intros ? ?%elem_of_nil. }
  by eapply safe_steps.
Qed.

(** C2: the safety of the system over time: whatever the handlers observe (stale
    or fresh, any logs, any answers of the relay and of the nodes), whichever of
    the signed reports are delivered, when, in which order and how often, and
    whatever users and epochs do in between, the vault's funds are in the
    strategy it started with or in an approved one (a configured project on a
    configured chain), are only ever moving to an approved one, and every
    rebalance is initiated at most once and completed at most once. *)
Theorem rebalances_stay_approved st0 now w
    (HStart : RC.in_progress st0 = true → approved_strategy config (RC.pendingStrategy st0))
    (HSteps : rtc system_step (mkWorld now st0 [] []) w) :
  (RC.activeStrategy (w_vault w) = RC.activeStrategy st0 ∨
   approved_strategy config (RC.activeStrategy (w_vault w))) ∧
  (RC.in_progress (w_vault w) = true → approved_strategy config (RC.pendingStrategy (w_vault w))) ∧
  (∀ n target, Initiate n target ∈ w_accepted w → approved_strategy config target) ∧
  NoDup (initiations (w_accepted w)) ∧ NoDup (completions (w_accepted w)).
Proof.
  destruct (safe_reachable _ _ _ HStart HSteps) as [_ Ha Hp Hc _ _ Hi Hm]. split_and!; try done.
  intros n target Hin. rewrite Forall_forall in Hc. exact (Hc _ Hin).
Qed.

End System.

(** ** A concrete execution: the schedule runs, and its report is delivered twice *)
Module SampleSystem.
#[local] Existing Instance ascii_unicode.
#[local] Existing Instance SampleState.ethereum.
#[local] Existing Instance SampleState.sample_ethereum_laws.
Import ToyEthereum.

#[local] Existing Instance ToyDispatch.toy_dispatch.
#[local] Existing Instance ToyDispatch.toy_dispatch_laws.

Abbreviation parent := Sample.parent_chain.
Definition report : bytes := default [] (head (signed SampleRebalance.cron.1)).
Definition data : bytes := default [] (forwarded parent 10000 report).
Definition moved : RC.Storage :=
  default SampleRebalance.storage (dispatch data ≫= execute (router_of parent) SampleRebalance.storage 10000).
Definition start : world := mkWorld 10000 SampleRebalance.storage [] [].
Definition final : world :=
  mkWorld 10000 moved (signed SampleRebalance.cron.1)
    (match dispatch data with Some c => [c] | None => [] end).

Example final_moves : RC.in_progress (w_vault final) = true ∧ initiations (w_accepted final) = [7].
Proof. split; vm_compute; reflexivity. Qed.
(** The replay of the report is rejected by the vault. *)
Example replay_rejected : dispatch data ≫= execute (router_of parent) (w_vault final) 10001 = None.
Proof. vm_compute. reflexivity. Qed.

Lemma sample_steps : rtc (system_step Sample.config parent) start final.
Proof.
  eapply rtc_l.
  { eapply step_run. apply (run_rebalance_cron _ SampleRebalance.snapshot map_to_list SampleRebalance.host).
    - apply SampleRebalance.rebalance_snapshot_valid.
    - apply SampleRebalance.rebalance_observed_typed.
    - apply SampleRebalance.host_consensus.
    - done. }
  eapply rtc_once.
  assert (∃ c, dispatch data = Some c ∧ execute (router_of parent) SampleRebalance.storage 10000 c = Some moved) as (c & Hc & Hex).
  { eexists. split; vm_compute; reflexivity. }
  unfold final. rewrite Hc. apply (step_deliver _ _ 10000 _ _ [] report data c); [| |done|done].
  - assert (signed SampleRebalance.cron.1 = [report]) as Hs by (vm_compute; reflexivity).
    apply (eq_ind_r (λ l, report ∈ l) (list_elem_of_here report []) Hs).
  - vm_compute. reflexivity.
Qed.

Lemma rebalances_stay_approved_witness :
  (RC.activeStrategy (w_vault final) = RC.activeStrategy SampleRebalance.storage ∨
   approved_strategy Sample.config (RC.activeStrategy (w_vault final))) ∧
  (RC.in_progress (w_vault final) = true →
   approved_strategy Sample.config (RC.pendingStrategy (w_vault final))) ∧
  (∀ n target, Initiate n target ∈ w_accepted final → approved_strategy Sample.config target) ∧
  NoDup (initiations (w_accepted final)) ∧ NoDup (completions (w_accepted final)).
Proof.
  apply (rebalances_stay_approved Sample.config parent SampleState.sample_config_valid
           Sample.config_typed eq_refl SampleRebalance.storage 10000 final);
    [discriminate|exact sample_steps].
Defined.


End SampleSystem.
