(* ===== verification/EpochSystem.v ===== *)
(** * The epochs over time

    The transition system of the epoch cycle: runs of the handlers on snapshots
    of earlier states of the vaults, the users' deposits and withdrawals,
    rebalances, the gains of the strategies, the arrival of remote withdrawals, the
    deposits of the child vaults, and the delivery of any signed report to the router of its chain, at
    any time, in any order and any number of times.  The contract's side is
    [ParentVaultEpochLib] and [ChildVault.executeEpochWithdraw] on the storage
    that [getParentOperationalState] and [getChildOperationalState] expose.  The
    theorem: every epoch settles once, with the amounts at which it was closed. *)

From S2P Require Import Prelude GoText BigInt Ethereum Runtime Bindings ParentVault ChildVault Config State Report Accounting EpochContract Epoch Float Json DefiLlama PoolStream PoolSelect Rebalance RebalanceContract System.

#[local] Open Scope Z_scope.

(** ** What the accepted calls do to the storage *)
Module EpochStorage.
Import ParentVaultEpochLib.

Definition status_of (action : ExternalAction) : EpochStatus :=
  match action with
  | SEND_DEPOSIT_TO_REMOTE_STRATEGY | WAIT_FOR_REMOTE_WITHDRAW => EXECUTING
  | _ => CLAIMABLE
  end.

(** The closed epoch; a local withdrawal returns [out] in the same transaction. *)
Definition settled_epoch (e : Epoch) (a : Accounting) (action : ExternalAction) (out : Z)
    : option Epoch :=
  claim ← match action with
          | WITHDRAW_FROM_LOCAL_STRATEGY => u256 (totalDepositAmount e + out)
          | _ => Some (totalWithdraw a)
          end;
  Some (mkEpoch (totalDepositAmount e) (totalShareBurnAmount e) claim (newShares a)
          (openedAtTimestamp e) (status_of action)).

(** [ParentVault.closeEpoch]: settle, act, and open the next epoch. *)
Definition close (st : Storage) (now n tvl out : Z) : option Storage :=
  '(a, action) ← closeEpoch st now n tvl;
  e ← settled_epoch (current st) a action out;
  next ← u256 (s_epochNonce st + 1);
  Some (mkStorage next (rebalancing st) (mkEpoch 0 0 0 0 now OPEN) e (totalShares a)
          (assetPrecision st) (isLocalStrategy st)).

(** [ParentVault.completeEpochDeposit] *)
Definition complete (st : Storage) (n actual : Z) : option Storage :=
  '(mint, shares) ← completeEpochDeposit st n actual;
  let e := previous st in
  Some (mkStorage (s_epochNonce st) (rebalancing st) (current st)
          (mkEpoch (totalDepositAmount e) (totalShareBurnAmount e) (totalWithdrawClaimAmount e) mint
             (openedAtTimestamp e) CLAIMABLE)
          shares (assetPrecision st) (isLocalStrategy st)).

(** [ParentVaultCcipLib._handleEpochNetWithdraw]: a remote withdrawal arrives. *)
Definition receive_withdraw (st : Storage) (n received : Z) : option Storage :=
  let e := previous st in
  _ ← require (n =? s_epochNonce st - 1);
  _ ← require (totalDepositAmount e <? totalWithdrawClaimAmount e);
  claim ← u256 (totalDepositAmount e + received);
  _ ← require (bool_decide (status e = EXECUTING));
  Some (mkStorage (s_epochNonce st) (rebalancing st) (current st)
          (mkEpoch (totalDepositAmount e) (totalShareBurnAmount e) claim (remainingShareMintAmount e)
             (openedAtTimestamp e) CLAIMABLE)
          (s_totalShares st) (assetPrecision st) (isLocalStrategy st)).

(** Users change the amounts of the open epoch and claim shares of a claimable one. *)
Definition users (st st' : Storage) : Prop :=
  ∃ deposit burn mint,
    (status (previous st) = EXECUTING → mint = remainingShareMintAmount (previous st)) ∧
    st' = mkStorage (s_epochNonce st) (rebalancing st)
            (mkEpoch deposit burn (totalWithdrawClaimAmount (current st))
               (remainingShareMintAmount (current st)) (openedAtTimestamp (current st))
               (status (current st)))
            (mkEpoch (totalDepositAmount (previous st)) (totalShareBurnAmount (previous st))
               (totalWithdrawClaimAmount (previous st)) mint (openedAtTimestamp (previous st))
               (status (previous st)))
            (s_totalShares st) (assetPrecision st) (isLocalStrategy st).

(** A rebalance starts, moves the strategy or ends (with its fee shares): never
    while an epoch is executing. *)
Definition rebalances (st st' : Storage) : Prop :=
  status (previous st) ≠ EXECUTING ∧
  ∃ moving shares isLocal,
    st' = mkStorage (s_epochNonce st) moving (current st) (previous st) shares
            (assetPrecision st) isLocal.
End EpochStorage.
Module ES := EpochStorage.

(** An amount that an epoch moved into or out of the strategy of a chain. *)
Record transfer := mkTransfer { tr_chain : Z; tr_nonce : Z; tr_amount : Z }.

(** A closed epoch: when it was closed, at which TVL, the chain of the strategy
    and the epoch as the closing left it. *)
Record closing := mkClosing {
  cl_nonce : Z; cl_time : Z; cl_tvl : Z; cl_chain : Z; cl_epoch : C.Epoch }.

(** What the closed epoch takes out of the strategy (negative: brings in). *)
Definition net_withdraw (cl : closing) : Z :=
  C.totalWithdrawClaimAmount (cl_epoch cl) - C.totalDepositAmount (cl_epoch cl).

(** What the vaults showed at a time: the parent vault, the chain of its active
    strategy, and the TVL that the vault of each chain reported. *)
Record view := mkView { v_time : Z; v_vault : C.Storage; v_chain : Z; v_tvl : Z → Z }.

(** The present view and all earlier ones; per child chain the last handled epoch
    nonce; the deposits the children reported; the signed reports; and what the
    vaults did on the workflow's calls. *)
Record world := mkWorld {
  w_view : view; w_history : list view;
  w_handled : Z → Z; w_deposited : list transfer; w_signed : list bytes;
  w_closed : list closing; w_withdrawn : list transfer; w_completed : list transfer }.
Definition w_now (w : world) : Z := v_time (w_view w).
Definition w_vault (w : world) : C.Storage := v_vault (w_view w).
Definition w_chain (w : world) : Z := v_chain (w_view w).
Definition w_tvl (w : world) : Z → Z := v_tvl (w_view w).

Definition handle (chain n : Z) (handled : Z → Z) : Z → Z :=
  λ c, if c =? chain then n else handled c.

Definition begin (now : Z) (st : C.Storage) (chain : Z) (tvl handled : Z → Z) : world :=
  mkWorld (mkView now st chain tvl) [mkView now st chain tvl] handled [] [] [] [] [].

(** The world moves on to a view, which every later run may be shown. *)
Definition show (v : view) (w : world) : world :=
  mkWorld v (w_history w ++ [v]) (w_handled w) (w_deposited w) (w_signed w)
    (w_closed w) (w_withdrawn w) (w_completed w).
Definition set_now (now : Z) (w : world) : world :=
  show (mkView now (w_vault w) (w_chain w) (w_tvl w)) w.
Definition set_vault (st : C.Storage) (chain : Z) (w : world) : world :=
  show (mkView (w_now w) st chain (w_tvl w)) w.
Definition set_tvl (tvl : Z → Z) (w : world) : world :=
  show (mkView (w_now w) (w_vault w) (w_chain w) tvl) w.
Definition set_handled (handled : Z → Z) (w : world) : world :=
  mkWorld (w_view w) (w_history w) handled (w_deposited w) (w_signed w)
    (w_closed w) (w_withdrawn w) (w_completed w).
Definition add_deposits (l : list transfer) (w : world) : world :=
  mkWorld (w_view w) (w_history w) (w_handled w) (w_deposited w ++ l)
    (w_signed w) (w_closed w) (w_withdrawn w) (w_completed w).
Definition add_signed (l : list bytes) (w : world) : world :=
  mkWorld (w_view w) (w_history w) (w_handled w) (w_deposited w)
    (w_signed w ++ l) (w_closed w) (w_withdrawn w) (w_completed w).
Definition add_closed (cl : closing) (w : world) : world :=
  mkWorld (w_view w) (w_history w) (w_handled w) (w_deposited w)
    (w_signed w) (w_closed w ++ [cl]) (w_withdrawn w) (w_completed w).
Definition add_withdrawn (t : transfer) (w : world) : world :=
  mkWorld (w_view w) (w_history w) (w_handled w) (w_deposited w)
    (w_signed w) (w_closed w) (w_withdrawn w ++ [t]) (w_completed w).
Definition add_completed (t : transfer) (w : world) : world :=
  mkWorld (w_view w) (w_history w) (w_handled w) (w_deposited w)
    (w_signed w) (w_closed w) (w_withdrawn w) (w_completed w ++ [t]).

Create HintDb epochs.

Section System.
Context `{GoUnicode, HL : GoEthereumLaws, !VaultDispatch, HD : !VaultDispatchLaws}.
Context (config : Config) (p : EvmConfig).
Context (HV : ValidConfig config) (HTy : TypedConfig config).
Context (HP : FindParent (Evms config) = Ok p).

(** How far, in seconds, the states that the host reads may lag behind its clock. *)
Context (lag : Z).

(** A snapshot shows the parent vault as it was at some earlier time. *)
Definition observed (w : world) (s : Snapshot) : Prop :=
  ∃ v, v ∈ w_history w ∧ v_chain v = activeChain s ∧ represents config s p (v_vault v).

(** The snapshot of a scheduled run shows every vault as it was at most [lag]
    before its time, each with the TVL it reported then; the vaults may be shown
    at different times.  Runs on an event do not look at a TVL: for them nothing
    is asked beyond [observed]. *)
Definition recent (s : Snapshot) (v : view) : Prop :=
  ObservedAt s - lag <= v_time v <= ObservedAt s.
Definition shown (w : world) (s : Snapshot) : Prop :=
  (∃ v, v ∈ w_history w ∧ recent s v ∧ v_chain v = activeChain s ∧
     represents config s p (v_vault v) ∧
     parent_vault.Tvl (Parent s) = Some (v_tvl v (ChainSelector p))) ∧
  (∀ chain c, Children s !! chain = Some c →
     ∃ v, v ∈ w_history w ∧ recent s v ∧ child_vault.Tvl c = Some (v_tvl v chain)).

(** A deposit event that carries the address of a child vault was emitted by it. *)
Definition genuine (w : world) (ev : event) : Prop :=
  ∀ log source chain codec n a,
    ev = Some (log, source) → MatchSource config (Some log) source chain = true →
    chain ≠ ChainSelector p → Epoch.newChildCodec = Ok codec →
    DecodeEpochDepositToStrategySuccess codec (Some log)
      = Ok (child_vault.mkEpochDepositToStrategySuccessDecoded (Some n) (Some a)) →
    mkTransfer chain n a ∈ w_deposited w.

Inductive system_step (w : world) : world → Prop :=
| step_run s ev t :
    handler_run config s ev t → observed w s → genuine w ev → (ev = None → shown w s) →
    system_step w (add_signed (signed t) w)
| step_time now : w_now w <= now → system_step w (set_now now w)
| step_gains tvl : system_step w (set_tvl tvl w)
| step_users st : ES.users (w_vault w) st → system_step w (set_vault st (w_chain w) w)
| step_rebalance st chain : ES.rebalances (w_vault w) st → system_step w (set_vault st chain w)
| step_receive n received st :
    ES.receive_withdraw (w_vault w) n received = Some st →
    system_step w (set_vault st (w_chain w) w)
| step_child handled l :
    (∀ c, w_handled w c <= handled c) → system_step w (add_deposits l (set_handled handled w))
| step_close report data n tvl out st :
    report ∈ w_signed w → forwarded p (w_now w) report = Some data →
    dispatch data = Some (Close n tvl) → ES.close (w_vault w) (w_now w) n tvl out = Some st →
    system_step w (add_closed (mkClosing n (w_now w) tvl (w_chain w) (C.previous st))
                     (set_vault st (w_chain w) w))
| step_complete report data n a st :
    report ∈ w_signed w → forwarded p (w_now w) report = Some data →
    dispatch data = Some (CompleteDeposit n a) → ES.complete (w_vault w) n a = Some st →
    system_step w (add_completed (mkTransfer (w_chain w) n a) (set_vault st (w_chain w) w))
| step_withdraw e report data n a :
    report ∈ w_signed w → e ∈ Evms config → e ≠ p →
    forwarded e (w_now w) report = Some data →
    child_dispatch data = Some (ExecuteWithdraw n a) →
    w_handled w (ChainSelector e) < n → a ≠ 0 →
    system_step w (add_withdrawn (mkTransfer (ChainSelector e) n a)
                     (set_handled (handle (ChainSelector e) n (w_handled w)) w)).

(** ** Observations stay valid *)
Definition extends (w w' : world) : Prop :=
  w_history w ⊆ w_history w' ∧ w_deposited w ⊆ w_deposited w'.

Lemma observed_extends w w' s : extends w w' → observed w s → observed w' s.
Proof. intros [Hh _] (v & Hin & Hv). exists v. split; [by apply Hh|done]. Qed.
Lemma shown_extends w w' s : extends w w' → shown w s → shown w' s.
Proof.
  intros [Hh _] [(v & Hin & Hv) Hc]. split; [exists v; split; [by apply Hh|done]|].
  intros chain c (u & Hu & Hcu)%Hc. exists u. split; [by apply Hh|done].
Qed.
Lemma genuine_extends w w' ev : extends w w' → genuine w ev → genuine w' ev.
Proof. intros [_ Hd] Hg log source chain codec n a E1 E2 E3 E4 E5. by eapply Hd, Hg. Qed.

(** A report that some run on an observation had signed. *)
Definition grounded (w : world) (report : bytes) : Prop :=
  ∃ s ev, observed w s ∧ genuine w ev ∧ (ev = None → shown w s) ∧ explained config p s ev report.

Lemma grounded_extends w w' r : extends w w' → grounded w r → grounded w' r.
Proof.
  intros Hw (s & ev & Ho & Hg & Hs & He). exists s, ev.
  split_and!; [by eapply observed_extends|by eapply genuine_extends| |done].
  intros Hev. by eapply shown_extends; [|apply Hs].
Qed.

Lemma executing_storage s st n :
  represents config s p st → executing s n →
  n = C.s_epochNonce st - 1 ∧ C.status (C.previous st) = C.EXECUTING.
Proof.
  intros Hrep (Hn & _ & Hst). rewrite (rep_nonce _ _ _ _ Hrep) in Hn. injection Hn as Hn.
  split; [lia|]. by apply (status_is _ _ (rep_previous _ _ _ _ Hrep)).
Qed.

(** ** What the calls do *)
Lemma close_inv st now n tvl out st' :
  ES.close st now n tvl out = Some st' →
  n = C.s_epochNonce st ∧ C.s_epochNonce st' = n + 1.
Proof.
  unfold ES.close, C.closeEpoch. intros Hc. apply bind_Some in Hc as ([a act] & Hcl & Hc).
  apply bind_Some in Hcl as (u & Hg & _). apply bind_Some in Hc as (e & _ & Hc).
  apply u256_bind in Hc as [_ [= <-]].
  destruct (proj1 (close_guards_spec st now n) (ex_intro _ u Hg)) as [-> _]. done.
Qed.

Lemma reconcile_inv e shares a r :
  C.reconcile e shares a = Some r → 0 <= a →
  0 < a <= C.totalDepositAmount e - C.totalWithdrawClaimAmount e.
Proof.
  unfold C.reconcile. intros Hr Ha. apply require_bind in Hr as [_ Hr].
  apply u256_bind in Hr as [_ Hr]. apply require_bind in Hr as [Hr _].
  rewrite negb_true_iff, orb_false_iff, Z.eqb_neq, Z.ltb_ge in Hr. lia.
Qed.

Lemma epoch_complete_inv st n a st' :
  ES.complete st n a = Some st' → 0 <= a →
  n = C.s_epochNonce st - 1 ∧ C.status (C.previous st) = C.EXECUTING ∧
  0 < a <= C.totalDepositAmount (C.previous st) - C.totalWithdrawClaimAmount (C.previous st) ∧
  C.s_epochNonce st' = C.s_epochNonce st ∧ C.status (C.previous st') = C.CLAIMABLE.
Proof.
  unfold ES.complete, C.completeEpochDeposit. intros Hc Ha.
  apply bind_Some in Hc as ([m sh] & Hcc & [= <-]).
  apply u256_bind in Hcc as [_ Hcc]. apply require_bind in Hcc as [Hn Hcc].
  apply require_bind in Hcc as [_ Hcc]. apply bind_Some in Hcc as (r & Hr & Hcc).
  apply require_bind in Hcc as [Hst _]. apply Z.eqb_eq in Hn. apply bool_decide_eq_true in Hst.
  by apply reconcile_inv in Hr.
Qed.

Lemma receive_inv st n r st' :
  ES.receive_withdraw st n r = Some st' →
  C.s_epochNonce st' = C.s_epochNonce st ∧ C.status (C.previous st') = C.CLAIMABLE.
Proof.
  unfold ES.receive_withdraw. intros Hc. apply require_bind in Hc as [_ Hc].
  apply require_bind in Hc as [_ Hc]. apply u256_bind in Hc as [_ Hc].
  by apply require_bind in Hc as [_ [= <-]].
Qed.

(** ** The invariant *)

(** An executing epoch is the last closed one, with the amounts of its closing. *)
Definition executes_closing (closed : list closing) (v : view) : Prop :=
  C.status (C.previous (v_vault v)) = C.EXECUTING →
  ∃ cl, cl ∈ closed ∧ cl_nonce cl = C.s_epochNonce (v_vault v) - 1 ∧ cl_chain cl = v_chain v ∧
    C.totalDepositAmount (C.previous (v_vault v)) = C.totalDepositAmount (cl_epoch cl) ∧
    C.totalWithdrawClaimAmount (C.previous (v_vault v)) = C.totalWithdrawClaimAmount (cl_epoch cl).

(** An epoch is closed at a TVL that the vault of the active strategy's chain
    reported, the strategy being the one of a state of the parent in which that
    epoch was open and no rebalance was under way, both at most half an hour and
    the lag of the host before the closing. *)
Definition honest_closing (w : world) (cl : closing) : Prop :=
  ∃ v u, v ∈ w_history w ∧ u ∈ w_history w ∧
    C.s_epochNonce (v_vault v) = cl_nonce cl ∧ C.rebalancing (v_vault v) = false ∧
    cl_tvl cl = v_tvl u (v_chain v) ∧
    cl_time cl - 1800 - lag <= v_time v <= cl_time cl ∧
    cl_time cl - 1800 - lag <= v_time u <= cl_time cl.

Definition honest_withdrawal (w : world) (t : transfer) : Prop :=
  ∃ cl, cl ∈ w_closed w ∧ cl_nonce cl = tr_nonce t ∧ cl_chain cl = tr_chain t ∧
    net_withdraw cl = tr_amount t ∧ 0 < tr_amount t.

Definition honest_completion (w : world) (t : transfer) : Prop :=
  t ∈ w_deposited w ∧
  ∃ cl, cl ∈ w_closed w ∧ cl_nonce cl = tr_nonce t ∧ cl_chain cl = tr_chain t ∧
    0 < tr_amount t <= - net_withdraw cl.

Record sound (n0 : Z) (w : world) : Prop := {
  sound_reports : Forall (grounded w) (w_signed w);
  sound_current : w_view w ∈ w_history w;
  sound_history : Forall (executes_closing (w_closed w)) (w_history w);
  sound_nonces : cl_nonce <$> w_closed w = seqZ n0 (Z.of_nat (length (w_closed w)));
  sound_next : C.s_epochNonce (w_vault w) = n0 + Z.of_nat (length (w_closed w));
  sound_closed : Forall (honest_closing w) (w_closed w);
  sound_withdrawn : Forall (honest_withdrawal w) (w_withdrawn w);
  sound_handled : Forall (λ t, tr_nonce t <= w_handled w (tr_chain t)) (w_withdrawn w);
  sound_withdrawn_once : NoDup (tr_nonce <$> w_withdrawn w);
  sound_completed : Forall (honest_completion w) (w_completed w);
  sound_finished : Forall (λ t, tr_nonce t < C.s_epochNonce (w_vault w) - 1 ∨
    (tr_nonce t < C.s_epochNonce (w_vault w) ∧
     C.status (C.previous (w_vault w)) ≠ C.EXECUTING)) (w_completed w);
  sound_completed_once : NoDup (tr_nonce <$> w_completed w) }.

Lemma closing_unique n0 w cl cl' :
  sound n0 w → cl ∈ w_closed w → cl' ∈ w_closed w → cl_nonce cl = cl_nonce cl' → cl = cl'.
Proof.
  intros Hw Hin Hin' Heq. apply list_elem_of_lookup in Hin as [i Hi], Hin' as [j Hj].
  assert (NoDup (cl_nonce <$> w_closed w)) as Hnd by (rewrite (sound_nonces _ _ Hw); apply NoDup_seqZ).
  assert (i = j) as <-; [|congruence].
  eapply NoDup_lookup; [exact Hnd|by rewrite list_lookup_fmap, Hi|].
  rewrite list_lookup_fmap, Hj. cbn. by rewrite Heq.
Qed.

Lemma honest_closing_extends w w' cl : extends w w' → honest_closing w cl → honest_closing w' cl.
Proof.
  intros [Hh _] (v & u & Hv & Hu & Hcl). exists v, u. split; [by apply Hh|]. split; [by apply Hh|done].
Qed.

(** The common part of every step: the world has grown. *)
Definition grows (w w' : world) : Prop :=
  extends w w' ∧ w_closed w ⊆ w_closed w' ∧ (∀ c, w_handled w c <= w_handled w' c).

Lemma honest_withdrawal_grows w w' t : grows w w' → honest_withdrawal w t → honest_withdrawal w' t.
Proof. intros (_ & Hc & _) (cl & Hin & Hcl). exists cl. split; [by apply Hc|done]. Qed.
Lemma honest_completion_grows w w' t : grows w w' → honest_completion w t → honest_completion w' t.
Proof.
  intros ([_ Hd] & Hc & _) (Ht & cl & Hin & Hcl). split; [by apply Hd|].
  exists cl. split; [by apply Hc|done].
Qed.
Lemma executes_closing_grows closed closed' v :
  closed ⊆ closed' → executes_closing closed v → executes_closing closed' v.
Proof. intros Hc Hv Hst. destruct (Hv Hst) as (cl & Hin & Hcl). exists cl. split; [by apply Hc|done]. Qed.

(** What a growing world keeps. *)
Lemma kept_reports w w' l : grows w w' → Forall (grounded w) l → Forall (grounded w') l.
Proof. intros [Hw _] Hl. eapply Forall_impl; [exact Hl|]. intros r. by apply grounded_extends. Qed.
Lemma kept_history w w' l :
  grows w w' → Forall (executes_closing (w_closed w)) l → Forall (executes_closing (w_closed w')) l.
Proof.
  intros (_ & Hw & _) Hl. eapply Forall_impl; [exact Hl|]. intros v. by apply executes_closing_grows.
Qed.
Lemma kept_closed w w' l : grows w w' → Forall (honest_closing w) l → Forall (honest_closing w') l.
Proof. intros [Hw _] Hl. eapply Forall_impl; [exact Hl|]. intros v. by apply honest_closing_extends. Qed.
Lemma kept_withdrawn w w' l :
  grows w w' → Forall (honest_withdrawal w) l → Forall (honest_withdrawal w') l.
Proof. intros Hw Hl. eapply Forall_impl; [exact Hl|]. intros v. by apply honest_withdrawal_grows. Qed.
Lemma kept_completed w w' l :
  grows w w' → Forall (honest_completion w) l → Forall (honest_completion w') l.
Proof. intros Hw Hl. eapply Forall_impl; [exact Hl|]. intros v. by apply honest_completion_grows. Qed.
Lemma kept_handled w w' l :
  grows w w' → Forall (λ t, tr_nonce t <= w_handled w (tr_chain t)) l →
  Forall (λ t, tr_nonce t <= w_handled w' (tr_chain t)) l.
Proof.
  intros (_ & _ & Hw) Hl. eapply Forall_impl; [exact Hl|]. intros t Ht. cbn in *.
  specialize (Hw (tr_chain t)). lia.
Qed.
#[local] Hint Resolve kept_reports kept_history kept_closed kept_withdrawn kept_completed
  kept_handled : epochs.

Ltac world_simpl :=
  unfold w_now, w_vault, w_chain, w_tvl, set_now, set_vault, set_tvl in *;
  cbn [v_time v_vault v_chain v_tvl w_view w_history w_handled w_deposited w_signed w_closed
    w_withdrawn w_completed begin show set_handled add_deposits add_signed add_closed
    add_withdrawn add_completed] in *.
Lemma grows_show v w : grows w (show v w).
Proof. split; [split|split]; world_simpl; try done. by apply list_subseteq_app_l. Qed.

(** The vaults move on within an epoch. *)
Lemma sound_show n0 w v :
  sound n0 w → executes_closing (w_closed w) v →
  C.s_epochNonce (v_vault v) = C.s_epochNonce (w_vault w) →
  (C.status (C.previous (v_vault v)) = C.EXECUTING →
   C.status (C.previous (w_vault w)) = C.EXECUTING) →
  sound n0 (show v w).
Proof.
  intros [] Hcl Hn Hst. pose proof (grows_show v w) as Hg.
  split; world_simpl; rewrite ?Hn; eauto with epochs.
  - apply elem_of_app. right. by apply list_elem_of_singleton.
  - apply Forall_app_2; [done|by apply Forall_singleton].
  - eapply Forall_impl; [exact sound_finished0|]. cbn. naive_solver.
Qed.

Lemma sound_view n0 w : sound n0 w → executes_closing (w_closed w) (w_view w).
Proof.
  intros Hw. pose proof (sound_history _ _ Hw) as Hall. rewrite Forall_forall in Hall.
  exact (Hall _ (sound_current _ _ Hw)).
Qed.

Lemma sound_run n0 w s ev t :
  sound n0 w → handler_run config s ev t → observed w s → genuine w ev → (ev = None → shown w s) →
  sound n0 (add_signed (signed t) w).
Proof.
  intros [] Hrun%(handler_run_explained config p HV HTy HP) Ho Hgen Hshown.
  assert (grows w (add_signed (signed t) w)) as Hg by (repeat split; world_simpl; done).
  split; world_simpl; eauto with epochs. apply Forall_app_2; [eauto with epochs|].
  eapply Forall_impl; [exact Hrun|]. intros r Hr. by exists s, ev.
Qed.

Lemma sound_now n0 w now : sound n0 w → sound n0 (set_now now w).
Proof. intros Hw. apply sound_show; [done|exact (sound_view _ _ Hw)|done|done]. Qed.

Lemma sound_gains n0 w tvl : sound n0 w → sound n0 (set_tvl tvl w).
Proof. intros Hw. apply sound_show; [done|exact (sound_view _ _ Hw)|done|done]. Qed.

Lemma sound_child n0 w handled l :
  sound n0 w → (∀ c, w_handled w c <= handled c) → sound n0 (add_deposits l (set_handled handled w)).
Proof.
  intros [] Hh. assert (grows w (add_deposits l (set_handled handled w))) as Hg.
  { split; [split|split]; world_simpl; try done. by apply list_subseteq_app_l. }
  split; world_simpl; eauto with epochs.
  change handled with (w_handled (add_deposits l (set_handled handled w))). eauto with epochs.
Qed.

Lemma sound_users n0 w st :
  sound n0 w → ES.users (w_vault w) st → sound n0 (set_vault st (w_chain w) w).
Proof.
  intros Hw (d & b & m & Hm & ->). apply sound_show; [done| |done|done].
  exact (sound_view _ _ Hw).
Qed.

Lemma sound_rebalance n0 w st chain :
  sound n0 w → ES.rebalances (w_vault w) st → sound n0 (set_vault st chain w).
Proof.
  intros Hw (Hst & mv & sh & loc & ->). apply sound_show; [done| |done|done].
  intros Hx. by destruct (Hst Hx).
Qed.

Lemma sound_receive n0 w n r st :
  sound n0 w → ES.receive_withdraw (w_vault w) n r = Some st →
  sound n0 (set_vault st (w_chain w) w).
Proof.
  intros Hw (Hn & Hst)%receive_inv. apply sound_show; [done| |done|by cbn; rewrite Hst].
  intros Hex. cbn in Hex. by rewrite Hst in Hex.
Qed.

(** What a delivered report tells: the run that caused it observed the world. *)
Lemma delivered_call n0 w report data c :
  sound n0 w → report ∈ w_signed w → forwarded p (w_now w) report = Some data →
  dispatch data = Some c →
  ∃ s ev, observed w s ∧ genuine w ev ∧ (ev = None → shown w s) ∧ justified config p s ev c ∧
    ObservedAt s <= w_now w <= ObservedAt s + 1800.
Proof.
  intros Hw Hin Hf Hd. pose proof (sound_reports _ _ Hw) as Hall. rewrite Forall_forall in Hall.
  destruct (Hall _ Hin) as (s & ev & Ho & Hg & Hs & He). exists s, ev.
  destruct (He p _ _ (parent_in _ _ HP) Hf) as (Hwin & Hc & _).
  destruct (Hc eq_refl) as (c' & Hd' & Hj). assert (c' = c) as -> by congruence. done.
Qed.

Lemma delivered_child n0 w e report data c :
  sound n0 w → report ∈ w_signed w → e ∈ Evms config → e ≠ p →
  forwarded e (w_now w) report = Some data → child_dispatch data = Some c →
  ∃ s, observed w s ∧ child_justified s e c.
Proof.
  intros Hw Hin He Hne Hf Hd. pose proof (sound_reports _ _ Hw) as Hall. rewrite Forall_forall in Hall.
  destruct (Hall _ Hin) as (s & ev & Ho & _ & _ & Hx). exists s. split; [done|].
  destruct (Hx e _ _ He Hf) as (_ & _ & Hc).
  destruct (Hc Hne) as (c' & Hd' & Hj). by assert (c' = c) as -> by congruence.
Qed.

(** The closing behind an epoch that was executing in an observed state. *)
Lemma observed_closing n0 w s n :
  sound n0 w → observed w s → executing s n →
  ∃ cl, cl ∈ w_closed w ∧ cl_nonce cl = n ∧ cl_chain cl = activeChain s ∧
    ∀ d wd, parent_vault.TotalDepositAmount (parent_vault.PreviousEpoch (Parent s)) = Some d →
      parent_vault.TotalWithdrawClaimAmount (parent_vault.PreviousEpoch (Parent s)) = Some wd →
      wd - d = net_withdraw cl.
Proof.
  intros Hw (v & Hin & Hchain & Hrep) Hex. destruct (executing_storage _ _ _ Hrep Hex) as [Hn Hst].
  pose proof (sound_history _ _ Hw) as Hall. rewrite Forall_forall in Hall.
  destruct (Hall _ Hin Hst) as (cl & Hcl & Hcn & Hcc & Hd & Hwd). cbn in *.
  exists cl. split_and!; [done|congruence|congruence|]. intros d wd Ed Ew.
  pose proof (rep_previous _ _ _ _ Hrep) as (Ed' & _ & Ew' & _). unfold net_withdraw.
  rewrite Ed in Ed'. rewrite Ew in Ew'. injection Ed' as ->. injection Ew' as ->. by rewrite Hd, Hwd.
Qed.

Lemma current_closing n0 w :
  sound n0 w → C.status (C.previous (w_vault w)) = C.EXECUTING →
  ∃ cl, cl ∈ w_closed w ∧ cl_nonce cl = C.s_epochNonce (w_vault w) - 1 ∧ cl_chain cl = w_chain w ∧
    C.totalWithdrawClaimAmount (C.previous (w_vault w))
      - C.totalDepositAmount (C.previous (w_vault w)) = net_withdraw cl.
Proof.
  intros Hw Hst. destruct (sound_view _ _ Hw Hst) as (cl & Hcl & Hcn & Hcc & Hd & Hwd). cbn in *.
  exists cl. split_and!; try done. unfold w_vault, net_withdraw. by rewrite Hd, Hwd.
Qed.

(** The TVL that a closing was justified by is one that the vaults showed. *)
Lemma shown_closing w s cl n tvl :
  shown w s → justified config p s None (Close n tvl) →
  ObservedAt s <= cl_time cl <= ObservedAt s + 1800 → cl_nonce cl = n → cl_tvl cl = tvl →
  honest_closing w cl.
Proof.
  intros [(v & Hv & Hrec & Hchain & Hrep & Hptvl) Hc] Hj Hwin <- <-.
  inversion Hj as [| |n' tvl' _ Hn Hnone Htvl|]. subst n' tvl'.
  rewrite (rep_nonce _ _ _ _ Hrep) in Hn. injection Hn as Hn.
  assert (C.rebalancing (v_vault v) = false) as Hreb.
  { unfold rebalance in Hnone. rewrite (rep_rebalance _ _ _ _ Hrep) in Hnone.
    by destruct (C.rebalancing (v_vault v)). }
  assert (∃ u, u ∈ w_history w ∧ recent s u ∧ cl_tvl cl = v_tvl u (v_chain v))
    as (u & Hu & Hru & Hut).
  { unfold ActiveTVL in Htvl. rewrite Hchain. unfold activeChain in *.
    destruct (Z.eqb_spec (parent_vault.ChainSelector (parent_vault.ActiveStrategy
      (parent_vault.Rebalance (Parent s)))) (ChainSelector p)) as [Heq|].
    - injection Htvl as Htvl. exists v. split; [done|]. split; [done|]. rewrite Heq. congruence.
    - destruct (Children s !! _) as [c|] eqn:Hcs; [|done]. injection Htvl as Htvl.
      destruct (Hc _ _ Hcs) as (u & Hu & Hru & Hcu). exists u. split; [done|]. split; [done|]. congruence. }
  unfold recent in *. exists v, u. split_and!; (done || lia).
Qed.

(** Closing an epoch. *)
Lemma sound_close n0 w report data n tvl out st :
  sound n0 w → report ∈ w_signed w → forwarded p (w_now w) report = Some data →
  dispatch data = Some (Close n tvl) → ES.close (w_vault w) (w_now w) n tvl out = Some st →
  sound n0 (add_closed (mkClosing n (w_now w) tvl (w_chain w) (C.previous st))
              (set_vault st (w_chain w) w)).
Proof.
  intros Hw Hin Hf Hd Hclose.
  destruct (delivered_call _ _ _ _ _ Hw Hin Hf Hd) as (s & ev & _ & _ & Hshown & Hj & Hwin).
  assert (ev = None) as -> by (by inversion Hj). specialize (Hshown eq_refl).
  apply close_inv in Hclose as [-> Hnext].
  set (cl := mkClosing _ _ _ _ _). set (w' := add_closed cl _).
  assert (grows w w') as Hg.
  { split; [split|split]; subst w'; world_simpl; try done; by apply list_subseteq_app_l. }
  destruct Hw. split; subst w'; world_simpl; eauto with epochs.
  - apply elem_of_app. right. by apply list_elem_of_singleton.
  - apply Forall_app_2; [exact (kept_history w _ _ Hg sound_history0)|]. apply Forall_singleton. intros _.
    exists cl. split_and!; [|subst cl; cbn; lia|done|done|done].
    apply elem_of_app. right. by apply list_elem_of_singleton.
  - rewrite fmap_app, sound_nonces0, length_app, Nat2Z.inj_add, seqZ_app by lia. f_equal.
    cbn [fmap list_fmap cl_nonce length]. by rewrite <-sound_next0, (seqZ_cons _ (Z.of_nat 1)) by lia.
  - rewrite length_app, Nat2Z.inj_add, Hnext, sound_next0. cbn. lia.
  - apply Forall_app_2; [exact (kept_closed w _ _ Hg sound_closed0)|]. apply Forall_singleton.
    eapply honest_closing_extends; [apply Hg|]. by eapply shown_closing.
  - eapply Forall_impl; [exact sound_finished0|]. cbn. intros t Ht. rewrite Hnext. lia.
Qed.

(** Completing a deposit. *)
Lemma sound_complete n0 w report data n a st :
  sound n0 w → report ∈ w_signed w → forwarded p (w_now w) report = Some data →
  dispatch data = Some (CompleteDeposit n a) → ES.complete (w_vault w) n a = Some st →
  sound n0 (add_completed (mkTransfer (w_chain w) n a) (set_vault st (w_chain w) w)).
Proof.
  intros Hw Hin Hf Hd Hcomp.
  destruct (delivered_call _ _ _ _ _ Hw Hin Hf Hd) as (s & ev & Ho & Hgen & _ & Hj & _).
  inversion Hj as [| | |n' a' log source codec -> Hcodec Hdec Hne Hms Hex]; subst n' a'.
  destruct (Epoch.deposit_decoded _ _ _ Hcodec Hdec) as (n' & a' & [= <- <-] & _ & [Ha _]).
  apply epoch_complete_inv in Hcomp as (-> & Hst & Hamt & Hn & Hst'); [|done].
  pose proof (Hgen _ _ _ _ _ _ eq_refl Hms Hne Hcodec Hdec) as Hdep.
  destruct (current_closing _ _ Hw Hst) as (cl & Hcl & Hcn & Hcc & Hnet).
  destruct (observed_closing _ _ _ _ Hw Ho Hex) as (cl' & Hcl' & Hcn' & Hcc' & _).
  assert (cl' = cl) as -> by (eapply closing_unique; [exact Hw|done..|congruence]).
  assert (sound n0 (set_vault st (w_chain w) w)) as Hw'.
  { apply sound_show; [done| |done|by cbn; rewrite Hst']. intros Hx. cbn in Hx. by rewrite Hst' in Hx. }
  pose proof (sound_finished _ _ Hw) as Hfin.
  destruct Hw'. split; world_simpl; eauto.
  - apply Forall_app_2; [done|]. apply Forall_singleton. split.
    + cbn. by rewrite <-Hcc, Hcc'.
    + exists cl. world_simpl. cbn. split_and!; try done; lia.
  - apply Forall_app_2; [done|]. apply Forall_singleton. cbn. right. rewrite Hn, Hst'. split; [lia|done].
  - rewrite fmap_app. apply NoDup_snoc; [|done]. cbn.
    intros (t & Ht & Htin)%list_elem_of_fmap. rewrite Forall_forall in Hfin.
    destruct (Hfin _ Htin) as [?|[_ ?]]; [lia|done].
Qed.

(** Executing a remote withdrawal. *)
Lemma sound_withdraw n0 w e report data n a :
  sound n0 w → report ∈ w_signed w → e ∈ Evms config → e ≠ p →
  forwarded e (w_now w) report = Some data → child_dispatch data = Some (ExecuteWithdraw n a) →
  w_handled w (ChainSelector e) < n →
  sound n0 (add_withdrawn (mkTransfer (ChainSelector e) n a)
              (set_handled (handle (ChainSelector e) n (w_handled w)) w)).
Proof.
  intros Hw Hin He Hne Hf Hd Hlt.
  destruct (delivered_child _ _ _ _ _ _ Hw Hin He Hne Hf Hd) as (s & Ho & Hj).
  inversion Hj as [n' a' wd d Hex Hwd Hdep Hnet Hpos Hact|]; subst n' a'.
  destruct (observed_closing _ _ _ _ Hw Ho Hex) as (cl & Hcl & Hcn & Hcc & Hamt).
  specialize (Hamt _ _ Hdep Hwd). set (w' := add_withdrawn _ _).
  assert (grows w w') as Hg.
  { split; [split|split]; subst w'; world_simpl; try done. intros c. unfold handle.
    destruct (Z.eqb_spec c (ChainSelector e)); [subst; lia|done]. }
  pose proof Hw as Hw0. destruct Hw. split; subst w'; world_simpl; eauto with epochs.
  - apply Forall_app_2; [exact (kept_withdrawn w _ _ Hg sound_withdrawn0)|]. apply Forall_singleton.
    exists cl. cbn. split_and!; try done; congruence.
  - apply Forall_app_2; [exact (kept_handled w _ _ Hg sound_handled0)|]. apply Forall_singleton.
    cbn. unfold handle. rewrite Z.eqb_refl. done.
  - rewrite fmap_app. apply NoDup_snoc; [|done]. cbn.
    intros (t & Ht & Htin)%list_elem_of_fmap. rewrite Forall_forall in sound_withdrawn0, sound_handled0.
    destruct (sound_withdrawn0 _ Htin) as (cl' & Hcl' & Hcn' & Hcc' & _).
    specialize (sound_handled0 _ Htin). cbn in sound_handled0.
    assert (cl' = cl) as -> by (eapply closing_unique; [exact Hw0|done..|congruence]).
    rewrite <-Hcc', Hcc, Hact, <-Ht in sound_handled0. lia.
Qed.

Lemma sound_step n0 w w' : sound n0 w → system_step w w' → sound n0 w'.
Proof.
  intros Hw []; [by eapply sound_run|by apply sound_now|by apply sound_gains|by apply sound_users|by apply sound_rebalance
    |by eapply sound_receive|by apply sound_child|by eapply sound_close|by eapply sound_complete
    |by eapply sound_withdraw].
Qed.

Lemma sound_steps n0 w w' : sound n0 w → rtc system_step w w' → sound n0 w'.
Proof. intros Hw Hs. induction Hs as [|w w1 w2 Hs _ IH]; [done|]. apply IH. by eapply sound_step. Qed.

Lemma sound_begin now st chain tvl handled :
  C.status (C.previous st) ≠ C.EXECUTING →
  sound (C.s_epochNonce st) (begin now st chain tvl handled).
Proof.
  intros Hst. split; world_simpl; try done; try (by constructor).
  - apply Forall_singleton. intros Hx. by destruct (Hst Hx).
  - cbn. lia.
Qed.

(** C3: the epochs over time: whatever the handlers observe (events: any state of
    the parent vault up to the present; the schedule: states of the vaults at most
    [lag] old), whichever of the signed reports are
    delivered, when, in which order and how often, and whatever users,
    rebalances and bridges do in between: epochs are closed one after the other,
    each at a TVL that the vault of the active strategy's chain reported at most
    half an hour and [lag] before; the workflow takes out of the strategy of a remote chain exactly the
    net amount at which the epoch was closed, at most once, and on the chain of
    its active strategy; and it completes a deposit at most once, for an amount
    that the vault of that chain reported and that does not exceed what the
    epoch sent. *)
Theorem epochs_settle_as_closed now st chain tvl handled w
    (HStart : C.status (C.previous st) ≠ C.EXECUTING)
    (HSteps : rtc system_step (begin now st chain tvl handled) w) :
  cl_nonce <$> w_closed w = seqZ (C.s_epochNonce st) (Z.of_nat (length (w_closed w))) ∧
  (∀ cl, cl ∈ w_closed w → honest_closing w cl) ∧
  (∀ t, t ∈ w_withdrawn w → honest_withdrawal w t) ∧
  NoDup (tr_nonce <$> w_withdrawn w) ∧
  (∀ t, t ∈ w_completed w → honest_completion w t) ∧
  NoDup (tr_nonce <$> w_completed w).
Proof.
  destruct (sound_steps _ _ _ (sound_begin now st chain tvl handled HStart) HSteps).
  rewrite <-!Forall_forall. done.
Qed.



End System.

(** ** Concrete executions

    The schedule closes an epoch whose net deposit goes to a remote strategy, the
    child vault reports a slightly smaller deposit, and the completion is
    delivered; and it closes an epoch with a net withdrawal, which the child of
    the strategy executes. *)
Module SampleEpochSystem.
#[local] Existing Instance ascii_unicode.
#[local] Existing Instance SampleState.ethereum.
#[local] Existing Instance SampleState.sample_ethereum_laws.
#[local] Existing Instance ToyDispatch.toy_dispatch.
#[local] Existing Instance ToyDispatch.toy_dispatch_laws.

Abbreviation config := Sample.config.
Abbreviation parent := Sample.parent_chain.
Abbreviation child := Sample.child_chain.
Abbreviation host := SampleRebalance.host.
Definition report_of (t : list (Runtime.step (cre_eff offchain.fetchResult))) : bytes :=
  default [] (head (signed t)).

(** The parent vault in a given state, as a snapshot. *)
Definition status_code (st : C.EpochStatus) : Z :=
  match st with C.NONE => 0 | C.OPEN => 1 | C.EXECUTING => 2 | C.CLAIMABLE => 3 end.
Definition epoch_of (e : C.Epoch) : parent_vault.TypesEpoch :=
  parent_vault.mkTypesEpoch
    (Some (C.totalDepositAmount e)) (Some (C.totalShareBurnAmount e))
    (Some (C.totalWithdrawClaimAmount e)) (Some (C.totalDepositAmount e))
    (Some (C.remainingShareMintAmount e)) (Some (C.totalShareBurnAmount e))
    (Some (C.totalWithdrawClaimAmount e)) (Some (C.openedAtTimestamp e)) (status_code (C.status e)).
Definition snapshot_of (st : C.Storage) : Snapshot :=
  let p := Parent SampleEpoch.snapshot in
  mkSnapshot 10000
    (parent_vault.mkTypesParentOperationalState false 0 (Some (C.s_epochNonce st))
       (epoch_of (C.current st)) (epoch_of (C.previous st))
       (parent_vault.Rebalance p) (Some (C.s_totalShares st)) (parent_vault.Tvl p))
    (Children SampleEpoch.snapshot).

(** An epoch with [deposit] and [burn], closed at the TVL of the child. *)
Definition opened (deposit burn : Z) : C.Storage :=
  C.mkStorage 2 false (C.mkEpoch deposit burn 0 0 1 C.OPEN) (SampleEpoch.contract_epoch C.CLAIMABLE 0)
    1000000000000000000 1000000 false.
Definition closed (st : C.Storage) : C.Storage := default st (ES.close st 10000 2 1000000 0).

Definition close_run (st : C.Storage) :=
  run host [] (OnEpochCronTrigger config (Some (snapshot_of st))).
(** Every vault of the sample snapshot reports a TVL. *)
Definition tvls (c : Z) : Z :=
  if c =? ChainSelector parent then default 0 (parent_vault.Tvl (Parent SampleEpoch.snapshot))
  else default 0 (child_vault.Tvl (child_state SampleEpoch.snapshot c)).
Definition world0 (st : C.Storage) : world := begin 10000 st (ChainSelector child) tvls (λ _, 0).
Definition world1 (st : C.Storage) : world := add_signed (signed (close_run st).1) (world0 st).
Definition world2 (st : C.Storage) : world :=
  add_closed (mkClosing 2 10000 1000000 (ChainSelector child) (C.previous (closed st)))
    (set_vault (closed st) (ChainSelector child) (world1 st)).

Lemma sample_valid st : Validate (Some (snapshot_of st)) config = Ok tt → ValidSnapshot (snapshot_of st) config.
Proof. apply (Validate_iff _ _ tt). Qed.
Lemma sample_observed st : in_int64 (ObservedAt (snapshot_of st)).
Proof. split; discriminate. Qed.
Lemma sample_represents st :
  C.rebalancing st = false → C.assetPrecision st = 1000000 → C.isLocalStrategy st = false →
  represents config (snapshot_of st) parent st.
Proof.
  intros Hr Hp Hl. split; try done.
  - by rewrite Hr.
  - exists 6. by rewrite Hp.
Qed.
Lemma sample_shown st :
  C.rebalancing st = false → C.assetPrecision st = 1000000 → C.isLocalStrategy st = false →
  shown config parent 0 (world0 st) (snapshot_of st).
Proof.
  intros Hr Hp Hl. split.
  - exists (w_view (world0 st)). split; [by apply list_elem_of_singleton|].
    split; [split; discriminate|]. split; [done|]. split; [by apply sample_represents|].
    vm_compute. reflexivity.
  - intros chain c Hc. exists (w_view (world0 st)). split; [by apply list_elem_of_singleton|].
    split; [split; discriminate|]. revert chain c Hc.
    apply (map_Forall_to_list (λ chain c, child_vault.Tvl c = Some (tvls chain))).
    vm_compute. repeat constructor.
Qed.
Lemma no_log w : genuine config parent w None.
Proof. by intros log source chain codec n a [=]. Qed.

(** The closing of a sample epoch. *)
Lemma sample_closes st :
  Validate (Some (snapshot_of st)) config = Ok tt → C.rebalancing st = false →
  C.assetPrecision st = 1000000 → C.isLocalStrategy st = false →
  signed (close_run st).1 = [report_of (close_run st).1] →
  (data ← forwarded parent 10000 (report_of (close_run st).1); dispatch data)
    = Some (Close 2 1000000) →
  is_Some (ES.close st 10000 2 1000000 0) →
  rtc (system_step config parent 0) (world0 st) (world2 st).
Proof.
  intros HS Hr Hp Hl Hs (data & Hf & Hd)%bind_Some [st' Hc].
  eapply rtc_l.
  { apply (step_run _ _ 0 (world0 st) (snapshot_of st) None (close_run st).1).
    - apply run_epoch_cron; [by apply sample_valid|apply sample_observed|apply SampleRebalance.host_consensus].
    - exists (w_view (world0 st)). split; [by apply list_elem_of_singleton|].
      split; [done|by apply sample_represents].
    - apply no_log.
    - intros _. by apply sample_shown. }
  apply rtc_once.
  apply (step_close _ _ 0 (world1 st) (report_of (close_run st).1) data 2 1000000 0 (closed st)).
  - cbn [world1 add_signed w_signed]. rewrite Hs. by apply list_elem_of_singleton.
  - done.
  - done.
  - unfold closed. cbn [world1 world0 begin add_signed w_vault w_now]. by rewrite Hc.
Qed.

(** *** A net deposit *)
Abbreviation deposit_epoch := (opened 1000000 0).
Lemma deposit_closes : rtc (system_step config parent 0) (world0 deposit_epoch) (world2 deposit_epoch).
Proof.
  apply sample_closes; try (vm_compute; reflexivity). eexists. vm_compute. reflexivity.
Qed.

Definition world3 : world :=
  add_deposits [mkTransfer (ChainSelector child) 2 900000]
    (set_handled (handle (ChainSelector child) 2 (λ _, 0)) (world2 deposit_epoch)).
Definition deposit_log : Log := SampleEpoch.event_log child 2 900000.
Definition deposit_run := run host []
  (OnEpochDepositToStrategySuccess config (Some deposit_log) (Some (snapshot_of (closed deposit_epoch)))
     (ChainSelector child)).
Definition world4 : world := add_signed (signed deposit_run.1) world3.
Definition completed : C.Storage :=
  default deposit_epoch (ES.complete (closed deposit_epoch) 2 900000).
Definition world5 : world :=
  add_completed (mkTransfer (ChainSelector child) 2 900000)
    (set_vault completed (ChainSelector child) world4).

Example closing_executes :
  C.status (C.previous (w_vault (world2 deposit_epoch))) = C.EXECUTING ∧
  net_withdraw <$> w_closed (world2 deposit_epoch) = [-1000000].
Proof. split; vm_compute; reflexivity. Qed.
Example completion_claims :
  C.status (C.previous (w_vault world5)) = C.CLAIMABLE ∧
  C.remainingShareMintAmount (C.previous (w_vault world5)) = 900000000000000000.
Proof. split; vm_compute; reflexivity. Qed.

(** The decoded event is in the log of the child. *)
Lemma deposit_genuine w :
  mkTransfer (ChainSelector child) 2 900000 ∈ w_deposited w →
  genuine config parent w (Some (deposit_log, ChainSelector child)).
Proof.
  intros Hin log source chain codec n a [= <- <-] Hms _ Hcodec Hdec.
  apply (MatchSource_iff _ _ _ _ SampleState.sample_config_valid) in Hms as [<- _].
  assert (codec = SampleEpoch.ccodec) as -> by (rewrite SampleEpoch.ccodec_ok in Hcodec; congruence).
  vm_compute in Hdec. injection Hdec as <- <-. done.
Qed.

Lemma deposit_reported : rtc (system_step config parent 0) (world0 deposit_epoch) world3.
Proof.
  eapply rtc_r; [exact deposit_closes|].
  apply (step_child _ _ 0 (world2 deposit_epoch)). intros c. unfold handle. cbn. case_match; lia.
Qed.

Lemma deposit_observed : ValidSnapshot (snapshot_of (closed deposit_epoch)) config.
Proof. apply sample_valid. vm_compute. reflexivity. Qed.
Lemma deposit_represents :
  represents config (snapshot_of (closed deposit_epoch)) parent (closed deposit_epoch).
Proof. by apply sample_represents; vm_compute. Qed.

Lemma sample_epochs : rtc (system_step config parent 0) (world0 deposit_epoch) world5.
Proof.
  etransitivity; [exact deposit_reported|]. eapply rtc_l.
  { apply (step_run _ _ 0 world3 (snapshot_of (closed deposit_epoch))
      (Some (deposit_log, ChainSelector child)) deposit_run.1).
    - apply run_epoch_deposit; [apply deposit_observed|apply sample_observed
        |apply SampleRebalance.host_consensus|discriminate].
    - exists (w_view world3). split; [|split; [done|apply deposit_represents]].
      apply elem_of_app. right. by apply list_elem_of_singleton.
    - apply deposit_genuine. by apply list_elem_of_singleton.
    - done. }
  assert (signed deposit_run.1 = [report_of deposit_run.1]) as Hs by (vm_compute; reflexivity).
  apply rtc_once.
  apply (step_complete _ _ 0 world4 (report_of deposit_run.1)
    (default [] (forwarded parent 10000 (report_of deposit_run.1))) 2 900000 completed);
    try (vm_compute; reflexivity).
  unfold world4. cbn [add_signed w_signed]. rewrite Hs. apply elem_of_app. right.
  by apply list_elem_of_singleton.
Qed.

Lemma epochs_settle_as_closed_witness :
  cl_nonce <$> w_closed world5
    = seqZ (C.s_epochNonce deposit_epoch) (Z.of_nat (length (w_closed world5))) ∧
  (∀ cl, cl ∈ w_closed world5 → honest_closing 0 world5 cl) ∧
  (∀ t, t ∈ w_withdrawn world5 → honest_withdrawal world5 t) ∧
  NoDup (tr_nonce <$> w_withdrawn world5) ∧
  (∀ t, t ∈ w_completed world5 → honest_completion world5 t) ∧
  NoDup (tr_nonce <$> w_completed world5).
Proof.
  apply (epochs_settle_as_closed config parent SampleState.sample_config_valid
           Sample.config_typed eq_refl 0 10000 deposit_epoch (ChainSelector child) tvls (λ _, 0) world5);
    [discriminate|exact sample_epochs].
Defined.




(** *** A net withdrawal *)
Abbreviation withdraw_epoch := (opened 0 1000000000000000000).



End SampleEpochSystem.
