(* ===== verification/Workflow.v ===== *)
(** * The workflow ([cre/workflow/workflow.go])

    Registering the triggers, dispatching logs by their signature topic, and
    the operational guard around every handler; and the safety of the whole
    workflow: any run of any registered handler. *)

From S2P Require Import Prelude GoText BigInt Ethereum Runtime Bindings ParentVault ChildVault Config State Report Accounting EpochContract Epoch Float Json DefiLlama PoolStream PoolSelect Rebalance RebalanceContract.

#[local] Open Scope Z_scope.

(** ** Triggers and handlers of the CRE SDK *)

(** A protobuf enum: the value the workflow asks for and any other, with its name. *)
Inductive ConfidenceLevel := CONFIDENCE_LEVEL_FINALIZED | CONFIDENCE_LEVEL_OTHER (name : string).

Inductive Trigger :=
| cron_Trigger (Schedule : string)
| evm_LogTrigger (ChainSelector : Z) (Addresses : list bytes) (Topics : list (list bytes))
    (Confidence : ConfidenceLevel).

(** The payload a trigger delivers: the handlers do not look at a cron payload. *)
Inductive Payload := CronPayload | LogPayload (log : option Log).

Section Workflow.
Context `{GoUnicode, GoEthereum}.
Abbreviation M := (prog (cre_eff offchain.fetchResult)).

Definition HandlerFunc := Config → Payload → M ExecutionResult.
Record Handler := mkHandler { trigger : Trigger; callback : HandlerFunc }.

(** ** [withOperationalGuard] *)
Definition withOperationalGuard (readSnapshot : SnapshotReader)
    (handler : Config → Payload → option Snapshot → M ExecutionResult) : HandlerFunc :=
  λ config payload,
    snapshot ← prog_wrap "read operational state: %w" [] (readSnapshot config);
    match snapshot with
    | None => Throw (Errorf "read operational state: nil snapshot" [])
    | Some s =>
        let reason := BlockedReason s config in
        if bool_decide (reason ≠ EmptyString) then Noop reason []
        else handler config payload (Some s)
    end.

(** ** Dispatch of a log by its first topic *)
Definition payload_log (payload : Payload) : option Log :=
  match payload with LogPayload log => log | CronPayload => None end.

Definition onLog (parentCodec : parent_vault.Codec) (childCodec : child_vault.Codec)
    (sourceChain : Z) (isParent : bool) (config : Config) (payload : Payload)
    (snapshot : option Snapshot) : M ExecutionResult :=
  let log := payload_log payload in
  match log with
  | Some (mkLog _ (topic :: _) _) =>
      if isParent then
        if bool_decide (topic = parent_vault.RebalanceInitiatedLogHash parentCodec)
        then OnRebalanceInitiated config log snapshot sourceChain
        else if bool_decide (topic = parent_vault.EpochWithdrawExecutingLogHash parentCodec)
        then OnEpochWithdrawExecuting config log snapshot sourceChain
        else Throw (Errorf "unexpected event signature on chain %d" [FInt sourceChain])
      else
        if bool_decide (topic = child_vault.RebalanceDepositSuccessLogHash childCodec)
        then OnRebalanceDepositSuccess config log snapshot sourceChain
        else if bool_decide (topic = child_vault.EpochDepositToStrategySuccessLogHash childCodec)
        then OnEpochDepositToStrategySuccess config log snapshot sourceChain
        else Throw (Errorf "unexpected event signature on chain %d" [FInt sourceChain])
  | _ => Throw (Errorf "event has no signature topic" [])
  end.

(** ** [initWorkflow] *)
Definition signatures (parentCodec : parent_vault.Codec) (childCodec : child_vault.Codec)
    (isParent : bool) : list bytes :=
  if isParent
  then [parent_vault.RebalanceInitiatedLogHash parentCodec;
        parent_vault.EpochWithdrawExecutingLogHash parentCodec]
  else [child_vault.RebalanceDepositSuccessLogHash childCodec;
        child_vault.EpochDepositToStrategySuccessLogHash childCodec].

Definition logHandler (readSnapshot : SnapshotReader) (parentCodec : parent_vault.Codec)
    (childCodec : child_vault.Codec) (chainConfig : EvmConfig) : Handler :=
  mkHandler
    (evm_LogTrigger (ChainSelector chainConfig) [HexToAddress (VaultAddress chainConfig)]
       [signatures parentCodec childCodec (IsParent chainConfig)] CONFIDENCE_LEVEL_FINALIZED)
    (withOperationalGuard readSnapshot
       (onLog parentCodec childCodec (ChainSelector chainConfig) (IsParent chainConfig))).

Definition initWorkflow (order : gmap Z string → list (Z * string)) (config : option Config)
    (readSnapshot : SnapshotReader) : res (list Handler) :=
  _ ← ValidateConfig config;
  parentCodec ← wrap "init parent vault codec: %w" [] parent_vault.NewCodec;
  childCodec ← wrap "init child vault codec: %w" [] child_vault.NewCodec;
  config ← deref config;
  Ok ([mkHandler (cron_Trigger (EpochSchedule config))
         (withOperationalGuard readSnapshot (λ config _ s, OnEpochCronTrigger config s));
       mkHandler (cron_Trigger (RebalanceSchedule config))
         (withOperationalGuard readSnapshot (λ config _ s, OnRebalanceCronTrigger order config s))]
      ++ (logHandler readSnapshot parentCodec childCodec <$> Evms config)).

Definition InitWorkflow (order : gmap Z string → list (Z * string)) (config : option Config)
    : res (list Handler) := initWorkflow order config ReadSnapshot.
End Workflow.

(** ** What a run may do *)
Section Safety.
Context `{GoUnicode, HL : GoEthereumLaws}.
Abbreviation trace := (list (step (cre_eff offchain.fetchResult))).

(** The host: documented behaviour of the runtime and consensus on the pools. *)
Definition workflow_host : admissible (cre_eff offchain.fetchResult) := λ h X c x,
  host_ok h X c x ∧ consensus_host h X c x.

Lemma workflow_host_ok h X (c : cre_eff offchain.fetchResult X) x :
  workflow_host h X c x → host_ok h X c x.
Proof. by intros [? _]. Qed.
Lemma workflow_host_consensus h X (c : cre_eff offchain.fetchResult X) x :
  workflow_host h X c x → consensus_host h X c x.
Proof. by intros [_ ?]. Qed.
Lemma workflow_host_typed h X (c : cre_eff offchain.fetchResult X) x :
  workflow_host h X c x → typed_host h X c x.
Proof. by intros [?%host_ok_typed _]. Qed.

(** The outcome of a handler on a snapshot: no panic; either nothing was
    signed or written and the result is an error or a no-op, or one submission
    to the router of a configured chain, reported as done exactly when it was
    confirmed. *)
Definition settled (config : Config) (observedAt : Z) (t : trace) (r : res ExecutionResult) : Prop :=
  idle t r ∨
  ∃ e calldata what, e ∈ Evms config ∧ Submitted e observedAt calldata what t r.

Lemma decided_settled config plan observedAt what t r :
  (∀ target calldata, plan target calldata → target ∈ Evms config) →
  decided plan observedAt what t r → settled config observedAt t r.
Proof.
  intros Hp [(target & cd & Hplan & Hsub)|[_ Hidle]]; [right; eauto 10|by left].
Qed.

Section Handlers.
Context (config : Config) (s : Snapshot).
Context (HV : ValidConfig config) (HTy : TypedConfig config).
Context (HS : ValidSnapshot s config) (HObs : in_int64 (ObservedAt s)).

(** A handler proved against the typed host is settled under the workflow's. *)
Lemma settled_seg plan what h (p : prog (cre_eff offchain.fetchResult) ExecutionResult) :
  (∀ target calldata, plan target calldata → target ∈ Evms config) →
  wp_seg typed_host h p (decided plan (ObservedAt s) what) →
  wp_seg workflow_host h p (settled config (ObservedAt s)).
Proof.
  intros Hp Hseg. eapply wp_weaken; [apply workflow_host_typed|].
  eapply wp_seg_mono; [|exact Hseg]. intros t r. by apply decided_settled.
Qed.

Lemma OnEpochCronTrigger_settled h :
  wp_seg workflow_host h (OnEpochCronTrigger config (Some s)) (settled config (ObservedAt s)).
Proof.
  eapply settled_seg; [|by apply (epoch_cron_seg SubmitReport config s)].
  intros target cd (?&?&?&?&?&?&_&Hp&_). by apply FindParent_Ok in Hp as [? _].
Qed.

Lemma OnRebalanceCronTrigger_settled order h :
  wp_seg workflow_host h (OnRebalanceCronTrigger order config (Some s))
    (settled config (ObservedAt s)).
Proof.
  eapply wp_weaken; [apply workflow_host_consensus|].
  eapply wp_seg_mono; [|apply (OnRebalanceCronTrigger_seg config s HTy HS HObs order)].
  intros t r [(codec & p & t1 & t2 & fetch & (_ & Hp & _) & -> & (Hq & Hnc & _) & Hf)|[_ Hidle]];
    [|by left].
  destruct fetch as [pools|e|]; [| |done].
  - destruct Hf as [(target & cd & (b & sel & -> & _) & Hsub)|[_ (Hq2 & Hidle)]].
    + right. exists p, cd, "initiated rebalance"%string.
      split; [by apply FindParent_Ok in Hp as [? _]|]. by apply Submitted_prefix.
    + left. split; [by apply quiet_app|done].
  - destruct Hf as [-> ->]. left. rewrite app_nil_r. by split_and!.
Qed.

(** The four event handlers, on a log with a signature topic. *)
Lemma onLog_settled pc cc source parent payload h :
  wp_seg workflow_host h (onLog pc cc source parent config payload (Some s))
    (settled config (ObservedAt s)).
Proof.
  assert (∀ e : error, wp_seg workflow_host h (Throw e) (settled config (ObservedAt s))) as Hthrow.
  { intros e. apply (wp_seg_ret _ _ (Err e)). left. by split_and!. }
  unfold onLog. destruct (payload_log payload) as [[addr [|topic topics] data]|];
    [apply Hthrow| |apply Hthrow].
  set (log := mkLog addr (topic :: topics) data).
  assert (Log_Topics log ≠ []) as HLog by done.
  destruct parent; (case_bool_decide; [|case_bool_decide; [|apply Hthrow]]).
  - eapply settled_seg; [|by apply (rebalance_initiated_seg SubmitReport config s)].
    intros target cd (?&?&?&?&?&?&?&_&_&_&_&_&_&_&_&_&Ht&_). by apply FindEvmConfig_Ok in Ht as [? _].
  - eapply settled_seg; [|by apply (epoch_withdraw_seg SubmitReport config s)].
    intros target cd (?&?&?&?&?&?&?&?&_&_&_&_&_&_&_&_&_&_&_&_&Ht&_).
    by apply FindEvmConfig_Ok in Ht as [? _].
  - eapply settled_seg; [|by apply (rebalance_complete_seg SubmitReport config s)].
    intros target cd (?&?&?&_&Ht&_). by apply FindParent_Ok in Ht as [? _].
  - eapply settled_seg; [|by apply (epoch_complete_seg SubmitReport config s)].
    intros target cd (?&?&?&?&?&_&_&_&Ht&_). by apply FindParent_Ok in Ht as [? _].
Qed.
End Handlers.
End Safety.

(** ** The guarded handlers *)
Section Guarded.
Context `{GoUnicode, HL : GoEthereumLaws} (config : Config).
Context (HV : ValidConfig config) (HTy : TypedConfig config).

(** The outcome of a guarded handler: it never panics; and if anything was
    signed or written, the run began with the reading of a snapshot [s], made of
    the answers of the vaults in that very trace, in which no vault is paused or
    in recovery, and the rest of the run is one submission at its time. *)
Definition guarded_outcome (t : list (step (cre_eff offchain.fetchResult)))
    (r : res ExecutionResult) : Prop :=
  idle t r ∨
  ∃ s t1 t2 e calldata what, t = t1 ++ t2 ∧ quiet t1 ∧ snapshot_taken config t1 s ∧
    Forall (chain_clear s) (Evms config) ∧
    e ∈ Evms config ∧ Submitted e (ObservedAt s) calldata what t2 r.

(** So, whatever snapshot the answers of a run show, the run is idle when it
    shows a vault that is paused or in recovery. *)
Lemma guarded_blocked t r s t1 t2 :
  guarded_outcome t r → t = t1 ++ t2 → snapshot_taken config t1 s →
  ¬ Forall (chain_clear s) (Evms config) → idle t r.
Proof.
  intros [Hidle|(s' & u1 & u2 & e & cd & what & -> & _ & Hs' & Hclear & _)] Heq Hs Hb; [done|].
  destruct Hb. by rewrite (snapshot_taken_unique _ _ _ _ _ _ _ Hs Hs' (eq_sym Heq)).
Qed.

Lemma ReadSnapshot_typed h :
  wp_seg workflow_host h (ReadSnapshot config) (λ t r,
    quiet t ∧ r ≠ Crash ∧ ∀ so, r = Ok so → ∃ s, so = Some s ∧ snapshot_taken config t s ∧
      in_int64 (ObservedAt s)).
Proof.
  pose proof (ReadSnapshot_seg workflow_host h config) as Hread.
  pose proof (wp_seg_answers workflow_host h (ReadSnapshot config)) as Hans.
  pose proof (ReadSnapshot_no_crash (R:=offchain.fetchResult) h config (valid_block _ HV)) as Hnc.
  apply (wp_weaken _ workflow_host) in Hnc; [|apply workflow_host_ok].
  pose proof (wp_seg_conj _ _ _ _ _ Hread Hans) as Hboth.
  eapply wp_mono; [|exact (wp_conj _ _ _ _ _ Hboth Hnc)].
  intros h' r [(t & -> & (Hq & Hs) & Ht) Hr]. exists t. split; [done|]. split; [done|]. split; [done|].
  intros so Hso. destruct (Hs so Hso) as (s & -> & Hvalid & t' & -> & Hreads).
  exists s. split; [done|]. split; [by split; [|exists t']|].
  by apply Forall_cons in Ht as [(h0 & Htyped & _) _].
Qed.

Lemma withOperationalGuard_seg handler payload h :
  (∀ s h, ValidSnapshot s config → in_int64 (ObservedAt s) →
     wp_seg workflow_host h (handler config payload (Some s)) (settled config (ObservedAt s))) →
  wp_seg workflow_host h (withOperationalGuard ReadSnapshot handler config payload) guarded_outcome.
Proof.
  intros Hh. unfold withOperationalGuard.
  eapply (wp_seg_bind _ _ _ _ (λ t r, quiet t ∧ r ≠ Crash ∧ ∀ so, r = Ok so →
    ∃ s, so = Some s ∧ snapshot_taken config t s ∧ in_int64 (ObservedAt s))).
  - apply wp_seg_wrap. eapply wp_seg_mono; [|apply ReadSnapshot_typed].
    intros t r (Hq & Hr & Hs). split; [done|]. rewrite wrap_crash. split; [done|].
    intros so Hso%wrap_Ok. auto.
  - intros t so (Hq & _ & Hs). destruct (Hs so eq_refl) as (s & -> & HS & HObs).
    case_bool_decide as Hreason.
    + apply Noop_seg. intros t' r Hq' Hr. left. split; [by apply quiet_app|]. split; [done|].
      by intros x [= <-].
    + eapply wp_seg_mono; [|apply Hh; [apply HS|done]]. intros t' r [(Hq' & Hidle)|(e & cd & what & He & Hsub)].
      * left. split; [by apply quiet_app|done].
      * right. exists s, t, t', e, cd, what. split_and!; try done.
        apply BlockedReason_iff. by destruct (decide (BlockedReason s config = EmptyString)).
  - intros t e (Hq & _). left. by split_and!.
  - by intros t (_ & ? & _).
Qed.
End Guarded.

(** ** Properties *)
Section WorkflowProperties.
Context `{GoUnicode, HL : GoEthereumLaws} (config : Config) (order : gmap Z string → list (Z * string)).

(** What is registered for a chain: one finalized subscription to its vault, for
    the signatures of its role. *)
Definition subscription (pc : parent_vault.Codec) (cc : child_vault.Codec) (e : EvmConfig) : Trigger :=
  evm_LogTrigger (ChainSelector e) [HexToAddress (VaultAddress e)] [signatures pc cc (IsParent e)]
    CONFIDENCE_LEVEL_FINALIZED.

Lemma InitWorkflow_no_crash : InitWorkflow order (Some config) ≠ Crash.
Proof.
  unfold InitWorkflow, initWorkflow.
  assert (ValidateConfig (Some config) ≠ Crash) as Hnc by apply ValidateConfig_no_crash.
  pose proof parent_vault.ParentCodec_no_crash. pose proof child_vault.ChildCodec_no_crash.
  destruct (ValidateConfig (Some config)) as [u|e|]; [|done|done].
  destruct (parent_vault.NewCodec) as [pc|e|]; [|done|done].
  by destruct (child_vault.NewCodec) as [cc|e|].
Qed.

(** What a successful initialisation returns. *)
Lemma InitWorkflow_Ok hs :
  InitWorkflow order (Some config) = Ok hs →
  ValidConfig config ∧ ∃ pc cc, parent_vault.NewCodec = Ok pc ∧ child_vault.NewCodec = Ok cc ∧
    hs = mkHandler (cron_Trigger (EpochSchedule config))
           (withOperationalGuard ReadSnapshot (λ config _ s, OnEpochCronTrigger config s))
         :: mkHandler (cron_Trigger (RebalanceSchedule config))
           (withOperationalGuard ReadSnapshot (λ config _ s, OnRebalanceCronTrigger order config s))
         :: (logHandler ReadSnapshot pc cc <$> Evms config).
Proof.
  unfold InitWorkflow, initWorkflow. intros (u & HV & HI)%res_bind_Ok.
  apply ValidateConfig_iff in HV. apply res_bind_Ok in HI as (pc & Hpc%wrap_Ok & HI).
  apply res_bind_Ok in HI as (cc & Hcc%wrap_Ok & HI). cbn [deref mbind res_bind] in HI.
  injection HI as <-. split; [done|]. by exists pc, cc.
Qed.

Lemma InitWorkflow_valid hs : InitWorkflow order (Some config) = Ok hs → ValidConfig config.
Proof. by intros [? _]%InitWorkflow_Ok. Qed.

Lemma InitWorkflow_length hs :
  InitWorkflow order (Some config) = Ok hs →
  length hs = (length (Evms config) + 2)%nat ∧ (length hs ≤ 10)%nat.
Proof.
  intros (HV & pc & cc & _ & _ & ->)%InitWorkflow_Ok. cbn [length]. rewrite length_fmap.
  pose proof (valid_triggers _ HV) as Ht. unfold TriggerCount in Ht. lia.
Qed.

(** C15: workflow initialisation: it never panics; it succeeds only for a valid
    configuration; and the triggers it registers are exactly, in this order, the
    two schedules and one finalized log subscription per configured chain, on that
    chain's vault and the two signatures of its role: at most ten. *)
Theorem InitWorkflow_registers :
  InitWorkflow order None ≠ Crash ∧ is_Ok (InitWorkflow order None) = false ∧
  InitWorkflow order (Some config) ≠ Crash ∧
  ∀ hs, InitWorkflow order (Some config) = Ok hs →
    ValidConfig config ∧ (length hs ≤ 10)%nat ∧
    ∃ pc cc, parent_vault.NewCodec = Ok pc ∧ child_vault.NewCodec = Ok cc ∧
      trigger <$> hs
        = cron_Trigger (EpochSchedule config) :: cron_Trigger (RebalanceSchedule config)
          :: (subscription pc cc <$> Evms config).
Proof.
  split; [done|]. split; [done|]. split; [apply InitWorkflow_no_crash|].
  intros hs Hhs. destruct (InitWorkflow_length hs Hhs) as [_ Hlen].
  apply InitWorkflow_Ok in Hhs as (HV & pc & cc & Hpc & Hcc & ->).
  split; [done|]. split; [done|]. exists pc, cc. split; [done|]. split; [done|].
  rewrite !fmap_cons, <-list_fmap_compose. done.
Qed.

(** Every registered handler is guarded, for all payloads and hosts. *)
Lemma registered_guarded o hs hd payload :
  TypedConfig config → respects workflow_host o →
  InitWorkflow order (Some config) = Ok hs → hd ∈ hs →
  guarded_outcome config (run o [] (callback hd config payload)).1
    (run o [] (callback hd config payload)).2.
Proof.
  intros HTy HO HI Hin. apply (wp_seg_run workflow_host o _ _ HO).
  apply InitWorkflow_Ok in HI as (HV & pc & cc & _ & _ & ->).
  apply elem_of_cons in Hin as [->|Hin]; [|apply elem_of_cons in Hin as
    [->|(e & -> & He)%list_elem_of_fmap]]; cbn [callback logHandler];
    apply withOperationalGuard_seg; try done; intros s h HS HObs.
  - by apply OnEpochCronTrigger_settled.
  - by apply OnRebalanceCronTrigger_settled.
  - by apply onLog_settled.
Qed.

(** C1: the safety of the workflow, for every registered handler, every
    payload and every host that behaves as documented: the run does not panic;
    at most one report is signed and written, and only after the run has read a
    snapshot, made of the answers of the vaults in its own trace, in which no
    configured vault is paused or in recovery; the report goes to the router of a
    configured chain with that snapshot's time; and the result is success only if
    that write was confirmed, else an error or a no-op. *)
Theorem InitWorkflow_safe o hs hd payload
    (HTy : TypedConfig config) (HO : respects workflow_host o)
    (HI : InitWorkflow order (Some config) = Ok hs) (Hin : hd ∈ hs) :
  let run := run o [] (callback hd config payload) in
  guarded_outcome config run.1 run.2.
Proof.
  by apply (registered_guarded o hs).
Qed.

(** A log trigger's filter: the emitting address, and topic 0. *)
Definition accepts (t : Trigger) (source : Z) (log : Log) : Prop :=
  match t with
  | evm_LogTrigger chain addresses topics _ =>
      source = chain ∧ Log_Address log ∈ addresses ∧
      ∃ topic rest values, Log_Topics log = topic :: rest ∧ head topics = Some values ∧ topic ∈ values
  | cron_Trigger _ => False
  end.

(** The handlers of a role, in the order of its signatures. *)
Definition role_handlers (isParent : bool)
    : list (Config → option Log → option Snapshot → Z → prog (cre_eff offchain.fetchResult) ExecutionResult) :=
  if isParent then [OnRebalanceInitiated; OnEpochWithdrawExecuting]
  else [OnRebalanceDepositSuccess; OnEpochDepositToStrategySuccess].

(** C35: dispatch: a log that the subscription of a chain delivers matches that
    chain as its source and, the signatures of a role being distinct, reaches
    exactly the handler registered for its signature; the error for unexpected
    signatures is reserved for logs outside the filter. *)
Theorem onLog_dispatch pc cc e log snapshot (HV : ValidConfig config) (He : e ∈ Evms config)
    (HD : NoDup (signatures pc cc (IsParent e)))
    (HA : accepts (trigger (logHandler ReadSnapshot pc cc e)) (ChainSelector e) log) :
  MatchSource config (Some log) (ChainSelector e) (ChainSelector e) = true ∧
  ∃ k topic handler, head (Log_Topics log) = Some topic ∧
    signatures pc cc (IsParent e) !! k = Some topic ∧ role_handlers (IsParent e) !! k = Some handler ∧
    onLog pc cc (ChainSelector e) (IsParent e) config (LogPayload (Some log)) snapshot
      = handler config (Some log) snapshot (ChainSelector e).
Proof.
  destruct HA as (_ & Haddr%list_elem_of_singleton & topic & rest & values & Htop & [= <-] & Hin).
  split.
  - destruct (ValidConfig_lookup _ HV) as (_ & Hf & _). unfold MatchSource.
    rewrite (proj2 (Hf (ChainSelector e) e)) by done.
    rewrite Z.eqb_refl, Haddr, HexToAddress_length. cbn [andb].
    apply bool_decide_eq_true, BytesToAddress_id, HexToAddress_length.
  - destruct log as [addr topics data]. cbn [Log_Topics] in *. subst topics.
    unfold onLog, payload_log, signatures, role_handlers in *. cbn [head].
    destruct (IsParent e); apply NoDup_cons in HD as [Hne _]; rewrite list_elem_of_singleton in Hne;
      apply elem_of_cons in Hin as [->|Hin%list_elem_of_singleton]; try subst topic.
    + exists 0%nat. do 2 eexists. split_and!; try done. by rewrite bool_decide_eq_true_2.
    + exists 1%nat. do 2 eexists. split_and!; try done.
      by rewrite bool_decide_eq_false_2, bool_decide_eq_true_2 by congruence.
    + exists 0%nat. do 2 eexists. split_and!; try done. by rewrite bool_decide_eq_true_2.
    + exists 1%nat. do 2 eexists. split_and!; try done.
      by rewrite bool_decide_eq_false_2, bool_decide_eq_true_2 by congruence.
Qed.
End WorkflowProperties.

(** ** A concrete workflow *)
Module SampleWorkflow.
#[local] Existing Instance ascii_unicode.
#[local] Existing Instance SampleState.ethereum.
#[local] Existing Instance SampleState.sample_ethereum_laws.
Abbreviation config := Sample.config.
Abbreviation host := SampleRebalance.host.

Lemma host_workflow : respects workflow_host host.
Proof. intros h X c. split; [by destruct c|apply SampleRebalance.host_consensus]. Qed.

Definition handlers : list Handler :=
  match InitWorkflow map_to_list (Some config) with Ok hs => hs | _ => [] end.
Lemma handlers_ok : InitWorkflow map_to_list (Some config) = Ok handlers.
Proof.
  unfold handlers. assert (is_Ok (InitWorkflow map_to_list (Some config)) = true) as Hok
    by (vm_compute; reflexivity).
  by destruct (InitWorkflow map_to_list (Some config)).
Qed.
Example handlers_length : length handlers = 5%nat.
Proof. vm_compute. reflexivity. Qed.

Definition nth_run (k : nat) (payload : Payload) :=
  match handlers !! k with
  | Some hd => run host [] (callback hd config payload)
  | None => ([], Crash)
  end.
Example epoch_run : (nth_run 0 CronPayload).2 = Ok (mkExecutionResult "closed epoch").
Proof. vm_compute. reflexivity. Qed.
Example rebalance_run :
  (nth_run 1 CronPayload).2 = Ok (mkExecutionResult "no-op: current pool missing").
Proof. vm_compute. reflexivity. Qed.
Example stale_run : (nth_run 2 (LogPayload (Some
    (mkLog (HexToAddress (VaultAddress Sample.parent_chain)) [] [])))).2
  = Err (Errorf "event has no signature topic" []).
Proof. vm_compute. reflexivity. Qed.

Lemma InitWorkflow_safe_witness :
  ∃ hd, hd ∈ handlers ∧
    guarded_outcome config (run host [] (callback hd config CronPayload)).1
      (run host [] (callback hd config CronPayload)).2.
Proof.
  destruct handlers as [|hd hs] eqn:Hh.
  - assert (length handlers = 5%nat) as Hl by exact handlers_length. by rewrite Hh in Hl.
  - exists hd. split; [left|].
    apply (InitWorkflow_safe config map_to_list host handlers hd CronPayload
      Sample.config_typed host_workflow handlers_ok). rewrite Hh. left.
Defined.

Lemma InitWorkflow_registers_witness :
  (length handlers ≤ 10)%nat ∧ ∃ pc cc, trigger <$> handlers =
    cron_Trigger "0 * * * *" :: cron_Trigger "0 0 * * *" :: (subscription pc cc <$> Evms config).
Proof.
  destruct (InitWorkflow_registers config map_to_list) as (_ & _ & _ & Hreg).
  destruct (Hreg handlers handlers_ok) as (_ & Hlen & pc & cc & _ & _ & Ht).
  split; [exact Hlen|]. exists pc, cc. exact Ht.
Defined.

Definition pc : parent_vault.Codec :=
  match parent_vault.NewCodec with Ok c => c | _ => parent_vault.mkCodec ParentVaultMetaData end.
Definition cc : child_vault.Codec :=
  match child_vault.NewCodec with Ok c => c | _ => child_vault.mkCodec ChildVaultMetaData end.
Definition parent_log : Log :=
  mkLog (HexToAddress (VaultAddress Sample.parent_chain))
    [parent_vault.EpochWithdrawExecutingLogHash pc; be_bytes 32 1; be_bytes 32 5] [].

Lemma onLog_dispatch_witness :
  MatchSource config (Some parent_log) 1 1 = true ∧
  ∃ k topic handler, head (Log_Topics parent_log) = Some topic ∧
    signatures pc cc true !! k = Some topic ∧ role_handlers true !! k = Some handler ∧
    onLog pc cc 1 true config (LogPayload (Some parent_log)) None
      = handler config (Some parent_log) None 1.
Proof.
  apply (onLog_dispatch config pc cc Sample.parent_chain parent_log None
    SampleState.sample_config_valid).
  - left.
  - apply (bool_decide_eq_true_1 _). vm_compute. reflexivity.
  - split; [reflexivity|]. split; [left|].
    eexists _, _, _. split; [reflexivity|]. split; [reflexivity|]. right. left.
Defined.
End SampleWorkflow.
