(* ===== verification/EntryPoint.v ===== *)
(** * The entry point ([cre/workflow/main.go])

    [main] hands the decoder of the configuration and [InitWorkflow] to the
    runner of the SDK.  Composed with the decoder of [ConfigJson] and the safety
    of [Workflow], this is the safety of the deployed module: for every
    configuration file, every trigger the runtime fires and every payload. *)

From S2P Require Import Prelude GoText BigInt Ethereum Runtime Bindings ParentVault ChildVault Config State Report Accounting EpochContract Epoch Float Json ConfigJson DefiLlama PoolStream PoolSelect Rebalance RebalanceContract Workflow.

#[local] Open Scope Z_scope.

(** ** The runner of the CRE SDK *)
Section Runner.
Context `{GoUnicode, GoEthereum}.
Abbreviation M := (prog (cre_eff offchain.fetchResult)).
Abbreviation InitFn := (option Config → res (list Handler)).

(** What the runtime calls in a module: the subscription phase, and the
    execution of the handler of a subscribed trigger; both are given the bytes
    of the configuration file. *)
Record wasm_module := mkModule {
  subscribe : bytes → res (list Trigger);
  execute : bytes → nat → Payload → M ExecutionResult }.

Class CreRunner := {
  cre_ParseJSON : bytes → res (option Config);
  wasm_Runner : Type;
  wasm_NewRunner : (bytes → res (option Config)) → wasm_Runner;
  wasm_Run : wasm_Runner → InitFn → wasm_module }.

(** What a parser and an initialisation make of a file. *)
Definition registered (parse : bytes → res (option Config)) (init : InitFn) (file : bytes)
    : res (option Config * list Handler) :=
  c ← parse file; hs ← init c; Ok (c, hs).

(** [ParseJSON] is [json.Unmarshal] into a new [Config]; the runner subscribes
    to the triggers of the handlers that the initialisation returns, and runs
    the callback of the trigger that fired on the parsed configuration. *)
Class CreRunnerLaws `{CreRunner} := {
  parse_ok file c : cre_ParseJSON file = Ok c ↔ ∃ cfg, c = Some cfg ∧ unmarshalConfig file = Some cfg;
  parse_no_crash file : cre_ParseJSON file ≠ Crash;
  subscribe_ok parse init file c hs : registered parse init file = Ok (c, hs) →
    subscribe (wasm_Run (wasm_NewRunner parse) init) file = Ok (trigger <$> hs);
  subscribe_err parse init file e : registered parse init file = Err e →
    ∃ e', subscribe (wasm_Run (wasm_NewRunner parse) init) file = Err e';
  execute_ok parse init file cfg hs k hd payload :
    registered parse init file = Ok (Some cfg, hs) → hs !! k = Some hd →
    execute (wasm_Run (wasm_NewRunner parse) init) file k payload = callback hd cfg payload;
  execute_unknown parse init file c hs k payload :
    registered parse init file = Ok (c, hs) → hs !! k = None →
    ∃ e, execute (wasm_Run (wasm_NewRunner parse) init) file k payload = Throw e;
  execute_err parse init file k payload e : registered parse init file = Err e →
    ∃ e', execute (wasm_Run (wasm_NewRunner parse) init) file k payload = Throw e' }.

(** ** [main] *)
Definition main `{CreRunner} (order : gmap Z string → list (Z * string)) : wasm_module :=
  wasm_Run (wasm_NewRunner cre_ParseJSON) (InitWorkflow order).
End Runner.

(** ** The deployed module *)
Section Main.
Context `{GoUnicode, HL : GoEthereumLaws, HR : !CreRunner, !CreRunnerLaws}.
Context (order : gmap Z string → list (Z * string)).

(** A file either registers nothing, or decodes to a valid, typed configuration
    for which the workflow is initialised. *)
Lemma registered_cases file :
  (∃ e, registered cre_ParseJSON (InitWorkflow order) file = Err e) ∨
  ∃ cfg hs, registered cre_ParseJSON (InitWorkflow order) file = Ok (Some cfg, hs) ∧
    unmarshalConfig file = Some cfg ∧ TypedConfig cfg ∧ ValidConfig cfg ∧
    InitWorkflow order (Some cfg) = Ok hs.
Proof.
  unfold registered. pose proof (parse_no_crash file) as Hnc.
  destruct (cre_ParseJSON file) as [c|e|] eqn:Hp; [|by left; exists e|done].
  apply parse_ok in Hp as (cfg & -> & Hcfg). cbn [mbind res_bind].
  pose proof (InitWorkflow_no_crash cfg order) as Hi.
  destruct (InitWorkflow order (Some cfg)) as [hs|e|] eqn:Hinit; [|by left; exists e|done].
  right. exists cfg, hs. split_and!; try done; [by eapply unmarshalConfig_typed|].
  by eapply InitWorkflow_valid.
Qed.

(** What a run of the module may do, given the file it was deployed with. *)
Definition module_outcome (file : bytes) (t : list (step (cre_eff offchain.fetchResult)))
    (r : res ExecutionResult) : Prop :=
  idle t r ∨
  ∃ cfg, unmarshalConfig file = Some cfg ∧ ValidConfig cfg ∧ TypedConfig cfg ∧
    guarded_outcome cfg t r.

(** C14: the safety of the deployed module: for every configuration file, even
    one that is not JSON or has values outside the widths of their fields, the
    subscription phase does not panic and subscribes only to the at most ten
    triggers of a valid decoded configuration; and whatever trigger, known or
    not, and payload the runtime then delivers, the run is idle (an error or a
    no-op, nothing signed or written), or it has first read a snapshot of the
    vaults of the decoded configuration, made of the answers in its own trace, with
    none paused or in recovery, and then made one submission at its time. *)
Theorem main_safe o file k payload (HO : respects workflow_host o) :
  let run := run o [] (execute (main order) file k payload) in
  subscribe (main order) file ≠ Crash ∧
  (∀ ts, subscribe (main order) file = Ok ts →
     ∃ cfg, unmarshalConfig file = Some cfg ∧ ValidConfig cfg ∧
       length ts = (length (Evms cfg) + 2)%nat ∧ (length ts ≤ 10)%nat) ∧
  module_outcome file run.1 run.2.
Proof.
  cbv zeta. unfold main.
  destruct (registered_cases file) as [[e He]|(cfg & hs & Hreg & Hcfg & HTy & HV & Hinit)].
  - destruct (subscribe_err _ _ _ _ He) as [e1 ->].
    destruct (execute_err _ _ _ k payload _ He) as [e2 ->].
    split; [done|]. split; [done|]. left. by split_and!.
  - rewrite (subscribe_ok _ _ _ _ _ Hreg). split; [done|]. split.
    + intros ts [= <-]. exists cfg. rewrite length_fmap.
      destruct (InitWorkflow_length _ _ _ Hinit) as [Hlen Hmax]. by split_and!.
    + destruct (hs !! k) as [hd|] eqn:Hk.
      * rewrite (execute_ok _ _ _ _ _ _ _ _ Hreg Hk). right. exists cfg. split_and!; try done.
        eapply registered_guarded; [done..|]. by eapply list_elem_of_lookup_2.
      * destruct (execute_unknown _ _ _ _ _ _ payload Hreg Hk) as [e ->]. left. by split_and!.
Qed.
End Main.

(** ** The deployed configurations on a computable runner *)
Module SampleMain.
#[local] Existing Instance ascii_unicode.
#[local] Existing Instance SampleState.ethereum.
#[local] Existing Instance SampleState.sample_ethereum_laws.

Definition parse (file : bytes) : res (option Config) :=
  match unmarshalConfig file with
  | Some cfg => Ok (Some cfg)
  | None => Err json_syntax
  end.

Definition run_module (parse : bytes → res (option Config))
    (init : option Config → res (list Handler)) : wasm_module := {|
  subscribe file :=
    match registered parse init file with
    | Ok (_, hs) => Ok (trigger <$> hs)
    | Err e => Err e
    | Crash => Crash
    end;
  execute file k payload :=
    match registered parse init file with
    | Ok (Some cfg, hs) =>
        match hs !! k with
        | Some hd => callback hd cfg payload
        | None => Throw (Errorf "unknown trigger" [])
        end
    | Ok (None, _) => Throw (Errorf "no configuration" [])
    | Err e => Throw e
    | Crash => Throw (Errorf "initialisation panicked" [])
    end |}.

#[local] Instance runner : CreRunner := {|
  cre_ParseJSON := parse;
  wasm_Runner := bytes → res (option Config);
  wasm_NewRunner p := p;
  wasm_Run := run_module |}.

Ltac runner_step := cbn [subscribe execute wasm_Run wasm_NewRunner runner run_module].

#[local] Instance runner_laws : CreRunnerLaws.
Proof.
  split.
  - intros file c. cbn [cre_ParseJSON runner]. unfold parse. split.
    + destruct (unmarshalConfig file) as [cfg|]; [|done]. intros [= <-]. by exists cfg.
    + by intros (cfg & -> & ->).
  - intros file. cbn [cre_ParseJSON runner]. unfold parse. by destruct (unmarshalConfig file).
  - intros p init file c hs Hr. runner_step. by rewrite Hr.
  - intros p init file e Hr. runner_step. rewrite Hr. by exists e.
  - intros p init file cfg hs k hd payload Hr Hk. runner_step. by rewrite Hr, Hk.
  - intros p init file [cfg|] hs k payload Hr Hk; runner_step; rewrite Hr; [rewrite Hk|]; by eexists.
  - intros p init file k payload e Hr. runner_step. rewrite Hr. by eexists.
Qed.

(** Both deployed files are valid, and are subscribed to the two schedules and
    six vaults. *)
Example deployed_valid :
  (ValidateConfig (Some production), ValidateConfig (Some staging)) = (Ok tt, Ok tt).
Proof. vm_compute. reflexivity. Qed.

Example production_schedules :
  match subscribe (main map_to_list) config_production with
  | Ok ts => (length ts, take 2 ts)
  | _ => (O, [])
  end = (8%nat, [cron_Trigger "0 0 12 * * 3"; cron_Trigger "0 0 18 * * *"]).
Proof. vm_compute. reflexivity. Qed.

(** The same document cut short registers nothing. *)
Example truncated_rejected :
  is_Ok (subscribe (main map_to_list) (take 500 config_production)) = false.
Proof. vm_compute. reflexivity. Qed.

Lemma main_safe_witness :
  is_Ok (subscribe (main map_to_list) config_production) = true ∧
  module_outcome config_production
    (run SampleRebalance.host [] (execute (main map_to_list) config_production 0 CronPayload)).1
    (run SampleRebalance.host [] (execute (main map_to_list) config_production 0 CronPayload)).2.
Proof.
  split; [vm_compute; reflexivity|].
  apply (main_safe map_to_list SampleRebalance.host config_production 0 CronPayload
    SampleWorkflow.host_workflow).
Defined.
End SampleMain.
